(* ===== verification/_CoqProject ===== *)
-Q . S2P
Prelude.v
Methods.v
Effects.v
HostInfo.v
RWMap.v
RWQueue.v
CacheMap.v
SlidingCache.v
ExpirationCache.v
Properties.v
Regex.v
RdsUtils.v
Dsn.v
HostSelectors.v
Dialects.v
DriverDialects.v
TopologyUtils.v
HostListProviders.v
TopologyMonitor.v
Regions.v
SqlMethods.v
SessionState.v
PluginManager.v
SimplePlugins.v
EfmMonitor.v
PluginService.v
EfmPlugin.v
ConnectionTracker.v
DefaultPlugin.v
FailoverPlugin.v
GdbFailover.v
ReadWriteSplitting.v
GdbReadWriteSplitting.v
Driver.v
InitialConnection.v
Events.v
Storage.v
MonitorService.v
CoreServices.v
Limitless.v
InternalPool.v
CustomEndpoint.v
BgTypes.v
BgInterim.v
BgMonitor.v
BgProvider.v
BgPlugin.v
