(* ===== verification/Prelude.v ===== *)
(** * The AWS Advanced Go Wrapper, verified

    The wrapper stands between database/sql and a target driver (go-sql-driver
    or pgx). Every call of a connection goes through a chain of plugins that
    may answer it, retry it, or send it to another host of the cluster. This
    library models the Go code under awssql/, mysql-driver/, pgx-driver/ and
    custom-endpoint/ and proves what its parts promise each other.

    ** How the program is put together

    The objects database/sql sees (Driver.v) hand each of their methods to the
    plugins. A connection has a plugin manager (PluginManager.v), which builds a chain
    of plugins for every method and runs it, and a plugin service
    (PluginService.v), which keeps the connection in use, its host, the list of
    hosts with their availability and the session state (SessionState.v). The
    chain ends in the default plugin (DefaultPlugin.v), which calls the
    connection providers and through them the target driver; one of them keeps
    pools of connections (InternalPool.v). Hosts come from a
    host list provider (HostListProviders.v), which asks the monitor of the
    cluster topology (TopologyMonitor.v), which reads the rows of the queries
    of the dialect (TopologyUtils.v, Dialects.v). Monitors, events and stored
    data are shared by all connections (Events.v, Storage.v, MonitorService.v,
    joined in CoreServices.v): a read of stored data publishes an event, the
    tick of the publisher hands it to the monitor manager, and the manager
    extends the monitor that produces the data. The plugins on top of this are
    failover, global failover, read/write splitting, blue/green deployments,
    host monitoring, connection tracking, custom endpoints and smaller ones.

    ** Files, in the order they build on each other

    Foundations
    - Prelude.v (this file): errors and [Result], machine integers, Go's
      strings, strconv, slices and maps, the order of [range] as a class.
    - Effects.v: [St] and [Eff], state passing with and without errors, and the
      rules the proofs use ([spec_...], [eff_...]).
    - Methods.v: the names of the methods (utils/method_helper.go).
    - HostInfo.v: host_info_util/: the host, its builder, lists of hosts.

    Containers and caches (awssql/utils/)
    - RWMap.v, RWQueue.v: rw_map.go and rw_queue.go. A value that leaves a map
      with a disposal function is disposed of exactly once.
    - CacheMap.v: cache_map.go, refined to a map of the entries that live.
    - SlidingCache.v, ExpirationCache.v: the two caches with disposal, with the
      turn of the clean-up routine.

    Names, properties and connection strings
    - Regex.v: leftmost-first matching, for the patterns of rds_utils.go.
    - RdsUtils.v: rds_utils.go: the classification of a host name and the memo
      of its matches. Regions.v: region_util/.
    - Properties.v: property_util/aws_wrapper_property.go. Dsn.v: dsn_parser.go,
      mask_helper.go and [PrepareDsn] of both drivers, with the round trips.

    Databases
    - Dialects.v: the ten database dialects and the dialect manager.
    - DriverDialects.v: the two driver dialects, their error handlers and
      property resolvers. SqlMethods.v: statements and transaction keywords.
    - TopologyUtils.v: rows to topologies: one writer, first, the newest record
      of each host. TopologyMonitor.v: cluster_topology_monitor.go as a
      transition system of its main routine, the routine per host, the callers
      of a forced refresh and the reset event. HostListProviders.v: the
      providers of clusters, of global databases and of static DSNs.

    The core of a connection
    - HostSelectors.v: the four strategies. SessionState.v: what a session set
      and how it is replayed on another connection.
    - PluginManager.v: chains and their order, with the builder of the chains.
    - PluginService.v, DefaultPlugin.v, SimplePlugins.v: the service, the end
      of the chain with the connection providers, the base plugin and the
      plugins that measure times or simulate errors.
    - Driver.v: opening a connection, and the connection, statements, rows,
      results and transactions of database/sql. InternalPool.v: the pool of
      connections to one host as threads between locks, and its provider.

    Plugins
    - FailoverPlugin.v: failover_plugin.go with the stale DNS helper.
      GdbFailover.v: its handler for global databases.
    - ReadWriteSplitting.v, GdbReadWriteSplitting.v: the plugin against the
      promise [OpensWriter] of a strategy, and the strategies that keep it.
    - InitialConnection.v: the strategy for the first connection of a cluster.
    - ConnectionTracker.v: closing the connections of a former writer.
    - EfmMonitor.v, EfmPlugin.v: plugins/efm/: the two routines of the monitor
      of a host, step by step, with the callers, the collector of weak
      pointers and the switches of connections in between; the service and
      plugin that have calls monitored.
    - CustomEndpoint.v: custom-endpoint/: the description of an endpoint, its
      monitor, and the plugin that waits for a description.
    - Limitless.v: plugins/limitless/: routers of a shard group.
    - BgTypes.v, BgInterim.v, BgMonitor.v, BgProvider.v, BgPlugin.v:
      plugins/bg/: the phases of a switchover, what a monitor reports, its
      loop, the state machine of a deployment, and connects and calls during
      the switchover.

    Shared services (awssql/services/)
    - Events.v, Storage.v, MonitorService.v, CoreServices.v.

    ** How code becomes definitions

    A definition has the name of the function it translates and follows its
    statements, guards and early returns. A struct is a record, a Go map a
    [gmap], a pointer to a shared object that is assigned in place a location
    of a heap (hosts in PluginService.v, subscriber sets in Events.v, statuses
    in the blue/green files). An error is the key and the arguments of its
    message; a nil dereference or a closed channel is [Panic].
    - Time. A reading of the clock is an argument, or a field of the state that
      a tick function moves; [time.Time] and [time.Duration] are nanoseconds.
    - Order of maps. The class [MapRange] gives the order in which [range]
      visits a map, a permutation of its entries that may change from one loop
      to the next; theorems hold for every instance.
    - Fuel. Loops without a structural measure take fuel and give [Ok None]
      (or [OutOfFuel]) when it is used up. The termination theorems bound it:
      for failover the time-out in nanoseconds and three rounds more, for
      global failover the time-out and two more, for a suspended call of a
      switchover its time-out. Their hypothesis is a clock that moves on at
      each reading.
    - Closures and pointers that are kept: the plugin manager stores a chain as
      its kind and the numbers of its plugins; connections of weak pointers are
      variables that may be collected.
    - Goroutines. TopologyMonitor.v, EfmMonitor.v, InternalPool.v,
      CustomEndpoint.v, Events.v, MonitorService.v and CoreServices.v run the steps of several goroutines in any order: an
      action is one step of one of them, and the invariants hold after every
      sequence of actions. Where the code holds a lock for a whole operation
      the operation is one step; what no common lock covers is one step each.
    - Code outside the repository (the drivers, net, net/url, the AWS SDK) is a
      parameter or a class of operations.

    ** What the theorems show

    - Safety of the plugins: a writer failover that reports success uses a
      connection that said it is the writer; a reader failover and a global
      failover return what their mode allows; read/write splitting in
      read-write mode ends at a writer and closes no connection in use; global
      splitting stays in the home region; connects to green and to blue are
      held, sent or refused as the phase of the switchover asks; a host
      monitor aborts only calls that are overdue and that it held at a moment
      when it found the host unhealthy.
    - Invariants: monitors are stopped once, none is lost; a topology has one
      writer; the state of a provider stays as initialized; a switchover counts
      as completed only when DNS has settled; active calls stay monitored; the
      open connections of a pool are those it can account for; the hosts
      registered for a custom endpoint are those of its description.
    - Refinement and equivalence: caches refine maps with expiry, storage
      returns the last write, publishing reaches the set of subscribers, the
      health of a host is a function of its last failures in a row.
    - Termination, round trips (DSN, session statements, time-outs), bounds
      (the delay of the topology routines) and totality of the parsers.
    - What the code does not do as it means to is stated as a theorem or an
      example of its file: candidates forgotten by a shared slice, monitors
      that never recover from refused logins, weak pointers cleared at once,
      calls lost when a queue is swapped, a pool that
      keeps its mutex, a session that is not recorded for prepared statements,
      an endpoint monitor that does not sleep.

    ** Not modelled

    Telemetry (utils/telemetry, otlp/, xray/), log lines and message texts have
    no effect on the state. The credential plugins (iam/, aws-secrets-manager/,
    federated-auth/, okta/, auth-helpers/) mostly call the AWS SDK and HTTP.
    Of services/ the parts of container.go and factory.go that wire objects
    together, and the partial plugin service the monitors get, are left out:
    the classes of operations take their place. Locks are not states of the
    models but for the pool, where they are what the theorems are about.

    ** This file

    - errors as values ([go_error], [Result] with its monad notation in
      [go_scope]), 64-bit wrap-around ([wrap64], [wrapu64]), [time.Time] and
      [time.Duration] as nanoseconds in [Z];
    - the functions of [strings] and [strconv] the program calls, on byte
      strings ([ToLower], [EqualFold], [HasPrefix], [Split], [TrimSpace], ...);
    - [slices.SortFunc] as the insertion sort Go runs on short slices;
    - Go maps as [gmap], with the unspecified order of [range] over a map as
      the class [MapRange];
    - values held by a map ([vals]) and the conservation lemmas the caches use;
    - reflexive transitive closure of a step relation ([steps]). *)

From stdpp Require Export gmap strings list pretty fin_maps fin_map_dom sorting.
From Stdlib Require Export ZArith Lia.
From Stdlib Require Import Ascii.

Open Scope Z_scope.

Declare Scope go_scope.
Delimit Scope go_scope with go.

(** ** Errors (error_util/errors.go, error_util/aws_wrapper_messages.go)

    A message is the key given to [GetMessage] with its arguments; the text of
    the resource file is not modelled. *)

Inductive AwsWrapperErrorType :=
| GenericAwsWrapperErrorType
| UnsupportedStrategyErrorType
| UnsupportedMethodErrorType
| IllegalArgumentErrorType
| LoginErrorType
| InternalQueryTimeoutErrorType
| UnavailableHostErrorType
| DsnParsingErrorType
| TimeoutErrorType
| FailoverSuccessErrorType
| FailoverFailedErrorType
| TransactionResolutionUnknownErrorType.

#[export] Instance AwsWrapperErrorType_eq_dec : EqDecision AwsWrapperErrorType.
Proof. solve_decision. Defined.

(** The number of a type; [IsFailoverErrorType] compares it with 300. *)
Definition errorTypeValue (t : AwsWrapperErrorType) : Z :=
  match t with
  | GenericAwsWrapperErrorType => 0
  | UnsupportedStrategyErrorType => 1
  | UnsupportedMethodErrorType => 2
  | IllegalArgumentErrorType => 3
  | LoginErrorType => 4
  | InternalQueryTimeoutErrorType => 5
  | UnavailableHostErrorType => 6
  | DsnParsingErrorType => 7
  | TimeoutErrorType => 8
  | FailoverSuccessErrorType => 300
  | FailoverFailedErrorType => 301
  | TransactionResolutionUnknownErrorType => 302
  end.

Inductive go_error :=
| AwsError (t : AwsWrapperErrorType) (key : string) (args : list string)
| PlainError (key : string) (args : list string).

#[export] Instance go_error_eq_dec : EqDecision go_error.
Proof. solve_decision. Defined.

Definition NewGenericAwsWrapperError (key : string) (args : list string) : go_error :=
  AwsError GenericAwsWrapperErrorType key args.
Definition NewIllegalArgumentError (key : string) (args : list string) : go_error :=
  AwsError IllegalArgumentErrorType key args.

Definition IsType (e : go_error) (t : AwsWrapperErrorType) : bool :=
  match e with
  | AwsError t' _ _ => bool_decide (t' = t)
  | PlainError _ _ => false
  end.

Definition IsFailoverErrorType (t : AwsWrapperErrorType) : bool := 300 <=? errorTypeValue t.

(** A Go function that returns [(T, error)]: a value or an error; [Panic] is a
    run-time panic, which no caller in the program recovers from. *)
Inductive Result (A : Type) :=
| Ok (a : A)
| Err (e : go_error)
| Panic.
Arguments Ok {A} _.
Arguments Err {A} _.
Arguments Panic {A}.

#[export] Instance Result_ret : MRet Result := fun A a => Ok a.
#[export] Instance Result_bind : MBind Result :=
  fun A B f r => match r with Ok a => f a | Err e => Err e | Panic => Panic end.

Notation "'try' x := c 'in' k" := (mbind (M := Result) (fun x => k) c)
  (at level 10, x pattern, c at level 100, k at level 200) : go_scope.

Definition is_ok {A} (r : Result A) : bool := match r with Ok _ => true | _ => false end.

(** ** Machine integers: Go's [int] (64-bit) and [uint64] *)

Definition two64 : Z := 18446744073709551616.
Definition max_int64 : Z := 9223372036854775807.
Definition wrap64 (z : Z) : Z := (z + 9223372036854775808) mod two64 - 9223372036854775808.
Definition wrapu64 (z : Z) : Z := z mod two64.

Lemma wrap64_id z : - 9223372036854775808 <= z <= max_int64 -> wrap64 z = z.
Proof. unfold wrap64, two64, max_int64. intros ?. rewrite Z.mod_small; lia. Qed.

Lemma wrapu64_range z : 0 <= wrapu64 z < two64.
Proof. unfold wrapu64, two64. apply Z.mod_pos_bound. lia. Qed.

(** ** Time: [time.Time] and [time.Duration] in nanoseconds *)

Definition Millisecond : Z := 1000000.
Definition Second : Z := 1000000000.
Definition Minute : Z := 60000000000.

(** The zero [time.Time{}] is far before any reading of the clock. *)
Definition zero_time : Z := 0.

(** ** Strings *)

Fixpoint string_map (f : ascii -> ascii) (s : string) : string :=
  match s with
  | EmptyString => EmptyString
  | String c r => String (f c) (string_map f r)
  end.

Definition lower_ascii (c : ascii) : ascii :=
  let n := N_of_ascii c in
  if (65 <=? n)%N && (n <=? 90)%N then ascii_of_N (n + 32) else c.
Definition upper_ascii (c : ascii) : ascii :=
  let n := N_of_ascii c in
  if (97 <=? n)%N && (n <=? 122)%N then ascii_of_N (n - 32) else c.

(** [strings.ToLower], [strings.ToUpper] and [strings.EqualFold] on ASCII. *)
Definition ToLower : string -> string := string_map lower_ascii.
Definition ToUpper : string -> string := string_map upper_ascii.
Definition EqualFold (s t : string) : bool := bool_decide (ToLower s = ToLower t).

(** [strings.HasPrefix], and the rest of the string after the prefix. *)
Fixpoint CutPrefix (p s : string) : option string :=
  match p, s with
  | EmptyString, _ => Some s
  | String a p', String b s' => if decide (a = b) then CutPrefix p' s' else None
  | String _ _, EmptyString => None
  end.
Definition HasPrefix (s p : string) : bool := bool_decide (is_Some (CutPrefix p s)).
Definition TrimPrefix (s p : string) : string := default s (CutPrefix p s).

(** [strings.Contains] and [strings.Index] on a one-character pattern. *)
Fixpoint IndexByte (s : string) (c : ascii) : option nat :=
  match s with
  | EmptyString => None
  | String a r => if decide (a = c) then Some 0%nat else S <$> IndexByte r c
  end.

Fixpoint take_string (n : nat) (s : string) : string :=
  match n, s with
  | S m, String a r => String a (take_string m r)
  | _, _ => EmptyString
  end.
Fixpoint drop_string (n : nat) (s : string) : string :=
  match n, s with
  | S m, String _ r => drop_string m r
  | _, _ => s
  end.

(** [strings.Split] on a one-character separator. *)
Fixpoint Split (s : string) (sep : ascii) : list string :=
  match s with
  | EmptyString => [EmptyString]
  | String a r =>
      if decide (a = sep) then EmptyString :: Split r sep
      else match Split r sep with
           | [] => [String a EmptyString]
           | w :: ws => String a w :: ws
           end
  end.

(** [strings.Replace(s, old, new, 1)]: the first occurrence of [old]. *)
Fixpoint ReplaceFirst (s old new : string) : string :=
  match CutPrefix old s with
  | Some r => new +:+ r
  | None => match s with
            | EmptyString => EmptyString
            | String a r => String a (ReplaceFirst r old new)
            end
  end.

(** [strings.TrimSpace] on ASCII: space, \t, \n, \v, \f, \r. *)
Definition is_space (c : ascii) : bool :=
  let n := N_of_ascii c in (n =? 32)%N || ((9 <=? n)%N && (n <=? 13)%N).
Fixpoint trim_left (s : string) : string :=
  match s with
  | String a r => if is_space a then trim_left r else s
  | EmptyString => EmptyString
  end.
Fixpoint trim_right (s : string) : string :=
  match s with
  | EmptyString => EmptyString
  | String a r => match trim_right r with
                  | EmptyString => if is_space a then EmptyString else String a EmptyString
                  | r' => String a r'
                  end
  end.
Definition TrimSpace (s : string) : string := trim_right (trim_left s).

Fixpoint Join (l : list string) (sep : string) : string :=
  match l with
  | [] => EmptyString
  | [x] => x
  | x :: r => x +:+ sep +:+ Join r sep
  end.

(** [strconv.Itoa], [strconv.FormatBool], [strconv.Atoi] on a string of
    digits ([None] is the range or syntax error). *)
Definition Itoa (z : Z) : string := pretty z.
Definition FormatBool (b : bool) : string := if b then "true" else "false".

Definition digit (c : ascii) : option Z :=
  let n := N_of_ascii c in
  if (48 <=? n)%N && (n <=? 57)%N then Some (Z.of_N n - 48) else None.
Fixpoint digits_value (acc : Z) (s : string) : option Z :=
  match s with
  | EmptyString => Some acc
  | String c r => d ← digit c; digits_value (10 * acc + d) r
  end.
Definition Atoi (s : string) : option Z :=
  let sign_body :=
    match s with
    | String c r => if decide (c = "-"%char) then (-1, r)
                    else if decide (c = "+"%char) then (1, r) else (1, s)
    | EmptyString => (1, s)
    end in
  match sign_body.2 with
  | EmptyString => None
  | body => v ← digits_value 0 body;
            let z := sign_body.1 * v in
            if (- 9223372036854775808 <=? z) && (z <=? max_int64) then Some z else None
  end.

Definition string_bytes (s : string) : list Z := (fun c => Z.of_N (N_of_ascii c)) <$> String.list_ascii_of_string s.
Definition is_empty (s : string) : bool := bool_decide (s = EmptyString).

Lemma pretty_N_go_nonempty x s : s <> "" -> pretty_N_go x s <> "".
Proof.
  revert s. induction (N.lt_wf_0 x) as [x _ IH]; intros s Hs.
  assert (x = 0 \/ 0 < x)%N as [->|Hx] by lia; [by rewrite pretty_N_go_0|].
  rewrite pretty_N_go_step by done. apply IH; [by apply N.div_lt|done].
Qed.
Lemma pretty_positive_nonempty p : pretty (N.pos p) <> "".
Proof.
  unfold pretty, pretty_N. rewrite decide_False by done. rewrite pretty_N_go_step by done.
  by apply pretty_N_go_nonempty.
Qed.
Lemma Itoa_nonempty z : Itoa z <> "".
Proof. destruct z as [|p|p]; [done|apply pretty_positive_nonempty|done]. Qed.

(** What [Itoa] writes: the digits are those of [pretty_N_go], which writes
    them in front of what follows. *)
Lemma pretty_N_go_app x s t : pretty_N_go x s +:+ t = pretty_N_go x (s +:+ t).
Proof.
  revert s. induction (N.lt_wf_0 x) as [x _ IH]. intros s.
  assert (x = 0 \/ 0 < x)%N as [->|Hx] by lia; [by rewrite !pretty_N_go_0|].
  rewrite !(pretty_N_go_step x) by done. rewrite IH by (by apply N.div_lt). done.
Qed.
Lemma Itoa_digits z : 0 <= z -> Itoa z = if z =? 0 then "0" else pretty_N_go (Z.to_N z) "".
Proof. intros Hz. unfold Itoa. destruct z as [|p|p]; [done| |lia]. reflexivity. Qed.

Lemma digit_pretty_N_char n : (n < 10)%N -> digit (pretty_N_char n) = Some (Z.of_N n).
Proof.
  intros Hn. assert (H : Forall (fun n => digit (pretty_N_char n) = Some (Z.of_N n)) (N.of_nat <$> seq 0 10)).
  { repeat constructor. }
  rewrite Forall_forall in H. apply H. apply list_elem_of_fmap. exists (N.to_nat n).
  split; [by rewrite N2Nat.id|]. apply elem_of_seq. lia.
Qed.

(** hash/fnv New64a: offset basis and prime of the 64-bit FNV-1a hash. *)
Definition fnv_offset : Z := 14695981039346656037.
Definition fnv_prime : Z := 1099511628211.
Definition fnv64a (s : string) : Z :=
  foldl (fun h b => wrapu64 (Z.lxor h b * fnv_prime)) fnv_offset (string_bytes s).

Lemma CutPrefix_app p s : CutPrefix p (p +:+ s) = Some s.
Proof. induction p as [|a p IH]; [done|]. simpl. by rewrite decide_True. Qed.

Lemma CutPrefix_Some p s r : CutPrefix p s = Some r <-> s = p +:+ r.
Proof.
  split; [|intros ->; apply CutPrefix_app].
  revert s. induction p as [|a p IH]; intros s; simpl; [by intros [= ->]|].
  destruct s as [|b s]; [done|]. destruct (decide (a = b)) as [->|]; [|done].
  intros ->%IH. done.
Qed.

Lemma lower_ascii_idem c : lower_ascii (lower_ascii c) = lower_ascii c.
Proof. destruct c as [[] [] [] [] [] [] [] []]; reflexivity. Qed.

Lemma ToLower_idem s : ToLower (ToLower s) = ToLower s.
Proof. unfold ToLower. induction s as [|c s IH]; simpl; [done|]. by rewrite lower_ascii_idem, IH. Qed.

Lemma EqualFold_refl s : EqualFold s s = true.
Proof. unfold EqualFold. by apply bool_decide_eq_true. Qed.

Lemma string_app_nil_r (s : string) : s +:+ EmptyString = s.
Proof. induction s as [|c s IH]; [done|]. exact (f_equal (String c) IH). Qed.

Lemma string_app_assoc (a b c : string) : (a +:+ b) +:+ c = a +:+ (b +:+ c).
Proof. induction a as [|x a IH]; [done|]. exact (f_equal (String x) IH). Qed.

(** ** Sorting: [slices.SortFunc] and [sort.Strings]

    Go sorts a slice of at most twelve elements by insertion sort; longer
    slices go through pdqsort, which returns a permutation sorted by the
    comparison as well but does not fix the order of equal elements. *)

Section sort.
Context {A : Type} (key : A -> string).

Fixpoint insert_by (x : A) (l : list A) : list A :=
  match l with
  | [] => [x]
  | y :: r => if String.leb (key y) (key x) then y :: insert_by x r else x :: l
  end.
Definition sort_by (l : list A) : list A := foldl (fun acc x => insert_by x acc) [] l.

Definition key_le (x y : A) : Prop := String.le (key x) (key y).

Lemma insert_by_perm x l : insert_by x l ≡ₚ x :: l.
Proof.
  induction l as [|y l IH]; simpl; [done|].
  destruct (String.leb _ _); [rewrite IH; constructor|done].
Qed.

Lemma foldl_insert_by_perm l acc : foldl (fun acc x => insert_by x acc) acc l ≡ₚ l ++ acc.
Proof.
  revert acc. induction l as [|x l IH]; intros acc; simpl; [done|].
  by rewrite IH, insert_by_perm, Permutation_middle.
Qed.

Lemma sort_by_perm l : sort_by l ≡ₚ l.
Proof. unfold sort_by. by rewrite foldl_insert_by_perm, app_nil_r. Qed.

Lemma insert_by_hd x y l : key_le y x -> HdRel key_le y l -> HdRel key_le y (insert_by x l).
Proof. destruct l as [|z l]; simpl; [by constructor|]. intros ? H. inversion H. destruct (String.leb _ _); by constructor. Qed.

Lemma insert_by_sorted x l : Sorted key_le l -> Sorted key_le (insert_by x l).
Proof.
  induction l as [|y l IH]; simpl; [by repeat constructor|]. intros Hs.
  pose proof Hs as Hs'. inversion Hs as [|? ? Hs1 Hhd]; subst.
  destruct (String.leb (key y) (key x)) eqn:E.
  - constructor; [by apply IH|]. apply insert_by_hd; [|done]. unfold key_le, String.le. by rewrite E.
  - constructor; [done|]. constructor. unfold key_le, String.le.
    destruct (String.leb_total (key x) (key y)) as [->|]; [done|congruence].
Qed.

Lemma foldl_insert_by_sorted l acc :
  Sorted key_le acc -> Sorted key_le (foldl (fun acc x => insert_by x acc) acc l).
Proof. revert acc. induction l as [|x l IH]; intros acc Hs; simpl; [done|]. by apply IH, insert_by_sorted. Qed.

Lemma sort_by_sorted l : Sorted key_le (sort_by l).
Proof. apply foldl_insert_by_sorted. constructor. Qed.

Lemma elem_of_sort_by x l : x ∈ sort_by l <-> x ∈ l.
Proof. by rewrite sort_by_perm. Qed.
Lemma length_sort_by l : length (sort_by l) = length l.
Proof. by rewrite sort_by_perm. Qed.
End sort.

Definition sort_strings : list string -> list string := sort_by id.

#[export] Instance key_le_trans {A} (key : A -> string) : Transitive (key_le key).
Proof. intros x y z. unfold key_le. apply transitivity. Qed.

Lemma sorted_perm_eq {A} (key : A -> string) (l1 l2 : list A) :
  (forall x y, x ∈ l1 -> y ∈ l1 -> key x = key y -> x = y) ->
  Sorted (key_le key) l1 -> Sorted (key_le key) l2 -> l1 ≡ₚ l2 -> l1 = l2.
Proof.
  intros Hinj H1%Sorted_StronglySorted H2%Sorted_StronglySorted Hp; try apply _.
  revert l2 H2 Hp Hinj. induction H1 as [|x l1 Hs IH Hall]; intros l2 H2 Hp Hinj.
  { by apply Permutation_nil_l in Hp. }
  destruct l2 as [|y l2]; [by apply Permutation_nil_r in Hp|].
  assert (x = y) as ->.
  { assert (Hx : x ∈ y :: l2) by (rewrite <-Hp; set_solver).
    assert (Hy : y ∈ x :: l1) by (rewrite Hp; set_solver).
    apply elem_of_cons in Hx as [?|Hx]; [done|]. apply elem_of_cons in Hy as [?|Hy]; [done|].
    apply Hinj; [set_solver..|].
    inversion H2 as [|? ? ? Hall2]; subst. rewrite Forall_forall in Hall, Hall2.
    apply (anti_symm String.le); [by apply Hall|by apply Hall2]. }
  f_equal. apply Permutation_cons_inv in Hp. inversion H2; subst.
  apply IH; [done..|]. intros; apply Hinj; set_solver.
Qed.

(** ** Maps *)

(** Go leaves the order in which [range] visits a map unspecified, and two
    loops over one map may differ; the number is the loop's site. *)
Class MapRange := {
  range : forall {K : Type} `{Countable K} {A : Type}, nat -> gmap K A -> list (K * A);
  range_perm : forall {K : Type} `{Countable K} {A : Type} n (m : gmap K A), range n m ≡ₚ map_to_list m
}.

#[export] Instance default_range : MapRange | 100 := {
  range := fun K _ _ A _ m => map_to_list m;
  range_perm := fun K _ _ A _ m => Permutation_refl _
}.

Lemma elem_of_range `{MapRange} `{Countable K} {A} n (m : gmap K A) k x :
  (k, x) ∈ range n m <-> m !! k = Some x.
Proof. by rewrite range_perm, elem_of_map_to_list. Qed.

(** The values a map holds. *)
Definition vals {K} `{Countable K} {V} (m : gmap K V) : list V := (map_to_list m).*2.

Section vals.
Context {K : Type} `{Countable K} {V : Type}.
Implicit Types m : gmap K V.

Lemma vals_empty : vals (∅ : gmap K V) = [].
Proof. unfold vals. by rewrite map_to_list_empty. Qed.

Lemma vals_insert_None m k v : m !! k = None -> vals (<[k:=v]> m) ≡ₚ v :: vals m.
Proof. intros Hk. unfold vals. by rewrite map_to_list_insert. Qed.

Lemma vals_delete m k v : m !! k = Some v -> vals m ≡ₚ v :: vals (delete k m).
Proof. intros Hk. unfold vals. by rewrite <-map_to_list_delete by done. Qed.

Lemma vals_insert m k v :
  from_option (fun x => [x]) [] (m !! k) ++ vals (<[k:=v]> m) ≡ₚ v :: vals m.
Proof.
  destruct (m !! k) as [x|] eqn:E; simpl; [|by apply vals_insert_None].
  rewrite (vals_delete m k x) by done. rewrite <-insert_delete_eq.
  rewrite vals_insert_None by apply lookup_delete_eq. constructor.
Qed.

Lemma map_to_list_filter m (P : K * V -> Prop) `{!forall x, Decision (P x)} :
  map_to_list (filter P m) ≡ₚ filter P (map_to_list m).
Proof.
  apply NoDup_Permutation; [apply NoDup_map_to_list|apply NoDup_filter, NoDup_map_to_list|].
  intros [k x]. rewrite list_elem_of_filter, !elem_of_map_to_list, map_lookup_filter_Some. tauto.
Qed.

Lemma vals_range `{MapRange} n m : (range n m).*2 ≡ₚ vals m.
Proof. unfold vals. by rewrite range_perm. Qed.

Lemma vals_filter m (P : K * V -> Prop) `{!forall x, Decision (P x)} :
  vals m ≡ₚ vals (filter (fun x => ¬ P x) m) ++ vals (filter P m).
Proof.
  induction m as [|k v m Hk IH] using map_ind.
  { by rewrite !map_filter_empty, !vals_empty. }
  rewrite vals_insert_None by done. rewrite !map_filter_insert. rewrite IH.
  destruct (decide (P (k, v))); destruct (decide (¬ P (k, v))); try done.
  - rewrite (vals_insert_None (filter P m)) by (apply map_lookup_filter_None; auto).
    rewrite delete_id by done. by rewrite Permutation_middle.
  - rewrite vals_insert_None by (apply map_lookup_filter_None; auto).
    by rewrite delete_id by done.
Qed.

(** What one update leaves, what it drops, and what it started from. *)
Lemma insert_drops m k v x : m !! k = Some x -> vals (<[k:=v]> m) ++ [x] ≡ₚ [v] ++ vals m.
Proof. intros Hk. rewrite Permutation_app_comm. pose proof (vals_insert m k v) as Hv. by rewrite Hk in Hv. Qed.

Lemma delete_drops m k x : m !! k = Some x -> vals (delete k m) ++ [x] ≡ₚ vals m.
Proof. intros Hk. by rewrite Permutation_app_comm, (vals_delete m k x). Qed.

Lemma filter_drops `{MapRange} n m (P : K * V -> Prop) `{!forall x, Decision (P x)} :
  vals (filter (fun e => ¬ P e) m) ++ (filter P (range n m)).*2 ≡ₚ vals m.
Proof. rewrite (vals_filter m P). f_equiv. unfold vals. by rewrite range_perm, map_to_list_filter. Qed.
End vals.

Lemma perm_tail {V} (a d i b l : list V) : a ++ d ≡ₚ i ++ b -> a ++ l ++ d ≡ₚ i ++ b ++ l.
Proof. intros H. rewrite (Permutation_app_comm l), (assoc_L (++)), H. by rewrite <-(assoc_L (++)). Qed.


(** ** Stores that dispose of their values

    [live] are the values a store still holds and [disposed] the arguments of
    the calls of its disposal function, in order. A step that receives the
    values [ins] conserves them when each value the store ever received is
    held or was disposed of, once. *)

Class DisposingStore (S V : Type) := { live : S -> list V; disposed : S -> list V }.

Definition conserves {S V} `{DisposingStore S V} (ins : list V) (s s' : S) : Prop :=
  live s' ++ disposed s' ≡ₚ ins ++ live s ++ disposed s.

Section conserves.
Context {S V Op : Type} `{DisposingStore S V}.
Context (step : Op -> S -> S) (ins : Op -> S -> list V).

Fixpoint run_ops (ops : list Op) (s : S) : S :=
  match ops with [] => s | o :: r => run_ops r (step o s) end.
Fixpoint run_ins (ops : list Op) (s : S) : list V :=
  match ops with [] => [] | o :: r => ins o s ++ run_ins r (step o s) end.

Lemma conserves_refl s : conserves [] s s.
Proof. by unfold conserves. Qed.

Lemma conserves_trans i1 i2 s1 s2 s3 :
  conserves i1 s1 s2 -> conserves i2 s2 s3 -> conserves (i1 ++ i2) s1 s3.
Proof. unfold conserves. intros H1 H2. rewrite H2, H1. rewrite !(assoc_L (++)). by rewrite (Permutation_app_comm i2 i1). Qed.

Lemma run_invariant (P : S -> Prop) :
  (forall o s, P s -> P (step o s)) -> forall ops s, P s -> P (run_ops ops s).
Proof. intros Hstep ops. induction ops; simpl; auto. Qed.

Lemma run_conserves (P : S -> Prop) :
  (forall o s, P s -> P (step o s)) ->
  (forall o s, P s -> conserves (ins o s) s (step o s)) ->
  forall ops s, P s -> conserves (run_ins ops s) s (run_ops ops s).
Proof.
  intros HP Hstep ops. induction ops as [|o ops IH]; intros s Hs; simpl; [apply conserves_refl|].
  eapply conserves_trans; [by apply Hstep|by apply IH, HP].
Qed.
End conserves.

(** ** Assignment to one field of a struct

    A record that gives its [Eta] expansion gets [r <| field := v |>] for each
    of its fields. *)

Class Eta (R : Type) := eta : R -> R.
Class Setter {R T : Type} (field : R -> T) := update_field : (T -> T) -> R -> R.

Ltac field_setter field :=
  match type of field with
  | ?R -> _ =>
      let e := eval hnf in (ltac:(typeclasses eauto) : Eta R) in
      match eval pattern field in e with
      | ?body _ => exact (fun f => body (fun r => f (field r)))
      end
  end.
#[export] Hint Extern 1 (Setter ?field) => field_setter field : typeclass_instances.

Arguments update_field {R T} field {_} _ _ /.
Notation "r <| field := v |>" := (update_field field (fun _ => v) r)
  (at level 1, left associativity, field at level 9, v at level 99, format "r <| field := v |>").

(** ** Runs of a step relation *)

Section steps.
Context {S : Type} (step : S -> S -> Prop).

Lemma rtc_invariant (P : S -> Prop) s s' :
  (forall x y, P x -> step x y -> P y) -> rtc step s s' -> P s -> P s'.
Proof. intros Hstep Hr. induction Hr; eauto. Qed.
End steps.

(** ** Lists *)

(** [utils.FilterSlice], [utils.FilterSliceFindFirst] of utils/utils.go. *)
Fixpoint FilterSlice {A} (slice : list A) (f : A -> bool) : list A :=
  match slice with
  | [] => []
  | v :: r => if f v then v :: FilterSlice r f else FilterSlice r f
  end.
Fixpoint FilterSliceFindFirst {A} (zero : A) (slice : list A) (f : A -> bool) : A :=
  match slice with
  | [] => zero
  | v :: r => if f v then v else FilterSliceFindFirst zero r f
  end.

(** [slices.IndexFunc]. *)
Fixpoint IndexFunc {A} (l : list A) (f : A -> bool) : option nat :=
  match l with
  | [] => None
  | x :: r => if f x then Some 0%nat else S <$> IndexFunc r f
  end.

Lemma elem_of_FilterSlice {A} (f : A -> bool) l x : x ∈ FilterSlice l f <-> f x = true /\ x ∈ l.
Proof.
  induction l as [|v l IH]; simpl.
  - rewrite elem_of_nil. tauto.
  - destruct (f v) eqn:E; rewrite ?elem_of_cons, IH.
    + split; [intros [->|[? ?]]|intros [? [->|?]]]; auto.
    + split; [intros [? ?]|intros [? [->|?]]]; auto; congruence.
Qed.

Lemma FilterSlice_filter {A} (f : A -> bool) l : FilterSlice l f = filter (fun x => f x = true) l.
Proof. induction l as [|v l IH]; [done|]. rewrite filter_cons. simpl. rewrite IH. by destruct (f v). Qed.

Lemma FilterSliceFindFirst_spec {A} (zero : A) f l :
  (FilterSliceFindFirst zero l f = zero /\ Forall (fun x => f x = false) l) \/
  (f (FilterSliceFindFirst zero l f) = true /\ FilterSliceFindFirst zero l f ∈ l).
Proof.
  induction l as [|v l IH]; simpl; [left; by constructor|].
  destruct (f v) eqn:E; [right; set_solver|]. destruct IH as [[? ?]|[? ?]]; [left; auto|right; set_solver].
Qed.

Lemma IndexFunc_Some {A} (f : A -> bool) l i :
  IndexFunc l f = Some i -> exists x, l !! i = Some x /\ f x = true.
Proof.
  revert i. induction l as [|x l IH]; intros i; simpl; [done|].
  destruct (f x) eqn:E; [intros [= <-]; eauto|].
  destruct (IndexFunc l f) as [j|] eqn:E'; simpl; [|done]. intros [= <-]. by apply IH.
Qed.

Lemma IndexFunc_None {A} (f : A -> bool) l x : IndexFunc l f = None -> x ∈ l -> f x = false.
Proof.
  induction l as [|y l IH]; simpl; [set_solver|]. destruct (f y) eqn:E; [done|].
  destruct (IndexFunc l f); [done|]. intros _ [->|]%elem_of_cons; auto.
Qed.

(** ** Automation *)

Create HintDb go discriminated.
#[export] Hint Resolve conserves_refl sort_by_perm sort_by_sorted elem_of_FilterSlice : go.

(** Case analysis on the boolean tests of the code. *)
Ltac case_bool :=
  match goal with
  | |- context [if ?b then _ else _] => let E := fresh "E" in destruct b eqn:E
  | H : context [if ?b then _ else _] |- _ => let E := fresh "E" in destruct b eqn:E
  end.
Ltac to_prop :=
  repeat match goal with
         | H : (_ && _)%bool = true |- _ => apply andb_true_iff in H as [? ?]
         | H : (_ || _)%bool = false |- _ => apply orb_false_iff in H as [? ?]
         | H : negb _ = true |- _ => apply negb_true_iff in H
         | H : negb _ = false |- _ => apply negb_false_iff in H
         | H : bool_decide _ = true |- _ => apply bool_decide_eq_true in H
         | H : bool_decide _ = false |- _ => apply bool_decide_eq_false in H
         | H : (_ <? _) = true |- _ => apply Z.ltb_lt in H
         | H : (_ <? _) = false |- _ => apply Z.ltb_ge in H
         | H : (_ <=? _) = true |- _ => apply Z.leb_le in H
         | H : (_ <=? _) = false |- _ => apply Z.leb_gt in H
         | H : (_ =? _) = true |- _ => apply Z.eqb_eq in H
         | H : (_ =? _) = false |- _ => apply Z.eqb_neq in H
         end.
