(* ===== verification/Methods.v ===== *)
(** * Methods: the names under which the calls of database/sql go through the
    plugins, and the lists of them the plugins share
    (awssql/utils/method_helper.go). *)

From S2P Require Import Prelude.

Definition CONN_PREPARE : string := "Conn.Prepare".
Definition CONN_PREPARE_CONTEXT : string := "Conn.PrepareContext".
Definition CONN_CLOSE : string := "Conn.Close".
Definition CONN_BEGIN : string := "Conn.Begin".
Definition CONN_BEGIN_TX : string := "Conn.BeginTx".
Definition CONN_QUERY_CONTEXT : string := "Conn.QueryContext".
Definition CONN_EXEC_CONTEXT : string := "Conn.ExecContext".
Definition CONN_PING : string := "Conn.Ping".
Definition CONN_IS_VALID : string := "Conn.IsValid".
Definition CONN_RESET_SESSION : string := "Conn.ResetSession".
Definition CONN_CHECK_NAMED_VALUE : string := "Conn.CheckNamedValue".
Definition STMT_CLOSE : string := "Stmt.Close".
Definition STMT_EXEC : string := "Stmt.Exec".
Definition STMT_EXEC_CONTEXT : string := "Stmt.ExecContext".
Definition STMT_NUM_INPUT : string := "Stmt.NumInput".
Definition STMT_QUERY : string := "Stmt.Query".
Definition STMT_QUERY_CONTEXT : string := "Stmt.QueryContext".
Definition STMT_CHECK_NAMED_VALUE : string := "Stmt.CheckNamedValue".
Definition RESULT_LAST_INSERT_ID : string := "Result.LastInsertId".
Definition RESULT_ROWS_AFFECTED : string := "Result.RowsAffected".
Definition TX_COMMIT : string := "Tx.Commit".
Definition TX_ROLLBACK : string := "Tx.Rollback".
Definition ROWS_CLOSE : string := "Rows.Close".
Definition ROWS_COLUMNS : string := "Rows.Columns".
Definition ROWS_NEXT : string := "Rows.Next".
Definition ROWS_COLUMN_TYPE_PRECISION_SCALE : string := "Rows.ColumnTypePrecisionScale".
Definition ROWS_COLUMN_TYPE_DATABASE_TYPE_NAME : string := "Rows.ColumnTypeDatabaseTypeName".
Definition ROWS_COLUMN_TYPE_LENGTH : string := "Rows.ColumnTypeLength".
Definition ROWS_HAS_NEXT_RESULT_SET : string := "Rows.HasNextResultSet".
Definition ROWS_NEXT_RESULT_SET : string := "Rows.NextResultSet".
Definition ROWS_COLUMN_TYPE_SCAN_TYPE : string := "Rows.ColumnTypeScanType".
Definition ROWS_COLUMN_TYPE_NULLABLE : string := "Rows.ColumnTypeNullable".

Definition REQUIRED_METHODS : list string :=
  [CONN_PREPARE; CONN_PREPARE_CONTEXT; CONN_CLOSE; CONN_BEGIN; CONN_BEGIN_TX; CONN_QUERY_CONTEXT;
   CONN_EXEC_CONTEXT; CONN_PING; CONN_IS_VALID; CONN_RESET_SESSION; CONN_CHECK_NAMED_VALUE; STMT_CLOSE;
   STMT_EXEC; STMT_EXEC_CONTEXT; STMT_NUM_INPUT; STMT_QUERY; STMT_QUERY_CONTEXT; STMT_CHECK_NAMED_VALUE;
   RESULT_LAST_INSERT_ID; RESULT_ROWS_AFFECTED; TX_COMMIT; TX_ROLLBACK; ROWS_CLOSE; ROWS_COLUMNS;
   ROWS_NEXT; ROWS_COLUMN_TYPE_PRECISION_SCALE; ROWS_COLUMN_TYPE_DATABASE_TYPE_NAME].

Definition NETWORK_BOUND_METHODS : list string :=
  [CONN_PREPARE; CONN_PREPARE_CONTEXT; CONN_QUERY_CONTEXT; CONN_EXEC_CONTEXT; CONN_PING; CONN_IS_VALID;
   CONN_RESET_SESSION; STMT_EXEC; STMT_EXEC_CONTEXT; STMT_QUERY; STMT_QUERY_CONTEXT; TX_COMMIT;
   TX_ROLLBACK; ROWS_NEXT; ROWS_HAS_NEXT_RESULT_SET; ROWS_NEXT_RESULT_SET].

Definition CLOSING_METHODS : list string :=
  [CONN_CLOSE; CONN_IS_VALID; STMT_CLOSE; ROWS_CLOSE].

(** A method that closes an object is always among those a dialect allows on a
    connection, and the only network-bound calls left to a dialect to allow are
    those that walk over several result sets. *)
Lemma closing_methods_required : forallb (fun m => bool_decide (m ∈ REQUIRED_METHODS)) CLOSING_METHODS = true.
Proof. reflexivity. Qed.
Lemma network_methods_required :
  filter (fun m => m ∉ REQUIRED_METHODS) NETWORK_BOUND_METHODS = [ROWS_HAS_NEXT_RESULT_SET; ROWS_NEXT_RESULT_SET].
Proof. reflexivity. Qed.
