(* ===== verification/Effects.v ===== *)
(** * Effects: stateful code as functions from a state to a state and a result.

    [St S A] is code that reads and writes [S]; with a [Result] the code can
    also return an error, which keeps the state reached so far, or panic. *)

From S2P Require Import Prelude.

Definition St (S A : Type) : Type := S -> S * A.
Definition Eff (S A : Type) : Type := St S (Result A).

Section St.
Context {S : Type}.

Definition st_ret {A} (a : A) : St S A := fun s => (s, a).
Definition st_bind {A B} (c : St S A) (k : A -> St S B) : St S B := fun s => let '(s, a) := c s in k a s.
Definition gets {A} (f : S -> A) : St S A := fun s => (s, f s).
Definition modify (f : S -> S) : St S unit := fun s => (f s, tt).

Definition eff_bind {A B} (c : Eff S A) (k : A -> Eff S B) : Eff S B := fun s =>
  match c s with
  | (s, Ok a) => k a s
  | (s, Err e) => (s, Err e)
  | (s, Panic) => (s, Panic)
  end.
Definition lift_result {A} (r : Result A) : Eff S A := fun s => (s, r).
Definition eff_ok {A} (a : A) : Eff S A := fun s => (s, Ok a).
Definition throw {A} (e : go_error) : Eff S A := fun s => (s, Err e).
Definition run {A} (c : St S A) : Eff S A := fun s => let '(s, a) := c s in (s, Ok a).
End St.

Declare Scope eff_scope.
Delimit Scope eff_scope with eff.
Notation "'let!' x := c 'in' k" := (st_bind c (fun x => k)) (at level 200, x pattern, c at level 100, k at level 200) : eff_scope.
Notation "'do!' c 'in' k" := (st_bind c (fun _ => k)) (at level 200, c at level 100, k at level 200) : eff_scope.
Notation "'try!' x := c 'in' k" := (eff_bind c (fun x => k)) (at level 200, x pattern, c at level 100, k at level 200) : eff_scope.

(** Code on a part of the state. *)
Section Zoom.
Context {S T : Type} (get : S -> T) (put : T -> S -> S).
Definition zoom {A} (c : St T A) : St S A := fun s => let '(t, a) := c (get s) in (put t s, a).
End Zoom.

(** [time.Now] as an effect: a reading of the clock may change the state. *)
Class Clock (P : Type) := clock_now : St P Z.

(** A loop over a list that stops at the first error. *)
Fixpoint each {S A} (f : A -> Eff S unit) (l : list A) : Eff S unit :=
  match l with
  | [] => eff_ok tt
  | x :: r => (try! _ := f x in each f r)%eff
  end.

Lemma eff_bind_eq {S A B} (c : Eff S A) (k : A -> Eff S B) s :
  eff_bind c k s = match c s with (s', Ok a) => k a s' | (s', Err e) => (s', Err e) | (s', Panic) => (s', Panic) end.
Proof. reflexivity. Qed.

Lemma each_app {S A} (f : A -> Eff S unit) l1 l2 s :
  each f (l1 ++ l2) s =
  match each f l1 s with (s', Ok _) => each f l2 s' | (s', Err e) => (s', Err e) | (s', Panic) => (s', Panic) end.
Proof.
  revert s. induction l1 as [|x l1 IH]; intros s; [done|]. cbn [app each]. rewrite !eff_bind_eq.
  destruct (f x s) as [s' [[]|e|]]; [|done..]. exact (IH s').
Qed.

(** What a run keeps: every result of [c] leaves a state that [P] relates to
    the one it started from. *)
Definition keeps {S A} (P : S -> S -> Prop) (c : St S A) : Prop := forall s, P s (c s).1.

Section keeps.
Context {S : Type} (P : S -> S -> Prop) `{!Reflexive P, !Transitive P}.

Lemma keeps_ret {A} (a : A) : keeps P (st_ret a).
Proof. intros s. reflexivity. Qed.
Lemma keeps_gets {A} (f : S -> A) : keeps P (gets f).
Proof. intros s. reflexivity. Qed.
Lemma keeps_lift {A} (r : Result A) : keeps P (lift_result r).
Proof. intros s. reflexivity. Qed.
Lemma keeps_ok {A} (a : A) : keeps P (eff_ok a).
Proof. intros s. reflexivity. Qed.
Lemma keeps_throw {A} e : keeps P (@throw S A e).
Proof. intros s. reflexivity. Qed.
Lemma keeps_modify f : (forall s, P s (f s)) -> keeps P (modify f).
Proof. intros Hf s. apply Hf. Qed.
Lemma keeps_run {A} (c : St S A) : keeps P c -> keeps P (run c).
Proof. intros Hc s. unfold run. specialize (Hc s). by destruct (c s). Qed.
Lemma keeps_st_bind {A B} (c : St S A) (k : A -> St S B) :
  keeps P c -> (forall a, keeps P (k a)) -> keeps P (st_bind c k).
Proof. intros Hc Hk s. unfold st_bind. specialize (Hc s). destruct (c s) as [s' a]. etransitivity; [exact Hc|apply Hk]. Qed.
Lemma keeps_eff_bind {A B} (c : Eff S A) (k : A -> Eff S B) :
  keeps P c -> (forall a, keeps P (k a)) -> keeps P (eff_bind c k).
Proof.
  intros Hc Hk s. unfold eff_bind. specialize (Hc s). destruct (c s) as [s' [a|e|]]; [|exact Hc..].
  etransitivity; [exact Hc|apply Hk].
Qed.
Lemma keeps_each {A} (f : A -> Eff S unit) l : (forall x, keeps P (f x)) -> keeps P (each f l).
Proof. intros Hf. induction l as [|x l IH]; [apply keeps_ok|]. apply keeps_eff_bind; [apply Hf|intros _; exact IH]. Qed.
End keeps.
#[export] Hint Resolve keeps_ret keeps_gets keeps_lift keeps_ok keeps_throw keeps_run keeps_st_bind keeps_eff_bind keeps_each : go.
