(* ===== verification/HostInfo.v ===== *)
(** * HostInfo: hosts and lists of hosts (awssql/host_info_util).

    [HostInfo] is the struct of host_info.go, a nil [*HostInfo] is [None].
    A Go map that is nil is [None] as well, which [IsNil] tells from an empty
    one. The builder is a state: each setter returns the updated builder. *)

From S2P Require Import Prelude.

(** ** Constants *)

Definition AVAILABLE : string := "available".
Definition UNAVAILABLE : string := "unavailable".
Definition READER : string := "reader".
Definition WRITER : string := "writer".
Definition UNKNOWN : string := "unknown".
Definition HOST_NO_PORT : Z := -1.
Definition HOST_DEFAULT_WEIGHT : Z := 100.

(** ** HostInfo *)

Record HostInfo := mkHostInfo {
  Host : string;
  HostId : string;
  Port : Z;
  Availability : string;
  Role : string;
  Aliases : option (gmap string bool);
  AllAliases : option (gmap string bool);
  Weight : Z;
  LastUpdateTime : Z
}.

#[export] Instance HostInfo_eq_dec : EqDecision HostInfo.
Proof. solve_decision. Defined.

(** Assignment to a nil map panics, so [AddAlias] on a host without maps does. *)
Definition map_assign (m : option (gmap string bool)) (k : string) : Result (option (gmap string bool)) :=
  match m with Some m => Ok (Some (<[k := true]> m)) | None => Panic end.

Definition AddAlias (hostInfo : option HostInfo) (alias : string) : Result (option HostInfo) :=
  match hostInfo with
  | Some h =>
      if is_empty alias then Ok (Some h)
      else (try al := map_assign (Aliases h) alias in
            try all := map_assign (AllAliases h) alias in
            Ok (Some {| Host := Host h; HostId := HostId h; Port := Port h; Availability := Availability h;
                        Role := Role h; Aliases := al; AllAliases := all; Weight := Weight h;
                        LastUpdateTime := LastUpdateTime h |}))%go
  | None => Ok None
  end.

Definition IsPortSpecified (hostInfo : option HostInfo) : bool :=
  match hostInfo with Some h => negb (Port h =? HOST_NO_PORT) | None => false end.

Definition GetHost (hostInfo : option HostInfo) : string :=
  match hostInfo with Some h => Host h | None => "" end.

Definition GetHostAndPort (hostInfo : option HostInfo) : string :=
  match hostInfo with
  | Some h => if IsPortSpecified (Some h) then Host h +:+ ":" +:+ Itoa (Port h) else Host h
  | None => ""
  end.

Definition GetUrl (hostInfo : option HostInfo) : string := GetHostAndPort hostInfo +:+ "/".

Definition ResetAliases (h : HostInfo) : HostInfo :=
  {| Host := Host h; HostId := HostId h; Port := Port h; Availability := Availability h; Role := Role h;
     Aliases := Some ∅; AllAliases := Some {[GetHostAndPort (Some h) := true]};
     Weight := Weight h; LastUpdateTime := LastUpdateTime h |}.

Definition Equals (a b : HostInfo) : bool :=
  bool_decide (Host a = Host b) && (Port a =? Port b) &&
  bool_decide (Availability a = Availability b) && bool_decide (Role a = Role b) &&
  (Weight a =? Weight b).

Definition IsNil (hostInfo : option HostInfo) : bool :=
  match hostInfo with
  | None => true
  | Some h =>
      is_empty (Host h) && (Port h =? 0) && bool_decide (Aliases h = None) &&
      bool_decide (AllAliases h = None) && is_empty (HostId h) && (Weight h =? 0) &&
      (LastUpdateTime h =? zero_time)
  end.

Definition MakeCopyWithRole (h : HostInfo) (role : string) : HostInfo :=
  {| Host := Host h; HostId := HostId h; Port := Port h; Availability := Availability h; Role := role;
     Aliases := Aliases h; AllAliases := AllAliases h; Weight := Weight h;
     LastUpdateTime := LastUpdateTime h |}.

(** The assignment of the field. *)
Definition with_availability (availability : string) (h : HostInfo) : HostInfo :=
  {| Host := Host h; HostId := HostId h; Port := Port h; Availability := availability; Role := Role h;
     Aliases := Aliases h; AllAliases := AllAliases h; Weight := Weight h; LastUpdateTime := LastUpdateTime h |}.

(** ** HostInfoBuilder *)

Record HostInfoBuilder := mkBuilder {
  b_host : string;
  b_hostId : string;
  b_port : Z;
  b_availability : string;
  b_role : string;
  b_weight : Z;
  b_lastUpdateTime : Z
}.

Definition NewHostInfoBuilder : HostInfoBuilder :=
  mkBuilder "" "" HOST_NO_PORT AVAILABLE WRITER HOST_DEFAULT_WEIGHT zero_time.

Definition SetHost (host : string) (b : HostInfoBuilder) : HostInfoBuilder :=
  mkBuilder host (b_hostId b) (b_port b) (b_availability b) (b_role b) (b_weight b) (b_lastUpdateTime b).
Definition SetPort (port : Z) (b : HostInfoBuilder) : HostInfoBuilder :=
  mkBuilder (b_host b) (b_hostId b) port (b_availability b) (b_role b) (b_weight b) (b_lastUpdateTime b).
Definition SetAvailability (availability : string) (b : HostInfoBuilder) : HostInfoBuilder :=
  mkBuilder (b_host b) (b_hostId b) (b_port b) availability (b_role b) (b_weight b) (b_lastUpdateTime b).
Definition SetRole (role : string) (b : HostInfoBuilder) : HostInfoBuilder :=
  mkBuilder (b_host b) (b_hostId b) (b_port b) (b_availability b) role (b_weight b) (b_lastUpdateTime b).
Definition SetWeight (weight : Z) (b : HostInfoBuilder) : HostInfoBuilder :=
  mkBuilder (b_host b) (b_hostId b) (b_port b) (b_availability b) (b_role b) weight (b_lastUpdateTime b).
Definition SetHostId (hostId : string) (b : HostInfoBuilder) : HostInfoBuilder :=
  mkBuilder (b_host b) hostId (b_port b) (b_availability b) (b_role b) (b_weight b) (b_lastUpdateTime b).
Definition SetLastUpdateTime (t : Z) (b : HostInfoBuilder) : HostInfoBuilder :=
  mkBuilder (b_host b) (b_hostId b) (b_port b) (b_availability b) (b_role b) (b_weight b) t.

Definition CopyFrom (hostInfo : option HostInfo) (b : HostInfoBuilder) : HostInfoBuilder :=
  match hostInfo with
  | Some h => mkBuilder (Host h) (HostId h) (Port h) (Availability h) (Role h) (Weight h) (LastUpdateTime h)
  | None => b
  end.

Definition checkHostIsSet (b : HostInfoBuilder) : option go_error :=
  if is_empty (b_host b) then Some (NewIllegalArgumentError "HostInfoBuilder.InvalidEmptyHost" []) else None.

Definition Build (b : HostInfoBuilder) : Result HostInfo :=
  match checkHostIsSet b with
  | Some err => Err err
  | None =>
      let h := {| Host := b_host b; HostId := b_hostId b; Port := b_port b; Availability := b_availability b;
                  Role := b_role b; Weight := b_weight b; LastUpdateTime := b_lastUpdateTime b;
                  Aliases := Some ∅; AllAliases := Some ∅ |} in
      Ok {| Host := Host h; HostId := HostId h; Port := Port h; Availability := Availability h; Role := Role h;
            Weight := Weight h; LastUpdateTime := LastUpdateTime h; Aliases := Aliases h;
            AllAliases := Some (<[GetHostAndPort (Some h) := true]> ∅) |}
  end.

(** [b, _ := builder.Build()]: the error is dropped, the host is nil then. *)
Definition BuildOrNil (b : HostInfoBuilder) : option HostInfo :=
  match Build b with Ok h => Some h | _ => None end.

(** ** Lists of hosts (host_info_util.go) *)

(** The loop over the index, with its early return. *)
Fixpoint hosts_equal_loop (s1 s2 : list HostInfo) : bool :=
  match s1, s2 with
  | a :: r1, b :: r2 => if negb (Equals a b) then false else hosts_equal_loop r1 r2
  | _, _ => true
  end.

Definition AreHostListsEqual (s1 s2 : list HostInfo) : bool :=
  if negb (Nat.eqb (length s1) (length s2)) then false else hosts_equal_loop s1 s2.

Fixpoint GetWriter (hosts : list (option HostInfo)) : option HostInfo :=
  match hosts with
  | [] => None
  | Some h :: r => if bool_decide (Role h = WRITER) then Some h else GetWriter r
  | None :: r => GetWriter r
  end.

Fixpoint readers_of (hosts : list (option HostInfo)) : list HostInfo :=
  match hosts with
  | [] => []
  | Some h :: r => if bool_decide (Role h = READER) then h :: readers_of r else readers_of r
  | None :: r => readers_of r
  end.

Definition GetReaders (hosts : list (option HostInfo)) : list HostInfo := sort_by Host (readers_of hosts).

Definition GetHostAndPortOf (host : string) (port : Z) : string :=
  if (0 <? port) && negb (is_empty host) then host +:+ ":" +:+ Itoa port else host.

Definition HaveNoHostsInCommon (hosts1 hosts2 : list HostInfo) : bool :=
  let '(mapSlice, checkSlice) :=
    if Nat.leb (length hosts1) (length hosts2) then (hosts1, hosts2) else (hosts2, hosts1) in
  let checkMap : gmap string Z := foldl (fun m h => <[Host h := 0]> m) ∅ mapSlice in
  forallb (fun h => match checkMap !! Host h with Some _ => false | None => true end) checkSlice.

Definition IsHostInList (host : option HostInfo) (hosts : list HostInfo) : bool :=
  match host with
  | None => false
  | Some h => existsb (fun x => Equals x h) hosts
  end.

(** [CopyHostList]: a fresh slice of the same pointers; a nil slice stays nil. *)
Definition CopyHostList (hosts : option (list (option HostInfo))) : option (list (option HostInfo)) :=
  match hosts with None => None | Some l => Some ([] ++ l) end.

(** ** Lemmas *)

Lemma Equals_spec a b :
  Equals a b = true <->
  (Host a, Port a, Availability a, Role a, Weight a) = (Host b, Port b, Availability b, Role b, Weight b).
Proof.
  unfold Equals. rewrite !andb_true_iff, !bool_decide_eq_true, !Z.eqb_eq.
  split; [intros [[[[-> ->] ->] ->] ->]; done|by intros [=]].
Qed.

#[export] Instance Equals_equivalence : Equivalence (fun a b => Equals a b = true).
Proof. split; intros ?; repeat intro; apply Equals_spec;
  repeat match goal with H : Equals _ _ = true |- _ => apply Equals_spec in H end; congruence. Qed.

Lemma is_empty_true s : is_empty s = true <-> s = "".
Proof. unfold is_empty. apply bool_decide_eq_true. Qed.

Lemma is_empty_false s : is_empty s = false <-> s <> "".
Proof. unfold is_empty. apply bool_decide_eq_false. Qed.

Lemma checkMap_lookup (l : list HostInfo) (m : gmap string Z) k :
  is_Some (foldl (fun m h => <[Host h := 0]> m) m l !! k) <-> is_Some (m !! k) \/ k ∈ Host <$> l.
Proof.
  revert m. induction l as [|h l IH]; intros m; simpl; [set_solver|].
  rewrite IH, lookup_insert, elem_of_cons.
  split.
  - intros [H|H]; [|auto]. case_decide; auto.
  - intros [H|[H|H]]; [|subst|auto]; left; case_decide; done.
Qed.

Lemma elem_of_readers_of hosts h : h ∈ readers_of hosts <-> Some h ∈ hosts /\ Role h = READER.
Proof.
  induction hosts as [|[x|] hosts IH]; simpl.
  - rewrite !elem_of_nil. tauto.
  - case_bool_decide as E; rewrite ?elem_of_cons, IH; naive_solver.
  - rewrite elem_of_cons, IH. naive_solver.
Qed.

Lemma elem_of_GetReaders hosts h : h ∈ GetReaders hosts <-> Some h ∈ hosts /\ Role h = READER.
Proof. unfold GetReaders. by rewrite sort_by_perm, elem_of_readers_of. Qed.

Lemma GetWriter_Some hosts h : GetWriter hosts = Some h -> Some h ∈ hosts /\ Role h = WRITER.
Proof.
  induction hosts as [|[x|] hosts IH]; simpl; [done| |].
  - case_bool_decide; [intros [= ->]|]; set_solver.
  - set_solver.
Qed.

Lemma GetWriter_None hosts h : GetWriter hosts = None -> Some h ∈ hosts -> Role h <> WRITER.
Proof.
  induction hosts as [|[x|] hosts IH]; simpl; [set_solver| |].
  - case_bool_decide; [done|]. intros Hw [[= ->]|Hin]%elem_of_cons; auto.
  - intros Hw [?|Hin]%elem_of_cons; [done|auto].
Qed.

Lemma Build_Ok b h :
  Build b = Ok h ->
  b_host b <> "" /\ Host h = b_host b /\ HostId h = b_hostId b /\ Port h = b_port b /\
  Availability h = b_availability b /\ Role h = b_role b /\ Weight h = b_weight b /\
  Aliases h = Some ∅ /\ AllAliases h = Some {[GetHostAndPort (Some h) := true]}.
Proof.
  unfold Build, checkHostIsSet. destruct (is_empty (b_host b)) eqn:E; [done|].
  intros [= <-]. apply is_empty_false in E. by rewrite insert_empty.
Qed.

Lemma Build_nonempty b : b_host b <> "" -> exists h, Build b = Ok h.
Proof. intros H%is_empty_false. unfold Build, checkHostIsSet. rewrite H. eauto. Qed.

#[export] Hint Resolve GetWriter_Some : go.

Lemma hosts_equal_loop_spec s1 s2 :
  length s1 = length s2 ->
  hosts_equal_loop s1 s2 = true <-> Forall2 (fun a b => Equals a b = true) s1 s2.
Proof.
  revert s2. induction s1 as [|a s1 IH]; intros [|b s2] Hl; simplify_eq/=; [done|].
  rewrite Forall2_cons, <-IH by done. destruct (Equals a b); simpl; naive_solver.
Qed.

Lemma no_common_spec (l1 l2 : list HostInfo) :
  forallb (fun h => match foldl (fun m h => <[Host h := 0]> m) (∅ : gmap string Z) l1 !! Host h with
                    | Some _ => false | None => true end) l2 = true <->
  (forall h1 h2, h1 ∈ l1 -> h2 ∈ l2 -> Host h1 <> Host h2).
Proof.
  rewrite forallb_forall. setoid_rewrite <-list_elem_of_In. split.
  - intros H h1 h2 H1 H2 He. specialize (H _ H2).
    assert (is_Some (foldl (fun m h => <[Host h := 0]> m) (∅ : gmap string Z) l1 !! Host h2)) as [? Hs].
    { apply checkMap_lookup. right. rewrite <-He. by apply list_elem_of_fmap_2. }
    by rewrite Hs in H.
  - intros H h2 H2. destruct (_ !! Host h2) eqn:E; [|done].
    assert (is_Some ((∅ : gmap string Z) !! Host h2) \/ Host h2 ∈ Host <$> l1) as [[? ?]|Hin]
      by (apply checkMap_lookup; eauto); [done|].
    apply list_elem_of_fmap in Hin as (h1 & ? & ?). exfalso. by eapply (H h1 h2).
Qed.

(** ** Properties *)

(** Host slices are equal exactly when they have the same length and agree,
    position by position, on host, port, availability, role and weight. *)
Theorem AreHostListsEqual_spec s1 s2 :
  AreHostListsEqual s1 s2 = true <->
  Forall2 (fun a b => (Host a, Port a, Availability a, Role a, Weight a) =
                      (Host b, Port b, Availability b, Role b, Weight b)) s1 s2.
Proof.
  unfold AreHostListsEqual. destruct (Nat.eqb_spec (length s1) (length s2)) as [E|E]; simpl.
  - rewrite hosts_equal_loop_spec by done.
    split; intros H; apply (Forall2_impl _ _ _ _ H); intros ??; apply Equals_spec.
  - split; [done|]. by intros H%Forall2_length.
Qed.

(** No host name occurs in both slices, whichever slice the map is built from. *)
Theorem HaveNoHostsInCommon_spec hosts1 hosts2 :
  HaveNoHostsInCommon hosts1 hosts2 = true <->
  (forall h1 h2, h1 ∈ hosts1 -> h2 ∈ hosts2 -> Host h1 <> Host h2).
Proof.
  unfold HaveNoHostsInCommon. destruct (Nat.leb _ _); simpl; rewrite no_common_spec; naive_solver.
Qed.
