(* ===== verification/RWMap.v ===== *)
(** * RWMap: the locked map and the locked queue of awssql/utils
    (rw_map.go, rw_queue.go).

    Each operation holds the lock for its whole body, so it is a function on
    the state and a concurrent run is a sequence of such functions. The
    disposal function is recorded by the values it was called with
    ([disposals]); [hasDisposal] says whether [disposalFunc] is non-nil. *)

From S2P Require Import Prelude.

Section RWMap.
Context {K : Type} `{Countable K} {V : Type}.

Record RWMap := mkRWMap {
  cache : gmap K V;
  hasDisposal : bool;
  disposals : list V
}.

(** Calls of [c.disposalFunc], in order, when it is not nil. *)
Definition dispose (vs : list V) (c : RWMap) : RWMap :=
  if hasDisposal c then mkRWMap (cache c) true (disposals c ++ vs) else c.
Definition with_cache (m : gmap K V) (c : RWMap) : RWMap := mkRWMap m (hasDisposal c) (disposals c).

Definition NewRWMap : RWMap := mkRWMap ∅ false [].
Definition NewRWMapWithDisposalFunc : RWMap := mkRWMap ∅ true [].
Definition NewRWMapFromMap (mapForCache : gmap K V) : RWMap := mkRWMap mapForCache false [].

Definition GetAllEntries (c : RWMap) : gmap K V := cache c.
Definition NewRWMapFromCopy (rwMap : option RWMap) : RWMap :=
  match rwMap with None => NewRWMap | Some c => NewRWMapFromMap (GetAllEntries c) end.

Definition Put (key : K) (value : V) (c : RWMap) : RWMap :=
  let c' := match cache c !! key with
            | Some val => if hasDisposal c then dispose [val] c else c
            | None => c
            end in
  with_cache (<[key := value]> (cache c')) c'.

Definition Get (key : K) (c : RWMap) : option V := cache c !! key.

Definition ComputeIfAbsent (key : K) (computed : V) (c : RWMap) : RWMap * V :=
  match cache c !! key with
  | Some item => (c, item)
  | None => (with_cache (<[key := computed]> (cache c)) c, computed)
  end.

Definition PutIfAbsent (key : K) (value : V) (c : RWMap) : RWMap :=
  match cache c !! key with
  | Some _ => c
  | None => with_cache (<[key := value]> (cache c)) c
  end.

Definition Remove (key : K) (c : RWMap) : RWMap :=
  match cache c !! key with
  | Some val =>
      let c' := if hasDisposal c then dispose [val] c else c in
      with_cache (delete key (cache c')) c'
  | None => c
  end.

Definition Size (c : option RWMap) : nat := match c with None => 0%nat | Some c => size (cache c) end.

Context `{MapRange}.

Definition clearWithDisposalFunc (c : RWMap) : RWMap :=
  with_cache ∅ (dispose (range 0 (cache c)).*2 c).
Definition Clear (c : RWMap) : RWMap :=
  if hasDisposal c then clearWithDisposalFunc c else with_cache ∅ c.

Definition ReplaceCacheWithMap (entryMap : gmap K V) (c : RWMap) : RWMap :=
  let c' := if hasDisposal c then dispose (range 1 (cache c)).*2 c else c in
  with_cache entryMap c'.
Definition ReplaceCacheWithCopy (mapToCopy : RWMap) (c : RWMap) : RWMap :=
  ReplaceCacheWithMap (GetAllEntries mapToCopy) c.

(** Removing entries inside [range] visits each entry once. *)
Definition RemoveIf (predicate : K -> V -> bool) (c : RWMap) : RWMap * list (K * V) :=
  let removed := filter (fun e => predicate e.1 e.2 = true) (range 2 (cache c)) in
  (with_cache (filter (fun e => ¬ predicate e.1 e.2 = true) (cache c)) (dispose removed.*2 c), removed).

(** The processor runs on the removed entries after the lock is released. *)
Definition ProcessAndRemoveIf (condition : K -> bool) (c : RWMap) : RWMap * list (K * V) :=
  RemoveIf (fun k _ => condition k) c.

Definition Filter (condition : K -> V -> bool) (c : RWMap) : RWMap :=
  let removed := filter (fun e => ¬ condition e.1 e.2 = true) (range 3 (cache c)) in
  with_cache (filter (fun e => condition e.1 e.2 = true) (cache c)) (dispose removed.*2 c).

(** The calls of [fn], in the order of the loop. *)
Definition ForEach (c : RWMap) : list (K * V) := range 4 (cache c).

(** ** Runs *)

Inductive Op :=
| OPut (k : K) (v : V)
| OComputeIfAbsent (k : K) (v : V)
| OPutIfAbsent (k : K) (v : V)
| ORemove (k : K)
| OClear
| OReplaceCacheWithMap (m : gmap K V)
| ORemoveIf (p : K -> V -> bool)
| OProcessAndRemoveIf (p : K -> bool)
| OFilter (p : K -> V -> bool).

Definition step (o : Op) (c : RWMap) : RWMap :=
  match o with
  | OPut k v => Put k v c
  | OComputeIfAbsent k v => (ComputeIfAbsent k v c).1
  | OPutIfAbsent k v => PutIfAbsent k v c
  | ORemove k => Remove k c
  | OClear => Clear c
  | OReplaceCacheWithMap m => ReplaceCacheWithMap m c
  | ORemoveIf p => (RemoveIf p c).1
  | OProcessAndRemoveIf p => (ProcessAndRemoveIf p c).1
  | OFilter p => Filter p c
  end.

(** The values an operation stores. *)
Definition stored (o : Op) (c : RWMap) : list V :=
  match o with
  | OPut _ v => [v]
  | OComputeIfAbsent k v | OPutIfAbsent k v => match cache c !! k with Some _ => [] | None => [v] end
  | OReplaceCacheWithMap m => vals m
  | _ => []
  end.

#[export] Instance RWMap_store : DisposingStore RWMap V := {
  live := fun c => vals (cache c); disposed := disposals }.

(** ** Lemmas *)

Lemma hasDisposal_step o c : hasDisposal (step o c) = hasDisposal c.
Proof.
  destruct o; simpl; unfold Put, ComputeIfAbsent, PutIfAbsent, Remove, Clear, clearWithDisposalFunc,
    ReplaceCacheWithMap, ProcessAndRemoveIf, RemoveIf, Filter, dispose, with_cache;
    repeat case_match; simpl; congruence.
Qed.

Lemma Put_cache key value c : cache (Put key value c) = <[key := value]> (cache c).
Proof. unfold Put, dispose. destruct (cache c !! key); [|done]. by destruct (hasDisposal c). Qed.
Lemma Remove_cache key c : cache (Remove key c) = delete key (cache c).
Proof.
  unfold Remove, dispose. destruct (cache c !! key) eqn:E; [|by rewrite delete_id]. by destruct (hasDisposal c).
Qed.

Lemma rw_step_conserves o c : hasDisposal c = true -> conserves (stored o c) c (step o c).
Proof.
  intros Hd. destruct c as [m d l]; simpl in Hd; subst d. unfold conserves.
  destruct o; simpl; unfold Put, ComputeIfAbsent, PutIfAbsent, Remove, Clear, clearWithDisposalFunc,
    ReplaceCacheWithMap, ProcessAndRemoveIf, RemoveIf, Filter, dispose, with_cache; simpl.
  - destruct (m !! k) as [x|] eqn:E; simpl; [by apply (perm_tail _ [x] [v]), insert_drops|].
    by rewrite vals_insert_None.
  - destruct (m !! k) eqn:E; simpl; [done|]. by rewrite vals_insert_None.
  - destruct (m !! k) eqn:E; simpl; [done|]. by rewrite vals_insert_None.
  - destruct (m !! k) as [x|] eqn:E; simpl; [|done]. by apply (perm_tail _ [x] []), delete_drops.
  - rewrite vals_empty, vals_range. simpl. by rewrite Permutation_app_comm.
  - rewrite vals_range. f_equiv. by rewrite Permutation_app_comm.
  - apply (perm_tail _ _ []), (filter_drops 2 m (fun e => p e.1 e.2 = true)).
  - apply (perm_tail _ _ []), (filter_drops 2 m (fun e => p e.1 = true)).
  - apply (perm_tail _ _ []). simpl. rewrite <-(filter_drops 3 m (fun e => ¬ p e.1 e.2 = true)).
    f_equiv. f_equiv. apply map_filter_ext. intros k x Hk. simpl. split; [auto|]. apply dec_stable.
Qed.

(** ** Properties *)

(** C34. On an RWMap with a disposal function, after any sequence of its
    operations every value ever stored is either still in the map or was
    given to the disposal function exactly once: the values held and the
    disposal calls together are a permutation of the values stored. *)
Theorem RWMap_disposes_once ops c :
  hasDisposal c = true ->
  vals (cache (run_ops step ops c)) ++ disposals (run_ops step ops c)
  ≡ₚ run_ins step stored ops c ++ vals (cache c) ++ disposals c.
Proof.
  refine (run_conserves step stored (fun c => hasDisposal c = true) _ rw_step_conserves ops c).
  intros o s. by rewrite hasDisposal_step.
Qed.
End RWMap.
Arguments RWMap K {_ _} V.

Lemma RWMap_disposes_once_witness :
  let c := run_ops step [OPut "a" 1%nat; OPut "a" 2%nat; OPutIfAbsent "b" 3%nat; ORemove "a"; OClear]
             (NewRWMapWithDisposalFunc : RWMap string nat) in
  vals (cache c) ++ disposals c ≡ₚ [1; 2; 3]%nat.
Proof.
  etransitivity.
  - apply (RWMap_disposes_once [OPut "a" 1%nat; OPut "a" 2%nat; OPutIfAbsent "b" 3%nat; ORemove "a"; OClear]
             (NewRWMapWithDisposalFunc : RWMap string nat)). reflexivity.
  - vm_compute. reflexivity.
Defined.
