(* ===== verification/RWQueue.v ===== *)
(** * RWQueue: the locked queue of awssql/utils/rw_queue.go *)

From S2P Require Import Prelude.

Section RWQueue.
Context {T : Type}.

Record RWQueue := mkQueue { items : list T }.

Definition NewRWQueue : RWQueue := mkQueue [].
Definition Enqueue (x : T) (q : RWQueue) : RWQueue := mkQueue (items q ++ [x]).
Definition Dequeue (q : RWQueue) : RWQueue * option T :=
  match items q with
  | [] => (q, None)
  | x :: r => (mkQueue r, Some x)
  end.
Definition Size (q : RWQueue) : nat := length (items q).
Definition IsEmpty (q : RWQueue) : bool := Nat.eqb (length (items q)) 0.
Definition ForEach (q : RWQueue) : list T := items q.
Definition RemoveIf (condition : T -> bool) (q : RWQueue) : RWQueue :=
  mkQueue (foldl (fun filtered x => if negb (condition x) then filtered ++ [x] else filtered) [] (items q)).

(** [n] calls of [Dequeue]. *)
Fixpoint drain (n : nat) (q : RWQueue) : list T * RWQueue :=
  match n with
  | O => ([], q)
  | S n => match Dequeue q with
           | (q', Some x) => let '(xs, q'') := drain n q' in (x :: xs, q'')
           | (q', None) => ([], q')
           end
  end.

Lemma RemoveIf_items condition q : items (RemoveIf condition q) = FilterSlice (items q) (fun x => negb (condition x)).
Proof.
  destruct q as [l]; simpl. assert (forall acc, foldl (fun f x => if negb (condition x) then f ++ [x] else f) acc l
    = acc ++ FilterSlice l (fun x => negb (condition x))) as ->; [|done].
  induction l as [|x l IH]; intros acc; simpl; [by rewrite app_nil_r|]. rewrite IH.
  destruct (condition x); simpl; [done|]. by rewrite <-(assoc_L (++)).
Qed.

(** First in, first out: what is enqueued comes out in the same order after
    the elements that were there, and then the queue is empty. *)
Theorem RWQueue_fifo xs q :
  drain (length (items q) + length xs) (foldl (fun q x => Enqueue x q) q xs) = (items q ++ xs, NewRWQueue).
Proof.
  assert (items (foldl (fun q x => Enqueue x q) q xs) = items q ++ xs) as Hi.
  { revert q. induction xs as [|x xs IH]; intros q; simpl; [by rewrite app_nil_r|].
    rewrite IH. simpl. by rewrite <-(assoc_L (++)). }
  rewrite <-length_app, <-Hi. generalize (foldl (fun q x => Enqueue x q) q xs) as p. clear.
  intros [l]. simpl. induction l as [|x l IH]; simpl; [done|]. by rewrite IH.
Qed.
End RWQueue.
Arguments RWQueue T : clear implicits.
