(* ===== verification/CacheMap.v ===== *)
(** * CacheMap: the cache with an expiration per entry (awssql/utils/cache_map.go).

    Every reading of the clock is an argument: [now] for the reading that
    computes an expiration, [CleanUpClock] for the readings of one [CleanUp]
    (the test of the clean-up time, the test of each entry it visits, the new
    clean-up time). Entries that expire stay in the map until a clean-up or an
    overwrite, so the abstract map is the map of the entries [Get] returns. *)

From S2P Require Import Prelude.

Definition CleanupIntervalNanos : Z := 10 * Minute.

Record CleanUpClock := { cu_check : Z; cu_at : string -> Z; cu_reset : Z }.

Section CacheMap.
Context {T : Type}.

Record cacheValue := mkCacheValue { item : T; expirationTime : Z }.
Record CacheMap := mkCacheMap {
  cache : gmap string cacheValue;
  cleanupTimeNanos : Z;
  defaultExpiration : Z
}.

Definition NewCache (now : Z) : CacheMap := mkCacheMap ∅ (now + CleanupIntervalNanos) 0.
Definition NewCacheWithDefaultExpiration (now expiration : Z) : CacheMap :=
  mkCacheMap ∅ (now + CleanupIntervalNanos) expiration.

(** [time.Now().After(c.expirationTime)] *)
Definition isExpired (now : Z) (c : cacheValue) : bool := expirationTime c <? now.

Definition CleanUp (cu : CleanUpClock) (c : CacheMap) : CacheMap :=
  if cleanupTimeNanos c <? cu_check cu then
    mkCacheMap (filter (fun e => isExpired (cu_at cu e.1) e.2 = false) (cache c))
      (cu_reset cu + CleanupIntervalNanos) (defaultExpiration c)
  else c.

Definition store (now : Z) (key : string) (value : T) (expiration : Z) (c : CacheMap) : CacheMap :=
  mkCacheMap (<[key := mkCacheValue value (now + expiration)]> (cache c)) (cleanupTimeNanos c) (defaultExpiration c).

Definition Put (now : Z) (cu : CleanUpClock) (key : string) (value : T) (expiration : Z) (c : CacheMap) : CacheMap :=
  CleanUp cu (store now key value expiration c).
Definition PutWithDefaultExpiration (now : Z) (cu : CleanUpClock) (key : string) (value : T) (c : CacheMap) : CacheMap :=
  Put now cu key value (defaultExpiration c) c.

Definition Get (now : Z) (key : string) (c : CacheMap) : option T :=
  match cache c !! key with
  | Some value => if isExpired now value then None else Some (item value)
  | None => None
  end.

(** The value [computeFunc] returns is an argument: it is used only when the
    key is absent. The test and the store hold the lock separately. *)
Definition ComputeIfAbsent (now : Z) (key : string) (computed : T) (itemExpiration : Z) (c : CacheMap) : CacheMap * T :=
  match cache c !! key with
  | Some v => (c, item v)
  | None => (store now key computed itemExpiration c, computed)
  end.

Definition PutIfAbsent (now : Z) (cu1 cu2 : CleanUpClock) (key : string) (value : T) (expiration : Z) (c : CacheMap) : CacheMap :=
  CleanUp cu2 (match cache c !! key with
               | None => Put now cu1 key value expiration c
               | Some _ => c
               end).

Definition Remove (cu : CleanUpClock) (key : string) (c : CacheMap) : CacheMap :=
  CleanUp cu (mkCacheMap (delete key (cache c)) (cleanupTimeNanos c) (defaultExpiration c)).
Definition Clear (now : Z) (c : CacheMap) : CacheMap :=
  mkCacheMap ∅ (now + CleanupIntervalNanos) (defaultExpiration c).
Definition GetAllEntries (c : CacheMap) : gmap string T := item <$> cache c.
Definition Size (c : CacheMap) : nat := size (cache c).

(** ** Refinement to a map whose entries expire

    The specification keeps every entry for ever and looks at its time only
    when it is read: no clean-up, no clean-up time. *)

Definition spec_get (now : Z) (key : string) (s : gmap string (T * Z)) : option T :=
  match s !! key with Some (v, e) => if e <? now then None else Some v | None => None end.

Inductive Op :=
| OPut (cu : CleanUpClock) (key : string) (value : T) (expiration : Z)
| OPutDefault (cu : CleanUpClock) (key : string) (value : T)
| ORemove (cu : CleanUpClock) (key : string)
| OClear
| OCleanUp (cu : CleanUpClock).

(** A run: operations with the reading that starts each of them. *)
Definition step (now : Z) (o : Op) (c : CacheMap) : CacheMap :=
  match o with
  | OPut cu k v e => Put now cu k v e c
  | OPutDefault cu k v => PutWithDefaultExpiration now cu k v c
  | ORemove cu k => Remove cu k c
  | OClear => Clear now c
  | OCleanUp cu => CleanUp cu c
  end.
Definition spec_step (d : Z) (now : Z) (o : Op) (s : gmap string (T * Z)) : gmap string (T * Z) :=
  match o with
  | OPut _ k v e => <[k := (v, now + e)]> s
  | OPutDefault _ k v => <[k := (v, now + d)]> s
  | ORemove _ k => delete k s
  | OClear => ∅
  | OCleanUp _ => s
  end.
Definition run (ops : list (Z * Op)) (c : CacheMap) : CacheMap := foldl (fun c o => step o.1 o.2 c) c ops.
Definition spec_run (d : Z) (ops : list (Z * Op)) (s : gmap string (T * Z)) : gmap string (T * Z) :=
  foldl (fun s o => spec_step d o.1 o.2 s) s ops.

(** No reading the operation makes of an entry is later than [t]. *)
Definition op_before (t : Z) (o : Op) : Prop :=
  match o with
  | OPut cu _ _ _ | OPutDefault cu _ _ | ORemove cu _ | OCleanUp cu => forall k, cu_at cu k <= t
  | OClear => True
  end.

(** The entries agree, except that the cache may have dropped some whose
    time is before [t]. *)
Definition refines (t : Z) (c : CacheMap) (s : gmap string (T * Z)) : Prop :=
  forall k, match s !! k with
            | Some (v, e) => cache c !! k = Some (mkCacheValue v e) \/ (cache c !! k = None /\ e < t)
            | None => cache c !! k = None
            end.

Lemma defaultExpiration_step now o c : defaultExpiration (step now o c) = defaultExpiration c.
Proof.
  destruct o; simpl; unfold PutWithDefaultExpiration, Put, Remove, CleanUp, store; simpl; by repeat case_match.
Qed.

Lemma refines_CleanUp t cu c s :
  (forall k, cu_at cu k <= t) -> refines t c s -> refines t (CleanUp cu c) s.
Proof.
  intros Hcu Hr k. specialize (Hr k). unfold CleanUp. destruct (_ <? _); [|done]. simpl.
  destruct (s !! k) as [[v e]|].
  - destruct Hr as [Hc|[Hc He]].
    + destruct (isExpired (cu_at cu k) (mkCacheValue v e)) eqn:E.
      * right. rewrite map_lookup_filter_None. split; [right; intros x Hx; rewrite Hc in Hx; injection Hx as <-; simpl; congruence|].
        unfold isExpired in E; simpl in E; to_prop. specialize (Hcu k). lia.
      * left. by apply map_lookup_filter_Some.
    + right. split; [|done]. apply map_lookup_filter_None. by left.
  - apply map_lookup_filter_None. by left.
Qed.

Lemma refines_store t now k v e c s :
  refines t c s -> refines t (store now k v e c) (<[k := (v, now + e)]> s).
Proof. intros Hr j. simpl. destruct (decide (k = j)) as [->|]; simplify_map_eq; [by left|apply Hr]. Qed.

Lemma refines_step t d now o c s :
  op_before t o -> defaultExpiration c = d -> refines t c s ->
  refines t (step now o c) (spec_step d now o s).
Proof.
  intros Ho <- Hr. destruct o; simpl in *.
  - by apply refines_CleanUp, refines_store.
  - by apply refines_CleanUp, refines_store.
  - apply refines_CleanUp; [done|]. intros j. specialize (Hr j). simpl.
    destruct (decide (key = j)) as [->|]; simplify_map_eq; done.
  - intros j. simpl. by rewrite !lookup_empty.
  - by apply refines_CleanUp.
Qed.

Lemma refines_get t now k c s : t <= now -> refines t c s -> Get now k c = spec_get now k s.
Proof.
  intros Ht Hr. specialize (Hr k). unfold Get, spec_get, isExpired.
  destruct (s !! k) as [[v e]|]; [|by rewrite Hr].
  destruct Hr as [->|[-> He]]; [done|]. destruct (Z.ltb_spec e now); [done|lia].
Qed.

(** An entry that does not expire during the clean-up of a [Put] is there afterwards. *)
Lemma Put_lookup_same now cu k v e c :
  cu_at cu k <= now + e -> cache (Put now cu k v e c) !! k = Some (mkCacheValue v (now + e)).
Proof.
  intros Hcu. unfold Put, CleanUp, store. destruct (_ <? _); cbn [cache]; [|apply lookup_insert_eq].
  apply map_lookup_filter_Some. split; [apply lookup_insert_eq|]. unfold isExpired. simpl. apply Z.ltb_ge. lia.
Qed.

Lemma Put_lookup_ne now cu k v e c k' x :
  k <> k' -> cu_at cu k' <= expirationTime x -> cache c !! k' = Some x -> cache (Put now cu k v e c) !! k' = Some x.
Proof.
  intros Hne Hcu Hk. unfold Put, CleanUp, store. destruct (_ <? _); cbn [cache]; [|by rewrite lookup_insert_ne].
  apply map_lookup_filter_Some. split; [by rewrite lookup_insert_ne|]. unfold isExpired. simpl. apply Z.ltb_ge. lia.
Qed.

(** ** Properties *)

(** C35. A CacheMap refines a map that keeps every entry and only compares
    its time when it is read: after any sequence of Put,
    PutWithDefaultExpiration, Remove, Clear and CleanUp, with any clean-up
    timing, Get returns what that map returns. *)
Theorem CacheMap_refines_expiring_map ops t now k d t0 :
  Forall (fun o => op_before t o.2) ops -> t <= now ->
  Get now k (run ops (NewCacheWithDefaultExpiration t0 d)) = spec_get now k (spec_run d ops ∅).
Proof.
  intros Hops Ht.
  assert (forall c s, defaultExpiration c = d -> refines t c s -> refines t (run ops c) (spec_run d ops s)) as Hrun.
  { induction Hops as [|o ops Ho Hops IH]; intros c s Hd Hr; simpl; [done|].
    apply IH; [by rewrite defaultExpiration_step|by apply refines_step]. }
  apply (refines_get t); [done|]. apply Hrun; [done|]. intros j. simpl. by rewrite !lookup_empty.
Qed.

(** On an entry that has expired but was not cleaned up yet, Get reports
    the key absent while PutIfAbsent stores nothing (a following Get still
    reports it absent) and ComputeIfAbsent returns the expired item. *)
Theorem PutIfAbsent_expired_is_noop now cu1 cu2 later key value old expiration c :
  cache c !! key = Some old -> isExpired now old = true -> now <= later ->
  Get now key c = None /\ Get later key (PutIfAbsent now cu1 cu2 key value expiration c) = None /\
  (ComputeIfAbsent now key value expiration c).2 = item old.
Proof.
  intros Hk He Hl. unfold isExpired in He; to_prop.
  unfold PutIfAbsent, ComputeIfAbsent, CleanUp, Get. rewrite Hk. simpl.
  unfold isExpired. destruct (Z.ltb_spec (expirationTime old) now); [|lia].
  split; [done|split; [|done]]. destruct (_ <? _); simpl.
  - destruct (filter _ _ !! key) as [x|] eqn:Hf; [|done].
    apply map_lookup_filter_Some in Hf as [Hf _]. simplify_eq.
    destruct (Z.ltb_spec (expirationTime old) later); [done|lia].
  - rewrite Hk. destruct (Z.ltb_spec (expirationTime old) later); [done|lia].
Qed.
End CacheMap.
Arguments CacheMap T : clear implicits.
Arguments cacheValue T : clear implicits.
Arguments Op T : clear implicits.

Definition clock_at (t : Z) : CleanUpClock := {| cu_check := t; cu_at := fun _ => t; cu_reset := t |}.

Lemma CacheMap_refines_expiring_map_witness :
  Get 7 "a" (run [(1, OPut (clock_at 2) "a" 5%nat 10); (3, ORemove (clock_at 4) "b")]
              (NewCacheWithDefaultExpiration 0 0)) = Some 5%nat.
Proof.
  etransitivity; [apply (CacheMap_refines_expiring_map _ 5); [|lia]|reflexivity].
  repeat constructor; simpl; lia.
Defined.

Lemma PutIfAbsent_expired_is_noop_witness :
  Get 9 "a" (PutIfAbsent 8 (clock_at 8) (clock_at 8) "a" 6%nat 100
               (store 0 "a" 5%nat 3 (NewCache 0))) = None.
Proof.
  refine (proj1 (proj2 (PutIfAbsent_expired_is_noop 8 _ _ 9 "a" 6%nat (mkCacheValue 5%nat 3) 100 _ _ _ _)));
    [reflexivity|reflexivity|lia].
Defined.
