(* ===== verification/SlidingCache.v ===== *)
(** * SlidingCache: the cache whose entries live as long as they are used
    (awssql/utils/sliding_expiration_cache.go).

    The disposal function is recorded by the values it was called with; the
    function [shouldDispose] is an argument of the model, as in the code. The
    clean-up goroutine is [cleanupPass], one turn of its loop, which may come
    between any two operations. [tick] is the reading of the clock at the
    entry a loop visits. *)

From S2P Require Import Prelude.
From S2P Require Import CacheMap.

Section SlidingExpirationCache.
Context {T : Type} `{MapRange}.

Record SlidingExpirationCache := mkSliding {
  cache : gmap string (cacheValue T);
  cleanupIntervalNanos : Z;
  cleanupTimeNanos : Z;
  itemDisposal : bool;
  shouldDisposeFunc : option (T -> bool);
  cancelled : bool;
  disposals : list T
}.

Definition NewSlidingExpirationCache (now : Z) (itemDisposal : bool) (shouldDispose : option (T -> bool)) :=
  mkSliding ∅ CleanupIntervalNanos (now + CleanupIntervalNanos) itemDisposal
    (if itemDisposal then shouldDispose else None) false [].

Definition with_cache (m : gmap string (cacheValue T)) (c : SlidingExpirationCache) : SlidingExpirationCache :=
  mkSliding m (cleanupIntervalNanos c) (cleanupTimeNanos c) (itemDisposal c) (shouldDisposeFunc c)
    (cancelled c) (disposals c).
(** Calls of [c.itemDisposalFunc] when it is not nil. *)
Definition dispose (vs : list T) (c : SlidingExpirationCache) : SlidingExpirationCache :=
  if itemDisposal c then
    mkSliding (cache c) (cleanupIntervalNanos c) (cleanupTimeNanos c) true (shouldDisposeFunc c)
      (cancelled c) (disposals c ++ vs)
  else c.

Definition shouldCleanup (now : Z) (f : option (T -> bool)) (c : cacheValue T) : bool :=
  match f with
  | Some should => isExpired now c && should (item c)
  | None => isExpired now c
  end.

Definition withExtendExpiration (now itemExpiration : Z) (c : cacheValue T) : cacheValue T :=
  mkCacheValue (item c) (now + itemExpiration).

Definition Remove (key : string) (c : SlidingExpirationCache) : SlidingExpirationCache :=
  match cache c !! key with
  | Some v => dispose [item v] (with_cache (delete key (cache c)) c)
  | None => with_cache (delete key (cache c)) c
  end.

Definition Put (now : Z) (key : string) (value : T) (itemExpiration : Z) (c : SlidingExpirationCache) :=
  let c' := Remove key c in
  with_cache (<[key := mkCacheValue value (now + itemExpiration)]> (cache c')) c'.

Definition cleanupIfExpired (now : Z) (key : string) (c : SlidingExpirationCache) : SlidingExpirationCache :=
  match cache c !! key with
  | Some v => if shouldCleanup now (shouldDisposeFunc c) v
              then dispose [item v] (with_cache (delete key (cache c)) c) else c
  | None => c
  end.

Definition Get (now now' : Z) (key : string) (itemExpiration : Z) (c : SlidingExpirationCache)
  : SlidingExpirationCache * option T :=
  let c' := cleanupIfExpired now key c in
  match cache c' !! key with
  | None => (c', None)
  | Some v => (with_cache (<[key := withExtendExpiration now' itemExpiration v]> (cache c')) c', Some (item v))
  end.

Definition ComputeIfAbsent (now now' now'' : Z) (key : string) (computed : T) (itemExpiration : Z)
  (c : SlidingExpirationCache) : SlidingExpirationCache * T :=
  match Get now now' key itemExpiration c with
  | (c', Some v) => (c', v)
  | (c', None) => (with_cache (<[key := mkCacheValue computed (now'' + itemExpiration)]> (cache c')) c', computed)
  end.

Definition ComputeIfAbsentWithError (now now' now'' : Z) (key : string) (computed : Result T) (itemExpiration : Z)
  (c : SlidingExpirationCache) : SlidingExpirationCache * Result T :=
  match Get now now' key itemExpiration c with
  | (c', Some v) => (c', Ok v)
  | (c', None) =>
      match computed with
      | Ok v => (with_cache (<[key := mkCacheValue v (now'' + itemExpiration)]> (cache c')) c', Ok v)
      | r => (c', r)
      end
  end.

Definition PutIfAbsent (now now' : Z) (key : string) (value : T) (expiration : Z) (c : SlidingExpirationCache) :=
  let c' := cleanupIfExpired now key c in
  match cache c' !! key with
  | None => Put now' key value expiration c'
  | Some _ => c'
  end.

Definition GetAllEntries (c : SlidingExpirationCache) : gmap string T := item <$> cache c.
Definition Size (c : option SlidingExpirationCache) : nat :=
  match c with None => 0%nat | Some c => size (cache c) end.

Definition Clear (now : Z) (c : SlidingExpirationCache) : SlidingExpirationCache :=
  let entries := range 0 (GetAllEntries c) in
  dispose entries.*2
    (mkSliding ∅ (cleanupIntervalNanos c) (now + CleanupIntervalNanos) (itemDisposal c) (shouldDisposeFunc c)
       (cancelled c) (disposals c)).

Definition cancelCleanup (c : SlidingExpirationCache) : SlidingExpirationCache :=
  mkSliding (cache c) (cleanupIntervalNanos c) (cleanupTimeNanos c) (itemDisposal c) (shouldDisposeFunc c)
    true (disposals c).
Definition CleanUp (now : Z) (c : SlidingExpirationCache) : SlidingExpirationCache := cancelCleanup (Clear now c).

Definition SetCleanupIntervalNanos (now newInterval : Z) (c : SlidingExpirationCache) : SlidingExpirationCache :=
  mkSliding (cache c) newInterval (now + newInterval) (itemDisposal c) (shouldDisposeFunc c)
    (cancelled c) (disposals c).

(** One turn of [cleanupExpiredItems]; [done] is the reading of [ctx.Done()]
    before the sleep. *)
Definition cleanupPass (done : bool) (tick : string -> Z) (c : SlidingExpirationCache) : SlidingExpirationCache :=
  if done then c
  else
    let itemList := filter (fun e => shouldCleanup (tick e.1) (shouldDisposeFunc c) e.2 = true) (range 1 (cache c)) in
    dispose (item <$> itemList.*2)
      (with_cache (filter (fun e => ¬ shouldCleanup (tick e.1) (shouldDisposeFunc c) e.2 = true) (cache c)) c).
(** [time.Sleep(CleanupIntervalNanos)] in front of a pass. *)
Definition cleanupSleep (c : SlidingExpirationCache) : Z := CleanupIntervalNanos.

(** ** Runs *)

Inductive Op :=
| OPut (now : Z) (key : string) (value : T) (expiration : Z)
| OGet (now now' : Z) (key : string) (expiration : Z)
| OComputeIfAbsent (now now' now'' : Z) (key : string) (computed : T) (expiration : Z)
| OComputeIfAbsentWithError (now now' now'' : Z) (key : string) (computed : Result T) (expiration : Z)
| OPutIfAbsent (now now' : Z) (key : string) (value : T) (expiration : Z)
| ORemove (key : string)
| OClear (now : Z)
| OCleanUp (now : Z)
| OPass (done : bool) (tick : string -> Z).

Definition step (o : Op) (c : SlidingExpirationCache) : SlidingExpirationCache :=
  match o with
  | OPut now k v e => Put now k v e c
  | OGet now now' k e => (Get now now' k e c).1
  | OComputeIfAbsent now now' now'' k v e => (ComputeIfAbsent now now' now'' k v e c).1
  | OComputeIfAbsentWithError now now' now'' k v e => (ComputeIfAbsentWithError now now' now'' k v e c).1
  | OPutIfAbsent now now' k v e => PutIfAbsent now now' k v e c
  | ORemove k => Remove k c
  | OClear now => Clear now c
  | OCleanUp now => CleanUp now c
  | OPass d tick => cleanupPass d tick c
  end.

(** The values an operation stores. *)
Definition stored (o : Op) (c : SlidingExpirationCache) : list T :=
  match o with
  | OPut _ _ v _ => [v]
  | OComputeIfAbsent now _ _ k v _ | OPutIfAbsent now _ k v _ =>
      match cache (cleanupIfExpired now k c) !! k with Some _ => [] | None => [v] end
  | OComputeIfAbsentWithError now _ _ k v _ =>
      match cache (cleanupIfExpired now k c) !! k, v with None, Ok v => [v] | _, _ => [] end
  | _ => []
  end.

#[export] Instance Sliding_store : DisposingStore SlidingExpirationCache T := {
  live := fun c => item <$> vals (cache c); disposed := disposals }.

(** ** Lemmas *)

Definition disposing (c : SlidingExpirationCache) : Prop := itemDisposal c = true.

Lemma item_insert_drops (m : gmap string (cacheValue T)) k v x :
  m !! k = Some x -> (item <$> vals (<[k:=v]> m)) ++ [item x] ≡ₚ [item v] ++ (item <$> vals m).
Proof. intros Hk. pose proof (fmap_Permutation item _ _ (insert_drops m k v x Hk)) as Hp. by rewrite !fmap_app in Hp. Qed.

Lemma item_delete_drops (m : gmap string (cacheValue T)) k x :
  m !! k = Some x -> (item <$> vals (delete k m)) ++ [item x] ≡ₚ item <$> vals m.
Proof. intros Hk. pose proof (fmap_Permutation item _ _ (delete_drops m k x Hk)) as Hp. by rewrite fmap_app in Hp. Qed.

(** A live item whose time is extended is still the same item. *)
Lemma item_extend (m : gmap string (cacheValue T)) k v x :
  m !! k = Some x -> item v = item x -> item <$> vals (<[k:=v]> m) ≡ₚ item <$> vals m.
Proof.
  intros Hk Hi. pose proof (item_insert_drops m k v x Hk) as Hp. rewrite Hi, Permutation_app_comm in Hp.
  by apply Permutation_app_inv_l in Hp.
Qed.

Lemma item_insert_None (m : gmap string (cacheValue T)) k v :
  m !! k = None -> item <$> vals (<[k:=v]> m) ≡ₚ item v :: (item <$> vals m).
Proof. intros Hk. by rewrite vals_insert_None. Qed.

Lemma disposing_with_cache m c : disposing (with_cache m c) <-> disposing c.
Proof. done. Qed.
Lemma sc_disposing_dispose vs c : disposing (dispose vs c) <-> disposing c.
Proof. unfold disposing, dispose. destruct (itemDisposal c) eqn:E; simpl; by rewrite ?E. Qed.

(** Dropping entries from the map and disposing of their items conserves. *)
Lemma sc_drop_conserves m vs c :
  disposing c -> (item <$> vals m) ++ vs ≡ₚ item <$> vals (cache c) ->
  conserves [] c (dispose vs (with_cache m c)).
Proof.
  intros Hd Hp. unfold conserves, dispose. simpl. unfold disposing in Hd. rewrite Hd. simpl.
  by apply (perm_tail _ _ []).
Qed.

Lemma sc_store_conserves k v c :
  cache c !! k = None -> conserves [item v] c (with_cache (<[k := v]> (cache c)) c).
Proof. intros Hk. unfold conserves; simpl. by rewrite item_insert_None. Qed.

Lemma sc_extend_conserves k v x c :
  cache c !! k = Some x -> item v = item x -> conserves [] c (with_cache (<[k := v]> (cache c)) c).
Proof. intros Hk Hi. unfold conserves; simpl. by rewrite (item_extend _ _ _ x). Qed.

Lemma sc_cache_dispose vs c : cache (dispose vs c) = cache c.
Proof. unfold dispose. by destruct (itemDisposal c). Qed.

Lemma Remove_conserves k c : disposing c -> conserves [] c (Remove k c).
Proof.
  intros Hd. unfold Remove. destruct (cache c !! k) as [x|] eqn:E.
  - apply sc_drop_conserves; [done|by apply item_delete_drops].
  - unfold conserves; simpl. by rewrite delete_id.
Qed.

Lemma Remove_lookup k c : cache (Remove k c) !! k = None.
Proof. unfold Remove. case_match; rewrite ?sc_cache_dispose; simpl; apply lookup_delete_eq. Qed.

Lemma Remove_disposing k c : disposing c -> disposing (Remove k c).
Proof. unfold Remove. case_match; [rewrite sc_disposing_dispose|]; done. Qed.

Lemma Put_conserves now k v e c : disposing c -> conserves [v] c (Put now k v e c).
Proof.
  intros Hd. apply (conserves_trans [] [v] c (Remove k c)); [by apply Remove_conserves|].
  apply (sc_store_conserves k (mkCacheValue v (now + e))), Remove_lookup.
Qed.

Lemma cleanupIfExpired_conserves now k c : disposing c -> conserves [] c (cleanupIfExpired now k c).
Proof.
  intros Hd. unfold cleanupIfExpired. destruct (cache c !! k) as [x|] eqn:E; [|apply conserves_refl].
  destruct (shouldCleanup _ _ _); [|apply conserves_refl].
  apply sc_drop_conserves; [done|by apply item_delete_drops].
Qed.

Lemma cleanupIfExpired_disposing now k c : disposing c -> disposing (cleanupIfExpired now k c).
Proof. unfold cleanupIfExpired. repeat case_match; rewrite ?sc_disposing_dispose; done. Qed.

Lemma Get_conserves now now' k e c : disposing c -> conserves [] c (Get now now' k e c).1.
Proof.
  intros Hd. unfold Get. pose proof (cleanupIfExpired_conserves now k c Hd) as Hc.
  destruct (cache (cleanupIfExpired now k c) !! k) as [x|] eqn:E; simpl; [|done].
  apply (conserves_trans [] [] _ _ _ Hc). by apply (sc_extend_conserves _ _ x).
Qed.

Lemma Clear_conserves now c : disposing c -> conserves [] c (Clear now c).
Proof.
  intros Hd. unfold conserves, Clear, dispose. simpl. unfold disposing in Hd. rewrite Hd. simpl.
  rewrite vals_empty, vals_range. unfold GetAllEntries, vals. rewrite map_to_list_fmap, <-!list_fmap_compose.
  simpl. by rewrite Permutation_app_comm.
Qed.

Lemma Get_spec now now' k e c :
  (Get now now' k e c).2 = item <$> cache (cleanupIfExpired now k c) !! k.
Proof. unfold Get. by destruct (cache (cleanupIfExpired now k c) !! k). Qed.

Lemma Get_miss now now' k e c c' : Get now now' k e c = (c', None) -> cache c' !! k = None.
Proof. unfold Get. destruct (cache (cleanupIfExpired now k c) !! k) eqn:E; [done|]. by intros [= <-]. Qed.

Lemma sc_disposing_step o c : disposing c -> disposing (step o c).
Proof.
  intros Hd. destruct o; simpl.
  - by apply Remove_disposing.
  - unfold Get. case_match; by apply cleanupIfExpired_disposing.
  - unfold ComputeIfAbsent, Get. repeat case_match; simplify_eq/=; by apply cleanupIfExpired_disposing.
  - unfold ComputeIfAbsentWithError, Get. repeat case_match; simplify_eq/=; by apply cleanupIfExpired_disposing.
  - unfold PutIfAbsent. case_match; [|apply Remove_disposing]; by apply cleanupIfExpired_disposing.
  - by apply Remove_disposing.
  - unfold Clear. by rewrite sc_disposing_dispose.
  - unfold CleanUp. unfold disposing; simpl. apply sc_disposing_dispose. done.
  - unfold cleanupPass. case_match; [done|]. by rewrite sc_disposing_dispose.
Qed.

Lemma sc_step_conserves o c : disposing c -> conserves (stored o c) c (step o c).
Proof.
  intros Hd. destruct o; simpl.
  - by apply Put_conserves.
  - by apply Get_conserves.
  - pose proof (Get_conserves now now' key expiration c Hd) as Hg.
    pose proof (Get_spec now now' key expiration c) as Hs. unfold ComputeIfAbsent.
    destruct (Get now now' key expiration c) as [c' [v|]] eqn:E; simpl in *.
    + by destruct (cache (cleanupIfExpired now key c) !! key).
    + destruct (cache (cleanupIfExpired now key c) !! key); [done|].
      apply (conserves_trans [] [computed] _ _ _ Hg).
      by apply (sc_store_conserves key (mkCacheValue computed (now'' + expiration))), (Get_miss _ _ _ _ _ _ E).
  - pose proof (Get_conserves now now' key expiration c Hd) as Hg.
    pose proof (Get_spec now now' key expiration c) as Hs. unfold ComputeIfAbsentWithError.
    destruct (Get now now' key expiration c) as [c' [v|]] eqn:E; simpl in *.
    + by destruct (cache (cleanupIfExpired now key c) !! key).
    + destruct (cache (cleanupIfExpired now key c) !! key); [done|].
      destruct computed as [v| |]; simpl; [|done..].
      apply (conserves_trans [] [v] _ _ _ Hg).
      by apply (sc_store_conserves key (mkCacheValue v (now'' + expiration))), (Get_miss _ _ _ _ _ _ E).
  - unfold PutIfAbsent. pose proof (cleanupIfExpired_conserves now key c Hd) as Hg.
    destruct (cache (cleanupIfExpired now key c) !! key) eqn:E; [done|].
    apply (conserves_trans [] [value] _ _ _ Hg). by apply Put_conserves, cleanupIfExpired_disposing.
  - by apply Remove_conserves.
  - by apply Clear_conserves.
  - by apply Clear_conserves.
  - unfold cleanupPass. case_match; [apply conserves_refl|]. apply sc_drop_conserves; [done|].
    rewrite <-fmap_app. apply fmap_Permutation.
    by apply (filter_drops 1 (cache c) (fun e => shouldCleanup (tick e.1) (shouldDisposeFunc c) e.2 = true)).
Qed.

(** Operations that leave the entry of [k] alone while its time is [t]. *)
Definition leaves (k : string) (t : Z) (o : Op) : Prop :=
  match o with
  | OPut _ k' _ _ | OGet _ _ k' _ | OComputeIfAbsent _ _ _ k' _ _
  | OComputeIfAbsentWithError _ _ _ k' _ _ | OPutIfAbsent _ _ k' _ _ | ORemove k' => k' <> k
  | OClear _ | OCleanUp _ => False
  | OPass _ tick => tick k <= t
  end.

Lemma not_shouldCleanup now f v : now <= expirationTime v -> shouldCleanup now f v = false.
Proof.
  intros Ht. unfold shouldCleanup, isExpired.
  destruct (Z.ltb_spec (expirationTime v) now); [lia|]. by destruct f.
Qed.

Lemma cleanupIfExpired_other now k k' c :
  k' <> k -> cache (cleanupIfExpired now k' c) !! k = cache c !! k.
Proof.
  intros Hk. unfold cleanupIfExpired. repeat case_match; rewrite ?sc_cache_dispose; simpl; [|done..].
  by rewrite lookup_delete_ne.
Qed.

Lemma Remove_other k k' c : k' <> k -> cache (Remove k' c) !! k = cache c !! k.
Proof. intros Hk. unfold Remove. case_match; rewrite ?sc_cache_dispose; simpl; by rewrite lookup_delete_ne. Qed.

Lemma Get_other now now' k k' e c : k' <> k -> cache (Get now now' k' e c).1 !! k = cache c !! k.
Proof.
  intros Hk. unfold Get. case_match; simpl; rewrite ?lookup_insert_ne by done; by apply cleanupIfExpired_other.
Qed.

Lemma step_leaves k x o c :
  leaves k (expirationTime x) o -> cache c !! k = Some x -> cache (step o c) !! k = Some x.
Proof.
  intros Hl Hx. destruct o; simpl in *; try done.
  - unfold Put; simpl. by rewrite lookup_insert_ne, Remove_other.
  - by rewrite Get_other.
  - unfold ComputeIfAbsent. pose proof (Get_other now now' k key expiration c Hl) as Hg.
    destruct (Get _ _ _ _ _) as [c' []]; simpl in *; rewrite ?lookup_insert_ne by done; congruence.
  - unfold ComputeIfAbsentWithError. pose proof (Get_other now now' k key expiration c Hl) as Hg.
    destruct (Get _ _ _ _ _) as [c' []]; [simpl in *; congruence|].
    destruct computed; simpl in *; rewrite ?lookup_insert_ne by done; congruence.
  - unfold PutIfAbsent. pose proof (cleanupIfExpired_other now k key c Hl) as Hg.
    case_match; simpl; [congruence|]. rewrite lookup_insert_ne, Remove_other by done. congruence.
  - by rewrite Remove_other.
  - unfold cleanupPass. destruct done; [done|]. rewrite sc_cache_dispose. simpl.
    apply map_lookup_filter_Some. split; [done|]. simpl. rewrite not_shouldCleanup by done. done.
Qed.

(** ** Properties *)

(** On a SlidingExpirationCache with a disposal function, after any
    interleaving of its operations with turns of the clean-up goroutine
    every item ever stored is either still in the cache or was disposed of
    exactly once. *)
Theorem SlidingCache_disposes_once ops c :
  itemDisposal c = true ->
  (item <$> vals (cache (run_ops step ops c))) ++ disposals (run_ops step ops c)
  ≡ₚ run_ins step stored ops c ++ (item <$> vals (cache c)) ++ disposals c.
Proof. refine (run_conserves step stored disposing sc_disposing_step sc_step_conserves ops c). Qed.

(** An entry a Get returned is not lost before its extended expiration:
    whatever operations on other keys and clean-up turns run up to that
    time, a later Get within it returns the same item. *)
Theorem SlidingCache_used_entry_survives now now' n n' k e e' v ops c :
  (Get now now' k e c).2 = Some v ->
  Forall (leaves k (now' + e)) ops -> n <= now' + e ->
  (Get n n' k e' (run_ops step ops (Get now now' k e c).1)).2 = Some v.
Proof.
  intros Hg Hops Hn.
  assert (exists x, cache (Get now now' k e c).1 !! k = Some x /\ expirationTime x = now' + e /\ item x = v) as (x & Hx & He & Hi).
  { clear Hops. revert Hg. unfold Get. destruct (cache (cleanupIfExpired now k c) !! k) as [y|]; simpl; [|done].
    intros [= <-]. eexists. by rewrite lookup_insert_eq. }
  assert (cache (run_ops step ops (Get now now' k e c).1) !! k = Some x) as Hrun.
  { clear Hg. revert Hx. generalize ((Get now now' k e c).1). induction Hops as [|o ops Ho _ IH]; simpl; [done|].
    rewrite <-He in Ho. intros c' Hc'. by apply IH, step_leaves. }
  rewrite Get_spec. unfold cleanupIfExpired. rewrite Hrun, not_shouldCleanup by (by rewrite He). by rewrite Hrun, <-Hi.
Qed.
End SlidingExpirationCache.
Arguments SlidingExpirationCache T : clear implicits.
Arguments Op T : clear implicits.

Lemma SlidingCache_disposes_once_witness :
  let c := run_ops step [OPut 0 "a" 1%nat 5; OGet 7 7 "a" 5; OPut 8 "b" 2%nat 5; OPass false (fun _ => 20)]
             (NewSlidingExpirationCache 0 true None) in
  (item <$> vals (cache c)) ++ disposals c ≡ₚ [1; 2]%nat.
Proof.
  etransitivity.
  - apply (SlidingCache_disposes_once
             [OPut 0 "a" 1%nat 5; OGet 7 7 "a" 5; OPut 8 "b" 2%nat 5; OPass false (fun _ => 20)]
             (NewSlidingExpirationCache 0 true None)). reflexivity.
  - vm_compute. reflexivity.
Defined.

Lemma SlidingCache_used_entry_survives_witness :
  let c := Put 0 "a" 1%nat 5 (NewSlidingExpirationCache 0 true None) in
  (Get 9 9 "a" 5 (run_ops step [OPass false (fun _ => 8); OPut 8 "b" 2%nat 5] (Get 4 4 "a" 5 c).1)).2 = Some 1%nat.
Proof.
  apply (SlidingCache_used_entry_survives 4 4 9 9 "a" 5 5 1%nat); [reflexivity| |lia].
  repeat constructor; simpl; [lia|discriminate].
Defined.
