(* ===== verification/ExpirationCache.v ===== *)
(** * ExpirationCache: the cache with one time to live
    (awssql/utils/expiration_cache.go).

    The store of the services (services/storage.go) is built on it. An entry
    past its time is invisible to [Get] unless [renewOnAccess] is set, stays in
    the map until [RemoveExpiredEntries], [Put], [ComputeIfAbsent] or [Remove],
    and is then given to the disposal function. *)

From S2P Require Import Prelude.

Section ExpirationCache.
Context {K : Type} `{Countable K} {V : Type} `{MapRange}.

Record expirationItem := mkItem {
  item : V;
  expirationTime : Z;
  shouldDispose : option (V -> bool)
}.

Record ExpirationCache := mkCache {
  cache : gmap K expirationItem;
  ttl : Z;
  renewOnAccess : bool;
  shouldDisposeFunc : option (V -> bool);
  itemDisposal : bool;
  disposals : list V
}.

Definition isExpired (now : Z) (e : expirationItem) : bool := expirationTime e <? now.
Definition shouldCleanup (now : Z) (e : expirationItem) : bool :=
  if negb (isExpired now e) then false
  else match shouldDispose e with Some f => f (item e) | None => true end.
Definition extendExpiration (now ttl : Z) (e : expirationItem) : expirationItem :=
  mkItem (item e) (now + ttl) (shouldDispose e).

Definition NewExpirationCache (TTL : Z) (RenewOnAccess : bool) (ShouldDispose : option (V -> bool))
  (ItemDisposal : bool) : ExpirationCache :=
  mkCache ∅ (if TTL =? 0 then 5 * Minute else TTL) RenewOnAccess ShouldDispose ItemDisposal [].

Definition with_cache (m : gmap K expirationItem) (c : ExpirationCache) : ExpirationCache :=
  mkCache m (ttl c) (renewOnAccess c) (shouldDisposeFunc c) (itemDisposal c) (disposals c).
Definition dispose (vs : list V) (c : ExpirationCache) : ExpirationCache :=
  if itemDisposal c then
    mkCache (cache c) (ttl c) (renewOnAccess c) (shouldDisposeFunc c) true (disposals c ++ vs)
  else c.
Definition newItem (now : Z) (value : V) (c : ExpirationCache) : expirationItem :=
  mkItem value (now + ttl c) (shouldDisposeFunc c).

Definition Put (now : Z) (key : K) (value : V) (c : ExpirationCache) : ExpirationCache * option V :=
  let prev := cache c !! key in
  let c' := with_cache (<[key := newItem now value c]> (cache c)) c in
  match prev with
  | Some p => (dispose [item p] c', Some (item p))
  | None => (c', None)
  end.

Definition Get (now : Z) (key : K) (c : ExpirationCache) : ExpirationCache * option V :=
  if renewOnAccess c then
    match cache c !! key with
    | None => (c, None)
    | Some i => (with_cache (<[key := extendExpiration now (ttl c) i]> (cache c)) c, Some (item i))
    end
  else
    match cache c !! key with
    | None => (c, None)
    | Some i => if isExpired now i then (c, None) else (c, Some (item i))
    end.

Definition computeNew (now : Z) (key : K) (computed : V) (c : ExpirationCache) : ExpirationCache * V :=
  (with_cache (<[key := newItem now computed c]> (cache c)) c, computed).

(** The test, the disposal and the store are under one lock. *)
Definition ComputeIfAbsent (now now' : Z) (key : K) (computed : V) (c : ExpirationCache) : ExpirationCache * V :=
  match cache c !! key with
  | Some i =>
      if renewOnAccess c then
        (with_cache (<[key := extendExpiration now (ttl c) i]> (cache c)) c, item i)
      else if negb (isExpired now i) then (c, item i)
      else computeNew now' key computed (dispose [item i] c)
  | None => computeNew now' key computed c
  end.

Definition Exists (now : Z) (key : K) (c : ExpirationCache) : bool :=
  match cache c !! key with Some i => negb (shouldCleanup now i) | None => false end.

Definition Remove (key : K) (c : ExpirationCache) : ExpirationCache * option V :=
  let c' := with_cache (delete key (cache c)) c in
  match cache c !! key with
  | None => (c', None)
  | Some i => (dispose [item i] c', Some (item i))
  end.

Definition RemoveExpiredEntries (tick : K -> Z) (c : ExpirationCache) : ExpirationCache :=
  let toDispose := filter (fun e => shouldCleanup (tick e.1) e.2 = true) (range 0 (cache c)) in
  dispose (item <$> toDispose.*2)
    (with_cache (filter (fun e => ¬ shouldCleanup (tick e.1) e.2 = true) (cache c)) c).

Definition Clear (c : ExpirationCache) : ExpirationCache :=
  dispose (item <$> (range 1 (cache c)).*2) (with_cache ∅ c).
Definition GetEntries (c : ExpirationCache) : gmap K V := item <$> cache c.
Definition Size (c : ExpirationCache) : nat := size (cache c).

(** ** Runs *)

Inductive Op :=
| OPut (now : Z) (key : K) (value : V)
| OGet (now : Z) (key : K)
| OComputeIfAbsent (now now' : Z) (key : K) (computed : V)
| ORemove (key : K)
| ORemoveExpiredEntries (tick : K -> Z)
| OClear.

Definition step (o : Op) (c : ExpirationCache) : ExpirationCache :=
  match o with
  | OPut now k v => (Put now k v c).1
  | OGet now k => (Get now k c).1
  | OComputeIfAbsent now now' k v => (ComputeIfAbsent now now' k v c).1
  | ORemove k => (Remove k c).1
  | ORemoveExpiredEntries tick => RemoveExpiredEntries tick c
  | OClear => Clear c
  end.

(** The values an operation stores. *)
Definition stored (o : Op) (c : ExpirationCache) : list V :=
  match o with
  | OPut _ _ v => [v]
  | OComputeIfAbsent now _ k v =>
      match cache c !! k with
      | Some i => if renewOnAccess c || negb (isExpired now i) then [] else [v]
      | None => [v]
      end
  | _ => []
  end.

#[export] Instance Expiration_store : DisposingStore ExpirationCache V := {
  live := fun c => item <$> vals (cache c); disposed := disposals }.

(** ** Lemmas *)

Definition disposing (c : ExpirationCache) : Prop := itemDisposal c = true.

Lemma ec_cache_dispose vs c : cache (dispose vs c) = cache c.
Proof. unfold dispose. by destruct (itemDisposal c). Qed.

Lemma ec_disposing_dispose vs c : disposing (dispose vs c) <-> disposing c.
Proof. unfold disposing, dispose. destruct (itemDisposal c) eqn:E; simpl; by rewrite ?E. Qed.

Lemma ec_disposing_step o c : disposing c -> disposing (step o c).
Proof.
  intros Hd. destruct o; simpl.
  - unfold Put. case_match; simpl; [by apply ec_disposing_dispose|done].
  - unfold Get. repeat case_match; done.
  - unfold ComputeIfAbsent, computeNew. repeat case_match; simpl; try done.
    unfold disposing; simpl. by apply ec_disposing_dispose.
  - unfold Remove. case_match; simpl; [by apply ec_disposing_dispose|done].
  - unfold RemoveExpiredEntries. by apply ec_disposing_dispose.
  - unfold Clear. by apply ec_disposing_dispose.
Qed.

Lemma replace_conserves c k v x :
  disposing c -> cache c !! k = Some x ->
  conserves [item v] c (dispose [item x] (with_cache (<[k:=v]> (cache c)) c)).
Proof.
  intros Hd Hk. unfold conserves, dispose. simpl. unfold disposing in Hd. rewrite Hd. simpl.
  apply (perm_tail _ [item x] [item v]).
  pose proof (fmap_Permutation item _ _ (insert_drops (cache c) k v x Hk)) as Hp. by rewrite !fmap_app in Hp.
Qed.

Lemma ec_store_conserves c k v :
  cache c !! k = None -> conserves [item v] c (with_cache (<[k:=v]> (cache c)) c).
Proof. intros Hk. unfold conserves; simpl. by rewrite vals_insert_None. Qed.

Lemma ec_drop_conserves m vs c :
  disposing c -> (item <$> vals m) ++ vs ≡ₚ item <$> vals (cache c) ->
  conserves [] c (dispose vs (with_cache m c)).
Proof.
  intros Hd Hp. unfold conserves, dispose. simpl. unfold disposing in Hd. rewrite Hd. simpl.
  by apply (perm_tail _ _ []).
Qed.

Lemma ec_extend_conserves now c k x :
  cache c !! k = Some x ->
  conserves [] c (with_cache (<[k := extendExpiration now (ttl c) x]> (cache c)) c).
Proof.
  intros Hk. unfold conserves; simpl.
  pose proof (fmap_Permutation item _ _ (insert_drops (cache c) k (extendExpiration now (ttl c) x) x Hk)) as Hp.
  rewrite !fmap_app in Hp. simpl in Hp. rewrite Permutation_app_comm in Hp.
  apply (Permutation_app_inv_l [item x]) in Hp. by rewrite Hp.
Qed.

Lemma ec_step_conserves o c : disposing c -> conserves (stored o c) c (step o c).
Proof.
  intros Hd. destruct o; simpl.
  - unfold Put. destruct (cache c !! key) eqn:E; simpl.
    + by apply (replace_conserves c key (newItem now value c)).
    + by apply (ec_store_conserves c key (newItem now value c)).
  - unfold Get. repeat case_match; simpl; try apply conserves_refl. by apply ec_extend_conserves.
  - unfold ComputeIfAbsent, computeNew. destruct (cache c !! key) as [i|] eqn:E; simpl.
    + destruct (renewOnAccess c); simpl; [by apply ec_extend_conserves|].
      destruct (isExpired now i); simpl; [|apply conserves_refl].
      pose proof (replace_conserves c key (newItem now' computed c) i Hd E) as Hr.
      unfold dispose, with_cache, newItem in *. unfold disposing in Hd. rewrite Hd in *. simpl in *. done.
    + by apply (ec_store_conserves c key (newItem now' computed c)).
  - unfold Remove. destruct (cache c !! key) as [x|] eqn:E; simpl.
    + apply ec_drop_conserves; [done|].
      pose proof (fmap_Permutation item _ _ (delete_drops _ key x E)) as Hp. by rewrite fmap_app in Hp.
    + unfold conserves; simpl. by rewrite delete_id.
  - unfold RemoveExpiredEntries. apply ec_drop_conserves; [done|]. rewrite <-fmap_app. apply fmap_Permutation.
    apply (filter_drops 0 (cache c) (fun e => shouldCleanup (tick e.1) e.2 = true)).
  - unfold Clear. apply ec_drop_conserves; [done|]. by rewrite vals_empty, vals_range.
Qed.

(** ** Properties *)

(** On an ExpirationCache with a disposal function, after any sequence
    of operations every item ever stored is either still in the cache or was
    disposed of exactly once. *)
Theorem ExpirationCache_disposes_once ops c :
  itemDisposal c = true ->
  (item <$> vals (cache (run_ops step ops c))) ++ disposals (run_ops step ops c)
  ≡ₚ run_ins step stored ops c ++ (item <$> vals (cache c)) ++ disposals c.
Proof. refine (run_conserves step stored disposing ec_disposing_step ec_step_conserves ops c). Qed.

(** A clean-up never removes what [Get] would still return. *)
Theorem RemoveExpiredEntries_keeps_visible tick now k c :
  tick k <= now ->
  (Get now k (RemoveExpiredEntries tick c)).2 =
    (if renewOnAccess c && Exists (tick k) k c || negb (renewOnAccess c) then (Get now k c).2 else None).
Proof.
  intros Ht. unfold RemoveExpiredEntries, Get, Exists.
  assert (forall vs c, renewOnAccess (dispose vs c) = renewOnAccess c) as Hr
    by (intros vs c'; unfold dispose; by destruct (itemDisposal c')).
  assert (forall x, shouldCleanup (tick k) x = true -> isExpired now x = true) as Hx.
  { intros x. unfold shouldCleanup, isExpired. destruct (Z.ltb_spec (expirationTime x) (tick k)); [|done].
    intros _. apply Z.ltb_lt. lia. }
  rewrite Hr, ec_cache_dispose. simpl.
  destruct (cache c !! k) as [x|] eqn:E.
  - destruct (shouldCleanup (tick k) x) eqn:Es.
    + assert (filter (fun e => ¬ shouldCleanup (tick e.1) e.2 = true) (cache c) !! k = None) as ->.
      { apply map_lookup_filter_None. right. intros y Hy. rewrite E in Hy. injection Hy as <-. simpl. rewrite Es. auto. }
      destruct (renewOnAccess c); simpl; [done|]. by rewrite (Hx x Es).
    + assert (filter (fun e => ¬ shouldCleanup (tick e.1) e.2 = true) (cache c) !! k = Some x) as ->.
      { apply map_lookup_filter_Some. split; [done|]. simpl. by rewrite Es. }
      destruct (renewOnAccess c); simpl; [done|]. by destruct (isExpired now x).
  - assert (filter (fun e => ¬ shouldCleanup (tick e.1) e.2 = true) (cache c) !! k = None) as ->.
    { apply map_lookup_filter_None. by left. }
    by destruct (renewOnAccess c).
Qed.
End ExpirationCache.
Arguments ExpirationCache K {_ _} V.
Arguments expirationItem V : clear implicits.
Arguments Op K V : clear implicits.

Lemma ExpirationCache_disposes_once_witness :
  let c := run_ops step [OPut 0 "a" 1%nat; OPut 1 "a" 2%nat; OComputeIfAbsent 20 20 "a" 3%nat; OClear]
             (NewExpirationCache 10 false None true : ExpirationCache string nat) in
  (item <$> vals (cache c)) ++ disposals c ≡ₚ [1; 2; 3]%nat.
Proof.
  etransitivity.
  - apply (ExpirationCache_disposes_once
             [OPut 0 "a" 1%nat; OPut 1 "a" 2%nat; OComputeIfAbsent 20 20 "a" 3%nat; OClear]
             (NewExpirationCache 10 false None true : ExpirationCache string nat)). reflexivity.
  - vm_compute. reflexivity.
Defined.

Lemma RemoveExpiredEntries_keeps_visible_witness :
  (Get 7 "a" (RemoveExpiredEntries (fun _ => 6)
     (Put 0 "a" 1%nat (NewExpirationCache 10 false None true : ExpirationCache string nat)).1)).2 = Some 1%nat.
Proof.
  etransitivity; [apply (RemoveExpiredEntries_keeps_visible (fun _ => 6) 7 "a"); simpl; lia|reflexivity].
Defined.
