(* ===== verification/Properties.v ===== *)
(** * Properties: the connection properties (awssql/property_util/aws_wrapper_property.go).

    A property has a name, a default and a type; [GetVerified] reads one from a
    map at a Go type. The descriptions are not modelled. A Go
    [map[string]string] is a [gmap]; so is the [RWMap[string, string]] of the
    properties, which has no disposal function (RWMap.v), with [None] for the
    nil pointer. *)

From S2P Require Import Prelude.

Definition DEFAULT_PLUGINS : string := "auroraConnectionTracker,failover,efm".
Definition MONITORING_PROPERTY_PREFIX : string := "monitoring-".
Definition LIMITLESS_PROPERTY_PREFIX : string := "limitless".
Definition INTERNAL_CONNECT_PROPERTY_NAME : string := "76c06979-49c4-4c86-9600-a63605b83f50".
Definition BG_PROPERTY_PREFIX : string := "blue-green-monitoring-".
Definition INTERNAL_PROPS_PREFIXES : list string :=
  [MONITORING_PROPERTY_PREFIX; INTERNAL_CONNECT_PROPERTY_NAME; LIMITLESS_PROPERTY_PREFIX; BG_PROPERTY_PREFIX].

(** [WrapperPropertyType]; a property that leaves the type out has the zero of
    the Go type, which is none of the constants. *)
Definition WRAPPER_TYPE_INT : Z := 1.
Definition WRAPPER_TYPE_STRING : Z := 2.
Definition WRAPPER_TYPE_BOOL : Z := 3.

Record AwsWrapperProperty := mkProperty { Name : string; defaultValue : string; wrapperPropertyType : Z }.

(** ** The properties *)

Definition USER := mkProperty "user" "" WRAPPER_TYPE_STRING.
Definition PASSWORD := mkProperty "password" "" WRAPPER_TYPE_STRING.
Definition HOST := mkProperty "host" "" WRAPPER_TYPE_STRING.
Definition PORT := mkProperty "port" "" WRAPPER_TYPE_INT.
Definition DATABASE := mkProperty "database" "" WRAPPER_TYPE_STRING.
Definition DRIVER_PROTOCOL := mkProperty "protocol" "" WRAPPER_TYPE_STRING.
Definition NET := mkProperty "net" "" WRAPPER_TYPE_STRING.
Definition SINGLE_WRITER_DSN := mkProperty "singleWriterDsn" "false" WRAPPER_TYPE_BOOL.
Definition PLUGINS := mkProperty "plugins" DEFAULT_PLUGINS WRAPPER_TYPE_STRING.
Definition AUTO_SORT_PLUGIN_ORDER := mkProperty "autoSortPluginOrder" "true" WRAPPER_TYPE_BOOL.
Definition DIALECT := mkProperty "databaseDialect" "" WRAPPER_TYPE_STRING.
Definition TARGET_DRIVER_DIALECT := mkProperty "targetDriverDialect" "" WRAPPER_TYPE_STRING.
Definition TARGET_DRIVER_AUTO_REGISTER := mkProperty "targetDriverAutoRegister" "true" WRAPPER_TYPE_BOOL.
Definition CLUSTER_TOPOLOGY_REFRESH_RATE_MS := mkProperty "clusterTopologyRefreshRateMs" "30000" WRAPPER_TYPE_INT.
Definition CLUSTER_ID := mkProperty "clusterId" "1" WRAPPER_TYPE_STRING.
Definition CLUSTER_INSTANCE_HOST_PATTERN := mkProperty "clusterInstanceHostPattern" "" WRAPPER_TYPE_STRING.
Definition GLOBAL_CLUSTER_INSTANCE_HOST_PATTERNS := mkProperty "globalClusterInstanceHostPatterns" "" WRAPPER_TYPE_STRING.
Definition FAILURE_DETECTION_TIME_MS := mkProperty "failureDetectionTimeMs" "30000" WRAPPER_TYPE_INT.
Definition FAILURE_DETECTION_INTERVAL_MS := mkProperty "failureDetectionIntervalMs" "5000" WRAPPER_TYPE_INT.
Definition FAILURE_DETECTION_COUNT := mkProperty "failureDetectionCount" "3" WRAPPER_TYPE_INT.
Definition MONITOR_DISPOSAL_TIME_MS := mkProperty "monitorDisposalTimeMs" "600000" WRAPPER_TYPE_INT.
Definition AWS_PROFILE := mkProperty "awsProfile" "" WRAPPER_TYPE_STRING.
Definition IAM_HOST := mkProperty "iamHost" "" WRAPPER_TYPE_STRING.
Definition IAM_DEFAULT_PORT := mkProperty "iamDefaultPort" "-1" WRAPPER_TYPE_INT.
Definition IAM_REGION := mkProperty "iamRegion" "" WRAPPER_TYPE_STRING.
Definition IAM_EXPIRATION_SEC := mkProperty "iamExpirationSec" "870" WRAPPER_TYPE_INT.
Definition FAILOVER_TIMEOUT_MS := mkProperty "failoverTimeoutMs" "300000" WRAPPER_TYPE_INT.
Definition FAILOVER_MODE := mkProperty "failoverMode" "" WRAPPER_TYPE_STRING.
Definition FAILOVER_READER_HOST_SELECTOR_STRATEGY := mkProperty "failoverReaderHostSelectorStrategy" "random" WRAPPER_TYPE_STRING.
Definition GDB_FAILOVER_ACTIVE_HOME_MODE := mkProperty "activeHomeFailoverMode" "" WRAPPER_TYPE_STRING.
Definition GDB_FAILOVER_INACTIVE_HOME_MODE := mkProperty "inactiveHomeFailoverMode" "" WRAPPER_TYPE_STRING.
Definition GDB_FAILOVER_HOME_REGION := mkProperty "failoverHomeRegion" "" WRAPPER_TYPE_STRING.
Definition ENABLE_CONNECT_FAILOVER := mkProperty "enableConnectFailover" "true" WRAPPER_TYPE_BOOL.
Definition CLUSTER_TOPOLOGY_HIGH_REFRESH_RATE_MS := mkProperty "clusterTopologyHighRefreshRateMs" "100" WRAPPER_TYPE_INT.
Definition CLUSTER_TOPOLOGY_CONNECT_TIMEOUT_MS := mkProperty "clusterTopologyConnectTimeoutMs" "5000" WRAPPER_TYPE_INT.
Definition CLUSTER_TOPOLOGY_SOCKET_TIMEOUT_MS := mkProperty "clusterTopologySocketTimeoutMs" "5000" WRAPPER_TYPE_INT.
Definition SECRETS_MANAGER_SECRET_ID := mkProperty "secretsManagerSecretId" "" WRAPPER_TYPE_STRING.
Definition SECRETS_MANAGER_REGION := mkProperty "secretsManagerRegion" "us-east-1" WRAPPER_TYPE_STRING.
Definition SECRETS_MANAGER_ENDPOINT := mkProperty "secretsManagerEndpoint" "" WRAPPER_TYPE_STRING.
Definition SECRETS_MANAGER_EXPIRATION_SEC := mkProperty "secretsManagerExpirationSec" "870" WRAPPER_TYPE_INT.
Definition SECRETS_MANAGER_SECRET_USERNAME_PROPERTY := mkProperty "secretsManagerSecretUsernameProperty" "username" WRAPPER_TYPE_STRING.
Definition SECRETS_MANAGER_SECRET_PASSWORD_PROPERTY := mkProperty "secretsManagerSecretPasswordProperty" "password" WRAPPER_TYPE_STRING.
Definition WEIGHTED_RANDOM_HOST_WEIGHT_PAIRS := mkProperty "weightedRandomHostWeightPairs" "" WRAPPER_TYPE_STRING.
Definition IAM_TOKEN_EXPIRATION_SEC := mkProperty "iamTokenExpirationSec" "870" WRAPPER_TYPE_INT.
Definition IDP_USERNAME := mkProperty "idpUsername" "" WRAPPER_TYPE_STRING.
Definition IDP_PASSWORD := mkProperty "idpPassword" "" WRAPPER_TYPE_STRING.
Definition IDP_PORT := mkProperty "idpPort" "443" WRAPPER_TYPE_STRING.
Definition IAM_ROLE_ARN := mkProperty "iamRoleArn" "" WRAPPER_TYPE_STRING.
Definition IAM_IDP_ARN := mkProperty "iamIdpArn" "" WRAPPER_TYPE_STRING.
Definition IDP_ENDPOINT := mkProperty "idpEndpoint" "" WRAPPER_TYPE_STRING.
Definition RELAYING_PARTY_ID := mkProperty "rpIdentifier" "urn:amazon:webservices" WRAPPER_TYPE_STRING.
Definition DB_USER := mkProperty "dbUser" "" WRAPPER_TYPE_STRING.
Definition APP_ID := mkProperty "appId" "" WRAPPER_TYPE_STRING.
Definition HTTP_TIMEOUT_MS := mkProperty "httpTimeoutMs" "60000" WRAPPER_TYPE_INT.
Definition SSL_INSECURE := mkProperty "sslInsecure" "false" WRAPPER_TYPE_BOOL.
Definition ENABLE_TELEMETRY := mkProperty "enableTelemetry" "false" WRAPPER_TYPE_BOOL.
Definition TELEMETRY_SUBMIT_TOP_LEVEL := mkProperty "telemetrySubmitToplevel" "false" WRAPPER_TYPE_BOOL.
Definition TELEMETRY_TRACES_BACKEND := mkProperty "telemetryTracesBackend" "" WRAPPER_TYPE_STRING.
Definition TELEMETRY_METRICS_BACKEND := mkProperty "telemetryMetricsBackend" "" WRAPPER_TYPE_STRING.
Definition TELEMETRY_FAILOVER_ADDITIONAL_TOP_TRACE := mkProperty "telemetryFailoverAdditionalTopTrace" "false" WRAPPER_TYPE_BOOL.
Definition LIMITLESS_MONITORING_INTERVAL_MS := mkProperty "limitlessMonitoringIntervalMs" "7500" WRAPPER_TYPE_INT.
Definition LIMITLESS_MONITORING_DISPOSAL_TIME_MS := mkProperty "limitlessTransactionRouterMonitorDisposalTimeMs" "600000" WRAPPER_TYPE_INT.
Definition LIMITLESS_ROUTER_CACHE_EXPIRATION_TIME_MS := mkProperty "limitlessTransactionRouterCacheExpirationTimeMs" "600000" WRAPPER_TYPE_INT.
Definition LIMITLESS_WAIT_FOR_ROUTER_INFO := mkProperty "limitlessWaitForTransactionRouterInfo" "true" WRAPPER_TYPE_BOOL.
Definition LIMITLESS_GET_ROUTER_MAX_RETRIES := mkProperty "limitlessGetTransactionRouterInfoMaxRetries" "5" WRAPPER_TYPE_INT.
Definition LIMITLESS_GET_ROUTER_RETRY_INTERVAL_MS := mkProperty "limitlessGetTransactionRouterInfoRetryIntervalMs" "500" WRAPPER_TYPE_INT.
Definition LIMITLESS_MAX_CONN_RETRIES := mkProperty "limitlessConnectMaxRetries" "5" WRAPPER_TYPE_INT.
Definition LIMITLESS_ROUTER_QUERY_TIMEOUT_MS := mkProperty "limitlessTransactionRouterFetchTimeoutMs" "5000" WRAPPER_TYPE_INT.
Definition LIMITLESS_USE_SHARD_GROUP_URL := mkProperty "limitlessUseShardGroupUrl" "true" WRAPPER_TYPE_BOOL.
Definition TRANSFER_SESSION_STATE_ON_SWITCH := mkProperty "transferSessionStateOnSwitch" "true" WRAPPER_TYPE_BOOL.
Definition RESET_SESSION_STATE_ON_CLOSE := mkProperty "resetSessionStateOnClose" "true" WRAPPER_TYPE_BOOL.
Definition ROLLBACK_ON_SWITCH := mkProperty "rollbackOnSwitch" "true" WRAPPER_TYPE_BOOL.
Definition READER_HOST_SELECTOR_STRATEGY := mkProperty "readerHostSelectorStrategy" "random" WRAPPER_TYPE_STRING.
Definition GDB_RW_HOME_REGION := mkProperty "gdbRwHomeRegion" "" WRAPPER_TYPE_STRING.
Definition GDB_RW_RESTRICT_WRITER_TO_HOME_REGION := mkProperty "gdbRwRestrictWriterToHomeRegion" "true" WRAPPER_TYPE_BOOL.
Definition GDB_RW_RESTRICT_READER_TO_HOME_REGION := mkProperty "gdbRwRestrictReaderToHomeRegion" "true" WRAPPER_TYPE_BOOL.
Definition BG_CONNECT_TIMEOUT_MS := mkProperty "bgConnectTimeoutMs" "30000" WRAPPER_TYPE_INT.
Definition BGD_ID := mkProperty "bgdId" "1" WRAPPER_TYPE_STRING.
Definition BG_INTERVAL_BASELINE_MS := mkProperty "bgBaselineMs" "60000" WRAPPER_TYPE_INT.
Definition BG_INTERVAL_INCREASED_MS := mkProperty "bgIncreasedMs" "1000" WRAPPER_TYPE_INT.
Definition BG_INTERVAL_HIGH_MS := mkProperty "bgHighMs" "100" WRAPPER_TYPE_INT.
Definition BG_SWITCHOVER_TIMEOUT_MS := mkProperty "bgSwitchoverTimeoutMs" "180000" WRAPPER_TYPE_INT.
Definition BG_SUSPEND_NEW_BLUE_CONNECTIONS := mkProperty "bgSuspendNewBlueConnections" "false" WRAPPER_TYPE_BOOL.
Definition ROUND_ROBIN_HOST_WEIGHT_PAIRS := mkProperty "roundRobinHostWeightPairs" "" 0.
Definition ROUND_ROBIN_DEFAULT_WEIGHT_PROPERTY := mkProperty "roundRobinDefaultWeight" "1" WRAPPER_TYPE_INT.
Definition CUSTOM_ENDPOINT_INFO_REFRESH_RATE_MS := mkProperty "customEndpointInfoRefreshRateMs" "30000" WRAPPER_TYPE_INT.
Definition WAIT_FOR_CUSTOM_ENDPOINT_INFO := mkProperty "waitForCustomEndpointInfo" "true" WRAPPER_TYPE_BOOL.
Definition WAIT_FOR_CUSTOM_ENDPOINT_INFO_TIMEOUT_MS := mkProperty "waitForCustomEndpointInfoTimeoutMs" "5000" WRAPPER_TYPE_INT.
Definition CUSTOM_ENDPOINT_MONITOR_IDLE_EXPIRATION_MS := mkProperty "customEndpointMonitorExpirationMs" "900000" WRAPPER_TYPE_INT.
Definition CUSTOM_ENDPOINT_REGION_PROPERTY := mkProperty "customEndpointRegion" "" WRAPPER_TYPE_STRING.
Definition READER_INITIAL_CONN_HOST_SELECTOR_STRATEGY := mkProperty "readerInitialConnectionHostSelectorStrategy" "random" WRAPPER_TYPE_STRING.
Definition INITIAL_CONNECTION_RETRY_TIMEOUT_MS := mkProperty "initialConnectionRetryTimeoutMs" "30000" WRAPPER_TYPE_INT.
Definition INITIAL_CONNECTION_RETRY_INTERVAL_MS := mkProperty "initialConnectionRetryIntervalMs" "1000" WRAPPER_TYPE_INT.
Definition VERIFY_INITIAL_CONNECTION_TYPE := mkProperty "verifyInitialConnectionType" "" WRAPPER_TYPE_STRING.

(** [ROUND_ROBIN_DEFAULT_WEIGHT] of this package; the constant of the same
    name in driver_infrastructure is in HostSelectors.v. *)
Definition all_properties : list AwsWrapperProperty :=
  [USER; PASSWORD; HOST; PORT; DATABASE; DRIVER_PROTOCOL; NET; SINGLE_WRITER_DSN; PLUGINS;
   AUTO_SORT_PLUGIN_ORDER; DIALECT; TARGET_DRIVER_DIALECT; TARGET_DRIVER_AUTO_REGISTER;
   CLUSTER_TOPOLOGY_REFRESH_RATE_MS; CLUSTER_ID; CLUSTER_INSTANCE_HOST_PATTERN;
   GLOBAL_CLUSTER_INSTANCE_HOST_PATTERNS; FAILURE_DETECTION_TIME_MS; FAILURE_DETECTION_INTERVAL_MS;
   FAILURE_DETECTION_COUNT; MONITOR_DISPOSAL_TIME_MS; AWS_PROFILE; IAM_HOST; IAM_DEFAULT_PORT; IAM_REGION;
   IAM_EXPIRATION_SEC; FAILOVER_TIMEOUT_MS; FAILOVER_MODE; FAILOVER_READER_HOST_SELECTOR_STRATEGY;
   GDB_FAILOVER_ACTIVE_HOME_MODE; GDB_FAILOVER_INACTIVE_HOME_MODE; GDB_FAILOVER_HOME_REGION;
   ENABLE_CONNECT_FAILOVER; CLUSTER_TOPOLOGY_HIGH_REFRESH_RATE_MS; CLUSTER_TOPOLOGY_CONNECT_TIMEOUT_MS;
   CLUSTER_TOPOLOGY_SOCKET_TIMEOUT_MS; SECRETS_MANAGER_SECRET_ID; SECRETS_MANAGER_REGION;
   SECRETS_MANAGER_ENDPOINT; SECRETS_MANAGER_EXPIRATION_SEC; SECRETS_MANAGER_SECRET_USERNAME_PROPERTY;
   SECRETS_MANAGER_SECRET_PASSWORD_PROPERTY; WEIGHTED_RANDOM_HOST_WEIGHT_PAIRS; IAM_TOKEN_EXPIRATION_SEC;
   IDP_USERNAME; IDP_PASSWORD; IDP_PORT; IAM_ROLE_ARN; IAM_IDP_ARN; IDP_ENDPOINT; RELAYING_PARTY_ID; DB_USER;
   APP_ID; HTTP_TIMEOUT_MS; SSL_INSECURE; ENABLE_TELEMETRY; TELEMETRY_SUBMIT_TOP_LEVEL;
   TELEMETRY_TRACES_BACKEND; TELEMETRY_METRICS_BACKEND; TELEMETRY_FAILOVER_ADDITIONAL_TOP_TRACE;
   LIMITLESS_MONITORING_INTERVAL_MS; LIMITLESS_MONITORING_DISPOSAL_TIME_MS;
   LIMITLESS_ROUTER_CACHE_EXPIRATION_TIME_MS; LIMITLESS_WAIT_FOR_ROUTER_INFO;
   LIMITLESS_GET_ROUTER_MAX_RETRIES; LIMITLESS_GET_ROUTER_RETRY_INTERVAL_MS; LIMITLESS_MAX_CONN_RETRIES;
   LIMITLESS_ROUTER_QUERY_TIMEOUT_MS; LIMITLESS_USE_SHARD_GROUP_URL; TRANSFER_SESSION_STATE_ON_SWITCH;
   RESET_SESSION_STATE_ON_CLOSE; ROLLBACK_ON_SWITCH; READER_HOST_SELECTOR_STRATEGY; GDB_RW_HOME_REGION;
   GDB_RW_RESTRICT_WRITER_TO_HOME_REGION; GDB_RW_RESTRICT_READER_TO_HOME_REGION; BG_CONNECT_TIMEOUT_MS;
   BGD_ID; BG_INTERVAL_BASELINE_MS; BG_INTERVAL_INCREASED_MS; BG_INTERVAL_HIGH_MS; BG_SWITCHOVER_TIMEOUT_MS;
   BG_SUSPEND_NEW_BLUE_CONNECTIONS; ROUND_ROBIN_HOST_WEIGHT_PAIRS; ROUND_ROBIN_DEFAULT_WEIGHT_PROPERTY;
   CUSTOM_ENDPOINT_INFO_REFRESH_RATE_MS; WAIT_FOR_CUSTOM_ENDPOINT_INFO;
   WAIT_FOR_CUSTOM_ENDPOINT_INFO_TIMEOUT_MS; CUSTOM_ENDPOINT_MONITOR_IDLE_EXPIRATION_MS;
   CUSTOM_ENDPOINT_REGION_PROPERTY; READER_INITIAL_CONN_HOST_SELECTOR_STRATEGY;
   INITIAL_CONNECTION_RETRY_TIMEOUT_MS; INITIAL_CONNECTION_RETRY_INTERVAL_MS; VERIFY_INITIAL_CONNECTION_TYPE].

Definition ALL_WRAPPER_PROPERTIES : list string :=
  Name <$>
  [USER; PASSWORD; HOST; PORT; DATABASE; DRIVER_PROTOCOL; NET; SINGLE_WRITER_DSN; PLUGINS;
   AUTO_SORT_PLUGIN_ORDER; DIALECT; TARGET_DRIVER_DIALECT; TARGET_DRIVER_AUTO_REGISTER;
   CLUSTER_TOPOLOGY_REFRESH_RATE_MS; CLUSTER_ID; CLUSTER_INSTANCE_HOST_PATTERN;
   GLOBAL_CLUSTER_INSTANCE_HOST_PATTERNS; AWS_PROFILE; IAM_HOST; IAM_EXPIRATION_SEC; IAM_REGION;
   IAM_DEFAULT_PORT; SECRETS_MANAGER_SECRET_ID; SECRETS_MANAGER_REGION; SECRETS_MANAGER_ENDPOINT;
   SECRETS_MANAGER_EXPIRATION_SEC; SECRETS_MANAGER_SECRET_USERNAME_PROPERTY;
   SECRETS_MANAGER_SECRET_PASSWORD_PROPERTY; FAILURE_DETECTION_TIME_MS; FAILURE_DETECTION_INTERVAL_MS;
   FAILURE_DETECTION_COUNT; MONITOR_DISPOSAL_TIME_MS; FAILOVER_TIMEOUT_MS; FAILOVER_MODE;
   FAILOVER_READER_HOST_SELECTOR_STRATEGY; GDB_FAILOVER_ACTIVE_HOME_MODE; GDB_FAILOVER_INACTIVE_HOME_MODE;
   GDB_FAILOVER_HOME_REGION; ENABLE_CONNECT_FAILOVER; CLUSTER_TOPOLOGY_HIGH_REFRESH_RATE_MS;
   CLUSTER_TOPOLOGY_CONNECT_TIMEOUT_MS; CLUSTER_TOPOLOGY_SOCKET_TIMEOUT_MS; WEIGHTED_RANDOM_HOST_WEIGHT_PAIRS;
   IAM_TOKEN_EXPIRATION_SEC; IDP_USERNAME; IDP_PASSWORD; IDP_PORT; IAM_ROLE_ARN; IAM_IDP_ARN; IDP_ENDPOINT;
   RELAYING_PARTY_ID; DB_USER; APP_ID; HTTP_TIMEOUT_MS; SSL_INSECURE; ENABLE_TELEMETRY;
   TELEMETRY_SUBMIT_TOP_LEVEL; TELEMETRY_TRACES_BACKEND; TELEMETRY_METRICS_BACKEND;
   TELEMETRY_FAILOVER_ADDITIONAL_TOP_TRACE; LIMITLESS_MONITORING_INTERVAL_MS;
   LIMITLESS_MONITORING_DISPOSAL_TIME_MS; LIMITLESS_ROUTER_CACHE_EXPIRATION_TIME_MS;
   LIMITLESS_WAIT_FOR_ROUTER_INFO; LIMITLESS_GET_ROUTER_MAX_RETRIES; LIMITLESS_GET_ROUTER_RETRY_INTERVAL_MS;
   LIMITLESS_MAX_CONN_RETRIES; LIMITLESS_ROUTER_QUERY_TIMEOUT_MS; TRANSFER_SESSION_STATE_ON_SWITCH;
   RESET_SESSION_STATE_ON_CLOSE; ROLLBACK_ON_SWITCH; READER_HOST_SELECTOR_STRATEGY; GDB_RW_HOME_REGION;
   GDB_RW_RESTRICT_WRITER_TO_HOME_REGION; GDB_RW_RESTRICT_READER_TO_HOME_REGION; BG_CONNECT_TIMEOUT_MS;
   BGD_ID; BG_INTERVAL_BASELINE_MS; BG_INTERVAL_INCREASED_MS; BG_INTERVAL_HIGH_MS; BG_SWITCHOVER_TIMEOUT_MS;
   BG_SUSPEND_NEW_BLUE_CONNECTIONS; CUSTOM_ENDPOINT_INFO_REFRESH_RATE_MS; WAIT_FOR_CUSTOM_ENDPOINT_INFO;
   WAIT_FOR_CUSTOM_ENDPOINT_INFO_TIMEOUT_MS; CUSTOM_ENDPOINT_MONITOR_IDLE_EXPIRATION_MS;
   CUSTOM_ENDPOINT_REGION_PROPERTY; READER_INITIAL_CONN_HOST_SELECTOR_STRATEGY;
   INITIAL_CONNECTION_RETRY_TIMEOUT_MS; INITIAL_CONNECTION_RETRY_INTERVAL_MS; VERIFY_INITIAL_CONNECTION_TYPE].

(** ** Values *)

(** The dynamic values [convertValue] casts. *)
Inductive any := AnyInt (z : Z) | AnyBool (b : bool) | AnyString (s : string).

(** A type argument of [convertValue]: its zero and the cast of [any]. *)
Class GoType (T : Type) := { zero_value : T; cast : any -> option T }.
#[export] Instance int_type : GoType Z :=
  {| zero_value := 0; cast v := match v with AnyInt z => Some z | _ => None end |}.
#[export] Instance bool_type : GoType bool :=
  {| zero_value := false; cast v := match v with AnyBool b => Some b | _ => None end |}.
#[export] Instance string_type : GoType string :=
  {| zero_value := EmptyString; cast v := match v with AnyString s => Some s | _ => None end |}.

(** [strconv.ParseBool] *)
Definition ParseBool (s : string) : option bool :=
  if bool_decide (s ∈ ["1"; "t"; "T"; "true"; "TRUE"; "True"]) then Some true
  else if bool_decide (s ∈ ["0"; "f"; "F"; "false"; "FALSE"; "False"]) then Some false
  else None.

Definition GetFromMap (prop : AwsWrapperProperty) (props : gmap string string) : string :=
  match props !! Name prop with Some result => result | None => defaultValue prop end.
Definition Get (prop : AwsWrapperProperty) (props : option (gmap string string)) : string :=
  match props with None => defaultValue prop | Some props => GetFromMap prop props end.
Definition Set_ (prop : AwsWrapperProperty) (props : gmap string string) (val : string) : gmap string string :=
  <[Name prop := val]> props.

(** The result of a failed conversion of the default is the zero. *)
Definition parse_value (propValue : string) (property : AwsWrapperProperty) : any :=
  if wrapperPropertyType property =? WRAPPER_TYPE_INT then
    AnyInt (match Atoi propValue with Some z => z | None => default 0 (Atoi (defaultValue property)) end)
  else if wrapperPropertyType property =? WRAPPER_TYPE_BOOL then
    AnyBool (match ParseBool propValue with Some b => b | None => default false (ParseBool (defaultValue property)) end)
  else AnyString propValue.

Section Typed.
Context {T : Type} `{GoType T}.

Definition convertValue (propValue : string) (property : AwsWrapperProperty) : T :=
  default zero_value (cast (parse_value propValue property)).
Definition GetVerifiedWrapperPropertyValue (props : option (gmap string string)) (property : AwsWrapperProperty) : T :=
  convertValue (Get property props) property.
Definition GetVerifiedWrapperPropertyValueFromMap (props : gmap string string) (property : AwsWrapperProperty) : T :=
  convertValue (GetFromMap property props) property.
End Typed.

Definition GetPositiveIntProperty (props : option (gmap string string)) (property : AwsWrapperProperty) : Result Z :=
  let val : Z := GetVerifiedWrapperPropertyValue props property in
  if val <? 0 then Err (NewGenericAwsWrapperError "AwsWrapperProperty.requiresNonNegativeIntValue" [Name property])
  else Ok val.

(** The three readers below log a value that is not positive and return it. *)
Definition GetHttpTimeoutValue (props : option (gmap string string)) : Z :=
  GetVerifiedWrapperPropertyValue props HTTP_TIMEOUT_MS.
Definition GetExpirationValue (props : option (gmap string string)) (property : AwsWrapperProperty) : Z :=
  GetVerifiedWrapperPropertyValue props property.
Definition GetRefreshRateValue (props : option (gmap string string)) (property : AwsWrapperProperty) : Z :=
  GetVerifiedWrapperPropertyValue props property.

Definition startsWithPrefix (key : string) : bool := existsb (HasPrefix key) INTERNAL_PROPS_PREFIXES.

Definition RemoveInternalAwsWrapperProperties (props : gmap string string) : gmap string string :=
  filter (fun e => startsWithPrefix e.1 = false) props.

(** mask_helper.go *)
Definition SENSITIVE_PROPERTIES : list string := [Name PASSWORD; Name IDP_PASSWORD].
Definition MaskProperties (props : gmap string string) : gmap string string :=
  map_imap (fun key property => Some (if bool_decide (key ∈ SENSITIVE_PROPERTIES) then "***" else property)) props.

(** ** Facts about the table *)

(** The defaults have the type of their property, and the names are distinct. *)
Definition well_typed_default (p : AwsWrapperProperty) : bool :=
  is_empty (defaultValue p) ||
  (if wrapperPropertyType p =? WRAPPER_TYPE_INT then bool_decide (is_Some (Atoi (defaultValue p)))
   else if wrapperPropertyType p =? WRAPPER_TYPE_BOOL then bool_decide (is_Some (ParseBool (defaultValue p)))
   else true).

Theorem properties_well_formed : NoDup (Name <$> all_properties) /\ forallb well_typed_default all_properties = true.
Proof. split; [apply (bool_decide_unpack _); by vm_compute|by vm_compute]. Qed.

(** A property of the wrapper is internal or listed, but for two of them. *)
Definition reaches_driver (key : string) : bool :=
  negb (startsWithPrefix key) && negb (bool_decide (key ∈ ALL_WRAPPER_PROPERTIES)).

Theorem unlisted_properties :
  FilterSlice all_properties (fun p => reaches_driver (Name p)) =
  [ROUND_ROBIN_HOST_WEIGHT_PAIRS; ROUND_ROBIN_DEFAULT_WEIGHT_PROPERTY].
Proof. by vm_compute. Qed.

Lemma GetVerified_int p props :
  wrapperPropertyType p = WRAPPER_TYPE_INT ->
  GetVerifiedWrapperPropertyValue (Some props) p =
  match props !! Name p ≫= Atoi with Some z => z | None => default 0 (Atoi (defaultValue p)) end.
Proof.
  intros Ht. unfold GetVerifiedWrapperPropertyValue, convertValue, parse_value, Get, GetFromMap. rewrite Ht. simpl.
  destruct (props !! Name p) as [v|]; simpl; [done|]. by destruct (Atoi (defaultValue p)).
Qed.

Lemma GetVerified_string p props :
  wrapperPropertyType p <> WRAPPER_TYPE_INT -> wrapperPropertyType p <> WRAPPER_TYPE_BOOL ->
  GetVerifiedWrapperPropertyValueFromMap props p = GetFromMap p props.
Proof.
  intros Hi Hb. unfold GetVerifiedWrapperPropertyValueFromMap, convertValue, parse_value.
  by rewrite (proj2 (Z.eqb_neq _ _) Hi), (proj2 (Z.eqb_neq _ _) Hb).
Qed.
