(* ===== verification/Regex.v ===== *)
(** * Regex: the part of Go's regexp package the host patterns use.

    [re_match] is leftmost-first matching with submatches: alternatives in
    order, repetition greedy, the first way to match wins, which is the match
    Go documents for [regexp.MustCompile]. Hosts are ASCII, so a character is
    one byte and case folding is ASCII folding. [in_re] is the language of an
    expression; [re_match_sound] and [re_match_complete] relate the two. *)

From S2P Require Import Prelude.
From Stdlib Require Import Ascii.

Inductive re :=
| Eps
| Cls (f : ascii -> bool)
| Cat (r1 r2 : re)
| Alt (r1 r2 : re)
| Star (r : re)
| Grp (name : string) (r : re).

(** Submatches by group name, the last one recorded first. *)
Definition caps : Type := list (string * string).

(** The text between [s] and its suffix [s']. *)
Definition consumed (s s' : string) : string := take_string (String.length s - String.length s')%nat s.

(** Greedy repetition of a matcher; a turn that consumes nothing is not taken. *)
Fixpoint star_loop (m : string -> caps -> (string -> caps -> option caps) -> option caps)
  (k : string -> caps -> option caps) (fuel : nat) (s : string) (c : caps) : option caps :=
  match fuel with
  | O => k s c
  | S fuel =>
      match m s c (fun s' c' => if Nat.ltb (String.length s') (String.length s)
                                then star_loop m k fuel s' c' else None) with
      | Some x => Some x
      | None => k s c
      end
  end.

Fixpoint re_match (r : re) (s : string) (c : caps) (k : string -> caps -> option caps) : option caps :=
  match r with
  | Eps => k s c
  | Cls f => match s with String a s' => if f a then k s' c else None | EmptyString => None end
  | Cat r1 r2 => re_match r1 s c (fun s' c' => re_match r2 s' c' k)
  | Alt r1 r2 => match re_match r1 s c k with Some x => Some x | None => re_match r2 s c k end
  | Star r1 => star_loop (fun s c k => re_match r1 s c k) k (String.length s) s c
  | Grp name r1 => re_match r1 s c (fun s' c' => k s' ((name, consumed s s') :: c'))
  end.

Definition Opt (r : re) : re := Alt r Eps.
Definition Plus (r : re) : re := Cat r (Star r).
Fixpoint Rep (n : nat) (r : re) : re := match n with O => Eps | S n => Cat r (Rep n r) end.
(** [r{0,n}] *)
Fixpoint RepUpTo (n : nat) (r : re) : re := match n with O => Eps | S n => Opt (Cat r (RepUpTo n r)) end.

Definition Any : re := Cls (fun a => negb (Nat.eqb (nat_of_ascii a) 10)).
Definition Chr (c : ascii) : re := Cls (fun a => bool_decide (a = c)).
Definition ChrFold (c : ascii) : re := Cls (fun a => bool_decide (lower_ascii a = lower_ascii c)).
Fixpoint Str (chr : ascii -> re) (s : string) : re :=
  match s with EmptyString => Eps | String a r => Cat (chr a) (Str chr r) end.
Definition Lit : string -> re := Str Chr.
(** A literal under the flag (?i). *)
Definition LitI : string -> re := Str ChrFold.
Fixpoint Alts (l : list re) : re :=
  match l with [] => Cls (fun _ => false) | [r] => r | r :: l => Alt r (Alts l) end.

Definition between (lo hi : ascii) (a : ascii) : bool :=
  Nat.leb (nat_of_ascii lo) (nat_of_ascii a) && Nat.leb (nat_of_ascii a) (nat_of_ascii hi).

(** [^r$]: the match must end at the end of the text. *)
Definition match_anchored (r : re) (s : string) : option caps :=
  re_match r s [] (fun s' c => match s' with EmptyString => Some c | _ => None end).

(** Without anchors: the leftmost start that matches. *)
Fixpoint match_anywhere (r : re) (s : string) : option caps :=
  match re_match r s [] (fun _ c => Some c) with
  | Some c => Some c
  | None => match s with EmptyString => None | String _ s' => match_anywhere r s' end
  end.

Definition submatch (name : string) (c : caps) : string :=
  match list_find (fun e => e.1 = name) c with Some (_, (_, v)) => v | None => "" end.

(** ** The language of an expression *)

Inductive in_re : re -> string -> Prop :=
| in_Eps : in_re Eps ""
| in_Cls f a : f a = true -> in_re (Cls f) (String a "")
| in_Cat r1 r2 u v : in_re r1 u -> in_re r2 v -> in_re (Cat r1 r2) (u +:+ v)
| in_Alt_l r1 r2 u : in_re r1 u -> in_re (Alt r1 r2) u
| in_Alt_r r1 r2 u : in_re r2 u -> in_re (Alt r1 r2) u
| in_Star_nil r : in_re (Star r) ""
| in_Star_cons r u v : in_re r u -> in_re (Star r) v -> in_re (Star r) (u +:+ v)
| in_Grp n r u : in_re r u -> in_re (Grp n r) u.

Lemma re_match_sound r : forall s c k x,
  re_match r s c k = Some x -> exists u s' c', s = u +:+ s' /\ in_re r u /\ k s' c' = Some x.
Proof.
  induction r as [|f|r1 IH1 r2 IH2|r1 IH1 r2 IH2|r IH|n r IH]; intros s c k x; simpl.
  - intros Hk. exists "", s, c. repeat split; [constructor|done].
  - destruct s as [|a s]; [done|]. destruct (f a) eqn:E; [|done].
    intros Hk. exists (String a ""), s, c. repeat split; [by constructor|done].
  - intros (u & s1 & c1 & -> & Hu & Hk)%IH1. apply IH2 in Hk as (v & s2 & c2 & -> & Hv & Hk).
    exists (u +:+ v), s2, c2. rewrite string_app_assoc. repeat split; [by constructor|done].
  - destruct (re_match r1 s c k) eqn:E.
    + intros [= ->]. apply IH1 in E as (u & s1 & c1 & -> & Hu & Hk).
      exists u, s1, c1. repeat split; [by constructor|done].
    + intros (u & s1 & c1 & -> & Hu & Hk)%IH2. exists u, s1, c1. repeat split; [by apply in_Alt_r|done].
  - generalize (String.length s) as fuel. intros fuel. revert s c x.
    induction fuel as [|fuel IHf]; intros s c x.
    { intros Hk. exists "", s, c. repeat split; [constructor|done]. }
    cbn [star_loop]. set (k' s' c' := if Nat.ltb (String.length s') (String.length s) then _ else None).
    destruct (re_match r s c k') eqn:E.
    + intros [= ->]. apply IH in E as (u & s1 & c1 & -> & Hu & Hk).
      unfold k' in Hk. destruct (Nat.ltb _ _); [|done]. apply IHf in Hk as (v & s2 & c2 & -> & Hv & Hk).
      exists (u +:+ v), s2, c2. rewrite string_app_assoc. repeat split; [by constructor|done].
    + intros Hk. exists "", s, c. repeat split; [constructor|done].
  - intros (u & s1 & c1 & -> & Hu & Hk)%IH. exists u, s1, ((n, consumed (u +:+ s1) s1) :: c1).
    repeat split; [by constructor|done].
Qed.

Lemma string_length_app u v : String.length (u +:+ v) = (String.length u + String.length v)%nat.
Proof. induction u as [|a u IH]; [done|]. simpl. f_equal. exact IH. Qed.

Lemma string_app_empty u v : u +:+ v = "" -> u = "" /\ v = "".
Proof. destruct u as [|a u]; [done|discriminate]. Qed.

(** A continuation whose success does not depend on the submatches so far. *)
Definition caps_irrel (k : string -> caps -> option caps) : Prop :=
  forall s c c', is_Some (k s c) -> is_Some (k s c').

Lemma star_loop_irrel m k :
  (forall k', caps_irrel k' -> caps_irrel (fun s c => m s c k')) -> caps_irrel k ->
  forall fuel, caps_irrel (star_loop m k fuel).
Proof.
  intros Hm Hk fuel. induction fuel as [|fuel IH]; [done|]. intros s c c'. cbn [star_loop].
  set (k' s' c' := if Nat.ltb (String.length s') (String.length s) then star_loop m k fuel s' c' else None).
  assert (caps_irrel k') as Hk'.
  { intros s1 c1 c2. unfold k'. destruct (Nat.ltb _ _); [apply IH|done]. }
  intros Hs. destruct (m s c' k') eqn:E'; [eauto|].
  destruct (m s c k') eqn:E; [|by apply (Hk s c)].
  destruct (Hm k' Hk' s c c') as [y Hy]; [eauto|]. congruence.
Qed.

Lemma re_match_irrel r : forall k, caps_irrel k -> caps_irrel (fun s c => re_match r s c k).
Proof.
  induction r as [|f|r1 IH1 r2 IH2|r1 IH1 r2 IH2|r IH|n r IH]; intros k Hk s c c'; simpl.
  - apply Hk.
  - destruct s as [|a s]; [done|]. destruct (f a); [apply Hk|done].
  - by apply (IH1 _ (IH2 k Hk)).
  - intros Hs. destruct (re_match r1 s c' k) eqn:E'; [eauto|].
    destruct (re_match r1 s c k) eqn:E; [|by apply (IH2 k Hk s c)].
    destruct (IH1 k Hk s c c') as [y Hy]; [eauto|]. congruence.
  - by apply star_loop_irrel.
  - apply (IH (fun s' c' => k s' ((n, consumed s s') :: c'))). intros s1 c1 c2. apply Hk.
Qed.

Lemma in_Star_inv r u :
  in_re (Star r) u -> u = "" \/ exists v w, u = v +:+ w /\ v <> "" /\ in_re r v /\ in_re (Star r) w.
Proof.
  intros Hin. remember (Star r) as sr eqn:E. induction Hin as [| | | | | |r' v w Hv _ Hw IHw|]; simplify_eq; [by left|].
  destruct v as [|a v]; [by apply IHw|]. right. exists (String a v), w. done.
Qed.

Lemma re_match_complete r : forall u, in_re r u -> forall s c k,
  caps_irrel k -> (forall c', is_Some (k s c')) -> is_Some (re_match r (u +:+ s) c k).
Proof.
  induction r as [|f|r1 IH1 r2 IH2|r1 IH1 r2 IH2|r IH|n r IH]; intros u Hin s c k Hirr Hk.
  - inversion Hin; subst. apply Hk.
  - inversion Hin as [|f' a Hf| | | | | |]; subst. simpl. rewrite Hf. apply Hk.
  - inversion Hin as [| |? ? u1 u2 H1 H2| | | | |]; subst. rewrite string_app_assoc. simpl.
    apply IH1; [done|by apply re_match_irrel|]. intros c'. by apply IH2.
  - simpl. destruct (re_match r1 (u +:+ s) c k) eqn:E; [eauto|].
    inversion Hin; subst; [|by apply IH2].
    destruct (IH1 u ltac:(done) s c k Hirr Hk) as [x Hx]. congruence.
  - simpl. generalize (Nat.le_refl (String.length (u +:+ s))).
    generalize (String.length (u +:+ s)) at 2 3 as fuel. intros fuel. revert u Hin c.
    induction fuel as [|fuel IHf]; intros u Hin c Hl.
    { rewrite string_length_app in Hl. destruct u; [apply Hk|simpl in Hl; lia]. }
    cbn [star_loop]. set (k' s' c' := if Nat.ltb _ _ then _ else None).
    assert (caps_irrel k') as Hk'.
    { intros s1 c1 c2. unfold k'. destruct (Nat.ltb _ _); [|done].
      apply star_loop_irrel; [|done]. intros. by apply re_match_irrel. }
    destruct (re_match r (u +:+ s) c k') eqn:E; [eauto|].
    apply in_Star_inv in Hin as [->|(v & w & -> & Hv0 & Hv & Hw)]; [apply Hk|].
    exfalso. destruct (IH v Hv (w +:+ s) c k' Hk') as [x Hx]; [|by rewrite <-string_app_assoc, E in Hx].
    intros c'. unfold k'. rewrite !string_length_app in *.
    assert (0 < String.length v)%nat by (destruct v; [done|simpl; lia]).
    destruct (Nat.ltb_spec (String.length w + String.length s) (String.length v + String.length w + String.length s)); [|lia].
    apply IHf; [done|]. rewrite string_length_app. lia.
  - simpl. inversion Hin; subst. apply IH; [done| |intros c'; apply Hk].
    intros s' c1 c2. apply Hirr.
Qed.

(** The anchored search decides the language. *)
Lemma match_anchored_spec r s : is_Some (match_anchored r s) <-> in_re r s.
Proof.
  unfold match_anchored. split.
  - intros [x (u & s' & c' & -> & Hu & Hk)%re_match_sound]. destruct s'; [|done]. by rewrite string_app_nil_r.
  - intros Hin. rewrite <-(string_app_nil_r s). apply re_match_complete; [done| |eauto].
    intros s1 c1 c2. destruct s1; [eauto|by intros []].
Qed.

(** ** Submatches *)

(** [parses r u d]: [u] is in the language of [r], and reading it that way
    records the submatches [d]. *)
Inductive parses : re -> string -> caps -> Prop :=
| parses_Eps : parses Eps "" []
| parses_Cls f a : f a = true -> parses (Cls f) (String a "") []
| parses_Cat r1 r2 u v d1 d2 : parses r1 u d1 -> parses r2 v d2 -> parses (Cat r1 r2) (u +:+ v) (d2 ++ d1)
| parses_Alt_l r1 r2 u d : parses r1 u d -> parses (Alt r1 r2) u d
| parses_Alt_r r1 r2 u d : parses r2 u d -> parses (Alt r1 r2) u d
| parses_Star_nil r : parses (Star r) "" []
| parses_Star_cons r u v d1 d2 : parses r u d1 -> parses (Star r) v d2 -> parses (Star r) (u +:+ v) (d2 ++ d1)
| parses_Grp n r u d : parses r u d -> parses (Grp n r) u ((n, u) :: d).

Lemma take_string_app u v : take_string (String.length u) (u +:+ v) = u.
Proof. induction u as [|a u IH]; [by destruct v|]. simpl. f_equal. exact IH. Qed.

Lemma consumed_app u v : consumed (u +:+ v) v = u.
Proof.
  unfold consumed. rewrite string_length_app.
  replace (String.length u + String.length v - String.length v)%nat with (String.length u) by lia.
  apply take_string_app.
Qed.

Lemma re_match_parses r : forall s c k x,
  re_match r s c k = Some x -> exists u s' d, s = u +:+ s' /\ parses r u d /\ k s' (d ++ c) = Some x.
Proof.
  induction r as [|f|r1 IH1 r2 IH2|r1 IH1 r2 IH2|r IH|n r IH]; intros s c k x; simpl.
  - intros Hk. exists "", s, []. repeat split; [constructor|done].
  - destruct s as [|a s]; [done|]. destruct (f a) eqn:E; [|done].
    intros Hk. exists (String a ""), s, []. repeat split; [by constructor|done].
  - intros (u & s1 & d1 & -> & Hu & Hk)%IH1. apply IH2 in Hk as (v & s2 & d2 & -> & Hv & Hk).
    exists (u +:+ v), s2, (d2 ++ d1). rewrite string_app_assoc, <-(assoc_L (++)). repeat split; [by constructor|done].
  - destruct (re_match r1 s c k) eqn:E.
    + intros [= ->]. apply IH1 in E as (u & s1 & d1 & -> & Hu & Hk).
      exists u, s1, d1. repeat split; [by constructor|done].
    + intros (u & s1 & d1 & -> & Hu & Hk)%IH2. exists u, s1, d1. repeat split; [by apply parses_Alt_r|done].
  - generalize (String.length s) as fuel. intros fuel. revert s c x.
    induction fuel as [|fuel IHf]; intros s c x.
    { intros Hk. exists "", s, []. repeat split; [constructor|done]. }
    cbn [star_loop]. set (k' s' c' := if Nat.ltb (String.length s') (String.length s) then _ else None).
    destruct (re_match r s c k') eqn:E.
    + intros [= ->]. apply IH in E as (u & s1 & d1 & -> & Hu & Hk).
      unfold k' in Hk. destruct (Nat.ltb _ _); [|done]. apply IHf in Hk as (v & s2 & d2 & -> & Hv & Hk).
      exists (u +:+ v), s2, (d2 ++ d1). rewrite string_app_assoc, <-(assoc_L (++)). repeat split; [by constructor|done].
    + intros Hk. exists "", s, []. repeat split; [constructor|done].
  - intros (u & s1 & d & -> & Hu & Hk)%IH. exists u, s1, ((n, u) :: d).
    rewrite consumed_app in Hk. repeat split; [by constructor|done].
Qed.

(** The submatches of the anchored search are those of some reading of the text. *)
Lemma match_anchored_parses r s c : match_anchored r s = Some c -> parses r s c.
Proof.
  unfold match_anchored. intros (u & s' & d & -> & Hu & Hk)%re_match_parses.
  destruct s'; [|done]. rewrite app_nil_r in Hk. by rewrite string_app_nil_r; simplify_eq.
Qed.

Lemma parses_in_re r u d : parses r u d -> in_re r u.
Proof. induction 1; by econstructor. Qed.

(** ** Alphabets and separators *)

Fixpoint string_forall (f : ascii -> bool) (s : string) : bool :=
  match s with EmptyString => true | String a s => f a && string_forall f s end.

Definition all_chars : list ascii := map ascii_of_nat (seq 0 256).
Definition cls_within (g f : ascii -> bool) : bool := forallb (fun a => implb (g a) (f a)) all_chars.
#[global] Arguments cls_within : simpl never.

(** Every character of a text of [r] satisfies [f]. *)
Fixpoint alphabet (f : ascii -> bool) (r : re) : bool :=
  match r with
  | Eps => true
  | Cls g => cls_within g f
  | Cat r1 r2 | Alt r1 r2 => alphabet f r1 && alphabet f r2
  | Star r | Grp _ r => alphabet f r
  end.

Lemma all_chars_spec (P : ascii -> bool) a : forallb P all_chars = true -> P a = true.
Proof.
  intros H. apply forallb_forall with (x := a) in H; [exact H|]. unfold all_chars.
  rewrite <-(ascii_nat_embedding a). apply in_map, in_seq. pose proof (nat_ascii_bounded a). lia.
Qed.

Lemma string_forall_app f u v : string_forall f (u +:+ v) = string_forall f u && string_forall f v.
Proof. induction u as [|a u IH]; [done|]. simpl. change (_ +:+ v) with (u +:+ v). by rewrite <-andb_assoc, <-IH. Qed.

Lemma in_re_alphabet f r u : alphabet f r = true -> in_re r u -> string_forall f u = true.
Proof.
  intros Ha Hin. induction Hin as [|g a Hg|r1 r2 u v _ IH1 _ IH2|r1 r2 u _ IH|r1 r2 u _ IH| |r u v _ IH1 _ IH2|n r u _ IH].
  - done.
  - apply all_chars_spec with (a := a) in Ha. rewrite Hg in Ha. cbn in Ha. cbn. by rewrite Ha.
  - apply andb_true_iff in Ha as [H1 H2]. by rewrite string_forall_app, IH1, IH2.
  - apply andb_true_iff in Ha as [H1 H2]. by apply IH.
  - apply andb_true_iff in Ha as [H1 H2]. by apply IH.
  - done.
  - rewrite string_forall_app, IH1 by done. by apply IH2.
  - by apply IH.
Qed.

Definition no_char (c : ascii) (s : string) : bool := string_forall (fun a => negb (bool_decide (a = c))) s.

(** The last separator splits a text in one way. *)
Lemma last_separator c x a y b :
  no_char c a = true -> no_char c b = true -> x +:+ String c a = y +:+ String c b -> x = y /\ a = b.
Proof.
  intros Ha Hb. revert y. induction x as [|k x IH]; intros [|l y] E; simpl in E.
  - by simplify_eq.
  - exfalso. injection E as -> Hy. change (a = y +:+ String l b) in Hy. subst a.
    unfold no_char in Ha. rewrite string_forall_app in Ha. simpl in Ha.
    rewrite (bool_decide_true (l = l)) in Ha by done. by rewrite andb_comm in Ha.
  - exfalso. injection E as -> Hy. change (x +:+ String c a = b) in Hy. subst b.
    unfold no_char in Hb. rewrite string_forall_app in Hb. simpl in Hb.
    rewrite (bool_decide_true (c = c)) in Hb by done. by rewrite andb_comm in Hb.
  - injection E as -> Hy. by destruct (IH y Hy) as [-> ->].
Qed.

(** [.a1.a2...] for the list of the [ai]. *)
Definition separated (c : ascii) (l : list string) : string := foldr (fun a s => String c (a +:+ s)) "" l.

Lemma separated_snoc c l a : separated c (l ++ [a]) = separated c l +:+ String c a.
Proof.
  induction l as [|b l IH]; simpl; [by rewrite string_app_nil_r|].
  rewrite IH. change (String c (b +:+ separated c l) +:+ String c a) with (String c ((b +:+ separated c l) +:+ String c a)).
  by rewrite string_app_assoc.
Qed.

Lemma separated_inj c l1 : forall l2 x y,
  length l1 = length l2 -> forallb (no_char c) l1 = true -> forallb (no_char c) l2 = true ->
  x +:+ separated c l1 = y +:+ separated c l2 -> x = y /\ l1 = l2.
Proof.
  induction l1 as [|a l1 IH] using rev_ind; intros l2 x y Hl H1 H2 E.
  { destruct l2; [|done]. simpl in E. by rewrite !string_app_nil_r in E. }
  destruct l2 as [|b l2 _] using rev_ind; [rewrite length_app in Hl; simpl in Hl; lia|].
  rewrite !forallb_app in *. simpl in *. to_prop. rewrite !separated_snoc, <-!string_app_assoc in E.
  apply last_separator in E as [E ->]; [|by destruct (no_char c a)|by destruct (no_char c b)].
  rewrite !length_app in Hl. simpl in Hl. apply IH in E as [-> ->]; [done|lia|done..].
Qed.

(** ** Classes, literals and groups *)

Lemma in_re_Star_Cls f u : string_forall f u = true -> in_re (Star (Cls f)) u.
Proof.
  induction u as [|a u IH]; simpl; intros Ha; [constructor|]. to_prop.
  apply (in_Star_cons _ (String a "") u); [by constructor|by apply IH].
Qed.

Lemma in_re_Plus_Cls f u : u <> "" -> string_forall f u = true -> in_re (Plus (Cls f)) u.
Proof.
  destruct u as [|a u]; [done|]. simpl. intros _ Ha. to_prop.
  apply (in_Cat _ _ (String a "") u); [by constructor|by apply in_re_Star_Cls].
Qed.

Lemma in_re_LitI s : in_re (LitI s) s.
Proof.
  induction s as [|a s IH]; [constructor|]. apply (in_Cat _ _ (String a "") s); [|exact IH].
  constructor. by apply bool_decide_eq_true.
Qed.

Lemma in_re_LitI_inv s : forall u, in_re (LitI s) u -> ToLower u = ToLower s.
Proof.
  induction s as [|a s IH]; intros u Hin; inversion Hin as [| |? ? v w Hv Hw| | | | |]; subst; [done|].
  inversion Hv as [|? b Hb| | | | | |]; subst. apply bool_decide_eq_true in Hb.
  change (String (lower_ascii b) (ToLower w) = String (lower_ascii a) (ToLower s)). by rewrite Hb, (IH w Hw).
Qed.

Lemma in_re_Cls_inv f u : in_re (Plus (Cls f)) u -> string_forall f u = true.
Proof.
  apply in_re_alphabet. simpl. rewrite andb_diag. apply forallb_forall. intros a _. by destruct (f a).
Qed.

Fixpoint groups (r : re) : list string :=
  match r with
  | Eps | Cls _ => []
  | Cat r1 r2 | Alt r1 r2 => groups r1 ++ groups r2
  | Star r => groups r
  | Grp n r => n :: groups r
  end.

Lemma parses_no_groups r u d : parses r u d -> groups r = [] -> d = [].
Proof.
  induction 1; simpl; intros Hg; try done;
    repeat match goal with H : _ ++ _ = [] |- _ => apply app_eq_nil in H as [? ?] end; auto.
  - by rewrite IHparses1, IHparses2.
  - by rewrite IHparses1, IHparses2.
Qed.
