(* ===== verification/RdsUtils.v ===== *)
(** * RdsUtils: what a host name says about the endpoint
    (awssql/utils/rds_utils.go, rds_url_type.go).

    The patterns are the expressions of Regex.v, the submatches are read by
    group name. The two memo maps ([cachedDnsRegexp], [cachedDnsPatterns]) are
    a state of their own; [cached_lookup_transparent] shows they never change
    an answer, so the other definitions look the pattern up directly.
    [prepareHostFunc], a hook that is nil outside of tests, is a class. *)

From S2P Require Import Prelude.
From S2P Require Import HostInfo.
From S2P Require Import Regex.
From Stdlib Require Import Ascii.

(** ** Patterns *)

Definition is_alnum (a : ascii) : bool := between "a" "z" a || between "A" "Z" a || between "0" "9" a.
Definition is_region_char (a : ascii) : bool := is_alnum a || bool_decide (a = "-"%char).
Definition alnum : re := Cls is_alnum.
Definition region_char : re := Cls is_region_char.
Definition dot : re := Chr ".".
Definition opt_dot : re := Opt dot.

Definition instance_part : re := Grp "instance" (Plus Any).
Definition dns_part : re :=
  Opt (Grp "dns" (Alts [LitI "proxy-"; LitI "cluster-"; LitI "cluster-ro-"; LitI "cluster-custom-"; LitI "shardgrp-"])).
Definition rds_part : re := Alts [LitI "rds"; LitI "rds-fips"].
Definition region_part : re := Grp "region" (Plus region_char).

(** A sequence of expressions. *)
Definition Seq (l : list re) : re := foldr Cat Eps l.

Definition AURORA_DNS_PATTERN : re :=
  Seq [instance_part; dot; dns_part;
       Grp "domain" (Seq [Plus alnum; dot; region_part; dot; rds_part; dot; LitI "amazonaws"; dot;
                          Alts [LitI "com"; LitI "au"; LitI "eu"; LitI "uk"]; opt_dot])].
Definition AURORA_CHINA_DNS_PATTERN : re :=
  Seq [instance_part; dot; dns_part;
       Grp "domain" (Seq [Plus alnum; dot; rds_part; dot; region_part; dot; LitI "amazonaws"; dot; LitI "com"; dot;
                          LitI "cn"; opt_dot])].
Definition AURORA_OLD_CHINA_DNS_PATTERN : re :=
  Seq [instance_part; dot; dns_part;
       Grp "domain" (Seq [Plus alnum; dot; region_part; dot; rds_part; dot; LitI "amazonaws"; dot; LitI "com"; dot;
                          LitI "cn"; opt_dot])].
Definition AURORA_GOV_DNS_PATTERN : re :=
  Seq [instance_part; dot; dns_part;
       Grp "domain" (Seq [Plus alnum; dot; rds_part; dot; region_part; dot;
                          Alts [Seq [LitI "amazonaws"; dot; LitI "com"; opt_dot];
                                Seq [LitI "c2s"; dot; LitI "ic"; dot; LitI "gov"; opt_dot];
                                Seq [LitI "sc2s"; dot; LitI "sgov"; dot; LitI "gov"; opt_dot]]])].
Definition AURORA_GLOBAL_WRITER_DNS_PATTERN : re :=
  Seq [instance_part; dot; Opt (Grp "dns" (LitI "global-"));
       Grp "domain" (Seq [Plus alnum; dot; LitI "global"; dot; LitI "rds"; dot; LitI "amazonaws"; dot; LitI "com"; opt_dot])].

Definition dec_digit : re := Cls (between "0" "9").
Definition dec_nonzero : re := Cls (between "1" "9").
(** [[1-9][0-9]|1[0-9]{2}|2[0-4][0-9]|25[0-5]] *)
Definition octet_tail : list re :=
  [Cat dec_nonzero dec_digit; Cat (Chr "1") (Rep 2 dec_digit); Seq [Chr "2"; Cls (between "0" "4"); dec_digit];
   Seq [Lit "25"; Cls (between "0" "5")]].
Definition octet1 : re := Alts (dec_nonzero :: octet_tail).
Definition octet : re := Alts (dec_digit :: octet_tail).
Definition IP_V4_REGEXP : re := Seq [Cat octet1 dot; Rep 2 (Cat octet dot); octet].

Definition hex : re := Cls (fun a => between "0" "9" a || between "a" "f" a || between "A" "F" a).
Definition hex4 : re := Cat hex (RepUpTo 3 hex).
Definition IP_V6_REGEXP : re := Cat hex4 (Rep 7 (Cat (Chr ":") hex4)).
Definition v6_half : re := Opt (Cat hex4 (RepUpTo 5 (Cat (Chr ":") hex4))).
Definition IP_V6_COMPRESSED_REGEXP : re := Seq [v6_half; Lit "::"; v6_half].

Definition alnum_lower : re := Cls (fun a => between "0" "9" a || between "a" "z" (lower_ascii a)).
Definition green_suffix : re := Cat (LitI "-green-") (Rep 6 alnum_lower).
Definition BG_OLD_HOST_PATTERN : re := Seq [Star Any; Grp "prefix" (Cat (LitI "-old1") dot); Any; Star Any].
Definition BG_GREEN_HOSTID_PATTERN : re := Cat (Grp "1" (Star Any)) green_suffix.
Definition BG_GREEN_HOST_PATTERN : re := Seq [Star Any; Grp "prefix" green_suffix; Any; Star Any].

Definition dnsRegexpArray : list re :=
  [AURORA_DNS_PATTERN; AURORA_CHINA_DNS_PATTERN; AURORA_OLD_CHINA_DNS_PATTERN; AURORA_GOV_DNS_PATTERN;
   AURORA_GLOBAL_WRITER_DNS_PATTERN].

Definition MatchString (r : re) (s : string) : bool := bool_decide (is_Some (match_anchored r s)).
Definition MatchAnywhere (r : re) (s : string) : bool := bool_decide (is_Some (match_anywhere r s)).

(** [r.FindStringSubmatch(s)[r.SubexpIndex(group)]]: a missing group has the
    index -1 and a text that does not match has no submatches; both panic. *)
Definition FindSubmatch (r : re) (s group : string) : Result string :=
  match match_anchored r s with
  | None => Panic
  | Some c => if bool_decide (group ∈ groups r) then Ok (submatch group c) else Panic
  end.

(** ** Types of URL (rds_url_type.go) *)

Record RdsUrlType := mkUrlType { url_Id : Z; IsRds : bool; IsRdsCluster : bool; HasRegion : bool }.

#[export] Instance RdsUrlType_eq_dec : EqDecision RdsUrlType.
Proof. solve_decision. Defined.

Definition OTHER := mkUrlType 0 false false false.
Definition RDS_WRITER_CLUSTER := mkUrlType 1 true true true.
Definition RDS_READER_CLUSTER := mkUrlType 2 true true true.
Definition RDS_CUSTOM_CLUSTER := mkUrlType 3 true true true.
Definition RDS_PROXY := mkUrlType 4 true false true.
Definition RDS_INSTANCE := mkUrlType 5 true false true.
Definition RDS_AURORA_LIMITLESS_DB_SHARD_GROUP := mkUrlType 6 true false true.
Definition RDS_GLOBAL_WRITER_CLUSTER := mkUrlType 7 true true false.
Definition IP_ADDRESS := mkUrlType 8 false false false.

(** ** Host preparation *)

Class PrepareHost := prepareHostFunc : option (string -> string).
#[export] Instance no_preparation : PrepareHost | 100 := None.

Definition GetPreparedHost `{PrepareHost} (host : string) : string :=
  match prepareHostFunc with
  | None => host
  | Some f => if is_empty (f host) then host else f host
  end.

(** ** Lookups *)

(** The loop of [findAndCacheRegexp]. *)
Fixpoint first_match (l : list re) (host : string) : option re :=
  match l with
  | [] => None
  | r :: l => if MatchString r host then Some r else first_match l host
  end.
Definition findRegexp (host : string) : option re := first_match dnsRegexpArray host.

Definition dns_group_of (r : re) (host group : string) : string :=
  match FindSubmatch r host group with Ok g => g | _ => "" end.

Definition getDnsGroup (host : string) : string :=
  if is_empty host then ""
  else match findRegexp host with None => "" | Some r => dns_group_of r host "dns" end.

Definition getDomainGroup (host : string) : string :=
  if is_empty host then ""
  else match findRegexp host with None => "" | Some r => dns_group_of r host "domain" end.

Definition IsIPv4 (host : string) : bool := negb (is_empty host) && MatchString IP_V4_REGEXP host.
Definition IsIPV6 (host : string) : bool :=
  negb (is_empty host) && (MatchString IP_V6_REGEXP host || MatchString IP_V6_COMPRESSED_REGEXP host).
Definition IsIP (host : string) : bool := IsIPv4 host || IsIPV6 host.

Section RdsUtils.
Context `{PrepareHost}.

Definition IsRdsClusterDns (host : string) : bool :=
  let dnsGroup := getDnsGroup (GetPreparedHost host) in
  EqualFold dnsGroup "cluster-" || EqualFold dnsGroup "cluster-ro-".
Definition IsGlobalDbWriterClusterDns (host : string) : bool :=
  let preparedHost := GetPreparedHost host in
  if is_empty preparedHost then false else MatchString AURORA_GLOBAL_WRITER_DNS_PATTERN preparedHost.
Definition IsWriterClusterDns (host : string) : bool := EqualFold (getDnsGroup (GetPreparedHost host)) "cluster-".
Definition IsReaderClusterDns (host : string) : bool := EqualFold (getDnsGroup (GetPreparedHost host)) "cluster-ro-".
Definition IsRdsCustomClusterDns (host : string) : bool :=
  EqualFold (getDnsGroup (GetPreparedHost host)) "cluster-custom-".
Definition IsLimitlessDbShardGroupDns (host : string) : bool :=
  EqualFold (getDnsGroup (GetPreparedHost host)) "shardgrp-".
Definition IsRdsProxyDns (host : string) : bool := HasPrefix (getDnsGroup (GetPreparedHost host)) "proxy-".
Definition IsRdsDns (host : string) : bool :=
  if is_empty host then false
  else match findRegexp (GetPreparedHost host) with None => false | Some _ => true end.
Definition IsRdsInstance (host : string) : bool :=
  let preparedHost := GetPreparedHost host in
  is_empty (getDnsGroup preparedHost) && IsRdsDns preparedHost.

Definition IdentifyRdsUrlType (host : string) : RdsUrlType :=
  if is_empty host then OTHER
  else if IsIPv4 host || IsIPV6 host then IP_ADDRESS
  else if IsGlobalDbWriterClusterDns host then RDS_GLOBAL_WRITER_CLUSTER
  else if IsWriterClusterDns host then RDS_WRITER_CLUSTER
  else if IsReaderClusterDns host then RDS_READER_CLUSTER
  else if IsRdsCustomClusterDns host then RDS_CUSTOM_CLUSTER
  else if IsLimitlessDbShardGroupDns host then RDS_AURORA_LIMITLESS_DB_SHARD_GROUP
  else if IsRdsProxyDns host then RDS_PROXY
  else if IsRdsDns host then RDS_INSTANCE
  else OTHER.

Definition IsGreenInstance (host : string) : bool :=
  let preparedHost := GetPreparedHost host in
  negb (is_empty preparedHost) && MatchAnywhere BG_GREEN_HOST_PATTERN preparedHost.
Definition IsNotOldInstance (host : string) : bool :=
  let preparedHost := GetPreparedHost host in
  is_empty preparedHost || negb (MatchAnywhere BG_OLD_HOST_PATTERN preparedHost).
Definition IsNotGreenAndNotOldInstance (host : string) : bool :=
  let preparedHost := GetPreparedHost host in
  negb (is_empty preparedHost) && negb (MatchAnywhere BG_GREEN_HOST_PATTERN preparedHost) &&
  negb (MatchAnywhere BG_OLD_HOST_PATTERN preparedHost).

Definition RemoveGreenInstancePrefix (host : string) : string :=
  let preparedHost := GetPreparedHost host in
  if is_empty preparedHost then host
  else match match_anywhere BG_GREEN_HOST_PATTERN preparedHost with
       | Some matches =>
           let prefix := submatch "prefix" matches in
           if negb (is_empty prefix) then ReplaceFirst host (prefix +:+ ".") "." else host
       | None =>
           match match_anywhere BG_GREEN_HOSTID_PATTERN preparedHost with
           | Some matches => submatch "1" matches
           | None => host
           end
       end.

Definition GetRdsRegion (host : string) : string :=
  let preparedHost := GetPreparedHost host in
  if is_empty preparedHost then ""
  else match findRegexp preparedHost with
       | None => ""
       | Some r => match FindSubmatch r preparedHost "region" with Ok g => g | _ => "" end
       end.

(** The submatches are those of [host], not of the prepared host. *)
Definition GetRdsClusterId (host : string) : Result string :=
  let preparedHost := GetPreparedHost host in
  if is_empty preparedHost then Ok ""
  else match findRegexp preparedHost with
       | Some r => (try region := FindSubmatch r host "region" in
                    if negb (is_empty region) then FindSubmatch r host "instance" else Ok "")%go
       | None => Ok ""
       end.

Definition GetRdsInstanceHostPattern (host : string) : string :=
  let group := getDomainGroup (GetPreparedHost host) in
  if is_empty group then "?" else "?." +:+ group.

Fixpoint cluster_url (l : list re) (preparedHost : string) : string :=
  match l with
  | [] => ""
  | r :: l =>
      match match_anchored r preparedHost with
      | Some matches => submatch "instance" matches +:+ ".cluster-" +:+ submatch "domain" matches
      | None => cluster_url l preparedHost
      end
  end.
Definition GetRdsClusterHostUrl (host : string) : string :=
  let preparedHost := GetPreparedHost host in
  if is_empty preparedHost then ""
  else cluster_url [AURORA_DNS_PATTERN; AURORA_CHINA_DNS_PATTERN; AURORA_OLD_CHINA_DNS_PATTERN; AURORA_GOV_DNS_PATTERN]
         preparedHost.
End RdsUtils.

Definition RemovePort (hostAndPort : string) : string :=
  if is_empty hostAndPort then ""
  else match IndexByte hostAndPort ":" with
       | Some i => take_string i hostAndPort
       | None => hostAndPort
       end.

(** ** The memo maps *)

Record DnsCaches := mkCaches { cachedDnsRegexp : gmap string nat; cachedDnsPatterns : gmap string string }.

(** Index of the first pattern that matches, in the array. *)
Fixpoint first_index (l : list re) (host : string) : option nat :=
  match l with
  | [] => None
  | r :: l => if MatchString r host then Some 0%nat else S <$> first_index l host
  end.

Definition findAndCacheRegexp (host : string) (st : DnsCaches) : DnsCaches * option re :=
  match cachedDnsRegexp st !! host with
  | Some i => (st, dnsRegexpArray !! i)
  | None =>
      match first_index dnsRegexpArray host with
      | Some i => (mkCaches (<[host := i]> (cachedDnsRegexp st)) (cachedDnsPatterns st), dnsRegexpArray !! i)
      | None => (st, None)
      end
  end.

Definition getDnsGroup_cached (host : string) (st : DnsCaches) : DnsCaches * Result string :=
  if is_empty host then (st, Ok "")
  else match cachedDnsPatterns st !! host with
       | Some g => (st, Ok g)
       | None =>
           match findAndCacheRegexp host st with
           | (st', None) => (st', Ok "")
           | (st', Some r) =>
               match FindSubmatch r host "dns" with
               | Ok g =>
                   match cachedDnsPatterns st' !! host with
                   | Some g' => (st', Ok g')
                   | None => (mkCaches (cachedDnsRegexp st') (<[host := g]> (cachedDnsPatterns st')), Ok g)
                   end
               | r => (st', r)
               end
           end
       end.

Definition IsRdsDns_cached `{PrepareHost} (host : string) (st : DnsCaches) : DnsCaches * Result bool :=
  if is_empty host then (st, Ok false)
  else let preparedHost := GetPreparedHost host in
       match findAndCacheRegexp preparedHost st with
       | (st', None) => (st', Ok false)
       | (st', Some r) =>
           match FindSubmatch r preparedHost "dns" with
           | Ok g =>
               if negb (is_empty g)
               then (mkCaches (cachedDnsRegexp st') (<[preparedHost := g]> (cachedDnsPatterns st')), Ok true)
               else (st', Ok true)
           | Err e => (st', Err e)
           | Panic => (st', Panic)
           end
       end.

(** ** Lemmas on the memo maps *)

Inductive Lookup := FindRegexp (host : string) | DnsGroup (host : string) | RdsDns (host : string).
Inductive Answer := ARegexp (r : option re) | AGroup (r : Result string) | ABool (r : Result bool).

Section caches.
Context `{PrepareHost}.

Definition cached_lookup (q : Lookup) (st : DnsCaches) : DnsCaches * Answer :=
  match q with
  | FindRegexp host => let '(st', r) := findAndCacheRegexp host st in (st', ARegexp r)
  | DnsGroup host => let '(st', r) := getDnsGroup_cached host st in (st', AGroup r)
  | RdsDns host => let '(st', r) := IsRdsDns_cached host st in (st', ABool r)
  end.
Definition plain_lookup (q : Lookup) : Answer :=
  match q with
  | FindRegexp host => ARegexp (findRegexp host)
  | DnsGroup host => AGroup (Ok (getDnsGroup host))
  | RdsDns host => ABool (Ok (IsRdsDns host))
  end.
Fixpoint cached_lookups (qs : list Lookup) (st : DnsCaches) : list Answer :=
  match qs with
  | [] => []
  | q :: qs => let '(st', a) := cached_lookup q st in a :: cached_lookups qs st'
  end.

Definition empty_caches : DnsCaches := mkCaches ∅ ∅.

Record valid (st : DnsCaches) : Prop := {
  valid_regexp host i : cachedDnsRegexp st !! host = Some i -> first_index dnsRegexpArray host = Some i;
  valid_group host g : cachedDnsPatterns st !! host = Some g ->
    exists r, findRegexp host = Some r /\ dns_group_of r host "dns" = g
}.

Lemma first_index_match l host : first_match l host = (first_index l host ≫= fun i => l !! i).
Proof.
  induction l as [|r l IH]; simpl; [done|]. destruct (MatchString r host); [done|]. rewrite IH.
  by destruct (first_index l host).
Qed.

Lemma findAndCacheRegexp_spec host st :
  valid st -> (findAndCacheRegexp host st).2 = findRegexp host /\ valid (findAndCacheRegexp host st).1 /\
              cachedDnsPatterns (findAndCacheRegexp host st).1 = cachedDnsPatterns st.
Proof.
  intros [Hr Hg]. unfold findAndCacheRegexp, findRegexp. rewrite first_index_match.
  destruct (cachedDnsRegexp st !! host) as [i|] eqn:E.
  { rewrite (Hr host i E). done. }
  destruct (first_index dnsRegexpArray host) as [i|] eqn:Ei; [|done].
  split_and!; [done| |done]. split; simpl; [|done].
  intros h j [[<- <-]|[_ Hj]]%lookup_insert_Some; [done|by apply Hr].
Qed.

Lemma findRegexp_match host r : findRegexp host = Some r -> r ∈ dnsRegexpArray /\ MatchString r host = true.
Proof.
  unfold findRegexp. induction dnsRegexpArray as [|p l IH]; simpl; [done|].
  destruct (MatchString p host) eqn:E; [intros [= <-]|intros Hf%IH]; set_solver.
Qed.

Lemma findRegexp_dns host r : findRegexp host = Some r -> FindSubmatch r host "dns" = Ok (dns_group_of r host "dns").
Proof.
  intros [Hin Hm]%findRegexp_match. unfold dns_group_of, FindSubmatch.
  apply bool_decide_eq_true in Hm as [c ->].
  rewrite bool_decide_true; [done|]. unfold dnsRegexpArray in Hin.
  repeat (apply elem_of_cons in Hin as [->|Hin]; [vm_compute; repeat constructor; fail|]).
  by apply elem_of_nil in Hin.
Qed.

Lemma valid_insert host r st :
  valid st -> findRegexp host = Some r ->
  valid (mkCaches (cachedDnsRegexp st) (<[host := dns_group_of r host "dns"]> (cachedDnsPatterns st))).
Proof.
  intros [Hr Hg] Hf. split; simpl; [done|].
  intros h g [[<- <-]|[_ Hj]]%lookup_insert_Some; [eauto|by apply Hg].
Qed.

Lemma cached_lookup_spec q st : valid st -> (cached_lookup q st).2 = plain_lookup q /\ valid (cached_lookup q st).1.
Proof.
  intros Hv. destruct q as [host|host|host]; simpl.
  - destruct (findAndCacheRegexp_spec host st Hv) as (Hr & Hv' & _).
    destruct (findAndCacheRegexp host st). simpl in *. by subst.
  - unfold getDnsGroup_cached, getDnsGroup. destruct (is_empty host); [done|].
    destruct (cachedDnsPatterns st !! host) as [g|] eqn:Eg.
    { destruct (valid_group st Hv host g Eg) as (r & -> & <-). done. }
    destruct (findAndCacheRegexp_spec host st Hv) as (Hr & Hv' & Hp).
    destruct (findAndCacheRegexp host st) as [st' o]. simpl in *. subst o.
    destruct (findRegexp host) as [r|] eqn:Er; [|done].
    rewrite (findRegexp_dns host r Er), Hp, Eg. simpl. split; [done|]. rewrite <-Hp. by apply valid_insert.
  - unfold IsRdsDns_cached, IsRdsDns. destruct (is_empty host); [done|].
    set (p := GetPreparedHost host). destruct (findAndCacheRegexp_spec p st Hv) as (Hr & Hv' & Hp).
    destruct (findAndCacheRegexp p st) as [st' o]. simpl in *. subst o.
    destruct (findRegexp p) as [r|] eqn:Er; [|done].
    rewrite (findRegexp_dns p r Er). destruct (is_empty _); simpl; [done|]. split; [done|]. by apply valid_insert.
Qed.

Lemma empty_valid : valid empty_caches.
Proof. split; simpl; intros ? ? Hl; by rewrite lookup_empty in Hl. Qed.

Lemma cached_lookups_spec qs st : valid st -> cached_lookups qs st = plain_lookup <$> qs.
Proof.
  revert st. induction qs as [|q qs IH]; intros st Hv; simpl; [done|].
  destruct (cached_lookup_spec q st Hv) as [Ha Hv']. destruct (cached_lookup q st) as [st' a]. simpl in *.
  by rewrite <-Ha, IH.
Qed.

(** The memo maps of rds_utils never change an answer: any sequence of
    lookups that share and fill the two maps, from the empty maps, returns
    what the pattern search returns for each host, and never panics. *)
Theorem cached_lookup_transparent qs : cached_lookups qs empty_caches = plain_lookup <$> qs.
Proof. apply cached_lookups_spec, empty_valid. Qed.
End caches.

(** ** Classification of a host *)

(** [inst.<prefix><dom>.<region>.rds.amazonaws.com] *)
Definition rds_host (inst prefix dom region : string) : string :=
  inst +:+ separated "." [prefix +:+ dom; region; "rds"; "amazonaws"; "com"].

Definition not_newline (a : ascii) : bool := negb (Nat.eqb (nat_of_ascii a) 10).

(** The names that may stand in an RDS host. *)
Record rds_names (inst dom region : string) : Prop := {
  inst_nonempty : inst <> "";
  inst_chars : string_forall not_newline inst = true;
  dom_nonempty : dom <> "";
  dom_chars : string_forall is_alnum dom = true;
  region_nonempty : region <> "";
  region_chars : string_forall is_region_char region = true;
  region_not_global : EqualFold region "global" = false
}.

(** What the prefix of the second label says about the endpoint. *)
Definition url_type_of_prefix : list (string * RdsUrlType) :=
  [("cluster-", RDS_WRITER_CLUSTER); ("cluster-ro-", RDS_READER_CLUSTER); ("cluster-custom-", RDS_CUSTOM_CLUSTER);
   ("shardgrp-", RDS_AURORA_LIMITLESS_DB_SHARD_GROUP); ("proxy-", RDS_PROXY); ("", RDS_INSTANCE)].

Lemma string_forall_impl (f g : ascii -> bool) s :
  cls_within f g = true -> string_forall f s = true -> string_forall g s = true.
Proof.
  intros Hfg. induction s as [|a s IH]; simpl; [done|]. intros Ha. to_prop.
  apply all_chars_spec with (a := a) in Hfg. rewrite H in Hfg. simpl in Hfg. by rewrite Hfg, IH.
Qed.

Lemma in_re_Seq_cons r l u : in_re (Seq (r :: l)) u <-> exists v w, u = v +:+ w /\ in_re r v /\ in_re (Seq l) w.
Proof.
  split; [intros Hin|intros (v & w & -> & ? & ?); by constructor].
  inversion Hin as [| |? ? v w ? ?| | | | |]; subst. eauto.
Qed.

Lemma in_re_Grp n r u : in_re (Grp n r) u <-> in_re r u.
Proof. split; [inversion 1; by subst|by constructor]. Qed.

Lemma in_re_Eps u : in_re Eps u <-> u = "".
Proof. split; [inversion 1; by subst|intros ->; constructor]. Qed.

Lemma in_re_Alt r1 r2 u : in_re (Alt r1 r2) u <-> in_re r1 u \/ in_re r2 u.
Proof. split; [inversion 1; subst; auto|intros [?|?]; [by apply in_Alt_l|by apply in_Alt_r]]. Qed.

Lemma in_re_Chr c u : in_re (Chr c) u <-> u = String c "".
Proof.
  split; [inversion 1 as [|? ? Hb| | | | | |]; subst; by apply bool_decide_eq_true in Hb as ->|].
  intros ->. constructor. by apply bool_decide_eq_true.
Qed.

Lemma parses_Seq_cons r l u d :
  parses (Seq (r :: l)) u d ->
  exists v w d1 d2, u = v +:+ w /\ d = d2 ++ d1 /\ parses r v d1 /\ parses (Seq l) w d2.
Proof. inversion 1 as [| |? ? v w d1 d2 ? ?| | | | |]; subst. by exists v, w, d1, d2. Qed.

Lemma parses_Grp_inv n r u d : parses (Grp n r) u d -> exists d', d = (n, u) :: d' /\ parses r u d'.
Proof. inversion 1; subst. eauto. Qed.

Lemma no_char_re c r u :
  alphabet (fun a => negb (bool_decide (a = c))) r = true -> in_re r u -> no_char c u = true.
Proof. apply in_re_alphabet. Qed.

(** Concatenations written to the right. *)
Lemma string_app_cons c (a b : string) : String c a +:+ b = String c (a +:+ b).
Proof. done. Qed.
Lemma string_app_nil_l (a : string) : "" +:+ a = a.
Proof. done. Qed.
Ltac assoc_strings :=
  cbn [foldr];
  repeat first [rewrite string_app_assoc|rewrite string_app_cons|rewrite string_app_nil_l|rewrite string_app_nil_r].

(** A text that ends with an optional dot after [t] and has [t'] after its last dot. *)
Lemma opt_dot_inv x t y t' o :
  no_char "." t = true -> no_char "." t' = true -> t' <> "" -> in_re opt_dot o ->
  x +:+ separated "." [t] +:+ o = y +:+ separated "." [t'] -> o = "".
Proof.
  intros Ht Ht' Hne [Ho|Ho]%in_re_Alt E; [|by apply in_re_Eps]. apply in_re_Chr in Ho as ->. exfalso.
  unfold separated in E. simpl in E. rewrite !string_app_nil_r, <-string_app_assoc in E.
  apply (last_separator "." _ "" _ t') in E as [_ E]; [|done|done]. by subst.
Qed.

Lemma labels_inv q a r1 x1 w1 t1 o i y l :
  in_re opt_dot o -> forallb (no_char ".") [q +:+ a; r1; x1; w1; t1] = true ->
  length l = 5%nat -> forallb (no_char ".") l = true -> List.last l "" <> "" ->
  i +:+ "." +:+ q +:+ a +:+ "." +:+ r1 +:+ "." +:+ x1 +:+ "." +:+ w1 +:+ "." +:+ t1 +:+ o = y +:+ separated "." l ->
  i = y /\ [q +:+ a; r1; x1; w1; t1] = l.
Proof.
  intros Ho Hn Hl Hnl Hlast E.
  assert (Hsplit : i +:+ "." +:+ q +:+ a +:+ "." +:+ r1 +:+ "." +:+ x1 +:+ "." +:+ w1 +:+ "." +:+ t1 +:+ o =
                   i +:+ separated "." [q +:+ a; r1; x1; w1; t1] +:+ o).
  { unfold separated. assoc_strings. done. }
  rewrite Hsplit in E.
  assert (o = "") as ->; [|rewrite string_app_nil_r in E; by apply separated_inj in E].
  destruct l as [|b l _] using rev_ind; [done|]. rewrite last_last in Hlast.
  change [q +:+ a; r1; x1; w1; t1] with ([q +:+ a; r1; x1; w1] ++ [t1]) in E.
  rewrite !separated_snoc, <-string_app_assoc in E. rewrite !forallb_app in Hnl. simpl in *. to_prop.
  apply (opt_dot_inv (i +:+ separated "." [q +:+ a; r1; x1; w1]) t1 (y +:+ separated "." l) b); [done| |done|done|].
  { by destruct (no_char "." b). }
  revert E. unfold separated. assoc_strings. done.
Qed.

Lemma no_char_app c u v : no_char c (u +:+ v) = no_char c u && no_char c v.
Proof. apply string_forall_app. Qed.

Lemma alnum_no_dot s : string_forall is_alnum s = true -> no_char "." s = true.
Proof. apply string_forall_impl. by vm_compute. Qed.
Lemma alnum_no_dash s : string_forall is_alnum s = true -> no_char "-" s = true.
Proof. apply string_forall_impl. by vm_compute. Qed.
Lemma region_no_dot s : string_forall is_region_char s = true -> no_char "." s = true.
Proof. apply string_forall_impl. by vm_compute. Qed.

Lemma tail_inv x w t u :
  in_re (Seq [dot; x; dot; w; dot; t; opt_dot]) u ->
  exists x1 w1 t1 o, u = "." +:+ x1 +:+ "." +:+ w1 +:+ "." +:+ t1 +:+ o /\
    in_re x x1 /\ in_re w w1 /\ in_re t t1 /\ in_re opt_dot o.
Proof.
  intros (v1 & u1 & -> & ->%in_re_Chr & H)%in_re_Seq_cons.
  apply in_re_Seq_cons in H as (x1 & u2 & -> & Hx & H).
  apply in_re_Seq_cons in H as (v3 & u3 & -> & ->%in_re_Chr & H).
  apply in_re_Seq_cons in H as (w1 & u4 & -> & Hw & H).
  apply in_re_Seq_cons in H as (v5 & u5 & -> & ->%in_re_Chr & H).
  apply in_re_Seq_cons in H as (t1 & u6 & -> & Ht & H).
  apply in_re_Seq_cons in H as (o & u7 & -> & Ho & ->%in_re_Eps).
  exists x1, w1, t1, o. by rewrite string_app_nil_r.
Qed.

Section classification.
Context (inst dom region prefix : string) (t : RdsUrlType).
Hypothesis Hnames : rds_names inst dom region.
Hypothesis Hprefix : (prefix, t) ∈ url_type_of_prefix.

Lemma prefix_cases (P : string -> RdsUrlType -> Prop) :
  Forall (fun e => P e.1 e.2) url_type_of_prefix -> P prefix t.
Proof. intros HP. rewrite Forall_forall in HP. apply (HP _ Hprefix). Qed.

Lemma host_labels : forallb (no_char ".") [prefix +:+ dom; region; "rds"; "amazonaws"; "com"] = true.
Proof.
  destruct Hnames as [_ _ _ Hd _ Hr _]. simpl. rewrite no_char_app, !andb_true_iff.
  split_and!; try done.
  - apply (prefix_cases (fun p _ => no_char "." p = true)). repeat constructor.
  - by apply alnum_no_dot.
  - by apply region_no_dot.
Qed.

Lemma dns_part_in : in_re dns_part prefix.
Proof.
  apply (prefix_cases (fun p _ => in_re dns_part p)).
  repeat (apply List.Forall_cons); [..|apply List.Forall_nil]; simpl; try (apply in_Alt_r, in_Eps); apply in_Alt_l, in_Grp.
  - apply in_Alt_r, in_Alt_l, in_re_LitI.
  - do 2 apply in_Alt_r. apply in_Alt_l, in_re_LitI.
  - do 3 apply in_Alt_r. apply in_Alt_l, in_re_LitI.
  - do 4 apply in_Alt_r. apply in_re_LitI.
  - apply in_Alt_l, in_re_LitI.
Qed.

Lemma rds_host_in : in_re AURORA_DNS_PATTERN (rds_host inst prefix dom region).
Proof.
  destruct Hnames as [Hi Hic Hd Hdc Hr Hrc _].
  replace (rds_host inst prefix dom region)
    with (inst +:+ "." +:+ prefix +:+ (dom +:+ "." +:+ region +:+ "." +:+ "rds" +:+ "." +:+ "amazonaws" +:+ "." +:+ "com" +:+ "" +:+ "") +:+ "")
    by (unfold rds_host, separated; assoc_strings; done).
  assert (Hdot : in_re dot ".") by by apply in_re_Chr.
  apply in_Cat; [apply in_Grp; by apply in_re_Plus_Cls|]. apply in_Cat; [exact Hdot|].
  apply in_Cat; [apply dns_part_in|]. apply in_Cat; [|constructor]. apply in_Grp.
  apply in_Cat; [by apply in_re_Plus_Cls|]. apply in_Cat; [exact Hdot|].
  apply in_Cat; [apply in_Grp; by apply in_re_Plus_Cls|]. apply in_Cat; [exact Hdot|].
  apply in_Cat; [apply in_Alt_l, in_re_LitI|]. apply in_Cat; [exact Hdot|].
  apply in_Cat; [apply in_re_LitI|]. apply in_Cat; [exact Hdot|].
  apply in_Cat; [apply in_Alt_l, in_re_LitI|]. apply in_Cat; [apply in_Alt_r, in_Eps|]. constructor.
Qed.

(** The reading of the host by the Aurora pattern puts [prefix] in the group dns. *)
Lemma lower_dash u q : ToLower u = q +:+ "-" -> exists v, u = v +:+ "-" /\ ToLower v = q.
Proof.
  revert q. induction u as [|a u IH]; intros q E; [by destruct q|].
  destruct q as [|b q].
  - unfold ToLower in E. simpl in E. injection E as Ea Eu. destruct u; [|done]. exists "". split; [|done].
    change (String a "" = "-"). f_equal. clear -Ea. destruct a as [[] [] [] [] [] [] [] []]; by vm_compute in Ea.
  - unfold ToLower in E. simpl in E. injection E as Ea Eu. destruct (IH q Eu) as (v & -> & Hv).
    exists (String a v). split; [done|]. unfold ToLower in *. simpl. by rewrite Ea, Hv.
Qed.

Lemma dns_split q a :
  string_forall is_alnum a = true ->
  q +:+ a = prefix +:+ dom -> in_re dns_part q -> q = prefix.
Proof.
  intros Ha E Hq.
  assert (Hna : no_char "-" a = true) by by apply alnum_no_dash.
  assert (Hnd : no_char "-" dom = true).
  { destruct Hnames. by apply alnum_no_dash. }
  assert (Hp : prefix = "" \/ exists p, prefix = p +:+ "-").
  { apply (prefix_cases (fun p _ => p = "" \/ exists p', p = p' +:+ "-")).
    repeat (apply List.Forall_cons); [..|apply List.Forall_nil]; simpl; [right..|by left].
    - by exists "cluster".
    - by exists "cluster-ro".
    - by exists "cluster-custom".
    - by exists "shardgrp".
    - by exists "proxy". }
  assert (Hq' : q = "" \/ exists p, q = p +:+ "-").
  { unfold dns_part in Hq. apply in_re_Alt in Hq as [Hq|Hq]; [right|left; by apply in_re_Eps].
    apply in_re_Grp in Hq. cbn [Alts] in Hq. rewrite !in_re_Alt in Hq.
    destruct Hq as [Hq|[Hq|[Hq|[Hq|Hq]]]]; apply in_re_LitI_inv in Hq.
    - apply (lower_dash q "proxy") in Hq as (v & -> & _). eauto.
    - apply (lower_dash q "cluster") in Hq as (v & -> & _). eauto.
    - apply (lower_dash q "cluster-ro") in Hq as (v & -> & _). eauto.
    - apply (lower_dash q "cluster-custom") in Hq as (v & -> & _). eauto.
    - apply (lower_dash q "shardgrp") in Hq as (v & -> & _). eauto. }
  destruct Hp as [->|[p Hp]], Hq' as [->|[q' ->]]; [done| | |].
  - exfalso. rewrite string_app_nil_l in E. subst dom. rewrite !no_char_app in Hnd.
    by apply andb_true_iff in Hnd as [[_ ?]%andb_true_iff _].
  - exfalso. rewrite string_app_nil_l in E. subst a. rewrite Hp, !no_char_app in Hna.
    by apply andb_true_iff in Hna as [[_ ?]%andb_true_iff _].
  - rewrite Hp in *. revert E. assoc_strings. intros E. by apply last_separator in E as [-> _].
Qed.

Lemma aurora_capture c :
  parses AURORA_DNS_PATTERN (rds_host inst prefix dom region) c -> submatch "dns" c = prefix.
Proof.
  intros (i & w1 & d1 & D1 & E & -> & Hi & H)%parses_Seq_cons.
  apply parses_Grp_inv in Hi as (d1' & -> & Hi). apply parses_no_groups in Hi as ->; [|done].
  apply parses_Seq_cons in H as (v2 & w2 & d2 & D2 & -> & -> & H2 & H).
  pose proof (parses_no_groups _ _ _ H2 eq_refl) as ->. apply parses_in_re, in_re_Chr in H2 as ->.
  apply parses_Seq_cons in H as (q & w3 & d3 & D3 & -> & -> & H3 & H).
  apply parses_Seq_cons in H as (u & w4 & d4 & D4 & -> & -> & H4 & H).
  inversion H; subst. apply parses_Grp_inv in H4 as (d4' & -> & H4).
  apply parses_Seq_cons in H4 as (a & u1 & da & Da & -> & -> & Ha & H4).
  pose proof (parses_no_groups _ _ _ Ha eq_refl) as ->. apply parses_in_re in Ha.
  apply parses_Seq_cons in H4 as (v5 & u2 & db & Db & -> & -> & H5 & H4).
  pose proof (parses_no_groups _ _ _ H5 eq_refl) as ->. apply parses_in_re, in_re_Chr in H5 as ->.
  apply parses_Seq_cons in H4 as (r & u3 & dr & Dr & -> & -> & Hr & H4).
  apply parses_Grp_inv in Hr as (dr' & -> & Hr). pose proof (parses_no_groups _ _ _ Hr eq_refl) as ->.
  pose proof (parses_no_groups _ _ _ H4 eq_refl) as ->. apply parses_in_re in H4, Hr.
  apply tail_inv in H4 as (x1 & w1 & t1 & o & -> & Hx & Hw & Ht & Ho).
  rewrite !string_app_nil_r in E.
  assert (Hq : in_re dns_part q) by by apply parses_in_re in H3.
  assert (q = prefix) as ->.
  { apply in_re_Cls_inv in Ha, Hr. apply (dns_split q a); [done| |done].
    symmetry in E. apply labels_inv in E as [_ E]; [by injection E|done| |done|apply host_labels|done].
    cbn [forallb]. rewrite no_char_app, (alnum_no_dot a), (region_no_dot r), !andb_true_iff by done.
    split_and!; try done.
    - apply (no_char_re "." dns_part); [by vm_compute|done].
    - apply (no_char_re "." rds_part); [by vm_compute|done].
    - apply (no_char_re "." (LitI "amazonaws")); [by vm_compute|done].
    - refine (no_char_re "." _ _ _ Ht). by vm_compute. }
  clear -H3. unfold dns_part in H3. inversion H3 as [| | |? ? ? ? Hg|? ? ? ? He| | |]; subst.
  - apply parses_Grp_inv in Hg as (dg & -> & Hg). pose proof (parses_no_groups _ _ _ Hg eq_refl) as ->. done.
  - inversion He; subst. done.
Qed.

Lemma rds_host_nonempty : rds_host inst prefix dom region <> "".
Proof. unfold rds_host. by destruct inst. Qed.

Lemma rds_host_group : getDnsGroup (rds_host inst prefix dom region) = prefix /\
  findRegexp (rds_host inst prefix dom region) = Some AURORA_DNS_PATTERN.
Proof.
  pose proof rds_host_in as Hin. apply match_anchored_spec in Hin as [c Hc].
  unfold getDnsGroup, findRegexp. cbn [first_match dnsRegexpArray]. unfold MatchString.
  rewrite Hc, bool_decide_true by eauto. rewrite (proj2 (is_empty_false _)) by apply rds_host_nonempty.
  unfold dns_group_of, FindSubmatch. rewrite Hc, bool_decide_true by (vm_compute; repeat constructor).
  split; [|done]. by apply aurora_capture, match_anchored_parses.
Qed.

(** A host with a letter that is no hexadecimal digit is no address. *)
Lemma not_in_alphabet f r :
  alphabet f r = true -> f "r"%char = false -> MatchString r (rds_host inst prefix dom region) = false.
Proof.
  intros Ha Hf. apply bool_decide_eq_false. rewrite match_anchored_spec. intros Hin.
  apply (in_re_alphabet f) in Hin; [|done]. unfold rds_host, separated in Hin. cbn [foldr] in Hin.
  rewrite string_forall_app in Hin. simpl in Hin. rewrite !string_forall_app in Hin. simpl in Hin.
  rewrite !string_forall_app in Hin. simpl in Hin. rewrite Hf in Hin. by rewrite !andb_false_r in Hin.
Qed.

Lemma rds_host_not_global : MatchString AURORA_GLOBAL_WRITER_DNS_PATTERN (rds_host inst prefix dom region) = false.
Proof.
  apply bool_decide_eq_false. rewrite match_anchored_spec. intros Hin.
  apply in_re_Seq_cons in Hin as (i & u1 & E & Hi & H).
  apply in_re_Seq_cons in H as (v2 & u2 & -> & ->%in_re_Chr & H).
  apply in_re_Seq_cons in H as (q & u3 & -> & Hq & H).
  apply in_re_Seq_cons in H as (u & w4 & -> & H4 & ->%in_re_Eps). apply in_re_Grp in H4.
  apply in_re_Seq_cons in H4 as (a & u5 & -> & Ha & H4).
  apply in_re_Seq_cons in H4 as (v6 & u6 & -> & ->%in_re_Chr & H4).
  apply in_re_Seq_cons in H4 as (g & u7 & -> & Hg & H4).
  apply tail_inv in H4 as (x1 & w1 & t1 & o & -> & Hx & Hw & Ht & Ho).
  rewrite !string_app_nil_r in E. symmetry in E. apply labels_inv in E as [_ E]; [|done| |done|apply host_labels|done].
  - injection E as _ -> _ _ _. apply in_re_LitI_inv in Hg. destruct Hnames as [_ _ _ _ _ _ Hn].
    by apply bool_decide_eq_false in Hn.
  - cbn [forallb]. rewrite no_char_app, (alnum_no_dot a), !andb_true_iff by (by apply in_re_Cls_inv).
    split_and!; try done; match goal with Hin : in_re _ ?u |- no_char "." ?u = true => refine (no_char_re "." _ _ _ Hin); by vm_compute end.
Qed.

(** C37. Every host inst.<prefix><dom>.<region>.rds.amazonaws.com, whatever
    dots and dashes its names contain, is classified by its prefix:
    cluster-, cluster-ro-, cluster-custom-, shardgrp-, proxy- or none give
    the writer, reader, custom, shard group, proxy and instance types; the
    greedy instance group and the order of the alternatives never pick
    another reading. *)
Theorem IdentifyRdsUrlType_classifies : IdentifyRdsUrlType (rds_host inst prefix dom region) = t.
Proof.
  destruct rds_host_group as [Hg Hf].
  assert (Hne : is_empty (rds_host inst prefix dom region) = false).
  { apply is_empty_false, rds_host_nonempty. }
  unfold IdentifyRdsUrlType, IsIPv4, IsIPV6, IsGlobalDbWriterClusterDns, IsWriterClusterDns, IsReaderClusterDns,
    IsRdsCustomClusterDns, IsLimitlessDbShardGroupDns, IsRdsProxyDns, IsRdsDns, GetPreparedHost.
  simpl. rewrite Hne, Hg, Hf, rds_host_not_global.
  rewrite !(not_in_alphabet (fun a => between "0" "9" a || between "a" "f" a || between "A" "F" a ||
                                      bool_decide (a = ":"%char) || bool_decide (a = "."%char)))
    by by vm_compute.
  simpl. by apply (prefix_cases (fun p t => (if EqualFold p "cluster-" then RDS_WRITER_CLUSTER
    else if EqualFold p "cluster-ro-" then RDS_READER_CLUSTER
    else if EqualFold p "cluster-custom-" then RDS_CUSTOM_CLUSTER
    else if EqualFold p "shardgrp-" then RDS_AURORA_LIMITLESS_DB_SHARD_GROUP
    else if HasPrefix p "proxy-" then RDS_PROXY else RDS_INSTANCE) = t)); repeat constructor.
Qed.
End classification.

Lemma IdentifyRdsUrlType_classifies_witness :
  rds_names "db.prod" "xyz123" "us-east-2" /\ ("cluster-ro-", RDS_READER_CLUSTER) ∈ url_type_of_prefix /\
  IdentifyRdsUrlType (rds_host "db.prod" "cluster-ro-" "xyz123" "us-east-2") = RDS_READER_CLUSTER.
Proof.
  assert (Hn : rds_names "db.prod" "xyz123" "us-east-2") by (split; by vm_compute).
  assert (Hp : ("cluster-ro-", RDS_READER_CLUSTER) ∈ url_type_of_prefix) by (vm_compute; right; left).
  split; [exact Hn|split; [exact Hp|exact (IdentifyRdsUrlType_classifies _ _ _ _ _ Hn Hp)]].
Defined.

(** The global pattern reads no other dns group than global-. *)
Lemma global_capture u c :
  parses AURORA_GLOBAL_WRITER_DNS_PATTERN u c -> ToLower (submatch "dns" c) = "global-" \/ submatch "dns" c = "".
Proof.
  intros (i & w1 & d1 & D1 & -> & -> & Hi & H)%parses_Seq_cons.
  apply parses_Grp_inv in Hi as (d1' & -> & Hi). apply parses_no_groups in Hi as ->; [|done].
  apply parses_Seq_cons in H as (v2 & w2 & d2 & D2 & -> & -> & H2 & H).
  pose proof (parses_no_groups _ _ _ H2 eq_refl) as ->.
  apply parses_Seq_cons in H as (q & w3 & d3 & D3 & -> & -> & H3 & H).
  apply parses_Seq_cons in H as (v4 & w4 & d4 & D4 & -> & -> & H4 & H). inversion H; subst.
  apply parses_Grp_inv in H4 as (d4' & -> & H4). pose proof (parses_no_groups _ _ _ H4 eq_refl) as ->.
  inversion H3 as [| | |? ? ? ? Hg|? ? ? ? He| | |]; subst.
  - apply parses_Grp_inv in Hg as (dg & -> & Hg). pose proof (parses_no_groups _ _ _ Hg eq_refl) as ->.
    left. by apply parses_in_re, in_re_LitI_inv in Hg.
  - inversion He; subst. by right.
Qed.

Lemma elem_of_dnsRegexpArray r :
  r ∈ dnsRegexpArray -> r = AURORA_GLOBAL_WRITER_DNS_PATTERN \/ "region" ∈ groups r /\ "instance" ∈ groups r.
Proof.
  unfold dnsRegexpArray. rewrite !elem_of_cons, elem_of_nil.
  intros [->|[->|[->|[->|[->|[]]]]]]; auto; right; vm_compute; split; repeat constructor.
Qed.

(** A custom cluster endpoint has a cluster id, without the panic. *)
Lemma GetRdsClusterId_custom host :
  IsRdsCustomClusterDns host = true -> exists id, GetRdsClusterId host = Ok id.
Proof.
  unfold IsRdsCustomClusterDns, GetRdsClusterId, GetPreparedHost, getDnsGroup, dns_group_of. simpl.
  destruct (is_empty host); [done|]. destruct (findRegexp host) as [r|] eqn:Hf; [|done].
  apply findRegexp_match in Hf as [Hr Hm]. unfold MatchString in Hm. apply bool_decide_eq_true in Hm as [c Hc].
  unfold FindSubmatch. rewrite Hc.
  apply elem_of_dnsRegexpArray in Hr as [->|[Hg Hi]].
  - apply match_anchored_parses, global_capture in Hc. rewrite bool_decide_true by (vm_compute; repeat constructor).
    unfold EqualFold. by destruct Hc as [-> | ->].
  - intros _. rewrite !bool_decide_true by (exact Hg || exact Hi). simpl. case_match; eauto.
Qed.

(** The pattern of global endpoints has no group region: its index is -1. *)
Theorem GetRdsClusterId_global_panics : GetRdsClusterId "db.global-xyz.global.rds.amazonaws.com" = Panic.
Proof. by vm_compute. Qed.
