(* ===== verification/Dsn.v ===== *)
(** * Dsn: parsing and writing connection strings
    (awssql/property_util/dsn_parser.go, mask_helper.go; PrepareDsn of
    mysql-driver/mysql_driver_dialect.go and pgx-driver/pgx_driver_dialect.go).

    Strings are bytes; the blanks are the ASCII ones. The pieces of [net] and
    [net/url] that take a URL apart are the class [UrlLib]; the percent
    encodings are written out. The messages of parsing errors carry the masked
    DSN, which is left out. *)

From S2P Require Import Prelude.
From S2P Require Import HostInfo.
From S2P Require Import Regex.
From S2P Require Import RdsUtils.
From S2P Require Import Properties.
From Stdlib Require Import Ascii.

Notation properties := (gmap string string).

Definition PGX_DRIVER_PROTOCOL : string := "postgresql".
Definition MYSQL_DRIVER_PROTOCOL : string := "mysql".
Definition NET_PROP_KEY : string := "net".

Definition NewDsnParsingError (key : string) (args : list string) : go_error := AwsError DsnParsingErrorType key args.

(** ** Patterns *)

(** [\s] of RE2 has no vertical tab. *)
Definition re_space (c : ascii) : bool := is_space c && negb (Nat.eqb (nat_of_ascii c) 11).
Definition NotIn (l : string) : re :=
  Cls (fun c => negb (bool_decide (c ∈ String.list_ascii_of_string l))).

Definition pgxKeyValueDsnPattern : re :=
  Plus (Seq [Plus (Cls is_alnum); Chr "=";
             Plus (Cls (fun c => is_alnum c ||
                                 bool_decide (c ∈ String.list_ascii_of_string "-+&@#/%?=~_!:,.'")));
             Star (Chr " ")]).

Definition user_part : re := Seq [Grp "user" (Plus (NotIn ":@/")); Opt (Cat (Chr ":") (Grp "passwd" (Star (NotIn "@")))); Chr "@"].
Definition net_part : re :=
  Seq [Opt (Grp "net" (Plus (NotIn "()/:?"))); Opt (Seq [Chr "("; Grp "addr" (Star (NotIn ")")); Chr ")"])].
Definition dbname_part : re := Cat (Chr "/") (Grp "dbname" (Star (NotIn "?"))).
Definition params_part : re := Cat (Chr "?") (Grp "params" (Star Any)).
Definition mySqlDsnPattern : re := Seq [Opt user_part; Opt net_part; Opt dbname_part; Opt params_part].

Definition spaceBetweenWordsPattern : re :=
  Seq [Star (Cls re_space); Plus (Cls (fun c => negb (re_space c))); Plus (Cls re_space);
       Cls (fun c => negb (re_space c)); Star Any].

Definition isDsnPgxUrl (dsn : string) : bool := HasPrefix dsn "postgres://" || HasPrefix dsn "postgresql://".
Definition isDsnPgxKeyValueString (dsn : string) : bool := MatchAnywhere pgxKeyValueDsnPattern dsn.
Definition isDsnMySql (dsn : string) : bool :=
  negb (MatchString spaceBetweenWordsPattern dsn) && MatchString mySqlDsnPattern dsn.

(** ** Percent encoding (net/url) *)

Definition hex_digit (c : ascii) : option nat :=
  let n := nat_of_ascii c in
  if between "0" "9" c then Some (n - 48)%nat
  else if between "a" "f" c then Some (n - 87)%nat
  else if between "A" "F" c then Some (n - 55)%nat
  else None.
Definition upper_hex (n : nat) : ascii := ascii_of_nat (if Nat.ltb n 10 then 48 + n else 55 + n).

(** [url.PathUnescape], and [url.QueryUnescape] with [plus]; [None] is the
    error of a malformed escape. *)
Fixpoint unescape (plus : bool) (s : string) : option string :=
  match s with
  | EmptyString => Some EmptyString
  | String c r =>
      if bool_decide (c = "%"%char) then
        match r with
        | String a (String b r') =>
            x ← hex_digit a; y ← hex_digit b; t ← unescape plus r'; Some (String (ascii_of_nat (16 * x + y)) t)
        | _ => None
        end
      else t ← unescape plus r; Some (String (if plus && bool_decide (c = "+"%char) then " "%char else c) t)
  end.
Definition PathUnescape : string -> option string := unescape false.
Definition QueryUnescape : string -> option string := unescape true.

Definition path_safe (c : ascii) : bool :=
  is_alnum c || bool_decide (c ∈ String.list_ascii_of_string "-_.~$&+:=@").
Fixpoint PathEscape (s : string) : string :=
  match s with
  | EmptyString => EmptyString
  | String c r =>
      if path_safe c then String c (PathEscape r)
      else String "%" (String (upper_hex (nat_of_ascii c / 16)) (String (upper_hex (nat_of_ascii c mod 16)) (PathEscape r)))
  end.

(** ** URLs *)

(** What [url.Parse] returns: user name and password, host, path, query. *)
Record URL := mkURL {
  url_User : option (string * option string);
  url_Host : string;
  url_Path : string;
  url_Query : gmap string (list string)
}.
Class UrlLib := {
  url_Parse : string -> Result URL;
  net_ParseIP : string -> bool;
  net_SplitHostPort : string -> Result (string * string)
}.

Fixpoint trim_char (p : ascii -> bool) (s : string) : string :=
  match s with String c r => if p c then trim_char p r else s | EmptyString => s end.
Fixpoint trim_char_right (p : ascii -> bool) (s : string) : string :=
  match s with
  | EmptyString => EmptyString
  | String c r => let t := trim_char_right p r in if is_empty t && p c then EmptyString else String c t
  end.
(** [strings.Trim(host, "[]")] *)
Definition trim_brackets (s : string) : string :=
  let p c := bool_decide (c = "["%char) || bool_decide (c = "]"%char) in trim_char_right p (trim_char p s).

Definition isIPOnly `{UrlLib} (host : string) : bool :=
  net_ParseIP (trim_brackets host) || bool_decide (IndexByte host ":" = None).

Definition database_key (k : string) : string := if bool_decide (k = "dbname") then "database" else k.

Fixpoint split_hosts `{UrlLib} (l : list string) : Result (list string * list string) :=
  match l with
  | [] => Ok ([], [])
  | host :: l =>
      if is_empty host then split_hosts l
      else if isIPOnly host then (try r := split_hosts l in Ok (trim_brackets host :: r.1, r.2))%go
      else match net_SplitHostPort host with
           | Ok (h, p) => (try r := split_hosts l in
                           Ok ((if is_empty h then [] else [h]) ++ r.1, (if is_empty p then [] else [p]) ++ r.2))%go
           | Err _ => Err (NewDsnParsingError "DsnParser.failedToSplitHostPort" [host])
           | Panic => Panic
           end
  end.

Definition put_unless_empty (k v : string) (m : properties) : properties := if is_empty v then m else <[k := v]> m.

(** [properties.Put(k, v[0])] for each key of the query. *)
Fixpoint put_query (l : list (string * list string)) (m : properties) : Result properties :=
  match l with
  | [] => Ok m
  | (k, v :: _) :: l => put_query l (<[database_key k := v]> m)
  | (_, []) :: _ => Panic
  end.

Definition parsePgxURLSettings `{UrlLib} `{MapRange} (connString : string) : Result properties :=
  (try parsedURL := url_Parse (TrimSpace connString) in
   let m := match url_User parsedURL with
            | Some (username, password) =>
                let m := <[Name USER := username]> ∅ in
                match password with Some password => <[Name PASSWORD := password]> m | None => m end
            | None => ∅
            end in
   try hp := split_hosts (Split (url_Host parsedURL) ",") in
   let m := match hp.1 with [] => m | hosts => <[Name HOST := Join hosts ","]> m end in
   let m := match hp.2 with [] => m | ports => <[Name PORT := Join ports ","]> m end in
   let m := put_unless_empty (Name DATABASE) (trim_char (fun c => bool_decide (c = "/"%char)) (url_Path parsedURL)) m in
   try m := put_query (range 40 (url_Query parsedURL)) m in
   Ok (<[Name DRIVER_PROTOCOL := PGX_DRIVER_PROTOCOL]> m))%go.

(** ** Keyword and value strings *)

Definition backslash : ascii := "\"%char.
Definition quote : ascii := "'"%char.

(** [strings.ReplaceAll(s, old, new)] for an [old] of two bytes. *)
Fixpoint ReplacePair (a b : ascii) (new : string) (s : string) : string :=
  match s with
  | EmptyString => EmptyString
  | String c t =>
      match t with
      | String d r =>
          if bool_decide (c = a) && bool_decide (d = b) then new +:+ ReplacePair a b new r
          else String c (ReplacePair a b new t)
      | EmptyString => s
      end
  end.
Definition unescape_value (s : string) : string :=
  ReplacePair backslash quote "'" (ReplacePair backslash backslash "\" s).

(** The end of an unquoted value; [None] is the error of a last backslash. *)
Fixpoint unquoted_end (s : string) : option nat :=
  match s with
  | EmptyString => Some O
  | String c r =>
      if is_space c then Some O
      else if bool_decide (c = backslash) then
        match r with EmptyString => None | String _ r' => (fun n => (2 + n)%nat) <$> unquoted_end r' end
      else S <$> unquoted_end r
  end.

(** The end of a quoted value, past the end of [s] when it ends in a backslash. *)
Fixpoint quoted_end (s : string) : nat :=
  match s with
  | EmptyString => O
  | String c r =>
      if bool_decide (c = quote) then O
      else if bool_decide (c = backslash) then
        match r with EmptyString => 2%nat | String _ r' => (2 + quoted_end r')%nat end
      else S (quoted_end r)
  end.

Definition rest_after (n : nat) (dsn : string) : string := trim_left (drop_string (S n) dsn).

(** The value and the rest of the DSN. *)
Definition next_value (dsn : string) : Result (string * string) :=
  match dsn with
  | EmptyString => Ok (EmptyString, EmptyString)
  | String c r =>
      if bool_decide (c = quote) then
        let n := quoted_end r in
        if Nat.eqb n (String.length r) then Err (NewDsnParsingError "DsnParser.unterminatedQuotedString" [])
        else if Nat.ltb (String.length r) n then Panic
        else Ok (unescape_value (take_string n r), rest_after n r)
      else
        match unquoted_end dsn with
        | None => Err (NewDsnParsingError "DsnParser.invalidBackslash" [])
        | Some n => Ok (unescape_value (take_string n dsn), rest_after n dsn)
        end
  end.

Definition next_setting (dsn : string) : Result (string * string * string) :=
  match IndexByte dsn "=" with
  | None => Err (NewDsnParsingError "DsnParser.invalidKeyValue" [])
  | Some eqIdx =>
      (try v := next_value (trim_left (drop_string (S eqIdx) dsn)) in
       let key := database_key (TrimSpace (take_string eqIdx dsn)) in
       if is_empty key then Err (NewDsnParsingError "DsnParser.invalidKeyValue" [])
       else Ok (key, v.1, v.2))%go
  end.

(** Every turn shortens the DSN, so its length is enough fuel. *)
Fixpoint settings_loop (fuel : nat) (dsn : string) (m : properties) : Result properties :=
  if is_empty dsn then Ok m
  else match fuel with
       | O => Panic
       | S fuel => (try s := next_setting dsn in settings_loop fuel s.2 (<[s.1.1 := s.1.2]> m))%go
       end.

Definition parsePgxKeywordValueSettings (dsn : string) : Result properties :=
  (try m := settings_loop (String.length dsn) dsn ∅ in Ok (<[Name DRIVER_PROTOCOL := PGX_DRIVER_PROTOCOL]> m))%go.

(** ** MySQL strings *)

(** [strings.Cut(s, sep)] *)
Definition Cut (s : string) (sep : ascii) : option (string * string) :=
  match IndexByte s sep with Some i => Some (take_string i s, drop_string (S i) s) | None => None end.

Definition UnescapeError (s : string) : go_error := PlainError "url.EscapeError" [s].

Fixpoint put_params (l : list string) (m : properties) : Result properties :=
  match l with
  | [] => Ok m
  | v :: l =>
      match Cut v "=" with
      | None => put_params l m
      | Some (key, value) =>
          match QueryUnescape value with
          | Some propVal => put_params l (<[key := propVal]> m)
          | None => Err (UnescapeError value)
          end
      end
  end.
Definition parseDSNParams (m : properties) (params : string) : Result properties := put_params (Split params "&") m.

Definition put_addr (addr : string) (m : properties) : properties :=
  if is_empty addr then m
  else match Split addr ":" with
       | host :: port :: _ => <[Name PORT := port]> (<[Name HOST := host]> m)
       | [host] => <[Name HOST := host]> m
       | [] => m
       end.

Definition put_dbname (dbname : string) (m : properties) : Result properties :=
  if is_empty dbname then Ok m
  else match PathUnescape dbname with
       | Some db => Ok (<[Name DATABASE := db]> m)
       | None => Err (UnescapeError dbname)
       end.

(** The groups in the order of [SubexpNames]. *)
Definition parseMySqlDsn (dsn : string) : Result properties :=
  match match_anchored mySqlDsnPattern (TrimSpace dsn) with
  | None => Err (NewDsnParsingError "DsnParser.invalidDsn" [])
  | Some c =>
      (let m := put_unless_empty (Name USER) (submatch "user" c) ∅ in
       let m := put_unless_empty (Name PASSWORD) (submatch "passwd" c) m in
       let m := put_unless_empty NET_PROP_KEY (submatch "net" c) m in
       let m := put_addr (submatch "addr" c) m in
       try m := put_dbname (submatch "dbname" c) m in
       try m := (if is_empty (submatch "params" c) then Ok m else parseDSNParams m (submatch "params" c)) in
       Ok (<[Name DRIVER_PROTOCOL := MYSQL_DRIVER_PROTOCOL]> m))%go
  end.

(** ** Entry points *)

Section Entry.
Context `{UrlLib} `{MapRange} `{PrepareHost}.

Definition ParseDsn (dsn : string) : Result properties :=
  if isDsnPgxUrl dsn then parsePgxURLSettings dsn
  else if isDsnMySql dsn then parseMySqlDsn dsn
  else if isDsnPgxKeyValueString dsn then parsePgxKeywordValueSettings dsn
  else Ok ∅.

Definition GetProtocol (dsn : string) : Result string :=
  if isDsnPgxUrl dsn then Ok PGX_DRIVER_PROTOCOL
  else if isDsnMySql dsn then Ok MYSQL_DRIVER_PROTOCOL
  else if isDsnPgxKeyValueString dsn then Ok PGX_DRIVER_PROTOCOL
  else Err (NewDsnParsingError "DsnParser.unableToDetermineProtocol" []).

Definition ParseDatabaseFromDsn (dsn : string) : Result string :=
  (try props := ParseDsn dsn in Ok (GetFromMap DATABASE props))%go.
Definition ParseUserFromDsn (dsn : string) : Result string :=
  (try props := ParseDsn dsn in Ok (GetFromMap USER props))%go.
Definition ParsePasswordFromDsn (dsn : string) : Result string :=
  (try props := ParseDsn dsn in Ok (GetFromMap PASSWORD props))%go.

Definition host_role (isSingleWriterDsn : bool) (i : nat) (hostString : string) : string :=
  if isSingleWriterDsn then (if Nat.eqb i 0 then WRITER else READER)
  else if bool_decide (IdentifyRdsUrlType hostString = RDS_READER_CLUSTER) then READER else WRITER.

Fixpoint build_hosts (isSingleWriterDsn : bool) (port : Z) (i : nat) (l : list string) : Result (list HostInfo) :=
  match l with
  | [] => Ok []
  | hostString :: l =>
      (try h := Build (SetRole (host_role isSingleWriterDsn i hostString)
                         (SetPort port (SetHost hostString NewHostInfoBuilder))) in
       try hs := build_hosts isSingleWriterDsn port (S i) l in Ok (h :: hs))%go
  end.

Definition GetHostsFromProps (m : properties) (isSingleWriterDsn : bool) : Result (list HostInfo) :=
  match Split (default "" (m !! Name PORT)) "," with
  | _ :: _ :: _ => Err (NewDsnParsingError "DsnParser.unableToMatchPortsToHosts" [])
  | ports =>
      let port := match ports with
                  | [portString] => if is_empty portString then HOST_NO_PORT else default HOST_NO_PORT (Atoi portString)
                  | _ => HOST_NO_PORT
                  end in
      build_hosts isSingleWriterDsn port 0 (Split (default "" (m !! Name HOST)) ",")
  end.
Definition GetHostsFromDsn (dsn : string) (isSingleWriterDsn : bool) : Result (list HostInfo) :=
  (try m := ParseDsn dsn in GetHostsFromProps m isSingleWriterDsn)%go.

Definition ParseHostPortPair (instanceClusterTemplate : string) (defaultPort : Z) : Result HostInfo :=
  match Split instanceClusterTemplate ":" with
  | [] => Panic
  | host :: l =>
      (try port := match l with
                   | [] => Ok defaultPort
                   | p :: _ => match Atoi p with Some z => Ok z | None => Err (PlainError "strconv.Atoi" [p]) end
                   end in
       Build (SetRole (host_role false 0 host) (SetPort port (SetHost host NewHostInfoBuilder))))%go
  end.
End Entry.

(** ** Writing the DSN of the target driver *)

Section PrepareDsn.
Context `{MapRange}.

Definition mysql_port (m : properties) (hostInfo : option HostInfo) : string :=
  let port := default "" (m !! Name PORT) in
  match hostInfo with
  | Some h => if negb (IsNil hostInfo) && negb (Port h =? HOST_NO_PORT) then ":" +:+ Itoa (Port h)
              else if negb (is_empty port) then ":" +:+ port else port
  | None => if negb (is_empty port) then ":" +:+ port else port
  end.
Definition dsn_address (m : properties) (hostInfo : option HostInfo) : string :=
  match hostInfo with
  | Some h => if IsNil hostInfo then default "" (m !! Name HOST) else Host h
  | None => default "" (m !! Name HOST)
  end.

Definition param (e : string * string) : string := e.1 +:+ "=" +:+ e.2.

Definition mysql_PrepareDsn (m : properties) (hostInfo : option HostInfo) : string :=
  let username := default "" (m !! Name USER) in
  let password := default "" (m !! Name PASSWORD) in
  let user_info := if is_empty username then ""
                   else username +:+ (if is_empty password then "" else ":" +:+ password) +:+ "@" in
  let address := if is_empty (default "" (m !! Name HOST)) then ""
                 else "(" +:+ dsn_address m hostInfo +:+ mysql_port m hostInfo +:+ ")" in
  let database := PathEscape (default "" (m !! Name DATABASE)) in
  let params := Join (param <$> FilterSlice (range 41 (RemoveInternalAwsWrapperProperties m))
                                  (fun e => negb (bool_decide (e.1 ∈ ALL_WRAPPER_PROPERTIES)))) "&" in
  user_info +:+ default "" (m !! Name NET) +:+ address +:+ "/" +:+ database +:+
  (if is_empty params then "" else "?" +:+ params).

Definition pgxPersistingProperties : list string := [Name USER; Name PASSWORD; Name HOST; Name DATABASE; Name PORT].

Definition pgx_value (hostInfo : option HostInfo) (k v : string) : string :=
  match hostInfo with
  | Some h =>
      if IsNil hostInfo then v
      else if bool_decide (k = Name HOST) then Host h
      else if bool_decide (k = Name PORT) && negb (Port h =? HOST_NO_PORT) then Itoa (Port h)
      else v
  | None => v
  end.
Definition pgx_kept (k : string) : bool :=
  bool_decide (k ∈ pgxPersistingProperties) || negb (bool_decide (k ∈ ALL_WRAPPER_PROPERTIES)).

Definition pgx_PrepareDsn (m : properties) (hostInfo : option HostInfo) : string :=
  Join ((fun e => param (e.1, pgx_value hostInfo e.1 e.2)) <$>
          FilterSlice (range 42 (RemoveInternalAwsWrapperProperties m)) (fun e => pgx_kept e.1)) " ".
End PrepareDsn.

(** ** Lemmas on cutting strings *)

Lemma drop_string_app u v : drop_string (String.length u) (u +:+ v) = v.
Proof. induction u as [|a u IH]; [by destruct v|exact IH]. Qed.
Lemma drop_string_S_app u c v : drop_string (S (String.length u)) (u +:+ String c v) = v.
Proof. induction u as [|a u IH]; [by destruct v|exact IH]. Qed.
Lemma IndexByte_app c u v : no_char c u = true -> IndexByte (u +:+ String c v) c = Some (String.length u).
Proof.
  unfold no_char. induction u as [|a u IH]; rewrite ?string_app_nil_l, ?string_app_cons; simpl.
  - by rewrite decide_True.
  - intros [Ha%negb_true_iff%bool_decide_eq_false Hu]%andb_true_iff. by rewrite decide_False, IH.
Qed.

Definition no_space (s : string) : bool := string_forall (fun c => negb (is_space c)) s.

Lemma trim_left_cons c s : is_space c = false -> trim_left (String c s) = String c s.
Proof. simpl. by intros ->. Qed.
Lemma trim_left_app u v : u <> "" -> no_space u = true -> trim_left (u +:+ v) = u +:+ v.
Proof.
  destruct u as [|a u]; [done|]. intros _ [Ha%negb_true_iff _]%andb_true_iff. by apply trim_left_cons.
Qed.
Lemma TrimSpace_no_space s : no_space s = true -> TrimSpace s = s.
Proof.
  intros Hs. unfold TrimSpace. destruct s as [|a s]; [done|].
  rewrite <-(string_app_nil_r (String a s)), trim_left_app by done. rewrite string_app_nil_r.
  generalize (String a s) Hs. clear. intros s. induction s as [|a s IH]; [done|].
  intros [Ha%negb_true_iff Hs]%andb_true_iff. simpl. rewrite IH by done. destruct s; by rewrite ?Ha.
Qed.

Lemma trim_left_suffix s : exists p, s = p +:+ trim_left s.
Proof.
  induction s as [|a s [p IH]]; [by exists ""|]. simpl. destruct (is_space a).
  - exists (String a p). rewrite string_app_cons. by f_equal.
  - by exists "".
Qed.
Lemma drop_string_suffix n s : exists p, s = p +:+ drop_string n s /\ String.length p = Nat.min n (String.length s).
Proof.
  revert s. induction n as [|n IH]; intros s; [by exists ""; destruct s|].
  destruct s as [|a s]; [by exists ""|]. destruct (IH s) as (p & E & Hl). exists (String a p).
  rewrite string_app_cons. simpl. rewrite <-E, Hl. done.
Qed.

(** ** Reading a value *)

Lemma unquoted_end_app v rest :
  string_forall (fun c => negb (is_space c) && negb (bool_decide (c = backslash))) v = true ->
  rest = "" \/ (exists r, rest = String " " r) ->
  unquoted_end (v +:+ rest) = Some (String.length v).
Proof.
  intros Hv Hr. induction v as [|a v IH]; rewrite ?string_app_nil_l, ?string_app_cons.
  - destruct Hr as [->|[r ->]]; done.
  - simpl in *. apply andb_true_iff in Hv as [[Hs%negb_true_iff Hb%negb_true_iff]%andb_true_iff Hv].
    by rewrite Hs, Hb, IH.
Qed.

(** Backslashes and quotes escaped, the way a quoted value is written. *)
Fixpoint escape_value (s : string) : string :=
  match s with
  | EmptyString => EmptyString
  | String c r =>
      if bool_decide (c = backslash) || bool_decide (c = quote) then String backslash (String c (escape_value r))
      else String c (escape_value r)
  end.

Lemma quoted_end_escape v rest : quoted_end (escape_value v +:+ String quote rest) = String.length (escape_value v).
Proof.
  induction v as [|a v IH]; [done|]. cbn [escape_value].
  destruct (bool_decide (a = backslash)) eqn:Hb; [|destruct (bool_decide (a = quote)) eqn:Hq];
    cbn [orb]; rewrite !string_app_cons; cbn [quoted_end String.length].
  - by rewrite IH.
  - by rewrite IH.
  - by rewrite Hq, Hb, IH.
Qed.

(** After the first replacement only the quotes are escaped. *)
Fixpoint escape_quotes (s : string) : string :=
  match s with
  | EmptyString => EmptyString
  | String c r =>
      if bool_decide (c = quote) then String backslash (String c (escape_quotes r)) else String c (escape_quotes r)
  end.

Lemma ReplacePair_skip a b new c s : c <> a -> ReplacePair a b new (String c s) = String c (ReplacePair a b new s).
Proof. intros Hc. destruct s as [|d s]; [done|]. simpl. by rewrite bool_decide_false. Qed.
Lemma ReplacePair_skip2 a b new d s :
  d <> b -> d <> a -> ReplacePair a b new (String a (String d s)) = String a (String d (ReplacePair a b new s)).
Proof.
  intros Hd Ha. rewrite <-(ReplacePair_skip a b new d) by done. cbn [ReplacePair].
  by rewrite (bool_decide_false (d = b)), andb_false_r by done.
Qed.
Lemma ReplacePair_hit a b new s : ReplacePair a b new (String a (String b s)) = new +:+ ReplacePair a b new s.
Proof. cbn [ReplacePair]. by rewrite !bool_decide_true by done. Qed.

Lemma unescape_backslashes v : ReplacePair backslash backslash "\" (escape_value v) = escape_quotes v.
Proof.
  induction v as [|a v IH]; [done|]. cbn [escape_value escape_quotes].
  destruct (bool_decide_reflect (a = backslash)) as [->|Hb]; cbn [orb].
  { rewrite ReplacePair_hit, IH. done. }
  destruct (bool_decide_reflect (a = quote)) as [->|Hq].
  - by rewrite ReplacePair_skip2, IH.
  - by rewrite ReplacePair_skip, IH.
Qed.

(** The head of a text with escaped quotes is no quote. *)
Lemma escape_quotes_head v : match escape_quotes v with String c _ => c <> quote | EmptyString => True end.
Proof. destruct v as [|a v]; [done|]. simpl. by destruct (bool_decide_reflect (a = quote)). Qed.

Lemma unescape_quotes v : ReplacePair backslash quote "'" (escape_quotes v) = v.
Proof.
  induction v as [|a v IH]; [done|]. cbn [escape_quotes].
  destruct (bool_decide_reflect (a = quote)) as [->|Hq]; [by rewrite ReplacePair_hit, IH|].
  transitivity (String a (ReplacePair backslash quote "'" (escape_quotes v))); [|by rewrite IH].
  pose proof (escape_quotes_head v). destruct (escape_quotes v) as [|d s]; [done|].
  cbn [ReplacePair]. by rewrite (bool_decide_false (d = quote)), andb_false_r by done.
Qed.

Lemma unescape_escape v : unescape_value (escape_value v) = v.
Proof. unfold unescape_value. by rewrite unescape_backslashes, unescape_quotes. Qed.

Lemma ReplacePair_none a b new s : no_char a s = true -> ReplacePair a b new s = s.
Proof.
  unfold no_char. induction s as [|c s IH]; [done|]. simpl string_forall.
  intros [Hc%negb_true_iff%bool_decide_eq_false Hs]%andb_true_iff. by rewrite ReplacePair_skip, IH.
Qed.

(** ** Reading the settings one after the other *)

(** [txt] is read as the value [v], whatever follows after a space. *)
Definition reads (txt v : string) : Prop :=
  trim_left txt = txt /\ txt <> "" /\
  (forall rest, rest = "" \/ (exists r, rest = String " " r) ->
     trim_left (txt +:+ rest) = txt +:+ rest /\ next_value (txt +:+ rest) = Ok (v, trim_left rest)).

Definition quoted_value (v : string) : string := String quote (escape_value v +:+ "'").

Lemma reads_quoted v : reads (quoted_value v) v.
Proof.
  split; [done|]. split; [done|]. intros rest _. unfold quoted_value. rewrite string_app_cons, string_app_assoc.
  rewrite string_app_cons, string_app_nil_l. split; [by apply trim_left_cons|].
  cbn [next_value]. rewrite bool_decide_true by done. rewrite quoted_end_escape, string_length_app. simpl String.length.
  rewrite (proj2 (Nat.eqb_neq _ _)), (proj2 (Nat.ltb_ge _ _)) by lia.
  rewrite take_string_app, unescape_escape. unfold rest_after. by rewrite drop_string_S_app.
Qed.

Definition plain (v : string) : bool :=
  negb (is_empty v) && string_forall (fun c => negb (is_space c) && negb (bool_decide (c = backslash))) v &&
  match v with String c _ => negb (bool_decide (c = quote)) | EmptyString => true end.

Lemma plain_no_space v : plain v = true -> no_space v = true /\ no_char backslash v = true.
Proof.
  unfold plain. intros [[_ H]%andb_true_iff _]%andb_true_iff. unfold no_space, no_char.
  induction v as [|a v IH]; [done|]. simpl in *.
  apply andb_true_iff in H as [[Ha Hb]%andb_true_iff [? ?]%IH]. by rewrite Ha, Hb.
Qed.

Lemma reads_plain v : plain v = true -> reads v v.
Proof.
  intros Hp. pose proof (plain_no_space v Hp) as [Hs Hb].
  apply andb_true_iff in Hp as [[He Hu]%andb_true_iff Hq].
  apply negb_true_iff, is_empty_false in He.
  split. { rewrite <-(string_app_nil_r v) at 1. rewrite trim_left_app by done. by rewrite string_app_nil_r. }
  split; [done|]. intros rest Hr. split; [by apply trim_left_app|].
  unfold next_value. pose proof (unquoted_end_app v rest Hu Hr) as Hend.
  assert (rest_after (String.length v) (v +:+ rest) = trim_left rest) as Hrest.
  { unfold rest_after. destruct Hr as [->|[r ->]]; [|by rewrite drop_string_S_app].
    clear. rewrite string_app_nil_r. f_equal. induction v as [|a v IH]; [done|exact IH]. }
  assert (unescape_value (take_string (String.length v) (v +:+ rest)) = v) as Hv.
  { rewrite take_string_app. unfold unescape_value. by rewrite !ReplacePair_none by (by rewrite ?ReplacePair_none). }
  destruct v as [|c v]; [done|]. rewrite string_app_cons in *. apply negb_true_iff in Hq. rewrite Hq.
  by rewrite Hend, Hv, Hrest.
Qed.

(** A setting as it is written: the key, the text of the value, the value. *)
Definition setting : Type := string * string * string.
Definition setting_text (s : setting) : string := s.1.1 +:+ "=" +:+ s.1.2.
Definition key_ok (k : string) : Prop := k <> "" /\ no_space k = true /\ no_char "=" k = true.
Definition key_okb (k : string) : bool := negb (is_empty k) && no_space k && no_char "=" k.
Lemma key_okb_spec k : key_okb k = true -> key_ok k.
Proof. intros [[?%negb_true_iff%is_empty_false ?]%andb_true_iff ?]%andb_true_iff. by split. Qed.
Definition setting_ok (s : setting) : Prop := key_ok s.1.1 /\ reads s.1.2 s.2.
Definition add_setting (m : properties) (s : setting) : properties := <[database_key s.1.1 := s.2]> m.

Lemma next_setting_text s rest :
  setting_ok s -> rest = "" \/ (exists r, rest = String " " r) ->
  next_setting (setting_text s +:+ rest) = Ok (database_key s.1.1, s.2, trim_left rest).
Proof.
  destruct s as [[k txt] v]. intros [(Hk & Hs & He) (_ & _ & Hread)] Hr. unfold next_setting, setting_text. cbn [fst snd] in *.
  destruct (Hread rest Hr) as [Ht Hn].
  rewrite !string_app_assoc, string_app_cons, string_app_nil_l.
  rewrite IndexByte_app by done. cbv beta iota. rewrite drop_string_S_app, take_string_app, Ht, Hn. simpl.
  rewrite TrimSpace_no_space by done. unfold database_key. case_bool_decide; [done|].
  by rewrite (proj2 (is_empty_false _)).
Qed.

Lemma trim_left_Join l : Forall setting_ok l -> trim_left (Join (setting_text <$> l) " ") = Join (setting_text <$> l) " ".
Proof.
  intros [|s l' [(Hk & Hs & _) _] _]; [done|].
  destruct s as [[[|c k] txt] v]; [done|]. apply andb_true_iff in Hs as [Hs%negb_true_iff _].
  unfold fmap. cbn [list_fmap Join]. destruct l'; unfold setting_text; simpl;
    rewrite !string_app_cons; by apply trim_left_cons.
Qed.

Lemma settings_loop_text l : forall fuel m,
  Forall setting_ok l -> (String.length (Join (setting_text <$> l) " ") <= fuel)%nat ->
  settings_loop fuel (Join (setting_text <$> l) " ") m = Ok (foldl add_setting m l).
Proof.
  induction l as [|s l IH]; intros fuel m Hl Hf; [by destruct fuel|].
  inversion Hl as [|? ? Hs Hl']; subst.
  set (rest := match l with [] => "" | _ => String " " (Join (setting_text <$> l) " ") end).
  assert (Join (setting_text <$> (s :: l)) " " = setting_text s +:+ rest) as E.
  { unfold rest. destruct l; [by rewrite string_app_nil_r|done]. }
  assert (trim_left rest = Join (setting_text <$> l) " ") as Ht.
  { unfold rest. destruct l; [done|]. rewrite <-(trim_left_Join (s0 :: l)) at 2 by done. done. }
  assert (String.length (Join (setting_text <$> l) " ") <= String.length rest)%nat as Hlen.
  { unfold rest. destruct l; simpl; lia. }
  assert (rest = "" \/ exists r, rest = String " " r) as Hr.
  { unfold rest. destruct l; eauto. }
  rewrite E in *. clear E. clearbody rest. rewrite string_length_app in Hf.
  assert (exists c t, setting_text s = String c t) as (c & t & Et).
  { destruct Hs as [(Hk & _) _]. destruct s as [[[|c k] txt] v]; [done|]. unfold setting_text. simpl.
    rewrite string_app_cons. eauto. }
  pose proof (next_setting_text s rest Hs Hr) as Hn. rewrite Et, string_app_cons in *. simpl in Hf.
  destruct fuel as [|fuel]; [lia|]. cbn [settings_loop is_empty]. rewrite (proj2 (is_empty_false _)) by done.
  rewrite Hn. simpl. rewrite Ht. apply IH; [done|lia].
Qed.

Lemma parse_settings l :
  Forall setting_ok l ->
  parsePgxKeywordValueSettings (Join (setting_text <$> l) " ") =
  Ok (<[Name DRIVER_PROTOCOL := PGX_DRIVER_PROTOCOL]> (foldl add_setting ∅ l)).
Proof. intros Hl. unfold parsePgxKeywordValueSettings. by rewrite settings_loop_text. Qed.

(** The settings written with quoted values. *)
Definition quoted_settings (l : list (string * string)) : string :=
  Join ((fun e => e.1 +:+ "=" +:+ quoted_value e.2) <$> l) " ".

(** A keyword/value string whose values are quoted, with backslashes
    and quotes escaped, is read back as it was written, whatever the values
    contain; dbname is read as database and later settings win. *)
Theorem quoted_settings_roundtrip l :
  forallb (fun e => key_okb e.1) l = true ->
  parsePgxKeywordValueSettings (quoted_settings l) =
  Ok (<[Name DRIVER_PROTOCOL := PGX_DRIVER_PROTOCOL]> (foldl (fun m e => <[database_key e.1 := e.2]> m) ∅ l)).
Proof.
  intros Hl. set (s := (fun e : string * string => (e.1, quoted_value e.2, e.2)) <$> l).
  assert (Join (setting_text <$> s) " " = quoted_settings l) as E.
  { unfold s, quoted_settings. by rewrite <-list_fmap_compose. }
  rewrite <-E, parse_settings.
  - do 2 f_equal. unfold s. generalize (∅ : properties). clear.
    induction l as [|e l IH]; intros m; [done|]. apply IH.
  - unfold s. apply Forall_fmap, Forall_forall. intros e He. split; [|apply reads_quoted].
    rewrite forallb_forall in Hl. apply key_okb_spec, (Hl e). by apply list_elem_of_In.
Qed.

Lemma quoted_settings_roundtrip_witness :
  forallb (fun e => key_okb e.1) [("host", "db"); ("password", "it's a \ one")] = true /\
  parsePgxKeywordValueSettings "host='db' password='it\'s a \\ one'" =
  Ok (<["protocol" := "postgresql"]> (<["password" := "it's a \ one"]> (<["host" := "db"]> ∅))).
Proof.
  split; [by vm_compute|]. exact (quoted_settings_roundtrip [("host", "db"); ("password", "it's a \ one")] eq_refl).
Defined.

(** ** Termination, and the one panic *)

Lemma quoted_end_bound r : (quoted_end r <= String.length r)%nat \/ exists s, r = s +:+ "\".
Proof.
  induction (well_founded_ltof _ String.length r) as [r _ IH]. unfold ltof in IH.
  destruct r as [|c r]; [by left|]. cbn [quoted_end String.length].
  destruct (bool_decide (c = quote)); [left; lia|].
  destruct (bool_decide_reflect (c = backslash)) as [->|_].
  - destruct r as [|d r]; [right; by exists ""|]. destruct (IH r) as [Hle|[s ->]]; [simpl; lia|left; simpl; lia|].
    right. exists (String backslash (String d s)). by rewrite !string_app_cons.
  - destruct (IH r) as [Hle|[s ->]]; [simpl; lia|left; lia|].
    right. exists (String c s). by rewrite !string_app_cons.
Qed.

Lemma suffix_trans (a b c : string) : (exists p, a = p +:+ b) -> (exists p, b = p +:+ c) -> exists p, a = p +:+ c.
Proof. intros [p ->] [q ->]. exists (p +:+ q). by rewrite string_app_assoc. Qed.

Lemma rest_after_suffix n s : exists p, s = p +:+ rest_after n s.
Proof.
  unfold rest_after. apply (suffix_trans _ (drop_string (S n) s)); [|apply trim_left_suffix].
  destruct (drop_string_suffix (S n) s) as (p & E & _). eauto.
Qed.

Lemma next_value_spec dsn :
  match next_value dsn with
  | Ok (_, rest) => exists p, dsn = p +:+ rest
  | Panic => exists s, dsn = s +:+ "\"
  | Err _ => True
  end.
Proof.
  unfold next_value. destruct dsn as [|c r]; [by exists ""|]. destruct (bool_decide (c = quote)).
  - destruct (Nat.eqb _ _) eqn:E; [done|]. destruct (Nat.ltb _ _) eqn:Hlt.
    + apply Nat.ltb_lt in Hlt. destruct (quoted_end_bound r) as [?|[s ->]]; [lia|].
      exists (String c s). by rewrite string_app_cons.
    + destruct (rest_after_suffix (quoted_end r) r) as [p Hp]. exists (String c p). rewrite string_app_cons. by f_equal.
  - destruct (unquoted_end _) as [n|]; [|done]. apply rest_after_suffix.
Qed.

Lemma IndexByte_spec s c i : IndexByte s c = Some i -> (i < String.length s)%nat.
Proof.
  revert i. induction s as [|a s IH]; intros i; simpl; [done|]. case_decide; [intros [= <-]; lia|].
  destruct (IndexByte s c) as [j|]; intros [= <-]. specialize (IH j eq_refl). lia.
Qed.

Lemma next_setting_spec dsn :
  match next_setting dsn with
  | Ok s => (String.length s.2 < String.length dsn)%nat /\ exists p, dsn = p +:+ s.2
  | Panic => exists s, dsn = s +:+ "\"
  | Err _ => True
  end.
Proof.
  unfold next_setting. destruct (IndexByte dsn "=") as [i|] eqn:Hi; [|done]. apply IndexByte_spec in Hi.
  set (d := drop_string (S i) dsn). destruct (drop_string_suffix (S i) dsn) as (p & E & Hp). fold d in E.
  destruct (trim_left_suffix d) as [q Hq]. pose proof (next_value_spec (trim_left d)) as Hv.
  destruct (next_value (trim_left d)) as [[v rest]|e|]; cbn [mbind Result_bind fst snd]; [|done|].
  - destruct (is_empty _); [done|]. destruct Hv as [p' Hv]. cbn [snd]. split.
    + rewrite E, Hq, Hv, !string_length_app. lia.
    + exists (p +:+ q +:+ p'). rewrite E, Hq, Hv at 1. by rewrite !string_app_assoc.
  - destruct Hv as [s Hv]. exists (p +:+ q +:+ s). rewrite E, Hq, Hv at 1. by rewrite !string_app_assoc.
Qed.

Lemma settings_loop_panic fuel : forall dsn m,
  (String.length dsn <= fuel)%nat -> settings_loop fuel dsn m = Panic -> exists s, dsn = s +:+ "\".
Proof.
  induction fuel as [|fuel IH]; intros dsn m Hf; cbn [settings_loop].
  { destruct dsn; [done|simpl in Hf; lia]. }
  destruct (is_empty dsn); [done|]. pose proof (next_setting_spec dsn) as Hn.
  destruct (next_setting dsn) as [s|e|]; cbn [mbind Result_bind]; [|done|done].
  destruct Hn as [Hlen [p Hp]]. intros [s' Hs']%IH; [|lia].
  exists (p +:+ s'). rewrite Hp, Hs' at 1. by rewrite string_app_assoc.
Qed.

(** Reading a keyword/value string ends with properties or an error on
    every input: the fuel is never used up, and the only panic needs a
    string that ends in a backslash. *)
Theorem keyword_value_total dsn :
  parsePgxKeywordValueSettings dsn = Panic -> exists s, dsn = s +:+ "\".
Proof.
  unfold parsePgxKeywordValueSettings. destruct (settings_loop _ _ _) eqn:E; [done|done|]. intros _.
  by apply settings_loop_panic in E.
Qed.

Lemma keyword_value_total_witness :
  parsePgxKeywordValueSettings "host=h password='abc\" = Panic /\ exists s, "host=h password='abc\" = s +:+ "\".
Proof.
  assert (H : parsePgxKeywordValueSettings "host=h password='abc\" = Panic) by by vm_compute.
  split; [exact H|exact (keyword_value_total _ H)].
Defined.

(** ** Round trips through the DSN of the target driver *)

Lemma foldl_put_lookup (l : list (string * string)) (m : properties) (k : string) :
  NoDup l.*1 -> foldl (fun (m : properties) e => <[e.1 := e.2]> m) m l !! k =
  match (list_to_map l : gmap string string) !! k with Some v => Some v | None => m !! k end.
Proof.
  revert m. induction l as [|[k' v] l IH]; intros m; [done|]. cbn [fmap list_fmap foldl fst snd list_to_map foldr].
  intros [Hk Hl]%NoDup_cons. rewrite IH by done. destruct (decide (k = k')) as [->|Hne].
  - rewrite (not_elem_of_list_to_map_1 (M := gmap string)) by done. by rewrite !lookup_insert_eq.
  - by rewrite !lookup_insert_ne by done.
Qed.

(** What [PrepareDsn] keeps of a map, in the order of the range. *)
Definition kept_entries `{MapRange} (n : nat) (keep : string -> bool) (m : properties) : list (string * string) :=
  FilterSlice (range n (RemoveInternalAwsWrapperProperties m)) (fun e => keep e.1).

Section Kept.
Context `{MapRange} (n : nat) (keep : string -> bool) (m : properties).

Lemma elem_of_kept k v :
  (k, v) ∈ kept_entries n keep m <-> m !! k = Some v /\ startsWithPrefix k = false /\ keep k = true.
Proof.
  unfold kept_entries. rewrite elem_of_FilterSlice, elem_of_range. unfold RemoveInternalAwsWrapperProperties.
  rewrite map_lookup_filter_Some. simpl. tauto.
Qed.

Lemma kept_NoDup : NoDup (kept_entries n keep m).*1.
Proof.
  unfold kept_entries. rewrite FilterSlice_filter. set (m' := RemoveInternalAwsWrapperProperties m).
  assert (NoDup (range n m').*1) as Hnd.
  { rewrite (range_perm n m'). apply NoDup_fst_map_to_list. }
  revert Hnd. generalize (range n m'). intros l. induction l as [|[k v] l IH]; [done|].
  intros [Hk Hl]%NoDup_cons. rewrite filter_cons. case_decide; [|by apply IH]. apply NoDup_cons. split; [|by apply IH].
  intros ([k' v'] & Hkk & [_ He]%list_elem_of_filter)%list_elem_of_fmap. apply Hk. apply list_elem_of_fmap. by exists (k', v').
Qed.

(** Reading the entries back, each through [f]. *)
Lemma kept_lookup (f : string -> string -> string) (m0 : properties) k :
  foldl (fun (m : properties) e => <[e.1 := e.2]> m) m0 ((fun e => (e.1, f e.1 e.2)) <$> kept_entries n keep m) !! k =
  match m !! k with
  | Some v => if negb (startsWithPrefix k) && keep k then Some (f k v) else m0 !! k
  | None => m0 !! k
  end.
Proof.
  set (l := kept_entries n keep m).
  assert (((fun e : string * string => (e.1, f e.1 e.2)) <$> l).*1 = l.*1) as E.
  { rewrite <-list_fmap_compose. by apply list_fmap_ext. }
  rewrite foldl_put_lookup by (rewrite E; apply kept_NoDup).
  destruct ((list_to_map _ : gmap string string) !! k) as [w|] eqn:Hw.
  - apply (elem_of_list_to_map_2 (M := gmap string)) in Hw.
    apply list_elem_of_fmap in Hw as ([k' v] & [= -> ->] & (Hm & Hp & Hk)%elem_of_kept). simpl.
    by rewrite Hm, Hp, Hk.
  - apply (not_elem_of_list_to_map_2 (M := gmap string)) in Hw. rewrite E in Hw.
    destruct (m !! k) as [v|] eqn:Hm; [|done]. destruct (negb _ && _) eqn:Hk; [|done].
    apply andb_true_iff in Hk as [?%negb_true_iff ?]. exfalso. apply Hw.
    apply (list_elem_of_fmap_2' fst _ (k, v)); [|done]. by apply elem_of_kept.
Qed.
End Kept.

(** What the DSN for pgx says about a property. *)
Definition pgx_kept_value (hostInfo : option HostInfo) (k v : string) : option string :=
  if negb (startsWithPrefix k) && pgx_kept k then Some (pgx_value hostInfo k v) else None.

(** Keys and values the DSN for pgx can carry, since it quotes nothing. *)
Definition pgx_writable (hostInfo : option HostInfo) (k v : string) : bool :=
  match pgx_kept_value hostInfo k v with
  | Some w => key_okb k && negb (bool_decide (k = "dbname")) && plain w
  | None => true
  end.
Lemma pgx_writable_spec hostInfo k v w :
  pgx_writable hostInfo k v = true -> pgx_kept_value hostInfo k v = Some w ->
  key_ok k /\ k <> "dbname" /\ plain w = true.
Proof.
  unfold pgx_writable. intros Hw E. rewrite E in Hw.
  apply andb_true_iff in Hw as [[Hk Hn%negb_true_iff%bool_decide_eq_false]%andb_true_iff Hp].
  split; [by apply key_okb_spec|done].
Qed.

(** The DSN written for pgx reads back as exactly the persisting
    properties and those that are not of the wrapper, with the host and the
    port of the host info in place, when no value needs quotes. *)
Theorem pgx_PrepareDsn_roundtrip `{MapRange} m hostInfo :
  map_Forall (fun k v => pgx_writable hostInfo k v = true) m ->
  parsePgxKeywordValueSettings (pgx_PrepareDsn m hostInfo) =
  Ok (<[Name DRIVER_PROTOCOL := PGX_DRIVER_PROTOCOL]> (map_imap (pgx_kept_value hostInfo) m)).
Proof.
  intros Hmap. pose proof (fun k v w Hk => pgx_writable_spec hostInfo k v w (Hmap k v Hk)) as Hm.
  set (l := kept_entries 42 pgx_kept m).
  set (s := (fun e : string * string => (e.1, pgx_value hostInfo e.1 e.2, pgx_value hostInfo e.1 e.2)) <$> l).
  assert (Hl : forall k v, (k, v) ∈ l ->
    m !! k = Some v /\ pgx_kept_value hostInfo k v = Some (pgx_value hostInfo k v)).
  { intros k v (Hk & Hp & Hkeep)%elem_of_kept. split; [done|]. unfold pgx_kept_value. by rewrite Hp, Hkeep. }
  assert (Forall setting_ok s) as Hs.
  { unfold s. apply Forall_fmap, Forall_forall. intros [k v] [Hk Hw]%Hl. destruct (Hm k v _ Hk Hw) as (Hok & _ & Hp).
    split; [done|]. by apply reads_plain. }
  assert (pgx_PrepareDsn m hostInfo = Join (setting_text <$> s) " ") as ->.
  { unfold s, pgx_PrepareDsn. by rewrite <-list_fmap_compose. }
  rewrite parse_settings by done. do 2 f_equal.
  assert (foldl add_setting ∅ s =
    foldl (fun (m : properties) e => <[e.1 := e.2]> m) ∅ ((fun e => (e.1, pgx_value hostInfo e.1 e.2)) <$> l)) as ->.
  { assert (Hdb : forall k v, (k, v) ∈ l -> database_key k = k).
    { intros k v [Hk Hw]%Hl. destruct (Hm k v _ Hk Hw) as (_ & Hn & _). unfold database_key. by case_bool_decide. }
    unfold s. clear -Hdb. generalize (∅ : properties). induction l as [|[k v] l IH]; intros m0; [done|].
    cbn [fmap list_fmap foldl]. unfold add_setting at 2. cbn [fst snd]. rewrite (Hdb k v) by left.
    apply IH. intros k' v' Hin. apply (Hdb k' v'). by right. }
  apply map_eq. intros k. unfold l. rewrite kept_lookup, map_lookup_imap, lookup_empty.
  destruct (m !! k) as [v|]; [|done]. simpl. unfold pgx_kept_value. by destruct (_ && _).
Qed.

Definition example_props : properties :=
  <["user" := "admin"]> (<["password" := "p:w"]> (<["host" := "cluster"]> (<["port" := "5432"]>
  (<["database" := "db"]> (<["plugins" := "efm"]> (<["sslmode" := "disable"]> (<["monitoring-x" := "1"]> ∅))))))).
Definition example_host : option HostInfo := BuildOrNil (SetPort 1234 (SetHost "instance-1" NewHostInfoBuilder)).

Lemma pgx_PrepareDsn_roundtrip_witness :
  map_Forall (fun k v => pgx_writable example_host k v = true) example_props /\
  parsePgxKeywordValueSettings (pgx_PrepareDsn example_props example_host) =
  Ok (<["protocol" := "postgresql"]> (<["user" := "admin"]> (<["password" := "p:w"]> (<["host" := "instance-1"]>
     (<["port" := "1234"]> (<["database" := "db"]> (<["sslmode" := "disable"]> ∅))))))).
Proof.
  assert (H : map_Forall (fun k v => pgx_writable example_host k v = true) example_props).
  { apply (bool_decide_unpack _). by vm_compute. }
  split; [exact H|]. rewrite (pgx_PrepareDsn_roundtrip example_props example_host H). by vm_compute.
Defined.

(** ** The pattern of MySQL strings *)

(** [v] does not go on with the class [f]. *)
Definition stops (f : ascii -> bool) (v : string) : Prop :=
  match v with EmptyString => True | String c _ => f c = false end.

Lemma cut_class f : forall u v u' v',
  string_forall f u = true -> string_forall f u' = true -> stops f v -> stops f v' ->
  u +:+ v = u' +:+ v' -> u = u' /\ v = v'.
Proof.
  induction u as [|a u IH]; intros v [|a' u'] v' Hu Hu' Hv Hv';
    rewrite ?string_app_nil_l, ?string_app_cons; simpl in Hu, Hu'.
  - done.
  - intros ->. apply andb_true_iff in Hu' as [Ha _]. simpl in Hv. congruence.
  - intros <-. apply andb_true_iff in Hu as [Ha _]. simpl in Hv'. congruence.
  - apply andb_true_iff in Hu as [_ Hu], Hu' as [_ Hu']. intros [= -> E].
    by apply IH in E as [-> ->].
Qed.

Lemma match_Opt_first r l s :
  in_re (Seq (r :: l)) s -> match_anchored (Seq (Opt r :: l)) s = match_anchored (Seq (r :: l)) s.
Proof.
  intros Hin. apply match_anchored_spec in Hin as [c Hc]. rewrite Hc. unfold match_anchored in *.
  unfold Seq, Opt in *. cbn [foldr re_match] in *. by rewrite Hc.
Qed.

Lemma parses_Opt_inv r u d : parses (Opt r) u d -> parses r u d \/ u = "" /\ d = [].
Proof.
  unfold Opt. inversion 1 as [| | |? ? ? ? Hr|? ? ? ? He| | |]; subst; [by left|]. right. by inversion He.
Qed.
Lemma parses_Cat_inv r1 r2 u d :
  parses (Cat r1 r2) u d -> exists v w d1 d2, u = v +:+ w /\ d = d2 ++ d1 /\ parses r1 v d1 /\ parses r2 w d2.
Proof. inversion 1 as [| |? ? v w d1 d2 ? ?| | | | |]; subst. by exists v, w, d1, d2. Qed.
Lemma parses_Chr_inv c u d : parses (Chr c) u d -> u = String c "" /\ d = [].
Proof. intros H. pose proof (parses_no_groups _ _ _ H eq_refl) as ->. by apply parses_in_re, in_re_Chr in H. Qed.
Lemma parses_Eps_inv u d : parses Eps u d -> u = "" /\ d = [].
Proof. by inversion 1. Qed.
Lemma in_re_Star_inv f u : in_re (Star (Cls f)) u -> string_forall f u = true.
Proof. apply in_re_alphabet. simpl. apply forallb_forall. intros a _. by destruct (f a). Qed.

(** A group around a repeated class, mandatory or optional. *)
Lemma parses_class_group g f u d :
  parses (Grp g (Plus (Cls f))) u d \/ parses (Grp g (Star (Cls f))) u d ->
  d = [(g, u)] /\ string_forall f u = true.
Proof.
  intros [H|H]; apply parses_Grp_inv in H as (d' & -> & H);
    pose proof (parses_no_groups _ _ _ H eq_refl) as ->; (split; [done|]).
  - by apply parses_in_re, in_re_Cls_inv in H.
  - by apply parses_in_re, in_re_Star_inv in H.
Qed.

Definition not_in (l : string) (c : ascii) : bool := negb (bool_decide (c ∈ String.list_ascii_of_string l)).

(** The parts of a MySQL string. *)
Record mysql_text := { t_user : string; t_passwd : string; t_net : string; t_addr : string; t_db : string; t_params : string }.
Definition text_ok (t : mysql_text) : bool :=
  negb (is_empty (t_user t)) && string_forall (not_in ":@/") (t_user t) && string_forall (not_in "@") (t_passwd t) &&
  string_forall (not_in "()/:?") (t_net t) && string_forall (not_in ")") (t_addr t) &&
  string_forall (not_in "?") (t_db t) && string_forall (fun c => negb (Nat.eqb (nat_of_ascii c) 10)) (t_params t).
Definition opt_text (p : string) (s : string) : string := if is_empty s then "" else p +:+ s.
Definition text_tail (t : mysql_text) : string := "/" +:+ t_db t +:+ opt_text "?" (t_params t).
Definition text_addr (t : mysql_text) : string := t_net t +:+ "(" +:+ t_addr t +:+ ")" +:+ text_tail t.
Definition write_text (t : mysql_text) : string :=
  t_user t +:+ opt_text ":" (t_passwd t) +:+ "@" +:+ text_addr t.

Definition not_newline (c : ascii) : bool := negb (Nat.eqb (nat_of_ascii c) 10).
Definition net_addr_tail : list re := [Opt net_part; Opt dbname_part; Opt params_part].

Section Text.
Context (t : mysql_text) (Ht : text_ok t = true).

Lemma text_ok_spec :
  t_user t <> "" /\ string_forall (not_in ":@/") (t_user t) = true /\ string_forall (not_in "@") (t_passwd t) = true /\
  string_forall (not_in "()/:?") (t_net t) = true /\ string_forall (not_in ")") (t_addr t) = true /\
  string_forall (not_in "?") (t_db t) = true /\ string_forall not_newline (t_params t) = true.
Proof.
  unfold text_ok in Ht. rewrite !andb_true_iff, negb_true_iff, is_empty_false in Ht. tauto.
Qed.

Lemma in_Seq_cons r l u v : in_re r u -> in_re (Seq l) v -> in_re (Seq (r :: l)) (u +:+ v).
Proof. apply in_Cat. Qed.
Lemma in_Seq_nil : in_re (Seq []) "".
Proof. constructor. Qed.
Lemma in_Chr c : in_re (Chr c) (String c "").
Proof. by apply in_re_Chr. Qed.
Lemma in_Opt_text r p (s : string) : (s <> "" -> in_re r (p +:+ s)) -> in_re (Opt r) (opt_text p s).
Proof.
  intros Hr. unfold opt_text. destruct (is_empty s) eqn:E; [by apply in_Alt_r, in_Eps|].
  apply is_empty_false in E. by apply in_Alt_l, Hr.
Qed.

Lemma tail_in : in_re (Seq [Opt dbname_part; Opt params_part]) (text_tail t).
Proof.
  pose proof text_ok_spec as (_ & _ & _ & _ & _ & Hd & Hp). unfold text_tail.
  rewrite <-string_app_assoc. apply in_Seq_cons.
  - apply in_Alt_l, in_Cat; [apply in_Chr|]. constructor. by apply in_re_Star_Cls.
  - rewrite <-(string_app_nil_r (opt_text _ _)). apply in_Seq_cons, in_Seq_nil. apply in_Opt_text. intros _.
    apply in_Cat; [apply in_Chr|]. constructor. by apply in_re_Star_Cls.
Qed.

Lemma addr_in : in_re (Seq net_addr_tail) (text_addr t).
Proof.
  pose proof text_ok_spec as (_ & _ & _ & Hn & Ha & _). unfold text_addr.
  assert (t_net t +:+ "(" +:+ t_addr t +:+ ")" +:+ text_tail t =
          (t_net t +:+ ("(" +:+ (t_addr t +:+ (")" +:+ ""))) +:+ "") +:+ text_tail t) as ->.
  { rewrite !string_app_nil_r. by rewrite !string_app_assoc. }
  apply in_Seq_cons, tail_in. apply in_Alt_l. apply in_Seq_cons; [|apply in_Seq_cons, in_Seq_nil].
  - destruct (t_net t) eqn:E; [by apply in_Alt_r, in_Eps|]. rewrite <-E in *. apply in_Alt_l. constructor.
    apply in_re_Plus_Cls; [by rewrite E|done].
  - apply in_Alt_l, in_Seq_cons; [apply in_Chr|]. apply in_Seq_cons; [constructor; by apply in_re_Star_Cls|].
    apply in_Seq_cons; [apply in_Chr|constructor].
Qed.

Lemma text_in : in_re (Seq (user_part :: net_addr_tail)) (write_text t).
Proof.
  pose proof text_ok_spec as (Hne & Hu & Hp & _). unfold write_text.
  assert (t_user t +:+ opt_text ":" (t_passwd t) +:+ "@" +:+ text_addr t =
          (t_user t +:+ (opt_text ":" (t_passwd t) +:+ ("@" +:+ ""))) +:+ text_addr t) as ->.
  { rewrite !string_app_nil_r. by rewrite !string_app_assoc. }
  apply in_Seq_cons, addr_in. apply in_Seq_cons; [constructor; by apply in_re_Plus_Cls|].
  apply in_Seq_cons; [|apply in_Seq_cons; [apply in_Chr|constructor]].
  apply in_Opt_text. intros _. apply in_Cat; [apply in_Chr|]. constructor. by apply in_re_Star_Cls.
Qed.

Lemma params_inv u d :
  parses (Seq [Opt params_part]) u d ->
  (u = "" /\ d = []) \/ exists p, u = String "?" p /\ d = [("params", p)].
Proof.
  intros (v & w & d1 & d2 & -> & -> & Hv & Hw)%parses_Seq_cons. apply parses_Eps_inv in Hw as [-> ->].
  rewrite string_app_nil_r. apply parses_Opt_inv in Hv as [Hv|[-> ->]]; [right|by left].
  apply parses_Cat_inv in Hv as (q & p & dq & dp & -> & -> & [-> ->]%parses_Chr_inv & Hp).
  destruct (parses_class_group "params" _ p dp (or_intror Hp)) as [-> _]. by exists p.
Qed.

Definition params_caps : caps := if is_empty (t_params t) then [] else [("params", t_params t)].

Lemma tail_head u d :
  parses (Seq [Opt dbname_part; Opt params_part]) u d ->
  stops (not_in "()/:?") u /\ forall r, u <> String "(" r.
Proof.
  intros (v & w & d1 & d2 & -> & -> & Hv & Hw)%parses_Seq_cons.
  apply parses_Opt_inv in Hv as [Hv|[-> ->]].
  - apply parses_Cat_inv in Hv as (q & p & dq & dp & -> & -> & [-> ->]%parses_Chr_inv & _). done.
  - apply params_inv in Hw as [[-> _]|(p & -> & _)]; done.
Qed.

Lemma tail_inv' d :
  parses (Seq [Opt dbname_part; Opt params_part]) (text_tail t) d -> d = params_caps ++ [("dbname", t_db t)].
Proof.
  pose proof text_ok_spec as (_ & _ & _ & _ & _ & Hd & _).
  intros (v & w & d1 & d2 & E & -> & Hv & Hw)%parses_Seq_cons. unfold text_tail in E.
  apply parses_Opt_inv in Hv as [Hv|[-> ->]]; cycle 1.
  { apply params_inv in Hw as [[-> _]|(p & -> & _)]; done. }
  apply parses_Cat_inv in Hv as (q & p & dq & dp & -> & -> & [-> ->]%parses_Chr_inv & Hp).
  destruct (parses_class_group "dbname" _ p dp (or_intror Hp)) as [-> Hpf].
  rewrite !string_app_cons, !string_app_nil_l in E. injection E as E.
  apply (cut_class (not_in "?")) in E as [-> Er]; [|done|done| |].
  - f_equal. unfold params_caps. unfold opt_text in Er.
    apply params_inv in Hw as [[-> ->]|(p' & -> & ->)]; destruct (is_empty (t_params t)); try done.
    rewrite string_app_cons, string_app_nil_l in Er. by injection Er as ->.
  - unfold opt_text. by destruct (is_empty (t_params t)).
  - apply params_inv in Hw as [[-> _]|(p' & -> & _)]; done.
Qed.

Definition net_caps : caps := if is_empty (t_net t) then [] else [("net", t_net t)].

Lemma opt_class_group g f u d :
  parses (Opt (Grp g (Plus (Cls f)))) u d ->
  string_forall f u = true /\ d = if is_empty u then [] else [(g, u)].
Proof.
  intros [H|[-> ->]]%parses_Opt_inv; [|done].
  pose proof (parses_class_group g f u d (or_introl H)) as [-> Hf]. split; [done|].
  destruct u; [|done]. exfalso. apply parses_Grp_inv in H as (d' & _ & H). apply parses_in_re in H.
  inversion H as [| |? ? v w Hv Hw| | | | |]; subst.
  match goal with E : _ +:+ _ = "" |- _ => apply string_app_empty in E as [-> _] end. by inversion Hv.
Qed.

Lemma addr_inv d :
  parses (Seq net_addr_tail) (text_addr t) d ->
  d = params_caps ++ [("dbname", t_db t); ("addr", t_addr t)] ++ net_caps.
Proof.
  pose proof text_ok_spec as (_ & _ & _ & Hn & Ha & _).
  intros (v & w & d1 & d2 & E & -> & Hv & Hw)%parses_Seq_cons. unfold text_addr in E.
  pose proof (tail_head w d2 Hw) as [Hstop Hpar].
  apply parses_Opt_inv in Hv as [Hv|[-> ->]]; cycle 1.
  { rewrite <-(string_app_nil_l w) in E. rewrite string_app_cons in E.
    apply (cut_class (not_in "()/:?")) in E as [_ E]; [|done..]. by rewrite string_app_nil_l in E; edestruct Hpar. }
  apply parses_Seq_cons in Hv as (n & v2 & dn & D2 & -> & -> & Hnet & Hv).
  apply parses_Seq_cons in Hv as (p & v3 & dp & D3 & -> & -> & Hp & Hv).
  apply parses_Eps_inv in Hv as [-> ->]. rewrite string_app_nil_r in E.
  apply opt_class_group in Hnet as [Hnf ->]. rewrite string_app_assoc, string_app_cons in E.
  apply parses_Opt_inv in Hp as [Hp|[-> ->]]; cycle 1.
  { apply (cut_class (not_in "()/:?")) in E as [_ E]; [|done..]. by edestruct Hpar. }
  apply parses_Seq_cons in Hp as (q & p2 & dq & Dq & -> & -> & [-> ->]%parses_Chr_inv & Hp).
  apply parses_Seq_cons in Hp as (a & p3 & da & Da & -> & -> & Haddr & Hp).
  apply parses_Seq_cons in Hp as (q & p4 & dq & Dq & -> & -> & [-> ->]%parses_Chr_inv & Hp).
  apply parses_Eps_inv in Hp as [-> ->].
  destruct (parses_class_group "addr" _ a da (or_intror Haddr)) as [-> Haf].
  rewrite !string_app_cons in E. apply (cut_class (not_in "()/:?")) in E as [<- E]; [|done..].
  injection E as E. rewrite !string_app_nil_l, string_app_assoc, string_app_cons in E.
  apply (cut_class (not_in ")")) in E as [<- E]; [|done..]. injection E as E.
  rewrite !string_app_nil_l in E. subst w. apply tail_inv' in Hw as ->.
  by rewrite <-!(assoc_L (++)).
Qed.

Definition passwd_caps : caps := if is_empty (t_passwd t) then [] else [("passwd", t_passwd t)].

Lemma text_inv d :
  parses (Seq (user_part :: net_addr_tail)) (write_text t) d ->
  d = (params_caps ++ [("dbname", t_db t); ("addr", t_addr t)] ++ net_caps) ++ passwd_caps ++ [("user", t_user t)].
Proof.
  pose proof text_ok_spec as (_ & Hu & Hp & _).
  intros (v & w & d1 & d2 & E & -> & Hv & Hw)%parses_Seq_cons. unfold write_text in E.
  apply parses_Seq_cons in Hv as (u & v2 & du & D2 & -> & -> & Hus & Hv).
  apply parses_Seq_cons in Hv as (p & v3 & dp & D3 & -> & -> & Hpw & Hv).
  apply parses_Seq_cons in Hv as (q & v4 & dq & Dq & -> & -> & [-> ->]%parses_Chr_inv & Hv).
  apply parses_Eps_inv in Hv as [-> ->].
  destruct (parses_class_group "user" _ u du (or_introl Hus)) as [-> Huf].
  rewrite !string_app_assoc in E.
  apply (cut_class (not_in ":@/")) in E as [<- E]; [|done|done| |].
  - rewrite string_app_cons, string_app_nil_l in E. unfold opt_text in E. unfold passwd_caps.
    apply parses_Opt_inv in Hpw as [Hpw|[-> ->]].
    + apply parses_Cat_inv in Hpw as (q & pw & dq & dpw & -> & -> & [-> ->]%parses_Chr_inv & Hpw).
      destruct (parses_class_group "passwd" _ pw dpw (or_intror Hpw)) as [-> Hpf].
      destruct (is_empty (t_passwd t)); [done|]. rewrite !string_app_cons, !string_app_nil_l in E. injection E as E.
      apply (cut_class (not_in "@")) in E as [<- E]; [|done..]. injection E as E. subst w.
      by apply addr_inv in Hw as ->.
    + destruct (is_empty (t_passwd t)); [|done]. rewrite !string_app_cons, !string_app_nil_l in E. injection E as E.
      subst w. by apply addr_inv in Hw as ->.
  - unfold opt_text. by destruct (is_empty (t_passwd t)).
  - apply parses_Opt_inv in Hpw as [Hpw|[-> ->]]; [|done].
    by apply parses_Cat_inv in Hpw as (q & pw & dq & dpw & -> & -> & [-> ->]%parses_Chr_inv & _).
Qed.

Lemma match_text :
  exists c, match_anchored mySqlDsnPattern (write_text t) = Some c /\
    submatch "user" c = t_user t /\ submatch "passwd" c = t_passwd t /\ submatch "net" c = t_net t /\
    submatch "addr" c = t_addr t /\ submatch "dbname" c = t_db t /\ submatch "params" c = t_params t.
Proof.
  pose proof text_in as Hin. change mySqlDsnPattern with (Seq (Opt user_part :: net_addr_tail)). rewrite (match_Opt_first _ _ _ Hin).
  apply match_anchored_spec in Hin as [c Hc]. exists c. split; [done|].
  apply match_anchored_parses, text_inv in Hc as ->. unfold params_caps, net_caps, passwd_caps.
  destruct t as [u p n a d q]. simpl.
  destruct p, n, q; simpl; by split_and!.
Qed.
End Text.

(** ** Round trip of MySQL strings *)

Lemma Split_app c u v : no_char c u = true -> Split (u +:+ String c v) c = u :: Split v c.
Proof.
  unfold no_char. induction u as [|a u IH]; rewrite ?string_app_nil_l, ?string_app_cons; cbn [Split string_forall].
  - by rewrite decide_True.
  - intros [Ha%negb_true_iff%bool_decide_eq_false Hu]%andb_true_iff. by rewrite decide_False, IH.
Qed.
Lemma Split_no_char c u : no_char c u = true -> Split u c = [u].
Proof.
  unfold no_char. induction u as [|a u IH]; [done|]. cbn [Split string_forall].
  intros [Ha%negb_true_iff%bool_decide_eq_false Hu]%andb_true_iff. by rewrite decide_False, IH.
Qed.
Lemma Split_Join c (l : list string) :
  l <> [] -> Forall (fun s => no_char c s = true) l -> Split (Join l (String c "")) c = l.
Proof.
  intros Hne Hl. induction Hl as [|s l Hs Hl IH]; [done|]. destruct l as [|s' l]; [by apply Split_no_char|].
  change (Join (s :: s' :: l) (String c "")) with (s +:+ String c (Join (s' :: l) (String c ""))).
  by rewrite Split_app, IH.
Qed.

Lemma trim_right_app u v : v <> "" -> no_space v = true -> trim_right (u +:+ v) = u +:+ v.
Proof.
  intros Hne Hv. induction u as [|a u IH]; rewrite ?string_app_nil_l, ?string_app_cons.
  - pose proof (TrimSpace_no_space v Hv) as H. unfold TrimSpace in H.
    rewrite <-(string_app_nil_r v) in H at 1. rewrite trim_left_app in H by done. by rewrite string_app_nil_r in H.
  - cbn [trim_right]. rewrite IH. by destruct u, v.
Qed.
Lemma TrimSpace_ends u v w : u <> "" -> no_space u = true -> w <> "" -> no_space w = true ->
  TrimSpace (u +:+ v +:+ w) = u +:+ v +:+ w.
Proof.
  intros. unfold TrimSpace. rewrite trim_left_app by done. rewrite <-string_app_assoc. by apply trim_right_app.
Qed.

Lemma unescape_hex plus c s t :
  unescape plus s = Some t ->
  unescape plus (String "%" (String (upper_hex (nat_of_ascii c / 16)) (String (upper_hex (nat_of_ascii c mod 16)) s))) =
  Some (String c t).
Proof.
  intros Hs. cbn [unescape]. rewrite bool_decide_true by done. rewrite Hs.
  assert (forallb (fun a => bool_decide (
    (x ← hex_digit (upper_hex (nat_of_ascii a / 16)); y ← hex_digit (upper_hex (nat_of_ascii a mod 16));
     Some (ascii_of_nat (16 * x + y))) = Some a)) all_chars = true) as H by by vm_compute.
  pose proof (all_chars_spec _ c H) as Hc. cbn beta in Hc. apply bool_decide_eq_true in Hc. clear H.
  destruct (hex_digit (upper_hex (nat_of_ascii c / 16))) as [x|]; [|done].
  destruct (hex_digit (upper_hex (nat_of_ascii c mod 16))) as [y|]; [|done].
  assert (Some (ascii_of_nat (16 * x + y)) = Some c) as E by exact Hc. cbv [mbind option_bind]. congruence.
Qed.

Lemma path_safe_not_percent c : path_safe c = true -> bool_decide (c = "%"%char) = false.
Proof. intros H. apply bool_decide_eq_false. intros ->. by vm_compute in H. Qed.

Lemma PathUnescape_PathEscape s : PathUnescape (PathEscape s) = Some s.
Proof.
  unfold PathUnescape. induction s as [|c s IH]; [done|]. cbn [PathEscape]. destruct (path_safe c) eqn:Hc.
  - cbn [unescape]. by rewrite (path_safe_not_percent c), IH.
  - by apply unescape_hex.
Qed.

Definition path_char (c : ascii) : bool := not_in "?" c && negb (is_space c).
Lemma PathEscape_chars s : string_forall path_char (PathEscape s) = true.
Proof.
  assert (forallb (fun a => implb (path_safe a) (path_char a) && path_char (upper_hex (nat_of_ascii a / 16)) &&
                            path_char (upper_hex (nat_of_ascii a mod 16))) all_chars = true) as H by by vm_compute.
  induction s as [|c s IH]; [done|]. pose proof (all_chars_spec _ c H) as Hc. cbn beta in Hc.
  apply andb_true_iff in Hc as [[Hs H1]%andb_true_iff H2]. cbn [PathEscape].
  destruct (path_safe c); cbn [string_forall].
  - cbn [implb] in Hs. by rewrite Hs, IH.
  - by rewrite H1, H2, IH.
Qed.

Lemma string_forall_and f g s : string_forall (fun c => f c && g c) s = string_forall f s && string_forall g s.
Proof. induction s as [|c s IH]; [done|]. simpl. rewrite IH. by destruct (f c), (g c), (string_forall f s). Qed.


Section MySQL.
Context `{MapRange} (m : properties) (hostInfo : option HostInfo).

Definition mysql_kept (k : string) : bool := negb (bool_decide (k ∈ ALL_WRAPPER_PROPERTIES)).
Definition mysql_params : list (string * string) := kept_entries 41 mysql_kept m.

(** The port that is written, without its colon. *)
Definition port_text : string :=
  let port := default "" (m !! Name PORT) in
  match hostInfo with
  | Some h => if negb (IsNil hostInfo) && negb (Port h =? HOST_NO_PORT) then Itoa (Port h) else port
  | None => port
  end.

Definition mysql_text_of : mysql_text := {|
  t_user := default "" (m !! Name USER);
  t_passwd := default "" (m !! Name PASSWORD);
  t_net := default "" (m !! Name NET);
  t_addr := dsn_address m hostInfo +:+ opt_text ":" port_text;
  t_db := PathEscape (default "" (m !! Name DATABASE));
  t_params := Join (param <$> mysql_params) "&"
|}.

(** A parameter is written as it is: its value must read back from
    [url.QueryUnescape] unchanged. *)
Definition param_writable (k v : string) : bool :=
  startsWithPrefix k || negb (mysql_kept k) ||
  (no_char "=" k && no_char "&" k && no_space k && no_char "&" v && no_space v &&
   bool_decide (QueryUnescape v = Some v)).

Definition mysql_writable : bool :=
  negb (is_empty (t_user mysql_text_of)) && string_forall (fun c => not_in ":@/" c && negb (is_space c)) (t_user mysql_text_of) &&
  string_forall (not_in "@") (t_passwd mysql_text_of) && string_forall (not_in "()/:?") (t_net mysql_text_of) &&
  negb (is_empty (default "" (m !! Name HOST))) && negb (is_empty (dsn_address m hostInfo)) &&
  string_forall (fun c => not_in ")" c && negb (bool_decide (c = ":"%char))) (dsn_address m hostInfo) &&
  string_forall (fun c => not_in ")" c && negb (bool_decide (c = ":"%char))) port_text &&
  bool_decide (map_Forall (fun k v => param_writable k v = true) m).

(** What the MySQL string says about the properties. *)
Definition mysql_read : properties :=
  let t := mysql_text_of in
  let base := put_unless_empty NET_PROP_KEY (t_net t)
                (put_unless_empty (Name PASSWORD) (t_passwd t) (<[Name USER := t_user t]> ∅)) in
  let base := put_unless_empty (Name PORT) port_text (<[Name HOST := dsn_address m hostInfo]> base) in
  let base := put_unless_empty (Name DATABASE) (default "" (m !! Name DATABASE)) base in
  <[Name DRIVER_PROTOCOL := MYSQL_DRIVER_PROTOCOL]>
    (map_imap (fun k v => if negb (startsWithPrefix k) && mysql_kept k then Some v else None) m ∪ base).

Hypothesis Hm : mysql_writable = true.

Lemma mysql_writable_spec :
  (t_user mysql_text_of <> "" /\ no_space (t_user mysql_text_of) = true) /\
  (default "" (m !! Name HOST) <> "" /\ dsn_address m hostInfo <> "") /\
  (no_char ":" (dsn_address m hostInfo) = true /\ no_char ":" port_text = true) /\
  Forall (fun e => no_char "=" e.1 = true /\ no_char "&" (param e) = true /\ no_space (param e) = true /\
                   QueryUnescape e.2 = Some e.2) mysql_params.
Proof.
  clear -Hm. unfold mysql_writable in Hm. rewrite !andb_true_iff, !negb_true_iff, !is_empty_false in Hm.
  destruct Hm as [[[[[[[[H1 H2] _] _] H3] H4] H5] H6] H7].
  rewrite string_forall_and, andb_true_iff in H2, H5, H6. split_and!; try tauto.
  apply bool_decide_eq_true in H7. apply Forall_forall. intros [k v] (Hk & Hp & Hkeep)%elem_of_kept.
  specialize (H7 k v Hk). unfold param_writable in H7. rewrite Hp, Hkeep in H7. cbn [negb orb] in H7.
  rewrite !andb_true_iff, bool_decide_eq_true in H7. destruct H7 as [[[[[? ?] ?] ?] ?] ?].
  unfold no_char, no_space, param in *. cbn [fst snd]. rewrite !string_forall_app. cbn [string_forall].
  split_and!; try done; rewrite !andb_true_iff; split_and!; try done; by vm_compute.
Qed.

Lemma no_space_Join l : Forall (fun e => no_space (param e) = true) l -> no_space (Join (param <$> l) "&") = true.
Proof.
  induction 1 as [|e l He Hl IH]; [done|]. destruct l; [done|].
  change (no_space (param e +:+ String "&" (Join (param <$> p :: l) "&")) = true).
  unfold no_space in *. rewrite string_forall_app, He. exact IH.
Qed.

Lemma mysql_text_ok : text_ok mysql_text_of = true.
Proof.
  pose proof mysql_writable_spec as (_ & _ & _ & Hpar).
  unfold mysql_writable in Hm. rewrite !andb_true_iff, !negb_true_iff, !is_empty_false in Hm.
  destruct Hm as [[[[[[[[H1 H2] H3] H4] _] _] H5] H6] _].
  rewrite string_forall_and, andb_true_iff in H2, H5, H6.
  unfold text_ok. rewrite !andb_true_iff, negb_true_iff, is_empty_false. split_and!; try tauto.
  - cbn [t_addr mysql_text_of]. rewrite string_forall_app. unfold opt_text.
    destruct (is_empty port_text); rewrite ?string_app_cons; cbn [string_forall]; rewrite !andb_true_iff; [naive_solver|].
    split; [naive_solver|]. split; [by vm_compute|]. rewrite string_app_nil_l. naive_solver.
  - cbn [t_db mysql_text_of]. pose proof (PathEscape_chars (default "" (m !! Name DATABASE))) as Hc.
    unfold path_char in Hc. rewrite string_forall_and, andb_true_iff in Hc. tauto.
  - cbn [t_params mysql_text_of]. apply (string_forall_impl (fun c => negb (is_space c))); [by vm_compute|].
    apply no_space_Join. eapply Forall_impl; [exact Hpar|]. by intros e (_ & _ & ? & _).
Qed.

Lemma mysql_PrepareDsn_text : mysql_PrepareDsn m hostInfo = write_text mysql_text_of.
Proof.
  pose proof mysql_writable_spec as ([Hu _] & [Hh _] & _).
  unfold mysql_PrepareDsn, write_text, text_addr, text_tail, opt_text. cbn [t_user t_passwd t_net t_addr t_db t_params mysql_text_of] in *.
  rewrite (proj2 (is_empty_false _) Hu), (proj2 (is_empty_false _) Hh).
  change (FilterSlice (range 41 (RemoveInternalAwsWrapperProperties m))
            (fun e => negb (bool_decide (e.1 ∈ ALL_WRAPPER_PROPERTIES)))) with mysql_params.
  assert (mysql_port m hostInfo = opt_text ":" port_text) as ->.
  { unfold mysql_port, port_text, opt_text. destruct hostInfo as [h|].
    - destruct (negb _ && _); [|destruct (is_empty _) eqn:E; [|done]].
      + destruct (is_empty (Itoa (Port h))) eqn:E; [|done]. apply is_empty_true in E. by destruct (Itoa_nonempty (Port h)).
      + by apply is_empty_true in E.
    - destruct (is_empty _) eqn:E; [|done]. by apply is_empty_true in E. }
  unfold opt_text. by assoc_strings.
Qed.

Lemma mysql_trim : TrimSpace (write_text mysql_text_of) = write_text mysql_text_of.
Proof.
  pose proof mysql_writable_spec as ([Hu Hs] & _ & _ & Hpar).
  unfold write_text at 1, text_addr, text_tail. set (t := mysql_text_of) in *.
  set (tail := "/" +:+ t_db t +:+ opt_text "?" (t_params t)).
  assert (no_space tail = true) as Htail.
  { unfold tail, no_space. rewrite string_app_cons, string_app_nil_l. cbn [string_forall]. rewrite string_forall_app.
    pose proof (PathEscape_chars (default "" (m !! Name DATABASE))) as Hc. unfold path_char in Hc.
    rewrite string_forall_and, andb_true_iff in Hc. destruct Hc as [_ Hc]. cbn [t_db t mysql_text_of]. rewrite Hc.
    unfold opt_text. destruct (is_empty (t_params t)); [done|]. rewrite string_app_cons, string_app_nil_l.
    apply no_space_Join. eapply Forall_impl; [exact Hpar|]. by intros e (_ & _ & ? & _). }
  transitivity (TrimSpace (t_user t +:+ (opt_text ":" (t_passwd t) +:+ "@" +:+ t_net t +:+ "(" +:+ t_addr t +:+ ")") +:+ tail)).
  { f_equal. unfold tail. by assoc_strings. }
  rewrite TrimSpace_ends by done. unfold write_text, text_addr, text_tail. fold tail. by assoc_strings.
Qed.

Lemma put_addr_text m0 :
  put_addr (t_addr mysql_text_of) m0 = put_unless_empty (Name PORT) port_text (<[Name HOST := dsn_address m hostInfo]> m0).
Proof.
  pose proof mysql_writable_spec as (_ & [_ Ha] & [Hca Hcp] & _). cbn [t_addr mysql_text_of].
  unfold put_addr, put_unless_empty, opt_text. rewrite (proj2 (is_empty_false _)).
  - destruct (is_empty port_text); [by rewrite string_app_nil_r, Split_no_char|].
    rewrite string_app_cons, string_app_nil_l, Split_app by done. by rewrite Split_no_char.
  - by intros [? _]%string_app_empty.
Qed.

Lemma put_params_text l m0 :
  Forall (fun e => no_char "=" e.1 = true /\ QueryUnescape e.2 = Some e.2) l ->
  put_params (param <$> l) m0 = Ok (foldl (fun m e => <[e.1 := e.2]> m) m0 l).
Proof.
  intros Hl. revert m0. induction Hl as [|[k v] l [Hk Hv] Hl IH]; intros m0; [done|].
  cbn [fmap list_fmap put_params foldl fst snd] in *. unfold Cut, param at 1 2 3. cbn [fst snd].
  rewrite string_app_cons, string_app_nil_l, IndexByte_app by done. cbv beta iota.
  rewrite take_string_app, drop_string_S_app, Hv. apply IH.
Qed.

Lemma parse_params_text m0 :
  (if is_empty (t_params mysql_text_of) then Ok m0 else parseDSNParams m0 (t_params mysql_text_of)) =
  Ok (foldl (fun m e => <[e.1 := e.2]> m) m0 mysql_params).
Proof.
  pose proof mysql_writable_spec as (_ & _ & _ & Hpar). cbn [t_params mysql_text_of]. revert Hpar.
  generalize mysql_params. intros [|e l] Hpar; [done|]. rewrite (proj2 (is_empty_false _)).
  - unfold parseDSNParams. rewrite (Split_Join "&").
    + apply put_params_text. eapply Forall_impl; [exact Hpar|]. by intros e' (? & _ & _ & ?).
    + done.
    + apply Forall_fmap. eapply Forall_impl; [exact Hpar|]. by intros e' (_ & ? & _).
  - destruct e as [[|a k] v], l; done.
Qed.

(** C36. The DSN written for the MySQL driver reads back as the properties
    it was written from: user, password, net, address and port of the host,
    database with any characters, and every property that is neither the
    wrapper's nor a monitoring one, whatever the order of the map loop. This
    is under the test mysql_writable: user and host are not empty; the user
    has no blank, colon, at sign or slash, the password no at sign, the net
    no parenthesis, slash, colon or question mark, the address and the port
    no closing parenthesis or colon; and of the properties that are kept the
    key has no equals sign, ampersand or blank, and the value no ampersand
    or blank and nothing that unescaping changes, such as a plus or a
    percent sign. *)
Theorem mysql_PrepareDsn_roundtrip : parseMySqlDsn (mysql_PrepareDsn m hostInfo) = Ok mysql_read.
Proof.
  pose proof (match_text mysql_text_of mysql_text_ok) as (c & Hc & Hu & Hp & Hn & Ha & Hd & Hq).
  rewrite mysql_PrepareDsn_text. unfold parseMySqlDsn. rewrite mysql_trim, Hc, Hu, Hp, Hn, Ha, Hd, Hq.
  rewrite put_addr_text. unfold put_dbname. cbn [t_db mysql_text_of]. rewrite PathUnescape_PathEscape.
  assert (forall m0, (if is_empty (PathEscape (default "" (m !! Name DATABASE))) then Ok m0
                      else Ok (<[Name DATABASE := default "" (m !! Name DATABASE)]> m0)) =
                     Ok (put_unless_empty (Name DATABASE) (default "" (m !! Name DATABASE)) m0)) as ->.
  { intros m0. unfold put_unless_empty. destruct (default "" _) as [|a s]; [done|].
    cbn [PathEscape]. by destruct (path_safe a). }
  cbn [mbind Result_bind]. rewrite parse_params_text. cbn [mbind Result_bind]. unfold mysql_read. do 2 f_equal.
  assert (put_unless_empty (Name USER) (t_user mysql_text_of) ∅ = <[Name USER := t_user mysql_text_of]> ∅) as E.
  { pose proof mysql_writable_spec as ([Hne _] & _). unfold put_unless_empty. by rewrite (proj2 (is_empty_false _) Hne). }
  rewrite E. clear E. set (base := put_unless_empty (Name DATABASE) _ _). clearbody base.
  apply map_eq. intros k. rewrite lookup_union, map_lookup_imap.
  pose proof (kept_lookup 41 mysql_kept m (fun _ v => v) base k) as Hk.
  assert ((fun e : string * string => (e.1, e.2)) <$> mysql_params = mysql_params) as E.
  { rewrite <-(list_fmap_id mysql_params) at 2. apply list_fmap_ext. by intros i [? ?] _. }
  fold mysql_params in Hk. cbn beta in Hk. rewrite E in Hk. etransitivity; [exact Hk|].
  destruct (m !! k) as [v|]; cbn [mbind option_bind].
  - destruct (negb _ && _); [by destruct (base !! k)|by rewrite (left_id_L None _)].
  - by rewrite (left_id_L None _).
Qed.
End MySQL.

Definition example_mysql : properties :=
  <["user" := "admin"]> (<["password" := "p:/?x"]> (<["host" := "cluster"]> (<["port" := "3306"]> (<["net" := "tcp"]>
  (<["database" := "my db"]> (<["plugins" := "efm"]> (<["parseTime" := "true"]> ∅))))))).

Lemma mysql_PrepareDsn_roundtrip_witness :
  mysql_writable example_mysql example_host = true /\
  mysql_PrepareDsn example_mysql example_host = "admin:p:/?x@tcp(instance-1:1234)/my%20db?parseTime=true" /\
  parseMySqlDsn (mysql_PrepareDsn example_mysql example_host) = Ok (mysql_read example_mysql example_host).
Proof.
  assert (H : mysql_writable example_mysql example_host = true) by by vm_compute.
  split; [exact H|split; [by vm_compute|exact (mysql_PrepareDsn_roundtrip example_mysql example_host H)]].
Defined.

(** ** What the DSNs cannot carry *)

(** A value with a blank is written without quotes, and reads back as two settings. *)
Lemma pgx_PrepareDsn_unquoted :
  parsePgxKeywordValueSettings "user=u password='a host=evil'" =
    Ok (<["protocol" := "postgresql"]> (<["password" := "a host=evil"]> (<["user" := "u"]> ∅))) /\
  pgx_PrepareDsn (<["password" := "a host=evil"]> ∅) None = "password=a host=evil".
Proof. split; by vm_compute. Qed.

(** A parameter that was unescaped when read is not escaped when written. *)
Lemma mysql_PrepareDsn_unescaped :
  parseMySqlDsn "u@tcp(h)/d?loc=US%2FPacific%2B1" =
    Ok (<["protocol" := "mysql"]> (<["loc" := "US/Pacific+1"]> (<["database" := "d"]> (<["host" := "h"]>
       (<["net" := "tcp"]> (<["user" := "u"]> ∅)))))) /\
  parseMySqlDsn (mysql_PrepareDsn (<["loc" := "US/Pacific+1"]> (<["user" := "u"]> (<["host" := "h"]> ∅))) None) =
    Ok (<["protocol" := "mysql"]> (<["loc" := "US/Pacific 1"]> (<["host" := "h"]> (<["user" := "u"]> ∅)))).
Proof. split; by vm_compute. Qed.

(** [strings.ReplaceAll] twice: a backslash followed by an escaped quote. *)
Lemma unquoted_backslash_quote : next_value "a\\'b" = Ok ("a'b", "").
Proof. by vm_compute. Qed.
