(* ===== verification/HostSelectors.v ===== *)
(** * HostSelectors: the strategies that pick a host
    (awssql/driver_infrastructure/host_selector.go and the random, highest
    weight, weighted random and round robin selectors).

    A random number is an argument: [rand.Intn] of the random selector, the
    [randomNumberFunc] of the weighted one. The round robin selector keeps one
    [RoundRobinClusterInfo] per cluster behind a pointer that the cache holds
    under every host of the cluster, so the infos are a store indexed by
    pointers. Every reading of the clock of a round robin call is a field of
    [rr_clock]. Hosts are non-nil pointers. *)

From S2P Require Import Prelude.
From S2P Require Import HostInfo.
From S2P Require Import CacheMap.
From S2P Require Import Regex.
From S2P Require Import RdsUtils.
From S2P Require Import Properties.
From S2P Require Import Dsn.
From Stdlib Require Import Ascii.

Definition SELECTOR_HIGHEST_WEIGHT : string := "highestWeight".
Definition SELECTOR_RANDOM : string := "random".
Definition SELECTOR_WEIGHTED_RANDOM : string := "weightedRandom".
Definition SELECTOR_ROUND_ROBIN : string := "roundRobin".

Definition eligible (role : string) (h : HostInfo) : bool :=
  (is_empty role || bool_decide (role = Role h)) && bool_decide (Availability h = AVAILABLE).

(** ** Random and highest weight *)

Definition Random_GetHost (Intn : nat -> nat) (hosts : list HostInfo) (role : string) : Result HostInfo :=
  let eligibleHosts := FilterSlice hosts (eligible role) in
  match eligibleHosts with
  | [] => Err (NewGenericAwsWrapperError "HostSelector.noHostsMatchingRole" [role])
  | _ => match eligibleHosts !! Intn (length eligibleHosts) with Some h => Ok h | None => Panic end
  end.

Definition heavier (curr host : HostInfo) : HostInfo := if Weight curr <? Weight host then host else curr.

Definition HighestWeight_GetHost (hosts : list HostInfo) (role : string) : Result HostInfo :=
  match FilterSlice hosts (eligible role) with
  | [] => Err (PlainError "HighestWeightHostSelector.noHostsMatchingRole" [role])
  | h :: l => Ok (foldl heavier h (h :: l))
  end.

(** ** Weights from a property *)

Definition HOST_WEIGHT_PAIR_PATTERN : re :=
  Seq [Grp "host" (Plus (NotIn ":")); Chr ":"; Grp "weight" (Plus dec_digit)].
Definition invalidHostWeightPairs : go_error := PlainError "HostSelector.invalidHostWeightPairs" [].

(** One pair, as [GetHostWeightMapFromString] reads it after trimming. *)
Definition weight_pair (hostWeightPair : string) : option (string * Z) :=
  c ← match_anchored HOST_WEIGHT_PAIR_PATTERN hostWeightPair;
  let hostName := submatch "host" c in
  let hostWeightString := submatch "weight" c in
  if is_empty hostName || is_empty hostWeightString then None
  else hostWeight ← Atoi hostWeightString; if hostWeight <=? 0 then None else Some (hostName, hostWeight).

Fixpoint put_weights (l : list string) (m : gmap string Z) : Result (gmap string Z) :=
  match l with
  | [] => Ok m
  | hostWeightPair :: l =>
      match weight_pair (TrimSpace hostWeightPair) with
      | Some (hostName, hostWeight) => put_weights l (<[hostName := hostWeight]> m)
      | None => Err invalidHostWeightPairs
      end
  end.

Definition GetHostWeightMapFromString (hostWeightMapString : string) : Result (gmap string Z) :=
  if is_empty (TrimSpace hostWeightMapString) then Ok ∅ else put_weights (Split hostWeightMapString ",") ∅.

(** ** Weighted random *)

(** [hostWeightMap] of the struct; a nil map and an empty one are the same
    to [len]. *)
Definition WeightedRandomHostSelector : Type := gmap string Z.

Record NumberRange := mkRange { Start : Z; End_ : Z }.
#[export] Instance NumberRange_eq_dec : EqDecision NumberRange.
Proof. solve_decision. Defined.
#[export] Instance NumberRange_countable : Countable NumberRange.
Proof.
  refine (inj_countable' (fun r => (Start r, End_ r)) (fun p => mkRange p.1 p.2) _). by intros [].
Defined.
Definition IsInNumberRange (nr : NumberRange) (n : Z) : bool := (Start nr <=? n) && (n <=? End_ nr).

(** One turn of the loop over the eligible hosts: the range map and [count]. *)
Definition add_range (hostWeightMap : gmap string Z) (st : gmap NumberRange HostInfo * Z) (host : HostInfo) :
  gmap NumberRange HostInfo * Z :=
  let '(m, count) := st in
  let hostWeight := default 0 (hostWeightMap !! Host host) in
  if 0 <? hostWeight
  then (<[mkRange count (wrap64 (wrap64 (count + hostWeight) - 1)) := host]> m, wrap64 (count + hostWeight))
  else (<[mkRange count count := host]> m, wrap64 (count + 1)).

Section WeightedRandom.
Context `{MapRange} (randomNumberFunc : Z -> Z).

Definition WeightedRandom_GetHost (hosts : list HostInfo) (role : string) (props : gmap string string)
  (r : WeightedRandomHostSelector) : WeightedRandomHostSelector * Result HostInfo :=
  let weights := if Nat.eqb (size r) 0
                 then GetHostWeightMapFromString
                        (GetVerifiedWrapperPropertyValueFromMap props WEIGHTED_RANDOM_HOST_WEIGHT_PAIRS)
                 else Ok r in
  match weights with
  | Ok r =>
      let eligibleHosts := FilterSlice hosts (eligible role) in
      (r, match eligibleHosts with
          | [] => Err (PlainError "WeightedRandomHostSelector.noHostsMatchingRole" [role])
          | _ =>
              let '(hostWeightRangeMap, count) := foldl (add_range r) (∅, 1) eligibleHosts in
              let randomNumber := randomNumberFunc (count - 1) + 1 in
              match list_find (fun e => IsInNumberRange e.1 randomNumber = true) (range 50 hostWeightRangeMap) with
              | Some (_, (_, host)) => Ok host
              | None => Err (PlainError "WeightedRandomHostSelector.unableToGetHost" [])
              end
          end)
  | Err e => (r, Err e)
  | Panic => (r, Panic)
  end.
End WeightedRandom.

Definition SetHostWeights (hostWeightMap : gmap string Z) (_ : WeightedRandomHostSelector) : WeightedRandomHostSelector :=
  hostWeightMap.
Definition ClearHostWeights (_ : WeightedRandomHostSelector) : WeightedRandomHostSelector := ∅.

(** ** Round robin *)

Definition ROUND_ROBIN_DEFAULT_WEIGHT : Z := 1.
Definition ROUND_ROBIN_DEFAULT_CACHE_EXPIRE_NANO : Z := 10 * Minute.

Record RoundRobinClusterInfo := mkClusterInfo {
  lastHost : option HostInfo;
  clusterWeightsMap : gmap string Z;
  defaultWeight : Z;
  weightCounter : Z;
  lastClusterHostWeightPairPropertyValue : string;
  lastClusterDefaultWeightPropertyValue : Z
}.
#[export] Instance ClusterInfo_eta : Eta RoundRobinClusterInfo := fun i =>
  mkClusterInfo (lastHost i) (clusterWeightsMap i) (defaultWeight i) (weightCounter i)
    (lastClusterHostWeightPairPropertyValue i) (lastClusterDefaultWeightPropertyValue i).

(** [cache] holds pointers, [None] for nil; [infos] is what they point to. *)
Record RoundRobinHostSelector := mkRoundRobin {
  rr_cache : CacheMap.CacheMap (option nat);
  infos : gmap nat RoundRobinClusterInfo
}.

(** The readings of one [GetHost]: [Get] for the i-th host, [Get] for the
    first cached one, [Put] for the i-th host with its clean-up, the last [Get]. *)
Record rr_clock := {
  at_find : nat -> Z; at_first : Z; at_put : nat -> Z; at_cleanup : nat -> CleanUpClock; at_get : Z
}.

Definition restart (i : RoundRobinClusterInfo) : RoundRobinClusterInfo :=
  i <| lastHost := None |> <| weightCounter := 0 |>.

(** The updates change the info they are given before they fail, so they
    return it with the error. *)
Definition updateCachedDefaultWeightProps (i : RoundRobinClusterInfo) (props : option properties) :
  RoundRobinClusterInfo * option go_error :=
  match props with
  | None => (i <| defaultWeight := ROUND_ROBIN_DEFAULT_WEIGHT |>, None)
  | Some props =>
      match Atoi (GetFromMap ROUND_ROBIN_DEFAULT_WEIGHT_PROPERTY props) with
      | Some convertedWeight =>
          if convertedWeight <=? 0 then (i, Some (PlainError "HostSelector.roundRobinInvalidDefaultWeight" []))
          else (i <| lastClusterDefaultWeightPropertyValue := convertedWeight |> <| defaultWeight := convertedWeight |>, None)
      | None => (i, Some (PlainError "HostSelector.roundRobinInvalidDefaultWeight" []))
      end
  end.

(** The pairs are matched as they stand and trimmed afterwards. *)
Definition round_robin_pair (hostWeightPair : string) : option (string * Z) :=
  c ← match_anchored HOST_WEIGHT_PAIR_PATTERN hostWeightPair;
  let hostName := TrimSpace (submatch "host" c) in
  let hostWeightString := TrimSpace (submatch "weight" c) in
  if is_empty hostName || is_empty hostWeightString then None
  else hostWeight ← Atoi hostWeightString;
       if hostWeight <? ROUND_ROBIN_DEFAULT_WEIGHT then None else Some (hostName, hostWeight).

Fixpoint put_pairs (l : list string) (i : RoundRobinClusterInfo) : RoundRobinClusterInfo * option go_error :=
  match l with
  | [] => (i, None)
  | hostWeightPair :: l =>
      match round_robin_pair hostWeightPair with
      | Some (hostName, hostWeight) =>
          put_pairs l (i <| clusterWeightsMap := <[hostName := hostWeight]> (clusterWeightsMap i) |>)
      | None => (i, Some invalidHostWeightPairs)
      end
  end.

Definition updateCachedHostWeightPairsProps (i : RoundRobinClusterInfo) (props : option properties) :
  RoundRobinClusterInfo * option go_error :=
  match props with
  | None => (i, None)
  | Some props =>
      let hostWeights := GetVerifiedWrapperPropertyValueFromMap props ROUND_ROBIN_HOST_WEIGHT_PAIRS in
      let i := i <| lastClusterHostWeightPairPropertyValue := hostWeights |> in
      if is_empty hostWeights then (i <| clusterWeightsMap := ∅ |>, None) else put_pairs (Split hostWeights ",") i
  end.

Definition updateCacheProperties (i : RoundRobinClusterInfo) (props : option properties) :
  RoundRobinClusterInfo * option go_error :=
  let '(i, err) := updateCachedDefaultWeightProps i props in
  match err with Some e => (i, Some e) | None => updateCachedHostWeightPairsProps i props end.

Definition hasPropertyChanged {T} `{GoType T} `{EqDecision T} (lastPropertyValue : T)
  (wrapperProperty : AwsWrapperProperty) (props : option properties) : bool :=
  match props with
  | None => false
  | Some props =>
      bool_decide ((GetVerifiedWrapperPropertyValueFromMap props wrapperProperty : T) <> lastPropertyValue)
  end.

(** The two tests for changed properties on the shared info. *)
Definition refresh_info (i : RoundRobinClusterInfo) (props : option properties) : RoundRobinClusterInfo * option go_error :=
  let '(i, err) := if hasPropertyChanged (lastClusterHostWeightPairPropertyValue i) ROUND_ROBIN_HOST_WEIGHT_PAIRS props
                   then updateCachedHostWeightPairsProps (restart i) props else (i, None) in
  match err with
  | Some e => (i, Some e)
  | None => if hasPropertyChanged (lastClusterDefaultWeightPropertyValue i) ROUND_ROBIN_DEFAULT_WEIGHT_PROPERTY props
            then updateCachedDefaultWeightProps (restart i) props else (i, None)
  end.

Definition put_all (clk : rr_clock) (hosts : list HostInfo) (p : option nat) (c : CacheMap.CacheMap (option nat)) :
  CacheMap.CacheMap (option nat) :=
  foldl (fun c e => CacheMap.Put (at_put clk e.1) (at_cleanup clk e.1) (Host e.2) p ROUND_ROBIN_DEFAULT_CACHE_EXPIRE_NANO c)
    c (imap pair hosts).

Definition new_info (props : option properties) : RoundRobinClusterInfo :=
  mkClusterInfo None ∅ ROUND_ROBIN_DEFAULT_WEIGHT 0
    (GetVerifiedWrapperPropertyValueFromMap (default ∅ props) ROUND_ROBIN_HOST_WEIGHT_PAIRS) ROUND_ROBIN_DEFAULT_WEIGHT.

Definition to_result (err : option go_error) : Result unit := match err with Some e => Err e | None => Ok tt end.

(** When the entry expires between the two reads, a nil pointer is stored. *)
Definition createCacheEntryForHosts (clk : rr_clock) (hosts : list HostInfo) (props : option properties)
  (r : RoundRobinHostSelector) : RoundRobinHostSelector * Result unit :=
  let hostsWithCacheEntry :=
    FilterSlice (imap pair hosts) (fun e => bool_decide (is_Some (CacheMap.Get (at_find clk e.1) (Host e.2) (rr_cache r)))) in
  match hostsWithCacheEntry with
  | (_, h) :: _ =>
      match CacheMap.Get (at_first clk) (Host h) (rr_cache r) with
      | None => (mkRoundRobin (put_all clk hosts None (rr_cache r)) (infos r), Ok tt)
      | Some None => (r, Panic)
      | Some (Some p) =>
          match infos r !! p with
          | Some i =>
              let '(i, err) := refresh_info i props in
              let infos' := <[p := i]> (infos r) in
              (mkRoundRobin (match err with Some _ => rr_cache r | None => put_all clk hosts (Some p) (rr_cache r) end) infos',
               to_result err)
          | None => (r, Panic)
          end
      end
  | [] =>
      let '(i, err) := updateCacheProperties (new_info props) props in
      match err with
      | Some e => (r, Err e)
      | None =>
          let p := fresh (dom (infos r)) in
          (mkRoundRobin (put_all clk hosts (Some p) (rr_cache r)) (<[p := i]> (infos r)), Ok tt)
      end
  end.

(** The choice and the new state of the info. *)
Definition advance (eligibleHosts : list HostInfo) (i : RoundRobinClusterInfo) : option (HostInfo * RoundRobinClusterInfo) :=
  let lastHostIndex := lastHost i ≫= fun last => IndexFunc eligibleHosts (fun h => bool_decide (Host h = Host last)) in
  let choose n counter :=
    h ← eligibleHosts !! n; Some (h, i <| weightCounter := counter h - 1 |> <| lastHost := Some h |>) in
  let weight h := match default 0 (clusterWeightsMap i !! HostId h) with 0 => defaultWeight i | w => w end in
  match lastHostIndex with
  | Some n => if 0 <? weightCounter i then choose n (fun _ => weightCounter i)
              else choose (if Nat.eqb n (length eligibleHosts - 1) then 0%nat else S n) weight
  | None => choose 0%nat weight
  end.

Definition RoundRobin_GetHost (clk : rr_clock) (hosts : list HostInfo) (role : string) (props : option properties)
  (r : RoundRobinHostSelector) : RoundRobinHostSelector * Result HostInfo :=
  let eligibleHosts := sort_by Host (FilterSlice hosts (eligible role)) in
  match eligibleHosts with
  | [] => (r, Err (NewGenericAwsWrapperError "HostSelector.noHostsMatchingRole" [role]))
  | first :: _ =>
      let '(r, created) := createCacheEntryForHosts clk eligibleHosts props r in
      match created with
      | Err e => (r, Err e)
      | Panic => (r, Panic)
      | Ok _ =>
          match CacheMap.Get (at_get clk) (Host first) (rr_cache r) with
          | None => (r, Err (NewGenericAwsWrapperError "HostSelector.roundRobinMissingClusterInfo" [Host first]))
          | Some None => (r, Panic)
          | Some (Some p) =>
              match infos r !! p ≫= advance eligibleHosts with
              | Some (h, i) => (mkRoundRobin (rr_cache r) (<[p := i]> (infos r)), Ok h)
              | None => (r, Panic)
              end
          end
      end
  end.

Definition RoundRobin_ClearCache (now : Z) (r : RoundRobinHostSelector) : RoundRobinHostSelector :=
  mkRoundRobin (CacheMap.Clear now (rr_cache r)) (infos r).

(** ** Lemmas on the selectors that keep no state *)

Lemma foldl_heavier h l :
  foldl heavier h l ∈ h :: l /\ Forall (fun h' => Weight h' <= Weight (foldl heavier h l)) (h :: l).
Proof.
  revert h. induction l as [|x l IH]; intros h; simpl.
  { split; [left|]. repeat constructor. lia. }
  destruct (IH (heavier h x)) as [Hin Hall]. apply Forall_cons in Hall as [Hh Hl].
  unfold heavier in Hin, Hh, Hl |- *. destruct (Z.ltb_spec (Weight h) (Weight x)) as [Hlt|Hle].
  - split; [by right|]. constructor; [lia|by constructor].
  - split; [apply elem_of_cons in Hin as [->|?]; [by left|by right; right]|]. constructor; [done|constructor; [lia|done]].
Qed.

(** The first of the heaviest: nothing before the choice weighs as much. *)
Lemma foldl_heavier_first h l :
  exists pre post, h :: l = pre ++ foldl heavier h l :: post /\
    Forall (fun h' => Weight h' < Weight (foldl heavier h l)) pre.
Proof.
  revert h. induction l as [|x l IH]; intros h; simpl; [by exists [], []|].
  destruct (IH (heavier h x)) as (pre & post & E & Hpre). unfold heavier in E, Hpre |- *.
  destruct (Z.ltb_spec (Weight h) (Weight x)) as [Hlt|Hle].
  - exists (h :: pre), post. rewrite E. split; [done|]. constructor; [|done].
    destruct pre as [|y pre]; injection E as Ey E; [by rewrite <-Ey|].
    inversion Hpre; subst. lia.
  - destruct pre as [|y pre]; injection E as Ey E.
    + exists [], (x :: l). by rewrite <-Ey.
    + subst y. exists (h :: x :: pre), post. split; [by rewrite E at 1|]. inversion Hpre as [|? ? Hy Hr]; subst.
      constructor; [done|constructor; [lia|done]].
Qed.

(** ** The ranges of the weighted random selector *)

Definition weight_of (weights : gmap string Z) (h : HostInfo) : Z :=
  let w := default 0 (weights !! Host h) in if 0 <? w then w else 1.
Definition total (weights : gmap string Z) (l : list HostInfo) : Z := foldr (fun h n => weight_of weights h + n) 0 l.

Section Ranges.
Context (weights : gmap string Z).
Local Abbreviation weight := (weight_of weights).
Local Abbreviation sum := (total weights).

Lemma weight_pos h : 1 <= weight h.
Proof. unfold weight_of. case_match eqn:E; to_prop; lia. Qed.
Lemma sum_nonneg l : 0 <= sum l.
Proof. induction l as [|h l IH]; simpl; [lia|]. pose proof (weight_pos h). lia. Qed.

(** The range of a host that comes after [pre], the count starting at [c]. *)
Definition range_of (c : Z) (pre : list HostInfo) (h : HostInfo) : NumberRange :=
  mkRange (c + sum pre) (c + sum pre + weight h - 1).

Lemma add_range_step m c h :
  1 <= c -> c + weight h <= max_int64 -> add_range weights (m, c) h = (<[range_of c [] h := h]> m, c + weight h).
Proof.
  intros Hc Hmax. unfold add_range, range_of, weight_of, total in *. cbn [foldr].
  destruct (Z.ltb_spec 0 (default 0 (weights !! Host h))); rewrite !wrap64_id by (rewrite ?wrap64_id; lia);
    do 2 f_equal; f_equal; lia.
Qed.

Lemma add_ranges l : forall m c,
  1 <= c -> c + sum l <= max_int64 ->
  exists m', foldl (add_range weights) (m, c) l = (m', c + sum l) /\
    (forall nr, Start nr < c -> m' !! nr = m !! nr) /\
    (forall pre h post, l = pre ++ h :: post -> m' !! range_of c pre h = Some h) /\
    (forall nr h, m' !! nr = Some h -> m !! nr = Some h \/ exists pre post, l = pre ++ h :: post /\ nr = range_of c pre h).
Proof.
  induction l as [|x l IH]; intros m c Hc Hmax.
  { exists m. simpl. rewrite Z.add_0_r. split_and!; [done|done| |by left]. by intros [|? ?]. }
  cbn [foldl total foldr] in *. pose proof (weight_pos x). pose proof (sum_nonneg l). fold (sum l) in *.
  rewrite add_range_step by lia.
  destruct (IH (<[range_of c [] x := x]> m) (c + weight x)) as (m' & E & Hold & Hin & Hout); [lia|lia|].
  assert (Hshift : forall pre h, range_of (c + weight x) pre h = range_of c (x :: pre) h).
  { intros. unfold range_of. simpl. f_equal; lia. }
  exists m'. rewrite E. split_and!.
  - f_equal. lia.
  - intros nr Hnr. rewrite Hold by lia. apply lookup_insert_ne. intros <-. simpl in Hnr. lia.
  - intros [|y pre] h post El; injection El as <- El.
    + rewrite Hold by (simpl; lia). apply lookup_insert_eq.
    + rewrite <-Hshift. by apply (Hin pre h post).
  - intros nr h Hm. destruct (Hout nr h Hm) as [Hi|(pre & post & -> & ->)].
    + destruct (decide (range_of c [] x = nr)) as [<-|Hne].
      * rewrite lookup_insert_eq in Hi. injection Hi as <-. right. by exists [], l.
      * rewrite lookup_insert_ne in Hi by done. by left.
    + right. exists (x :: pre), post. by rewrite Hshift.
Qed.

(** The ranges of two hosts of the list do not meet. *)
Lemma ranges_disjoint pre : forall h post pre' h' post' n,
  pre ++ h :: post = pre' ++ h' :: post' ->
  sum pre <= n < sum pre + weight h -> sum pre' <= n < sum pre' + weight h' -> h = h'.
Proof.
  induction pre as [|x pre IH]; intros h post [|y pre'] h' post' n E Hn Hn'; injection E as <- E; cbn [total foldr] in *.
  - done.
  - fold (sum pre') in *. pose proof (sum_nonneg pre'). lia.
  - fold (sum pre) in *. pose proof (sum_nonneg pre). lia.
  - fold (sum pre) (sum pre') in *. apply (IH h post pre' h' post' (n - weight x)); [done|lia|lia].
Qed.
End Ranges.

(** The weights [GetHost] uses: those of the selector, or of the property. *)
Definition weights_in_use (props : properties) (r : WeightedRandomHostSelector) : Result (gmap string Z) :=
  if Nat.eqb (size r) 0
  then GetHostWeightMapFromString (GetVerifiedWrapperPropertyValueFromMap props WEIGHTED_RANDOM_HOST_WEIGHT_PAIRS)
  else Ok r.

(** The weighted random selector returns each eligible host for exactly
    as many of the random numbers below the total as its weight (1 when it
    has none or a weight that is not positive), in consecutive ranges in
    host order, whatever the order in which the range map is visited, as
    long as the total fits an int. *)
Theorem WeightedRandom_picks_by_weight `{MapRange} randomNumberFunc hosts role props r weights pre h post :
  weights_in_use props r = Ok weights ->
  FilterSlice hosts (eligible role) = pre ++ h :: post ->
  let all := total weights (pre ++ h :: post) in
  all < max_int64 ->
  total weights pre <= randomNumberFunc all < total weights pre + weight_of weights h ->
  WeightedRandom_GetHost randomNumberFunc hosts role props r = (weights, Ok h).
Proof.
  intros Hw Hl all Hmax Hn. unfold WeightedRandom_GetHost. fold (weights_in_use props r). rewrite Hw, Hl.
  destruct (add_ranges weights (pre ++ h :: post) ∅ 1) as (m & E & _ & Hin & Hout); [lia|fold all; lia|].
  rewrite E. replace (1 + total weights (pre ++ h :: post) - 1) with all by lia. f_equal.
  set (n := randomNumberFunc all) in *.
  assert (Hx : IsInNumberRange (range_of weights 1 pre h) (n + 1) = true).
  { unfold IsInNumberRange, range_of. simpl. apply andb_true_iff. rewrite !Z.leb_le. lia. }
  destruct (list_find _ _) as [[i [nr h']]|] eqn:Hf.
  - apply list_find_Some in Hf as (Hi & Hnr & _). apply list_elem_of_lookup_2, elem_of_range in Hi.
    destruct (Hout nr h' Hi) as [Hm|(pre' & post' & El & ->)]; [done|]. cbn [fst] in Hnr.
    unfold IsInNumberRange, range_of in Hnr. simpl in Hnr. apply andb_true_iff in Hnr. rewrite !Z.leb_le in Hnr.
    assert (h = h') as -> by (apply (ranges_disjoint weights pre h post pre' h' post' n); [done|lia|lia]).
    by destruct pre.
  - exfalso. apply list_find_None in Hf. rewrite Forall_forall in Hf.
    apply (Hf (range_of weights 1 pre h, h)); [|exact Hx]. apply elem_of_range. by apply (Hin pre h post).
Qed.

(** ** The order of the round robin *)

Definition rr_weight (i : RoundRobinClusterInfo) (h : HostInfo) : Z :=
  match default 0 (clusterWeightsMap i !! HostId h) with 0 => defaultWeight i | w => w end.

(** [n] choices in a row. *)
Fixpoint advances (n : nat) (l : list HostInfo) (i : RoundRobinClusterInfo) : option (list HostInfo * RoundRobinClusterInfo) :=
  match n with
  | O => Some ([], i)
  | S n => '(h, i) ← advance l i; '(hs, i) ← advances n l i; Some (h :: hs, i)
  end.

(** One round: every host as often as its weight. *)
Definition round (i : RoundRobinClusterInfo) (l : list HostInfo) : list HostInfo :=
  l ≫= fun h => replicate (Z.to_nat (rr_weight i h)) h.

Lemma advances_app n m l i hs i' :
  advances n l i = Some (hs, i') ->
  advances (n + m) l i = ('(hs2, i2) ← advances m l i'; Some (hs ++ hs2, i2)).
Proof.
  revert i hs i'. induction n as [|n IH]; intros i hs i'; simpl.
  { intros [= <- <-]. by destruct (advances m l i) as [[? ?]|]. }
  destruct (advance l i) as [[h i1]|]; simpl; [|done].
  destruct (advances n l i1) as [[hs1 i1']|] eqn:E; simpl; [|done]. intros [= <- <-].
  rewrite (IH _ _ _ E). by destruct (advances m l i1') as [[? ?]|].
Qed.

Section Rotation.
Context (l : list HostInfo) (Hnd : NoDup (Host <$> l)).

Lemma index_of n h : l !! n = Some h -> IndexFunc l (fun x => bool_decide (Host x = Host h)) = Some n.
Proof.
  revert n. induction l as [|x l' IH]; intros n; [done|].
  rewrite fmap_cons, NoDup_cons in Hnd. destruct Hnd as [Hx Hnd']. destruct n as [|n]; simpl.
  - intros [= ->]. by rewrite bool_decide_true.
  - intros Hn. rewrite bool_decide_false.
    + by rewrite (IH Hnd' n).
    + intros E. apply Hx. rewrite E. by apply list_elem_of_fmap_2, (list_elem_of_lookup_2 _ n).
Qed.

(** The rest of the turns of the host that was chosen last. *)
Lemma advances_same n h i k :
  l !! n = Some h -> lastHost i = Some h -> weightCounter i = Z.of_nat k ->
  advances k l i = Some (replicate k h, i <| weightCounter := 0 |>).
Proof.
  intros Hn. revert i. induction k as [|k IH]; intros i Hlast Hc.
  { simpl. destruct i; simpl in *. by subst. }
  cbn [advances]. unfold advance. rewrite Hlast. cbn [mbind option_bind]. rewrite (index_of n h Hn), Hc.
  rewrite (proj2 (Z.ltb_lt _ _)) by lia. rewrite Hn. cbn [mbind option_bind].
  rewrite IH; [|done|simpl; lia]. cbn [mbind option_bind]. destruct i; simpl in *. by subst.
Qed.

(** The turns of the next host. *)
Definition at_start (n : nat) (i : RoundRobinClusterInfo) : Prop :=
  weightCounter i = 0 /\
  match lastHost i with
  | None => n = O
  | Some h => exists m, l !! m = Some h /\ n = if Nat.eqb m (length l - 1) then O else S m
  end.

Lemma advances_turn n h i :
  at_start n i -> l !! n = Some h -> 1 <= rr_weight i h ->
  advances (Z.to_nat (rr_weight i h)) l i =
    Some (replicate (Z.to_nat (rr_weight i h)) h, i <| weightCounter := 0 |> <| lastHost := Some h |>).
Proof.
  intros [Hc Hlast] Hn Hw.
  assert (Hadv : advance l i = Some (h, i <| weightCounter := rr_weight i h - 1 |> <| lastHost := Some h |>)).
  { unfold advance. fold (rr_weight i). destruct (lastHost i) as [last|]; simpl.
    - destruct Hlast as (m & Hm & E). rewrite (index_of m last Hm), Hc. simpl. rewrite <-E, Hn. done.
    - subst n. by rewrite Hn. }
  replace (Z.to_nat (rr_weight i h)) with (S (Z.to_nat (rr_weight i h - 1))) by lia.
  cbn [advances]. rewrite Hadv. cbn [mbind option_bind].
  rewrite (advances_same n h _ (Z.to_nat (rr_weight i h - 1))); [|done|done|simpl; lia]. done.
Qed.

(** A round from any point of the list to its end. *)
Lemma advances_rest pre post : forall i,
  l = pre ++ post -> post <> [] -> at_start (length pre) i -> Forall (fun h => 1 <= rr_weight i h) l ->
  exists last, advances (length (round i post)) l i = Some (round i post, i <| weightCounter := 0 |> <| lastHost := Some last |>) /\
    l !! (length l - 1)%nat = Some last.
Proof.
  revert pre. induction post as [|h post IH]; intros pre i El Hne Hst Hw; [done|].
  assert (Hn : l !! length pre = Some h) by (rewrite El; by apply list_lookup_middle).
  assert (Hwh : 1 <= rr_weight i h).
  { rewrite Forall_forall in Hw. apply Hw. rewrite El. apply elem_of_app. right. left. }
  pose proof (advances_turn _ _ _ Hst Hn Hwh) as Hturn.
  unfold round. cbn [mbind list_bind]. rewrite length_app, length_replicate. fold (round i post).
  destruct post as [|h' post].
  - exists h. cbn [round mbind list_bind length app]. rewrite app_nil_r, Nat.add_0_r. split; [done|].
    rewrite <-Hn. f_equal. rewrite El, length_app. simpl. lia.
  - set (i' := i <| weightCounter := 0 |> <| lastHost := Some h |>) in *.
    destruct (IH (pre ++ [h]) i') as (last & Hadv & Hlast).
    + by rewrite <-(assoc_L (++)).
    + done.
    + split; [done|]. simpl. exists (length pre). split; [done|].
      rewrite (proj2 (Nat.eqb_neq _ _)); [rewrite length_app; simpl; lia|].
      rewrite El, length_app. simpl. lia.
    + done.
    + exists last. split; [|done]. rewrite (advances_app _ _ _ _ _ _ Hturn).
      change (round i' (h' :: post)) with (round i (h' :: post)) in Hadv. by rewrite Hadv.
Qed.

Lemma advances_round i :
  l <> [] -> at_start O i -> Forall (fun h => 1 <= rr_weight i h) l ->
  exists i', advances (length (round i l)) l i = Some (round i l, i') /\ at_start O i' /\ rr_weight i' = rr_weight i.
Proof.
  intros Hne Hst Hw. destruct (advances_rest [] l i eq_refl Hne Hst Hw) as (last & Hadv & Hlast).
  eexists. split; [exact Hadv|]. split; [|done]. split; [done|]. simpl. exists (length l - 1)%nat.
  split; [done|]. by rewrite Nat.eqb_refl.
Qed.
End Rotation.

(** ** Calls of the round robin selector *)

Local Abbreviation EXPIRE := ROUND_ROBIN_DEFAULT_CACHE_EXPIRE_NANO.

(** Every host of [l] is cached for the info at [p], at least until [EXPIRE]
    after [lo]. *)
Definition serves (l : list HostInfo) (p : nat) (lo : Z) (c : CacheMap.CacheMap (option nat)) : Prop :=
  forall h, h ∈ l -> exists e, CacheMap.cache c !! Host h = Some (mkCacheValue (Some p) e) /\ lo + EXPIRE <= e.

(** The readings of a call: no entry stored after [lo] has expired when it is
    read, and none stored after [lo'] when the call ends. *)
Definition window (lo : Z) (clk : rr_clock) (lo' : Z) : Prop :=
  (forall j, at_find clk j <= lo + EXPIRE) /\ at_first clk <= lo + EXPIRE /\ (forall j, lo' <= at_put clk j) /\
  (forall j k, cu_at (at_cleanup clk j) k <= lo' + EXPIRE) /\ at_get clk <= lo' + EXPIRE.

Definition unchanged (props : option properties) (i : RoundRobinClusterInfo) : Prop :=
  hasPropertyChanged (lastClusterHostWeightPairPropertyValue i) ROUND_ROBIN_HOST_WEIGHT_PAIRS props = false /\
  hasPropertyChanged (lastClusterDefaultWeightPropertyValue i) ROUND_ROBIN_DEFAULT_WEIGHT_PROPERTY props = false.

Lemma serves_get l p lo c h t : serves l p lo c -> h ∈ l -> t <= lo + EXPIRE -> CacheMap.Get t (Host h) c = Some (Some p).
Proof.
  intros Hs Hh Ht. destruct (Hs h Hh) as (e & E & He). unfold CacheMap.Get. rewrite E. unfold isExpired. cbn [expirationTime item].
  rewrite (proj2 (Z.ltb_ge _ _)) by lia. done.
Qed.

Lemma Put_keeps (lo : Z) cu now k v (c : CacheMap.CacheMap (option nat)) k' x e :
  (forall j, cu_at cu j <= lo + EXPIRE) -> lo + EXPIRE <= e -> k <> k' ->
  CacheMap.cache c !! k' = Some (mkCacheValue x e) ->
  CacheMap.cache (CacheMap.Put now cu k v EXPIRE c) !! k' = Some (mkCacheValue x e).
Proof.
  intros Hcu He Hne Hk. apply Put_lookup_ne; [done| |done]. specialize (Hcu k'). simpl. lia.
Qed.

Lemma Put_stores (lo : Z) cu now k v (c : CacheMap.CacheMap (option nat)) :
  (forall j, cu_at cu j <= lo + EXPIRE) -> lo <= now ->
  CacheMap.cache (CacheMap.Put now cu k v EXPIRE c) !! k = Some (mkCacheValue v (now + EXPIRE)).
Proof.
  intros Hcu Hnow. apply Put_lookup_same. specialize (Hcu k). lia.
Qed.

(** [put_all] from the n-th reading on. *)
Lemma put_loop_serves clk lo p (es : list (nat * HostInfo)) : forall l c,
  (forall j, lo <= at_put clk j) -> (forall j k, cu_at (at_cleanup clk j) k <= lo + EXPIRE) ->
  serves l p lo c ->
  serves (l ++ es.*2) p lo
    (foldl (fun c e => CacheMap.Put (at_put clk e.1) (at_cleanup clk e.1) (Host e.2) (Some p) EXPIRE c) c es).
Proof.
  induction es as [|[j h] es IH]; intros l c Hput Hcu Hs; [by rewrite app_nil_r|].
  cbn [foldl fst snd fmap list_fmap]. change (l ++ h :: es.*2) with (l ++ [h] ++ es.*2). rewrite (assoc_L (++)).
  apply IH; [done|done|]. intros h' Hh'. destruct (decide (Host h = Host h')) as [E|Hne].
  - rewrite <-E. eexists. rewrite (Put_stores lo) by done. split; [done|]. specialize (Hput j). lia.
  - apply elem_of_app in Hh' as [Hh'|Hh']; [|by apply list_elem_of_singleton in Hh' as ->].
    destruct (Hs h' Hh') as (e & E & He). exists e. by rewrite (Put_keeps lo _ _ _ _ _ _ (Some p) e).
Qed.

Lemma put_all_serves clk l p lo c :
  (forall j, lo <= at_put clk j) -> (forall j k, cu_at (at_cleanup clk j) k <= lo + EXPIRE) ->
  serves l p lo (put_all clk l (Some p) c).
Proof.
  intros Hput Hcu. unfold put_all.
  pose proof (put_loop_serves clk lo p (imap pair l) [] c Hput Hcu) as H.
  rewrite fmap_imap in H. replace (imap _ l) with l in H; [apply H; by intros h ?%elem_of_nil|].
  symmetry. apply list_eq. intros i. rewrite list_lookup_imap. by destruct (l !! i).
Qed.

Lemma refresh_unchanged i props : unchanged props i -> refresh_info i props = (i, None).
Proof. intros [H1 H2]. unfold refresh_info. by rewrite H1, H2. Qed.

(** The state of the selector when the next choice of [l] is made with the
    info [i]: the hosts are cached, or none of them is and [i] is what the
    properties give. *)
Definition ready (l : list HostInfo) (props : option properties) (p : nat) (i : RoundRobinClusterInfo) (lo : Z)
  (r : RoundRobinHostSelector) : Prop :=
  (serves l p lo (rr_cache r) /\ infos r !! p = Some i /\ unchanged props i) \/
  ((forall h, h ∈ l -> CacheMap.cache (rr_cache r) !! Host h = None) /\ p = fresh (dom (infos r)) /\
   updateCacheProperties (new_info props) props = (i, None)).

Lemma FilterSlice_all {A} (f : A -> bool) x l : f x = true -> FilterSlice (x :: l) f = x :: FilterSlice l f.
Proof. simpl. by intros ->. Qed.

Lemma create_ready clk l props p i lo lo' r :
  l <> [] -> ready l props p i lo r -> window lo clk lo' ->
  exists r', createCacheEntryForHosts clk l props r = (r', Ok tt) /\
    serves l p lo' (rr_cache r') /\ infos r' !! p = Some i.
Proof.
  intros Hne Hr (Hfind & Hfirst & Hput & Hcu & _). unfold createCacheEntryForHosts.
  destruct l as [|h l]; [done|]. destruct Hr as [(Hs & Hi & Hu)|(Hno & -> & Hi)].
  - rewrite imap_cons, FilterSlice_all.
    2: { apply bool_decide_eq_true. cbn [fst snd]. rewrite (serves_get _ _ _ _ _ _ Hs); [done|left|apply Hfind]. }
    rewrite (serves_get _ _ _ _ _ _ Hs) by (first [done|by left]). rewrite Hi, refresh_unchanged by done.
    eexists. split; [done|]. split; [by apply put_all_serves|]. apply lookup_insert_eq.
  - assert (FilterSlice (imap pair (h :: l))
      (fun e => bool_decide (is_Some (CacheMap.Get (at_find clk e.1) (Host e.2) (rr_cache r)))) = []) as ->.
    { assert (Hall : forall e, e ∈ imap pair (h :: l) -> e.2 ∈ h :: l).
      { intros [j x] (j' & Hj)%list_elem_of_lookup. rewrite list_lookup_imap in Hj.
        destruct ((h :: l) !! j') eqn:E; [|done]. injection Hj as <- <-. by apply (list_elem_of_lookup_2 _ j'). }
      revert Hall. generalize (imap pair (h :: l)). intros es. induction es as [|e es IH]; intros Hall; [done|].
      cbn [FilterSlice]. rewrite bool_decide_false.
      - apply IH. intros e' He'. apply Hall. by right.
      - unfold CacheMap.Get. rewrite (Hno e.2) by (apply Hall; left). by intros []. }
    rewrite Hi. eexists. split; [done|]. split; [by apply put_all_serves|]. apply lookup_insert_eq.
Qed.

(** A call makes the next choice of the eligible hosts in name order. *)
Lemma GetHost_advances clk hosts role props p i lo lo' r h i' :
  let l := sort_by Host (FilterSlice hosts (eligible role)) in
  ready l props p i lo r -> window lo clk lo' -> advance l i = Some (h, i') ->
  exists r', RoundRobin_GetHost clk hosts role props r = (r', Ok h) /\
    serves l p lo' (rr_cache r') /\ infos r' !! p = Some i'.
Proof.
  intros l Hr Hw Hadv. unfold RoundRobin_GetHost. fold l.
  destruct l as [|first rest] eqn:El.
  { exfalso. unfold advance in Hadv. by destruct (lastHost i). }
  destruct (create_ready clk (first :: rest) props p i lo lo' r ltac:(done) Hr Hw) as (r' & -> & Hs & Hi).
  destruct Hw as (_ & _ & _ & _ & Hget). rewrite (serves_get _ _ _ _ _ _ Hs) by (first [done|by left]).
  rewrite Hi. cbn [mbind option_bind]. rewrite Hadv. eexists. split; [done|]. split; [done|]. apply lookup_insert_eq.
Qed.

Fixpoint rr_calls (clks : list rr_clock) (hosts : list HostInfo) (role : string) (props : option properties)
  (r : RoundRobinHostSelector) : RoundRobinHostSelector * list (Result HostInfo) :=
  match clks with
  | [] => (r, [])
  | clk :: clks => let '(r, h) := RoundRobin_GetHost clk hosts role props r in
                   let '(r, hs) := rr_calls clks hosts role props r in (r, h :: hs)
  end.

(** The calls follow each other within the expiration. *)
Fixpoint paced (lo : Z) (clks : list rr_clock) : Prop :=
  match clks with [] => True | clk :: clks => exists lo', window lo clk lo' /\ paced lo' clks end.

Lemma advance_keeps l i h i' :
  advance l i = Some (h, i') ->
  clusterWeightsMap i' = clusterWeightsMap i /\ defaultWeight i' = defaultWeight i /\
  lastClusterHostWeightPairPropertyValue i' = lastClusterHostWeightPairPropertyValue i /\
  lastClusterDefaultWeightPropertyValue i' = lastClusterDefaultWeightPropertyValue i.
Proof.
  unfold advance. intros H. repeat (case_match; try done);
    match goal with H : ?o ≫= _ = Some _ |- _ => destruct o eqn:?; [|done]; cbn [mbind option_bind] in H; by injection H as <- <- end.
Qed.

Lemma calls_advances clks : forall n hosts role props p i lo r hs i',
  let l := sort_by Host (FilterSlice hosts (eligible role)) in
  ready l props p i lo r -> unchanged props i -> paced lo clks -> length clks = n ->
  advances n l i = Some (hs, i') ->
  (rr_calls clks hosts role props r).2 = Ok <$> hs.
Proof.
  induction clks as [|clk clks IH]; intros n hosts role props p i lo r hs i' l Hr Hu Hp <- Hadv.
  { by injection Hadv as <- <-. }
  cbn [length advances paced rr_calls] in *. destruct Hp as (lo' & Hw & Hp).
  destruct (advance l i) as [[h i1]|] eqn:E1; [|done]. cbn [mbind option_bind] in Hadv.
  destruct (advances (length clks) l i1) as [[hs1 i2]|] eqn:E2; [|done]. cbn [mbind option_bind] in Hadv.
  injection Hadv as <- <-.
  destruct (GetHost_advances clk hosts role props p i lo lo' r h i1 Hr Hw E1) as (r' & Hcall & Hs & Hi).
  rewrite Hcall. destruct (advance_keeps _ _ _ _ E1) as (_ & _ & Hpairs & Hdef).
  assert (Hu1 : unchanged props i1) by (unfold unchanged; rewrite Hpairs, Hdef; exact Hu).
  pose proof (IH _ hosts role props p i1 lo' r' hs1 i2 (or_introl (conj Hs (conj Hi Hu1))) Hu1 Hp eq_refl E2) as Hrest.
  destruct (rr_calls clks hosts role props r') as [r'' rest]. simpl in *. by rewrite Hrest.
Qed.

(** Calls of the round robin selector that follow each other within the
    cache expiration return the eligible hosts in name order, each as many
    times in a row as its weight, round after round, starting from an empty
    cache or from the end of a round; the clean-ups of the cache never
    interrupt the rotation. *)
Theorem RoundRobin_rotates clks rounds hosts role props p i lo r :
  let l := sort_by Host (FilterSlice hosts (eligible role)) in
  ready l props p i lo r -> unchanged props i -> at_start l O i ->
  NoDup (Host <$> l) -> l <> [] -> Forall (fun h => 1 <= rr_weight i h) l ->
  paced lo clks -> length clks = (rounds * length (round i l))%nat ->
  (rr_calls clks hosts role props r).2 = Ok <$> mjoin (replicate rounds (round i l)).
Proof.
  intros l Hr Hu Hst Hnd Hne Hw Hp Hlen.
  assert (exists i', advances (rounds * length (round i l)) l i = Some (mjoin (replicate rounds (round i l)), i'))
    as [i' Hadv]; [|exact (calls_advances clks _ hosts role props p i lo r _ i' Hr Hu Hp Hlen Hadv)].
  clear -Hst Hnd Hne Hw. revert i Hst Hw. induction rounds as [|rounds IH]; intros i Hst Hw; [by exists i|].
  destruct (advances_round l Hnd i Hne Hst Hw) as (i1 & Hadv & Hst1 & Ew).
  assert (round i1 l = round i l) as Er by (unfold round; by rewrite Ew).
  destruct (IH i1 Hst1) as [i' Hrest]; [by rewrite Ew|]. rewrite Er in Hrest.
  exists i'. cbn [Nat.mul]. rewrite (advances_app _ _ _ _ _ _ Hadv), Hrest. done.
Qed.

(** ** Examples *)

Definition example_selector_host (name : string) (weight : Z) : HostInfo :=
  mkHostInfo name name 3306 AVAILABLE READER None None weight 0.
Definition three_hosts : list HostInfo :=
  [example_selector_host "b" 5; example_selector_host "a" 7; example_selector_host "c" 7].

Definition clock_from (t : Z) : rr_clock :=
  {| at_find := fun _ => t; at_first := t; at_put := fun _ => t;
     at_cleanup := fun _ => {| cu_check := t; cu_at := fun _ => t; cu_reset := t |}; at_get := t |}.
Definition weights_props : properties := <["roundRobinHostWeightPairs" := "b:2"]> ∅.

(** The highest weight selector returns a host exactly when it is the
    first of the heaviest eligible hosts. *)
Theorem HighestWeight_first_heaviest hosts role h :
  HighestWeight_GetHost hosts role = Ok h <->
  exists pre post, FilterSlice hosts (eligible role) = pre ++ h :: post /\
    Forall (fun h' => Weight h' < Weight h) pre /\ Forall (fun h' => Weight h' <= Weight h) post.
Proof.
  unfold HighestWeight_GetHost. destruct (FilterSlice hosts (eligible role)) as [|x l]; [split; [done|]|].
  { intros (pre & post & E & _). by destruct pre. }
  assert (foldl heavier x (x :: l) = foldl heavier x l) as ->.
  { cbn [foldl]. f_equal. unfold heavier. by destruct (_ <? _). }
  destruct (foldl_heavier_first x l) as (pre & post & E & Hpre). destruct (foldl_heavier x l) as [_ Hall].
  split.
  - intros [= <-]. exists pre, post. split_and!; [done|done|].
    rewrite E in Hall. apply Forall_app in Hall as [_ Hall]. by inversion Hall.
  - intros (pre' & post' & E' & Hpre' & Hpost'). f_equal.
    set (f := foldl heavier x l) in *. clearbody f. rewrite E' in Hall, E. clear E' x l.
    revert pre E Hpre. induction pre' as [|y pre' IH]; intros [|z pre] E Hpre; injection E as Ey E.
    + done.
    + subst z. apply Forall_cons in Hpre as [Hz _]. rewrite E in Hpost'.
      apply Forall_app in Hpost' as [_ [Hf _]%Forall_cons]. lia.
    + subst y. apply Forall_cons in Hpre' as [Hy _]. apply Forall_cons in Hall as [_ Hall].
      apply Forall_app in Hall as [_ [Hf _]%Forall_cons]. lia.
    + subst z. apply Forall_cons in Hpre' as [_ Hpre'], Hpre as [_ Hpre], Hall as [_ Hall].
      by apply (IH Hall Hpre' pre).
Qed.

Lemma WeightedRandom_picks_by_weight_witness :
  let props := <["weightedRandomHostWeightPairs" := "b:3"]> ∅ in
  let weights : gmap string Z := <["b" := 3]> ∅ in
  (WeightedRandom_GetHost (fun _ => 2) three_hosts READER props ∅).2 = Ok (example_selector_host "b" 5) /\
  (WeightedRandom_GetHost (fun _ => 3) three_hosts READER props ∅).2 = Ok (example_selector_host "a" 7).
Proof.
  split.
  - rewrite (WeightedRandom_picks_by_weight (fun _ => 2) three_hosts READER (<["weightedRandomHostWeightPairs" := "b:3"]> ∅) ∅
      (<["b" := 3]> ∅) [] (example_selector_host "b" 5) [example_selector_host "a" 7; example_selector_host "c" 7]);
      try done; by vm_compute.
  - rewrite (WeightedRandom_picks_by_weight (fun _ => 3) three_hosts READER (<["weightedRandomHostWeightPairs" := "b:3"]> ∅) ∅
      (<["b" := 3]> ∅) [example_selector_host "b" 5] (example_selector_host "a" 7) [example_selector_host "c" 7]);
      try done; by vm_compute.
Defined.

Lemma RoundRobin_rotates_witness :
  let names calls := (fun r => match r with Ok h => Host h | _ => "" end) <$> calls in
  names (rr_calls (replicate 8 (clock_from 5)) three_hosts READER (Some weights_props)
           (mkRoundRobin (CacheMap.NewCache 0) ∅)).2 = ["a"; "b"; "b"; "c"; "a"; "b"; "b"; "c"].
Proof.
  set (i := mkClusterInfo None (<["b" := 2]> ∅) 1 0 "b:2" 1).
  rewrite (RoundRobin_rotates (replicate 8 (clock_from 5)) 2 three_hosts READER (Some weights_props) 0 i 0).
  - by vm_compute.
  - right. split_and!; [|by vm_compute|by vm_compute]. intros h _. apply lookup_empty.
  - split; by vm_compute.
  - split; [done|done].
  - apply (bool_decide_unpack _). by vm_compute.
  - by vm_compute.
  - apply (bool_decide_unpack _). by vm_compute.
  - assert (Hw : forall lo, lo = 0 \/ lo = 5 -> window lo (clock_from 5) 5).
    { intros lo Hlo. unfold window, ROUND_ROBIN_DEFAULT_CACHE_EXPIRE_NANO, Minute. simpl. split_and!; intros; lia. }
    repeat (exists 5; split; [apply Hw; auto|]). done.
  - by vm_compute.
Defined.

(** ** What a failed update leaves behind *)

(** The property is recorded before its pairs are read: the second call with
    the same faulty property sees no change and uses what the first one left. *)
Lemma refresh_forgets_error :
  let i := mkClusterInfo None ∅ 1 0 "" 1 in
  let props := Some (<["roundRobinHostWeightPairs" := "a:2,b"]> ∅) in
  (refresh_info i props).2 = Some invalidHostWeightPairs /\
  (refresh_info (refresh_info i props).1 props).2 = None /\
  clusterWeightsMap (refresh_info i props).1 = <["a" := 2]> ∅.
Proof. split_and!; by vm_compute. Qed.

(** The new pairs are added to the old ones. *)
Lemma refresh_keeps_old_weights :
  let i := mkClusterInfo None (<["a" := 2]> ∅) 1 0 "a:2" 1 in
  clusterWeightsMap (refresh_info i (Some (<["roundRobinHostWeightPairs" := "b:3"]> ∅))).1 = <["a" := 2]> (<["b" := 3]> ∅).
Proof. by vm_compute. Qed.
