(* ===== verification/Dialects.v ===== *)
(** * Dialects: the SQL a database dialect reads and writes, and which dialect
    a database speaks (awssql/driver_infrastructure/database_dialect.go,
    mysql_database_dialects.go, pg_database_dialects.go, dialect_manager.go,
    and the query helpers of awssql/utils/utils.go).

    Answers of the database are those of the class [DriverConn]: a query gives
    rows or an error. The ten dialects are a type; a method of an embedded
    struct is the method of its family. *)

From S2P Require Import Prelude.
From S2P Require Import HostInfo.
From S2P Require Import CacheMap.
From S2P Require Import Regex.
From S2P Require Import RdsUtils.
From S2P Require Import Properties.
From S2P Require Import Dsn.
From Stdlib Require Import Ascii QArith_base.
Open Scope Z_scope.

(** ** Queries (utils.go) *)

(** The driver values the code tells apart. A [float64] is the rational number
    it stands for: infinities and NaN are [VOther]. *)
Inductive DbValue :=
  VBytes (s : string) | VUint64 (z : Z) | VInt64 (z : Z) | VString (s : string) | VBool (b : bool) | VFloat (q : Q) | VTime (t : Z) |
  VNil | VOther.
#[export] Instance Q_eq_dec : EqDecision Q.
Proof. solve_decision. Defined.
#[export] Instance DbValue_eq_dec : EqDecision DbValue.
Proof. solve_decision. Defined.

(** [QueryContext] with no arguments; [None] is an error or a connection that
    is no [QueryerContext]. *)
Class DriverConn (C : Type) := QueryContext : C -> string -> option (list (list DbValue)).

Section Queries.
Context {C : Type} `{DriverConn C}.

(** All the rows that are read share one slice, which holds the last of them. *)
Definition GetRowsFromQuery (conn : C) (query : string) (n : nat) : list (option (list DbValue)) :=
  match QueryContext conn query with
  | None => []
  | Some rows =>
      let read := take n rows in
      replicate (length read) (last read) ++ replicate (n - length read) None
  end.
Definition GetFirstRowFromQuery (conn : C) (query : string) : option (list DbValue) :=
  mjoin (head (GetRowsFromQuery conn query 1)).

Definition value_string (v : DbValue) : string :=
  match v with VBytes s => s | VUint64 z => Itoa z | VString s => s | _ => "" end.
Definition GetFirstRowFromQueryAsString (conn : C) (query : string) : option (list string) :=
  option_map (map value_string) (GetFirstRowFromQuery conn query).

Definition CheckExistenceQueries (conn : C) (queries : list string) : bool :=
  forallb (fun query => match QueryContext conn query with Some (_ :: _) => true | _ => false end) queries.
End Queries.

(** The inner [ok] shadows the one that is returned. *)
Definition ConvertDriverValueToString (v : DbValue) : string * bool :=
  match v with VString s => (s, true) | VBytes s => (s, false) | _ => ("", false) end.

(** ** Statements of the session *)

Definition TransactionIsolationLevel : Type := Z.
Definition TRANSACTION_READ_UNCOMMITTED : TransactionIsolationLevel := 0.
Definition TRANSACTION_READ_COMMITTED : TransactionIsolationLevel := 1.
Definition TRANSACTION_REPEATABLE_READ : TransactionIsolationLevel := 2.
Definition TRANSACTION_SERIALIZABLE : TransactionIsolationLevel := 3.

(** [strings.Contains] *)
Fixpoint Contains (s sub : string) : bool :=
  HasPrefix s sub || match s with EmptyString => false | String _ r => Contains r sub end.

(** A pattern that starts at the beginning of the text. *)
Definition match_start (r : re) (s : string) : option caps := re_match r s [] (fun _ c => Some c).

Definition unsupportedMethodError (method type : string) : go_error :=
  NewGenericAwsWrapperError "AwsWrapper.unsupportedMethodError" [method; type].
Definition invalidLevel : go_error := NewGenericAwsWrapperError "DatabaseDialect.invalidTransactionIsolationLevel" [""].

Definition levelStr (level : TransactionIsolationLevel) : option string :=
  if level =? TRANSACTION_READ_UNCOMMITTED then Some "READ UNCOMMITTED"
  else if level =? TRANSACTION_READ_COMMITTED then Some "READ COMMITTED"
  else if level =? TRANSACTION_REPEATABLE_READ then Some "REPEATABLE READ"
  else if level =? TRANSACTION_SERIALIZABLE then Some "SERIALIZABLE"
  else None.
Definition readOnlyStr (readOnly : bool) : string := if readOnly then "only" else "write".

(** The two tests share their shape: the text in front of the level differs. *)
Definition statement_level (prefix statement : string) : TransactionIsolationLevel * bool :=
  let lowercaseStatement := ToLower statement in
  if Contains lowercaseStatement (prefix +:+ "read uncommitted") then (TRANSACTION_READ_UNCOMMITTED, true)
  else if Contains lowercaseStatement (prefix +:+ "read committed") then (TRANSACTION_READ_COMMITTED, true)
  else if Contains lowercaseStatement (prefix +:+ "repeatable read") then (TRANSACTION_REPEATABLE_READ, true)
  else if Contains lowercaseStatement (prefix +:+ "serializable") then (TRANSACTION_SERIALIZABLE, true)
  else (TRANSACTION_READ_UNCOMMITTED, false).
Definition statement_read_only (prefix statement : string) : bool * bool :=
  let lowercaseStatement := ToLower statement in
  if HasPrefix lowercaseStatement (prefix +:+ "only") then (true, true)
  else if HasPrefix lowercaseStatement (prefix +:+ "write") then (false, true)
  else (false, false).

(** The methods of [DatabaseDialect] the session state uses. *)
Record SessionDialect := mkSessionDialect {
  DoesStatementSetAutoCommit : string -> bool * bool;
  DoesStatementSetReadOnly : string -> bool * bool;
  DoesStatementSetCatalog : string -> string * bool;
  DoesStatementSetSchema : string -> Result (string * bool);
  DoesStatementSetTransactionIsolation : string -> TransactionIsolationLevel * bool;
  GetSetAutoCommitQuery : bool -> Result string;
  GetSetReadOnlyQuery : bool -> Result string;
  GetSetCatalogQuery : string -> Result string;
  GetSetSchemaQuery : string -> Result string;
  GetSetTransactionIsolationQuery : TransactionIsolationLevel -> Result string
}.

(** MySQL *)

Definition mysql_DoesStatementSetAutoCommit (statement : string) : bool * bool :=
  let lowercaseStatement := ToLower statement in
  if HasPrefix lowercaseStatement "set autocommit" then
    match Split lowercaseStatement "=" with
    | _ :: section :: _ => match ParseBool (TrimSpace section) with Some b => (b, true) | None => (false, false) end
    | _ => (false, false)
    end
  else (false, false).

Definition word_char (c : ascii) : bool := is_alnum c || bool_decide (c = "_"%char).
Definition use_pattern : re := Seq [LitI "use"; Plus (Cls re_space); Grp "1" (Plus (Cls word_char))].
Definition mysql_DoesStatementSetCatalog (statement : string) : string * bool :=
  match match_start use_pattern statement with Some c => (submatch "1" c, true) | None => ("", false) end.
Definition mysql_DoesStatementSetReadOnly : string -> bool * bool := statement_read_only "set session transaction read ".
Definition mysql_DoesStatementSetSchema (_ : string) : Result (string * bool) := Ok ("", false).
Definition mysql_DoesStatementSetTransactionIsolation : string -> TransactionIsolationLevel * bool :=
  statement_level "set session transaction isolation level ".

Definition mysql_GetSetAutoCommitQuery (autoCommit : bool) : Result string := Ok ("set autocommit=" +:+ FormatBool autoCommit).
Definition mysql_GetSetReadOnlyQuery (readOnly : bool) : Result string := Ok ("set session transaction read " +:+ readOnlyStr readOnly).
Definition mysql_GetSetCatalogQuery (catalog : string) : Result string := Ok ("use " +:+ catalog).
Definition mysql_GetSetSchemaQuery (_ : string) : Result string := Err (unsupportedMethodError "SetSchema" "*driver_infrastructure.MySQLDatabaseDialect").
Definition mysql_GetSetTransactionIsolationQuery (level : TransactionIsolationLevel) : Result string :=
  match levelStr level with
  | Some s => Ok ("set session transaction isolation level " +:+ s)
  | None => Err invalidLevel
  end.

Definition mysql_dialect : SessionDialect :=
  mkSessionDialect mysql_DoesStatementSetAutoCommit mysql_DoesStatementSetReadOnly mysql_DoesStatementSetCatalog mysql_DoesStatementSetSchema
    mysql_DoesStatementSetTransactionIsolation mysql_GetSetAutoCommitQuery mysql_GetSetReadOnlyQuery mysql_GetSetCatalogQuery mysql_GetSetSchemaQuery
    mysql_GetSetTransactionIsolationQuery.

(** PostgreSQL *)

Definition pg_DoesStatementSetAutoCommit (_ : string) : bool * bool := (false, false).
Definition pg_DoesStatementSetCatalog (_ : string) : string * bool := ("", false).
Definition pg_DoesStatementSetReadOnly : string -> bool * bool :=
  statement_read_only "set session characteristics as transaction read ".
Definition pg_DoesStatementSetTransactionIsolation : string -> TransactionIsolationLevel * bool :=
  statement_level "set session characteristics as transaction isolation level ".

Definition dquote : ascii := ascii_of_nat 34.
Definition search_path_pattern : re :=
  Seq [LitI "set search_path"; Grp "1" (Alt (LitI " to ") (Seq [Opt (Cls re_space); Chr "="; Opt (Cls re_space)]));
       Grp "2" (Seq [Opt (Chr dquote); Plus Any; Opt (Chr dquote)])].

(** [schema[1 : len(schema)-1]] *)
Definition strip_quotes (schema : string) : Result string :=
  if Nat.ltb (String.length schema) 2 then Panic
  else Ok (take_string (String.length schema - 2) (drop_string 1 schema)).
Definition last_byte (s : string) : option ascii := last (String.list_ascii_of_string s).

Definition pg_DoesStatementSetSchema (statement : string) : Result (string * bool) :=
  match match_anywhere search_path_pattern statement with
  | None => Ok ("", false)
  | Some c =>
      let schema := TrimSpace (submatch "2" c) in
      match schema with
      | EmptyString => Panic
      | String a _ =>
          if bool_decide (a = dquote) && bool_decide (last_byte schema = Some dquote)
          then (try s := strip_quotes schema in Ok (s, true))%go
          else Ok (schema, true)
      end
  end.

Definition pg_GetSetAutoCommitQuery (_ : bool) : Result string := Err (unsupportedMethodError "SetAutoCommit" "*driver_infrastructure.PgDatabaseDialect").
Definition pg_GetSetReadOnlyQuery (readOnly : bool) : Result string :=
  Ok ("set session characteristics as transaction read " +:+ readOnlyStr readOnly).
Definition pg_GetSetCatalogQuery (_ : string) : Result string := Err (unsupportedMethodError "SetCatalog" "*driver_infrastructure.PgDatabaseDialect").
Definition starts_quoted (s : string) : bool := match s with String a _ => bool_decide (a = dquote) | EmptyString => false end.
Definition ends_quoted (s : string) : bool := bool_decide (last_byte s = Some dquote).
Definition pg_GetSetSchemaQuery (schema : string) : Result string :=
  if Contains schema " " && negb (starts_quoted schema) && negb (ends_quoted schema)
  then Ok ("set search_path to " +:+ String dquote (schema +:+ String dquote ""))
  else Ok ("set search_path to " +:+ schema).
Definition pg_GetSetTransactionIsolationQuery (level : TransactionIsolationLevel) : Result string :=
  match levelStr level with
  | Some s => Ok ("set session characteristics as transaction isolation level " +:+ s)
  | None => Err invalidLevel
  end.

Definition pg_dialect : SessionDialect :=
  mkSessionDialect pg_DoesStatementSetAutoCommit pg_DoesStatementSetReadOnly pg_DoesStatementSetCatalog pg_DoesStatementSetSchema
    pg_DoesStatementSetTransactionIsolation pg_GetSetAutoCommitQuery pg_GetSetReadOnlyQuery pg_GetSetCatalogQuery pg_GetSetSchemaQuery
    pg_GetSetTransactionIsolationQuery.

(** ** The dialects *)

Inductive Dialect :=
| MySQLDatabaseDialect | RdsMySQLDatabaseDialect | AuroraMySQLDatabaseDialect
| GlobalAuroraMySQLDatabaseDialect | RdsMultiAzClusterMySQLDatabaseDialect
| PgDatabaseDialect | RdsPgDatabaseDialect | AuroraPgDatabaseDialect
| GlobalAuroraPgDatabaseDialect | RdsMultiAzClusterPgDatabaseDialect.
#[export] Instance Dialect_eq_dec : EqDecision Dialect.
Proof. solve_decision. Defined.

Definition GLOBAL_AURORA_MYSQL_DIALECT : string := "global-aurora-mysql".
Definition AURORA_MYSQL_DIALECT : string := "aurora-mysql".
Definition RDS_MYSQL_DIALECT : string := "rds-mysql".
Definition MYSQL_DIALECT : string := "mysql".
Definition RDS_MYSQL_MULTI_AZ_CLUSTER_DIALECT : string := "rds-multi-az-mysql-cluster".
Definition GLOBAL_AURORA_PG_DIALECT : string := "global-aurora-pg".
Definition AURORA_PG_DIALECT : string := "aurora-pg".
Definition RDS_PG_DIALECT : string := "rds-pg".
Definition PG_DIALECT : string := "pg".
Definition RDS_PG_MULTI_AZ_CLUSTER_DIALECT : string := "rds-multi-az-pg-cluster".

Definition KnownDialectsByCode : gmap string Dialect := list_to_map [
  (MYSQL_DIALECT, MySQLDatabaseDialect); (PG_DIALECT, PgDatabaseDialect);
  (RDS_MYSQL_DIALECT, RdsMySQLDatabaseDialect); (RDS_PG_DIALECT, RdsPgDatabaseDialect);
  (AURORA_MYSQL_DIALECT, AuroraMySQLDatabaseDialect); (GLOBAL_AURORA_MYSQL_DIALECT, GlobalAuroraMySQLDatabaseDialect);
  (AURORA_PG_DIALECT, AuroraPgDatabaseDialect); (GLOBAL_AURORA_PG_DIALECT, GlobalAuroraPgDatabaseDialect);
  (RDS_MYSQL_MULTI_AZ_CLUSTER_DIALECT, RdsMultiAzClusterMySQLDatabaseDialect);
  (RDS_PG_MULTI_AZ_CLUSTER_DIALECT, RdsMultiAzClusterPgDatabaseDialect)].
#[global] Arguments KnownDialectsByCode : simpl never.

(** The embedded struct of a dialect. *)
Definition is_mysql (d : Dialect) : bool :=
  match d with
  | MySQLDatabaseDialect | RdsMySQLDatabaseDialect | AuroraMySQLDatabaseDialect
  | GlobalAuroraMySQLDatabaseDialect | RdsMultiAzClusterMySQLDatabaseDialect => true
  | _ => false
  end.
Definition session_dialect (d : Dialect) : SessionDialect := if is_mysql d then mysql_dialect else pg_dialect.
Definition GetDefaultPort (d : Dialect) : Z := if is_mysql d then 3306 else 5432.

Definition GetDialectUpdateCandidates (d : Dialect) : list string :=
  match d with
  | MySQLDatabaseDialect =>
      [GLOBAL_AURORA_MYSQL_DIALECT; AURORA_MYSQL_DIALECT; RDS_MYSQL_MULTI_AZ_CLUSTER_DIALECT; RDS_MYSQL_DIALECT]
  | RdsMySQLDatabaseDialect => [RDS_MYSQL_MULTI_AZ_CLUSTER_DIALECT; GLOBAL_AURORA_MYSQL_DIALECT; AURORA_MYSQL_DIALECT]
  | AuroraMySQLDatabaseDialect => [GLOBAL_AURORA_MYSQL_DIALECT; RDS_MYSQL_MULTI_AZ_CLUSTER_DIALECT]
  | GlobalAuroraMySQLDatabaseDialect | RdsMultiAzClusterMySQLDatabaseDialect => []
  | PgDatabaseDialect =>
      [GLOBAL_AURORA_PG_DIALECT; AURORA_PG_DIALECT; RDS_PG_MULTI_AZ_CLUSTER_DIALECT; RDS_PG_DIALECT]
  | RdsPgDatabaseDialect => [RDS_PG_MULTI_AZ_CLUSTER_DIALECT; GLOBAL_AURORA_PG_DIALECT; AURORA_PG_DIALECT]
  | AuroraPgDatabaseDialect => [GLOBAL_AURORA_PG_DIALECT; RDS_PG_MULTI_AZ_CLUSTER_DIALECT]
  | GlobalAuroraPgDatabaseDialect | RdsMultiAzClusterPgDatabaseDialect => []
  end.

(** *** The queries *)

Definition driver_version : string := "2.0.0".

Definition GetServerVersionQuery (d : Dialect) : string :=
  if is_mysql d then "SHOW VARIABLES LIKE 'version_comment'" else "SELECT 'version', pg_catalog.VERSION()".
Definition GetHostAliasQuery (d : Dialect) : string :=
  if is_mysql d then "SELECT CONCAT(@@hostname, ':', @@port)"
  else "SELECT pg_catalog.CONCAT(pg_catalog.inet_server_addr(), ':', pg_catalog.inet_server_port())".
Definition GetIsReaderQuery (d : Dialect) : string :=
  match d with
  | RdsMultiAzClusterMySQLDatabaseDialect => "SELECT @@read_only"
  | _ => if is_mysql d then "SELECT @@innodb_read_only" else "SELECT pg_catalog.pg_is_in_recovery()"
  end.

(** [None]: the dialect is no [TopologyDialect]. *)
Definition GetTopologyQuery (d : Dialect) : option string :=
  match d with
  | AuroraMySQLDatabaseDialect =>
      Some ("SELECT server_id, CASE WHEN SESSION_ID = 'MASTER_SESSION_ID' THEN TRUE ELSE FALSE END as is_writer, " +:+
            "cpu, REPLICA_LAG_IN_MILLISECONDS as 'lag', LAST_UPDATE_TIMESTAMP as last_update_timestamp " +:+
            "FROM information_schema.replica_host_status " +:+
            "WHERE time_to_sec(timediff(now(), LAST_UPDATE_TIMESTAMP)) <= 300 OR SESSION_ID = 'MASTER_SESSION_ID' ")
  | GlobalAuroraMySQLDatabaseDialect =>
      Some ("SELECT SERVER_ID, CASE WHEN SESSION_ID = 'MASTER_SESSION_ID' THEN TRUE ELSE FALSE END, " +:+
            "VISIBILITY_LAG_IN_MSEC, AWS_REGION " +:+ "FROM information_schema.aurora_global_db_instance_status ")
  | RdsMultiAzClusterMySQLDatabaseDialect => Some "SELECT id, endpoint FROM mysql.rds_topology"
  | AuroraPgDatabaseDialect =>
      Some ("SELECT server_id, CASE WHEN SESSION_ID OPERATOR(pg_catalog.=) 'MASTER_SESSION_ID' THEN TRUE ELSE FALSE END AS is_writer, " +:+
            "CPU, COALESCE(REPLICA_LAG_IN_MSEC, 0) AS lag, LAST_UPDATE_TIMESTAMP " +:+
            "FROM pg_catalog.aurora_replica_status() " +:+
            "WHERE EXTRACT(EPOCH FROM(pg_catalog.NOW() OPERATOR(pg_catalog.-) LAST_UPDATE_TIMESTAMP)) OPERATOR(pg_catalog.<=) 300 OR SESSION_ID OPERATOR(pg_catalog.=) " +:+
            "'MASTER_SESSION_ID' OR LAST_UPDATE_TIMESTAMP IS NULL")
  | GlobalAuroraPgDatabaseDialect =>
      Some ("SELECT SERVER_ID, CASE WHEN SESSION_ID OPERATOR(pg_catalog.=) 'MASTER_SESSION_ID' THEN TRUE ELSE FALSE END, " +:+
            "VISIBILITY_LAG_IN_MSEC, AWS_REGION " +:+ "FROM aurora_global_db_instance_status()")
  | RdsMultiAzClusterPgDatabaseDialect =>
      Some ("SELECT id, endpoint FROM rds_tools.show_topology('aws-advanced-go-wrapper-" +:+ driver_version +:+ "')")
  | _ => None
  end.

Definition GetInstanceIdQuery (d : Dialect) : option string :=
  match d with
  | AuroraMySQLDatabaseDialect | GlobalAuroraMySQLDatabaseDialect => Some "SELECT @@aurora_server_id, @@aurora_server_id;"
  | RdsMultiAzClusterMySQLDatabaseDialect =>
      Some ("SELECT id, SUBSTRING_INDEX(endpoint, '.', 1)" +:+ " FROM mysql.rds_topology" +:+ " WHERE id = @@server_id")
  | AuroraPgDatabaseDialect | GlobalAuroraPgDatabaseDialect => Some "SELECT pg_catalog.aurora_db_instance_identifier()"
  | RdsMultiAzClusterPgDatabaseDialect =>
      Some ("SELECT id, SUBSTRING(endpoint FROM 0 FOR POSITION('.' IN endpoint))" +:+ " FROM rds_tools.show_topology()" +:+
            " WHERE id OPERATOR(pg_catalog.=) rds_tools.dbi_resource_id()")
  | _ => None
  end.

Definition GetWriterIdQuery (d : Dialect) : option string :=
  match d with
  | AuroraMySQLDatabaseDialect | GlobalAuroraMySQLDatabaseDialect =>
      Some ("SELECT server_id " +:+ "FROM information_schema.replica_host_status " +:+
            "WHERE SESSION_ID = 'MASTER_SESSION_ID' AND SERVER_ID = @@aurora_server_id")
  | RdsMultiAzClusterMySQLDatabaseDialect => Some "SHOW REPLICA STATUS"
  | AuroraPgDatabaseDialect | GlobalAuroraPgDatabaseDialect =>
      Some ("SELECT server_id FROM pg_catalog.aurora_replica_status() WHERE SESSION_ID OPERATOR(pg_catalog.=) 'MASTER_SESSION_ID' AND SERVER_ID OPERATOR(pg_catalog.=)" +:+
            " pg_catalog.aurora_db_instance_identifier()")
  | RdsMultiAzClusterPgDatabaseDialect =>
      Some ("SELECT multi_az_db_cluster_source_dbi_resource_id" +:+
            " FROM rds_tools.multi_az_db_cluster_source_dbi_resource_id()" +:+
            " WHERE multi_az_db_cluster_source_dbi_resource_id OPERATOR(pg_catalog.!=)" +:+
            " (SELECT dbi_resource_id FROM rds_tools.dbi_resource_id())")
  | _ => None
  end.

Definition GetWriterIdColumnName (d : Dialect) : option string :=
  match d with
  | RdsMultiAzClusterMySQLDatabaseDialect => Some "Source_Server_Id"
  | RdsMultiAzClusterPgDatabaseDialect => Some "multi_az_db_cluster_source_dbi_resource_id"
  | _ => None
  end.
Definition GetRegionByInstanceIdQuery (d : Dialect) : option string :=
  match d with
  | GlobalAuroraMySQLDatabaseDialect =>
      Some "SELECT AWS_REGION FROM information_schema.aurora_global_db_instance_status WHERE SERVER_ID = ?"
  | GlobalAuroraPgDatabaseDialect => Some "SELECT AWS_REGION FROM aurora_global_db_instance_status() WHERE SERVER_ID = $1"
  | _ => None
  end.

(** [None]: the dialect is no [BlueGreenDialect]. *)
Definition GetBlueGreenStatusQuery (d : Dialect) : option string :=
  match d with
  | RdsMySQLDatabaseDialect | AuroraMySQLDatabaseDialect | GlobalAuroraMySQLDatabaseDialect =>
      Some "SELECT version, endpoint, port, role, status FROM mysql.rds_topology"
  | RdsPgDatabaseDialect =>
      Some ("SELECT version, endpoint, port, role, status FROM rds_tools.show_topology('aws_advanced_go_wrapper-" +:+ driver_version +:+ "')")
  | AuroraPgDatabaseDialect | GlobalAuroraPgDatabaseDialect =>
      Some ("SELECT version, endpoint, port, role, status FROM pg_catalog.get_blue_green_fast_switchover_metadata(" +:+
            "'aws_advanced_go_wrapper-" +:+ driver_version +:+ "')")
  | _ => None
  end.
Definition mysql_topology_exists : string :=
  "SELECT 1 AS tmp FROM information_schema.tables WHERE table_schema = 'mysql' AND table_name = 'rds_topology'".
Definition bg_exists_query (d : Dialect) : option string :=
  match d with
  | RdsMySQLDatabaseDialect | AuroraMySQLDatabaseDialect | GlobalAuroraMySQLDatabaseDialect => Some mysql_topology_exists
  | RdsPgDatabaseDialect => Some "SELECT 'rds_tools.show_topology'::regproc"
  | AuroraPgDatabaseDialect | GlobalAuroraPgDatabaseDialect =>
      Some "SELECT 'pg_catalog.get_blue_green_fast_switchover_metadata'::regproc"
  | _ => None
  end.

(** *** Which dialect a database speaks *)

Section IsDialect.
Context {C : Type} `{DriverConn C} (conn : C).

Definition IsBlueGreenStatusAvailable (d : Dialect) : option bool :=
  (fun q => CheckExistenceQueries conn [q]) <$> bg_exists_query d.

(** [row[n]] without a test of the length. *)
Definition column (row : list DbValue) (n : nat) : Result DbValue := match row !! n with Some v => Ok v | None => Panic end.

Definition version_contains (d : Dialect) (sub : string) : bool :=
  match GetFirstRowFromQueryAsString conn (GetServerVersionQuery d) with
  | Some (_ :: version :: _) => Contains version sub
  | _ => false
  end.

Definition more_than_one_region (query : string) : Result bool :=
  match GetFirstRowFromQuery conn query with
  | None => Ok false
  | Some row => (try v := column row 0 in Ok (match v with VInt64 count => 1 <? count | _ => false end))%go
  end.

Definition global_mysql_IsDialect : Result bool :=
  if negb (CheckExistenceQueries conn
      ["SELECT 1 AS tmp FROM information_schema.tables WHERE" +:+
       " upper(table_schema) = 'INFORMATION_SCHEMA' AND upper(table_name) = 'AURORA_GLOBAL_DB_STATUS'";
       "SELECT 1 AS tmp FROM information_schema.tables WHERE" +:+
       " upper(table_schema) = 'INFORMATION_SCHEMA' AND upper(table_name) = 'AURORA_GLOBAL_DB_INSTANCE_STATUS'"])
  then Ok false
  else more_than_one_region "SELECT count(1) FROM information_schema.aurora_global_db_status".

Definition multi_az_mysql_IsDialect : bool :=
  match GetFirstRowFromQueryAsString conn mysql_topology_exists,
        GetFirstRowFromQueryAsString conn "SELECT id, endpoint, port FROM mysql.rds_topology" with
  | Some _, Some _ =>
      match GetFirstRowFromQueryAsString conn "SHOW VARIABLES LIKE 'report_host'" with
      | Some (_ :: host :: _) => negb (is_empty host)
      | _ => false
      end
  | _, _ => false
  end.

Definition pg_IsDialect : bool := CheckExistenceQueries conn ["SELECT 1 FROM pg_catalog.pg_proc LIMIT 1"].

Definition rds_pg_IsDialect : Result bool :=
  if negb pg_IsDialect then Ok false
  else match GetFirstRowFromQuery conn
         ("SELECT (setting LIKE '%rds_tools%') AS rds_tools, (setting LIKE '%aurora_stat_utils%') AS aurora_stat_utils FROM pg_catalog.pg_settings " +:+
          "WHERE name OPERATOR(pg_catalog.=) 'rds.extensions'") with
       | None => Ok false
       | Some row =>
           (try v0 := column row 0 in
            if bool_decide (v0 = VBool true) then try v1 := column row 1 in Ok (bool_decide (v1 = VBool false)) else Ok false)%go
       end.

Definition aurora_extension : string :=
  "SELECT (setting LIKE '%aurora_stat_utils%') AS aurora_stat_utils FROM pg_catalog.pg_settings WHERE name OPERATOR(pg_catalog.=) 'rds.extensions'".
Definition has_aurora_extension : Result bool :=
  match GetFirstRowFromQuery conn aurora_extension with
  | None => Ok false
  | Some row => (try v := column row 0 in Ok (bool_decide (v = VBool true)))%go
  end.
Definition aurora_pg_IsDialect : Result bool :=
  if negb pg_IsDialect then Ok false
  else let hasTopology := GetFirstRowFromQuery conn "SELECT 1 FROM pg_catalog.aurora_replica_status() LIMIT 1" in
       (try ext := has_aurora_extension in Ok (ext && bool_decide (is_Some hasTopology)))%go.

Definition global_pg_IsDialect : Result bool :=
  if negb pg_IsDialect then Ok false
  else (try ext := has_aurora_extension in
        if negb ext then Ok false
        else if negb (CheckExistenceQueries conn ["SELECT 'aurora_global_db_status'::regproc";
                                                  "SELECT 'aurora_global_db_instance_status'::regproc"]) then Ok false
        else more_than_one_region "SELECT count(1) FROM aurora_global_db_status()")%go.

Definition multi_az_pg_IsDialect : Result bool :=
  match GetFirstRowFromQueryAsString conn
    ("SELECT 1 AS tmp FROM information_schema.routines WHERE routine_schema OPERATOR(pg_catalog.=) 'rds_tools' " +:+
     "AND routine_name OPERATOR(pg_catalog.=) 'multi_az_db_cluster_source_dbi_resource_id'") with
  | None => Ok false
  | Some _ =>
      match GetFirstRowFromQuery conn
        "SELECT multi_az_db_cluster_source_dbi_resource_id FROM rds_tools.multi_az_db_cluster_source_dbi_resource_id()" with
      | None | Some [] => Ok false
      | Some (v :: _) => Ok (negb (bool_decide (v = VNil)))
      end
  end.

Definition IsDialect (d : Dialect) : Result bool :=
  match d with
  | MySQLDatabaseDialect => Ok (version_contains d "MySQL")
  | RdsMySQLDatabaseDialect => Ok (version_contains d "Source distribution")
  | AuroraMySQLDatabaseDialect =>
      Ok (bool_decide (is_Some (GetFirstRowFromQueryAsString conn "SHOW VARIABLES LIKE 'aurora_version'")))
  | GlobalAuroraMySQLDatabaseDialect => global_mysql_IsDialect
  | RdsMultiAzClusterMySQLDatabaseDialect => Ok multi_az_mysql_IsDialect
  | PgDatabaseDialect => Ok pg_IsDialect
  | RdsPgDatabaseDialect => rds_pg_IsDialect
  | AuroraPgDatabaseDialect => aurora_pg_IsDialect
  | GlobalAuroraPgDatabaseDialect => global_pg_IsDialect
  | RdsMultiAzClusterPgDatabaseDialect => multi_az_pg_IsDialect
  end.
End IsDialect.

(** ** DialectManager *)

Definition ENDPOINT_CACHE_EXPIRATION : Z := 24 * 60 * Minute.

(** The manager and the cache of the package; [None] is the nil dialect. *)
Record DialectManager := mkManager {
  canUpdate : bool;
  dialect : option Dialect;
  dialectCode : string;
  knownEndpointDialectsCache : CacheMap.CacheMap string
}.
#[export] Instance DialectManager_eta : Eta DialectManager :=
  fun m => mkManager (canUpdate m) (dialect m) (dialectCode m) (knownEndpointDialectsCache m).

(** The readings of the clock one [PutWithDefaultExpiration] makes. *)
Record PutClock := mkPutClock { pc_now : Z; pc_cleanup : CacheMap.CleanUpClock }.
Definition remember (clk : PutClock) (key code : string) (m : DialectManager) : DialectManager :=
  m <| knownEndpointDialectsCache :=
         CacheMap.PutWithDefaultExpiration (pc_now clk) (pc_cleanup clk) key code (knownEndpointDialectsCache m) |>.

(** What one dialect family is guessed from its endpoint. *)
Definition guess (clk : PutClock) (dsn : string) (t : RdsUrlType) (global aurora rds plain : string) (m : DialectManager) :
  DialectManager :=
  let known code := KnownDialectsByCode !! code in
  if bool_decide (t = RDS_GLOBAL_WRITER_CLUSTER) then
    remember clk dsn global (m <| canUpdate := false |> <| dialectCode := global |> <| dialect := known global |>)
  else if IsRdsCluster t then
    remember clk dsn aurora (m <| canUpdate := true |> <| dialectCode := aurora |> <| dialect := known aurora |>)
  else if IsRds t then m <| canUpdate := true |> <| dialectCode := rds |> <| dialect := known rds |>
  else m <| canUpdate := true |> <| dialectCode := plain |> <| dialect := known plain |>.

Section GetDialect.
Context `{PrepareHost} `{UrlLib}.

(** The host string the endpoint is identified by; a panic of the DSN parser
    is not caught. *)
Definition host_string (dsn : string) : Result string :=
  match GetHostsFromDsn dsn true with
  | Ok (h :: _) => Ok (Host h)
  | Panic => Panic
  | _ => Ok dsn
  end.

Definition GetDialect (now : Z) (clk : PutClock) (dsn : string) (props : option properties) (m : DialectManager) :
  DialectManager * Result (option Dialect) :=
  let userCode := Properties.Get DIALECT props in
  let code := if is_empty userCode then default "" (CacheMap.Get now dsn (knownEndpointDialectsCache m)) else userCode in
  if negb (is_empty code) then
    match KnownDialectsByCode !! code with
    | Some userDialect => (m <| dialectCode := code |> <| dialect := Some userDialect |>, Ok (Some userDialect))
    | None => (m, Err (NewGenericAwsWrapperError "DatabaseDialectManager.unknownDialectCode" [code]))
    end
  else
    let driverProtocol := Properties.Get DRIVER_PROTOCOL props in
    match host_string dsn with
    | Panic => (m, Panic)
    | Err e => (m, Err e)
    | Ok hostString =>
        let t := IdentifyRdsUrlType hostString in
        if Contains driverProtocol "mysql" then
          let m := guess clk dsn t GLOBAL_AURORA_MYSQL_DIALECT AURORA_MYSQL_DIALECT RDS_MYSQL_DIALECT MYSQL_DIALECT m in
          (m, Ok (dialect m))
        else if Contains driverProtocol "postgres" then
          let m := guess clk dsn t GLOBAL_AURORA_PG_DIALECT AURORA_PG_DIALECT RDS_PG_DIALECT PG_DIALECT m in
          (m, Ok (dialect m))
        else (m, Err (NewGenericAwsWrapperError "DatabaseDialectManager.getDialectError" []))
    end.

Context {C : Type} `{DriverConn C}.

(** The first candidate that accepts the connection. *)
Fixpoint find_candidate (conn : C) (candidates : list string) : Result (option (string * Dialect)) :=
  match candidates with
  | [] => Ok None
  | code :: rest =>
      match KnownDialectsByCode !! code with
      | None => find_candidate conn rest
      | Some d => (try b := IsDialect conn d in if (b : bool) then Ok (Some (code, d)) else find_candidate conn rest)%go
      end
  end.

Definition GetDialectForUpdate (clk1 clk2 : PutClock) (conn : C) (originalHost newHost : string) (m : DialectManager) :
  DialectManager * Result (option Dialect) :=
  if negb (canUpdate m) then (m, Ok (dialect m))
  else match dialect m with
       | None => (m, Panic)
       | Some d =>
           match find_candidate conn (GetDialectUpdateCandidates d) with
           | Panic => (m, Panic)
           | Err e => (m, Err e)
           | Ok found =>
               let m := match found with
                        | Some (code, d) => m <| canUpdate := false |> <| dialectCode := code |> <| dialect := Some d |>
                        | None => m <| canUpdate := false |>
                        end in
               let m := remember clk2 newHost (dialectCode m) (remember clk1 originalHost (dialectCode m) m) in
               (m, Ok (dialect m))
           end
       end.
End GetDialect.

(** ** What the session state writes is what it recognises *)

Section Greedy.
Context (f : ascii -> bool).
Local Abbreviation cls := (fun (s : string) (c : caps) (k : string -> caps -> option caps) =>
  match s with String a s' => if f a then k s' c else None | EmptyString => None end).

(** A greedy class takes all of a text of the class. *)
Lemma star_loop_all k c x fuel s :
  string_forall f s = true -> k "" c = Some x -> (String.length s <= fuel)%nat -> star_loop cls k fuel s c = Some x.
Proof.
  intros Hs Hk. revert fuel. induction s as [|a s IH]; intros fuel Hf.
  { destruct fuel; [done|]. cbn [star_loop]. by rewrite Hk. }
  destruct fuel as [|fuel]; [simpl in Hf; lia|]. cbn [string_forall] in Hs. to_prop. cbn [star_loop].
  rewrite H. cbn [String.length] in Hf |- *.
  rewrite (proj2 (Nat.ltb_lt _ _)) by lia. rewrite IH; [done|done|lia].
Qed.

(** It takes nothing of a text that does not start in the class. *)
Lemma star_loop_none k c fuel a s : f a = false -> star_loop cls k fuel (String a s) c = k (String a s) c.
Proof. intros Ha. destruct fuel; [done|]. cbn [star_loop]. by rewrite Ha. Qed.
End Greedy.

Lemma re_match_Plus_all f s c k x :
  s <> "" -> string_forall f s = true -> k "" c = Some x -> re_match (Plus (Cls f)) s c k = Some x.
Proof.
  destruct s as [|a s]; [done|]. intros _ Hs Hk. cbn [string_forall] in Hs. to_prop.
  cbn [re_match Plus]. rewrite H. by apply star_loop_all.
Qed.

Lemma take_string_all s : take_string (String.length s) s = s.
Proof. pose proof (take_string_app s "") as E. by rewrite string_app_nil_r in E. Qed.

Lemma mysql_catalog_roundtrip catalog :
  catalog <> "" -> string_forall word_char catalog = true ->
  mysql_DoesStatementSetCatalog ("use " +:+ catalog) = (catalog, true).
Proof.
  intros Hne Hall. unfold mysql_DoesStatementSetCatalog, match_start.
  assert (re_match use_pattern ("use " +:+ catalog) [] (fun _ c => Some c) = Some [("1", catalog)]) as ->; [|done].
  destruct catalog as [|a r]; [done|].
  assert (re_space a = false) as Hsp.
  { cbn [string_forall] in Hall. to_prop. destruct a as [[] [] [] [] [] [] [] []]; first [reflexivity|discriminate]. }
  change ("use " +:+ String a r) with (String "u" (String "s" (String "e" (String " " (String a r))))).
  cbn -[star_loop word_char String.length consumed]. rewrite star_loop_none by done.
  cbn [string_forall] in Hall. to_prop. rewrite H.
  apply star_loop_all; [done| |lia]. unfold consumed. cbn [String.length].
  rewrite Nat.sub_0_r. by rewrite (take_string_all (String a r) : take_string (S (String.length r)) (String a r) = _).
Qed.

(** A name that needs no quotes of its own: no line break, no blank or double
    quote at either end. *)
Definition edge_ok (o : option ascii) : bool :=
  match o with Some a => negb (is_space a) && negb (bool_decide (a = dquote)) | None => false end.
Definition first_byte (s : string) : option ascii := head (String.list_ascii_of_string s).
Definition plain_schema (schema : string) : bool :=
  string_forall (fun a => negb (Nat.eqb (nat_of_ascii a) 10)) schema && edge_ok (first_byte schema) && edge_ok (last_byte schema).

Lemma trim_right_id s : (forall a, last_byte s = Some a -> is_space a = false) -> trim_right s = s.
Proof.
  induction s as [|a s IH]; [done|]. intros Hl. cbn [trim_right].
  destruct s as [|b s]; [by rewrite (Hl a eq_refl)|].
  rewrite IH; [done|]. intros x Hx. apply Hl. exact Hx.
Qed.

Lemma TrimSpace_id s a b :
  first_byte s = Some a -> last_byte s = Some b -> is_space a = false -> is_space b = false -> TrimSpace s = s.
Proof.
  destruct s as [|c s]; [done|]. intros [= ->] Hl Ha Hb. unfold TrimSpace. cbn [trim_left]. rewrite Ha.
  apply trim_right_id. intros x Hx. by simplify_eq.
Qed.

Lemma re_match_LitI p s c k : re_match (LitI p) (p +:+ s) c k = k s c.
Proof.
  induction p as [|a p IH]; [done|]. rewrite string_app_cons. unfold LitI. cbn [Str re_match ChrFold].
  rewrite bool_decide_true by done. exact IH.
Qed.

Lemma re_match_Opt_Chr_other d s c k x :
  (forall r, s = String d r -> False) -> k s c = Some x -> re_match (Opt (Chr d)) s c k = Some x.
Proof.
  intros Hs Hk. cbn [re_match Opt Chr]. destruct s as [|a s]; [done|].
  rewrite bool_decide_false by (intros ->; by eapply Hs). done.
Qed.

(** The second group takes the rest of the text, with its quotes. *)
Lemma schema_group_all text k c x :
  text <> "" -> string_forall (fun a => negb (Nat.eqb (nat_of_ascii a) 10)) text = true ->
  (forall r, text = String dquote r -> r <> "") -> k "" c = Some x ->
  re_match (Seq [Opt (Chr dquote); Plus Any; Opt (Chr dquote)]) text c k = Some x.
Proof.
  intros Hne Hall Hq Hk. unfold Seq. cbn [foldr].
  assert (Hend : forall s, s <> "" -> string_forall (fun a => negb (Nat.eqb (nat_of_ascii a) 10)) s = true ->
    re_match (Cat (Plus Any) (Cat (Opt (Chr dquote)) Eps)) s c k = Some x).
  { intros s Hs Ha. change (re_match (Plus Any) s c (fun s c => re_match (Cat (Opt (Chr dquote)) Eps) s c k) = Some x).
    by apply re_match_Plus_all. }
  destruct text as [|a r]; [done|]. destruct (decide (a = dquote)) as [->|Ha].
  - cbn [string_forall] in Hall. to_prop.
    change (match (if bool_decide (dquote = dquote) then re_match (Cat (Plus Any) (Cat (Opt (Chr dquote)) Eps)) r c k else None) with
            | Some y => Some y | None => re_match (Cat (Plus Any) (Cat (Opt (Chr dquote)) Eps)) (String dquote r) c k end = Some x).
    rewrite bool_decide_true by done. rewrite Hend; [done|by apply (Hq r)|done].
  - change (re_match (Opt (Chr dquote)) (String a r) c (fun s c => re_match (Cat (Plus Any) (Cat (Opt (Chr dquote)) Eps)) s c k) = Some x).
    apply re_match_Opt_Chr_other; [intros r' [= ->]; done|by apply Hend].
Qed.

Lemma consumed_all s : consumed s "" = s.
Proof. unfold consumed. rewrite Nat.sub_0_r. apply take_string_all. Qed.

Lemma match_anywhere_head r s c : re_match r s [] (fun _ c => Some c) = Some c -> match_anywhere r s = Some c.
Proof. intros E. destruct s; cbn [match_anywhere]; by rewrite E. Qed.

Lemma search_path_match text :
  text <> "" -> string_forall (fun a => negb (Nat.eqb (nat_of_ascii a) 10)) text = true ->
  (forall r, text = String dquote r -> r <> "") ->
  match_anywhere search_path_pattern ("set search_path to " +:+ text) = Some [("2", text); ("1", " to ")].
Proof.
  intros Hne Hall Hq.
  assert (re_match search_path_pattern ("set search_path to " +:+ text) [] (fun _ c => Some c) =
          Some [("2", text); ("1", " to ")]) as E; [|by apply match_anywhere_head].
  change (re_match search_path_pattern ("set search_path to " +:+ text) [] (fun _ c => Some c)) with
    (re_match (LitI "set search_path") ("set search_path" +:+ (" to " +:+ text)) [] (fun s c =>
       re_match (Cat (Grp "1" (Alt (LitI " to ") (Seq [Opt (Cls re_space); Chr "="; Opt (Cls re_space)])))
                     (Cat (Grp "2" (Seq [Opt (Chr dquote); Plus Any; Opt (Chr dquote)])) Eps)) s c (fun _ c => Some c))).
  rewrite re_match_LitI. cbn [re_match]. rewrite re_match_LitI, consumed_app.
  rewrite (schema_group_all text _ _ [("2", text); ("1", " to ")]); [done..|by rewrite consumed_all].
Qed.

Lemma quoted_eqn s : s +:+ String dquote "" <> "".
Proof. by destruct s. Qed.

Lemma last_byte_snoc s a : last_byte (s +:+ String a "") = Some a.
Proof.
  unfold last_byte. induction s as [|b s IH]; [done|]. rewrite string_app_cons. cbn [String.list_ascii_of_string].
  destruct (String.list_ascii_of_string (s +:+ String a "")) eqn:E; [by destruct s|]. by rewrite <-IH.
Qed.

Lemma strip_quotes_quoted s : strip_quotes (String dquote (s +:+ String dquote "")) = Ok s.
Proof.
  unfold strip_quotes. cbn [String.length drop_string]. rewrite string_length_app. cbn [String.length].
  replace (S (String.length s + 1) - 2)%nat with (String.length s) by lia.
  destruct (Nat.ltb_spec (S (String.length s + 1)) 2); [lia|].
  destruct s as [|a s]; [done|]. cbn [drop_string]. by rewrite take_string_app.
Qed.

Lemma pg_schema_roundtrip schema :
  plain_schema schema = true ->
  exists q, pg_GetSetSchemaQuery schema = Ok q /\ pg_DoesStatementSetSchema q = Ok (schema, true).
Proof.
  unfold plain_schema, edge_ok. intros Hp. to_prop. destruct schema as [|a r]; [done|].
  destruct (first_byte (String a r)) as [a'|] eqn:Ef; [|done]. destruct (last_byte (String a r)) as [b|] eqn:El; [|done].
  to_prop. injection Ef as <-. unfold pg_GetSetSchemaQuery, pg_DoesStatementSetSchema.
  set (schema := String a r) in *. destruct (Contains schema " " && _ && _).
  - eexists. split; [done|].
    rewrite search_path_match; [|done| |by intros q [= <-]; apply quoted_eqn].
    2: { cbn [string_forall]. rewrite string_forall_app. rewrite H. done. }
    change (submatch "2" _) with (String dquote (schema +:+ String dquote "")).
    rewrite (TrimSpace_id _ dquote dquote) by first [done|exact (last_byte_snoc (String dquote schema) dquote)].
    rewrite (bool_decide_true (dquote = dquote)) by done.
    rewrite bool_decide_true by exact (last_byte_snoc (String dquote schema) dquote).
    cbn [andb]. by rewrite strip_quotes_quoted.
  - eexists. split; [done|].
    rewrite search_path_match; [|done|done|by intros q [= ->]].
    change (submatch "2" _) with schema. rewrite (TrimSpace_id _ a b) by done.
    unfold schema at 1. by rewrite bool_decide_false.
Qed.

(** For every dialect, the statement the wrapper writes to set read-
    only mode, a transaction isolation level, autocommit or the catalog
    (MySQL, catalogs of word characters) or the schema (PostgreSQL, quoted
    when it has a blank) is recognised by DoesStatementSet... as setting
    exactly that value. *)
Theorem session_statements_roundtrip d :
  let s := session_dialect d in
  (forall b, exists q, GetSetReadOnlyQuery s b = Ok q /\ DoesStatementSetReadOnly s q = (b, true)) /\
  (forall level, is_Some (levelStr level) ->
     exists q, GetSetTransactionIsolationQuery s level = Ok q /\ DoesStatementSetTransactionIsolation s q = (level, true)) /\
  (forall b, is_mysql d = true -> exists q, GetSetAutoCommitQuery s b = Ok q /\ DoesStatementSetAutoCommit s q = (b, true)) /\
  (forall catalog, is_mysql d = true -> catalog <> "" -> string_forall word_char catalog = true ->
     exists q, GetSetCatalogQuery s catalog = Ok q /\ DoesStatementSetCatalog s q = (catalog, true)) /\
  (forall schema, is_mysql d = false -> plain_schema schema = true ->
     exists q, GetSetSchemaQuery s schema = Ok q /\ DoesStatementSetSchema s q = Ok (schema, true)).
Proof.
  unfold session_dialect. destruct (is_mysql d); cbv zeta; (split; [|split; [|split; [|split]]]).
  - intros []; by eexists.
  - unfold levelStr. intros level [x Hx]. repeat case_bool; to_prop; try discriminate; subst; by eexists.
  - intros [] _; by eexists.
  - intros catalog _ Hne Hall. eexists. split; [done|]. by apply mysql_catalog_roundtrip.
  - done.
  - intros []; by eexists.
  - unfold levelStr. intros level [x Hx]. repeat case_bool; to_prop; try discriminate; subst; by eexists.
  - done.
  - done.
  - intros schema _ Hs. by apply pg_schema_roundtrip.
Qed.

Lemma session_statements_roundtrip_witness :
  exists q, GetSetSchemaQuery (session_dialect AuroraPgDatabaseDialect) "my schema" = Ok q /\
            DoesStatementSetSchema (session_dialect AuroraPgDatabaseDialect) q = Ok ("my schema", true).
Proof.
  apply (proj2 (proj2 (proj2 (proj2 (session_statements_roundtrip AuroraPgDatabaseDialect)))) "my schema");
    reflexivity.
Defined.

(** The statement names no schema: the first byte of the empty text is read. *)
Theorem SetSchema_panics_on_blank :
  DoesStatementSetSchema (session_dialect PgDatabaseDialect) "set search_path to  " = Panic /\
  DoesStatementSetSchema (session_dialect PgDatabaseDialect) ("set search_path to " +:+ String dquote "") = Panic.
Proof. split; by vm_compute. Qed.

(** ** The dialect is decided once *)

Section Updates.
Context `{PrepareHost} `{UrlLib} {C : Type} `{DriverConn C}.

#[local] Instance Result_bool_eq_dec : EqDecision (Result bool).
Proof. solve_decision. Defined.

Definition accepted (conn : C) (code : string) : option Dialect :=
  d ← KnownDialectsByCode !! code; if bool_decide (IsDialect conn d = Ok true) then Some d else None.

Definition found_first (conn : C) (candidates : list string) (code : string) (d : Dialect) : Prop :=
  exists before after, candidates = before ++ code :: after /\ accepted conn code = Some d /\
    Forall (fun c => accepted conn c = None) before.

Lemma found_first_cons conn c l code d :
  accepted conn c = None -> found_first conn l code d -> found_first conn (c :: l) code d.
Proof. intros Hc (b & a & -> & ? & ?). exists (c :: b), a. split; [done|]. split; [done|by constructor]. Qed.

(** Every candidate before the one that is found was asked and refused. *)
Lemma find_candidate_spec conn candidates r :
  find_candidate conn candidates = Ok r ->
  match r with
  | Some (code, d) => found_first conn candidates code d
  | None => Forall (fun c => accepted conn c = None) candidates
  end.
Proof.
  induction candidates as [|c l IH]; cbn [find_candidate]; [by intros [= <-]|].
  assert (Hskip : accepted conn c = None -> find_candidate conn l = Ok r ->
    match r with Some (code, d) => found_first conn (c :: l) code d
               | None => Forall (fun c => accepted conn c = None) (c :: l) end).
  { intros Hc Hr%IH. destruct r as [[code d]|]; [by apply found_first_cons|by constructor]. }
  unfold accepted in Hskip. destruct (KnownDialectsByCode !! c) as [d|] eqn:E; [|by apply Hskip].
  cbn in Hskip. destruct (IsDialect conn d) as [[]|e|] eqn:Ed; cbn in *; try done; [|by apply Hskip].
  intros [= <-]. exists [], l. split; [done|]. split; [|done]. unfold accepted. rewrite E. cbn. by rewrite Ed.
Qed.

(** The manager's code names its dialect. *)
Definition code_names (m : DialectManager) : Prop :=
  forall d, dialect m = Some d -> KnownDialectsByCode !! dialectCode m = Some d.

Lemma candidate_names conn code d : accepted conn code = Some d -> KnownDialectsByCode !! code = Some d.
Proof.
  unfold accepted. destruct (KnownDialectsByCode !! code) as [d'|]; [|done]. cbn.
  destruct (bool_decide _); [by intros [= ->]|done].
Qed.

Lemma known_code_nonempty code d : KnownDialectsByCode !! code = Some d -> code <> "".
Proof. by intros Hc ->. Qed.

(** The readings of the clock of one write: nothing written at [pc_now]
    expires during its clean-up. *)
Definition clock_ok (lo : Z) (clk : PutClock) : Prop :=
  lo <= pc_now clk /\ forall k, cu_at (pc_cleanup clk) k <= lo + ENDPOINT_CACHE_EXPIRATION.

Lemma remember_lookup lo clk key code m :
  defaultExpiration (knownEndpointDialectsCache m) = ENDPOINT_CACHE_EXPIRATION -> clock_ok lo clk ->
  exists e, CacheMap.cache (knownEndpointDialectsCache (remember clk key code m)) !! key = Some (mkCacheValue code e) /\
    lo + ENDPOINT_CACHE_EXPIRATION <= e.
Proof.
  intros Hd [Hlo Hcu]. unfold remember, PutWithDefaultExpiration. cbn [update_field knownEndpointDialectsCache].
  exists (pc_now clk + ENDPOINT_CACHE_EXPIRATION). specialize (Hcu key).
  rewrite Hd. split; [|lia]. apply Put_lookup_same. lia.
Qed.

Lemma remember_keeps lo clk key code m key' e :
  key <> key' -> clock_ok lo clk -> lo + ENDPOINT_CACHE_EXPIRATION <= e ->
  CacheMap.cache (knownEndpointDialectsCache m) !! key' = Some (mkCacheValue code e) ->
  CacheMap.cache (knownEndpointDialectsCache (remember clk key code m)) !! key' = Some (mkCacheValue code e).
Proof.
  intros Hne [Hlo Hcu] He Hk. specialize (Hcu key'). apply Put_lookup_ne; [done|simpl; lia|done].
Qed.

Lemma remembered_twice lo now clk1 clk2 k1 k2 code m :
  defaultExpiration (knownEndpointDialectsCache m) = ENDPOINT_CACHE_EXPIRATION -> clock_ok lo clk1 -> clock_ok lo clk2 ->
  now <= lo + ENDPOINT_CACHE_EXPIRATION ->
  CacheMap.Get now k1 (knownEndpointDialectsCache (remember clk2 k2 code (remember clk1 k1 code m))) = Some code.
Proof.
  intros Hd Hc1 Hc2 Hnow.
  assert (exists e, CacheMap.cache (knownEndpointDialectsCache (remember clk2 k2 code (remember clk1 k1 code m))) !! k1 =
            Some (mkCacheValue code e) /\ lo + ENDPOINT_CACHE_EXPIRATION <= e) as (e & E & He).
  { destruct (remember_lookup lo clk1 k1 code m Hd Hc1) as (e & E & He). destruct (decide (k2 = k1)) as [->|Hne].
    - apply remember_lookup; [|done]. cbn [remember update_field knownEndpointDialectsCache].
      unfold PutWithDefaultExpiration, CacheMap.Put, CleanUp. by destruct (_ <? _).
    - exists e. split; [|done]. by apply (remember_keeps lo). }
  unfold CacheMap.Get. rewrite E. unfold isExpired. cbn [expirationTime item].
  destruct (Z.ltb_spec e now); [lia|done].
Qed.

Lemma GetDialect_cached now clk dsn props m code d :
  Properties.Get DIALECT props = "" -> CacheMap.Get now dsn (knownEndpointDialectsCache m) = Some code ->
  KnownDialectsByCode !! code = Some d ->
  GetDialect now clk dsn props m = (m <| dialectCode := code |> <| dialect := Some d |>, Ok (Some d)).
Proof.
  intros Hp Hg Hk. unfold GetDialect. rewrite Hp, Hg. cbn [default from_option]. change (is_empty "") with true. cbv iota zeta.
  cbn. assert (is_empty code = false) as -> by (apply bool_decide_eq_false, (known_code_nonempty _ _ Hk)).
  cbn [negb]. by rewrite Hk.
Qed.

Lemma GetDialectForUpdate_unfold clk1 clk2 conn h1 h2 m m' r :
  canUpdate m = true -> GetDialectForUpdate clk1 clk2 conn h1 h2 m = (m', Ok r) ->
  exists d found mid, dialect m = Some d /\ find_candidate conn (GetDialectUpdateCandidates d) = Ok found /\
    mid = match found with
          | Some (code, d) => m <| canUpdate := false |> <| dialectCode := code |> <| dialect := Some d |>
          | None => m <| canUpdate := false |>
          end /\
    m' = remember clk2 h2 (dialectCode mid) (remember clk1 h1 (dialectCode mid) mid) /\ r = dialect mid.
Proof.
  intros Hu. unfold GetDialectForUpdate. rewrite Hu. cbn [negb].
  destruct (dialect m) as [d|]; [|done]. destruct (find_candidate conn _) as [found|e|] eqn:Ef; try done.
  intros E. exists d, found. eexists. split; [done|]. split; [done|]. split; [done|]. injection E as <- <-. done.
Qed.

(** GetDialectForUpdate settles the dialect: it is the first update
    candidate that accepts the connection (every candidate before it
    refused), or the old dialect when all refuse; the code still names the
    dialect, and no later call changes anything. *)
Theorem GetDialectForUpdate_decides_once clk1 clk2 conn h1 h2 m m' r :
  canUpdate m = true -> code_names m -> GetDialectForUpdate clk1 clk2 conn h1 h2 m = (m', Ok r) ->
  canUpdate m' = false /\ dialect m' = r /\ code_names m' /\
  (exists d, dialect m = Some d /\
     ((exists d', r = Some d' /\ found_first conn (GetDialectUpdateCandidates d) (dialectCode m') d') \/
      (r = Some d /\ Forall (fun c => accepted conn c = None) (GetDialectUpdateCandidates d)))) /\
  (forall clk3 clk4 conn' h3 h4, GetDialectForUpdate clk3 clk4 conn' h3 h4 m' = (m', Ok r)).
Proof.
  intros Hu Hn E. apply GetDialectForUpdate_unfold in E as (d & found & mid & Hd & Hf & -> & -> & ->); [|done].
  apply find_candidate_spec in Hf. unfold GetDialectForUpdate, code_names.
  destruct found as [[code d']|]; cbn [remember update_field canUpdate dialect dialectCode negb].
  - split; [done|]. split; [done|]. split; [|split; [|done]].
    + intros ? [= <-]. destruct Hf as (b & a & _ & Ha & _). by apply candidate_names in Ha.
    + exists d. split; [done|]. left. by exists d'.
  - split; [done|]. split; [done|]. split; [exact Hn|]. split; [|done]. exists d. split; [done|]. by right.
Qed.

(** A dialect learnt from a connection is used for the next connection
    with the same DSN: within the expiration of the cache, GetDialect of a
    new manager returns it without looking at the endpoint. *)
Theorem learnt_dialect_is_reused lo clk1 clk2 clk now conn dsn newHost props m m' d :
  canUpdate m = true -> code_names m ->
  defaultExpiration (knownEndpointDialectsCache m) = ENDPOINT_CACHE_EXPIRATION ->
  clock_ok lo clk1 -> clock_ok lo clk2 -> now <= lo + ENDPOINT_CACHE_EXPIRATION ->
  GetDialectForUpdate clk1 clk2 conn dsn newHost m = (m', Ok (Some d)) ->
  Properties.Get DIALECT props = "" ->
  let fresh := mkManager false None "" (knownEndpointDialectsCache m') in
  let '(m2, r) := GetDialect now clk dsn props fresh in
  r = Ok (Some d) /\ canUpdate m2 = false /\ knownEndpointDialectsCache m2 = knownEndpointDialectsCache m'.
Proof.
  intros Hu Hn Hd Hc1 Hc2 Hnow E Hp. cbv zeta.
  assert (Hc : KnownDialectsByCode !! dialectCode m' = Some d /\
    CacheMap.Get now dsn (knownEndpointDialectsCache m') = Some (dialectCode m')).
  { apply GetDialectForUpdate_unfold in E as (d0 & found & mid & Hd0 & Hf & Emid & -> & Er); [|done].
    apply find_candidate_spec in Hf.
    assert (Hmid : KnownDialectsByCode !! dialectCode mid = Some d /\
                   defaultExpiration (knownEndpointDialectsCache mid) = ENDPOINT_CACHE_EXPIRATION).
    { destruct found as [[code d']|]; subst mid; cbn [update_field dialect dialectCode knownEndpointDialectsCache] in *;
        (split; [|done]).
      - injection Er as ->. destruct Hf as (b & a & _ & Ha & _). by apply candidate_names in Ha.
      - apply Hn. by rewrite Hd0 in *. }
    split; [apply Hmid|]. apply (remembered_twice lo); [apply Hmid|done..]. }
  destruct Hc as [Hk Hg].
  rewrite (GetDialect_cached now clk dsn props _ (dialectCode m') d) by done. done.
Qed.

(** The Aurora dialect guessed from a cluster endpoint is cached before
    any connection confirms it, and a manager that reads the cache never
    revises it: GetDialectForUpdate keeps it whatever the database answers. *)
Theorem cached_guess_is_final lo now clk1 clk conn clk2 clk3 dsn h1 h2 props m host :
  Properties.Get DIALECT props = "" -> Contains (Properties.Get DRIVER_PROTOCOL props) "mysql" = true ->
  CacheMap.Get lo dsn (knownEndpointDialectsCache m) = None ->
  host_string dsn = Ok host -> IsRdsCluster (IdentifyRdsUrlType host) = true ->
  IdentifyRdsUrlType host <> RDS_GLOBAL_WRITER_CLUSTER ->
  defaultExpiration (knownEndpointDialectsCache m) = ENDPOINT_CACHE_EXPIRATION ->
  clock_ok lo clk1 -> now <= lo + ENDPOINT_CACHE_EXPIRATION ->
  let '(m1, r1) := GetDialect lo clk1 dsn props m in
  let '(m2, r2) := GetDialect now clk dsn props (mkManager false None "" (knownEndpointDialectsCache m1)) in
  r1 = Ok (Some AuroraMySQLDatabaseDialect) /\ canUpdate m1 = true /\
  r2 = Ok (Some AuroraMySQLDatabaseDialect) /\
  GetDialectForUpdate clk2 clk3 conn h1 h2 m2 = (m2, Ok (Some AuroraMySQLDatabaseDialect)).
Proof.
  intros Hp Hproto Hmiss Hhost Hcl Hng Hd Hc Hnow.
  destruct (GetDialect lo clk1 dsn props m) as [m1 r1] eqn:E1.
  assert (E : r1 = Ok (Some AuroraMySQLDatabaseDialect) /\ canUpdate m1 = true /\
    exists e, CacheMap.cache (knownEndpointDialectsCache m1) !! dsn = Some (mkCacheValue AURORA_MYSQL_DIALECT e) /\
      lo + ENDPOINT_CACHE_EXPIRATION <= e).
  { unfold GetDialect in E1. rewrite Hp, Hmiss in E1. cbn [default from_option] in E1.
    change (is_empty "") with true in E1. cbv iota zeta in E1. change (is_empty "") with true in E1. cbn [negb] in E1.
    rewrite Hhost, Hproto in E1. unfold guess in E1. rewrite bool_decide_false, Hcl in E1 by done.
    injection E1 as <- <-. split; [done|]. split; [done|]. by apply remember_lookup. }
  destruct E as (-> & Hu & e & Ec & He).
  rewrite (GetDialect_cached now clk dsn props _ AURORA_MYSQL_DIALECT AuroraMySQLDatabaseDialect); [done|done| |done].
  unfold CacheMap.Get. cbn [knownEndpointDialectsCache]. rewrite Ec. unfold isExpired. cbn [expirationTime item].
  destruct (Z.ltb_spec e now); [lia|done].
Qed.
End Updates.

(** ** An Aurora MySQL cluster *)

Definition aurora_answers (q : string) : option (list (list DbValue)) :=
  if bool_decide (q = "SHOW VARIABLES LIKE 'aurora_version'") then Some [[VString "aurora_version"; VString "3.04"]] else None.
#[local] Instance aurora_conn : DriverConn unit := fun _ => aurora_answers.
#[local] Instance no_prepare_host : PrepareHost := None.
#[local] Instance no_urls : UrlLib := {|
  url_Parse := fun _ => Err (PlainError "url" []); net_ParseIP := fun _ => false;
  net_SplitHostPort := fun _ => Err (PlainError "host" []) |}.

Definition example_dsn : string := "u:p@tcp(db.cluster-x.us-east-1.rds.amazonaws.com:3306)/d".
Definition example_clock (t : Z) : PutClock := mkPutClock t (clock_at t).
Definition no_dialects : CacheMap.CacheMap string := NewCacheWithDefaultExpiration 0 ENDPOINT_CACHE_EXPIRATION.
Definition plain_manager : DialectManager := mkManager true (Some MySQLDatabaseDialect) MYSQL_DIALECT no_dialects.

Lemma plain_manager_names : code_names plain_manager.
Proof. intros d [= <-]. reflexivity. Qed.

Lemma GetDialectForUpdate_decides_once_witness :
  exists m', GetDialectForUpdate (example_clock 1) (example_clock 2) tt example_dsn "host" plain_manager =
               (m', Ok (Some AuroraMySQLDatabaseDialect)) /\ canUpdate m' = false.
Proof.
  eexists. split; [reflexivity|].
  exact (proj1 (GetDialectForUpdate_decides_once (example_clock 1) (example_clock 2) tt example_dsn "host"
    plain_manager _ (Some AuroraMySQLDatabaseDialect) eq_refl plain_manager_names eq_refl)).
Defined.

Lemma learnt_dialect_is_reused_witness :
  let m' := (GetDialectForUpdate (example_clock 1) (example_clock 2) tt example_dsn "host" plain_manager).1 in
  (GetDialect 3 (example_clock 3) example_dsn None (mkManager false None "" (knownEndpointDialectsCache m'))).2 =
    Ok (Some AuroraMySQLDatabaseDialect).
Proof.
  pose proof (learnt_dialect_is_reused 0 (example_clock 1) (example_clock 2) (example_clock 3) 3 tt example_dsn "host" None
    plain_manager (GetDialectForUpdate (example_clock 1) (example_clock 2) tt example_dsn "host" plain_manager).1
    AuroraMySQLDatabaseDialect eq_refl plain_manager_names eq_refl) as Hlearnt.
  refine (proj1 (Hlearnt _ _ _ _ eq_refl)); [split; [|intros k]; by vm_compute..|by vm_compute|by vm_compute].
Defined.

Lemma cached_guess_is_final_witness :
  (GetDialect 3 (example_clock 3) example_dsn (Some {["protocol" := "mysql"]}) (mkManager false None ""
     (knownEndpointDialectsCache (GetDialect 1 (example_clock 1) example_dsn (Some {["protocol" := "mysql"]})
        (mkManager false None "" no_dialects)).1))).2 = Ok (Some AuroraMySQLDatabaseDialect).
Proof.
  pose proof (cached_guess_is_final 1 3 (example_clock 1) (example_clock 3) tt (example_clock 4) (example_clock 5) example_dsn
    "a" "b" (Some {["protocol" := "mysql"]}) (mkManager false None "" no_dialects)
    "db.cluster-x.us-east-1.rds.amazonaws.com") as Hguess.
  refine (proj1 (proj2 (proj2 (Hguess _ _ _ _ _ _ _ _ _)))); try by vm_compute.
Defined.
