(* ===== verification/DriverDialects.v ===== *)
(** * Driver dialects: what the wrapper knows of the two drivers it wraps
    (awssql/driver_infrastructure/driver_dialect.go; mysql_driver_dialect.go,
    mysql_error_handler.go and mysql_property_resolver.go of mysql-driver/,
    pgx_driver_dialect.go, pgx_error_handler.go and pgx_property_resolver.go of
    pgx-driver/).

    An error of a driver is the text of [Error()] and the SQLSTATE of the
    driver's own error type that [errors.As] finds in its chain, if there is
    one: MySQL's is an array of five bytes. The DSN a dialect prepares is in
    Dsn.v, the row parsers are in TopologyUtils.v. *)

From S2P Require Import Prelude.
From S2P Require Import Methods.
From S2P Require Import HostInfo.
From S2P Require Import RWMap.
From S2P Require Import Properties.
From S2P Require Import Regex.
From S2P Require Import Dsn.
From S2P Require Import Dialects.

(** ** Timeouts as DSN parameters *)

Inductive DriverPropertyKey := ConnectTimeout | SocketTimeout.

Record DriverPropertyOption := WithProperty { Key : DriverPropertyKey; Value : Z }.

(** [DriverPropertyResolver] without [CreateProps], which both write alike. *)
Record DriverPropertyResolver := mkResolver {
  GetPropertyName : DriverPropertyKey -> string;
  FormatValue : DriverPropertyKey -> Z -> string
}.

Definition CreateProps (r : DriverPropertyResolver) (opts : list DriverPropertyOption) : properties :=
  foldl (fun props opt =>
    let name := GetPropertyName r (Key opt) in
    if is_empty name then props else <[name := FormatValue r (Key opt) (Value opt)]> props) ∅ opts.

Definition mysql_GetPropertyName (key : DriverPropertyKey) : string :=
  match key with ConnectTimeout => "timeout" | SocketTimeout => "readTimeout" end.
Definition mysql_FormatValue (_ : DriverPropertyKey) (valueMs : Z) : string :=
  if Z.rem valueMs 1000 =? 0 then Itoa (Z.quot valueMs 1000) +:+ "s" else Itoa valueMs +:+ "ms".
Definition mysqlPropertyResolver : DriverPropertyResolver := mkResolver mysql_GetPropertyName mysql_FormatValue.

Definition pgx_GetPropertyName (key : DriverPropertyKey) : string :=
  match key with ConnectTimeout => "connect_timeout" | SocketTimeout => "" end.
Definition pgx_seconds (valueMs : Z) : Z :=
  let seconds := Z.quot valueMs 1000 in if (seconds <? 1) && (0 <? valueMs) then 1 else seconds.
Definition pgx_FormatValue (_ : DriverPropertyKey) (valueMs : Z) : string := Itoa (pgx_seconds valueMs).
Definition pgxPropertyResolver : DriverPropertyResolver := mkResolver pgx_GetPropertyName pgx_FormatValue.

(** ** Errors *)

Record driver_error := mkDriverError { Error : string; SQLState : option string }.

Definition getSQLStateFromError (err : driver_error) : string := default "" (SQLState err).

(** A text that names one of the messages. *)
Definition says (messages : list string) (err : driver_error) : bool := existsb (Contains (Error err)) messages.

Definition SqlStateAccessError : string := "28000".
Definition MySqlNetworkErrorMessages : list string :=
  ["invalid connection"; "bad connection"; "broken pipe"; "context deadline exceeded"].

(** [sqlState[0:2]] panics on a shorter string. *)
Definition mysql_IsNetworkError (err : driver_error) : Result bool :=
  let sqlState := getSQLStateFromError err in
  if is_empty sqlState then Ok (says MySqlNetworkErrorMessages err)
  else if (String.length sqlState <? 2)%nat then Panic
  else if bool_decide (String.substring 0 2 sqlState = "08") then Ok true
  else Ok (says MySqlNetworkErrorMessages err).

Definition mysql_IsLoginError (err : driver_error) : bool :=
  bool_decide (getSQLStateFromError err = SqlStateAccessError).

Definition AccessErrors : list string := ["28P01"; "28000"].
Definition NetworkErrors : list string := ["53"; "57P01"; "57P02"; "57P03"; "58"; "08"; "99"; "F0"].
Definition PgNetworkErrorMessages : list string :=
  ["unexpected EOF"; "use of closed network connection"; "broken pipe"; "bad connection"; "context deadline exceeded"].

Definition state_in (l : list string) (err : driver_error) : bool :=
  negb (is_empty (getSQLStateFromError err)) && bool_decide (getSQLStateFromError err ∈ l).

Definition pgx_IsNetworkError (err : driver_error) : bool :=
  state_in NetworkErrors err || says PgNetworkErrorMessages err.
Definition pgx_IsLoginError (err : driver_error) : bool :=
  state_in AccessErrors err || says AccessErrors err.

(** ** The dialects *)

(** A connection of a driver: what [IsValid] answers when the connection has
    it, and whether the connection of pgx under it is closed when it is one. *)
Class DriverHandle (C : Type) := { IsValid : C -> option bool; stdlib_IsClosed : C -> option bool }.

Record DriverDialect `{DriverHandle C} := mkDriverDialect {
  IsDialect : string -> bool;
  GetAllowedOnConnectionMethodNames : list string;
  PrepareDsn : properties -> option HostInfo -> string;
  IsNetworkError : driver_error -> Result bool;
  IsLoginError : driver_error -> bool;
  IsClosed : C -> bool;
  IsDriverRegistered : gmap string string -> bool;
  RegisterDriver : gmap string string -> Result (gmap string string);
  GetDriverRegistrationName : string;
  GetPropertyResolver : DriverPropertyResolver
}.
Arguments DriverDialect C {_}.

(** [sql.Register] panics when the name is taken. *)
Definition Register (name cls : string) (drivers : gmap string string) : Result (gmap string string) :=
  match drivers !! name with Some _ => Panic | None => Ok (<[name := cls]> drivers) end.

(** The type of the driver as [reflect.TypeOf] writes it. *)
Definition is_class (cls name : string) : bool := bool_decide (cls = name) || bool_decide ("*" +:+ cls = name).

Definition MYSQL_DRIVER_CLASS_NAME : string := "mysql.MySQLDriver".
Definition MYSQL_DRIVER_REGISTRATION_NAME : string := "mysql".
Definition PGX_DRIVER_CLASS_NAME : string := "stdlib.Driver".
Definition PGX_DRIVER_REGISTRATION_NAME : string := "pgx".
Definition PGX_V5_DRIVER_REGISTRATION_NAME : string := "pgx/v5".

Section dialects.
Context `{DriverHandle C} `{MapRange}.

Definition mysql_IsClosed (conn : C) : bool :=
  match IsValid conn with Some v => negb v | None => false end.

Definition NewMySQLDriverDialect : DriverDialect C := {|
  IsDialect := is_class MYSQL_DRIVER_CLASS_NAME;
  GetAllowedOnConnectionMethodNames :=
    REQUIRED_METHODS ++
    [ROWS_HAS_NEXT_RESULT_SET; ROWS_NEXT_RESULT_SET; ROWS_COLUMN_TYPE_SCAN_TYPE; ROWS_COLUMN_TYPE_NULLABLE];
  PrepareDsn := mysql_PrepareDsn;
  IsNetworkError := mysql_IsNetworkError;
  IsLoginError := mysql_IsLoginError;
  IsClosed := mysql_IsClosed;
  IsDriverRegistered drivers := bool_decide (is_Some (drivers !! MYSQL_DRIVER_REGISTRATION_NAME));
  RegisterDriver := Register MYSQL_DRIVER_REGISTRATION_NAME ("*" +:+ MYSQL_DRIVER_CLASS_NAME);
  GetDriverRegistrationName := MYSQL_DRIVER_REGISTRATION_NAME;
  GetPropertyResolver := mysqlPropertyResolver
|}.

Definition pgx_IsClosed (conn : C) : bool :=
  match IsValid conn with Some v => negb v | None => default false (stdlib_IsClosed conn) end.

Definition NewPgxDriverDialect : DriverDialect C := {|
  IsDialect := is_class PGX_DRIVER_CLASS_NAME;
  GetAllowedOnConnectionMethodNames := REQUIRED_METHODS ++ [ROWS_COLUMN_TYPE_LENGTH];
  PrepareDsn := pgx_PrepareDsn;
  IsNetworkError err := Ok (pgx_IsNetworkError err);
  IsLoginError := pgx_IsLoginError;
  IsClosed := pgx_IsClosed;
  IsDriverRegistered drivers :=
    bool_decide (is_Some (drivers !! PGX_DRIVER_REGISTRATION_NAME)) ||
    bool_decide (is_Some (drivers !! PGX_V5_DRIVER_REGISTRATION_NAME));
  RegisterDriver := Register PGX_DRIVER_REGISTRATION_NAME ("*" +:+ PGX_DRIVER_CLASS_NAME);
  GetDriverRegistrationName := PGX_DRIVER_REGISTRATION_NAME;
  GetPropertyResolver := pgxPropertyResolver
|}.

Definition SupportsSocketTimeoutViaDsn (driverDialect : DriverDialect C) : bool :=
  negb (is_empty (GetPropertyName (GetPropertyResolver driverDialect) SocketTimeout)).
End dialects.

(** ** What the drivers read *)

(** [time.ParseDuration], with which the MySQL driver reads its timeouts, on
    one integer followed by a unit. *)
Fixpoint leadingInt (acc : Z) (s : string) : Z * string :=
  match s with
  | EmptyString => (acc, s)
  | String c r => match digit c with Some d => leadingInt (10 * acc + d) r | None => (acc, s) end
  end.
Definition unit_value (u : string) : option Z :=
  if bool_decide (u = "ms") then Some Millisecond else if bool_decide (u = "s") then Some Second else None.
Definition ParseDuration (s : string) : option Z :=
  let '(v, u) := leadingInt 0 s in
  unit ← unit_value u; if v * unit <=? max_int64 then Some (v * unit) else None.

Lemma leadingInt_pretty x s : leadingInt 0 (pretty_N_go x s) = leadingInt (Z.of_N x) s.
Proof.
  revert s. induction (N.lt_wf_0 x) as [x _ IH]. intros s.
  assert (x = 0 \/ 0 < x)%N as [->|Hx] by lia; [by rewrite pretty_N_go_0|].
  rewrite pretty_N_go_step by done. rewrite IH by (by apply N.div_lt). cbn [leadingInt].
  rewrite digit_pretty_N_char by (by apply N.mod_lt). f_equal.
  rewrite N2Z.inj_div, N2Z.inj_mod. pose proof (Z.div_mod (Z.of_N x) 10). lia.
Qed.

Lemma leadingInt_Itoa z u : 0 <= z -> leadingInt 0 (Itoa z +:+ u) = leadingInt z u.
Proof.
  intros Hz. rewrite Itoa_digits by done. destruct (Z.eqb_spec z 0) as [->|]; [done|].
  rewrite pretty_N_go_app, leadingInt_pretty. by rewrite Z2N.id.
Qed.

Lemma ParseDuration_unit z u unit w :
  unit_value u = Some unit -> z * unit = w -> w <= max_int64 ->
  (unit ← unit_value u; if z * unit <=? max_int64 then Some (z * unit) else None) = Some w.
Proof. intros -> <- Hb. simpl. by apply Z.leb_le in Hb as ->. Qed.

(** A timeout in milliseconds that the MySQL resolver writes into a DSN
    parameter is read back by the driver (time.ParseDuration) as that very
    duration, for every value whose nanoseconds fit into 64 bits. *)
Theorem mysql_timeout_read_back k valueMs :
  0 <= valueMs <= max_int64 / Millisecond ->
  ParseDuration (mysql_FormatValue k valueMs) = Some (valueMs * Millisecond).
Proof.
  intros [Hv Hm]. unfold mysql_FormatValue, ParseDuration.
  assert (Hb : valueMs * Millisecond <= max_int64).
  { pose proof (Z.mul_div_le max_int64 Millisecond eq_refl). unfold Millisecond in *. nia. }
  rewrite Z.quot_div_nonneg, Z.rem_mod_nonneg by lia. destruct (Z.eqb_spec (valueMs mod 1000) 0) as [E|E].
  - rewrite leadingInt_Itoa by (apply Z.div_pos; lia). change (leadingInt ?v "s") with (v, "s"). apply (ParseDuration_unit _ "s" Second); [done| |done].
    pose proof (Z.div_mod valueMs 1000). unfold Second, Millisecond. lia.
  - rewrite leadingInt_Itoa by done. by apply (ParseDuration_unit _ "ms" Millisecond).
Qed.
Lemma mysql_timeout_read_back_witness :
  (0 <= 1500 <= max_int64 / Millisecond) /\ ParseDuration (mysql_FormatValue ConnectTimeout 1500) = Some 1500000000.
Proof.
  assert (H : 0 <= 1500 <= max_int64 / Millisecond) by (vm_compute; split; discriminate).
  split; [exact H|]. rewrite (mysql_timeout_read_back ConnectTimeout 1500 H). reflexivity.
Defined.

(** pgx takes whole seconds: the timeout is cut down to the second, but one
    that was asked for never becomes zero, which pgx takes for no timeout. *)
Theorem pgx_timeout_bounds valueMs :
  0 < valueMs -> 1 <= pgx_seconds valueMs /\
  (1000 <= valueMs -> pgx_seconds valueMs * 1000 <= valueMs < (pgx_seconds valueMs + 1) * 1000).
Proof.
  intros Hv. unfold pgx_seconds. rewrite Z.quot_div_nonneg by lia.
  pose proof (Z.div_mod valueMs 1000). pose proof (Z.mod_pos_bound valueMs 1000).
  destruct (Z.ltb_spec (valueMs / 1000) 1), (Z.ltb_spec 0 valueMs); simpl; lia.
Qed.
Lemma pgx_timeout_bounds_witness :
  0 < 2999 /\ 1 <= pgx_seconds 2999 /\ pgx_seconds 2999 * 1000 <= 2999 < (pgx_seconds 2999 + 1) * 1000.
Proof.
  split; [lia|]. destruct (pgx_timeout_bounds 2999 ltac:(lia)) as [A B]. split; [exact A|]. apply B. lia.
Defined.

Example pgx_short_timeout : pgx_FormatValue ConnectTimeout 20 = "1" /\ pgx_FormatValue ConnectTimeout 0 = "0".
Proof. by vm_compute. Qed.

(** The parameters a resolver creates for a connect and a socket timeout. *)
Example mysql_props :
  CreateProps mysqlPropertyResolver [WithProperty ConnectTimeout 5000; WithProperty SocketTimeout 500] =
  <["timeout" := "5s"]> {["readTimeout" := "500ms"]}.
Proof. by vm_compute. Qed.
Example pgx_props :
  CreateProps pgxPropertyResolver [WithProperty ConnectTimeout 5000; WithProperty SocketTimeout 500] =
  {["connect_timeout" := "5"]}.
Proof. by vm_compute. Qed.

(** ** Errors *)

(** MySQL's SQLSTATE has five characters, so looking at its class is safe. *)
Theorem mysql_IsNetworkError_total err :
  from_option (fun s => String.length s = 5%nat) True (SQLState err) -> mysql_IsNetworkError err <> Panic.
Proof.
  unfold mysql_IsNetworkError, getSQLStateFromError. destruct (SQLState err) as [s|]; [|done]. simpl. intros Hs.
  destruct (is_empty s); [done|]. rewrite Hs. simpl. by destruct (bool_decide _).
Qed.
Lemma mysql_IsNetworkError_total_witness :
  String.length "08S01" = 5%nat /\ mysql_IsNetworkError (mkDriverError "x" (Some "08S01")) <> Panic.
Proof. split; [reflexivity|]. apply (mysql_IsNetworkError_total (mkDriverError "x" (Some "08S01"))). reflexivity. Defined.

(** PostgreSQL's SQLSTATE has five characters as well, but the list names whole
    classes by their first two: a state of one of these classes is no network
    error for pgx, unless the text of the error says so. *)
Definition short_states : list string := ["53"; "58"; "08"; "99"; "F0"].
Theorem pgx_classes_never_match err s :
  SQLState err = Some s -> String.length s = 5%nat -> s ∉ ["57P01"; "57P02"; "57P03"] ->
  pgx_IsNetworkError err = says PgNetworkErrorMessages err.
Proof.
  intros Hs Hl Hn. unfold pgx_IsNetworkError, state_in, getSQLStateFromError. rewrite Hs. simpl.
  rewrite bool_decide_eq_false_2; [by rewrite andb_false_r|]. intros Hin. apply Hn. revert Hl.
  repeat (apply elem_of_cons in Hin as [->|Hin]; [try discriminate; intros _; set_solver|]).
  by apply elem_of_nil in Hin.
Qed.
Definition connection_failure : driver_error :=
  mkDriverError "ERROR: connection failure (SQLSTATE 08006)" (Some "08006").
Lemma pgx_classes_never_match_witness :
  (String.length "08006" = 5%nat /\ "08006" ∉ ["57P01"; "57P02"; "57P03"]) /\ pgx_IsNetworkError connection_failure = false.
Proof.
  assert (H : "08006" ∉ ["57P01"; "57P02"; "57P03"]) by (by apply (bool_decide_unpack _); vm_compute).
  split; [by split|]. rewrite (pgx_classes_never_match connection_failure "08006" eq_refl eq_refl H). by vm_compute.
Defined.
Example mysql_takes_the_class : mysql_IsNetworkError connection_failure = Ok true.
Proof. by vm_compute. Qed.

(** A rejected password is a login error and no network error, by its state. *)
Example wrong_password :
  let pg := mkDriverError "password authentication failed" (Some "28P01") in
  let my := mkDriverError "Access denied for user" (Some "28000") in
  pgx_IsLoginError pg = true /\ pgx_IsNetworkError pg = false /\
  mysql_IsLoginError my = true /\ mysql_IsNetworkError my = Ok false.
Proof. by vm_compute. Qed.

Section dialect_facts.
Context `{DriverHandle C} `{MapRange}.

(** Only the DSN of MySQL can carry a socket timeout. *)
Lemma socket_timeouts :
  SupportsSocketTimeoutViaDsn NewMySQLDriverDialect = true /\ SupportsSocketTimeoutViaDsn NewPgxDriverDialect = false.
Proof. by vm_compute. Qed.

(** Registering a driver that is not registered makes it known to its
    dialect, and no dialect takes the driver of the other for its own. *)
Lemma register_unregistered (d : DriverDialect C) drivers :
  d = NewMySQLDriverDialect \/ d = NewPgxDriverDialect ->
  IsDriverRegistered d drivers = false ->
  exists drivers', RegisterDriver d drivers = Ok drivers' /\ IsDriverRegistered d drivers' = true /\
    from_option (IsDialect d) false (drivers' !! GetDriverRegistrationName d) = true.
Proof.
  intros [-> | ->]; cbn -[MYSQL_DRIVER_REGISTRATION_NAME PGX_DRIVER_REGISTRATION_NAME PGX_V5_DRIVER_REGISTRATION_NAME].
  - intros Hn%bool_decide_eq_false. rewrite <-eq_None_not_Some in Hn. unfold Register. rewrite Hn.
    eexists. split; [reflexivity|]. rewrite lookup_insert_eq. split; [by apply bool_decide_eq_true_2|by vm_compute].
  - intros [Hn%bool_decide_eq_false _]%orb_false_iff. rewrite <-eq_None_not_Some in Hn. unfold Register. rewrite Hn.
    eexists. split; [reflexivity|]. rewrite lookup_insert_eq. split; [by rewrite bool_decide_eq_true_2|by vm_compute].
Qed.

Lemma dialects_exclude name : IsDialect NewMySQLDriverDialect name && IsDialect NewPgxDriverDialect name = false.
Proof.
  apply andb_false_iff. destruct (IsDialect NewMySQLDriverDialect name) eqn:E; [right|by left].
  apply orb_true_iff in E as [<-%bool_decide_eq_true|<-%bool_decide_eq_true]; reflexivity.
Qed.
End dialect_facts.
