(* ===== verification/TopologyUtils.v ===== *)
(** * TopologyUtils: the topology of a cluster and the queries it is read with
    (awssql/driver_infrastructure/topology.go, topology_utils.go; the row
    parsers of mysql-driver/mysql_row_parser.go and
    pgx-driver/pgx_row_parser.go).

    A query is an effect on the state it is run in, and gives the names of the
    columns and the rows up to the first error of [Next], which the code does
    not tell from the end of the rows. Hosts are created here, so they are
    values; the components that share them allocate them. *)

From S2P Require Import Prelude.
From S2P Require Import HostInfo.
From S2P Require Import Effects.
From S2P Require Import Regex.
From S2P Require Import RdsUtils.
From S2P Require Import Properties.
From S2P Require Import Dsn.
From S2P Require Import Dialects.
From Stdlib Require Import Ascii QArith_base.
Open Scope Z_scope.

(** ** Topology *)

(** A nil [*Topology] is [None], a nil host [None] in the list. *)
Definition Topology : Type := list (option HostInfo).
Definition GetHosts (t : option Topology) : Topology := default [] t.

Definition host_text (h : option HostInfo) : string :=
  match h with Some x => GetHostAndPort h +:+ Role x +:+ Availability x | None => "" end.
Definition HashCode (t : option Topology) : Z :=
  match t with
  | None | Some [] => 0
  | Some hosts => fnv64a (foldr (fun h s => host_text h +:+ s) "" hosts)
  end.

Fixpoint topology_hosts_equal (s1 s2 : Topology) : bool :=
  match s1, s2 with
  | None :: r1, None :: r2 => topology_hosts_equal r1 r2
  | Some a :: r1, Some b :: r2 => if negb (HostInfo.Equals a b) then false else topology_hosts_equal r1 r2
  | _ :: _, _ :: _ => false
  | _, _ => true
  end.
Definition topology_Equals (t other : option Topology) : bool :=
  match t, other with
  | None, None => true
  | Some a, Some b => if negb (Nat.eqb (length a) (length b)) then false else topology_hosts_equal a b
  | _, _ => false
  end.

(** The comparison and the formatting read the fields of every host. *)
Definition key_text (h : HostInfo) : string :=
  Host h +:+ ":" +:+ Itoa (Port h) +:+ ":" +:+ Availability h +:+ ":" +:+ Role h +:+ "|".
Definition Key (t : option Topology) : Result string :=
  match t with
  | None | Some [] => Ok ""
  | Some hosts =>
      match mapM id hosts with
      | None => Panic
      | Some hosts => Ok (foldr (fun h s => key_text h +:+ s) "" (sort_by Host hosts))
      end
  end.

Lemma mapM_id_Some (l : list HostInfo) : mapM id (map Some l) = Some l.
Proof. induction l as [|x l IH]; [done|]. cbn [map mapM]. cbn in IH |- *. by rewrite IH. Qed.

(** The key is that of the set of hosts when their names differ. *)
Lemma Key_order_independent l1 l2 :
  (forall x y, x ∈ l1 -> y ∈ l1 -> Host x = Host y -> x = y) -> l1 ≡ₚ l2 -> Key (Some (map Some l1)) = Key (Some (map Some l2)).
Proof.
  intros Hinj Hp. assert (Hs : sort_by Host l1 = sort_by Host l2).
  { apply (sorted_perm_eq Host); [|apply sort_by_sorted..|by rewrite !sort_by_perm]. intros x y. rewrite !elem_of_sort_by. apply Hinj. }
  destruct l1 as [|x1 l1], l2 as [|x2 l2]; [done|by apply Permutation_nil_cons in Hp|symmetry in Hp; by apply Permutation_nil_cons in Hp|].
  cbn [Key map]. change (Some x1 :: map Some l1) with (map Some (x1 :: l1)). change (Some x2 :: map Some l2) with (map Some (x2 :: l2)).
  by rewrite !mapM_id_Some, Hs.
Qed.

(** ** Values of the driver *)

Record RowParser := mkParser {
  ParseString : DbValue -> option string;
  ParseBool : DbValue -> option bool;
  ParseFloat64 : DbValue -> option Q;
  ParseTime : DbValue -> option Z;
  ParseInt64 : DbValue -> option Z
}.

(** *** [time.Parse] with the layout 2006-01-02 15:04:05.999999 *)

Definition getnum (fixed : bool) (s : string) : option (Z * string) :=
  match s with
  | String a r =>
      x ← digit a;
      match r with
      | String b r' => match digit b with
                       | Some y => Some (10 * x + y, r')
                       | None => if fixed then None else Some (x, r)
                       end
      | EmptyString => if fixed then None else Some (x, r)
      end
  | EmptyString => None
  end.
Definition skip_char (c : ascii) (s : string) : option string :=
  match s with String a r => if bool_decide (a = c) then Some r else None | EmptyString => None end.
Fixpoint cut_space (s : string) : string :=
  match s with String a r => if bool_decide (a = " "%char) then cut_space r else s | EmptyString => s end.
Definition skip_space (s : string) : option string := cut_space <$> skip_char " "%char s.
Definition in_range (lo hi z : Z) : option unit := if (lo <=? z) && (z <=? hi) then Some tt else None.
Fixpoint cut_digits (s : string) : string * string :=
  match s with
  | String a r => match digit a with Some _ => let '(d, r') := cut_digits r in (String a d, r') | None => ("", s) end
  | EmptyString => ("", s)
  end.
(** At most nine digits count. *)
Definition parse_fraction (s : string) : option Z :=
  match s with
  | EmptyString => Some 0
  | String p r =>
      if negb (bool_decide (p = "."%char) || bool_decide (p = ","%char)) then None
      else match cut_digits r with
           | (EmptyString, _) => None
           | (ds, EmptyString) => let ds := take_string 9 ds in
               v ← digits_value 0 ds; Some (v * 10 ^ (9 - Z.of_nat (String.length ds)))
           | _ => None
           end
  end.
Definition is_leap (y : Z) : bool := (y mod 4 =? 0) && (negb (y mod 100 =? 0) || (y mod 400 =? 0)).
Definition daysIn (m y : Z) : Z :=
  if m =? 2 then (if is_leap y then 29 else 28)
  else if (m =? 4) || (m =? 6) || (m =? 9) || (m =? 11) then 30 else 31.
(** Days since the first of January 1970. *)
Definition days_since_epoch (y m d : Z) : Z :=
  let y' := if m <=? 2 then y - 1 else y in
  let doy := (153 * (if 2 <? m then m - 3 else m + 9) + 2) / 5 + d - 1 in
  365 * y' + y' / 4 - y' / 100 + y' / 400 + doy - 719468.
Definition time_Parse (s : string) : option Z :=
  y ← (if Nat.ltb (String.length s) 4 then None else digits_value 0 (take_string 4 s));
  s ← skip_char "-"%char (drop_string 4 s);
  '(m, s) ← getnum true s; _ ← in_range 1 12 m;
  s ← skip_char "-"%char s; '(d, s) ← getnum true s;
  s ← skip_space s; '(h, s) ← getnum false s; _ ← in_range 0 23 h;
  s ← skip_char ":"%char s; '(mi, s) ← getnum true s; _ ← in_range 0 59 mi;
  s ← skip_char ":"%char s; '(sec, s) ← getnum true s; _ ← in_range 0 59 sec;
  ns ← parse_fraction s; _ ← in_range 1 (daysIn m y) d;
  Some ((((days_since_epoch y m d * 24 + h) * 60 + mi) * 60 + sec) * Second + ns).

Definition mysql_parser : RowParser := {|
  ParseString v := match v with VNil => Some "" | VString s | VBytes s => Some s | VInt64 z => Some (Itoa z) | _ => None end;
  ParseBool v := match v with VNil => Some false | VBool b => Some b | VInt64 z => Some (z =? 1) | _ => None end;
  ParseFloat64 v := match v with VNil => Some 0%Q | VFloat q => Some q | _ => None end;
  ParseTime v := match v with VNil => Some zero_time | VTime t => Some t | VBytes s => time_Parse s | _ => None end;
  ParseInt64 v := match v with VNil => Some 0 | VInt64 z => Some z | _ => None end |}.
Definition pgx_parser : RowParser := {|
  ParseString v := match v with VString s => Some s | _ => None end;
  ParseBool v := match v with VBool b => Some b | _ => None end;
  ParseFloat64 v := match v with VFloat q => Some q | _ => None end;
  ParseTime v := match v with VTime t => Some t | _ => None end;
  ParseInt64 v := match v with VInt64 z => Some z | _ => None end |}.

(** [math.Round]: to the nearest integer, halves away from zero. *)
Definition Round (q : Q) : Z :=
  let n := Qnum q in let d := Zpos (Qden q) in Z.sgn n * ((2 * Z.abs n + d) / (2 * d)).

(** ** Hosts *)

Definition is_writer_role (h : HostInfo) : bool := bool_decide (Role h = WRITER).

(** [sort.Slice] by the time of the last update, the latest first. *)
Fixpoint insert_latest (x : HostInfo) (l : list HostInfo) : list HostInfo :=
  match l with
  | [] => [x]
  | y :: r => if LastUpdateTime x <=? LastUpdateTime y then y :: insert_latest x r else x :: l
  end.
Definition sort_latest (l : list HostInfo) : list HostInfo := foldl (fun acc x => insert_latest x acc) [] l.

(** A nil result is the empty list. *)
Definition verifyWriter (hosts : list HostInfo) : list HostInfo :=
  let writers := List.filter is_writer_role hosts in
  let readers := List.filter (fun h => negb (is_writer_role h)) hosts in
  match writers with
  | [] => []
  | first :: rest =>
      let selectedWriter := match rest with [] => first | _ => default first (head (sort_latest writers)) end in
      selectedWriter :: readers
  end.

Definition CreateHost (instanceId instanceName : string) (isWriter : bool) (weight lastUpdateTime : Z)
  (initialHost instanceTemplate : option HostInfo) : Result (option HostInfo) :=
  let instanceName := if is_empty instanceName then "?" else instanceName in
  match instanceTemplate with
  | None => Panic
  | Some template =>
      let endpoint := ReplaceFirst (Host template) "?" instanceName in
      let port := match initialHost with
                  | Some i => if (Port template =? HOST_NO_PORT) && negb (Port i =? HOST_NO_PORT) then Port i else Port template
                  | None => Port template
                  end in
      match Build (SetLastUpdateTime lastUpdateTime (SetWeight weight (SetAvailability AVAILABLE
              (SetRole (if isWriter then WRITER else READER) (SetPort port (SetHost endpoint (SetHostId instanceId NewHostInfoBuilder))))))) with
      | Ok h => AddAlias (Some h) instanceName
      | Err _ => Ok None
      | Panic => Panic
      end
  end.

(** ** Queries *)

Record Rows := mkRows { Columns : list string; rows_values : list (list DbValue) }.
Definition unexpectedTopologyQueryColumnCount : go_error :=
  NewGenericAwsWrapperError "TopologyUtils.unexpectedTopologyQueryColumnCount" [].
Definition row_error (msg : string) : go_error := NewGenericAwsWrapperError msg [].

(** [executeQuery conn query timeout]; [executeQueryArg] is [QueryContext] with
    one argument. *)
Class Queries (S C : Type) := {
  executeQuery : C -> string -> Z -> Eff S Rows;
  executeQueryArg : C -> string -> string -> Eff S Rows
}.

Section Topology.
Context {S C : Type} `{Queries S C} `{Clock S} `{MapRange}.

Definition first_row (rows : Rows) : option (list DbValue) := head (rows_values rows).
(** A row of length one the driver fills; a value it does not fill stays nil. *)
Definition first_value (rows : Rows) : option DbValue := (fun row => default VNil (head row)) <$> first_row rows.
Definition parsed_first {A} (parse : DbValue -> option A) (rows : Rows) : option A :=
  match first_value rows with Some v => parse v | None => None end.

(** The deferred [Close] of the rows is left out. *)
Definition queryHostRole (conn : C) (query : string) (parser : RowParser) (queryTimeoutMs : Z) : St S string :=
  (let! rows := executeQuery conn query queryTimeoutMs in
   st_ret (match rows with
           | Ok rows => match parsed_first (ParseBool parser) rows with
                        | Some isReader => if (isReader : bool) then READER else WRITER
                        | None => UNKNOWN
                        end
           | _ => UNKNOWN
           end))%eff.

(** Go evaluates [row[0]] on a row as long as the columns: a query without
    columns panics. *)
Definition queryInstanceId (conn : C) (query : string) (parser : RowParser) (queryTimeoutMs : Z) : Eff S (string * string) :=
  (let! rows := executeQuery conn query queryTimeoutMs in
   match rows with
   | Ok rows =>
       match first_row rows with
       | None => eff_ok ("", "")
       | Some [] => lift_result Panic
       | Some (v :: row) =>
           match ParseString parser v with
           | None => eff_ok ("", "")
           | Some instanceId =>
               match row with
               | [] => eff_ok (instanceId, instanceId)
               | w :: _ => eff_ok (instanceId, default "" (ParseString parser w))
               end
           end
       end
   | _ => eff_ok ("", "")
   end)%eff.

Definition queryIsWriter (conn : C) (query : string) (parser : RowParser) (writerWhenEmpty : bool) (queryTimeoutMs : Z) :
  Eff S bool :=
  (try! rows := executeQuery conn query queryTimeoutMs in
   if writerWhenEmpty then eff_ok (bool_decide (first_row rows = None))
   else eff_ok (match parsed_first (ParseString parser) rows with Some serverId => negb (is_empty serverId) | None => false end))%eff.

(** The newer record of a host replaces the older one. *)
Definition add_newest (hostsMap : gmap string HostInfo) (host : HostInfo) : gmap string HostInfo :=
  match hostsMap !! Host host with
  | Some existing => if LastUpdateTime existing <? LastUpdateTime host then <[Host host := host]> hostsMap else hostsMap
  | None => <[Host host := host]> hostsMap
  end.
Fixpoint read_rows (createHostFromRow : list DbValue -> Eff S HostInfo) (rows : list (list DbValue)) (hostsMap : gmap string HostInfo) :
  Eff S (gmap string HostInfo) :=
  match rows with
  | [] => eff_ok hostsMap
  | row :: rows =>
      (let! r := createHostFromRow row in
       match r with
       | Ok host => read_rows createHostFromRow rows (add_newest hostsMap host)
       | Err _ => read_rows createHostFromRow rows hostsMap
       | Panic => lift_result Panic
       end)%eff
  end.
(** The part the three topologies share. *)
Definition topology_of_rows (tick : nat) (createHostFromRow : list DbValue -> Eff S HostInfo) (rows : Rows) : Eff S (list HostInfo) :=
  match Columns rows with
  | [] => throw unexpectedTopologyQueryColumnCount
  | _ => (try! hostsMap := read_rows createHostFromRow (rows_values rows) ∅ in
          eff_ok (verifyWriter (range tick hostsMap).*2))%eff
  end.

(** An error or a nil host of [CreateHost]. *)
Definition created_host (r : Result (option HostInfo)) : Eff S HostInfo :=
  lift_result (match r with
               | Ok (Some h) => Ok h
               | Ok None => Err (row_error "failed to create host")
               | Err e => Err e
               | Panic => Panic
               end).
Definition parsed {A} (msg : string) (o : option A) : Eff S A :=
  match o with Some a => eff_ok a | None => throw (row_error msg) end.

Context (dialect : Dialect) (parser : RowParser) (queryTimeoutMs : Z).

(** A method of a dialect that is no topology dialect does not exist. *)
Definition query_of (q : option string) : string := default "" q.

(** *** Aurora *)

Definition aurora_createHostFromRow (initialHost instanceTemplate : option HostInfo) (row : list DbValue) : Eff S HostInfo :=
  match row with
  | v0 :: v1 :: v2 :: v3 :: more =>
      (try! hostName := parsed "failed to parse host name" (ParseString parser v0) in
       try! isWriter := parsed "failed to parse is_writer" (ParseBool parser v1) in
       let cpu := default 0%Q (ParseFloat64 parser v2) in
       let lag := default 0%Q (ParseFloat64 parser v3) in
       let! now := clock_now in
       let lastUpdateTime := match more with v4 :: _ => default now (ParseTime parser v4) | [] => now end in
       let weight := Round lag * 100 + Round cpu in
       created_host (CreateHost hostName hostName isWriter weight lastUpdateTime initialHost instanceTemplate))%eff
  | _ => throw (row_error "insufficient columns in topology row")
  end.
Definition aurora_QueryForTopology (tick : nat) (conn : C) (initialHost instanceTemplate : option HostInfo) : Eff S (list HostInfo) :=
  (try! rows := executeQuery conn (query_of (GetTopologyQuery dialect)) queryTimeoutMs in
   topology_of_rows tick (aurora_createHostFromRow initialHost instanceTemplate) rows)%eff.

(** *** Methods the three share *)

Definition GetHostRole (conn : C) : St S string := queryHostRole conn (GetIsReaderQuery dialect) parser queryTimeoutMs.
Definition GetInstanceId (conn : C) : Eff S (string * string) :=
  queryInstanceId conn (query_of (GetInstanceIdQuery dialect)) parser queryTimeoutMs.
Definition aurora_IsWriterInstance (conn : C) : Eff S bool :=
  queryIsWriter conn (query_of (GetWriterIdQuery dialect)) parser false queryTimeoutMs.

(** *** Multi-AZ clusters *)

Definition multi_az_IsWriterInstance (conn : C) : Eff S bool :=
  queryIsWriter conn (query_of (GetWriterIdQuery dialect)) parser true queryTimeoutMs.

(** The first column of that name with a value that is not empty. *)
Definition writer_id_in (columnName : string) (columns : list string) (row : list DbValue) : string :=
  default "" (head (omap (fun '(col, v) =>
    if bool_decide (col = columnName) then
      match ParseString parser v with Some id => if is_empty id then None else Some id | None => None end
    else None) (zip columns row))).
Definition getWriterId (conn : C) : Eff S string :=
  (try! rows := executeQuery conn (query_of (GetWriterIdQuery dialect)) queryTimeoutMs in
   let writerId := from_option (writer_id_in (query_of (GetWriterIdColumnName dialect)) (Columns rows)) "" (first_row rows) in
   if negb (is_empty writerId) then eff_ok writerId
   else try! ids := GetInstanceId conn in eff_ok ids.1)%eff.
(** The part before the first dot, when the dot is not the first character. *)
Definition instance_name (endpoint : string) : string :=
  match IndexByte endpoint "."%char with Some (Datatypes.S n) => take_string (Datatypes.S n) endpoint | _ => endpoint end.
Definition multi_az_createHostFromRow (initialHost instanceTemplate : option HostInfo) (writerId : string) (row : list DbValue) :
  Eff S HostInfo :=
  match row with
  | v0 :: v1 :: _ =>
      (try! hostId := parsed "failed to parse host id" (ParseString parser v0) in
       try! endpoint := parsed "failed to parse endpoint" (ParseString parser v1) in
       let! now := clock_now in
       created_host (CreateHost hostId (instance_name endpoint) (bool_decide (hostId = writerId)) 0 now initialHost instanceTemplate))%eff
  | _ => throw (row_error "insufficient columns in topology row")
  end.
Definition multi_az_QueryForTopology (tick : nat) (conn : C) (initialHost instanceTemplate : option HostInfo) : Eff S (list HostInfo) :=
  (try! writerId := getWriterId conn in
   try! rows := executeQuery conn (query_of (GetTopologyQuery dialect)) queryTimeoutMs in
   topology_of_rows tick (multi_az_createHostFromRow initialHost instanceTemplate writerId) rows)%eff.

(** *** Global databases *)

Definition cannotFindRegionTemplate (awsRegion : string) : go_error :=
  NewGenericAwsWrapperError "GlobalAuroraTopologyMonitor.cannotFindRegionTemplate" [awsRegion].
Definition global_createHostFromRow (initialHost : option HostInfo) (instanceTemplatesByRegion : gmap string HostInfo) (row : list DbValue) :
  Eff S HostInfo :=
  match row with
  | v0 :: v1 :: v2 :: v3 :: _ =>
      (try! hostName := parsed "failed to parse host name" (ParseString parser v0) in
       try! isWriter := parsed "failed to parse is_writer" (ParseBool parser v1) in
       let nodeLag := default 0%Q (ParseFloat64 parser v2) in
       let weight := Round nodeLag * 100 in
       try! awsRegion := parsed "failed to parse aws_region" (ParseString parser v3) in
       match instanceTemplatesByRegion !! awsRegion with
       | None => throw (cannotFindRegionTemplate awsRegion)
       | Some regionTemplate =>
           let! now := clock_now in
           created_host (CreateHost hostName hostName isWriter weight now initialHost (Some regionTemplate))
       end)%eff
  | _ => throw (row_error "insufficient columns in global topology row")
  end.
Definition QueryForTopologyByRegion (tick : nat) (conn : C) (initialHost : option HostInfo)
  (instanceTemplatesByRegion : gmap string HostInfo) : Eff S (list HostInfo) :=
  (try! rows := executeQuery conn (query_of (GetTopologyQuery dialect)) queryTimeoutMs in
   topology_of_rows tick (global_createHostFromRow initialHost instanceTemplatesByRegion) rows)%eff.
Definition global_GetRegion (instanceId : string) (conn : C) : Eff S string :=
  (try! rows := executeQueryArg conn (query_of (GetRegionByInstanceIdQuery dialect)) instanceId in
   eff_ok (default "" (parsed_first (ParseString parser) rows)))%eff.
(** ** The newest record of each host *)

(** The hosts that rows give, in their order. *)
Fixpoint created (createHostFromRow : list DbValue -> Eff S HostInfo) (rows : list (list DbValue)) (s : S) : list HostInfo :=
  match rows with
  | [] => []
  | row :: rows =>
      let '(s, r) := createHostFromRow row s in
      match r with Ok h => h :: created createHostFromRow rows s | _ => created createHostFromRow rows s end
  end.

Lemma read_rows_fold create rows : forall m s s' m',
  read_rows create rows m s = (s', Ok m') -> m' = foldl add_newest m (created create rows s).
Proof.
  induction rows as [|row rows IH]; intros m s s' m'; cbn [read_rows created]; [by intros [= _ ->]|].
  unfold st_bind. destruct (create row s) as [s1 [h|e|]]; [apply IH|apply IH|done].
Qed.

(** Every host of the map is the newest of its name so far. *)
Definition newest_of (m : gmap string HostInfo) (l : list HostInfo) : Prop :=
  (forall k h, m !! k = Some h -> h ∈ l /\ Host h = k) /\
  (forall h, h ∈ l -> exists h', m !! Host h = Some h' /\ LastUpdateTime h <= LastUpdateTime h').

Lemma add_newest_spec m l h : newest_of m l -> newest_of (add_newest m h) (l ++ [h]).
Proof.
  intros [Hm Hl]. unfold add_newest. destruct (m !! Host h) as [x|] eqn:Ex; [destruct (Z.ltb_spec (LastUpdateTime x) (LastUpdateTime h))|].
  2: { split.
    - intros k y Hy. destruct (Hm k y Hy). split; [set_solver|done].
    - intros y [Hy| ->%list_elem_of_singleton]%elem_of_app; [by apply Hl|]. exists x. split; [done|lia]. }
  all: split; [intros k y; destruct (decide (k = Host h)) as [->|Hne];
    [rewrite lookup_insert_eq; intros [= <-]; split; [set_solver|done]
    |rewrite lookup_insert_ne by done; intros Hy; destruct (Hm k y Hy); split; [set_solver|done]]|].
  all: intros y [Hy| ->%list_elem_of_singleton]%elem_of_app; [|exists h; rewrite lookup_insert_eq; split; [done|lia]];
    destruct (Hl y Hy) as (z & Hz & Ht); destruct (decide (Host y = Host h)) as [E|Hne];
    [exists h; rewrite E, lookup_insert_eq; split; [done|]; rewrite E in Hz; rewrite Hz in Ex
    |exists z; by rewrite lookup_insert_ne].
  - injection Ex as ->. lia.
  - done.
Qed.

Lemma foldl_newest l : newest_of (foldl add_newest ∅ l) l.
Proof.
  assert (Hgen : forall l2 l1 m, newest_of m l1 -> newest_of (foldl add_newest m l2) (l1 ++ l2)).
  { induction l2 as [|h l2 IH]; intros l1 m Hm; [by rewrite app_nil_r|]. cbn [foldl].
    replace (l1 ++ h :: l2) with ((l1 ++ [h]) ++ l2) by by rewrite <- app_assoc. apply IH. by apply add_newest_spec. }
  apply (Hgen l [] ∅). split; [intros k h; by rewrite lookup_empty|intros h Hh; by apply elem_of_nil in Hh].
Qed.

(** ** One writer *)

Lemma insert_latest_perm x l : insert_latest x l ≡ₚ x :: l.
Proof. induction l as [|y l IH]; cbn [insert_latest]; [done|]. destruct (_ <=? _); [rewrite IH; constructor|done]. Qed.
Lemma sort_latest_perm l : sort_latest l ≡ₚ l.
Proof.
  unfold sort_latest. assert (Hg : forall acc, foldl (fun acc x => insert_latest x acc) acc l ≡ₚ l ++ acc).
  { induction l as [|x l IH]; intros acc; [done|]. cbn [foldl]. rewrite IH, insert_latest_perm. symmetry. apply Permutation_middle. }
  rewrite Hg. by rewrite app_nil_r.
Qed.

Definition head_latest (l : list HostInfo) : Prop :=
  forall w, head l = Some w -> Forall (fun h => LastUpdateTime h <= LastUpdateTime w) l.
Lemma insert_head_latest x l : head_latest l -> head_latest (insert_latest x l).
Proof.
  intros Hl w. destruct l as [|y l]; cbn [insert_latest].
  { intros [= <-]. constructor; [lia|constructor]. }
  specialize (Hl y eq_refl). destruct (Z.leb_spec (LastUpdateTime x) (LastUpdateTime y)); intros [= <-].
  - apply Forall_cons in Hl as [Hy Hl]. constructor; [done|]. rewrite insert_latest_perm. by constructor.
  - constructor; [lia|]. eapply Forall_impl; [exact Hl|]. cbv beta. intros h ?. lia.
Qed.
Lemma sort_head_latest l : head_latest (sort_latest l).
Proof.
  unfold sort_latest. assert (Hg : forall acc, head_latest acc -> head_latest (foldl (fun acc x => insert_latest x acc) acc l)).
  { induction l as [|x l IH]; intros acc Ha; [done|]. cbn [foldl]. apply IH. by apply insert_head_latest. }
  apply Hg. done.
Qed.

Lemma verifyWriter_spec hosts w rs :
  verifyWriter hosts = w :: rs ->
  Role w = WRITER /\ w ∈ hosts /\ rs = List.filter (fun h => negb (is_writer_role h)) hosts /\
  forall h, h ∈ hosts -> Role h = WRITER -> LastUpdateTime h <= LastUpdateTime w.
Proof.
  unfold verifyWriter. destruct (List.filter is_writer_role hosts) as [|first rest] eqn:Ew; [done|].
  set (sel := match rest with [] => first | _ => _ end). intros [= <- <-].
  assert (Hsel : sel ∈ first :: rest /\ Forall (fun h => LastUpdateTime h <= LastUpdateTime sel) (first :: rest)).
  { subst sel. destruct rest as [|y rest]; [split; [by left|constructor; [lia|constructor]]|].
    destruct (head (sort_latest (first :: y :: rest))) as [z|] eqn:Ez.
    - pose proof (sort_head_latest _ _ Ez) as Hl. rewrite sort_latest_perm in Hl. split; [|done].
      destruct (sort_latest (first :: y :: rest)) as [|? l] eqn:Es; [done|]. injection Ez as ->.
      rewrite <- (sort_latest_perm (first :: y :: rest)), Es. by left.
    - destruct (sort_latest (first :: y :: rest)) eqn:Es; [|done]. pose proof (sort_latest_perm (first :: y :: rest)) as Hp.
      rewrite Es in Hp. by apply Permutation_nil_cons in Hp. }
  rewrite <- Ew in Hsel. destruct Hsel as [Hin Hall].
  apply list_elem_of_In, List.filter_In in Hin as [Hin Hrole]. apply bool_decide_eq_true in Hrole.
  split; [done|]. split; [by apply list_elem_of_In|]. split; [done|]. intros h Hh Hw. rewrite Forall_forall in Hall. apply Hall.
  apply list_elem_of_In, List.filter_In. split; [by apply list_elem_of_In|]. by apply bool_decide_eq_true.
Qed.

Lemma verifyWriter_nil hosts : verifyWriter hosts = [] <-> forall h, h ∈ hosts -> Role h <> WRITER.
Proof.
  unfold verifyWriter. destruct (List.filter is_writer_role hosts) as [|first rest] eqn:Ew; split; try done.
  - intros _ h Hh Hw. assert (h ∈ List.filter is_writer_role hosts) as Hin; [|rewrite Ew in Hin; by apply elem_of_nil in Hin].
    apply list_elem_of_In, List.filter_In. split; [by apply list_elem_of_In|]. by apply bool_decide_eq_true.
  - intros Hno. assert (first ∈ List.filter is_writer_role hosts) as Hin by (rewrite Ew; by left).
    apply list_elem_of_In, List.filter_In in Hin as [Hin Hr]. apply bool_decide_eq_true in Hr. by apply list_elem_of_In, Hno in Hin.
Qed.

Lemma NoDup_filter_names p (k : list HostInfo) : NoDup (Host <$> k) -> NoDup (Host <$> List.filter p k).
Proof.
  induction k as [|a k IHk]; [done|]. rewrite fmap_cons, NoDup_cons. intros [Hna Hk]. cbn [List.filter].
  destruct (p a); [|by apply IHk]. rewrite fmap_cons. constructor; [|by apply IHk].
  intros (x & E & Hx)%list_elem_of_fmap. apply Hna, list_elem_of_fmap. exists x. split; [done|].
  by apply list_elem_of_In, List.filter_In, proj1, list_elem_of_In in Hx.
Qed.

(** [h] is the newest record of its name in [l]. *)
Definition newest (l : list HostInfo) (h : HostInfo) : Prop :=
  h ∈ l /\ forall h', h' ∈ l -> Host h' = Host h -> LastUpdateTime h' <= LastUpdateTime h.

(** The hosts of the map, in whatever order [range] gives them. *)
Lemma range_newest tick m l :
  newest_of m l -> let hs := (range tick m).*2 in
  NoDup (Host <$> hs) /\ Forall (newest l) hs /\ (forall h h', h ∈ hs -> h' ∈ hs -> Host h = Host h' -> h = h') /\
  (forall h, h ∈ l -> exists h', h' ∈ hs /\ Host h' = Host h).
Proof.
  intros [Hm Hl] hs.
  assert (Hin : forall h, h ∈ hs <-> m !! Host h = Some h).
  { intros h. unfold hs. rewrite list_elem_of_fmap. split.
    - intros ([k x] & -> & Hk%elem_of_range). destruct (Hm k x Hk) as [_ <-]. done.
    - intros Hh. exists (Host h, h). split; [done|]. by apply elem_of_range. }
  split; [|split; [|split]].
  - assert (Host <$> hs = (range tick m).*1) as ->.
    { unfold hs. rewrite <- list_fmap_compose. apply list_fmap_ext. intros i [k x] Hi%list_elem_of_lookup_2%elem_of_range. by apply Hm. }
    rewrite range_perm. apply NoDup_fst_map_to_list.
  - apply Forall_forall. intros h Hh%Hin. split; [by apply (Hm (Host h))|]. intros h' Hh' E.
    destruct (Hl h' Hh') as (z & Hz & Ht). rewrite E, Hh in Hz. injection Hz as <-. done.
  - intros h h' Hh%Hin Hh'%Hin E. rewrite E in Hh. congruence.
  - intros h Hh. destruct (Hl h Hh) as (z & Hz & _). destruct (Hm _ _ Hz) as [_ E]. exists z. split; [|done]. apply Hin. by rewrite E.
Qed.

(** C17. A topology that is read has one record per host, each the newest of
    its host; it is empty, or its first host is a writer and the others are
    not. A host with a row is in it, unless its newest record is that of a
    writer no later than the first; it is empty only when the newest record
    of no host need be a writer. Whatever order the map of the hosts is
    visited in. *)
Theorem topology_one_writer tick create rows s s' hosts :
  topology_of_rows tick create rows s = (s', Ok hosts) ->
  let l := created create (rows_values rows) s in
  NoDup (Host <$> hosts) /\ Forall (newest l) hosts /\
  match hosts with
  | [] => forall h, h ∈ l -> exists h', newest l h' /\ Host h' = Host h /\ Role h' <> WRITER
  | w :: rs => Role w = WRITER /\ Forall (fun h => Role h <> WRITER) rs /\
      forall h, h ∈ l -> exists h', newest l h' /\ Host h' = Host h /\
        (h' ∈ hosts \/ (Role h' = WRITER /\ LastUpdateTime h' <= LastUpdateTime w))
  end.
Proof.
  unfold topology_of_rows. destruct (Columns rows) as [|column columns]; [done|]. rewrite eff_bind_eq.
  destruct (read_rows create (rows_values rows) ∅ s) as [s1 [m|e|]] eqn:Er; [|done..]. unfold eff_ok. intros [= <- Ehosts].
  apply read_rows_fold in Er. pose proof (foldl_newest (created create (rows_values rows) s)) as Hml. rewrite <- Er in Hml. cbv zeta.
  set (l := created create (rows_values rows) s) in *. apply (range_newest tick) in Hml as (Hnd & Hnew & Huniq & Hkey).
  rewrite Forall_forall in Hnew. set (hs := (range tick m).*2) in *. subst hosts.
  destruct (verifyWriter hs) as [|w rs] eqn:Ev.
  - split; [constructor|]. split; [constructor|]. rewrite verifyWriter_nil in Ev. intros h Hh.
    destruct (Hkey h Hh) as (h' & Hh' & E). exists h'. split; [by apply Hnew|]. split; [done|]. by apply Ev.
  - apply verifyWriter_spec in Ev as (Hw & Hwin & -> & Hlate).
    assert (Hrs : forall h, h ∈ List.filter (fun h => negb (is_writer_role h)) hs <-> h ∈ hs /\ Role h <> WRITER).
    { intros h. rewrite list_elem_of_In, List.filter_In, <- list_elem_of_In. unfold is_writer_role.
      by rewrite negb_true_iff, bool_decide_eq_false. }
    split; [|split; [|split; [done|split]]].
    + rewrite fmap_cons. constructor; [|by apply NoDup_filter_names].
      intros (x & E & Hx)%list_elem_of_fmap. apply Hrs in Hx as [Hx Hr]. apply Hr. by rewrite <- (Huniq w x).
    + apply Forall_forall. intros h [->|Hh]%elem_of_cons; [by apply Hnew|]. by apply Hnew, Hrs.
    + apply Forall_forall. intros h Hh. by apply Hrs.
    + intros h Hh. destruct (Hkey h Hh) as (h' & Hh' & E). exists h'. split; [by apply Hnew|]. split; [done|].
      destruct (decide (Role h' = WRITER)) as [Hr|Hr]; [right; split; [done|]; by apply Hlate|left; right; by apply Hrs].
Qed.
End Topology.

(** ** Instance templates of global databases *)

Definition is_domain_char (a : ascii) : bool :=
  is_alnum a || bool_decide (a ∈ ["?"%char; "."%char; "-"%char]).
Definition urlWithRegionPattern : re :=
  Seq [Opt (Seq [Lit "["; Grp "region" (Plus Any); Lit "]"]); Grp "domain" (Plus (Cls is_domain_char));
       Opt (Seq [Lit ":"; Grp "port" (Plus (Cls (between "0"%char "9"%char)))])].

Section Templates.
Context `{PrepareHost}.

(** The text of an error with the url in it. *)
Definition template_error (msg url : string) : go_error := NewGenericAwsWrapperError (msg +:+ url) [].
Definition parseHostPortPairWithRegionPrefix (urlWithRegionPrefix : string) (defaultPort : Z) : Result (string * HostInfo) :=
  match match_anchored urlWithRegionPattern urlWithRegionPrefix with
  | None => Err (template_error "cannot parse URL: " urlWithRegionPrefix)
  | Some matches =>
      let host := submatch "domain" matches in
      if is_empty host then Err (template_error "cannot parse host from: " urlWithRegionPrefix)
      else
        let awsRegion := if is_empty (submatch "region" matches) then GetRdsRegion host else submatch "region" matches in
        if is_empty awsRegion then Err (template_error "cannot parse AWS region from: " urlWithRegionPrefix)
        else
          (try port := (if is_empty (submatch "port" matches) then Ok defaultPort
                        else match Atoi (submatch "port" matches) with Some z => Ok z | None => Err (PlainError "Sscanf" []) end) in
           try hostInfo := Build (SetPort port (SetHost host NewHostInfoBuilder)) in
           Ok (awsRegion, hostInfo))%go
  end.
Fixpoint parse_entries (entries : list string) (defaultPort : Z) (result : gmap string HostInfo) : Result (gmap string HostInfo) :=
  match entries with
  | [] => Ok result
  | entry :: entries =>
      let entry := TrimSpace entry in
      if is_empty entry then parse_entries entries defaultPort result
      else (try region_host := parseHostPortPairWithRegionPrefix entry defaultPort in
            parse_entries entries defaultPort (<[region_host.1 := region_host.2]> result))%go
  end.
Definition ParseInstanceTemplates (instanceTemplatesString : string) (defaultPort : Z) : Result (gmap string HostInfo) :=
  if is_empty instanceTemplatesString then
    Err (NewGenericAwsWrapperError "GlobalAuroraTopologyUtils.globalClusterInstanceHostPatternsRequired" [])
  else parse_entries (Split instanceTemplatesString ","%char) defaultPort ∅.
End Templates.

(** ** Examples *)

(** Every query of the examples gives these rows. *)
#[local] Instance answering : Queries Rows unit := {| executeQuery _ _ _ s := (s, Ok s); executeQueryArg _ _ _ s := (s, Ok s) |}.
#[local] Instance stopped_clock : Clock Rows := fun s => (s, 7).
Definition host_template (port : Z) : option HostInfo := BuildOrNil (SetPort port (SetHost "?.xyz1.us-east-2.rds.amazonaws.com" NewHostInfoBuilder)).
Definition topology_rows : Rows :=
  mkRows ["server_id"; "is_writer"; "cpu"; "lag"; "last_update_timestamp"] [
    [VBytes "one"; VInt64 1; VFloat (61 # 2); VFloat (5 # 10); VBytes "2024-02-29 10:00:00.5"];
    [VBytes "two"; VInt64 1; VNil; VNil; VBytes "2024-02-29 10:00:01"];
    [VBytes "one"; VInt64 0; VNil; VNil; VBytes "2024-02-29 10:00:02"];
    [VBytes "broken"];
    [VBytes "three"; VInt64 0; VFloat (3 # 1); VFloat (2 # 1); VBytes "2024-02-29 10:00:00"]].
Definition create_example : list DbValue -> Eff Rows HostInfo :=
  aurora_createHostFromRow mysql_parser None (host_template 3306).

Lemma topology_one_writer_witness :
  exists hosts, topology_of_rows 0 create_example topology_rows topology_rows = (topology_rows, Ok hosts) /\
    (fun h => (Host h, Role h, Weight h)) <$> hosts =
      [("two.xyz1.us-east-2.rds.amazonaws.com", WRITER, 0); ("one.xyz1.us-east-2.rds.amazonaws.com", READER, 0);
       ("three.xyz1.us-east-2.rds.amazonaws.com", READER, 203)] /\
    Forall (newest (created create_example (rows_values topology_rows) topology_rows)) hosts.
Proof.
  destruct (topology_of_rows 0 create_example topology_rows topology_rows) as [s r] eqn:E.
  assert (s = topology_rows /\ exists hosts, r = Ok hosts /\ (fun h => (Host h, Role h, Weight h)) <$> hosts =
    [("two.xyz1.us-east-2.rds.amazonaws.com", WRITER, 0); ("one.xyz1.us-east-2.rds.amazonaws.com", READER, 0);
     ("three.xyz1.us-east-2.rds.amazonaws.com", READER, 203)]) as (-> & hosts & -> & Hh).
  { vm_compute in E. injection E as <- <-. split; [done|]. eexists. split; [done|]. by vm_compute. }
  exists hosts. split; [done|]. split; [exact Hh|].
  exact (proj1 (proj2 (topology_one_writer 0 create_example topology_rows topology_rows topology_rows hosts E))).
Defined.
