(* ===== verification/HostListProviders.v ===== *)
(** * HostListProviders: where the wrapper gets the hosts of a cluster from
    (rds_host_list_provider.go, global_aurora_host_list_provider.go and
    dsn_host_list_provider.go of awssql/driver_infrastructure/).

    The two providers of topologies keep a [RdsHostListProvider] next to the
    state of everything else they call, which [ProviderEnv] names: the plugin
    service, the storage and the monitor service. The fields of a host are
    never assigned here, so a pointer to a host is its value. The query
    strategies hold the utilities of TopologyUtils.v ([ClusterTopologyUtils]). *)

From S2P Require Import Prelude.
From S2P Require Import HostInfo.
From S2P Require Import RWMap.
From S2P Require Import Effects.
From S2P Require Import Properties.
From S2P Require Import Regex.
From S2P Require Import RdsUtils.
From S2P Require Import Dsn.
From S2P Require Import Dialects.
From S2P Require Import DriverDialects.
From S2P Require Import TopologyUtils.
From Stdlib Require Import Ascii.

Definition TOPOLOGY_CACHE_EXPIRATION_NANO : Z := Minute * 5.
Definition DEFAULT_TOPOLOGY_QUERY_TIMEOUT_MS : Z := 5000.

(** ** Query strategies *)

Section strategies.
Context {S C : Type}.

(** The interfaces of topology_utils.go, whose [CreateHost] all implement
    alike, and their implementations; [tick] numbers the range over the hosts
    of a query. *)
Record TopologyUtils := mkUtils {
  u_IsWriterInstance : C -> Eff S bool;
  u_GetInstanceId : C -> Eff S (string * string);
  u_GetHostRole : C -> St S string
}.
Record ClusterTopologyUtils := mkCluster {
  cluster_utils :> TopologyUtils;
  u_QueryForTopology : C -> option HostInfo -> option HostInfo -> Eff S (list HostInfo)
}.
Record GlobalClusterTopologyUtils := mkGlobalUtils {
  global_utils :> TopologyUtils;
  u_QueryForTopologyByRegion : C -> option HostInfo -> gmap string HostInfo -> Eff S (list HostInfo);
  u_GetRegion : string -> C -> Eff S string
}.

(** Without a socket timeout in the DSN the queries carry a timeout of their
    own. *)
Definition resolveQueryTimeoutMs `{DriverHandle D} (driverDialect : DriverDialect D) (props : option properties) : Z :=
  if SupportsSocketTimeoutViaDsn driverDialect then 0
  else GetVerifiedWrapperPropertyValue props CLUSTER_TOPOLOGY_SOCKET_TIMEOUT_MS.

Section implementations.
Context `{Queries S C} `{Clock S} `{MapRange} (dialect : Dialect) (parser : RowParser) (queryTimeoutMs : Z) (tick : nat).

Definition AuroraTopologyUtils : ClusterTopologyUtils :=
  mkCluster (mkUtils (aurora_IsWriterInstance dialect parser queryTimeoutMs) (GetInstanceId dialect parser queryTimeoutMs)
               (GetHostRole dialect parser queryTimeoutMs))
    (aurora_QueryForTopology dialect parser queryTimeoutMs tick).
Definition MultiAzTopologyUtils : ClusterTopologyUtils :=
  mkCluster (mkUtils (multi_az_IsWriterInstance dialect parser queryTimeoutMs) (GetInstanceId dialect parser queryTimeoutMs)
               (GetHostRole dialect parser queryTimeoutMs))
    (multi_az_QueryForTopology dialect parser queryTimeoutMs tick).
Definition GlobalAuroraTopologyUtils : GlobalClusterTopologyUtils :=
  mkGlobalUtils (mkUtils (aurora_IsWriterInstance dialect parser queryTimeoutMs) (GetInstanceId dialect parser queryTimeoutMs)
                   (GetHostRole dialect parser queryTimeoutMs))
    (QueryForTopologyByRegion dialect parser queryTimeoutMs tick) (global_GetRegion dialect parser).
End implementations.

(** cluster_topology_monitor.go; [CreateHost] is that of TopologyUtils.v. *)
Record TopologyQueryStrategy := mkStrategy {
  s_QueryForTopology : C -> Eff S (list HostInfo);
  s_GetInstanceTemplate : string -> C -> Eff S (option HostInfo);
  s_IsWriterInstance : C -> Eff S bool;
  s_GetInstanceId : C -> Eff S (string * string);
  s_CreateHost : string -> string -> bool -> Z -> Z -> option HostInfo -> option HostInfo -> Result (option HostInfo)
}.

Definition rdsTopologyQueryStrategy (u : ClusterTopologyUtils) (initialHostInfo clusterInstanceTemplate : option HostInfo) :
  TopologyQueryStrategy := {|
  s_QueryForTopology conn := u_QueryForTopology u conn initialHostInfo clusterInstanceTemplate;
  s_GetInstanceTemplate _ _ := eff_ok None;
  s_IsWriterInstance := u_IsWriterInstance u;
  s_GetInstanceId := u_GetInstanceId u;
  s_CreateHost := CreateHost
|}.

Definition globalAuroraTopologyQueryStrategy (u : GlobalClusterTopologyUtils) (initialHostInfo : option HostInfo)
  (instanceTemplatesByRegion : gmap string HostInfo) : TopologyQueryStrategy := {|
  s_QueryForTopology conn := u_QueryForTopologyByRegion u conn initialHostInfo instanceTemplatesByRegion;
  s_GetInstanceTemplate instanceId conn :=
    (try! region := u_GetRegion u instanceId conn in
     if is_empty region then eff_ok None
     else match instanceTemplatesByRegion !! region with
          | None => throw (cannotFindRegionTemplate region)
          | Some template => eff_ok (Some template)
          end)%eff;
  s_IsWriterInstance := u_IsWriterInstance u;
  s_GetInstanceId := u_GetInstanceId u;
  s_CreateHost := CreateHost
|}.

(** What [NewClusterTopologyMonitorImpl] is given. *)
Record MonitorConfig := mkConfig {
  m_clusterId : string;
  m_highRefreshRateNano : Z;
  m_refreshRateNano : Z;
  m_topologyCacheExpirationNano : Z;
  m_monitoringProps : properties;
  m_initialHostInfo : option HostInfo;
  m_clusterInstanceTemplate : option HostInfo;
  m_strategy : TopologyQueryStrategy
}.
End strategies.
Arguments TopologyUtils : clear implicits.
Arguments ClusterTopologyUtils : clear implicits.
Arguments GlobalClusterTopologyUtils : clear implicits.
Arguments TopologyQueryStrategy : clear implicits.
Arguments MonitorConfig : clear implicits.

(** The services a provider calls. [StoredTopology], [StoreTopology],
    [RunIfAbsent] and [StopAndRemove] are those of the topologies and of the
    cluster topology monitors; [MonitorForceRefresh] is [ForceRefresh] of a
    monitor. *)
Class ProviderEnv (S C M : Type) := {
  ProviderProps : S -> properties;
  IsDialectConfirmed : S -> bool;
  TargetResolver : S -> DriverPropertyResolver;
  DialectDefaultPort : S -> Z;
  SetInitialConnectionHostInfo : HostInfo -> St S unit;
  StoredTopology : string -> St S (option (list HostInfo));
  StoreTopology : string -> list HostInfo -> St S unit;
  RunIfAbsent : string -> MonitorConfig S C -> Eff S M;
  StopAndRemove : string -> St S unit;
  MonitorForceRefresh : M -> bool -> Z -> Eff S (list HostInfo)
}.

(** ** The provider of RDS clusters *)

Record RdsHostListProvider := mkRds {
  isInitialized : bool;
  initialHostList : list HostInfo;
  initialHostInfo : option HostInfo;
  clusterId : string;
  clusterInstanceTemplate : option HostInfo;
  refreshRateNanos : Z
}.
#[export] Instance RdsHostListProvider_eta : Eta RdsHostListProvider := fun r =>
  mkRds (isInitialized r) (initialHostList r) (initialHostInfo r) (clusterId r) (clusterInstanceTemplate r) (refreshRateNanos r).
Definition new_rds : RdsHostListProvider := mkRds false [] None "" None 0.

Section rds.
Context {S C M : Type} `{ProviderEnv S C M} `{PrepareHost} `{MapRange}.

(** [G] is what a provider built on this one adds to it. *)
Context {G : Type}.
Definition T : Type := (RdsHostListProvider * G) * S.
Definition env {A} (c : St S A) : St T A := fun '(r, s) => let '(s, a) := c s in ((r, s), a).
Definition rds (t : T) : RdsHostListProvider := t.1.1.

Definition props_of (s : S) : option properties := Some (ProviderProps s).

(** The template in force: the one given, unless it cannot be one. *)
Definition usable_template (t : HostInfo) : bool :=
  let rdsUrlType := IdentifyRdsUrlType (Host t) in
  negb (bool_decide (rdsUrlType = RDS_PROXY) || bool_decide (rdsUrlType = RDS_CUSTOM_CLUSTER) ||
        negb (bool_decide (is_Some (IndexByte (Host t) "?"%char)))).
Definition given_template (pattern : string) (port : Z) (before : option HostInfo) : option HostInfo :=
  if is_empty pattern then before
  else match ParseHostPortPair pattern port with Ok t => Some t | _ => None end.
Definition choose_template (given : option HostInfo) (defaultTemplate : HostInfo) : HostInfo :=
  match given with
  | Some t => if IsNil (Some t) then defaultTemplate else if usable_template t then t else defaultTemplate
  | None => defaultTemplate
  end.
Definition default_template (h : HostInfo) : Result HostInfo :=
  Build (SetHostId (HostId h) (SetPort (Port h) (SetHost (GetRdsInstanceHostPattern (Host h)) NewHostInfoBuilder))).

(** The part of [init] after the hosts are known. *)
Definition init_with (host : HostInfo) (hosts : list HostInfo) (r : RdsHostListProvider) (s : S) : S * RdsHostListProvider :=
  let r := r <| initialHostList := host :: hosts |> <| initialHostInfo := Some host |> in
  let '(s, _) := SetInitialConnectionHostInfo host s in
  let clusterInstancePattern : string := GetVerifiedWrapperPropertyValue (props_of s) CLUSTER_INSTANCE_HOST_PATTERN in
  (s, match default_template host with
      | Ok defaultTemplate =>
          r <| clusterInstanceTemplate :=
                 Some (choose_template (given_template clusterInstancePattern (Port host) (clusterInstanceTemplate r)) defaultTemplate) |>
            <| clusterId := GetVerifiedWrapperPropertyValue (props_of s) CLUSTER_ID |>
            <| isInitialized := true |>
      | _ => r
      end).

Definition init : St T unit := fun '((r, g), s) =>
  if isInitialized r then (((r, g), s), tt)
  else
    let r := r <| refreshRateNanos := wrap64 (Millisecond * GetRefreshRateValue (props_of s) CLUSTER_TOPOLOGY_REFRESH_RATE_MS) |> in
    match GetHostsFromProps (ProviderProps s) false with
    | Ok (host :: hosts) => let '(s, r) := init_with host hosts r s in (((r, g), s), tt)
    | _ => (((r, g), s), tt)
    end.

Definition getMonitoringProps (props : properties) (resolver : DriverPropertyResolver) : properties :=
  let connectTimeoutMs : Z := GetVerifiedWrapperPropertyValue (Some props) CLUSTER_TOPOLOGY_CONNECT_TIMEOUT_MS in
  let socketTimeoutMs : Z := GetVerifiedWrapperPropertyValue (Some props) CLUSTER_TOPOLOGY_SOCKET_TIMEOUT_MS in
  let driverProps := CreateProps resolver [WithProperty ConnectTimeout connectTimeoutMs; WithProperty SocketTimeout socketTimeoutMs] in
  foldl (fun monitoringProps kv => <[kv.1 := kv.2]> monitoringProps) props (range 60 driverProps).

Definition createClusterTopologyMonitor (clusterId : string) (initialHostInfo clusterInstanceTemplate : option HostInfo)
  (refreshRateNanos : Z) (strategy : TopologyQueryStrategy S C) : Eff S M := fun s =>
  RunIfAbsent clusterId {|
    m_clusterId := clusterId;
    m_highRefreshRateNano := wrap64 (Millisecond * GetRefreshRateValue (props_of s) CLUSTER_TOPOLOGY_HIGH_REFRESH_RATE_MS);
    m_refreshRateNano := refreshRateNanos;
    m_topologyCacheExpirationNano := TOPOLOGY_CACHE_EXPIRATION_NANO;
    m_monitoringProps := getMonitoringProps (ProviderProps s) (TargetResolver s);
    m_initialHostInfo := initialHostInfo;
    m_clusterInstanceTemplate := clusterInstanceTemplate;
    m_strategy := strategy
  |} s.

(** The creator [NewRdsHostListProvider] sets when it is given none. *)
Definition rds_monitorCreator (topologyUtils : ClusterTopologyUtils S C) : Eff T M :=
  (do! init in
   let! r := gets rds in
   env (createClusterTopologyMonitor (clusterId r) (initialHostInfo r) (clusterInstanceTemplate r) (refreshRateNanos r)
          (rdsTopologyQueryStrategy topologyUtils (initialHostInfo r) (clusterInstanceTemplate r))))%eff.

Context (topologyUtils : TopologyUtils S C) (monitorCreator : Eff T M).

Definition forceRefreshMonitor (verifyTopology : bool) (timeoutMs : Z) : Eff T (list HostInfo) :=
  (do! init in
   let! confirmed := env (gets IsDialectConfirmed) in
   if negb confirmed then run (gets (fun t => initialHostList (rds t)))
   else try! monitor := monitorCreator in env (MonitorForceRefresh monitor verifyTopology timeoutMs))%eff.
Definition ForceRefresh : Eff T (list HostInfo) := forceRefreshMonitor false DEFAULT_TOPOLOGY_QUERY_TIMEOUT_MS.

Definition GetClusterId : Eff T string := (do! init in run (gets (fun t => clusterId (rds t))))%eff.
Definition rds_GetHostRole (conn : C) : St T string := env (u_GetHostRole topologyUtils conn).

Definition getStoredHosts : St T (list HostInfo) :=
  (do! init in let! r := gets rds in
   let! topology := env (StoredTopology (clusterId r)) in st_ret (default [] topology))%eff.

Definition unableToGatherTopology : go_error := NewGenericAwsWrapperError "RdsHostListProvider.unableToGatherTopology" [].
Definition unableToGetHostName : go_error := NewGenericAwsWrapperError "RdsHostListProvider.unableToGetHostName" [].

(** [hosts, err := f()], the error in hand. *)
Definition attempt {A} (c : Eff T A) (k : A + go_error -> Eff T (list HostInfo * bool)) : Eff T (list HostInfo * bool) := fun t =>
  match c t with
  | (t, Ok a) => k (inl a) t
  | (t, Err e) => k (inr e) t
  | (t, Panic) => (t, Panic)
  end.

Definition stored_or_initial (hosts : list HostInfo) : Eff T (list HostInfo * bool) :=
  (match hosts with
   | _ :: _ => eff_ok (hosts, true)
   | [] =>
       let! r := gets rds in
       match initialHostList r with
       | [] => throw unableToGatherTopology
       | l => eff_ok (l, false)
       end
   end)%eff.

Definition getTopology : Eff T (list HostInfo * bool) :=
  (let! hosts := getStoredHosts in
   let! confirmed := env (gets IsDialectConfirmed) in
   if negb confirmed then let! r := gets rds in eff_ok (initialHostList r, false)
   else match hosts with
        | [] =>
            attempt (forceRefreshMonitor false DEFAULT_TOPOLOGY_QUERY_TIMEOUT_MS) (fun refreshed =>
              match refreshed with
              | inl (h :: refreshedHosts) => eff_ok (h :: refreshedHosts, false)
              | _ => stored_or_initial hosts
              end)
        | _ => stored_or_initial hosts
        end)%eff.

Definition Refresh : Eff T (list HostInfo) :=
  (do! init in try! hosts := getTopology in eff_ok hosts.1)%eff.

Definition named (instanceId instanceName : string) (h : HostInfo) : bool :=
  bool_decide (instanceId = HostId h) || bool_decide (instanceName = HostId h) || bool_decide (instanceName = Host h).
Definition findHost (hosts : list HostInfo) (instanceId instanceName : string) : option HostInfo :=
  snd <$> list_find (fun h => named instanceId instanceName h) hosts.

Definition IdentifyConnection (conn : C) : Eff T HostInfo :=
  (do! init in
   try! ids := env (u_GetInstanceId topologyUtils conn) in
   let '(instanceId, instanceName) := ids in
   if is_empty instanceName then throw unableToGetHostName
   else
     try! cached := Refresh in
     let forcedRefresh := match cached with [] => true | _ => false end in
     try! topology := match cached with [] => ForceRefresh | _ => eff_ok cached end in
     match topology with
     | [] => throw unableToGatherTopology
     | _ =>
         let foundHost := findHost topology instanceId instanceName in
         try! foundHost :=
           (if IsNil foundHost && negb forcedRefresh
            then try! topology := ForceRefresh in eff_ok (findHost topology instanceId instanceName)
            else eff_ok foundHost) in
         match foundHost with
         | Some h => if IsNil (Some h) then throw unableToGetHostName else eff_ok h
         | None => throw unableToGetHostName
         end
     end)%eff.

Definition StopMonitor : St T unit := (let! r := gets rds in env (StopAndRemove (clusterId r)))%eff.

Definition ForceRefreshHostListWithTimeout (shouldVerifyWriter : bool) (timeoutMs : Z) : Eff T (list HostInfo) :=
  (try! monitor := monitorCreator in
   try! updatedHosts := env (MonitorForceRefresh monitor shouldVerifyWriter timeoutMs) in
   let! r := gets rds in
   do! match updatedHosts with [] => st_ret tt | _ => env (StoreTopology (clusterId r) updatedHosts) end in
   eff_ok updatedHosts)%eff.
End rds.

(** ** The provider of global databases *)

Record GlobalFields := mkGlobal { instanceTemplatesByRegion : gmap string HostInfo; globalInitialized : bool }.
Definition new_global : GlobalFields := mkGlobal ∅ false.

Section global.
Context {S C M : Type} `{ProviderEnv S C M} `{PrepareHost} `{MapRange} (topologyUtils : GlobalClusterTopologyUtils S C).

Notation GT := (T (S := S) (G := GlobalFields)).

Definition globalClusterInstanceHostPatternsRequired : go_error :=
  NewGenericAwsWrapperError "GlobalAuroraTopologyUtils.globalClusterInstanceHostPatternsRequired" [].
Definition NewGlobalAuroraHostListProvider (props : properties) : Result (RdsHostListProvider * GlobalFields) :=
  if is_empty (Properties.Get GLOBAL_CLUSTER_INSTANCE_HOST_PATTERNS (Some props)) then Err globalClusterInstanceHostPatternsRequired
  else Ok (new_rds, new_global).

Definition initGlobal : Eff GT unit :=
  (do! init in
   fun '((r, g), s) =>
     if globalInitialized g then (((r, g), s), Ok tt)
     else
       let instanceTemplatesStr := Properties.Get GLOBAL_CLUSTER_INSTANCE_HOST_PATTERNS (props_of s) in
       match ParseInstanceTemplates instanceTemplatesStr (DialectDefaultPort s) with
       | Ok templates => (((r, mkGlobal templates true), s), Ok tt)
       | Err e => (((r, g), s), Err e)
       | Panic => (((r, g), s), Panic)
       end)%eff.

Definition global_monitorCreator : Eff GT M :=
  (try! _ := initGlobal in
   let! t := gets fst in
   let '(r, g) := t in
   env (createClusterTopologyMonitor (clusterId r) (initialHostInfo r) (clusterInstanceTemplate r) (refreshRateNanos r)
          (globalAuroraTopologyQueryStrategy topologyUtils (initialHostInfo r) (instanceTemplatesByRegion g))))%eff.

(** The methods go to the base, which calls the creator above. *)
Definition global_Refresh : Eff GT (list HostInfo) := Refresh global_monitorCreator.
Definition global_ForceRefresh : Eff GT (list HostInfo) := ForceRefresh global_monitorCreator.
Definition global_IdentifyConnection (conn : C) : Eff GT HostInfo := IdentifyConnection topologyUtils global_monitorCreator conn.
Definition global_GetHostRole (conn : C) : St GT string := rds_GetHostRole topologyUtils conn.
Definition global_GetClusterId : Eff GT string := GetClusterId.
Definition global_StopMonitor : St GT unit := StopMonitor.
Definition global_ForceRefreshHostListWithTimeout (shouldVerifyWriter : bool) (timeoutMs : Z) : Eff GT (list HostInfo) :=
  ForceRefreshHostListWithTimeout global_monitorCreator shouldVerifyWriter timeoutMs.
End global.

(** ** The static provider *)

Record DsnHostListProvider := mkDsn { isSingleWriterConnectionString : bool; dsn_isInitialized : bool; hostList : list HostInfo; initialHost : string }.
#[export] Instance DsnHostListProvider_eta : Eta DsnHostListProvider := fun c =>
  mkDsn (isSingleWriterConnectionString c) (dsn_isInitialized c) (hostList c) (initialHost c).

Section dsn.
Context {S C M : Type} `{ProviderEnv S C M} `{PrepareHost} `{MapRange}.

Definition NewDsnHostListProvider (props : properties) : DsnHostListProvider :=
  mkDsn (GetVerifiedWrapperPropertyValue (Some props) SINGLE_WRITER_DSN) false []
    (GetVerifiedWrapperPropertyValue (Some props) HOST).

(** The masked properties the message shows are left out. *)
Definition parsedListEmpty : go_error := NewGenericAwsWrapperError "DsnHostListProvider.parsedListEmpty" [].

Definition dsn_init : Eff (DsnHostListProvider * S) unit := fun '(c, s) =>
  if dsn_isInitialized c then ((c, s), Ok tt)
  else match GetHostsFromProps (ProviderProps s) (isSingleWriterConnectionString c) with
       | Err e => ((c, s), Err e)
       | Panic => ((c, s), Panic)
       | Ok hosts =>
           let c := c <| hostList := hostList c ++ hosts |> in
           match hostList c with
           | [] => ((c, s), Err parsedListEmpty)
           | h :: _ => let '(s, _) := SetInitialConnectionHostInfo h s in ((c <| dsn_isInitialized := true |>, s), Ok tt)
           end
       end.

(** Hosts and error together: [err] is nil or not, the hosts are returned. *)
Definition dsn_Refresh : St (DsnHostListProvider * S) (list HostInfo * Result unit) :=
  (let! err := dsn_init in let! hosts := gets (fun t => hostList t.1) in st_ret (hosts, err))%eff.
Definition dsn_ForceRefresh : St (DsnHostListProvider * S) (list HostInfo * Result unit) :=
  (let! err := dsn_init in let! hosts := gets (fun t => hostList t.1) in st_ret (hosts, err))%eff.
Definition dsn_ForceRefreshHostListWithTimeout (_ : bool) (_ : Z) : St (DsnHostListProvider * S) (list HostInfo * Result unit) :=
  dsn_ForceRefresh.
Definition dsn_GetHostRole (_ : C) : St (DsnHostListProvider * S) string := st_ret UNKNOWN.
Definition dsn_IdentifyConnection (_ : C) : Eff (DsnHostListProvider * S) (option HostInfo) := eff_ok None.
Definition dsn_GetClusterId : Eff (DsnHostListProvider * S) string := eff_ok "<none>".
Definition dsn_StopMonitor : St (DsnHostListProvider * S) unit := st_ret tt.
End dsn.

(** ** What the providers keep *)

Definition question (t : HostInfo) : Prop := is_Some (IndexByte (Host t) "?"%char).

(** Before it is initialized a provider knows nothing of the cluster, and
    afterwards it has the hosts of the DSN, the first of which is the initial
    one, and a template into which an instance name can be written. *)
Definition rds_wf (r : RdsHostListProvider) : Prop :=
  if isInitialized r then
    exists h hs t, initialHostList r = h :: hs /\ initialHostInfo r = Some h /\
      clusterInstanceTemplate r = Some t /\ question t
  else initialHostList r = [] /\ initialHostInfo r = None /\ clusterInstanceTemplate r = None /\ clusterId r = "".

Lemma default_template_ok `{PrepareHost} h : exists t, default_template h = Ok t /\ question t.
Proof.
  unfold default_template, Build, GetRdsInstanceHostPattern. cbn.
  destruct (is_empty _); cbn; eexists; (split; [reflexivity|]); eexists; reflexivity.
Qed.

Section rds_facts.
Context {S C M : Type} `{ProviderEnv S C M} `{PrepareHost} `{MapRange} {G : Type}.
Local Notation T := (T (S := S) (G := G)).

Lemma choose_template_question given d : question d -> question (choose_template given d).
Proof.
  intros Hd. destruct given as [t|]; [|done]. unfold choose_template. destruct (IsNil _); [done|].
  destruct (usable_template t) eqn:E; [|done]. unfold usable_template in E.
  apply negb_true_iff, orb_false_iff in E as [_ E]. by apply negb_false_iff, bool_decide_eq_true in E.
Qed.

(** What a step may do to the settings of a provider. *)
Definition settles (t t' : T) : Prop :=
  (isInitialized (rds t) = true -> rds t' = rds t) /\ (rds_wf (rds t) -> rds_wf (rds t')).
#[export] Instance settles_refl : Reflexive settles.
Proof. done. Qed.
#[export] Instance settles_trans : Transitive settles.
Proof. intros x y z [A B] [A' B']. split; [|auto]. intros I. rewrite A'; rewrite (A I); done. Qed.

Lemma settles_init : keeps settles (init (G := G)).
Proof.
  intros [[r g] s]. unfold init, settles, rds. destruct (isInitialized r) eqn:E; [done|].
  split; [cbn; congruence|]. intros Hwf. unfold rds_wf in Hwf. cbn in Hwf. rewrite E in Hwf. destruct Hwf as (El & Eh & Et & Ec).
  assert (Hr : forall rate, rds_wf (r <| refreshRateNanos := rate |>)) by (intros rate; unfold rds_wf; cbn; rewrite E; by split_and!).
  destruct (GetHostsFromProps _ false) as [[|host hosts]|e|]; [apply Hr| |apply Hr|apply Hr].
  unfold init_with. destruct (SetInitialConnectionHostInfo host s) as [s' []].
  destruct (default_template_ok host) as (t & -> & Ht). cbn. unfold rds_wf. cbn. do 3 eexists.
  do 3 (split; [reflexivity|]). by apply choose_template_question.
Qed.
Lemma settles_env {A} (c : St S A) : keeps settles (env (G := G) c).
Proof. intros [r s]. unfold env. by destruct (c s). Qed.
Hint Resolve settles_init settles_env : go.

Lemma settles_attempt {A} (c : Eff T A) k : keeps settles c -> (forall r, keeps settles (k r)) -> keeps settles (attempt c k).
Proof.
  intros Hc Hk t. unfold attempt. specialize (Hc t). destruct (c t) as [t' [a|e|]]; [|
    |exact Hc]; (etransitivity; [exact Hc|apply Hk]).
Qed.
Hint Resolve settles_attempt : go.

Ltac settle :=
  repeat first
    [ assumption
    | lazymatch goal with
      | |- keeps _ init => apply settles_init
      | |- keeps _ (env _) => apply settles_env
      | |- keeps _ (attempt _ _) => apply settles_attempt
      | |- keeps _ (st_bind _ _) => apply (keeps_st_bind settles)
      | |- keeps _ (eff_bind _ _) => apply (keeps_eff_bind settles)
      | |- keeps _ (run _) => apply (keeps_run settles)
      | |- keeps _ (st_ret _) => apply (keeps_ret settles)
      | |- keeps _ (gets _) => apply (keeps_gets settles)
      | |- keeps _ (eff_ok _) => apply (keeps_ok settles)
      | |- keeps _ (throw _) => apply (keeps_throw settles)
      | |- keeps _ (match ?x with _ => _ end) => destruct x
      | |- forall _, _ => intros ?
      end ].

Lemma settles_rds_creator topologyUtils : keeps settles (rds_monitorCreator (G := G) topologyUtils).
Proof. unfold rds_monitorCreator. settle. Qed.

Context (topologyUtils : TopologyUtils S C) (monitorCreator : Eff T M) (Hm : keeps settles monitorCreator).

Lemma settles_forceRefreshMonitor v n : keeps settles (forceRefreshMonitor monitorCreator v n).
Proof. unfold forceRefreshMonitor. settle. Qed.
Lemma settles_stored_or_initial hosts : keeps settles (stored_or_initial (G := G) hosts).
Proof. unfold stored_or_initial. settle. Qed.
Lemma settles_getStoredHosts : keeps settles (getStoredHosts (G := G)).
Proof. unfold getStoredHosts. settle. Qed.
Lemma settles_getTopology : keeps settles (getTopology monitorCreator).
Proof.
  pose proof settles_forceRefreshMonitor. pose proof settles_stored_or_initial. unfold getTopology, getStoredHosts. settle; auto.
Qed.
Lemma settles_Refresh : keeps settles (Refresh monitorCreator).
Proof. pose proof settles_getTopology. unfold Refresh. settle. Qed.
Lemma settles_IdentifyConnection conn : keeps settles (IdentifyConnection topologyUtils monitorCreator conn).
Proof.
  pose proof settles_Refresh. pose proof settles_forceRefreshMonitor. unfold IdentifyConnection, ForceRefresh. settle; auto.
Qed.
Lemma settles_ForceRefreshHostListWithTimeout v n : keeps settles (ForceRefreshHostListWithTimeout monitorCreator v n).
Proof. unfold ForceRefreshHostListWithTimeout. settle. Qed.

(** *** The operations of a provider *)

Inductive ProviderOp :=
| OpRefresh
| OpForceRefresh
| OpForceRefreshWithTimeout (shouldVerifyWriter : bool) (timeoutMs : Z)
| OpIdentifyConnection (conn : C)
| OpGetHostRole (conn : C)
| OpGetClusterId
| OpStopMonitor
| OpOutside (f : S -> S).
Definition provider_step (o : ProviderOp) (t : T) : T :=
  match o with
  | OpRefresh => (Refresh monitorCreator t).1
  | OpForceRefresh => (ForceRefresh monitorCreator t).1
  | OpForceRefreshWithTimeout v n => (ForceRefreshHostListWithTimeout monitorCreator v n t).1
  | OpIdentifyConnection conn => (IdentifyConnection topologyUtils monitorCreator conn t).1
  | OpGetHostRole conn => (rds_GetHostRole topologyUtils conn t).1
  | OpGetClusterId => (GetClusterId t).1
  | OpStopMonitor => (StopMonitor t).1
  | OpOutside f => (t.1, f t.2)
  end.

Lemma settles_step o t : settles t (provider_step o t).
Proof.
  destruct o; cbn [provider_step].
  - apply settles_Refresh.
  - apply settles_forceRefreshMonitor.
  - apply settles_ForceRefreshHostListWithTimeout.
  - apply settles_IdentifyConnection.
  - apply settles_env.
  - revert t. change (keeps settles (GetClusterId (G := G))). unfold GetClusterId. settle.
  - revert t. change (keeps settles (StopMonitor (G := G))). unfold StopMonitor. settle.
  - done.
Qed.
Lemma settles_steps ops t : settles t (foldl (fun t o => provider_step o t) t ops).
Proof. revert t. induction ops as [|o ops IH]; intros t; [done|]. cbn. etransitivity; [apply settles_step|apply IH]. Qed.
End rds_facts.

Section global_facts.
Context {S C M : Type} `{ProviderEnv S C M} `{PrepareHost} `{MapRange} (topologyUtils : GlobalClusterTopologyUtils S C).

Lemma settles_initGlobal : keeps settles (initGlobal (S := S)).
Proof.
  unfold initGlobal. apply (keeps_st_bind settles); [apply settles_init|]. intros _ [[r g] s].
  destruct (globalInitialized g); [done|]. by destruct (ParseInstanceTemplates _ _).
Qed.
Lemma settles_global_creator : keeps settles (global_monitorCreator topologyUtils).
Proof.
  unfold global_monitorCreator. apply (keeps_eff_bind settles); [apply settles_initGlobal|]. intros _.
  apply (keeps_st_bind settles); [apply (keeps_gets settles)|]. intros [r g]. apply settles_env.
Qed.
End global_facts.

(** ** Claims *)

Section claims.
Context {S C M : Type} `{ProviderEnv S C M} `{PrepareHost} `{MapRange}.
Local Notation T := (T (S := S) (G := unit)).

(** C22. Whatever is asked of a new provider of a cluster, its settings are
    well formed (an initialized one has hosts, the first of which is the
    initial host, and a template with a place for the instance name) and do
    not change once it is initialized, even when the properties do. *)
Theorem provider_settings_fixed (topologyUtils : ClusterTopologyUtils S C) s ops ops' :
  let run := foldl (fun t o => provider_step topologyUtils (rds_monitorCreator topologyUtils) o t) in
  let t1 := run ((new_rds, tt), s) ops in
  rds_wf (rds t1) /\ (isInitialized (rds t1) = true -> rds (run t1 ops') = rds t1).
Proof.
  cbv zeta. pose proof (settles_steps (G := unit) topologyUtils _ (settles_rds_creator topologyUtils)) as K.
  split; [|apply K]. by apply (K ops ((new_rds, tt), s)).
Qed.

Context (topologyUtils : TopologyUtils S C) (monitorCreator : Eff T M).

(** *** Before the dialect is confirmed *)

(** A provider whose dialect is not confirmed hands out the hosts of the DSN:
    a refresh does what initialising it and reading the stored topology do,
    and nothing else, so no monitor is created and none is asked. *)
Theorem unconfirmed_dialect_starts_no_monitor t :
  (forall id s, IsDialectConfirmed (StoredTopology id s).1 = IsDialectConfirmed s) ->
  isInitialized (rds t) = true -> IsDialectConfirmed t.2 = false ->
  ForceRefresh monitorCreator t = (t, Ok (initialHostList (rds t))) /\
  Refresh monitorCreator t = ((t.1, (StoredTopology (clusterId (rds t)) t.2).1), Ok (initialHostList (rds t))).
Proof.
  intros Hs Hi Hc. destruct t as [[r g] s]. unfold rds in *. cbn in Hi, Hc.
  assert (init ((r, g), s) = (((r, g), s), tt)) as Einit by (unfold init; by rewrite Hi).
  split.
  - unfold ForceRefresh, forceRefreshMonitor, st_bind. rewrite Einit. unfold env, gets. rewrite Hc. reflexivity.
  - unfold Refresh, st_bind, eff_bind, getTopology, getStoredHosts, st_bind. rewrite Einit. cbn beta iota zeta.
    rewrite Einit. cbn. specialize (Hs (clusterId r) s). destruct (StoredTopology (clusterId r) s) as [s' topology].
    cbn in Hs |- *. rewrite Hs, Hc. reflexivity.
Qed.

(** *** A refresh always answers *)

Lemma init_initialized (t : T) : isInitialized (rds t) = true -> init t = (t, tt).
Proof. destruct t as [[r g] s]. unfold init, rds. cbn. by intros ->. Qed.

Lemma stored_or_initial_answers hosts (t : T) :
  initialHostList (rds t) <> [] -> exists t' l b, stored_or_initial hosts t = (t', Ok (l, b)) /\ l <> [].
Proof.
  intros Hl. destruct hosts as [|h hosts]; [|by exists t, (h :: hosts), true].
  unfold stored_or_initial, st_bind, gets. cbn. destruct (initialHostList (rds t)) as [|h hs]; [done|].
  by exists t, (h :: hs), false.
Qed.

(** C21. Refresh of an initialized provider gives a list of hosts that is
    not empty and no error, whether the topology is stored, comes from the
    monitor or from neither. *)
Theorem Refresh_answers t :
  keeps settles monitorCreator ->
  (forall t v n, (forceRefreshMonitor monitorCreator v n t).2 <> Panic) ->
  rds_wf (rds t) -> isInitialized (rds t) = true ->
  exists t' l, Refresh monitorCreator t = (t', Ok l) /\ l <> [].
Proof.
  intros Hm Hp Hwf Hi. assert (Hl : forall t', settles t t' -> initialHostList (rds t') <> []).
  { intros t' [E _]. rewrite (E Hi). unfold rds_wf in Hwf. rewrite Hi in Hwf.
    destruct Hwf as (h & hs & u & -> & _). done. }
  assert (K : exists t' l b, getTopology monitorCreator t = (t', Ok (l, b)) /\ l <> []).
  { unfold getTopology, st_bind. destruct (getStoredHosts t) as [t1 hosts] eqn:E1.
    pose proof (settles_getStoredHosts t) as K1. rewrite E1 in K1. cbn in K1.
    destruct t1 as [r1 s1]. unfold env, gets at 1. destruct (IsDialectConfirmed s1); cbn [negb].
    2:{ eexists _, _, _. split; [reflexivity|]. by apply Hl. }
    destruct hosts as [|h hosts]; [|apply stored_or_initial_answers; by apply Hl].
    unfold attempt. pose proof (settles_forceRefreshMonitor _ Hm false DEFAULT_TOPOLOGY_QUERY_TIMEOUT_MS (r1, s1)) as K2.
    pose proof (Hp (r1, s1) false DEFAULT_TOPOLOGY_QUERY_TIMEOUT_MS) as Hp'.
    destruct (forceRefreshMonitor monitorCreator false _ (r1, s1)) as [t2 [[|h l]|e|]]; cbn in K2, Hp'; [| | |done].
    - apply stored_or_initial_answers, Hl. by transitivity (r1, s1).
    - by exists t2, (h :: l), false.
    - apply stored_or_initial_answers, Hl. by transitivity (r1, s1). }
  destruct K as (t' & l & b & E & Hne). exists t', l. split; [|done].
  unfold Refresh, st_bind. rewrite (init_initialized t Hi). unfold eff_bind. by rewrite E.
Qed.

(** *** Identifying a connection *)

Lemma findHost_named hosts i n h : findHost hosts i n = Some h -> h ∈ hosts /\ named i n h = true.
Proof.
  unfold findHost. destruct (list_find _ hosts) as [[k x]|] eqn:E; [|done]. cbn. intros [= ->].
  apply list_find_Some in E as (E & Hn & _). split; [by eapply list_elem_of_lookup_2|by apply Is_true_true].
Qed.

(** The host a connection is identified with has the id or name that
    the connection reported for its instance and belongs to a topology
    Refresh or ForceRefresh returned. *)
Theorem IdentifyConnection_names_host conn t t' h :
  IdentifyConnection topologyUtils monitorCreator conn t = (t', Ok h) ->
  exists t0 i n t1 t2 hosts,
    env (u_GetInstanceId topologyUtils conn) (init t).1 = (t0, Ok (i, n)) /\ n <> "" /\ named i n h = true /\
    (Refresh monitorCreator t1 = (t2, Ok hosts) \/ ForceRefresh monitorCreator t1 = (t2, Ok hosts)) /\ h ∈ hosts.
Proof.
  unfold IdentifyConnection, st_bind. destruct (init t) as [t0 []]. cbn [fst].
  rewrite eff_bind_eq. destruct (env _ t0) as [t1 [[i n]|e|]] eqn:E0; [|done..].
  destruct (is_empty n) eqn:Hn; [done|]. apply is_empty_false in Hn.
  rewrite eff_bind_eq. destruct (Refresh monitorCreator t1) as [t2 [cached|e|]] eqn:E1; [|done..].
  rewrite eff_bind_eq.
  destruct ((match cached with [] => ForceRefresh monitorCreator | _ => eff_ok cached end) t2) as [t3 [topology|e|]] eqn:E2; [|done..].
  destruct topology as [|h0 topology0] eqn:Et; [done|]. rewrite <-Et in *. clear Et h0 topology0.
  assert (K : exists t1 t2, Refresh monitorCreator t1 = (t2, Ok topology) \/ ForceRefresh monitorCreator t1 = (t2, Ok topology)).
  { destruct cached; [by eauto|]. injection E2 as _ <-. eauto. }
  clear E1 E2. rewrite eff_bind_eq.
  destruct (IsNil (findHost topology i n) && _) eqn:Ef.
  - rewrite eff_bind_eq. destruct (ForceRefresh monitorCreator t3) as [t4 [forced|e|]] eqn:E3; [|done..]. cbn -[IsNil].
    destruct (findHost forced i n) as [x|] eqn:Ex; [|done]. destruct (IsNil (Some x)); [done|]. intros [= _ <-].
    apply findHost_named in Ex as [? ?]. exists t1, i, n, t3, t4, forced. split_and!; auto.
  - cbn -[IsNil]. destruct (findHost topology i n) as [x|] eqn:Ex; [|done]. destruct (IsNil (Some x)); [done|]. intros [= _ <-].
    apply findHost_named in Ex as [? ?]. destruct K as (u1 & u2 & K). exists t1, i, n, u1, u2, topology. split_and!; auto.
Qed.
End claims.

(** *** The properties of the monitor's connections *)

Lemma foldl_insert_range `{MapRange} n (d m : properties) :
  foldl (fun m kv => <[kv.1 := kv.2]> m) m (range n d) = d ∪ m.
Proof.
  assert (K : forall (l : list (string * string)) (m : properties), NoDup l.*1 ->
    foldl (fun m kv => <[kv.1 := kv.2]> m) m l = list_to_map l ∪ m).
  { induction l as [|[k v] l IH]; intros m' Hl; cbn; [by rewrite map_empty_union|].
    apply NoDup_cons in Hl as [Hk Hl]. rewrite (IH _ Hl).
    rewrite <-insert_union_l. symmetry. apply insert_union_r. by apply not_elem_of_list_to_map. }
  rewrite K by (rewrite range_perm; apply NoDup_fst_map_to_list). f_equal.
  rewrite <-(list_to_map_to_list d) at 2. apply list_to_map_proper; [|apply range_perm].
  rewrite range_perm. apply NoDup_fst_map_to_list.
Qed.

(** The monitor connects with the properties of the provider, in which the
    parameters of the driver for the two timeouts of the topology queries, and
    only these, are overwritten. *)
Lemma getMonitoringProps_spec `{MapRange} props resolver :
  getMonitoringProps props resolver =
  CreateProps resolver [
    WithProperty ConnectTimeout (GetVerifiedWrapperPropertyValue (Some props) CLUSTER_TOPOLOGY_CONNECT_TIMEOUT_MS);
    WithProperty SocketTimeout (GetVerifiedWrapperPropertyValue (Some props) CLUSTER_TOPOLOGY_SOCKET_TIMEOUT_MS)] ∪ props.
Proof. apply foldl_insert_range. Qed.

Example mysql_monitoring_props :
  getMonitoringProps {["user" := "admin"; "timeout" := "1s"]} mysqlPropertyResolver =
  <["timeout" := "5s"]> (<["readTimeout" := "5s"]> {["user" := "admin"]}).
Proof. by vm_compute. Qed.

(** ** The static provider *)

Section dsn_facts.
Context {S C M : Type} `{ProviderEnv S C M} `{PrepareHost} `{MapRange}.

Definition dsn_wf (c : DsnHostListProvider) : Prop :=
  if dsn_isInitialized c then hostList c <> [] else hostList c = [].

(** Whatever happened before, a static provider that answers without an error
    gives a list that is not empty, and from then on the same list for ever,
    even when the properties change; one that fails keeps no hosts, so the
    next attempt does not list them twice. *)
Theorem dsn_hosts_stable c s c' s' l err :
  dsn_wf c -> dsn_Refresh (c, s) = ((c', s'), (l, err)) ->
  dsn_wf c' /\ l = hostList c' /\
  (err = Ok tt -> l <> [] /\ forall s2, dsn_Refresh (c', s2) = ((c', s2), (l, Ok tt))) /\
  (err <> Ok tt -> l = []).
Proof.
  unfold dsn_Refresh, st_bind, gets, st_ret, dsn_init, dsn_wf. intros Hwf.
  destruct (dsn_isInitialized c) eqn:Ei.
  - intros [= <- <- <- <-]. rewrite Ei. split_and!; [done|done| |done]. intros _. split; [done|]. done.
  - rewrite Hwf. destruct (GetHostsFromProps _ _) as [hosts|e|]; [|by intros [= <- <- <- <-]; rewrite Ei, Hwf..].
    cbn. destruct hosts as [|h hosts].
    + intros [= <- <- <- <-]. cbn. by rewrite Ei.
    + destruct (SetInitialConnectionHostInfo h s) as [s1 []]. intros [= <- <- <- <-]. cbn. done.
Qed.
End dsn_facts.

(** ** Examples *)

(** An environment whose topologies are those stored, and whose monitors read
    them there; it records the monitors created. *)
Record Bench := mkBench {
  b_props : properties;
  b_confirmed : bool;
  b_initial : option HostInfo;
  b_stored : gmap string (list HostInfo);
  b_created : list (string * properties)
}.
#[export] Instance bench_env : ProviderEnv Bench string string := {|
  ProviderProps := b_props;
  IsDialectConfirmed := b_confirmed;
  TargetResolver _ := mysqlPropertyResolver;
  DialectDefaultPort _ := 3306;
  SetInitialConnectionHostInfo h b := (mkBench (b_props b) (b_confirmed b) (Some h) (b_stored b) (b_created b), tt);
  StoredTopology id b := (b, b_stored b !! id);
  StoreTopology id l b := (mkBench (b_props b) (b_confirmed b) (b_initial b) (<[id := l]> (b_stored b)) (b_created b), tt);
  RunIfAbsent id config b :=
    (mkBench (b_props b) (b_confirmed b) (b_initial b) (b_stored b) (b_created b ++ [(id, m_monitoringProps config)]), Ok id);
  StopAndRemove _ b := (b, tt);
  MonitorForceRefresh id _ _ b := (b, Ok (default [] (b_stored b !! id)))
|}.
(** A connection is the name of its instance. *)
Definition bench_utils : ClusterTopologyUtils Bench string :=
  mkCluster (mkUtils (fun _ => eff_ok true) (fun conn => eff_ok (conn, conn)) (fun _ => st_ret WRITER)) (fun _ _ _ => eff_ok []).
Definition bench_host (id : string) : HostInfo :=
  match Build (SetHostId id (SetHost (id +:+ ".xyz.us-east-2.rds.amazonaws.com") NewHostInfoBuilder)) with
  | Ok h => h | _ => mkHostInfo "" "" 0 "" "" None None 0 0 end.
Definition bench_props : properties :=
  {["host" := "db.cluster-xyz.us-east-2.rds.amazonaws.com"; "port" := "3306"; "user" := "admin"; "clusterId" := "c1"]}.
Definition bench (confirmed : bool) : T (S := Bench) (G := unit) :=
  ((new_rds, tt), mkBench bench_props confirmed None {["c1" := [bench_host "a"; bench_host "b"]]} []).
Definition bench_creator : Eff (T (S := Bench) (G := unit)) string := rds_monitorCreator bench_utils.

Lemma provider_settings_fixed_witness :
  let run := foldl (fun t o => provider_step bench_utils bench_creator o t) in
  let t1 := run (bench true) [OpRefresh] in
  isInitialized (rds t1) = true /\ Host <$> clusterInstanceTemplate (rds t1) = Some "?.xyz.us-east-2.rds.amazonaws.com" /\
  rds_wf (rds t1) /\ rds (run t1 [OpOutside (fun b => mkBench ∅ true None ∅ []); OpIdentifyConnection "a"]) = rds t1.
Proof.
  cbv zeta. split; [by vm_compute|]. split; [by vm_compute|].
  destruct (provider_settings_fixed bench_utils (bench true).2 [OpRefresh]
    [OpOutside (fun b => mkBench ∅ true None ∅ []); OpIdentifyConnection "a"]) as [A B].
  split; [exact A|]. apply B. by vm_compute.
Defined.

Definition ready (confirmed : bool) : T (S := Bench) (G := unit) := (init (bench confirmed)).1.

Lemma unconfirmed_dialect_starts_no_monitor_witness :
  (forall id (s : Bench), IsDialectConfirmed (StoredTopology id s).1 = IsDialectConfirmed s) /\
  isInitialized (rds (ready false)) = true /\ IsDialectConfirmed (ready false).2 = false /\
  ForceRefresh bench_creator (ready false) = (ready false, Ok (initialHostList (rds (ready false)))) /\
  b_created (ready false).2 = [].
Proof.
  assert (H1 : forall id (s : Bench), IsDialectConfirmed (StoredTopology id s).1 = IsDialectConfirmed s) by done.
  assert (H2 : isInitialized (rds (ready false)) = true) by (by vm_compute).
  assert (H3 : IsDialectConfirmed (ready false).2 = false) by (by vm_compute).
  split; [exact H1|]. split; [exact H2|]. split; [exact H3|].
  destruct (unconfirmed_dialect_starts_no_monitor bench_creator (ready false) H1 H2 H3) as [A _].
  split; [exact A|by vm_compute].
Defined.

Lemma bench_never_panics t v n : (forceRefreshMonitor bench_creator v n t).2 <> Panic.
Proof.
  unfold forceRefreshMonitor, st_bind, env, gets, eff_bind. destruct (init t) as [[r s] []].
  destruct (negb (IsDialectConfirmed s)); [done|]. unfold bench_creator, rds_monitorCreator, st_bind.
  destruct (init (r, s)) as [[r' s'] []]. done.
Qed.
Lemma Refresh_answers_witness :
  rds_wf (rds (ready true)) /\ isInitialized (rds (ready true)) = true /\
  exists t' l, Refresh bench_creator (ready true) = (t', Ok l) /\ l <> [] /\ HostId <$> l = ["a"; "b"].
Proof.
  assert (Hi : isInitialized (rds (ready true)) = true) by (by vm_compute).
  assert (Hw : rds_wf (rds (ready true))) by (by apply (settles_init (bench true))).
  split; [exact Hw|]. split; [exact Hi|].
  destruct (Refresh_answers bench_creator (ready true) (settles_rds_creator bench_utils) bench_never_panics Hw Hi) as (t' & l & E & Hl).
  exists t', l. split; [exact E|]. split; [exact Hl|]. vm_compute in E. injection E as _ <-. by vm_compute.
Defined.

Lemma IdentifyConnection_names_host_witness :
  exists t' h, IdentifyConnection bench_utils bench_creator "b" (bench true) = (t', Ok h) /\ HostId h = "b" /\
    exists t0 i n, env (u_GetInstanceId bench_utils "b") (init (bench true)).1 = (t0, Ok (i, n)) /\ named i n h = true.
Proof.
  destruct (IdentifyConnection bench_utils bench_creator "b" (bench true)) as [t' r] eqn:E.
  assert (Hr : exists h, r = Ok h /\ HostId h = "b").
  { assert (K : (IdentifyConnection bench_utils bench_creator "b" (bench true)).2 = Ok (bench_host "b")) by (by vm_compute).
    rewrite E in K. cbn [snd] in K. exists (bench_host "b"). split; [exact K|by vm_compute]. }
  destruct Hr as (h & -> & Hh). exists t', h. split; [reflexivity|]. split; [exact Hh|].
  destruct (IdentifyConnection_names_host bench_utils bench_creator "b" (bench true) t' h E) as (t0 & i & n & t1 & t2 & hosts & A & _ & B & _).
  by exists t0, i, n.
Defined.

Definition dsn_bench : DsnHostListProvider * Bench := (NewDsnHostListProvider bench_props, (bench true).2).
Lemma dsn_hosts_stable_witness :
  exists c s l, dsn_Refresh dsn_bench = ((c, s), (l, Ok tt)) /\ length l = 1%nat /\
    forall s2, dsn_Refresh (c, s2) = ((c, s2), (l, Ok tt)).
Proof.
  destruct (dsn_Refresh dsn_bench) as [[c s] [l err]] eqn:E.
  assert (K : (length l, err) = (1%nat, Ok tt)).
  { transitivity (let '(_, (l, e)) := dsn_Refresh dsn_bench in (length l, e)); [by rewrite E|by vm_compute]. }
  injection K as Hl ->. exists c, s, l. split; [reflexivity|]. split; [exact Hl|].
  destruct (dsn_hosts_stable (NewDsnHostListProvider bench_props) (bench true).2 c s l (Ok tt) eq_refl E) as (_ & _ & A & _).
  by apply A.
Defined.

(** A new provider asked before the dialect is known gives the host of the
    DSN; one whose connection cannot be named fails. *)
Example refresh_before_confirmation :
  match (Refresh bench_creator (bench false)).2 with Ok l => Host <$> l | _ => [] end =
  ["db.cluster-xyz.us-east-2.rds.amazonaws.com"].
Proof. by vm_compute. Qed.
Example unknown_instance :
  (IdentifyConnection bench_utils bench_creator "c" (bench true)).2 = Err unableToGetHostName.
Proof. by vm_compute. Qed.

(** A forced refresh with a timeout does not ask whether the dialect is
    confirmed: it creates the monitor. *)
Example forced_refresh_skips_confirmation :
  b_created (ForceRefreshHostListWithTimeout bench_creator true 1000 (bench false)).1.2 <> [].
Proof. by vm_compute. Qed.

(** When the hosts of the DSN cannot be read, a provider keeps an empty cluster
    id, and its topologies and monitor are those of that id. *)
Example uninitialized_shares_monitor :
  let broken := ((new_rds, tt), mkBench {["host" := "a,b"; "port" := "1,2"; "clusterId" := "c1"]} true None ∅ []) in
  (b_created (Refresh bench_creator broken).1.2).*1 = [""].
Proof. by vm_compute. Qed.
