(* ===== verification/TopologyMonitor.v ===== *)
(** * TopologyMonitor: the monitor that follows the topology of a cluster
    (awssql/driver_infrastructure/cluster_topology_monitor.go).

    The monitor is the state of several goroutines: the main routine
    ([Monitor]), one routine per host while no writer is known
    ([HostMonitoringRoutine]), callers that wait for an update
    ([ForceRefresh]) and the handler of the reset event ([reset]). Each
    goroutine has a program counter, and [exec] runs one of its actions; an
    action carries what the code gets from outside: the answer of a connection
    attempt, of a query or of the clock. An action holds at most one exchange
    with the environment, and the accesses to the shared fields around it, so
    the goroutines interleave between any two of them. [exec] gives [None]
    when the goroutine is not there: it waits, or it has ended.

    Hosts are shared by reference (a routine assigns the availability of its
    host), so they live in a heap; a stored topology has a number that stands
    for the address [waitForTopologyUpdate] compares. *)

From S2P Require Import Prelude.
From S2P Require Import HostInfo.
From S2P Require Import Effects.
From S2P Require Import RdsUtils.
From S2P Require Import TopologyUtils.
From Stdlib Require Import QArith_base.
Open Scope Z_scope.

Definition highRefreshPeriodAfterPanicNano : Z := 30 * Second.
Definition stableTopologiesDurationNano : Z := 15 * Second.
Definition initialBackoffMs : Z := 100.
Definition maxBackoffMs : Z := 10000.

(** The delay of a routine whose connection attempt failed. [rand] is the
    number [rand.Float64] drew, a multiple of 2^-53 below one; the products are
    exact here, where the code rounds them to a [float64]. *)
Definition calculateBackoffWithJitter (rand : Z) (attempt : Z) : Z :=
  let exp := Z.min attempt 6 in
  let backoff := Z.min (initialBackoffMs * (if exp =? -1 then 1 else 2 ^ exp)) maxBackoffMs in
  (2 * (backoff * (2 ^ 53 + rand)) + 2 ^ 54) / (2 * 2 ^ 54) * Millisecond.

(** ** State *)

Definition mloc : Type := nat.

Inductive MonitorEvent (C : Type) :=
| ConnClosed (c : C)
| AnsweredWriter (c : C)
| AnsweredRole (c : C) (role : string)
| MarkedAvailable (host : mloc).
Arguments ConnClosed {C} _.
Arguments AnsweredWriter {C} _.
Arguments AnsweredRole {C} _ _.
Arguments MarkedAvailable {C} _.

Inductive RoutinePc (C : Type) :=
| RTop                (* the test of the loop *)
| RConnect            (* ForceConnect *)
| RAsk (c : C)        (* IsWriterInstance *)
| RRole (c : C)       (* GetHostRole *)
| RClaim (c : C)      (* the swap of hostRoutinesWriterConn *)
| RPublish (c : C)    (* fetchTopologyAndUpdateCache on the claimed connection *)
| RInform             (* the writer host and the stop of the routines *)
| RReader (o : option C) (* not a writer: which connection reads the topology *)
| RFetch (c : C)      (* readerRoutineFetchTopology *)
| RCycle              (* the end of the loop *)
| RExit (o : option C) (* the deferred function *)
| RDone.
Arguments RTop {C}.
Arguments RConnect {C}.
Arguments RAsk {C} _.
Arguments RRole {C} _.
Arguments RClaim {C} _.
Arguments RPublish {C} _.
Arguments RInform {C}.
Arguments RReader {C} _.
Arguments RFetch {C} _.
Arguments RCycle {C}.
Arguments RExit {C} _.
Arguments RDone {C}.

(** [r_conn] is the variable [conn] of [run]. *)
Record Routine (C : Type) := mkRoutine {
  r_hostInfo : mloc;
  r_writerHostInfo : option mloc;
  r_writerChanged : bool;
  r_connectionAttempts : Z;
  r_conn : option C;
  r_updateTopology : bool;
  r_pc : RoutinePc C
}.
Arguments mkRoutine {C} _ _ _ _ _ _ _.
Arguments r_hostInfo {C} _.
Arguments r_writerHostInfo {C} _.
Arguments r_writerChanged {C} _.
Arguments r_connectionAttempts {C} _.
Arguments r_conn {C} _.
Arguments r_updateTopology {C} _.
Arguments r_pc {C} _.
#[export] Instance Routine_eta C : Eta (Routine C) := fun r =>
  mkRoutine (r_hostInfo r) (r_writerHostInfo r) (r_writerChanged r) (r_connectionAttempts r) (r_conn r) (r_updateTopology r) (r_pc r).

Inductive MainPc (C : Type) :=
| MTop                       (* the test of the loop, and the mode *)
| MStart                     (* panic mode without routines *)
| MOpen                      (* openAnyConnectionAndUpdateTopology *)
| MOpened (c : C)            (* the swap of monitoringConn *)
| MAsk (c : C)               (* IsWriterInstance *)
| MFetchAny                  (* the query of openAny... *)
| MGiveUp                    (* no topology: close the connection *)
| MSpawn (hosts : list mloc) (* the routines of the hosts *)
| MWatch                     (* panic mode with routines *)
| MPick (c : C) (host : mloc) (* the writer connection of a routine is taken *)
| MPicked                    (* and known to be verified *)
| MWait (again : bool)       (* hostRoutinesWg.Wait, then the next round or the query *)
| MCheck                     (* checkForStableReaderTopologies *)
| MRegular
| MFetch                     (* the query of the regular mode *)
| MRate                      (* the end of the high refresh rate *)
| MDelayStart (useHighRefreshRate : bool)
| MDelay (until : Z)
| MStopped.
Arguments MTop {C}.
Arguments MStart {C}.
Arguments MOpen {C}.
Arguments MOpened {C} _.
Arguments MAsk {C} _.
Arguments MFetchAny {C}.
Arguments MGiveUp {C}.
Arguments MSpawn {C} _.
Arguments MWatch {C}.
Arguments MPick {C} _ _.
Arguments MPicked {C}.
Arguments MWait {C} _.
Arguments MCheck {C}.
Arguments MRegular {C}.
Arguments MFetch {C}.
Arguments MRate {C}.
Arguments MDelayStart {C} _.
Arguments MDelay {C} _.
Arguments MStopped {C}.

(** A call of [ForceRefresh]; the result is set when it returns. *)
Record Waiter := mkWaiter {
  w_verifyWriter : bool;
  w_currentTopology : option nat;
  w_end : Z;
  w_result : option (Result (option (list mloc)))
}.

(** [allRoutines] are the routines that were started, the ended ones as well;
    [hostRoutines] is the map of the code, from host names. [opened] are the
    connections that were opened so far. *)
Record Monitor (C : Type) := mkMonitor {
  heap : gmap mloc HostInfo;
  main_pc : MainPc C;
  isVerifiedWriterConn : bool;
  highRefreshRateEndTime : Z;
  hostRoutines : gmap string nat;
  allRoutines : gmap nat (Routine C);
  stop : bool;
  requestToUpdateTopology : bool;
  hostRoutinesStop : bool;
  monitoringConn : option C;
  hostRoutinesWriterConn : option C;
  hostRoutinesReaderConn : option C;
  hostRoutinesLatestTopology : list mloc;
  hostRoutinesWriterHostInfo : option mloc;
  writerHostInfo : option mloc;
  readerTopologiesById : gmap string (list mloc);
  completedOneCycle : gmap string bool;
  stableTopologiesStart : Z;
  storedTopology : option (nat * list mloc);
  nextTopology : nat;
  waiters : gmap nat Waiter;
  resetting : bool;
  opened : list C;
  events : list (MonitorEvent C)
}.
Arguments mkMonitor {C} _ _ _ _ _ _ _ _ _ _ _ _ _ _ _ _ _ _ _ _ _ _ _ _.
Arguments heap {C} _.
Arguments main_pc {C} _.
Arguments isVerifiedWriterConn {C} _.
Arguments highRefreshRateEndTime {C} _.
Arguments hostRoutines {C} _.
Arguments allRoutines {C} _.
Arguments stop {C} _.
Arguments requestToUpdateTopology {C} _.
Arguments hostRoutinesStop {C} _.
Arguments monitoringConn {C} _.
Arguments hostRoutinesWriterConn {C} _.
Arguments hostRoutinesReaderConn {C} _.
Arguments hostRoutinesLatestTopology {C} _.
Arguments hostRoutinesWriterHostInfo {C} _.
Arguments writerHostInfo {C} _.
Arguments readerTopologiesById {C} _.
Arguments completedOneCycle {C} _.
Arguments stableTopologiesStart {C} _.
Arguments storedTopology {C} _.
Arguments nextTopology {C} _.
Arguments waiters {C} _.
Arguments resetting {C} _.
Arguments opened {C} _.
Arguments events {C} _.
#[export] Instance Monitor_eta C : Eta (Monitor C) := fun m =>
  mkMonitor (heap m) (main_pc m) (isVerifiedWriterConn m) (highRefreshRateEndTime m) (hostRoutines m) (allRoutines m) (stop m)
    (requestToUpdateTopology m) (hostRoutinesStop m) (monitoringConn m) (hostRoutinesWriterConn m) (hostRoutinesReaderConn m)
    (hostRoutinesLatestTopology m) (hostRoutinesWriterHostInfo m) (writerHostInfo m) (readerTopologiesById m)
    (completedOneCycle m) (stableTopologiesStart m) (storedTopology m) (nextTopology m) (waiters m) (resetting m) (opened m) (events m).

(** [Start] on a fresh monitor. *)
Definition NewMonitor {C} (heap : gmap mloc HostInfo) : Monitor C :=
  mkMonitor heap MTop false 0 ∅ ∅ false false false None None None [] None None ∅ ∅ 0 None 0 ∅ false [] [].

(** ** What the environment answers *)

Inductive ConnectAnswer (C : Type) := Connected (c : C) | NoConnection | NetworkError | LoginError | OtherError.
Arguments Connected {C} _.
Arguments NoConnection {C}.
Arguments NetworkError {C}.
Arguments LoginError {C}.
Arguments OtherError {C}.

(** [IAsk] holds the answer of [IsWriterInstance], and what [GetInstanceId]
    and [GetInstanceTemplate] answer when they are asked after it. *)
Inductive Input (C : Type) :=
| INone
| IConnect (a : ConnectAnswer C)
| IAsk (a : Result bool) (ids : string * string) (template : option HostInfo)
| IRole (role : string)
| IQuery (a : Result (list HostInfo))
| INow (now : Z)
| IDelay (now : Z) (notified : bool).
Arguments INone {C}.
Arguments IConnect {C} _.
Arguments IAsk {C} _ _ _.
Arguments IRole {C} _.
Arguments IQuery {C} _.
Arguments INow {C} _.
Arguments IDelay {C} _ _.

Section Monitor.
Context {C : Type} `{EqDecision C} `{MapRange} `{PrepareHost}.
(** The fields that are set by the constructor. *)
Context (initialHostInfo : mloc) (clusterInstanceTemplate : option HostInfo) (highRefreshRateNano refreshRateNano : Z).
Local Abbreviation M := (Monitor C).

#[export] Instance MonitorEvent_eq_dec : EqDecision (MonitorEvent C).
Proof. solve_decision. Defined.

(** ** Parts the goroutines share *)

Definition emit (e : MonitorEvent C) (m : M) : M := m <| events := events m ++ [e] |>.
(** A connection the monitor closed is closed. *)
Definition closeConnection (conn : option C) (m : M) : M :=
  match conn with
  | Some c => if bool_decide (ConnClosed c ∈ events m) then m else emit (ConnClosed c) m
  | None => m
  end.
Definition alloc_host (h : HostInfo) (m : M) : M * mloc :=
  let l := fresh (dom (heap m)) in (m <| heap := <[l := h]> (heap m) |>, l).
Fixpoint alloc_hosts (hosts : list HostInfo) (m : M) : M * list mloc :=
  match hosts with
  | [] => (m, [])
  | h :: hosts => let '(m, l) := alloc_host h m in let '(m, ls) := alloc_hosts hosts m in (m, l :: ls)
  end.
Definition hosts_at (m : M) (hosts : list mloc) : Topology := map (fun l => heap m !! l) hosts.
Definition hostId_at (m : M) (l : mloc) : string := from_option HostId "" (heap m !! l).
Definition host_name_at (m : M) (l : mloc) : string := from_option Host "" (heap m !! l).

Definition getStoredHosts (m : M) : list mloc := from_option snd [] (storedTopology m).
Definition storedTopologyNo (m : M) : option nat := fst <$> storedTopology m.

Definition updateTopologyCache (hosts : list mloc) (m : M) : M :=
  m <| storedTopology := Some (nextTopology m, hosts) |> <| nextTopology := S (nextTopology m) |> <| requestToUpdateTopology := false |>.

(** The build fails on an empty name only, which no host of a topology has. *)
Definition clone_host (h : HostInfo) (availability : string) : HostInfo :=
  match Build (SetAvailability availability (CopyFrom (Some h) NewHostInfoBuilder)) with Ok c => c | _ => h end.
Definition cloned_host (m : M) (l : mloc) : HostInfo :=
  let h := default (mkHostInfo "" "" 0 "" "" None None 0 0) (heap m !! l) in
  clone_host h (if bool_decide (is_Some (readerTopologiesById m !! HostId h)) then AVAILABLE else UNAVAILABLE).
Definition updateHostsAvailability (hosts : list mloc) (m : M) : M * list mloc := alloc_hosts (map (cloned_host m) hosts) m.

(** [fetchTopologyAndUpdateCache] on a connection that is not nil. *)
Definition fetchTopologyAndUpdateCache (a : Result (list HostInfo)) (m : M) : option (M * list mloc) :=
  match a with
  | Ok [] | Err _ => Some (m, [])
  | Ok hosts => let '(m, ls) := alloc_hosts hosts m in Some (updateTopologyCache ls m, ls)
  | Panic => None
  end.

Definition isInPanicMode (m : M) : bool := bool_decide (monitoringConn m = None) || negb (isVerifiedWriterConn m).

(** ** The routine of a host *)

Definition set_routine (id : nat) (r : Routine C) (m : M) : M := m <| allRoutines := <[id := r]> (allRoutines m) |>.
Definition set_pc (pc : RoutinePc C) (r : Routine C) : Routine C := r <| r_pc := pc |>.
Definition completed (r : Routine C) (m : M) : M :=
  m <| completedOneCycle := <[hostId_at m (r_hostInfo r) := true]> (completedOneCycle m) |>.
Definition forget_topology (r : Routine C) (m : M) : M :=
  m <| readerTopologiesById := delete (hostId_at m (r_hostInfo r)) (readerTopologiesById m) |>.

(** The host of the topology that is its writer. *)
Definition writer_in (m : M) (hosts : list mloc) : option HostInfo := GetWriter (hosts_at m hosts).
Definition writer_differs (m : M) (hosts : list mloc) (writer : option mloc) : bool :=
  let latest := writer_in m hosts in
  let known := writer ≫= fun l => heap m !! l in
  negb (IsNil latest) && negb (IsNil known) && negb (bool_decide (GetHostAndPort latest = GetHostAndPort known)).
Definition share_topology (hosts : list mloc) (m : M) : M :=
  let '(m, cloned) := updateHostsAvailability hosts m in updateTopologyCache cloned m.
Definition readerRoutineFetchTopology (a : Result (list HostInfo)) (r : Routine C) (m : M) : option (M * Routine C) :=
  match a with
  | Panic => None
  | Err _ | Ok [] => Some (m, r)
  | Ok hosts =>
      let '(m, ls) := alloc_hosts hosts m in
      let m := m <| hostRoutinesLatestTopology := ls |>
                 <| readerTopologiesById := <[hostId_at m (r_hostInfo r) := ls]> (readerTopologiesById m) |> in
      if r_writerChanged r then Some (share_topology ls m, r)
      else if writer_differs m ls (r_writerHostInfo r) then Some (share_topology ls m, r <| r_writerChanged := true |>)
      else Some (m, r)
  end.

Definition fetch_pc (o : option C) : RoutinePc C := match o with Some c => RFetch c | None => RCycle end.
Definition routine_connect (id : nat) (r : Routine C) (a : ConnectAnswer C) (m : M) : option M :=
  match a with
  | Connected c =>
      if bool_decide (c ∈ opened m) then None
      else Some (set_routine id (r <| r_conn := Some c |> <| r_connectionAttempts := 0 |> <| r_pc := RAsk c |>)
                   (emit (MarkedAvailable (r_hostInfo r)) (m <| opened := c :: opened m |>)))
  | NoConnection => Some (set_routine id (r <| r_connectionAttempts := 0 |> <| r_pc := RCycle |>) (emit (MarkedAvailable (r_hostInfo r)) m))
  | NetworkError => Some (set_routine id (set_pc RTop r) (forget_topology r (completed r m)))
  | LoginError => Some (set_routine id (set_pc (RExit None) r) m)
  | OtherError =>
      Some (set_routine id (r <| r_connectionAttempts := r_connectionAttempts r + 1 |> <| r_pc := RTop |>) (forget_topology r (completed r m)))
  end.
Definition routine_ask (id : nat) (r : Routine C) (c : C) (a : Result bool) (m : M) : option M :=
  match a with
  | Ok true => Some (set_routine id (set_pc (RRole c) r) (emit (AnsweredWriter c) m))
  | Ok false => Some (set_routine id (set_pc (RReader (Some c)) r) m)
  | Err _ => Some (set_routine id (r <| r_conn := None |> <| r_pc := RReader None |>) (forget_topology r (completed r (closeConnection (Some c) m))))
  | Panic => None
  end.
Definition routine_claim (id : nat) (r : Routine C) (c : C) (m : M) : M :=
  match hostRoutinesWriterConn m with
  | None => set_routine id (set_pc (RPublish c) r) (m <| hostRoutinesWriterConn := Some c |>)
  | Some _ => set_routine id (r <| r_conn := None |> <| r_pc := RExit None |>) (closeConnection (Some c) m)
  end.
Definition routine_inform (id : nat) (r : Routine C) (m : M) : M :=
  set_routine id (r <| r_conn := None |> <| r_pc := RExit None |>)
    (m <| heap := alter (with_availability AVAILABLE) (r_hostInfo r) (heap m) |>
       <| hostRoutinesWriterHostInfo := Some (r_hostInfo r) |> <| hostRoutinesStop := true |>).
(** A nil connection passes the swap as well: both containers are empty. *)
Definition routine_reader (id : nat) (r : Routine C) (o : option C) (m : M) : M :=
  if bool_decide (hostRoutinesWriterConn m = None) then
    if negb (r_updateTopology r) && bool_decide (hostRoutinesReaderConn m = None) then
      set_routine id (r <| r_updateTopology := true |> <| r_pc := fetch_pc o |>) (m <| hostRoutinesReaderConn := o |>)
    else set_routine id (set_pc (fetch_pc o) r) m
  else set_routine id (set_pc RCycle r) m.

Definition exec_routine (id : nat) (r : Routine C) (i : Input C) (m : M) : option M :=
  match r_pc r, i with
  | RTop, INone =>
      Some (set_routine id (set_pc (if hostRoutinesStop m then RExit (r_conn r)
                                    else match r_conn r with Some c => RAsk c | None => RConnect end) r) m)
  | RConnect, IConnect a => routine_connect id r a m
  | RAsk c, IAsk a _ _ => routine_ask id r c a m
  | RRole c, IRole role =>
      Some (set_routine id (set_pc (if bool_decide (role = WRITER) then RClaim c else RReader (Some c)) r) (emit (AnsweredRole c role) m))
  | RClaim c, INone => Some (routine_claim id r c m)
  | RPublish c, IQuery a => '(m, _) ← fetchTopologyAndUpdateCache a m; Some (set_routine id (set_pc RInform r) m)
  | RInform, INone => Some (routine_inform id r m)
  | RReader o, INone => Some (routine_reader id r o m)
  | RFetch c, IQuery a => '(m, r) ← readerRoutineFetchTopology a r m; Some (set_routine id (set_pc RCycle r) m)
  | RCycle, INone => Some (set_routine id (set_pc RTop r) (completed r m))
  | RExit o, INone => Some (set_routine id (set_pc RDone r) (closeConnection o (forget_topology r (completed r m))))
  | _, _ => None
  end.

(** ** The main routine *)

Definition set_main (pc : MainPc C) (m : M) : M := m <| main_pc := pc |>.
Definition is_done (r : Routine C) : bool := match r_pc r with RDone => true | _ => false end.
Definition all_done (m : M) : bool := forallb (fun e => is_done e.2) (map_to_list (allRoutines m)).
Definition clear_routines (m : M) : M :=
  m <| hostRoutines := ∅ |> <| stableTopologiesStart := 0 |> <| readerTopologiesById := ∅ |> <| completedOneCycle := ∅ |>.

Definition spawn (m : M) (l : mloc) : M :=
  let id := fresh (dom (allRoutines m)) in
  m <| allRoutines := <[id := mkRoutine l (writerHostInfo m) false 0 None false RTop]> (allRoutines m) |>
    <| hostRoutines := <[host_name_at m l := id]> (hostRoutines m) |>.
Definition spawn_missing (m : M) (l : mloc) : M :=
  if bool_decide (is_Some (hostRoutines m !! host_name_at m l)) then m else spawn m l.

Definition main_top (m : M) : M :=
  if stop m then set_main MStopped m
  else if isInPanicMode m then set_main (if bool_decide (hostRoutines m = ∅) then MStart else MWatch) m
  else set_main MRegular m.
Definition main_start (m : M) : M :=
  let m := m <| hostRoutinesStop := false |> <| hostRoutinesWriterConn := None |> <| hostRoutinesReaderConn := None |>
             <| hostRoutinesWriterHostInfo := None |> <| hostRoutinesLatestTopology := [] |> in
  set_main (match getStoredHosts m with [] => MOpen | hosts => MSpawn hosts end) m.

(** *** openAnyConnectionAndUpdateTopology *)

Definition main_open (i : Input C) (m : M) : option M :=
  match monitoringConn m, i with
  | Some _, INone => Some (set_main MFetchAny m)
  | None, IConnect (Connected c) =>
      if bool_decide (c ∈ opened m) then None else Some (set_main (MOpened c) (m <| opened := c :: opened m |>))
  | None, IConnect _ => Some (set_main (MSpawn []) m)
  | _, _ => None
  end.
Definition main_opened (c : C) (m : M) : M :=
  match monitoringConn m with
  | None => set_main (MAsk c) (m <| monitoringConn := Some c |>)
  | Some _ => set_main MFetchAny (closeConnection (Some c) m)
  end.
(** The host of the writer: the initial host when it is an instance, or the
    host the instance id names. A panic ends the program. *)
Definition writer_of (ids : string * string) (template : option HostInfo) (m : M) : option M :=
  if IsRdsInstance (host_name_at m initialHostInfo) then Some (m <| writerHostInfo := Some initialHostInfo |>)
  else if is_empty ids.1 && is_empty ids.2 then Some m
  else match CreateHost ids.1 ids.2 true 0 zero_time (heap m !! initialHostInfo)
               (match template with Some t => Some t | None => clusterInstanceTemplate end) with
       | Ok (Some h) => let '(m, l) := alloc_host h m in Some (m <| writerHostInfo := Some l |>)
       | Ok None => Some (m <| writerHostInfo := None |>)
       | _ => None
       end.
Definition main_ask (c : C) (a : Result bool) (ids : string * string) (template : option HostInfo) (m : M) : option M :=
  match a with
  | Ok true => set_main MFetchAny <$> writer_of ids template (emit (AnsweredWriter c) (m <| isVerifiedWriterConn := true |>))
  | Ok false | Err _ => Some (set_main MFetchAny m)
  | Panic => None
  end.
Definition main_fetch_any (i : Input C) (m : M) : option M :=
  match monitoringConn m, i with
  | None, INone => Some (set_main MGiveUp m)
  | Some _, IQuery a => '(m, hosts) ← fetchTopologyAndUpdateCache a m;
                        Some (set_main (match hosts with [] => MGiveUp | _ => MSpawn hosts end) m)
  | _, _ => None
  end.
Definition abandon (m : M) : M :=
  closeConnection (monitoringConn m) (m <| monitoringConn := None |> <| isVerifiedWriterConn := false |> <| writerHostInfo := None |>).

(** *** Panic mode *)

Definition main_spawn (hosts : list mloc) (m : M) : M :=
  set_main MCheck (if isVerifiedWriterConn m then m else foldl spawn m hosts).
Definition main_watch (m : M) : M :=
  match hostRoutinesWriterConn m, hostRoutinesWriterHostInfo m with
  | Some c, Some h =>
      if IsNil (heap m !! h) then set_main MCheck (if hostRoutinesStop m then m else foldl spawn_missing m (hostRoutinesLatestTopology m))
      else set_main (MPick c h) m
  | _, _ => set_main MCheck (if hostRoutinesStop m then m else foldl spawn_missing m (hostRoutinesLatestTopology m))
  end.
Definition main_pick (c : C) (h : mloc) (m : M) : M :=
  set_main MPicked (closeConnection (monitoringConn m) (m <| monitoringConn := Some c |> <| writerHostInfo := Some h |>)).
Definition main_picked (now : Z) (m : M) : M :=
  set_main (MWait true)
    (m <| isVerifiedWriterConn := true |> <| highRefreshRateEndTime := (now + highRefreshPeriodAfterPanicNano) / Second |>
       <| hostRoutinesStop := true |>).
Definition main_wait (again : bool) (m : M) : option M :=
  if all_done m then Some (set_main (if again then MTop else MFetch) (clear_routines m)) else None.

(** *** Topologies of the readers *)

Definition key_at (m : M) (hosts : list mloc) : string := match Key (Some (hosts_at m hosts)) with Ok k => k | _ => "" end.
Definition has_completed (m : M) (l : mloc) : bool := default false (completedOneCycle m !! hostId_at m l).
Definition same_keys (m : M) (tick : nat) : bool :=
  match range tick (readerTopologiesById m) with
  | [] => false
  | (_, first) :: rest => forallb (fun e => bool_decide (key_at m e.2 = key_at m first)) rest
  end.
Definition readers_agree (m : M) (tick : nat) : bool :=
  negb (bool_decide (getStoredHosts m = [])) && forallb (has_completed m) (getStoredHosts m) && same_keys m tick.
Definition checkForStableReaderTopologies (tick : nat) (now : Z) (m : M) : M :=
  if readers_agree m tick then
    let start := if stableTopologiesStart m =? 0 then now else stableTopologiesStart m in
    let m := m <| stableTopologiesStart := start |> in
    if start + stableTopologiesDurationNano <? now then
      let m := m <| stableTopologiesStart := 0 |> in
      share_topology (match range (S tick) (readerTopologiesById m) with (_, t) :: _ => t | [] => [] end) m
    else m
  else m <| stableTopologiesStart := 0 |>.

(** *** Regular mode and the delay *)

Definition main_regular (m : M) : M :=
  if bool_decide (hostRoutines m = ∅) then set_main MFetch m else set_main (MWait false) (m <| hostRoutinesStop := true |>).
Definition lose_connection (m : M) : M :=
  set_main MTop (closeConnection (monitoringConn m) (m <| monitoringConn := None |> <| isVerifiedWriterConn := false |> <| writerHostInfo := None |>)).
Definition main_fetch (i : Input C) (m : M) : option M :=
  match monitoringConn m, i with
  | None, INone => Some (lose_connection m)
  | Some _, IQuery a => '(m, hosts) ← fetchTopologyAndUpdateCache a m;
                        Some (match hosts with [] => lose_connection m | _ => set_main MRate m end)
  | _, _ => None
  end.
Definition main_rate (now : Z) (m : M) : M :=
  set_main (MDelayStart false)
    (if (0 <? highRefreshRateEndTime m) && (highRefreshRateEndTime m <? now / Second) then m <| highRefreshRateEndTime := 0 |> else m).
Definition delay_nanos (useHighRefreshRate : bool) (now : Z) (m : M) : Z :=
  if useHighRefreshRate || ((0 <? highRefreshRateEndTime m) && (now / Second <? highRefreshRateEndTime m)) || requestToUpdateTopology m
  then highRefreshRateNano else refreshRateNano.
Definition main_delay (until now : Z) (notified : bool) (m : M) : M :=
  set_main (if negb notified && (now <? until) && negb (stop m) && negb (requestToUpdateTopology m) then MDelay until else MTop) m.

Definition exec_main (tick : nat) (i : Input C) (m : M) : option M :=
  match main_pc m, i with
  | MTop, INone => Some (main_top m)
  | MStart, INone => Some (main_start m)
  | MOpen, i => main_open i m
  | MOpened c, INone => Some (main_opened c m)
  | MAsk c, IAsk a ids template => main_ask c a ids template m
  | MFetchAny, i => main_fetch_any i m
  | MGiveUp, INone => Some (set_main (MSpawn []) (abandon m))
  | MSpawn hosts, INone => Some (main_spawn hosts m)
  | MWatch, INone => Some (main_watch m)
  | MPick c h, INone => Some (main_pick c h m)
  | MPicked, INow now => Some (main_picked now m)
  | MWait again, INone => main_wait again m
  | MCheck, INow now => Some (set_main (MDelayStart true) (checkForStableReaderTopologies tick now m))
  | MRegular, INone => Some (main_regular m)
  | MFetch, i => main_fetch i m
  | MRate, INow now => Some (main_rate now m)
  | MDelayStart b, INow now => Some (set_main (MDelay (now + delay_nanos b now m)) m)
  | MDelay until, IDelay now notified => Some (main_delay until now notified m)
  | _, _ => None
  end.

(** ** Callers of [ForceRefresh] *)

Definition set_waiter (id : nat) (w : Waiter) (m : M) : M := m <| waiters := <[id := w]> (waiters m) |>.
Definition drop_connection (m : M) : M :=
  closeConnection (monitoringConn m) (m <| monitoringConn := None |> <| isVerifiedWriterConn := false |>).
Definition start_refresh (id : nat) (verifyWriter : bool) (timeoutMs now : Z) (m : M) : option M :=
  match waiters m !! id with
  | Some _ => None
  | None =>
      let m := if verifyWriter then drop_connection m else m in
      let current := storedTopologyNo m in
      let m := m <| requestToUpdateTopology := true |> in
      Some (set_waiter id (mkWaiter verifyWriter current (now + timeoutMs * Millisecond)
                             (if timeoutMs =? 0 then Some (Ok (snd <$> storedTopology m)) else None)) m)
  end.
Definition topologyNotUpdated : go_error := AwsError TimeoutErrorType "ClusterTopologyMonitorImpl.topologyNotUpdated" [].
(** A turn of the loop; [now1] is read in it and [now2] after it. *)
Definition poll (now1 now2 : Z) (m : M) (w : Waiter) : Waiter :=
  let topologyChanged := negb (bool_decide (w_currentTopology w = storedTopologyNo m)) in
  if (topologyChanged && (negb (w_verifyWriter w) || isVerifiedWriterConn m)) || (w_end w <? now1) then
    mkWaiter (w_verifyWriter w) (w_currentTopology w) (w_end w)
      (Some (if w_end w <? now2 then Err topologyNotUpdated else Ok (snd <$> storedTopology m)))
  else w.
Definition poll_refresh (id : nat) (now1 now2 : Z) (m : M) : option M :=
  match waiters m !! id with
  | Some w => match w_result w with None => Some (set_waiter id (poll now1 now2 m w) m) | Some _ => None end
  | None => None
  end.

(** ** The reset event and the end *)

Definition finish_reset (m : M) : M :=
  let m := m <| hostRoutines := ∅ |> in
  let m := closeConnection (hostRoutinesReaderConn m) (closeConnection (hostRoutinesWriterConn m) m) in
  let m := m <| hostRoutinesWriterConn := None |> <| hostRoutinesReaderConn := None |> <| hostRoutinesStop := false |>
             <| hostRoutinesWriterHostInfo := None |> <| hostRoutinesLatestTopology := [] |> in
  let m := closeConnection (monitoringConn m) (clear_routines m) in
  m <| monitoringConn := None |> <| isVerifiedWriterConn := false |> <| writerHostInfo := None |> <| highRefreshRateEndTime := 0 |>
    <| storedTopology := None |> <| requestToUpdateTopology := true |> <| resetting := false |>.
Definition Close (m : M) : M := closeConnection (monitoringConn m) (m <| hostRoutines := ∅ |>).

Inductive Action :=
| Main (tick : nat) (i : Input C)
| HostRoutine (id : nat) (i : Input C)
| ForceRefresh (id : nat) (verifyTopology : bool) (timeoutMs now : Z)
| Poll (id : nat) (now1 now2 : Z)
| ResetBegin
| ResetEnd
| Expire (* the storage service drops the topology *)
| Stop
| StopEnd.

Definition exec (a : Action) (m : M) : option M :=
  match a with
  | Main tick i => exec_main tick i m
  | HostRoutine id i => match allRoutines m !! id with Some r => exec_routine id r i m | None => None end
  | ForceRefresh id verify timeoutMs now => start_refresh id verify timeoutMs now m
  | Poll id now1 now2 => poll_refresh id now1 now2 m
  | ResetBegin => if resetting m then None else Some (m <| resetting := true |> <| hostRoutinesStop := true |>)
  | ResetEnd => if resetting m && all_done m then Some (finish_reset m) else None
  | Expire => Some (m <| storedTopology := None |>)
  | Stop => Some (m <| stop := true |> <| hostRoutinesStop := true |>)
  | StopEnd => match main_pc m with MStopped => if all_done m then Some (Close m) else None | _ => None end
  end.
Definition mon_step (m m' : M) : Prop := exists a, exec a m = Some m'.
Definition run_actions (l : list Action) (m : M) : option M := foldl (fun m a => m ≫= exec a) (Some m) l.
(** ** Who holds a connection *)

(** The connection a routine holds and has not claimed for the monitor. *)
Definition unclaimed (r : Routine C) : option C :=
  match r_pc r with RPublish _ | RInform | RDone => None | _ => r_conn r end.
Definition main_conn (pc : MainPc C) : option C := match pc with MOpened c | MAsk c | MPick c _ => Some c | _ => None end.
(** The connections of the monitor itself. *)
Definition shared (m : M) (c : C) : Prop :=
  monitoringConn m = Some c \/ hostRoutinesWriterConn m = Some c \/ main_conn (main_pc m) = Some c.
(** A connection whose server said twice that it is the writer. *)
Definition verified (m : M) (c : C) : Prop := AnsweredWriter c ∈ events m /\ AnsweredRole c WRITER ∈ events m.

Definition routine_ok (m : M) (r : Routine C) : Prop :=
  match r_pc r with
  | RTop | RDone | RInform | RCycle => True
  | RConnect => r_conn r = None
  | RAsk c | RFetch c => r_conn r = Some c
  | RRole c => r_conn r = Some c /\ AnsweredWriter c ∈ events m
  | RClaim c | RPublish c => r_conn r = Some c /\ verified m c
  | RReader o | RExit o => o = r_conn r
  end.

Record Inv (m : M) : Prop := {
  inv_ok : forall id r, allRoutines m !! id = Some r -> routine_ok m r;
  inv_alone : forall id r c, allRoutines m !! id = Some r -> unclaimed r = Some c ->
    c ∈ opened m /\ ~ shared m c /\ forall id' r', id' <> id -> allRoutines m !! id' = Some r' -> unclaimed r' <> Some c;
  inv_opened : forall c, shared m c -> c ∈ opened m;
  inv_writer : forall c, hostRoutinesWriterConn m = Some c -> verified m c;
  inv_pick : forall c h, main_pc m = MPick c h -> verified m c
}.

Lemma verified_mono m m' c : (forall e, e ∈ events m -> e ∈ events m') -> verified m c -> verified m' c.
Proof. intros He [? ?]. split; by apply He. Qed.
Lemma routine_ok_mono m m' r : (forall e, e ∈ events m -> e ∈ events m') -> routine_ok m r -> routine_ok m' r.
Proof.
  intros He. unfold routine_ok. destruct (r_pc r); try done.
  - intros [? ?]. split; [done|by apply He].
  - intros [? ?]. split; [done|by eapply verified_mono].
  - intros [? ?]. split; [done|by eapply verified_mono].
Qed.

(** A step that leaves the routines and the connections alone. *)
Record frame (m m' : M) : Prop := {
  f_main : main_pc m' = main_pc m;
  f_monitoring : monitoringConn m' = monitoringConn m;
  f_writer : hostRoutinesWriterConn m' = hostRoutinesWriterConn m;
  f_routines : allRoutines m' = allRoutines m;
  f_opened : opened m' = opened m;
  f_events : forall e, e ∈ events m -> e ∈ events m'
}.
#[local] Instance frame_refl : Reflexive frame.
Proof. by intros m. Qed.
#[local] Instance frame_trans : Transitive frame.
Proof. intros m1 m2 m3 [] []. split; try congruence. auto. Qed.

Lemma frame_shared m m' c : frame m m' -> shared m' c <-> shared m c.
Proof. intros []. unfold shared. by rewrite f_main0, f_monitoring0, f_writer0. Qed.
Lemma Inv_frame m m' : frame m m' -> Inv m -> Inv m'.
Proof.
  intros Hf [H1 H2 H3 H4 H5]. pose proof (fun c => frame_shared m m' c Hf) as Hs. destruct Hf as [Hp Hm Hw Hr Ho He].
  split.
  - intros id r. rewrite Hr. intros Hid. by eapply routine_ok_mono, H1.
  - intros id r c. rewrite Hr, Ho, Hs. apply H2.
  - intros c. rewrite Hs, Ho. apply H3.
  - intros c. rewrite Hw. intros Hc. by eapply verified_mono, H4.
  - intros c h. rewrite Hp. intros Hc. by eapply verified_mono, H5.
Qed.

Lemma frame_emit e m : frame m (emit e m).
Proof. split; try done. intros e' He. cbn. set_solver. Qed.
Lemma frame_close o m : frame m (closeConnection o m).
Proof. destruct o as [c|]; [|done]. unfold closeConnection. case_bool_decide; [done|apply frame_emit]. Qed.

Lemma alloc_hosts_heap hosts m : exists h, (alloc_hosts hosts m).1 = m <| heap := h |>.
Proof.
  revert m. induction hosts as [|x hosts IH]; intros m; [exists (heap m); by destruct m|]. cbn [alloc_hosts alloc_host].
  match goal with |- context [alloc_hosts hosts ?q] => specialize (IH q); destruct (alloc_hosts hosts q) end.
  destruct IH as [h Hh]. cbn [fst] in Hh |- *. by exists h.
Qed.
Lemma frame_alloc hosts m : frame m (alloc_hosts hosts m).1.
Proof. destruct (alloc_hosts_heap hosts m) as [h ->]. done. Qed.
Lemma frame_share hosts m : frame m (share_topology hosts m).
Proof.
  unfold share_topology, updateHostsAvailability. pose proof (frame_alloc (map (cloned_host m) hosts) m) as Ha.
  destruct (alloc_hosts _ m) as [m1 ls]. etransitivity; [exact Ha|done].
Qed.
Lemma frame_fetch a m m' hosts : fetchTopologyAndUpdateCache a m = Some (m', hosts) -> frame m m'.
Proof.
  destruct a as [[|x l]|e|]; cbn [fetchTopologyAndUpdateCache]; [by intros [= <- <-]| |by intros [= <- <-]|done].
  pose proof (frame_alloc (x :: l) m) as Ha. destruct (alloc_hosts (x :: l) m) as [m1 ls]. intros [= <- <-].
  etransitivity; [exact Ha|done].
Qed.
Lemma frame_reader_fetch a r r' m m' :
  readerRoutineFetchTopology a r m = Some (m', r') -> frame m m' /\ r_conn r' = r_conn r /\ r_pc r' = r_pc r.
Proof.
  destruct a as [[|x l]|e|]; cbn [readerRoutineFetchTopology]; [by intros [= <- <-]| |by intros [= <- <-]|done].
  pose proof (frame_alloc (x :: l) m) as Ha. destruct (alloc_hosts (x :: l) m) as [m1 ls]. cbn [fst] in Ha. intros E.
  destruct (r_writerChanged r); [injection E as <- <-|destruct (writer_differs _ _ _); injection E as <- <-]; (split; [|done]);
    (etransitivity; [exact Ha|]); [etransitivity; [|apply frame_share]; done|etransitivity; [|apply frame_share]; done|done].
Qed.
Lemma frame_check tick now m : frame m (checkForStableReaderTopologies tick now m).
Proof.
  unfold checkForStableReaderTopologies. destruct (readers_agree m tick); [|done]. cbv zeta. destruct (_ <? _); [|done].
  etransitivity; [|apply frame_share]. done.
Qed.
Lemma frame_exit o r m : frame m (closeConnection o (forget_topology r (completed r m))).
Proof. etransitivity; [|apply frame_close]. done. Qed.

(** *** Steps of the routines *)

Lemma Inv_set id r r' m :
  allRoutines m !! id = Some r -> routine_ok m r' -> (unclaimed r' = None \/ unclaimed r' = unclaimed r) -> Inv m ->
  Inv (set_routine id r' m).
Proof.
  intros Hid Hok Hun [H1 H2 H3 H4 H5]. split; [| |exact H3|exact H4|exact H5].
  - intros i x. cbn. rewrite lookup_insert_Some. intros [[<- <-]|[Hne Hx]]; [exact Hok|by apply (H1 i)].
  - assert (Hold : forall i x c, allRoutines (set_routine id r' m) !! i = Some x -> unclaimed x = Some c ->
      exists y, allRoutines m !! i = Some y /\ unclaimed y = Some c).
    { intros i x c. cbn. rewrite lookup_insert_Some. intros [[<- <-]|[Hne Hx]] Hc; [|by exists x].
      exists r. split; [done|]. destruct Hun as [Hn|Hn]; congruence. }
    intros i x c Hx Hc. destruct (Hold i x c Hx Hc) as (y & Hy & Hyc). destruct (H2 i y c Hy Hyc) as (Ho & Hs & Hal).
    split; [done|]. split; [done|]. intros i' x' Hne Hx' Hc'. destruct (Hold i' x' c Hx' Hc') as (y' & Hy' & Hyc').
    by apply (Hal i' y').
Qed.

(** A step of a routine that does not open or claim a connection. *)
Lemma Inv_routine id r r' m m' :
  frame m m' -> allRoutines m !! id = Some r -> routine_ok m' r' -> (unclaimed r' = None \/ unclaimed r' = unclaimed r) -> Inv m ->
  Inv (set_routine id r' m').
Proof. intros Hf Hid Hok Hun Hm. apply (Inv_set id r); [by rewrite (f_routines _ _ Hf)|done|done|by eapply Inv_frame]. Qed.

Lemma Inv_connected id r r' c m :
  allRoutines m !! id = Some r -> c ∉ opened m -> routine_ok m r' -> unclaimed r' = Some c -> Inv m ->
  Inv (set_routine id r' (m <| opened := c :: opened m |>)).
Proof.
  intros Hid Hc Hok Hun [H1 H2 H3 H4 H5]. split; [| | |exact H4|exact H5].
  - intros i x. cbn. rewrite lookup_insert_Some. intros [[<- <-]|[Hne Hx]]; [exact Hok|by apply (H1 i)].
  - intros i x c'. cbn. rewrite lookup_insert_Some. intros [[<- <-]|[Hne Hx]] Hc'.
    + rewrite Hun in Hc'. injection Hc' as <-. split; [by left|]. split; [intros Hs; by apply Hc, H3|].
      intros i x Hne. rewrite lookup_insert_ne by done. intros Hx Hxc. apply Hc. by apply (H2 i x c).
    + destruct (H2 i x c' Hx Hc') as (Ho & Hs & Hal). split; [by right|]. split; [exact Hs|]. intros i' y Hne'.
      rewrite lookup_insert_Some. intros [[<- <-]|[Hne'' Hy]]; [rewrite Hun; congruence|by apply (Hal i')].
  - intros c' Hs. cbn. right. by apply H3.
Qed.

Lemma Inv_claim id r c m :
  allRoutines m !! id = Some r -> r_pc r = RClaim c -> Inv m ->
  Inv (set_routine id (set_pc (RPublish c) r) (m <| hostRoutinesWriterConn := Some c |>)).
Proof.
  intros Hid Hpc [H1 H2 H3 H4 H5]. pose proof (H1 id r Hid) as Hok. unfold routine_ok in Hok. rewrite Hpc in Hok. destruct Hok as [Hconn Hv].
  assert (Hun : unclaimed r = Some c) by by (unfold unclaimed; rewrite Hpc).
  destruct (H2 id r c Hid Hun) as (Hop & Hsh & Hal).
  split; [| | | |exact H5].
  - intros i x. cbn. rewrite lookup_insert_Some. intros [[<- <-]|[Hne Hx]]; [by split|by apply (H1 i)].
  - intros i x c'. cbn. rewrite lookup_insert_Some. intros [[<- <-]|[Hne Hx]] Hc'; [done|].
    destruct (H2 i x c' Hx Hc') as (Ho & Hs & Hal'). split; [done|]. split.
    + intros [Hm|[[= <-]|Hp]]; [apply Hs; by left|by apply (Hal i x)|apply Hs; by right; right].
    + intros i' y Hne'. rewrite lookup_insert_Some. intros [[<- <-]|[_ Hy]]; [done|by apply (Hal' i')].
  - intros c' [Hm|[[= <-]|Hp]]; [apply H3; by left|done|apply H3; by right; right].
  - intros c' [= <-]. exact Hv.
Qed.

Lemma exec_routine_inv id r i m m' : allRoutines m !! id = Some r -> exec_routine id r i m = Some m' -> Inv m -> Inv m'.
Proof.
  intros Hid E Hm. pose proof (inv_ok m Hm id r Hid) as Hok. unfold exec_routine in E. unfold routine_ok in Hok.
  destruct (r_pc r) as [| |c|c|c|c| |o|c| |o|] eqn:Hpc; destruct i as [|a|a ids t|role|a|now|now nt]; try discriminate E.
  - injection E as <-. apply (Inv_routine id r _ m); [done|done| |right; unfold unclaimed; rewrite Hpc; cbn; destruct (hostRoutinesStop m), (r_conn r) eqn:Ec; cbn; congruence|done].
    unfold routine_ok. cbn. destruct (hostRoutinesStop m); cbn; [done|]. by destruct (r_conn r).
  - assert (Hun : unclaimed r = None) by by (unfold unclaimed; rewrite Hpc).
    destruct a as [c| | | |]; cbn [routine_connect] in E.
    + case_bool_decide as Hc; [done|]. injection E as <-.
      change (Inv (set_routine id (r <| r_conn := Some c |> <| r_connectionAttempts := 0 |> <| r_pc := RAsk c |>)
        ((emit (MarkedAvailable (r_hostInfo r)) m) <| opened := c :: opened (emit (MarkedAvailable (r_hostInfo r)) m) |>))).
      apply (Inv_connected id r); [done|done|done|done|]. eapply Inv_frame; [apply frame_emit|done].
    + injection E as <-. apply (Inv_routine id r _ m); [apply frame_emit|done|done|left; exact Hok|done].
    + injection E as <-. apply (Inv_routine id r _ m); [done|done|done|left; exact Hok|done].
    + injection E as <-. apply (Inv_routine id r _ m); [done|done|done|left; exact Hok|done].
    + injection E as <-. apply (Inv_routine id r _ m); [done|done|done|left; exact Hok|done].
  - assert (Hun : unclaimed r = Some c) by by (unfold unclaimed; rewrite Hpc).
    destruct a as [[]|e|]; cbn [routine_ask] in E; try discriminate E; injection E as <-.
    + apply (Inv_routine id r _ m); [apply frame_emit|done|split; [done|cbn; set_solver]|right; rewrite Hun; exact Hok|done].
    + apply (Inv_routine id r _ m); [done|done|exact (eq_sym Hok)|right; rewrite Hun; exact Hok|done].
    + apply (Inv_routine id r _ m); [|done|done|by left|done]. etransitivity; [apply (frame_close (Some c))|done].
  - destruct Hok as [Hc Ha]. assert (Hun : unclaimed r = Some c) by by (unfold unclaimed; rewrite Hpc). injection E as <-.
    apply (Inv_routine id r _ m); [apply frame_emit|done| |right; rewrite Hun; unfold unclaimed; cbn; case_bool_decide; exact Hc|done].
    unfold routine_ok. cbn. case_bool_decide as Hw; [subst role; split; [done|]; split; cbn; set_solver|exact (eq_sym Hc)].
  - injection E as <-. unfold routine_claim. destruct (hostRoutinesWriterConn m); [|by apply Inv_claim].
    apply (Inv_routine id r _ m); [apply frame_close|done|done|by left|done].
  - cbn in E. destruct (fetchTopologyAndUpdateCache a m) as [[m1 hosts]|] eqn:Ef; [|done]. injection E as <-.
    apply (Inv_routine id r _ m); [by eapply frame_fetch|done|done|by left|done].
  - injection E as <-. apply (Inv_routine id r _ m); [done|done|done|by left|done].
  - assert (Hun : unclaimed r = o) by by (unfold unclaimed; rewrite Hpc). injection E as <-. unfold routine_reader.
    assert (Hgo : forall r', r_conn r' = r_conn r -> r_pc r' = fetch_pc o -> routine_ok m r' /\ unclaimed r' = o).
    { intros r' Hr' Hp'. unfold routine_ok, unclaimed. rewrite Hp', Hr', <- Hok. by destruct o. }
    repeat case_match; (apply (Inv_routine id r _ m); [done|done| | |done]); first [apply Hgo; done|right; rewrite Hun; apply Hgo; done|done|right; rewrite Hun; exact (eq_sym Hok)].
  - cbn in E. destruct (readerRoutineFetchTopology a r m) as [[m1 r1]|] eqn:Ef; [|done]. injection E as <-.
    apply frame_reader_fetch in Ef as (Hf & Hc1 & Hp1). apply (Inv_routine id r _ m); [exact Hf|done|done| |done].
    right. unfold unclaimed. rewrite Hpc. cbn. exact Hc1.
  - injection E as <-. apply (Inv_routine id r _ m); [done|done|done| |done]. right. unfold unclaimed. by rewrite Hpc.
  - injection E as <-. apply (Inv_routine id r _ m); [apply frame_exit|done|done|by left|done].
Qed.
(** *** Steps of the main routine and of the others *)

(** A step after which the monitor has no connection it did not have. *)
Lemma Inv_shrink m m' :
  allRoutines m' = allRoutines m -> opened m' = opened m -> (forall e, e ∈ events m -> e ∈ events m') ->
  (forall c, shared m' c -> shared m c) -> (forall c, hostRoutinesWriterConn m' = Some c -> verified m c) ->
  (forall c h, main_pc m' = MPick c h -> verified m c) -> Inv m -> Inv m'.
Proof.
  intros Hr Ho He Hs Hw Hp [H1 H2 H3 H4 H5]. split.
  - intros id r. rewrite Hr. intros Hid. by eapply routine_ok_mono, H1.
  - intros id r c. rewrite Hr, Ho. intros Hid Hc. destruct (H2 id r c Hid Hc) as (? & Hn & ?). split; [done|]. split; [|done].
    intros Hc'. by apply Hn, Hs.
  - intros c Hc. rewrite Ho. by apply H3, Hs.
  - intros c Hc. by eapply verified_mono, Hw.
  - intros c h Hc. by eapply verified_mono, Hp.
Qed.

Lemma Inv_main pc m :
  (forall c, main_conn pc = Some c -> shared m c) -> (forall c h, pc = MPick c h -> verified m c) -> Inv m -> Inv (set_main pc m).
Proof.
  intros Hs Hp Hm. apply (Inv_shrink m); [done|done|done| |apply (inv_writer m Hm)|exact Hp|done].
  intros c [Hc|[Hc|Hc]]; [by left|by right; left|by apply Hs].
Qed.
Lemma Inv_main_plain pc m : main_conn pc = None -> Inv m -> Inv (set_main pc m).
Proof. intros Hpc. apply Inv_main; [by rewrite Hpc|intros c h ->; done]. Qed.

Lemma Inv_spawn m l : Inv m -> Inv (spawn m l).
Proof.
  intros [H1 H2 H3 H4 H5]. unfold spawn. set (id := fresh (dom (allRoutines m))).
  assert (Hid : allRoutines m !! id = None) by apply not_elem_of_dom, is_fresh.
  split; [| |exact H3|exact H4|exact H5].
  - intros i r. cbn. rewrite lookup_insert_Some. intros [[_ <-]|[_ Hr]]; [done|by apply (H1 i)].
  - intros i r c. cbn. rewrite lookup_insert_Some. intros [[_ <-]|[_ Hr]] Hc; [done|].
    destruct (H2 i r c Hr Hc) as (Ho & Hs & Hal). split; [done|]. split; [done|]. intros i' r' Hne.
    rewrite lookup_insert_Some. intros [[_ <-]|[_ Hr']]; [done|by apply (Hal i')].
Qed.
Lemma Inv_spawn_all hosts m : Inv m -> Inv (foldl spawn m hosts).
Proof. revert m. induction hosts as [|l hosts IH]; intros m Hm; [done|]. by apply IH, Inv_spawn. Qed.
Lemma Inv_spawn_missing hosts m : Inv m -> Inv (foldl spawn_missing m hosts).
Proof.
  revert m. induction hosts as [|l hosts IH]; intros m Hm; [done|]. apply IH. unfold spawn_missing.
  case_bool_decide; [done|by apply Inv_spawn].
Qed.

(** Dropping the monitoring connection, closed or not. *)
Lemma Inv_drop_monitoring m m' :
  allRoutines m' = allRoutines m -> opened m' = opened m -> (forall e, e ∈ events m -> e ∈ events m') ->
  monitoringConn m' = None -> hostRoutinesWriterConn m' = hostRoutinesWriterConn m -> main_pc m' = main_pc m -> Inv m -> Inv m'.
Proof.
  intros Hr Ho He Hc Hw Hp Hm. apply (Inv_shrink m); [done..| | | |done].
  - intros c. unfold shared. rewrite Hc, Hw, Hp. intros [?|[?|?]]; [done|by right; left|by right; right].
  - intros c. rewrite Hw. apply (inv_writer m Hm).
  - intros c h. rewrite Hp. apply (inv_pick m Hm).
Qed.
Lemma close_keeps o m : frame m (closeConnection o m) /\ isVerifiedWriterConn (closeConnection o m) = isVerifiedWriterConn m.
Proof. split; [apply frame_close|]. destruct o; [|done]. unfold closeConnection. by case_bool_decide. Qed.

Lemma Inv_abandon m : Inv m -> Inv (abandon m).
Proof.
  intros Hm. unfold abandon. set (m1 := m <| monitoringConn := None |> <| isVerifiedWriterConn := false |> <| writerHostInfo := None |>).
  eapply Inv_frame; [apply frame_close|]. by apply (Inv_drop_monitoring m).
Qed.
Lemma Inv_lose m : Inv m -> Inv (lose_connection m).
Proof.
  intros Hm. unfold lose_connection. apply Inv_main_plain; [done|]. eapply Inv_frame; [apply frame_close|].
  by apply (Inv_drop_monitoring m).
Qed.
Lemma Inv_drop m : Inv m -> Inv (drop_connection m).
Proof. intros Hm. unfold drop_connection. eapply Inv_frame; [apply frame_close|]. by apply (Inv_drop_monitoring m). Qed.

Lemma Inv_main_open i m m' : main_open i m = Some m' -> Inv m -> Inv m'.
Proof.
  intros E Hm. unfold main_open in E. destruct (monitoringConn m) as [c0|] eqn:Emon; destruct i as [|a|a ids t|role|a|now|now nt];
    try discriminate E; [injection E as <-; by apply Inv_main_plain|].
  destruct a as [c| | | |]; try (injection E as <-; by apply Inv_main_plain).
  case_bool_decide as Hc; [done|]. injection E as <-. destruct Hm as [H1 H2 H3 H4 H5]. split; [exact H1| | |exact H4|done].
  - intros id r c' Hr Hc'. destruct (H2 id r c' Hr Hc') as (Ho & Hs & Hal). split; [by right|]. split; [|done].
    intros [Hx|[Hx|[= <-]]]; [apply Hs; by left|apply Hs; by right; left|done].
  - intros c' [Hx|[Hx|[= <-]]]; cbn; [right; apply H3; by left|right; apply H3; by right; left|by left].
Qed.

Lemma Inv_main_opened c m : main_pc m = MOpened c -> Inv m -> Inv (main_opened c m).
Proof.
  intros Hpc Hm. unfold main_opened. destruct (monitoringConn m) eqn:Emon.
  - apply Inv_main_plain; [done|]. by eapply Inv_frame; [apply frame_close|].
  - apply (Inv_shrink m); [done|done|done| |apply (inv_writer m Hm)|done|done].
    intros c' [[= <-]|[Hx|[= <-]]]; [right; right; by rewrite Hpc|by right; left|right; right; by rewrite Hpc].
Qed.

Lemma Inv_writer_of ids t m m' : writer_of ids t m = Some m' -> Inv m -> Inv m'.
Proof.
  unfold writer_of. destruct (IsRdsInstance _); [intros [= <-]; by apply Inv_frame|]. destruct (_ && _); [by intros [= <-]|].
  destruct (CreateHost _ _ _ _ _ _ _) as [[h|]|e|]; [|intros [= <-]; by apply Inv_frame|done..].
  cbn [alloc_host]. intros [= <-]. by apply Inv_frame.
Qed.
Lemma Inv_main_ask c a ids t m m' : main_ask c a ids t m = Some m' -> Inv m -> Inv m'.
Proof.
  intros E Hm. destruct a as [[]|e|]; cbn [main_ask] in E; try discriminate E; try (injection E as <-; by apply Inv_main_plain).
  destruct (writer_of _ _ _) as [m1|] eqn:Ew; [|done]. injection E as <-. apply Inv_main_plain; [done|].
  eapply Inv_writer_of; [exact Ew|]. eapply Inv_frame; [apply frame_emit|]. by apply (Inv_frame m).
Qed.
Lemma Inv_main_fetch_any i m m' : main_fetch_any i m = Some m' -> Inv m -> Inv m'.
Proof.
  intros E Hm. unfold main_fetch_any in E. destruct (monitoringConn m), i; try discriminate E; [|injection E as <-; by apply Inv_main_plain].
  destruct (fetchTopologyAndUpdateCache a m) as [[m1 hosts]|] eqn:Ef; [|done]. injection E as <-.
  apply Inv_main_plain; [by destruct hosts|]. eapply Inv_frame; [by eapply frame_fetch|done].
Qed.
Lemma Inv_main_fetch i m m' : main_fetch i m = Some m' -> Inv m -> Inv m'.
Proof.
  intros E Hm. unfold main_fetch in E. destruct (monitoringConn m), i; try discriminate E; [|injection E as <-; by apply Inv_lose].
  destruct (fetchTopologyAndUpdateCache a m) as [[m1 hosts]|] eqn:Ef; [|done]. injection E as <-.
  assert (Hm1 : Inv m1) by (eapply Inv_frame; [by eapply frame_fetch|done]). destruct hosts; [by apply Inv_lose|by apply Inv_main_plain].
Qed.

Lemma Inv_main_watch m : Inv m -> Inv (main_watch m).
Proof.
  intros Hm. unfold main_watch.
  assert (Hsp : Inv (set_main MCheck (if hostRoutinesStop m then m else foldl spawn_missing m (hostRoutinesLatestTopology m)))).
  { apply Inv_main_plain; [done|]. destruct (hostRoutinesStop m); [done|by apply Inv_spawn_missing]. }
  destruct (hostRoutinesWriterConn m) as [c|] eqn:Ew; [|done]. destruct (hostRoutinesWriterHostInfo m) as [h|]; [|done].
  destruct (IsNil _); [done|]. apply Inv_main; [|intros ? ? [= <- <-]; by apply (inv_writer m Hm)|done].
  intros ? [= <-]. by right; left.
Qed.
Lemma Inv_main_pick c h m : main_pc m = MPick c h -> Inv m -> Inv (main_pick c h m).
Proof.
  intros Hpc Hm. unfold main_pick. apply Inv_main_plain; [done|]. eapply Inv_frame; [apply frame_close|].
  apply (Inv_shrink m); [done|done|done| |apply (inv_writer m Hm)|apply (inv_pick m Hm)|done].
  intros c' [[= <-]|[Hx|Hx]]; [|by right; left|by right; right]. right; right. by rewrite Hpc.
Qed.

Lemma exec_main_inv tick i m m' : exec_main tick i m = Some m' -> Inv m -> Inv m'.
Proof.
  intros E Hm. unfold exec_main in E. destruct (main_pc m) as [| | |c|c| | |hosts| |c h| |again| | | | |b|until|] eqn:Hpc;
    destruct i as [|a|a ids t|role|a|now|now nt]; try discriminate E;
    try (by eapply Inv_main_open); try (by eapply Inv_main_fetch_any); try (by eapply Inv_main_fetch); try (by eapply Inv_main_ask);
    try (injection E as <-).
  - unfold main_top. repeat case_match; by apply Inv_main_plain.
  - unfold main_start. apply Inv_main_plain; [by destruct (getStoredHosts _)|]. apply (Inv_shrink m); [done|done|done| |done|apply (inv_pick m Hm)|done].
    intros c [Hx|[Hx|Hx]]; [by left|done|by right; right].
  - by apply Inv_main_opened.
  - apply Inv_main_plain; [done|by apply Inv_abandon].
  - unfold main_spawn. apply Inv_main_plain; [done|]. destruct (isVerifiedWriterConn m); [done|by apply Inv_spawn_all].
  - by apply Inv_main_watch.
  - by apply Inv_main_pick.
  - unfold main_picked. apply Inv_main_plain; [done|]. by apply (Inv_frame m).
  - unfold main_wait in E. destruct (all_done m); [|done]. injection E as <-. apply Inv_main_plain; [by destruct again|]. by apply (Inv_frame m).
  - apply Inv_main_plain; [done|]. eapply Inv_frame; [apply frame_check|done].
  - unfold main_regular. case_bool_decide; apply Inv_main_plain; try done; by apply (Inv_frame m).
  - unfold main_rate. apply Inv_main_plain; [done|]. destruct (_ && _); [by apply (Inv_frame m)|done].
  - apply Inv_main_plain; done.
  - unfold main_delay. apply Inv_main_plain; [by case_match|done].
Qed.

Lemma Inv_finish_reset m : Inv m -> Inv (finish_reset m).
Proof.
  intros Hm. unfold finish_reset. cbv zeta.
  set (m1 := closeConnection (hostRoutinesReaderConn _) _). assert (Hm1 : Inv m1).
  { eapply Inv_frame; [apply frame_close|]. eapply Inv_frame; [apply frame_close|]. by apply (Inv_frame m). }
  clearbody m1. clear m Hm. set (m2 := clear_routines _). assert (Hm2 : Inv m2).
  { apply (Inv_shrink m1); [done|done|done| |done|apply (inv_pick m1 Hm1)|done]. intros c [Hx|[Hx|Hx]]; [by left|done|by right; right]. }
  apply (Inv_drop_monitoring (closeConnection (monitoringConn m2) m2)); [done..|]. eapply Inv_frame; [apply frame_close|done].
Qed.

Lemma exec_inv a m m' : exec a m = Some m' -> Inv m -> Inv m'.
Proof.
  intros E Hm. destruct a as [tick i|id i|id v t now|id n1 n2| | | | |]; cbn [exec] in E.
  - by eapply exec_main_inv.
  - destruct (allRoutines m !! id) as [r|] eqn:Hid; [|done]. by eapply exec_routine_inv.
  - unfold start_refresh in E. destruct (waiters m !! id); [done|]. injection E as <-.
    assert (Hd : Inv (if v then drop_connection m else m)) by (destruct v; [by apply Inv_drop|done]). revert Hd. by apply Inv_frame.
  - unfold poll_refresh in E. destruct (waiters m !! id) as [w|]; [|done]. destruct (w_result w); [done|]. injection E as <-. by apply (Inv_frame m).
  - destruct (resetting m); [done|]. injection E as <-. by apply (Inv_frame m).
  - destruct (_ && _); [|done]. injection E as <-. by apply Inv_finish_reset.
  - injection E as <-. by apply (Inv_frame m).
  - injection E as <-. by apply (Inv_frame m).
  - destruct (main_pc m); try done. destruct (all_done m); [|done]. injection E as <-. unfold Close. eapply Inv_frame; [apply frame_close|].
    by apply (Inv_frame m).
Qed.

Lemma Inv_initial heap : Inv (NewMonitor heap).
Proof.
  split; [intros id r; cbn; by rewrite lookup_empty|intros id r c; cbn; by rewrite lookup_empty|intros c [?|[?|?]]; done|done|done].
Qed.

Definition reachable (m : M) : Prop := exists heap, rtc mon_step (NewMonitor heap) m.
Lemma reachable_inv m : reachable m -> Inv m.
Proof.
  intros [h Hr]. refine (rtc_invariant mon_step Inv _ _ _ Hr (Inv_initial h)). intros x y Hx [a Ha]. by eapply exec_inv.
Qed.

(** C18. In every interleaving, the connection the main routine takes over
    from a routine is one whose server answered that it is the writer and,
    asked again, that its role is writer; and no routine still holds it as
    its own. *)
Theorem picked_writer_answered m c h m' tick i :
  reachable m -> main_pc m = MPick c h -> exec (Main tick i) m = Some m' ->
  monitoringConn m' = Some c /\ AnsweredWriter c ∈ events m /\ AnsweredRole c WRITER ∈ events m /\
  forall id r, allRoutines m' !! id = Some r -> unclaimed r <> Some c.
Proof.
  intros Hr Hpc E. pose proof (reachable_inv m Hr) as Hm. destruct (inv_pick m Hm c h Hpc) as [Ha Hw].
  cbn [exec] in E. unfold exec_main in E. rewrite Hpc in E. destruct i; try discriminate E. injection E as <-.
  pose proof (frame_close (monitoringConn m) (m <| monitoringConn := Some c |> <| writerHostInfo := Some h |>)) as Hf.
  split; [exact (f_monitoring _ _ Hf)|]. split; [done|]. split; [done|]. intros id r. unfold main_pick, set_main.
  intros Hid Hc. apply (eq_trans (f_equal (lookup id) (eq_sym (f_routines _ _ Hf)))) in Hid.
  destruct (inv_alone m Hm id r c Hid Hc) as (_ & Hn & _). apply Hn. right; right. by rewrite Hpc.
Qed.

(** A routine closes the connection it holds and no other. *)
Lemma closed_new e o m : e ∈ events (closeConnection o m) -> e ∈ events m \/ exists c, o = Some c /\ e = ConnClosed c.
Proof.
  destruct o as [c|]; [|by left]. unfold closeConnection. case_bool_decide; [by left|]. cbn. rewrite elem_of_app, list_elem_of_singleton.
  intros [?|?]; [by left|right; eauto].
Qed.
Lemma share_events hosts m : events (share_topology hosts m) = events m.
Proof.
  unfold share_topology, updateHostsAvailability. destruct (alloc_hosts_heap (map (cloned_host m) hosts) m) as [h E].
  destruct (alloc_hosts _ m) as [m1 ls]. cbn [fst] in E. by rewrite E.
Qed.
Lemma fetch_events a m m' hosts : fetchTopologyAndUpdateCache a m = Some (m', hosts) -> events m' = events m.
Proof.
  destruct a as [[|x l]|e|]; cbn [fetchTopologyAndUpdateCache]; [by intros [= <- <-]| |by intros [= <- <-]|done].
  destruct (alloc_hosts_heap (x :: l) m) as [h E]. destruct (alloc_hosts (x :: l) m) as [m1 ls]. cbn [fst] in E. intros [= <- <-]. by rewrite E.
Qed.
Lemma reader_fetch_events a r r' m m' : readerRoutineFetchTopology a r m = Some (m', r') -> events m' = events m.
Proof.
  destruct a as [[|x l]|e|]; cbn [readerRoutineFetchTopology]; [by intros [= <- <-]| |by intros [= <- <-]|done].
  destruct (alloc_hosts_heap (x :: l) m) as [h E]. destruct (alloc_hosts (x :: l) m) as [m1 ls]. cbn [fst] in E. rewrite E.
  destruct (r_writerChanged r); [|destruct (writer_differs _ _ _)]; intros [= <- <-]; by rewrite ?share_events.
Qed.

Lemma exec_routine_closes id r i m m' c :
  routine_ok m r -> exec_routine id r i m = Some m' -> ConnClosed c ∈ events m' -> ConnClosed c ∈ events m \/ unclaimed r = Some c.
Proof.
  intros Hok E. unfold exec_routine in E. unfold routine_ok in Hok. unfold unclaimed.
  destruct (r_pc r) as [| |d|d|d|d| |o|d| |o|] eqn:Hpc; destruct i as [|a|a ids t|role|a|now|now nt]; try discriminate E.
  - injection E as <-. by left.
  - destruct a; cbn [routine_connect] in E; [case_bool_decide; [done|]|..]; injection E as <-; cbn; set_solver.
  - destruct a as [[]|e|]; cbn [routine_ask] in E; try discriminate E; injection E as <-; [cbn; set_solver|by left|].
    intros Hin. apply (closed_new _ (Some d)) in Hin as [Hin|(x & [= <-] & [= ->])]; [by left|by right].
  - injection E as <-. cbn. set_solver.
  - injection E as <-. unfold routine_claim. destruct (hostRoutinesWriterConn m); [|by left].
    intros Hin. apply (closed_new _ (Some d)) in Hin as [Hin|(x & [= <-] & [= ->])]; [by left|right; by destruct Hok].
  - cbn in E. destruct (fetchTopologyAndUpdateCache a m) as [[m1 hosts]|] eqn:Ef; [|done]. injection E as <-.
    intros Hin. left. by rewrite <- (fetch_events _ _ _ _ Ef).
  - injection E as <-. by left.
  - injection E as <-. unfold routine_reader. repeat case_match; by left.
  - cbn in E. destruct (readerRoutineFetchTopology a r m) as [[m1 r1]|] eqn:Ef; [|done]. injection E as <-.
    intros Hin. left. by rewrite <- (reader_fetch_events _ _ _ _ _ Ef).
  - injection E as <-. by left.
  - injection E as <-. intros Hin. apply (closed_new _ o (forget_topology r (completed r m))) in Hin as [Hin|(x & -> & [= ->])];
      [by left|right; done].
Qed.

(** C19. In every interleaving, a step of a routine never closes a
    connection of the monitor: the monitoring connection, the claimed writer
    connection and the one the main routine is about to use. *)
Theorem routines_spare_monitor_connections m m' id i c :
  reachable m -> shared m c -> exec (HostRoutine id i) m = Some m' -> ConnClosed c ∈ events m' -> ConnClosed c ∈ events m.
Proof.
  intros Hr Hs E Hin. pose proof (reachable_inv m Hr) as Hm. cbn [exec] in E. destruct (allRoutines m !! id) as [r|] eqn:Hid; [|done].
  destruct (exec_routine_closes _ _ _ _ _ _ (inv_ok m Hm id r Hid) E Hin) as [|Hc]; [done|].
  by destruct (inv_alone m Hm id r c Hid Hc) as (_ & Hn & _).
Qed.

(** The check for stable topologies stores a topology only when it has
    been agreed on for more than fifteen seconds: every stored host
    completed a cycle, all topologies the readers reported have one key, and
    what is stored is one of them with the availability of its hosts taken
    from the reports. *)
Theorem stable_topology_agreed tick now m :
  storedTopology (checkForStableReaderTopologies tick now m) <> storedTopology m ->
  stableTopologiesStart m <> 0 /\ stableTopologiesStart m + stableTopologiesDurationNano < now /\
  (forall l, l ∈ getStoredHosts m -> has_completed m l = true) /\
  exists id hosts, readerTopologiesById m !! id = Some hosts /\
    (forall id' hosts', readerTopologiesById m !! id' = Some hosts' -> key_at m hosts' = key_at m hosts) /\
    checkForStableReaderTopologies tick now m = share_topology hosts (m <| stableTopologiesStart := 0 |>).
Proof.
  unfold checkForStableReaderTopologies. destruct (readers_agree m tick) eqn:Ha; [|done]. cbv zeta.
  destruct (_ <? now) eqn:Et; [|done]. intros _. apply Z.ltb_lt in Et.
  unfold readers_agree in Ha. apply andb_true_iff in Ha as [[_ Hdone]%andb_true_iff Hsame].
  rewrite forallb_forall in Hdone.
  assert (Hst : stableTopologiesStart m <> 0 /\ stableTopologiesStart m + stableTopologiesDurationNano < now).
  { revert Et. unfold stableTopologiesDurationNano, Second. destruct (Z.eqb_spec (stableTopologiesStart m) 0); lia. }
  split; [apply Hst|]. split; [apply Hst|]. split; [intros l Hl; apply Hdone; by apply list_elem_of_In|].
  unfold same_keys in Hsame. destruct (range tick (readerTopologiesById m)) as [|[k first] rest] eqn:Er; [done|].
  assert (Hkeys : forall id' hosts', readerTopologiesById m !! id' = Some hosts' -> key_at m hosts' = key_at m first).
  { intros id' hosts' Hh. apply (elem_of_range tick) in Hh. rewrite Er in Hh. apply elem_of_cons in Hh as [[= _ ->]|Hh]; [done|].
    rewrite forallb_forall in Hsame. apply list_elem_of_In, Hsame, bool_decide_eq_true in Hh. done. }
  cbn [readerTopologiesById update_field].
  destruct (range (S tick) (readerTopologiesById m)) as [|[k' t] rest'] eqn:Er'.
  { assert (Hp : range tick (readerTopologiesById m) ≡ₚ []) by (rewrite <- Er', !range_perm; done).
    rewrite Er in Hp. by apply Permutation_nil_r in Hp. }
  assert (Ht : readerTopologiesById m !! k' = Some t) by (apply (elem_of_range (S tick)); rewrite Er'; by left).
  exists k', t. split; [exact Ht|]. split; [|done]. intros id' hosts' Hh. rewrite (Hkeys id' hosts' Hh). by rewrite (Hkeys k' t Ht).
Qed.

(** The goroutines and the reset leave the callers of [ForceRefresh] alone. *)
Lemma waiters_close o m : waiters (closeConnection o m) = waiters m.
Proof. destruct o; cbn; [by case_bool_decide|done]. Qed.
Lemma waiters_alloc hosts m : waiters (alloc_hosts hosts m).1 = waiters m.
Proof.
  revert m. induction hosts as [|h hosts IH]; intros m; [done|]. cbn [alloc_hosts]. destruct (alloc_host h m) as [m1 l] eqn:E.
  assert (waiters m1 = waiters m) as <- by (unfold alloc_host in E; by injection E as <- _).
  specialize (IH m1). by destruct (alloc_hosts hosts m1).
Qed.
Lemma waiters_share hosts m : waiters (share_topology hosts m) = waiters m.
Proof.
  unfold share_topology, updateHostsAvailability. pose proof (waiters_alloc (map (cloned_host m) hosts) m) as E.
  by destruct (alloc_hosts _ m).
Qed.
Lemma waiters_fetch a m m' hosts : fetchTopologyAndUpdateCache a m = Some (m', hosts) -> waiters m' = waiters m.
Proof.
  destruct a as [[|x l]|e|]; cbn -[alloc_hosts]; [by intros [= <- <-]| |by intros [= <- <-]|done].
  pose proof (waiters_alloc (x :: l) m) as E. destruct (alloc_hosts (x :: l) m). by intros [= <- <-].
Qed.
Lemma waiters_reader_fetch a r m m' r' : readerRoutineFetchTopology a r m = Some (m', r') -> waiters m' = waiters m.
Proof.
  destruct a as [[|x l]|e|]; cbn [readerRoutineFetchTopology]; [by intros [= <- <-]| |by intros [= <- <-]|done].
  pose proof (waiters_alloc (x :: l) m) as E. destruct (alloc_hosts (x :: l) m).
  repeat case_match; intros [= <- <-]; by rewrite ?waiters_share.
Qed.
Lemma waiters_spawn hosts m : waiters (foldl spawn m hosts) = waiters m.
Proof. revert m. induction hosts as [|l hosts IH]; intros m; [done|]. cbn [foldl]. by rewrite IH. Qed.
Lemma waiters_spawn_missing hosts m : waiters (foldl spawn_missing m hosts) = waiters m.
Proof. revert m. induction hosts as [|l hosts IH]; intros m; [done|]. cbn [foldl]. rewrite IH. unfold spawn_missing. by case_bool_decide. Qed.

Lemma exec_routine_waiters id r i m m' : exec_routine id r i m = Some m' -> waiters m' = waiters m.
Proof.
  unfold exec_routine. destruct (r_pc r), i; try done; try (by intros [= <-]).
  - destruct a; cbn; [case_bool_decide; [done|]|..]; by intros [= <-].
  - destruct a as [[]|e|]; cbn; try done; intros [= <-]; [done..|]. apply (waiters_close (Some c)).
  - intros [= <-]. unfold routine_claim. destruct (hostRoutinesWriterConn m); [|done]. apply (waiters_close (Some c)).
  - cbn. destruct (fetchTopologyAndUpdateCache a m) as [[m1 hosts]|] eqn:E; [|done]. intros [= <-]. by apply (waiters_fetch a m m1 hosts).
  - intros [= <-]. unfold routine_reader. by repeat case_match.
  - cbn. destruct (readerRoutineFetchTopology a r m) as [[m1 r1]|] eqn:E; [|done]. intros [= <-]. by apply (waiters_reader_fetch a r m m1 r1).
  - intros [= <-]. cbn -[closeConnection]. by rewrite waiters_close.
Qed.

Lemma exec_main_waiters tick i m m' : exec_main tick i m = Some m' -> waiters m' = waiters m.
Proof.
  unfold exec_main. destruct (main_pc m); destruct i; try done; try (by intros [= <-]).
  all: unfold main_open, main_fetch_any, main_fetch, main_ask, main_top, main_start, main_opened, main_spawn, main_watch, main_pick,
    main_wait, main_regular, main_rate, abandon, lose_connection, checkForStableReaderTopologies, writer_of, clear_routines, set_main;
    cbn -[closeConnection share_topology fetchTopologyAndUpdateCache foldl];
    repeat case_match; try done;
    (try match goal with E : fetchTopologyAndUpdateCache _ _ = _ |- _ => apply waiters_fetch in E end);
    cbn -[closeConnection share_topology fetchTopologyAndUpdateCache foldl]; intros; simplify_eq;
    cbn -[closeConnection share_topology fetchTopologyAndUpdateCache foldl];
    rewrite ?waiters_close, ?waiters_share, ?waiters_spawn, ?waiters_spawn_missing; try done.
  all: match goal with E : fetchTopologyAndUpdateCache ?a ?m ≫= _ = _ |- _ =>
    destruct (fetchTopologyAndUpdateCache a m) as [[m1 hosts]|] eqn:Ef; [|done] end;
    apply waiters_fetch in Ef; cbn -[closeConnection] in *; repeat case_match; simplify_eq;
    cbn -[closeConnection]; by rewrite ?waiters_close.
Qed.

(** A step that says something of a caller is its own: it turns the loop of
    [waitForTopologyUpdate] once. *)
Lemma exec_waiter a m m' id w :
  exec a m = Some m' -> waiters m !! id = Some w ->
  waiters m' !! id = Some w \/
  exists now1 now2, a = Poll id now1 now2 /\ w_result w = None /\ waiters m' !! id = Some (poll now1 now2 m w).
Proof.
  intros E Hw. destruct a as [tick i|id' i|id' verify timeoutMs now|id' now1 now2| | | | |]; cbn [exec] in E.
  - apply exec_main_waiters in E as ->. by left.
  - destruct (allRoutines m !! id'); [|done]. apply exec_routine_waiters in E as ->. by left.
  - left. unfold start_refresh in E. destruct (waiters m !! id') eqn:E0; [done|]. injection E as <-. unfold set_waiter. cbn -[drop_connection].
    rewrite lookup_insert_ne by congruence. unfold drop_connection. destruct verify; cbn -[closeConnection]; by rewrite ?waiters_close.
  - unfold poll_refresh in E. destruct (waiters m !! id') as [w'|] eqn:E0; [|done]. destruct (w_result w') eqn:Er; [done|]. injection E as <-.
    unfold set_waiter. cbn. destruct (decide (id' = id)) as [->|Hne].
    + right. exists now1, now2. rewrite lookup_insert_eq. by simplify_eq.
    + left. by rewrite lookup_insert_ne.
  - left. destruct (resetting m); [done|]. by injection E as <-.
  - left. destruct (_ && _); [|done]. injection E as <-. unfold finish_reset, clear_routines. cbn -[closeConnection].
    by rewrite !waiters_close.
  - left. by injection E as <-.
  - left. by injection E as <-.
  - left. destruct (main_pc m); try done. destruct (all_done m); [|done]. injection E as <-. unfold Close. by rewrite waiters_close.
Qed.

Lemma run_actions_snoc l a m : run_actions (l ++ [a]) m = run_actions l m ≫= exec a.
Proof. unfold run_actions. by rewrite foldl_snoc. Qed.

(** The two readings of the clock in a turn of the loop are in order. *)
Definition polls_in_order (a : Action) : Prop := match a with Poll _ now1 now2 => now1 <= now2 | _ => True end.

(** C7. A call of ForceRefresh with a time-out that is not 0 returns hosts
    without an error only when, at a turn of its loop before the time-out,
    the stored topology is another one than when it was called and, when it
    was asked for a verified writer, the monitor has verified the writer;
    what it returns is that topology. With a time-out of 0 it returns the
    topology that is stored at the call, verified or not. The goroutines of
    the monitor, the reset and other callers may do anything in between; the
    two readings of the clock in a turn are in order. *)
Theorem refresh_returns_verified id verify timeoutMs now m0 m1 l m w hosts :
  exec (ForceRefresh id verify timeoutMs now) m0 = Some m1 -> Forall polls_in_order l -> run_actions l m1 = Some m ->
  waiters m !! id = Some w -> w_result w = Some (Ok hosts) ->
  if timeoutMs =? 0 then hosts = snd <$> storedTopology m0
  else exists before now1 now2 after m2, l = before ++ Poll id now1 now2 :: after /\ run_actions before m1 = Some m2 /\
    now2 <= now + timeoutMs * Millisecond /\ storedTopologyNo m2 <> storedTopologyNo m0 /\
    (verify = true -> isVerifiedWriterConn m2 = true) /\ hosts = snd <$> storedTopology m2.
Proof.
  intros E0 Hl Hrun Hw Hres. cbn [exec] in E0. unfold start_refresh in E0. destruct (waiters m0 !! id); [done|].
  assert (Htop : storedTopology (if verify then drop_connection m0 else m0) = storedTopology m0).
  { unfold drop_connection, closeConnection. destruct verify; [|done]. destruct (monitoringConn m0); cbn; [|done]. by case_bool_decide. }
  set (w0 := mkWaiter verify (storedTopologyNo m0) (now + timeoutMs * Millisecond)
               (if timeoutMs =? 0 then Some (Ok (snd <$> storedTopology m0)) else None)).
  assert (Hw1 : waiters m1 !! id = Some w0).
  { injection E0 as <-. unfold set_waiter. cbn [waiters update_field]. rewrite lookup_insert_eq. unfold storedTopologyNo. cbn [storedTopology update_field].
    by rewrite Htop. }
  clear E0 Htop. assert (H' : w = w0 \/ w_result w0 = None /\ exists before now1 now2 after m2, l = before ++ Poll id now1 now2 :: after /\
    run_actions before m1 = Some m2 /\ w = poll now1 now2 m2 w0 /\ now1 <= now2).
  { clear Hres. revert m w Hrun Hw Hl. induction l as [|a l IH] using rev_ind; intros m w Hrun Hw Hl.
    { injection Hrun as <-. left. congruence. }
    rewrite run_actions_snoc in Hrun. destruct (run_actions l m1) as [m2|] eqn:El; [|done]. cbn in Hrun.
    apply Forall_app in Hl as [Hl [Ha _]%Forall_cons].
    assert (exists w2, waiters m2 !! id = Some w2) as [w2 Hw2].
    { clear -El Hw1. revert m2 El. induction l as [|a l IH] using rev_ind; intros m2 El; [injection El as <-; eauto|].
      rewrite run_actions_snoc in El. destruct (run_actions l m1) as [m3|]; [|done]. destruct (IH m3 eq_refl) as [w3 Hw3].
      destruct (exec_waiter a m3 m2 id w3 El Hw3) as [?|(n1 & n2 & _ & _ & ?)]; eauto. }
    destruct (IH m2 w2 eq_refl Hw2 Hl) as [->|(Hn & before & n1 & n2 & after & m3 & -> & Hb & -> & Hle)].
    - destruct (exec_waiter a m2 m id w0 Hrun Hw2) as [Hx|(n1 & n2 & -> & Hn & Hx)]; [left; congruence|].
      right. split; [done|]. exists l, n1, n2, [], m2. split_and!; [done|exact El|congruence|exact Ha].
    - destruct (exec_waiter a m2 m id _ Hrun Hw2) as [Hx|(n3 & n4 & -> & Hn' & Hx)].
      + right. split; [done|]. exists before, n1, n2, (after ++ [a]), m3. rewrite <-app_assoc. split_and!; [done|exact Hb|congruence|exact Hle].
      + right. split; [done|]. assert (poll n1 n2 m3 w0 = w0) as E3.
        { unfold poll in Hn' |- *. by destruct (_ || _). }
        rewrite E3 in Hx. exists (before ++ Poll id n1 n2 :: after), n3, n4, [], m2. split_and!; [done|exact El|congruence|exact Ha]. }
  destruct H' as [->|(Hn & before & now1 & now2 & after & m2 & -> & Hb & -> & Hle)].
  - subst w0. cbn [w_result] in Hres. destruct (timeoutMs =? 0); [by injection Hres as <-|done].
  - subst w0. cbn [w_result] in Hn. destruct (timeoutMs =? 0); [done|]. exists before, now1, now2, after, m2.
    unfold poll in Hres. destruct (_ || _) eqn:Eb; [|done]. cbn [w_result w_currentTopology w_verifyWriter w_end] in *.
    destruct (Z.ltb_spec (now + timeoutMs * Millisecond) now2); [done|]. injection Hres as <-.
    apply orb_true_iff in Eb as [[Hc Hv]%andb_true_iff|Hend%Z.ltb_lt]; [|lia].
    apply negb_true_iff, bool_decide_eq_false in Hc. split_and!; [done|done|lia|by intros Ex; apply Hc| |done].
    intros ->. exact Hv.
Qed.

(** ** Routines that gave up *)

(** All routines have ended without a writer, and the map still has them. *)
Record stuck (m : M) : Prop := {
  st_runs : stop m = false /\ resetting m = false;
  st_main : match main_pc m with MTop | MWatch | MCheck | MDelayStart _ | MDelay _ => True | _ => False end;
  st_panic : isVerifiedWriterConn m = false;
  st_routines : hostRoutines m <> ∅;
  st_done : forall id r, allRoutines m !! id = Some r -> r_pc r = RDone;
  st_writer : hostRoutinesWriterConn m = None;
  st_latest : forall l, l ∈ hostRoutinesLatestTopology m -> is_Some (hostRoutines m !! host_name_at m l);
  st_topologies : readerTopologiesById m = ∅
}.
(** The connections that were opened, and the topology but for its expiry. *)
Definition no_progress (m m' : M) : Prop :=
  opened m' = opened m /\ (storedTopology m' = storedTopology m \/ storedTopology m' = None).

Lemma spawn_missing_none hosts m :
  (forall l, l ∈ hosts -> is_Some (hostRoutines m !! host_name_at m l)) -> foldl spawn_missing m hosts = m.
Proof.
  induction hosts as [|l hosts IH]; intros Hl; [done|]. cbn [foldl]. unfold spawn_missing at 2.
  rewrite bool_decide_true by (apply Hl; by left). apply IH. intros l' Hl'. apply Hl. by right.
Qed.
Lemma stuck_main pc m : match pc with MTop | MWatch | MCheck | MDelayStart _ | MDelay _ => True | _ => False end -> stuck m -> stuck (set_main pc m).
Proof. intros Hpc []. by split. Qed.
Lemma stuck_exec_main tick i m m' : stuck m -> exec_main tick i m = Some m' -> stuck m' /\ no_progress m m'.
Proof.
  intros Hs E. pose proof Hs as [[Hstop Hreset] Hmain Hpanic Hroutines Hdone Hwriter Hlatest Htop].
  unfold exec_main in E. destruct (main_pc m) eqn:Hpc; try done; destruct i; try discriminate E; injection E as <-.
  - unfold main_top. rewrite Hstop. unfold isInPanicMode. rewrite Hpanic, orb_true_r, bool_decide_false by done.
    split; [by apply stuck_main|]. split; [done|by left].
  - unfold main_watch. rewrite Hwriter. assert (Hm : (if hostRoutinesStop m then m else foldl spawn_missing m (hostRoutinesLatestTopology m)) = m).
    { destruct (hostRoutinesStop m); [done|by apply spawn_missing_none]. }
    rewrite Hm. split; [by apply stuck_main|]. split; [done|by left].
  - assert (Hc : checkForStableReaderTopologies tick now m = m <| stableTopologiesStart := 0 |>).
    { unfold checkForStableReaderTopologies, readers_agree, same_keys. rewrite Htop.
      assert (range tick (∅ : gmap string (list mloc)) = []) as ->; [|by rewrite andb_false_r].
      apply Permutation_nil_r. rewrite range_perm. by rewrite map_to_list_empty. }
    rewrite Hc. split; [apply stuck_main; [done|]; clear - Hs; destruct Hs; by split|]. split; [done|by left].
  - split; [by apply stuck_main|]. split; [done|by left].
  - unfold main_delay. split; [apply stuck_main; [by destruct (_ && _)|done]|]. split; [done|by left].
Qed.

Lemma stuck_exec a m m' : stuck m -> a <> ResetBegin -> a <> Stop -> exec a m = Some m' -> stuck m' /\ no_progress m m'.
Proof.
  intros Hs Hr Hst E. destruct a as [tick i|id i|id v t now|id n1 n2| | | | |]; try done; cbn [exec] in E.
  - by eapply stuck_exec_main.
  - destruct (allRoutines m !! id) as [r|] eqn:Hid; [|done]. unfold exec_routine in E. rewrite (st_done m Hs id r Hid) in E. by destruct i.
  - unfold start_refresh in E. destruct (waiters m !! id); [done|]. injection E as <-.
    assert (Hd : stuck (if v then drop_connection m else m) /\ no_progress m (if v then drop_connection m else m)).
    { destruct v; [|split; [done|split; [done|by left]]]. destruct Hs. unfold drop_connection, closeConnection. destruct (monitoringConn m);
        [case_bool_decide|]; (split; [by split|]); (split; [done|by left]). }
    destruct Hd as [[] Hn]. split; [by split|exact Hn].
  - unfold poll_refresh in E. destruct (waiters m !! id) as [w|]; [|done]. destruct (w_result w); [done|]. injection E as <-.
    destruct Hs. split; [by split|]. split; [done|by left].
  - destruct (st_runs m Hs) as [_ Hre]. by rewrite Hre in E.
  - injection E as <-. destruct Hs. split; [by split|]. split; [done|by right].
  - pose proof (st_main m Hs) as Hmn. by destruct (main_pc m).
Qed.

(** C40. Once every routine has ended without a writer, as they do when the
    logins are refused, the monitor opens no connection and stores no
    topology again: whatever is answered and whoever asks for a refresh, it
    stays so until a reset event or the stop, for the map of the routines
    still has the ended ones. *)
Theorem monitor_never_recovers m m' :
  stuck m -> rtc (fun m m' => exists a, a <> ResetBegin /\ a <> Stop /\ exec a m = Some m') m m' -> stuck m' /\ no_progress m m'.
Proof.
  intros Hs Hr. induction Hr as [m|m m1 m2 (a & Hr & Hst & E) _ IH]; [split; [done|split; [done|by left]]|].
  destruct (stuck_exec a m m1 Hs Hr Hst E) as [Hs1 [Ho1 Ht1]]. destruct (IH Hs1) as [Hs2 [Ho2 Ht2]]. split; [done|].
  split; [congruence|]. destruct Ht2 as [->|]; [done|by right].
Qed.

Lemma run_reachable l heap m : run_actions l (NewMonitor heap) = Some m -> reachable m.
Proof.
  intros E. exists heap. unfold run_actions in E.
  assert (Hg : forall l m0, foldl (fun m a => m ≫= exec a) (Some m0) l = Some m -> rtc mon_step m0 m).
  { clear. induction l as [|a l IH]; intros m0; cbn [foldl]; [intros [= ->]; constructor|]. cbn [mbind option_bind].
    destruct (exec a m0) as [m1|] eqn:Ea.
    - intros Hl. econstructor; [by exists a|by apply IH].
    - intros Hl. assert (Hn : foldl (fun m a => m ≫= exec a) None l = None :> option M) by (clear; induction l; done). congruence. }
  by apply (Hg l).
Qed.
End Monitor.

(** The delay between connection attempts of a routine is between half
    of and the whole backoff, which doubles from 100 to 6400 milliseconds
    over the first seven attempts and stays there; the bound of ten seconds
    is never met. *)
Theorem backoff_bounds rand attempt :
  0 <= rand < 2 ^ 53 -> 0 <= attempt ->
  let backoff := initialBackoffMs * 2 ^ Z.min attempt 6 in
  backoff / 2 * Millisecond <= calculateBackoffWithJitter rand attempt <= backoff * Millisecond /\ backoff < maxBackoffMs.
Proof.
  intros Hr Ha backoff. unfold calculateBackoffWithJitter. cbv zeta.
  assert (He : 0 <= Z.min attempt 6 <= 6) by lia.
  assert (E6 : 2 ^ Z.min attempt 6 <= 2 ^ 6) by (apply Z.pow_le_mono_r; lia).
  assert (E1 : 1 <= 2 ^ Z.min attempt 6) by (change 1 with (2 ^ 0); apply Z.pow_le_mono_r; lia).
  assert (Hb : backoff = 50 * 2 ^ Z.min attempt 6 * 2) by (unfold backoff, initialBackoffMs; lia).
  rewrite Hb, Z.div_mul by lia. rewrite (proj2 (Z.eqb_neq _ _)) by lia.
  set (p := 2 ^ Z.min attempt 6) in *. change (2 ^ 6) with 64 in E6. change (2 ^ 53) with 9007199254740992 in *.
  change (2 ^ 54) with 18014398509481984. unfold initialBackoffMs, maxBackoffMs, Millisecond. rewrite Z.min_l by lia. split; [|lia]. split.
  - apply Z.mul_le_mono_nonneg_r; [lia|]. apply Z.div_le_lower_bound; [lia|]. nia.
  - apply Z.mul_le_mono_nonneg_r; [lia|]. apply Z.lt_succ_r, Z.div_lt_upper_bound; [lia|]. nia.
Qed.

(** ** Examples: a cluster of two hosts *)

#[local] Instance host_unprepared : PrepareHost := None.
Definition cluster_host (name role : string) : HostInfo :=
  mkHostInfo name name 3306 AVAILABLE role (Some ∅) (Some ∅) 100 0.
Definition two_hosts : list HostInfo := [cluster_host "a" WRITER; cluster_host "b" READER].
Definition start_heap : gmap mloc HostInfo := {[0%nat := cluster_host "db.cluster-xyz1.us-east-2.rds.amazonaws.com" WRITER]}.
Local Abbreviation Act := (Action (C := nat)).
Definition run_monitor (l : list Act) : option (Monitor nat) := run_actions 0%nat None 100 1000 l (NewMonitor start_heap).
Definition plain_main : Act := Main 0 INone.

(** The first connection is not to the writer; the two hosts get a routine. *)
Definition to_routines : list Act :=
  [plain_main; plain_main; Main 0 (IConnect (Connected 1%nat)); plain_main; Main 0 (IAsk (Ok false) ("", "") None);
   Main 0 (IQuery (Ok two_hosts)); plain_main].
Definition writer_found (id c : nat) : list Act :=
  [HostRoutine id INone; HostRoutine id (IConnect (Connected c)); HostRoutine id (IAsk (Ok true) ("", "") None);
   HostRoutine id (IRole WRITER); HostRoutine id INone].
Definition informed (id : nat) : list Act := [HostRoutine id (IQuery (Ok two_hosts)); HostRoutine id INone; HostRoutine id INone].
Definition next_round : list Act := [Main 0 (INow 0); Main 0 (INow 0); Main 0 (IDelay 1000 false); plain_main].
Definition to_pick : list Act := to_routines ++ writer_found 0 2 ++ informed 0 ++ next_round ++ [plain_main].
Definition picking : Monitor nat := default (NewMonitor ∅) (run_monitor to_pick).

Lemma picking_reachable : reachable 0%nat None 100 1000 picking.
Proof.
  apply (run_reachable 0%nat None 100 1000 to_pick start_heap). unfold picking, run_monitor.
  assert (Hs : bool_decide (is_Some (run_actions 0%nat None 100 1000 to_pick (NewMonitor start_heap))) = true) by by vm_compute.
  apply bool_decide_eq_true in Hs as [m ->]. done.
Qed.

Lemma picked_writer_answered_witness :
  exists m' h, main_pc picking = MPick 2%nat h /\ monitoringConn picking = Some 1%nat /\ monitoringConn m' = Some 2%nat /\
    ConnClosed 1%nat ∈ events m' /\ AnsweredRole 2%nat WRITER ∈ events picking.
Proof.
  destruct (exec 0%nat None 100 1000 plain_main picking) as [m'|] eqn:E; [|by vm_compute in E].
  assert (exists h, main_pc picking = MPick 2%nat h) as [h Hpc] by (vm_compute; by eexists).
  exists m', h.
  destruct (picked_writer_answered 0%nat None 100 1000 picking 2%nat h m' 0 INone picking_reachable Hpc E) as (Hm & _ & Hr & _).
  split; [done|]. split; [by vm_compute|]. split; [exact Hm|]. split; [|exact Hr].
  vm_compute in E. injection E as <-. apply (bool_decide_unpack _). by vm_compute.
Defined.

(** The second routine finds the claim and closes its own connection. *)
Definition late_claim : Monitor nat :=
  default (NewMonitor ∅) (run_monitor (to_routines ++ writer_found 0 2 ++ [HostRoutine 1 INone; HostRoutine 1 (IConnect (Connected 3%nat));
    HostRoutine 1 (IAsk (Ok true) ("", "") None); HostRoutine 1 (IRole WRITER)])).
Lemma routines_spare_monitor_connections_witness :
  exists m', exec 0%nat None 100 1000 (HostRoutine 1 INone) late_claim = Some m' /\ ConnClosed 3%nat ∈ events m' /\ ConnClosed 2%nat ∉ events m'.
Proof.
  destruct (exec 0%nat None 100 1000 (HostRoutine 1 INone) late_claim) as [m'|] eqn:E; [|by vm_compute in E].
  exists m'. split; [done|]. split; [vm_compute in E; injection E as <-; apply (bool_decide_unpack _); by vm_compute|].
  intros Hin. assert (Hn : ConnClosed 2%nat ∉ events late_claim) by (apply (bool_decide_unpack _); by vm_compute). apply Hn.
  apply (routines_spare_monitor_connections 0%nat None 100 1000 late_claim m' 1 INone 2%nat); [|right; left; by vm_compute|exact E|exact Hin].
  apply (run_reachable 0%nat None 100 1000 (to_routines ++ writer_found 0 2 ++ [HostRoutine 1 INone; HostRoutine 1 (IConnect (Connected 3%nat));
    HostRoutine 1 (IAsk (Ok true) ("", "") None); HostRoutine 1 (IRole WRITER)]) start_heap). unfold late_claim, run_monitor.
  match goal with |- _ = Some (default _ ?o) => assert (Hs : bool_decide (is_Some o) = true) by by vm_compute end.
  apply bool_decide_eq_true in Hs as [m ->]. done.
Defined.

(** Both routines end because their logins are refused. *)
Definition refused (id : nat) : list Act := [HostRoutine id INone; HostRoutine id (IConnect LoginError); HostRoutine id INone].
Definition all_refused : Monitor nat := default (NewMonitor ∅) (run_monitor (to_routines ++ refused 0 ++ refused 1)).
Lemma all_refused_stuck : stuck all_refused.
Proof.
  split; [by vm_compute..| | | |by vm_compute].
  - intros id r Hr. assert (Hall : map_Forall (fun _ r => is_done r = true) (allRoutines all_refused)) by (apply (bool_decide_unpack _); by vm_compute).
    specialize (Hall id r Hr). unfold is_done in Hall. by destruct (r_pc r).
  - by vm_compute.
  - intros l Hl. vm_compute in Hl. by apply elem_of_nil in Hl.
Qed.
Lemma monitor_never_recovers_witness :
  exists m', run_actions 0%nat None 100 1000 [Main 0 (INow 0); Main 0 (INow 0); Main 0 (IDelay 1000 false); plain_main; plain_main] all_refused = Some m' /\
    stuck m' /\ opened m' = opened all_refused.
Proof.
  set (l := [Main 0 (INow 0); Main 0 (INow 0); Main 0 (IDelay 1000 false); plain_main; plain_main]).
  destruct (run_actions 0%nat None 100 1000 l all_refused) as [m'|] eqn:E; [|by vm_compute in E]. exists m'. split; [done|].
  destruct (monitor_never_recovers 0%nat None 100 1000 all_refused m' all_refused_stuck) as (Hs & Ho & _); [|by split].
  revert E. generalize all_refused. subst l. intros m E. cbn [run_actions foldl mbind option_bind] in E.
  repeat match type of E with
  | context [exec _ _ _ _ ?a ?m0] =>
      destruct (exec 0%nat None 100 1000 a m0) eqn:?; cbn [mbind option_bind] in E; [|discriminate E]
  end.
  injection E as <-. repeat (eapply rtc_l; [eexists; split; [|split]; [| |eassumption]; discriminate|]). apply rtc_refl.
Defined.

(** A caller that asks for a verified writer while the routines look for it. *)
Definition before_call : Monitor nat := default (NewMonitor ∅) (run_monitor to_routines).
Definition called : Monitor nat := default (NewMonitor ∅) (exec 0%nat None 100 1000 (ForceRefresh 0 true 1000 0) before_call).
Definition until_answered : list Act :=
  writer_found 0 2 ++ informed 0 ++ next_round ++ [plain_main; plain_main; Main 0 (INow 0); Poll 0 5 6].
Definition answered : Monitor nat := default (NewMonitor ∅) (run_actions 0%nat None 100 1000 until_answered called).
Lemma refresh_returns_verified_witness :
  exists before now1 now2 after m2 hosts, until_answered = before ++ Poll 0 now1 now2 :: after /\
    run_actions 0%nat None 100 1000 before called = Some m2 /\ storedTopologyNo m2 <> storedTopologyNo before_call /\
    isVerifiedWriterConn m2 = true /\ Some hosts = snd <$> storedTopology m2.
Proof.
  assert (Hw : match waiters answered !! 0%nat ≫= w_result with Some (Ok (Some _)) => true | _ => false end = true) by by vm_compute.
  assert (Hc : bool_decide (is_Some (exec 0%nat None 100 1000 (ForceRefresh 0 true 1000 0) before_call)) = true) by by vm_compute.
  assert (Ha : bool_decide (is_Some (run_actions 0%nat None 100 1000 until_answered called)) = true) by by vm_compute.
  apply bool_decide_eq_true in Hc as [m1 Hc]. apply bool_decide_eq_true in Ha as [m Ha].
  assert (Em1 : called = m1) by (unfold called; by rewrite Hc). assert (Em : answered = m) by (unfold answered; by rewrite Ha).
  rewrite Em in Hw. rewrite Em1 in Ha |- *.
  destruct (waiters m !! 0%nat) as [w|] eqn:Ew; [|discriminate Hw]. cbn [mbind option_bind] in Hw.
  destruct (w_result w) as [[[hosts|]|e|]|] eqn:Er; try discriminate Hw.
  destruct (refresh_returns_verified 0%nat None 100 1000 0 true 1000 0 before_call m1 until_answered m w (Some hosts))
    as (before & now1 & now2 & after & m2 & Hl & Hb & _ & Hne & Hv & Hh); [exact Hc|repeat constructor; done|exact Ha|exact Ew|exact Er|].
  exists before, now1, now2, after, m2, hosts. split; [exact Hl|]. split; [exact Hb|]. split; [exact Hne|]. split; [by apply Hv|exact Hh].
Defined.

(** Two readers report the same topology for more than fifteen seconds. *)
Definition agreeing : Monitor nat :=
  (NewMonitor (C := nat) (<[1%nat := cluster_host "a" WRITER]> (<[2%nat := cluster_host "b" READER]> start_heap)))
    <| storedTopology := Some (0%nat, [1; 2]%nat) |> <| completedOneCycle := {["a" := true; "b" := true]} |>
    <| readerTopologiesById := {["b" := [2; 1]%nat; "c" := [1; 2]%nat]} |> <| stableTopologiesStart := 1 |>.
Lemma stable_topology_agreed_witness :
  exists id hosts, readerTopologiesById agreeing !! id = Some hosts /\
    checkForStableReaderTopologies 0 (16 * Second) agreeing = share_topology hosts (agreeing <| stableTopologiesStart := 0 |>).
Proof.
  destruct (stable_topology_agreed 0 (16 * Second) agreeing) as (_ & _ & _ & id & hosts & Hid & _ & E); [|by exists id, hosts].
  apply (bool_decide_unpack _). by vm_compute.
Defined.

Lemma backoff_bounds_witness :
  3200 * Millisecond <= calculateBackoffWithJitter (2 ^ 52) 9 <= 6400 * Millisecond.
Proof. destruct (backoff_bounds (2 ^ 52) 9) as [Hb _]; [lia|lia|]. exact Hb. Defined.

(** ** What the code gets wrong *)

(** A stored topology that expires counts as an update: the caller that waits
    for a verified writer gets no hosts and no error. *)
Example expiry_counts_as_update :
  (m ← run_monitor (to_routines ++ [ForceRefresh 0 false 1000 0; Expire; Poll 0 5 6]); w ← waiters m !! 0%nat; w_result w) = Some (Ok None).
Proof. by vm_compute. Qed.

(** A caller drops the connection after the main routine took it over and
    before it is marked as verified. The main routine then finds no
    connection and a verified writer, and starts nothing as long as the stored
    topology lives: three more rounds leave it where it was. *)
Definition idle_round : list Act := [plain_main; plain_main; plain_main; Main 0 (INow 0); Main 0 (INow 0); Main 0 (IDelay 50 true)].
Definition lost : list Act :=
  to_pick ++ [plain_main; ForceRefresh 0 true 1000 0; Main 0 (INow 0); HostRoutine 1 INone; HostRoutine 1 INone; plain_main].
Definition summary (m : Monitor nat) : option nat * bool * nat * bool :=
  (monitoringConn m, isVerifiedWriterConn m, size (hostRoutines m), all_done m).
Example verified_without_connection :
  summary <$> run_monitor lost = Some (None, true, 0%nat, true) /\
  summary <$> run_monitor (lost ++ idle_round ++ idle_round ++ idle_round) = Some (None, true, 0%nat, true).
Proof. by vm_compute. Qed.

(** The monitor is stopped between the claim of a writer connection and its
    use: the connection stays open. *)
Example stop_leaks_claimed_connection :
  (fun m => (hostRoutinesWriterConn m, bool_decide (ConnClosed 2%nat ∈ events m))) <$>
    run_monitor (to_routines ++ writer_found 0 2 ++ [Stop] ++ informed 0 ++ [HostRoutine 1 INone; HostRoutine 1 INone] ++ next_round ++ [StopEnd]) =
  Some (Some 2%nat, false).
Proof. by vm_compute. Qed.
