(* ===== verification/Regions.v ===== *)
(** * Regions: the AWS regions and how one is found for a host
    (awssql/region_util/region.go, region_util.go). *)

From S2P Require Import Prelude.
From S2P Require Import Properties.
From S2P Require Import Regex.
From S2P Require Import RdsUtils.
From S2P Require Import Dsn.
From S2P Require Import Dialects.
From Stdlib Require Import Ascii.

Definition Region : Type := string.

Definition AP_SOUTH_2 : Region := "ap-south-2".
Definition AP_SOUTH_1 : Region := "ap-south-1".
Definition EU_SOUTH_1 : Region := "eu-south-1".
Definition EU_SOUTH_2 : Region := "eu-south-2".
Definition US_GOV_EAST_1 : Region := "us-gov-east-1".
Definition ME_CENTRAL_1 : Region := "me-central-1".
Definition IL_CENTRAL_1 : Region := "il-central-1".
Definition US_ISOF_SOUTH_1 : Region := "us-isof-south-1".
Definition CA_CENTRAL_1 : Region := "ca-central-1".
Definition MX_CENTRAL_1 : Region := "mx-central-1".
Definition EU_CENTRAL_1 : Region := "eu-central-1".
Definition US_ISO_WEST_1 : Region := "us-iso-west-1".
Definition EU_CENTRAL_2 : Region := "eu-central-2".
Definition EU_ISOE_WEST_1 : Region := "eu-isoe-west-1".
Definition US_WEST_1 : Region := "us-west-1".
Definition US_WEST_2 : Region := "us-west-2".
Definition AF_SOUTH_1 : Region := "af-south-1".
Definition EU_NORTH_1 : Region := "eu-north-1".
Definition EU_WEST_3 : Region := "eu-west-3".
Definition EU_WEST_2 : Region := "eu-west-2".
Definition EU_WEST_1 : Region := "eu-west-1".
Definition AP_NORTHEAST_3 : Region := "ap-northeast-3".
Definition AP_NORTHEAST_2 : Region := "ap-northeast-2".
Definition AP_NORTHEAST_1 : Region := "ap-northeast-1".
Definition ME_SOUTH_1 : Region := "me-south-1".
Definition SA_EAST_1 : Region := "sa-east-1".
Definition AP_EAST_1 : Region := "ap-east-1".
Definition CN_NORTH_1 : Region := "cn-north-1".
Definition CA_WEST_1 : Region := "ca-west-1".
Definition US_GOV_WEST_1 : Region := "us-gov-west-1".
Definition AP_SOUTHEAST_1 : Region := "ap-southeast-1".
Definition AP_SOUTHEAST_2 : Region := "ap-southeast-2".
Definition US_ISO_EAST_1 : Region := "us-iso-east-1".
Definition AP_SOUTHEAST_3 : Region := "ap-southeast-3".
Definition AP_SOUTHEAST_4 : Region := "ap-southeast-4".
Definition AP_SOUTHEAST_5 : Region := "ap-southeast-5".
Definition US_EAST_1 : Region := "us-east-1".
Definition US_EAST_2 : Region := "us-east-2".
Definition AP_SOUTHEAST_7 : Region := "ap-southeast-7".
Definition CN_NORTHWEST_1 : Region := "cn-northwest-1".
Definition US_ISOB_EAST_1 : Region := "us-isob-east-1".
Definition US_ISOF_EAST_1 : Region := "us-isof-east-1".

Definition ALL_REGIONS : gset Region := list_to_set [
  AP_SOUTH_2; AP_SOUTH_1; EU_SOUTH_1; EU_SOUTH_2; US_GOV_EAST_1; ME_CENTRAL_1;
  IL_CENTRAL_1; US_ISOF_SOUTH_1; CA_CENTRAL_1; MX_CENTRAL_1; EU_CENTRAL_1; US_ISO_WEST_1;
  EU_CENTRAL_2; EU_ISOE_WEST_1; US_WEST_1; US_WEST_2; AF_SOUTH_1; EU_NORTH_1;
  EU_WEST_3; EU_WEST_2; EU_WEST_1; AP_NORTHEAST_3; AP_NORTHEAST_2; AP_NORTHEAST_1;
  ME_SOUTH_1; SA_EAST_1; AP_EAST_1; CN_NORTH_1; CA_WEST_1; US_GOV_WEST_1;
  AP_SOUTHEAST_1; AP_SOUTHEAST_2; US_ISO_EAST_1; AP_SOUTHEAST_3; AP_SOUTHEAST_4; AP_SOUTHEAST_5;
  US_EAST_1; US_EAST_2; AP_SOUTHEAST_7; CN_NORTHWEST_1; US_ISOB_EAST_1; US_ISOF_EAST_1].
#[global] Arguments ALL_REGIONS : simpl never.

Definition GetRegionFromRegionString (regionString : string) : Region :=
  if bool_decide (ToLower regionString ∈ ALL_REGIONS) then ToLower regionString else "".


(** "arn:", two fields, and the region before the next colon. *)
Definition not_colon (a : ascii) : bool := negb (bool_decide (a = ":"%char)).
Definition arn_pattern : re :=
  Seq [Lit "arn:"; Star (Cls not_colon); Lit ":"; Star (Cls not_colon); Lit ":"; Grp "1" (Star (Cls not_colon)); Lit ":"].
Definition GetRegionFromArn (arn : string) : Region :=
  match match_start arn_pattern arn with
  | Some c => GetRegionFromRegionString (submatch "1" c)
  | None => ""
  end.

Section Hosts.
Context `{PrepareHost}.

Definition GetRegionFromHost (host : string) : Region :=
  let regionString := GetRdsRegion host in
  if is_empty regionString then "" else GetRegionFromRegionString regionString.

Definition GetRegionFromProps (props : option properties) (prop : AwsWrapperProperty) : Region :=
  let regionString : string := GetVerifiedWrapperPropertyValue props prop in
  if is_empty regionString then "" else GetRegionFromRegionString regionString.

Definition GetRegion (host : string) (props : option properties) (prop : AwsWrapperProperty) : Region :=
  let region := GetRegionFromProps props prop in
  if is_empty region then GetRegionFromHost host else region.

(** A region that is found is one of the regions. *)
Lemma GetRegion_known host props prop : GetRegion host props prop = "" \/ GetRegion host props prop ∈ ALL_REGIONS.
Proof.
  assert (Hs : forall s, GetRegionFromRegionString s = "" \/ GetRegionFromRegionString s ∈ ALL_REGIONS).
  { intros s. unfold GetRegionFromRegionString. case_bool_decide; [by right|by left]. }
  unfold GetRegion, GetRegionFromProps, GetRegionFromHost. cbv zeta. repeat case_match; auto.
Qed.
End Hosts.

Example arn_region : GetRegionFromArn "arn:aws:secretsmanager:us-east-2:346558184882:secret:x" = US_EAST_2.
Proof. by vm_compute. Qed.
