(* ===== verification/SqlMethods.v ===== *)
(** * SqlMethods: what a statement does to the transaction
    (awssql/utils/sql_method_utils.go, method_helper.go,
    [GetQueryFromSqlOrMethodArgs] of utils.go). *)

From S2P Require Import Prelude.
From S2P Require Import Methods.
From S2P Require Import HostInfo.
From S2P Require Import Regex.
From S2P Require Import RdsUtils.
From S2P Require Import Dsn.
From S2P Require Import Dialects.
From Stdlib Require Import Ascii.

(** The dynamic types of a method argument the code tells apart. *)
Inductive MethodArg := ArgString (s : string) | ArgSlice (l : list MethodArg) | ArgOther.

(** [None] is a nil slice of arguments. *)
Definition MethodArgs : Type := option (list MethodArg).

(** [methodArgs[0].(string)] *)
Definition first_string (methodArgs : list MethodArg) : Result (option string) :=
  match methodArgs with
  | [] => Panic
  | ArgString s :: _ => Ok (Some s)
  | _ => Ok None
  end.

Definition GetQueryFromSqlOrMethodArgs (sql : string) (methodArgs : MethodArgs) : string :=
  if is_empty sql then
    match default [] methodArgs with
    | ArgString str :: _ => str
    | ArgSlice (ArgString str :: _) :: _ => str
    | _ => sql
    end
  else sql.

(** The pattern \s+ replaced by one blank. *)
Fixpoint skip_space (s : string) : string :=
  match s with String a r => if re_space a then skip_space r else s | EmptyString => EmptyString end.
Fixpoint collapse_spaces (in_space : bool) (s : string) : string :=
  match s with
  | EmptyString => EmptyString
  | String a r =>
      if re_space a then (if in_space then collapse_spaces true r else String " " (collapse_spaces true r))
      else String a (collapse_spaces false r)
  end.

Definition parseMultiStatementQueries (query : string) : list string :=
  if is_empty query then []
  else let query := TrimSpace (collapse_spaces false query) in
       if is_empty query then [] else Split query ";"%char.

(** The rest of the text after the first end of a comment on this line. *)
Fixpoint after_close (s : string) : option string :=
  match CutPrefix "*/" s with
  | Some r => Some r
  | None => match s with
            | String a r => if Nat.eqb (nat_of_ascii a) 10 then None else after_close r
            | EmptyString => None
            end
  end.
(** A match of \s*/\*(.*?)\*/\s* at the start of the text. *)
Definition comment_at (s : string) : option string :=
  r ← CutPrefix "/*" (skip_space s); skip_space <$> after_close r.
(** Every match replaced by one blank; a match is not empty. *)
Fixpoint strip_comments_loop (fuel : nat) (s : string) : string :=
  match fuel with
  | O => s
  | S fuel =>
      match comment_at s with
      | Some rest => String " " (strip_comments_loop fuel rest)
      | None => match s with String a r => String a (strip_comments_loop fuel r) | EmptyString => EmptyString end
      end
  end.
Definition strip_comments (s : string) : string := strip_comments_loop (String.length s) s.
Definition clean_statement (statement : string) : string := TrimSpace (strip_comments statement).

Definition GetSeparateSqlStatements (query : string) : list string :=
  FilterSlice (clean_statement <$> parseMultiStatementQueries query) (fun stmt => negb (is_empty stmt)).

Fixpoint set_read_only_loop (statements : list string) (dialectFunc : string -> bool * bool) : bool * bool :=
  match statements with
  | [] => (false, false)
  | statement :: rest =>
      let cleanStmt := clean_statement statement in
      if is_empty cleanStmt then set_read_only_loop rest dialectFunc
      else let '(readOnly, found) := dialectFunc cleanStmt in
           if found then (readOnly, true) else set_read_only_loop rest dialectFunc
  end.
Definition DoesSetReadOnly (query : string) (dialectFunc : string -> bool * bool) : bool * bool :=
  set_read_only_loop (parseMultiStatementQueries query) dialectFunc.

Definition SET_AUTOCOMMIT_0 : string := "set autocommit = 0".
Definition doesStatementStartTransaction (statements : list string) : bool :=
  existsb (fun statement => let lowerStatement := ToLower statement in
    HasPrefix lowerStatement "begin" || HasPrefix lowerStatement "start transaction" ||
    bool_decide (lowerStatement = SET_AUTOCOMMIT_0)) statements.
Definition doesStatementCloseTransaction (statements : list string) : bool :=
  existsb (fun statement => let lowerStatement := ToLower statement in
    HasPrefix lowerStatement "commit" || HasPrefix lowerStatement "rollback" ||
    HasPrefix lowerStatement "end" || HasPrefix lowerStatement "abort") statements.

Definition DoesOpenTransaction (methodName : string) (methodArgs : MethodArgs) : Result bool :=
  if bool_decide (methodName = CONN_BEGIN_TX) || bool_decide (methodName = CONN_BEGIN) then Ok true
  else match methodArgs with
       | None => Ok false
       | Some args =>
           (try o := first_string args in
            match o with
            | None => Ok false
            | Some query => if Nat.eqb (String.length query) 0 then Ok false
                            else Ok (doesStatementStartTransaction (GetSeparateSqlStatements query))
            end)%go
       end.
Definition DoesCloseTransaction (methodName : string) (methodArgs : MethodArgs) : Result bool :=
  if bool_decide (methodName = TX_ROLLBACK) || bool_decide (methodName = TX_COMMIT) then Ok true
  else match methodArgs with
       | None => Ok false
       | Some args =>
           (try o := first_string args in
            match o with
            | None => Ok false
            | Some query => Ok (doesStatementCloseTransaction (GetSeparateSqlStatements query))
            end)%go
       end.

(** ** Fuel *)

Lemma skip_space_length s : (String.length (skip_space s) <= String.length s)%nat.
Proof. induction s as [|a s IH]; [done|]. cbn [skip_space]. destruct (re_space a); cbn [String.length]; lia. Qed.

Lemma CutPrefix_length p s r : CutPrefix p s = Some r -> (String.length s = String.length p + String.length r)%nat.
Proof. intros ->%CutPrefix_Some. apply string_length_app. Qed.

Lemma after_close_length s r : after_close s = Some r -> (String.length r < String.length s)%nat.
Proof.
  induction s as [|a s IH]; [done|]. cbn [after_close]. destruct (CutPrefix "*/" (String a s)) as [r'|] eqn:E.
  - intros [= <-]. apply CutPrefix_length in E. simpl in E |- *. lia.
  - destruct (Nat.eqb _ _); [done|]. intros Hr%IH. cbn [String.length]. lia.
Qed.

Lemma comment_at_length s r : comment_at s = Some r -> (String.length r < String.length s)%nat.
Proof.
  unfold comment_at. pose proof (skip_space_length s). destruct (CutPrefix "/*" (skip_space s)) as [t|] eqn:E; [|done].
  cbn [mbind option_bind]. destruct (after_close t) as [u|] eqn:Eu; [|done]. cbn. intros [= <-].
  apply CutPrefix_length in E. apply after_close_length in Eu. pose proof (skip_space_length u). lia.
Qed.

(** The length of the text is enough fuel. *)
Lemma strip_comments_fuel fuel s : (String.length s <= fuel)%nat -> strip_comments_loop fuel s = strip_comments s.
Proof.
  unfold strip_comments. remember (String.length s) as n eqn:En. assert (Hn : (String.length s <= n)%nat) by lia. clear En.
  revert s n Hn. induction fuel as [|fuel IH]; intros s n Hs Hn.
  { assert (n = 0)%nat as -> by lia. done. }
  destruct n as [|n].
  { destruct s; [|simpl in Hs; lia]. done. }
  cbn [strip_comments_loop]. destruct (comment_at s) as [r|] eqn:E.
  - apply comment_at_length in E. f_equal. apply IH; lia.
  - destruct s as [|a s]; [done|]. simpl in Hs. f_equal. apply IH; lia.
Qed.

(** ** Statements *)

(** A statement as the splitting leaves it: no separator, no comment, single
    blanks, and none at the ends. *)
Definition plain_statement (s : string) : bool :=
  no_char ";" s && negb (Contains s "/*") && bool_decide (collapse_spaces false s = s) &&
  match first_byte s, last_byte s with Some a, Some b => negb (is_space a) && negb (is_space b) | _, _ => false end.

Lemma Contains_tail a s sub : Contains (String a s) sub = false -> Contains s sub = false.
Proof. cbn [Contains]. by intros [_ ?]%orb_false_iff. Qed.

Lemma Contains_skip_space s sub : Contains s sub = false -> Contains (skip_space s) sub = false.
Proof.
  induction s as [|a s IH]; [done|]. intros Hc. cbn [skip_space]. destruct (re_space a); [|done].
  apply IH. by eapply Contains_tail.
Qed.

Lemma CutPrefix_Contains sub s : Contains s sub = false -> CutPrefix sub s = None.
Proof.
  intros Hc. destruct (CutPrefix sub s) as [r|] eqn:E; [|done]. exfalso. destruct s as [|a s]; cbn [Contains] in Hc;
    unfold HasPrefix in Hc; rewrite E, bool_decide_true in Hc by (by eexists); done.
Qed.

Lemma strip_no_comment fuel s : Contains s "/*" = false -> strip_comments_loop fuel s = s.
Proof.
  revert s. induction fuel as [|fuel IH]; intros s Hs; [done|]. cbn [strip_comments_loop]. unfold comment_at.
  rewrite (CutPrefix_Contains _ (skip_space s)) by (by apply Contains_skip_space). cbn [mbind option_bind].
  destruct s as [|a s]; [done|]. f_equal. apply IH. by eapply Contains_tail.
Qed.

Lemma collapse_separator s t : forall b,
  collapse_spaces b (s +:+ String ";" t) = collapse_spaces b s +:+ String ";" (collapse_spaces false t).
Proof.
  induction s as [|a s IH]; intros b; [done|]. rewrite string_app_cons. cbn [collapse_spaces].
  destruct (re_space a); [destruct b|]; by rewrite IH, ?string_app_cons.
Qed.

Lemma collapse_Join l :
  Forall (fun s => collapse_spaces false s = s) l -> collapse_spaces false (Join l ";") = Join l ";".
Proof.
  intros Hl. induction Hl as [|s l Hs Hl IH]; [done|]. destruct l as [|t l]; [done|].
  change (Join (s :: t :: l) ";") with (s +:+ String ";" (Join (t :: l) ";")).
  by rewrite collapse_separator, Hs, IH.
Qed.

Lemma first_byte_app u v a : first_byte u = Some a -> first_byte (u +:+ v) = Some a.
Proof. by destruct u. Qed.
Lemma last_byte_app u v b : last_byte v = Some b -> last_byte (u +:+ v) = Some b.
Proof.
  intros Hv. induction u as [|a u IH]; [done|]. rewrite string_app_cons. cbn [last_byte].
  destruct (u +:+ v) eqn:E; [|done]. by destruct u, v.
Qed.

Lemma last_byte_Join l s b : last_byte s = Some b -> last_byte (Join (l ++ [s]) ";") = Some b.
Proof.
  intros Hs. induction l as [|t l IH]; [done|]. destruct (l ++ [s]) as [|u r] eqn:E; [by destruct l|].
  cbn [app]. rewrite E. change (Join (t :: u :: r) ";") with (t +:+ String ";" (Join (u :: r) ";")).
  apply last_byte_app, (last_byte_app ";"). done.
Qed.
Lemma first_byte_Join l s a : first_byte s = Some a -> first_byte (Join (s :: l) ";") = Some a.
Proof. intros Hs. destruct l as [|t l]; [done|]. by apply (first_byte_app s (String ";" (Join (t :: l) ";"))). Qed.

Lemma plain_statement_spec s : plain_statement s = true ->
  no_char ";" s = true /\ Contains s "/*" = false /\ collapse_spaces false s = s /\
  exists a b, first_byte s = Some a /\ last_byte s = Some b /\ is_space a = false /\ is_space b = false.
Proof.
  unfold plain_statement. intros Hp. to_prop. repeat (split; [done|]).
  destruct (first_byte s) as [a|], (last_byte s) as [b|]; try done. to_prop. by exists a, b.
Qed.

Lemma plain_clean s : plain_statement s = true -> clean_statement s = s /\ s <> "".
Proof.
  intros (_ & Hc & _ & a & b & Ha & Hb & Hsa & Hsb)%plain_statement_spec. unfold clean_statement, strip_comments.
  rewrite strip_no_comment by done. split; [by eapply TrimSpace_id|]. by intros ->.
Qed.

Lemma plain_Join_trim l : l <> [] -> Forall (fun s => plain_statement s = true) l -> TrimSpace (Join l ";") = Join l ";".
Proof.
  intros Hne Hl. destruct l as [|s l]; [done|].
  assert (exists a, first_byte (Join (s :: l) ";") = Some a /\ is_space a = false) as (a & Ha & Hsa).
  { apply Forall_cons in Hl as [(_ & _ & _ & a & b & Ha & _ & Hsa & _)%plain_statement_spec _]. exists a.
    split; [by apply first_byte_Join|done]. }
  assert (exists b, last_byte (Join (s :: l) ";") = Some b /\ is_space b = false) as (b & Hb & Hsb).
  { destruct (exists_last (l := s :: l)) as (r & t & E); [done|]. rewrite E in *.
    apply Forall_app in Hl as [_ [(_ & _ & _ & a' & b & _ & Hb & _ & Hsb)%plain_statement_spec _]%Forall_cons].
    exists b. split; [by apply last_byte_Join|done]. }
  by eapply TrimSpace_id.
Qed.

Lemma separate_plain l :
  Forall (fun s => plain_statement s = true) l -> GetSeparateSqlStatements (Join l ";") = l.
Proof.
  intros Hl. destruct (decide (l = [])) as [->|Hne]; [done|].
  assert (HJ : Join l ";" <> "").
  { destruct l as [|s l]; [done|]. apply Forall_cons in Hl as [(_ & _ & _ & a & b & Ha & _)%plain_statement_spec _].
    pose proof (first_byte_Join l s a Ha) as E. by intros E'; rewrite E' in E. }
  assert (Hspec : forall s, s ∈ l -> clean_statement s = s /\ s <> "").
  { intros s Hs. apply plain_clean. by eapply (proj1 (Forall_forall _ _) Hl). }
  unfold GetSeparateSqlStatements, parseMultiStatementQueries. rewrite (proj2 (is_empty_false _) HJ).
  rewrite collapse_Join, plain_Join_trim by (done || by eapply Forall_impl; [exact Hl|intros ? ?%plain_statement_spec; tauto]).
  rewrite (proj2 (is_empty_false _) HJ).
  rewrite (Split_Join ";") by (done || by eapply Forall_impl; [exact Hl|intros ? ?%plain_statement_spec; tauto]).
  clear -Hspec. induction l as [|s l IH]; [done|]. destruct (Hspec s) as [Hs Hne]; [by left|].
  rewrite fmap_cons, Hs. cbn [FilterSlice]. rewrite (proj2 (is_empty_false _) Hne). cbn [negb]. f_equal. apply IH.
  intros t Ht. apply Hspec. by right.
Qed.

(** A text of statements joined by semicolons is split back into
    exactly these statements, when none of them holds a semicolon, a
    comment, or blanks that are doubled or at an end. *)
Theorem GetSeparateSqlStatements_Join l :
  Forall (fun s => plain_statement s = true) l -> GetSeparateSqlStatements (Join l ";") = l.
Proof. apply separate_plain. Qed.

Lemma GetSeparateSqlStatements_Join_witness :
  GetSeparateSqlStatements "begin;update t set a = 1;commit" = ["begin"; "update t set a = 1"; "commit"].
Proof.
  apply (GetSeparateSqlStatements_Join ["begin"; "update t set a = 1"; "commit"]). repeat constructor.
Defined.

(** The separator is not looked for outside string literals only, and the
    keywords are prefixes, not words. *)
Example literals_close_transactions :
  DoesCloseTransaction "Conn.ExecContext" (Some [ArgString "insert into t values ('x; commit now')"]) = Ok true /\
  DoesOpenTransaction "Conn.ExecContext" (Some [ArgString "beginners_guide()"]) = Ok true.
Proof. split; by vm_compute. Qed.
