(* ===== verification/SessionState.v ===== *)
(** * SessionState: the session settings a switch of connections carries over
    (awssql/driver_infrastructure/session_state.go, session_state_service.go,
    session_state_transfer_handling.go).

    The connections are a parameter: [ExecContext] answers a statement, given
    the statements executed before it. The custom transfer and reset functions
    of the user are parameters too. The five fields are treated alike, so an
    operation of the service takes the field it works on. *)

From S2P Require Import Prelude.
From S2P Require Import Effects.
From S2P Require Import Properties.
From S2P Require Import Dsn.
From S2P Require Import Dialects.

(** ** Fields (session_state.go) *)

Record SessionStateField (T : Type) := mkField { value : option T; pristineValue : option T }.
Arguments mkField {T} _ _.
Arguments value {T} _.
Arguments pristineValue {T} _.
#[export] Instance SessionStateField_eta T : Eta (SessionStateField T) := fun f => mkField (value f) (pristineValue f).

Section Field.
Context {T : Type} `{EqDecision T}.
Implicit Types f : SessionStateField T.

Definition SetValue (v : T) f : SessionStateField T := f <| value := Some v |>.
Definition ResetValue f : SessionStateField T := f <| value := None |>.
Definition SetPristineValue (v : T) f : SessionStateField T := f <| pristineValue := Some v |>.
Definition ResetPristineValue f : SessionStateField T := f <| pristineValue := None |>.
Definition ResetField f : SessionStateField T := ResetPristineValue (ResetValue f).
Definition CanRestorePristine f : bool :=
  match pristineValue f with
  | None => false
  | Some p => match value f with Some v => bool_decide (v <> p) | None => true end
  end.

(** The body of SetupPristineX, and of SetupPristineXWithVal, after the test
    of the setting. *)
Definition setup_pristine f : SessionStateField T :=
  match pristineValue f with
  | Some _ => f
  | None => match value f with None => ResetPristineValue f | Some v => SetPristineValue v f end
  end.
Definition setup_pristine_with (v : T) f : SessionStateField T :=
  match pristineValue f with Some _ => f | None => SetPristineValue v f end.

(** What [Copy] takes over from a field. *)
Definition copy_field f : SessionStateField T :=
  match value f with Some v => SetValue v (mkField None None) | None => mkField None None end.
End Field.

Record SessionState := mkSessionState {
  AutoCommit : SessionStateField bool;
  ReadOnly : SessionStateField bool;
  Catalog : SessionStateField string;
  Schema : SessionStateField string;
  TransactionIsolation : SessionStateField TransactionIsolationLevel
}.
#[export] Instance SessionState_eta : Eta SessionState :=
  fun s => mkSessionState (AutoCommit s) (ReadOnly s) (Catalog s) (Schema s) (TransactionIsolation s).
Definition no_field {T} : SessionStateField T := mkField None None.
Definition no_session_state : SessionState := mkSessionState no_field no_field no_field no_field no_field.

Definition Copy (s : SessionState) : SessionState :=
  mkSessionState (copy_field (AutoCommit s)) (copy_field (ReadOnly s)) (copy_field (Catalog s)) (copy_field (Schema s))
    (copy_field (TransactionIsolation s)).

(** ** Connections *)

(** What the code does to connections and transactions. *)
Inductive Event (C : Type) :=
| Executed (conn : C) (query : string)
| RolledBack (tx : nat)
| Closed (conn : C).
Arguments Executed {C} _ _.
Arguments RolledBack {C} _.
Arguments Closed {C} _.

(** [ExecContext before conn query]: [None] when the connection is no
    [ExecerContext], [Some err] for the error it returns, if any; the answer
    may depend on the events before it. *)
Class ExecConn (C : Type) := ExecContext : list (Event C) -> C -> string -> option (option go_error).

Section Service.
Context {C : Type} `{ExecConn C}.

(** The events so far, on any connection. *)
Definition Log : Type := list (Event C).

(** utils.ExecQueryDirectly *)
Definition ExecQueryDirectly (conn : C) (query : string) : Eff Log unit := fun log =>
  match ExecContext log conn query with
  | None => (log, Ok tt)
  | Some err => (log ++ [Executed conn query], match err with Some e => Err e | None => Ok tt end)
  end.

(** ** The service (session_state_service.go) *)

Record SessionStateServiceImpl := mkSessionService { sss_state : SessionState; copySessionState : option SessionState }.
#[export] Instance SessionStateServiceImpl_eta : Eta SessionStateServiceImpl :=
  fun s => mkSessionService (sss_state s) (copySessionState s).
Definition NewSessionStateServiceImpl : SessionStateServiceImpl := mkSessionService no_session_state None.

Context (props : option properties).
Definition transferStateEnabledSetting : bool := GetVerifiedWrapperPropertyValue props TRANSFER_SESSION_STATE_ON_SWITCH.
Definition resetStateEnabledSetting : bool := GetVerifiedWrapperPropertyValue props RESET_SESSION_STATE_ON_CLOSE.

(** An update of one field, when the transfer is enabled. *)
Definition on_field {T} (field : SessionState -> SessionStateField T) `{!Setter field}
  (f : SessionStateField T -> SessionStateField T) (s : SessionStateServiceImpl) : SessionStateServiceImpl :=
  if negb transferStateEnabledSetting then s else s <| sss_state := update_field field f (sss_state s) |>.

Definition SetAutoCommit (val : bool) := on_field AutoCommit (SetValue val).
Definition SetupPristineAutoCommit := on_field AutoCommit setup_pristine.
Definition SetupPristineAutoCommitWithVal (val : bool) := on_field AutoCommit (setup_pristine_with val).
Definition SetReadOnly (val : bool) := on_field ReadOnly (SetValue val).
Definition SetupPristineReadOnly := on_field ReadOnly setup_pristine.
Definition SetupPristineReadOnlyWithVal (val : bool) := on_field ReadOnly (setup_pristine_with val).
Definition SetCatalog (val : string) := on_field Catalog (SetValue val).
Definition SetupPristineCatalog := on_field Catalog setup_pristine.
Definition SetupPristineCatalogWithVal (val : string) := on_field Catalog (setup_pristine_with val).
Definition SetSchema (val : string) := on_field Schema (SetValue val).
Definition SetupPristineSchema := on_field Schema setup_pristine.
Definition SetupPristineSchemaWithVal (val : string) := on_field Schema (setup_pristine_with val).
Definition SetTransactionIsolation (val : TransactionIsolationLevel) := on_field TransactionIsolation (SetValue val).
Definition SetupPristineTransactionIsolation := on_field TransactionIsolation setup_pristine.
Definition SetupPristineTransactionIsolationWithVal (val : TransactionIsolationLevel) :=
  on_field TransactionIsolation (setup_pristine_with val).

(** The service and the events of the connections. *)
Definition World : Type := SessionStateServiceImpl * Log.
Definition on_service (f : SessionStateServiceImpl -> SessionStateServiceImpl) : St World unit := modify (fun w => (f w.1, w.2)).
Definition on_log {A} (c : St Log A) : St World A := zoom snd (fun l w => (w.1, l)) c.
Definition on_state {T} (field : SessionState -> SessionStateField T) `{!Setter field}
  (f : SessionStateField T -> SessionStateField T) : St World unit :=
  on_service (fun s => s <| sss_state := update_field field f (sss_state s) |>).

(** A custom function of the user (session_state_transfer_handling.go):
    whether it handled the transfer. *)
Definition SessionFunc : Type := SessionState -> C -> St Log bool.
Record SessionFuncs := mkSessionFuncs {
  transferSessionStateOnCloseFunc : option SessionFunc;
  resetSessionStateOnCloseFunc : option SessionFunc
}.
Context (funcs : SessionFuncs).

Definition isHandled (f : option SessionFunc) (conn : C) : St World bool := fun w =>
  match f with Some f => on_log (f (sss_state w.1) conn) w | None => (w, false) end.

Context (dialect : SessionDialect).

(** One block of [ApplyCurrentSessionState]. *)
Definition apply_current {T} (field : SessionState -> SessionStateField T) `{!Setter field}
  (GetSetQuery : T -> Result string) (newConn : C) : Eff World unit := fun w =>
  match value (field (sss_state w.1)) with
  | None => (w, Ok tt)
  | Some v =>
      (do! on_state field ResetPristineValue in
       do! on_service (on_field field setup_pristine) in
       try! query := lift_result (GetSetQuery v) in
       on_log (ExecQueryDirectly newConn query))%eff w
  end.

Definition ApplyCurrentSessionState (newConn : C) : Eff World unit :=
  if negb transferStateEnabledSetting then eff_ok tt
  else (let! handled := isHandled (transferSessionStateOnCloseFunc funcs) newConn in
        if (handled : bool) then eff_ok tt
        else try! _ := apply_current AutoCommit (GetSetAutoCommitQuery dialect) newConn in
             try! _ := apply_current ReadOnly (GetSetReadOnlyQuery dialect) newConn in
             try! _ := apply_current Catalog (GetSetCatalogQuery dialect) newConn in
             try! _ := apply_current Schema (GetSetSchemaQuery dialect) newConn in
             apply_current TransactionIsolation (GetSetTransactionIsolationQuery dialect) newConn)%eff.

(** One block of [ApplyPristineSessionState]. *)
Definition apply_pristine {T} `{EqDecision T} (f : SessionStateField T) (GetSetQuery : T -> Result string) (conn : C) :
  Eff World unit :=
  match (if CanRestorePristine f then pristineValue f else None) with
  | None => eff_ok tt
  | Some p => (try! query := lift_result (GetSetQuery p) in on_log (ExecQueryDirectly conn query))%eff
  end.

Definition ApplyPristineSessionState (conn : C) : Eff World unit :=
  if negb resetStateEnabledSetting then eff_ok tt
  else (let! handled := isHandled (resetSessionStateOnCloseFunc funcs) conn in
        if (handled : bool) then eff_ok tt
        else let! copied := gets (fun w => copySessionState w.1) in
             match copied with
             | None => eff_ok tt
             | Some copy =>
                 try! _ := apply_pristine (AutoCommit copy) (GetSetAutoCommitQuery dialect) conn in
                 try! _ := apply_pristine (ReadOnly copy) (GetSetReadOnlyQuery dialect) conn in
                 try! _ := apply_pristine (Catalog copy) (GetSetCatalogQuery dialect) conn in
                 try! _ := apply_pristine (Schema copy) (GetSetSchemaQuery dialect) conn in
                 apply_pristine (TransactionIsolation copy) (GetSetTransactionIsolationQuery dialect) conn
             end)%eff.

Definition Begin (s : SessionStateServiceImpl) : SessionStateServiceImpl * Result unit :=
  if negb transferStateEnabledSetting && negb resetStateEnabledSetting then (s, Ok tt)
  else match copySessionState s with
       | Some _ => (s, Err (NewGenericAwsWrapperError "SessionStateService.transferIncomplete" []))
       | None => (s <| copySessionState := Some (Copy (sss_state s)) |>, Ok tt)
       end.
Definition Complete (s : SessionStateServiceImpl) : SessionStateServiceImpl := s <| copySessionState := None |>.
Definition Reset (s : SessionStateServiceImpl) : SessionStateServiceImpl :=
  let st := sss_state s in
  s <| sss_state := mkSessionState (ResetField (AutoCommit st)) (ResetField (ReadOnly st)) (ResetField (Catalog st))
                      (ResetField (Schema st)) (ResetField (TransactionIsolation st)) |>.
End Service.
Arguments Log C : clear implicits.
Arguments World C : clear implicits.
Arguments SessionFunc C : clear implicits.
Arguments SessionFuncs C : clear implicits.

(** ** What a transfer executes *)

Section Transfer.
Context {C : Type} `{ExecConn C} (props : option properties) (funcs : SessionFuncs C) (dialect : SessionDialect).

(** The reference: one statement per field that is set, in the order of the
    code, up to the first that fails. *)
Definition opt_query {T} (q : T -> Result string) (o : option T) : list (Result string) :=
  match o with Some v => [q v] | None => [] end.
Definition set_queries (s : SessionState) : list (Result string) :=
  opt_query (GetSetAutoCommitQuery dialect) (value (AutoCommit s)) ++
  opt_query (GetSetReadOnlyQuery dialect) (value (ReadOnly s)) ++
  opt_query (GetSetCatalogQuery dialect) (value (Catalog s)) ++
  opt_query (GetSetSchemaQuery dialect) (value (Schema s)) ++
  opt_query (GetSetTransactionIsolationQuery dialect) (value (TransactionIsolation s)).
Definition run_query (conn : C) (query : Result string) : Eff (Log C) unit :=
  (try! q := lift_result query in ExecQueryDirectly conn q)%eff.

(** After a transfer the value a field had is its pristine value. *)
Definition settle {T} (f : SessionStateField T) : SessionStateField T :=
  match value f with Some v => mkField (Some v) (Some v) | None => f end.
Definition settled (s : SessionState) : SessionState :=
  mkSessionState (settle (AutoCommit s)) (settle (ReadOnly s)) (settle (Catalog s)) (settle (Schema s))
    (settle (TransactionIsolation s)).

(** A state that differs from [s] in pristine values only. *)
Definition same_values (s s' : SessionState) : Prop :=
  value (AutoCommit s') = value (AutoCommit s) /\ value (ReadOnly s') = value (ReadOnly s) /\
  value (Catalog s') = value (Catalog s) /\ value (Schema s') = value (Schema s) /\
  value (TransactionIsolation s') = value (TransactionIsolation s).

(** A block of the transfer executes its statement and settles its field. *)
Definition block_spec {T} (field : SessionState -> SessionStateField T) `{!Setter field} (q : T -> Result string) : Prop :=
  forall conn sv log,
  apply_current props field q conn (sv, log) =
  let '(log', r) := each (run_query conn) (opt_query q (value (field (sss_state sv)))) log in
  (sv <| sss_state := update_field field settle (sss_state sv) |>, log', r).

Ltac block_proof :=
  intros Ht q conn sv log; destruct sv as [[[? ?] [? ?] [? ?] [? ?] [? ?]] ?];
  unfold apply_current, on_state, on_service, on_field; rewrite Ht; cbn -[ExecQueryDirectly];
  match goal with |- context [match ?o with Some _ => _ | None => _ end] => destruct o end; [|done];
  cbn -[ExecQueryDirectly]; unfold run_query, opt_query, eff_bind, st_bind, lift_result, modify, on_log, zoom;
  cbn -[ExecQueryDirectly]; unfold eff_bind, lift_result; destruct (q _); [|done..];
  destruct (ExecQueryDirectly conn _ _) as [? [[]| |]]; reflexivity.

Lemma block_AutoCommit : transferStateEnabledSetting props = true -> forall q, block_spec AutoCommit q.
Proof. block_proof. Qed.
Lemma block_ReadOnly : transferStateEnabledSetting props = true -> forall q, block_spec ReadOnly q.
Proof. block_proof. Qed.
Lemma block_Catalog : transferStateEnabledSetting props = true -> forall q, block_spec Catalog q.
Proof. block_proof. Qed.
Lemma block_Schema : transferStateEnabledSetting props = true -> forall q, block_spec Schema q.
Proof. block_proof. Qed.
Lemma block_TransactionIsolation : transferStateEnabledSetting props = true -> forall q, block_spec TransactionIsolation q.
Proof. block_proof. Qed.

Lemma value_settle {T} (f : SessionStateField T) : value (settle f) = value f.
Proof. unfold settle. by destruct (value f) eqn:E. Qed.

(** One setting is replayed; the rest of the settings follow if it succeeds. *)
Ltac after_block lem Ht :=
  rewrite ?eff_bind_eq, (lem Ht), ?each_app;
  cbn [sss_state update_field AutoCommit ReadOnly Catalog Schema TransactionIsolation];
  destruct (each _ (opt_query _ _) _) as [? [[]|?|]]; [|cbn; rewrite ?value_settle; done..].

(** C8. Without a custom function, ApplyCurrentSessionState executes on the
    new connection exactly one statement per session setting that has a
    value, in the order autocommit, read-only, catalog, schema, isolation,
    up to the first that fails, whose error it returns; no value changes,
    and on success the pristine value of every setting is its value. *)
Theorem ApplyCurrentSessionState_replays conn sv log :
  transferStateEnabledSetting props = true -> transferSessionStateOnCloseFunc funcs = None ->
  let '((sv', log'), r) := ApplyCurrentSessionState props funcs dialect conn (sv, log) in
  each (run_query conn) (set_queries (sss_state sv)) log = (log', r) /\
  same_values (sss_state sv) (sss_state sv') /\ copySessionState sv' = copySessionState sv /\
  (r = Ok tt -> sss_state sv' = settled (sss_state sv)).
Proof.
  intros Ht Hf. unfold ApplyCurrentSessionState. rewrite Ht, Hf. cbn [negb].
  unfold st_bind, isHandled. unfold set_queries, same_values.
  destruct sv as [[a ro c sc ti] cp].
  after_block block_AutoCommit Ht. after_block block_ReadOnly Ht. after_block block_Catalog Ht. after_block block_Schema Ht.
  rewrite (block_TransactionIsolation Ht).
  cbn [sss_state update_field AutoCommit ReadOnly Catalog Schema TransactionIsolation].
  destruct (each _ (opt_query _ _) _) as [? [[]|?|]]; cbn; rewrite ?value_settle; done.
Qed.
End Transfer.

(** ** The operations in any order *)

Section Operations.
Context {C : Type} `{ExecConn C} (props : option properties) (funcs : SessionFuncs C).

Inductive SessionOp :=
| OpSetAutoCommit (v : bool) | OpSetupAutoCommit | OpSetupAutoCommitWithVal (v : bool)
| OpSetReadOnly (v : bool) | OpSetupReadOnly | OpSetupReadOnlyWithVal (v : bool)
| OpSetCatalog (v : string) | OpSetupCatalog | OpSetupCatalogWithVal (v : string)
| OpSetSchema (v : string) | OpSetupSchema | OpSetupSchemaWithVal (v : string)
| OpSetIsolation (v : TransactionIsolationLevel) | OpSetupIsolation | OpSetupIsolationWithVal (v : TransactionIsolationLevel)
| OpBegin | OpComplete | OpReset
| OpApplyCurrent (dialect : SessionDialect) (conn : C) | OpApplyPristine (dialect : SessionDialect) (conn : C).

Definition session_op (o : SessionOp) (w : World C) : World C :=
  let on (f : SessionStateServiceImpl -> SessionStateServiceImpl) := (f w.1, w.2) in
  match o with
  | OpSetAutoCommit v => on (SetAutoCommit props v)
  | OpSetupAutoCommit => on (SetupPristineAutoCommit props)
  | OpSetupAutoCommitWithVal v => on (SetupPristineAutoCommitWithVal props v)
  | OpSetReadOnly v => on (SetReadOnly props v)
  | OpSetupReadOnly => on (SetupPristineReadOnly props)
  | OpSetupReadOnlyWithVal v => on (SetupPristineReadOnlyWithVal props v)
  | OpSetCatalog v => on (SetCatalog props v)
  | OpSetupCatalog => on (SetupPristineCatalog props)
  | OpSetupCatalogWithVal v => on (SetupPristineCatalogWithVal props v)
  | OpSetSchema v => on (SetSchema props v)
  | OpSetupSchema => on (SetupPristineSchema props)
  | OpSetupSchemaWithVal v => on (SetupPristineSchemaWithVal props v)
  | OpSetIsolation v => on (SetTransactionIsolation props v)
  | OpSetupIsolation => on (SetupPristineTransactionIsolation props)
  | OpSetupIsolationWithVal v => on (SetupPristineTransactionIsolationWithVal props v)
  | OpBegin => on (fun s : SessionStateServiceImpl => (Begin props s).1)
  | OpComplete => on Complete
  | OpReset => on Reset
  | OpApplyCurrent dialect conn => (ApplyCurrentSessionState props funcs dialect conn w).1
  | OpApplyPristine dialect conn => (ApplyPristineSessionState props funcs dialect conn w).1
  end.

(** The copy is absent or has no pristine value. *)
Definition no_pristine (s : SessionState) : Prop :=
  pristineValue (AutoCommit s) = None /\ pristineValue (ReadOnly s) = None /\ pristineValue (Catalog s) = None /\
  pristineValue (Schema s) = None /\ pristineValue (TransactionIsolation s) = None.
Definition copy_inv (o : option SessionState) : Prop := match o with Some s => no_pristine s | None => True end.

Lemma Copy_no_pristine s : no_pristine (Copy s).
Proof. destruct s as [[[] ?] [[] ?] [[] ?] [[] ?] [[] ?]]; repeat split. Qed.

Definition same_copy (w w' : World C) : Prop := copySessionState w'.1 = copySessionState w.1.
#[local] Instance same_copy_refl : Reflexive same_copy.
Proof. by intros w. Qed.
#[local] Instance same_copy_trans : Transitive same_copy.
Proof. unfold same_copy. intros x y z ? ?. congruence. Qed.

Lemma keeps_on_log {A} (c : St (Log C) A) : keeps same_copy (on_log c).
Proof. intros w. unfold on_log, zoom. by destruct (c w.2). Qed.
Lemma keeps_isHandled f conn : keeps same_copy (isHandled f conn).
Proof. intros w. unfold isHandled. destruct f; [apply keeps_on_log|reflexivity]. Qed.
Lemma keeps_on_field {T} (field : SessionState -> SessionStateField T) `{!Setter field} f :
  keeps same_copy (on_service (C := C) (on_field props field f)).
Proof. intros w. unfold on_service, modify, on_field. by destruct (negb _). Qed.
Lemma keeps_apply_current {T} (field : SessionState -> SessionStateField T) `{!Setter field} q conn :
  keeps same_copy (apply_current props field q conn).
Proof.
  intros w. unfold apply_current. destruct (value _); [|reflexivity]. revert w.
  apply keeps_st_bind; [apply _|by intros w|intros _]. apply keeps_st_bind; [apply _|apply keeps_on_field|intros _].
  apply keeps_eff_bind; [apply _|apply keeps_lift; apply _|intros a]. apply keeps_on_log.
Qed.
Lemma keeps_apply_pristine {T} `{EqDecision T} (f : SessionStateField T) q conn :
  keeps same_copy (apply_pristine (C := C) f q conn).
Proof.
  unfold apply_pristine. case_match; [|apply keeps_ok; apply _].
  apply keeps_eff_bind; [apply _|apply keeps_lift; apply _|intros a]. apply keeps_on_log.
Qed.
Lemma keeps_ApplyCurrent d conn : keeps same_copy (ApplyCurrentSessionState props funcs d conn).
Proof.
  unfold ApplyCurrentSessionState. destruct (negb _); [apply keeps_ok; apply _|].
  apply keeps_st_bind; [apply _|apply keeps_isHandled|]. intros []; [apply keeps_ok; apply _|].
  repeat (apply keeps_eff_bind; [apply _|apply keeps_apply_current|intros _]). apply keeps_apply_current.
Qed.
Lemma keeps_ApplyPristine d conn : keeps same_copy (ApplyPristineSessionState props funcs d conn).
Proof.
  unfold ApplyPristineSessionState. destruct (negb _); [apply keeps_ok; apply _|].
  apply keeps_st_bind; [apply _|apply keeps_isHandled|]. intros []; [apply keeps_ok; apply _|].
  apply keeps_st_bind; [apply _|apply keeps_gets; apply _|]. intros [copy|]; [|apply keeps_ok; apply _].
  repeat (apply keeps_eff_bind; [apply _|apply keeps_apply_pristine|intros _]). apply keeps_apply_pristine.
Qed.

Lemma session_op_copy o w : copy_inv (copySessionState w.1) -> copy_inv (copySessionState (session_op o w).1).
Proof.
  intros Hc. destruct o; cbn [session_op fst]; try exact Hc;
    try (unfold SetAutoCommit, SetupPristineAutoCommit, SetupPristineAutoCommitWithVal, SetReadOnly, SetupPristineReadOnly,
      SetupPristineReadOnlyWithVal, SetCatalog, SetupPristineCatalog, SetupPristineCatalogWithVal, SetSchema,
      SetupPristineSchema, SetupPristineSchemaWithVal, SetTransactionIsolation, SetupPristineTransactionIsolation,
      SetupPristineTransactionIsolationWithVal, on_field; by destruct (negb _)).
  - unfold Begin. destruct (_ && _); [done|]. destruct (copySessionState w.1) eqn:E; cbn; [by rewrite E|].
    apply Copy_no_pristine.
  - done.
  - pose proof (keeps_ApplyCurrent dialect conn w) as E. unfold same_copy in E. by rewrite E.
  - pose proof (keeps_ApplyPristine dialect conn w) as E. unfold same_copy in E. by rewrite E.
Qed.

Lemma session_ops_copy ops : forall w,
  copy_inv (copySessionState w.1) -> copy_inv (copySessionState (foldl (fun w o => session_op o w) w ops).1).
Proof. induction ops as [|o ops IH]; intros w Hc; [done|]. apply IH. by apply session_op_copy. Qed.

Lemma apply_copy_nothing dialect conn (w : World C) :
  resetSessionStateOnCloseFunc funcs = None -> copy_inv (copySessionState w.1) ->
  ApplyPristineSessionState props funcs dialect conn w = (w, Ok tt).
Proof.
  intros Hf Hc. unfold ApplyPristineSessionState. destruct (negb _); [done|]. rewrite Hf. unfold st_bind, isHandled, gets.
  destruct (copySessionState w.1) as [copy|]; [|done]. destruct Hc as (H1 & H2 & H3 & H4 & H5).
  unfold apply_pristine, CanRestorePristine. by rewrite H1, H2, H3, H4, H5.
Qed.

(** After any sequence of the operations of the session service,
    ApplyPristineSessionState without a custom function executes no
    statement and changes nothing: the copy Begin takes never has a pristine
    value. *)
Theorem pristine_state_never_restored ops dialect conn log :
  resetSessionStateOnCloseFunc funcs = None ->
  let w := foldl (fun w o => session_op o w) (NewSessionStateServiceImpl, log) ops in
  ApplyPristineSessionState props funcs dialect conn w = (w, Ok tt).
Proof.
  intros Hf w. apply apply_copy_nothing; [done|]. by apply session_ops_copy.
Qed.
End Operations.
Arguments SessionOp C : clear implicits.

(** ** An example: a writer session on a connection that accepts everything *)

#[local] Instance accepting_conn : ExecConn nat := fun _ _ _ => Some None.
Definition no_session_funcs : SessionFuncs nat := mkSessionFuncs None None.
Definition example_session : SessionStateServiceImpl :=
  SetTransactionIsolation None TRANSACTION_SERIALIZABLE (SetAutoCommit None false NewSessionStateServiceImpl).

Lemma ApplyCurrentSessionState_replays_witness :
  (ApplyCurrentSessionState None no_session_funcs mysql_dialect 7%nat (example_session, [])).1.2 =
  [Executed 7%nat "set autocommit=false"; Executed 7%nat "set session transaction isolation level SERIALIZABLE"].
Proof.
  pose proof (ApplyCurrentSessionState_replays None no_session_funcs mysql_dialect 7%nat example_session [] eq_refl eq_refl) as Hr.
  destruct (ApplyCurrentSessionState _ _ _ _ _) as [[sv' log'] r]. destruct Hr as [Hr _].
  vm_compute in Hr. by injection Hr as <- _.
Defined.

Lemma pristine_state_never_restored_witness :
  (ApplyPristineSessionState None no_session_funcs mysql_dialect 7%nat
     (foldl (fun w o => session_op None no_session_funcs o w) (NewSessionStateServiceImpl, [])
        [OpSetupReadOnlyWithVal false; OpSetReadOnly true; OpBegin])).1.2 = [].
Proof.
  pose proof (pristine_state_never_restored None no_session_funcs
    [OpSetupReadOnlyWithVal false; OpSetReadOnly true; OpBegin] mysql_dialect 7%nat [] eq_refl) as Hp.
  etransitivity; [exact (f_equal (fun x => x.1.2) Hp)|reflexivity].
Defined.
