(* ===== verification/PluginManager.v ===== *)
(** * PluginManager: the chain of plugins around every call
    (awssql/plugin_helpers/plugin_manager.go,
    awssql/driver/connection_plugin_chain_builder.go,
    awssql/driver_infrastructure/connection_plugin.go).

    A plugin is a record of its methods, functions on a state [S] that plugins,
    services and connections share; plugins may call the manager again. The
    manager's own state is the map of the chains it has built, of which it keeps
    the kind and the pointers to the plugins, by number. [plugins] is the list
    [Init] has set last, and [plugin_at] the plugins that pointers lead to, those
    of earlier lists among them: [initialised_once] is the case of a manager whose
    [Init] runs once, as the factory has it. The contexts of the telemetry are
    not part of the model. *)

From S2P Require Import Prelude.
From S2P Require Import Methods.
From S2P Require Import Effects.
From S2P Require Import HostInfo.
From S2P Require Import Properties.
From S2P Require Import Dsn.
From Stdlib Require Import Ascii.

Definition ALL_METHODS : string := "*".
Definition CONNECT_METHOD : string := "Conn.Connect".
Definition FORCE_CONNECT_METHOD : string := "Conn.ForceConnect".
Definition ACCEPTS_STRATEGY_METHOD : string := "acceptsStrategy".
Definition GET_HOST_INFO_BY_STRATEGY_METHOD : string := "getHostInfoByStrategy".
Definition GET_HOST_SELECT_STRATEGY_METHOD : string := "getHostSelectorStrategy".
Definition INIT_HOST_PROVIDER_METHOD : string := "initHostProvider".
Definition NOTIFY_CONNECTION_CHANGED_METHOD : string := "notifyConnectionChanged".
Definition NOTIFY_HOST_LIST_CHANGED_METHOD : string := "notifyHostListChanged".

(** fixed_value_types.go *)
Definition HostChangeOptions : Type := Z.
Definition HOSTNAME : HostChangeOptions := 0.
Definition PROMOTED_TO_WRITER : HostChangeOptions := 1.
Definition PROMOTED_TO_READER : HostChangeOptions := 2.
Definition WENT_UP : HostChangeOptions := 3.
Definition WENT_DOWN : HostChangeOptions := 4.
Definition CONNECTION_OBJECT_CHANGED : HostChangeOptions := 5.
Definition INITIAL_CONNECTION : HostChangeOptions := 6.
Definition HOST_ADDED : HostChangeOptions := 7.
Definition HOST_CHANGED : HostChangeOptions := 8.
Definition HOST_DELETED : HostChangeOptions := 9.
Definition OldConnectionSuggestedAction : Type := string.
Definition NO_OPINION : OldConnectionSuggestedAction := "no_opinion".
Definition DISPOSE : OldConnectionSuggestedAction := "dispose".
Definition PRESERVE : OldConnectionSuggestedAction := "preserve".

(** A stored chain: whether it is an exec chain, and the plugins its closures
    hold, the head first. The map of the chains is a part of the shared state. *)
Record StoredChain := mkStored { stored_exec : bool; stored_plugins : list nat }.
Class PluginFuncMap (S : Type) := { pluginFuncMap : S -> gmap string StoredChain; put_chains : gmap string StoredChain -> S -> S }.

(** The four results of an [ExecuteFunc]. *)
Record ExecResult (V : Type) := mkExecResult { returnValue : V; returnValue2 : V; returnOk : bool; returnErr : option go_error }.
Arguments mkExecResult {V} _ _ _ _.
Arguments returnErr {V} _.

Section Plugins.
(** [Hst] are the pointers to hosts. *)
Context {S V C Sel Hst : Type}.

Definition ExecuteFunc : Type := St S (ExecResult V).
Definition ConnectFunc : Type := properties -> Eff S C.

Record ConnectionPlugin := mkPlugin {
  plugin_id : nat;
  GetPluginCode : string;
  GetSubscribedMethods : list string;
  plugin_Execute : option C -> string -> list V -> ExecuteFunc -> ExecuteFunc;
  plugin_Connect : Hst -> properties -> bool -> ConnectFunc -> Eff S C;
  plugin_ForceConnect : Hst -> properties -> bool -> ConnectFunc -> Eff S C;
  plugin_AcceptsStrategy : string -> St S bool;
  plugin_GetHostInfoByStrategy : string -> string -> list Hst -> Eff S Hst;
  plugin_GetHostSelectorStrategy : string -> Eff S Sel;
  plugin_NotifyConnectionChanged : gset HostChangeOptions -> St S OldConnectionSuggestedAction;
  plugin_NotifyHostListChanged : gmap string (gset HostChangeOptions) -> St S unit;
  plugin_InitHostProvider : properties -> Eff S unit -> Eff S unit;
  plugin_ReleaseResources : option (St S unit)
}.

Definition PluginExecFunc : Type := ConnectionPlugin -> ExecuteFunc -> ExecuteFunc.
Definition PluginConnectFunc : Type := ConnectionPlugin -> properties -> ConnectFunc -> Eff S C.

Record PluginChain := mkChain {
  execChain : option (PluginExecFunc -> ExecuteFunc -> ExecuteFunc);
  connectChain : option (PluginConnectFunc -> properties -> ConnectFunc -> Eff S C)
}.
#[local] Instance PluginChain_eta : Eta PluginChain := fun c => mkChain (execChain c) (connectChain c).

Definition ExecAddToHead (plugin : ConnectionPlugin) (chain : PluginChain) : PluginChain :=
  match execChain chain with
  | None => chain <| execChain := Some (fun pluginFunc execFunc => pluginFunc plugin execFunc) |>
  | Some pipelineSoFar =>
      chain <| execChain := Some (fun pluginFunc execFunc => pluginFunc plugin (pipelineSoFar pluginFunc execFunc)) |>
  end.
Definition ConnectAddToHead (plugin : ConnectionPlugin) (chain : PluginChain) : PluginChain :=
  match connectChain chain with
  | None => chain <| connectChain := Some (fun pluginFunc props connectFunc => pluginFunc plugin props connectFunc) |>
  | Some pipelineSoFar =>
      chain <| connectChain := Some (fun pluginFunc props connectFunc =>
        pluginFunc plugin props (fun props => pipelineSoFar pluginFunc props connectFunc)) |>
  end.

Definition pipelineNone : go_error := NewGenericAwsWrapperError "PluginManager.pipelineNone" [].
Context (nil_any : V).
Definition exec_error (e : go_error) : ExecResult V := mkExecResult nil_any nil_any false (Some e).

Definition chain_Execute (chain : PluginChain) (pluginFunc : PluginExecFunc) (execFunc : ExecuteFunc) : ExecuteFunc :=
  match execChain chain with None => st_ret (exec_error pipelineNone) | Some f => f pluginFunc execFunc end.
Definition chain_Connect (chain : PluginChain) (pluginFunc : PluginConnectFunc) (props : properties) (connectFunc : ConnectFunc) :
  Eff S C :=
  match connectChain chain with None => throw pipelineNone | Some f => f pluginFunc props connectFunc end.

(** ** The manager *)

Context (plugins : list ConnectionPlugin).

Definition is_subscribed (name : string) (p : ConnectionPlugin) : bool :=
  bool_decide (ALL_METHODS ∈ GetSubscribedMethods p) || bool_decide (name ∈ GetSubscribedMethods p).
Definition is_plugin (skip : option ConnectionPlugin) (p : ConnectionPlugin) : bool :=
  match skip with Some q => Nat.eqb (plugin_id p) (plugin_id q) | None => false end.

Definition makePluginChain (name : string) (creatingExecChain : bool) (pluginToSkip : option ConnectionPlugin) : PluginChain :=
  foldr (fun currentPlugin chain =>
    if negb (is_plugin pluginToSkip currentPlugin) && is_subscribed name currentPlugin then
      if creatingExecChain then ExecAddToHead currentPlugin chain else ConnectAddToHead currentPlugin chain
    else chain) (mkChain None None) plugins.

(** The plugin a pointer leads to. *)
Class PluginHeap (plugins : list ConnectionPlugin) := plugin_at : nat -> option ConnectionPlugin.
Context `{PluginFuncMap S} `{!PluginHeap plugins}.

(** The chain [makePluginChain] makes is stored with the plugins it is made of. *)
Definition made_chain (name : string) (creatingExecChain : bool) : StoredChain :=
  mkStored creatingExecChain (plugin_id <$> List.filter (is_subscribed name) plugins).
(** What a stored chain does: its closures, with the plugins they hold. *)
Definition chain_of (stored : StoredChain) : PluginChain :=
  foldr (fun plugin chain => if stored_exec stored then ExecAddToHead plugin chain else ConnectAddToHead plugin chain)
    (mkChain None None) (omap plugin_at (stored_plugins stored)).

(** [ComputeIfAbsent] on the map of the chains. *)
Definition chain_for (name : string) (creatingExecChain : bool) : St S PluginChain := fun s =>
  match pluginFuncMap s !! name with
  | Some stored => (s, chain_of stored)
  | None =>
      (put_chains (<[name := made_chain name creatingExecChain]> (pluginFuncMap s)) s, makePluginChain name creatingExecChain None)
  end.

Definition executeWithSubscribedPlugins (methodName : string) (pluginFunc : PluginExecFunc) (targetFunc : ExecuteFunc) :
  ExecuteFunc :=
  (let! chain := chain_for methodName true in chain_Execute chain pluginFunc targetFunc)%eff.
Definition connectWithSubscribedPlugins (methodName : string) (pluginFunc : PluginConnectFunc) (targetFunc : ConnectFunc)
  (props : properties) (pluginToSkip : option ConnectionPlugin) : Eff S C :=
  (let! chain := match pluginToSkip with
                 | None => chain_for methodName false
                 | Some _ => st_ret (makePluginChain methodName false pluginToSkip)
                 end in
   chain_Connect chain pluginFunc props targetFunc)%eff.

Definition ShouldNotBeCalledError : go_error := PlainError "ShouldNotBeCalled" [].

Definition Connect (hostInfo : Hst) (props : properties) (isInitialConnection : bool)
  (pluginToSkip : option ConnectionPlugin) : Eff S C :=
  connectWithSubscribedPlugins CONNECT_METHOD
    (fun plugin props targetFunc => plugin_Connect plugin hostInfo props isInitialConnection targetFunc)
    (fun _ => throw ShouldNotBeCalledError) props pluginToSkip.
Definition ForceConnect (hostInfo : Hst) (props : properties) (isInitialConnection : bool) : Eff S C :=
  connectWithSubscribedPlugins FORCE_CONNECT_METHOD
    (fun plugin props targetFunc => plugin_ForceConnect plugin hostInfo props isInitialConnection targetFunc)
    (fun _ => throw ShouldNotBeCalledError) props None.

(** The error of the plugin decides the results of the chain. *)
Definition init_host_provider_func (props : properties) : PluginExecFunc := fun plugin targetFunc =>
  let initFunc : Eff S unit := (let! r := targetFunc in
    match returnErr r with Some e => throw e | None => eff_ok tt end)%eff in
  (let! r := plugin_InitHostProvider plugin props initFunc in
   st_ret (match r with
           | Err e => exec_error e
           | _ => mkExecResult nil_any nil_any true None
           end))%eff.
Definition InitHostProvider (props : properties) : Eff S unit :=
  (let! r := executeWithSubscribedPlugins INIT_HOST_PROVIDER_METHOD (init_host_provider_func props)
               (st_ret (exec_error ShouldNotBeCalledError)) in
   match returnErr r with Some e => throw e | None => eff_ok tt end)%eff.

(** The current connection of the plugin service is a parameter of the call. *)
Context `{EqDecision C}.
Definition Execute (current : S -> option C) (connInvokedOn : option C) (methodName : string) (executeFunc : ExecuteFunc)
  (methodArgs : list V) : ExecuteFunc := fun s =>
  if bool_decide (is_Some connInvokedOn) && bool_decide (connInvokedOn <> current s) &&
     negb (bool_decide (methodName ∈ CLOSING_METHODS))
  then (s, exec_error (NewGenericAwsWrapperError "PluginManagerImpl.invokedAgainstOldConnection"
                         [default "" (head (Split methodName "."%char)); methodName]))
  else executeWithSubscribedPlugins methodName
         (fun plugin targetFunc => plugin_Execute plugin connInvokedOn methodName methodArgs targetFunc) executeFunc s.

(** The loop of [AcceptsStrategy] tests the name of the strategy where the
    others test the name of the method. *)
Fixpoint accepts_loop (ps : list ConnectionPlugin) (strategy : string) : St S bool :=
  match ps with
  | [] => st_ret false
  | p :: rest =>
      if is_subscribed strategy p then
        (let! b := plugin_AcceptsStrategy p strategy in if (b : bool) then st_ret true else accepts_loop rest strategy)%eff
      else accepts_loop rest strategy
  end.
Definition AcceptsStrategy (strategy : string) : St S bool := accepts_loop plugins strategy.

Fixpoint notify_loop {W} (ps : list ConnectionPlugin) (methodName : string) (pluginFunc : ConnectionPlugin -> Eff W unit)
  (skip : option ConnectionPlugin) : Eff W unit :=
  match ps with
  | [] => eff_ok tt
  | p :: rest =>
      if is_plugin skip p then notify_loop rest methodName pluginFunc skip
      else if is_subscribed methodName p then
        (try! _ := pluginFunc p in notify_loop rest methodName pluginFunc skip)%eff
      else notify_loop rest methodName pluginFunc skip
  end.
Definition NotifySubscribedPlugins {W} : string -> (ConnectionPlugin -> Eff W unit) -> option ConnectionPlugin -> Eff W unit :=
  notify_loop plugins.

Definition NotifyHostListChanged (changes : gmap string (gset HostChangeOptions)) : St S unit :=
  (let! _ := NotifySubscribedPlugins NOTIFY_HOST_LIST_CHANGED_METHOD
               (fun plugin => run (plugin_NotifyHostListChanged plugin changes)) None in st_ret tt)%eff.

(** The closure passed to the plugins adds to the result of the call. *)
Definition collect_opinion (changes : gset HostChangeOptions) (plugin : ConnectionPlugin) :
  Eff (S * gset OldConnectionSuggestedAction) unit := fun '(s, result) =>
  let '(s, pluginOptions) := plugin_NotifyConnectionChanged plugin changes s in ((s, {[pluginOptions]} ∪ result), Ok tt).
Definition NotifyConnectionChanged (changes : gset HostChangeOptions) (skipNotificationForThisPlugin : option ConnectionPlugin) :
  St S (gset OldConnectionSuggestedAction) := fun s =>
  (NotifySubscribedPlugins NOTIFY_CONNECTION_CHANGED_METHOD (collect_opinion changes) skipNotificationForThisPlugin (s, ∅)).1.

Definition unsupportedStrategy (strategy : string) : go_error :=
  AwsError UnsupportedStrategyErrorType "PluginManagerImpl.unsupportedHostSelectionStrategy" [strategy].

(** The loop of [GetHostInfoByStrategy] and [GetHostSelectorStrategy]: the
    first answer without an error, or the last error. *)
Fixpoint strategy_loop {A} (ps : list ConnectionPlugin) (methodName : string) (ask : ConnectionPlugin -> Eff S A)
  (err : go_error) : Eff S A :=
  match ps with
  | [] => throw err
  | p :: rest =>
      if is_subscribed methodName p then fun s =>
        match ask p s with
        | (s, Ok a) => (s, Ok a)
        | (s, Err e) => strategy_loop rest methodName ask e s
        | (s, Panic) => (s, Panic)
        end
      else strategy_loop rest methodName ask err
  end.
Definition GetHostInfoByStrategy (role strategy : string) (hosts : list Hst) : Eff S Hst :=
  strategy_loop plugins GET_HOST_INFO_BY_STRATEGY_METHOD (fun p => plugin_GetHostInfoByStrategy p role strategy hosts)
    (unsupportedStrategy strategy).
Definition GetHostSelectorStrategy (strategy : string) : Eff S Sel :=
  strategy_loop plugins GET_HOST_SELECT_STRATEGY_METHOD (fun p => plugin_GetHostSelectorStrategy p strategy)
    (unsupportedStrategy strategy).

(** The plugins first, then the plugin service. *)
Definition ReleaseResources (service_ReleaseResources : St S unit) : St S unit :=
  (let! _ := foldr (fun p rest => let! _ := default (st_ret tt) (plugin_ReleaseResources p) in rest) (st_ret tt) plugins in
   service_ReleaseResources)%eff.

Definition IsPluginInUse (pluginCode : string) : bool :=
  existsb (fun p => bool_decide (GetPluginCode p = pluginCode)) plugins.
Definition UnwrapPlugin (pluginCode : string) : option ConnectionPlugin :=
  List.find (fun p => bool_decide (GetPluginCode p = pluginCode)) plugins.

(** ** A chain is its plugins, nested *)

Definition chain_plugins (name : string) (skip : option ConnectionPlugin) : list ConnectionPlugin :=
  List.filter (fun p => negb (is_plugin skip p) && is_subscribed name p) plugins.

Definition nested_exec (ps : list ConnectionPlugin) (pluginFunc : PluginExecFunc) (target : ExecuteFunc) : ExecuteFunc :=
  foldr pluginFunc target ps.
Definition nested_connect (ps : list ConnectionPlugin) (pluginFunc : PluginConnectFunc) (target : ConnectFunc) : ConnectFunc :=
  foldr (fun p k props => pluginFunc p props k) target ps.

Lemma makePluginChain_filter name kind skip :
  makePluginChain name kind skip =
  foldr (fun p chain => if kind then ExecAddToHead p chain else ConnectAddToHead p chain) (mkChain None None)
    (chain_plugins name skip).
Proof.
  unfold makePluginChain, chain_plugins. clear PluginHeap0. induction plugins as [|p ps IH]; [done|]. cbn [foldr List.filter].
  destruct (_ && _); cbn [foldr]; by rewrite IH.
Qed.

Lemma exec_chain_nested ps :
  foldr ExecAddToHead (mkChain None None) ps =
  mkChain (match ps with [] => None | _ => Some (nested_exec ps) end) None.
Proof.
  induction ps as [|p ps IH]; [done|]. cbn [foldr]. rewrite IH. unfold ExecAddToHead. by destruct ps.
Qed.

Lemma connect_chain_nested ps :
  foldr ConnectAddToHead (mkChain None None) ps =
  mkChain None (match ps with [] => None | _ => Some (fun pluginFunc props target => nested_connect ps pluginFunc target props) end).
Proof.
  induction ps as [|p ps IH]; [done|]. cbn [foldr]. rewrite IH. unfold ConnectAddToHead. by destruct ps.
Qed.

(** What a chain of either kind does when it is executed, or connected. *)
Definition run_exec (name : string) (pluginFunc : PluginExecFunc) (target : ExecuteFunc) : ExecuteFunc :=
  match chain_plugins name None with
  | [] => st_ret (exec_error pipelineNone)
  | ps => nested_exec ps pluginFunc target
  end.
Definition run_connect (name : string) (skip : option ConnectionPlugin) (pluginFunc : PluginConnectFunc) (target : ConnectFunc) :
  ConnectFunc :=
  match chain_plugins name skip with
  | [] => fun _ => throw pipelineNone
  | ps => nested_connect ps pluginFunc target
  end.
Definition recorded (name : string) (kind : bool) (s : S) : S :=
  match pluginFuncMap s !! name with
  | Some _ => s
  | None => put_chains (<[name := made_chain name kind]> (pluginFuncMap s)) s
  end.

Lemma chain_Execute_run name pluginFunc target :
  chain_Execute (makePluginChain name true None) pluginFunc target = run_exec name pluginFunc target.
Proof.
  rewrite makePluginChain_filter, exec_chain_nested. unfold run_exec, chain_Execute. by destruct (chain_plugins name None).
Qed.
Lemma chain_Connect_run name skip pluginFunc target props :
  chain_Connect (makePluginChain name false skip) pluginFunc props target = run_connect name skip pluginFunc target props.
Proof.
  rewrite makePluginChain_filter, connect_chain_nested. unfold run_connect, chain_Connect. by destruct (chain_plugins name skip).
Qed.

Lemma chain_of_known kind ps :
  (forall p, p ∈ ps -> plugin_at (plugin_id p) = Some p) ->
  chain_of (mkStored kind (plugin_id <$> ps)) =
  foldr (fun p chain => if kind then ExecAddToHead p chain else ConnectAddToHead p chain) (mkChain None None) ps.
Proof.
  intros Hk. unfold chain_of. cbn [stored_exec stored_plugins]. f_equal.
  induction ps as [|p ps IH]; [done|]. cbn. rewrite Hk by by left. f_equal. apply IH. intros q Hq. apply Hk. by right.
Qed.

(** The pointers to the plugins of the list lead to them. *)
Definition all_known : Prop := forall p, p ∈ plugins -> plugin_at (plugin_id p) = Some p.
(** No chain of the other kind, or of other plugins, is stored under a name. *)
Definition stored_right (name : string) (kind : bool) (s : S) : Prop :=
  forall stored, pluginFuncMap s !! name = Some stored -> stored = made_chain name kind.

Lemma filter_known name : all_known -> forall p, p ∈ List.filter (is_subscribed name) plugins -> plugin_at (plugin_id p) = Some p.
Proof. intros Hk p Hp. apply list_elem_of_In, List.filter_In in Hp as [Hp _]. by apply Hk, list_elem_of_In. Qed.

Lemma chain_for_right name kind s :
  all_known -> stored_right name kind s -> chain_for name kind s = (recorded name kind s, makePluginChain name kind None).
Proof.
  intros Hk Hr. unfold chain_for, recorded. destruct (pluginFuncMap s !! name) as [stored|] eqn:E; [|done].
  rewrite (Hr stored E). unfold made_chain. rewrite chain_of_known by by apply filter_known.
  by rewrite makePluginChain_filter.
Qed.

Lemma execute_run name pluginFunc target s :
  all_known -> stored_right name true s ->
  executeWithSubscribedPlugins name pluginFunc target s = run_exec name pluginFunc target (recorded name true s).
Proof.
  intros Hk Hr. unfold executeWithSubscribedPlugins, st_bind. rewrite chain_for_right by done. by rewrite chain_Execute_run.
Qed.

(** connectWithSubscribedPlugins nests the subscribed plugins around
    the target, each passing properties on to the next; with a plugin to
    skip it leaves that plugin out and does not touch the stored chains. *)
Theorem connect_nests_plugins methodName pluginFunc target props skip s :
  all_known -> stored_right methodName false s ->
  connectWithSubscribedPlugins methodName pluginFunc target props skip s =
  run_connect methodName skip pluginFunc target props (match skip with None => recorded methodName false s | Some _ => s end).
Proof.
  intros Hk Hr. unfold connectWithSubscribedPlugins, st_bind, st_ret.
  destruct skip as [q|]; [by rewrite chain_Connect_run|]. rewrite chain_for_right by done. by rewrite chain_Connect_run.
Qed.

(** Execute on a connection that is not the current one fails without
    calling a plugin or changing the state, unless the method is a closing
    method; every other call runs the chain of the method. *)
Theorem Execute_guards_connection current connInvokedOn methodName executeFunc methodArgs s :
  all_known -> stored_right methodName true s ->
  (forall c, connInvokedOn = Some c -> current s <> Some c -> methodName ∉ CLOSING_METHODS ->
     exists e, Execute current connInvokedOn methodName executeFunc methodArgs s = (s, exec_error e)) /\
  (connInvokedOn = None \/ connInvokedOn = current s \/ methodName ∈ CLOSING_METHODS ->
     Execute current connInvokedOn methodName executeFunc methodArgs s =
     run_exec methodName (fun plugin => plugin_Execute plugin connInvokedOn methodName methodArgs) executeFunc
       (recorded methodName true s)).
Proof.
  intros Hk Hr. unfold Execute. split.
  - intros c -> Hc Hm. rewrite bool_decide_true by eauto. rewrite bool_decide_true by congruence.
    rewrite (bool_decide_false (methodName ∈ _)) by done. cbn [negb andb]. eauto.
  - intros Hc.
    assert (bool_decide (is_Some connInvokedOn) && bool_decide (connInvokedOn <> current s) &&
            negb (bool_decide (methodName ∈ CLOSING_METHODS)) = false) as ->.
    { destruct Hc as [->|[->|Hm]]; [by rewrite bool_decide_false by (by intros [])| |].
      - rewrite (bool_decide_false (current s <> current s)) by (intros E; by apply E). by rewrite andb_false_r.
      - rewrite (bool_decide_true (methodName ∈ _)) by done. by rewrite andb_false_r. }
    by apply execute_run.
Qed.

(** The two kinds of chain share one map: a method under whose name the other
    kind is stored has an empty pipeline. *)
Lemma chain_kinds_clash methodName pluginFunc target ids s :
  pluginFuncMap s !! methodName = Some (mkStored false ids) ->
  executeWithSubscribedPlugins methodName pluginFunc target s = (s, exec_error pipelineNone).
Proof.
  intros Hk. unfold executeWithSubscribedPlugins, st_bind, chain_for. rewrite Hk. unfold chain_of. cbn [stored_exec stored_plugins].
  by rewrite connect_chain_nested.
Qed.

(** ** Notifications and strategies *)

Lemma notify_loop_each {W} ps name (f : ConnectionPlugin -> Eff W unit) skip w :
  notify_loop ps name f skip w = each f (List.filter (fun p => negb (is_plugin skip p) && is_subscribed name p) ps) w.
Proof.
  revert w. induction ps as [|p ps IH]; intros w; [done|]. cbn [notify_loop List.filter].
  destruct (is_plugin skip p); [apply IH|]. cbn [negb andb]. destruct (is_subscribed name p); [|apply IH].
  cbn [each]. rewrite !eff_bind_eq. destruct (f p w) as [w' [a|e|]]; [apply IH|done..].
Qed.

(** The opinions of the plugins that are asked, in order. *)
Definition opinions (changes : gset HostChangeOptions) (ps : list ConnectionPlugin) (s : S) : S * list OldConnectionSuggestedAction :=
  foldl (fun '(s, l) p => let '(s, a) := plugin_NotifyConnectionChanged p changes s in (s, l ++ [a])) (s, []) ps.

Lemma each_collect changes ps : forall s l,
  each (collect_opinion changes) ps (s, list_to_set l) =
  let '(s', l') := foldl (fun '(s, l) p => let '(s, a) := plugin_NotifyConnectionChanged p changes s in (s, l ++ [a])) (s, l) ps in
  ((s', list_to_set l'), Ok tt).
Proof.
  induction ps as [|p ps IH]; intros s l; [done|]. cbn [each foldl]. rewrite eff_bind_eq. unfold collect_opinion at 1.
  destruct (plugin_NotifyConnectionChanged p changes s) as [s' a].
  assert ({[a]} ∪ list_to_set l = list_to_set (l ++ [a]) :> gset OldConnectionSuggestedAction) as -> by set_solver.
  apply IH.
Qed.

(** NotifyConnectionChanged asks every subscribed plugin but the
    skipped one, once and in order, and returns the set of their opinions. *)
Theorem NotifyConnectionChanged_opinions changes skip s :
  NotifyConnectionChanged changes skip s =
  let '(s', l) := opinions changes (chain_plugins NOTIFY_CONNECTION_CHANGED_METHOD skip) s in (s', list_to_set l).
Proof.
  unfold NotifyConnectionChanged, NotifySubscribedPlugins, chain_plugins, opinions. rewrite notify_loop_each.
  change (∅ : gset OldConnectionSuggestedAction) with (list_to_set [] : gset OldConnectionSuggestedAction).
  rewrite each_collect. by destruct (foldl _ _ _) as [s' l].
Qed.

(** The answer of the loop over strategies: the first plugin that answers
    without an error. *)
Inductive first_answer {A} (ask : ConnectionPlugin -> Eff S A) : list ConnectionPlugin -> go_error -> S -> S -> Result A -> Prop :=
| answer_none err s : first_answer ask [] err s s (Err err)
| answer_ok p ps err s s' a : ask p s = (s', Ok a) -> first_answer ask (p :: ps) err s s' (Ok a)
| answer_err p ps err e s s' s2 r :
    ask p s = (s', Err e) -> first_answer ask ps e s' s2 r -> first_answer ask (p :: ps) err s s2 r
| answer_panic p ps err s s' : ask p s = (s', Panic) -> first_answer ask (p :: ps) err s s' Panic.

Lemma strategy_loop_first {A} (ask : ConnectionPlugin -> Eff S A) name ps : forall err s s' r,
  strategy_loop ps name ask err s = (s', r) <-> first_answer ask (List.filter (is_subscribed name) ps) err s s' r.
Proof.
  induction ps as [|p ps IH]; intros err s s' r; cbn [strategy_loop List.filter].
  - split; [intros [= <- <-]; constructor|by inversion 1].
  - destruct (is_subscribed name p); [|apply IH]. destruct (ask p s) as [s1 [a|e|]] eqn:Ea.
    + split; [intros [= <- <-]; by constructor|]. inversion 1; congruence.
    + rewrite IH. split; [by econstructor|]. inversion 1; subst; congruence.
    + split; [intros [= <- <-]; by constructor|]. inversion 1; congruence.
Qed.

(** A plugin that subscribes to the strategies only is not asked. *)
Lemma AcceptsStrategy_skips_subscriber p strategy s :
  GetSubscribedMethods p = [ACCEPTS_STRATEGY_METHOD] -> strategy <> ACCEPTS_STRATEGY_METHOD ->
  is_subscribed ACCEPTS_STRATEGY_METHOD p = true /\ accepts_loop [p] strategy s = (s, false).
Proof.
  intros Hp Hs. unfold is_subscribed. cbn [accepts_loop]. unfold is_subscribed. rewrite Hp. split.
  - rewrite (bool_decide_true (ACCEPTS_STRATEGY_METHOD ∈ _)) by set_solver. by rewrite orb_true_r.
  - rewrite !bool_decide_false by set_solver. done.
Qed.

(** GetHostInfoByStrategy returns the answer of the first subscribed
    plugin that has no error; when all fail the error of the last one, and
    an unsupported-strategy error when none subscribes. *)
Theorem GetHostInfoByStrategy_first_answer role strategy hosts s s' r :
  GetHostInfoByStrategy role strategy hosts s = (s', r) <->
  first_answer (fun p => plugin_GetHostInfoByStrategy p role strategy hosts)
    (List.filter (is_subscribed GET_HOST_INFO_BY_STRATEGY_METHOD) plugins) (unsupportedStrategy strategy) s s' r.
Proof. apply strategy_loop_first. Qed.
End Plugins.
Arguments ConnectionPlugin S V C Sel Hst : clear implicits.

(** A manager that is initialised once: its pointers lead to the plugins of its
    list. *)
#[export] Instance initialised_once {S V C Sel Hst} (plugins : list (ConnectionPlugin S V C Sel Hst)) : PluginHeap plugins | 100 :=
  fun id => List.find (fun p => Nat.eqb (plugin_id p) id) plugins.
Lemma initialised_once_known {S V C Sel Hst} (plugins : list (ConnectionPlugin S V C Sel Hst)) :
  NoDup (plugin_id <$> plugins) -> all_known plugins.
Proof.
  unfold all_known, plugin_at, initialised_once. induction plugins as [|q ps IH]; intros Hn p Hp; [by apply elem_of_nil in Hp|].
  cbn in Hn. apply NoDup_cons in Hn as [Hq Hn]. cbn [List.find]. apply elem_of_cons in Hp as [->|Hp]; [by rewrite Nat.eqb_refl|].
  destruct (Nat.eqb_spec (plugin_id q) (plugin_id p)) as [E|_]; [|by apply IH].
  exfalso. apply Hq. rewrite E. by apply list_elem_of_fmap_2.
Qed.
Lemma single_known {S V C Sel Hst} (p : ConnectionPlugin S V C Sel Hst) : all_known [p].
Proof. apply initialised_once_known, NoDup_singleton. Qed.

Section Stored.
Context {S V C Sel Hst : Type} `{PluginFuncMap S} (nil_any : V).
Local Abbreviation Plugin := (ConnectionPlugin S V C Sel Hst).

(** C15. executeWithSubscribedPlugins runs the plugins that subscribe to the
    method, or to all methods, nested around the target in the order of the
    plugin list (the first outermost); with no such plugin it fails with
    pipelineNone. The first call under a name stores the chain, which keeps
    the plugins of its time: whatever list the manager has been given since,
    a later call nests the plugins of the list the chain was made from, and
    leaves the stored chains as they are. *)
Theorem execute_nests_plugins (plugins since : list Plugin) (heap : nat -> option Plugin) methodName pluginFunc target s :
  (forall p, p ∈ plugins -> heap (plugin_id p) = Some p) ->
  (pluginFuncMap s !! methodName = None ->
   @executeWithSubscribedPlugins _ _ _ _ _ nil_any plugins _ heap methodName pluginFunc target s =
   run_exec nil_any plugins methodName pluginFunc target
     (put_chains (<[methodName := made_chain plugins methodName true]> (pluginFuncMap s)) s)) /\
  (pluginFuncMap s !! methodName = Some (made_chain plugins methodName true) ->
   @executeWithSubscribedPlugins _ _ _ _ _ nil_any since _ heap methodName pluginFunc target s =
   run_exec nil_any plugins methodName pluginFunc target s).
Proof.
  intros Hk. unfold executeWithSubscribedPlugins, st_bind, chain_for. split; intros ->; [by rewrite chain_Execute_run|].
  unfold made_chain. rewrite (@chain_of_known _ _ _ _ _ since heap).
  - change (List.filter (is_subscribed methodName) plugins) with (chain_plugins plugins methodName None).
    by rewrite <-(makePluginChain_filter plugins methodName true None), chain_Execute_run.
  - by apply (@filter_known _ _ _ _ _ plugins heap methodName).
Qed.
End Stored.

(** ** The plugins of a connection (connection_plugin_chain_builder.go) *)

Definition WEIGHT_RELATIVE_TO_PRIOR_PLUGIN : Z := -1.

Definition pluginWeightByCode : gmap string Z := list_to_map [
  ("customEndpoint", 380); ("initialConnection", 390); ("auroraConnectionTracker", 400); ("bg", 550); ("failover", 600);
  ("gdbFailover", 610); ("readWriteSplitting", 700); ("gdbReadWriteSplitting", 710); ("efm", 800); ("limitless", 950);
  ("iam", 1000); ("awsSecretsManager", 1100); ("federatedAuth", 1200); ("okta", 1300); ("dev", 1400);
  ("executionTime", WEIGHT_RELATIVE_TO_PRIOR_PLUGIN); ("connectTime", WEIGHT_RELATIVE_TO_PRIOR_PLUGIN)].
#[global] Arguments pluginWeightByCode : simpl never.

(** [strings.ReplaceAll(s, " ", "")] *)
Fixpoint remove_blanks (s : string) : string :=
  match s with
  | EmptyString => EmptyString
  | String a r => if bool_decide (a = " "%char) then remove_blanks r else String a (remove_blanks r)
  end.

Definition plugin_codes (props : option properties) : list string :=
  let pluginCodes := remove_blanks (TrimSpace (GetVerifiedWrapperPropertyValue props PLUGINS)) in
  if negb (is_empty pluginCodes) && negb (bool_decide (ToLower pluginCodes = "none"))
  then Split pluginCodes ","%char else [].

(** [sort.Slice] by weight: insertion sort, as Go sorts up to twelve elements. *)
Section WeightSort.
Context {A : Type}.
Fixpoint insert_weight (x : A * Z) (l : list (A * Z)) : list (A * Z) :=
  match l with
  | [] => [x]
  | y :: r => if x.2 <? y.2 then x :: l else y :: insert_weight x r
  end.
Definition sort_by_weight (l : list (A * Z)) : list (A * Z) := foldl (fun acc x => insert_weight x acc) [] l.

Lemma insert_weight_perm x l : insert_weight x l ≡ₚ x :: l.
Proof. induction l as [|y l IH]; simpl; [done|]. destruct (_ <? _); [done|]. rewrite IH. constructor. Qed.
Lemma sort_by_weight_perm l : sort_by_weight l ≡ₚ l.
Proof.
  unfold sort_by_weight. rewrite <-(app_nil_r l) at 2. generalize (@nil (A * Z)) as acc.
  induction l as [|x l IH]; intros acc; simpl; [done|]. by rewrite IH, insert_weight_perm, Permutation_middle.
Qed.

Definition weight_le (x y : A * Z) : Prop := x.2 <= y.2.
Lemma insert_weight_sorted x l : StronglySorted weight_le l -> StronglySorted weight_le (insert_weight x l).
Proof.
  induction l as [|y l IH]; simpl; intros Hs; [by repeat constructor|].
  inversion Hs as [|? ? Hs1 Hall]; subst. destruct (Z.ltb_spec x.2 y.2) as [Hlt|Hge].
  - constructor; [done|]. constructor; [unfold weight_le; lia|].
    eapply Forall_impl; [exact Hall|]. unfold weight_le. intros. simpl in *. lia.
  - constructor; [by apply IH|]. rewrite insert_weight_perm. constructor; [unfold weight_le; lia|done].
Qed.
Lemma sort_by_weight_sorted l : StronglySorted weight_le (sort_by_weight l).
Proof.
  unfold sort_by_weight. assert (Hn : StronglySorted weight_le []) by constructor. revert Hn.
  generalize (@nil (A * Z)) as acc. induction l as [|x l IH]; intros acc Hacc; simpl; [done|].
  by apply IH, insert_weight_sorted.
Qed.
End WeightSort.

Section Builder.
Context {S V C Sel Hst F : Type} (GetInstance : F -> option properties -> Eff S (option (ConnectionPlugin S V C Sel Hst)))
  (defaultPlugin : ConnectionPlugin S V C Sel Hst).

(** The weight of a plugin, given that of the plugin before it. *)
Definition next_weight (lastWeight : Z) (pluginCode : string) : Z :=
  if lastWeight =? WEIGHT_RELATIVE_TO_PRIOR_PLUGIN then lastWeight + 1 else default 0 (pluginWeightByCode !! pluginCode).

Fixpoint plugin_weights (availablePlugins : gmap string F) (codes : list string) (lastWeight : Z) : Result (list (F * Z)) :=
  match codes with
  | [] => Ok []
  | pluginCode :: rest =>
      if is_empty pluginCode then plugin_weights availablePlugins rest lastWeight
      else match availablePlugins !! pluginCode with
           | None => Err (NewGenericAwsWrapperError "ConnectionPluginManager.unknownPluginCode" [pluginCode])
           | Some factory =>
               let w := next_weight lastWeight pluginCode in
               (try l := plugin_weights availablePlugins rest w in Ok ((factory, w) :: l))%go
           end
  end.

(** Sorted by weight, unless the plugins are the default ones, there is one
    at most or sorting is switched off. *)
Definition in_order (props : option properties) (weights : list (F * Z)) : list (F * Z) :=
  let usingDefault := bool_decide (GetVerifiedWrapperPropertyValue props PLUGINS = DEFAULT_PLUGINS) in
  let autoSort := GetVerifiedWrapperPropertyValue props AUTO_SORT_PLUGIN_ORDER in
  if negb usingDefault && Nat.ltb 1 (length weights) && autoSort then sort_by_weight weights else weights.

Fixpoint instances (props : option properties) (l : list F) : Eff S (list (ConnectionPlugin S V C Sel Hst)) :=
  match l with
  | [] => eff_ok []
  | f :: rest =>
      (try! plugin := GetInstance f props in
       try! ps := instances props rest in
       eff_ok (match plugin with Some p => p :: ps | None => ps end))%eff
  end.

Definition GetPlugins (props : option properties) (availablePlugins : gmap string F) : Eff S (list (ConnectionPlugin S V C Sel Hst)) :=
  (try! weights := lift_result (plugin_weights availablePlugins (plugin_codes props) 0) in
   try! ps := instances props (in_order props weights).*1 in
   eff_ok (ps ++ [defaultPlugin]))%eff.

(** ** Its order *)

(** A code with a weight of its own. *)
Definition weighted (code : string) : bool := 0 <? default 0 (pluginWeightByCode !! code).

Definition given_codes (codes : list string) : list string := List.filter (fun c => negb (is_empty c)) codes.

Lemma plugin_weights_own available codes : forall last l,
  0 <= last -> forallb weighted (given_codes codes) = true -> plugin_weights available codes last = Ok l ->
  Forall2 (fun code fw => available !! code = Some fw.1 /\ pluginWeightByCode !! code = Some fw.2) (given_codes codes) l.
Proof.
  unfold given_codes. induction codes as [|code codes IH]; intros last l Hl Hw; cbn [plugin_weights List.filter] in *;
    [intros [= <-]; constructor|].
  destruct (is_empty code) eqn:Ee; cbn [negb] in *; [by apply IH|].
  cbn [forallb] in Hw. to_prop. unfold weighted in H. destruct (pluginWeightByCode !! code) as [w|] eqn:Ew; [|done].
  cbn in H. to_prop. destruct (available !! code) as [f|] eqn:Ef; [|done]. unfold next_weight. rewrite Ew.
  destruct (Z.eqb_spec last WEIGHT_RELATIVE_TO_PRIOR_PLUGIN) as [->|_]; [unfold WEIGHT_RELATIVE_TO_PRIOR_PLUGIN in Hl; lia|].
  change (default 0 (Some w)) with w.
  destruct (plugin_weights available codes w) as [l'|e|] eqn:El; cbn; [|done..]. intros [= <-].
  constructor; [done|]. apply (IH w); [lia|done|done].
Qed.

Lemma instances_come_from props l : forall s s' ps,
  instances props l s = (s', Ok ps) ->
  Forall (fun p => exists f s1 s2, f ∈ l /\ GetInstance f props s1 = (s2, Ok (Some p))) ps.
Proof.
  induction l as [|f l IH]; intros s s' ps; cbn [instances]; [by intros [= <- <-]|].
  rewrite eff_bind_eq. destruct (GetInstance f props s) as [s1 [o|e|]] eqn:Ef; [|done..].
  rewrite eff_bind_eq. destruct (instances props l s1) as [s2 [ps'|e|]] eqn:El; [|done..]. intros [= <- <-].
  assert (Hrest : Forall (fun p => exists f0 s3 s4, f0 ∈ f :: l /\ GetInstance f0 props s3 = (s4, Ok (Some p))) ps').
  { eapply Forall_impl; [by eapply IH|]. intros p (f0 & s3 & s4 & Hf0 & Hg). exists f0, s3, s4. split; [by right|done]. }
  destruct o as [p|]; [|done]. constructor; [|done]. exists f, s, s1. split; [left|done].
Qed.

(** The order in which the factories are asked. *)
Definition factory_order (props : option properties) (availablePlugins : gmap string F) : Result (list (F * Z)) :=
  (try weights := plugin_weights availablePlugins (plugin_codes props) 0 in Ok (in_order props weights))%go.

Lemma in_order_perm props (weights : list (F * Z)) : in_order props weights ≡ₚ weights.
Proof. unfold in_order. destruct (_ && _); [apply sort_by_weight_perm|done]. Qed.

Lemma in_order_sorted props (weights : list (F * Z)) :
  GetVerifiedWrapperPropertyValue props PLUGINS <> DEFAULT_PLUGINS ->
  GetVerifiedWrapperPropertyValue props AUTO_SORT_PLUGIN_ORDER = true -> StronglySorted weight_le (in_order props weights).
Proof.
  intros Hd Ha. unfold in_order. rewrite bool_decide_false, Ha by done. cbn [negb andb]. rewrite andb_true_r.
  destruct (Nat.ltb_spec 1 (length weights)) as [|Hl]; [apply sort_by_weight_sorted|].
  destruct weights as [|x [|y r]]; [constructor|by repeat constructor|simpl in Hl; lia].
Qed.

Lemma GetPlugins_order props available s :
  GetPlugins props available s =
  (try! sorted := lift_result (factory_order props available) in
   try! ps := instances props sorted.*1 in eff_ok (ps ++ [defaultPlugin]))%eff s.
Proof.
  unfold GetPlugins, factory_order. rewrite !eff_bind_eq. unfold lift_result.
  by destruct (plugin_weights available (plugin_codes props) 0).
Qed.

(** The plugins of a connection are instances of the requested
    factories followed by the default plugin; the factories are a
    permutation of those requested, sorted by weight when the plugins are
    not the default ones and sorting is on, and each has the weight of its
    code when no requested code is relative to the plugin before it. *)
Theorem GetPlugins_sorted_default_last props available s s' ps :
  GetPlugins props available s = (s', Ok ps) ->
  exists weights sorted front,
    factory_order props available = Ok sorted /\
    plugin_weights available (plugin_codes props) 0 = Ok weights /\ sorted ≡ₚ weights /\
    (GetVerifiedWrapperPropertyValue props PLUGINS <> DEFAULT_PLUGINS ->
     GetVerifiedWrapperPropertyValue props AUTO_SORT_PLUGIN_ORDER = true -> StronglySorted weight_le sorted) /\
    (forallb weighted (given_codes (plugin_codes props)) = true ->
     Forall2 (fun code fw => available !! code = Some fw.1 /\ pluginWeightByCode !! code = Some fw.2)
       (given_codes (plugin_codes props)) weights) /\
    ps = front ++ [defaultPlugin] /\
    Forall (fun p => exists f s1 s2, f ∈ sorted.*1 /\ GetInstance f props s1 = (s2, Ok (Some p))) front.
Proof.
  rewrite GetPlugins_order, eff_bind_eq. unfold lift_result. destruct (factory_order props available) as [sorted|e|] eqn:Eo; [|done..].
  rewrite eff_bind_eq. destruct (instances props sorted.*1 s) as [s1 [front|e|]] eqn:Ei; [|done..]. intros [= <- <-].
  destruct (plugin_weights available (plugin_codes props) 0) as [weights|e|] eqn:Ew;
    [|unfold factory_order in Eo; by rewrite Ew in Eo..].
  assert (sorted = in_order props weights) as -> by (unfold factory_order in Eo; rewrite Ew in Eo; by injection Eo).
  exists weights, (in_order props weights), front. split; [done|]. split; [done|]. split; [apply in_order_perm|].
  split; [apply in_order_sorted|]. split; [|split; [done|by eapply instances_come_from]].
  intros Hw. by apply (plugin_weights_own _ _ 0).
Qed.
End Builder.

(** ** Examples *)

(** A state with a trace of the plugins that were entered and left. *)
Definition Traced : Type := gmap string StoredChain * list string.
#[local] Instance traced_chains : PluginFuncMap Traced := {| pluginFuncMap := fst; put_chains m s := (m, s.2) |}.
Definition traced (what : string) : St Traced unit := modify (fun s => (s.1, s.2 ++ [what])).
Definition tracing_plugin (id : nat) (name : string) (methods : list string) : ConnectionPlugin Traced nat nat unit HostInfo := {|
  plugin_id := id; GetPluginCode := name; GetSubscribedMethods := methods;
  plugin_Execute _ _ _ k := (let! _ := traced name in let! r := k in let! _ := traced ("/" +:+ name) in st_ret r)%eff;
  plugin_Connect _ props _ k := (let! _ := traced name in k props)%eff;
  plugin_ForceConnect _ props _ k := k props;
  plugin_AcceptsStrategy _ := st_ret false;
  plugin_GetHostInfoByStrategy _ _ _ := throw (PlainError name []);
  plugin_GetHostSelectorStrategy _ := throw (PlainError name []);
  plugin_NotifyConnectionChanged _ := (let! _ := traced name in st_ret PRESERVE)%eff;
  plugin_NotifyHostListChanged _ := traced name;
  plugin_InitHostProvider _ k := k;
  plugin_ReleaseResources := None |}.
Definition traced_plugins : list (ConnectionPlugin Traced nat nat unit HostInfo) :=
  [tracing_plugin 0 "efm" ["*"]; tracing_plugin 1 "failover" ["Conn.ExecContext"]; tracing_plugin 2 "iam" ["Conn.Connect"]].
Definition traced_target : ExecuteFunc (S := Traced) (V := nat) :=
  (let! _ := traced "driver" in st_ret (mkExecResult 1%nat 2%nat true None))%eff.

Definition traced_heap (id : nat) : option (ConnectionPlugin Traced nat nat unit HostInfo) :=
  List.find (fun p => Nat.eqb (plugin_id p) id) traced_plugins.
Lemma traced_known p : p ∈ traced_plugins -> traced_heap (plugin_id p) = Some p.
Proof. revert p. apply Forall_forall. by repeat constructor. Qed.

(** The plugins are exchanged for one that subscribes to nothing after the first
    call: the second call runs the chain of the first. *)
Definition traced_exec (ps : list (ConnectionPlugin Traced nat nat unit HostInfo)) (s : Traced) : Traced * ExecResult nat :=
  @executeWithSubscribedPlugins _ _ _ _ _ 0%nat ps _ traced_heap "Conn.ExecContext"
    (fun p => plugin_Execute p None "Conn.ExecContext" []) traced_target s.
Lemma execute_nests_plugins_witness :
  let s := (traced_exec traced_plugins (∅, [])).1 in
  s.2 = ["efm"; "failover"; "driver"; "/failover"; "/efm"] /\
  (traced_exec [tracing_plugin 7 "late" []] s).1.2 = s.2 ++ s.2.
Proof.
  assert (E : forall s, _) by exact (fun s => execute_nests_plugins (C := nat) (Hst := HostInfo) (Sel := unit) 0%nat traced_plugins
    [tracing_plugin 7 "late" []] traced_heap "Conn.ExecContext" (fun p => plugin_Execute p None "Conn.ExecContext" []) traced_target s traced_known).
  cbv zeta. unfold traced_exec. rewrite (proj1 (E (∅, []))) by done. split; [by vm_compute|].
  rewrite (proj2 (E _)) by by vm_compute. by vm_compute.
Defined.

Lemma traced_nothing_stored name kind : stored_right traced_plugins name kind ((∅, []) : Traced).
Proof. intros stored. cbn. by rewrite lookup_empty. Qed.
Lemma connect_nests_plugins_witness :
  (connectWithSubscribedPlugins traced_plugins CONNECT_METHOD
     (fun p props k => plugin_Connect p (mkHostInfo "h" "h" 1 AVAILABLE WRITER None None 100 0) props true k)
     (fun _ => eff_ok 7%nat) ∅ (Some (tracing_plugin 0 "efm" [])) (∅, [])) = ((∅, ["iam"]), Ok 7%nat).
Proof.
  rewrite (connect_nests_plugins (Sel := unit) (V := nat) (Hst := HostInfo) traced_plugins CONNECT_METHOD _ _ ∅ _ (∅, []));
    [by vm_compute|exact traced_known|apply traced_nothing_stored].
Defined.

Lemma Execute_guards_connection_witness :
  exists e, Execute (C := nat) 0%nat traced_plugins (fun _ => Some 1%nat) (Some 2%nat) "Conn.ExecContext" traced_target [] (∅, []) =
            ((∅, []), exec_error 0%nat e).
Proof.
  apply (proj1 (Execute_guards_connection (Sel := unit) (C := nat) (Hst := HostInfo) 0%nat traced_plugins (fun _ => Some 1%nat) (Some 2%nat)
    "Conn.ExecContext" traced_target [] (∅, []) traced_known (traced_nothing_stored _ _)) 2%nat); [done|discriminate|].
  apply (bool_decide_unpack _). by vm_compute.
Defined.

Definition code_factories : gmap string string :=
  list_to_map ((fun c => (c, c)) <$> ["failover"; "efm"; "iam"; "executionTime"; "connectTime"]).
Definition code_instance (code : string) (_ : option properties) : Eff Traced (option (ConnectionPlugin Traced nat nat unit HostInfo)) :=
  eff_ok (Some (tracing_plugin 1 code [])).
Definition last_plugin : ConnectionPlugin Traced nat nat unit HostInfo := tracing_plugin 9 "default" ["*"].

Lemma GetPlugins_sorted_default_last_witness :
  exists front, (GetPlugins code_instance last_plugin (Some {["plugins" := "efm, failover"]}) code_factories (∅, [])).2 =
                Ok (front ++ [last_plugin]).
Proof.
  destruct (GetPlugins code_instance last_plugin (Some {["plugins" := "efm, failover"]}) code_factories (∅, []))
    as [s' r] eqn:E.
  assert (exists ps, r = Ok ps) as [ps ->] by (vm_compute in E; injection E as _ <-; by eexists).
  destruct (GetPlugins_sorted_default_last code_instance last_plugin _ _ _ _ _ E) as (w & so & front & _ & _ & _ & _ & _ & -> & _).
  by exists front.
Defined.

(** A plugin listed after a timer plugin loses its weight: the failure monitor
    runs in front of failover, not behind it. *)
Example timer_takes_weight_of_next :
  factory_order (Some {["plugins" := "failover,executionTime,efm"]}) code_factories =
    Ok [("executionTime", -1); ("efm", 0); ("failover", 600)] /\
  factory_order (Some {["plugins" := "efm,failover,executionTime"]}) code_factories =
    Ok [("executionTime", -1); ("failover", 600); ("efm", 800)].
Proof. split; by vm_compute. Qed.
