(* ===== verification/SimplePlugins.v ===== *)
(** * SimplePlugins: the plugins that only watch or disturb the calls
    (base_connection_plugin.go, connect_time_plugin.go,
    execution_time_plugin.go, developer_connection_plugin.go and
    error_simulator/error_simulator_manager.go under awssql/plugins/).

    The state of a plugin is a part of the state [S] of the program, which a
    class names. The three plugins are [ConnectionPlugin]s of PluginManager.v
    that change the methods of [BaseConnectionPlugin] they override. *)

From S2P Require Import Prelude.
From S2P Require Import Properties.
From S2P Require Import Dsn.
From S2P Require Import Effects.
From S2P Require Import PluginManager.

Definition CONNECT_TIME_PLUGIN_CODE : string := "connectTime".
Definition EXECUTION_TIME_PLUGIN_CODE : string := "executionTime".
Definition DEVELOPER_PLUGIN_CODE : string := "dev".

(** The elapsed time is a difference of readings of the monotonic clock. *)
Class HasTimers (S : Type) := {
  connectTimeNano : S -> Z; put_connectTime : Z -> S -> S;
  executionTime : S -> Z; put_executionTime : Z -> S -> S;
  get_put_connectTime z s : connectTimeNano (put_connectTime z s) = z;
  get_put_executionTime z s : executionTime (put_executionTime z s) = z
}.

Section base.
Context {S V C Sel Hst : Type}.
Local Notation Plugin := (ConnectionPlugin S V C Sel Hst).

(** [%T] of the plugin is the argument of the message. *)
Definition unsupportedMethod (method : string) : go_error :=
  AwsError UnsupportedStrategyErrorType "AwsWrapper.unsupportedMethodError" [method; "plugins.BaseConnectionPlugin"].

Definition BaseConnectionPlugin (id : nat) : Plugin := {|
  plugin_id := id;
  GetPluginCode := "";
  GetSubscribedMethods := [];
  plugin_Execute _ _ _ executeFunc := executeFunc;
  plugin_Connect _ props _ connectFunc := connectFunc props;
  plugin_ForceConnect _ props _ connectFunc := connectFunc props;
  plugin_AcceptsStrategy _ := st_ret false;
  plugin_GetHostInfoByStrategy _ _ _ := throw (unsupportedMethod "GetHostInfoByStrategy");
  plugin_GetHostSelectorStrategy _ := throw (unsupportedMethod "GetHostSelectorStrategy");
  plugin_NotifyConnectionChanged _ := st_ret NO_OPINION;
  plugin_NotifyHostListChanged _ := st_ret tt;
  plugin_InitHostProvider _ initHostProviderFunc := initHostProviderFunc;
  plugin_ReleaseResources := None
|}.

(** [p] with other methods: Go's embedding. *)
Definition embed (code : string) (methods : list string)
  (execute : option C -> string -> list V -> ExecuteFunc (S := S) (V := V) -> ExecuteFunc (S := S) (V := V))
  (connect forceConnect : Hst -> properties -> bool -> ConnectFunc (S := S) (C := C) -> Eff S C) (p : Plugin) : Plugin := {|
  plugin_id := plugin_id p;
  GetPluginCode := code;
  GetSubscribedMethods := methods;
  plugin_Execute := execute;
  plugin_Connect := connect;
  plugin_ForceConnect := forceConnect;
  plugin_AcceptsStrategy := plugin_AcceptsStrategy p;
  plugin_GetHostInfoByStrategy := plugin_GetHostInfoByStrategy p;
  plugin_GetHostSelectorStrategy := plugin_GetHostSelectorStrategy p;
  plugin_NotifyConnectionChanged := plugin_NotifyConnectionChanged p;
  plugin_NotifyHostListChanged := plugin_NotifyHostListChanged p;
  plugin_InitHostProvider := plugin_InitHostProvider p;
  plugin_ReleaseResources := plugin_ReleaseResources p
|}.

(** ** Times *)

Context `{Clock S} `{HasTimers S}.

Definition timed {A} (add : Z -> S -> S) (c : St S A) : St S A :=
  (let! start := clock_now in
   let! r := c in
   let! stop := clock_now in
   do! modify (add (stop - start)) in
   st_ret r)%eff.
Definition add_connectTime (elapsed : Z) (s : S) : S := put_connectTime (wrap64 (connectTimeNano s + elapsed)) s.
Definition add_executionTime (elapsed : Z) (s : S) : S := put_executionTime (wrap64 (executionTime s + elapsed)) s.

Definition connectTime_Connect (_ : Hst) (props : properties) (_ : bool) (connectFunc : ConnectFunc (S := S) (C := C)) : Eff S C :=
  timed add_connectTime (connectFunc props).
Definition connectTime_ForceConnect (_ : Hst) (props : properties) (_ : bool) (forceConnectFunc : ConnectFunc (S := S) (C := C)) : Eff S C :=
  timed add_connectTime (forceConnectFunc props).
Definition ConnectTimePlugin (id : nat) : Plugin :=
  embed CONNECT_TIME_PLUGIN_CODE [CONNECT_METHOD; FORCE_CONNECT_METHOD] (plugin_Execute (BaseConnectionPlugin id : Plugin))
    connectTime_Connect connectTime_ForceConnect (BaseConnectionPlugin id).
Definition ResetConnectTime : S -> S := put_connectTime 0.
Definition GetTotalConnectTime : S -> Z := connectTimeNano.

Definition executionTime_Execute (_ : option C) (_ : string) (_ : list V) (executeFunc : ExecuteFunc (S := S) (V := V)) :
  ExecuteFunc (S := S) (V := V) := timed add_executionTime executeFunc.
Definition ExecutionTimePlugin (id : nat) : Plugin :=
  embed EXECUTION_TIME_PLUGIN_CODE [ALL_METHODS] executionTime_Execute
    (plugin_Connect (BaseConnectionPlugin id : Plugin)) (plugin_ForceConnect (BaseConnectionPlugin id : Plugin)) (BaseConnectionPlugin id).
Definition ResetExecutionTime : S -> S := put_executionTime 0.
Definition GetTotalExecutionTime : S -> Z := executionTime.
End base.

(** ** Simulated errors *)

Record ErrorSimulatorManager (Hst : Type) := mkManager {
  NextError : option go_error;
  ConnectCallback : option (Hst -> properties -> bool -> option go_error)
}.
Arguments mkManager {Hst} _ _.
Arguments NextError {Hst} _.
Arguments ConnectCallback {Hst} _.
Definition RaiseErrorOnNextConnect {Hst} (err : option go_error) (e : ErrorSimulatorManager Hst) : ErrorSimulatorManager Hst :=
  mkManager err (ConnectCallback e).
Definition SetConnectCallback {Hst} (f : option (Hst -> properties -> bool -> option go_error)) (e : ErrorSimulatorManager Hst) :
  ErrorSimulatorManager Hst := mkManager (NextError e) f.

Record DeveloperConnectionPlugin (V : Type) := mkDeveloper {
  errorSimulatorMethodCallback : option (string -> list V -> option go_error);
  nextMethodName : string;
  nextError : option go_error
}.
Arguments mkDeveloper {V} _ _ _.
Arguments errorSimulatorMethodCallback {V} _.
Arguments nextMethodName {V} _.
Arguments nextError {V} _.
Definition NewDeveloperConnectionPlugin {V} : DeveloperConnectionPlugin V := mkDeveloper None "" None.
Definition RaiseErrorOnNextCall {V} (err : option go_error) (methodName : string) (d : DeveloperConnectionPlugin V) :
  DeveloperConnectionPlugin V :=
  mkDeveloper (errorSimulatorMethodCallback d) (if negb (is_empty methodName) then methodName else ALL_METHODS) err.
Definition SetCallback {V} (f : option (string -> list V -> option go_error)) (d : DeveloperConnectionPlugin V) :
  DeveloperConnectionPlugin V := mkDeveloper f (nextMethodName d) (nextError d).

Class HasSimulator (V Hst S : Type) := {
  developer : S -> DeveloperConnectionPlugin V; put_developer : DeveloperConnectionPlugin V -> S -> S;
  simulator : S -> ErrorSimulatorManager Hst; put_simulator : ErrorSimulatorManager Hst -> S -> S;
  developer_put d s : developer (put_developer d s) = d
}.

Section developer.
Context {S V C Sel Hst : Type} `{HasSimulator V Hst S} (nil_any : V).
Local Notation Plugin := (ConnectionPlugin S V C Sel Hst).

Definition raiseError (err : option go_error) : St S (option go_error) :=
  match err with
  | None => st_ret None
  | Some err => fun s => (put_developer (mkDeveloper (errorSimulatorMethodCallback (developer s)) "" None) s, Some err)
  end.
Definition raiseErrorIfNeeded (methodName : string) (methodArgs : list V) : St S (option go_error) := fun s =>
  let d := developer s in
  match nextError d with
  | Some err =>
      if bool_decide (ALL_METHODS = nextMethodName d) || bool_decide (methodName = nextMethodName d) then raiseError (Some err) s
      else (s, None)
  | None =>
      match errorSimulatorMethodCallback d with
      | Some f => raiseError (f methodName methodArgs) s
      | None => (s, None)
      end
  end.
Definition developer_Execute (_ : option C) (methodName : string) (methodArgs : list V) (executeFunc : ExecuteFunc (S := S) (V := V)) :
  ExecuteFunc (S := S) (V := V) :=
  (let! err := raiseErrorIfNeeded methodName methodArgs in
   match err with Some err => st_ret (exec_error nil_any err) | None => executeFunc end)%eff.

Definition raiseErrorOnConnect (err : option go_error) : St S (option go_error) :=
  match err with
  | None => st_ret None
  | Some err => fun s => (put_simulator (RaiseErrorOnNextConnect None (simulator s)) s, Some err)
  end.
Definition raiseErrorOnConnectIfNeeded (hostInfo : Hst) (props : properties) (isInitialConnection : bool) : St S (option go_error) := fun s =>
  match NextError (simulator s) with
  | Some err => raiseErrorOnConnect (Some err) s
  | None =>
      match ConnectCallback (simulator s) with
      | Some f => raiseErrorOnConnect (f hostInfo props isInitialConnection) s
      | None => (s, None)
      end
  end.
Definition developer_Connect (hostInfo : Hst) (props : properties) (isInitialConnection : bool)
  (connectFunc : ConnectFunc (S := S) (C := C)) : Eff S C :=
  (let! err := raiseErrorOnConnectIfNeeded hostInfo props isInitialConnection in
   match err with Some err => throw err | None => connectFunc props end)%eff.
Definition DeveloperPlugin (id : nat) : Plugin :=
  embed DEVELOPER_PLUGIN_CODE [ALL_METHODS] developer_Execute developer_Connect
    (plugin_ForceConnect (BaseConnectionPlugin id : Plugin)) (BaseConnectionPlugin id).
End developer.

(** ** Claims *)

Section claims.
Context {S V C Sel Hst : Type} `{HasSimulator V Hst S} (nil_any : V).
Local Notation Exec := (ExecuteFunc (S := S) (V := V)).

(** An error ordered for a method, or for any of them with the empty name, is
    what the next call of that method gives, and that call is not made; calls
    of other methods are made as before; once given, the error is gone and the
    same call is made. *)
Theorem developer_raises_once conn err methodName other args (f g : Exec) s :
  errorSimulatorMethodCallback (developer s) = None ->
  let ordered := put_developer (RaiseErrorOnNextCall (Some err) methodName (developer s)) s in
  if is_empty methodName || bool_decide (methodName = ALL_METHODS) || bool_decide (other = methodName) then
    exists s1, developer_Execute (C := C) nil_any conn other args f ordered = (s1, exec_error nil_any err) /\
      developer_Execute (C := C) nil_any conn other args g s1 = g s1
  else developer_Execute (C := C) nil_any conn other args f ordered = f ordered.
Proof.
  intros Hc. cbv zeta. set (ordered := put_developer _ s).
  set (hit := is_empty methodName || bool_decide (methodName = ALL_METHODS) || bool_decide (other = methodName)).
  assert (K : raiseErrorIfNeeded other args ordered =
              if hit then (put_developer (mkDeveloper None "" None) ordered, Some err) else (ordered, None)).
  { unfold raiseErrorIfNeeded, ordered. rewrite developer_put. cbn -[hit ALL_METHODS].
    assert (bool_decide (ALL_METHODS = (if negb (is_empty methodName) then methodName else ALL_METHODS)) ||
            bool_decide (other = (if negb (is_empty methodName) then methodName else ALL_METHODS)) = hit) as ->.
    { unfold hit. destruct (is_empty methodName); cbn -[ALL_METHODS]; [done|]. f_equal. by apply bool_decide_ext. }
    destruct hit; [|done]. rewrite developer_put. cbn. by rewrite Hc. }
  destruct hit; unfold developer_Execute, st_bind; rewrite K; [|done].
  eexists. split; [reflexivity|]. unfold raiseErrorIfNeeded. by rewrite developer_put.
Qed.
End claims.

Section timer_claims.
Context {S V C Sel Hst : Type} `{Clock S} `{HasTimers S}.

(** A timed connection attempt is the attempt, between two readings of the
    clock: its result is what the caller gets, and what it took is added to
    the total, as a 64-bit number. *)
Theorem connect_time_counts (h : Hst) props b (f : ConnectFunc (S := S) (C := C)) s :
  let s1 := (clock_now s).1 in let s2 := (f props s1).1 in let s3 := (clock_now s2).1 in
  let r := connectTime_Connect h props b f s in
  r.2 = (f props s1).2 /\
  GetTotalConnectTime r.1 = wrap64 (connectTimeNano s3 + ((clock_now s2).2 - (clock_now s).2)).
Proof.
  cbv zeta. unfold connectTime_Connect, timed, st_bind, modify, st_ret. destruct (clock_now s) as [s1 t1]. cbn.
  destruct (f props s1) as [s2 r]. cbn. destruct (clock_now s2) as [s3 t2]. cbn.
  split; [done|]. apply get_put_connectTime.
Qed.
End timer_claims.

(** ** Examples *)

(** A state for one connection: the two totals, the plugin, the manager, and
    the number of calls made, by which the clock goes. *)
Record Bench := mkBench {
  b_connect : Z; b_execute : Z; b_developer : DeveloperConnectionPlugin nat; b_simulator : ErrorSimulatorManager nat; b_calls : Z }.
#[export] Instance bench_timers : HasTimers Bench := {|
  connectTimeNano := b_connect;
  put_connectTime z b := mkBench z (b_execute b) (b_developer b) (b_simulator b) (b_calls b);
  executionTime := b_execute;
  put_executionTime z b := mkBench (b_connect b) z (b_developer b) (b_simulator b) (b_calls b);
  get_put_connectTime z s := eq_refl;
  get_put_executionTime z s := eq_refl
|}.
#[export] Instance bench_simulator : HasSimulator nat nat Bench := {|
  developer := b_developer;
  put_developer d b := mkBench (b_connect b) (b_execute b) d (b_simulator b) (b_calls b);
  simulator := b_simulator;
  put_simulator m b := mkBench (b_connect b) (b_execute b) (b_developer b) m (b_calls b);
  developer_put d s := eq_refl
|}.
#[export] Instance bench_clock : Clock Bench := fun b => (b, 100 * b_calls b).
Definition call (b : Bench) : Bench := mkBench (b_connect b) (b_execute b) (b_developer b) (b_simulator b) (b_calls b + 1).
Definition new_bench : Bench := mkBench 0 0 NewDeveloperConnectionPlugin (mkManager None None) 0.
Definition exec_call : ExecuteFunc (S := Bench) (V := nat) := fun b => (call b, mkExecResult 7%nat 0%nat true None).
Definition broken_pipe : go_error := PlainError "broken pipe" [].

Lemma developer_raises_once_witness :
  errorSimulatorMethodCallback (developer new_bench) = None /\
  exists s1, developer_Execute (C := nat) 0%nat None "Conn.Ping" [] exec_call
      (put_developer (RaiseErrorOnNextCall (Some broken_pipe) "Conn.Ping" (developer new_bench)) new_bench) =
      (s1, exec_error 0%nat broken_pipe) /\
    developer_Execute (C := nat) 0%nat None "Conn.Ping" [] exec_call s1 = exec_call s1.
Proof.
  split; [reflexivity|].
  exact (developer_raises_once (C := nat) 0%nat None broken_pipe "Conn.Ping" "Conn.Ping" [] exec_call exec_call new_bench eq_refl).
Defined.

(** Two connections of one call each: the total is what both took. *)
Example connect_times_add_up :
  let connect : Bench -> Bench := fun b => (connectTime_Connect (C := nat) 0%nat ∅ true (fun _ b => (call b, Ok 1%nat)) b).1 in
  GetTotalConnectTime (connect (connect new_bench)) = 200 /\
  GetTotalConnectTime (ResetConnectTime (connect new_bench)) = 0.
Proof. by vm_compute. Qed.

(** A time-measuring plugin around one that raises an error measures it too. *)
Example chain_of_simple_plugins :
  let plugins := [ExecutionTimePlugin (Sel := unit) 1; DeveloperPlugin (C := nat) 0%nat 2] in
  let s := put_developer (RaiseErrorOnNextCall (Some broken_pipe) "" (developer new_bench)) new_bench in
  let execute := chain_Execute 0%nat (makePluginChain plugins "Conn.Ping" true None)
                   (fun plugin target => plugin_Execute plugin None "Conn.Ping" [] target) exec_call in
  returnErr (execute s).2 = Some broken_pipe /\ b_calls (execute s).1 = 0 /\
  (execute (execute s).1).2 = mkExecResult 7%nat 0%nat true None /\ GetTotalExecutionTime (execute (execute s).1).1 = 100.
Proof. by vm_compute. Qed.
