(* ===== verification/EfmMonitor.v ===== *)
(** * EfmMonitor: the monitor of a host for the calls in progress on it
    (awssql/plugins/efm/host_monitor.go, and MonitorConnectionState of
    host_monitoring_service.go).

    A monitor is the state of two goroutines, the one that takes the calls whose
    grace period is over into the queue of active calls ([newStateRun]) and the
    one that checks the host and aborts ([Monitor]), and of what the callers,
    the reset event, the garbage collector and [Stop] do to it. [exec] runs one
    action of one of them; an action carries what the code gets from outside
    (clock readings, the answer of the connection). Between two actions any
    other may run: what no common lock covers is one action each, as the four
    steps of an abort and the three of [StopMonitoring] are. A call in progress
    is a [MonitorConnectionState], by number. The pointers to connections lead to
    variables, by number, each with the connection it was made for: a plugin
    service that switches its connection refers to a new variable, and what is
    only left to weak pointers may be collected. The queue of active states is an
    object the loop replaces: [ActiveStates] is the one the field refers to.
    Telemetry and log lines are not modelled. *)

From S2P Require Import Prelude.
From S2P Require Import HostInfo.
From S2P Require Import RWMap.
From S2P Require Import RWQueue.
From S2P Require Import Properties.
From S2P Require Import Dsn.

Definition EFM_ROUTINE_SLEEP_DURATION : Z := 100 * Millisecond.

(** ** Health of the host *)

Record Health := mkHealth { FailureCount : Z; InvalidHostStartTime : Z; HostUnhealthy : bool }.
Definition healthy : Health := mkHealth 0 zero_time false.

Definition wrap32 (z : Z) : Z := (z + 2147483648) mod 4294967296 - 2147483648.

Definition maxInvalidDuration (interval count : Z) : Z := wrap64 (interval * Z.max 0 (count - 1)).
Definition UpdateHostHealthStatus (interval count : Z) (connIsValid : bool) (statusCheckStartTime statusCheckEndTime : Z) (h : Health) :
  Health :=
  if connIsValid then healthy
  else
    let invalidStart := if InvalidHostStartTime h =? zero_time then statusCheckStartTime else InvalidHostStartTime h in
    mkHealth (wrap32 (FailureCount h + 1)) invalidStart
      (if maxInvalidDuration interval count <=? statusCheckEndTime - invalidStart then true else HostUnhealthy h).

(** ** Properties of the monitoring connection *)

(** The loop ranges over the map it changes: [NewRWMapFromMap] keeps the map it
    is given. An entry added meanwhile may be visited too, which matters only
    for a prefix written twice. *)
Definition monitoringConnectionProps `{MapRange} (props : properties) : properties :=
  foldl (fun m e => match CutPrefix MONITORING_PROPERTY_PREFIX e.1 with
                    | Some key => delete e.1 (<[key := e.2]> m)
                    | None => m
                    end) props (range 61 props).

(** ** State *)

(** [connToAbortRef]: [None] is the weak pointer to nil of [SetInactive]. *)
Record MonitorConnectionState := mkConnState { hostUnhealthy : bool; connToAbortRef : option nat }.
Definition NewMonitorConnectionState (connToAbort : nat) : MonitorConnectionState := mkConnState false (Some connToAbort).
Definition SetInactive (s : MonitorConnectionState) : MonitorConnectionState := mkConnState (hostUnhealthy s) None.
Definition SetHostUnhealthy (b : bool) (s : MonitorConnectionState) : MonitorConnectionState := mkConnState b (connToAbortRef s).

(** [currentTime] is that of the round; [NTaken] has found the state active and
    is about to put it into the queue. *)
Inductive NewStatePc :=
| NRun (currentTime : Z) (pending : list nat)
| NTaken (currentTime : Z) (id : nat) (pending : list nat)
| NDone.
(** The steps of the loop of [Monitor]; from [PDequeued] on the goroutine has
    the weak pointer to a state, from [PHeld] on the state itself, and from
    [PDeactivate] on what [GetConn] gave. *)
Inductive MonitorPc :=
| PTop
| PCheck (statusCheckStartTime : Z)                      (* CheckConnectionStatus *)
| PUpdate (statusCheckStartTime : Z) (connIsValid : bool) (* UpdateHostHealthStatus *)
| PAvailability                                          (* SetAvailability of an unhealthy host *)
| PScan (tmpActiveStates : list nat)                     (* Dequeue *)
| PDequeued (tmpActiveStates : list nat) (id : nat)      (* isStopped *)
| PWeak (tmpActiveStates : list nat) (id : nat)          (* monitorStateWeakRef.Value *)
| PHeld (tmpActiveStates : list nat) (id : nat)          (* HostUnhealthy.Load *)
| PKeep (tmpActiveStates : list nat) (id : nat)          (* IsActive *)
| PCondemned (tmpActiveStates : list nat) (id : nat)     (* SetHostUnhealthy *)
| PGetConn (tmpActiveStates : list nat) (id : nat)
| PDeactivate (tmpActiveStates : list nat) (id : nat) (connToAbort : option nat) (* SetInactive *)
| PClose (tmpActiveStates : list nat) (id : nat) (connToAbort : nat)
| PSwap (tmpActiveStates : list nat)                     (* ActiveStates = tmpActiveStates *)
| PDone.

(** Where the caller of a monitored call stands: in the call, or in
    [StopMonitoring] with the connection it was given. *)
Inductive CallerPc (C : Type) :=
| CRunning
| CShouldAbort (connToAbort : option C)
| CSetInactive (abort : bool) (connToAbort : option C)
| CClose (connToAbort : option C)
| CDone.
Arguments CRunning {C}.
Arguments CShouldAbort {C} _.
Arguments CSetInactive {C} _ _.
Arguments CClose {C} _.
Arguments CDone {C}.

Inductive MonitorLog (C : Type) :=
| Opened (c : C)
| Closed (c : C)
| Aborted (id : nat) (c : C)
| Activated (id : nat) (now : Z)
| MarkedUnavailable.
Arguments Opened {C} _.
Arguments Closed {C} _.
Arguments Aborted {C} _ _.
Arguments Activated {C} _ _.
Arguments MarkedUnavailable {C}.

(** [states] are the states that were not collected, [callers] the callers of
    all calls so far and [startedAt] when monitoring of them was asked for, with
    the variable of their connection. [conns] are the variables that pointers to
    connections lead to, [collected] those the garbage collector has taken, and
    [current] the variable each plugin service refers to. *)
Record HostMonitorImpl (C : Type) := mkMonitor {
  failureDetectionTimeNanos : Z;
  failureDetectionIntervalNanos : Z;
  failureDetectionCount : Z;
  health : Health;
  MonitoringConn : option C;
  NewStates : RWMap Z (list nat);
  ActiveStates : RWQueue nat;
  Stopped : bool;
  monitor_closed : bool;
  lastActivityTimestampNano : Z;
  newStatePc : NewStatePc;
  monitorPc : MonitorPc;
  states : gmap nat MonitorConnectionState;
  callers : gmap nat (CallerPc C);
  startedAt : gmap nat (Z * nat);
  conns : gmap nat C;
  collected : gset nat;
  current : gmap nat nat;
  log : list (MonitorLog C)
}.
Arguments mkMonitor {C} _ _ _ _ _ _ _ _ _ _ _ _ _ _ _ _ _ _ _.
Arguments failureDetectionTimeNanos {C} _.
Arguments failureDetectionIntervalNanos {C} _.
Arguments failureDetectionCount {C} _.
Arguments health {C} _.
Arguments MonitoringConn {C} _.
Arguments NewStates {C} _.
Arguments ActiveStates {C} _.
Arguments Stopped {C} _.
Arguments monitor_closed {C} _.
Arguments lastActivityTimestampNano {C} _.
Arguments newStatePc {C} _.
Arguments monitorPc {C} _.
Arguments states {C} _.
Arguments callers {C} _.
Arguments startedAt {C} _.
Arguments conns {C} _.
Arguments collected {C} _.
Arguments current {C} _.
Arguments log {C} _.
#[export] Instance HostMonitorImpl_eta C : Eta (HostMonitorImpl C) := fun m =>
  mkMonitor (failureDetectionTimeNanos m) (failureDetectionIntervalNanos m) (failureDetectionCount m) (health m) (MonitoringConn m)
    (NewStates m) (ActiveStates m) (Stopped m) (monitor_closed m) (lastActivityTimestampNano m) (newStatePc m) (monitorPc m)
    (states m) (callers m) (startedAt m) (conns m) (collected m) (current m) (log m).

Section Monitor.
Context {C : Type} `{MapRange}.
Local Abbreviation M := (HostMonitorImpl C).

(** [NewHostMonitorImpl] and [Start]: both goroutines are at the top of their
    loops. *)
Definition NewHostMonitorImpl (failureDetectionTimeMillis failureDetectionIntervalMillis failureDetectionCount now : Z) : M :=
  mkMonitor (wrap64 (Millisecond * failureDetectionTimeMillis)) (wrap64 (Millisecond * failureDetectionIntervalMillis))
    failureDetectionCount healthy None NewRWMap NewRWQueue false false now (NRun now []) PTop ∅ ∅ ∅ ∅ ∅ ∅ [].

Definition CanDispose (m : M) : bool := RWQueue.IsEmpty (ActiveStates m) && Nat.eqb (RWMap.Size (Some (NewStates m))) 0.
Definition emit (e : MonitorLog C) (m : M) : M := m <| log := log m ++ [e] |>.
Definition set_pc (pc : MonitorPc) (m : M) : M := m <| monitorPc := pc |>.
Definition set_caller (id : nat) (pc : CallerPc C) (m : M) : M := m <| callers := <[id := pc]> (callers m) |>.
Definition set_state (id : nat) (f : MonitorConnectionState -> MonitorConnectionState) (m : M) : M :=
  m <| states := alter f id (states m) |>.

(** What the weak pointer of a state leads to. *)
Definition GetConn (m : M) (s : MonitorConnectionState) : option nat :=
  match connToAbortRef s with
  | Some ref => if bool_decide (ref ∈ collected m) then None else Some ref
  | None => None
  end.
Definition IsActive (m : M) (s : MonitorConnectionState) : bool := bool_decide (is_Some (GetConn m s)).
Definition ShouldAbort (m : M) (s : MonitorConnectionState) : bool := hostUnhealthy s && IsActive m s.

(** A caller of [StartMonitoring]; the time is read before the map is locked. *)
Definition StartMonitoring (id conn : nat) (now : Z) (m : M) : M :=
  m <| states := <[id := NewMonitorConnectionState conn]> (states m) |>
    <| callers := <[id := CRunning]> (callers m) |>
    <| startedAt := <[id := (now, conn)]> (startedAt m) |>
    <| NewStates := RWMap.Put (now + failureDetectionTimeNanos m) [id] (NewStates m) |>.

(** A caller in [StopMonitoring]; closing a nil connection panics. *)
Definition stop_step (id : nat) (m : M) : option M :=
  match callers m !! id, states m !! id with
  | Some (CShouldAbort conn), Some s => Some (set_caller id (CSetInactive (ShouldAbort m s) conn) m)
  | Some (CSetInactive abort conn), Some _ =>
      Some (set_caller id (if abort : bool then CClose conn else CDone) (set_state id SetInactive m))
  | Some (CClose (Some c)), _ => Some (emit (Closed c) (set_caller id CDone m))
  | _, _ => None
  end.

(** One round of [newStateRun], and what it does with a state it took out:
    whether it is active, and the queue. *)
Definition new_round (now : Z) (m : M) : M :=
  let '(newStates, processed) := RWMap.ProcessAndRemoveIf (fun startMonitoringTime => startMonitoringTime <? now) (NewStates m) in
  m <| NewStates := newStates |> <| newStatePc := NRun now (mjoin processed.*2) |>.
Definition take_up (id : nat) (now : Z) (pending : list nat) (m : M) : M :=
  m <| newStatePc := match states m !! id with
                     | Some s => if IsActive m s then NTaken now id pending else NRun now pending
                     | None => NRun now pending
                     end |>.
Definition activate (id : nat) (now : Z) (pending : list nat) (m : M) : M :=
  emit (Activated id now) (m <| ActiveStates := RWQueue.Enqueue id (ActiveStates m) |> <| newStatePc := NRun now pending |>).

(** [CheckConnectionStatus]: whether the connection is there and not closed,
    what [ForceConnect] gives otherwise, and whether the host answers. *)
Definition CheckConnectionStatus (closed : bool) (opened : option C) (reachable : bool) (m : M) : M * bool :=
  match MonitoringConn m with
  | Some c => if closed then
                match opened with
                | Some c' => (emit (Opened c') (m <| MonitoringConn := Some c' |>), true)
                | None => (m, false)
                end
              else (m, reachable)
  | None => match opened with
            | Some c' => (emit (Opened c') (m <| MonitoringConn := Some c' |>), true)
            | None => (m, false)
            end
  end.
(** The timeout of the query that shows whether the host answers. *)
Definition ping_timeout (m : M) : Z :=
  let timeout := failureDetectionIntervalNanos m - EFM_ROUTINE_SLEEP_DURATION in
  if timeout <? EFM_ROUTINE_SLEEP_DURATION then EFM_ROUTINE_SLEEP_DURATION else timeout.
Definition check (statusCheckStartTime : Z) (closed : bool) (opened : option C) (reachable : bool) (m : M) : M :=
  let '(m, connIsValid) := CheckConnectionStatus closed opened reachable m in set_pc (PUpdate statusCheckStartTime connIsValid) m.
Definition update_health (statusCheckStartTime : Z) (connIsValid : bool) (statusCheckEndTime : Z) (m : M) : M :=
  set_pc PAvailability
    (m <| health := UpdateHostHealthStatus (failureDetectionIntervalNanos m) (failureDetectionCount m) connIsValid
                      statusCheckStartTime statusCheckEndTime (health m) |>).
(** What the loop sleeps after a round that took [elapsed]. *)
Definition delayDuration (elapsed : Z) (m : M) : Z := Z.max EFM_ROUTINE_SLEEP_DURATION (failureDetectionIntervalNanos m - elapsed).

(** The inner loop: what it does with the states of the queue, one after the
    other. *)
Definition scan (m : M) : option M :=
  match monitorPc m with
  | PScan tmp =>
      match RWQueue.Dequeue (ActiveStates m) with
      | (_, None) => Some (set_pc (PSwap tmp) m)
      | (q, Some id) => Some (set_pc (PDequeued tmp id) (m <| ActiveStates := q |>))
      end
  | PDequeued tmp id => Some (set_pc (if Stopped m then PSwap tmp else PWeak tmp id) m)
  | PWeak tmp id => Some (set_pc (if bool_decide (is_Some (states m !! id)) then PHeld tmp id else PScan tmp) m)
  | PHeld tmp id => Some (set_pc (if HostUnhealthy (health m) then PCondemned tmp id else PKeep tmp id) m)
  | PKeep tmp id => s ← states m !! id; Some (set_pc (PScan (if IsActive m s then tmp ++ [id] else tmp)) m)
  | PCondemned tmp id => Some (set_pc (PGetConn tmp id) (set_state id (SetHostUnhealthy true) m))
  | PGetConn tmp id => s ← states m !! id; Some (set_pc (PDeactivate tmp id (GetConn m s)) m)
  | PDeactivate tmp id connToAbort =>
      Some (set_pc (match connToAbort with Some conn => PClose tmp id conn | None => PScan tmp end) (set_state id SetInactive m))
  | PClose tmp id connToAbort => c ← conns m !! connToAbort; Some (emit (Aborted id c) (set_pc (PScan tmp) m))
  | _ => None
  end.

Definition reset (m : M) : M :=
  let m := match MonitoringConn m with Some c => emit (Closed c) (m <| MonitoringConn := None |>) | None => m end in
  m <| health := healthy |>.

(** What the goroutine of [Monitor] keeps from being collected. *)
Definition held_state (pc : MonitorPc) : option nat :=
  match pc with
  | PHeld _ id | PKeep _ id | PCondemned _ id | PGetConn _ id | PDeactivate _ id _ => Some id
  | _ => None
  end.
Definition held_conn (pc : MonitorPc) : option nat :=
  match pc with PDeactivate _ _ o => o | PClose _ _ conn => Some conn | _ => None end.

(** ** Actions *)

Inductive Action :=
| AConnect (svc conn : nat) (c : C)      (* another current connection, in a new variable *)
| ARelease (svc : nat)                   (* a plugin service without a connection *)
| AStart (id svc : nat) (now : Z)        (* StartMonitoring *)
| AStopMonitoring (id : nat) (connToAbort : option C)  (* StopMonitoring of the service is called *)
| AStopNext (id : nat)                   (* the next step of it *)
| ACollectState (id : nat)               (* the garbage collector *)
| ACollectConn (conn : nat)
| ANewTick (now : Z)                     (* newStateRun: a round, or its end *)
| ANewNext                               (* newStateRun: the next step *)
| ATick (now : Z)                        (* Monitor: the top of the loop *)
| ACheck (closed : bool) (opened : option C) (reachable : bool)
| AUpdate (now : Z)
| ANext                                  (* Monitor: the next step of a round *)
| AReset (endpoints : gset string) (host : string)
| AStop                                  (* Stop: the flag *)
| AClose.                                (* Stop: after both goroutines ended *)

(** [None] when the goroutine is not there, or when it calls a method of a nil
    connection, which ends the program. A state is collected when its caller has
    let go of it, after [StopMonitoring] or when the call panicked. *)
Definition exec (a : Action) (m : M) : option M :=
  match a with
  | AConnect svc conn c =>
      match conns m !! conn with
      | None => Some (m <| conns := <[conn := c]> (conns m) |> <| current := <[svc := conn]> (current m) |>)
      | Some _ => None
      end
  | ARelease svc => Some (m <| current := delete svc (current m) |>)
  | AStart id svc now =>
      match startedAt m !! id, current m !! svc with None, Some conn => Some (StartMonitoring id conn now m) | _, _ => None end
  | AStopMonitoring id conn =>
      match callers m !! id with Some CRunning => Some (set_caller id (CShouldAbort conn) m) | _ => None end
  | AStopNext id => stop_step id m
  | ACollectState id =>
      match callers m !! id with
      | Some CRunning | Some CDone =>
          if bool_decide (held_state (monitorPc m) = Some id) then None
          else Some (set_caller id CDone (m <| states := delete id (states m) |>))
      | _ => None
      end
  | ACollectConn conn =>
      if bool_decide (map_Forall (fun _ c => c <> conn) (current m)) && negb (bool_decide (held_conn (monitorPc m) = Some conn))
      then Some (m <| collected := {[conn]} ∪ collected m |>) else None
  | ANewTick now =>
      match newStatePc m with
      | NRun _ [] => Some (if Stopped m then m <| newStatePc := NDone |> else new_round now m)
      | _ => None
      end
  | ANewNext =>
      match newStatePc m with
      | NRun now (id :: pending) => Some (take_up id now pending m)
      | NTaken now id pending => Some (activate id now pending m)
      | _ => None
      end
  | ATick now =>
      match monitorPc m with
      | PTop =>
          if Stopped m then Some (set_pc PDone m)
          else let m := m <| lastActivityTimestampNano := now |> in
               if RWQueue.IsEmpty (ActiveStates m) && negb (HostUnhealthy (health m)) then Some m
               else Some (set_pc (PCheck now) m)
      | _ => None
      end
  | ACheck closed opened reachable =>
      match monitorPc m with PCheck start => Some (check start closed opened reachable m) | _ => None end
  | AUpdate now => match monitorPc m with PUpdate start connIsValid => Some (update_health start connIsValid now m) | _ => None end
  | ANext =>
      match monitorPc m with
      | PAvailability => Some (set_pc (PScan []) (if HostUnhealthy (health m) then emit MarkedUnavailable m else m))
      | PSwap tmp => Some (set_pc PTop (m <| ActiveStates := mkQueue tmp |>))
      | _ => scan m
      end
  | AReset endpoints host => Some (if bool_decide (host ∈ endpoints) then reset m else m)
  | AStop => Some (m <| Stopped := true |>)
  | AClose =>
      match newStatePc m, monitorPc m with
      | NDone, PDone =>
          if Stopped m && negb (monitor_closed m) then
            let m := m <| monitor_closed := true |> in
            Some (match MonitoringConn m with Some c => emit (Closed c) m | None => m end)
          else None
      | _, _ => None
      end
  end.

(** A run; an action of a goroutine that is not there is skipped. *)
Definition run (actions : list Action) (m : M) : M := foldl (fun m a => default m (exec a m)) m actions.
End Monitor.

(** ** Health *)

Record Check := mkCheck { valid : bool; c_start : Z; c_end : Z }.
Definition health_after (interval count : Z) (checks : list Check) : Health :=
  foldl (fun h c => UpdateHostHealthStatus interval count (valid c) (c_start c) (c_end c) h) healthy checks.

(** The checks that failed since the last one that did not. *)
Definition trailing (checks : list Check) : list Check := foldl (fun l c => if valid c then [] else l ++ [c]) [] checks.

(** What the health should be: the number of failures in a row, when the first
    of them started, and whether they last long enough. *)
Definition health_spec (interval count : Z) (checks : list Check) : Health :=
  match trailing checks with
  | [] => healthy
  | (c :: _) as l =>
      mkHealth (wrap32 (Z.of_nat (length l))) (c_start c)
        (maxInvalidDuration interval count <=? from_option c_end 0 (last l) - c_start c)
  end.

Lemma wrap32_succ z : wrap32 (wrap32 z + 1) = wrap32 (z + 1).
Proof.
  unfold wrap32. f_equal. replace ((z + 2147483648) mod 4294967296 - 2147483648 + 1 + 2147483648)
    with ((z + 2147483648) mod 4294967296 + 1) by lia.
  rewrite Zplus_mod_idemp_l. f_equal. lia.
Qed.

Lemma trailing_sub checks d : d ∈ trailing checks -> d ∈ checks.
Proof.
  unfold trailing. revert d. induction checks as [|c checks IH] using rev_ind; intros d; [done|]. rewrite foldl_snoc, elem_of_app.
  destruct (valid c); [by intros ?%elem_of_nil|]. intros [Hd|Hd]%elem_of_app; auto.
Qed.

Lemma health_after_spec interval count checks :
  Forall (fun c => c_start c <> zero_time) checks -> StronglySorted (fun c d => c_end c <= c_end d) checks ->
  health_after interval count checks = health_spec interval count checks.
Proof.
  unfold health_after, health_spec, trailing. induction checks as [|c checks IH] using rev_ind; [done|].
  intros [Hz _]%Forall_app Hs.
  assert (Hle : forall d, d ∈ checks -> c_end d <= c_end c).
  { intros d Hd. eapply (StronglySorted_app_1_elem_of (fun c d => c_end c <= c_end d) checks [c]); [exact Hs|done|by left]. }
  assert (Hs' : StronglySorted (fun c d => c_end c <= c_end d) checks) by (eapply StronglySorted_app_1_l, Hs).
  rewrite !foldl_snoc. rewrite (IH Hz Hs'). clear IH.
  assert (Hsub : forall d, d ∈ foldl (fun l c => if valid c then [] else l ++ [c]) [] checks -> d ∈ checks) by apply trailing_sub.
  destruct (foldl _ [] checks) as [|d l] eqn:E; unfold UpdateHostHealthStatus; destruct (valid c); [done| |done|].
  - cbn. destruct (_ <=? _); reflexivity.
  - cbn [InvalidHostStartTime FailureCount HostUnhealthy app]. rewrite (app_comm_cons l [c] d), last_snoc, length_app.
    assert (Hd : d ∈ checks) by (apply Hsub; left). rewrite Forall_forall in Hz.
    rewrite (proj2 (Z.eqb_neq _ _)) by (by apply Hz). cbn [from_option].
    f_equal; [rewrite wrap32_succ; f_equal; cbn; lia|].
    destruct (Z.leb_spec (maxInvalidDuration interval count) (c_end c - c_start d)) as [|Hlt]; [done|].
    apply Z.leb_gt. destruct (last (d :: l)) as [e|] eqn:El; [|by apply last_None in El].
    cbn. assert (c_end e <= c_end c) by (apply Hle, Hsub; by apply last_Some_elem_of). lia.
Qed.

(** Failed checks that start the interval apart, as those of the loop do. *)
Fixpoint spaced (interval : Z) (checks : list Check) : Prop :=
  match checks with
  | c :: (d :: _) as rest => c_start c + interval <= c_start d /\ spaced interval rest
  | _ => True
  end.
Lemma spaced_last interval c checks :
  0 <= interval -> spaced interval (c :: checks) ->
  c_start c + interval * Z.of_nat (length checks) <= from_option c_start 0 (last (c :: checks)).
Proof.
  intros Hi. revert c. induction checks as [|d checks IH]; intros c Hs; [cbn; lia|]. destruct Hs as [Hcd Hs].
  specialize (IH d Hs). change (last (c :: d :: checks)) with (last (d :: checks)). cbn [length] in *. lia.
Qed.

(** C26. The health after any sequence of checks with clock readings in
    order: the host counts as unhealthy exactly when its last checks in a
    row failed for at least the detection interval times the failures
    allowed less one, from the start of the first of them to the end of the
    last, however many they were; the failures counted and the start of the
    first are those of that row. The documentation counts failed checks
    instead: two that take long enough are enough here for a count of three. *)
Theorem health_of_checks interval count checks :
  Forall (fun c => c_start c <> zero_time) checks -> StronglySorted (fun c d => c_end c <= c_end d) checks ->
  health_after interval count checks = health_spec interval count checks /\
  (spaced interval (trailing checks) -> Forall (fun c => c_start c <= c_end c) checks ->
   0 <= interval -> 1 <= count <= Z.of_nat (length (trailing checks)) -> interval * (count - 1) <= max_int64 ->
   HostUnhealthy (health_after interval count checks) = true).
Proof.
  intros Hz Hs. assert (E : health_after interval count checks = health_spec interval count checks) by by apply health_after_spec.
  split; [exact E|]. intros Hsp Hle Hi Hc Hmax. rewrite E. unfold health_spec.
  destruct (trailing checks) as [|c l] eqn:El; [cbn in Hc; lia|]. cbn [HostUnhealthy]. apply Z.leb_le.
  unfold maxInvalidDuration. rewrite Z.max_r by lia. rewrite wrap64_id by nia.
  pose proof (spaced_last interval c l Hi Hsp) as Hl. destruct (last (c :: l)) as [e|] eqn:Ee; [|by apply last_None in Ee].
  assert (He : c_start e <= c_end e).
  { rewrite Forall_forall in Hle. apply Hle, trailing_sub. rewrite El. by apply last_Some_elem_of. }
  cbn [from_option length] in *. assert (interval * (count - 1) <= interval * Z.of_nat (length l)) by nia. lia.
Qed.

(** ** Invariant of a monitor *)

Definition overdue {C} (m : HostMonitorImpl C) (id : nat) (now : Z) : Prop :=
  exists t conn, startedAt m !! id = Some (t, conn) /\ t + failureDetectionTimeNanos m < now.
Definition scanned (pc : MonitorPc) : list nat :=
  match pc with
  | PScan tmp | PSwap tmp => tmp
  | PDequeued tmp id | PWeak tmp id | PHeld tmp id | PKeep tmp id | PCondemned tmp id | PGetConn tmp id
  | PDeactivate tmp id _ | PClose tmp id _ => tmp ++ [id]
  | _ => []
  end.
(** The states [newStateRun] has taken out, with the time of its round. *)
Definition taking (pc : NewStatePc) : Z * list nat :=
  match pc with NRun now p => (now, p) | NTaken now id p => (now, id :: p) | NDone => (0, []) end.
Definition queued {C} (m : HostMonitorImpl C) : list nat := RWQueue.items (ActiveStates m) ++ scanned (monitorPc m).
Definition aborted_id {C} (e : MonitorLog C) : option nat := match e with Aborted id _ => Some id | _ => None end.
Definition aborted {C} (m : HostMonitorImpl C) : list nat := omap aborted_id (log m).
(** What the loop is about to close. *)
Definition closing (pc : MonitorPc) : option (nat * nat) :=
  match pc with PDeactivate _ id (Some conn) | PClose _ id conn => Some (id, conn) | _ => None end.
(** A state that is inactive for good, or collected. *)
Definition gone {C} (m : HostMonitorImpl C) (id : nat) : Prop := forall s, states m !! id = Some s -> connToAbortRef s = None.

(** Entries of the log that say nothing of a state. *)
Definition plain {C} (e : MonitorLog C) : bool := match e with Activated _ _ | Aborted _ _ => false | _ => true end.

Section invariant.
Context {C : Type} `{MapRange}.
Local Abbreviation M := (HostMonitorImpl C).

(** A state is taken into the queue only when its grace period is over, its
    pointer leads to the connection monitoring was asked for with or nowhere, and
    it is aborted only from the queue, which makes it inactive for good. *)
Record Inv (m : M) : Prop := {
  inv_new k ids id : RWMap.cache (NewStates m) !! k = Some ids -> id ∈ ids ->
    exists t conn, startedAt m !! id = Some (t, conn) /\ k = t + failureDetectionTimeNanos m;
  inv_taking id : id ∈ (taking (newStatePc m)).2 -> overdue m id (taking (newStatePc m)).1;
  inv_queued id : id ∈ queued m -> exists now, Activated id now ∈ log m;
  inv_activated id now : Activated id now ∈ log m -> overdue m id now;
  inv_ref id s conn : states m !! id = Some s -> connToAbortRef s = Some conn -> exists t, startedAt m !! id = Some (t, conn);
  inv_closing id conn : closing (monitorPc m) = Some (id, conn) -> id ∉ aborted m /\ exists t, startedAt m !! id = Some (t, conn);
  inv_close tmp id conn : monitorPc m = PClose tmp id conn -> gone m id;
  inv_aborted id c : Aborted id c ∈ log m ->
    (exists now, Activated id now ∈ log m) /\ gone m id /\
    exists t conn, startedAt m !! id = Some (t, conn) /\ conns m !! conn = Some c;
  inv_once : NoDup (aborted m);
  inv_known id : is_Some (states m !! id) -> is_Some (startedAt m !! id)
}.

(** Steps that neither take states in nor take one to abort. *)
Record quiet_step (m m' : M) : Prop := {
  qs_time : failureDetectionTimeNanos m' = failureDetectionTimeNanos m;
  qs_new : NewStates m' = NewStates m;
  qs_taking id : id ∈ (taking (newStatePc m')).2 ->
    id ∈ (taking (newStatePc m)).2 /\ (taking (newStatePc m')).1 = (taking (newStatePc m)).1;
  qs_started : startedAt m' = startedAt m;
  qs_queued id : id ∈ queued m' -> id ∈ queued m;
  qs_log : exists l, log m' = log m ++ l /\ forallb plain l = true;
  qs_states id s' : states m' !! id = Some s' ->
    exists s, states m !! id = Some s /\ (connToAbortRef s' = connToAbortRef s \/ connToAbortRef s' = None);
  qs_conns conn c : conns m !! conn = Some c -> conns m' !! conn = Some c;
  qs_closing : closing (monitorPc m') = None \/ monitorPc m' = monitorPc m
}.

Lemma plain_not (l : list (MonitorLog C)) e : forallb plain l = true -> e ∈ l -> plain e = true.
Proof. rewrite forallb_forall. intros Hl He. apply Hl. by apply list_elem_of_In. Qed.
Lemma plain_aborted (l : list (MonitorLog C)) : forallb plain l = true -> omap aborted_id l = [].
Proof. induction l as [|[] l IH]; cbn; try done. Qed.
Lemma elem_aborted (m : M) id : id ∈ aborted m <-> exists c, Aborted id c ∈ log m.
Proof.
  unfold aborted. rewrite list_elem_of_omap. split.
  - intros ([] & He & Hid); try done. injection Hid as ->. eauto.
  - intros [c Hc]. by exists (Aborted id c).
Qed.

Lemma gone_less (m m' : M) id :
  (forall s', states m' !! id = Some s' -> exists s, states m !! id = Some s /\ (connToAbortRef s' = connToAbortRef s \/ connToAbortRef s' = None)) ->
  gone m id -> gone m' id.
Proof. intros Hst Hg s' Hs'. destruct (Hst s' Hs') as (s & Hs & [->| ->]); [by apply Hg|done]. Qed.

Lemma quiet_step_Inv m m' : quiet_step m m' -> Inv m -> Inv m'.
Proof.
  intros [Qt Qn Qp Qs Qq (l & Ql & Hl) Qst Qc Qcl] [In Ip Iq Ia Ir Icl Icc Ib Io Ik].
  assert (Hin : forall e, plain e = false -> e ∈ log m' -> e ∈ log m).
  { intros e He. rewrite Ql. intros [?|Hx]%elem_of_app; [done|]. apply (plain_not l) in Hx; [congruence|done]. }
  assert (Hov : forall id now, overdue m id now -> overdue m' id now) by (unfold overdue; intros id now; by rewrite Qt, Qs).
  assert (Hab : aborted m' = aborted m) by (unfold aborted; by rewrite Ql, omap_app, (plain_aborted l Hl), app_nil_r).
  split.
  - intros k ids id. rewrite Qn, Qs, Qt. apply In.
  - intros id Hid. destruct (Qp id Hid) as [Hid' ->]. by apply Hov, Ip.
  - intros id Hid. destruct (Iq id (Qq id Hid)) as [now Hn]. exists now. rewrite Ql. apply elem_of_app. by left.
  - intros id now Ha%Hin; [|done]. by apply Hov, Ia.
  - intros id s' conn Hs' Hr'. rewrite Qs. destruct (Qst id s' Hs') as (s & Hs & [Hr|Hr]); [|congruence]. eapply Ir; [exact Hs|congruence].
  - intros id conn. rewrite Qs, Hab. destruct Qcl as [->| ->]; [done|apply Icl].
  - intros tmp id conn E. apply (gone_less m); [apply Qst|]. destruct Qcl as [Hx|Hx]; [by rewrite E in Hx|]. eapply Icc. by rewrite <- Hx.
  - intros id c Ha%Hin; [|done]. destruct (Ib id c Ha) as ([now Hn] & Hg & t & conn & Hs & Hc). split_and!.
    + exists now. rewrite Ql. apply elem_of_app. by left.
    + by apply (gone_less m); [apply Qst|].
    + exists t, conn. rewrite Qs. split; [done|by apply Qc].
  - by rewrite Hab.
  - intros id. rewrite Qs. intros [s' Hs']. destruct (Qst id s' Hs') as (s & Hs & _). apply Ik. by exists s.
Qed.

Lemma Inv_new a b c now : Inv (NewHostMonitorImpl a b c now : M).
Proof.
  split; cbn; try done; intros; try (by match goal with E : _ ∈ [] |- _ => apply elem_of_nil in E end);
    try (by match goal with E : (∅ : gmap _ _) !! _ = Some _ |- _ => rewrite lookup_empty in E end).
  - constructor.
  - match goal with E : is_Some (∅ !! _) |- _ => destruct E as [? E]; by rewrite lookup_empty in E end.
Qed.

Lemma Inv_start id conn now m : startedAt m !! id = None -> Inv m -> Inv (StartMonitoring id conn now m).
Proof.
  intros Hf [In Ip Iq Ia Ir Icl Icc Ib Io Ik].
  assert (Hne : forall id' x, startedAt m !! id' = Some x -> <[id := (now, conn)]> (startedAt m) !! id' = Some x).
  { intros id' x Hx. rewrite lookup_insert_ne; [done|]. by intros ->; rewrite Hf in Hx. }
  assert (Hov : forall id' now', overdue m id' now' -> overdue (StartMonitoring id conn now m) id' now').
  { intros id' now' (t & conn' & Ht & ?). exists t, conn'. cbn. by rewrite (Hne _ _ Ht). }
  assert (Hfresh : forall x, startedAt m !! id <> Some x) by (intros x; by rewrite Hf).
  assert (Hg : forall id', gone m id' -> is_Some (startedAt m !! id') -> gone (StartMonitoring id conn now m) id').
  { intros id' Hg [x Hx] s. cbn. rewrite lookup_insert_ne by (by intros ->; rewrite Hf in Hx). apply Hg. }
  split; cbn -[RWMap.Put]; try done.
  - intros k ids id' Hk Hid. rewrite RWMap.Put_cache in Hk. destruct (decide (k = now + failureDetectionTimeNanos m)) as [->|Hk'].
    + rewrite lookup_insert_eq in Hk. injection Hk as <-. apply list_elem_of_singleton in Hid as ->.
      exists now, conn. by rewrite lookup_insert_eq.
    + rewrite lookup_insert_ne in Hk by done. destruct (In k ids id' Hk Hid) as (t & conn' & Ht & ->). exists t, conn'.
      by rewrite (Hne _ _ Ht).
  - intros id' Hid. apply Hov. eauto.
  - intros id' now' Ha. apply Hov. eauto.
  - intros id' s conn'. destruct (decide (id' = id)) as [->|Hd].
    + rewrite !lookup_insert_eq. intros [= <-] [= <-]. eauto.
    + rewrite !lookup_insert_ne by done. apply Ir.
  - intros id' conn' Hc. destruct (Icl id' conn' Hc) as [? [t Ht]]. split; [done|]. exists t. by rewrite (Hne _ _ Ht).
  - intros tmp id' conn' Hc. apply Hg; [by eapply Icc|]. destruct (Icl id' conn') as [_ [t Ht]]; [by rewrite Hc|eauto].
  - intros id' c Ha. destruct (Ib id' c Ha) as (? & Hgo & t & conn' & Ht & ?). split; [done|]. split; [apply Hg; eauto|].
    exists t, conn'. by rewrite (Hne _ _ Ht).
  - intros id'. destruct (decide (id' = id)) as [->|Hd]; [by rewrite !lookup_insert_eq|].
    rewrite !lookup_insert_ne by done. apply Ik.
Qed.

Lemma Inv_round now p0 m : newStatePc m = NRun p0 [] -> Inv m -> Inv (new_round now m).
Proof.
  intros Hpc [In Ip Iq Ia Ir Icl Icc Ib Io Ik]. unfold new_round, RWMap.ProcessAndRemoveIf, RWMap.RemoveIf.
  split; cbn; try done.
  - intros k ids id Hk Hid. apply map_lookup_filter_Some in Hk as [Hk _]. by eapply In.
  - intros id Hid. apply list_elem_of_join in Hid as (ids & Hid & Hids).
    apply list_elem_of_fmap in Hids as ([k ids'] & -> & Hf). apply list_elem_of_filter in Hf as [Hlt Hr].
    apply elem_of_range in Hr. destruct (In k ids' id Hr Hid) as (t & conn & Ht & ->). exists t, conn. cbn. split; [done|].
    cbn in Hlt. by apply Z.ltb_lt in Hlt.
Qed.

Lemma Inv_activate id now p m : newStatePc m = NTaken now id p -> Inv m -> Inv (activate id now p m).
Proof.
  intros Hpc [In Ip Iq Ia Ir Icl Icc Ib Io Ik]. rewrite Hpc in Ip.
  assert (Hov : overdue m id now) by (apply Ip; by left).
  assert (Hlog : forall e, e ∈ log m -> e ∈ log m ++ [Activated id now]) by (intros e He; apply elem_of_app; by left).
  assert (Hab : aborted (activate id now p m) = aborted m) by (unfold aborted; cbn; rewrite omap_app; cbn; by rewrite app_nil_r).
  split; try rewrite Hab; try done; cbn.
  - intros id' Hid. apply (Ip id'). by right.
  - intros id'. unfold queued. cbn. rewrite <-app_assoc. intros Hid.
    assert (id' ∈ queued m \/ id' = id) as [Hq| ->] by (unfold queued; set_solver).
    + destruct (Iq id' Hq) as [now' ?]. eauto.
    + exists now. apply elem_of_app. right. by left.
  - intros id' now' [Ha|Ha]%elem_of_app; [by apply Ia|]. apply list_elem_of_singleton in Ha as [= -> ->]. exact Hov.
  - intros id' c [Ha|Ha]%elem_of_app; [|by apply list_elem_of_singleton in Ha].
    destruct (Ib id' c Ha) as ([now' ?] & ? & ?). split_and!; eauto.
Qed.

Lemma set_state_lookup id f (m : M) id' s' :
  states (set_state id f m) !! id' = Some s' -> exists s, states m !! id' = Some s /\ (s' = s \/ id' = id /\ s' = f s).
Proof.
  cbn. destruct (decide (id' = id)) as [->|Hne].
  - rewrite lookup_alter_eq. destruct (states m !! id); cbn; [intros [= <-]; eauto|done].
  - rewrite lookup_alter_ne by done. eauto.
Qed.
Lemma set_state_less f id (m : M) id' s' :
  (forall s, connToAbortRef (f s) = connToAbortRef s \/ connToAbortRef (f s) = None) -> states (set_state id f m) !! id' = Some s' ->
  exists s, states m !! id' = Some s /\ (connToAbortRef s' = connToAbortRef s \/ connToAbortRef s' = None).
Proof. intros Hf Hs'. destruct (set_state_lookup _ _ _ _ _ Hs') as (s & Hs & [->|[_ ->]]); exists s; eauto. Qed.

(** The loop gets the connection of a state, deactivates the state, and closes
    the connection. *)
Lemma Inv_get tmp id s conn m :
  monitorPc m = PGetConn tmp id -> states m !! id = Some s -> connToAbortRef s = Some conn -> Inv m ->
  Inv (set_pc (PDeactivate tmp id (Some conn)) m).
Proof.
  intros Hpc Hs Hr [In Ip Iq Ia Ir Icl Icc Ib Io Ik]. split; try done; cbn.
  - intros id' Hid. apply Iq. unfold queued in *. by rewrite Hpc.
  - intros id' conn' [= <- <-]. split; [|by eapply Ir]. intros [c Hc]%elem_aborted. destruct (Ib id c Hc) as (_ & Hg & _).
    by rewrite (Hg s Hs) in Hr.
Qed.
Lemma Inv_deactivate tmp id conn m :
  monitorPc m = PDeactivate tmp id (Some conn) -> Inv m -> Inv (set_pc (PClose tmp id conn) (set_state id SetInactive m)).
Proof.
  intros Hpc [In Ip Iq Ia Ir Icl Icc Ib Io Ik].
  assert (Hst : forall id' s', states (set_state id SetInactive m) !! id' = Some s' ->
    exists s, states m !! id' = Some s /\ (connToAbortRef s' = connToAbortRef s \/ connToAbortRef s' = None)).
  { intros id' s'. apply set_state_less. intros s. by right. }
  split; try done.
  - intros id' Hid. apply Iq. unfold queued in *. by rewrite Hpc.
  - intros id' s' conn' Hs' Hr'. destruct (Hst id' s' Hs') as (s & Hs & [Hx|Hx]); [|congruence]. eapply Ir; [exact Hs|congruence].
  - intros id' conn' Hc. apply Icl. rewrite Hpc. exact Hc.
  - intros tmp' id' conn' [= <- <- <-] s' Hs'. destruct (set_state_lookup _ _ _ _ _ Hs') as (s & Hs & [->|[_ ->]]); [|done].
    cbn in Hs'. rewrite lookup_alter_eq, Hs in Hs'. injection Hs' as E. by rewrite <-E.
  - intros id' c Ha. destruct (Ib id' c Ha) as (? & Hg & ?). split_and!; [done| |done]. by apply (gone_less m); [apply Hst|].
  - intros id' [s' Hs']. destruct (Hst id' s' Hs') as (s & Hs & _). apply Ik. by exists s.
Qed.
Lemma Inv_close tmp id conn c m :
  monitorPc m = PClose tmp id conn -> conns m !! conn = Some c -> Inv m -> Inv (emit (Aborted id c) (set_pc (PScan tmp) m)).
Proof.
  intros Hpc Hc [In Ip Iq Ia Ir Icl Icc Ib Io Ik]. destruct (Icl id conn) as [Hna [t Ht]]; [by rewrite Hpc|].
  assert (Hact : exists now, Activated id now ∈ log m) by (apply Iq; unfold queued; rewrite Hpc; set_solver).
  split; try done; cbn.
  - intros id' Hid. destruct (Iq id') as [now Hn]; [|exists now; apply elem_of_app; by left].
    unfold queued in *. cbn in Hid. rewrite Hpc. cbn [scanned]. set_solver.
  - intros id' now [Ha|Ha]%elem_of_app; [by apply Ia|by apply list_elem_of_singleton in Ha].
  - intros id' c' [Ha|Ha]%elem_of_app.
    + destruct (Ib id' c' Ha) as ([now Hn] & ? & ?). split_and!; [exists now; apply elem_of_app; by left|done..].
    + apply list_elem_of_singleton in Ha as [= -> ->]. destruct Hact as [now Hn]. split_and!; [exists now; apply elem_of_app; by left| |eauto].
      by eapply Icc.
  - unfold aborted. cbn. rewrite omap_app. cbn. apply NoDup_app. split; [exact Io|]. split; [|by apply NoDup_singleton].
    intros id' Hin Hx. apply list_elem_of_singleton in Hx as ->. by apply Hna.
Qed.

Lemma quiet_no_log (m : M) : exists l, log m = log m ++ l /\ forallb plain l = true.
Proof. exists []. by rewrite app_nil_r. Qed.
Lemma quiet_emit e (m : M) : plain e = true -> exists l, log m ++ [e] = log m ++ l /\ forallb plain l = true.
Proof. intros He. exists [e]. cbn. by rewrite He. Qed.
Hint Resolve quiet_no_log quiet_emit : core.

Lemma quiet_same m m' :
  failureDetectionTimeNanos m' = failureDetectionTimeNanos m -> NewStates m' = NewStates m -> startedAt m' = startedAt m ->
  states m' = states m -> conns m' = conns m ->
  (forall id, id ∈ (taking (newStatePc m')).2 -> id ∈ (taking (newStatePc m)).2 /\ (taking (newStatePc m')).1 = (taking (newStatePc m)).1) ->
  (forall id, id ∈ queued m' -> id ∈ queued m) -> (closing (monitorPc m') = None \/ monitorPc m' = monitorPc m) ->
  (exists l, log m' = log m ++ l /\ forallb plain l = true) -> quiet_step m m'.
Proof. intros E1 E2 E3 E4 E5 Ht Hq Hc Hl. split; try done; [|by rewrite E5]. intros id s Hs. exists s. rewrite <-E4. auto. Qed.
Lemma quiet_states f id m m' :
  (forall s, connToAbortRef (f s) = connToAbortRef s \/ connToAbortRef (f s) = None) -> states m' = states (set_state id f m) ->
  failureDetectionTimeNanos m' = failureDetectionTimeNanos m -> NewStates m' = NewStates m -> newStatePc m' = newStatePc m ->
  startedAt m' = startedAt m -> conns m' = conns m -> log m' = log m ->
  (forall id, id ∈ queued m' -> id ∈ queued m) -> (closing (monitorPc m') = None \/ monitorPc m' = monitorPc m) -> quiet_step m m'.
Proof.
  intros Hf E1 E2 E3 E4 E5 E6 E7 Hq Hc. split; try done; [by rewrite E4| | |by rewrite E6].
  - rewrite E7. apply quiet_no_log.
  - intros id' s'. rewrite E1. by apply set_state_less.
Qed.

(** An action is a quiet step, or one of the six that are not. *)
Inductive exec_case (m m' : M) : Prop :=
| ExecQuiet : quiet_step m m' -> exec_case m m'
| ExecStart id conn now : startedAt m !! id = None -> m' = StartMonitoring id conn now m -> exec_case m m'
| ExecRound now p : newStatePc m = NRun p [] -> m' = new_round now m -> exec_case m m'
| ExecActivate id now p : newStatePc m = NTaken now id p -> m' = activate id now p m -> exec_case m m'
| ExecGet tmp id s conn : monitorPc m = PGetConn tmp id -> states m !! id = Some s -> connToAbortRef s = Some conn ->
    m' = set_pc (PDeactivate tmp id (Some conn)) m -> exec_case m m'
| ExecDeactivate tmp id conn : monitorPc m = PDeactivate tmp id (Some conn) ->
    m' = set_pc (PClose tmp id conn) (set_state id SetInactive m) -> exec_case m m'
| ExecClose tmp id conn c : monitorPc m = PClose tmp id conn -> conns m !! conn = Some c ->
    m' = emit (Aborted id c) (set_pc (PScan tmp) m) -> exec_case m m'.

Lemma scan_cases m m' : scan m = Some m' -> exec_case m m'.
Proof.
  unfold scan, RWQueue.Dequeue. destruct (monitorPc m) as [| | | |tmp|tmp id|tmp id|tmp id|tmp id|tmp id|tmp id|tmp id o|tmp id conn| |] eqn:E; try done.
  - destruct (RWQueue.items (ActiveStates m)) as [|id q] eqn:Eq; intros [= <-]; apply ExecQuiet, quiet_same; cbn; auto;
      intros id'; unfold queued; cbn; rewrite E, Eq; cbn; [done|]. set_solver.
  - intros [= <-]. apply ExecQuiet, quiet_same; cbn; auto; [|destruct (Stopped m); by left].
    intros id'. unfold queued. cbn. rewrite E. destruct (Stopped m); cbn; set_solver.
  - intros [= <-]. apply ExecQuiet, quiet_same; cbn; auto; [|case_bool_decide; by left].
    intros id'. unfold queued. cbn. rewrite E. case_bool_decide; cbn; set_solver.
  - intros [= <-]. apply ExecQuiet, quiet_same; cbn; auto; [|destruct (HostUnhealthy _); by left].
    intros id'. unfold queued. cbn. rewrite E. by destruct (HostUnhealthy _).
  - destruct (states m !! id) as [s|]; [|done]. intros [= <-]. apply ExecQuiet, quiet_same; cbn; auto.
    intros id'. unfold queued. cbn. rewrite E. destruct (IsActive m s); cbn; set_solver.
  - intros [= <-]. apply ExecQuiet, (quiet_states (SetHostUnhealthy true) id); cbn; auto. unfold queued. cbn. by rewrite E.
  - destruct (states m !! id) as [s|] eqn:Es; [|done]. intros [= <-].
    assert (Hn : exec_case m (set_pc (PDeactivate tmp id None) m)) by (apply ExecQuiet, quiet_same; cbn; auto; unfold queued; cbn; by rewrite E).
    unfold GetConn. destruct (connToAbortRef s) as [conn|] eqn:Er; [|exact Hn].
    case_bool_decide; [exact Hn|]. by eapply ExecGet.
  - destruct o as [conn|]; intros [= <-]; [by eapply ExecDeactivate|].
    apply ExecQuiet, (quiet_states SetInactive id); cbn; auto. unfold queued. cbn. rewrite E. set_solver.
  - destruct (conns m !! conn) as [c|] eqn:Ec; [|done]. intros [= <-]. by eapply ExecClose.
Qed.

Ltac quiet := apply ExecQuiet, quiet_same; cbn; auto.

Lemma exec_cases a m m' : exec a m = Some m' -> exec_case m m'.
Proof.
  destruct a as [svc conn c|svc|id svc now|id conn|id|id|conn|now| |now|closed opened reachable|now| |endpoints host| |]; cbn [exec].
  - destruct (conns m !! conn) eqn:E; [done|]. intros [= <-]. apply ExecQuiet. split; cbn; auto; [eauto|].
    intros conn' c' Hc. rewrite lookup_insert_ne; [done|]. by intros ->; rewrite Hc in E.
  - intros [= <-]. quiet.
  - destruct (startedAt m !! id) eqn:E; [done|]. destruct (current m !! svc); [|done]. intros [= <-]. by eapply ExecStart.
  - destruct (callers m !! id) as [[]|]; try done. intros [= <-]. quiet.
  - unfold stop_step. destruct (callers m !! id) as [[|conn|b conn|[c|]|]|]; try done; try (destruct (states m !! id); [|done]);
      intros [= <-]; [quiet|apply ExecQuiet, (quiet_states SetInactive id); cbn; auto|quiet].
  - destruct (callers m !! id) as [[]|]; try done; (case_bool_decide; [done|]); intros [= <-]; apply ExecQuiet; split; cbn; auto;
      intros id' s'; rewrite lookup_delete_Some; intros [_ ?]; eauto.
  - destruct (_ && _); [|done]. intros [= <-]. quiet.
  - destruct (newStatePc m) as [p [|? ?]| |] eqn:E; [|done..]. intros [= <-]. destruct (Stopped m); [|by eapply ExecRound].
    quiet. intros id Hid. by apply elem_of_nil in Hid.
  - destruct (newStatePc m) as [p [|id q]|now id q|] eqn:E; [done| | |done]; intros [= <-]; [|by eapply ExecActivate].
    unfold take_up. quiet. rewrite E. intros id' Hid. destruct (states m !! id) as [s|]; [destruct (IsActive m s)|]; cbn in *;
      (split; [|done]); try exact Hid; by right.
  - destruct (monitorPc m) eqn:E; [|done..]. destruct (Stopped m); [|destruct (RWQueue.IsEmpty _ && _)]; intros [= <-]; quiet;
      unfold queued; cbn; rewrite E; auto.
  - destruct (monitorPc m) eqn:E; try done. intros [= <-]. unfold check, CheckConnectionStatus.
    destruct (MonitoringConn m), closed, opened; cbn; quiet; unfold queued; cbn; rewrite E; auto.
  - destruct (monitorPc m) eqn:E; try done. intros [= <-]. quiet. unfold queued; cbn; rewrite E; auto.
  - destruct (monitorPc m) eqn:E; try (intros Hs; by apply scan_cases).
    + intros [= <-]. destruct (HostUnhealthy _); quiet; unfold queued; cbn; rewrite E; auto.
    + intros [= <-]. quiet. unfold queued. cbn. rewrite E. intros id. rewrite app_nil_r, elem_of_app. auto.
  - intros [= <-]. destruct (bool_decide _); [|quiet]. unfold reset. destruct (MonitoringConn m); quiet.
  - intros [= <-]. quiet.
  - destruct (newStatePc m), (monitorPc m) eqn:E; try done. destruct (Stopped m && _); [|done]. intros [= <-].
    destruct (MonitoringConn m); quiet.
Qed.

Lemma Inv_exec a m m' : exec a m = Some m' -> Inv m -> Inv m'.
Proof.
  intros [Q|id conn now Hf ->|now p Hp ->|id now p Hp ->|tmp id s conn Hp Hs Hr ->|tmp id conn Hp ->|tmp id conn c Hp Hc ->]%exec_cases Hm.
  - by eapply quiet_step_Inv.
  - by apply Inv_start.
  - by eapply Inv_round.
  - by apply Inv_activate.
  - by eapply Inv_get.
  - by apply Inv_deactivate.
  - by eapply Inv_close.
Qed.
Lemma Inv_run actions m : Inv m -> Inv (run actions m).
Proof.
  revert m. induction actions as [|a actions IH]; intros m Hm; [done|]. cbn. apply IH.
  destruct (exec a m) as [m'|] eqn:E; [by eapply Inv_exec|done].
Qed.

(** The call the loop has found on an unhealthy host. *)
Definition condemned (pc : MonitorPc) : option nat :=
  match pc with PCondemned _ id | PGetConn _ id | PDeactivate _ id _ | PClose _ id _ => Some id | _ => None end.
Lemma condemned_step a (m m' : M) id :
  exec a m = Some m' -> condemned (monitorPc m') = Some id \/ id ∈ aborted m' ->
  condemned (monitorPc m) = Some id \/ id ∈ aborted m \/ exists tmp, monitorPc m = PHeld tmp id /\ HostUnhealthy (health m) = true.
Proof.
  intros E Hc. assert (Hab : id ∈ aborted m' -> id ∈ aborted m \/ condemned (monitorPc m) = Some id).
  { clear Hc. apply exec_cases in E as [Q|id' conn now Hf ->|now p Hp ->|id' now p Hp ->|tmp id' s conn Hp Hs Hr ->|tmp id' conn Hp ->|tmp id' conn c Hp Hc ->];
      try (by left).
    - destruct Q as [_ _ _ _ _ (l & Ql & Hl) _ _ _]. unfold aborted. rewrite Ql, omap_app, (plain_aborted l Hl), app_nil_r. by left.
    - unfold aborted, activate. cbn. rewrite omap_app. cbn. rewrite app_nil_r. by left.
    - unfold aborted. cbn. rewrite omap_app. cbn. intros [?|Hx]%elem_of_app; [by left|]. apply list_elem_of_singleton in Hx as ->.
      right. by rewrite Hp. }
  destruct Hc as [Hc|Ha]; [|destruct (Hab Ha); auto]. clear Hab.
  assert (monitorPc m' = monitorPc m \/ scan m = Some m' \/ condemned (monitorPc m') = None) as [Hpc|[Hs|Hn]]; [| | |congruence].
  { destruct a; cbn [exec] in E; repeat case_match; simplify_eq; auto; unfold stop_step in *; repeat case_match; simplify_eq; auto;
      unfold reset, check, CheckConnectionStatus; repeat case_match; simplify_eq; cbn; auto. }
  - left. congruence.
  - unfold scan in Hs. destruct (monitorPc m) as [| | | |tmp|tmp i|tmp i|tmp i|tmp i|tmp i|tmp i|tmp i o|tmp i conn| |] eqn:Ep; try done.
    + destruct (RWQueue.Dequeue _) as [q [i|]]; injection Hs as <-; done.
    + injection Hs as <-. cbn in Hc. by destruct (Stopped m).
    + injection Hs as <-. cbn in Hc. by case_bool_decide.
    + injection Hs as <-. cbn in Hc. destruct (HostUnhealthy (health m)) eqn:Eh; [|done]. injection Hc as ->. right. right. by exists tmp.
    + destruct (states m !! i); [|done]. injection Hs as <-. cbn in Hc. done.
    + injection Hs as <-. by left.
    + destruct (states m !! i); [|done]. injection Hs as <-. by left.
    + injection Hs as <-. cbn in Hc. left. by destruct o.
    + destruct (conns m !! conn); [|done]. by injection Hs as <-.
Qed.

Lemma run_snoc actions a (m : M) : run (actions ++ [a]) m = default (run actions m) (exec a (run actions m)).
Proof. unfold run. by rewrite foldl_snoc. Qed.

Lemma condemned_before actions (m : M) id :
  condemned (monitorPc m) = None -> aborted m = [] ->
  condemned (monitorPc (run actions m)) = Some id \/ id ∈ aborted (run actions m) ->
  exists before after tmp, actions = before ++ after /\ monitorPc (run before m) = PHeld tmp id /\
    HostUnhealthy (health (run before m)) = true.
Proof.
  intros H0 Ha0. induction actions as [|a actions IH] using rev_ind.
  - cbn. rewrite H0, Ha0. by intros [?|?%elem_of_nil].
  - rewrite run_snoc. intros Hc.
    assert (Hor : (condemned (monitorPc (run actions m)) = Some id \/ id ∈ aborted (run actions m)) \/
      exists tmp, monitorPc (run actions m) = PHeld tmp id /\ HostUnhealthy (health (run actions m)) = true).
    { destruct (exec a (run actions m)) as [m'|] eqn:E; [|by left]. cbn in Hc.
      destruct (condemned_step a _ m' id E Hc) as [?|[?|?]]; auto. }
    destruct Hor as [Hx|(tmp & Hp & Hh)].
    + destruct (IH Hx) as (before & after & tmp & -> & ? & ?). exists before, (after ++ [a]), tmp. by rewrite app_assoc.
    + by exists actions, [a], tmp.
Qed.

End invariant.

(** ** No call is forgotten, unless the queue is replaced at the wrong moment *)

Section tracking.
Context {C : Type} `{MapRange}.
Local Abbreviation M := (HostMonitorImpl C).

Definition tracked (m : M) (id : nat) : Prop :=
  (exists k ids, RWMap.cache (NewStates m) !! k = Some ids /\ id ∈ ids) \/ id ∈ (taking (newStatePc m)).2 \/ id ∈ queued m.
Definition is_active (m : M) (id : nat) : Prop := exists s, states m !! id = Some s /\ IsActive m s = true.

Record NoLoss (m : M) : Prop := {
  nl_running : Stopped m = false;
  nl_swap tmp : monitorPc m = PSwap tmp -> RWQueue.items (ActiveStates m) = [];
  nl_tracked id : is_active m id -> tracked m id
}.

(** The actions that lose nothing: two calls do not start at the very same
    time, the monitor is not stopped, and no state is activated while the loop
    has found the queue empty but not replaced it yet. *)
Definition careful (a : Action (C := C)) (m : M) : bool :=
  match a with
  | AStart _ _ now => bool_decide (RWMap.cache (NewStates m) !! (now + failureDetectionTimeNanos m) = None)
  | ANewNext => match newStatePc m, monitorPc m with NTaken _ _ _, PSwap _ => false | _, _ => true end
  | AStop => false
  | _ => true
  end.
Fixpoint careful_run (actions : list (Action (C := C))) (m : M) : bool :=
  match actions with
  | [] => true
  | a :: actions => careful a m && careful_run actions (default m (exec a m))
  end.

(** States become inactive, and never active again. *)
Lemma IsActive_less (m m' : M) s s' :
  collected m ⊆ collected m' -> connToAbortRef s' = connToAbortRef s \/ connToAbortRef s' = None -> IsActive m' s' = true -> IsActive m s = true.
Proof.
  unfold IsActive, GetConn. intros Hc Hr. destruct (connToAbortRef s') as [conn|]; [|done]. destruct Hr as [<-|]; [|done].
  destruct (bool_decide (conn ∈ collected m')) eqn:Hn; [done|]. apply bool_decide_eq_false in Hn. intros _.
  by rewrite (bool_decide_false (conn ∈ collected m)) by set_solver.
Qed.
Lemma is_active_less (m m' : M) id :
  collected m ⊆ collected m' ->
  (forall s', states m' !! id = Some s' -> exists s, states m !! id = Some s /\ (connToAbortRef s' = connToAbortRef s \/ connToAbortRef s' = None)) ->
  is_active m' id -> is_active m id.
Proof. intros Hc Hst (s' & Hs' & Ha). destruct (Hst s' Hs') as (s & Hs & Hr). exists s. split; [done|]. by apply (IsActive_less m m' s s'). Qed.
Lemma is_active_same (m m' : M) id : collected m' = collected m -> states m' = states m -> is_active m' id -> is_active m id.
Proof. intros Hc Hs. apply is_active_less; [by rewrite Hc|]. intros s'. rewrite Hs. eauto. Qed.
Lemma is_active_set_state f id (m m' : M) id' :
  (forall s, connToAbortRef (f s) = connToAbortRef s \/ connToAbortRef (f s) = None) ->
  states m' = states (set_state id f m) -> collected m' = collected m -> is_active m' id' -> is_active m id'.
Proof. intros Hf Hs Hc. apply is_active_less; [by rewrite Hc|]. intros s'. rewrite Hs. by apply set_state_less. Qed.
Lemma not_active_inactive f id (m m' : M) :
  (forall s, connToAbortRef (f s) = None) -> states m' = states (set_state id f m) -> ~ is_active m' id.
Proof.
  intros Hf Hs (s & Es & Ha). rewrite Hs in Es. cbn in Es. rewrite lookup_alter_eq in Es. destruct (states m !! id); [|done]. injection Es as <-.
  unfold IsActive, GetConn in Ha. by rewrite Hf in Ha.
Qed.

Lemma NoLoss_frame m m' :
  Stopped m' = Stopped m -> (forall tmp, monitorPc m' = PSwap tmp -> RWQueue.items (ActiveStates m') = []) ->
  (forall id, is_active m' id -> is_active m id /\ (tracked m id -> tracked m' id)) -> NoLoss m -> NoLoss m'.
Proof. intros Es Hp Ha [Hs _ Ht]. split; [by rewrite Es|exact Hp|]. intros id Hid. destruct (Ha id Hid) as [? Hk]. by apply Hk, Ht. Qed.

Lemma NoLoss_same m m' :
  Stopped m' = Stopped m -> NewStates m' = NewStates m -> (taking (newStatePc m')).2 = (taking (newStatePc m)).2 ->
  (forall id, is_active m' id -> is_active m id) -> (forall tmp, monitorPc m' = PSwap tmp -> RWQueue.items (ActiveStates m') = []) ->
  (forall id, is_active m' id -> id ∈ queued m -> id ∈ queued m') -> NoLoss m -> NoLoss m'.
Proof.
  intros Es E2 E3 Hac Hp Hq. apply NoLoss_frame; [done|done|]. intros id Hid. split; [by apply Hac|].
  unfold tracked. rewrite E2, E3. intros [?|[?|?]]; auto.
Qed.

Lemma NoLoss_start id conn now m :
  startedAt m !! id = None -> RWMap.cache (NewStates m) !! (now + failureDetectionTimeNanos m) = None -> NoLoss m ->
  NoLoss (StartMonitoring id conn now m).
Proof.
  intros Hf Hk [Hs Hp Ht]. split; [done|done|]. intros id' (s & Hs' & Ha). unfold tracked. cbn -[RWMap.Put] in *.
  rewrite RWMap.Put_cache. destruct (decide (id' = id)) as [->|Hne].
  - left. exists (now + failureDetectionTimeNanos m), [id]. rewrite lookup_insert_eq. split; [done|]. by left.
  - rewrite lookup_insert_ne in Hs' by done. destruct (Ht id') as [(k & ids & Hk' & ?)|?]; [by exists s| |by right].
    left. exists k, ids. rewrite lookup_insert_ne; [done|]. intros <-. congruence.
Qed.

Lemma NoLoss_round now p m : newStatePc m = NRun p [] -> NoLoss m -> NoLoss (new_round now m).
Proof.
  intros Hpc [Hs Hp Ht]. split; [done|done|]. intros id Ha. unfold tracked. cbn.
  destruct (Ht id Ha) as [(k & ids & Hk & Hid)|[Hid|?]]; [|rewrite Hpc in Hid; by apply elem_of_nil in Hid|by right; right].
  destruct (k <? now) eqn:E.
  - right. left. apply list_elem_of_join. exists ids. split; [done|]. apply list_elem_of_fmap. exists (k, ids). split; [done|].
    apply list_elem_of_filter. split; [done|]. by apply elem_of_range.
  - left. exists k, ids. split; [|done]. apply map_lookup_filter_Some. split; [done|]. cbn. by rewrite E.
Qed.

Lemma NoLoss_take_up id now p m : newStatePc m = NRun now (id :: p) -> NoLoss m -> NoLoss (take_up id now p m).
Proof.
  intros Hpc Hm. pose proof (nl_swap _ Hm) as Hsw. revert Hm. apply NoLoss_frame; [done|exact Hsw|]. intros id' Ha.
  assert (Ha' : is_active m id') by (revert Ha; by apply is_active_same). split; [done|]. unfold tracked. rewrite Hpc. cbn [taking snd].
  intros [?|[Hid|?]]; [by left| |by right; right]. right. left. unfold take_up. cbn.
  destruct Ha' as (s' & Hs' & Ha'). apply elem_of_cons in Hid as [->|Hid].
  - rewrite Hs', Ha'. by left.
  - destruct (states m !! id) as [s|]; [destruct (IsActive m s)|]; cbn; try exact Hid. by right.
Qed.

Lemma NoLoss_activate id now p m :
  newStatePc m = NTaken now id p -> (forall tmp, monitorPc m <> PSwap tmp) -> NoLoss m -> NoLoss (activate id now p m).
Proof.
  intros Hpc Hns. apply NoLoss_frame; [done|intros tmp Ht; by destruct (Hns tmp)|]. intros id' Ha.
  split; [revert Ha; by apply is_active_same|]. unfold tracked. rewrite Hpc. cbn. intros [?|[Hid|Hid]]; [by left| |].
  - apply elem_of_cons in Hid as [->|?]; [|by right; left]. right. right. unfold queued. cbn. set_solver.
  - right. right. revert Hid. unfold queued. cbn. set_solver.
Qed.

(** The states of the queue: kept for the next round, in the hands of the loop,
    or of no use any more. *)
Lemma NoLoss_scan m m' : Inv m -> scan m = Some m' -> NoLoss m -> NoLoss m'.
Proof.
  intros Hinv Hs Hm. pose proof (nl_running _ Hm) as Hrun. revert Hs Hm. unfold scan, RWQueue.Dequeue.
  destruct (monitorPc m) as [| | | |tmp|tmp id|tmp id|tmp id|tmp id|tmp id|tmp id|tmp id o|tmp id conn| |] eqn:E; try done.
  - destruct (RWQueue.items (ActiveStates m)) as [|id q] eqn:Eq; intros [= <-]; apply NoLoss_same; try done; try (by intros id'; apply is_active_same);
      intros id' _; unfold queued; cbn; rewrite E, Eq; cbn; [done|]. set_solver.
  - intros [= <-]. rewrite Hrun. apply NoLoss_same; try done. intros id' _. unfold queued. cbn. by rewrite E.
  - intros [= <-]. apply NoLoss_same; try done; [intros tmp' Hx; cbn in Hx; by case_bool_decide|].
    intros id' (s & Hs & _). unfold queued. cbn in Hs |- *. rewrite E. case_bool_decide as Hsome; cbn; [done|].
    rewrite !elem_of_app. intros [?|[?|Hx]]; [by left|by right|]. apply list_elem_of_singleton in Hx as ->. destruct Hsome. by exists s.
  - intros [= <-]. apply NoLoss_same; try done; [intros tmp' Hx; cbn in Hx; by destruct (HostUnhealthy _)|].
    intros id' _. unfold queued. cbn. rewrite E. by destruct (HostUnhealthy _).
  - destruct (states m !! id) as [s|] eqn:Es; [|done]. intros [= <-]. apply NoLoss_same; try done.
    intros id' (s' & Hs' & Ha'). unfold queued. cbn in Hs' |- *. rewrite E. destruct (IsActive m s) eqn:Ea; cbn; [done|].
    rewrite !elem_of_app. intros [?|[?|Hx]]; [by left|by right|]. apply list_elem_of_singleton in Hx as ->.
    change (IsActive m s' = true) in Ha'. congruence.
  - intros [= <-]. apply NoLoss_same; try done; [intros id'; apply (is_active_set_state (SetHostUnhealthy true) id); auto|].
    intros id' _. unfold queued. cbn. by rewrite E.
  - destruct (states m !! id) as [s|]; [|done]. intros [= <-]. apply NoLoss_same; try done. intros id' _. unfold queued. cbn. by rewrite E.
  - intros [= <-]. apply NoLoss_same; try done; [intros id'; apply (is_active_set_state SetInactive id); auto|intros tmp' Hx; cbn in Hx; by destruct o|].
    intros id' Ha. unfold queued. cbn. rewrite E. destruct o; cbn; [done|].
    rewrite !elem_of_app. intros [?|[?|Hx]]; [by left|by right|]. apply list_elem_of_singleton in Hx as ->.
    exfalso. revert Ha. by apply (not_active_inactive SetInactive id m).
  - destruct (conns m !! conn) as [c|]; [|done]. intros [= <-].
    apply NoLoss_same; try done. intros id' (s & Hs & Ha). unfold queued. cbn in Hs |- *. rewrite E. cbn.
    rewrite !elem_of_app. intros [?|[?|Hx]]; [by left|by right|]. apply list_elem_of_singleton in Hx as ->.
    unfold IsActive, GetConn in Ha. by rewrite (inv_close _ Hinv _ _ _ E s Hs) in Ha.
Qed.

Lemma NoLoss_exec a m m' : Inv m -> careful a m = true -> exec a m = Some m' -> NoLoss m -> NoLoss m'.
Proof.
  intros Hinv Hc He Hm. pose proof (nl_running _ Hm) as Hrun. pose proof (nl_swap _ Hm) as Hsw.
  destruct a as [svc conn c|svc|id svc now|id conn|id|id|conn|now| |now|closed opened reachable|now| |endpoints host| |]; cbn [exec careful] in He, Hc.
  - destruct (conns m !! conn); [done|]. injection He as <-. revert Hm. by apply NoLoss_same.
  - injection He as <-. revert Hm. by apply NoLoss_same.
  - destruct (startedAt m !! id) eqn:E; [done|]. destruct (current m !! svc); [|done]. injection He as <-. apply bool_decide_eq_true in Hc.
    by apply NoLoss_start.
  - destruct (callers m !! id) as [[]|]; try done. injection He as <-. revert Hm. by apply NoLoss_same.
  - unfold stop_step in He. destruct (callers m !! id) as [[|conn|b conn|[c|]|]|]; try done; try (destruct (states m !! id); [|done]);
      injection He as <-; revert Hm; apply NoLoss_same; try done. intros id'. apply (is_active_set_state SetInactive id); auto.
  - destruct (callers m !! id) as [[]|]; try done; (case_bool_decide; [done|]); injection He as <-; revert Hm; apply NoLoss_same; try done;
      intros id'; (apply is_active_less; [done|]); intros s'; cbn; rewrite lookup_delete_Some; intros [_ ?]; eauto.
  - destruct (_ && _); [|done]. injection He as <-. revert Hm. apply NoLoss_same; try done. intros id'.
    apply is_active_less; [cbn; set_solver|eauto].
  - destruct (newStatePc m) as [p [|? ?]| |] eqn:E; [|done..]. injection He as <-. rewrite Hrun. by eapply NoLoss_round.
  - destruct (newStatePc m) as [p [|id q]|now id q|] eqn:E; [done| | |done]; injection He as <-; [by apply NoLoss_take_up|].
    apply NoLoss_activate; [done| |done]. intros tmp Ht. by rewrite Ht in Hc.
  - destruct (monitorPc m) eqn:E; [|done..]. rewrite Hrun in He. revert Hm. destruct (RWQueue.IsEmpty _ && _); injection He as <-;
      apply NoLoss_same; try done; cbn; [intros tmp; by rewrite E|]. intros id _. unfold queued. cbn. by rewrite E.
  - destruct (monitorPc m) eqn:E; try done. injection He as <-. revert Hm. unfold check, CheckConnectionStatus.
    destruct (MonitoringConn m), closed, opened; cbn; apply NoLoss_same; try done; intros id _; unfold queued; cbn; by rewrite E.
  - destruct (monitorPc m) eqn:E; try done. injection He as <-. revert Hm. apply NoLoss_same; try done. intros id _. unfold queued. cbn. by rewrite E.
  - assert (Hscan : scan m = Some m' -> NoLoss m') by (intros Hs; by apply (NoLoss_scan m)).
    destruct (monitorPc m) eqn:E; try (by apply Hscan).
    + injection He as <-. revert Hm. destruct (HostUnhealthy _); apply NoLoss_same; try done; intros id _; unfold queued; cbn; by rewrite E.
    + injection He as <-. pose proof (Hsw _ eq_refl) as Hempty. revert Hm. apply NoLoss_same; try done. intros id _.
      unfold queued. cbn. rewrite E, Hempty, app_nil_r. done.
  - injection He as <-. destruct (bool_decide _); [|done]. revert Hm. unfold reset.
    destruct (MonitoringConn m); by apply NoLoss_same.
  - done.
  - destruct (newStatePc m), (monitorPc m); try done. rewrite Hrun in He. done.
Qed.

Lemma NoLoss_new a b c now : NoLoss (NewHostMonitorImpl a b c now : M).
Proof. split; [done|done|]. intros id (s & Hs & _). cbn in Hs. by rewrite lookup_empty in Hs. Qed.

Lemma NoLoss_run actions m : careful_run actions m = true -> Inv m -> NoLoss m -> NoLoss (run actions m).
Proof.
  revert m. induction actions as [|a actions IH]; intros m Hc Hi Hm; [done|]. cbn in Hc |- *. apply andb_true_iff in Hc as [Hc1 Hc2].
  destruct (exec a m) as [m'|] eqn:E; [|by apply IH]. apply IH; [done|by eapply Inv_exec|by eapply NoLoss_exec].
Qed.

End tracking.

(** ** Examples: a host that stops answering *)

Definition next (n : nat) : list (Action (C := nat)) := repeat ANext n.
Definition a_check (now : Z) (reachable : bool) : list (Action (C := nat)) :=
  [ATick now; ACheck false None reachable; AUpdate (now + 1); ANext].
(** Service 7 has connection 40; its call is taken up, and the third check finds
    the host dead. *)
Definition dead_host : list (Action (C := nat)) :=
  [AConnect 7 0 40%nat; AStart 0 7 1000; ANewTick 30000001001; ANewNext; ANewNext] ++
  a_check 30000001001 false ++ next 7 ++ a_check 35000001001 false ++ next 7 ++ a_check 45000001001 false.
Definition aborting : list (Action (C := nat)) := dead_host ++ next 6.
Definition efm_monitor : HostMonitorImpl nat := NewHostMonitorImpl 30000 5000 3 1000.
Example dead_host_aborted :
  log (run (aborting ++ next 2) efm_monitor) = [Activated 0 30000001001; MarkedUnavailable; Aborted 0 40%nat].
Proof. vm_compute. reflexivity. Qed.

(** The call has a new connection by then: the one it was started with is
    closed, as long as it was not collected. *)
Example switched_call_keeps_connection :
  log (run (dead_host ++ [AConnect 7 1 41%nat] ++ next 8) efm_monitor) = [Activated 0 30000001001; MarkedUnavailable; Aborted 0 40%nat] /\
  log (run (dead_host ++ [AConnect 7 1 41%nat; ACollectConn 0] ++ next 8) efm_monitor) = [Activated 0 30000001001; MarkedUnavailable].
Proof. vm_compute. done. Qed.

(** The call ends, and [StopMonitoring] finds nothing to abort, after the loop
    has found the host dead and before it deactivates the state: the connection
    is closed after the call. *)
Definition ended_call : HostMonitorImpl nat :=
  run (dead_host ++ next 4 ++ [AStopMonitoring 0 (Some 40%nat); AStopNext 0] ++ next 2 ++ [AStopNext 0]) efm_monitor.
Example ended_call_aborted :
  (callers ended_call !! 0%nat, log ended_call) = (Some CDone, [Activated 0 30000001001; MarkedUnavailable]) /\
  log (run (next 2) ended_call) = log ended_call ++ [Aborted 0 40%nat].
Proof. vm_compute. done. Qed.

(** A call that ends after the loop has marked its state closes the connection
    itself. *)
Example caller_aborts :
  let m := run (dead_host ++ next 5 ++ [AStopMonitoring 0 (Some 40%nat); AStopNext 0; AStopNext 0; AStopNext 0]) efm_monitor in
  log m = [Activated 0 30000001001; MarkedUnavailable; Closed 40%nat] /\ log (run (next 3) m) = log m.
Proof. vm_compute. done. Qed.

(** A reset event in the same place: the host counts as healthy when the
    connection is closed. *)
Example reset_comes_too_late :
  let m := run (dead_host ++ next 4 ++ [AReset {["h"]} "h"]) efm_monitor in
  HostUnhealthy (health m) = false /\ log (run (next 4) m) = log m ++ [Aborted 0 40%nat].
Proof. vm_compute. done. Qed.

Lemma health_of_checks_witness :
  health_after 5000 3 [mkCheck true 10 20; mkCheck false 5000 5010; mkCheck false 15005 15010] = mkHealth 2 5000 true /\
  HostUnhealthy (health_after 5000 3 [mkCheck false 7 10; mkCheck false 5007 5010; mkCheck false 10007 10010]) = true.
Proof.
  split.
  - rewrite (proj1 (health_of_checks 5000 3 [mkCheck true 10 20; mkCheck false 5000 5010; mkCheck false 15005 15010] ltac:(repeat constructor; done) ltac:(repeat constructor; cbn; lia))). reflexivity.
  - apply (proj2 (health_of_checks 5000 3 [mkCheck false 7 10; mkCheck false 5007 5010; mkCheck false 10007 10010]
      ltac:(repeat constructor; done) ltac:(repeat constructor; cbn; lia))); [cbn; lia|repeat constructor; cbn; lia|lia|cbn; lia|unfold max_int64; lia].
Defined.


(** Without that restriction a call is forgotten: the second call is activated
    when the loop has gone through the queue it is put into. *)
Definition swap_race : list (Action (C := nat)) :=
  [AConnect 7 0 40%nat; AStart 0 7 1000; AStart 1 7 1001; ANewTick 30000001001; ANewNext; ANewNext; ATick 30000001001;
   ACheck false (Some 41%nat) true; AUpdate 30000001002] ++ next 7 ++ [ANewTick 30000001010; ANewNext; ANewNext; ANext].
Example swapped_call_forgotten :
  let m := run swap_race efm_monitor in
  states m !! 1%nat = Some (mkConnState false (Some 0%nat)) /\ RWMap.cache (NewStates m) = ∅ /\
  taking (newStatePc m) = (30000001010, []) /\ queued m = [0%nat].
Proof. vm_compute. done. Qed.

(** Two calls that start at the same nanosecond: the second entry of the map
    replaces that of the first. *)
Example same_time_call_forgotten :
  RWMap.cache (NewStates (run [AConnect 7 0 40%nat; AStart 0 7 1000; AStart 1 7 1000] efm_monitor)) = {[30000001000 := [1%nat]]}.
Proof. vm_compute. reflexivity. Qed.

