(* ===== verification/PluginService.v ===== *)
(** * PluginService: the connection in use, its host and the host list
    (awssql/plugin_helpers/plugin_service.go, allowed_and_blocked_hosts.go).

    Hosts are shared by reference in the code, and their availability is
    assigned in place, so the state has a heap of hosts and the host list, the
    current and the initial host are locations. The plugins, the host list
    providers, the storage of the allowed and blocked hosts and the driver are
    parameters; plugins and providers are functions on the whole state. The
    locks are not part of the model: each operation runs on its own. *)

From S2P Require Import Prelude.
From S2P Require Import HostInfo.
From S2P Require Import CacheMap.
From S2P Require Import Effects.
From S2P Require Import RdsUtils.
From S2P Require Import Properties.
From S2P Require Import Dsn.
From S2P Require Import Dialects.
From S2P Require Import SqlMethods.
From S2P Require Import SessionState.
From S2P Require Import PluginManager.

Definition loc : Type := nat.
Definition DEFAULT_HOST_AVAILABILITY_CACHE_EXPIRE_NANO : Z := 5 * Minute.

(** allowed_and_blocked_hosts.go *)
Record AllowedAndBlockedHosts := mkAllowedBlocked { allowedHostIds : gmap string bool; blockedHostIds : gmap string bool }.
Definition NewAllowedAndBlockedHosts (allowed blocked : gmap string bool) : AllowedAndBlockedHosts := mkAllowedBlocked allowed blocked.

(** [IsClosed] of the driver dialect, after the events so far. *)
Class DriverDialect (C : Type) := {
  IsClosed : list (Event C) -> C -> bool;
  IsNetworkError : go_error -> bool;
  IsLoginError : go_error -> bool
}.

Section Service.
Context {C V Sel P : Type} `{EqDecision C} `{ExecConn C} `{DriverDialect C}.

(** [p_plugins] is the state of the plugins and providers themselves. *)
Record PluginServiceImpl := mkService {
  heap : gmap loc HostInfo;
  currentConnection : option C;
  currentHostInfo : option loc;
  initialHostInfo : option loc;
  AllHosts : list loc;
  inTransaction : bool;
  currentTx : option nat;
  sessionStateService : SessionStateServiceImpl;
  events : Log C;
  dialectManager : DialectManager;
  service_dialect : option Dialect;
  isDialectConfirmed : bool;
  hostListProvider : option nat;
  hostAvailabilityExpiringCache : CacheMap.CacheMap string;
  chains : gmap string StoredChain;
  p_plugins : P
}.
#[export] Instance PluginServiceImpl_eta : Eta PluginServiceImpl := fun p =>
  mkService (heap p) (currentConnection p) (currentHostInfo p) (initialHostInfo p) (AllHosts p) (inTransaction p)
    (currentTx p) (sessionStateService p) (events p) (dialectManager p) (service_dialect p) (isDialectConfirmed p)
    (hostListProvider p) (hostAvailabilityExpiringCache p) (chains p) (p_plugins p).
#[export] Instance service_chains : PluginFuncMap PluginServiceImpl := {|
  pluginFuncMap := chains; put_chains m p := p <| chains := m |> |}.

Local Abbreviation Svc := PluginServiceImpl.
Local Abbreviation Plugin := (ConnectionPlugin PluginServiceImpl V C Sel loc).

(** A pointer that may be nil. *)
Definition deref (p : Svc) (h : option loc) : option HostInfo := h ≫= fun l => heap p !! l.
Definition host_at (p : Svc) (l : loc) : option HostInfo := heap p !! l.
Definition key_at (p : Svc) (l : loc) : string := GetHostAndPort (host_at p l).
(** [new(HostInfo)] *)
Definition alloc (h : HostInfo) : St Svc loc := fun p =>
  let l := fresh (dom (heap p)) in (p <| heap := <[l := h]> (heap p) |>, l).

Record HostListProvider := mkProvider {
  hlp_Refresh : Eff Svc (list loc);
  hlp_ForceRefresh : Eff Svc (list loc);
  hlp_ForceRefreshHostListWithTimeout : bool -> Z -> Eff Svc (list loc);
  hlp_GetHostRole : C -> St Svc string;
  hlp_IdentifyConnection : C -> Eff Svc (option loc);
  hlp_IsStatic : bool;
  hlp_ReleaseResources : option (St Svc unit)
}.

Context `{DriverConn C} (props : option properties) (funcs : SessionFuncs C) (plugins : list Plugin).
Context (providers : nat -> HostListProvider) (supplier : Dialect -> Eff Svc nat).
Context (AllowedAndBlocked_Get : Svc -> string -> option AllowedAndBlockedHosts).
Context (originalDsn : string).

(** ** Connections *)

Definition nilConn : go_error := NewGenericAwsWrapperError "PluginServiceImpl.nilConn" [].
Definition nilHost : go_error := NewGenericAwsWrapperError "PluginServiceImpl.nilHost" [].

Definition compareHostInfos (hostInfoA hostInfoB : HostInfo) : gset HostChangeOptions :=
  let changes : gset HostChangeOptions :=
    (if bool_decide (Host hostInfoA <> Host hostInfoB) || negb (Port hostInfoA =? Port hostInfoB) then {[HOSTNAME]} else ∅) ∪
    (if bool_decide (Role hostInfoA <> Role hostInfoB) then
       if bool_decide (Role hostInfoB = WRITER) then {[PROMOTED_TO_WRITER]}
       else if bool_decide (Role hostInfoB = READER) then {[PROMOTED_TO_READER]} else ∅
     else ∅) ∪
    (if bool_decide (Availability hostInfoA <> Availability hostInfoB) then
       if bool_decide (Availability hostInfoB = AVAILABLE) then {[WENT_UP]}
       else if bool_decide (Availability hostInfoB = UNAVAILABLE) then {[WENT_DOWN]} else ∅
     else ∅) in
  if bool_decide (changes = ∅) then changes else {[HOST_CHANGED]} ∪ changes.

Definition compare (connA : C) (hostInfoA : HostInfo) (connB : C) (hostInfoB : HostInfo) : gset HostChangeOptions :=
  let changes := compareHostInfos hostInfoA hostInfoB in
  if bool_decide (connA <> connB) then {[CONNECTION_OBJECT_CHANGED]} ∪ changes else changes.

(** Code of the session service on the state. *)
Definition on_session {A} (c : St (World C) A) : St Svc A :=
  zoom (fun p => (sessionStateService p, events p))
    (fun w p => p <| sessionStateService := w.1 |> <| events := w.2 |>) c.
Definition emit (e : Event C) : St Svc unit := modify (fun p => p <| events := events p ++ [e] |>).

(** utils.Rollback; the errors are only logged. *)
Definition Rollback (conn : C) (tx : option nat) : St Svc unit :=
  match tx with
  | Some tx => emit (RolledBack tx)
  | None => (let! _ := zoom events (fun l p => p <| events := l |>) (ExecQueryDirectly conn "rollback") in st_ret tt)%eff
  end.

Definition dialect_of (p : Svc) : SessionDialect := from_option session_dialect mysql_dialect (service_dialect p).

(** The end of a switch: what happens to the connection that was in use. *)
Definition close_old (oldConnection : C) (changes : gset HostChangeOptions) (skip : option Plugin) : St Svc unit :=
  (let! pluginOpinions := NotifyConnectionChanged plugins changes skip in
   let! closed := gets (fun p => IsClosed (events p) oldConnection) in
   if bool_decide (CONNECTION_OBJECT_CHANGED ∈ changes) && negb closed && negb (bool_decide (PRESERVE ∈ pluginOpinions)) then
     let! _ := (fun p => on_session (ApplyPristineSessionState props funcs (dialect_of p) oldConnection) p) in
     emit (Closed oldConnection)
   else st_ret tt)%eff.

Definition settle_old_connection (oldConnection : C) (isInTransaction : bool) (changes : gset HostChangeOptions)
  (skip : option Plugin) : St Svc unit :=
  (let! _ := if isInTransaction && GetVerifiedWrapperPropertyValue props ROLLBACK_ON_SWITCH
             then (fun p => Rollback oldConnection (currentTx p) p) else st_ret tt in
   close_old oldConnection changes skip)%eff.

Definition complete : St Svc unit := modify (fun p => p <| sessionStateService := Complete (sessionStateService p) |>).

Definition switch_connection (conn : C) (hostInfo : loc) (changes : gset HostChangeOptions) (oldConnection : C)
  (skip : option Plugin) : Eff Svc unit :=
  (let! isInTransaction := gets inTransaction in
   let! _ := modify (fun p => p <| currentConnection := Some conn |> <| currentHostInfo := Some hostInfo |>) in
   try! _ := (fun p => on_session (ApplyCurrentSessionState props funcs (dialect_of p) conn) p) in
   let! _ := modify (fun p => p <| inTransaction := false |>) in
   run (settle_old_connection oldConnection isInTransaction changes skip))%eff.

(** [defer Complete()] runs at the end of the switch, whatever its result. *)
Definition change_connection (conn : C) (hostInfo : loc) (changes : gset HostChangeOptions) (oldConnection : C)
  (skip : option Plugin) : Eff Svc unit :=
  (let! r := (try! _ := (fun p => let '(s, r) := Begin props (sessionStateService p) in (p <| sessionStateService := s |>, r)) in
              switch_connection conn hostInfo changes oldConnection skip) in
   let! _ := complete in lift_result r)%eff.

Definition SetCurrentConnection (conn : option C) (hostInfo : option loc) (skip : option Plugin) : Eff Svc unit := fun p =>
  match conn, hostInfo with
  | None, _ => (p, Err nilConn)
  | Some conn, None => (p, Err nilHost)
  | Some conn, Some l =>
      if IsNil (host_at p l) then (p, Err nilHost)
      else match currentConnection p with
           | None =>
               (let! _ := modify (fun p => p <| currentConnection := Some conn |> <| currentHostInfo := Some l |>
                                             <| sessionStateService := Reset (sessionStateService p) |>) in
                let! _ := modify (fun p => match initialHostInfo p with
                                           | None => p <| initialHostInfo := Some l |> | Some _ => p end) in
                let! _ := NotifyConnectionChanged plugins {[INITIAL_CONNECTION]} skip in eff_ok tt)%eff p
           | Some old =>
               match deref p (currentHostInfo p), host_at p l with
               | Some oldHost, Some newHost =>
                   let changes := compare old oldHost conn newHost in
                   if Nat.ltb 0 (size changes) then change_connection conn l changes old skip p else (p, Ok tt)
               | _, _ => (p, Panic)
               end
           end
  end.

(** ** Hosts *)

Definition hosts_at (p : Svc) (l : list loc) : list HostInfo := omap (host_at p) l.
Definition set_host (l : loc) (h : HostInfo) (p : Svc) : Svc := p <| heap := <[l := h]> (heap p) |>.

(** [host_info_util.GetWriter] on pointers. *)
Definition GetWriter_at (p : Svc) (hosts : list loc) : option loc :=
  List.find (fun l => match host_at p l with Some h => bool_decide (Role h = WRITER) | None => false end) hosts.

Definition GetHosts (p : Svc) : list loc :=
  match AllowedAndBlocked_Get p (GetUrl (deref p (initialHostInfo p))) with
  | None => AllHosts p
  | Some hostPermissions =>
      let id l := from_option HostId "" (host_at p l) in
      let allowedHosts := allowedHostIds hostPermissions in
      let blockedHosts := blockedHostIds hostPermissions in
      let hosts := if Nat.ltb 0 (size allowedHosts)
                   then FilterSlice (AllHosts p) (fun item => bool_decide (allowedHosts !! id item = Some true))
                   else AllHosts p in
      if Nat.ltb 0 (size blockedHosts)
      then FilterSlice hosts (fun item => negb (bool_decide (blockedHosts !! id item = Some true)))
      else hosts
  end.

Definition hostListEmpty : go_error := NewGenericAwsWrapperError "PluginServiceImpl.hostListEmpty" [].
Definition currentHostNotAllowed (h : option HostInfo) : go_error :=
  NewGenericAwsWrapperError "PluginServiceImpl.currentHostNotAllowed" [GetHostAndPort h].

(** The last test of [GetCurrentHostInfo]. *)
Definition return_current (p : Svc) : Svc * Result (option loc) :=
  if IsNil (deref p (currentHostInfo p)) then (p, Err nilHost) else (p, Ok (currentHostInfo p)).
Definition GetCurrentHostInfo : Eff Svc (option loc) := fun p =>
  if IsNil (deref p (currentHostInfo p)) then
    let p := p <| currentHostInfo := initialHostInfo p |> in
    if IsNil (deref p (currentHostInfo p)) then
      match AllHosts p with
      | [] => (p, Err hostListEmpty)
      | first :: _ =>
          let p := p <| currentHostInfo := GetWriter_at p (AllHosts p) |> in
          let allowedHosts := GetHosts p in
          if bool_decide (is_Some (currentHostInfo p)) && negb (IsHostInList (deref p (currentHostInfo p)) (hosts_at p allowedHosts))
          then (p, Err (currentHostNotAllowed (deref p (currentHostInfo p))))
          else return_current (if IsNil (deref p (currentHostInfo p)) then p <| currentHostInfo := Some first |> else p)
      end
    else return_current p
  else (p, Ok (currentHostInfo p)).

(** The readings of the clock of the i-th iteration of a loop over hosts. *)
Record HostClock := mkHostClock { hc_put : nat -> Z; hc_cleanup : nat -> CleanUpClock; hc_get : nat -> Z }.

Definition has_alias (hostAliases : gmap string bool) (p : Svc) (l : loc) : bool :=
  bool_decide (key_at p l ∈ dom hostAliases) ||
  match host_at p l with
  | Some h => existsb (fun k => bool_decide (is_Some (default ∅ (AllAliases h) !! k))) (map_to_list hostAliases).*1
  | None => false
  end.

Definition availability_changes (availability : string) : gset HostChangeOptions :=
  if bool_decide (availability = AVAILABLE) then {[HOST_CHANGED; WENT_UP]} else {[HOST_CHANGED; WENT_DOWN]}.

(** One turn of the loop of [SetAvailability]. *)
Definition set_availability_at (clk : HostClock) (hostAliases : gmap string bool) (availability : string)
  (st : Svc * gmap string (gset HostChangeOptions)) (e : nat * loc) : Svc * gmap string (gset HostChangeOptions) :=
  let '(p, changes) := st in
  let '(i, l) := e in
  if has_alias hostAliases p l then
    let p := p <| hostAvailabilityExpiringCache :=
      CacheMap.Put (hc_put clk i) (hc_cleanup clk i) (key_at p l) availability DEFAULT_HOST_AVAILABILITY_CACHE_EXPIRE_NANO
        (hostAvailabilityExpiringCache p) |> in
    match host_at p l with
    | Some h =>
        if bool_decide (Availability h <> availability) then
          (set_host l (with_availability availability h) p,
           <[key_at p l := availability_changes availability]> changes)
        else (p, changes)
    | None => (p, changes)
    end
  else (p, changes).
Definition availability_loop (clk : HostClock) (hostAliases : gmap string bool) (availability : string) (p : Svc) :
  Svc * gmap string (gset HostChangeOptions) :=
  foldl (set_availability_at clk hostAliases availability) (p, ∅) (imap pair (AllHosts p)).
Definition SetAvailability (clk : HostClock) (hostAliases : gmap string bool) (availability : string) : St Svc unit := fun p =>
  if Nat.eqb (size hostAliases) 0 then (p, tt)
  else let '(p, changes) := availability_loop clk hostAliases availability p in
       if Nat.ltb 0 (size changes) then NotifyHostListChanged plugins changes p else (p, tt).

(** One turn of [updateHostAvailability]: a copy when the cache knows better. *)
Definition updated_host (clk : HostClock) (e : nat * loc) : St Svc loc := fun p =>
  let '(i, l) := e in
  match host_at p l, CacheMap.Get (hc_get clk i) (key_at p l) (hostAvailabilityExpiringCache p) with
  | Some h, Some availability =>
      if bool_decide (availability <> Availability h) then
        alloc (with_availability availability h) p
      else (p, l)
  | _, _ => (p, l)
  end.
Fixpoint update_loop (clk : HostClock) (hosts : list (nat * loc)) : St Svc (list loc) :=
  match hosts with
  | [] => st_ret []
  | e :: rest => (let! l := updated_host clk e in let! ls := update_loop clk rest in st_ret (l :: ls))%eff
  end.
Definition updateHostAvailability (clk : HostClock) (hosts : list loc) : St Svc (list loc) := update_loop clk (imap pair hosts).

Definition host_map (p : Svc) (hosts : list loc) : gmap string loc := foldl (fun m l => <[key_at p l := l]> m) ∅ hosts.

(** The changes between two lists, by host and port. *)
Definition removed_or_changed (p : Svc) (newHostMap : gmap string loc) (hostKey : string) (l : loc) :
  option (gset HostChangeOptions) :=
  match newHostMap !! hostKey with
  | None => Some {[HOST_DELETED]}
  | Some l' =>
      if IsNil (host_at p l') then Some {[HOST_DELETED]}
      else match host_at p l, host_at p l' with
           | Some h, Some h' => let hostChanges := compareHostInfos h h' in
                                if Nat.ltb 0 (size hostChanges) then Some hostChanges else None
           | _, _ => None
           end
  end.
Definition host_list_changes (p : Svc) (oldHosts newHosts : list loc) : gmap string (gset HostChangeOptions) :=
  let oldHostMap := host_map p oldHosts in
  let newHostMap := host_map p newHosts in
  map_imap (fun hostKey _ => match oldHostMap !! hostKey with None => Some {[HOST_ADDED]} | Some _ => None end) newHostMap ∪
  map_imap (removed_or_changed p newHostMap) oldHostMap.
Definition setHostList (newHosts : list loc) : St Svc unit := fun p =>
  let changes := host_list_changes p (AllHosts p) newHosts in
  if Nat.ltb 0 (size changes) then NotifyHostListChanged plugins changes (p <| AllHosts := newHosts |>) else (p, tt).

(** The result of [updateHostAvailability] is dropped. *)
Definition updateHostListIfNeeded (clk : HostClock) (updatedHostList : list loc) : Eff Svc unit := fun p =>
  match updatedHostList with
  | [] => (p, Err hostListEmpty)
  | _ =>
      if negb (AreHostListsEqual (hosts_at p (AllHosts p)) (hosts_at p updatedHostList)) then
        (let! _ := updateHostAvailability clk updatedHostList in
         let! _ := setHostList updatedHostList in eff_ok tt)%eff p
      else (p, Ok tt)
  end.

(** A nil provider is dereferenced. *)
Definition with_provider {A} (k : HostListProvider -> Eff Svc A) : Eff Svc A := fun p =>
  match hostListProvider p with Some n => k (providers n) p | None => (p, Panic) end.
Definition RefreshHostList (clk : HostClock) : Eff Svc unit :=
  (try! updatedHostList := with_provider hlp_Refresh in updateHostListIfNeeded clk updatedHostList)%eff.
Definition ForceRefreshHostList (clk : HostClock) : Eff Svc unit :=
  (try! updatedHostList := with_provider hlp_ForceRefresh in updateHostListIfNeeded clk updatedHostList)%eff.
Definition GetUpdatedHostListWithTimeout (shouldVerifyWriter : bool) (timeoutMs : Z) : Eff Svc (list loc) :=
  with_provider (fun h => hlp_ForceRefreshHostListWithTimeout h shouldVerifyWriter timeoutMs).
Definition ForceRefreshHostListWithTimeout (clk : HostClock) (shouldVerifyWriter : bool) (timeoutMs : Z) : Eff Svc bool :=
  (try! updatedHostList := GetUpdatedHostListWithTimeout shouldVerifyWriter timeoutMs in
   match updatedHostList with
   | [] => eff_ok false
   | _ => let! updatedHostList := updateHostAvailability clk updatedHostList in
          let! _ := setHostList updatedHostList in eff_ok true
   end)%eff.

(** ** Aliases *)

Definition add_alias (l : loc) (alias : string) : Eff Svc unit := fun p =>
  match AddAlias (host_at p l) alias with
  | Ok (Some h) => (set_host l h p, Ok tt)
  | Ok None => (p, Ok tt)
  | Err e => (p, Err e)
  | Panic => (p, Panic)
  end.
(** One row of the alias query: its first column. *)
Definition add_row (l : loc) (row : list DbValue) : Eff Svc unit :=
  match row with
  | [] => eff_ok tt
  | value :: _ => let '(valueAsString, ok) := ConvertDriverValueToString value in
                  if ok : bool then add_alias l valueAsString else eff_ok tt
  end.
(** [hostInfo.AllAliases[alias] = true] *)
Definition assign_alias (l : loc) (alias : string) : Eff Svc unit := fun p =>
  match host_at p l with
  | Some h =>
      match map_assign (AllAliases h) alias with
      | Ok all => (set_host l {| Host := Host h; HostId := HostId h; Port := Port h; Availability := Availability h;
                                 Role := Role h; Aliases := Aliases h; AllAliases := all; Weight := Weight h;
                                 LastUpdateTime := LastUpdateTime h |} p, Ok tt)
      | Err e => (p, Err e)
      | Panic => (p, Panic)
      end
  | None => (p, Panic)
  end.

(** The connections are [QueryerContext]s here: [None] is the error of the query. *)
Definition FillAliases `{MapRange} (conn : C) (hostInfo : option loc) : Eff Svc unit := fun p =>
  match hostInfo with
  | None => (p, Ok tt)
  | Some l =>
      if IsNil (host_at p l) then (p, Ok tt)
      else if Nat.ltb 0 (size (default ∅ (host_at p l ≫= Aliases))) then (p, Ok tt)
      else (try! _ := add_alias l (key_at p l) in
            try! _ := each (add_row l) (default [] (d ← service_dialect p; QueryContext conn (GetHostAliasQuery d))) in
            let! r := with_provider (fun h => hlp_IdentifyConnection h conn) in
            match r with
            | Ok (Some host) => fun p =>
                if IsNil (host_at p host) then (p, Ok tt)
                else each (assign_alias l) (range 51 (default ∅ (host_at p host ≫= AllAliases))).*1 p
            | Panic => lift_result Panic
            | _ => eff_ok tt
            end)%eff p
  end.

(** ** Statements of the session *)

Record StatementSettings := mkSettings {
  st_autoCommit : bool * bool; st_readOnly : bool * bool; st_schema : string * bool; st_catalog : string * bool;
  st_transactionIsolation : TransactionIsolationLevel * bool }.
Definition no_settings : StatementSettings :=
  mkSettings (false, false) (false, false) ("", false) ("", false) (TRANSACTION_READ_UNCOMMITTED, false).
Definition sets_something (s : StatementSettings) : bool :=
  (st_autoCommit s).2 || (st_readOnly s).2 || (st_schema s).2 || (st_catalog s).2 || (st_transactionIsolation s).2.

Definition settings_of (dialect : SessionDialect) (statement : string) : Result StatementSettings :=
  (try schema := DoesStatementSetSchema dialect statement in
   Ok (mkSettings (DoesStatementSetAutoCommit dialect statement) (DoesStatementSetReadOnly dialect statement) schema
         (DoesStatementSetCatalog dialect statement) (DoesStatementSetTransactionIsolation dialect statement)))%go.

(** The loop from the last statement, until one sets anything. *)
Fixpoint settings_loop (dialect : SessionDialect) (statements : list string) (found : StatementSettings) :
  Result StatementSettings :=
  if sets_something found then Ok found
  else match statements with
       | [] => Ok found
       | statement :: rest => (try found := settings_of dialect statement in settings_loop dialect rest found)%go
       end.

Definition setIfOk (f : SessionStateServiceImpl -> SessionStateServiceImpl) (ok : bool) (s : SessionStateServiceImpl) :
  SessionStateServiceImpl := if ok then f s else s.
Definition apply_settings (found : StatementSettings) (s : SessionStateServiceImpl) : SessionStateServiceImpl :=
  let s := setIfOk (fun s => SetAutoCommit props (st_autoCommit found).1 (SetupPristineAutoCommit props s)) (st_autoCommit found).2 s in
  let s := setIfOk (fun s => SetReadOnly props (st_readOnly found).1 (SetupPristineReadOnly props s)) (st_readOnly found).2 s in
  let s := setIfOk (fun s => SetSchema props (st_schema found).1 (SetupPristineSchema props s)) (st_schema found).2 s in
  let s := setIfOk (fun s => SetCatalog props (st_catalog found).1 (SetupPristineCatalog props s)) (st_catalog found).2 s in
  setIfOk (fun s => SetTransactionIsolation props (st_transactionIsolation found).1 (SetupPristineTransactionIsolation props s))
    (st_transactionIsolation found).2 s.

Definition UpdateState (sql : string) (methodArgs : MethodArgs) : Eff Svc unit := fun p =>
  let statements := GetSeparateSqlStatements (GetQueryFromSqlOrMethodArgs sql methodArgs) in
  match settings_loop (dialect_of p) (reverse statements) no_settings with
  | Ok found => (p <| sessionStateService := apply_settings found (sessionStateService p) |>, Ok tt)
  | Err e => (p, Err e)
  | Panic => (p, Panic)
  end.

(** ** The rest of the service *)

Definition UpdateDialect (clk1 clk2 : PutClock) (clk : HostClock) (conn : C) : Eff Svc unit := fun p =>
  let originalDialect := service_dialect p in
  let '(m, r) := GetDialectForUpdate clk1 clk2 conn originalDsn (GetHost (deref p (initialHostInfo p))) (dialectManager p) in
  let p := p <| dialectManager := m |> in
  match r with
  | Err e => (p, Err e)
  | Panic => (p, Panic)
  | Ok d =>
      let p := p <| service_dialect := d |> <| isDialectConfirmed := true |> in
      if bool_decide (originalDialect = d) then (p, Ok tt)
      else match d with
           | None => (p, Panic)
           | Some d =>
               (let! hlp := supplier d in
                match hlp with
                | Err _ => eff_ok tt
                | Panic => lift_result Panic
                | Ok n => let! _ := modify (fun p => p <| hostListProvider := Some n |>) in
                          let! r := RefreshHostList clk in
                          match r with Panic => lift_result Panic | _ => eff_ok tt end
                end)%eff p
           end
  end.

Definition service_ReleaseResources : St Svc unit :=
  (let! current := gets currentConnection in
   let! _ := match current with
             | Some conn => let! _ := emit (Closed conn) in modify (fun p => p <| currentConnection := None |>)
             | None => st_ret tt
             end in
   let! hlp := gets hostListProvider in
   default (st_ret tt) (n ← hlp; hlp_ReleaseResources (providers n)))%eff.

Definition ResetSession : St Svc unit := modify (fun p => p <| sessionStateService := Reset (sessionStateService p) |>).
Definition SetInTransaction (b : bool) : St Svc unit := modify (fun p => p <| inTransaction := b |>).
Definition SetCurrentTx (tx : option nat) : St Svc unit := modify (fun p => p <| currentTx := tx |>).
Definition SetInitialConnectionHostInfo (h : option loc) : St Svc unit := modify (fun p => p <| initialHostInfo := h |>).
Definition SetHostListProvider (n : option nat) : St Svc unit := modify (fun p => p <| hostListProvider := n |>).

Definition service_Connect (hostInfo : loc) (props : properties) (pluginToSkip : option Plugin) : Eff Svc C := fun p =>
  PluginManager.Connect plugins hostInfo props (bool_decide (currentConnection p = None)) pluginToSkip p.
Definition service_ForceConnect (hostInfo : loc) (props : properties) : Eff Svc C := fun p =>
  PluginManager.ForceConnect plugins hostInfo props (bool_decide (currentConnection p = None)) p.

(** ** Which hosts may be used *)

Definition permitted (perm : AllowedAndBlockedHosts) (h : HostInfo) : Prop :=
  (allowedHostIds perm <> ∅ -> allowedHostIds perm !! HostId h = Some true) /\
  (blockedHostIds perm <> ∅ -> blockedHostIds perm !! HostId h <> Some true).

Lemma size_cases {A} (m : gmap string A) :
  (Nat.ltb 0 (size m) = true /\ m <> ∅) \/ (Nat.ltb 0 (size m) = false /\ m = ∅).
Proof.
  destruct (decide (m = ∅)) as [->|Hne]; [right; by rewrite map_size_empty|left].
  split; [|done]. apply Nat.ltb_lt. destruct (decide (size m = 0%nat)) as [E|]; [by apply map_size_empty_iff in E|lia].
Qed.

(** GetHosts returns every host of the list when no hosts are
    registered as allowed or blocked for the initial host, and otherwise
    exactly the hosts of the list that are allowed, if any are named as
    allowed, and not blocked. *)
Theorem GetHosts_permitted p :
  (AllowedAndBlocked_Get p (GetUrl (deref p (initialHostInfo p))) = None -> GetHosts p = AllHosts p) /\
  (forall perm, AllowedAndBlocked_Get p (GetUrl (deref p (initialHostInfo p))) = Some perm ->
     forall l h, host_at p l = Some h -> (l ∈ GetHosts p <-> l ∈ AllHosts p /\ permitted perm h)).
Proof.
  clear providers originalDsn. unfold GetHosts. split; [by intros ->|]. intros perm -> l h Hl. unfold permitted.
  destruct (size_cases (blockedHostIds perm)) as [[-> Hb]|[-> Hb]]; destruct (size_cases (allowedHostIds perm)) as [[-> Ha]|[-> Ha]];
    rewrite ?elem_of_FilterSlice, ?negb_true_iff, ?bool_decide_eq_true, ?bool_decide_eq_false, ?Hl; cbn [from_option]; tauto.
Qed.

(** ** Availability *)

Lemma key_with_availability av h : GetHostAndPort (Some (with_availability av h)) = GetHostAndPort (Some h).
Proof. done. Qed.

(** One turn changes the availability of its host, if that. *)
Lemma set_availability_turn clk aliases av p ch i l :
  let '(p', ch') := set_availability_at clk aliases av (p, ch) (i, l) in
  AllHosts p' = AllHosts p /\
  (forall l', host_at p' l' =
     if bool_decide (l' = l) && has_alias aliases p l then with_availability av <$> host_at p l' else host_at p l') /\
  ch' = match host_at p l with
        | Some h => if has_alias aliases p l && bool_decide (Availability h <> av)
                    then <[key_at p l := availability_changes av]> ch else ch
        | None => ch
        end.
Proof.
  unfold set_availability_at. destruct (has_alias aliases p l) eqn:Ea.
  2: { split; [done|]. split; [|by destruct (host_at p l)]. intros l'. by rewrite andb_false_r. }
  set (q := p <| hostAvailabilityExpiringCache := _ |>).
  assert (Hq : forall l', host_at q l' = host_at p l') by done. assert (HA : AllHosts q = AllHosts p) by done. clearbody q.
  assert (Hset : forall h l', host_at (set_host l h q) l' = if bool_decide (l' = l) then Some h else host_at p l').
  { intros h l'. unfold set_host, host_at. cbn [update_field heap].
    destruct (bool_decide_reflect (l' = l)) as [->|]; [apply lookup_insert_eq|]. rewrite lookup_insert_ne by done. apply Hq. }
  unfold key_at. rewrite Hq. destruct (host_at p l) as [h|] eqn:Eh; cbn [andb].
  - destruct (bool_decide_reflect (Availability h <> av)) as [Hne|Heq].
    + split; [done|]. split; [|done]. intros l'. rewrite Hset. rewrite andb_true_r.
      destruct (bool_decide_reflect (l' = l)) as [->|]; [by rewrite Eh|done].
    + split; [done|]. split; [|done]. intros l'. rewrite Hq, andb_true_r.
      destruct (bool_decide_reflect (l' = l)) as [->|]; [|done]. rewrite Eh. cbn. f_equal.
      unfold with_availability. apply dec_stable in Heq. subst av. by destruct h.
  - split; [done|]. split; [|done]. intros l'. rewrite Hq, andb_true_r.
    destruct (bool_decide_reflect (l' = l)) as [->|]; [by rewrite Eh|done].
Qed.

(** Hosts that differ in availability only have one key and one set of aliases. *)
Lemma same_keys p p' aliases l :
  with_availability "" <$> host_at p' l = with_availability "" <$> host_at p l ->
  key_at p' l = key_at p l /\ has_alias aliases p' l = has_alias aliases p l.
Proof.
  intros Hs. unfold has_alias, key_at.
  destruct (host_at p l) as [h|], (host_at p' l) as [h'|]; try done. destruct h, h'. cbn in Hs. by simplify_eq.
Qed.

Lemma with_availability_twice a b h : with_availability a (with_availability b h) = with_availability a h.
Proof. done. Qed.

Lemma imap_pair_snd {A} (l : list A) : (imap pair l).*2 = l.
Proof. rewrite fmap_imap. apply list_eq. intros i. rewrite list_lookup_imap. by destruct (l !! i). Qed.

Definition changed_by (aliases : gmap string bool) (av : string) (p : Svc) (hosts : list loc) (k : string) : Prop :=
  exists l h, l ∈ hosts /\ host_at p l = Some h /\ has_alias aliases p l = true /\ key_at p l = k /\ Availability h <> av.

Lemma availability_turns clk aliases av es : forall p ch,
  (forall k c, ch !! k = Some c -> c = availability_changes av) ->
  let '(p', ch') := foldl (set_availability_at clk aliases av) (p, ch) es in
  AllHosts p' = AllHosts p /\
  (forall l, host_at p' l =
     if bool_decide (l ∈ es.*2) && has_alias aliases p l then with_availability av <$> host_at p l else host_at p l) /\
  (forall k c, ch' !! k = Some c <-> ch !! k = Some c \/ c = availability_changes av /\ changed_by aliases av p es.*2 k).
Proof.
  clear providers AllowedAndBlocked_Get.
  induction es as [|[i l0] es IH]; intros p ch Hch.
  { split; [done|]. split; [done|]. intros k c. split; [by left|]. intros [?|[_ (l & h & Hl & _)]]; [done|]. by apply elem_of_nil in Hl. }
  cbn [foldl]. pose proof (set_availability_turn clk aliases av p ch i l0) as Ht.
  destruct (set_availability_at clk aliases av (p, ch) (i, l0)) as [p1 ch1]. destruct Ht as (HA & Hh & Hc1).
  assert (Hsame : forall l, key_at p1 l = key_at p l /\ has_alias aliases p1 l = has_alias aliases p l).
  { intros l. apply same_keys. rewrite Hh. destruct (_ && _); [|done]. by destruct (host_at p l). }
  assert (Hch1 : forall k c, ch1 !! k = Some c -> c = availability_changes av).
  { intros k c. subst ch1. destruct (host_at p l0) as [h|]; [|apply Hch]. destruct (_ && _); [|apply Hch].
    rewrite lookup_insert_Some. intros [[_ <-]|[_ Hc]]; [done|by eapply Hch]. }
  specialize (IH p1 ch1 Hch1). destruct (foldl _ (p1, ch1) es) as [p' ch']. destruct IH as (IA & IHh & IHc).
  split; [congruence|]. split.
  - intros l. rewrite IHh, Hh, (proj2 (Hsame l)). change ((i, l0) :: es).*2 with (l0 :: es.*2).
    destruct (decide (l = l0)) as [->|Hne].
    + rewrite (bool_decide_true (l0 = l0)) by done. rewrite (bool_decide_true (l0 ∈ l0 :: es.*2)) by left. cbn [andb].
      destruct (has_alias aliases p l0), (bool_decide (l0 ∈ es.*2)); destruct (host_at p l0); reflexivity.
    + rewrite (bool_decide_false (l = l0)) by done. cbn [andb].
      by rewrite (bool_decide_ext (l ∈ es.*2) (l ∈ l0 :: es.*2)) by set_solver.
  - intros k c. rewrite IHc. change ((i, l0) :: es).*2 with (l0 :: es.*2). split.
    + intros [Hc|[-> (l & h & Hl & Eh & Ha & Hk & Hav)]].
      * subst ch1. destruct (host_at p l0) as [h|] eqn:E0; [|by left].
        destruct (has_alias aliases p l0 && bool_decide (Availability h <> av)) eqn:E; [|by left].
        to_prop. apply lookup_insert_Some in Hc as [[<- <-]|[_ Hc]]; [right|by left].
        split; [done|]. exists l0, h. repeat split; [left|done..].
      * right. split; [done|]. rewrite (proj1 (Hsame l)) in Hk. rewrite (proj2 (Hsame l)) in Ha. rewrite Hh in Eh.
        destruct (bool_decide (l = l0) && has_alias aliases p l0).
        { destruct (host_at p l) as [h'|]; [|done]. cbn in Eh. injection Eh as <-. by destruct Hav. }
        exists l, h. repeat split; [by right|done..].
    + intros [Hc|[-> (l & h & Hl & Eh & Ha & Hk & Hav)]].
      * left. pose proof (Hch _ _ Hc) as ->. subst ch1. destruct (host_at p l0) as [h|]; [|done].
        destruct (_ && _); [|done]. rewrite lookup_insert_Some. destruct (decide (key_at p l0 = k)) as [->|]; [by left|by right].
      * destruct (decide (l = l0)) as [->|Hne].
        -- left. subst ch1. rewrite Eh, Ha, bool_decide_true by done. cbn [andb]. rewrite Hk. apply lookup_insert_eq.
        -- right. split; [done|]. apply elem_of_cons in Hl as [->|Hl]; [done|]. exists l, h.
           rewrite Hh, bool_decide_false by done. cbn [andb].
           by rewrite (proj1 (Hsame l)), (proj2 (Hsame l)).
Qed.

(** SetAvailability sets the availability of exactly the hosts of the
    list with one of the aliases, leaves every other host as it is, and
    tells the plugins of exactly those whose availability changed, if any
    did. *)
Theorem SetAvailability_of_aliases clk aliases av p :
  let '(p', changes) := availability_loop clk aliases av p in
  AllHosts p' = AllHosts p /\
  (forall l, host_at p' l =
     if bool_decide (l ∈ AllHosts p) && has_alias aliases p l then with_availability av <$> host_at p l else host_at p l) /\
  (forall k, changes !! k = Some (availability_changes av) <-> changed_by aliases av p (AllHosts p) k) /\
  (aliases <> ∅ ->
   SetAvailability clk aliases av p = if bool_decide (changes = ∅) then (p', tt) else NotifyHostListChanged plugins changes p').
Proof.
  pose proof (availability_turns clk aliases av (imap pair (AllHosts p)) p ∅) as Ht.
  unfold SetAvailability. fold (availability_loop clk aliases av p) in Ht.
  assert (E : (imap pair (AllHosts p)).*2 = AllHosts p) by apply imap_pair_snd. rewrite E in Ht.
  destruct (availability_loop clk aliases av p) as [p' ch]. destruct Ht as (HA & Hh & Hc); [by intros k c|].
  split; [done|]. split; [done|]. split.
  - intros k. rewrite Hc. rewrite lookup_empty. split; [by intros [?|[_ ?]]|by right].
  - intros Hne. destruct (Nat.eqb_spec (size aliases) 0) as [E0|_]; [by apply map_size_empty_iff in E0|].
    destruct (size_cases ch) as [[-> Hch]|[-> ->]]; [by rewrite bool_decide_false|done].
Qed.

(** ** Switching connections *)

(** A plugin whose notification changes the plugins only. *)
Definition quiet (q : Plugin) : Prop :=
  forall changes s, exists st, (plugin_NotifyConnectionChanged q changes s).1 = s <| p_plugins := st |>.

Lemma notify_quiet changes skip s :
  Forall quiet plugins -> exists st, (NotifyConnectionChanged plugins changes skip s).1 = s <| p_plugins := st |>.
Proof.
  intros Hq. unfold NotifyConnectionChanged, NotifySubscribedPlugins. rewrite notify_loop_each.
  assert (Hf : Forall quiet (List.filter (fun p => negb (is_plugin skip p) && is_subscribed NOTIFY_CONNECTION_CHANGED_METHOD p) plugins)).
  { induction Hq as [|q qs Hq1 Hqs IH]; cbn [List.filter]; [constructor|]. destruct (_ && _); [by constructor|done]. }
  revert Hf. generalize (List.filter (fun p : Plugin => negb (is_plugin skip p) && is_subscribed NOTIFY_CONNECTION_CHANGED_METHOD p) plugins).
  intros qs. generalize (∅ : gset OldConnectionSuggestedAction). revert s.
  induction qs as [|q qs IH]; intros s acc Hf; [by exists (p_plugins s); destruct s|].
  apply Forall_cons in Hf as [Hq1 Hf]. cbn [each]. rewrite eff_bind_eq. unfold collect_opinion at 1.
  destruct (Hq1 changes s) as [st Hst]. destruct (plugin_NotifyConnectionChanged q changes s) as [s' a]. cbn [fst] in Hst. subst s'.
  destruct (IH (s <| p_plugins := st |>) ({[a]} ∪ acc) Hf) as [st' ->]. by exists st'.
Qed.

Lemma SetCurrentConnection_rejects conn hostInfo skip p :
  conn = None \/ IsNil (deref p hostInfo) = true ->
  exists e, SetCurrentConnection conn hostInfo skip p = (p, Err e).
Proof.
  intros Hc. unfold SetCurrentConnection. destruct conn as [conn|]; [|by eexists]. destruct Hc as [?|Hn]; [done|].
  destruct hostInfo as [l|]; [|by eexists]. cbn in Hn. unfold host_at. rewrite Hn. by eexists.
Qed.

Lemma compare_same conn h : compare conn h conn h = ∅.
Proof.
  unfold compare, compareHostInfos. rewrite !(bool_decide_false (_ <> _)) by (intros E; by apply E).
  rewrite Z.eqb_refl. cbn [negb orb]. rewrite !(left_id_L ∅ (∪)). by rewrite bool_decide_true.
Qed.

Lemma connection_changed connA hA connB hB :
  CONNECTION_OBJECT_CHANGED ∈ compare connA hA connB hB <-> connB <> connA.
Proof.
  assert (Hn : CONNECTION_OBJECT_CHANGED ∉ compareHostInfos hA hB).
  { unfold compareHostInfos. repeat case_bool_decide; cbn [negb orb]; repeat case_match; apply (bool_decide_unpack _); by vm_compute. }
  unfold compare. case_bool_decide as E; [|split; [done|by intros []]]. split; [done|]. intros _. apply elem_of_union_l. set_solver.
Qed.

(** The state after the new connection is in place. *)
Definition switched (conn : C) (l : loc) (w : World C) (inTx : bool) (p : Svc) : Svc :=
  p <| currentConnection := Some conn |> <| currentHostInfo := Some l |> <| sessionStateService := w.1 |> <| events := w.2 |>
    <| inTransaction := inTx |>.

Lemma change_connection_fails conn l changes old skip p w e :
  transferStateEnabledSetting props = true -> copySessionState (sessionStateService p) = None ->
  ApplyCurrentSessionState props funcs (dialect_of p) conn ((Begin props (sessionStateService p)).1, events p) = (w, Err e) ->
  change_connection conn l changes old skip p =
  (switched conn l (Complete w.1, w.2) (inTransaction p) p, Err e).
Proof.
  intros Ht Hc Ha. destruct (Begin props (sessionStateService p)) as [sv rb] eqn:Eb.
  assert (rb = Ok tt) as -> by (unfold Begin in Eb; rewrite Ht, Hc in Eb; by injection Eb).
  unfold change_connection, st_bind. rewrite eff_bind_eq, Eb. cbn [fst] in Ha.
  unfold switch_connection, st_bind, gets, modify. rewrite eff_bind_eq. unfold on_session, zoom.
  change (ApplyCurrentSessionState props funcs (dialect_of _) conn _) with
    (ApplyCurrentSessionState props funcs (dialect_of p) conn (sv, events p)).
  by rewrite Ha.
Qed.

(** The events of a rollback. *)
Definition rollback_events (old : C) (tx : option nat) (log : Log C) : Log C :=
  match tx with Some t => log ++ [RolledBack t] | None => (ExecQueryDirectly old "rollback" log).1 end.

Lemma Rollback_events old tx p : Rollback old tx p = (p <| events := rollback_events old tx (events p) |>, tt).
Proof.
  unfold Rollback, rollback_events. destruct tx as [t|]; [done|]. unfold st_bind, zoom.
  by destruct (ExecQueryDirectly old "rollback" (events p)) as [log r].
Qed.


Definition closes (conn old : C) (opinions : gset OldConnectionSuggestedAction) (log : Log C) : bool :=
  bool_decide (conn <> old) && negb (IsClosed log old) && negb (bool_decide (PRESERVE ∈ opinions)).
Definition rolled_back (old : C) (p : Svc) (log : Log C) : Log C :=
  if inTransaction p && GetVerifiedWrapperPropertyValue props ROLLBACK_ON_SWITCH
  then rollback_events old (currentTx p) log else log.

(** What keeps the current connection, and the current host if there is one. *)
Definition keeps_current (p p' : Svc) : Prop :=
  currentConnection p' = currentConnection p /\
  (forall l h, currentHostInfo p = Some l -> host_at p l = Some h -> IsNil (Some h) = false ->
     currentHostInfo p' = Some l /\ host_at p' l = Some h).
#[export] Instance keeps_current_refl : Reflexive keeps_current.
Proof. by intros p. Qed.
#[export] Instance keeps_current_trans : Transitive keeps_current.
Proof.
  intros p1 p2 p3 [Hc1 Hh1] [Hc2 Hh2]. split; [congruence|]. intros l h Hl Hh Hn.
  destruct (Hh1 l h Hl Hh Hn) as [Hl2 Hh2']. by apply Hh2.
Qed.

(** A plugin that does not switch the connection when it is told of a switch. *)
Definition calm (q : Plugin) : Prop := forall changes, keeps keeps_current (plugin_NotifyConnectionChanged q changes).

Lemma quiet_calm q : quiet q -> calm q.
Proof. intros Hq changes s. by destruct (Hq changes s) as [st ->]. Qed.

Lemma notify_calm changes skip : Forall calm plugins -> keeps keeps_current (NotifyConnectionChanged plugins changes skip).
Proof.
  intros Hq s. unfold NotifyConnectionChanged, NotifySubscribedPlugins. rewrite notify_loop_each.
  assert (Hf : Forall calm (List.filter (fun p => negb (is_plugin skip p) && is_subscribed NOTIFY_CONNECTION_CHANGED_METHOD p) plugins)).
  { induction Hq as [|q qs Hq1 Hqs IH]; cbn [List.filter]; [constructor|]. destruct (_ && _); [by constructor|done]. }
  revert Hf. generalize (List.filter (fun p : Plugin => negb (is_plugin skip p) && is_subscribed NOTIFY_CONNECTION_CHANGED_METHOD p) plugins).
  intros qs. generalize (∅ : gset OldConnectionSuggestedAction). revert s.
  induction qs as [|q qs IH]; intros s acc Hf; [reflexivity|].
  apply Forall_cons in Hf as [Hq1 Hf]. cbn [each]. rewrite eff_bind_eq. unfold collect_opinion at 1.
  pose proof (Hq1 changes s) as H12. destruct (plugin_NotifyConnectionChanged q changes s) as [s' a]. cbn [fst] in H12.
  etransitivity; [exact H12|]. apply IH. exact Hf.
Qed.

(** Closing the old connection: its session is put back to what it was. *)
Definition closed_old (old : C) (q : Svc) : Svc :=
  let w := (ApplyPristineSessionState props funcs (dialect_of q) old (sessionStateService q, events q)).1 in
  q <| sessionStateService := w.1 |> <| events := w.2 ++ [Closed old] |>.

Lemma settle_old_spec old inTx changes skip p :
  let q := p <| events := if inTx && GetVerifiedWrapperPropertyValue props ROLLBACK_ON_SWITCH
                          then rollback_events old (currentTx p) (events p) else events p |> in
  let '(q', opinions) := NotifyConnectionChanged plugins changes skip q in
  settle_old_connection old inTx changes skip p =
    (if bool_decide (CONNECTION_OBJECT_CHANGED ∈ changes) && negb (IsClosed (events q') old) && negb (bool_decide (PRESERVE ∈ opinions))
     then closed_old old q' else q', tt).
Proof.
  intros q. assert (E : settle_old_connection old inTx changes skip p = close_old old changes skip q).
  { unfold settle_old_connection, close_old. unfold st_bind at 1. subst q.
    destruct (inTx && _); [by rewrite Rollback_events|]. unfold st_ret at 1. by destruct p. }
  rewrite E. clear E. unfold close_old, st_bind at 1. destruct (NotifyConnectionChanged plugins changes skip q) as [q' opinions].
  unfold st_bind, gets. destruct (_ && _ && _); [|by unfold st_ret]. unfold closed_old, on_session, zoom, emit, modify.
  by destruct (ApplyPristineSessionState props funcs (dialect_of q') old (sessionStateService q', events q')) as [[sv log] r].
Qed.

(** C5. When the current connection changes to another connection or host,
    session transfer is on, no other transfer is under way and the replay of
    the session on the new connection succeeds, SetCurrentConnection has put
    the new connection and host in place with the replayed session, has
    rolled the old connection back when it was in a transaction and
    rollbackOnSwitch is set, and has cleared the transaction flag, when it
    tells the plugins of the change once, whatever they do; after that it
    closes the old connection, putting its session back first, exactly when
    it is another one, still open, and no plugin asked to preserve it. As
    long as no plugin switches the connection itself, the new connection and
    host are the current ones at the end. *)
Theorem SetCurrentConnection_switches conn l skip p old oldHost newHost w :
  transferStateEnabledSetting props = true -> copySessionState (sessionStateService p) = None ->
  currentConnection p = Some old -> deref p (currentHostInfo p) = Some oldHost -> host_at p l = Some newHost ->
  IsNil (Some newHost) = false -> compare old oldHost conn newHost <> ∅ ->
  ApplyCurrentSessionState props funcs (dialect_of p) conn ((Begin props (sessionStateService p)).1, events p) = (w, Ok tt) ->
  let told := switched conn l (w.1, rolled_back old p w.2) false p in
  let '(q, opinions) := NotifyConnectionChanged plugins (compare old oldHost conn newHost) skip told in
  let p' := (complete (if closes conn old opinions (events q) then closed_old old q else q)).1 in
  SetCurrentConnection (Some conn) (Some l) skip p = (p', Ok tt) /\
  (Forall calm plugins -> currentConnection p' = Some conn /\ currentHostInfo p' = Some l).
Proof.
  intros Ht Hc Hcur Hold Hnew Hnil Hch Ha told.
  destruct (NotifyConnectionChanged _ _ _ told) as [q opinions] eqn:En. intros p'. split.
  - unfold SetCurrentConnection. rewrite Hnew, Hnil, Hcur, Hold.
    assert (Hpos : Nat.ltb 0 (size (compare old oldHost conn newHost)) = true).
    { apply Nat.ltb_lt. destruct (decide (size (compare old oldHost conn newHost) = 0%nat)) as [E|]; [|lia].
      by apply size_empty_iff in E; apply leibniz_equiv in E. }
    rewrite Hpos. destruct (Begin props (sessionStateService p)) as [sv rb] eqn:Eb. cbn [fst] in Ha.
    assert (rb = Ok tt) as -> by (unfold Begin in Eb; rewrite Ht, Hc in Eb; by injection Eb).
    unfold change_connection. unfold st_bind at 1. rewrite eff_bind_eq, Eb.
    unfold switch_connection, st_bind, gets, modify. rewrite eff_bind_eq. unfold on_session, zoom.
    change (ApplyCurrentSessionState props funcs (dialect_of _) conn _) with
      (ApplyCurrentSessionState props funcs (dialect_of p) conn (sv, events p)).
    rewrite Ha. unfold run.
    pose proof (settle_old_spec old (inTransaction p) (compare old oldHost conn newHost) skip (switched conn l w false p)) as Hst.
    change (settle_old_connection old _ (compare old oldHost conn newHost) skip _) with
      (settle_old_connection old (inTransaction p) (compare old oldHost conn newHost) skip (switched conn l w false p)).
    cbv zeta in Hst. match type of Hst with context [NotifyConnectionChanged _ _ _ ?s] => change s with told in Hst end.
    rewrite En in Hst. rewrite Hst. subst p'. unfold closes.
    rewrite (bool_decide_ext (conn <> old) (CONNECTION_OBJECT_CHANGED ∈ compare old oldHost conn newHost))
      by (by rewrite connection_changed).
    reflexivity.
  - intros Hcalm. assert (Hk : keeps_current told q).
    { pose proof (notify_calm (compare old oldHost conn newHost) skip Hcalm told) as Hk. by rewrite En in Hk. }
    destruct Hk as [Hk1 Hk2]. destruct (Hk2 l newHost) as [Hk3 _]; [done..|].
    assert (Hq : currentConnection q = Some conn /\ currentHostInfo q = Some l) by done.
    subst p'. cbn. by destruct (closes _ _ _ _).
Qed.

Lemma SetCurrentConnection_fails conn l skip p old oldHost newHost w e :
  transferStateEnabledSetting props = true -> copySessionState (sessionStateService p) = None ->
  currentConnection p = Some old -> deref p (currentHostInfo p) = Some oldHost -> host_at p l = Some newHost ->
  IsNil (Some newHost) = false -> compare old oldHost conn newHost <> ∅ ->
  ApplyCurrentSessionState props funcs (dialect_of p) conn ((Begin props (sessionStateService p)).1, events p) = (w, Err e) ->
  SetCurrentConnection (Some conn) (Some l) skip p = (switched conn l (Complete w.1, w.2) (inTransaction p) p, Err e).
Proof.
  intros Ht Hc Hcur Hold Hnew Hnil Hch Ha. unfold SetCurrentConnection. rewrite Hnew, Hnil, Hcur, Hold.
  assert (Hpos : Nat.ltb 0 (size (compare old oldHost conn newHost)) = true).
  { apply Nat.ltb_lt. destruct (decide (size (compare old oldHost conn newHost) = 0%nat)) as [E|]; [|lia].
    by apply size_empty_iff in E; apply leibniz_equiv in E. }
  rewrite Hpos. by apply change_connection_fails.
Qed.

Lemma close_old_connection old changes skip : Forall calm plugins -> keeps keeps_current (close_old old changes skip).
Proof.
  intros Hq. unfold close_old. apply keeps_st_bind; [apply _|by apply notify_calm|].
  intros opinions. apply keeps_st_bind; [apply _|apply keeps_gets; apply _|]. intros closed.
  destruct (_ && _); [|apply keeps_ret; apply _]. apply keeps_st_bind; [apply _| |intros _; by intros p].
  intros p. unfold on_session, zoom. by destruct (ApplyPristineSessionState _ _ _ _ _).
Qed.

Lemma compare_nothing a ha b hb : compare a ha b hb = ∅ -> b = a /\ (Role hb = WRITER -> Role ha = WRITER).
Proof.
  intros E. split.
  - destruct (decide (b = a)) as [|Hne]; [done|]. apply (connection_changed a ha b hb) in Hne. rewrite E in Hne.
    by apply not_elem_of_empty in Hne.
  - intros Hw. destruct (decide (Role ha = WRITER)) as [|Hne]; [done|]. exfalso.
    assert (Hin : PROMOTED_TO_WRITER ∈ compare a ha b hb); [|rewrite E in Hin; by apply not_elem_of_empty in Hin].
    assert (Hc : PROMOTED_TO_WRITER ∈ compareHostInfos ha hb).
    { unfold compareHostInfos. rewrite (bool_decide_true (Role ha <> Role hb)) by congruence. rewrite (bool_decide_true (Role hb = WRITER)) by done.
      case_bool_decide as Hemp; [|set_solver]. exfalso.
      assert (Hin : PROMOTED_TO_WRITER ∈ (∅ : gset HostChangeOptions)) by (rewrite <-Hemp; set_solver). by apply not_elem_of_empty in Hin. }
    unfold compare. case_bool_decide; set_solver.
Qed.

(** A switch that succeeds has the connection in use, on a host of the role. *)
Lemma SetCurrentConnection_current conn l skip p p' h :
  Forall calm plugins -> host_at p l = Some h -> SetCurrentConnection (Some conn) (Some l) skip p = (p', Ok tt) ->
  currentConnection p' = Some conn /\
  exists l' h', currentHostInfo p' = Some l' /\ host_at p' l' = Some h' /\ (Role h = WRITER -> Role h' = WRITER).
Proof.
  intros Hq Hh. unfold SetCurrentConnection. destruct (IsNil (host_at p l)) eqn:Enil; [done|]. rewrite Hh in Enil.
  assert (Hdone : forall p1, keeps_current p1 p' -> currentConnection p1 = Some conn -> currentHostInfo p1 = Some l ->
    host_at p1 l = Some h -> currentConnection p' = Some conn /\
    exists l' h', currentHostInfo p' = Some l' /\ host_at p' l' = Some h' /\ (Role h = WRITER -> Role h' = WRITER)).
  { intros p1 [Hc1 Hh1] Hc Hl Hh'. destruct (Hh1 l h Hl Hh' Enil) as [Hl' Hhl]. split; [congruence|]. by exists l, h. }
  destruct (currentConnection p) as [old|] eqn:Ec.
  - destruct (deref p (currentHostInfo p)) as [h1|] eqn:Eold; [|done]. rewrite Hh.
    destruct (Nat.ltb_spec 0 (size (compare old h1 conn h))) as [Hpos|Hzero].
    + unfold change_connection, st_bind at 1. rewrite eff_bind_eq. destruct (Begin props (sessionStateService p)) as [sv [u|e|]]; [|done..].
      unfold switch_connection, st_bind at 1, gets. unfold st_bind at 1, modify. rewrite eff_bind_eq. unfold on_session, zoom.
      destruct (ApplyCurrentSessionState _ _ _ _ _) as [w [u'|e|]]; [|done..].
      unfold st_bind at 1. unfold modify, run, settle_old_connection.
      match goal with |- context [st_bind ?c ?k ?q] => set (q0 := q) end.
      assert (Hk : keeps keeps_current (let! _ := if inTransaction p && GetVerifiedWrapperPropertyValue props ROLLBACK_ON_SWITCH
                   then fun p => Rollback old (currentTx p) p else st_ret tt in close_old old (compare old h1 conn h) skip)%eff).
      { apply keeps_st_bind; [apply _| |intros _; by apply close_old_connection]. intros q. destruct (_ && _); [|done].
        unfold Rollback. destruct (currentTx q); [done|]. unfold st_bind, zoom. by destruct (ExecQueryDirectly _ _ _). }
      specialize (Hk q0). change (inTransaction _) with (inTransaction p) in Hk |- *.
      destruct (st_bind _ _ q0) as [q1 []]. unfold st_bind, complete, modify, lift_result. cbn [fst] in Hk. intros [= Ep].
      apply (Hdone q0); [|done|done|exact Hh]. rewrite <-Ep. etransitivity; [exact Hk|]. by split.
    + intros [= <-]. assert (E : size (compare old h1 conn h) = 0%nat) by lia.
      apply size_empty_iff in E. apply leibniz_equiv in E. apply compare_nothing in E as [-> Hrole].
      split; [done|]. destruct (currentHostInfo p) as [l1|]; [|done]. exists l1, h1. done.
  - unfold st_bind, modify. set (q := match initialHostInfo _ with Some _ => _ | None => _ end).
    pose proof (notify_calm {[INITIAL_CONNECTION]} skip Hq q) as Hk. destruct (NotifyConnectionChanged _ _ _ q) as [q1 o].
    unfold eff_ok. intros [= <-]. cbn [fst] in Hk. apply (Hdone q); [exact Hk|..]; subst q; by destruct (initialHostInfo _).
Qed.

(** Its errors are those of the service and of the transfer. *)
Lemma SetCurrentConnection_error (Q : go_error -> Prop) conn l skip p p' e :
  (forall d c w w' e, ApplyCurrentSessionState props funcs d c w = (w', Err e) -> Q e) ->
  (forall e, IsType e GenericAwsWrapperErrorType = true -> Q e) ->
  SetCurrentConnection conn l skip p = (p', Err e) -> Q e.
Proof.
  intros Ha Hg. unfold SetCurrentConnection.
  destruct conn as [conn|]; [|intros [= _ <-]; by apply Hg]. destruct l as [l|]; [|intros [= _ <-]; by apply Hg].
  destruct (IsNil (host_at p l)); [intros [= _ <-]; by apply Hg|]. destruct (currentConnection p) as [old|].
  - destruct (deref p (currentHostInfo p)) as [h1|]; [|done]. destruct (host_at p l) as [h2|]; [|done].
    destruct (Nat.ltb 0 _); [|done].
    unfold change_connection, st_bind at 1. rewrite eff_bind_eq. destruct (Begin props (sessionStateService p)) as [sv [u|e0|]] eqn:Eb.
    + unfold switch_connection, st_bind at 1, gets. unfold st_bind at 1, modify. rewrite eff_bind_eq. unfold on_session, zoom.
      destruct (ApplyCurrentSessionState _ _ _ _ _) as [w [u'|e0|]] eqn:Ea.
      * unfold st_bind, modify, run, lift_result, complete. match goal with |- context [settle_old_connection ?a ?b ?c ?d ?q] => destruct (settle_old_connection a b c d q) end. done.
      * unfold st_bind, complete, modify, lift_result. intros [= _ <-]. by eapply Ha.
      * done.
    + unfold st_bind, complete, modify, lift_result. intros [= _ <-]. apply Hg. unfold Begin in Eb.
      destruct (_ && _); [done|]. by destruct (copySessionState _); simplify_eq.
    + done.
  - unfold st_bind, modify. match goal with |- context [NotifyConnectionChanged ?a ?b ?c ?q] => destruct (NotifyConnectionChanged a b c q) end. done.
Qed.

Lemma GetCurrentHostInfo_current p l h : currentHostInfo p = Some l -> host_at p l = Some h -> IsNil (Some h) = false ->
  GetCurrentHostInfo p = (p, Ok (Some l)).
Proof.
  intros Hl Hh Hn. unfold GetCurrentHostInfo. rewrite Hl. cbn [deref mbind option_bind]. unfold host_at in Hh. by rewrite Hh, Hn.
Qed.

(** The host it returns is the current one, and is none of nil. *)
Lemma GetCurrentHostInfo_ok p p' o : GetCurrentHostInfo p = (p', Ok o) ->
  o = currentHostInfo p' /\ exists l h, o = Some l /\ host_at p' l = Some h /\ IsNil (Some h) = false.
Proof.
  assert (Hnil : forall q, IsNil (deref q (currentHostInfo q)) = false ->
    exists l h, currentHostInfo q = Some l /\ host_at q l = Some h /\ IsNil (Some h) = false).
  { intros q Hq. destruct (currentHostInfo q) as [l|]; [|done]. cbn [deref mbind option_bind] in Hq.
    destruct (heap q !! l) as [h|] eqn:Eh; [|done]. by exists l, h. }
  assert (Hret : forall q q' o', return_current q = (q', Ok o') ->
    o' = currentHostInfo q' /\ exists l h, o' = Some l /\ host_at q' l = Some h /\ IsNil (Some h) = false).
  { intros q q' o'. unfold return_current. destruct (IsNil (deref q (currentHostInfo q))) eqn:E; [done|].
    intros [= <- <-]. split; [done|]. by apply Hnil. }
  unfold GetCurrentHostInfo. destruct (IsNil (deref p (currentHostInfo p))) eqn:E.
  - cbv zeta. repeat case_match; try done; by apply Hret.
  - intros [= <- <-]. split; [done|]. by apply Hnil.
Qed.

Lemma GetCurrentHostInfo_keeps_current : keeps keeps_current GetCurrentHostInfo.
Proof.
  intros p. split.
  - unfold GetCurrentHostInfo, return_current. by repeat case_match.
  - intros l h Hl Hh Hn. by rewrite (GetCurrentHostInfo_current p l h).
Qed.

Lemma GetCurrentHostInfo_keeps p p' r : GetCurrentHostInfo p = (p', r) ->
  currentConnection p' = currentConnection p /\ inTransaction p' = inTransaction p /\ p_plugins p' = p_plugins p /\
  (forall e, r = Err e -> IsType e GenericAwsWrapperErrorType = true).
Proof.
  unfold GetCurrentHostInfo, return_current. repeat case_match; intros [= <- <-]; (repeat split; intros e [= <-]; done).
Qed.

(** When the session cannot be replayed on the new connection,
    SetCurrentConnection returns the error with the new connection and host
    in place, the transaction flag unchanged, and the old connection neither
    rolled back nor closed, nor any plugin told. *)
Theorem failed_transfer_keeps_new_connection conn l skip p old oldHost newHost w e :
  transferStateEnabledSetting props = true -> copySessionState (sessionStateService p) = None ->
  currentConnection p = Some old -> deref p (currentHostInfo p) = Some oldHost -> host_at p l = Some newHost ->
  IsNil (Some newHost) = false -> compare old oldHost conn newHost <> ∅ ->
  ApplyCurrentSessionState props funcs (dialect_of p) conn ((Begin props (sessionStateService p)).1, events p) = (w, Err e) ->
  SetCurrentConnection (Some conn) (Some l) skip p = (switched conn l (Complete w.1, w.2) (inTransaction p) p, Err e).
Proof. apply SetCurrentConnection_fails. Qed.

(** ** Settings a statement changes *)

Definition sets_nothing (d : SessionDialect) (statement : string) : Prop :=
  exists f, settings_of d statement = Ok f /\ sets_something f = false.

Lemma apply_no_settings f s : sets_something f = false -> apply_settings f s = s.
Proof. unfold sets_something, apply_settings, setIfOk. rewrite !orb_false_iff. by intros [[[[-> ->] ->] ->] ->]. Qed.

Lemma settings_loop_nothing d statements : forall f,
  Forall (sets_nothing d) statements -> sets_something f = false ->
  exists f', settings_loop d statements f = Ok f' /\ sets_something f' = false.
Proof.
  induction statements as [|st rest IH]; intros f Hs Hf; cbn [settings_loop]; rewrite Hf; [by eexists|].
  apply Forall_cons in Hs as [(f' & Hf' & Hn) Hs]. rewrite Hf'. by apply IH.
Qed.

Lemma settings_loop_last d post stmt pre found : forall f,
  Forall (sets_nothing d) post -> settings_of d stmt = Ok found -> sets_something found = true -> sets_something f = false ->
  settings_loop d (post ++ stmt :: pre) f = Ok found.
Proof.
  induction post as [|s post IH]; intros f Hp Hs Hfound Hf; cbn [settings_loop app]; rewrite Hf.
  - rewrite Hs. cbn [mbind Result_bind]. by destruct pre as [|t pre]; cbn [settings_loop]; rewrite Hfound.
  - apply Forall_cons in Hp as [(f' & -> & Hn) Hp]. by apply IH.
Qed.

(** UpdateState records the settings of the last statement of the text
    that changes the session, and of no other; a text that changes nothing
    leaves the session state as it is. *)
Theorem UpdateState_last_setting sql args p :
  let statements := GetSeparateSqlStatements (GetQueryFromSqlOrMethodArgs sql args) in
  (Forall (sets_nothing (dialect_of p)) statements -> UpdateState sql args p = (p, Ok tt)) /\
  (forall pre stmt post found, statements = pre ++ stmt :: post -> Forall (sets_nothing (dialect_of p)) post ->
     settings_of (dialect_of p) stmt = Ok found -> sets_something found = true ->
     UpdateState sql args p = (p <| sessionStateService := apply_settings found (sessionStateService p) |>, Ok tt)).
Proof.
  intros statements. unfold UpdateState. fold statements. split.
  - intros Hs. destruct (settings_loop_nothing (dialect_of p) (reverse statements) no_settings) as (f & -> & Hf);
      [by apply Forall_reverse|done|]. rewrite apply_no_settings by done. by destruct p.
  - intros pre stmt post found -> Hp Hs Hf. rewrite reverse_app, reverse_cons, <-app_assoc. cbn [app].
    by rewrite (settings_loop_last _ _ _ _ found) by (try apply Forall_reverse; done).
Qed.

(** ** The current host *)

(** When GetCurrentHostInfo fails because the writer is not allowed,
    the writer stays the current host, and the next call returns it though
    it is not among the hosts that may be used. *)
Theorem rejected_host_returned_next p p' h :
  GetCurrentHostInfo p = (p', Err (currentHostNotAllowed h)) ->
  exists l, currentHostInfo p' = Some l /\ l ∉ GetHosts p' /\
    (IsNil (host_at p' l) = false -> GetCurrentHostInfo p' = (p', Ok (Some l))).
Proof.
  unfold GetCurrentHostInfo at 1. destruct (IsNil (deref p (currentHostInfo p))); [|done].
  set (p1 := p <| currentHostInfo := initialHostInfo p |>).
  destruct (IsNil (deref p1 (currentHostInfo p1))); [|unfold return_current; by destruct (IsNil _)].
  destruct (AllHosts p1) as [|first rest] eqn:EA; [done|].
  set (p2 := p1 <| currentHostInfo := GetWriter_at p1 (first :: rest) |>).
  destruct (bool_decide (is_Some (currentHostInfo p2)) && _) eqn:Eb; [|unfold return_current; by destruct (IsNil _)].
  intros [= <- _]. to_prop. destruct (currentHostInfo p2) as [l|] eqn:El; [|by destruct H2]. exists l. split; [done|].
  assert (Hw : exists h', host_at p2 l = Some h').
  { assert (Ew : GetWriter_at p1 (first :: rest) = Some l) by exact El. apply List.find_some in Ew as [_ Ew].
    change (host_at p2 l) with (host_at p1 l). destruct (host_at p1 l); [by eexists|done]. }
  destruct Hw as [h' Hh']. split.
  - intros Hin. cbn [deref mbind option_bind] in H3. unfold host_at in Hh'. rewrite Hh' in H3. cbn [IsHostInList] in H3.
    apply not_true_iff_false in H3. apply H3. apply existsb_exists. exists h'. split.
    + apply list_elem_of_In. unfold hosts_at. apply list_elem_of_omap. by exists l.
    + by apply Equals_spec.
  - intros Hnil. unfold GetCurrentHostInfo. rewrite El. cbn [deref mbind option_bind]. unfold host_at in Hnil. by rewrite Hnil.
Qed.

(** ** The host list *)

Lemma host_at_alloc h p l0 l' p' : alloc h p = (p', l') -> host_at p l0 <> None -> host_at p' l0 = host_at p l0.
Proof.
  unfold alloc, host_at. intros [= <- <-] Hl. cbn [update_field heap]. apply lookup_insert_ne. intros E.
  apply Hl. rewrite <-E. apply not_elem_of_dom, is_fresh.
Qed.

(** What the cache of availabilities says of a host. *)
Definition known_availability (p : Svc) (now : Z) (h : HostInfo) : HostInfo :=
  match CacheMap.Get now (GetHostAndPort (Some h)) (hostAvailabilityExpiringCache p) with
  | Some av => with_availability av h
  | None => h
  end.

(** The allocations of a loop leave the hosts that exist, and everything but
    the heap, as they are. *)
Definition extends (p p' : Svc) : Prop :=
  (forall l h, host_at p l = Some h -> host_at p' l = Some h) /\ p' = p <| heap := heap p' |>.

Lemma extends_refl p : extends p p.
Proof. split; [done|by destruct p]. Qed.

Lemma extends_trans p1 p2 p3 : extends p1 p2 -> extends p2 p3 -> extends p1 p3.
Proof. intros [H12 E12] [H23 E23]. split; [eauto|]. rewrite E23, E12. done. Qed.

Lemma updated_host_spec clk i l p h :
  host_at p l = Some h ->
  let '(p', l') := updated_host clk (i, l) p in
  extends p p' /\ host_at p' l' = Some (known_availability p (hc_get clk i) h).
Proof.
  intros Hl. unfold updated_host, known_availability. rewrite Hl.
  assert (key_at p l = GetHostAndPort (Some h)) as -> by (unfold key_at; by rewrite Hl).
  destruct (CacheMap.Get _ _ _) as [av|]; [|by split; [apply extends_refl|]].
  destruct (bool_decide_reflect (av <> Availability h)) as [Hne|Heq].
  - destruct (alloc (with_availability av h) p) as [p' l'] eqn:Ea. split.
    + split; [intros l0 h0 Hl0; rewrite (host_at_alloc _ _ _ _ _ Ea); congruence|]. by injection Ea as <- <-.
    + injection Ea as <- <-. unfold host_at. apply lookup_insert_eq.
  - split; [apply extends_refl|]. rewrite Hl. f_equal. apply dec_stable in Heq. subst av. by destruct h.
Qed.

Lemma update_loop_spec clk es : forall p,
  Forall (fun e => is_Some (host_at p e.2)) es ->
  let '(p', ls) := update_loop clk es p in
  extends p p' /\
  Forall2 (fun e l' => exists h, host_at p e.2 = Some h /\ host_at p' l' = Some (known_availability p (hc_get clk e.1) h)) es ls.
Proof.
  induction es as [|[i l] es IH]; intros p Hes; [by split; [apply extends_refl|constructor]|].
  apply Forall_cons in Hes as [[h Hl] Hes]. cbn [update_loop]. unfold st_bind at 1.
  pose proof (updated_host_spec clk i l p h Hl) as Hu. destruct (updated_host clk (i, l) p) as [p1 l1]. destruct Hu as [He1 Hl1].
  unfold st_bind at 1. assert (Hes1 : Forall (fun e => is_Some (host_at p1 e.2)) es).
  { eapply Forall_impl; [exact Hes|]. intros e [h' Hh']. exists h'. by apply He1. }
  specialize (IH p1 Hes1). destruct (update_loop clk es p1) as [p2 ls]. destruct IH as [He2 IH]. unfold st_ret.
  split; [by eapply extends_trans|]. constructor; [exists h; split; [done|by apply He2]|].
  apply Forall2_same_length_lookup in IH as [Hlen IH]. apply Forall2_same_length_lookup. split; [done|].
  intros n e l' He Hl'. destruct (IH n e l' He Hl') as (h1 & Hh1 & Hr).
  destruct (proj1 (Forall_lookup _ _) Hes n e He) as [h' Hh']. exists h'. split; [done|].
  pose proof (proj1 He1 _ _ Hh') as Hh1'. rewrite Hh1 in Hh1'. injection Hh1' as ->. rewrite Hr. f_equal.
  unfold known_availability. by rewrite (proj2 He1).
Qed.

(** A plugin whose list notification changes the plugins only. *)
Definition quiet_list (q : Plugin) : Prop :=
  forall changes s, exists st, plugin_NotifyHostListChanged q changes s = (s <| p_plugins := st |>, tt).

Lemma notify_list_quiet changes s :
  Forall quiet_list plugins -> exists st, NotifyHostListChanged plugins changes s = (s <| p_plugins := st |>, tt).
Proof.
  intros Hq. unfold NotifyHostListChanged, NotifySubscribedPlugins, st_bind. rewrite notify_loop_each.
  set (qs := List.filter _ _).
  assert (Hf : Forall quiet_list qs).
  { subst qs. induction Hq as [|q qs Hq1 Hqs IH]; cbn [List.filter]; [constructor|]. destruct (_ && _); [by constructor|done]. }
  assert (He : exists st, each (fun q => run (plugin_NotifyHostListChanged q changes)) qs s = (s <| p_plugins := st |>, Ok tt)).
  { clearbody qs. clear Hq. revert s. induction qs as [|q qs IH]; intros s; [by exists (p_plugins s); destruct s|].
    apply Forall_cons in Hf as [Hq1 Hf]. cbn [each]. rewrite eff_bind_eq. unfold run at 1.
    destruct (Hq1 changes s) as [st ->]. destruct (IH Hf (s <| p_plugins := st |>)) as [st' ->]. by exists st'. }
  destruct He as [st ->]. by exists st.
Qed.

Lemma setHostList_spec newHosts p :
  Forall quiet_list plugins ->
  exists st, setHostList newHosts p =
    (if bool_decide (host_list_changes p (AllHosts p) newHosts = ∅) then p
     else p <| AllHosts := newHosts |> <| p_plugins := st |>, tt).
Proof.
  intros Hq. unfold setHostList. destruct (size_cases (host_list_changes p (AllHosts p) newHosts)) as [[-> Hne]|[-> E]].
  - rewrite bool_decide_false by done. apply notify_list_quiet. exact Hq.
  - exists (p_plugins p). by rewrite bool_decide_true.
Qed.

(** updateHostAvailability returns the hosts with the availability the
    cache knows of them, and a refresh of the host list drops that result:
    the list is the refreshed one as it came, and no host of it changes. *)
Theorem refresh_loses_known_availability clk updated p :
  Forall quiet_list plugins -> updated <> [] -> Forall (fun l => is_Some (host_at p l)) updated ->
  (let '(p', ls) := updateHostAvailability clk updated p in
   Forall2 (fun e l' => exists h, host_at p e.2 = Some h /\ host_at p' l' = Some (known_availability p (hc_get clk e.1) h))
     (imap pair updated) ls) /\
  (let '(p', r) := updateHostListIfNeeded clk updated p in
   r = Ok tt /\ (AllHosts p' = AllHosts p \/ AllHosts p' = updated) /\
   forall l h, host_at p l = Some h -> host_at p' l = Some h).
Proof.
  intros Hq Hne Hall.
  assert (Hes : Forall (fun e : nat * loc => is_Some (host_at p e.2)) (imap pair updated)).
  { apply Forall_forall. intros [i l] Hin. apply list_elem_of_lookup in Hin as [n Hn]. rewrite list_lookup_imap in Hn.
    destruct (updated !! n) as [l'|] eqn:El; [|done]. injection Hn as <- <-. by eapply Forall_lookup in Hall. }
  pose proof (update_loop_spec clk (imap pair updated) p Hes) as Hu. unfold updateHostListIfNeeded, updateHostAvailability in *.
  destruct updated as [|l0 ls0]; [done|]. set (updated := l0 :: ls0) in *. unfold st_bind.
  destruct (update_loop clk (imap pair updated) p) as [p1 ls]. destruct Hu as [He Hf]. split; [done|].
  destruct (negb _); [|by split; [|split; [left|]]].
  destruct (setHostList_spec updated p1 Hq) as [st ->]. unfold eff_ok. split; [done|].
  destruct (bool_decide _); cbn [update_field AllHosts].
  - split; [left; by rewrite (proj2 He)|]. apply He.
  - split; [by right|]. intros l h Hl. by apply He in Hl.
Qed.
End Service.

(** ** Examples: two hosts, connections named by numbers, one plugin *)

#[local] Instance accepting_driver : ExecConn nat := fun _ _ _ => Some None.
#[local] Instance open_driver : DriverDialect nat := {|
  IsClosed log conn := existsb (fun e => match e with Closed c => Nat.eqb c conn | _ => false end) log;
  IsNetworkError _ := false; IsLoginError _ := false |}.
Local Abbreviation Example_svc := (PluginServiceImpl (C := nat) (P := nat)).
Definition counting_plugin : ConnectionPlugin Example_svc nat nat unit loc := {|
  plugin_id := 0; GetPluginCode := "counting"; GetSubscribedMethods := ["*"];
  plugin_Execute _ _ _ k := k;
  plugin_Connect _ props _ k := k props;
  plugin_ForceConnect _ props _ k := k props;
  plugin_AcceptsStrategy _ := st_ret false;
  plugin_GetHostInfoByStrategy _ _ _ := throw (PlainError "counting" []);
  plugin_GetHostSelectorStrategy _ := throw (PlainError "counting" []);
  plugin_NotifyConnectionChanged _ := fun p => (p <| p_plugins := S (p_plugins p) |>, NO_OPINION);
  plugin_NotifyHostListChanged _ := fun p => (p <| p_plugins := S (p_plugins p) |>, tt);
  plugin_InitHostProvider _ k := k;
  plugin_ReleaseResources := None |}.
Definition writer_host : HostInfo := mkHostInfo "a.example" "a" 3306 AVAILABLE WRITER None None 100 0.
Definition reader_host : HostInfo := mkHostInfo "b.example" "b" 3306 AVAILABLE READER None None 100 0.
Definition no_entries : CacheMap.CacheMap string := CacheMap.mkCacheMap ∅ 0 0.
Definition example_service (current : option loc) (sv : SessionStateServiceImpl) : Example_svc :=
  mkService {[0%nat := writer_host; 1%nat := reader_host]} (Some 1%nat) current None [0%nat; 1%nat] true (Some 5%nat) sv []
    (mkManager false None "" no_entries) (Some MySQLDatabaseDialect) true None no_entries ∅ 0%nat.
Definition no_permissions : Example_svc -> string -> option AllowedAndBlockedHosts := fun _ _ => None.
Definition blocking_a : Example_svc -> string -> option AllowedAndBlockedHosts :=
  fun _ _ => Some (mkAllowedBlocked ∅ {["a" := true]}).

Lemma counting_quiet : Forall quiet [counting_plugin].
Proof. constructor; [|constructor]. intros changes s. by eexists. Qed.
Lemma counting_quiet_list : Forall quiet_list [counting_plugin].
Proof. constructor; [|constructor]. intros changes s. by eexists. Qed.

Definition switch_example (exec : ExecConn nat) : Example_svc * Result unit :=
  SetCurrentConnection (H := exec) None no_session_funcs [counting_plugin] (Some 2%nat) (@Some loc 1%nat) None
    (example_service (Some 0%nat) example_session).

Lemma SetCurrentConnection_switches_witness :
  (events (switch_example accepting_driver).1, currentConnection (switch_example accepting_driver).1,
   (switch_example accepting_driver).2) =
  ([Executed 2%nat "set autocommit=false"; Executed 2%nat "set session transaction isolation level SERIALIZABLE";
    RolledBack 5; Closed 1%nat], Some 2%nat, Ok tt).
Proof.
  set (w := (ApplyCurrentSessionState None no_session_funcs mysql_dialect 2%nat ((Begin None example_session).1, [])).1).
  pose proof (SetCurrentConnection_switches None no_session_funcs [counting_plugin] 2%nat 1%nat None
    (example_service (Some 0%nat) example_session) 1%nat writer_host reader_host w) as Hs.
  cbv zeta in Hs. destruct (NotifyConnectionChanged _ _ _ _) as [q opinions] eqn:En in Hs.
  destruct Hs as [Hst _]; [by vm_compute..|apply (bool_decide_unpack _); by vm_compute|by vm_compute|].
  unfold switch_example. rewrite Hst. vm_compute in En. injection En as <- <-. by vm_compute.
Defined.

Lemma failed_transfer_keeps_new_connection_witness :
  (currentConnection (switch_example (fun _ _ _ => Some (Some (PlainError "lost" [])))).1,
   events (switch_example (fun _ _ _ => Some (Some (PlainError "lost" [])))).1) =
  (Some 2%nat, [Executed 2%nat "set autocommit=false"]).
Proof.
  set (w := (ApplyCurrentSessionState (H := fun _ _ _ => Some (Some (PlainError "lost" []))) None no_session_funcs mysql_dialect 2%nat
               ((Begin None example_session).1, [])).1).
  unfold switch_example.
  rewrite (failed_transfer_keeps_new_connection (H := fun _ _ _ => Some (Some (PlainError "lost" []))) None no_session_funcs
    [counting_plugin] 2%nat 1%nat None (example_service (Some 0%nat) example_session) 1%nat writer_host reader_host w (PlainError "lost" []));
    [by vm_compute..|apply (bool_decide_unpack _); by vm_compute|by vm_compute].
Defined.

Lemma rejected_host_returned_next_witness :
  exists p', (GetCurrentHostInfo blocking_a (example_service None NewSessionStateServiceImpl)).1 = p' /\
             GetCurrentHostInfo blocking_a p' = (p', Ok (Some 0%nat)).
Proof.
  destruct (GetCurrentHostInfo blocking_a (example_service None NewSessionStateServiceImpl)) as [p' r] eqn:E.
  assert (r = Err (currentHostNotAllowed (Some writer_host))) as -> by (vm_compute in E; injection E as _ <-; by vm_compute).
  assert (Hp : currentHostInfo p' = Some 0%nat /\ host_at p' 0%nat = Some writer_host) by (vm_compute in E; injection E as <-; by vm_compute).
  destruct (rejected_host_returned_next blocking_a _ _ _ E) as (l & Hl & _ & Hn).
  exists p'. split; [done|]. destruct Hp as [Hc Hh]. rewrite Hc in Hl. injection Hl as <-. apply Hn. by rewrite Hh.
Defined.

Lemma GetHosts_permitted_witness :
  0%nat ∉ GetHosts blocking_a (example_service None NewSessionStateServiceImpl) /\
  1%nat ∈ GetHosts blocking_a (example_service None NewSessionStateServiceImpl).
Proof.
  pose proof (proj2 (GetHosts_permitted blocking_a (example_service None NewSessionStateServiceImpl)) (mkAllowedBlocked ∅ {["a" := true]}) eq_refl) as Hp.
  split.
  - rewrite (Hp 0%nat writer_host eq_refl). intros [_ [_ Hb]]. by apply Hb.
  - rewrite (Hp 1%nat reader_host eq_refl). split; [by right; left|]. by split.
Defined.

Definition example_clock : HostClock :=
  mkHostClock (fun _ => 0) (fun _ => {| cu_check := 0; cu_at := fun _ => 0; cu_reset := 0 |}) (fun _ => 1).

Lemma SetAvailability_of_aliases_witness :
  host_at (SetAvailability [counting_plugin] example_clock {["a.example:3306" := true]} UNAVAILABLE
    (example_service None NewSessionStateServiceImpl)).1 0%nat = Some (with_availability UNAVAILABLE writer_host).
Proof.
  pose proof (SetAvailability_of_aliases [counting_plugin] example_clock {["a.example:3306" := true]} UNAVAILABLE
    (example_service None NewSessionStateServiceImpl)) as Hs.
  destruct (availability_loop _ _ _ _) as [p' ch] eqn:E. destruct Hs as (_ & Hh & _ & Hs).
  rewrite Hs by done. assert (Hch : bool_decide (ch = ∅) = false) by (vm_compute in E; injection E as _ <-; by vm_compute).
  rewrite Hch. etransitivity; [exact (Hh 0%nat)|by vm_compute].
Defined.

(** The host list of an Aurora topology: the copy with the availability the
    cache knows is made, and the list keeps the host as it came. *)
Lemma refresh_loses_known_availability_witness :
  let known := CacheMap.Put 0 {| cu_check := 0; cu_at := fun _ => 0; cu_reset := 0 |} "a.example:3306" UNAVAILABLE Minute no_entries in
  let p := (example_service None NewSessionStateServiceImpl) <| AllHosts := [] |> <| hostAvailabilityExpiringCache := known |> in
  (hosts_at (updateHostAvailability example_clock [0%nat] p).1 (updateHostAvailability example_clock [0%nat] p).2,
   hosts_at (updateHostListIfNeeded [counting_plugin] example_clock [0%nat] p).1
     (AllHosts (updateHostListIfNeeded [counting_plugin] example_clock [0%nat] p).1)) =
  ([with_availability UNAVAILABLE writer_host], [writer_host]).
Proof.
  intros known p.
  assert (Hall : Forall (fun l => is_Some (host_at p l)) [0%nat]) by (constructor; [by eexists|constructor]).
  pose proof (refresh_loses_known_availability [counting_plugin] example_clock [0%nat] p counting_quiet_list
    ltac:(discriminate) Hall) as [Hu Hl].
  destruct (updateHostAvailability example_clock [0%nat] p) as [p1 ls] eqn:E1.
  destruct (updateHostListIfNeeded [counting_plugin] example_clock [0%nat] p) as [p2 r] eqn:E2.
  destruct Hl as (_ & _ & Hl). specialize (Hl 0%nat writer_host eq_refl).
  inversion Hu as [|e l' es ls' [h [Hh Hl']] Hrest]; subst. inversion Hrest; subst.
  assert (Hh0 : host_at p 0%nat = Some writer_host) by done. cbn [fst snd] in Hh. rewrite Hh0 in Hh. injection Hh as <-.
  assert (HA : AllHosts p2 = [0%nat]) by (vm_compute in E2; injection E2 as <- _; by vm_compute).
  cbn [fst snd]. rewrite HA. unfold hosts_at. cbn [omap list_omap]. rewrite Hl', Hl. by vm_compute.
Defined.

(** Only the last setting of a multi-statement text is recorded. *)
Lemma UpdateState_last_setting_witness :
  sessionStateService (UpdateState None "set autocommit=false; use db; select 1" None
    (example_service None NewSessionStateServiceImpl)).1 =
  SetCatalog None "db" (SetupPristineCatalog None NewSessionStateServiceImpl).
Proof.
  pose proof (UpdateState_last_setting None "set autocommit=false; use db; select 1" None
    (example_service None NewSessionStateServiceImpl)) as [_ Hu].
  rewrite (Hu ["set autocommit=false"] "use db" ["select 1"]
    (mkSettings (false, false) (false, false) ("", false) ("db", true) (TRANSACTION_READ_UNCOMMITTED, false)));
    [by vm_compute|by vm_compute| |by vm_compute|done].
  constructor; [|constructor]. eexists. split; [by vm_compute|done].
Defined.
