(* ===== verification/EfmPlugin.v ===== *)
(** * EfmPlugin: having a call monitored while it runs
    (awssql/plugins/efm/host_monitoring_service.go and host_monitoring_plugin.go).

    The plugin has each network-bound call monitored by the monitor of the
    host in use, and closes the connection after a call that was to be aborted.
    What it relies on of the monitors is the class [HostMonitors]: the states
    of calls and the monitor service; [efm_monitors] implements it with the
    monitors of EfmMonitor.v. The fields of the plugin are a part of the state
    of the plugins. *)

From S2P Require Import Prelude.
From S2P Require Import EfmMonitor.
From S2P Require Import Methods.
From S2P Require Import HostInfo.
From S2P Require Import CacheMap.
From S2P Require Import Effects.
From S2P Require Import RWMap.
From S2P Require Import Properties.
From S2P Require Import RdsUtils.
From S2P Require Import Dsn.
From S2P Require Import Dialects.
From S2P Require Import SessionState.
From S2P Require Import PluginManager.
From S2P Require Import PluginService.

(** ** The plugin and its service *)

Record MonitorKey := mkMonitorKey { key_url : string; keyValue : string }.
Record HostMonitoringServiceImpl := mkMonitoringService {
  failureDetectionTimeMillis : Z;
  failureDetectionIntervalMillis : Z;
  service_failureDetectionCount : Z;
  monitorDisposalTimeMillis : Z;
  monitorKey : option MonitorKey
}.
Record HostMonitorConnectionPlugin := mkEfmPlugin { monitoringHostInfo : option loc; monitorService : option HostMonitoringServiceImpl }.
Definition NewHostMonitorConnectionPlugin : HostMonitorConnectionPlugin := mkEfmPlugin None None.

(** A call is known by the monitor and the number of its state there. *)
Definition CallState : Type := nat * nat.
Class HostMonitors (P : Type) := {
  get_efm : P -> HostMonitorConnectionPlugin;
  put_efm : HostMonitorConnectionPlugin -> P -> P;
  get_put_efm f s : get_efm (put_efm f s) = f;
  RegisterMonitorType : Z -> St P unit;
  RunIfAbsent : string -> option HostInfo -> properties -> HostMonitoringServiceImpl -> Eff P nat;
  monitor_StartMonitoring : nat -> St P CallState;
  state_ShouldAbort : P -> CallState -> bool;
  state_IsActive : P -> CallState -> bool;
  state_SetInactive : CallState -> St P unit
}.
(** What is promised of them: a call is active once monitoring of it started,
    and no more when it is set inactive; the fields of the plugin are its own. *)
Class MonitorsLaws (P : Type) `{HostMonitors P} := {
  start_active monitor (s s' : P) state : monitor_StartMonitoring monitor s = (s', state) -> state_IsActive s' state = true;
  inactive_is state (s : P) : state_IsActive (state_SetInactive state s).1 state = false;
  put_efm_active f (s : P) state : state_IsActive (put_efm f s) state = state_IsActive s state
}.

Definition efm_SubscribedMethods : list string := ["*"].

Section EfmPlugin.
Context {C V Sel P : Type} `{EqDecision C} `{ExecConn C} `{DriverDialect C} `{PrepareHost} `{HostMonitors P} `{DriverConn C} `{MapRange}.
Local Abbreviation Svc := (PluginServiceImpl (C := C) (P := P)).
Context (props : properties) (providers : nat -> HostListProvider (C := C) (P := P)).
Context (AllowedAndBlocked_Get : Svc -> string -> option AllowedAndBlockedHosts).

Definition efm (p : Svc) : HostMonitorConnectionPlugin := get_efm (p_plugins p).
Definition set_efm (f : HostMonitorConnectionPlugin -> HostMonitorConnectionPlugin) : St Svc unit :=
  modify (fun p => p <| p_plugins := put_efm (f (get_efm (p_plugins p))) (p_plugins p) |>).
Definition on_monitors {A} (c : St P A) : St Svc A := zoom p_plugins (fun s p => p <| p_plugins := s |>) c.

Definition monitoring_service : Result HostMonitoringServiceImpl :=
  (try time := GetPositiveIntProperty (Some props) FAILURE_DETECTION_TIME_MS in
   try interval := GetPositiveIntProperty (Some props) FAILURE_DETECTION_INTERVAL_MS in
   try count := GetPositiveIntProperty (Some props) FAILURE_DETECTION_COUNT in
   try disposal := GetPositiveIntProperty (Some props) MONITOR_DISPOSAL_TIME_MS in
   Ok (mkMonitoringService time interval count disposal None))%go.
(** [NewHostMonitoringServiceImpl] registers the type of the monitors. *)
Definition NewHostMonitoringServiceImpl : Eff Svc HostMonitoringServiceImpl :=
  (try! m := lift_result monitoring_service in
   let! _ := on_monitors (RegisterMonitorType (wrap64 (Millisecond * monitorDisposalTimeMillis m))) in
   eff_ok m)%eff.

(** The key of the monitor of a host: its URL with the settings. *)
Definition key_value (m : HostMonitoringServiceImpl) (url : string) : string :=
  Itoa (failureDetectionTimeMillis m) +:+ ":" +:+ Itoa (failureDetectionIntervalMillis m) +:+ ":" +:+
  Itoa (service_failureDetectionCount m) +:+ ":" +:+ url.
Definition current_key (m : HostMonitoringServiceImpl) (url : string) : MonitorKey :=
  match monitorKey m with
  | Some k => if bool_decide (url <> key_url k) then mkMonitorKey url (key_value m url) else k
  | None => mkMonitorKey url (key_value m url)
  end.
Definition with_key (k : MonitorKey) (m : HostMonitoringServiceImpl) : HostMonitoringServiceImpl :=
  mkMonitoringService (failureDetectionTimeMillis m) (failureDetectionIntervalMillis m) (service_failureDetectionCount m)
    (monitorDisposalTimeMillis m) (Some k).
Definition getMonitor (m : HostMonitoringServiceImpl) (hostInfo : loc) : Eff Svc nat :=
  (let! host := gets (fun p => host_at p hostInfo) in
   let k := current_key m (GetUrl host) in
   let! _ := set_efm (fun e => mkEfmPlugin (monitoringHostInfo e) (Some (with_key k m))) in
   on_monitors (RunIfAbsent (keyValue k) host props m))%eff.

(** The reference to the current connection is never nil. *)
Definition service_StartMonitoring (m : HostMonitoringServiceImpl) (hostInfo : loc) : Eff Svc CallState :=
  (let! none := gets (fun p => IsNil (host_at p hostInfo)) in
   if (none : bool) then throw (NewGenericAwsWrapperError "HostMonitoringServiceImpl.illegalArgumentError" ["hostInfo"])
   else try! monitor := getMonitor m hostInfo in run (on_monitors (monitor_StartMonitoring monitor)))%eff.
(** Closing a nil connection panics. *)
Definition StopMonitoring (state : CallState) (connToAbort : option C) : Eff Svc unit :=
  (let! abort := gets (fun p => state_ShouldAbort (p_plugins p) state) in
   let! _ := on_monitors (state_SetInactive state) in
   if (abort : bool) then
     match connToAbort with Some conn => run (emit (Closed conn)) | None => lift_result Panic end
   else eff_ok tt)%eff.

Definition initMonitorService : Eff Svc HostMonitoringServiceImpl :=
  (let! e := gets efm in
   match monitorService e with
   | Some m => eff_ok m
   | None => try! m := NewHostMonitoringServiceImpl in
             let! _ := set_efm (fun e => mkEfmPlugin (monitoringHostInfo e) (Some m)) in eff_ok m
   end)%eff.

Definition unableToIdentify (args : list string) : go_error :=
  NewGenericAwsWrapperError "HostMonitoringConnectionPlugin.unableToIdentifyConnection" args.
(** [IdentifyConnection] on the current connection, which may be nil. *)
Context (IdentifyConnection : option C -> Eff Svc (option loc)).
Definition set_monitoring_host (h : option loc) : St Svc unit := set_efm (fun e => mkEfmPlugin h (monitorService e)).
Definition find_monitoring_host : Eff Svc unit :=
  (let! r := GetCurrentHostInfo AllowedAndBlocked_Get in
   match r with
   | Panic => lift_result Panic
   | Err err => throw (NewGenericAwsWrapperError "HostMonitoringConnectionPlugin.errorIdentifyingConnection" [])
   | Ok h =>
       let! host := gets (fun p => deref p h) in
       if IsNil host then eff_ok tt
       else if RdsUtils.IsRdsCluster (IdentifyRdsUrlType (HostInfo.GetHost host)) then
         let! conn := gets currentConnection in
         let! identified := IdentifyConnection conn in
         match identified with
         | Panic => lift_result Panic
         | Err err => throw (unableToIdentify [HostInfo.GetHost host])
         | Ok h => run (set_monitoring_host h)
         end
       else run (set_monitoring_host h)
   end)%eff.
Definition getMonitoringHostInfo : Eff Svc loc :=
  (let! known := gets (fun p => negb (IsNil (deref p (monitoringHostInfo (efm p))))) in
   try! _ := (if (known : bool) then eff_ok tt else find_monitoring_host) in
   let! h := gets (fun p => monitoringHostInfo (efm p)) in
   let! none := gets (fun p => IsNil (deref p h)) in
   match h with
   | Some l => if (none : bool) then throw (unableToIdentify ["<nil>"; "Given monitoring HostInfo is nil."]) else eff_ok l
   | None => throw (unableToIdentify ["<nil>"; "Given monitoring HostInfo is nil."])
   end)%eff.

Context (nil_any : V).
Definition efm_error (e : go_error) : ExecResult V := mkExecResult nil_any nil_any false (Some e).

(** Everything before the call itself. *)
Definition start_call : Eff Svc CallState :=
  (try! m := initMonitorService in
   try! hostInfo := getMonitoringHostInfo in
   service_StartMonitoring m hostInfo)%eff.
Definition efm_Execute (methodName : string) (executeFunc : ExecuteFunc (S := Svc) (V := V)) : Eff Svc (ExecResult V) :=
  if negb (bool_decide (methodName ∈ NETWORK_BOUND_METHODS)) then run executeFunc
  else
    (let! r := start_call in
     match r with
     | Panic => lift_result Panic
     | Err err => eff_ok (efm_error err)
     | Ok state =>
         let! wrapped := executeFunc in
         let! conn := gets currentConnection in
         try! _ := StopMonitoring state conn in
         eff_ok wrapped
     end)%eff.

Definition efm_Connect (hostInfo : loc) (connectProps : properties) (connectFunc : ConnectFunc (S := Svc) (C := C)) : Eff Svc C :=
  (try! conn := connectFunc connectProps in
   let! cluster := gets (fun p => RdsUtils.IsRdsCluster (IdentifyRdsUrlType (HostInfo.GetHost (host_at p hostInfo)))) in
   try! _ := (if (cluster : bool) then
                (do! modify (fun p => match host_at p hostInfo with Some h => set_host hostInfo (ResetAliases h) p | None => p end) in
                 FillAliases providers conn (Some hostInfo))
              else eff_ok tt) in
   eff_ok conn)%eff.

Definition efm_NotifyConnectionChanged (changes : gset HostChangeOptions) : St Svc OldConnectionSuggestedAction :=
  (let! _ := if bool_decide (HOSTNAME ∈ changes) || bool_decide (HOST_CHANGED ∈ changes) then set_monitoring_host None else st_ret tt in
   st_ret NO_OPINION)%eff.

(** ** Properties *)

(** A service keeps the key of the host it was asked for last. *)
Definition key_ok (m : HostMonitoringServiceImpl) : Prop :=
  forall k, monitorKey m = Some k -> keyValue k = key_value m (key_url k).

Lemma current_key_value m url : key_ok m -> keyValue (current_key m url) = key_value m url.
Proof.
  intros Hm. unfold current_key. destruct (monitorKey m) as [k|] eqn:Ek; [|done]. case_bool_decide as Hu; [done|].
  rewrite Hu. by apply Hm.
Qed.
Lemma with_key_ok m url : key_ok m -> key_ok (with_key (current_key m url) m).
Proof.
  intros Hm k [= <-]. unfold current_key. destruct (monitorKey m) as [k|] eqn:Ek; [|done]. case_bool_decide; [done|]. by apply Hm.
Qed.
Lemma append_inj_r s t u : s +:+ t = s +:+ u -> t = u.
Proof. induction s as [|a s IH]; [done|]. cbn. intros [= E]. auto. Qed.

(** Two connections with the same settings share the monitor of a host, and
    hosts with different addresses have different ones: the keys the monitors
    are kept under are equal exactly when the URLs are, whichever hosts each
    service was asked for before. *)
Theorem one_monitor_per_host m m' url url' :
  key_ok m -> key_ok m' -> (forall u, key_value m u = key_value m' u) ->
  keyValue (current_key m url) = keyValue (current_key m' url') <-> url = url'.
Proof.
  intros Hm Hm' Hs. rewrite !current_key_value, <-Hs by done. split; [|by intros ->]. unfold key_value. intros E.
  by repeat apply append_inj_r in E.
Qed.

(** C13. A network-bound call is monitored exactly while it runs: a state
    was activated for it before, it is inactive after, and the result is
    that of the call; the connection in use is closed after a call that was
    to be aborted and was not yet, and no call is made when monitoring
    cannot start. *)
Theorem efm_Execute_monitors `{!MonitorsLaws P} methodName executeFunc (p p' : Svc) r :
  methodName ∈ NETWORK_BOUND_METHODS -> efm_Execute methodName executeFunc p = (p', Ok r) ->
  (exists e, start_call p = (p', Err e) /\ r = efm_error e) \/
  exists p1 p2 state, start_call p = (p1, Ok state) /\ state_IsActive (p_plugins p1) state = true /\
    executeFunc p1 = (p2, r) /\ state_IsActive (p_plugins p') state = false /\
    if state_ShouldAbort (p_plugins p2) state
    then exists conn, currentConnection p2 = Some conn /\ events p' = events p2 ++ [Closed conn]
    else events p' = events p2.
Proof.
  intros Hm. unfold efm_Execute. rewrite bool_decide_true by done. cbn [negb]. unfold st_bind at 1.
  destruct (start_call p) as [p1 [state|e|]] eqn:Es; [|intros [= <- <-]; left; eauto|done].
  unfold st_bind at 1. destruct (executeFunc p1) as [p2 wrapped] eqn:Ee. unfold st_bind at 1, gets at 1. rewrite eff_bind_eq.
  assert (Ha : state_IsActive (p_plugins p1) state = true).
  { revert Es. unfold start_call. rewrite eff_bind_eq. destruct (initMonitorService p) as [q1 [m|e|]]; [|done..].
    rewrite eff_bind_eq. destruct (getMonitoringHostInfo q1) as [q2 [h|e|]]; [|done..]. unfold service_StartMonitoring.
    unfold st_bind at 1, gets at 1. destruct (IsNil _); [done|]. rewrite eff_bind_eq.
    destruct (getMonitor m h q2) as [q3 [monitor|e|]]; [|done..]. unfold run, on_monitors, zoom.
    destruct (monitor_StartMonitoring monitor (p_plugins q3)) as [s st] eqn:E. intros [= <- <-]. by eapply start_active. }
  unfold StopMonitoring. unfold st_bind at 1, gets at 1. unfold st_bind at 1, on_monitors, zoom.
  pose proof (inactive_is state (p_plugins p2)) as Hin. destruct (state_SetInactive state (p_plugins p2)) as [s u]. cbn [fst] in Hin.
  destruct (state_ShouldAbort (p_plugins p2) state) eqn:Eab; [destruct (currentConnection p2) as [conn|] eqn:Ec; [|done]|];
    intros [= <- <-]; right; exists p1, p2, state; rewrite Eab; split_and!; try done. by exists conn.
Qed.

(** Other methods are not monitored. *)
Lemma efm_Execute_others methodName executeFunc (p : Svc) :
  methodName ∉ NETWORK_BOUND_METHODS -> efm_Execute methodName executeFunc p = ((executeFunc p).1, Ok (executeFunc p).2).
Proof. intros Hm. unfold efm_Execute. rewrite bool_decide_false by done. cbn [negb]. unfold run. by destruct (executeFunc p). Qed.

(** The host that is monitored: the one remembered since the connection last
    changed, else the current host, or for a cluster endpoint the instance the
    connection was identified with. *)
Theorem monitoring_host_found (p p' : Svc) l :
  getMonitoringHostInfo p = (p', Ok l) ->
  monitoringHostInfo (efm p) = Some l \/
  exists p1 h, GetCurrentHostInfo AllowedAndBlocked_Get p = (p1, Ok h) /\
    (((h = Some l /\ RdsUtils.IsRdsCluster (IdentifyRdsUrlType (HostInfo.GetHost (deref p1 h))) = false) \/
     (RdsUtils.IsRdsCluster (IdentifyRdsUrlType (HostInfo.GetHost (deref p1 h))) = true /\
      exists p2, IdentifyConnection (currentConnection p1) p1 = (p2, Ok (Some l)))) \/
     monitoringHostInfo (efm p1) = Some l).
Proof.
  unfold getMonitoringHostInfo. unfold st_bind at 1, gets at 1. rewrite eff_bind_eq.
  assert (Hlast : forall q, (let! h := gets (fun p => monitoringHostInfo (efm p)) in let! none := gets (fun p => IsNil (deref p h)) in
      match h with Some l => if (none : bool) then throw (unableToIdentify ["<nil>"; "Given monitoring HostInfo is nil."]) else eff_ok l
      | None => throw (unableToIdentify ["<nil>"; "Given monitoring HostInfo is nil."]) end)%eff q = (p', Ok l) ->
      p' = q /\ monitoringHostInfo (efm q) = Some l).
  { intros q. unfold st_bind, gets. destruct (monitoringHostInfo (efm q)) as [l'|]; [|done]. destruct (IsNil _); [done|]. by intros [= <- <-]. }
  destruct (negb _); [intros E; left; by apply Hlast in E as [_ ?]|]. unfold find_monitoring_host.
  unfold st_bind at 1. destruct (GetCurrentHostInfo AllowedAndBlocked_Get p) as [p1 [h|e|]] eqn:Eg; [|done..].
  unfold st_bind at 1, gets at 1. destruct (IsNil (deref p1 h)) eqn:En.
  { intros E. right. exists p1, h. split; [done|]. right. by apply Hlast in E as [_ ?]. }
  assert (Hset : forall q h', efm (set_monitoring_host h' q).1 = mkEfmPlugin h' (monitorService (efm q))).
  { intros q h'. unfold efm, set_monitoring_host, set_efm, modify. cbn. apply get_put_efm. }
  destruct (RdsUtils.IsRdsCluster _) eqn:Ec.
  - unfold st_bind at 1, gets at 1. unfold st_bind at 1. destruct (IdentifyConnection (currentConnection p1) p1) as [p2 [h'|e|]] eqn:Ei; [|done..].
    unfold run. pose proof (Hset p2 h') as Hp. destruct (set_monitoring_host h' p2) as [p3 u]. cbn [fst] in Hp.
    intros [-> Hl]%Hlast. rewrite Hp in Hl. cbn in Hl. subst h'. right. exists p1, h. split; [done|]. left. right. split; [done|]. eauto.
  - unfold run. pose proof (Hset p1 h) as Hp. destruct (set_monitoring_host h p1) as [p3 u]. cbn [fst] in Hp.
    intros [-> Hl]%Hlast. rewrite Hp in Hl. cbn in Hl. subst h. right. exists p1, (Some l). split; [done|]. left. by left.
Qed.
End EfmPlugin.

(** ** The monitors of EfmMonitor.v keep the promise *)

Record EfmWorld := mkEfmWorld {
  w_plugin : HostMonitorConnectionPlugin;
  w_monitors : gmap nat (HostMonitorImpl nat);
  w_keys : gmap string nat;
  w_registered : bool;
  w_now : Z
}.
Definition on_monitor (id : nat) (f : HostMonitorImpl nat -> HostMonitorImpl nat) (w : EfmWorld) : EfmWorld :=
  mkEfmWorld (w_plugin w) (alter f id (w_monitors w)) (w_keys w) (w_registered w) (w_now w).
Definition of_state (f : HostMonitorImpl nat -> MonitorConnectionState -> bool) (w : EfmWorld) (state : CallState) : bool :=
  match w_monitors w !! state.1 with
  | Some m => from_option (f m) false (states m !! state.2)
  | None => false
  end.
(** The connection in use, in a variable of its own. *)
Definition start_call_state (now : Z) (m : HostMonitorImpl nat) : HostMonitorImpl nat * nat :=
  let conn := fresh (dom (conns m) ∪ collected m) in
  let id := fresh (dom (startedAt m)) in
  (EfmMonitor.StartMonitoring id conn now (m <| conns := <[conn := 0%nat]> (conns m) |>), id).
(** A missing monitor is one that was never given out. *)
#[export] Instance efm_monitors : HostMonitors EfmWorld := {|
  get_efm := w_plugin;
  put_efm f w := mkEfmWorld f (w_monitors w) (w_keys w) (w_registered w) (w_now w);
  get_put_efm _ _ := eq_refl;
  RegisterMonitorType _ w := (mkEfmWorld (w_plugin w) (w_monitors w) (w_keys w) true (w_now w), tt);
  RunIfAbsent key _ _ m w :=
    match w_keys w !! key with
    | Some id => (w, Ok id)
    | None =>
        let id := fresh (dom (w_monitors w)) in
        (mkEfmWorld (w_plugin w)
           (<[id := NewHostMonitorImpl (failureDetectionTimeMillis m) (failureDetectionIntervalMillis m) (service_failureDetectionCount m)
                      (w_now w)]> (w_monitors w)) (<[key := id]> (w_keys w)) (w_registered w) (w_now w), Ok id)
    end;
  monitor_StartMonitoring monitor w :=
    let '(m, id) := start_call_state (w_now w) (default (NewHostMonitorImpl 0 0 0 0) (w_monitors w !! monitor)) in
    (mkEfmWorld (w_plugin w) (<[monitor := m]> (w_monitors w)) (w_keys w) (w_registered w) (w_now w), (monitor, id));
  state_ShouldAbort := of_state ShouldAbort;
  state_IsActive := of_state IsActive;
  state_SetInactive state w := (on_monitor state.1 (set_state state.2 SetInactive) w, tt)
|}.

#[export] Instance efm_monitors_laws : MonitorsLaws EfmWorld.
Proof.
  split.
  - intros monitor w w' state. cbn -[EfmMonitor.StartMonitoring]. intros [= <- <-]. unfold of_state.
    cbn -[EfmMonitor.StartMonitoring]. rewrite lookup_insert_eq. cbn. rewrite lookup_insert_eq. cbn.
    set (m := default _ _). unfold IsActive, GetConn. cbn.
    rewrite (bool_decide_false (fresh _ ∈ _)); [done|]. intros Hin. apply (is_fresh (dom (conns m) ∪ collected m)). apply elem_of_union. by right.
  - intros [monitor id] w. cbn. unfold of_state. cbn. rewrite lookup_alter_eq.
    destruct (w_monitors w !! monitor) as [m|]; [|done]. cbn. rewrite lookup_alter_eq. by destruct (states m !! id).
  - done.
Qed.

(** ** Example: a query on an instance *)

#[local] Instance efm_exec : ExecConn nat := fun _ _ _ => Some None.
#[local] Instance efm_dialect : DriverDialect nat := {| IsClosed _ _ := false; IsNetworkError _ := false; IsLoginError _ := false |}.
Local Abbreviation Efm_svc := (PluginServiceImpl (C := nat) (P := EfmWorld)).
Definition efm_host : HostInfo := mkHostInfo "one" "one" 3306 AVAILABLE WRITER None None 100 0.
Definition efm_service : Efm_svc :=
  mkService {[0%nat := efm_host]} (Some 5%nat) (Some 0%nat) (Some 0%nat) [0%nat] false None NewSessionStateServiceImpl []
    (mkManager false None "" no_entries) (Some MySQLDatabaseDialect) true None no_entries ∅
    (mkEfmWorld NewHostMonitorConnectionPlugin ∅ ∅ false 1000).
Definition efm_call (executeFunc : ExecuteFunc (S := Efm_svc) (V := nat)) : Efm_svc * Result (ExecResult nat) :=
  efm_Execute ∅ (fun _ _ => None) (fun _ => eff_ok None) 0%nat CONN_QUERY_CONTEXT executeFunc efm_service.
Definition efm_answer : ExecResult nat := mkExecResult 7%nat 0%nat true None.
Definition query_call : ExecuteFunc (S := Efm_svc) (V := nat) := st_ret efm_answer.
(** While this call runs the monitor finds the host unhealthy, and has not
    taken the connection yet. *)
Definition dying_call : ExecuteFunc (S := Efm_svc) (V := nat) := fun p =>
  (p <| p_plugins := on_monitor 0 (set_state 0 (SetHostUnhealthy true)) (p_plugins p) |>, efm_answer).

Example calls_monitored :
  (events (efm_call query_call).1, events (efm_call dying_call).1, dom (w_keys (p_plugins (efm_call query_call).1))) =
  ([], [Closed 5%nat], {["30000:5000:3:one:3306/"]}).
Proof. vm_compute. done. Qed.

Lemma efm_Execute_monitors_witness :
  exists state, state_IsActive (p_plugins (efm_call dying_call).1) state = false /\ events (efm_call dying_call).1 = [Closed 5%nat].
Proof.
  destruct (efm_call dying_call) as [p' r] eqn:E. assert (r = Ok efm_answer) as -> by (vm_compute in E; by injection E as <- <-).
  destruct (efm_Execute_monitors ∅ (fun _ _ => None) (fun _ => eff_ok None) 0%nat CONN_QUERY_CONTEXT dying_call efm_service p' efm_answer)
    as [(e & _ & He)|(p1 & p2 & state & Hs & _ & Hc & Hi & Hab)]; [refine (bool_decide_eq_true_1 (CONN_QUERY_CONTEXT ∈ NETWORK_BOUND_METHODS) _); by vm_compute|exact E|done|].
  exists state. split; [exact Hi|]. vm_compute in E. by injection E as <-.
Defined.

Lemma one_monitor_per_host_witness :
  keyValue (current_key (mkMonitoringService 1 2 3 4 (Some (mkMonitorKey "a:1/" "1:2:3:a:1/"))) "b:1/") <>
  keyValue (current_key (mkMonitoringService 1 2 3 9 None) "c:1/").
Proof.
  intros E. apply (one_monitor_per_host (mkMonitoringService 1 2 3 4 (Some (mkMonitorKey "a:1/" "1:2:3:a:1/"))) (mkMonitoringService 1 2 3 9 None))
    in E; [done| |done|done].
  intros k [= <-]. vm_compute. reflexivity.
Defined.
