(* ===== verification/ConnectionTracker.v ===== *)
(** * ConnectionTracker: the connections that are closed when their host stops
    being the writer (awssql/plugins/connection_tracker/opened_connection_tracker.go
    and awssql/plugins/aurora_connection_tracker.go).

    The tracker keeps weak pointers. What [weak.Make(&conn)] points to is the
    variable [conn] of [trackConnection], which nothing else refers to: these
    variables are the boxes of the model, by number, and the garbage collector
    ([collect]) may take any of them away at any time, whatever becomes of the
    connection. The tracker is shared by all connections of the program; it and
    the plugin are parts of the state [P] of the plugins. The log lines, and
    with them [LogOpenedConnections], are not modelled. *)

From S2P Require Import Prelude.
From S2P Require Import Methods.
From S2P Require Import HostInfo.
From S2P Require Import RWMap.
From S2P Require Import RWQueue.
From S2P Require Import CacheMap.
From S2P Require Import Effects.
From S2P Require Import Properties.
From S2P Require Import RdsUtils.
From S2P Require Import Dsn.
From S2P Require Import Dialects.
From S2P Require Import SqlMethods.
From S2P Require Import SessionState.
From S2P Require Import PluginManager.
From S2P Require Import PluginService.
From Stdlib Require Import Ascii.

Record Tracker (C : Type) := mkTracker {
  openedConnections : RWMap.RWMap string (RWQueue.RWQueue nat);
  boxes : gmap nat C;
  nextBox : nat
}.
Arguments mkTracker {C} _ _ _.
Arguments openedConnections {C} _.
Arguments boxes {C} _.
Arguments nextBox {C} _.
#[export] Instance Tracker_eta C : Eta (Tracker C) := fun t => mkTracker (openedConnections t) (boxes t) (nextBox t).
Definition NewOpenedConnectionTracker {C} : Tracker C := mkTracker RWMap.NewRWMap ∅ 0.

Record AuroraConnectionTrackerPlugin := mkTrackerPlugin { currentWriter : option loc; needUpdateCurrentWriter : bool }.
Definition NewAuroraConnectionTrackerPlugin : AuroraConnectionTrackerPlugin := mkTrackerPlugin None false.
Definition tracker_SubscribedMethods : list string :=
  [CONNECT_METHOD; CONN_CLOSE; NOTIFY_HOST_LIST_CHANGED_METHOD; NOTIFY_CONNECTION_CHANGED_METHOD] ++ NETWORK_BOUND_METHODS.

Class HasTracker (C P : Type) := {
  get_tracker : P -> Tracker C;
  put_tracker : Tracker C -> P -> P;
  get_tracker_plugin : P -> AuroraConnectionTrackerPlugin;
  put_tracker_plugin : AuroraConnectionTrackerPlugin -> P -> P;
  get_put_tracker t s : get_tracker (put_tracker t s) = t;
  get_tracker_put_plugin p s : get_tracker (put_tracker_plugin p s) = get_tracker s;
  get_put_plugin p s : get_tracker_plugin (put_tracker_plugin p s) = p;
  get_plugin_put_tracker t s : get_tracker_plugin (put_tracker t s) = get_tracker_plugin s
}.

(** ** Tracking *)

Section Tracker.
Context {C : Type}.

(** [wp.Value()] *)
Definition Value (wp : nat) (t : Tracker C) : option C := boxes t !! wp.

(** The garbage collector takes the boxes of [dead]. *)
Definition collect (dead : gset nat) (t : Tracker C) : Tracker C := t <| boxes := filter (fun e => e.1 ∉ dead) (boxes t) |>.

Definition queue_at (host : string) (t : Tracker C) : RWQueue.RWQueue nat :=
  default RWQueue.NewRWQueue (RWMap.Get host (openedConnections t)).
Definition set_queue (host : string) (q : RWQueue.RWQueue nat) (t : Tracker C) : Tracker C :=
  t <| openedConnections := RWMap.with_cache (<[host := q]> (RWMap.cache (openedConnections t))) (openedConnections t) |>.

Definition trackConnection (hostAndPort : string) (conn : C) (t : Tracker C) : Tracker C :=
  let wp := nextBox t in
  let '(m, connectionQueue) := RWMap.ComputeIfAbsent hostAndPort RWQueue.NewRWQueue (openedConnections t) in
  set_queue hostAndPort (RWQueue.Enqueue wp connectionQueue)
    (t <| openedConnections := m |> <| boxes := <[wp := conn]> (boxes t) |> <| nextBox := S wp |>).

Definition pruneNullConnections (t : Tracker C) : Tracker C :=
  t <| openedConnections := RWMap.with_cache
         (RWQueue.RemoveIf (fun wp => bool_decide (Value wp t = None)) <$> RWMap.cache (openedConnections t)) (openedConnections t) |>.
Definition ClearCache (t : Tracker C) : Tracker C := t <| openedConnections := RWMap.Clear (openedConnections t) |>.
End Tracker.

(** The greatest alias, in byte order, that names an instance. *)
Definition instance_alias `{PrepareHost} `{MapRange} (tick : nat) (aliases : gmap string bool) : string :=
  foldl (fun instanceEndpoint alias =>
    if IsRdsInstance (RemovePort alias) then
      (if bool_decide (String.compare alias instanceEndpoint = Gt) then alias else instanceEndpoint)
    else instanceEndpoint) "" (range tick aliases).*1.

Definition PopulateOpenedConnectionQueue `{PrepareHost} `{MapRange} {C} (tick : nat) (hostInfo : option HostInfo) (conn : C) (t : Tracker C) :
  Tracker C :=
  let t := if IsRdsInstance (HostInfo.GetHost hostInfo) then trackConnection (GetHostAndPort hostInfo) conn t else t in
  let instanceEndpoint := instance_alias tick (default ∅ (hostInfo ≫= AllAliases)) in
  if is_empty instanceEndpoint then t else trackConnection instanceEndpoint conn t.

(** ** Invalidating *)

Section Plugin.
Context {C V Sel P : Type} `{EqDecision C} `{ExecConn C} `{DriverDialect C} `{PrepareHost} `{MapRange} `{HasTracker C P}.
Local Abbreviation Svc := (PluginServiceImpl (C := C) (P := P)).
Local Abbreviation Plugin := (ConnectionPlugin Svc V C Sel loc).

Definition tracker (p : Svc) : Tracker C := get_tracker (p_plugins p).
Definition set_tracker (f : Tracker C -> Tracker C) : St Svc unit :=
  modify (fun p => p <| p_plugins := put_tracker (f (tracker p)) (p_plugins p) |>).
Definition tp (p : Svc) : AuroraConnectionTrackerPlugin := get_tracker_plugin (p_plugins p).
Definition set_tp (f : AuroraConnectionTrackerPlugin -> AuroraConnectionTrackerPlugin) : St Svc unit :=
  modify (fun p => p <| p_plugins := put_tracker_plugin (f (tp p)) (p_plugins p) |>).

Definition close_value (wp : nat) : St Svc unit := fun p =>
  match Value wp (tracker p) with Some conn => emit (Closed conn) p | None => (p, tt) end.

(** The loop dequeues until the queue is empty: [Size] rounds, since nothing
    is enqueued meanwhile. *)
Fixpoint close_all (wps : list nat) : St Svc unit :=
  match wps with
  | [] => st_ret tt
  | wp :: wps => (do! close_value wp in close_all wps)%eff
  end.
Definition invalidateConnections (instanceEndpoint : string) : St Svc unit := fun p =>
  let connectionQueue := queue_at instanceEndpoint (tracker p) in
  let '(wps, connectionQueue) := RWQueue.drain (RWQueue.Size connectionQueue) connectionQueue in
  (do! set_tracker (set_queue instanceEndpoint connectionQueue) in close_all wps)%eff p.

Definition InvalidateAllConnectionsMultipleHosts (hosts : list string) : St Svc unit := fun p =>
  match list_find (fun host => IsRdsInstance (RemovePort host)) hosts with
  | None => (p, tt)
  | Some (_, instanceEndpoint) =>
      if is_empty instanceEndpoint then (p, tt)
      else match RWMap.Get instanceEndpoint (openedConnections (tracker p)) with
           | None => (p, tt)
           | Some _ => invalidateConnections instanceEndpoint p
           end
  end.

Definition InvalidateAllConnections (tick : nat) (hostInfo : HostInfo) : St Svc unit :=
  (do! InvalidateAllConnectionsMultipleHosts [GetHostAndPort (Some hostInfo)] in
   InvalidateAllConnectionsMultipleHosts (range tick (default ∅ (AllAliases hostInfo))).*1)%eff.

(** ** The plugin *)

Definition rememberWriter : St Svc unit := fun p =>
  if bool_decide (currentWriter (tp p) = None) || needUpdateCurrentWriter (tp p)
  then set_tp (fun _ => mkTrackerPlugin (GetWriter_at p (AllHosts p)) false) p
  else (p, tt).

(** The line printed on the standard output is left out. *)
Definition checkWriterChanged (tick : nat) : St Svc unit := fun p =>
  match GetWriter_at p (AllHosts p) with
  | None => (p, tt)
  | Some hostInfoAfterFailover =>
      match currentWriter (tp p) with
      | None => set_tp (fun _ => mkTrackerPlugin (Some hostInfoAfterFailover) false) p
      | Some writer =>
          if bool_decide (key_at p writer <> key_at p hostInfoAfterFailover) then
            (do! match host_at p writer with Some h => InvalidateAllConnections tick h | None => st_ret tt end in
             set_tp (fun _ => mkTrackerPlugin (Some hostInfoAfterFailover) false))%eff p
          else (p, tt)
      end
  end.

(** An error of the wrapper itself of one of the types of a failover. *)
Definition failover_error (err : go_error) : bool :=
  match err with AwsError t _ _ => IsFailoverErrorType t | PlainError _ _ => false end.

Definition tracker_Execute (tick : nat) (executeFunc : ExecuteFunc (S := Svc) (V := V)) : ExecuteFunc (S := Svc) (V := V) :=
  (do! rememberWriter in
   let! wrapped := executeFunc in
   do! match returnErr wrapped with
       | Some wrappedErr => if failover_error wrappedErr then checkWriterChanged tick else st_ret tt
       | None => st_ret tt
       end in
   st_ret wrapped)%eff.

Context `{DriverConn C} (providers : nat -> HostListProvider (C := C) (P := P)).

Definition tracker_Connect (tick : nat) (hostInfo : loc) (props : properties) (connectFunc : ConnectFunc (S := Svc) (C := C)) : Eff Svc C :=
  (try! conn := connectFunc props in
   let! rdsUrlType := gets (fun p => IdentifyRdsUrlType (HostInfo.GetHost (host_at p hostInfo))) in
   try! _ := (if RdsUtils.IsRdsCluster rdsUrlType || bool_decide (rdsUrlType = OTHER) || bool_decide (rdsUrlType = IP_ADDRESS) then
                (do! modify (fun p => match host_at p hostInfo with Some h => set_host hostInfo (ResetAliases h) p | None => p end) in
                 FillAliases providers conn (Some hostInfo))
              else eff_ok tt) in
   do! (fun p => set_tracker (PopulateOpenedConnectionQueue tick (host_at p hostInfo) conn) p) in
   eff_ok conn)%eff.

Definition notify_host (host : string) (changes : gset HostChangeOptions) : St Svc unit :=
  (do! (if bool_decide (PROMOTED_TO_READER ∈ changes) then InvalidateAllConnectionsMultipleHosts [host] else st_ret tt) in
   if bool_decide (PROMOTED_TO_WRITER ∈ changes) then InvalidateAllConnectionsMultipleHosts [host] else st_ret tt)%eff.
Fixpoint notify_changes (l : list (string * gset HostChangeOptions)) : St Svc unit :=
  match l with
  | [] => st_ret tt
  | (host, changes) :: l => (do! notify_host host changes in notify_changes l)%eff
  end.
Definition tracker_NotifyHostListChanged (tick : nat) (changes : gmap string (gset HostChangeOptions)) : St Svc unit :=
  (do! notify_changes (range tick changes) in
   set_tp (fun a => mkTrackerPlugin (currentWriter a) true))%eff.
Definition tracker_ClearCaches : St Svc unit := set_tracker pruneNullConnections.
End Plugin.

(** ** What an invalidation closes *)

(** The connections tracked for a host whose boxes are still there. *)
Definition live {C} (host : string) (t : Tracker C) : list C :=
  omap (fun wp => Value wp t) (RWQueue.items (queue_at host t)).

Lemma drain_all {T} (q : RWQueue.RWQueue T) : RWQueue.drain (RWQueue.Size q) q = (RWQueue.items q, RWQueue.NewRWQueue).
Proof. destruct q as [l]. unfold RWQueue.Size. cbn. induction l as [|x l IH]; [done|]. cbn. by rewrite IH. Qed.

Lemma queue_at_set {C} host q (t : Tracker C) : queue_at host (set_queue host q t) = q.
Proof. unfold queue_at, set_queue, RWMap.Get. cbn. by rewrite lookup_insert_eq. Qed.
Lemma queue_at_set_ne {C} host host' q (t : Tracker C) : host' <> host -> queue_at host' (set_queue host q t) = queue_at host' t.
Proof. intros Hne. unfold queue_at, set_queue, RWMap.Get. cbn. by rewrite lookup_insert_ne. Qed.

Lemma trackConnection_queue {C} host (conn : C) t :
  queue_at host (trackConnection host conn t) = RWQueue.Enqueue (nextBox t) (queue_at host t).
Proof.
  unfold trackConnection, RWMap.ComputeIfAbsent. destruct (RWMap.cache (openedConnections t) !! host) as [q|] eqn:E;
    rewrite queue_at_set; unfold queue_at, RWMap.Get; rewrite E; done.
Qed.

Lemma trackConnection_fields {C} host (conn : C) t :
  boxes (trackConnection host conn t) = <[nextBox t := conn]> (boxes t) /\ nextBox (trackConnection host conn t) = S (nextBox t).
Proof. unfold trackConnection. by destruct (RWMap.ComputeIfAbsent host _ _) as [m q]. Qed.
Lemma trackConnection_queue_ne {C} host host' (conn : C) t :
  host' <> host -> queue_at host' (trackConnection host conn t) = queue_at host' t.
Proof.
  intros Hne. unfold trackConnection, RWMap.ComputeIfAbsent. destruct (RWMap.cache (openedConnections t) !! host) as [q|];
    rewrite queue_at_set_ne by done; unfold queue_at, RWMap.Get; cbn; rewrite ?lookup_insert_ne by done; done.
Qed.

(** Boxes in use have numbers below the next one. *)
Definition numbered {C} (t : Tracker C) : Prop :=
  forall host wp, wp ∈ RWQueue.items (queue_at host t) -> (wp < nextBox t)%nat.

Lemma trackConnection_spec {C} host0 (conn : C) t :
  numbered t ->
  conn ∈ live host0 (trackConnection host0 conn t) /\
  (forall host c, c ∈ live host t -> c ∈ live host (trackConnection host0 conn t)) /\
  numbered (trackConnection host0 conn t).
Proof.
  intros Hb. destruct (trackConnection_fields host0 conn t) as [Bx Nx].
  assert (Hv : forall wp c, (wp < nextBox t)%nat -> Value wp t = Some c -> Value wp (trackConnection host0 conn t) = Some c).
  { intros wp c Hlt Hc. unfold Value. rewrite Bx, lookup_insert_ne by lia. done. }
  unfold live. split; [|split].
  - apply list_elem_of_omap. exists (nextBox t). rewrite trackConnection_queue. cbn. split; [by apply elem_of_app; right; left|].
    unfold Value. by rewrite Bx, lookup_insert_eq.
  - intros host c (wp & Hwp & Hc)%list_elem_of_omap. apply list_elem_of_omap. exists wp. split; [|eapply Hv; eauto].
    destruct (decide (host = host0)) as [->|Hne]; [|by rewrite trackConnection_queue_ne].
    rewrite trackConnection_queue. cbn. apply elem_of_app. by left.
  - intros host wp. rewrite Nx. destruct (decide (host = host0)) as [->|Hne].
    + rewrite trackConnection_queue. cbn. intros [Hwp%Hb|Hwp%list_elem_of_singleton]%elem_of_app; lia.
    + rewrite trackConnection_queue_ne by done. intros Hwp%Hb. lia.
Qed.

Section Plugin_facts.
Context {C V Sel P : Type} `{EqDecision C} `{ExecConn C} `{DriverDialect C} `{PrepareHost} `{MapRange} `{HasTracker C P}.
Local Abbreviation Svc := (PluginServiceImpl (C := C) (P := P)).

Lemma close_all_eq wps (p : Svc) :
  close_all wps p = (p <| events := events p ++ (Closed <$> omap (fun wp => Value wp (tracker p)) wps) |>, tt).
Proof.
  revert p. induction wps as [|wp wps IH]; intros p; cbn [close_all].
  - unfold st_ret. cbn. rewrite app_nil_r. by destruct p.
  - unfold st_bind, close_value. cbn [omap list_omap]. destruct (Value wp (tracker p)) as [c|].
    + unfold emit, modify. rewrite IH. cbn. by rewrite <-app_assoc.
    + by rewrite IH.
Qed.

(** What an invalidation of one host does. *)
Record invalidated (host : string) (p p' : Svc) : Prop := {
  inv_events : events p' = events p ++ (Closed <$> live host (tracker p));
  inv_empty : live host (tracker p') = [];
  inv_others host' : host' <> host -> live host' (tracker p') = live host' (tracker p);
  inv_boxes : boxes (tracker p') = boxes (tracker p);
  inv_plugin : tp p' = tp p;
  inv_heap : heap p' = heap p;
  inv_hosts : AllHosts p' = AllHosts p
}.

Lemma invalidateConnections_spec host (p : Svc) : invalidated host p (invalidateConnections host p).1.
Proof.
  unfold invalidateConnections. rewrite drain_all. unfold st_bind, set_tracker, modify. rewrite close_all_eq. cbn [fst].
  assert (Ht : tracker (p <| p_plugins := put_tracker (set_queue host RWQueue.NewRWQueue (tracker p)) (p_plugins p) |>) =
               set_queue host RWQueue.NewRWQueue (tracker p)) by (unfold tracker; cbn; by rewrite get_put_tracker).
  split; unfold live.
  - rewrite Ht. done.
  - change (tracker (?q <| events := _ |>)) with (tracker q). rewrite Ht, queue_at_set. done.
  - intros host' Hne. change (tracker (?q <| events := _ |>)) with (tracker q). rewrite Ht, queue_at_set_ne by done. done.
  - change (tracker (?q <| events := _ |>)) with (tracker q). by rewrite Ht.
  - unfold tp. cbn. by rewrite get_plugin_put_tracker.
  - done.
  - done.
Qed.

Lemma invalidated_nothing host (p : Svc) : live host (tracker p) = [] -> invalidated host p p.
Proof. intros Hl. split; try done. by rewrite Hl, app_nil_r. Qed.

Definition instance_key (host : string) : bool := IsRdsInstance (RemovePort host) && negb (is_empty host).

Lemma Invalidate_one host (p : Svc) :
  instance_key host = true -> invalidated host p (InvalidateAllConnectionsMultipleHosts [host] p).1.
Proof.
  intros [Hi He%negb_true_iff]%andb_true_iff. unfold InvalidateAllConnectionsMultipleHosts. cbn [list_find].
  rewrite decide_True by (by rewrite Hi). rewrite He.
  destruct (RWMap.Get host _) eqn:E; [apply invalidateConnections_spec|].
  cbn [fst]. apply invalidated_nothing. unfold live, queue_at. by rewrite E.
Qed.
Lemma Invalidate_one_other host (p : Svc) :
  instance_key host = false -> InvalidateAllConnectionsMultipleHosts [host] p = (p, tt).
Proof.
  unfold instance_key, InvalidateAllConnectionsMultipleHosts. cbn [list_find].
  destruct (IsRdsInstance (RemovePort host)); cbn -[is_empty]; [|done].
  intros He%negb_false_iff. rewrite decide_True by done. by rewrite He.
Qed.

(** *** Changes of the host list *)

Definition is_promoted (changes : gset HostChangeOptions) : bool :=
  bool_decide (PROMOTED_TO_READER ∈ changes) || bool_decide (PROMOTED_TO_WRITER ∈ changes).
(** The hosts of a list of changes whose connections are closed. *)
Definition closing (l : list (string * gset HostChangeOptions)) : list string :=
  (FilterSlice l (fun e => is_promoted e.2 && instance_key e.1)).*1.

Lemma invalidated_twice host (p q r : Svc) : invalidated host p q -> invalidated host q r -> invalidated host p r.
Proof.
  intros [E1 M1 O1 B1 T1 H1' L1] [E2 M2 O2 B2 T2 H2' L2]. split; [|done| |congruence..].
  - rewrite E2, E1, M1. cbn. by rewrite app_nil_r.
  - intros host' Hne. rewrite O2 by done. by apply O1.
Qed.

(** One entry of the changes: its host is invalidated, or nothing happens. *)
Lemma notify_one host changes (p : Svc) :
  let p' := (notify_host host changes p).1 in
  if is_promoted changes && instance_key host then invalidated host p p' else p' = p.
Proof.
  unfold notify_host, is_promoted, st_bind, st_ret. destruct (instance_key host) eqn:Hi.
  - rewrite andb_true_r. destruct (bool_decide (PROMOTED_TO_READER ∈ changes)); cbn [orb].
    + destruct (InvalidateAllConnectionsMultipleHosts [host] p) as [q []] eqn:E.
      assert (K : invalidated host p q) by (change q with (q, tt).1; rewrite <-E; by apply Invalidate_one).
      destruct (bool_decide _); cbn; [|done]. eapply invalidated_twice; [exact K|]. by apply Invalidate_one.
    + destruct (bool_decide _); [|done]. by apply Invalidate_one.
  - rewrite andb_false_r. destruct (bool_decide _), (bool_decide _); rewrite ?Invalidate_one_other by done; done.
Qed.

Lemma notify_changes_spec l : forall p : Svc, NoDup l.*1 ->
  let p' := (notify_changes l p).1 in
  events p' = events p ++ (Closed <$> mjoin ((fun host => live host (tracker p)) <$> closing l)) /\
  (forall host, live host (tracker p') = if bool_decide (host ∈ closing l) then [] else live host (tracker p)).
Proof.
  induction l as [|[host changes] l IH]; intros p Hnd; [by rewrite app_nil_r|]. apply NoDup_cons in Hnd as [Hin Hnd].
  pose proof (notify_one host changes p) as K. cbn [notify_changes]. unfold st_bind in *.
  destruct (notify_host host changes p) as [q []]. cbn [fst] in K.
  destruct (IH q Hnd) as [Ev Lv]. cbv zeta. rewrite Ev. unfold closing. cbn [FilterSlice fst snd].
  assert (Hc : host ∉ closing l).
  { intros Hc. apply Hin. unfold closing in Hc. apply list_elem_of_fmap in Hc as (e & -> & He). apply list_elem_of_fmap.
    exists e. split; [done|]. by apply elem_of_FilterSlice in He as [_ He]. }
  destruct (is_promoted changes && instance_key host).
  - destruct K as [Ke Km Ko _ _ _ _]. cbn [fmap list_fmap]. fold (closing l). split.
    + rewrite Ke, <-app_assoc. cbn [mjoin list_join]. rewrite fmap_app. do 4 f_equal.
      apply list_fmap_ext. intros i h Hi. apply Ko. intros ->. apply Hc. by eapply list_elem_of_lookup_2.
    + intros h. rewrite Lv. destruct (decide (h = host)) as [->|Hne].
      * rewrite Km. rewrite bool_decide_eq_false_2 by done. by rewrite bool_decide_eq_true_2 by left.
      * rewrite Ko by done. erewrite bool_decide_ext; [reflexivity|]. rewrite elem_of_cons. naive_solver.
  - subst q. done.
Qed.
End Plugin_facts.

(** ** Claims *)

Section claims.
Context {C V Sel P : Type} `{EqDecision C} `{ExecConn C} `{DriverDialect C} `{PrepareHost} `{MapRange} `{HasTracker C P}.
Local Abbreviation Svc := (PluginServiceImpl (C := C) (P := P)).

(** C20. When the host list changes, the connections closed are exactly the
    tracked ones of the instances that became reader or writer; none of them
    stays tracked and the writer is looked up again. *)
Theorem promoted_hosts_lose_connections tick changes (p : Svc) :
  let p' := (tracker_NotifyHostListChanged tick changes p).1 in
  exists closed,
    events p' = events p ++ (Closed <$> closed) /\
    (forall c, c ∈ closed <->
       exists host cs, changes !! host = Some cs /\ is_promoted cs = true /\ instance_key host = true /\ c ∈ live host (tracker p)) /\
    (forall host cs, changes !! host = Some cs -> is_promoted cs = true -> instance_key host = true ->
       live host (tracker p') = []) /\
    needUpdateCurrentWriter (tp p') = true.
Proof.
  unfold tracker_NotifyHostListChanged, st_bind.
  assert (Hnd : NoDup (range tick changes).*1) by (rewrite range_perm; apply NoDup_fst_map_to_list).
  pose proof (notify_changes_spec (range tick changes) p Hnd) as [Ev Lv].
  destruct (notify_changes (range tick changes) p) as [q []]. cbn [fst] in Ev, Lv.
  assert (Hc : forall host, host ∈ closing (range tick changes) <->
            exists cs, changes !! host = Some cs /\ is_promoted cs = true /\ instance_key host = true).
  { intros host. unfold closing. rewrite list_elem_of_fmap. split.
    - intros ([h cs] & -> & [[? ?]%andb_true_iff ?%elem_of_range]%elem_of_FilterSlice). by exists cs.
    - intros (cs & E & Hp & Hi). exists (host, cs). split; [done|]. apply elem_of_FilterSlice. split; [|by apply elem_of_range].
      cbn [fst snd]. by rewrite Hp, Hi. }
  assert (Ht : tracker (set_tp (fun a => mkTrackerPlugin (currentWriter a) true) q).1 = tracker q)
    by (unfold tracker; cbn; by rewrite get_tracker_put_plugin).
  eexists. split; [exact Ev|]. split; [|split].
  - intros c. rewrite list_elem_of_join. split.
    + intros (l & Hl & (host & -> & (cs & ? & ? & ?)%Hc)%list_elem_of_fmap). by exists host, cs.
    + intros (host & cs & ? & ? & ? & ?). exists (live host (tracker p)). split; [done|].
      apply list_elem_of_fmap. exists host. split; [done|]. apply Hc. by exists cs.
  - intros host cs ? ? ?. rewrite Ht, Lv, bool_decide_eq_true_2; [done|]. apply Hc. by exists cs.
  - unfold tp. cbn. by rewrite get_put_plugin.
Qed.

(** A connection to an instance is tracked under the name of that instance as
    soon as it is opened, whatever its aliases are. *)
Theorem opened_connection_is_tracked tick h conn (t : Tracker C) :
  numbered t ->
  IsRdsInstance (HostInfo.GetHost (Some h)) = true ->
  let t' := PopulateOpenedConnectionQueue tick (Some h) conn t in
  conn ∈ live (GetHostAndPort (Some h)) t' /\
  (forall host c, c ∈ live host t -> c ∈ live host t').
Proof.
  intros Hb Hi. cbv zeta. unfold PopulateOpenedConnectionQueue. rewrite Hi.
  destruct (trackConnection_spec (GetHostAndPort (Some h)) conn t Hb) as (A & B & D).
  destruct (is_empty _); [done|].
  destruct (trackConnection_spec (instance_alias tick (default ∅ (Some h ≫= AllAliases))) conn _ D) as (A' & B' & _). auto.
Qed.

(** *** Failing over *)

Lemma Invalidate_some hosts (p : Svc) :
  InvalidateAllConnectionsMultipleHosts hosts p = (p, tt) \/
  exists host, invalidated host p (InvalidateAllConnectionsMultipleHosts hosts p).1.
Proof.
  unfold InvalidateAllConnectionsMultipleHosts. destruct (list_find _ hosts) as [[i host]|]; [|by left].
  destruct (is_empty host); [by left|]. destruct (RWMap.Get host _); [|by left].
  right. exists host. apply invalidateConnections_spec.
Qed.

Lemma InvalidateAll_spec tick h (p : Svc) :
  let host := GetHostAndPort (Some h) in
  let p' := (InvalidateAllConnections tick h p).1 in
  instance_key host = true ->
  (exists more, events p' = events p ++ (Closed <$> live host (tracker p)) ++ (Closed <$> more)) /\ live host (tracker p') = [].
Proof.
  cbv zeta. intros Hi. unfold InvalidateAllConnections, st_bind. pose proof (Invalidate_one _ p Hi) as K.
  destruct (InvalidateAllConnectionsMultipleHosts [GetHostAndPort (Some h)] p) as [q []]. cbn [fst] in K.
  destruct K as [Ke Km Ko _ _ _ _].
  destruct (Invalidate_some (range tick (default ∅ (AllAliases h))).*1 q) as [->|[host [Ke' Km' Ko' _ _ _ _]]].
  - split; [exists []; by rewrite app_nil_r|done].
  - split; [eexists; rewrite Ke', Ke, <-app_assoc; reflexivity|].
    destruct (decide (GetHostAndPort (Some h) = host)) as [->|Hne]; [done|]. by rewrite Ko'.
Qed.

(** When a call ends with an error of a failover and the writer is no longer
    the one remembered, the connections tracked for the old writer are closed,
    the new one is remembered, and the result of the call is untouched. *)
Theorem failover_closes_old_writer_connections tick (executeFunc : ExecuteFunc (S := Svc) (V := V)) p p1 wrapped err w h w' :
  executeFunc (rememberWriter p).1 = (p1, wrapped) ->
  returnErr wrapped = Some err -> failover_error err = true ->
  currentWriter (tp p1) = Some w -> host_at p1 w = Some h -> instance_key (key_at p1 w) = true ->
  GetWriter_at p1 (AllHosts p1) = Some w' -> key_at p1 w <> key_at p1 w' ->
  exists p2 more, tracker_Execute tick executeFunc p = (p2, wrapped) /\
    events p2 = events p1 ++ (Closed <$> live (key_at p1 w) (tracker p1)) ++ (Closed <$> more) /\
    live (key_at p1 w) (tracker p2) = [] /\ currentWriter (tp p2) = Some w'.
Proof.
  intros He Hr Hf Hw Hh Hi Hw' Hne. unfold tracker_Execute, st_bind.
  destruct (rememberWriter p) as [p0 []]. cbn [fst] in He. rewrite He, Hr, Hf.
  unfold checkWriterChanged. rewrite Hw', Hw, bool_decide_eq_true_2 by done. unfold st_bind. rewrite Hh.
  assert (Hk : key_at p1 w = GetHostAndPort (Some h)) by (unfold key_at; by rewrite Hh). rewrite Hk in *.
  destruct (InvalidateAll_spec tick h p1 Hi) as [[more Ke] Kl].
  destruct (InvalidateAllConnections tick h p1) as [q []]. cbn [fst] in Ke, Kl.
  eexists _, more. split; [reflexivity|]. split; [exact Ke|]. split.
  - unfold tracker. cbn. by rewrite get_tracker_put_plugin.
  - unfold tp. cbn. by rewrite get_put_plugin.
Qed.

(** A call without such an error changes nothing but what the plugin
    remembers. *)
Lemma tracker_Execute_plain tick (executeFunc : ExecuteFunc (S := Svc) (V := V)) p :
  from_option failover_error false (returnErr (executeFunc (rememberWriter p).1).2) = false ->
  tracker_Execute tick executeFunc p = executeFunc (rememberWriter p).1.
Proof.
  unfold tracker_Execute, st_bind. destruct (rememberWriter p) as [p0 []]. cbn [fst].
  destruct (executeFunc p0) as [p1 wrapped]. cbn [snd]. destruct (returnErr wrapped); cbn; [|done]. by intros ->.
Qed.

End claims.

(** Pruning drops the pointers whose boxes are gone, and no others. *)
Lemma prune_keeps_live {C} (t : Tracker C) host :
  RWQueue.items (queue_at host (pruneNullConnections t)) =
    FilterSlice (RWQueue.items (queue_at host t)) (fun wp => negb (bool_decide (Value wp t = None))) /\
  live host (pruneNullConnections t) = live host t.
Proof.
  assert (Hq : RWQueue.items (queue_at host (pruneNullConnections t)) =
    FilterSlice (RWQueue.items (queue_at host t)) (fun wp => negb (bool_decide (Value wp t = None)))).
  { unfold queue_at, pruneNullConnections, RWMap.Get. cbn. rewrite lookup_fmap.
    destruct (RWMap.cache (openedConnections t) !! host) as [q|]; [|done]. cbn. apply RWQueue.RemoveIf_items. }
  split; [exact Hq|]. unfold live. rewrite Hq.
  change (fun wp => Value wp (pruneNullConnections t)) with (fun wp => Value wp t).
  clear Hq. induction (RWQueue.items (queue_at host t)) as [|wp l IH]; [done|]. cbn.
  destruct (Value wp t) eqn:E; cbn; rewrite ?E; by rewrite IH.
Qed.

(** ** Examples: the writer moves from one instance to another *)

#[local] Instance only_tracker : HasTracker nat (Tracker nat * AuroraConnectionTrackerPlugin) := {|
  get_tracker := fst; put_tracker t s := (t, s.2); get_tracker_plugin := snd; put_tracker_plugin a s := (s.1, a);
  get_put_tracker _ _ := eq_refl; get_tracker_put_plugin _ _ := eq_refl; get_put_plugin _ _ := eq_refl;
  get_plugin_put_tracker _ _ := eq_refl |}.
#[local] Instance accepting_conn : ExecConn nat := fun _ _ _ => Some None.
#[local] Instance open_conn : DriverDialect nat := {| IsClosed _ _ := false; IsNetworkError _ := false; IsLoginError _ := false |}.
#[local] Instance host_as_is : PrepareHost := None.
Local Abbreviation Tracker_svc := (PluginServiceImpl (C := nat) (P := Tracker nat * AuroraConnectionTrackerPlugin)).

Definition instance_host (name role : string) : HostInfo :=
  mkHostInfo (name +:+ ".xyz.us-east-2.rds.amazonaws.com") name 3306 AVAILABLE role None
    (Some {[name +:+ ".xyz.us-east-2.rds.amazonaws.com:3306" := true]}) 100 0.
Definition instance_endpoint (name : string) : string := GetHostAndPort (Some (instance_host name READER)).
(** Host 0 is the instance [a], host 1 the instance [b]; 2 and 3 are the same
    instances after their roles changed. *)
Definition tracker_service (hosts : list loc) (t : Tracker nat) (a : AuroraConnectionTrackerPlugin) : Tracker_svc :=
  mkService {[0%nat := instance_host "a" WRITER; 1%nat := instance_host "b" READER;
              2%nat := instance_host "a" READER; 3%nat := instance_host "b" WRITER]}
    (Some 1%nat) (Some 0%nat) (Some 0%nat) hosts false None NewSessionStateServiceImpl []
    (mkManager false None "" (CacheMap.mkCacheMap ∅ 0 0)) (Some MySQLDatabaseDialect) true None
    (CacheMap.mkCacheMap ∅ 0 0) ∅ (t, a).

(** Connections 7 and 8 to [a], 9 to [b]. *)
Definition tracked : Tracker nat :=
  PopulateOpenedConnectionQueue 0 (Some (instance_host "b" READER)) 9%nat
    (PopulateOpenedConnectionQueue 0 (Some (instance_host "a" WRITER)) 8%nat
       (PopulateOpenedConnectionQueue 0 (Some (instance_host "a" WRITER)) 7%nat NewOpenedConnectionTracker)).

(** A connection to an instance is tracked twice under the same name, once for
    the host and once for its alias. *)
Example tracked_twice :
  live (instance_endpoint "a") tracked = [7; 7; 8; 8]%nat /\ live (instance_endpoint "b") tracked = [9; 9]%nat.
Proof. by vm_compute. Qed.

Lemma opened_connection_is_tracked_witness :
  numbered (C := nat) NewOpenedConnectionTracker /\
  IsRdsInstance (HostInfo.GetHost (Some (instance_host "a" WRITER))) = true /\
  7%nat ∈ live (instance_endpoint "a") (PopulateOpenedConnectionQueue 0 (Some (instance_host "a" WRITER)) 7%nat NewOpenedConnectionTracker).
Proof.
  assert (H1 : numbered (C := nat) NewOpenedConnectionTracker).
  { intros host wp. unfold queue_at, RWMap.Get. cbn. rewrite lookup_empty. cbn. by intros ?%elem_of_nil. }
  assert (H2 : IsRdsInstance (HostInfo.GetHost (Some (instance_host "a" WRITER))) = true) by (by vm_compute).
  split; [exact H1|]. split; [exact H2|].
  destruct (opened_connection_is_tracked 0 (instance_host "a" WRITER) 7%nat NewOpenedConnectionTracker H1 H2) as [A _].
  exact A.
Defined.

Definition promoted_to_reader : gset HostChangeOptions := {[PROMOTED_TO_READER]}.
Definition went_up : gset HostChangeOptions := {[WENT_UP]}.
Example promotion_closes :
  events (tracker_NotifyHostListChanged 0 {[instance_endpoint "a" := promoted_to_reader; instance_endpoint "b" := went_up]}
            (tracker_service [2; 3]%nat tracked NewAuroraConnectionTrackerPlugin)).1 =
  [Closed 7; Closed 7; Closed 8; Closed 8]%nat.
Proof. by vm_compute. Qed.

(** The call that fails over: the hosts it leaves are those after the change. *)
Definition failing_over : ExecuteFunc (S := Tracker_svc) (V := nat) := fun p =>
  (p <| AllHosts := [2; 3]%nat |>, mkExecResult 0%nat 0%nat false (Some (AwsError FailoverSuccessErrorType "Failover.connectionChangedError" []))).
Lemma failover_closes_old_writer_connections_witness :
  exists p2 more, tracker_Execute 0 failing_over (tracker_service [0; 1]%nat tracked NewAuroraConnectionTrackerPlugin) =
      (p2, mkExecResult 0%nat 0%nat false (Some (AwsError FailoverSuccessErrorType "Failover.connectionChangedError" []))) /\
    events p2 = [Closed 7; Closed 7; Closed 8; Closed 8]%nat ++ (Closed <$> more) /\ currentWriter (tp p2) = Some 3%nat.
Proof.
  set (p := tracker_service [0; 1]%nat tracked NewAuroraConnectionTrackerPlugin).
  destruct (failover_closes_old_writer_connections 0 failing_over p (tracker_service [2; 3]%nat tracked (mkTrackerPlugin (Some 0%nat) false))
    (mkExecResult 0%nat 0%nat false (Some (AwsError FailoverSuccessErrorType "Failover.connectionChangedError" [])))
    (AwsError FailoverSuccessErrorType "Failover.connectionChangedError" []) 0%nat (instance_host "a" WRITER) 3%nat)
    as (p2 & more & A & B & _ & D); [by vm_compute..|].
  exists p2, more. split; [exact A|]. split; [|exact D]. rewrite B. by vm_compute.
Defined.

(** A collection between the opening of the connections and the promotion. *)
Example promotion_after_collection :
  let p := tracker_service [2; 3]%nat (collect (list_to_set (seq 0 6)) tracked) NewAuroraConnectionTrackerPlugin in
  events (tracker_NotifyHostListChanged 0 {[instance_endpoint "a" := promoted_to_reader]} p).1 = [].
Proof. by vm_compute. Qed.
