(* ===== verification/DefaultPlugin.v ===== *)
(** * DefaultPlugin: the end of every chain of plugins, and the providers that
    open connections (awssql/plugins/default_plugin.go,
    awssql/driver_infrastructure/connection_provider_manager.go,
    driver_connection_provider.go).

    A provider is a record of functions; the custom provider of the user and
    the target driver are parameters. *)

From S2P Require Import Prelude.
From S2P Require Import Methods.
From S2P Require Import HostInfo.
From S2P Require Import CacheMap.
From S2P Require Import Effects.
From S2P Require Import Properties.
From S2P Require Import RdsUtils.
From S2P Require Import Dsn.
From S2P Require Import HostSelectors.
From S2P Require Import Dialects.
From S2P Require Import SqlMethods.
From S2P Require Import SessionState.
From S2P Require Import PluginManager.
From S2P Require Import PluginService.

(** ** Providers *)

Section Providers.
Context {S C Sel Hst : Type}.

Record ConnectionProvider := mkConnectionProvider {
  cp_AcceptsUrl : Hst -> properties -> S -> bool;
  cp_AcceptsStrategy : string -> bool;
  cp_GetHostInfoByStrategy : list Hst -> string -> string -> properties -> Eff S Hst;
  cp_GetHostSelectorStrategy : string -> Result Sel;
  cp_Connect : Hst -> properties -> Eff S C
}.

Record ConnectionProviderManager := mkProviderManager {
  DefaultProvider : ConnectionProvider;
  EffectiveProvider : option ConnectionProvider
}.

Context (customConnectionProvider : option ConnectionProvider) (connProviderManager : ConnectionProviderManager).

Definition GetConnectionProvider (hostInfo : Hst) (props : properties) (s : S) : ConnectionProvider :=
  let accepts p := cp_AcceptsUrl p hostInfo props s in
  match customConnectionProvider with
  | Some c => if accepts c then c
              else match EffectiveProvider connProviderManager with
                   | Some e => if accepts e then e else DefaultProvider connProviderManager
                   | None => DefaultProvider connProviderManager
                   end
  | None => match EffectiveProvider connProviderManager with
            | Some e => if accepts e then e else DefaultProvider connProviderManager
            | None => DefaultProvider connProviderManager
            end
  end.

Definition accepts_strategy (strategy : string) (p : option ConnectionProvider) : bool :=
  match p with Some p => cp_AcceptsStrategy p strategy | None => false end.
Definition cpm_AcceptsStrategy (strategy : string) : bool :=
  accepts_strategy strategy customConnectionProvider ||
  accepts_strategy strategy (EffectiveProvider connProviderManager) ||
  cp_AcceptsStrategy (DefaultProvider connProviderManager) strategy.

(** The answer of a provider that accepts the strategy, else that of the next. *)
Definition ask_provider {A} (strategy : string) (p : option ConnectionProvider) (ask : ConnectionProvider -> Eff S A)
  (next : Eff S A) : Eff S A :=
  match p with
  | Some p => if cp_AcceptsStrategy p strategy then
                (let! r := ask p in match r with Err _ => next | _ => lift_result r end)%eff
              else next
  | None => next
  end.
Definition ask_providers {A} (strategy : string) (ask : ConnectionProvider -> Eff S A) : Eff S A :=
  ask_provider strategy customConnectionProvider ask
    (ask_provider strategy (EffectiveProvider connProviderManager) ask (ask (DefaultProvider connProviderManager))).
Definition cpm_GetHostInfoByStrategy (hosts : list Hst) (role strategy : string) (props : properties) : Eff S Hst :=
  ask_providers strategy (fun p => cp_GetHostInfoByStrategy p hosts role strategy props).
Definition cpm_GetHostSelectorStrategy (strategy : string) : Eff S Sel :=
  ask_providers strategy (fun p => lift_result (cp_GetHostSelectorStrategy p strategy)).
End Providers.
Arguments ConnectionProvider : clear implicits.
Arguments ConnectionProviderManager : clear implicits.

(** ** The provider of the target driver *)

Inductive HostSelector :=
| HighestWeightHostSelector | RandomHostSelector | WeightedRandomSelector | RoundRobinSelector.
#[export] Instance HostSelector_eq_dec : EqDecision HostSelector.
Proof. solve_decision. Defined.

Definition acceptedStrategies : gmap string HostSelector :=
  list_to_map [(SELECTOR_HIGHEST_WEIGHT, HighestWeightHostSelector); (SELECTOR_RANDOM, RandomHostSelector);
               (SELECTOR_WEIGHTED_RANDOM, WeightedRandomSelector); (SELECTOR_ROUND_ROBIN, RoundRobinSelector)].
#[global] Arguments acceptedStrategies : simpl never.

(** The selectors of a provider: its weighted one, and the round robin one all
    providers share. *)
Record Selectors := mkSelectors { weighted_selector : WeightedRandomHostSelector; round_robin : RoundRobinHostSelector }.
Class RandomSource := { Intn : nat -> nat; randomNumberFunc : Z -> Z }.

Definition GetHost `{MapRange} `{RandomSource} (clk : rr_clock) (sel : HostSelector) (hosts : list HostInfo) (role : string)
  (props : properties) : Eff Selectors HostInfo := fun s =>
  match sel with
  | HighestWeightHostSelector => (s, HighestWeight_GetHost hosts role)
  | RandomHostSelector => (s, Random_GetHost Intn hosts role)
  | WeightedRandomSelector =>
      let '(w, r) := WeightedRandom_GetHost randomNumberFunc hosts role props (weighted_selector s) in
      (mkSelectors w (round_robin s), r)
  | RoundRobinSelector =>
      let '(rr, r) := RoundRobin_GetHost clk hosts role (Some props) (round_robin s) in
      (mkSelectors (weighted_selector s) rr, r)
  end.

Definition unsupportedHostSelectorStrategy (strategy : string) : go_error :=
  AwsError UnsupportedStrategyErrorType "ConnectionProvider.unsupportedHostSelectorStrategy" [strategy].

Section DriverProvider.
Context {C P : Type} `{MapRange} `{RandomSource}.
Local Abbreviation Svc := (PluginServiceImpl (C := C) (P := P)).
Context (get_selectors : Svc -> Selectors) (put_selectors : Selectors -> Svc -> Svc) (clk : rr_clock).
Context (PrepareDsn : properties -> option HostInfo -> string) (Open : string -> Eff Svc C).

Definition driver_GetHostSelectorStrategy (strategy : string) : Result HostSelector :=
  match acceptedStrategies !! strategy with
  | Some sel => Ok sel
  | None => Err (unsupportedHostSelectorStrategy strategy)
  end.
(** The pointer of a selected host is the first of the list that points to it. *)
Definition pointer_to (p : Svc) (hosts : list loc) (h : HostInfo) : option loc :=
  List.find (fun l => bool_decide (host_at p l = Some h)) hosts.
Definition driver_GetHostInfoByStrategy (hosts : list loc) (role strategy : string) (props : properties) : Eff Svc loc := fun p =>
  match driver_GetHostSelectorStrategy strategy with
  | Ok sel =>
      let '(p, r) := zoom get_selectors put_selectors (GetHost clk sel (hosts_at p hosts) role props) p in
      (p, (try h := r in match pointer_to p hosts h with Some l => Ok l | None => Panic end)%go)
  | Err e => (p, Err e)
  | Panic => (p, Panic)
  end.
Definition driver_Connect (hostInfo : loc) (props : properties) : Eff Svc C := fun p =>
  Open (PrepareDsn props (host_at p hostInfo)) p.

Definition DriverConnectionProvider : ConnectionProvider Svc C HostSelector loc := {|
  cp_AcceptsUrl _ _ _ := true;
  cp_AcceptsStrategy strategy := bool_decide (is_Some (acceptedStrategies !! strategy));
  cp_GetHostInfoByStrategy := driver_GetHostInfoByStrategy;
  cp_GetHostSelectorStrategy := driver_GetHostSelectorStrategy;
  cp_Connect := driver_Connect |}.
End DriverProvider.

(** ** The default plugin *)

Section DefaultPlugin.
Context {C V Sel P : Type} `{EqDecision C} `{ExecConn C} `{DriverDialect C} `{DriverConn C}.
Local Abbreviation Svc := (PluginServiceImpl (C := C) (P := P)).
Local Abbreviation Plugin := (ConnectionPlugin Svc V C Sel loc).
Context (as_arg : V -> MethodArg).
Context (service_props : properties) (plugins : list Plugin).
Context (providers : nat -> HostListProvider (C := C) (P := P)) (supplier : Dialect -> Eff Svc nat).
Context (originalDsn : string).
Context (customConnectionProvider : option (ConnectionProvider Svc C Sel loc)).
Context (cpm : ConnectionProviderManager Svc C Sel loc) (connectionProvider : ConnectionProvider Svc C Sel loc).
Context (clk_available clk_hosts : HostClock) (clk_dialect1 clk_dialect2 : PutClock).

Definition variadic (methodArgs : list V) : MethodArgs :=
  match methodArgs with [] => None | _ => Some (as_arg <$> methodArgs) end.

Definition opens_transaction (methodName : string) (methodArgs : list V) : bool :=
  match DoesOpenTransaction methodName (variadic methodArgs) with Ok b => b | _ => false end.
Definition closes_transaction (methodName : string) (methodArgs : list V) : bool :=
  match DoesCloseTransaction methodName (variadic methodArgs) with Ok b => b | _ => false end.

Definition default_Execute (connInvokedOn : option C) (methodName : string) (methodArgs : list V)
  (executeFunc : ExecuteFunc (S := Svc) (V := V)) : ExecuteFunc (S := Svc) (V := V) :=
  (let! r := executeFunc in
   match returnErr r with
   | Some _ => st_ret r
   | None =>
       let! current := gets currentConnection in
       if bool_decide (is_Some connInvokedOn) && bool_decide (connInvokedOn <> current) then st_ret r
       else if opens_transaction methodName methodArgs then
              let! _ := SetInTransaction true in st_ret r
            else if closes_transaction methodName methodArgs then
              let! _ := SetInTransaction false in st_ret r
            else st_ret r
   end)%eff.

Definition connectInternal (hostInfo : loc) (props : properties) (connProvider : ConnectionProvider Svc C Sel loc)
  (isInitialConnection : bool) : Eff Svc C :=
  (try! conn := cp_Connect connProvider hostInfo props in
   let! hostAliases := gets (fun p => default ∅ (host_at p hostInfo ≫= AllAliases)) in
   let! _ := SetAvailability plugins clk_available hostAliases AVAILABLE in
   if (isInitialConnection : bool) then
     let! r := UpdateDialect plugins providers supplier originalDsn clk_dialect1 clk_dialect2 clk_hosts conn in
     match r with Panic => lift_result Panic | _ => eff_ok conn end
   else eff_ok conn)%eff.

Definition default_Connect (hostInfo : loc) (props : properties) (isInitialConnection : bool) : Eff Svc C :=
  (let! connProvider := gets (GetConnectionProvider customConnectionProvider cpm hostInfo props) in
   connectInternal hostInfo props connProvider isInitialConnection)%eff.
Definition default_ForceConnect (hostInfo : loc) (props : properties) (isInitialConnection : bool) : Eff Svc C :=
  connectInternal hostInfo props connectionProvider isInitialConnection.

Definition noHostsAvailable : go_error := NewGenericAwsWrapperError "DefaultConnectionPlugin.noHostsAvailable" [].
Definition default_GetHostInfoByStrategy (role strategy : string) (hosts : list loc) : Eff Svc loc :=
  match hosts with
  | [] => throw noHostsAvailable
  | _ => cpm_GetHostInfoByStrategy customConnectionProvider cpm hosts role strategy service_props
  end.

Definition DefaultPlugin (id : nat) : Plugin := {|
  plugin_id := id;
  GetPluginCode := "default";
  GetSubscribedMethods := [ALL_METHODS];
  plugin_Execute := default_Execute;
  plugin_Connect hostInfo props isInitialConnection _ := default_Connect hostInfo props isInitialConnection;
  plugin_ForceConnect hostInfo props isInitialConnection _ := default_ForceConnect hostInfo props isInitialConnection;
  plugin_AcceptsStrategy strategy := st_ret (cpm_AcceptsStrategy customConnectionProvider cpm strategy);
  plugin_GetHostInfoByStrategy := default_GetHostInfoByStrategy;
  plugin_GetHostSelectorStrategy := cpm_GetHostSelectorStrategy customConnectionProvider cpm;
  plugin_NotifyConnectionChanged _ := st_ret NO_OPINION;
  plugin_NotifyHostListChanged _ := st_ret tt;
  plugin_InitHostProvider _ _ := eff_ok tt;
  plugin_ReleaseResources := None |}.

(** No argument at all is a nil slice, so the first one is never missing. *)
Lemma transaction_tests_total methodName methodArgs :
  DoesOpenTransaction methodName (variadic methodArgs) <> Panic /\ DoesCloseTransaction methodName (variadic methodArgs) <> Panic.
Proof.
  unfold DoesOpenTransaction, DoesCloseTransaction, variadic, first_string. destruct methodArgs as [|a l]; cbn [fmap list_fmap].
  - by repeat destruct (_ || _).
  - destruct (as_arg a); cbn [mbind Result_bind]; split; repeat case_match; done.
Qed.

(** What a successful call does to the transaction flag. *)
Definition flag_after (methodName : string) (methodArgs : list V) (flag : bool) : bool :=
  if opens_transaction methodName methodArgs then true
  else if closes_transaction methodName methodArgs then false else flag.

Lemma default_Execute_spec connInvokedOn methodName methodArgs executeFunc p p1 r :
  executeFunc p = (p1, r) ->
  default_Execute connInvokedOn methodName methodArgs executeFunc p =
  (if bool_decide (returnErr r = None) && (bool_decide (connInvokedOn = None) || bool_decide (connInvokedOn = currentConnection p1))
   then p1 <| inTransaction := flag_after methodName methodArgs (inTransaction p1) |> else p1, r).
Proof.
  intros He. unfold default_Execute, st_bind at 1. rewrite He. destruct (returnErr r) eqn:Er; [by rewrite bool_decide_false|].
  rewrite (bool_decide_true (None = None)) by done. cbn [andb]. unfold st_bind, gets, flag_after, SetInTransaction, modify, st_ret.
  destruct connInvokedOn as [c|].
  - rewrite (bool_decide_true (is_Some (Some c))) by (by eexists). rewrite (bool_decide_false (Some c = None)) by done. cbn [andb orb].
    destruct (decide (Some c = currentConnection p1)) as [E|E].
    + rewrite (bool_decide_false (Some c <> currentConnection p1)), (bool_decide_true (Some c = currentConnection p1)) by (done || by intros []).
      destruct (opens_transaction methodName methodArgs), (closes_transaction methodName methodArgs); try done. by destruct p1.
    + by rewrite (bool_decide_true (Some c <> currentConnection p1)), (bool_decide_false (Some c = currentConnection p1)) by done.
  - rewrite (bool_decide_false (is_Some (@None C))) by (by intros []). rewrite (bool_decide_true (@None C = None)) by done. cbn [andb orb].
    destruct (opens_transaction methodName methodArgs), (closes_transaction methodName methodArgs); try done. by destruct p1.
Qed.

Definition starts (statement : string) : bool := doesStatementStartTransaction [statement].
Definition finishes (statement : string) : bool := doesStatementCloseTransaction [statement].

(** The methods of database/sql that open or close a transaction themselves. *)
Definition transaction_methods : list string := [CONN_BEGIN; CONN_BEGIN_TX; TX_COMMIT; TX_ROLLBACK].

Lemma flag_after_text methodName arg rest l flag :
  methodName ∉ transaction_methods -> as_arg arg = ArgString (Join l ";") ->
  Forall (fun s => plain_statement s = true) l ->
  flag_after methodName (arg :: rest) flag = (existsb starts l || (flag && negb (existsb finishes l))).
Proof.
  intros Hm Ha Hl. unfold transaction_methods in Hm. rewrite !not_elem_of_cons in Hm. destruct Hm as (H3 & H4 & H5 & H6 & _).
  assert (Hs : doesStatementStartTransaction l = existsb starts l /\ doesStatementCloseTransaction l = existsb finishes l).
  { clear. unfold starts, finishes, doesStatementStartTransaction, doesStatementCloseTransaction. cbn [existsb].
    split; induction l as [|s l IH]; cbn [existsb]; rewrite ?orb_false_r in *; congruence. }
  unfold flag_after, opens_transaction, closes_transaction, DoesOpenTransaction, DoesCloseTransaction.
  rewrite !bool_decide_false by done. cbn [orb variadic fmap list_fmap]. rewrite Ha. cbn [first_string mbind Result_bind].
  rewrite separate_plain, (proj1 Hs), (proj2 Hs) by done.
  destruct l as [|s l]; [by destruct flag|].
  assert (Nat.eqb (String.length (Join (s :: l) ";")) 0 = false) as ->.
  { apply Forall_cons in Hl as [(_ & _ & _ & a & b & Hf & _)%plain_statement_spec _].
    pose proof (first_byte_Join l s a Hf) as E. by destruct (Join (s :: l) ";"). }
  by destruct (existsb starts _), (existsb finishes _), flag.
Qed.

(** A call with a text of statements, that is not Begin, BeginTx,
    Commit or Rollback itself, sets the transaction flag when it succeeds on
    the connection in use and any statement starts a transaction, clears it
    when none starts one and any statement ends one, and leaves it and
    everything else as they are otherwise; so a text that starts and ends a
    transaction leaves the flag set. *)
Theorem Execute_tracks_transaction connInvokedOn methodName arg rest l executeFunc p p1 r :
  methodName ∉ transaction_methods -> as_arg arg = ArgString (Join l ";") -> Forall (fun s => plain_statement s = true) l ->
  executeFunc p = (p1, r) ->
  default_Execute connInvokedOn methodName (arg :: rest) executeFunc p =
  (if bool_decide (returnErr r = None) && (bool_decide (connInvokedOn = None) || bool_decide (connInvokedOn = currentConnection p1))
   then p1 <| inTransaction := existsb starts l || (inTransaction p1 && negb (existsb finishes l)) |> else p1, r).
Proof.
  intros Hm Ha Hl He. rewrite (default_Execute_spec _ _ _ _ _ _ _ He). by rewrite (flag_after_text _ _ _ _ _ Hm Ha Hl).
Qed.

(** A connection that is opened makes every host of the list with an
    alias of its host available, changes no other host, and keeps the list. *)
Theorem Connect_marks_available hostInfo props connProvider p p1 conn h aliases :
  Forall quiet_list plugins -> cp_Connect connProvider hostInfo props p = (p1, Ok conn) ->
  host_at p1 hostInfo = Some h -> AllAliases h = Some aliases -> aliases <> ∅ ->
  exists p', connectInternal hostInfo props connProvider false p = (p', Ok conn) /\ AllHosts p' = AllHosts p1 /\
    forall l, host_at p' l =
      if bool_decide (l ∈ AllHosts p1) && has_alias aliases p1 l then with_availability AVAILABLE <$> host_at p1 l else host_at p1 l.
Proof.
  intros Hq Hc Hh Ha Hne. unfold connectInternal. rewrite eff_bind_eq, Hc. unfold st_bind, gets. rewrite Hh. cbn [mbind option_bind].
  rewrite Ha. cbn [from_option]. change (id aliases) with aliases. pose proof (availability_turns clk_available aliases AVAILABLE (imap pair (AllHosts p1)) p1 ∅) as Ht.
  unfold SetAvailability. fold (availability_loop clk_available aliases AVAILABLE p1) in Ht.
  rewrite imap_pair_snd in Ht. destruct (availability_loop clk_available aliases AVAILABLE p1) as [p2 ch].
  destruct Ht as (HA & Hhosts & _); [by intros k c|]. unfold eff_ok. cbv beta iota.
  destruct (Nat.eqb_spec (size aliases) 0) as [E0|_]; [by apply map_size_empty_iff in E0|].
  destruct (Nat.ltb 0 (size ch)).
  - destruct (notify_list_quiet plugins ch p2 Hq) as [st ->]. by eexists.
  - by eexists.
Qed.
End DefaultPlugin.

(** ** Examples *)

Local Abbreviation Example_svc := (PluginServiceImpl (C := nat) (P := nat)).
#[local] Instance accepting_conn : ExecConn nat := fun _ _ _ => Some None.
#[local] Instance silent_conn : DriverConn nat := fun _ _ => None.
Definition string_arg (s : string) : MethodArg := ArgString s.
Definition successful : ExecuteFunc (S := Example_svc) (V := string) := st_ret (mkExecResult "" "" true None).

(** A text that starts and ends a transaction leaves the flag set. *)
Lemma Execute_tracks_transaction_witness :
  let run text flag := inTransaction (default_Execute string_arg None "Conn.ExecContext" [text] successful
                         ((example_service None NewSessionStateServiceImpl) <| inTransaction := flag |>)).1 in
  (run "begin;update t set a = 1" false, run "update t set a = 1;commit" true, run "begin;update t set a = 1;commit" false) =
  (true, false, true).
Proof.
  intros run. subst run. cbv beta.
  rewrite (Execute_tracks_transaction string_arg None "Conn.ExecContext" "begin;update t set a = 1" [] ["begin"; "update t set a = 1"]
    successful _ _ (mkExecResult "" "" true None) ltac:(apply (bool_decide_unpack _); by vm_compute) eq_refl ltac:(repeat constructor) eq_refl).
  rewrite (Execute_tracks_transaction string_arg None "Conn.ExecContext" "update t set a = 1;commit" [] ["update t set a = 1"; "commit"]
    successful _ _ (mkExecResult "" "" true None) ltac:(apply (bool_decide_unpack _); by vm_compute) eq_refl ltac:(repeat constructor) eq_refl).
  rewrite (Execute_tracks_transaction string_arg None "Conn.ExecContext" "begin;update t set a = 1;commit" []
    ["begin"; "update t set a = 1"; "commit"]
    successful _ _ (mkExecResult "" "" true None) ltac:(apply (bool_decide_unpack _); by vm_compute) eq_refl ltac:(repeat constructor) eq_refl).
  by vm_compute.
Defined.

Definition down_service : Example_svc :=
  (example_service None NewSessionStateServiceImpl) <| heap :=
    {[0%nat := mkHostInfo "a.example" "a" 3306 UNAVAILABLE WRITER None (Some {["a.example:3306" := true]}) 100 0; 1%nat := reader_host]} |>.
Definition opening_provider : ConnectionProvider Example_svc nat HostSelector loc := {|
  cp_AcceptsUrl _ _ _ := true; cp_AcceptsStrategy _ := false;
  cp_GetHostInfoByStrategy _ _ _ _ := throw (PlainError "none" []); cp_GetHostSelectorStrategy _ := Panic;
  cp_Connect _ _ := eff_ok 7%nat |}.

Definition no_put : PutClock := mkPutClock 0 (hc_cleanup example_clock 0%nat).
Definition no_provider : HostListProvider (C := nat) (P := nat) :=
  mkProvider (eff_ok []) (eff_ok []) (fun _ _ => eff_ok []) (fun _ => st_ret WRITER) (fun _ => eff_ok None) true None.

Lemma Connect_marks_available_witness :
  host_at (connectInternal (V := nat) [] (fun _ => no_provider) (fun _ => eff_ok 0%nat) "" example_clock
    example_clock no_put no_put 0%nat ∅ opening_provider false down_service).1 0%nat =
  Some (mkHostInfo "a.example" "a" 3306 AVAILABLE WRITER None (Some {["a.example:3306" := true]}) 100 0).
Proof.
  destruct (Connect_marks_available (V := nat) [] (fun _ => no_provider) (fun _ => eff_ok 0%nat) "" example_clock
    example_clock no_put no_put 0%nat ∅ opening_provider down_service down_service 7%nat
    (mkHostInfo "a.example" "a" 3306 UNAVAILABLE WRITER None (Some {["a.example:3306" := true]}) 100 0)
    {["a.example:3306" := true]}) as (p' & E & _ & Hh); [constructor|done|done|done|done|].
  rewrite E. etransitivity; [exact (Hh 0%nat)|by vm_compute].
Defined.
