(* ===== verification/FailoverPlugin.v ===== *)
(** * FailoverPlugin: connecting to another host when the one in use fails
    (awssql/plugins/failover_plugin.go, failover_handler.go, stale_dns_helper.go).

    The state of the plugin is a part of the state of the plugins of the
    service, reached by the class [HasFailover]; the clock is a part of it too.
    The code runs on the service of PluginService.v: [plugins] are the plugins
    of the connection and [self] this one among them. A nil connection with no
    error is [None]. The loop over the readers takes fuel; [Ok None] is a run
    that is out of it, [Ok (Some _)] a return.

    [RemoveFromSlice] shifts the elements of the array it is given, and the
    candidates of a round and all the candidates share their array, so the
    search has the array and the two lengths. *)

From S2P Require Import Prelude.
From S2P Require Import Methods.
From S2P Require Import HostInfo.
From S2P Require Import CacheMap.
From S2P Require Import Effects.
From S2P Require Import Properties.
From S2P Require Import RdsUtils.
From S2P Require Import Dsn.
From S2P Require Import Dialects.
From S2P Require Import SqlMethods.
From S2P Require Import SessionState.
From S2P Require Import PluginManager.
From S2P Require Import PluginService.

Definition MODE_STRICT_WRITER : string := "strict-writer".
Definition MODE_STRICT_READER : string := "strict-reader".
Definition MODE_READER_OR_WRITER : string := "reader-or-writer".
Definition MODE_UNKNOWN : string := "unknown".
Definition failoverModeFromValue (mode : string) : string :=
  if bool_decide (mode = "strict-writer") then MODE_STRICT_WRITER
  else if bool_decide (mode = "strict-reader") then MODE_STRICT_READER
  else if bool_decide (mode = "reader-or-writer") then MODE_READER_OR_WRITER
  else MODE_UNKNOWN.

Definition FallbackTopologyRefreshTimeoutMs : Z := 1100.
Definition FailoverSuccessError : go_error := AwsError FailoverSuccessErrorType "Failover.connectionChangedError" [].
Definition TransactionResolutionUnknownError : go_error :=
  AwsError TransactionResolutionUnknownErrorType "Failover.transactionResolutionUnknownError" [].
Definition NewFailoverFailedError (key : string) (args : list string) : go_error := AwsError FailoverFailedErrorType key args.

(** [writerHostInfo] is the field of the stale DNS helper; [hostListProviderService]
    tells whether the field of that name was set. *)
Record FailoverPlugin := mkFailover {
  FailoverMode : string;
  fp_isInTransaction : bool;
  rdsUrlType : RdsUrlType;
  lastErrorDealtWith : option go_error;
  hostListProviderService : bool;
  writerHostInfo : option loc
}.
#[export] Instance FailoverPlugin_eta : Eta FailoverPlugin := fun f =>
  mkFailover (FailoverMode f) (fp_isInTransaction f) (rdsUrlType f) (lastErrorDealtWith f) (hostListProviderService f)
    (writerHostInfo f).
Definition NewFailoverPlugin : FailoverPlugin := mkFailover "" false OTHER None false None.

(** The settings the plugin reads when it is created. *)
Definition failover_settings (props : properties) : Result (Z * string) :=
  (try timeout := GetPositiveIntProperty (Some props) FAILOVER_TIMEOUT_MS in
   Ok (timeout, GetVerifiedWrapperPropertyValue (Some props) FAILOVER_READER_HOST_SELECTOR_STRATEGY))%go.

Definition failover_SubscribedMethods : list string := [CONNECT_METHOD; INIT_HOST_PROVIDER_METHOD] ++ NETWORK_BOUND_METHODS.

Class HasFailover (P : Type) := {
  get_failover : P -> FailoverPlugin;
  put_failover : FailoverPlugin -> P -> P;
  get_put_failover f s : get_failover (put_failover f s) = f
}.

(** ** Slices that share an array *)

Section Slices.
Context {A : Type} (compareFunc : A -> A -> bool).

Definition IndexOf (slice : list A) (item : A) : option nat := fst <$> list_find (fun v => compareFunc v item = true) slice.
(** A slice is the first [n] elements of an array; the array after, and the
    length of the result. *)
Definition RemoveFromSlice (array : list A) (n : nat) (item : A) : list A * nat :=
  match IndexOf (take n array) item with
  | None => (array, n)
  | Some index => (take index array ++ drop (S index) (take n array) ++ drop (n - 1) array, (n - 1)%nat)
  end.

Lemma RemoveFromSlice_head z l k :
  Forall (fun x => compareFunc x x = true) l -> l <> [] -> last l = Some z ->
  match l with
  | [] => True
  | x :: r => RemoveFromSlice (l ++ replicate k z) (length l) x = (r ++ replicate (S k) z, length r)
  end.
Proof.
  intros Hr Hne Hl. destruct l as [|x r]; [done|]. unfold RemoveFromSlice, IndexOf. rewrite take_app_length.
  cbn [list_find]. rewrite decide_True by apply (proj1 (proj1 (Forall_cons _ _ _) Hr)). cbn [fmap option_fmap option_map fst take app]. cbn [drop length].
  change (S (length r) - 1)%nat with (length r - 0)%nat. rewrite Nat.sub_0_r, drop_0. f_equal. f_equal. destruct r as [|y r] using rev_ind.
  - cbn in Hl |- *. by injection Hl as ->.
  - rewrite length_app, Nat.add_1_r. rewrite (app_comm_cons r [y] x), last_snoc in Hl. injection Hl as ->.
    cbn [drop]. rewrite <-app_assoc, drop_app_length. done.
Qed.
End Slices.

Section Failover.
Context {C V Sel P : Type} `{EqDecision C} `{ExecConn C} `{DriverDialect C} `{PrepareHost} `{HasFailover P} `{Clock P}.
Local Abbreviation Svc := (PluginServiceImpl (C := C) (P := P)).
Local Abbreviation Plugin := (ConnectionPlugin Svc V C Sel loc).
Context (props : properties) (funcs : SessionFuncs C) (plugins : list Plugin) (self : Plugin).
Context (providers : nat -> HostListProvider (C := C) (P := P)).
Context (AllowedAndBlocked_Get : Svc -> string -> option AllowedAndBlockedHosts).
Context (host_clock : Svc -> HostClock).

Definition fp (p : Svc) : FailoverPlugin := get_failover (p_plugins p).
Definition set_fp (f : FailoverPlugin -> FailoverPlugin) : St Svc unit :=
  modify (fun p => p <| p_plugins := put_failover (f (get_failover (p_plugins p))) (p_plugins p) |>).
Definition now : St Svc Z := zoom p_plugins (fun s p => p <| p_plugins := s |>) clock_now.
Definition GetHostRole (conn : C) : Eff Svc string := with_provider providers (fun h => run (hlp_GetHostRole h conn)).
Definition on_clock {A} (k : HostClock -> Eff Svc A) : Eff Svc A := fun p => k (host_clock p) p.

(** ** The stale DNS helper *)

(** The log line on the writer reads its fields, so a nil writer panics. *)
Definition GetVerifiedConnection (host : string) (isInitialConnection : bool) (connectProps : properties)
  (connectFunc : ConnectFunc (S := Svc) (C := C)) : Eff Svc (option C) :=
  (let! r := connectFunc connectProps in
   if negb (IsWriterClusterDns host) && negb (IsGlobalDbWriterClusterDns host) then
     lift_result (try conn := r in Ok (Some conn))%go
   else
     try! conn := lift_result r in
     try! role := GetHostRole conn in
     let isConnectedToReader := bool_decide (role = READER) in
     try! _ := on_clock (if isConnectedToReader then ForceRefreshHostList plugins providers else RefreshHostList plugins providers) in
     let! known := gets (fun p => negb (IsNil (deref p (writerHostInfo (fp p))))) in
     let! writerCandidate := gets (fun p => GetWriter_at p (GetHosts AllowedAndBlocked_Get p)) in
     let! to_cluster := gets (fun p => negb (IsNil (deref p writerCandidate)) && IsRdsClusterDns (HostInfo.GetHost (deref p writerCandidate))) in
     if negb known && to_cluster then eff_ok None
     else
       let! _ := if (known : bool) then st_ret tt else set_fp (fun f => f <| writerHostInfo := writerCandidate |>) in
       let! writer := gets (fun p => writerHostInfo (fp p)) in
       match writer with
       | None => lift_result Panic
       | Some writer =>
           let! none := gets (fun p => IsNil (host_at p writer)) in
           if (none : bool) then eff_ok (Some conn)
           else if isConnectedToReader then
             try! writerConn := service_Connect plugins writer connectProps None in
             let! service_set := gets (fun p => hostListProviderService (fp p)) in
             if isInitialConnection && negb service_set then lift_result Panic
             else
               let! _ := if (isInitialConnection : bool) then SetInitialConnectionHostInfo (Some writer) else st_ret tt in
               let! _ := emit (Closed conn) in
               eff_ok (Some writerConn)
           else eff_ok (Some conn)
       end)%eff.

(** ** Failing over *)

Definition isFailoverEnabled (p : Svc) : bool :=
  negb (bool_decide (rdsUrlType (fp p) = RDS_PROXY)) && negb (Nat.eqb (length (AllHosts p)) 0).
Definition canDirectExecute (methodName : string) : bool := bool_decide (methodName = CONN_CLOSE).
Definition shouldErrorTriggerConnectionSwitch (err : go_error) (p : Svc) : bool := isFailoverEnabled p && IsNetworkError err.

Definition createConnectionForHost (hostInfo : loc) : Eff Svc C := fun p =>
  match host_at p hostInfo with
  | None => (p, Panic)
  | Some h => service_Connect plugins hostInfo (<[INTERNAL_CONNECT_PROPERTY_NAME := "true"]> (<[Name HOST := Host h]> props))
                (Some self) p
  end.

(** The error of a failover that succeeded. *)
Definition returnFailoverSuccessError : Eff Svc unit :=
  (let! in_transaction := gets (fun p => fp_isInTransaction (fp p) || inTransaction p) in
   if (in_transaction : bool) then
     let! _ := SetInTransaction false in throw TransactionResolutionUnknownError
   else throw FailoverSuccessError)%eff.

Definition service_GetCurrentHostInfo : Eff Svc (option loc) := GetCurrentHostInfo AllowedAndBlocked_Get.
Definition service_SetCurrentConnection (conn : C) (hostInfo : loc) : Eff Svc unit :=
  SetCurrentConnection (Some props) funcs plugins (Some conn) (Some hostInfo) None.

Context (failoverTimeoutMsSetting : Z) (failoverReaderHostSelectorStrategySetting : string).

Definition connect_to_writer (writerCandidate : loc) : Eff Svc unit :=
  (let! c := createConnectionForHost writerCandidate in
   match c with
   | Panic => lift_result Panic
   | Err _ => throw (NewFailoverFailedError "" [])
   | Ok writerCandidateConn =>
       try! role := GetHostRole writerCandidateConn in
       if negb (bool_decide (role = WRITER)) then
         let! _ := emit (Closed writerCandidateConn) in
         let! host := gets (fun p => HostInfo.GetHost (host_at p writerCandidate)) in
         throw (NewFailoverFailedError "Failover.unexpectedReaderRole" [host; role])
       else
         let! r := service_SetCurrentConnection writerCandidateConn writerCandidate in
         match r with
         | Panic => lift_result Panic
         | Err err => let! _ := emit (Closed writerCandidateConn) in throw err
         | Ok _ => try! _ := service_GetCurrentHostInfo in returnFailoverSuccessError
         end
   end)%eff.

Definition FailoverWriter : Eff Svc unit :=
  (let! refreshed := on_clock (fun clk => ForceRefreshHostListWithTimeout plugins providers clk true failoverTimeoutMsSetting) in
   match refreshed with
   | Panic => lift_result Panic
   | Ok true =>
       let! writerCandidate := gets (fun p => GetWriter_at p (AllHosts p)) in
       let! none := gets (fun p => IsNil (deref p writerCandidate)) in
       match writerCandidate with
       | Some l => if (none : bool) then throw (NewFailoverFailedError "Failover.noWriterHost" []) else connect_to_writer l
       | None => throw (NewFailoverFailedError "Failover.noWriterHost" [])
       end
   | _ => throw (NewFailoverFailedError "Failover.unableToRefreshHostList" [])
   end)%eff.

(** ** Searching a reader *)

Record ReaderFailoverResult := mkReaderResult { result_Conn : C; result_HostInfo : loc }.
Record ReaderSearch := mkSearch {
  candidates : list loc; n_candidates : nat; n_remaining : nat;
  originalWriter : option loc; isOriginalWriterStillWriter : bool }.
#[local] Instance ReaderSearch_eta : Eta ReaderSearch := fun s =>
  mkSearch (candidates s) (n_candidates s) (n_remaining s) (originalWriter s) (isOriginalWriterStillWriter s).

Definition is_reader (p : Svc) (l : loc) : bool :=
  match host_at p l with Some h => bool_decide (Role h = READER) | None => false end.
Definition getReaderFailoverCandidates (p : Svc) (hosts : list loc) : list loc * option loc :=
  (FilterSlice hosts (is_reader p), GetWriter_at p hosts).
Definition with_candidates (hosts : list loc) (s : ReaderSearch) (p : Svc) : ReaderSearch :=
  let '(readers, writer) := getReaderFailoverCandidates p hosts in
  mkSearch readers (length readers) (n_remaining s) writer (isOriginalWriterStillWriter s).

Definition same_host_at (p : Svc) (a b : loc) : bool :=
  match host_at p a, host_at p b with Some h1, Some h2 => Equals h1 h2 | _, _ => false end.
Definition remainingReaders (s : ReaderSearch) : list loc := take (n_remaining s) (candidates s).
Definition remove_remaining (l : loc) (p : Svc) (s : ReaderSearch) : ReaderSearch :=
  let '(array, n) := RemoveFromSlice (same_host_at p) (candidates s) (n_remaining s) l in
  s <| candidates := array |> <| n_remaining := n |>.
Definition remove_candidate (l : loc) (p : Svc) (s : ReaderSearch) : ReaderSearch :=
  let '(array, n) := RemoveFromSlice (same_host_at p) (candidates s) (n_candidates s) l in
  s <| candidates := array |> <| n_candidates := n |>.

Definition accepts_role (role : string) (p : Svc) : bool :=
  bool_decide (role = READER) || negb (bool_decide (FailoverMode (fp p) = MODE_STRICT_READER)).
(** The result for a connection whose role was asked. *)
Definition found (conn : C) (l : loc) (role : string) : Eff Svc ReaderFailoverResult := fun p =>
  match host_at p l with
  | Some h => let '(p, l') := alloc (MakeCopyWithRole h role) p in (p, Ok (mkReaderResult conn l'))
  | None => (p, Panic)
  end.

(** The inner loop: [Ok (Some (s, Some r))] returns, [Ok (Some (s, None))] leaves it. *)
Fixpoint try_readers (fuel : nat) (endTime : Z) (s : ReaderSearch) : Eff Svc (option (ReaderSearch * option ReaderFailoverResult)) :=
  match fuel with
  | O => eff_ok None
  | S fuel =>
      if Nat.eqb (n_remaining s) 0 then eff_ok (Some (s, None))
      else
        (let! t := now in
         if negb (t <? endTime) then eff_ok (Some (s, None))
         else
           let! candidate := GetHostInfoByStrategy plugins READER failoverReaderHostSelectorStrategySetting (remainingReaders s) in
           match candidate with
           | Panic => lift_result Panic
           | Err err =>
               if IsType err UnsupportedStrategyErrorType then throw err
               else
                 let! hosts := GetUpdatedHostListWithTimeout providers false FallbackTopologyRefreshTimeoutMs in
                 match hosts with
                 | Panic => lift_result Panic
                 | Err _ => eff_ok (Some (s, None))
                 | Ok hosts => let! s := gets (with_candidates hosts s) in eff_ok (Some (s, None))
                 end
           | Ok readerCandidate =>
               let! none := gets (fun p => IsNil (host_at p readerCandidate)) in
               if (none : bool) then eff_ok (Some (s, None))
               else
                 let! c := createConnectionForHost readerCandidate in
                 match c with
                 | Panic => lift_result Panic
                 | Err _ => let! s := gets (fun p => remove_remaining readerCandidate p s) in try_readers fuel endTime s
                 | Ok candidateConn =>
                     try! role := GetHostRole candidateConn in
                     let! accepted := gets (accepts_role role) in
                     if (accepted : bool) then
                       try! r := found candidateConn readerCandidate role in eff_ok (Some (s, Some r))
                     else
                       let! s := gets (fun p => remove_remaining readerCandidate p s) in
                       let! _ := emit (Closed candidateConn) in
                       let! s := gets (fun p =>
                         if bool_decide (role = WRITER) then
                           remove_candidate readerCandidate p (s <| isOriginalWriterStillWriter := false |>)
                         else s) in
                       try_readers fuel endTime s
                 end
           end)%eff
  end.

(** The end of a round: the writer, which may be a reader by now. *)
Definition try_original_writer (endTime : Z) (s : ReaderSearch) : Eff Svc (ReaderSearch * option ReaderFailoverResult) :=
  (let! none := gets (fun p => IsNil (deref p (originalWriter s))) in
   match originalWriter s with
   | Some l =>
       if (none : bool) then eff_ok (s, None)
       else
         let! t := now in
         if endTime <? t then eff_ok (s, None)
         else
           let! strict := gets (fun p => bool_decide (FailoverMode (fp p) = MODE_STRICT_READER)) in
           if strict && isOriginalWriterStillWriter s then eff_ok (s, None)
           else
             let! c := createConnectionForHost l in
             match c with
             | Panic => lift_result Panic
             | Err _ => eff_ok (s, None)
             | Ok candidateConn =>
                 try! role := GetHostRole candidateConn in
                 let! accepted := gets (accepts_role role) in
                 if (accepted : bool) then try! r := found candidateConn l role in eff_ok (s, Some r)
                 else
                   let! _ := emit (Closed candidateConn) in
                   eff_ok (if bool_decide (role = WRITER) then s <| isOriginalWriterStillWriter := true |> else s, None)
             end
   | None => eff_ok (s, None)
   end)%eff.

Definition failoverReaderTimeout : go_error := NewFailoverFailedError "Failover.failoverReaderTimeout" [].
Fixpoint reader_rounds (fuel : nat) (endTime : Z) (s : ReaderSearch) : Eff Svc (option ReaderFailoverResult) :=
  match fuel with
  | O => eff_ok None
  | S fuel =>
      (try! inner := try_readers fuel endTime (s <| n_remaining := n_candidates s |>) in
       match inner with
       | None => eff_ok None
       | Some (_, Some r) => eff_ok (Some r)
       | Some (s, None) =>
           try! next := try_original_writer endTime s in
           match next with
           | (_, Some r) => eff_ok (Some r)
           | (s, None) =>
               let! t := now in
               if t <? endTime then reader_rounds fuel endTime s else throw failoverReaderTimeout
           end
       end)%eff
  end.
Definition getReaderFailoverConnection (fuel : nat) (endTime : Z) : Eff Svc (option ReaderFailoverResult) :=
  (let! s := gets (fun p => with_candidates (GetHosts AllowedAndBlocked_Get p) (mkSearch [] 0 0 None false) p) in
   reader_rounds fuel endTime s)%eff.

Definition unableToConnectToReader : go_error := NewFailoverFailedError "Failover.unableToConnectToReader" [].
Definition FailoverReader (fuel : nat) : Eff Svc (option unit) :=
  (let! failoverStartTime := now in
   let failoverEndTime := failoverStartTime + wrap64 (failoverTimeoutMsSetting * Millisecond) in
   try! forceRefreshOk := on_clock (fun clk => ForceRefreshHostListWithTimeout plugins providers clk false 0) in
   if negb forceRefreshOk then throw (NewFailoverFailedError "Failover.failoverReaderUnableToRefreshHostList" [])
   else
     let! result := getReaderFailoverConnection fuel failoverEndTime in
     match result with
     | Panic => lift_result Panic
     | Err _ => throw unableToConnectToReader
     | Ok None => eff_ok None
     | Ok (Some result) =>
         let! r := service_SetCurrentConnection (result_Conn result) (result_HostInfo result) in
         match r with
         | Panic => lift_result Panic
         | Err _ => throw unableToConnectToReader
         | Ok _ => try! _ := returnFailoverSuccessError in eff_ok (Some tt)
         end
     end)%eff.

(** ** The plugin *)

Record FailoverHandler := mkHandler {
  handler_initFailoverMode : Eff Svc unit;
  handler_failover : Eff Svc (option unit);
  handler_dealWithError : go_error -> Eff Svc (option unit)
}.

Definition InvalidateCurrentConnection : St Svc unit :=
  (let! current := gets currentConnection in
   match current with
   | None => st_ret tt
   | Some conn =>
       let! in_transaction := gets inTransaction in
       let! _ := if (in_transaction : bool) then
                   let! _ := set_fp (fun f => f <| fp_isInTransaction := true |>) in
                   fun p => Rollback conn (currentTx p) p
                 else st_ret tt in
       let! closed := gets (fun p => IsClosed (events p) conn) in
       if (closed : bool) then st_ret tt else emit (Closed conn)
   end)%eff.

Definition unableToConnect : go_error := NewGenericAwsWrapperError "Failover.unableToConnect" [].
Definition failover_InitHostProvider (initHostProviderFunc : Eff Svc unit) : Eff Svc unit :=
  (let! _ := set_fp (fun f => f <| hostListProviderService := true |>) in initHostProviderFunc)%eff.

(** What follows a failover in [Connect]: only its plain success goes on. *)
Definition after_failover (r : Result (option unit)) (k : option C -> Eff Svc (option (option C))) : Eff Svc (option (option C)) :=
  match r with
  | Ok None => eff_ok None
  | Ok (Some _) => eff_ok (Some None)
  | Err e => if bool_decide (e = FailoverSuccessError) then (let! c := gets currentConnection in k c)%eff else throw e
  | Panic => lift_result Panic
  end.
Definition finish_connect (isInitialConnection : bool) (conn : option C) : Eff Svc (option (option C)) :=
  match conn with
  | None => throw unableToConnect
  | Some c => if isInitialConnection then (try! _ := on_clock (RefreshHostList plugins providers) in eff_ok (Some (Some c)))%eff
              else eff_ok (Some (Some c))
  end.
(** Whether the host is not known to be down. *)
Definition not_down (hostInfo : loc) (p : Svc) : bool :=
  match FilterSlice (GetHosts AllowedAndBlocked_Get p) (fun item => bool_decide (key_at p item = key_at p hostInfo)) with
  | [] => true
  | l :: _ => match host_at p l with
              | Some h => IsNil (Some h) || negb (bool_decide (Availability h = UNAVAILABLE))
              | None => true
              end
  end.
Definition failover_Connect (handler : FailoverHandler) (hostInfo : loc) (connectProps : properties) (isInitialConnection : bool)
  (connectFunc : ConnectFunc (S := Svc) (C := C)) : Eff Svc (option (option C)) :=
  (try! _ := handler_initFailoverMode handler in
   let! host := gets (fun p => HostInfo.GetHost (host_at p hostInfo)) in
   let verified := GetVerifiedConnection host isInitialConnection connectProps connectFunc in
   if negb (GetVerifiedWrapperPropertyValue (Some connectProps) ENABLE_CONNECT_FAILOVER : bool)
      || bool_decide (is_Some (connectProps !! INTERNAL_CONNECT_PROPERTY_NAME))
   then try! c := verified in eff_ok (Some c)
   else
     let! up := gets (not_down hostInfo) in
     if (up : bool) then
       let! r := verified in
       match r with
       | Ok c => finish_connect isInitialConnection c
       | Panic => lift_result Panic
       | Err err =>
           let! switch := gets (shouldErrorTriggerConnectionSwitch err) in
           if negb switch then throw err
           else
             let! aliases := gets (fun p => default ∅ (host_at p hostInfo ≫= AllAliases)) in
             let! _ := (fun p => SetAvailability plugins (host_clock p) aliases UNAVAILABLE p) in
             let! r := handler_failover handler in after_failover r (finish_connect isInitialConnection)
       end
     else
       try! _ := on_clock (RefreshHostList plugins providers) in
       let! r := handler_failover handler in after_failover r (finish_connect isInitialConnection))%eff.

Definition failover_Execute (handler : FailoverHandler) (nil_any : V) (methodName : string) (executeFunc : ExecuteFunc (S := Svc) (V := V)) : Eff Svc (option (ExecResult V)) :=
  if canDirectExecute methodName then (let! r := executeFunc in eff_ok (Some r))%eff
  else
    (let! wrapped := executeFunc in
     match returnErr wrapped with
     | None => eff_ok (Some wrapped)
     | Some wrappedErr =>
         let! r := handler_dealWithError handler wrappedErr in
         match r with
         | Ok None => eff_ok None
         | Ok (Some _) => eff_ok (Some wrapped)
         | Err err => eff_ok (Some (mkExecResult nil_any nil_any false (Some err)))
         | Panic => lift_result Panic
         end
     end)%eff.

(** ** The handler of Aurora and Multi-AZ clusters *)

Definition rds_initFailoverMode : Eff Svc unit := fun p =>
  if bool_decide (rdsUrlType (fp p) = OTHER) then
    match deref p (initialHostInfo p) with
    | None => (p, Panic)
    | Some initial =>
        let mode := failoverModeFromValue (ToLower (GetVerifiedWrapperPropertyValue (Some props) FAILOVER_MODE)) in
        let urlType := IdentifyRdsUrlType (Host initial) in
        let mode := if bool_decide (mode = MODE_UNKNOWN)
                    then if bool_decide (urlType = RDS_READER_CLUSTER) then MODE_READER_OR_WRITER else MODE_STRICT_WRITER
                    else mode in
        run (set_fp (fun f => f <| FailoverMode := mode |> <| rdsUrlType := urlType |>)) p
    end
  else (p, Ok tt).

Definition rds_failover (fuel : nat) : Eff Svc (option unit) := fun p =>
  if bool_decide (FailoverMode (fp p) = MODE_STRICT_WRITER)
  then (try! u := FailoverWriter in eff_ok (Some u))%eff p
  else FailoverReader fuel p.

Definition rds_dealWithError (fuel : nat) (err : go_error) : Eff Svc (option unit) := fun p =>
  if bool_decide (lastErrorDealtWith (fp p) <> Some err) && shouldErrorTriggerConnectionSwitch err p then
    (let! _ := InvalidateCurrentConnection in
     try! currentHost := service_GetCurrentHostInfo in
     match currentHost with
     | None => lift_result Panic
     | Some l =>
         let! aliases := gets (fun p => default ∅ (host_at p l ≫= Aliases)) in
         let! _ := (fun p => SetAvailability plugins (host_clock p) aliases UNAVAILABLE p) in
         try! r := rds_failover fuel in
         match r with
         | None => eff_ok None
         | Some _ => let! _ := set_fp (fun f => f <| lastErrorDealtWith := Some err |>) in throw err
         end
     end)%eff p
  else (p, Err err).

Definition rdsFailoverHandler (fuel : nat) : FailoverHandler :=
  mkHandler rds_initFailoverMode (rds_failover fuel) (rds_dealWithError fuel).

(** ** What a search returns *)

(** A connection that was opened for a candidate, was asked for its role, and
    has that role on record; a strict search takes a reader only. *)
Definition verified_result (p' : Svc) (r : ReaderFailoverResult) : Prop :=
  exists l pa pb p0 p1 role h,
    createConnectionForHost l pa = (pb, Ok (result_Conn r)) /\ GetHostRole (result_Conn r) p0 = (p1, Ok role) /\
    (FailoverMode (fp p1) = MODE_STRICT_READER -> role = READER) /\
    host_at p1 l = Some h /\ host_at p' (result_HostInfo r) = Some (MakeCopyWithRole h role).

Lemma found_verified conn l role pa pb p0 p1 p' r :
  createConnectionForHost l pa = (pb, Ok conn) -> GetHostRole conn p0 = (p1, Ok role) -> accepts_role role p1 = true ->
  found conn l role p1 = (p', Ok r) -> verified_result p' r.
Proof.
  unfold found. intros Hc Hr Ha. destruct (host_at p1 l) as [h|] eqn:Eh; [|done].
  destruct (alloc (MakeCopyWithRole h role) p1) as [p2 l'] eqn:Ea. intros [= <- <-].
  exists l, pa, pb, p0, p1, role, h. split_and!; [done|done| |done|].
  - intros Hm. unfold accepts_role in Ha. rewrite Hm, (bool_decide_true (MODE_STRICT_READER = _)) in Ha by done. cbn [negb] in Ha.
    rewrite orb_false_r in Ha. by apply bool_decide_eq_true in Ha.
  - unfold alloc in Ea. injection Ea as <- <-. unfold host_at. apply lookup_insert_eq.
Qed.

Lemma try_readers_verified fuel endTime : forall s p p' s' r,
  try_readers fuel endTime s p = (p', Ok (Some (s', Some r))) -> verified_result p' r.
Proof.
  induction fuel as [|fuel IH]; intros s p p' s' r; [done|]. cbn [try_readers]. destruct (Nat.eqb _ _); [done|].
  unfold st_bind. destruct (now p) as [p1 t]. destruct (negb _); [done|].
  destruct (GetHostInfoByStrategy _ _ _ _ p1) as [p2 [l|err|]]; [| |done].
  2: { destruct (IsType _ _); [done|]. destruct (GetUpdatedHostListWithTimeout _ _ _ p2) as [p3 [hosts|e|]]; done. }
  unfold gets. destruct (IsNil _); [done|]. destruct (createConnectionForHost l p2) as [p3 [conn|e|]] eqn:Ec; [|apply IH|done].
  rewrite eff_bind_eq. destruct (GetHostRole conn p3) as [p4 [role|e|]] eqn:Er; [|done..].
  destruct (accepts_role role p4) eqn:Ea; [|unfold emit, modify; apply IH].
  rewrite eff_bind_eq. destruct (found conn l role p4) as [p5 [r'|e|]] eqn:Ef; [|done..].
  intros [= -> _ ->]. by eapply found_verified.
Qed.

Lemma try_original_writer_verified endTime s p p' s' r :
  try_original_writer endTime s p = (p', Ok (s', Some r)) -> verified_result p' r.
Proof.
  unfold try_original_writer, st_bind, gets. destruct (originalWriter s) as [l|]; [|done]. destruct (IsNil _); [done|].
  destruct (now p) as [p1 t]. destruct (endTime <? t); [done|]. destruct (_ && _); [done|].
  destruct (createConnectionForHost l p1) as [p2 [conn|e|]] eqn:Ec; [|done..].
  rewrite eff_bind_eq. destruct (GetHostRole conn p2) as [p3 [role|e|]] eqn:Er; [|done..].
  destruct (accepts_role role p3) eqn:Ea; [|done].
  rewrite eff_bind_eq. destruct (found conn l role p3) as [p4 [r'|e|]] eqn:Ef; [|done..].
  intros [= -> _ ->]. by eapply found_verified.
Qed.

Lemma reader_rounds_verified fuel endTime : forall s p p' r,
  reader_rounds fuel endTime s p = (p', Ok (Some r)) -> verified_result p' r.
Proof.
  induction fuel as [|fuel IH]; intros s p p' r; [done|]. cbn [reader_rounds]. rewrite eff_bind_eq.
  destruct (try_readers _ _ _ p) as [p1 [[[s1 [r1|]]|]|e|]] eqn:Et; [| |done..].
  - intros [= -> ->]. by eapply try_readers_verified.
  - rewrite eff_bind_eq. destruct (try_original_writer endTime s1 p1) as [p2 [[s2 [r2|]]|e|]] eqn:Eo; [| |done..].
    + intros [= -> ->]. by eapply try_original_writer_verified.
    + unfold st_bind. destruct (now p2) as [p3 t]. destruct (t <? endTime); [apply IH|done].
Qed.

(** C2. A connection the search for a reader returns was opened for a
    candidate and asked for its role, the host returned with it has the role
    that was answered, and in strict reader mode the answer was reader. *)
Theorem reader_failover_checks_role fuel endTime p p' r :
  getReaderFailoverConnection fuel endTime p = (p', Ok (Some r)) -> verified_result p' r.
Proof. unfold getReaderFailoverConnection, st_bind, gets. apply reader_rounds_verified. Qed.

(** ** The search ends *)

Section Termination.
Context (time_of : P -> Z).
Hypothesis Hnow : forall s : P, (clock_now s).2 = time_of s /\ time_of s < time_of (clock_now s).1.

Definition time_at (p : Svc) : Z := time_of (p_plugins p).
Definition later (p p' : Svc) : Prop := time_at p <= time_at p'.
#[local] Instance later_refl : Reflexive later.
Proof. intros p. unfold later. lia. Qed.
#[local] Instance later_trans : Transitive later.
Proof. intros p1 p2 p3. unfold later. lia. Qed.

Hypothesis Hpick : forall hosts, keeps later (GetHostInfoByStrategy plugins READER failoverReaderHostSelectorStrategySetting hosts).
Hypothesis Hlist : keeps later (GetUpdatedHostListWithTimeout providers false FallbackTopologyRefreshTimeoutMs).
Hypothesis Hconn : forall l, keeps later (createConnectionForHost l).
Hypothesis Hrole : forall conn, keeps later (GetHostRole conn).

Lemma now_time p : (now p).2 = time_at p /\ time_at p < time_at (now p).1.
Proof.
  unfold now, zoom, time_at. specialize (Hnow (p_plugins p)). destruct (clock_now (p_plugins p)) as [s t]. exact Hnow.
Qed.

Lemma found_later conn l role : keeps later (found conn l role).
Proof. intros p. unfold found. destruct (host_at p l); [|reflexivity]. unfold alloc. unfold later, time_at. cbn. lia. Qed.

(** A computation that ends: not out of fuel, and the clock did not go back. *)
Definition ends {A} (c : Eff Svc (option A)) (p : Svc) : Prop := (c p).2 <> Ok None /\ later p (c p).1.

Lemma ends_weaken {A} (c : Eff Svc (option A)) p p1 r : later p p1 -> ends c p1 -> c p1 = r -> r.2 <> Ok None /\ later p r.1.
Proof. intros Hl [Hn Hc] <-. split; [done|]. by etransitivity. Qed.

Lemma try_readers_ends endTime fuel : forall s p,
  (0 < fuel)%nat -> endTime - time_at p < Z.of_nat fuel -> ends (try_readers fuel endTime s) p.
Proof.
  induction fuel as [|fuel IH]; intros s p Hpos Hf; [lia|]. unfold ends. cbn [try_readers].
  destruct (Nat.eqb _ _); [split; [done|reflexivity]|]. unfold st_bind.
  destruct (now_time p) as [Ht Hlt]. destruct (now p) as [p1 t]. cbn [fst snd] in Ht, Hlt. subst t.
  destruct (Z.ltb_spec (time_at p) endTime) as [Hend|]; cbn [negb]; [|split; [done|unfold later; cbn [fst eff_ok]; lia]].
  assert (Hrec : forall s p', later p1 p' -> ends (try_readers fuel endTime s) p' /\ later p p').
  { intros s' p' Hl. unfold later in *. split; [apply IH; [lia|lia]|lia]. }
  pose proof (Hpick (remainingReaders s) p1) as H12.
  destruct (GetHostInfoByStrategy _ _ _ _ p1) as [p2 [l|err|]]; cbn [fst] in H12;
    [| |split; [done|apply (Hrec s p2 H12)]].
  2: { destruct (IsType _ _); [split; [done|apply (Hrec s p2 H12)]|]. pose proof (Hlist p2) as H23.
       destruct (GetUpdatedHostListWithTimeout _ _ _ p2) as [p3 [hosts|e|]]; cbn [fst] in H23;
         (split; [done|]); apply (Hrec s p3); by etransitivity. }
  unfold gets. destruct (IsNil _); [split; [done|apply (Hrec s p2 H12)]|]. pose proof (Hconn l p2) as H23.
  destruct (createConnectionForHost l p2) as [p3 [conn|e|]]; cbn [fst] in H23.
  - assert (H13 : later p1 p3) by (by etransitivity). rewrite eff_bind_eq. pose proof (Hrole conn p3) as H34.
    destruct (GetHostRole conn p3) as [p4 [role|e|]]; cbn [fst] in H34;
      [|split; [done|]; apply (Hrec s p4); by etransitivity..].
    assert (H14 : later p1 p4) by (by etransitivity). destruct (accepts_role role p4).
    + rewrite eff_bind_eq. pose proof (found_later conn l role p4) as H45.
      destruct (found conn l role p4) as [p5 [r|e|]]; cbn [fst] in H45; (split; [done|]); apply (Hrec s p5); by etransitivity.
    + unfold emit, modify. match goal with |- context [try_readers fuel endTime ?s' ?q] => destruct (Hrec s' q H14) as [[Hn Hl] Hp] end.
      split; [exact Hn|]. by etransitivity.
  - destruct (Hrec (remove_remaining l p3 s) p3) as [[Hn Hl] Hp]; [by etransitivity|]. split; [exact Hn|]. by etransitivity.
  - split; [done|]. apply (Hrec s p3). by etransitivity.
Qed.

Lemma try_original_writer_later endTime s : keeps later (try_original_writer endTime s).
Proof.
  intros p. unfold try_original_writer, st_bind, gets. destruct (originalWriter s) as [l|]; [|reflexivity].
  destruct (IsNil _); [reflexivity|]. destruct (now_time p) as [_ Hlt]. destruct (now p) as [p1 t]. cbn [fst] in Hlt.
  assert (L1 : later p p1) by (unfold later; lia). destruct (endTime <? t); [exact L1|]. destruct (_ && _); [exact L1|].
  pose proof (Hconn l p1) as H12. destruct (createConnectionForHost l p1) as [p2 [conn|e|]]; cbn [fst] in H12;
    [|by etransitivity..].
  rewrite eff_bind_eq. pose proof (Hrole conn p2) as H23. destruct (GetHostRole conn p2) as [p3 [role|e|]]; cbn [fst] in H23;
    [|by etransitivity; [|etransitivity]..].
  assert (L3 : later p p3) by (by etransitivity; [|etransitivity]). destruct (accepts_role role p3); [|exact L3].
  rewrite eff_bind_eq. pose proof (found_later conn l role p3) as H34.
  destruct (found conn l role p3) as [p4 [r|e|]]; by etransitivity.
Qed.

Lemma reader_rounds_ends endTime fuel : forall s p,
  (1 < fuel)%nat -> endTime - time_at p + 1 < Z.of_nat fuel -> ends (reader_rounds fuel endTime s) p.
Proof.
  induction fuel as [|fuel IH]; intros s p Hpos Hf; [lia|]. unfold ends. cbn [reader_rounds]. rewrite eff_bind_eq.
  destruct (try_readers_ends endTime fuel (s <| n_remaining := n_candidates s |>) p ltac:(lia) ltac:(lia)) as [Hn L1].
  destruct (try_readers _ _ _ p) as [p1 [[[s1 [r1|]]|]|e|]]; cbn [fst snd] in Hn, L1; try done.
  rewrite eff_bind_eq. pose proof (try_original_writer_later endTime s1 p1) as H12.
  destruct (try_original_writer endTime s1 p1) as [p2 [[s2 [r2|]]|e|]]; cbn [fst] in H12;
    [split; [done|by etransitivity]| |split; [done|by etransitivity]..].
  assert (L2 : later p p2) by (by etransitivity). unfold st_bind. destruct (now_time p2) as [Ht Hlt].
  destruct (now p2) as [p3 t]. cbn [fst snd] in Ht, Hlt. subst t. unfold later in L2.
  destruct (Z.ltb_spec (time_at p2) endTime) as [Hend|]; [|split; [done|unfold later; cbn [fst throw]; lia]].
  destruct (IH s2 p3) as [Hn3 L3]; [lia|lia|]. split; [exact Hn3|]. unfold later in *. lia.
Qed.

Hypothesis Hrefresh : forall clk, keeps later (ForceRefreshHostListWithTimeout plugins providers clk false 0).

(** C27. The reader failover ends: when every reading of the clock moves it
    on and no call turns it back, fuel for the timeout in nanoseconds and
    three more rounds is enough, whatever the strategy picks and the hosts
    answer. *)
Theorem reader_failover_ends fuel p :
  Z.max 0 (wrap64 (failoverTimeoutMsSetting * Millisecond)) + 2 < Z.of_nat fuel ->
  (FailoverReader fuel p).2 <> Ok None.
Proof.
  intros Hf. unfold FailoverReader, st_bind at 1. destruct (now_time p) as [Ht Hlt]. destruct (now p) as [p1 t].
  cbn [fst snd] in Ht, Hlt. subst t. rewrite eff_bind_eq. unfold on_clock. pose proof (Hrefresh (host_clock p1) p1) as H12.
  destruct (ForceRefreshHostListWithTimeout _ _ _ _ _ p1) as [p2 [ok|e|]]; cbn [fst] in H12; [|done..]. destruct (negb ok); [done|].
  unfold getReaderFailoverConnection, st_bind, gets.
  match goal with |- context [reader_rounds fuel ?e ?s p2] => destruct (reader_rounds_ends e fuel s p2) as [Hn _]; [lia|unfold later in H12; lia|];
    destruct (reader_rounds fuel e s p2) as [p3 [[r|]|err|]] end; [|done..].
  destruct (service_SetCurrentConnection _ _ p3) as [p4 [u|e|]]; [|done..].
  rewrite eff_bind_eq. destruct (returnFailoverSuccessError p4) as [p5 [u'|e|]]; done.
Qed.
End Termination.

(** ** A failed round *)

(** [I n p]: from [p] on, the next [n] readings of the clock are before the
    end, the strategy picks the first of the readers, and no reader can be
    reached. *)
Record unreachable (endTime : Z) (l : list loc) (I : nat -> Svc -> Prop) : Prop := {
  un_now : forall n p, I (S n) p -> I n (now p).1 /\ (now p).2 < endTime;
  un_pick : forall n p x r, I n p -> exists p',
    GetHostInfoByStrategy plugins READER failoverReaderHostSelectorStrategySetting (x :: r) p = (p', Ok x) /\ I n p';
  un_connect : forall n p x, I n p -> x ∈ l -> exists p' e, createConnectionForHost x p = (p', Err e) /\ I n p';
  un_host : forall n p x, I n p -> x ∈ l -> exists h, host_at p x = Some h /\ IsNil (Some h) = false
}.

Lemma Equals_refl h : Equals h h = true.
Proof. unfold Equals. rewrite !bool_decide_true, !Z.eqb_refl by done. done. Qed.

Lemma failed_round endTime l I z : unreachable endTime l I -> forall rem k s p,
  rem ⊆ l -> I (length rem) p -> (rem <> [] -> last rem = Some z) ->
  candidates s = rem ++ replicate k z -> n_remaining s = length rem ->
  exists p' fuel, (forall fuel', try_readers (fuel + fuel') endTime s p =
    (p', Ok (Some (s <| candidates := replicate (length rem + k) z |> <| n_remaining := 0%nat |>, None)))) /\
    (fuel = S (length rem))%nat.
Proof.
  intros Hun. induction rem as [|x r IH]; intros k s p Hsub HI Hlast Hc Hn.
  - exists p, 1%nat. split; [|done]. intros fuel'. cbn [try_readers Nat.add]. rewrite Hn. cbn [length Nat.eqb Nat.add app] in *.
    unfold eff_ok. repeat f_equal. destruct s; cbn in *. by subst.
  - destruct (un_now _ _ _ Hun (length r) p HI) as [HI1 Ht]. destruct (now p) as [p1 t] eqn:En. cbn [fst snd] in HI1, Ht.
    assert (Hrem : remainingReaders s = x :: r) by (unfold remainingReaders; rewrite Hn, Hc; apply take_app_length).
    destruct (un_pick _ _ _ Hun _ p1 x r HI1) as (p2 & Ep & HI2).
    assert (Hx : x ∈ l) by (apply Hsub; left).
    destruct (un_connect _ _ _ Hun _ p2 x HI2 Hx) as (p3 & e & Ec & HI3).
    destruct (un_host _ _ _ Hun _ p2 x HI2 Hx) as (h & Eh & Hnil).
    set (s' := s <| candidates := r ++ replicate (S k) z |> <| n_remaining := length r |>).
    assert (Hrm : remove_remaining x p3 s = s').
    { unfold remove_remaining. rewrite Hc, Hn.
      pose proof (RemoveFromSlice_head (same_host_at p3) z (x :: r) k) as E. cbv beta iota in E. rewrite E; [done| |done|by apply Hlast].
      apply Forall_forall. intros y Hy. unfold same_host_at.
      destruct (un_host _ _ _ Hun _ p3 y HI3 (Hsub _ Hy)) as (h' & -> & _). apply Equals_refl. }
    destruct (IH (S k) s' p3) as (p' & fuel & IHf & Hfuel); [intros y Hy; apply Hsub; by right|done| |done|done|].
    { intros Hr. destruct r; [done|]. by rewrite <-Hlast. }
    exists p', (S fuel). split; [|by rewrite Hfuel]. intros fuel'. cbn [Nat.add try_readers]. rewrite Hn.
    cbn [length Nat.eqb]. unfold st_bind. rewrite En. rewrite (proj2 (Z.ltb_lt t endTime) Ht). cbn [negb].
    rewrite Hrem, Ep. unfold gets. rewrite Eh, Hnil, Ec, Hrm, IHf. unfold s'. cbn [update_field]. rewrite Nat.add_succ_r. by destruct s.
Qed.

Theorem failed_round_forgets_readers endTime l I z s p fuel :
  unreachable endTime l I -> I (length l) p -> last l = Some z -> candidates s = l -> n_candidates s = length l ->
  (length l < fuel)%nat ->
  exists p' s', try_readers fuel endTime (s <| n_remaining := n_candidates s |>) p = (p', Ok (Some (s', None))) /\
    remainingReaders (s' <| n_remaining := n_candidates s' |>) = replicate (length l) z.
Proof.
  intros Hun HI Hz Hc Hn Hf.
  destruct (failed_round endTime l I z Hun l 0 (s <| n_remaining := n_candidates s |>) p) as (p' & fuel0 & Hr & Hfuel);
    [done|done|done|by rewrite app_nil_r|done|].
  exists p'. eexists. split.
  - replace fuel with (fuel0 + (fuel - fuel0))%nat by lia. apply Hr.
  - unfold remainingReaders. cbn [n_remaining candidates update_field n_candidates ReaderSearch_eta]. rewrite Hn, Nat.add_0_r.
    rewrite take_ge; [done|]. by rewrite length_replicate.
Qed.

(** ** Failing over to the writer *)

Definition failover_success (e : go_error) : Prop := e = FailoverSuccessError \/ e = TransactionResolutionUnknownError.

Lemma returnFailoverSuccessError_spec p :
  exists p' e, returnFailoverSuccessError p = (p', Err e) /\ failover_success e /\ currentConnection p' = currentConnection p /\
    (fp_isInTransaction (fp p) = true -> e = TransactionResolutionUnknownError).
Proof.
  unfold returnFailoverSuccessError, st_bind, gets, SetInTransaction, modify, throw, failover_success.
  destruct (fp_isInTransaction (fp p) || inTransaction p) eqn:E.
  - eexists _, _. split; [done|]. split; [by right|]. done.
  - eexists _, _. split; [done|]. split; [by left|]. split; [done|]. intros Hf. by rewrite Hf in E.
Qed.

Lemma connect_to_writer_never_ok l p p' u : connect_to_writer l p <> (p', Ok u).
Proof.
  unfold connect_to_writer, st_bind. destruct (createConnectionForHost l p) as [p1 [conn|e|]]; [|done..].
  rewrite eff_bind_eq. destruct (GetHostRole conn p1) as [p2 [role|e|]]; [|done..].
  destruct (negb _); [unfold emit, modify, gets, throw; done|].
  destruct (service_SetCurrentConnection conn l p2) as [p3 [u'|e|]]; [|unfold emit, modify, throw; done|done].
  rewrite eff_bind_eq. destruct (service_GetCurrentHostInfo p3) as [p4 [h|e|]]; [|done..].
  destruct (returnFailoverSuccessError_spec p4) as (p5 & e & -> & _). done.
Qed.
Lemma FailoverWriter_never_ok p p' u : FailoverWriter p <> (p', Ok u).
Proof.
  unfold FailoverWriter, on_clock, st_bind, gets.
  destruct (ForceRefreshHostListWithTimeout _ _ _ _ _ p) as [p1 [[]|e|]]; try done.
  destruct (GetWriter_at p1 (AllHosts p1)) as [l|]; [|done]. destruct (IsNil _); [done|]. apply connect_to_writer_never_ok.
Qed.
Lemma FailoverReader_never_ok fuel p p' u : FailoverReader fuel p <> (p', Ok (Some u)).
Proof.
  unfold FailoverReader, st_bind, on_clock. destruct (now p) as [p1 t]. rewrite eff_bind_eq.
  destruct (ForceRefreshHostListWithTimeout _ _ _ _ _ p1) as [p2 [ok|e|]]; [|done..]. destruct (negb ok); [done|].
  destruct (getReaderFailoverConnection fuel _ p2) as [p3 [[r|]|e|]]; [|done..].
  destruct (service_SetCurrentConnection _ _ p3) as [p4 [u'|e|]]; [|done..].
  rewrite eff_bind_eq. destruct (returnFailoverSuccessError_spec p4) as (p5 & e & -> & _). done.
Qed.
Lemma rds_failover_never_ok fuel p p' u : rds_failover fuel p <> (p', Ok (Some u)).
Proof.
  unfold rds_failover. destruct (bool_decide _); [|apply FailoverReader_never_ok].
  rewrite eff_bind_eq. destruct (FailoverWriter p) as [p1 [u'|e|]] eqn:E; [|done..]. by apply FailoverWriter_never_ok in E.
Qed.
Lemma dealWithError_never_ok fuel err p p' u : rds_dealWithError fuel err p <> (p', Ok (Some u)).
Proof.
  unfold rds_dealWithError. destruct (_ && _); [|done]. unfold st_bind.
  destruct (InvalidateCurrentConnection p) as [p1 []]. rewrite eff_bind_eq.
  destruct (service_GetCurrentHostInfo p1) as [p2 [[l|]|e|]]; [|done..]. unfold gets.
  destruct (SetAvailability _ _ _ _ p2) as [p3 []]. rewrite eff_bind_eq.
  destruct (rds_failover fuel p3) as [p4 [[u'|]|e|]] eqn:E; [|done..]. by apply rds_failover_never_ok in E.
Qed.

Theorem failed_call_reports_error fuel nil_any methodName executeFunc p p1 r p' r' :
  executeFunc p = (p1, r) -> returnErr r <> None ->
  failover_Execute (rdsFailoverHandler fuel) nil_any methodName executeFunc p = (p', Ok (Some r')) ->
  returnErr r' <> None /\ (methodName <> CONN_CLOSE -> r' = mkExecResult nil_any nil_any false (returnErr r')).
Proof.
  intros He Hr. unfold failover_Execute, canDirectExecute. destruct (bool_decide_reflect (methodName = CONN_CLOSE)) as [->|Hm].
  - unfold st_bind, eff_ok. rewrite He. intros [= _ ->]. done.
  - unfold st_bind. rewrite He. destruct (returnErr r) as [e|] eqn:Ee; [|done]. cbn [handler_dealWithError rdsFailoverHandler].
    destruct (rds_dealWithError fuel e p1) as [p2 [[u|]|e'|]] eqn:Ed; [by apply dealWithError_never_ok in Ed|done| |done].
    unfold eff_ok. intros [= <- <-]. done.
Qed.

(** C1. When FailoverWriter reports success, with or without an unknown
    transaction, the connection in use is one that answered that its role is
    writer; plugins that do not switch the connection themselves when they
    are told of a switch are assumed, and a session replay that does not
    fail with such an error itself. *)
Theorem writer_failover_connects_writer p p' e :
  Forall calm plugins ->
  (forall d conn w w' e, ApplyCurrentSessionState (Some props) funcs d conn w = (w', Err e) -> ~ failover_success e) ->
  FailoverWriter p = (p', Err e) -> failover_success e ->
  exists conn p0 p1, GetHostRole conn p0 = (p1, Ok WRITER) /\ currentConnection p' = Some conn.
Proof.
  intros Hq Hreplay. unfold FailoverWriter, on_clock, st_bind, gets.
  assert (Hfail : forall k a, failover_success (NewFailoverFailedError k a) -> False) by (intros k a [?|?]; done).
  destruct (ForceRefreshHostListWithTimeout _ _ _ _ _ p) as [p1 [[]|e0|]];
    [|intros [= _ <-] Hs; by apply Hfail in Hs..|done].
  destruct (GetWriter_at p1 (AllHosts p1)) as [l|]; [|intros [= _ <-] Hs; by apply Hfail in Hs].
  destruct (IsNil _); [intros [= _ <-] Hs; by apply Hfail in Hs|].
  unfold connect_to_writer, st_bind. destruct (createConnectionForHost l p1) as [p2 [conn|e0|]];
    [|intros [= _ <-] Hs; by apply Hfail in Hs|done].
  rewrite eff_bind_eq. destruct (GetHostRole conn p2) as [p3 [role|e0|]] eqn:Er; [| |done].
  2: { unfold GetHostRole, with_provider, run in Er. destruct (hostListProvider p2); [|done].
       by destruct (hlp_GetHostRole _ _ _). }
  destruct (bool_decide_reflect (role = WRITER)) as [->|]; cbn [negb];
    [|unfold emit, modify, gets, throw; intros [= _ <-] Hs; by apply Hfail in Hs].
  destruct (service_SetCurrentConnection conn l p3) as [p4 [[]|e0|]] eqn:Es; [| |done].
  - unfold service_SetCurrentConnection in Es.
    assert (exists h0, host_at p3 l = Some h0) as [h0 Hh0].
    { unfold SetCurrentConnection in Es. destruct (host_at p3 l) as [h0|]; [by exists h0|done]. }
    destruct (SetCurrentConnection_current _ _ _ _ _ _ _ _ h0 Hq Hh0 Es) as [Es' _]. rewrite eff_bind_eq.
    destruct (service_GetCurrentHostInfo p4) as [p5 r5] eqn:Eh. apply GetCurrentHostInfo_keeps in Eh as (Ecur & _ & _ & Eerr).
    destruct r5 as [h|e0|]; [| |done].
    + destruct (returnFailoverSuccessError_spec p5) as (p6 & e6 & -> & _ & Ec6 & _). intros [= <- <-] _.
      exists conn, p2, p3. split; [done|]. congruence.
    + intros [= _ <-] [->| ->]; by specialize (Eerr _ eq_refl).
  - unfold emit, modify, throw. intros [= _ <-] Hs. exfalso.
    unfold service_SetCurrentConnection in Es. apply (SetCurrentConnection_error _ _ _ (fun e => ~ failover_success e)) in Es; [done|exact Hreplay|]. intros e1 He1 [->| ->]; done.
Qed.

(** When the session cannot be replayed on the connection to the writer, the
    connection is closed, and stays the one in use. *)
Theorem failed_replay_closes_current l p p1 p2 conn old oldHost newHost w e :
  createConnectionForHost l p = (p1, Ok conn) -> GetHostRole conn p1 = (p2, Ok WRITER) ->
  transferStateEnabledSetting (Some props) = true -> copySessionState (sessionStateService p2) = None ->
  currentConnection p2 = Some old -> deref p2 (currentHostInfo p2) = Some oldHost -> host_at p2 l = Some newHost ->
  IsNil (Some newHost) = false -> compare old oldHost conn newHost <> ∅ ->
  ApplyCurrentSessionState (Some props) funcs (dialect_of p2) conn ((Begin (Some props) (sessionStateService p2)).1, events p2) = (w, Err e) ->
  exists p', connect_to_writer l p = (p', Err e) /\ currentConnection p' = Some conn /\ events p' = w.2 ++ [Closed conn] /\
    inTransaction p' = inTransaction p2.
Proof.
  intros Hc Hr Ht Hcopy Hcur Hold Hnew Hnil Hch Ha. unfold connect_to_writer, st_bind. rewrite Hc, eff_bind_eq, Hr.
  rewrite bool_decide_true by done. cbn [negb]. unfold service_SetCurrentConnection.
  rewrite (SetCurrentConnection_fails _ _ _ _ _ None _ _ _ _ w e Ht Hcopy Hcur Hold Hnew Hnil Hch Ha).
  unfold emit, modify, throw. by eexists.
Qed.
End Failover.

(** ** Examples: a writer and two readers, a clock that ticks at each reading *)

Definition Ticking : Type := FailoverPlugin * Z.
#[local] Instance ticking_failover : HasFailover Ticking := {|
  get_failover := fst; put_failover f s := (f, s.2); get_put_failover _ _ := eq_refl |}.
#[local] Instance ticking_clock : Clock Ticking := fun s => ((s.1, s.2 + 1), s.2).
#[local] Instance accepting_conn : ExecConn nat := fun _ _ _ => Some None.
#[local] Instance open_conn : DriverDialect nat := {|
  IsClosed log conn := existsb (fun e => match e with Closed c => Nat.eqb c conn | _ => false end) log;
  IsNetworkError e := match e with PlainError k _ => bool_decide (k = "network") | _ => false end; IsLoginError _ := false |}.
Local Abbreviation Failover_svc := (PluginServiceImpl (C := nat) (P := Ticking)).

(** A plugin that connects to the hosts of [up], with the location of the host
    as the connection, and picks the first host. *)
Definition connecting_plugin (up : list loc) : ConnectionPlugin Failover_svc nat nat unit loc := {|
  plugin_id := 1; GetPluginCode := "connecting"; GetSubscribedMethods := ["*"];
  plugin_Execute _ _ _ k := k;
  plugin_Connect l _ _ _ := if bool_decide (l ∈ up) then eff_ok l else throw (PlainError "network" []);
  plugin_ForceConnect l _ _ _ := if bool_decide (l ∈ up) then eff_ok l else throw (PlainError "network" []);
  plugin_AcceptsStrategy _ := st_ret true;
  plugin_GetHostInfoByStrategy _ _ hosts := match hosts with l :: _ => eff_ok l | [] => throw (PlainError "none" []) end;
  plugin_GetHostSelectorStrategy _ := throw (PlainError "none" []);
  plugin_NotifyConnectionChanged _ := st_ret NO_OPINION;
  plugin_NotifyHostListChanged _ := st_ret tt;
  plugin_InitHostProvider _ k := k;
  plugin_ReleaseResources := None |}.
Definition failover_self : ConnectionPlugin Failover_svc nat nat unit loc := connecting_plugin [].
Definition self_id (p : ConnectionPlugin Failover_svc nat nat unit loc) : nat := plugin_id p.

(** The provider knows three hosts; [roles] are the roles the connections answer. *)
Definition three_host_provider (roles : nat -> string) (_ : nat) : HostListProvider (C := nat) (P := Ticking) :=
  mkProvider (eff_ok [0; 1; 2]%nat) (eff_ok [0; 1; 2]%nat) (fun _ _ => eff_ok [0; 1; 2]%nat) (fun c => st_ret (roles c))
    (fun _ => eff_ok None) false None.
Definition failover_host (name role : string) : HostInfo := mkHostInfo name name 3306 AVAILABLE role None None 100 0.
Definition failover_service (current : nat) (f : FailoverPlugin) : Failover_svc :=
  mkService {[0%nat := failover_host "w" WRITER; 1%nat := failover_host "r1" READER; 2%nat := failover_host "r2" READER]}
    (Some current) (Some current) (Some 0%nat) [0; 1; 2]%nat false None NewSessionStateServiceImpl []
    (mkManager false None "" no_entries) (Some MySQLDatabaseDialect) true (Some 0%nat) no_entries ∅ (f, 0).
Definition in_mode (mode : string) : FailoverPlugin := NewFailoverPlugin <| FailoverMode := mode |> <| rdsUrlType := RDS_WRITER_CLUSTER |>.
Definition no_permissions : Failover_svc -> string -> option AllowedAndBlockedHosts := fun _ _ => None.
Definition role_after_failover (c : nat) : string := if Nat.eqb c 1 then WRITER else READER.
Definition skip_plugin : ConnectionPlugin Failover_svc nat nat unit loc :=
  mkPlugin 0 "failover" [] (fun _ _ _ k => k) (fun _ props _ k => k props) (fun _ props _ k => k props) (fun _ => st_ret false)
    (fun _ _ _ => throw (PlainError "" [])) (fun _ => throw (PlainError "" [])) (fun _ => st_ret NO_OPINION) (fun _ => st_ret tt)
    (fun _ k => k) None.

(** The first reader was promoted: a strict search closes its connection and
    takes the second. *)
Lemma reader_failover_checks_role_witness :
  exists p' r, getReaderFailoverConnection ∅ [connecting_plugin [0; 1; 2]%nat] skip_plugin (three_host_provider role_after_failover)
    no_permissions "random" 10 100 (failover_service 0 (in_mode MODE_STRICT_READER)) = (p', Ok (Some r)) /\
    (result_Conn r, events p') = (2%nat, [Closed 1%nat]) /\
    verified_result ∅ [connecting_plugin [0; 1; 2]%nat] skip_plugin (three_host_provider role_after_failover) p' r.
Proof.
  destruct (getReaderFailoverConnection ∅ [connecting_plugin [0; 1; 2]%nat] skip_plugin (three_host_provider role_after_failover)
    no_permissions "random" 10 100 (failover_service 0 (in_mode MODE_STRICT_READER))) as [p' r] eqn:E.
  assert (exists r', r = Ok (Some r') /\ (result_Conn r', events p') = (2%nat, [Closed 1%nat])) as (r' & -> & Hr)
    by (vm_compute in E; injection E as <- <-; by eexists).
  exists p', r'. split; [done|]. split; [exact Hr|].
  apply (reader_failover_checks_role ∅ [connecting_plugin [0; 1; 2]%nat] skip_plugin (three_host_provider role_after_failover)
    no_permissions "random" 10 100 (failover_service 0 (in_mode MODE_STRICT_READER))). exact E.
Defined.

Lemma update_loop_plugins (clk : HostClock) es (p : Failover_svc) : p_plugins (update_loop clk es p).1 = p_plugins p.
Proof.
  revert p. induction es as [|e es IH]; intros p; [done|]. cbn [update_loop]. unfold st_bind, updated_host. destruct e as [i l].
  destruct (host_at p l) as [h|].
  - destruct (CacheMap.Get _ _ _) as [av|].
    + destruct (bool_decide _).
      * destruct (alloc _ p) as [p1 l1] eqn:Ea. injection Ea as <- <-. match goal with |- context [update_loop clk es ?q] =>
          specialize (IH q); destruct (update_loop clk es q) end. exact IH.
      * specialize (IH p). by destruct (update_loop clk es p).
    + specialize (IH p). by destruct (update_loop clk es p).
  - specialize (IH p). by destruct (update_loop clk es p).
Qed.

Lemma reader_failover_ends_witness :
  (FailoverReader ∅ no_session_funcs [connecting_plugin []] skip_plugin (three_host_provider role_after_failover) no_permissions
     (fun _ => example_clock) 0 "random" 3 (failover_service 0 (in_mode MODE_STRICT_READER))).2 <> Ok None.
Proof.
  apply (reader_failover_ends ∅ no_session_funcs [connecting_plugin []] skip_plugin (three_host_provider role_after_failover) no_permissions
     (fun _ => example_clock) 0 "random" snd).
  - intros s. cbn. split; [done|lia].
  - intros hosts p. destruct hosts; exact (Z.le_refl _).
  - intros p. unfold GetUpdatedHostListWithTimeout, with_provider. destruct (hostListProvider p); exact (Z.le_refl _).
  - intros l p. unfold createConnectionForHost. destruct (host_at p l); exact (Z.le_refl _).
  - intros conn p. unfold GetHostRole, with_provider. destruct (hostListProvider p); exact (Z.le_refl _).
  - intros clk p. unfold ForceRefreshHostListWithTimeout, GetUpdatedHostListWithTimeout, with_provider. rewrite eff_bind_eq.
    destruct (hostListProvider p); [|exact (Z.le_refl _)]. cbn [hlp_ForceRefreshHostListWithTimeout three_host_provider]. unfold eff_ok, st_bind.
    pose proof (update_loop_plugins clk (imap pair [0; 1; 2]%nat) p) as Hp. unfold updateHostAvailability.
    destruct (update_loop clk _ p) as [p1 ls]. cbn [fst] in Hp. unfold setHostList. destruct (Nat.ltb 0 _); unfold later, time_at;
      cbn; rewrite Hp; exact (Z.le_refl _).
  - by vm_compute.
Defined.

(** No reader can be reached, and the second round knows one of them only. *)
Definition readers_down (n : nat) (p : Failover_svc) : Prop :=
  heap p = heap (failover_service 0 (in_mode MODE_STRICT_READER)) /\ (p_plugins p).2 + Z.of_nat n <= 100.

Lemma failed_round_forgets_readers_witness :
  exists p' s', try_readers ∅ [connecting_plugin []] skip_plugin (three_host_provider role_after_failover) "random" 3 100
    (mkSearch [1; 2]%nat 2 2 None false) (failover_service 0 (in_mode MODE_STRICT_READER)) = (p', Ok (Some (s', None))) /\
    take (n_candidates s') (candidates s') = [2; 2]%nat.
Proof.
  apply (failed_round_forgets_readers ∅ [connecting_plugin []] skip_plugin (three_host_provider role_after_failover) "random"
    100 [1; 2]%nat readers_down 2%nat (mkSearch [1; 2]%nat 2 2 None false) (failover_service 0 (in_mode MODE_STRICT_READER)) 3); [|done|done|done|done|simpl; lia].
  split.
  - intros n p [Hh Ht]. unfold now, zoom. destruct p; cbn in *. split; [split; [done|]|]; cbn; lia.
  - intros n p x r Hp. exists p. split; [reflexivity|done].
  - intros n p x Hp Hx. exists p, (PlainError "network" []). split; [|done]. unfold createConnectionForHost, host_at.
    rewrite (proj1 Hp). apply elem_of_cons in Hx as [->|Hx]; [reflexivity|]. apply list_elem_of_singleton in Hx as ->. reflexivity.
  - intros n p x Hp Hx. unfold host_at. rewrite (proj1 Hp).
    apply elem_of_cons in Hx as [->|Hx]; [by eexists|]. apply list_elem_of_singleton in Hx as ->. by eexists.
Defined.

Lemma failed_call_reports_error_witness :
  exists p' r, failover_Execute (V := nat)
    (rdsFailoverHandler ∅ no_session_funcs [connecting_plugin [0; 1; 2]%nat] skip_plugin (three_host_provider (fun _ => WRITER)) no_permissions
      (fun _ => example_clock) 0 "random" 3) 0%nat "Conn.ExecContext"
    (st_ret (mkExecResult 5%nat 6%nat true (Some (PlainError "network" [])))) (failover_service 0 (in_mode MODE_STRICT_WRITER)) = (p', Ok (Some r)) /\
    returnErr r <> None.
Proof.
  set (h := rdsFailoverHandler ∅ no_session_funcs [connecting_plugin [0; 1; 2]%nat] skip_plugin (three_host_provider (fun _ => WRITER))
    no_permissions (fun _ => example_clock) 0 "random" 3).
  set (exec := st_ret (mkExecResult 5%nat 6%nat true (Some (PlainError "network" []))) : ExecuteFunc (S := Failover_svc) (V := nat)).
  destruct (failover_Execute h 0%nat "Conn.ExecContext" exec (failover_service 0 (in_mode MODE_STRICT_WRITER))) as [p' r] eqn:E.
  assert (exists r', r = Ok (Some r')) as [r' ->] by (vm_compute in E; injection E as _ <-; by eexists).
  exists p', r'. split; [done|]. unfold h in E.
  apply (failed_call_reports_error ∅ no_session_funcs [connecting_plugin [0; 1; 2]%nat] skip_plugin (three_host_provider (fun _ => WRITER))
    no_permissions (fun _ => example_clock) 0 "random" 3 0%nat "Conn.ExecContext" exec (failover_service 0 (in_mode MODE_STRICT_WRITER))
    (failover_service 0 (in_mode MODE_STRICT_WRITER)) (mkExecResult 5%nat 6%nat true (Some (PlainError "network" []))) p' r'); [done|done|exact E].
Defined.

Definition no_transfer : properties := {["transferSessionStateOnSwitch" := "false"]}.
Lemma connecting_quiet up : Forall quiet [connecting_plugin up].
Proof. constructor; [|constructor]. intros changes s. exists (p_plugins s). by destruct s. Qed.

Lemma writer_failover_connects_writer_witness :
  exists p', FailoverWriter no_transfer no_session_funcs [connecting_plugin [0; 1; 2]%nat] skip_plugin (three_host_provider (fun _ => WRITER))
    no_permissions (fun _ => example_clock) 0 (failover_service 1 (in_mode MODE_STRICT_WRITER)) = (p', Err FailoverSuccessError) /\
    currentConnection p' = Some 0%nat /\
    exists conn p0 p1, GetHostRole (three_host_provider (fun _ => WRITER)) conn p0 = (p1, Ok WRITER) /\ currentConnection p' = Some conn.
Proof.
  destruct (FailoverWriter no_transfer no_session_funcs [connecting_plugin [0; 1; 2]%nat] skip_plugin (three_host_provider (fun _ => WRITER))
    no_permissions (fun _ => example_clock) 0 (failover_service 1 (in_mode MODE_STRICT_WRITER))) as [p' r] eqn:E.
  assert (r = Err FailoverSuccessError) as -> by (vm_compute in E; injection E as _ <-; by vm_compute).
  assert (Hc : currentConnection p' = Some 0%nat) by (vm_compute in E; injection E as <-; by vm_compute).
  exists p'. split; [done|]. split; [exact Hc|].
  apply (writer_failover_connects_writer no_transfer no_session_funcs [connecting_plugin [0; 1; 2]%nat] skip_plugin
    (three_host_provider (fun _ => WRITER)) no_permissions (fun _ => example_clock) 0
    (failover_service 1 (in_mode MODE_STRICT_WRITER)) p' FailoverSuccessError); [by eapply Forall_impl; [apply connecting_quiet|apply quiet_calm]| |exact E|by left].
  intros d conn w w' e. unfold ApplyCurrentSessionState.
  assert (transferStateEnabledSetting (Some no_transfer) = false) as -> by by vm_compute. done.
Defined.

#[local] Instance failing_conn : ExecConn nat := fun _ _ _ => Some (Some (PlainError "lost" [])).
Lemma failed_replay_closes_current_witness :
  exists p', connect_to_writer (H := failing_conn) ∅ no_session_funcs [connecting_plugin [0; 1; 2]%nat] skip_plugin (three_host_provider (fun _ => WRITER))
    no_permissions 0%nat ((failover_service 1 (in_mode MODE_STRICT_WRITER)) <| sessionStateService := example_session |>) =
    (p', Err (PlainError "lost" [])) /\ currentConnection p' = Some 0%nat /\
    events p' = [Executed 0%nat "set autocommit=false"; Closed 0%nat].
Proof.
  set (p := (failover_service 1 (in_mode MODE_STRICT_WRITER)) <| sessionStateService := example_session |>).
  set (w := (ApplyCurrentSessionState (H := failing_conn) (Some ∅) no_session_funcs mysql_dialect 0%nat
               ((Begin (Some ∅) example_session).1, [])).1).
  destruct (failed_replay_closes_current (H := failing_conn) ∅ no_session_funcs [connecting_plugin [0; 1; 2]%nat] skip_plugin
    (three_host_provider (fun _ => WRITER)) no_permissions 0%nat p p p 0%nat 1%nat (failover_host "r1" READER) (failover_host "w" WRITER)
    w (PlainError "lost" [])) as (p' & E & Hc & He & _); [by vm_compute..|apply (bool_decide_unpack _); by vm_compute|by vm_compute|].
  exists p'. split; [exact E|]. split; [exact Hc|]. rewrite He. by vm_compute.
Defined.

(** ** What the code gets wrong *)

Definition failing_call (p : Failover_svc) : Failover_svc * Result (option unit) :=
  rds_dealWithError no_transfer no_session_funcs [connecting_plugin [0; 1; 2]%nat] skip_plugin (three_host_provider (fun _ => WRITER))
    no_permissions (fun _ => example_clock) 0 "random" 3 (PlainError "network" []) p.

(** The plugin never forgets that one failover met a transaction: the next
    failover reports an unknown transaction although none is open. And the
    error that was dealt with is never recorded. *)
Example transaction_unknown_again :
  let '(p1, r1) := failing_call ((failover_service 1 (in_mode MODE_STRICT_WRITER)) <| inTransaction := true |>) in
  let '(p2, r2) := failing_call p1 in
  (r1, inTransaction p1, r2, lastErrorDealtWith (fp p2)) =
  (Err TransactionResolutionUnknownError, false, Err TransactionResolutionUnknownError, None).
Proof. by vm_compute. Qed.

(** A topology that names the cluster endpoint as its writer gives no
    connection and no error; the one that was opened stays open. *)
Definition cluster_name : string := "db.cluster-xyz123.us-east-2.rds.amazonaws.com".
Example no_connection_no_error :
  let p := (failover_service 1 (in_mode MODE_STRICT_WRITER)) <| heap := {[0%nat := failover_host cluster_name WRITER]} |>
             <| AllHosts := [0%nat] |> in
  let '(p', r) := GetVerifiedConnection [connecting_plugin [0]%nat]
    (fun _ => mkProvider (eff_ok [0%nat]) (eff_ok [0%nat]) (fun _ _ => eff_ok [0%nat]) (fun _ => st_ret WRITER) (fun _ => eff_ok None) false None)
    no_permissions (fun _ => example_clock) cluster_name true ∅ (fun _ => eff_ok 7%nat) p in
  (r, events p') = (Ok None, []).
Proof. by vm_compute. Qed.

(** A topology without a writer makes the log line on the writer panic. *)
Example no_writer_panics :
  let p := (failover_service 1 (in_mode MODE_STRICT_WRITER)) <| heap := {[1%nat := failover_host "r1" READER]} |>
             <| AllHosts := [1%nat] |> in
  (GetVerifiedConnection [connecting_plugin [0]%nat]
    (fun _ => mkProvider (eff_ok [1%nat]) (eff_ok [1%nat]) (fun _ _ => eff_ok [1%nat]) (fun _ => st_ret WRITER) (fun _ => eff_ok None) false None)
    no_permissions (fun _ => example_clock) cluster_name true ∅ (fun _ => eff_ok 7%nat) p).2 = Panic.
Proof. by vm_compute. Qed.

(** The writer the helper found first is used although the topology has
    another one by now. *)
Example stale_writer_used_again :
  let p := (failover_service 1 ((in_mode MODE_STRICT_WRITER) <| writerHostInfo := Some 1%nat |>)) in
  let '(p', r) := GetVerifiedConnection [connecting_plugin [0; 1; 2]%nat] (three_host_provider (fun c => if Nat.eqb c 7 then READER else WRITER))
    no_permissions (fun _ => example_clock) cluster_name false ∅ (fun _ => eff_ok 7%nat) p in
  (r, GetWriter_at p' (AllHosts p')) = (Ok (Some 1%nat), Some 0%nat).
Proof. by vm_compute. Qed.
