(* ===== verification/GdbFailover.v ===== *)
(** * GdbFailover: failing over in a global database
    (awssql/plugins/gdb_failover_plugin.go).

    The handler of the failover plugin for global databases: the failover mode
    depends on whether the writer is in the home region, and a mode is the
    list of the hosts it allows with the role their connection must report.
    The handler is a part of the state of the plugins ([HasGdbFailover]). The
    two nested loops of the search take fuel, [Ok None] is a run that is out
    of it; [shortDelay] only passes time and is left out. *)

From S2P Require Import Prelude.
From S2P Require Import HostInfo.
From S2P Require Import CacheMap.
From S2P Require Import Effects.
From S2P Require Import Properties.
From S2P Require Import RdsUtils.
From S2P Require Import Dsn.
From S2P Require Import Dialects.
From S2P Require Import SqlMethods.
From S2P Require Import SessionState.
From S2P Require Import PluginManager.
From S2P Require Import PluginService.
From S2P Require Import FailoverPlugin.

Inductive GlobalDbFailoverMode :=
| GDB_MODE_STRICT_WRITER
| GDB_MODE_STRICT_HOME_READER
| GDB_MODE_STRICT_OUT_OF_HOME_READER
| GDB_MODE_STRICT_ANY_READER
| GDB_MODE_HOME_READER_OR_WRITER
| GDB_MODE_OUT_OF_HOME_READER_OR_WRITER
| GDB_MODE_ANY_READER_OR_WRITER
| GDB_MODE_UNKNOWN.
#[export] Instance GlobalDbFailoverMode_eq_dec : EqDecision GlobalDbFailoverMode.
Proof. solve_decision. Defined.

(** The value and the error it returns with it. *)
Definition gdbFailoverModeFromValue (value : string) : GlobalDbFailoverMode * option go_error :=
  if is_empty value then (GDB_MODE_UNKNOWN, None)
  else
    let v := ToLower value in
    if bool_decide (v = "strict-writer") then (GDB_MODE_STRICT_WRITER, None)
    else if bool_decide (v = "strict-home-reader") then (GDB_MODE_STRICT_HOME_READER, None)
    else if bool_decide (v = "strict-out-of-home-reader") then (GDB_MODE_STRICT_OUT_OF_HOME_READER, None)
    else if bool_decide (v = "strict-any-reader") then (GDB_MODE_STRICT_ANY_READER, None)
    else if bool_decide (v = "home-reader-or-writer") then (GDB_MODE_HOME_READER_OR_WRITER, None)
    else if bool_decide (v = "out-of-home-reader-or-writer") then (GDB_MODE_OUT_OF_HOME_READER_OR_WRITER, None)
    else if bool_decide (v = "any-reader-or-writer") then (GDB_MODE_ANY_READER_OR_WRITER, None)
    else (GDB_MODE_UNKNOWN, Some (PlainError "invalid GlobalDbFailoverMode value" [value])).

Record GlobalDbFailoverHandler := mkGdbHandler {
  activeHomeFailoverMode : GlobalDbFailoverMode;
  inactiveHomeFailoverMode : GlobalDbFailoverMode;
  homeRegion : string;
  gdb_rdsUrlType : RdsUrlType;
  failoverModeInitialized : bool
}.
#[export] Instance GlobalDbFailoverHandler_eta : Eta GlobalDbFailoverHandler := fun h =>
  mkGdbHandler (activeHomeFailoverMode h) (inactiveHomeFailoverMode h) (homeRegion h) (gdb_rdsUrlType h) (failoverModeInitialized h).
Definition newGlobalDbFailoverHandler : GlobalDbFailoverHandler :=
  mkGdbHandler GDB_MODE_UNKNOWN GDB_MODE_UNKNOWN "" OTHER false.

Class HasGdbFailover (P : Type) := {
  get_gdb_failover : P -> GlobalDbFailoverHandler;
  put_gdb_failover : GlobalDbFailoverHandler -> P -> P;
  get_put_gdb_failover h s : get_gdb_failover (put_gdb_failover h s) = h
}.

Definition missingHomeRegion : go_error := PlainError "GlobalDbFailoverConnectionPlugin.missingHomeRegion" [].

(** The settings of the handler from the properties and the initial host: the
    fields assigned before an error stay assigned. *)
Definition default_mode (urlType : RdsUrlType) : GlobalDbFailoverMode :=
  if bool_decide (urlType = RDS_WRITER_CLUSTER) || bool_decide (urlType = RDS_GLOBAL_WRITER_CLUSTER)
  then GDB_MODE_STRICT_WRITER else GDB_MODE_HOME_READER_OR_WRITER.
Definition mode_or_default (mode : GlobalDbFailoverMode) (urlType : RdsUrlType) : GlobalDbFailoverMode :=
  if bool_decide (mode = GDB_MODE_UNKNOWN) then default_mode urlType else mode.

Section GdbFailover.
Context {C V Sel P : Type} `{EqDecision C} `{ExecConn C} `{DriverDialect C} `{PrepareHost} `{HasFailover P} `{HasGdbFailover P} `{Clock P}.
Local Abbreviation Svc := (PluginServiceImpl (C := C) (P := P)).
Local Abbreviation Plugin := (ConnectionPlugin Svc V C Sel loc).
Context (props : properties) (funcs : SessionFuncs C) (plugins : list Plugin) (self : Plugin).
Context (providers : nat -> HostListProvider (C := C) (P := P)).
Context (AllowedAndBlocked_Get : Svc -> string -> option AllowedAndBlockedHosts).
Context (host_clock : Svc -> HostClock).
Context (failoverTimeoutMsSetting : Z) (failoverReaderHostSelectorStrategySetting : string).

Definition gh (p : Svc) : GlobalDbFailoverHandler := get_gdb_failover (p_plugins p).
Definition set_gh (f : GlobalDbFailoverHandler -> GlobalDbFailoverHandler) : St Svc unit :=
  modify (fun p => p <| p_plugins := put_gdb_failover (f (get_gdb_failover (p_plugins p))) (p_plugins p) |>).

(** The home region: the property, or the region in the name of the host. *)
Definition init_homeRegion (host : string) : Eff Svc unit :=
  (let home := GetVerifiedWrapperPropertyValue (Some props) GDB_FAILOVER_HOME_REGION in
   let! _ := set_gh (fun h => h <| homeRegion := home |>) in
   if negb (is_empty home) then eff_ok tt
   else
     let! urlType := gets (fun p => gdb_rdsUrlType (gh p)) in
     if negb (HasRegion urlType) then throw missingHomeRegion
     else
       let! _ := set_gh (fun h => h <| homeRegion := GetRdsRegion host |>) in
       if is_empty (GetRdsRegion host) then throw missingHomeRegion else eff_ok tt)%eff.

Definition gdb_initFailoverMode : Eff Svc unit :=
  (let! init := gets (fun p => failoverModeInitialized (gh p)) in
   if (init : bool) then eff_ok tt
   else
     let! initial := gets (fun p => deref p (initialHostInfo p)) in
     match initial with
     | None => lift_result Panic
     | Some initial =>
         let urlType := IdentifyRdsUrlType (Host initial) in
         let! _ := set_gh (fun h => h <| gdb_rdsUrlType := urlType |>) in
         try! _ := init_homeRegion (Host initial) in
         let '(active, err) := gdbFailoverModeFromValue (GetVerifiedWrapperPropertyValue (Some props) GDB_FAILOVER_ACTIVE_HOME_MODE) in
         let! _ := set_gh (fun h => h <| activeHomeFailoverMode := active |>) in
         match err with
         | Some e => throw e
         | None =>
             let '(inactive, err) := gdbFailoverModeFromValue (GetVerifiedWrapperPropertyValue (Some props) GDB_FAILOVER_INACTIVE_HOME_MODE) in
             let! _ := set_gh (fun h => h <| inactiveHomeFailoverMode := inactive |>) in
             match err with
             | Some e => throw e
             | None =>
                 let! _ := set_gh (fun h => h <| activeHomeFailoverMode := mode_or_default active urlType |>
                                              <| inactiveHomeFailoverMode := mode_or_default inactive urlType |>) in
                 let! _ := set_gh (fun h => h <| failoverModeInitialized := true |>) in eff_ok tt
             end
         end
     end)%eff.

(** ** Failing over to the writer *)

Definition gdb_failoverToWriter (writerCandidate : loc) : Eff Svc unit :=
  (let! allowed := gets (fun p => existsb (fun l => String.eqb (key_at p l) (key_at p writerCandidate)) (GetHosts AllowedAndBlocked_Get p)) in
   if negb allowed then
     let! key := gets (fun p => key_at p writerCandidate) in throw (NewFailoverFailedError "Failover.newWriterNotAllowed" [key])
   else
     let! c := createConnectionForHost props plugins self writerCandidate in
     match c with
     | Panic => lift_result Panic
     | Err _ => throw (NewFailoverFailedError "Failover.errorConnectingToWriter" [])
     | Ok conn =>
         try! role := GetHostRole providers conn in
         if negb (bool_decide (role = WRITER)) then
           let! _ := emit (Closed conn) in
           let! host := gets (fun p => HostInfo.GetHost (host_at p writerCandidate)) in
           throw (NewFailoverFailedError "Failover.unexpectedReaderRole" [host; role])
         else
           let! r := service_SetCurrentConnection props funcs plugins conn writerCandidate in
           match r with
           | Panic => lift_result Panic
           | Err err => let! _ := emit (Closed conn) in throw err
           | Ok _ => eff_ok tt
           end
     end)%eff.

(** ** Failing over to an allowed host *)

(** The hosts a mode allows: the role of the host and whether its region has
    to be the home region ([Some true]), another one ([Some false]) or any. *)
Definition role_is (role : string) (h : HostInfo) : bool := bool_decide (Role h = role).
Definition at_home (home : string) (h : HostInfo) : bool := EqualFold (GetRdsRegion (Host h)) home.
Definition mode_allows (mode : GlobalDbFailoverMode) (home : string) (h : HostInfo) : bool :=
  match mode with
  | GDB_MODE_STRICT_HOME_READER => role_is READER h && at_home home h
  | GDB_MODE_STRICT_OUT_OF_HOME_READER => role_is READER h && negb (at_home home h)
  | GDB_MODE_STRICT_ANY_READER => role_is READER h
  | GDB_MODE_HOME_READER_OR_WRITER => role_is WRITER h || (role_is READER h && at_home home h)
  | GDB_MODE_OUT_OF_HOME_READER_OR_WRITER => role_is WRITER h || (role_is READER h && negb (at_home home h))
  | _ => true
  end.
(** A location of the list always holds a host. *)
Definition allowedHosts (mode : GlobalDbFailoverMode) (home : string) (p : Svc) : list loc :=
  FilterSlice (GetHosts AllowedAndBlocked_Get p)
    (fun l => match host_at p l with Some h => mode_allows mode home h | None => false end).
(** The role the connection must report; the empty one is any. *)
Definition verifyRole (mode : GlobalDbFailoverMode) : string :=
  match mode with
  | GDB_MODE_STRICT_HOME_READER | GDB_MODE_STRICT_OUT_OF_HOME_READER | GDB_MODE_STRICT_ANY_READER => READER
  | _ => ""
  end.

(** Copies of the hosts that are available; a host without a name is dropped. *)
Definition available_copy (h : HostInfo) : Result HostInfo :=
  Build (HostInfo.SetAvailability AVAILABLE (CopyFrom (Some h) NewHostInfoBuilder)).
Fixpoint copy_hosts (hosts : list loc) : St Svc (list loc) :=
  match hosts with
  | [] => st_ret []
  | l :: r => fun p =>
      match host_at p l with
      | Some h =>
          match available_copy h with
          | Ok h' => (let! l' := alloc h' in let! r := copy_hosts r in st_ret (l' :: r))%eff p
          | _ => copy_hosts r p
          end
      | None => copy_hosts r p
      end
  end.

Definition remove_host (l : loc) (p : Svc) (hosts : list loc) : list loc :=
  let '(array, n) := RemoveFromSlice (fun a b => String.eqb (key_at p a) (key_at p b)) hosts (length hosts) l in take n array.

(** The inner loop: [Ok (Some (Some r))] returns, [Ok (Some None)] leaves it. *)
Fixpoint try_candidates (fuel : nat) (role : string) (failoverEnd : Z) (remainingHosts : list loc)
  : Eff Svc (option (option (ReaderFailoverResult (C := C)))) :=
  match fuel with
  | O => eff_ok None
  | S fuel =>
      if Nat.eqb (length remainingHosts) 0 then eff_ok (Some None)
      else
        (let! t := now in
         if negb (t <? failoverEnd) then eff_ok (Some None)
         else
           let! candidate := GetHostInfoByStrategy plugins role failoverReaderHostSelectorStrategySetting remainingHosts in
           match candidate with
           | Panic => lift_result Panic
           | Err _ => eff_ok (Some None)
           | Ok l =>
               let! none := gets (fun p => IsNil (host_at p l)) in
               if (none : bool) then eff_ok (Some None)
               else
                 let! c := createConnectionForHost props plugins self l in
                 match c with
                 | Panic => lift_result Panic
                 | Err _ =>
                     let! remaining := gets (fun p => remove_host l p remainingHosts) in
                     try_candidates fuel role failoverEnd remaining
                 | Ok conn =>
                     if is_empty role then eff_ok (Some (Some (mkReaderResult conn l)))
                     else
                       try! actual := GetHostRole providers conn in
                       if bool_decide (actual = role) then
                         try! r := found conn l actual in eff_ok (Some (Some r))
                       else
                         let! remaining := gets (fun p => remove_host l p remainingHosts) in
                         let! _ := emit (Closed conn) in
                         try_candidates fuel role failoverEnd remaining
                 end
           end)%eff
  end.

(** The body of the outer loop runs once before its condition is tested. *)
Fixpoint search_rounds (fuel : nat) (mode : GlobalDbFailoverMode) (failoverEnd : Z) : Eff Svc (option (ReaderFailoverResult (C := C))) :=
  match fuel with
  | O => eff_ok None
  | S fuel =>
      (let again := (let! t := now in
                     if t <? failoverEnd then search_rounds fuel mode failoverEnd else throw failoverReaderTimeout)%eff in
       let! refreshed := on_clock host_clock (RefreshHostList plugins providers) in
       match refreshed with
       | Panic => lift_result Panic
       | _ =>
           let! updatedAllowedHosts := gets (fun p => allowedHosts mode (homeRegion (gh p)) p) in
           match updatedAllowedHosts with
           | [] => again
           | _ =>
               let! remainingHosts := copy_hosts updatedAllowedHosts in
               try! inner := try_candidates fuel (verifyRole mode) failoverEnd remainingHosts in
               match inner with
               | None => eff_ok None
               | Some (Some r) => eff_ok (Some r)
               | Some None => again
               end
           end
       end)%eff
  end.
Definition getAllowedFailoverConnection := search_rounds.

Definition failoverToAllowedHost (fuel : nat) (mode : GlobalDbFailoverMode) (failoverEnd : Z) : Eff Svc (option unit) :=
  (let! result := getAllowedFailoverConnection fuel mode failoverEnd in
   match result with
   | Panic => lift_result Panic
   | Err _ => throw unableToConnectToReader
   | Ok None => eff_ok None
   | Ok (Some r) =>
       try! _ := service_SetCurrentConnection props funcs plugins (result_Conn r) (result_HostInfo r) in eff_ok (Some tt)
   end)%eff.

(** ** The handler *)

Definition unsupportedMode : go_error := NewGenericAwsWrapperError "unsupported failover mode: " [].
Definition fail_over_in (fuel : nat) (mode : GlobalDbFailoverMode) (writerCandidate : loc) (failoverEnd : Z) : Eff Svc (option unit) :=
  match mode with
  | GDB_MODE_STRICT_WRITER => (try! _ := gdb_failoverToWriter writerCandidate in eff_ok (Some tt))%eff
  | GDB_MODE_UNKNOWN => throw unsupportedMode
  | _ => failoverToAllowedHost fuel mode failoverEnd
  end.
(** The mode in force, by the region of the writer. *)
Definition mode_in_force (writer : HostInfo) (h : GlobalDbFailoverHandler) : GlobalDbFailoverMode :=
  if EqualFold (homeRegion h) (GetRdsRegion (Host writer)) then activeHomeFailoverMode h else inactiveHomeFailoverMode h.

Definition gdb_failover (fuel : nat) : Eff Svc (option unit) :=
  (let! failoverStartTime := now in
   let failoverEndNano := failoverStartTime + wrap64 (failoverTimeoutMsSetting * Millisecond) in
   let! refreshed := on_clock host_clock (fun clk => ForceRefreshHostListWithTimeout plugins providers clk true failoverTimeoutMsSetting) in
   match refreshed with
   | Panic => lift_result Panic
   | Ok true =>
       let! writerCandidate := gets (fun p => GetWriter_at p (AllHosts p)) in
       match writerCandidate with
       | None => throw (NewFailoverFailedError "Failover.noWriterHost" [])
       | Some l =>
           let! writer := gets (fun p => host_at p l) in
           match writer with
           | None => throw (NewFailoverFailedError "Failover.noWriterHost" [])
           | Some writer =>
               if IsNil (Some writer) then throw (NewFailoverFailedError "Failover.noWriterHost" [])
               else
                 let! mode := gets (fun p => mode_in_force writer (gh p)) in
                 try! r := fail_over_in fuel mode l failoverEndNano in
                 match r with
                 | None => eff_ok None
                 | Some _ =>
                     try! host := service_GetCurrentHostInfo AllowedAndBlocked_Get in
                     try! _ := returnFailoverSuccessError in eff_ok (Some tt)
                 end
           end
       end
   | _ => throw (NewFailoverFailedError "Failover.unableToRefreshHostList" [])
   end)%eff.

Definition gdb_dealWithError (fuel : nat) (err : go_error) : Eff Svc (option unit) := fun p =>
  if bool_decide (lastErrorDealtWith (fp p) <> Some err) && shouldErrorTriggerConnectionSwitch err p then
    (let! _ := InvalidateCurrentConnection in
     try! currentHost := service_GetCurrentHostInfo AllowedAndBlocked_Get in
     match currentHost with
     | None => lift_result Panic
     | Some l =>
         let! aliases := gets (fun p => default ∅ (host_at p l ≫= Aliases)) in
         let! _ := (fun p => SetAvailability plugins (host_clock p) aliases UNAVAILABLE p) in
         try! r := gdb_failover fuel in
         match r with
         | None => eff_ok None
         | Some _ => let! _ := set_fp (fun f => f <| lastErrorDealtWith := Some err |>) in throw err
         end
     end)%eff p
  else (p, Err err).

Definition globalDbFailoverHandler (fuel : nat) : FailoverHandler (C := C) (P := P) :=
  mkHandler gdb_initFailoverMode (gdb_failover fuel) (gdb_dealWithError fuel).

(** ** What a search returns

    The other plugins and the provider leave the names of the hosts and the
    handler alone, and the strategy picks one of the hosts it is given. *)
Definition steady (p p' : Svc) : Prop :=
  gh p' = gh p /\ forall l h, host_at p l = Some h -> exists h', host_at p' l = Some h' /\ Host h' = Host h.
#[export] Instance steady_preorder : PreOrder steady.
Proof.
  split.
  - intros p. split; [done|]. eauto.
  - intros p1 p2 p3 [G1 H12] [G2 H23]. split; [congruence|]. intros l h Hl.
    destruct (H12 l h Hl) as (h' & Hl' & E). destruct (H23 l h' Hl') as (h'' & Hl'' & E'). exists h''. split; [done|congruence].
Qed.

Lemma alloc_steady h : keeps steady (alloc h).
Proof.
  intros p. unfold alloc. split; [done|]. intros l h' Hl. exists h'. split; [|done]. unfold host_at in *. cbn.
  rewrite lookup_insert_ne; [done|]. intros E. apply (is_fresh (dom (heap p))). rewrite E. by apply elem_of_dom_2 in Hl.
Qed.

Record well_behaved : Prop := {
  wb_pick role hosts p p' l : GetHostInfoByStrategy plugins role failoverReaderHostSelectorStrategySetting hosts p = (p', Ok l) -> l ∈ hosts;
  wb_strategy role hosts : keeps steady (GetHostInfoByStrategy plugins role failoverReaderHostSelectorStrategySetting hosts);
  wb_connect l : keeps steady (createConnectionForHost props plugins self l);
  wb_role conn : keeps steady (GetHostRole providers conn);
  wb_now : keeps steady now;
  wb_refresh : keeps steady (on_clock host_clock (RefreshHostList plugins providers))
}.

(** A connection that was opened to a host named [name], and reported [role]
    unless any role will do. *)
Definition opened (name role : string) (conn : C) : Prop :=
  (exists l h pa pb, host_at pa l = Some h /\ Host h = name /\ createConnectionForHost props plugins self l pa = (pb, Ok conn)) /\
  (role <> "" -> exists pa pb, GetHostRole providers conn pa = (pb, Ok role)).

Lemma allowedHosts_spec mode home p l :
  l ∈ allowedHosts mode home p -> exists h, host_at p l = Some h /\ mode_allows mode home h = true.
Proof. unfold allowedHosts. intros [Hm _]%elem_of_FilterSlice. destruct (host_at p l); [eauto|done]. Qed.

Definition copy_of (hosts : list loc) (p p' : Svc) (l' : loc) : Prop :=
  exists l h h', l ∈ hosts /\ host_at p l = Some h /\ host_at p' l' = Some h' /\ Host h' = Host h.

Lemma copy_of_later hosts p p1 p2 l' : steady p1 p2 -> copy_of hosts p p1 l' -> copy_of hosts p p2 l'.
Proof.
  intros [_ Hs] (l & h & h' & Hin & Hh & Hl' & E). destruct (Hs l' h' Hl') as (h2 & Hh2 & E2).
  exists l, h, h2. split_and!; [done..|congruence].
Qed.

Lemma copy_hosts_names hosts : forall p p' copies,
  Forall (fun l => is_Some (host_at p l)) hosts -> copy_hosts hosts p = (p', copies) ->
  steady p p' /\ Forall (copy_of hosts p p') copies.
Proof.
  induction hosts as [|l hosts IH]; intros p p' copies Hall; cbn [copy_hosts].
  { intros [= <- <-]. split; [reflexivity|constructor]. }
  apply Forall_cons in Hall as [[h Eh] Hall]. rewrite Eh.
  assert (Hweak : forall p1 l', copy_of hosts p p1 l' -> copy_of (l :: hosts) p p1 l').
  { intros p1 l' (l0 & h0 & h' & ? & ?). exists l0, h0, h'. split; [by right|done]. }
  destruct (available_copy h) as [h'|e|] eqn:Ec.
  2-3: intros E; destruct (IH _ _ _ Hall E) as [Hs Hc]; split; [done|]; by eapply Forall_impl; [exact Hc|intros l'; apply Hweak].
  assert (Host h' = Host h) as Hname.
  { unfold available_copy, Build, checkHostIsSet in Ec. cbn in Ec. destruct (is_empty (Host h)); [done|]. by injection Ec as <-. }
  unfold st_bind. pose proof (alloc_steady h' p) as Ha. destruct (alloc h' p) as [p1 l'] eqn:Eal.
  assert (Hl' : host_at p1 l' = Some h') by (unfold alloc in Eal; injection Eal as <- <-; apply lookup_insert_eq).
  destruct (copy_hosts hosts p1) as [p2 r] eqn:Er. intros [= <- <-]. cbn [fst] in Ha.
  destruct (IH p1 p2 r) as [Hs Hr]; [|done|].
  { eapply Forall_impl; [exact Hall|]. intros l0 [h0 Hh0]. destruct (proj2 Ha l0 h0 Hh0) as (h2 & -> & _). eauto. }
  split; [by etransitivity|]. constructor.
  - destruct (proj2 Hs l' h' Hl') as (h2 & Hl2 & E2). exists l, h, h2. split_and!; [by left|done..|congruence].
  - rewrite Forall_forall in Hr, Hall |- *. intros l2 Hl2. destruct (Hr l2 Hl2) as (l0 & h0 & h2 & Hin & Hh0 & Hl2' & E2).
    destruct (Hall l0 Hin) as [h00 Hh00]. destruct (proj2 Ha l0 h00 Hh00) as (hx & Hx & Ex).
    exists l0, h00, h2. split_and!; [by right|done..|congruence].
Qed.

Lemma remove_host_sub l p hosts : forall x, x ∈ remove_host l p hosts -> x ∈ hosts.
Proof.
  assert (Ht : forall n (l' : list loc) x, x ∈ take n l' -> x ∈ l').
  { intros n l' x Hx. rewrite <-(take_drop n l'). apply elem_of_app. by left. }
  assert (Hd : forall n (l' : list loc) x, x ∈ drop n l' -> x ∈ l').
  { intros n l' x Hx. rewrite <-(take_drop n l'). apply elem_of_app. by right. }
  intros x. unfold remove_host, RemoveFromSlice. destruct (IndexOf _ _ _) as [i|]; [|apply Ht].
  intros [Hx|[Hx|Hx]%elem_of_app]%Ht%elem_of_app; eauto.
Qed.

Lemma now_steady p : gh (now p).1 = gh p -> steady p (now p).1.
Proof.
  intros Hg. split; [done|]. intros l h Hl. exists h. split; [|done]. unfold now, zoom in *.
  by destruct (clock_now (p_plugins p)).
Qed.

Section search.
Context (Hwb : well_behaved).

Lemma found_steady (conn : C) l role : keeps steady (found conn l role : Eff Svc _).
Proof.
  intros p. unfold found. destruct (host_at p l) as [h|]; [|reflexivity].
  pose proof (alloc_steady (MakeCopyWithRole h role) p) as Ha. by destruct (alloc _ p).
Qed.

Lemma found_conn (conn : C) l role (p p' : Svc) r : found conn l role p = (p', Ok r) -> result_Conn r = conn.
Proof. unfold found. destruct (host_at p l); [|done]. destruct (alloc _ p). by intros [= _ <-]. Qed.

(** The hosts still to be tried are copies of the allowed ones. *)
Lemma try_candidates_opened role failoverEnd hosts p0 fuel : forall remaining p,
  Forall (copy_of hosts p0 p) remaining ->
  let '(p', r) := try_candidates fuel role failoverEnd remaining p in
  steady p p' /\
  forall res, r = Ok (Some (Some res)) -> exists l h, l ∈ hosts /\ host_at p0 l = Some h /\ opened (Host h) role (result_Conn res).
Proof.
  induction fuel as [|fuel IH]; intros remaining p Hrem; [by split|]. cbn [try_candidates].
  destruct (Nat.eqb _ _); [by split|]. unfold st_bind at 1. pose proof (wb_now Hwb p) as S1. destruct (now p) as [p1 t]. cbn [fst] in S1.
  destruct (negb _); [by split|]. unfold st_bind at 1. pose proof (wb_strategy Hwb role remaining p1) as S2.
  destruct (GetHostInfoByStrategy _ _ _ _ p1) as [p2 [l|e|]] eqn:Eg; cbn [fst] in S2;
    [|split; [by transitivity p1|done]..].
  apply (wb_pick Hwb) in Eg as Hin. assert (S12 : steady p p2) by by transitivity p1.
  unfold st_bind at 1, gets at 1. destruct (IsNil _); [by split|]. unfold st_bind at 1.
  pose proof (wb_connect Hwb l p2) as S3. destruct (createConnectionForHost _ _ _ l p2) as [p3 [conn|e|]] eqn:Ec; cbn [fst] in S3.
  - assert (S13 : steady p p3) by by transitivity p2.
    assert (Hl : copy_of hosts p0 p2 l) by (eapply copy_of_later, (proj1 (Forall_forall _ _) Hrem l Hin); exact S12).
    destruct Hl as (l0 & h & h' & Hl0 & Hh & Hh' & En).
    assert (Hopen : (role <> "" -> exists pa pb, GetHostRole providers conn pa = (pb, Ok role)) -> opened (Host h) role conn).
    { intros Hr. split; [|exact Hr]. by exists l, h', p2, p3. }
    destruct (is_empty role) eqn:Er.
    { split; [exact S13|]. intros res [= <-]. exists l0, h. split_and!; [done..|]. apply Hopen. intros Hne. by destruct role. }
    rewrite eff_bind_eq. pose proof (wb_role Hwb conn p3) as S4. destruct (GetHostRole providers conn p3) as [p4 [actual|e|]] eqn:Ea; cbn [fst] in S4;
      [|split; [by transitivity p3|done]..].
    assert (S14 : steady p p4) by by transitivity p3. destruct (bool_decide_reflect (actual = role)) as [->|].
    + rewrite eff_bind_eq. pose proof (found_steady conn l role p4) as S5. destruct (found conn l role p4) as [p5 [r|e|]] eqn:Ef; cbn [fst] in S5;
        (split; [by transitivity p4|]); [|done..]. intros res [= <-]. exists l0, h. split_and!; [done..|].
      rewrite (found_conn _ _ _ _ _ _ Ef). apply Hopen. intros _. by exists p3, p4.
    + unfold st_bind, gets, emit, modify. set (q := p4 <| events := _ |>). assert (S15 : steady p q) by exact S14.
      specialize (IH (remove_host l p4 remaining) q). destruct (try_candidates _ _ _ _ q) as [p' r'].
      destruct IH as [S6 Hres]; [|split; [by transitivity q|exact Hres]]. apply Forall_forall. intros x Hx%remove_host_sub.
      eapply copy_of_later; [exact S15|]. by apply (proj1 (Forall_forall _ _) Hrem).
  - assert (S13 : steady p p3) by by transitivity p2. unfold st_bind, gets. specialize (IH (remove_host l p3 remaining) p3).
    destruct (try_candidates _ _ _ _ p3) as [p' r']. destruct IH as [S6 Hres]; [|split; [by transitivity p3|exact Hres]].
    apply Forall_forall. intros x Hx%remove_host_sub. eapply copy_of_later; [exact S13|]. by apply (proj1 (Forall_forall _ _) Hrem).
  - split; [by transitivity p2|done].
Qed.

(** A connection to a host the mode allows, from the home region [home]. *)
Definition mode_opened (mode : GlobalDbFailoverMode) (home : string) (conn : C) : Prop :=
  exists h, mode_allows mode home h = true /\ opened (Host h) (verifyRole mode) conn.

Lemma search_rounds_opened mode failoverEnd fuel : forall p p' r,
  search_rounds fuel mode failoverEnd p = (p', Ok (Some r)) -> mode_opened mode (homeRegion (gh p)) (result_Conn r).
Proof.
  induction fuel as [|fuel IH]; intros p p' r; [done|]. cbn [search_rounds].
  set (again := st_bind now _). cbv zeta.
  assert (Hagain : forall q, steady p q -> again q = (p', Ok (Some r)) -> mode_opened mode (homeRegion (gh p)) (result_Conn r)).
  { intros q [Hg _]. unfold again, st_bind. pose proof (wb_now Hwb q) as [Hg1 _]. destruct (now q) as [q1 t]. cbn [fst] in Hg1.
    destruct (t <? failoverEnd); [|done]. intros E%IH. by rewrite Hg1, Hg in E. }
  clearbody again. unfold st_bind at 1. pose proof (wb_refresh Hwb p) as S1.
  destruct (on_clock _ _ p) as [p1 refreshed]. cbn [fst] in S1. destruct refreshed as [u|e|]; [| |done];
    (unfold st_bind at 1, gets at 1; rewrite (proj1 S1);
     pose proof (allowedHosts_spec mode (homeRegion (gh p)) p1) as Hall;
     destruct (allowedHosts mode (homeRegion (gh p)) p1) as [|l0 rest]; [by apply Hagain|];
     unfold st_bind at 1; destruct (copy_hosts (l0 :: rest) p1) as [p2 copies] eqn:Ecopy;
     apply copy_hosts_names in Ecopy as [S2 Hcopies]; [|apply Forall_forall; intros l Hl; destruct (Hall l Hl) as (h & -> & _); eauto];
     rewrite eff_bind_eq;
     pose proof (try_candidates_opened (verifyRole mode) failoverEnd (l0 :: rest) p1 fuel copies p2 Hcopies) as Ht;
     destruct (try_candidates _ _ _ _ p2) as [p3 [[[res|]|]|e'|]]; destruct Ht as [S3 Hres]; [| |done..];
     [intros [= <- <-]; destruct (Hres res eq_refl) as (l & h & Hin & Hh & Ho); exists h; split; [|exact Ho];
      destruct (Hall l Hin) as (h' & Hh' & Hm); congruence
     |apply Hagain; transitivity p2; [by transitivity p1|done]]).
Qed.

Lemma failoverToAllowedHost_current fuel mode failoverEnd p p' :
  Forall calm plugins -> failoverToAllowedHost fuel mode failoverEnd p = (p', Ok (Some tt)) ->
  exists conn, mode_opened mode (homeRegion (gh p)) conn /\ currentConnection p' = Some conn.
Proof.
  intros Hq. unfold failoverToAllowedHost, getAllowedFailoverConnection, st_bind.
  destruct (search_rounds fuel mode failoverEnd p) as [p1 [[r|]|e|]] eqn:Es; [|done..].
  apply search_rounds_opened in Es. rewrite eff_bind_eq.
  destruct (service_SetCurrentConnection _ _ _ _ _ p1) as [p2 [[]|e|]] eqn:Ec; [|done..]. intros [= <-].
  exists (result_Conn r). split; [done|]. unfold service_SetCurrentConnection in Ec.
  assert (exists h0, host_at p1 (result_HostInfo r) = Some h0) as [h0 Hh0].
  { unfold SetCurrentConnection in Ec. destruct (host_at p1 (result_HostInfo r)) as [h0|]; [by exists h0|done]. }
  by destruct (SetCurrentConnection_current _ _ _ _ _ _ _ _ h0 Hq Hh0 Ec).
Qed.

Lemma gdb_writer_current l p p' :
  Forall calm plugins -> gdb_failoverToWriter l p = (p', Ok tt) ->
  exists conn, (exists pa pb, GetHostRole providers conn pa = (pb, Ok WRITER)) /\ currentConnection p' = Some conn.
Proof.
  intros Hq. unfold gdb_failoverToWriter, st_bind, gets. destruct (negb _); [done|].
  destruct (createConnectionForHost _ _ _ l p) as [p1 [conn|e|]]; [|done..]. rewrite eff_bind_eq.
  destruct (GetHostRole providers conn p1) as [p2 [role|e|]] eqn:Er; [|done..].
  destruct (bool_decide_reflect (role = WRITER)) as [->|]; cbn [negb]; [|done].
  destruct (service_SetCurrentConnection _ _ _ _ _ p2) as [p3 [[]|e|]] eqn:Ec; [|done..]. intros [= <-].
  exists conn. split; [by exists p1, p2|]. unfold service_SetCurrentConnection in Ec.
  assert (exists h0, host_at p2 l = Some h0) as [h0 Hh0].
  { unfold SetCurrentConnection in Ec. destruct (host_at p2 l) as [h0|]; [by exists h0|done]. }
  by destruct (SetCurrentConnection_current _ _ _ _ _ _ _ _ h0 Hq Hh0 Ec).
Qed.

(** What a successful failover in a mode leaves in use. *)
Definition in_use (mode : GlobalDbFailoverMode) (home : string) (p' : Svc) : Prop :=
  exists conn, currentConnection p' = Some conn /\
    match mode with
    | GDB_MODE_UNKNOWN => False
    | GDB_MODE_STRICT_WRITER => exists pa pb, GetHostRole providers conn pa = (pb, Ok WRITER)
    | _ => mode_opened mode home conn
    end.

Lemma fail_over_in_use fuel mode l failoverEnd p p' :
  Forall calm plugins -> fail_over_in fuel mode l failoverEnd p = (p', Ok (Some tt)) -> in_use mode (homeRegion (gh p)) p'.
Proof.
  intros Hq. unfold fail_over_in, in_use. destruct mode; try done;
    try (intros E; apply failoverToAllowedHost_current in E as (conn & Hm & Hc); [by exists conn|done]).
  rewrite eff_bind_eq. destruct (gdb_failoverToWriter l p) as [p1 [[]|e|]] eqn:E; [|done..]. intros [= <-].
  apply gdb_writer_current in E as (conn & Hr & Hc); [by exists conn|done].
Qed.
End search.

(** Errors of a failover are not its success. *)
Definition honest_replay : Prop := forall d conn w w' e, ApplyCurrentSessionState (Some props) funcs d conn w = (w', Err e) -> ~ failover_success e.

Lemma set_connection_honest conn l p p' e :
  honest_replay -> service_SetCurrentConnection props funcs plugins conn l p = (p', Err e) -> ~ failover_success e.
Proof.
  intros Hh E. unfold service_SetCurrentConnection in E.
  apply (SetCurrentConnection_error _ _ _ (fun e => ~ failover_success e)) in E; [done|exact Hh|]. intros e1 He1 [->| ->]; done.
Qed.

Lemma fail_over_honest fuel mode l failoverEnd p p' e :
  honest_replay -> fail_over_in fuel mode l failoverEnd p = (p', Err e) -> ~ failover_success e.
Proof.
  intros Hh. assert (Hfail : forall k a, ~ failover_success (NewFailoverFailedError k a)) by (intros k a [?|?]; done).
  assert (Hallowed : forall m, failoverToAllowedHost fuel m failoverEnd p = (p', Err e) -> ~ failover_success e).
  { intros m. unfold failoverToAllowedHost, getAllowedFailoverConnection, st_bind.
    destruct (search_rounds fuel m failoverEnd p) as [p1 [[r|]|e1|]]; [|done|intros [= _ <-]; apply Hfail|done].
    rewrite eff_bind_eq. destruct (service_SetCurrentConnection _ _ _ _ _ p1) as [p2 [u|e2|]] eqn:Ec; [done| |done].
    intros [= _ <-]. by apply set_connection_honest in Ec. }
  destruct mode; cbn [fail_over_in]; try apply Hallowed; [|intros [= _ <-] [?|?]; done].
  rewrite eff_bind_eq. destruct (gdb_failoverToWriter l p) as [p1 [u|e1|]] eqn:E; [done| |done]. intros [= <- <-]. revert E.
  unfold gdb_failoverToWriter, st_bind, gets. destruct (negb _); [intros [= _ <-]; apply Hfail|].
  destruct (createConnectionForHost _ _ _ l p) as [p2 [conn|e2|]]; [|intros [= _ <-]; apply Hfail|done]. rewrite eff_bind_eq.
  destruct (GetHostRole providers conn p2) as [p3 [role|e3|]] eqn:Er; [| |done].
  2: { unfold GetHostRole, with_provider, run in Er. destruct (hostListProvider p2); [|done]. by destruct (hlp_GetHostRole _ _ _). }
  destruct (bool_decide_reflect (role = WRITER)) as [->|]; cbn [negb];
    [|unfold emit, modify, gets, throw; intros [= _ <-]; apply Hfail].
  destruct (service_SetCurrentConnection _ _ _ _ _ p3) as [p4 [[]|e4|]] eqn:Ec; [done| |done].
  intros [= _ <-]. by apply set_connection_honest in Ec.
Qed.

(** ** The search ends *)

Section Termination.
Context (time_of : P -> Z).
Hypothesis Hnow : forall s : P, (clock_now s).2 = time_of s /\ time_of s < time_of (clock_now s).1.
Local Abbreviation later := (FailoverPlugin.later (C := C) time_of).
#[local] Instance gdb_later_preorder : PreOrder later.
Proof. split; [exact (later_refl time_of)|exact (later_trans time_of)]. Qed.
Hypothesis Hpick : forall role hosts, keeps later (GetHostInfoByStrategy plugins role failoverReaderHostSelectorStrategySetting hosts).
Hypothesis Hconn : forall l, keeps later (createConnectionForHost props plugins self l).
Hypothesis Hrole : forall conn, keeps later (GetHostRole providers conn).
Hypothesis Hrefresh : keeps later (on_clock host_clock (RefreshHostList plugins providers)).

Lemma copy_hosts_later hosts : keeps later (copy_hosts hosts).
Proof.
  induction hosts as [|l hosts IH]; intros p; cbn [copy_hosts]; [reflexivity|].
  destruct (host_at p l) as [h|]; [|apply IH]. destruct (available_copy h) as [h'|e|]; [|apply IH..].
  unfold st_bind. assert (later p (alloc h' p).1) as Ha by (unfold alloc, FailoverPlugin.later, time_at; cbn; lia).
  destruct (alloc h' p) as [p1 l']. specialize (IH p1). destruct (copy_hosts hosts p1) as [p2 r]. by transitivity p1.
Qed.

(** What is left of the time, as fuel for a loop that reads the clock. *)
Definition enough (failoverEnd : Z) (fuel : nat) (p : Svc) : Prop := (0 < fuel)%nat /\ failoverEnd - time_at time_of p < Z.of_nat fuel.
Lemma enough_later failoverEnd fuel p p1 p2 :
  enough failoverEnd (S fuel) p -> time_at time_of p < failoverEnd -> time_at time_of p < time_at time_of p1 -> later p1 p2 ->
  enough failoverEnd fuel p2.
Proof. unfold enough, FailoverPlugin.later. lia. Qed.

(** A run that ends, and not before it started. *)
Definition done_later {A} (p : Svc) (run : Svc * Result (option A)) : Prop :=
  let '(p', r) := run in r <> Ok None /\ later p p'.
Lemma done_earlier {A} p p1 (run : Svc * Result (option A)) : later p p1 -> done_later p1 run -> done_later p run.
Proof. destruct run as [p' r]. intros Hl [Hn Hl']. split; [done|by transitivity p1]. Qed.

Lemma try_candidates_ends role failoverEnd fuel : forall remaining p,
  enough failoverEnd fuel p -> done_later p (try_candidates fuel role failoverEnd remaining p).
Proof.
  induction fuel as [|fuel IH]; intros remaining p Hf; [unfold enough in Hf; lia|]. cbn [try_candidates].
  destruct (Nat.eqb _ _); [by split|]. unfold st_bind at 1.
  destruct (now_time time_of Hnow p) as [Ht Hlt]. destruct (now p) as [p1 t]. cbn [fst snd] in Ht, Hlt. subst t.
  apply (done_earlier p p1); [unfold FailoverPlugin.later; lia|].
  destruct (Z.ltb_spec (time_at time_of p) failoverEnd) as [Hend|]; cbn [negb]; [|by split].
  assert (Hrec : forall rem p', later p1 p' -> done_later p1 (try_candidates fuel role failoverEnd rem p')).
  { intros rem p' Hl. apply (done_earlier _ p'); [done|]. apply IH. by eapply enough_later. }
  unfold st_bind at 1. pose proof (Hpick role remaining p1) as L2.
  destruct (GetHostInfoByStrategy _ _ _ _ p1) as [p2 [l|err|]]; cbn [fst] in L2; [|by split..].
  unfold st_bind at 1, gets at 1. destruct (IsNil _); [by split|]. unfold st_bind at 1.
  pose proof (Hconn l p2) as L3. destruct (createConnectionForHost _ _ _ l p2) as [p3 [conn|e|]]; cbn [fst] in L3;
    assert (later p1 p3) as L13 by (by transitivity p2); [|unfold st_bind, gets; by apply Hrec|by split].
  destruct (is_empty role); [by split|]. rewrite eff_bind_eq. pose proof (Hrole conn p3) as L4.
  destruct (GetHostRole providers conn p3) as [p4 [actual|e|]]; cbn [fst] in L4;
    assert (later p1 p4) as L14 by (by transitivity p3); [|by split..].
  destruct (bool_decide_reflect (actual = role)) as [->|]; [|unfold st_bind, gets, emit, modify; apply Hrec; exact L14].
  rewrite eff_bind_eq. pose proof (found_later time_of conn l role p4) as L5.
  destruct (found conn l role p4) as [p5 [r|e|]]; cbn [fst] in L5; (split; [done|by transitivity p4]).
Qed.

Lemma search_rounds_ends mode failoverEnd fuel : forall p,
  (1 < fuel)%nat -> failoverEnd - time_at time_of p + 1 < Z.of_nat fuel ->
  done_later p (search_rounds fuel mode failoverEnd p).
Proof.
  induction fuel as [|fuel IH]; intros p Hpos Hf; [lia|]. cbn [search_rounds].
  set (again := st_bind now _). cbv zeta.
  assert (Hagain : forall q, later p q -> done_later p (again q)).
  { intros q Hl. unfold again, st_bind. destruct (now_time time_of Hnow q) as [Ht Hlt]. destruct (now q) as [q1 t].
    cbn [fst snd] in Ht, Hlt. subst t. unfold FailoverPlugin.later in Hl.
    destruct (Z.ltb_spec (time_at time_of q) failoverEnd) as [Hend|]; [|split; [done|unfold FailoverPlugin.later; cbn; lia]].
    apply (done_earlier _ q1); [unfold FailoverPlugin.later; lia|]. apply IH; lia. }
  clearbody again. unfold st_bind at 1. pose proof (Hrefresh p) as L1.
  destruct (on_clock _ _ p) as [p1 refreshed]. cbn [fst] in L1.
  destruct refreshed as [u|e|]; [| |by split]; (unfold st_bind at 1, gets at 1;
    destruct (allowedHosts mode _ p1) as [|l0 rest]; [by apply Hagain|];
    unfold st_bind; pose proof (copy_hosts_later (l0 :: rest) p1) as L2;
    destruct (copy_hosts (l0 :: rest) p1) as [p2 copies]; cbn [fst] in L2; rewrite eff_bind_eq;
    assert (later p p2) as L12 by (by transitivity p1);
    pose proof (try_candidates_ends (verifyRole mode) failoverEnd fuel copies p2
      ltac:(unfold enough, FailoverPlugin.later in *; lia)) as Hn;
    destruct (try_candidates _ _ _ copies p2) as [p3 [[[res|]|]|e'|]]; destruct Hn as [Hn L3]; try done;
    [split; [done|by transitivity p2]|apply Hagain; by transitivity p2|split; [done|by transitivity p2]..]).
Qed.

Hypothesis Hforce : keeps later (on_clock host_clock (fun clk => ForceRefreshHostListWithTimeout plugins providers clk true failoverTimeoutMsSetting)).

Lemma fail_over_in_ends fuel mode l failoverEnd p :
  failoverEnd - time_at time_of p + 1 < Z.of_nat fuel -> (1 < fuel)%nat -> (fail_over_in fuel mode l failoverEnd p).2 <> Ok None.
Proof.
  intros Hf Hpos. assert (Ha : forall m, (failoverToAllowedHost fuel m failoverEnd p).2 <> Ok None).
  { intros m. unfold failoverToAllowedHost, getAllowedFailoverConnection, st_bind.
    pose proof (search_rounds_ends m failoverEnd fuel p Hpos Hf) as Hn.
    destruct (search_rounds fuel m failoverEnd p) as [p1 [[r|]|e|]]; destruct Hn as [Hn _]; [|done..]. rewrite eff_bind_eq.
    by destruct (service_SetCurrentConnection _ _ _ _ _ p1) as [p2 [u|e|]]. }
  destruct mode; try apply Ha; [|done]. cbn [fail_over_in]. rewrite eff_bind_eq.
  by destruct (gdb_failoverToWriter l p) as [p1 [u|e|]].
Qed.

(** A global failover ends: with a clock that moves at each reading, fuel for
    the time-out and two rounds more is enough in every mode. *)
Theorem gdb_failover_ends fuel p :
  Z.max 0 (wrap64 (failoverTimeoutMsSetting * Millisecond)) + 2 < Z.of_nat fuel -> (gdb_failover fuel p).2 <> Ok None.
Proof.
  intros Hf. unfold gdb_failover, st_bind at 1. destruct (now_time time_of Hnow p) as [Ht Hlt]. destruct (now p) as [p0 t].
  cbn [fst snd] in Ht, Hlt. subst t. unfold st_bind at 1. pose proof (Hforce p0) as L1.
  destruct (on_clock _ _ p0) as [p1 [[]|e0|]]; cbn [fst] in L1; [|done..]. unfold FailoverPlugin.later in L1.
  unfold st_bind at 1, gets at 1. destruct (GetWriter_at p1 (AllHosts p1)) as [l|]; [|done].
  unfold st_bind at 1, gets at 1. destruct (host_at p1 l) as [writer|]; [|done].
  destruct (IsNil _); [done|]. unfold st_bind at 1, gets at 1. rewrite eff_bind_eq.
  match goal with |- context [fail_over_in fuel ?m l ?e p1] => pose proof (fail_over_in_ends fuel m l e p1 ltac:(lia) ltac:(lia)) as Hn;
    destruct (fail_over_in fuel m l e p1) as [p2 [[u|]|e1|]] end; [|done..].
  rewrite eff_bind_eq. destruct (service_GetCurrentHostInfo _ p2) as [p3 [h|e3|]]; [|done..].
  rewrite eff_bind_eq. by destruct (returnFailoverSuccessError p3) as [p4 [u'|e4|]].
Qed.
End Termination.

(** ** Properties *)

End GdbFailover.

(** ** Examples *)

Definition GdbTicking : Type := FailoverPlugin * Z * GlobalDbFailoverHandler.
#[local] Instance gdb_ticking_failover : HasFailover GdbTicking := {|
  get_failover s := s.1.1; put_failover f s := (f, s.1.2, s.2); get_put_failover _ _ := eq_refl |}.
#[local] Instance gdb_ticking_handler : HasGdbFailover GdbTicking := {|
  get_gdb_failover := snd; put_gdb_failover h s := (s.1, h); get_put_gdb_failover _ _ := eq_refl |}.
#[local] Instance gdb_ticking_clock : Clock GdbTicking := fun s => ((s.1.1, s.1.2 + 1, s.2), s.1.2).
#[local] Instance gdb_accepting_conn : ExecConn nat := fun _ _ _ => Some None.
#[local] Instance gdb_open_conn : DriverDialect nat := {|
  IsClosed log conn := existsb (fun e => match e with Closed c => Nat.eqb c conn | _ => false end) log;
  IsNetworkError e := match e with PlainError k _ => bool_decide (k = "network") | _ => false end; IsLoginError _ := false |}.
Local Abbreviation Gdb_svc := (PluginServiceImpl (C := nat) (P := GdbTicking)).

Definition gdb_plugin_no (n : nat) : ConnectionPlugin Gdb_svc nat nat unit loc := {|
  plugin_id := n; GetPluginCode := "connecting"; GetSubscribedMethods := ["*"];
  plugin_Execute _ _ _ k := k;
  plugin_Connect l _ _ _ := eff_ok l;
  plugin_ForceConnect l _ _ _ := eff_ok l;
  plugin_AcceptsStrategy _ := st_ret true;
  plugin_GetHostInfoByStrategy _ _ hosts := match hosts with l :: _ => eff_ok l | [] => throw (PlainError "none" []) end;
  plugin_GetHostSelectorStrategy _ := throw (PlainError "none" []);
  plugin_NotifyConnectionChanged _ := st_ret NO_OPINION;
  plugin_NotifyHostListChanged _ := st_ret tt;
  plugin_InitHostProvider _ k := k;
  plugin_ReleaseResources := None |}.
Definition gdb_plugin := gdb_plugin_no 1.
Definition gdb_self := gdb_plugin_no 0.

(** A writer and a reader in us-east-1, a reader in eu-west-1. A connection is
    the location it was opened at. *)
Definition gdb_host (name role : string) : HostInfo := mkHostInfo name name 3306 AVAILABLE role None None 100 0.
Definition gdb_heap : gmap loc HostInfo :=
  {[0%nat := gdb_host "w.xyz123456789.us-east-1.rds.amazonaws.com" WRITER;
    1%nat := gdb_host "r1.xyz123456789.us-east-1.rds.amazonaws.com" READER;
    2%nat := gdb_host "r2.xyz987654321.eu-west-1.rds.amazonaws.com" READER]}.
Definition gdb_provider (_ : nat) : HostListProvider (C := nat) (P := GdbTicking) :=
  mkProvider (throw (PlainError "offline" [])) (eff_ok [0; 1; 2]%nat) (fun _ _ => eff_ok [0; 1; 2]%nat)
    (fun c => st_ret (if Nat.eqb c 0 then WRITER else READER)) (fun _ => eff_ok None) false None.
Definition gdb_service (h : GlobalDbFailoverHandler) : Gdb_svc :=
  mkService gdb_heap (Some 0%nat) (Some 0%nat) (Some 0%nat) [0; 1; 2]%nat false None NewSessionStateServiceImpl []
    (mkManager false None "" no_entries) (Some MySQLDatabaseDialect) true (Some 0%nat) no_entries ∅ (NewFailoverPlugin, 0, h).
Definition home_reader (home : string) : GlobalDbFailoverHandler :=
  mkGdbHandler GDB_MODE_STRICT_WRITER GDB_MODE_STRICT_HOME_READER home RDS_WRITER_CLUSTER true.
Definition gdb_permissions : Gdb_svc -> string -> option AllowedAndBlockedHosts := fun _ _ => None.
Definition no_transfer : properties := {["transferSessionStateOnSwitch" := "false"]}.
Definition gdb_run (h : GlobalDbFailoverHandler) : Gdb_svc * Result (option unit) :=
  gdb_failover no_transfer no_session_funcs [gdb_plugin] gdb_self gdb_provider gdb_permissions (fun _ => example_clock) 10 "random" 5
    (gdb_service h).

(** The writer is away from the home region eu-west-1: the reader there is
    taken. In us-east-1 the writer itself is. *)
Example gdb_home_reader_taken :
  let '(p, r) := gdb_run (home_reader "eu-west-1") in
  (r, HostInfo.GetHost (deref p (currentHostInfo p))) = (Err FailoverSuccessError, "r2.xyz987654321.eu-west-1.rds.amazonaws.com").
Proof. by vm_compute. Qed.
Example gdb_writer_taken :
  let '(p, r) := gdb_run (home_reader "US-EAST-1") in
  (r, HostInfo.GetHost (deref p (currentHostInfo p))) = (Err FailoverSuccessError, "w.xyz123456789.us-east-1.rds.amazonaws.com").
Proof. by vm_compute. Qed.

Lemma gdb_update_loop (clk : HostClock) es (p : Gdb_svc) :
  p_plugins (update_loop clk es p).1 = p_plugins p /\
  (forall l h, host_at p l = Some h -> host_at (update_loop clk es p).1 l = Some h).
Proof.
  revert p. induction es as [|[i l] es IH]; intros p; [done|]. cbn [update_loop]. unfold st_bind.
  assert (Hu : p_plugins (updated_host clk (i, l) p).1 = p_plugins p /\
    (forall l0 h, host_at p l0 = Some h -> host_at (updated_host clk (i, l) p).1 l0 = Some h)).
  { unfold updated_host. repeat case_match; try done. unfold alloc. split; [done|]. intros l0 h0 Hl0. unfold host_at in *. cbn.
    rewrite lookup_insert_ne; [done|]. intros E. apply (is_fresh (dom (heap p))). rewrite E. by apply elem_of_dom_2 in Hl0. }
  destruct (updated_host clk (i, l) p) as [p1 l1]. destruct Hu as [Hp Hh]. cbn [fst] in *.
  destruct (IH p1) as [Hp2 Hh2]. destruct (update_loop clk es p1) as [p2 ls]. cbn [fst] in *. cbn [st_ret fst]. split; [congruence|eauto].
Qed.

(** A forced refresh of the list changes neither the hosts nor the plugins. *)
Lemma gdb_force_refresh clk (p : Gdb_svc) b t :
  p_plugins (ForceRefreshHostListWithTimeout [gdb_plugin] gdb_provider clk b t p).1 = p_plugins p /\
  (forall l h, host_at p l = Some h -> host_at (ForceRefreshHostListWithTimeout [gdb_plugin] gdb_provider clk b t p).1 l = Some h).
Proof.
  unfold ForceRefreshHostListWithTimeout, GetUpdatedHostListWithTimeout, with_provider. rewrite eff_bind_eq.
  destruct (hostListProvider p); [|done]. cbn [hlp_ForceRefreshHostListWithTimeout gdb_provider]. unfold eff_ok, st_bind.
  pose proof (gdb_update_loop clk (imap pair [0; 1; 2]%nat) p) as [Hp Hh]. unfold updateHostAvailability.
  destruct (update_loop clk _ p) as [p1 ls]. cbn [fst] in *. unfold setHostList. by destruct (Nat.ltb 0 _).
Qed.

Lemma gdb_well_behaved :
  well_behaved no_transfer [gdb_plugin] gdb_self gdb_provider (fun _ => example_clock) "random".
Proof.
  constructor.
  - intros role hosts p p' l. destruct hosts as [|x r]; [done|]. cbn. intros [= _ <-]. by left.
  - intros role hosts p. destruct hosts; reflexivity.
  - intros l p. unfold createConnectionForHost. destruct (host_at p l); reflexivity.
  - intros conn p. unfold GetHostRole, with_provider. destruct (hostListProvider p); reflexivity.
  - intros p. apply now_steady. reflexivity.
  - intros p. unfold on_clock, RefreshHostList, with_provider. rewrite eff_bind_eq. destruct (hostListProvider p); reflexivity.
Qed.


Lemma gdb_failover_ends_witness :
  (gdb_failover no_transfer no_session_funcs [gdb_plugin] gdb_self gdb_provider gdb_permissions (fun _ => example_clock) 0 "random" 3
     (gdb_service (home_reader "eu-west-1"))).2 <> Ok None.
Proof.
  apply (gdb_failover_ends no_transfer no_session_funcs [gdb_plugin] gdb_self gdb_provider gdb_permissions (fun _ => example_clock)
    0 "random" (fun s => s.1.2)).
  - intros s. cbn. split; [done|lia].
  - intros role hosts p. destruct hosts; exact (Z.le_refl _).
  - intros l p. unfold createConnectionForHost. destruct (host_at p l); exact (Z.le_refl _).
  - intros conn p. unfold GetHostRole, with_provider. destruct (hostListProvider p); exact (Z.le_refl _).
  - intros p. unfold on_clock, RefreshHostList, with_provider. rewrite eff_bind_eq. destruct (hostListProvider p); exact (Z.le_refl _).
  - intros p. unfold on_clock, later, time_at. destruct (gdb_force_refresh example_clock p true 0) as [-> _]. lia.
  - by vm_compute.
Defined.

(** When the session cannot be transferred to the connection that was found,
    the failover reports the error and the connection stays open and in use;
    the failover to the writer closes it. *)
#[local] Instance gdb_failing_conn : ExecConn nat := fun _ _ _ => Some (Some (PlainError "lost" [])).
Example gdb_failed_transfer_stays_in_use :
  let p := (gdb_service (home_reader "eu-west-1")) <| sessionStateService := example_session |> in
  let '(p', r) := failoverToAllowedHost (H := gdb_failing_conn) ∅ no_session_funcs [gdb_plugin] gdb_self gdb_provider gdb_permissions
    (fun _ => example_clock) "random" 5 GDB_MODE_STRICT_HOME_READER 10 p in
  (r, currentConnection p', events p') = (Err (PlainError "lost" []), Some 3%nat, [Executed 3%nat "set autocommit=false"]).
Proof. by vm_compute. Qed.
