(* ===== verification/ReadWriteSplitting.v ===== *)
(** * ReadWriteSplitting: one connection to the writer and one to a reader
    (awssql/plugins/read_write_splitting/read_write_splitting_plugin.go,
    gdb_read_write_splitting.go).

    As in FailoverPlugin.v the state of the plugin is a part of the state of
    the plugins, and the code runs on the service. The handlers that do not
    call the plugins come first, so that the plugin can be a member of the
    list the others use ([rws_listener]). *)

From S2P Require Import Prelude.
From S2P Require Import HostInfo.
From S2P Require Import CacheMap.
From S2P Require Import Effects.
From S2P Require Import Properties.
From S2P Require Import RdsUtils.
From S2P Require Import Dsn.
From S2P Require Import Dialects.
From S2P Require Import Regions.
From S2P Require Import SqlMethods.
From S2P Require Import SessionState.
From S2P Require Import PluginManager.
From S2P Require Import PluginService.

Definition SET_READ_ONLY_METHOD : string := "setReadOnly".
Definition READ_WRITE_SPLITTING_PLUGIN_CODE : string := "readWriteSplitting".

(** [hostListProviderService] tells whether the field of that name was set. *)
Record ReadWriteSplittingPlugin (C : Type) := mkRws {
  hostListProviderService : bool;
  inReadWriteSplit : bool;
  writerConnection : option C;
  readerConnection : option C;
  writerHostInfo : option loc;
  readerHostInfo : option loc
}.
Arguments mkRws {C} _ _ _ _ _ _.
Arguments hostListProviderService {C} _.
Arguments inReadWriteSplit {C} _.
Arguments writerConnection {C} _.
Arguments readerConnection {C} _.
Arguments writerHostInfo {C} _.
Arguments readerHostInfo {C} _.
#[export] Instance ReadWriteSplittingPlugin_eta C : Eta (ReadWriteSplittingPlugin C) := fun r =>
  mkRws (hostListProviderService r) (inReadWriteSplit r) (writerConnection r) (readerConnection r) (writerHostInfo r)
    (readerHostInfo r).
Definition NewReadWriteSplittingPlugin {C} : ReadWriteSplittingPlugin C := mkRws false false None None None None.

Class HasRws (C P : Type) := {
  get_rws : P -> ReadWriteSplittingPlugin C;
  put_rws : ReadWriteSplittingPlugin C -> P -> P;
  get_put_rws r s : get_rws (put_rws r s) = r
}.

Section ReadWriteSplitting.
Context {C V Sel P : Type} `{EqDecision C} `{ExecConn C} `{DriverDialect C} `{PrepareHost} `{HasRws C P}.
Local Abbreviation Svc := (PluginServiceImpl (C := C) (P := P)).
Local Abbreviation Plugin := (ConnectionPlugin Svc V C Sel loc).
Context (AllowedAndBlocked_Get : Svc -> string -> option AllowedAndBlockedHosts).

Definition rws (p : Svc) : ReadWriteSplittingPlugin C := get_rws (p_plugins p).
Definition set_rws (f : ReadWriteSplittingPlugin C -> ReadWriteSplittingPlugin C) : St Svc unit :=
  modify (fun p => p <| p_plugins := put_rws (f (get_rws (p_plugins p))) (p_plugins p) |>).

Definition isWriter (p : Svc) (hostInfo : option loc) : bool :=
  match deref p hostInfo with Some h => bool_decide (Role h = WRITER) | None => false end.
Definition isReader (p : Svc) (hostInfo : option loc) : bool :=
  match deref p hostInfo with Some h => bool_decide (Role h = READER) | None => false end.
Definition isConnectionUsable (p : Svc) (conn : option C) : bool :=
  match conn with Some c => negb (IsClosed (events p) c) | None => false end.

Definition setWriterConnection (conn : option C) (host : option loc) : St Svc unit :=
  set_rws (fun r => r <| writerConnection := conn |> <| writerHostInfo := host |>).
Definition setReaderConnection (conn : option C) (host : option loc) : St Svc unit :=
  set_rws (fun r => r <| readerConnection := conn |> <| readerHostInfo := host |>).

(** The first cached connection that is the one that was closed is forgotten. *)
Definition forget (conn : C) (r : ReadWriteSplittingPlugin C) : ReadWriteSplittingPlugin C :=
  if bool_decide (readerConnection r = Some conn) then r <| readerConnection := None |> <| readerHostInfo := None |>
  else if bool_decide (writerConnection r = Some conn) then r <| writerConnection := None |> <| writerHostInfo := None |>
  else r.
Definition closeConnectionIfIdle (conn : option C) : St Svc unit :=
  match conn with
  | None => st_ret tt
  | Some c =>
      (let! current := gets currentConnection in
       if bool_decide (current = Some c) then st_ret tt
       else
         let! closed := gets (fun p => IsClosed (events p) c) in
         let! _ := if (closed : bool) then st_ret tt else emit (Closed c) in
         set_rws (forget c))%eff
  end.
Definition closeIdleConnections : St Svc unit :=
  (let! reader := gets (fun p => readerConnection (rws p)) in
   let! _ := closeConnectionIfIdle reader in
   let! writer := gets (fun p => writerConnection (rws p)) in
   closeConnectionIfIdle writer)%eff.

Definition updateInternalConnectionInfo : Eff Svc unit :=
  (let! currentConn := gets currentConnection in
   try! currentHost := GetCurrentHostInfo AllowedAndBlocked_Get in
   match currentConn, currentHost with
   | Some _, Some _ =>
       let! writer := gets (fun p => isWriter p currentHost) in
       run (if (writer : bool) then setWriterConnection currentConn currentHost else setReaderConnection currentConn currentHost)
   | _, _ => eff_ok tt
   end)%eff.

(** The error of [updateInternalConnectionInfo] is only logged. *)
Definition rws_NotifyConnectionChanged (changes : gset HostChangeOptions) : St Svc OldConnectionSuggestedAction :=
  (let! _ := updateInternalConnectionInfo in
   let! cached := gets (fun p => bool_decide (currentConnection p = writerConnection (rws p)) ||
                                 bool_decide (currentConnection p = readerConnection (rws p))) in
   let! _ := if bool_decide (CONNECTION_OBJECT_CHANGED ∈ changes) && negb cached then closeIdleConnections else st_ret tt in
   gets (fun p => if inReadWriteSplit (rws p) then PRESERVE else NO_OPINION))%eff.

Definition rws_SubscribedMethods : list string :=
  [CONNECT_METHOD; INIT_HOST_PROVIDER_METHOD; NOTIFY_CONNECTION_CHANGED_METHOD; SET_READ_ONLY_METHOD; "Conn.QueryContext"; "Conn.ExecContext"].

Definition rws_InitHostProvider (initHostProviderFunc : Eff Svc unit) : Eff Svc unit :=
  (let! _ := set_rws (fun r => r <| hostListProviderService := true |>) in initHostProviderFunc)%eff.

(** The plugin as the others see it in their list. *)
Definition rws_listener (pluginCode : string) (id : nat) : Plugin := {|
  plugin_id := id;
  GetPluginCode := pluginCode;
  GetSubscribedMethods := rws_SubscribedMethods;
  plugin_Execute _ _ _ k := k;
  plugin_Connect _ props _ k := k props;
  plugin_ForceConnect _ props _ k := k props;
  plugin_AcceptsStrategy _ := st_ret false;
  plugin_GetHostInfoByStrategy _ _ _ := throw (unsupportedMethodError "GetHostInfoByStrategy" "plugins.BaseConnectionPlugin");
  plugin_GetHostSelectorStrategy _ := throw (unsupportedMethodError "GetHostSelectorStrategy" "plugins.BaseConnectionPlugin");
  plugin_NotifyConnectionChanged := rws_NotifyConnectionChanged;
  plugin_NotifyHostListChanged _ := st_ret tt;
  plugin_InitHostProvider _ := rws_InitHostProvider;
  plugin_ReleaseResources := Some closeIdleConnections |}.

Context (props : properties) (funcs : SessionFuncs C) (plugins : list Plugin) (self : Plugin).
Context (providers : nat -> HostListProvider (C := C) (P := P)) (host_clock : Svc -> HostClock).
Context (readerSelectorStrategy : string).

(** ** Strategies *)

Record ReadWriteSplittingStrategy := mkStrategy {
  OnConnect : loc -> properties -> Eff Svc unit;
  GetReaderConnection : properties -> list loc -> string -> Eff Svc (C * loc);
  GetWriterConnection : properties -> list loc -> Eff Svc (C * loc)
}.

Definition noWriterFound : go_error := NewGenericAwsWrapperError "ReadWriteSplittingPlugin.noWriterFound" [].
Definition noReadersAvailable : go_error := NewGenericAwsWrapperError "ReadWriteSplittingPlugin.noReadersAvailable" [].
Definition rds_GetWriterConnection (props : properties) (hosts : list loc) : Eff Svc (C * loc) := fun p =>
  match GetWriter_at p hosts with
  | None => (p, Err noWriterFound)
  | Some writerHost => (try! conn := service_Connect plugins writerHost props (Some self) in eff_ok (conn, writerHost))%eff p
  end.
Fixpoint reader_attempts (connAttempts : nat) (props : properties) (hosts : list loc) (strategy : string) : Eff Svc (C * loc) :=
  match connAttempts with
  | O => throw noReadersAvailable
  | S connAttempts =>
      (let! selected := GetHostInfoByStrategy plugins READER strategy hosts in
       match selected with
       | Panic => lift_result Panic
       | Err _ => reader_attempts connAttempts props hosts strategy
       | Ok hostInfo =>
           let! c := service_Connect plugins hostInfo props (Some self) in
           match c with
           | Ok conn => eff_ok (conn, hostInfo)
           | Err _ => reader_attempts connAttempts props hosts strategy
           | Panic => lift_result Panic
           end
       end)%eff
  end.
Definition rds_GetReaderConnection (props : properties) (hosts : list loc) (strategy : string) : Eff Svc (C * loc) :=
  reader_attempts (length hosts * 2) props hosts strategy.
Definition RdsReadWriteSplittingStrategy : ReadWriteSplittingStrategy :=
  mkStrategy (fun _ _ => eff_ok tt) rds_GetReaderConnection rds_GetWriterConnection.

(** ** The plugin *)

Context (strategy : ReadWriteSplittingStrategy).

Definition rws_Connect (hostInfo : loc) (connectProps : properties) (isInitialConnection : bool)
  (connectFunc : ConnectFunc (S := Svc) (C := C)) : Eff Svc C :=
  (try! _ := OnConnect strategy hostInfo connectProps in
   let! accepted := AcceptsStrategy plugins readerSelectorStrategy in
   if negb accepted then
     throw (NewGenericAwsWrapperError "ReadWriteSplittingPlugin.unsupportedHostSelectorStrategy"
              [readerSelectorStrategy; Name READER_HOST_SELECTOR_STRATEGY])
   else
     try! result := connectFunc connectProps in
     if negb isInitialConnection then eff_ok result
     else
       let! service_set := gets (fun p => hostListProviderService (rws p)) in
       if negb service_set then lift_result Panic
       else
         try! static := with_provider providers (fun h => eff_ok (hlp_IsStatic h)) in
         if (static : bool) then eff_ok result
         else
           try! currentRole := with_provider providers (fun h => run (hlp_GetHostRole h result)) in
           if bool_decide (currentRole = UNKNOWN) then
             throw (NewGenericAwsWrapperError "ReadWriteSplittingPlugin.errorVerifyingInitialHostRole" [])
           else
             let! currentHost := gets (fun p => deref p (initialHostInfo p)) in
             match currentHost with
             | None => eff_ok result
             | Some h =>
                 if bool_decide (currentRole = Role h) then eff_ok result
                 else
                   let! updated := alloc (MakeCopyWithRole h currentRole) in
                   let! _ := SetInitialConnectionHostInfo (Some updated) in eff_ok result
             end)%eff.

(** A nil host is only met with a nil connection, which is refused. *)
Definition switchCurrentConnectionTo (newConn : option C) (newConnHost : option loc) : Eff Svc unit := fun p =>
  if bool_decide (currentConnection p = newConn) then (p, Ok tt)
  else SetCurrentConnection (Some props) funcs plugins newConn newConnHost None p.

Definition getNewWriterConnection (hosts : list loc) : Eff Svc unit :=
  (try! r := GetWriterConnection strategy props hosts in
   let '(conn, host) := r in
   let! _ := setWriterConnection (Some conn) (Some host) in switchCurrentConnectionTo (Some conn) (Some host))%eff.
Definition getNewReaderConnection (hosts : list loc) : Eff Svc unit :=
  (try! r := GetReaderConnection strategy props hosts readerSelectorStrategy in
   let '(conn, host) := r in
   let! _ := setReaderConnection (Some conn) (Some host) in switchCurrentConnectionTo (Some conn) (Some host))%eff.

Definition initializeReaderConnection (hosts : list loc) : Eff Svc unit :=
  if Nat.eqb (length hosts) 1 then
    (let! writerHost := gets (fun p => GetWriter_at p hosts) in
     match writerHost with
     | None => throw noWriterFound
     | Some _ =>
         let! usable := gets (fun p => isConnectionUsable p (writerConnection (rws p))) in
         if (usable : bool) then eff_ok tt else getNewWriterConnection hosts
     end)%eff
  else getNewReaderConnection hosts.

Definition switchToReaderConnection (hosts : list loc) : Eff Svc unit :=
  (let! currentConn := gets currentConnection in
   try! currentHost := GetCurrentHostInfo AllowedAndBlocked_Get in
   let! done := gets (fun p => isReader p currentHost && isConnectionUsable p currentConn) in
   if (done : bool) then eff_ok tt
   else
     let! gone := gets (fun p => bool_decide (is_Some (readerHostInfo (rws p))) &&
                                 negb (IsHostInList (deref p (readerHostInfo (rws p))) (hosts_at p hosts))) in
     let! reader := gets (fun p => readerConnection (rws p)) in
     let! _ := if (gone : bool) then closeConnectionIfIdle reader else st_ret tt in
     let! _ := set_rws (fun r => r <| inReadWriteSplit := true |>) in
     let! usable := gets (fun p => isConnectionUsable p (readerConnection (rws p))) in
     if negb usable then initializeReaderConnection hosts
     else
       let! r := (fun p => switchCurrentConnectionTo (readerConnection (rws p)) (readerHostInfo (rws p)) p) in
       match r with
       | Ok _ => eff_ok tt
       | Panic => lift_result Panic
       | Err _ =>
           let! reader := gets (fun p => readerConnection (rws p)) in
           match reader with
           | None => lift_result Panic
           | Some c =>
               let! _ := emit (Closed c) in
               let! _ := setReaderConnection None None in initializeReaderConnection hosts
           end
       end)%eff.

Definition switchToWriterConnection (hosts : list loc) : Eff Svc unit :=
  (let! currentConn := gets currentConnection in
   try! currentHost := GetCurrentHostInfo AllowedAndBlocked_Get in
   let! done := gets (fun p => isWriter p currentHost && isConnectionUsable p currentConn) in
   if (done : bool) then eff_ok tt
   else
     let! _ := set_rws (fun r => r <| inReadWriteSplit := true |>) in
     let! usable := gets (fun p => isConnectionUsable p (writerConnection (rws p))) in
     if negb usable then getNewWriterConnection hosts
     else fun p => switchCurrentConnectionTo (writerConnection (rws p)) (writerHostInfo (rws p)) p)%eff.

(** The texts of the errors that are wrapped are left out of the arguments. *)
Definition setReadOnlyOnClosedConnection : go_error := NewGenericAwsWrapperError "ReadWriteSplittingPlugin.setReadOnlyOnClosedConnection" [].
Definition emptyHostList : go_error := NewGenericAwsWrapperError "ReadWriteSplittingPlugin.emptyHostList" [].
Definition errorSwitchingToReader : go_error := NewGenericAwsWrapperError "ReadWriteSplittingPlugin.errorSwitchingToReader" [].
Definition setReadOnlyFalseInTransaction : go_error := NewGenericAwsWrapperError "ReadWriteSplittingPlugin.setReadOnlyFalseInTransaction" [].
Definition errorSwitchingToWriter : go_error := NewGenericAwsWrapperError "ReadWriteSplittingPlugin.errorSwitchingToWriter" [].

Definition choose_connection (readOnly : bool) (currentConn : option C) (hosts : list loc) : Eff Svc unit :=
  (try! currentHost := GetCurrentHostInfo AllowedAndBlocked_Get in
   let! in_transaction := gets inTransaction in
   if readOnly then
     let! reader := gets (fun p => isReader p currentHost) in
     if negb in_transaction && negb reader then
       let! r := switchToReaderConnection hosts in
       match r with
       | Ok _ => eff_ok tt
       | Panic => lift_result Panic
       | Err _ => let! usable := gets (fun p => isConnectionUsable p currentConn) in
                  if (usable : bool) then eff_ok tt else throw errorSwitchingToReader
       end
     else eff_ok tt
   else
     let! writer := gets (fun p => isWriter p currentHost) in
     if (writer : bool) then eff_ok tt
     else if (in_transaction : bool) then throw setReadOnlyFalseInTransaction
     else let! r := switchToWriterConnection hosts in
          match r with
          | Ok _ => eff_ok tt
          | Panic => lift_result Panic
          | Err _ => throw errorSwitchingToWriter
          end)%eff.
Definition switchConnectionIfRequired (readOnly : bool) : Eff Svc unit :=
  (let! currentConn := gets currentConnection in
   let! closed := gets (fun p => bool_decide (is_Some currentConn) && negb (isConnectionUsable p currentConn)) in
   if (closed : bool) then throw setReadOnlyOnClosedConnection
   else
     let! usable := gets (fun p => isConnectionUsable p currentConn) in
     let! r := if (usable : bool) then (fun p => RefreshHostList plugins providers (host_clock p) p) else eff_ok tt in
     match r with
     | Panic => lift_result Panic
     | _ => let! hosts := gets (GetHosts AllowedAndBlocked_Get) in
            match hosts with
            | [] => throw emptyHostList
            | _ => choose_connection readOnly currentConn hosts
            end
     end)%eff.

(** The dynamic type of the first argument. *)
Context (as_bool : V -> option bool) (nil_any : V).
Definition run_and_watch (executeFunc : ExecuteFunc (S := Svc) (V := V)) : Eff Svc (ExecResult V) :=
  (let! r := executeFunc in
   match returnErr r with
   | Some (AwsError t _ _) => let! _ := if IsFailoverErrorType t then closeIdleConnections else st_ret tt in eff_ok r
   | _ => eff_ok r
   end)%eff.
Definition rws_Execute (methodName : string) (methodArgs : list V) (executeFunc : ExecuteFunc (S := Svc) (V := V)) : Eff Svc (ExecResult V) :=
  match (if bool_decide (methodName = SET_READ_ONLY_METHOD) then head methodArgs ≫= as_bool else None) with
  | Some readOnly =>
      (let! r := switchConnectionIfRequired readOnly in
       match r with
       | Panic => lift_result Panic
       | Err err => let! _ := closeIdleConnections in eff_ok (mkExecResult nil_any nil_any false (Some err))
       | Ok _ => let! r := executeFunc in eff_ok r
       end)%eff
  | None => run_and_watch executeFunc
  end.

(** ** Idle connections *)

Lemma rws_set f p : rws (set_rws f p).1 = f (rws p).
Proof. unfold rws, set_rws, modify. cbn [fst update_field p_plugins]. apply get_put_rws. Qed.

(** What closing an idle connection does. *)
Definition idle_closed (conn : option C) (p p' : Svc) (closed : list C) : Prop :=
  currentConnection p' = currentConnection p /\ events p' = events p ++ (Closed <$> closed) /\
  match conn with
  | None => closed = [] /\ p' = p
  | Some c =>
      if bool_decide (currentConnection p = Some c) then closed = [] /\ p' = p
      else closed = (if IsClosed (events p) c then [] else [c]) /\ rws p' = forget c (rws p)
  end.

Lemma closeConnectionIfIdle_spec conn p : exists closed, idle_closed conn p (closeConnectionIfIdle conn p).1 closed.
Proof.
  unfold closeConnectionIfIdle, idle_closed. destruct conn as [c|]; [|exists []; by rewrite app_nil_r].
  unfold st_bind, gets. case_bool_decide as Hc; [exists []; by rewrite app_nil_r|].
  exists (if IsClosed (events p) c then [] else [c]). unfold emit, modify, st_ret, set_rws.
  destruct (IsClosed (events p) c); (split; [done|]); (split; [by rewrite ?app_nil_r|]); (split; [done|]);
    unfold rws; cbn [fst update_field p_plugins]; apply get_put_rws.
Qed.

Definition cached (r : ReadWriteSplittingPlugin C) (c : C) : Prop := writerConnection r = Some c \/ readerConnection r = Some c.

Lemma idle_reader p p' closed :
  idle_closed (readerConnection (rws p)) p p' closed ->
  (forall c, readerConnection (rws p') = Some c -> currentConnection p = Some c) /\
  (forall c, c ∈ closed -> readerConnection (rws p) = Some c /\ currentConnection p <> Some c) /\
  (forall c, readerConnection (rws p) = Some c -> currentConnection p <> Some c -> c ∈ closed \/ IsClosed (events p) c = true) /\
  writerConnection (rws p') = writerConnection (rws p).
Proof.
  intros (_ & _ & Hr). destruct (readerConnection (rws p)) as [c|] eqn:Er.
  2: { destruct Hr as [-> ->]. split_and!; [by rewrite Er|by intros c ?%elem_of_nil|done|done]. }
  case_bool_decide as Hcur; destruct Hr as [-> Hr].
  { subst p'. split_and!; [intros c' Hc'; congruence|intros c' Hin; by apply elem_of_nil in Hin|intros c' [= <-] Hn; done|done]. }
  assert (Hf : rws p' = (rws p) <| readerConnection := None |> <| readerHostInfo := None |>).
  { rewrite Hr. unfold forget. by rewrite Er, bool_decide_true. }
  rewrite Hf. split_and!; [done| | |done].
  - intros c'. destruct (IsClosed (events p) c); [by intros ?%elem_of_nil|]. intros ->%list_elem_of_singleton. done.
  - intros c' [= <-] _. destruct (IsClosed (events p) c); [by right|left; by apply list_elem_of_singleton].
Qed.

Lemma idle_writer p p' closed :
  idle_closed (writerConnection (rws p)) p p' closed ->
  (forall c, readerConnection (rws p) = Some c -> currentConnection p = Some c) ->
  (forall c, cached (rws p') c -> currentConnection p = Some c) /\
  (forall c, c ∈ closed -> writerConnection (rws p) = Some c /\ currentConnection p <> Some c) /\
  (forall c, writerConnection (rws p) = Some c -> currentConnection p <> Some c -> c ∈ closed \/ IsClosed (events p) c = true).
Proof.
  intros (_ & _ & Hw) Hr. unfold cached. destruct (writerConnection (rws p)) as [c|] eqn:Ew.
  2: { destruct Hw as [-> ->]. rewrite Ew. split_and!; [|by intros c ?%elem_of_nil|done]. intros c [|Hc]; [done|]. by apply Hr. }
  case_bool_decide as Hcur; destruct Hw as [-> Hw].
  { subst p'. rewrite Ew. split_and!; [|intros c' Hin; by apply elem_of_nil in Hin|intros c' [= <-] Hn; done].
    intros c' [[= <-]|Hc']; [done|]. by apply Hr. }
  assert (Hf : rws p' = (rws p) <| writerConnection := None |> <| writerHostInfo := None |>).
  { rewrite Hw. unfold forget. rewrite bool_decide_false by (intros E; by apply Hcur, Hr). by rewrite Ew, bool_decide_true. }
  rewrite Hf. split_and!.
  - intros c' [Hc'|Hc']; [done|]. by apply Hr.
  - intros c'. destruct (IsClosed (events p) c); [by intros ?%elem_of_nil|]. intros ->%list_elem_of_singleton. done.
  - intros c' [= <-] _. destruct (IsClosed (events p) c); [by right|left; by apply list_elem_of_singleton].
Qed.

(** C31. Closing the idle connections never closes the connection in use:
    afterwards a cached connection can only be the one in use, the
    connections that were closed were cached and idle, and a cached idle one
    is closed or was closed already. *)
Theorem closeIdle_spares_current p :
  let p' := (closeIdleConnections p).1 in
  currentConnection p' = currentConnection p /\
  (forall c, cached (rws p') c -> currentConnection p = Some c) /\
  exists closed, events p' = events p ++ (Closed <$> closed) /\
    (forall c, c ∈ closed -> currentConnection p <> Some c /\ cached (rws p) c) /\
    (forall c, cached (rws p) c -> currentConnection p <> Some c ->
       c ∈ closed \/ exists log, events p `prefix_of` log /\ log `prefix_of` events p' /\ IsClosed log c = true).
Proof.
  unfold closeIdleConnections, st_bind, gets.
  destruct (closeConnectionIfIdle_spec (readerConnection (rws p)) p) as [closed1 Hr].
  destruct (closeConnectionIfIdle (readerConnection (rws p)) p) as [p1 []]. cbn [fst] in Hr.
  destruct (closeConnectionIfIdle_spec (writerConnection (rws p1)) p1) as [closed2 Hw].
  destruct (closeConnectionIfIdle (writerConnection (rws p1)) p1) as [p2 []]. cbn [fst] in Hw |- *.
  pose proof (idle_reader _ _ _ Hr) as (Hr1 & Hr2 & Hr3 & Hr4).
  destruct Hr as (Hc1 & He1 & _).
  pose proof (idle_writer _ _ _ Hw ltac:(rewrite Hc1; exact Hr1)) as (Hw1 & Hw2 & Hw3).
  destruct Hw as (Hc2 & He2 & _). rewrite Hc1 in *. rewrite Hr4 in *.
  split; [done|]. split; [exact Hw1|]. exists (closed1 ++ closed2). unfold cached.
  split; [by rewrite He2, He1, fmap_app, app_assoc|]. split.
  - intros c [Hin|Hin]%elem_of_app; [apply Hr2 in Hin as [? ?]|apply Hw2 in Hin as [? ?]]; tauto.
  - intros c [Hc|Hc] Hn.
    + destruct (Hw3 c Hc Hn) as [Hin|Hcl]; [left; set_solver|]. right. exists (events p1). split; [|split; [|done]].
      * by exists (Closed <$> closed1).
      * by exists (Closed <$> closed2).
    + destruct (Hr3 c Hc Hn) as [Hin|Hcl]; [left; set_solver|]. right. exists (events p). split; [done|split; [|done]].
      exists (Closed <$> closed1 ++ closed2). by rewrite He2, He1, fmap_app, app_assoc.
Qed.

(** ** The plugin is calm: told of a switch it does not switch *)

Lemma keeps_set_rws f : keeps keeps_current (set_rws f).
Proof. by intros p. Qed.

Lemma keeps_closeIdle : keeps keeps_current closeIdleConnections.
Proof.
  assert (Hc : forall conn, keeps keeps_current (closeConnectionIfIdle conn)).
  { intros [c|]; [|apply keeps_ret; apply _]. unfold closeConnectionIfIdle.
    apply keeps_st_bind; [apply _|apply keeps_gets; apply _|]. intros current. destruct (bool_decide _); [apply keeps_ret; apply _|].
    apply keeps_st_bind; [apply _|apply keeps_gets; apply _|]. intros closed.
    apply keeps_st_bind; [apply _|destruct closed; [apply keeps_ret; apply _|by intros p]|intros _]. apply keeps_set_rws. }
  unfold closeIdleConnections. apply keeps_st_bind; [apply _|apply keeps_gets; apply _|]. intros reader.
  apply keeps_st_bind; [apply _|apply Hc|intros _]. apply keeps_st_bind; [apply _|apply keeps_gets; apply _|]. intros writer. apply Hc.
Qed.

Lemma rws_listener_calm code id : calm (rws_listener code id).
Proof.
  intros changes. cbn [plugin_NotifyConnectionChanged rws_listener]. unfold rws_NotifyConnectionChanged.
  apply keeps_st_bind; [apply _| |intros _].
  - unfold updateInternalConnectionInfo. apply keeps_st_bind; [apply _|apply keeps_gets; apply _|]. intros current.
    apply keeps_eff_bind; [apply _|apply GetCurrentHostInfo_keeps_current|]. intros host.
    destruct current; [|apply keeps_ok; apply _]. destruct host; [|apply keeps_ok; apply _].
    apply keeps_st_bind; [apply _|apply keeps_gets; apply _|]. intros writer. apply keeps_run. destruct writer; apply keeps_set_rws.
  - apply keeps_st_bind; [apply _|apply keeps_gets; apply _|]. intros is_cached.
    apply keeps_st_bind; [apply _|destruct (_ && _); [apply keeps_closeIdle|apply keeps_ret; apply _]|intros _]. apply keeps_gets; apply _.
Qed.

(** ** Read-write mode reaches the writer *)

(** What a strategy promises of the writer connections it opens: a new
    connection, to a host with the role of a writer. *)
Class OpensWriter : Prop := opens_writer : forall hosts p p' conn host,
  GetWriterConnection strategy props hosts p = (p', Ok (conn, host)) ->
  currentConnection p' <> Some conn /\ exists h, host_at p' host = Some h /\ Role h = WRITER.

(** The cached writer connection is to a writer, and is in use only when the
    current host is a writer. *)
Definition writer_cache (p : Svc) : Prop := forall c, writerConnection (rws p) = Some c ->
  (exists l h, writerHostInfo (rws p) = Some l /\ host_at p l = Some h /\ Role h = WRITER) /\
  (currentConnection p = Some c -> isWriter p (currentHostInfo p) = true /\ IsNil (deref p (currentHostInfo p)) = false).

Definition on_writer (p : Svc) : Prop :=
  exists l h, currentHostInfo p = Some l /\ host_at p l = Some h /\ Role h = WRITER.

Lemma switch_reaches_writer conn l p p' h :
  Forall calm plugins -> currentConnection p <> Some conn -> host_at p l = Some h -> Role h = WRITER ->
  switchCurrentConnectionTo (Some conn) (Some l) p = (p', Ok tt) -> on_writer p'.
Proof.
  intros Hq Hne Hh Hr. unfold switchCurrentConnectionTo. rewrite bool_decide_false by done. intros Es.
  destruct (SetCurrentConnection_current _ _ _ _ _ _ _ _ h Hq Hh Es) as [_ (l' & h' & Hl' & Hh' & Hw)].
  exists l', h'. split_and!; [done|done|by apply Hw].
Qed.

Lemma switchToWriter_reaches hosts p p' l h :
  Forall calm plugins -> OpensWriter -> writer_cache p ->
  currentHostInfo p = Some l -> host_at p l = Some h -> IsNil (Some h) = false ->
  switchToWriterConnection hosts p = (p', Ok tt) -> on_writer p'.
Proof.
  intros Hq Ho Hc Hl Hh Hn. unfold switchToWriterConnection, st_bind at 1, gets at 1. rewrite eff_bind_eq.
  rewrite (GetCurrentHostInfo_current _ p l h Hl Hh Hn). unfold st_bind at 1, gets at 1.
  destruct (isWriter p (Some l) && _) eqn:Ew.
  { intros [= <-]. exists l, h. split_and!; [done|done|]. apply andb_true_iff in Ew as [Ew _]. unfold isWriter in Ew.
    cbn [deref mbind option_bind] in Ew. unfold host_at in Hh. rewrite Hh in Ew. by apply bool_decide_eq_true in Ew. }
  unfold st_bind at 1. set (p1 := (set_rws (fun r => r <| inReadWriteSplit := true |>) p).1).
  assert (Hr1 : rws p1 = (rws p) <| inReadWriteSplit := true |>) by apply rws_set.
  change (set_rws _ p) with (p1, tt). unfold st_bind at 1, gets at 1.
  destruct (isConnectionUsable p1 (writerConnection (rws p1))) eqn:Eu; cbn [negb].
  - rewrite Hr1 in Eu |- *. cbn [writerConnection writerHostInfo update_field] in Eu |- *.
    destruct (writerConnection (rws p)) as [c|] eqn:Ec; [|done].
    destruct (Hc c Ec) as [(lw & hw & Elw & Ehw & Hw) Hcur]. rewrite Elw. apply (switch_reaches_writer c lw p1 p' hw Hq); [|done|done].
    change (currentConnection p1) with (currentConnection p). intros Ecur. destruct (Hcur Ecur) as [Hwr _].
    rewrite Hl in Hwr. rewrite Hwr in Ew. cbn [andb] in Ew. change (isConnectionUsable p1 (Some c)) with (isConnectionUsable p (Some c)) in Eu.
    rewrite Ecur, Eu in Ew. done.
  - unfold getNewWriterConnection. rewrite eff_bind_eq. destruct (GetWriterConnection strategy props hosts p1) as [p2 [[conn host]|e|]] eqn:Eg;
      [|done..]. destruct (Ho hosts p1 p2 conn host Eg) as [Hnew (hw & Ehw & Hw)]. unfold st_bind, setWriterConnection, set_rws, modify.
    apply (switch_reaches_writer conn host _ p' hw Hq); done.
Qed.

(** Asking for the current host keeps the caches. *)
Lemma current_host_cache p p' r : GetCurrentHostInfo AllowedAndBlocked_Get p = (p', r) -> writer_cache p -> writer_cache p'.
Proof.
  intros Eg Hp. pose proof (GetCurrentHostInfo_keeps_current AllowedAndBlocked_Get p) as [Hcc Hch]. rewrite Eg in Hcc, Hch. cbn [fst] in Hcc, Hch.
  pose proof (GetCurrentHostInfo_keeps _ _ _ _ Eg) as (_ & _ & Hpl & _).
  assert (Hheap : heap p' = heap p).
  { unfold GetCurrentHostInfo, return_current in Eg. repeat case_match; by injection Eg as <- _. }
  intros c Hcw. unfold rws in Hcw |- *. rewrite Hpl in Hcw |- *. destruct (Hp c Hcw) as [(lw & hw & ? & Hhw & ?) Hcur]. split.
  - exists lw, hw. split_and!; [done| |done]. unfold host_at in *. by rewrite Hheap.
  - rewrite Hcc. intros Ecur. destruct (Hcur Ecur) as [Hw1 Hn1]. destruct (currentHostInfo p) as [l1|] eqn:El1; [|done].
    cbn [deref mbind option_bind] in Hn1. destruct (heap p !! l1) as [h1|] eqn:Eh1; [|done].
    destruct (Hch l1 h1 eq_refl Eh1 Hn1) as [El2 Eh2]. rewrite El2. unfold isWriter in *. cbn [deref mbind option_bind] in *.
    rewrite Hheap, Eh1 in *. done.
Qed.

Lemma choose_reaches_writer current hosts p p' :
  Forall calm plugins -> OpensWriter -> writer_cache p ->
  choose_connection false current hosts p = (p', Ok tt) -> on_writer p'.
Proof.
  intros Hq Ho Hc. unfold choose_connection. rewrite eff_bind_eq.
  destruct (GetCurrentHostInfo _ p) as [p2 [o|e|]] eqn:Eg; [|done..].
  pose proof (current_host_cache _ _ _ Eg Hc) as Hc2.
  apply GetCurrentHostInfo_ok in Eg as (Eo & l & h & -> & Hh & Hn). unfold st_bind, gets.
  destruct (isWriter p2 (Some l)) eqn:Ew.
  { intros [= <-]. exists l, h. split_and!; [done|done|]. unfold isWriter in Ew. cbn [deref mbind option_bind] in Ew.
    unfold host_at in Hh. rewrite Hh in Ew. by apply bool_decide_eq_true in Ew. }
  destruct (inTransaction p2); [done|]. destruct (switchToWriterConnection hosts p2) as [p3 [[]|e|]] eqn:Es; [|done..].
  unfold eff_ok. intros [= <-]. by apply (switchToWriter_reaches hosts p2 p3 l h).
Qed.

(** C16. When a switch to read-write mode succeeds, the current host is one
    with the role of a writer, for every strategy that keeps the promise to
    open new connections to writers; assumed are plugins that do not switch
    the connection themselves when they are told of a switch, and a cached
    writer connection that was opened to a writer and is in use only with a
    writer as the current host, before and after the refresh of the host
    list. *)
Theorem read_write_reaches_writer p p' :
  Forall calm plugins -> OpensWriter ->
  (forall p1 r, RefreshHostList plugins providers (host_clock p) p = (p1, r) -> writer_cache p1) -> writer_cache p ->
  switchConnectionIfRequired false p = (p', Ok tt) -> on_writer p'.
Proof.
  intros Hq Ho Href Hc. unfold switchConnectionIfRequired, st_bind at 1, gets at 1. unfold st_bind at 1, gets at 1.
  destruct (_ && _); [done|]. unfold st_bind at 1, gets at 1. unfold st_bind at 1.
  match goal with |- context [let '(s, a) := ?x in _] => destruct x as [p1 r] eqn:E1 end.
  assert (Hp1 : writer_cache p1).
  { revert E1. destruct (isConnectionUsable _ _); [apply Href|]. unfold eff_ok. by intros [= <- _]. }
  assert (Hgo : st_bind (gets (GetHosts AllowedAndBlocked_Get)) (fun hosts => match hosts with [] => throw emptyHostList
    | _ => choose_connection false (currentConnection p) hosts end) p1 = (p', Ok tt) -> on_writer p').
  { unfold st_bind, gets. destruct (GetHosts AllowedAndBlocked_Get p1) as [|x hosts]; [done|]. by apply choose_reaches_writer. }
  destruct r as [u|e|]; [exact Hgo|exact Hgo|done].
Qed.

(** ** The strategy of Aurora clusters keeps the promise *)

(** What the other plugins promise of a connection they open: it is not the
    one in use, and the roles of the hosts stay. *)
Class OpensConnections : Prop := opens_connections : forall l props p p' conn,
  service_Connect plugins l props (Some self) p = (p', Ok conn) ->
  currentConnection p' <> Some conn /\
  forall l h, host_at p l = Some h -> exists h', host_at p' l = Some h' /\ Role h' = Role h.

Lemma rds_opens_writer `{OpensConnections} hosts p p' conn host :
  rds_GetWriterConnection props hosts p = (p', Ok (conn, host)) ->
  currentConnection p' <> Some conn /\ exists h, host_at p' host = Some h /\ Role h = WRITER.
Proof.
  unfold rds_GetWriterConnection. destruct (GetWriter_at p hosts) as [w|] eqn:Ew; [|done]. rewrite eff_bind_eq.
  destruct (service_Connect plugins w props (Some self) p) as [p1 [c|e|]] eqn:Ec; [|done..]. unfold eff_ok. intros [= <- <- <-].
  destruct (opens_connections _ _ _ _ _ Ec) as [Hn Hroles]. split; [done|].
  apply List.find_some in Ew as [_ Ew]. destruct (host_at p w) as [h|] eqn:Eh; [|done].
  destruct (Hroles w h Eh) as (h' & Hh' & Hr). exists h'. split; [done|]. rewrite Hr. by apply bool_decide_eq_true in Ew.
Qed.
End ReadWriteSplitting.

(** ** Examples: a writer and two readers *)

#[local] Instance only_rws : HasRws nat (ReadWriteSplittingPlugin nat) := {|
  get_rws r := r; put_rws r _ := r; get_put_rws _ _ := eq_refl |}.
#[local] Instance accepting_conn : ExecConn nat := fun _ _ _ => Some None.
#[local] Instance open_conn : DriverDialect nat := {|
  IsClosed log conn := existsb (fun e => match e with Closed c => Nat.eqb c conn | _ => false end) log;
  IsNetworkError _ := false; IsLoginError _ := false |}.
Local Abbreviation Rws_svc := (PluginServiceImpl (C := nat) (P := ReadWriteSplittingPlugin nat)).
Local Abbreviation Rws_plugin := (ConnectionPlugin Rws_svc nat nat unit loc).
Definition all_permitted : Rws_svc -> string -> option AllowedAndBlockedHosts := fun _ _ => None.

(** Opens a connection with a number of its own. *)
Definition opening_plugin : Rws_plugin :=
  mkPlugin 2 "opening" ["*"] (fun _ _ _ k => k)
    (fun _ _ _ _ p => (p, Ok (from_option S 0%nat (currentConnection p)))) (fun _ _ _ k => k ∅) (fun _ => st_ret true)
    (fun _ _ hosts => match hosts with l :: _ => eff_ok l | [] => throw (PlainError "none" []) end)
    (fun _ => throw (PlainError "none" [])) (fun _ => st_ret NO_OPINION) (fun _ => st_ret tt) (fun _ k => k) None.
Definition rws_self : Rws_plugin := rws_listener all_permitted READ_WRITE_SPLITTING_PLUGIN_CODE 1.
Definition rws_plugins : list Rws_plugin := [rws_self; opening_plugin].

Lemma opening_opens : OpensConnections rws_plugins rws_self.
Proof.
  intros l props p p' conn. unfold service_Connect, Connect, connectWithSubscribedPlugins, st_bind, st_ret.
  rewrite chain_Connect_run. change (run_connect _ _ _ _ _ _ p) with
    (p, Ok (from_option S 0%nat (currentConnection p))). intros [= <- <-]. split; [|eauto].
  destruct (currentConnection p) as [c|]; [|done]. intros [= E]. simpl in E. lia.
Qed.

Definition rws_provider (_ : nat) : HostListProvider (C := nat) (P := ReadWriteSplittingPlugin nat) :=
  mkProvider (eff_ok [0; 1; 2]%nat) (eff_ok [0; 1; 2]%nat) (fun _ _ => eff_ok [0; 1; 2]%nat)
    (fun c => st_ret (if Nat.eqb c 0 then WRITER else READER)) (fun _ => eff_ok None) false None.
Definition rws_host (name role : string) : HostInfo := mkHostInfo name name 3306 AVAILABLE role None None 100 0.
Definition rws_service (current : nat) (r : ReadWriteSplittingPlugin nat) : Rws_svc :=
  mkService {[0%nat := rws_host "w" WRITER; 1%nat := rws_host "r1" READER; 2%nat := rws_host "r2" READER]}
    (Some current) (Some current) (Some 0%nat) [0; 1; 2]%nat false None NewSessionStateServiceImpl []
    (mkManager false None "" no_entries) (Some MySQLDatabaseDialect) true (Some 0%nat) no_entries ∅ r.
Definition switch_to (readOnly : bool) (p : Rws_svc) : Rws_svc * Result unit :=
  switchConnectionIfRequired all_permitted ∅ no_session_funcs rws_plugins rws_provider (fun _ => example_clock) "random"
    (RdsReadWriteSplittingStrategy rws_plugins rws_self) readOnly p.

(** The reader connection is in use; a writer connection is opened and the
    reader connection is kept. *)
Lemma read_write_reaches_writer_witness :
  exists p', switch_to false (rws_service 1 NewReadWriteSplittingPlugin) = (p', Ok tt) /\
    (currentConnection p', readerConnection (rws p'), writerConnection (rws p')) = (Some 2%nat, None, Some 2%nat) /\ on_writer p'.
Proof.
  destruct (switch_to false (rws_service 1 NewReadWriteSplittingPlugin)) as [p' r] eqn:E.
  assert (r = Ok tt) as -> by (vm_compute in E; injection E as _ <-; by vm_compute).
  exists p'. split; [done|]. split; [vm_compute in E; injection E as <-; by vm_compute|].
  apply (read_write_reaches_writer all_permitted ∅ no_session_funcs rws_plugins rws_provider (fun _ => example_clock) "random"
    (RdsReadWriteSplittingStrategy rws_plugins rws_self) (rws_service 1 NewReadWriteSplittingPlugin)); [| | | |exact E].
  - constructor; [apply rws_listener_calm|]. constructor; [apply quiet_calm; intros changes q; by exists (p_plugins q); destruct q|constructor].
  - pose proof opening_opens as Ho. intros hosts p q conn host. apply (rds_opens_writer ∅ rws_plugins rws_self).
  - intros p1 r1 E1. vm_compute in E1. injection E1 as <- _. intros c Hc. done.
  - intros c Hc. done.
Defined.

(** ** What the code gets wrong *)

(** A connection whose role is not known is left open when it is refused. *)
Example unknown_role_leaks :
  let '(p', r) := rws_Connect rws_plugins (fun _ => mkProvider (eff_ok []) (eff_ok []) (fun _ _ => eff_ok []) (fun _ => st_ret UNKNOWN)
      (fun _ => eff_ok None) false None) "random" (RdsReadWriteSplittingStrategy rws_plugins rws_self) 0%nat ∅ true (fun _ => eff_ok 7%nat)
      (rws_service 0 (NewReadWriteSplittingPlugin <| hostListProviderService := true |>)) in
  (r, events p') = (Err (NewGenericAwsWrapperError "ReadWriteSplittingPlugin.errorVerifyingInitialHostRole" []), []).
Proof. by vm_compute. Qed.

(** The writer changed from the first host to the second; the cached
    connection to the first one is taken for one to the writer. *)
Example cached_writer_is_stale :
  let r := mkRws true true (Some 9%nat) (Some 2%nat) (Some 0%nat) (Some 2%nat) in
  let p := (rws_service 2 r) <| heap := {[0%nat := rws_host "w" WRITER; 1%nat := rws_host "r1" WRITER; 2%nat := rws_host "r2" READER;
             3%nat := rws_host "w" READER]} |> in
  let '(p', res) := switchConnectionIfRequired all_permitted ∅ no_session_funcs rws_plugins
    (fun _ => mkProvider (eff_ok [1; 2; 3]%nat) (eff_ok [1; 2; 3]%nat) (fun _ _ => eff_ok []) (fun _ => st_ret READER)
      (fun _ => eff_ok None) false None) (fun _ => example_clock) "random"
    (RdsReadWriteSplittingStrategy rws_plugins rws_self) false p in
  (res, currentConnection p', currentHostInfo p', GetWriter_at p' (AllHosts p')) = (Ok tt, Some 9%nat, Some 0%nat, Some 1%nat).
Proof. by vm_compute. Qed.
