(* ===== verification/GdbReadWriteSplitting.v ===== *)
(** * GdbReadWriteSplitting: the strategy of the read/write splitting plugin
    for global databases
    (awssql/plugins/read_write_splitting/gdb_read_write_splitting.go).

    The strategy finds its home region when the first connection is opened and
    keeps writer and reader connections to that region when it is told to. It
    keeps the promise the plugin asks of a strategy ([OpensWriter]). *)

From S2P Require Import Prelude.
From S2P Require Import HostInfo.
From S2P Require Import CacheMap.
From S2P Require Import Effects.
From S2P Require Import Properties.
From S2P Require Import RdsUtils.
From S2P Require Import Dsn.
From S2P Require Import Dialects.
From S2P Require Import Regions.
From S2P Require Import SqlMethods.
From S2P Require Import SessionState.
From S2P Require Import PluginManager.
From S2P Require Import PluginService.
From S2P Require Import ReadWriteSplitting.

Record GdbReadWriteSplittingStrategy := mkGdb {
  homeRegion : Region;
  restrictWriterToHome : bool;
  restrictReaderToHome : bool;
  isInit : bool
}.
#[export] Instance GdbReadWriteSplittingStrategy_eta : Eta GdbReadWriteSplittingStrategy := fun s =>
  mkGdb (homeRegion s) (restrictWriterToHome s) (restrictReaderToHome s) (isInit s).
Definition NewGdbReadWriteSplittingStrategy (props : option properties) : GdbReadWriteSplittingStrategy :=
  mkGdb "" (GetVerifiedWrapperPropertyValue props GDB_RW_RESTRICT_WRITER_TO_HOME_REGION)
    (GetVerifiedWrapperPropertyValue props GDB_RW_RESTRICT_READER_TO_HOME_REGION) false.

Class HasGdb (P : Type) := {
  get_gdb : P -> GdbReadWriteSplittingStrategy;
  put_gdb : GdbReadWriteSplittingStrategy -> P -> P;
  get_put_gdb r s : get_gdb (put_gdb r s) = r
}.

Definition missingHomeRegion (host : string) : go_error :=
  NewGenericAwsWrapperError "GdbReadWriteSplittingPlugin.missingHomeRegion" [host].
Definition writerNotInHomeRegion (host region : string) : go_error :=
  NewGenericAwsWrapperError "GdbReadWriteSplittingPlugin.writerNotInHomeRegion" [host; region].
Definition noReadersInHomeRegion (region : string) : go_error :=
  NewGenericAwsWrapperError "GdbReadWriteSplittingPlugin.noReadersInHomeRegion" [region].

Section Gdb.
Context {C V Sel P : Type} `{EqDecision C} `{ExecConn C} `{DriverDialect C} `{PrepareHost} `{HasRws C P} `{HasGdb P}.
Local Abbreviation Svc := (PluginServiceImpl (C := C) (P := P)).
Local Abbreviation Plugin := (ConnectionPlugin Svc V C Sel loc).
Context (plugins : list Plugin) (self : Plugin).

Definition gdb (p : Svc) : GdbReadWriteSplittingStrategy := get_gdb (p_plugins p).
Definition set_gdb (f : GdbReadWriteSplittingStrategy -> GdbReadWriteSplittingStrategy) : St Svc unit :=
  modify (fun p => p <| p_plugins := put_gdb (f (get_gdb (p_plugins p))) (p_plugins p) |>).

Definition name_at (p : Svc) (l : loc) : string := from_option Host "" (host_at p l).
Definition in_home_region (p : Svc) (l : loc) : bool := EqualFold (GetRegionFromHost (name_at p l)) (homeRegion (gdb p)).

Definition gdb_OnConnect (hostInfo : loc) (props : properties) : Eff Svc unit :=
  (let! init := gets (fun p => isInit (gdb p)) in
   if (init : bool) then eff_ok tt
   else
     let! host := gets (fun p => name_at p hostInfo) in
     let region := GetRegion host (Some props) GDB_RW_HOME_REGION in
     let! _ := set_gdb (fun s => s <| homeRegion := region |>) in
     if is_empty region then throw (missingHomeRegion host)
     else let! _ := set_gdb (fun s => s <| isInit := true |>) in eff_ok tt)%eff.

Definition gdb_GetWriterConnection (props : properties) (hosts : list loc) : Eff Svc (C * loc) := fun p =>
  match GetWriter_at p hosts with
  | None => (p, Err noWriterFound)
  | Some writerHost =>
      if restrictWriterToHome (gdb p) && negb (in_home_region p writerHost) then
        (p, Err (writerNotInHomeRegion (name_at p writerHost) (homeRegion (gdb p))))
      else (try! conn := service_Connect plugins writerHost props (Some self) in eff_ok (conn, writerHost))%eff p
  end.

Definition gdb_readers (p : Svc) (hosts : list loc) : list loc :=
  if restrictReaderToHome (gdb p) then List.filter (in_home_region p) hosts else hosts.
Definition gdb_GetReaderConnection (props : properties) (hosts : list loc) (strategy : string) : Eff Svc (C * loc) := fun p =>
  match gdb_readers p hosts with
  | [] => if restrictReaderToHome (gdb p) then (p, Err (noReadersInHomeRegion (homeRegion (gdb p))))
          else rds_GetReaderConnection plugins self props [] strategy p
  | filtered => rds_GetReaderConnection plugins self props filtered strategy p
  end.
Definition gdb_strategy : ReadWriteSplittingStrategy :=
  mkStrategy gdb_OnConnect gdb_GetReaderConnection gdb_GetWriterConnection.

(** ** The home region *)

Lemma gdb_set f p : gdb (set_gdb f p).1 = f (gdb p).
Proof. unfold gdb, set_gdb, modify. cbn [fst update_field p_plugins]. apply get_put_gdb. Qed.

(** An initialised strategy has one of the regions as its home. *)
Definition home_known (s : GdbReadWriteSplittingStrategy) : Prop := isInit s = true -> homeRegion s ∈ ALL_REGIONS.

Lemma OnConnect_home hostInfo props p p' :
  home_known (gdb p) -> gdb_OnConnect hostInfo props p = (p', Ok tt) ->
  isInit (gdb p') = true /\ homeRegion (gdb p') ∈ ALL_REGIONS /\ (isInit (gdb p) = true -> p' = p).
Proof.
  intros Hk. unfold gdb_OnConnect. cbv zeta. unfold st_bind at 1, gets at 1. destruct (isInit (gdb p)) eqn:Ei.
  { intros [= <-]. by rewrite Ei; auto. }
  unfold st_bind at 1, gets at 1. unfold st_bind at 1.
  pose proof (gdb_set (fun s => s <| homeRegion := GetRegion (name_at p hostInfo) (Some props) GDB_RW_HOME_REGION |>) p) as Hg.
  destruct (set_gdb _ p) as [p1 u]. cbn [fst] in Hg. destruct (is_empty _) eqn:En; [done|]. unfold st_bind.
  pose proof (gdb_set (fun s => s <| isInit := true |>) p1) as Hg2.
  destruct (set_gdb _ p1) as [p2 u2]. cbn [fst] in Hg2. intros [= <-]. rewrite Hg2, Hg. cbn [isInit homeRegion update_field].
  split; [done|]. split; [|done].
  destruct (GetRegion_known (name_at p hostInfo) (Some props) GDB_RW_HOME_REGION) as [E|]; [by rewrite E in En|done].
Qed.

(** ** Connections stay in the home region *)

Lemma gdb_opens_writer props `{!OpensConnections plugins self} : OpensWriter props gdb_strategy.
Proof.
  intros hosts p p' conn host. cbn [GetWriterConnection gdb_strategy]. unfold gdb_GetWriterConnection.
  pose proof (rds_opens_writer props plugins self hosts p p' conn host) as Hr. unfold rds_GetWriterConnection in Hr.
  destruct (GetWriter_at p hosts) as [w|]; [|done]. by destruct (_ && _).
Qed.

Lemma gdb_writer_home props hosts p p' conn host :
  restrictWriterToHome (gdb p) = true -> gdb_GetWriterConnection props hosts p = (p', Ok (conn, host)) ->
  GetWriter_at p hosts = Some host /\ in_home_region p host = true /\ service_Connect plugins host props (Some self) p = (p', Ok conn).
Proof.
  intros Hr. unfold gdb_GetWriterConnection. destruct (GetWriter_at p hosts) as [w|]; [|done]. rewrite Hr.
  destruct (in_home_region p w) eqn:Eh; [|done]. cbn [andb negb]. rewrite eff_bind_eq.
  destruct (service_Connect plugins w props (Some self) p) as [p1 [c|e|]] eqn:Ec; [|done..]. unfold eff_ok. by intros [= <- <- <-].
Qed.

Lemma attempts_selected n props hosts strategy p p' conn host :
  reader_attempts plugins self n props hosts strategy p = (p', Ok (conn, host)) ->
  exists p0 p1, GetHostInfoByStrategy plugins READER strategy hosts p0 = (p1, Ok host) /\
    service_Connect plugins host props (Some self) p1 = (p', Ok conn).
Proof.
  revert p. induction n as [|n IH]; intros p; [done|]. cbn [reader_attempts]. unfold st_bind at 1.
  destruct (GetHostInfoByStrategy _ _ _ _ p) as [p1 [l|e|]] eqn:Eg; [|by apply IH|done]. unfold st_bind.
  destruct (service_Connect plugins l props (Some self) p1) as [p2 [c|e|]] eqn:Ec; [|by apply IH|done].
  unfold eff_ok. intros [= <- <- <-]. by exists p, p1.
Qed.

(** The selectors pick from the hosts they are given. *)
Class Selects : Prop := selects : forall strategy hosts p p' l,
  GetHostInfoByStrategy plugins READER strategy hosts p = (p', Ok l) -> l ∈ hosts.

(** C30. With the restriction to the home region on, a reader or writer
    connection the strategy for global databases returns was opened by the
    plugins (the strategy's own left out) for the very host that is returned
    with it, which is one of the hosts given and whose region is the home
    region, for selectors that pick from the hosts they are given. *)
Theorem gdb_connections_stay_home `{!Selects} props hosts strategy p p' conn host :
  (restrictReaderToHome (gdb p) = true /\ GetReaderConnection gdb_strategy props hosts strategy p = (p', Ok (conn, host))) \/
  (restrictWriterToHome (gdb p) = true /\ GetWriterConnection gdb_strategy props hosts p = (p', Ok (conn, host))) ->
  host ∈ hosts /\ in_home_region p host = true /\ exists p1, service_Connect plugins host props (Some self) p1 = (p', Ok conn).
Proof.
  intros [[Hr E]|[Hr E]]; cbn [GetReaderConnection GetWriterConnection gdb_strategy] in E.
  - unfold gdb_GetReaderConnection, gdb_readers in E. rewrite Hr in E.
    destruct (List.filter (in_home_region p) hosts) as [|x l] eqn:Ef; [done|]. unfold rds_GetReaderConnection in E.
    apply attempts_selected in E as (p0 & p1 & Eg & Ec). apply selects in Eg. rewrite <- Ef in Eg.
    apply list_elem_of_In, List.filter_In in Eg as [Hin Hh]. split_and!; [by apply list_elem_of_In|done|by exists p1].
  - apply gdb_writer_home in E as (Hw & Hh & Ec); [|done]. apply List.find_some in Hw as [Hin _].
    split_and!; [by apply list_elem_of_In|done|by exists p].
Qed.
End Gdb.

(** ** Examples: a reader in the home region and one in another *)

Definition GdbState : Type := ReadWriteSplittingPlugin nat * GdbReadWriteSplittingStrategy.
#[local] Instance gdb_rws : HasRws nat GdbState := {| get_rws := fst; put_rws r s := (r, s.2); get_put_rws _ _ := eq_refl |}.
#[local] Instance gdb_gdb : HasGdb GdbState := {| get_gdb := snd; put_gdb r s := (s.1, r); get_put_gdb _ _ := eq_refl |}.
#[local] Instance accepting_conn : ExecConn nat := fun _ _ _ => Some None.
#[local] Instance open_conn : DriverDialect nat := {| IsClosed _ _ := false; IsNetworkError _ := false; IsLoginError _ := false |}.
#[local] Instance host_as_is : PrepareHost := None.
Local Abbreviation Gdb_svc := (PluginServiceImpl (C := nat) (P := GdbState)).

Definition first_host_plugin : ConnectionPlugin Gdb_svc nat nat unit loc :=
  mkPlugin 2 "first" ["*"] (fun _ _ _ k => k) (fun l _ _ _ => eff_ok l) (fun _ _ _ k => k ∅) (fun _ => st_ret true)
    (fun _ _ hosts => match hosts with l :: _ => eff_ok l | [] => throw (PlainError "none" []) end)
    (fun _ => throw (PlainError "none" [])) (fun _ => st_ret NO_OPINION) (fun _ => st_ret tt) (fun _ k => k) None.
Definition gdb_self : ConnectionPlugin Gdb_svc nat nat unit loc := rws_listener (fun _ _ => None) "gdbReadWriteSplitting" 1.

Lemma first_selects : Selects [gdb_self; first_host_plugin].
Proof.
  intros strategy hosts p p' l. unfold GetHostInfoByStrategy.
  change (strategy_loop _ _ _ _ p) with
    (match (match hosts with l :: _ => eff_ok l | [] => throw (PlainError "none" []) end) p with
     | (s, Ok a) => (s, Ok a) | (s, Err e) => (s, Err e) | (s, Panic) => (s, Panic) end).
  destruct hosts as [|x hosts]; [done|]. intros [= _ <-]. by left.
Qed.

Definition regional_host (region role : string) : HostInfo :=
  mkHostInfo ("i.xyz1." +:+ region +:+ ".rds.amazonaws.com") ("i.xyz1." +:+ region +:+ ".rds.amazonaws.com") 3306 AVAILABLE role None None 100 0.
Definition gdb_service (restrict : bool) : Gdb_svc :=
  mkService {[0%nat := regional_host "us-east-1" WRITER; 1%nat := regional_host "us-east-1" READER; 2%nat := regional_host "us-east-2" READER]}
    (Some 0%nat) (Some 0%nat) (Some 0%nat) [0; 1; 2]%nat false None NewSessionStateServiceImpl []
    (mkManager false None "" no_entries) (Some MySQLDatabaseDialect) true (Some 0%nat) no_entries ∅
    (NewReadWriteSplittingPlugin, mkGdb "us-east-2" restrict restrict true).

Lemma gdb_connections_stay_home_witness :
  exists p', GetReaderConnection (gdb_strategy [gdb_self; first_host_plugin] gdb_self) ∅ [1; 2]%nat "random" (gdb_service true) =
    (p', Ok (2%nat, 2%nat)) /\ in_home_region (gdb_service true) 2%nat = true /\
    exists p1, service_Connect [gdb_self; first_host_plugin] 2%nat ∅ (Some gdb_self) p1 = (p', Ok 2%nat).
Proof.
  destruct (GetReaderConnection (gdb_strategy [gdb_self; first_host_plugin] gdb_self) ∅ [1; 2]%nat "random" (gdb_service true))
    as [p' r] eqn:E.
  assert (r = Ok (2%nat, 2%nat)) as -> by (vm_compute in E; injection E as _ <-; by vm_compute).
  exists p'. split; [done|]. pose proof first_selects as Hs.
  destruct (gdb_connections_stay_home [gdb_self; first_host_plugin] gdb_self ∅ [1; 2]%nat "random" (gdb_service true) p' 2%nat 2%nat)
    as (_ & Hh & Hc); [left; split; [by vm_compute|exact E]|]. by split.
Defined.
