(* ===== verification/Driver.v ===== *)
(** * Driver: the objects database/sql sees, and how a connection is opened
    (awssql/driver/driver.go, wrapper_utils.go, target_driver_helper.go,
    [CreateStandardContainer] of awssql/services/factory.go).

    The connection, statements, rows and results of the target driver are
    parameters: a class of the methods of a connection, and records of the
    methods of the other objects, those of an optional interface as an option.
    A method of a wrapped object is a call of [Execute] of the plugin manager
    with a closure that calls the target driver. A context is the read-only
    mode it asks for, if any. Telemetry is not modelled. *)

From S2P Require Import Prelude.
From S2P Require Import Methods.
From S2P Require Import HostInfo.
From S2P Require Import Effects.
From S2P Require Import CacheMap.
From S2P Require Import Properties.
From S2P Require Import Dsn.
From S2P Require Import HostSelectors.
From S2P Require Import Dialects.
From S2P Require Import SqlMethods.
From S2P Require Import SessionState.
From S2P Require Import PluginManager.
From S2P Require Import ReadWriteSplitting.
From S2P Require Import PluginService.
From S2P Require Import DefaultPlugin.
From Stdlib Require Import Ascii.

Inductive DatabaseEngine := MYSQL | PG.

Definition invalidProtocol (protocol : string) : go_error :=
  NewGenericAwsWrapperError "TargetDriverHelper.invalidProtocol" [protocol].
Definition GetDatabaseEngine (props : properties) : Result DatabaseEngine :=
  let protocol := Properties.Get DRIVER_PROTOCOL (Some props) in
  if bool_decide (protocol = MYSQL_DRIVER_PROTOCOL) then Ok MYSQL
  else if bool_decide (protocol = PGX_DRIVER_PROTOCOL) then Ok PG
  else Err (invalidProtocol protocol).

(** The registries [pluginFactoryByCode] and [underlyingDriverList]. *)
Section Registry.
Context {A : Type}.
Definition UsePluginFactory (code : string) (pluginFactory : A) : gmap string A -> gmap string A := insert code pluginFactory.
Definition RemovePluginFactory (code : string) : gmap string A -> gmap string A := delete code.
Definition RegisterUnderlyingDriver (name : string) (driver : A) : gmap string A -> gmap string A := insert name driver.
Definition RemoveUnderlyingDriver (name : string) : gmap string A -> gmap string A := delete name.
Definition GetUnderlyingDriver (name : string) (underlyingDriverList : gmap string A) : option A := underlyingDriverList !! name.
End Registry.

(** ** Objects of the target driver *)

Section Target.
Context (S Ty Val : Type).

Record DriverResult := mkDriverResult { result_LastInsertId : Eff S Z; result_RowsAffected : Eff S Z }.
Record DriverRows := mkDriverRows {
  rows_Close : Eff S unit;
  rows_Columns : St S (list string);
  rows_Next : Eff S unit;
  rows_ColumnTypePrecisionScale : option (Z -> St S (Z * Z * bool));
  rows_ColumnTypeDatabaseTypeName : option (Z -> St S string);
  rows_ColumnTypeLength : option (Z -> St S (Z * bool));
  rows_NextResultSet : option (St S bool * Eff S unit);   (* HasNextResultSet, NextResultSet *)
  rows_ColumnTypeScanType : option (Z -> St S Ty);
  rows_ColumnTypeNullable : option (Z -> St S (bool * bool))
}.
Record DriverStmt := mkDriverStmt {
  stmt_Close : Eff S unit;
  stmt_NumInput : St S Z;
  stmt_Exec : list Val -> Eff S DriverResult;
  stmt_ExecContext : option (list Val -> Eff S DriverResult);
  stmt_Query : list Val -> Eff S DriverRows;
  stmt_QueryContext : option (list Val -> Eff S DriverRows);
  stmt_CheckNamedValue : option (Val -> Eff S unit)
}.

(** A value of type [any]. *)
Inductive AnyValue :=
| ANil
| AStmt (s : DriverStmt)
| ARows (r : DriverRows)
| AResult (r : DriverResult)
| ATx (tx : nat)
| AInt (z : Z)
| AInt64 (z : Z)
| AString (s : string)
| AStrings (l : list string)
| ABool (b : bool)
| AType (t : Ty).

(** The methods of a connection and of its transactions. *)
Class TargetConn (C : Type) := {
  drv_Prepare : C -> string -> Eff S DriverStmt;
  drv_PrepareContext : C -> option (string -> Eff S DriverStmt);
  drv_Close : C -> Eff S unit;
  drv_Begin : C -> Eff S nat;
  drv_BeginTx : C -> option (bool -> Eff S nat);
  drv_QueryContext : C -> option (string -> list Val -> Eff S DriverRows);
  drv_ExecContext : C -> option (string -> list Val -> Eff S DriverResult);
  drv_Ping : C -> option (Eff S unit);
  drv_IsValid : C -> option (St S bool);
  drv_ResetSession : C -> option (Eff S unit);
  drv_CheckNamedValue : C -> option (Val -> Eff S unit);
  tx_Commit : nat -> Eff S unit;
  tx_Rollback : nat -> Eff S unit
}.
End Target.
Arguments ANil {S Ty Val}.
Arguments AStmt {S Ty Val} _.
Arguments ARows {S Ty Val} _.
Arguments AResult {S Ty Val} _.
Arguments ATx {S Ty Val} _.
Arguments AInt {S Ty Val} _.
Arguments AInt64 {S Ty Val} _.
Arguments AString {S Ty Val} _.
Arguments AStrings {S Ty Val} _.
Arguments ABool {S Ty Val} _.
Arguments AType {S Ty Val} _.
Arguments result_LastInsertId {S} _.
Arguments result_RowsAffected {S} _.
Arguments rows_Close {S Ty} _.
Arguments rows_Columns {S Ty} _.
Arguments rows_Next {S Ty} _.
Arguments rows_ColumnTypePrecisionScale {S Ty} _.
Arguments rows_ColumnTypeDatabaseTypeName {S Ty} _.
Arguments rows_ColumnTypeLength {S Ty} _.
Arguments rows_NextResultSet {S Ty} _.
Arguments rows_ColumnTypeScanType {S Ty} _.
Arguments rows_ColumnTypeNullable {S Ty} _.
Arguments stmt_Close {S Ty Val} _.
Arguments stmt_NumInput {S Ty Val} _.
Arguments stmt_Exec {S Ty Val} _ _.
Arguments stmt_ExecContext {S Ty Val} _.
Arguments stmt_Query {S Ty Val} _ _.
Arguments stmt_QueryContext {S Ty Val} _.
Arguments stmt_CheckNamedValue {S Ty Val} _.

(** The wrapped objects: that of the driver, with the connection it was got on. *)
Record AwsWrapperStmt (S Ty Val C : Type) := mkStmt { stmt_underlyingConn : option C; underlyingStmt : DriverStmt S Ty Val }.
Record AwsWrapperResult (S C : Type) := mkResult { result_underlyingConn : option C; underlyingResult : DriverResult S }.
Record AwsWrapperTx (C : Type) := mkTx { tx_underlyingConn : option C; underlyingTx : nat }.
(** The engine says which of the three types of rows it is. *)
Record AwsWrapperRows (S Ty C : Type) := mkRows {
  rows_underlyingConn : option C; underlyingRows : DriverRows S Ty; rows_engine : DatabaseEngine
}.
Arguments mkStmt {S Ty Val C} _ _.
Arguments stmt_underlyingConn {S Ty Val C} _.
Arguments underlyingStmt {S Ty Val C} _.
Arguments mkResult {S C} _ _.
Arguments result_underlyingConn {S C} _.
Arguments underlyingResult {S C} _.
Arguments mkTx {C} _ _.
Arguments tx_underlyingConn {C} _.
Arguments underlyingTx {C} _.
Arguments mkRows {S Ty C} _ _ _.
Arguments rows_underlyingConn {S Ty C} _.
Arguments underlyingRows {S Ty C} _.
Arguments rows_engine {S Ty C} _.

Definition doesNotImplementRequiredInterface (interface : string) : go_error :=
  PlainError "Conn.doesNotImplementRequiredInterface" [interface].
Definition unableToCastResult (type : string) : go_error :=
  PlainError "AwsWrapperExecuteWithPlugins.unableToCastResult" [type].
Definition underlyingStmtDoesNotImplement (interface : string) : go_error :=
  PlainError "AwsWrapperStmt.underlyingStmtDoesNotImplementRequiredInterface" [interface].
Definition underlyingRowsDoNotImplement (interface : string) : go_error :=
  PlainError "AwsWrapperRows.underlyingRowsDoNotImplementRequiredInterface" [interface].

Section Driver.
Context {C Sel P Ty Val : Type} `{EqDecision C}.
Local Abbreviation Svc := (PluginServiceImpl (C := C) (P := P)).
Local Abbreviation Any := (AnyValue Svc Ty Val).
Local Abbreviation Plugin := (ConnectionPlugin Svc Any C Sel loc).
Local Abbreviation Stmt := (AwsWrapperStmt Svc Ty Val C).
Local Abbreviation Rows := (AwsWrapperRows Svc Ty C).
Local Abbreviation Res := (AwsWrapperResult Svc C).
Local Abbreviation Tx := (AwsWrapperTx C).
Local Abbreviation Func := (ExecuteFunc (S := Svc) (V := Any)).
Context `{!TargetConn Svc Ty Val C}.
Context (plugins : list Plugin) (service_props : properties) (providers : nat -> HostListProvider (C := C) (P := P)).
(** A panic in a closure; a closure of the model returns. *)
Context (panics : Func).

Definition ExecuteWithPlugins (connInvokedOn : option C) (methodName : string) (executeFunc : Func) (methodArgs : list Any) : Func :=
  PluginManager.Execute ANil plugins currentConnection connInvokedOn methodName executeFunc methodArgs.

(** ** Closures *)

(** The value next to an error is nil. *)
Definition answers {A} (inj : A -> Any) (c : Eff Svc A) : Func :=
  (let! r := c in
   match r with
   | Ok a => st_ret (mkExecResult (inj a) ANil false None)
   | Err e => st_ret (exec_error ANil e)
   | Panic => panics
   end)%eff.
Definition to_nil (_ : unit) : Any := ANil.
Definition on_current {A} (inj : A -> Any) (method : C -> Eff Svc A) : Func :=
  (let! conn := gets currentConnection in
   match conn with Some c => answers inj (method c) | None => panics end)%eff.
(** A type assertion to an optional interface; it fails on a nil connection. *)
Definition on_interface {A} (inj : A -> Any) (interface : string) (method : C -> option (Eff Svc A)) : Func :=
  (let! conn := gets currentConnection in
   match conn ≫= method with
   | Some c => answers inj c
   | None => st_ret (exec_error ANil (doesNotImplementRequiredInterface interface))
   end)%eff.
(** [UpdateState] before a call; it has no result. *)
Definition after_UpdateState (sql : string) (methodArgs : MethodArgs) (k : Func) : Func :=
  (let! r := UpdateState (Some service_props) sql methodArgs in match r with Panic => panics | _ => k end)%eff.

(** ** Results (wrapper_utils.go) *)

Definition error_of (r : ExecResult Any) : Result unit := match returnErr r with Some e => Err e | None => Ok tt end.
Definition call (connInvokedOn : option C) (methodName : string) (executeFunc : Func) (methodArgs : list Any) : Eff Svc unit :=
  (let! r := ExecuteWithPlugins connInvokedOn methodName executeFunc methodArgs in lift_result (error_of r))%eff.

Definition queryWithPlugins (connInvokedOn : option C) (methodName : string) (queryFunc : Func) (engine : DatabaseEngine)
  (methodArgs : list Any) : Eff Svc Rows :=
  (let! r := ExecuteWithPlugins connInvokedOn methodName queryFunc methodArgs in
   try! _ := lift_result (error_of r) in
   match returnValue _ r with
   | ARows rows => eff_ok (mkRows connInvokedOn rows engine)
   | _ => throw (unableToCastResult "driver.Rows")
   end)%eff.
Definition execWithPlugins (connInvokedOn : option C) (methodName : string) (execFunc : Func) (methodArgs : list Any) : Eff Svc Res :=
  (let! r := ExecuteWithPlugins connInvokedOn methodName execFunc methodArgs in
   try! _ := lift_result (error_of r) in
   match returnValue _ r with
   | AResult res => eff_ok (mkResult connInvokedOn res)
   | _ => throw (unableToCastResult "driver.Result")
   end)%eff.
Definition prepareWithPlugins (connInvokedOn : option C) (methodName : string) (prepareFunc : Func) (methodArgs : list Any) :
  Eff Svc Stmt :=
  (let! r := ExecuteWithPlugins connInvokedOn methodName prepareFunc methodArgs in
   try! _ := lift_result (error_of r) in
   match returnValue _ r with
   | AStmt stmt => eff_ok (mkStmt connInvokedOn stmt)
   | _ => throw (unableToCastResult "driver.Stmt")
   end)%eff.
Definition beginWithPlugins (connInvokedOn : option C) (methodName : string) (beginFunc : Func) : Eff Svc Tx :=
  (let! r := ExecuteWithPlugins connInvokedOn methodName beginFunc [] in
   try! _ := lift_result (error_of r) in
   match returnValue _ r with
   | ATx tx => let! _ := SetCurrentTx (Some tx) in eff_ok (mkTx connInvokedOn tx)
   | _ => throw (unableToCastResult "driver.Tx")
   end)%eff.

(** ** Connections *)

Definition setReadWriteMode (readOnly : bool) : Eff Svc unit :=
  (let! conn := gets currentConnection in
   call conn SET_READ_ONLY_METHOD (st_ret (mkExecResult ANil ANil false None)) [ABool readOnly])%eff.
Definition setReadWriteModeFromCtx (ctx : option bool) : Eff Svc bool :=
  match ctx with
  | None => eff_ok false
  | Some isReadOnly => (try! _ := setReadWriteMode isReadOnly in eff_ok true)%eff
  end.

Definition Conn_Prepare (query : string) : Eff Svc Stmt :=
  (let! conn := gets currentConnection in
   prepareWithPlugins conn CONN_PREPARE (on_current AStmt (fun c => drv_Prepare _ _ _ c query)) [AString query])%eff.
Definition Conn_PrepareContext (ctx : option bool) (query : string) : Eff Svc Stmt :=
  (try! _ := setReadWriteModeFromCtx ctx in
   let! conn := gets currentConnection in
   prepareWithPlugins conn CONN_PREPARE_CONTEXT
     (on_interface AStmt "driver.ConnPrepareContext" (fun c => (fun f => f query) <$> drv_PrepareContext _ _ _ c)) [AString query])%eff.
Definition Conn_Close : Eff Svc unit :=
  (let! conn := gets currentConnection in
   let! r := ExecuteWithPlugins conn CONN_CLOSE (on_current to_nil (drv_Close _ _ _)) [] in
   let! _ := ReleaseResources plugins (service_ReleaseResources providers) in
   lift_result (error_of r))%eff.
Definition Conn_Begin : Eff Svc Tx :=
  (let! conn := gets currentConnection in
   beginWithPlugins conn CONN_BEGIN (on_current ATx (drv_Begin _ _ _)))%eff.
Definition Conn_BeginTx (ctx : option bool) (ReadOnly : bool) : Eff Svc Tx :=
  (try! changed := setReadWriteModeFromCtx ctx in
   try! _ := if (changed : bool) then eff_ok tt else setReadWriteMode ReadOnly in
   let! conn := gets currentConnection in
   beginWithPlugins conn CONN_BEGIN_TX
     (on_interface ATx "driver.ConnBeginTx" (fun c => (fun f => f ReadOnly) <$> drv_BeginTx _ _ _ c)))%eff.
Definition Conn_QueryContext (engine : DatabaseEngine) (ctx : option bool) (query : string) (args : list Val) : Eff Svc Rows :=
  (try! _ := setReadWriteModeFromCtx ctx in
   let! conn := gets currentConnection in
   queryWithPlugins conn CONN_QUERY_CONTEXT
     (after_UpdateState query None
        (on_interface ARows "driver.QueryerContext" (fun c => (fun f => f query args) <$> drv_QueryContext _ _ _ c)))
     engine [AString query])%eff.
Definition Conn_execContextInternal (query : string) (args : list Val) : Eff Svc Res :=
  (let! conn := gets currentConnection in
   execWithPlugins conn CONN_EXEC_CONTEXT
     (after_UpdateState query None
        (on_interface AResult "driver.ExecerContext" (fun c => (fun f => f query args) <$> drv_ExecContext _ _ _ c)))
     [AString query])%eff.
Definition Conn_ExecContext (ctx : option bool) (query : string) (args : list Val) : Eff Svc Res :=
  (try! _ := setReadWriteModeFromCtx ctx in Conn_execContextInternal query args)%eff.
Definition Conn_Ping : Eff Svc unit :=
  (let! conn := gets currentConnection in
   call conn CONN_PING (on_interface to_nil "driver.Pinger" (drv_Ping _ _ _)) [])%eff.
(** The error is dropped. *)
Definition Conn_IsValid : St Svc bool :=
  (let! conn := gets currentConnection in
   let isValidFunc :=
     (let! conn := gets currentConnection in
      match conn ≫= drv_IsValid _ _ _ with
      | Some isValid => let! b := isValid in st_ret (mkExecResult ANil ANil b None)
      | None => st_ret (mkExecResult ANil ANil true None)
      end)%eff in
   let! r := ExecuteWithPlugins conn CONN_IS_VALID isValidFunc [] in st_ret (returnOk _ r))%eff.
Definition Conn_ResetSession : Eff Svc unit :=
  (let! _ := PluginService.ResetSession in
   let! conn := gets currentConnection in
   call conn CONN_RESET_SESSION (on_interface to_nil "driver.SessionResetter" (drv_ResetSession _ _ _)) [])%eff.
Definition Conn_CheckNamedValue (val : Val) : Eff Svc unit :=
  (let! conn := gets currentConnection in
   call conn CONN_CHECK_NAMED_VALUE
     (on_interface to_nil "driver.NamedValueChecker" (fun c => (fun f => f val) <$> drv_CheckNamedValue _ _ _ c)) [])%eff.
Definition Conn_UnwrapPlugin (pluginCode : string) : option Plugin := UnwrapPlugin plugins pluginCode.

(** ** Statements *)

(** The slice of arguments is not one of those [GetQueryFromSqlOrMethodArgs]
    looks into: [driver.Value] and [driver.NamedValue] are types of their own. *)
Definition stmt_methodArgs : MethodArgs := Some [ArgOther].

Definition Stmt_Close (a : Stmt) : Eff Svc unit :=
  call (stmt_underlyingConn a) STMT_CLOSE (answers to_nil (stmt_Close (underlyingStmt a))) [].
Definition Stmt_Exec (a : Stmt) (args : list Val) : Eff Svc Res :=
  execWithPlugins (stmt_underlyingConn a) STMT_EXEC
    (after_UpdateState "" stmt_methodArgs (answers AResult (stmt_Exec (underlyingStmt a) args))) [].
Definition Stmt_ExecContext (a : Stmt) (args : list Val) : Eff Svc Res :=
  match stmt_ExecContext (underlyingStmt a) with
  | Some exec => execWithPlugins (stmt_underlyingConn a) STMT_EXEC_CONTEXT
                   (after_UpdateState "" stmt_methodArgs (answers AResult (exec args))) []
  | None => throw (underlyingStmtDoesNotImplement "driver.StmtExecContext")
  end.
Definition Stmt_NumInput (a : Stmt) : St Svc Z :=
  (let! r := ExecuteWithPlugins (stmt_underlyingConn a) STMT_NUM_INPUT (answers AInt (Effects.run (stmt_NumInput (underlyingStmt a)))) [] in
   st_ret (match returnValue _ r with AInt num => num | _ => -1 end))%eff.
Definition Stmt_Query (engine : DatabaseEngine) (a : Stmt) (args : list Val) : Eff Svc Rows :=
  queryWithPlugins (stmt_underlyingConn a) STMT_QUERY
    (after_UpdateState "" stmt_methodArgs (answers ARows (stmt_Query (underlyingStmt a) args))) engine [].
Definition Stmt_QueryContext (engine : DatabaseEngine) (a : Stmt) (args : list Val) : Eff Svc Rows :=
  match stmt_QueryContext (underlyingStmt a) with
  | Some query => queryWithPlugins (stmt_underlyingConn a) STMT_QUERY_CONTEXT
                    (after_UpdateState "" stmt_methodArgs (answers ARows (query args))) engine []
  | None => throw (underlyingStmtDoesNotImplement "driver.StmtQueryContext")
  end.
Definition Stmt_CheckNamedValue (a : Stmt) (val : Val) : Eff Svc unit :=
  match stmt_CheckNamedValue (underlyingStmt a) with
  | Some check => call (stmt_underlyingConn a) STMT_CHECK_NAMED_VALUE (answers to_nil (check val)) []
  | None => Conn_CheckNamedValue val
  end.

(** ** Results and transactions *)

Definition result_number (a : Res) (methodName : string) (c : Eff Svc Z) : Eff Svc Z :=
  (let! r := ExecuteWithPlugins (result_underlyingConn a) methodName (answers AInt64 c) [] in
   try! _ := lift_result (error_of r) in
   match returnValue _ r with AInt64 num => eff_ok num | _ => throw (unableToCastResult "int64") end)%eff.
Definition Result_LastInsertId (a : Res) : Eff Svc Z :=
  result_number a RESULT_LAST_INSERT_ID (result_LastInsertId (underlyingResult a)).
Definition Result_RowsAffected (a : Res) : Eff Svc Z :=
  result_number a RESULT_ROWS_AFFECTED (result_RowsAffected (underlyingResult a)).

Definition end_tx (a : Tx) (methodName : string) (c : Eff Svc unit) : Eff Svc unit :=
  (let! r := ExecuteWithPlugins (tx_underlyingConn a) methodName (answers to_nil c) [] in
   let! _ := SetCurrentTx None in
   lift_result (error_of r))%eff.
Definition Tx_Commit (a : Tx) : Eff Svc unit := end_tx a TX_COMMIT (tx_Commit _ _ _ (underlyingTx a)).
Definition Tx_Rollback (a : Tx) : Eff Svc unit := end_tx a TX_ROLLBACK (tx_Rollback _ _ _ (underlyingTx a)).

(** ** Rows *)

Definition Rows_Close (a : Rows) : Eff Svc unit :=
  call (rows_underlyingConn a) ROWS_CLOSE (answers to_nil (rows_Close (underlyingRows a))) [].
Definition Rows_Columns (a : Rows) : St Svc (list string) :=
  (let! r := ExecuteWithPlugins (rows_underlyingConn a) ROWS_COLUMNS (answers AStrings (Effects.run (rows_Columns (underlyingRows a)))) [] in
   st_ret (match returnValue _ r with AStrings cols => cols | _ => [] end))%eff.
Definition Rows_Next (a : Rows) : Eff Svc unit :=
  call (rows_underlyingConn a) ROWS_NEXT (answers to_nil (rows_Next (underlyingRows a))) [].

(** A question of an optional interface about the columns. *)
Definition ask_rows {A} (a : Rows) (methodName : string) (question : option (St Svc (ExecResult Any))) (cast : ExecResult Any -> option A)
  (none : A) : St Svc A :=
  match question with
  | Some q => (let! r := ExecuteWithPlugins (rows_underlyingConn a) methodName q [] in st_ret (default none (cast r)))%eff
  | None => st_ret none
  end.
Definition results (v v2 : Any) (ok : bool) : ExecResult Any := mkExecResult v v2 ok None.

Definition Rows_ColumnTypePrecisionScale (a : Rows) (index : Z) : St Svc (Z * Z * bool) :=
  ask_rows a ROWS_COLUMN_TYPE_PRECISION_SCALE
    ((fun f => (let! r := f index in st_ret (results (AInt64 r.1.1) (AInt64 r.1.2) r.2))%eff) <$>
       rows_ColumnTypePrecisionScale (underlyingRows a))
    (fun r => match returnValue _ r, returnValue2 _ r with
              | AInt64 precision, AInt64 scale => Some (precision, scale, returnOk _ r)
              | _, _ => None
              end) (-1, -1, false).
Definition Rows_ColumnTypeDatabaseTypeName (a : Rows) (index : Z) : St Svc string :=
  ask_rows a ROWS_COLUMN_TYPE_DATABASE_TYPE_NAME
    ((fun f => (let! name := f index in st_ret (results (AString name) ANil false))%eff) <$>
       rows_ColumnTypeDatabaseTypeName (underlyingRows a))
    (fun r => match returnValue _ r with AString str => Some str | _ => None end) "".
(** [AwsWrapperPgRows] *)
Definition Rows_ColumnTypeLength (a : Rows) (index : Z) : St Svc (Z * bool) :=
  ask_rows a ROWS_COLUMN_TYPE_LENGTH
    ((fun f => (let! r := f index in st_ret (results (AInt64 r.1) ANil r.2))%eff) <$>
       rows_ColumnTypeLength (underlyingRows a))
    (fun r => match returnValue _ r with AInt64 num => Some (num, returnOk _ r) | _ => None end) (-1, false).
(** [AwsWrapperMySQLRows] *)
Definition Rows_HasNextResultSet (a : Rows) : St Svc bool :=
  ask_rows a ROWS_HAS_NEXT_RESULT_SET
    ((fun f => (let! b := f.1 in st_ret (results ANil ANil b))%eff) <$> rows_NextResultSet (underlyingRows a))
    (fun r => Some (returnOk _ r)) false.
Definition Rows_NextResultSet (a : Rows) : Eff Svc unit :=
  match rows_NextResultSet (underlyingRows a) with
  | Some f => call (rows_underlyingConn a) ROWS_NEXT_RESULT_SET (answers to_nil f.2) []
  | None => throw (underlyingRowsDoNotImplement "driver.RowsNextResultSet")
  end.
Definition Rows_ColumnTypeScanType (a : Rows) (index : Z) : St Svc (option Ty) :=
  ask_rows a ROWS_COLUMN_TYPE_SCAN_TYPE
    ((fun f => (let! t := f index in st_ret (results (AType t) ANil false))%eff) <$> rows_ColumnTypeScanType (underlyingRows a))
    (fun r => match returnValue _ r with AType t => Some (Some t) | _ => None end) None.
Definition Rows_ColumnTypeNullable (a : Rows) (index : Z) : St Svc (bool * bool) :=
  ask_rows a ROWS_COLUMN_TYPE_NULLABLE
    ((fun f => (let! r := f index in st_ret (results ANil (ABool r.1) r.2))%eff) <$>
       rows_ColumnTypeNullable (underlyingRows a))
    (fun r => match returnValue2 _ r with ABool nullable => Some (nullable, returnOk _ r) | _ => None end) (false, false).
End Driver.

(** ** Opening a connection *)

Section Open.
Context {C Sel P Ty Val : Type} `{EqDecision C} `{ExecConn C} `{DriverDialect C} `{DriverConn C} `{UrlLib}.
Local Abbreviation Svc := (PluginServiceImpl (C := C) (P := P)).
Local Abbreviation Any := (AnyValue Svc Ty Val).
Local Abbreviation Plugin := (ConnectionPlugin Svc Any C Sel loc).
(** The parts of the container: [pluginServiceFactory] makes the plugin service
    from the properties and the DSN, [GetPlugins] the chain of plugins;
    [supplier] is the supplier of host list providers of a dialect, which a
    dialect may not have. *)
Context (funcs : SessionFuncs C) (providers : nat -> HostListProvider (C := C) (P := P)) (clk : HostClock).
Context (NewDefaultTelemetryFactory : properties -> Result unit).
Context (pluginServiceFactory : properties -> string -> Result Svc).
Context (GetPlugins : properties -> Eff Svc (list Plugin)).
Context (supplier : Dialect -> option (properties -> string -> Eff Svc nat)).

Definition CreateStandardContainer (props : properties) (originalURL : string) : Svc -> Svc * Result (list Plugin) :=
  (try! plugins := GetPlugins props in
   try! _ := InitHostProvider ANil plugins props in
   let! dialect := gets service_dialect in
   match dialect with
   | None => lift_result Panic
   | Some d =>
       try! _ := match supplier d with
                 | Some s => try! provider := s props originalURL in
                             let! _ := SetHostListProvider (Some provider) in eff_ok tt
                 | None => eff_ok tt
                 end in
       try! _ := RefreshHostList plugins providers clk in
       eff_ok plugins
   end)%eff.

Definition missingUnderlyingDriverOrDialect : go_error := NewGenericAwsWrapperError "Driver.missingUnderlyingDriverOrDialect" [].

(** The connection a new plugin service has none of yet. A nil host is
    dereferenced by the plugins; a [Connect] without an error has a connection. *)
Definition open_connection (plugins : list Plugin) (props : properties) : Eff Svc unit :=
  (let! current := gets currentConnection in
   match current with
   | Some _ => eff_ok tt
   | None =>
       let! host := gets initialHostInfo in
       match host with
       | None => lift_result Panic
       | Some l =>
           try! conn := PluginManager.Connect plugins l props true None in
           let! host := gets initialHostInfo in
           try! _ := SetCurrentConnection (Some props) funcs plugins (Some conn) host None in
           RefreshHostList plugins providers clk
       end
   end)%eff.

(** The state is that of the new plugin service, if there is one. *)
Definition Open (hasDriverAndDialect : bool) (dsn : string) : option Svc * Result (list Plugin * properties * DatabaseEngine) :=
  if negb hasDriverAndDialect then (None, Err missingUnderlyingDriverOrDialect)
  else match (try props := ParseDsn dsn in try _ := NewDefaultTelemetryFactory props in
              try svc := pluginServiceFactory props dsn in Ok (props, svc))%go with
       | Err e => (None, Err e)
       | Panic => (None, Panic)
       | Ok (props, svc) =>
           let '(svc, r) :=
             (try! plugins := CreateStandardContainer props dsn in
              try! engine := lift_result (GetDatabaseEngine props) in
              try! _ := open_connection plugins props in
              eff_ok (plugins, props, engine))%eff svc in
           (Some svc, r)
       end.
End Open.

(** ** Objects of a connection that is no longer in use *)

Section properties.
Context {C Sel P Ty Val : Type} `{EqDecision C}.
Local Abbreviation Svc := (PluginServiceImpl (C := C) (P := P)).
Local Abbreviation Any := (AnyValue Svc Ty Val).
Local Abbreviation Plugin := (ConnectionPlugin Svc Any C Sel loc).
Context `{!TargetConn Svc Ty Val C}.
Context (plugins : list Plugin) (service_props : properties) (providers : nat -> HostListProvider (C := C) (P := P)).
Context (panics : ExecuteFunc (S := Svc) (V := Any)).

Definition invokedAgainstOldConnection (methodName : string) : go_error :=
  NewGenericAwsWrapperError "PluginManagerImpl.invokedAgainstOldConnection" [default "" (head (Split methodName "."%char)); methodName].

Lemma old_connection c methodName f args (p : Svc) :
  currentConnection p <> Some c -> methodName ∉ CLOSING_METHODS ->
  ExecuteWithPlugins plugins (Some c) methodName f args p = (p, exec_error ANil (invokedAgainstOldConnection methodName)).
Proof.
  intros Hc Hm. unfold ExecuteWithPlugins, PluginManager.Execute.
  rewrite bool_decide_true by (by eexists). rewrite bool_decide_true by congruence. by rewrite bool_decide_false.
Qed.

(** After a switch of connections the statements, rows, results and
    transactions of the old one are dead: every call on them but Close fails
    without running a plugin or reaching the driver. Commit and Rollback still
    forget the current transaction, which may be that of the new connection. *)
Theorem objects_of_old_connection_fail engine c (p : Svc) stmt rows res tx args :
  currentConnection p <> Some c ->
  Stmt_Exec plugins service_props panics (mkStmt (Some c) stmt) args p = (p, Err (invokedAgainstOldConnection STMT_EXEC)) /\
  Stmt_Query plugins service_props panics engine (mkStmt (Some c) stmt) args p = (p, Err (invokedAgainstOldConnection STMT_QUERY)) /\
  Stmt_NumInput plugins panics (mkStmt (Some c) stmt) p = (p, -1) /\
  Rows_Next plugins panics (mkRows (Some c) rows engine) p = (p, Err (invokedAgainstOldConnection ROWS_NEXT)) /\
  Rows_Columns plugins panics (mkRows (Some c) rows engine) p = (p, []) /\
  Result_RowsAffected plugins panics (mkResult (Some c) res) p = (p, Err (invokedAgainstOldConnection RESULT_ROWS_AFFECTED)) /\
  Result_LastInsertId plugins panics (mkResult (Some c) res) p = (p, Err (invokedAgainstOldConnection RESULT_LAST_INSERT_ID)) /\
  Tx_Commit plugins panics (mkTx (Some c) tx) p = (p <| currentTx := None |>, Err (invokedAgainstOldConnection TX_COMMIT)) /\
  Tx_Rollback plugins panics (mkTx (Some c) tx) p = (p <| currentTx := None |>, Err (invokedAgainstOldConnection TX_ROLLBACK)).
Proof.
  intros Hc. unfold Stmt_Exec, Stmt_Query, Stmt_NumInput, Rows_Next, Rows_Columns, Result_RowsAffected, Result_LastInsertId,
    result_number, Tx_Commit, Tx_Rollback, end_tx, execWithPlugins, queryWithPlugins, call, st_bind.
  cbn [stmt_underlyingConn rows_underlyingConn result_underlyingConn tx_underlyingConn].
  rewrite !old_connection by (done || (unfold CLOSING_METHODS; rewrite !not_elem_of_cons; repeat split; done || (by apply not_elem_of_nil))).
  by repeat split.
Qed.

(** ** With the default plugin alone *)

Context (as_arg : Any -> MethodArg) (d : Plugin).
Hypothesis d_all : GetSubscribedMethods d = [ALL_METHODS].
Hypothesis d_Execute : plugin_Execute d = default_Execute as_arg.

Lemma default_alone conn methodName f args (p : Svc) :
  stored_right [d] methodName true p -> conn = None \/ conn = currentConnection p \/ methodName ∈ CLOSING_METHODS ->
  ExecuteWithPlugins [d] conn methodName f args p = default_Execute as_arg conn methodName args f (recorded [d] methodName true p).
Proof.
  intros Hk Hc. unfold ExecuteWithPlugins.
  rewrite (proj2 (Execute_guards_connection (H := service_chains) ANil [d] currentConnection conn methodName f args p (single_known d) Hk) Hc).
  unfold run_exec, chain_plugins, is_subscribed. cbn [List.filter]. rewrite d_all.
  rewrite (bool_decide_true (ALL_METHODS ∈ _)) by (by left). cbn. by rewrite d_Execute.
Qed.

(** The call of [default_alone] on the connection in use. *)
Lemma default_call conn methodName (f : ExecuteFunc (S := Svc) (V := Any)) args (p p1 : Svc) r :
  stored_right [d] methodName true p -> currentConnection p = Some conn ->
  f (recorded [d] methodName true p) = (p1, r) -> currentConnection p1 = Some conn ->
  ExecuteWithPlugins [d] (Some conn) methodName f args p =
  (if bool_decide (returnErr r = None) then p1 <| inTransaction := flag_after as_arg methodName args (inTransaction p1) |> else p1, r).
Proof.
  intros Hk Hc Hf Hc1. rewrite default_alone by (done || (right; left; congruence)).
  rewrite (default_Execute_spec as_arg _ _ _ _ _ _ _ Hf), Hc1. rewrite (bool_decide_true (Some conn = Some conn)) by done.
  by rewrite orb_true_r, andb_true_r.
Qed.

Lemma keep_flag (p : Svc) : p <| inTransaction := inTransaction p |> = p.
Proof. by destruct p. Qed.

(** What [call] with the methods that end a transaction comes to. *)
Lemma end_tx_default conn tx methodName (c : Eff Svc unit) (p p1 : Svc) r :
  methodName ∈ [TX_COMMIT; TX_ROLLBACK] -> stored_right [d] methodName true p -> currentConnection p = Some conn ->
  c (recorded [d] methodName true p) = (p1, r) -> r <> Panic -> currentConnection p1 = Some conn ->
  end_tx [d] panics (mkTx (Some conn) tx) methodName c p =
  (p1 <| inTransaction := match r with Ok _ => false | _ => inTransaction p1 end |> <| currentTx := None |>, r).
Proof.
  intros Hm Hk Hc E Hr Hc1. unfold end_tx, st_bind at 1. cbn [tx_underlyingConn].
  assert (Ef : answers panics to_nil c (recorded [d] methodName true p) =
    (p1, match r with Err e => exec_error ANil e | _ => mkExecResult ANil ANil false None end)).
  { unfold answers, st_bind. rewrite E. by destruct r as [[]|e|]. }
  erewrite default_call by done.
  assert (Hf : flag_after as_arg methodName [] (inTransaction p1) = false).
  { apply elem_of_cons in Hm as [->|Hm]; [reflexivity|]. by apply list_elem_of_singleton in Hm as ->. }
  destruct r as [[]|e|]; [| |done]; cbn [returnErr exec_error].
  - rewrite bool_decide_true by done. by rewrite Hf.
  - rewrite bool_decide_false by done. unfold st_bind, SetCurrentTx, modify, lift_result. by rewrite keep_flag.
Qed.

(** Commit and Rollback on the connection in use, with the default plugin: the
    answer is that of the driver, the current transaction is forgotten, and the
    connection leaves its transaction when the driver reported no error; after
    an error it still counts as in a transaction. *)
Theorem transaction_ends conn tx (p p1 : Svc) r :
  stored_right [d] TX_COMMIT true p -> currentConnection p = Some conn ->
  tx_Commit _ _ _ tx (recorded [d] TX_COMMIT true p) = (p1, r) -> r <> Panic -> currentConnection p1 = Some conn ->
  Tx_Commit [d] panics (mkTx (Some conn) tx) p =
  (p1 <| inTransaction := match r with Ok _ => false | _ => inTransaction p1 end |> <| currentTx := None |>, r).
Proof. intros Hk Hc E Hr Hc1. by apply end_tx_default; [left|..]. Qed.

Context (as_arg_bool : forall b, as_arg (ABool b) = ArgOther).

Lemma setReadWriteMode_default conn b (p : Svc) :
  stored_right [d] SET_READ_ONLY_METHOD true p -> currentConnection p = Some conn ->
  setReadWriteMode [d] b p = (recorded [d] SET_READ_ONLY_METHOD true p, Ok tt).
Proof.
  intros Hk Hc. unfold setReadWriteMode, st_bind, gets, call. rewrite Hc. unfold st_bind.
  assert (Hr : currentConnection (recorded [d] SET_READ_ONLY_METHOD true p) = Some conn) by (unfold recorded; by case_match).
  erewrite default_call by done. cbn [returnErr]. rewrite bool_decide_true by done.
  replace (flag_after as_arg SET_READ_ONLY_METHOD [ABool b] (inTransaction (recorded [d] SET_READ_ONLY_METHOD true p)))
    with (inTransaction (recorded [d] SET_READ_ONLY_METHOD true p)); [by rewrite keep_flag|].
  unfold flag_after, opens_transaction, closes_transaction, DoesOpenTransaction, DoesCloseTransaction, variadic.
  cbn [fmap list_fmap]. by rewrite as_arg_bool.
Qed.

(** The state in which the driver is asked to begin. *)
Definition at_begin (p : Svc) : Svc := recorded [d] CONN_BEGIN_TX true (recorded [d] SET_READ_ONLY_METHOD true p).

(** BeginTx with the default plugin asks the driver once; a transaction of the
    driver is wrapped with the connection in use, becomes the current one, and
    the connection counts as in a transaction; an error leaves both as they
    were, and a connection that does not implement the interface is such an
    error, without a call of the driver. *)
Theorem transaction_begins conn ctx ReadOnly (p : Svc) :
  stored_right [d] SET_READ_ONLY_METHOD true p -> stored_right [d] CONN_BEGIN_TX true p ->
  currentConnection p = Some conn ->
  match drv_BeginTx _ _ _ conn with
  | None => Conn_BeginTx [d] panics ctx ReadOnly p =
            (at_begin p, Err (doesNotImplementRequiredInterface "driver.ConnBeginTx"))
  | Some begin =>
      forall p1 r, begin ReadOnly (at_begin p) = (p1, r) -> currentConnection p1 = Some conn ->
      match r with
      | Ok tx => Conn_BeginTx [d] panics ctx ReadOnly p =
                 (p1 <| inTransaction := true |> <| currentTx := Some tx |>, Ok (mkTx (Some conn) tx))
      | Err e => Conn_BeginTx [d] panics ctx ReadOnly p = (p1, Err e)
      | Panic => True
      end
  end.
Proof.
  intros Hk1 Hk2 Hc. set (p0 := recorded [d] SET_READ_ONLY_METHOD true p).
  assert (Hc0 : currentConnection p0 = Some conn) by (unfold p0, recorded; by case_match).
  assert (Hk0 : stored_right [d] CONN_BEGIN_TX true p0).
  { unfold p0, recorded, stored_right. case_match; [done|]. cbn -[made_chain]. by rewrite lookup_insert_ne. }
  assert (Hca : currentConnection (at_begin p) = Some conn) by (unfold at_begin, recorded at 1; by case_match).
  assert (Hb : Conn_BeginTx [d] panics ctx ReadOnly p =
    beginWithPlugins [d] (Some conn) CONN_BEGIN_TX
      (on_interface panics ATx "driver.ConnBeginTx" (fun c => (fun f => f ReadOnly) <$> drv_BeginTx _ _ _ c)) p0).
  { unfold Conn_BeginTx, setReadWriteModeFromCtx. rewrite eff_bind_eq. destruct ctx as [b|].
    - rewrite eff_bind_eq. erewrite setReadWriteMode_default by done. unfold eff_ok at 1. rewrite eff_bind_eq. unfold eff_ok at 1.
      unfold st_bind, gets. fold p0. by rewrite Hc0.
    - unfold eff_ok at 1. rewrite eff_bind_eq. erewrite setReadWriteMode_default by done. unfold st_bind, gets. fold p0. by rewrite Hc0. }
  rewrite Hb.
  destruct (drv_BeginTx _ _ _ conn) as [begin|] eqn:Ed.
  - intros p1 r E Hc1.
    assert (Hclosure : forall p1 r, begin ReadOnly (at_begin p) = (p1, r) ->
      on_interface panics ATx "driver.ConnBeginTx" (fun c => (fun f => f ReadOnly) <$> drv_BeginTx _ _ _ c) (at_begin p) =
      match r with Ok tx => (p1, mkExecResult (ATx tx) ANil false None) | Err e => (p1, exec_error ANil e) | Panic => panics p1 end).
    { intros p2 r2 E2. unfold on_interface, st_bind, gets. rewrite Hca. cbn [mbind option_bind]. rewrite Ed.
      cbn [fmap option_fmap option_map]. unfold answers, st_bind. rewrite E2. by destruct r2. } destruct r as [tx|e|]; [| |done].
    + unfold beginWithPlugins, st_bind at 1. erewrite default_call; [|done|done| |done].
      2:{ exact (Hclosure _ _ E). }
      cbn [returnErr]. by rewrite bool_decide_true.
    + unfold beginWithPlugins, st_bind at 1. erewrite default_call; [|done|done| |done].
      2:{ exact (Hclosure _ _ E). }
      cbn [returnErr exec_error]. by rewrite bool_decide_false.
  - unfold beginWithPlugins, st_bind at 1. erewrite default_call; [|done|done| |exact Hca].
    2:{ unfold on_interface, st_bind, gets. change (recorded [d] CONN_BEGIN_TX true p0) with (at_begin p). rewrite Hca.
        cbn [mbind option_bind]. rewrite Ed. reflexivity. }
    cbn [returnErr exec_error]. by rewrite bool_decide_false.
Qed.

(** The text and the arguments of a prepared statement say nothing to
    [UpdateState]: what the statement sets is never recorded. *)
Lemma UpdateState_nothing (p : Svc) : UpdateState (Some service_props) "" stmt_methodArgs p = (p, Ok tt).
Proof. unfold UpdateState. cbn. by destruct p. Qed.
Theorem prepared_statements_unrecorded (k : ExecuteFunc (S := Svc) (V := Any)) (p : Svc) :
  after_UpdateState service_props panics "" stmt_methodArgs k p = k p.
Proof. unfold after_UpdateState, st_bind. by rewrite UpdateState_nothing. Qed.

(** Close of a connection closes that of the driver twice, with the default
    plugin: once through the plugins and once when the plugin service releases
    its resources. *)
Theorem Close_closes_twice conn (p : Svc) :
  plugin_ReleaseResources d = None -> stored_right [d] CONN_CLOSE true p ->
  currentConnection p = Some conn -> hostListProvider p = None ->
  drv_Close _ _ _ conn = Effects.run (emit (Closed conn)) ->
  events (Conn_Close [d] providers panics p).1 = events p ++ [Closed conn; Closed conn].
Proof.
  intros Hrel Hk Hc Hh Hd. unfold Conn_Close, st_bind, gets. rewrite Hc.
  assert (Hcr : currentConnection (recorded [d] CONN_CLOSE true p) = Some conn) by (unfold recorded; by case_match).
  set (p0 := recorded [d] CONN_CLOSE true p) in *.
  assert (He0 : events p0 = events p /\ hostListProvider p0 = None) by (unfold p0, recorded; by case_match).
  erewrite (default_call conn CONN_CLOSE _ [] p (p0 <| events := events p0 ++ [Closed conn] |>)); [|done|done| |done].
  2:{ unfold on_current, st_bind, gets. fold p0. rewrite Hcr, Hd. reflexivity. }
  cbn [returnErr]. rewrite bool_decide_true by done. unfold ReleaseResources. cbn [foldr]. rewrite Hrel.
  unfold service_ReleaseResources, st_bind, gets, emit, modify, st_ret. cbn. rewrite Hcr, (proj2 He0). cbn.
  by rewrite (proj1 He0), <-app_assoc.
Qed.
End properties.

(** ** Examples *)

Local Abbreviation Demo_svc := (PluginServiceImpl (C := nat) (P := nat)).
Local Abbreviation Demo_any := (AnyValue Demo_svc unit unit).
#[local] Instance demo_exec : ExecConn nat := fun _ _ _ => Some None.
#[local] Instance demo_dialect : DriverDialect nat := {| IsClosed _ _ := false; IsNetworkError _ := false; IsLoginError _ := false |}.

(** A driver whose transactions are numbered by the connection; a commit of the
    transaction 9 fails. Connection 5 is one of the internal pool: it has none
    of the optional methods of a connection that the pool does not forward. *)
#[local] Instance demo_target : TargetConn Demo_svc unit unit nat := {|
  drv_Prepare _ _ := throw (PlainError "no" []);
  drv_PrepareContext _ := None;
  drv_Close c := Effects.run (emit (Closed c));
  drv_Begin c := eff_ok c;
  drv_BeginTx c := if bool_decide (c = 5%nat) then None else Some (fun _ => eff_ok c);
  drv_QueryContext _ := None;
  drv_ExecContext _ := None;
  drv_Ping _ := None;
  drv_IsValid _ := None;
  drv_ResetSession _ := None;
  drv_CheckNamedValue _ := None;
  tx_Commit tx := if bool_decide (tx = 9%nat) then throw (PlainError "no" []) else eff_ok tt;
  tx_Rollback _ := eff_ok tt
|}.

(** No argument of these calls is a statement. *)
Definition demo_arg (a : Demo_any) : MethodArg := match a with AString s => ArgString s | _ => ArgOther end.
Definition demo_plugin : ConnectionPlugin Demo_svc Demo_any nat unit loc := {|
  plugin_id := 0; GetPluginCode := "default"; GetSubscribedMethods := [ALL_METHODS];
  plugin_Execute := default_Execute demo_arg;
  plugin_Connect _ props _ k := k props;
  plugin_ForceConnect _ props _ k := k props;
  plugin_AcceptsStrategy _ := st_ret false;
  plugin_GetHostInfoByStrategy _ _ _ := throw (PlainError "demo" []);
  plugin_GetHostSelectorStrategy _ := throw (PlainError "demo" []);
  plugin_NotifyConnectionChanged _ := st_ret NO_OPINION;
  plugin_NotifyHostListChanged _ := st_ret tt;
  plugin_InitHostProvider _ k := k;
  plugin_ReleaseResources := None |}.
Definition demo_service (conn : nat) : Demo_svc :=
  mkService ∅ (Some conn) None None [] false None NewSessionStateServiceImpl [] (Dialects.mkManager false None "" no_entries)
    (Some MySQLDatabaseDialect) true None no_entries ∅ 0%nat.
Definition demo_panics : ExecuteFunc (S := Demo_svc) (V := Demo_any) := st_ret (exec_error ANil (PlainError "panic" [])).
Definition demo_result : DriverResult Demo_svc := mkDriverResult _ (eff_ok 1) (eff_ok 1).
Definition demo_rows : DriverRows Demo_svc unit :=
  mkDriverRows _ _ (eff_ok tt) (st_ret ["a"]) (eff_ok tt) None None None None None None.
Definition demo_stmt : DriverStmt Demo_svc unit unit :=
  mkDriverStmt _ _ _ (eff_ok tt) (st_ret 0) (fun _ => eff_ok demo_result) None (fun _ => eff_ok demo_rows) None None.

Lemma objects_of_old_connection_fail_witness :
  Rows_Next [demo_plugin] demo_panics (mkRows (Some 1%nat) demo_rows PG) (demo_service 2) =
  (demo_service 2, Err (invokedAgainstOldConnection ROWS_NEXT)).
Proof.
  destruct (objects_of_old_connection_fail [demo_plugin] ∅ demo_panics PG 1%nat (demo_service 2) demo_stmt demo_rows demo_result 3%nat [])
    as (_ & _ & _ & H & _); [discriminate|exact H].
Defined.

Lemma demo_nothing_stored name kind (p : Demo_svc) : chains p = ∅ -> stored_right [demo_plugin] name kind p.
Proof. intros E stored. cbn. by rewrite E, lookup_empty. Qed.

Definition in_transaction_9 : Demo_svc := (demo_service 2) <| inTransaction := true |> <| currentTx := Some 9%nat |>.

(** A commit that fails leaves the connection in the transaction. *)
Lemma transaction_ends_witness :
  let p := in_transaction_9 in
  let p' := (Tx_Commit [demo_plugin] demo_panics (mkTx (Some 2%nat) 9) p).1 in
  (inTransaction p', currentTx p') = (true, None).
Proof.
  pose proof (transaction_ends demo_panics demo_arg demo_plugin eq_refl eq_refl 2%nat 9%nat
    (in_transaction_9)
    (recorded [demo_plugin] TX_COMMIT true (in_transaction_9)) (Err (PlainError "no" []))
    (demo_nothing_stored _ _ in_transaction_9 eq_refl) eq_refl eq_refl ltac:(discriminate) eq_refl) as H.
  cbv zeta. rewrite H. reflexivity.
Defined.

Lemma transaction_begins_witness :
  let p' := Conn_BeginTx [demo_plugin] demo_panics None true (demo_service 2) in
  let q' := Conn_BeginTx [demo_plugin] demo_panics None true (demo_service 5) in
  (inTransaction p'.1, currentTx p'.1, p'.2) = (true, Some 2%nat, Ok (mkTx (Some 2%nat) 2)) /\
  q'.2 = Err (doesNotImplementRequiredInterface "driver.ConnBeginTx").
Proof.
  pose proof (transaction_begins demo_panics demo_arg demo_plugin eq_refl eq_refl (fun _ => eq_refl) 2%nat None true (demo_service 2)
    (demo_nothing_stored _ _ (demo_service 2) eq_refl) (demo_nothing_stored _ _ (demo_service 2) eq_refl) eq_refl (at_begin demo_plugin (demo_service 2)) (Ok 2%nat) eq_refl eq_refl) as H.
  pose proof (transaction_begins demo_panics demo_arg demo_plugin eq_refl eq_refl (fun _ => eq_refl) 5%nat None true (demo_service 5)
    (demo_nothing_stored _ _ (demo_service 5) eq_refl) (demo_nothing_stored _ _ (demo_service 5) eq_refl) eq_refl) as Hq.
  cbv zeta. rewrite H, Hq. split; reflexivity.
Defined.

Lemma Close_closes_twice_witness :
  events (Conn_Close [demo_plugin] (fun _ => mkProvider (eff_ok []) (eff_ok []) (fun _ _ => eff_ok []) (fun _ => st_ret "")
    (fun _ => eff_ok None) false None) demo_panics (demo_service 2)).1 = [Closed 2%nat; Closed 2%nat].
Proof.
  apply (Close_closes_twice _ demo_panics demo_arg demo_plugin eq_refl eq_refl 2%nat (demo_service 2));
    [reflexivity|by apply demo_nothing_stored|reflexivity..].
Defined.

(** A connection that was opened and put to use stays open when the host list
    cannot be refreshed with it: Open returns the error, and nobody has the
    connection to close it. *)
Definition opening_plugin : ConnectionPlugin Demo_svc Demo_any nat unit loc := {|
  plugin_id := 0; GetPluginCode := "default"; GetSubscribedMethods := [ALL_METHODS];
  plugin_Execute := default_Execute demo_arg;
  plugin_Connect _ _ _ _ := eff_ok 2%nat;
  plugin_ForceConnect _ _ _ _ := eff_ok 2%nat;
  plugin_AcceptsStrategy _ := st_ret false;
  plugin_GetHostInfoByStrategy _ _ _ := throw (PlainError "demo" []);
  plugin_GetHostSelectorStrategy _ := throw (PlainError "demo" []);
  plugin_NotifyConnectionChanged _ := st_ret NO_OPINION;
  plugin_NotifyHostListChanged _ := st_ret tt;
  plugin_InitHostProvider _ _ := eff_ok tt;
  plugin_ReleaseResources := None |}.
Definition demo_hosts : HostListProvider (C := nat) (P := nat) :=
  mkProvider (fun p => match currentConnection p with None => (p, Ok [0%nat]) | Some _ => (p, Err (PlainError "refresh" [])) end)
    (eff_ok []) (fun _ _ => eff_ok []) (fun _ => st_ret "") (fun _ => eff_ok None) false None.
Definition opened : option Demo_svc * Result (list (ConnectionPlugin Demo_svc Demo_any nat unit loc) * properties * DatabaseEngine) :=
  Open (H2 := Dialects.no_urls) no_session_funcs (fun _ => demo_hosts) example_clock (fun _ => Ok tt)
    (fun _ _ => Ok (mkService {[0%nat := writer_host]} None None (Some 0%nat) [] false None NewSessionStateServiceImpl []
                      (Dialects.mkManager false None "" no_entries) (Some MySQLDatabaseDialect) true None no_entries ∅ 0%nat))
    (fun _ => eff_ok [opening_plugin]) (fun _ => Some (fun _ _ => eff_ok 0%nat)) true "host=a.example user=u".
Example failed_open_leaves_connection :
  opened.2 = Err (PlainError "refresh" []) /\
  (currentConnection <$> opened.1, events <$> opened.1) = (Some (Some 2%nat), Some []).
Proof. split; vm_compute; reflexivity. Qed.
