(* ===== verification/InitialConnection.v ===== *)
(** * InitialConnection: the strategy for connections to cluster endpoints
    (awssql/plugins/aurora_initial_connection_strategy_plugin.go).

    A cluster endpoint may lead to an instance that is no longer, or not yet,
    what the endpoint promises, so the plugin picks an instance of the topology
    itself and verifies its role, until its retry time-out. A round of either
    loop is a [Turn]; the loop takes fuel, and [Ok None] is a run that is out
    of it. The sleeps between rounds only pass time. A nil connection with no
    error is [None]. *)

From S2P Require Import Prelude.
From S2P Require Import HostInfo.
From S2P Require Import CacheMap.
From S2P Require Import Effects.
From S2P Require Import Properties.
From S2P Require Import RdsUtils.
From S2P Require Import Dsn.
From S2P Require Import Dialects.
From S2P Require Import SessionState.
From S2P Require Import PluginManager.
From S2P Require Import PluginService.

Definition verifiedOpenedConnectionTypeFromString (value : string) : string :=
  if bool_decide (ToLower (TrimSpace value) = WRITER) then WRITER
  else if bool_decide (ToLower (TrimSpace value) = READER) then READER
  else UNKNOWN.

(** The settings the plugin reads when it is created; the delay is not used
    by the model. *)
Record InitialSettings := mkInitialSettings { verifyOpenConnectionType : string; retryDelayMs : Z; retryTimeoutMs : Z }.
Definition NewAuroraInitialConnectionStrategyPlugin (props : properties) : Result InitialSettings :=
  (try delay := GetPositiveIntProperty (Some props) INITIAL_CONNECTION_RETRY_INTERVAL_MS in
   try timeout := GetPositiveIntProperty (Some props) INITIAL_CONNECTION_RETRY_TIMEOUT_MS in
   Ok (mkInitialSettings
         (verifiedOpenedConnectionTypeFromString (GetVerifiedWrapperPropertyValue (Some props) VERIFY_INITIAL_CONNECTION_TYPE))
         delay timeout))%go.
Definition initial_SubscribedMethods : list string := [CONNECT_METHOD; INIT_HOST_PROVIDER_METHOD].

(** Whether [InitHostProvider] has set the field [hostListProviderService]. *)
Class HasInitialStrategy (P : Type) := {
  get_service_set : P -> bool;
  put_service_set : bool -> P -> P
}.

Inductive Turn (C : Type) := Continue | Return (conn : C).
Arguments Continue {C}.
Arguments Return {C} _.

Section InitialConnection.
Context {C V Sel P : Type} `{EqDecision C} `{ExecConn C} `{DriverDialect C} `{PrepareHost} `{HasInitialStrategy P} `{Clock P}.
Local Abbreviation Svc := (PluginServiceImpl (C := C) (P := P)).
Local Abbreviation Plugin := (ConnectionPlugin Svc V C Sel loc).
Context (plugins : list Plugin) (self : Plugin).
Context (providers : nat -> HostListProvider (C := C) (P := P)).
Context (AllowedAndBlocked_Get : Svc -> string -> option AllowedAndBlockedHosts).
Context (host_clock : Svc -> HostClock).
Context (settings : InitialSettings).

Definition now : St Svc Z := zoom p_plugins (fun s p => p <| p_plugins := s |>) clock_now.
Definition GetHostRole (conn : C) : Eff Svc string := with_provider providers (fun h => run (hlp_GetHostRole h conn)).
Definition IdentifyConnection (conn : C) : Eff Svc (option loc) := with_provider providers (fun h => hlp_IdentifyConnection h conn).
Definition force_refresh : Eff Svc unit := fun p => ForceRefreshHostList plugins providers (host_clock p) p.

Definition initial_InitHostProvider (initHostProviderFunc : Eff Svc unit) : Eff Svc unit :=
  (let! _ := modify (fun p => p <| p_plugins := put_service_set true (p_plugins p) |>) in initHostProviderFunc)%eff.

Definition handleErrorAndShouldRetry (candidateConn : option C) (candidate : option loc) (err : go_error) : St Svc bool :=
  (let! _ := match candidateConn with Some conn => emit (Closed conn) | None => st_ret tt end in
   if IsLoginError err then st_ret false
   else
     let! _ := match candidate with
               | Some l => fun p => SetAvailability plugins (host_clock p) (default ∅ (host_at p l ≫= AllAliases)) UNAVAILABLE p
               | None => st_ret tt
               end in
     st_ret true)%eff.

(** A call of a round: an error ends the round, or the search. *)
Definition attempt {A} (candidateConn : option C) (candidate : option loc) (c : Eff Svc A) (k : A -> Eff Svc (Turn C)) :
  Eff Svc (Turn C) :=
  (let! r := c in
   match r with
   | Panic => lift_result Panic
   | Err err => let! again := handleErrorAndShouldRetry candidateConn candidate err in
                if (again : bool) then eff_ok Continue else throw err
   | Ok a => k a
   end)%eff.

Definition hand_back (conn : C) : Eff Svc (Turn C) := (let! _ := emit (Closed conn) in eff_ok Continue)%eff.

(** A verified connection; the field [hostListProviderService] may be nil. *)
Definition take_connection (isInitialConnection : bool) (host : option loc) (conn : C) : Eff Svc (Turn C) :=
  (let! service_set := gets (fun p => get_service_set (p_plugins p)) in
   if isInitialConnection && negb service_set then lift_result Panic
   else
     let! _ := if isInitialConnection then SetInitialConnectionHostInfo host else st_ret tt in
     eff_ok (Return conn))%eff.

Definition is_cluster_host (p : Svc) (l : option loc) : bool :=
  match l with None => true | Some l => IsRdsClusterDns (HostInfo.GetHost (host_at p l)) end.
Definition has_role (role : string) (p : Svc) (l : option loc) : bool :=
  match l ≫= host_at p with Some h => bool_decide (Role h = role) | None => false end.

Context (props : properties) (isInitialConnection : bool) (connectFunc : ConnectFunc (S := Svc) (C := C)).

(** A round of [getVerifiedWriterConnection]. *)
Definition writer_through_cluster (writerCandidate : option loc) : Eff Svc (Turn C) :=
  attempt None writerCandidate (connectFunc props) (fun conn =>
  attempt (Some conn) writerCandidate force_refresh (fun _ =>
  attempt (Some conn) None (IdentifyConnection conn) (fun identified =>
    (let! is_writer := gets (fun p => has_role WRITER p identified) in
     if negb is_writer then hand_back conn else take_connection isInitialConnection identified conn)%eff))).
Definition writer_of_topology (l : loc) : Eff Svc (Turn C) :=
  attempt None (Some l) (service_Connect plugins l props (Some self)) (fun conn =>
    (try! role := GetHostRole conn in
     if negb (bool_decide (role = WRITER)) then attempt (Some conn) (Some l) force_refresh (fun _ => hand_back conn)
     else take_connection isInitialConnection (Some l) conn)%eff).
Definition writer_turn : Eff Svc (Turn C) :=
  (let! writerCandidate := gets (fun p => GetWriter_at p (AllHosts p)) in
   let! outdated := gets (fun p => is_cluster_host p writerCandidate) in
   match writerCandidate with
   | Some l => if (outdated : bool) then writer_through_cluster writerCandidate else writer_of_topology l
   | None => writer_through_cluster None
   end)%eff.

(** [getReader]: an error of the selector is a missing reader. *)
Definition getReader (awsRegion : string) : Eff Svc (option loc) :=
  (let strategy := GetVerifiedWrapperPropertyValue (Some props) READER_INITIAL_CONN_HOST_SELECTOR_STRATEGY in
   let! accepted := AcceptsStrategy plugins strategy in
   if (accepted : bool) then
     let! hostCandidates := gets (fun p =>
       let hosts := GetHosts AllowedAndBlocked_Get p in
       if is_empty awsRegion then hosts
       else FilterSlice hosts (fun l => EqualFold awsRegion (GetRdsRegion (HostInfo.GetHost (host_at p l))))) in
     let! r := GetHostInfoByStrategy plugins READER strategy hostCandidates in
     match r with Ok l => eff_ok (Some l) | Err _ => eff_ok None | Panic => lift_result Panic end
   else throw (AwsError UnsupportedStrategyErrorType "AuroraInitialConnectionStrategyPlugin.unsupportedStrategy" [strategy]))%eff.

Definition hasNoReaders (p : Svc) : bool :=
  if Nat.ltb (length (AllHosts p)) 1 then false else forallb (fun l => has_role WRITER p (Some l)) (AllHosts p).

(** A round of [getVerifiedReaderConnection]. *)
Definition reader_through_cluster (readerCandidateHost : option loc) : Eff Svc (Turn C) :=
  attempt None readerCandidateHost (connectFunc props) (fun conn =>
  attempt (Some conn) readerCandidateHost force_refresh (fun _ =>
  attempt (Some conn) None (IdentifyConnection conn) (fun identified =>
    match identified with
    | None => hand_back conn
    | Some l =>
        (let! is_reader := gets (fun p => has_role READER p (Some l)) in
         let! no_readers := gets hasNoReaders in
         if negb is_reader && negb no_readers then hand_back conn else take_connection isInitialConnection (Some l) conn)%eff
    end))).
Definition reader_of_topology (l : loc) : Eff Svc (Turn C) :=
  attempt None (Some l) (service_Connect plugins l props (Some self)) (fun conn =>
    (try! role := GetHostRole conn in
     if negb (bool_decide (role = READER)) then
       attempt (Some conn) (Some l) force_refresh (fun _ =>
         let! no_readers := gets hasNoReaders in
         if (no_readers : bool) then take_connection isInitialConnection (Some l) conn else hand_back conn)
     else take_connection isInitialConnection (Some l) conn)%eff).
Definition reader_turn (awsRegion : string) : Eff Svc (Turn C) :=
  attempt None None (getReader awsRegion) (fun readerCandidateHost =>
    (let! outdated := gets (fun p => is_cluster_host p readerCandidateHost) in
     match readerCandidateHost with
     | Some l => if (outdated : bool) then reader_through_cluster readerCandidateHost else reader_of_topology l
     | None => reader_through_cluster None
     end)%eff).

(** The loops. *)
Fixpoint search (fuel : nat) (endTime : Z) (turn : Eff Svc (Turn C)) : Eff Svc (option (option C)) :=
  match fuel with
  | O => eff_ok None
  | S fuel =>
      (let! t := now in
       if t <? endTime then
         try! r := turn in
         match r with Return conn => eff_ok (Some (Some conn)) | Continue => search fuel endTime turn end
       else eff_ok (Some None))%eff
  end.
Definition getVerifiedWriterConnection (fuel : nat) : Eff Svc (option (option C)) :=
  (let! t := now in search fuel (t + wrap64 (Millisecond * retryTimeoutMs settings)) writer_turn)%eff.
Definition getVerifiedReaderConnection (fuel : nat) (urlType : RdsUrlType) (host : string) : Eff Svc (option (option C)) :=
  (let! t := now in
   search fuel (t + wrap64 (Millisecond * retryTimeoutMs settings))
     (reader_turn (if bool_decide (urlType = RDS_READER_CLUSTER) then GetRdsRegion host else "")))%eff.

(** What the endpoint asks for. *)
Definition wants_writer (urlType : RdsUrlType) : bool :=
  bool_decide (urlType = RDS_WRITER_CLUSTER) || bool_decide (urlType = RDS_GLOBAL_WRITER_CLUSTER) ||
  (isInitialConnection && bool_decide (verifyOpenConnectionType settings = WRITER)).
Definition wants_reader (urlType : RdsUrlType) : bool :=
  bool_decide (urlType = RDS_READER_CLUSTER) ||
  (isInitialConnection && bool_decide (verifyOpenConnectionType settings = READER)).

(** A search that gave nothing falls back to the endpoint. *)
Definition or_endpoint (c : Eff Svc (option (option C))) : Eff Svc (option C) :=
  (try! r := c in
   match r with
   | None => eff_ok None
   | Some (Some conn) => eff_ok (Some conn)
   | Some None => try! conn := connectFunc props in eff_ok (Some conn)
   end)%eff.
Definition initial_Connect (fuel : nat) (host : string) : Eff Svc (option C) :=
  (let urlType := IdentifyRdsUrlType host in
   if negb (IsRdsCluster urlType) then try! conn := connectFunc props in eff_ok (Some conn)
   else if wants_writer urlType then or_endpoint (getVerifiedWriterConnection fuel)
   else if wants_reader urlType then or_endpoint (getVerifiedReaderConnection fuel urlType host)
   else try! conn := connectFunc props in eff_ok (Some conn))%eff.

(** ** A connection that is returned is verified *)

(** The role a connection reported, or that of the host it was identified with. *)
Definition verified (role : string) (conn : C) : Prop :=
  (exists pa pb, GetHostRole conn pa = (pb, Ok role)) \/
  (exists pa pb l, IdentifyConnection conn pa = (pb, Ok (Some l)) /\ has_role role pb (Some l) = true).

(** What a round establishes of the connection it returns. *)
Definition gives (Q : Svc -> C -> Prop) (c : Eff Svc (Turn C)) : Prop := forall p p' conn, c p = (p', Ok (Return conn)) -> Q p' conn.

Lemma gives_attempt {A} Q conn l (c : Eff Svc A) k :
  (forall p p' a, c p = (p', Ok a) -> forall p2 conn, k a p' = (p2, Ok (Return conn)) -> Q p2 conn) -> gives Q (attempt conn l c k).
Proof.
  intros Hk p p' conn'. unfold attempt, st_bind. destruct (c p) as [p1 [a|e|]] eqn:E; [by eapply Hk| |done].
  destruct (handleErrorAndShouldRetry conn l e p1) as [p2 []]; done.
Qed.

Lemma hand_back_never conn p p' conn' : hand_back conn p <> (p', Ok (Return conn')).
Proof. done. Qed.
Lemma attempt_never conn l (c : Eff Svc unit) conn1 p p' conn' :
  attempt conn l c (fun _ => hand_back conn1) p <> (p', Ok (Return conn')).
Proof. intros E. by eapply (gives_attempt (fun _ _ => False)) in E. Qed.

Lemma take_connection_result h conn p p' r :
  take_connection isInitialConnection h conn p = (p', r) ->
  (r = Panic /\ p' = p) \/ (r = Ok (Return conn) /\ (p' = p \/ p' = p <| initialHostInfo := h |>)).
Proof.
  unfold take_connection, st_bind, gets. destruct (isInitialConnection && _); [intros [= <- <-]; by left|].
  destruct isInitialConnection; intros [= <- <-]; right; auto.
Qed.
Lemma take_connection_gives h conn p p' conn' :
  take_connection isInitialConnection h conn p = (p', Ok (Return conn')) -> conn' = conn /\ (p' = p \/ p' = p <| initialHostInfo := h |>).
Proof. intros [[Hr _]|[Hr Hp]]%take_connection_result; [done|]. by injection Hr as ->. Qed.

Lemma hasNoReaders_frame (p p' : Svc) h : p' = p \/ p' = p <| initialHostInfo := h |> -> hasNoReaders p' = hasNoReaders p.
Proof. by intros [-> | ->]. Qed.

Lemma writer_turn_verified : gives (fun _ conn => verified WRITER conn) writer_turn.
Proof.
  assert (Hc : forall l, gives (fun _ conn => verified WRITER conn) (writer_through_cluster l)).
  { intros l. apply gives_attempt. intros _ p conn _. apply gives_attempt. intros _ p1 [] _. apply gives_attempt.
    intros p2 p3 identified Ei p4 conn'. unfold st_bind, gets. destruct (has_role WRITER p3 identified) eqn:Er; [|by intros ?%hand_back_never].
    intros [-> _]%take_connection_gives. right. destruct identified as [l'|]; [|done]. eauto. }
  intros p p' conn. unfold writer_turn, st_bind, gets. destruct (GetWriter_at p (AllHosts p)) as [l|]; [|apply Hc].
  destruct (is_cluster_host p (Some l)); [apply Hc|]. unfold writer_of_topology. apply (gives_attempt (fun _ conn => verified WRITER conn)).
  intros _ p1 c _ p2 conn'. rewrite eff_bind_eq. destruct (GetHostRole c p1) as [p3 [role|e|]] eqn:Er; [|done..].
  case_bool_decide as Hw; cbn [negb]; [|by intros ?%attempt_never].
  intros [-> _]%take_connection_gives. left. subst role. eauto.
Qed.

Lemma reader_turn_verified awsRegion :
  gives (fun p' conn => verified READER conn \/ hasNoReaders p' = true) (reader_turn awsRegion).
Proof.
  assert (Hc : forall l, gives (fun p' conn => verified READER conn \/ hasNoReaders p' = true) (reader_through_cluster l)).
  { intros l. apply gives_attempt. intros _ p conn _. apply gives_attempt. intros _ p1 [] _. apply gives_attempt.
    intros p2 p3 [l'|] Ei p4 conn'; [|by intros ?%hand_back_never]. unfold st_bind, gets.
    destruct (has_role READER p3 (Some l')) eqn:Er; cbn [negb andb].
    - intros [-> _]%take_connection_gives. left. right. eauto.
    - destruct (hasNoReaders p3) eqn:En; cbn [negb]; [|by intros ?%hand_back_never].
      intros [_ Hp]%take_connection_gives. right. by rewrite (hasNoReaders_frame _ _ _ Hp). }
  apply gives_attempt. intros _ p o _ p' conn. unfold st_bind, gets. destruct o as [l|]; [|apply Hc].
  destruct (is_cluster_host p (Some l)); [apply Hc|]. unfold reader_of_topology.
  apply (gives_attempt (fun p' conn => verified READER conn \/ hasNoReaders p' = true)).
  intros _ p1 c _ p2 conn'. rewrite eff_bind_eq. destruct (GetHostRole c p1) as [p3 [role|e|]] eqn:Er; [|done..].
  case_bool_decide as Hw; cbn [negb].
  - intros [-> _]%take_connection_gives. left. left. subst role. eauto.
  - apply (gives_attempt (fun p' conn => verified READER conn \/ hasNoReaders p' = true)). intros _ p4 [] _ p5 conn2.
    unfold st_bind, gets. destruct (hasNoReaders p4) eqn:En; [|by intros ?%hand_back_never]. intros [_ Hp]%take_connection_gives. right.
    by rewrite (hasNoReaders_frame _ _ _ Hp).
Qed.

Lemma search_gives Q turn endTime fuel : forall p p' conn,
  gives Q turn -> search fuel endTime turn p = (p', Ok (Some (Some conn))) -> Q p' conn.
Proof.
  induction fuel as [|fuel IH]; intros p p' conn Hg; [done|]. cbn [search]. unfold st_bind. destruct (now p) as [p1 t].
  destruct (t <? endTime); [|done]. rewrite eff_bind_eq. destruct (turn p1) as [p2 [[|c]|e|]] eqn:Et; [by apply IH| |done..].
  intros [= <- <-]. by eapply Hg.
Qed.

(** C12. A connection to a cluster endpoint that asks for a writer reported
    to be the writer or was identified with a host whose role is writer; for
    a reader likewise, unless the cluster has no readers. Only when the
    search found nothing in its time is the connection the one the endpoint
    leads to; other endpoints are connected to as they are. *)
Theorem initial_connection_verified fuel host p p' conn :
  initial_Connect fuel host p = (p', Ok (Some conn)) ->
  let urlType := IdentifyRdsUrlType host in
  let from_endpoint c := exists p1, c p = (p1, Ok (Some None)) /\ connectFunc props p1 = (p', Ok conn) in
  if IsRdsCluster urlType && wants_writer urlType then
    verified WRITER conn \/ from_endpoint (getVerifiedWriterConnection fuel)
  else if IsRdsCluster urlType && wants_reader urlType then
    verified READER conn \/ hasNoReaders p' = true \/ from_endpoint (getVerifiedReaderConnection fuel urlType host)
  else connectFunc props p = (p', Ok conn).
Proof.
  cbv zeta. assert (Hend : forall c : Eff Svc (option (option C)), or_endpoint c p = (p', Ok (Some conn)) ->
    c p = (p', Ok (Some (Some conn))) \/ exists p1, c p = (p1, Ok (Some None)) /\ connectFunc props p1 = (p', Ok conn)).
  { intros c. unfold or_endpoint. rewrite eff_bind_eq. destruct (c p) as [p1 [[[c1|]|]|e|]]; [|rewrite eff_bind_eq|done..].
    - intros [= <- <-]. by left.
    - destruct (connectFunc props p1) as [p2 [c2|e|]] eqn:Ec; [|done..]. intros [= <- <-]. eauto. }
  assert (Hf : eff_bind (connectFunc props) (fun conn => eff_ok (Some conn)) p = (p', Ok (Some conn)) -> connectFunc props p = (p', Ok conn)).
  { rewrite eff_bind_eq. destruct (connectFunc props p) as [p2 [c2|e|]]; [|done..]. by intros [= <- <-]. }
  unfold initial_Connect. destruct (IsRdsCluster _); cbn [negb andb]; [|exact Hf].
  destruct (wants_writer _); [|destruct (wants_reader _); [|exact Hf]]; intros [E|?]%Hend; auto; revert E;
    unfold getVerifiedWriterConnection, getVerifiedReaderConnection, st_bind; destruct (now p) as [p1 t]; intros E.
  - left. by eapply (search_gives (fun _ conn => verified WRITER conn)), E; apply writer_turn_verified.
  - eapply search_gives in E; [|apply reader_turn_verified]. cbn in E. destruct E as [?|?]; auto.
Qed.

(** ** No connection is left open

    [is_open] tells which connections are open: a call that opens one gives
    it, closing closes it, and nothing else opens any. *)
Section leaks.
Context (is_open : Svc -> C -> Prop).
Definition opens_none (p p' : Svc) : Prop := forall d, is_open p' d -> is_open p d.
#[local] Instance opens_none_preorder : PreOrder opens_none.
Proof. split; [by intros p d|]. intros p1 p2 p3 H12 H23 d Hd. auto. Qed.

Record accountable : Prop := {
  acc_close conn p d : is_open (emit (Closed conn) p).1 d -> is_open p d /\ d <> conn;
  acc_endpoint p p' r d : connectFunc props p = (p', r) -> is_open p' d -> is_open p d \/ r = Ok d \/ r = Panic;
  acc_connect l p p' r d : service_Connect plugins l props (Some self) p = (p', r) -> is_open p' d -> is_open p d \/ r = Ok d \/ r = Panic;
  acc_now : keeps opens_none now;
  acc_role conn : keeps opens_none (GetHostRole conn);
  acc_identify conn : keeps opens_none (IdentifyConnection conn);
  acc_refresh : keeps opens_none force_refresh;
  acc_availability aliases : keeps opens_none (fun p => SetAvailability plugins (host_clock p) aliases UNAVAILABLE p);
  acc_initial l : keeps opens_none (SetInitialConnectionHostInfo l);
  acc_reader region : keeps opens_none (getReader region)
}.
Context (Hacc : accountable).

(** A computation that starts with [held] open beside the connections of
    [base] ends with the connection it returns at most. *)
Definition tidy (held : option C) (c : Eff Svc (Turn C)) : Prop := forall (base : C -> Prop) p p' r,
  (forall d, is_open p d -> base d \/ held = Some d) -> c p = (p', r) -> forall d, is_open p' d -> base d \/ r = Ok (Return d) \/ r = Panic.

Lemma handle_tidy held l e (base : C -> Prop) p :
  (forall d, is_open p d -> base d \/ held = Some d) -> forall d, is_open (handleErrorAndShouldRetry held l e p).1 d -> base d.
Proof.
  intros Hb d. unfold handleErrorAndShouldRetry, st_bind.
  assert (Hc : forall d, is_open ((match held with Some conn => emit (Closed conn) | None => st_ret tt end) p).1 d -> base d).
  { intros d'. destruct held as [conn|].
    - intros [Ho Hne]%(acc_close Hacc). destruct (Hb d' Ho) as [?|[= ->]]; [done|]. by destruct Hne.
    - intros Ho. by destruct (Hb d' Ho). }
  destruct ((match held with Some conn => emit (Closed conn) | None => st_ret tt end) p) as [p1 u]. cbn [fst] in Hc.
  destruct (IsLoginError e); [apply Hc|]. destruct l as [l|]; [|apply Hc].
  pose proof (acc_availability Hacc (default ∅ (host_at p1 l ≫= AllAliases)) p1 d) as Ha. cbn beta in Ha.
  destruct (SetAvailability _ _ _ _ p1) as [p2 []]. intros Hd. apply Hc, Ha, Hd.
Qed.

Lemma tidy_attempt_keep {A} held l (c : Eff Svc A) k :
  keeps opens_none c -> (forall a, tidy held (k a)) -> tidy held (attempt held l c k).
Proof.
  intros Hc Hk base p p' r Hb. unfold attempt, st_bind. specialize (Hc p). destruct (c p) as [p1 [a|e|]]; cbn [fst] in Hc.
  - apply Hk. intros d Hd. apply Hb, Hc, Hd.
  - pose proof (handle_tidy held l e base p1) as Hh. destruct (handleErrorAndShouldRetry held l e p1) as [p2 again]. cbn [fst] in Hh.
    destruct again; intros [= <- <-] d Hd; left; (eapply Hh; [|exact Hd]); intros d' Hd'; apply Hb, Hc, Hd'.
  - intros [= <- <-]. auto.
Qed.

Lemma tidy_attempt_open l (c : Eff Svc C) k :
  (forall p p' r d, c p = (p', r) -> is_open p' d -> is_open p d \/ r = Ok d \/ r = Panic) ->
  (forall conn, tidy (Some conn) (k conn)) -> tidy None (attempt None l c k).
Proof.
  intros Hc Hk base p p' r Hb. unfold attempt, st_bind. specialize (Hc p). destruct (c p) as [p1 [conn|e|]].
  - apply Hk. intros d Hd. destruct (Hc _ _ d eq_refl Hd) as [Ho|[[= ->]|?]]; [|by right|done].
    left. by destruct (Hb d Ho).
  - pose proof (handle_tidy None l e base p1) as Hh. destruct (handleErrorAndShouldRetry None l e p1) as [p2 again]. cbn [fst] in Hh.
    destruct again; intros [= <- <-] d Hd; left; (eapply Hh; [|exact Hd]); intros d' Hd';
      (destruct (Hc _ _ d' eq_refl Hd') as [Ho|[?|?]]; [by destruct (Hb d' Ho); [left|]|done..]).
  - intros [= <- <-]. auto.
Qed.

Lemma tidy_gets {A} held (f : Svc -> A) k : (forall a, tidy held (k a)) -> tidy held (st_bind (gets f) k).
Proof. intros Hk base p p' r. unfold st_bind, gets. apply Hk. Qed.
Lemma tidy_hand_back conn : tidy (Some conn) (hand_back conn).
Proof.
  intros base p p' r Hb. unfold hand_back, st_bind. pose proof (acc_close Hacc conn p) as Hc.
  destruct (emit (Closed conn) p) as [p1 u]. cbn [fst] in Hc. intros [= <- <-] d [Ho Hne]%Hc. left.
  destruct (Hb d Ho) as [?|[= ->]]; done.
Qed.
Lemma tidy_take l conn : tidy (Some conn) (take_connection isInitialConnection l conn).
Proof.
  intros base p p' r Hb E d Hd. apply take_connection_result in E as [[-> _]|[-> [-> | ->]]]; [by auto| |].
  - destruct (Hb d Hd) as [?|[= ->]]; auto.
  - apply (acc_initial Hacc l p) in Hd. destruct (Hb d Hd) as [?|[= ->]]; auto.
Qed.
Lemma tidy_role conn k : (forall role, tidy (Some conn) (k role)) -> tidy (Some conn) (eff_bind (GetHostRole conn) k).
Proof.
  intros Hk base p p' r Hb. rewrite eff_bind_eq. destruct (GetHostRole conn p) as [p1 [role|e|]] eqn:E.
  - apply Hk. intros d Hd. apply Hb. pose proof (acc_role Hacc conn p) as Hr. rewrite E in Hr. by apply Hr.
  - exfalso. unfold GetHostRole, with_provider in E. destruct (hostListProvider p); [|done]. unfold run in E.
    by destruct (hlp_GetHostRole _ _ _).
  - intros [= <- <-]. auto.
Qed.

Create HintDb tidy.
Hint Resolve acc_refresh acc_identify acc_endpoint acc_connect acc_reader : tidy.

Ltac tidy := repeat (intros; first
  [ apply tidy_take | apply tidy_hand_back | apply tidy_gets | apply tidy_role | apply tidy_attempt_keep; [by eauto with tidy|] | apply tidy_attempt_open; [by eauto with tidy|]
  | match goal with |- tidy _ (match ?x with _ => _ end) => destruct x end ]).

Lemma writer_turn_tidy : tidy None writer_turn.
Proof. unfold writer_turn, writer_through_cluster, writer_of_topology. tidy. Qed.
Lemma reader_turn_tidy region : tidy None (reader_turn region).
Proof. unfold reader_turn, reader_through_cluster, reader_of_topology. tidy. Qed.

Lemma search_tidy turn endTime fuel : forall p p' r, tidy None turn -> search fuel endTime turn p = (p', r) ->
  forall d, is_open p' d -> is_open p d \/ r = Ok (Some (Some d)) \/ r = Panic.
Proof.
  induction fuel as [|fuel IH]; intros p p' r Ht.
  { intros [= <- <-]. auto. }
  cbn [search]. unfold st_bind. pose proof (acc_now Hacc p) as Hn. destruct (now p) as [p1 t]. cbn [fst] in Hn.
  destruct (t <? endTime); [|intros [= <- <-] d Hd; left; by apply Hn].
  rewrite eff_bind_eq. destruct (turn p1) as [p2 r2] eqn:Et.
  pose proof (Ht (is_open p) p1 p2 r2 (fun d Hd => or_introl (Hn d Hd)) Et) as Hd2.
  destruct r2 as [[|conn]|e|]; [| intros [= <- <-].. ].
  - intros E d Hd. destruct (IH p2 p' r Ht E d Hd) as [Ho|?]; [|by right]. destruct (Hd2 d Ho) as [?|[?|?]]; [by left|done..].
  - intros d Hd. destruct (Hd2 d Hd) as [?|[[= ->]|?]]; auto. done.
  - intros d Hd. destruct (Hd2 d Hd) as [?|[?|?]]; auto; done.
  - auto.
Qed.

(** C23. Of the connections a search for a verified writer or reader opens,
    only the one it returns is open at its end, and none when it fails or
    finds nothing in time. *)
Theorem search_leaves_one_open fuel urlType host p p' r :
  getVerifiedWriterConnection fuel p = (p', r) \/ getVerifiedReaderConnection fuel urlType host p = (p', r) ->
  forall d, is_open p' d -> is_open p d \/ r = Ok (Some (Some d)) \/ r = Panic.
Proof.
  unfold getVerifiedWriterConnection, getVerifiedReaderConnection, st_bind. pose proof (acc_now Hacc p) as Hn.
  destruct (now p) as [p1 t]. cbn [fst] in Hn. intros E d Hd.
  assert (is_open p1 d \/ r = Ok (Some (Some d)) \/ r = Panic) as [?|?]; [|left; by apply Hn|by right].
  destruct E as [E|E]; (eapply search_tidy; [|exact E|exact Hd]); [apply writer_turn_tidy|apply reader_turn_tidy].
Qed.
End leaks.

(** ** The search ends *)

Section termination.
Context (time_of : P -> Z).
Hypothesis Hnow : forall s : P, (clock_now s).2 = time_of s /\ time_of s < time_of (clock_now s).1.

Definition later (p p' : Svc) : Prop := time_of (p_plugins p) <= time_of (p_plugins p').
#[local] Instance later_preorder : PreOrder later.
Proof. split; [intros p; unfold later; lia|]. intros p1 p2 p3. unfold later. lia. Qed.

Lemma host_now_time p : (now p).2 = time_of (p_plugins p) /\ time_of (p_plugins p) < time_of (p_plugins (now p).1).
Proof. unfold now, zoom. specialize (Hnow (p_plugins p)). destruct (clock_now (p_plugins p)) as [s t]. exact Hnow. Qed.

Record timely : Prop := {
  time_endpoint : keeps later (connectFunc props);
  time_connect l : keeps later (service_Connect plugins l props (Some self));
  time_role conn : keeps later (GetHostRole conn);
  time_identify conn : keeps later (IdentifyConnection conn);
  time_refresh : keeps later force_refresh;
  time_availability aliases : keeps later (fun p => SetAvailability plugins (host_clock p) aliases UNAVAILABLE p);
  time_reader region : keeps later (getReader region)
}.

Lemma handle_timely held l e : timely -> keeps later (handleErrorAndShouldRetry held l e).
Proof.
  intros Ht p. unfold handleErrorAndShouldRetry, st_bind.
  assert (Hc : later p ((match held with Some conn => emit (Closed conn) | None => st_ret tt end) p).1) by (destruct held; exact (Z.le_refl _)).
  destruct ((match held with Some conn => emit (Closed conn) | None => st_ret tt end) p) as [p1 u]. cbn [fst] in Hc.
  destruct (IsLoginError e); [exact Hc|]. destruct l as [l|]; [|exact Hc].
  pose proof (time_availability Ht (default ∅ (host_at p1 l ≫= AllAliases)) p1) as Ha. cbn beta in Ha.
  destruct (SetAvailability _ _ _ _ p1) as [p2 []]. by etransitivity.
Qed.

Lemma attempt_timely {A} held l (c : Eff Svc A) k :
  timely -> keeps later c -> (forall a, keeps later (k a)) -> keeps later (attempt held l c k).
Proof.
  intros Ht Hc Hk. apply keeps_st_bind; [exact _|exact Hc|]. intros [a|e|]; [apply Hk| |apply keeps_lift; exact _].
  apply keeps_st_bind; [exact _|by apply handle_timely|]. intros []; [apply keeps_ok|apply keeps_throw]; exact _.
Qed.

Lemma take_timely h conn : keeps later (take_connection isInitialConnection h conn).
Proof.
  intros p. destruct (take_connection _ _ _ p) as [p' r] eqn:E. apply take_connection_result in E as [[_ ->]|[_ [-> | ->]]];
    exact (Z.le_refl _).
Qed.
Lemma hand_back_timely conn : keeps later (hand_back conn).
Proof. intros p. exact (Z.le_refl _). Qed.

Ltac timely := repeat (intros; first
  [ apply attempt_timely; [done|by eauto using time_endpoint, time_connect, time_identify, time_refresh, time_reader|]
  | apply take_timely | apply hand_back_timely
  | apply keeps_st_bind; [exact _|apply keeps_gets; exact _|]
  | apply keeps_eff_bind; [exact _|by apply time_role|]
  | match goal with |- keeps _ (match ?x with _ => _ end) => destruct x end ]).
Lemma writer_turn_timely : timely -> keeps later writer_turn.
Proof. intros Ht. unfold writer_turn, writer_through_cluster, writer_of_topology. timely. Qed.
Lemma reader_turn_timely region : timely -> keeps later (reader_turn region).
Proof. intros Ht. unfold reader_turn, reader_through_cluster, reader_of_topology. timely. Qed.

Lemma search_ends endTime turn fuel : forall p, keeps later turn ->
  (0 < fuel)%nat -> endTime - time_of (p_plugins p) < Z.of_nat fuel -> (search fuel endTime turn p).2 <> Ok None.
Proof.
  induction fuel as [|fuel IH]; intros p Ht Hpos Hf; [lia|]. cbn [search]. unfold st_bind.
  destruct (host_now_time p) as [E Hlt]. destruct (now p) as [p1 t]. cbn [fst snd] in E, Hlt. subst t.
  destruct (Z.ltb_spec (time_of (p_plugins p)) endTime) as [Hend|]; [|done]. rewrite eff_bind_eq. specialize (Ht p1) as Hl.
  destruct (turn p1) as [p2 [[|conn]|e|]]; cbn [fst] in Hl; [|done..]. unfold later in Hl. apply IH; [done|lia|lia].
Qed.

(** A search ends: when every reading of the clock moves it on and no call
    turns it back, fuel for the retry time-out in nanoseconds and one round
    more is enough. *)
Theorem verified_search_ends fuel urlType host p :
  timely -> Z.max 0 (wrap64 (Millisecond * retryTimeoutMs settings)) < Z.of_nat fuel ->
  (getVerifiedWriterConnection fuel p).2 <> Ok None /\ (getVerifiedReaderConnection fuel urlType host p).2 <> Ok None.
Proof.
  intros Ht Hf. unfold getVerifiedWriterConnection, getVerifiedReaderConnection, st_bind.
  destruct (host_now_time p) as [E Hlt]. destruct (now p) as [p1 t]. cbn [fst snd] in E, Hlt. subst t.
  split; apply search_ends; auto using writer_turn_timely, reader_turn_timely; lia.
Qed.
End termination.
End InitialConnection.

(** ** Examples: the topology still names the old writer *)

(** Beside the flag: the clock, and the connections opened so far. *)
Record Endpoint := mkEndpoint { e_set : bool; e_clock : Z; e_opened : list nat }.
#[local] Instance endpoint_strategy : HasInitialStrategy Endpoint := {|
  get_service_set := e_set; put_service_set b s := mkEndpoint b (e_clock s) (e_opened s) |}.
#[local] Instance endpoint_clock : Clock Endpoint := fun s => (mkEndpoint (e_set s) (e_clock s + 1) (e_opened s), e_clock s).
#[local] Instance endpoint_exec : ExecConn nat := fun _ _ _ => Some None.
#[local] Instance endpoint_dialect : DriverDialect nat := {|
  IsClosed _ _ := false; IsNetworkError _ := false;
  IsLoginError e := match e with PlainError k _ => bool_decide (k = "login") | _ => false end |}.
Local Abbreviation Endpoint_svc := (PluginServiceImpl (C := nat) (P := Endpoint)).

Definition open_to (conn : nat) : Eff Endpoint_svc nat := fun p =>
  (p <| p_plugins := mkEndpoint (e_set (p_plugins p)) (e_clock (p_plugins p)) (conn :: e_opened (p_plugins p)) |>, Ok conn).
(** The connection to a host is its location; host 9 refuses the login. *)
Definition endpoint_plugin (n : nat) (methods : list string) : ConnectionPlugin Endpoint_svc nat nat unit loc :=
  mkPlugin n "connecting" methods (fun _ _ _ k => k)
    (fun l _ _ _ => if Nat.eqb l 9 then throw (PlainError "login" []) else open_to l) (fun l _ _ _ => open_to l) (fun _ => st_ret true)
    (fun _ _ hosts => match hosts with l :: _ => eff_ok l | [] => throw (PlainError "none" []) end) (fun _ => throw (PlainError "" []))
    (fun _ => st_ret NO_OPINION) (fun _ => st_ret tt) (fun _ k => k) None.
Definition endpoint_plugins := [endpoint_plugin 1 ["*"]].
Definition endpoint_self := endpoint_plugin 0 [].
(** The connections to hosts 1 and 3 report that they are the writer. *)
Definition endpoint_provider (_ : nat) : HostListProvider (C := nat) (P := Endpoint) :=
  mkProvider (eff_ok [2; 3]%nat) (eff_ok [2; 3]%nat) (fun _ _ => eff_ok [2; 3]%nat)
    (fun c => st_ret (if Nat.eqb c 3 then WRITER else READER)) (fun _ => eff_ok None) false None.
Definition endpoint_host (name role : string) : HostInfo := mkHostInfo name name 3306 AVAILABLE role None None 100 0.
Definition endpoint_service : Endpoint_svc :=
  mkService {[0%nat := endpoint_host "one.xyz.us-east-1.rds.amazonaws.com" WRITER; 1%nat := endpoint_host "two.xyz.us-east-1.rds.amazonaws.com" READER;
              2%nat := endpoint_host "one.xyz.us-east-1.rds.amazonaws.com" READER; 3%nat := endpoint_host "two.xyz.us-east-1.rds.amazonaws.com" WRITER]}
    None None None [0; 1]%nat false None NewSessionStateServiceImpl [] (mkManager false None "" no_entries) (Some MySQLDatabaseDialect)
    true (Some 0%nat) no_entries ∅ (mkEndpoint true 0 []).
Definition endpoint_clk : HostClock := mkHostClock (fun _ => 0) (fun _ => {| cu_check := 0; cu_at := fun _ => 0; cu_reset := 0 |}) (fun _ => 0).
Definition endpoint_settings : InitialSettings := mkInitialSettings UNKNOWN 1000 30000.
Definition writer_endpoint : string := "db.cluster-xyz.us-east-1.rds.amazonaws.com".

Definition connect_endpoint (host : string) : Endpoint_svc * Result (option nat) :=
  initial_Connect endpoint_plugins endpoint_self endpoint_provider (fun _ _ => None) (fun _ => endpoint_clk) endpoint_settings ∅ true
    (fun _ => open_to 7) 10 host endpoint_service.

(** The first candidate turns out to be a reader: it is closed, the list is
    refreshed and the new writer taken. *)
Example old_writer_skipped :
  (connect_endpoint writer_endpoint).2 = Ok (Some 3%nat) /\ events (connect_endpoint writer_endpoint).1 = [Closed 0%nat] /\
  initialHostInfo (connect_endpoint writer_endpoint).1 = Some 3%nat.
Proof. vm_compute. done. Qed.

Lemma initial_connection_verified_witness :
  verified endpoint_provider WRITER 3%nat \/
  exists p1, getVerifiedWriterConnection endpoint_plugins endpoint_self endpoint_provider (fun _ => endpoint_clk) endpoint_settings ∅
               true (fun _ => open_to 7) 10 endpoint_service = (p1, Ok (Some None)) /\
             open_to 7 p1 = ((connect_endpoint writer_endpoint).1, Ok 3%nat).
Proof.
  destruct (connect_endpoint writer_endpoint) as [p' r] eqn:E.
  assert (r = Ok (Some 3%nat)) as -> by (vm_compute in E; by injection E as <- <-).
  pose proof (initial_connection_verified endpoint_plugins endpoint_self endpoint_provider (fun _ _ => None) (fun _ => endpoint_clk)
    endpoint_settings ∅ true (fun _ => open_to 7) 10 writer_endpoint endpoint_service p' 3%nat E) as Hv. cbv zeta in Hv.
  assert (IsRdsCluster (IdentifyRdsUrlType writer_endpoint) && wants_writer endpoint_settings true (IdentifyRdsUrlType writer_endpoint) = true)
    as Hw by (vm_compute; done).
  rewrite Hw in Hv. exact Hv.
Defined.

(** What the refresh and the availability leave alone. *)
Definition hosts_only (p p' : Endpoint_svc) : Prop := p_plugins p' = p_plugins p /\ events p' = events p.
#[local] Instance hosts_only_preorder : PreOrder hosts_only.
Proof. split; [done|]. intros p1 p2 p3 [E1 E2] [E3 E4]. split; congruence. Qed.

Lemma hosts_only_notify changes : keeps hosts_only (NotifyHostListChanged endpoint_plugins changes).
Proof. intros p. split; done. Qed.
Lemma hosts_only_availability aliases :
  keeps hosts_only (fun p => SetAvailability endpoint_plugins endpoint_clk aliases UNAVAILABLE p).
Proof.
  intros p. unfold SetAvailability. destruct (Nat.eqb _ _); [done|]. unfold availability_loop.
  assert (Hl : forall es (st : Endpoint_svc * gmap string (gset HostChangeOptions)),
    hosts_only st.1 (foldl (set_availability_at endpoint_clk aliases UNAVAILABLE) st es).1).
  { induction es as [|[i l] es IH]; intros [p1 ch]; [done|]. cbn [foldl]. etransitivity; [|apply IH].
    unfold set_availability_at. destruct (has_alias _ _ _); [|done]. set (q := p1 <| hostAvailabilityExpiringCache := _ |>).
    assert (hosts_only p1 q) by done. destruct (host_at q l); [destruct (bool_decide _)|]; done. }
  specialize (Hl (imap pair (AllHosts p)) (p, ∅)). destruct (foldl _ _ _) as [p1 ch]. cbn [fst] in Hl.
  destruct (Nat.ltb _ _); [|exact Hl]. etransitivity; [exact Hl|apply hosts_only_notify].
Qed.
Lemma hosts_only_refresh : keeps hosts_only (force_refresh endpoint_plugins endpoint_provider (fun _ => endpoint_clk)).
Proof.
  intros p. unfold force_refresh, ForceRefreshHostList. rewrite eff_bind_eq. unfold with_provider. destruct (hostListProvider p); [|done].
  cbn [hlp_ForceRefresh endpoint_provider eff_ok]. unfold updateHostListIfNeeded. destruct (negb _); [|done].
  assert (Hl : forall es (q : Endpoint_svc), hosts_only q (update_loop endpoint_clk es q).1).
  { induction es as [|[i l] es IH]; intros q; [done|]. cbn [update_loop]. unfold st_bind.
    assert (Hu : hosts_only q (updated_host endpoint_clk (i, l) q).1).
    { unfold updated_host. destruct (host_at q l); [|done]. destruct (CacheMap.Get _ _ _); [|done]. by destruct (bool_decide _). }
    destruct (updated_host _ _ q) as [q1 l1]. specialize (IH q1). destruct (update_loop endpoint_clk es q1) as [q2 ls].
    by etransitivity. }
  unfold st_bind, updateHostAvailability. specialize (Hl (imap pair [2; 3]%nat) p). destruct (update_loop _ _ p) as [p1 ls].
  unfold setHostList. destruct (Nat.ltb _ _); [|exact Hl].
  match goal with |- context [NotifyHostListChanged endpoint_plugins ?ch ?q] => pose proof (hosts_only_notify ch q) as Hn;
    destruct (NotifyHostListChanged endpoint_plugins ch q) as [p2 u] end. etransitivity; [exact Hl|exact Hn].
Qed.
Lemma hosts_only_reader region : keeps hosts_only (getReader endpoint_plugins (fun _ _ => None) ∅ region).
Proof.
  intros p. unfold getReader, st_bind. change (AcceptsStrategy endpoint_plugins _ p) with (p, true). cbn beta iota.
  unfold gets. match goal with |- context [GetHostInfoByStrategy endpoint_plugins READER ?s ?h p] => set (hosts := h); set (strategy := s) end.
  assert (Hg : GetHostInfoByStrategy endpoint_plugins READER strategy hosts p =
    match hosts with l :: _ => (p, Ok l) | [] => (p, (GetHostInfoByStrategy endpoint_plugins READER strategy hosts p).2) end).
  { by destruct hosts. }
  rewrite Hg. destruct hosts; [|done]. by destruct (GetHostInfoByStrategy _ _ _ _ p).2.
Qed.
Lemma hosts_only_provider A (k : HostListProvider -> Eff Endpoint_svc A) :
  keeps hosts_only (k (endpoint_provider 0)) -> keeps hosts_only (with_provider endpoint_provider k).
Proof. intros Hk p. unfold with_provider. destruct (hostListProvider p); [apply Hk|done]. Qed.
Lemma hosts_only_role conn : keeps hosts_only (GetHostRole endpoint_provider conn).
Proof. apply hosts_only_provider. intros p. done. Qed.
Lemma hosts_only_identify conn : keeps hosts_only (IdentifyConnection endpoint_provider conn).
Proof. apply hosts_only_provider. intros p. done. Qed.

Definition endpoint_open (p : Endpoint_svc) (d : nat) : Prop := d ∈ e_opened (p_plugins p) /\ Closed d ∉ events p.
Lemma hosts_only_opens p p' : hosts_only p p' -> opens_none endpoint_open p p'.
Proof. intros [E1 E2] d. unfold endpoint_open. by rewrite E1, E2. Qed.

Lemma hosts_only_later p p' : hosts_only p p' -> later e_clock p p'.
Proof. intros [E _]. unfold later. rewrite E. lia. Qed.

Lemma open_to_opens conn p p' r d : open_to conn p = (p', r) -> endpoint_open p' d -> endpoint_open p d \/ r = Ok d \/ r = Panic.
Proof.
  intros [= <- <-] [Ho Hc]. cbn in Ho, Hc. apply elem_of_cons in Ho as [->|Ho]; [by right; left|]. by left.
Qed.
Lemma endpoint_accountable :
  accountable endpoint_plugins endpoint_self endpoint_provider (fun _ _ => None) (fun _ => endpoint_clk) ∅ (fun _ => open_to 7) endpoint_open.
Proof.
  split.
  - intros conn p d [Ho Hc]. cbn in Ho, Hc. rewrite elem_of_app, list_elem_of_singleton in Hc. split; [split; [done|tauto]|].
    intros ->. apply Hc. by right.
  - intros p p' r d. apply open_to_opens.
  - intros l p p' r d. change (service_Connect endpoint_plugins l ∅ (Some endpoint_self) p)
      with ((if Nat.eqb l 9 then throw (PlainError "login" []) else open_to l) p).
    destruct (Nat.eqb l 9); [|apply open_to_opens]. intros [= <- <-]. by left.
  - intros p d. done.
  - intros conn p. apply hosts_only_opens, hosts_only_role.
  - intros conn p. apply hosts_only_opens, hosts_only_identify.
  - intros p. apply hosts_only_opens, hosts_only_refresh.
  - intros aliases p. apply hosts_only_opens, (hosts_only_availability aliases).
  - intros l p d. done.
  - intros region p. apply hosts_only_opens, hosts_only_reader.
Qed.

Definition endpoint_search : Endpoint_svc * Result (option (option nat)) :=
  getVerifiedWriterConnection endpoint_plugins endpoint_self endpoint_provider (fun _ => endpoint_clk) endpoint_settings ∅ true
    (fun _ => open_to 7) 10 endpoint_service.
Lemma search_leaves_one_open_witness :
  ~ endpoint_open endpoint_search.1 0%nat /\ e_opened (p_plugins endpoint_search.1) = [3; 0]%nat.
Proof.
  split; [|vm_compute; done]. intros Hd. unfold endpoint_search in Hd.
  destruct (getVerifiedWriterConnection endpoint_plugins endpoint_self endpoint_provider (fun _ => endpoint_clk) endpoint_settings ∅ true
    (fun _ => open_to 7) 10 endpoint_service) as [p' r] eqn:E. cbn [fst] in Hd.
  destruct (search_leaves_one_open endpoint_plugins endpoint_self endpoint_provider (fun _ _ => None) (fun _ => endpoint_clk)
    endpoint_settings ∅ true (fun _ => open_to 7) endpoint_open endpoint_accountable 10 OTHER "" endpoint_service p' r
    (or_introl E) 0%nat Hd) as [[Ho _]|Hr]; [by apply elem_of_nil in Ho|].
  assert (r = Ok (Some (Some 3%nat))) as -> by (vm_compute in E; by injection E as <- <-). by destruct Hr.
Defined.

Lemma verified_search_ends_witness :
  (getVerifiedWriterConnection endpoint_plugins endpoint_self endpoint_provider (fun _ => endpoint_clk) (mkInitialSettings UNKNOWN 0 0) ∅
     true (fun _ => throw (PlainError "network" [])) 3 endpoint_service).2 <> Ok None /\
  (getVerifiedReaderConnection endpoint_plugins endpoint_self endpoint_provider (fun _ _ => None) (fun _ => endpoint_clk)
     (mkInitialSettings UNKNOWN 0 0) ∅ true (fun _ => throw (PlainError "network" [])) 3 OTHER "" endpoint_service).2 <> Ok None.
Proof.
  apply (verified_search_ends endpoint_plugins endpoint_self endpoint_provider (fun _ _ => None) (fun _ => endpoint_clk)
    (mkInitialSettings UNKNOWN 0 0) ∅ true (fun _ => throw (PlainError "network" [])) e_clock).
  - intros s. cbn. split; [done|lia].
  - split.
    + intros p. exact (Z.le_refl _).
    + intros l p. change (service_Connect endpoint_plugins l ∅ (Some endpoint_self) p)
        with ((if Nat.eqb l 9 then throw (PlainError "login" []) else open_to l) p).
      destruct (Nat.eqb l 9); exact (Z.le_refl _).
    + intros conn p. by apply hosts_only_later, hosts_only_role.
    + intros conn p. by apply hosts_only_later, hosts_only_identify.
    + intros p. by apply hosts_only_later, hosts_only_refresh.
    + intros aliases p. apply hosts_only_later, (hosts_only_availability aliases).
    + intros region p. by apply hosts_only_later, hosts_only_reader.
  - by vm_compute.
Defined.
