(* ===== verification/Events.v ===== *)
(** * Events: the event publisher of the shared services
    (awssql/services/events.go, awssql/driver_infrastructure/event.go).

    Events that ask for immediate delivery go to the subscribers of their type
    at once; the others wait in [pendingEvents], one per event type, for the
    publisher's ticker. A subscriber set is a shared object reached through the
    map [subscribers], so the sets live in a heap ([sets]) and the map holds
    their locations: [Subscribe] and [Unsubscribe] are sequences of steps on
    the two, and other goroutines may run between the steps. A delivery is
    recorded as the subscriber with the event its [ProcessEvent] is called
    with; what a subscriber does is the business of its own component. *)

From S2P Require Import Prelude.
From S2P Require Import RWMap.

(** Descriptors are compared by address in the code; each is one package-level
    variable, so its name identifies it. *)
Record EventType := mkEventType { Name : string }.

Definition DataAccessEventType : EventType := mkEventType "DataAccess".
Definition MonitorStopEventType : EventType := mkEventType "MonitorStop".
Definition MonitorResetEventType : EventType := mkEventType "MonitorReset".

Definition DefaultMessageInterval : Z := 30 * Second.

(** Keys are values of any comparable type [K]; a monitor type is its name. *)
Inductive Event (K : Type) :=
| DataAccessEvent (TypeKey : string) (Key : K)
| MonitorStopEvent (MonitorType : string) (Key : K)
| MonitorResetEvent (ClusterId : string) (Endpoints : gset string).
Arguments DataAccessEvent {K} _ _.
Arguments MonitorStopEvent {K} _ _.
Arguments MonitorResetEvent {K} _ _.

Definition GetEventType {K} (e : Event K) : EventType :=
  match e with
  | DataAccessEvent _ _ => DataAccessEventType
  | MonitorStopEvent _ _ => MonitorStopEventType
  | MonitorResetEvent _ _ => MonitorResetEventType
  end.
Definition IsImmediateDelivery {K} (e : Event K) : bool :=
  match e with
  | DataAccessEvent _ _ => false
  | MonitorStopEvent _ _ => true
  | MonitorResetEvent _ _ => true
  end.

Section Events.
Context {K : Type} {Sub : Type} `{Countable Sub} `{MapRange}.

(** [map[EventSubscriber]struct{}] *)
Notation subscriberSet := (gmap Sub unit).
Definition newSubscriberSet : subscriberSet := ∅.

Record BatchingEventPublisher := mkPublisher {
  subscribers : RWMap string nat;
  sets : gmap nat subscriberSet;
  next_set : nat;
  pendingEvents : RWMap string (Event K);
  messageInterval : Z;
  stopCh : bool
}.
#[export] Instance Publisher_eta : Eta BatchingEventPublisher := fun p =>
  mkPublisher (subscribers p) (sets p) (next_set p) (pendingEvents p) (messageInterval p) (stopCh p).
Notation P := BatchingEventPublisher.

Definition NewBatchingEventPublisher (interval : Z) : P := mkPublisher NewRWMap ∅ 0 NewRWMap interval false.
Definition NewEventPublisher : P := NewBatchingEventPublisher DefaultMessageInterval.

(** ** The steps on a subscriber set *)

Definition set_at (l : nat) (p : P) : subscriberSet := default ∅ (sets p !! l).
Definition add (l : nat) (subscriber : Sub) (p : P) : P :=
  p <| sets := <[l := <[subscriber := tt]> (set_at l p)]> (sets p) |>.
Definition remove (l : nat) (subscriber : Sub) (p : P) : P :=
  p <| sets := <[l := delete subscriber (set_at l p)]> (sets p) |>.
Definition isEmpty (l : nat) (p : P) : bool := bool_decide (size (set_at l p) = 0%nat).
Definition forEach (l : nat) (p : P) : list Sub := (range 40 (set_at l p)).*1.

(** [p.subscribers.ComputeIfAbsent(eventType.Name, newSubscriberSet)] *)
Definition set_for (name : string) (p : P) : P * nat :=
  let '(m, l) := ComputeIfAbsent name (next_set p) (subscribers p) in
  match RWMap.Get name (subscribers p) with
  | Some _ => (p, l)
  | None => ((p <| subscribers := m |>) <| sets := <[l := newSubscriberSet]> (sets p) |>
               <| next_set := S (next_set p) |>, l)
  end.

Definition subscribe1 (subscriber : Sub) (eventType : EventType) (p : P) : P :=
  let '(p, set) := set_for (Name eventType) p in add set subscriber p.
Definition Subscribe (subscriber : Sub) (eventTypes : list EventType) (p : P) : P :=
  foldl (fun p t => subscribe1 subscriber t p) p eventTypes.

Definition drop_if_empty (name : string) (set : nat) (p : P) : P :=
  if isEmpty set p then p <| subscribers := RWMap.Remove name (subscribers p) |> else p.
Definition unsubscribe1 (subscriber : Sub) (eventType : EventType) (p : P) : P :=
  match RWMap.Get (Name eventType) (subscribers p) with
  | None => p
  | Some set => drop_if_empty (Name eventType) set (remove set subscriber p)
  end.
Definition Unsubscribe (subscriber : Sub) (eventTypes : list EventType) (p : P) : P :=
  foldl (fun p t => unsubscribe1 subscriber t p) p eventTypes.

(** ** Publishing *)

(** The calls of [ProcessEvent], in order. *)
Definition deliverEvent (event : Event K) (p : P) : list (Sub * Event K) :=
  match RWMap.Get (Name (GetEventType event)) (subscribers p) with
  | None => []
  | Some set => (fun s => (s, event)) <$> forEach set p
  end.

Definition Publish (event : Event K) (p : P) : P * list (Sub * Event K) :=
  if IsImmediateDelivery event then (p, deliverEvent event p)
  else (p <| pendingEvents := RWMap.Put (Name (GetEventType event)) event (pendingEvents p) |>, []).

(** [sendPendingEvents] copies the pending events, clears them and delivers
    the copy; each is a step of its own. *)
Definition copy_pending (p : P) : gmap string (Event K) := GetAllEntries (pendingEvents p).
Definition clear_pending (p : P) : P := p <| pendingEvents := RWMap.Clear (pendingEvents p) |>.
Definition deliver_all (events : gmap string (Event K)) (p : P) : list (Sub * Event K) :=
  (range 41 events).*2 ≫= (fun e => deliverEvent e p).
Definition sendPendingEvents (p : P) : P * list (Sub * Event K) :=
  let events := copy_pending p in
  let p := clear_pending p in
  (p, deliver_all events p).

(** Closing a closed channel panics. *)
Definition Stop (p : P) : Result P := if stopCh p then Panic else Ok (p <| stopCh := true |>).

(** One wake-up of the loop's [select]: its ticker, or the closed channel,
    after which the goroutine has returned ([None]). *)
Definition publishingLoop (ticked : bool) (p : P) : option (P * list (Sub * Event K)) :=
  if ticked then Some (sendPendingEvents p) else None.

(** ** Runs *)

Inductive Op :=
| OSubscribe (subscriber : Sub) (eventTypes : list EventType)
| OUnsubscribe (subscriber : Sub) (eventTypes : list EventType)
| OPublish (event : Event K)
| OSend.

Definition step (o : Op) (p : P) : P :=
  match o with
  | OSubscribe s ts => Subscribe s ts p
  | OUnsubscribe s ts => Unsubscribe s ts p
  | OPublish e => (Publish e p).1
  | OSend => (sendPendingEvents p).1
  end.

(** What the interface promises: a set of pairs of an event type's name and a
    subscriber. *)
Definition subscriptions (o : Op) (spec : gset (string * Sub)) : gset (string * Sub) :=
  match o with
  | OSubscribe s ts => list_to_set ((fun t => (Name t, s)) <$> ts) ∪ spec
  | OUnsubscribe s ts => spec ∖ list_to_set ((fun t => (Name t, s)) <$> ts)
  | OPublish _ | OSend => spec
  end.

(** ** Lemmas *)

(** Sequential callers keep the sets apart and non-empty. *)
Record wf (p : P) : Prop := {
  wf_set name l : RWMap.cache (subscribers p) !! name = Some l ->
    (l < next_set p)%nat /\ exists s, sets p !! l = Some s /\ s ≠ ∅;
  wf_inj n1 n2 l : RWMap.cache (subscribers p) !! n1 = Some l ->
    RWMap.cache (subscribers p) !! n2 = Some l -> n1 = n2;
  wf_plain : hasDisposal (subscribers p) = false
}.

Definition subscribed (p : P) (name : string) (s : Sub) : Prop :=
  exists l, RWMap.cache (subscribers p) !! name = Some l /\ set_at l p !! s = Some tt.

Lemma set_at_add l l' s (p : P) :
  set_at l (add l' s p) = if decide (l' = l) then <[s := tt]> (set_at l' p) else set_at l p.
Proof. unfold set_at. cbn. destruct (decide (l' = l)) as [->|]; by rewrite ?lookup_insert_eq, ?lookup_insert_ne. Qed.

Lemma set_at_remove l l' s (p : P) :
  set_at l (remove l' s p) = if decide (l' = l) then delete s (set_at l' p) else set_at l p.
Proof. unfold set_at. cbn. destruct (decide (l' = l)) as [->|]; by rewrite ?lookup_insert_eq, ?lookup_insert_ne. Qed.

Lemma wf_new interval : wf (NewBatchingEventPublisher interval).
Proof. by constructor. Qed.

Lemma subscribe1_wf s t p : wf p -> wf (subscribe1 s t p).
Proof.
  intros [Hset Hinj Hp]. unfold subscribe1, set_for, ComputeIfAbsent, RWMap.Get.
  destruct (RWMap.cache (subscribers p) !! Name t) as [l|] eqn:E; cbn.
  - constructor; cbn; [|done..]. intros n l' Hn. destruct (Hset n l' Hn) as [Hlt (x & Hx & Hne)].
    split; [done|]. destruct (decide (l = l')) as [->|].
    + rewrite lookup_insert_eq. eexists; split; [done|]. apply insert_non_empty.
    + rewrite lookup_insert_ne by done. eauto.
  - constructor; cbn; [| |done].
    + intros n l' Hn. destruct (decide (Name t = n)) as [<-|].
      * rewrite lookup_insert_eq in Hn. injection Hn as <-. split; [lia|]. rewrite lookup_insert_eq.
        eexists; split; [done|]. apply insert_non_empty.
      * rewrite lookup_insert_ne in Hn by done. destruct (Hset n l' Hn) as [Hlt (x & Hx & Hne)].
        split; [lia|]. rewrite !lookup_insert_ne by lia. eauto.
    + intros n1 n2 l. destruct (decide (Name t = n1)) as [<-|], (decide (Name t = n2)) as [<-|];
        rewrite ?lookup_insert_eq, ?lookup_insert_ne by done; [done| | |by apply Hinj].
      * intros [= <-] Hl. destruct (Hset _ _ Hl). lia.
      * intros Hl [= <-]. destruct (Hset _ _ Hl). lia.
Qed.

(** A new set starts empty, at a location no type uses. *)
Lemma set_at_fresh name (p : P) l :
  (l < next_set p)%nat -> set_at l (set_for name p).1 = set_at l p.
Proof.
  intros Hl. unfold set_for, ComputeIfAbsent, RWMap.Get. destruct (RWMap.cache (subscribers p) !! name); [done|].
  unfold set_at; cbn. by rewrite lookup_insert_ne by lia.
Qed.

Lemma subscribe1_subscribed s t p name x :
  wf p -> subscribed (subscribe1 s t p) name x <-> (name = Name t /\ x = s) \/ subscribed p name x.
Proof.
  intros [Hset Hinj Hp]. unfold subscribed, subscribe1.
  pose proof (set_at_fresh (Name t) p) as Hfresh. revert Hfresh.
  unfold set_for, ComputeIfAbsent, RWMap.Get.
  destruct (RWMap.cache (subscribers p) !! Name t) as [l|] eqn:E; cbn -[set_at add]; intros Hfresh.
  - split.
    + intros (l' & Hl & Hx). rewrite set_at_add in Hx. cbn in Hl. destruct (decide (l = l')) as [<-|]; [|eauto].
      destruct (decide (s = x)) as [->|]; [left; by rewrite (Hinj _ _ _ Hl E)|].
      rewrite lookup_insert_ne in Hx by done. eauto.
    + intros [[-> ->]|(l' & Hl & Hx)]; [exists l|exists l']; rewrite set_at_add.
      * by rewrite decide_True, lookup_insert_eq.
      * split; [done|]. destruct (decide (l = l')) as [<-|]; [|done].
        by destruct (decide (s = x)) as [->|]; rewrite ?lookup_insert_eq, ?lookup_insert_ne.
  - set (q := mkPublisher _ _ _ _ _ _) in *.
    assert (set_at (next_set p) q = ∅) as Hnew by (unfold set_at, q; cbn; by rewrite lookup_insert_eq).
    change (RWMap.cache (subscribers (add (next_set p) s q)))
      with (<[Name t := next_set p]> (RWMap.cache (subscribers p))).
    split.
    + intros (l' & Hl & Hx). rewrite set_at_add in Hx. destruct (decide (Name t = name)) as [<-|].
      * rewrite lookup_insert_eq in Hl. injection Hl as <-. rewrite decide_True, Hnew in Hx by done.
        left. split; [done|]. by apply lookup_singleton_Some in Hx as [-> _].
      * rewrite lookup_insert_ne in Hl by done. destruct (Hset _ _ Hl) as [Hlt _].
        rewrite decide_False, Hfresh in Hx by lia. eauto.
    + intros [[-> ->]|(l' & Hl & Hx)].
      * exists (next_set p). rewrite lookup_insert_eq, set_at_add, decide_True, Hnew by done.
        split; [done|apply lookup_insert_eq].
      * exists l'. destruct (Hset _ _ Hl) as [Hlt _]. rewrite lookup_insert_ne by congruence.
        by rewrite set_at_add, decide_False, Hfresh by lia.
Qed.

Lemma unsubscribe1_wf s t p : wf p -> wf (unsubscribe1 s t p).
Proof.
  intros Hwf. pose proof Hwf as [Hset Hinj Hp]. unfold unsubscribe1, drop_if_empty, RWMap.Get, isEmpty.
  destruct (RWMap.cache (subscribers p) !! Name t) as [l|] eqn:E; [|done].
  case_bool_decide as Hs.
  - constructor; cbn -[RWMap.Remove].
    + intros n l'. rewrite Remove_cache. intros [Hn Hl]%lookup_delete_Some. destruct (Hset n l' Hl) as [Hlt (x & Hx & Hne)].
      split; [done|]. rewrite lookup_insert_ne; [eauto|]. intros ->. by apply Hn, (Hinj _ _ l').
    + intros n1 n2 l'. rewrite Remove_cache. intros [_ H1]%lookup_delete_Some [_ H2]%lookup_delete_Some. eauto.
    + rewrite <-Hp. exact (hasDisposal_step (ORemove (Name t)) (subscribers p)).
  - rewrite set_at_remove, decide_True in Hs by done.
    constructor; cbn; [|done..]. intros n l' Hl. destruct (Hset n l' Hl) as [Hlt (x & Hx & Hne)]. split; [done|].
    destruct (decide (l = l')) as [<-|]; [|rewrite lookup_insert_ne by done; eauto].
    rewrite lookup_insert_eq. eexists; split; [done|]. intros He. apply Hs. by rewrite He, map_size_empty.
Qed.

Lemma unsubscribe1_subscribed s t p name x :
  wf p -> subscribed (unsubscribe1 s t p) name x <-> ¬ (name = Name t /\ x = s) /\ subscribed p name x.
Proof.
  intros [Hset Hinj Hp]. unfold subscribed, unsubscribe1, drop_if_empty, RWMap.Get, isEmpty.
  destruct (RWMap.cache (subscribers p) !! Name t) as [l|] eqn:E.
  2:{ split; [|tauto]. intros (l & Hl & Hx). split; [|eauto]. intros [-> _]. congruence. }
  assert (forall l' y, set_at l' (remove l s p) !! y = Some tt <->
            ¬ (l' = l /\ y = s) /\ set_at l' p !! y = Some tt) as Hrem.
  { intros l' y. rewrite set_at_remove. destruct (decide (l = l')) as [<-|]; [|naive_solver].
    rewrite lookup_delete_Some. naive_solver. }
  case_bool_decide as Hs.
  - apply map_size_empty_inv in Hs. cbn -[RWMap.Remove set_at remove]. rewrite Remove_cache. split.
    + intros (l' & [Hn Hl]%lookup_delete_Some & Hx). apply Hrem in Hx as [_ Hx]. split; [naive_solver|eauto].
    + intros [Hne (l' & Hl & Hx)]. exists l'. assert (set_at l' (remove l s p) !! x = Some tt) as Hx'.
      { apply Hrem. split; [|done]. intros [-> ->]. apply Hne. by rewrite (Hinj _ _ _ Hl E). }
      split; [|done]. apply lookup_delete_Some. split; [|done]. intros <-.
      assert (l' = l) as -> by congruence. by rewrite Hs in Hx'.
  - split.
    + intros (l' & Hl & Hx). apply Hrem in Hx as [Hn Hx]. cbn in Hl. split; [|eauto].
      intros [-> ->]. apply Hn. split; [congruence|done].
    + intros [Hne (l' & Hl & Hx)]. exists l'. split; [done|]. apply Hrem. split; [|done].
      intros [-> ->]. apply Hne. by rewrite (Hinj _ _ _ Hl E).
Qed.

Definition agrees (p : P) (spec : gset (string * Sub)) : Prop :=
  wf p /\ forall name s, subscribed p name s <-> (name, s) ∈ spec.

Lemma Subscribe_agrees s ts p spec : agrees p spec -> agrees (Subscribe s ts p) (subscriptions (OSubscribe s ts) spec).
Proof.
  unfold Subscribe, subscriptions. revert p spec. induction ts as [|t ts IH]; intros p spec [Hwf Hs]; simpl.
  { split; [done|]. set_solver. }
  destruct (IH (subscribe1 s t p) ({[(Name t, s)]} ∪ spec)) as [Hwf' Hs'].
  { split; [by apply subscribe1_wf|]. intros name x. rewrite subscribe1_subscribed by done. set_solver. }
  split; [done|]. intros name x. rewrite Hs'. set_solver.
Qed.

Lemma Unsubscribe_agrees s ts p spec :
  agrees p spec -> agrees (Unsubscribe s ts p) (subscriptions (OUnsubscribe s ts) spec).
Proof.
  unfold Unsubscribe, subscriptions. revert p spec. induction ts as [|t ts IH]; intros p spec [Hwf Hs]; simpl.
  { split; [done|]. set_solver. }
  destruct (IH (unsubscribe1 s t p) (spec ∖ {[(Name t, s)]})) as [Hwf' Hs'].
  { split; [by apply unsubscribe1_wf|]. intros name x. rewrite unsubscribe1_subscribed by done. set_solver. }
  split; [done|]. intros name x. rewrite Hs'. set_solver.
Qed.

Lemma step_agrees o p spec : agrees p spec -> agrees (step o p) (subscriptions o spec).
Proof.
  destruct o as [s ts|s ts|e|]; [apply Subscribe_agrees|apply Unsubscribe_agrees| |].
  - intros [[H1 H2 H3] Hs]. unfold agrees, step, Publish. destruct (IsImmediateDelivery e); [by split|].
    split; [by constructor|exact Hs].
  - intros [[H1 H2 H3] Hs]. split; [by constructor|exact Hs].
Qed.

Lemma run_agrees ops p spec :
  agrees p spec -> agrees (run_ops step ops p) (foldl (fun spec o => subscriptions o spec) spec ops).
Proof. revert p spec. induction ops as [|o ops IH]; intros p spec Hp; [done|]. apply IH, step_agrees, Hp. Qed.

Lemma deliverEvent_agrees e p spec s :
  agrees p spec -> (s, e) ∈ deliverEvent e p <-> (Name (GetEventType e), s) ∈ spec.
Proof.
  intros [Hwf Hs]. rewrite <-Hs. unfold deliverEvent, subscribed, RWMap.Get, forEach.
  destruct (RWMap.cache (subscribers p) !! Name (GetEventType e)) as [l|].
  - rewrite list_elem_of_fmap. split.
    + intros (x & [= <-] & ((? & []) & -> & Hx)%list_elem_of_fmap). apply elem_of_range in Hx. eauto.
    + intros (l' & [= <-] & Hx). exists s. split; [done|]. apply list_elem_of_fmap. exists (s, tt).
      split; [done|]. by apply elem_of_range.
  - split; [set_solver|naive_solver].
Qed.

Lemma deliverEvent_once e p : NoDup (deliverEvent e p).
Proof.
  unfold deliverEvent. destruct (RWMap.Get _ _) as [l|]; [|constructor].
  apply NoDup_fmap_2; [by intros ?? [= ->]|]. unfold forEach. rewrite range_perm. apply NoDup_fst_map_to_list.
Qed.

(** ** Properties *)

(** C38. After any sequence of whole operations on a new publisher, an event
    that asks for immediate delivery reaches exactly the subscribers whose
    last call for its type was Subscribe, each of them once: the publisher
    refines a set of pairs of event type and subscriber. *)
Theorem Publish_reaches_subscribers interval ops e s :
  IsImmediateDelivery e = true ->
  let p := run_ops step ops (NewBatchingEventPublisher interval) in
  let spec := foldl (fun spec o => subscriptions o spec) ∅ ops in
  NoDup (Publish e p).2 /\
  ((s, e) ∈ (Publish e p).2 <-> (Name (GetEventType e), s) ∈ spec).
Proof.
  intros He p spec. unfold Publish. rewrite He. split; [apply deliverEvent_once|].
  apply deliverEvent_agrees, run_agrees. split; [apply wf_new|]. intros name x. unfold subscribed. set_solver.
Qed.

(** What one tick delivers: the last event of each type published since the
    previous one. *)
Lemma send_delivers_pending p spec e s :
  agrees p spec ->
  (s, e) ∈ (sendPendingEvents p).2 <->
  (exists name, RWMap.cache (pendingEvents p) !! name = Some e) /\ (Name (GetEventType e), s) ∈ spec.
Proof.
  intros Hp. unfold sendPendingEvents, deliver_all, copy_pending, GetAllEntries. cbn [snd].
  assert (agrees (clear_pending p) spec) as Hc by exact (step_agrees OSend p spec Hp).
  rewrite <-(deliverEvent_agrees e _ _ s Hc), list_elem_of_bind. split.
  - intros (e' & He & Hin). assert (e' = e) as ->.
    { unfold deliverEvent in He. destruct (RWMap.Get _ _); [|set_solver].
      by apply list_elem_of_fmap in He as (? & [= <- <-] & _). }
    split; [|done]. apply list_elem_of_fmap in Hin as ([name ?] & -> & Hn). apply elem_of_range in Hn. eauto.
  - intros [(name & Hn) He]. exists e. split; [done|]. apply list_elem_of_fmap. exists (name, e).
    split; [done|]. by apply elem_of_range.
Qed.
End Events.
Arguments BatchingEventPublisher K Sub {_ _}.
Arguments Op K Sub : clear implicits.

Lemma Publish_reaches_subscribers_witness :
  let ops := [OSubscribe 1%nat [MonitorStopEventType; MonitorResetEventType];
              OSubscribe 2%nat [MonitorResetEventType]; OUnsubscribe 1%nat [MonitorResetEventType]] in
  let e : Event string := MonitorResetEvent "cluster" ∅ in
  NoDup (Publish e (run_ops step ops (NewBatchingEventPublisher 1))).2 /\
  ((1%nat, e) ∈ (Publish e (run_ops step ops (NewBatchingEventPublisher 1))).2 <->
   ("MonitorReset", 1%nat) ∈ foldl (fun spec o => subscriptions o spec) ∅ ops).
Proof.
  intros ops e. apply (Publish_reaches_subscribers 1 ops e 1%nat). reflexivity.
Defined.

(** Two accesses between two ticks: the second replaces the first, whose data
    are other data. *)
Example batch_keeps_last_access :
  let p := Subscribe 1%nat [DataAccessEventType] (NewEventPublisher : BatchingEventPublisher string nat) in
  let p := (Publish (DataAccessEvent "Topology" "cluster-a") p).1 in
  let p := (Publish (DataAccessEvent "LimitlessRouters" "cluster-b") p).1 in
  (sendPendingEvents p).2 = [(1%nat, DataAccessEvent "LimitlessRouters" "cluster-b")].
Proof. vm_compute. reflexivity. Qed.

(** An event published between the copy and the clearing of the pending
    events is never delivered. *)
Example event_lost_between_copy_and_clear :
  let p := Subscribe 1%nat [DataAccessEventType] (NewEventPublisher : BatchingEventPublisher string nat) in
  let events := copy_pending p in
  let p := (Publish (DataAccessEvent "Topology" "cluster-a") p).1 in
  let p := clear_pending p in
  deliver_all events p = [] /\ (sendPendingEvents p).2 = [].
Proof. vm_compute. done. Qed.

(** [Subscribe] has looked up the set when [Unsubscribe] of its last member
    drops the set from the map: the new subscriber is never called. *)
Example subscriber_lost_with_dropped_set :
  let p := Subscribe 1%nat [MonitorResetEventType] (NewEventPublisher : BatchingEventPublisher string nat) in
  let '(p, set) := set_for "MonitorReset" p in
  let p := Unsubscribe 1%nat [MonitorResetEventType] p in
  let p := add set 2%nat p in
  deliverEvent (MonitorResetEvent "cluster" ∅) p = [].
Proof. vm_compute. reflexivity. Qed.
