(* ===== verification/Storage.v ===== *)
(** * Storage: the expiring storage of the shared services
    (awssql/services/storage.go, awssql/driver_infrastructure/storage.go and
    storage_type_descriptor.go).

    One [ExpirationCache] per registered type key; a hit of [Get] is announced
    to the event publisher. [StorageTypeDescriptor] gives typed access: it
    binds a Go type to a type key and asserts the type of what it reads. The
    program only adds type keys, so [caches] grows and an entry found once
    stays valid while the cache's own lock is taken. *)

From S2P Require Import Prelude.
From S2P Require Import ExpirationCache.
From S2P Require Import Events.

Definition defaultCleanupInterval : Z := 5 * Minute.

Section Storage.
Context {K : Type} `{Countable K} {V : Type} `{MapRange}.
Notation Cache := (ExpirationCache K V).

Record ExpiringStorage := mkStorage {
  caches : gmap string Cache;
  publisher : bool;
  cleanupInterval : Z;
  stopCleanup : bool
}.
#[export] Instance Storage_eta : Eta ExpiringStorage := fun s =>
  mkStorage (caches s) (publisher s) (cleanupInterval s) (stopCleanup s).

(** [hasPublisher] says whether the publisher given is not nil. *)
Definition NewExpiringStorage (interval : Z) (hasPublisher : bool) : ExpiringStorage :=
  mkStorage ∅ hasPublisher (if interval =? 0 then defaultCleanupInterval else interval) false.

Definition register (typeKey : string) (ttl : Z) (renewOnAccess : bool) (shouldDispose : option (V -> bool))
  (onDispose : bool) (s : ExpiringStorage) : ExpiringStorage :=
  let cache := NewExpirationCache ttl renewOnAccess shouldDispose onDispose in
  match caches s !! typeKey with
  | Some _ => s
  | None => s <| caches := <[typeKey := cache]> (caches s) |>
  end.
Definition Register := register.

Definition set_entry (typeKey : string) (c : Cache) (s : ExpiringStorage) : ExpiringStorage :=
  s <| caches := <[typeKey := c]> (caches s) |>.

Definition Set_ (now : Z) (typeKey : string) (key : K) (value : V) (s : ExpiringStorage) : ExpiringStorage :=
  match caches s !! typeKey with
  | None => s
  | Some entry => set_entry typeKey (ExpirationCache.Put now key value entry).1 s
  end.

(** The value found and the event published. *)
Definition Get (now : Z) (typeKey : string) (key : K) (s : ExpiringStorage)
  : ExpiringStorage * option V * option (Event K) :=
  match caches s !! typeKey with
  | None => (s, None, None)
  | Some entry =>
      let '(entry, value) := ExpirationCache.Get now key entry in
      let s := set_entry typeKey entry s in
      match value with
      | None => (s, None, None)
      | Some v => (s, Some v, if publisher s then Some (DataAccessEvent typeKey key) else None)
      end
  end.

Definition Exists (now : Z) (typeKey : string) (key : K) (s : ExpiringStorage) : bool :=
  match caches s !! typeKey with
  | None => false
  | Some entry => ExpirationCache.Exists now key entry
  end.

Definition Remove (typeKey : string) (key : K) (s : ExpiringStorage) : ExpiringStorage :=
  match caches s !! typeKey with
  | None => s
  | Some entry => set_entry typeKey (ExpirationCache.Remove key entry).1 s
  end.

Definition Clear (typeKey : string) (s : ExpiringStorage) : ExpiringStorage :=
  match caches s !! typeKey with
  | None => s
  | Some entry => set_entry typeKey (ExpirationCache.Clear entry) s
  end.

(** The caches are cleared one after the other; each is its own object. *)
Definition ClearAll (s : ExpiringStorage) : ExpiringStorage :=
  s <| caches := ExpirationCache.Clear <$> caches s |>.

Definition Size (typeKey : string) (s : ExpiringStorage) : nat :=
  match caches s !! typeKey with
  | None => 0%nat
  | Some entry => ExpirationCache.Size entry
  end.

(** Closing a closed channel panics. *)
Definition Stop (s : ExpiringStorage) : Result ExpiringStorage :=
  if stopCleanup s then Panic else Ok (s <| stopCleanup := true |>).

(** [tick] is the clock at the visit of each entry. *)
Definition removeExpiredItems (tick : string -> K -> Z) (s : ExpiringStorage) : ExpiringStorage :=
  s <| caches := map_imap (fun typeKey c => Some (RemoveExpiredEntries (tick typeKey) c)) (caches s) |>.

(** One wake-up of the loop's [select]; [None]: the goroutine has returned. *)
Definition cleanupLoop (ticked : bool) (tick : string -> K -> Z) (s : ExpiringStorage) : option ExpiringStorage :=
  if ticked then Some (removeExpiredItems tick s) else None.

(** ** Typed access *)

Section Descriptor.
Context {T : Type} (inject : T -> V) (assert_type : V -> option T).

Record StorageTypeDescriptor := mkDescriptor {
  TypeKey : string;
  TTL : Z;
  RenewOnAccess : bool;
  ShouldDispose : option (T -> bool);
  OnDispose : bool
}.

(** On a value of another type the closure panics, in the goroutine that
    cleans up; [descriptor_Set] stores none, and the model answers [false]. *)
Definition disposeTest (f : T -> bool) (v : V) : bool :=
  match assert_type v with Some x => f x | None => false end.

Definition descriptor_Register (d : StorageTypeDescriptor) (s : ExpiringStorage) : ExpiringStorage :=
  Register (TypeKey d) (TTL d) (RenewOnAccess d) (disposeTest <$> ShouldDispose d) (OnDispose d) s.

Definition descriptor_Get (now : Z) (d : StorageTypeDescriptor) (key : K) (s : ExpiringStorage)
  : ExpiringStorage * option T * option (Event K) :=
  let '(s, v, e) := Get now (TypeKey d) key s in
  match v with
  | None => (s, None, e)
  | Some v => (s, assert_type v, e)
  end.

Definition descriptor_Set (now : Z) (d : StorageTypeDescriptor) (key : K) (value : T) (s : ExpiringStorage)
  : ExpiringStorage := Set_ now (TypeKey d) key (inject value) s.
Definition descriptor_Exists (now : Z) (d : StorageTypeDescriptor) (key : K) (s : ExpiringStorage) : bool :=
  Exists now (TypeKey d) key s.
Definition descriptor_Remove (d : StorageTypeDescriptor) (key : K) (s : ExpiringStorage) : ExpiringStorage :=
  Remove (TypeKey d) key s.
Definition descriptor_Clear (d : StorageTypeDescriptor) (s : ExpiringStorage) : ExpiringStorage :=
  Clear (TypeKey d) s.
Definition descriptor_Size (d : StorageTypeDescriptor) (s : ExpiringStorage) : nat := Size (TypeKey d) s.
End Descriptor.

(** The built-in types; none has a dispose test or a disposal function. *)
Definition TopologyTypeKey : string := "Topology".
Definition AllowedAndBlockedHostsTypeKey : string := "AllowedAndBlockedHosts".
Definition BlueGreenStatusTypeKey : string := "BlueGreenStatus".
Definition DefaultStorageTypes : list string :=
  [TopologyTypeKey; AllowedAndBlockedHostsTypeKey; BlueGreenStatusTypeKey].
Definition RegisterDefaultStorageTypes (s : ExpiringStorage) : ExpiringStorage :=
  foldl (fun s typeKey => Register typeKey (5 * Minute) false None false s) s DefaultStorageTypes.

(** ** Runs *)

Inductive Op :=
| ORegister (typeKey : string) (ttl : Z) (renewOnAccess : bool) (shouldDispose : option (V -> bool)) (onDispose : bool)
| OSet (now : Z) (typeKey : string) (key : K) (value : V)
| OGet (now : Z) (typeKey : string) (key : K)
| ORemove (typeKey : string) (key : K)
| OClear (typeKey : string)
| OClearAll
| OCleanup (tick : string -> K -> Z).

Definition step (o : Op) (s : ExpiringStorage) : ExpiringStorage :=
  match o with
  | ORegister t ttl r d o => Register t ttl r d o s
  | OSet now t k v => Set_ now t k v s
  | OGet now t k => (Get now t k s).1.1
  | ORemove t k => Remove t k s
  | OClear t => Clear t s
  | OClearAll => ClearAll s
  | OCleanup tick => removeExpiredItems tick s
  end.

(** The reference: for one type key and one key, the value written last and
    the time at which it expires, unless it was removed since. *)
Record Cell := mkCell { cell_ttl : option Z; cell : option (V * Z) }.
Definition write (t : string) (k : K) (o : Op) (c : Cell) : Cell :=
  match o with
  | ORegister t' ttl _ _ _ =>
      if decide (t' = t) then
        match cell_ttl c with
        | Some _ => c
        | None => mkCell (Some (if ttl =? 0 then 5 * Minute else ttl)) None
        end
      else c
  | OSet now t' k' v =>
      if decide (t' = t /\ k' = k) then mkCell (cell_ttl c) ((fun ttl => (v, now + ttl)) <$> cell_ttl c) else c
  | OGet _ _ _ | OCleanup _ => c
  | ORemove t' k' => if decide (t' = t /\ k' = k) then mkCell (cell_ttl c) None else c
  | OClear t' => if decide (t' = t) then mkCell (cell_ttl c) None else c
  | OClearAll => mkCell (cell_ttl c) None
  end.

(** ** Lemmas *)

(** What is stored for [t] and [k] is the cell, or nothing once a clean-up
    has run after the cell expired; [now] bounds the clean-ups. *)
Definition holds_entry (now : Z) (k : K) (c : option (V * Z)) (e : Cache) : Prop :=
  match c with
  | None => ExpirationCache.cache e !! k = None
  | Some (v, x) =>
      (exists i, ExpirationCache.cache e !! k = Some i /\ item i = v /\ expirationTime i = x) \/
      (ExpirationCache.cache e !! k = None /\ x < now)
  end.
Definition holds (now : Z) (t : string) (k : K) (c : Cell) (s : ExpiringStorage) : Prop :=
  match caches s !! t with
  | None => c = mkCell None None
  | Some e => cell_ttl c = Some (ttl e) /\ renewOnAccess e = false /\ holds_entry now k (cell c) e
  end.

Definition admissible (now : Z) (t : string) (k : K) (o : Op) : Prop :=
  match o with
  | ORegister t' _ renew _ _ => t' = t -> renew = false
  | OCleanup tick => tick t k <= now
  | _ => True
  end.

Lemma dispose_ttl vs (e : Cache) : ttl (dispose vs e) = ttl e /\ renewOnAccess (dispose vs e) = renewOnAccess e.
Proof. unfold dispose. by destruct (itemDisposal e). Qed.

Lemma Put_parts now k v (e : Cache) :
  ExpirationCache.cache (Put now k v e).1 = <[k := newItem now v e]> (ExpirationCache.cache e) /\
  ttl (Put now k v e).1 = ttl e /\ renewOnAccess (Put now k v e).1 = renewOnAccess e.
Proof.
  unfold Put. destruct (ExpirationCache.cache e !! k); cbn; [|done].
  rewrite ec_cache_dispose. split; [done|]. exact (dispose_ttl _ _).
Qed.

Lemma Remove_parts k (e : Cache) :
  ExpirationCache.cache (ExpirationCache.Remove k e).1 = delete k (ExpirationCache.cache e) /\
  ttl (ExpirationCache.Remove k e).1 = ttl e /\ renewOnAccess (ExpirationCache.Remove k e).1 = renewOnAccess e.
Proof.
  unfold ExpirationCache.Remove. destruct (ExpirationCache.cache e !! k); cbn; [|done].
  rewrite ec_cache_dispose. split; [done|]. exact (dispose_ttl _ _).
Qed.

Lemma Clear_parts (e : Cache) :
  ExpirationCache.cache (ExpirationCache.Clear e) = ∅ /\
  ttl (ExpirationCache.Clear e) = ttl e /\ renewOnAccess (ExpirationCache.Clear e) = renewOnAccess e.
Proof. unfold ExpirationCache.Clear. rewrite ec_cache_dispose. split; [done|]. exact (dispose_ttl _ _). Qed.

Lemma holds_entry_cleanup now tick k c (e : Cache) :
  tick k <= now -> holds_entry now k c e -> holds_entry now k c (RemoveExpiredEntries tick e).
Proof.
  intros Ht. unfold holds_entry, RemoveExpiredEntries. rewrite ec_cache_dispose. cbn.
  destruct c as [[v x]|]; [|intros Hk; apply map_lookup_filter_None; by left].
  intros [(i & Hk & <- & <-)|[Hk Hx]]; [|right; split; [apply map_lookup_filter_None; by left|done]].
  destruct (shouldCleanup (tick k) i) eqn:E.
  - right. split.
    + apply map_lookup_filter_None. right. intros j Hj. rewrite Hk in Hj. injection Hj as <-. cbn. rewrite E. auto.
    + unfold shouldCleanup, isExpired in E. destruct (Z.ltb_spec (expirationTime i) (tick k)); [lia|done].
  - left. exists i. split; [|done]. apply map_lookup_filter_Some. cbn. by rewrite E.
Qed.

(** An operation on the entry of [t'] that gives [e'] for [e]. *)
Lemma holds_set_entry now t k t' c c' e e' s :
  caches s !! t' = Some e ->
  ttl e' = ttl e -> renewOnAccess e' = renewOnAccess e ->
  (t' = t -> cell_ttl c = Some (ttl e) -> holds_entry now k (cell c) e -> holds_entry now k (cell c') e') ->
  (t' ≠ t -> c' = c) -> cell_ttl c' = cell_ttl c ->
  holds now t k c s -> holds now t k c' (set_entry t' e' s).
Proof.
  intros He Ht Hr Hsame Hother Hc. unfold holds, set_entry. cbn. destruct (decide (t' = t)) as [->|Hn].
  - rewrite lookup_insert_eq, He, Ht, Hr, Hc. intros (? & ? & ?). auto.
  - rewrite lookup_insert_ne by done. by rewrite Hother.
Qed.

Lemma Cleanup_parts tick (e : Cache) :
  ttl (RemoveExpiredEntries tick e) = ttl e /\ renewOnAccess (RemoveExpiredEntries tick e) = renewOnAccess e.
Proof. exact (dispose_ttl _ _). Qed.

Lemma register_holds now t k t' tt renew sd od c s :
  (t' = t -> renew = false) -> holds now t k c s ->
  holds now t k (write t k (ORegister t' tt renew sd od) c) (register t' tt renew sd od s).
Proof.
  intros Ha Hs. unfold register. cbn [write]. destruct (decide (t' = t)) as [->|Hn].
  - unfold holds in Hs. destruct (caches s !! t) as [e|] eqn:E.
    + destruct Hs as (Hc & ?). rewrite Hc. unfold holds. rewrite E, Hc. done.
    + subst c. unfold holds. cbn. rewrite lookup_insert_eq. cbn. by rewrite (Ha eq_refl).
  - destruct (caches s !! t') eqn:E; [done|]. unfold holds. cbn. by rewrite lookup_insert_ne.
Qed.

Lemma Set_holds now t k n t' k' v c s :
  holds now t k c s -> holds now t k (write t k (OSet n t' k' v) c) (Set_ n t' k' v s).
Proof.
  intros Hs. unfold Set_. cbn [write]. destruct (caches s !! t') as [e|] eqn:E.
  - destruct (Put_parts n k' v e) as (Hp1 & Hp2 & Hp3). destruct (decide (t' = t /\ k' = k)) as [[-> ->]|Hn].
    + apply (holds_set_entry _ _ _ _ c _ e); try done. intros _ Hc _. rewrite Hc. cbn. left.
      rewrite Hp1, lookup_insert_eq. by eexists.
    + apply (holds_set_entry _ _ _ _ c _ e); try done. intros -> _. unfold holds_entry. rewrite Hp1.
      rewrite lookup_insert_ne by naive_solver. done.
  - destruct (decide (t' = t /\ k' = k)) as [[-> ->]|Hn]; [|done].
    unfold holds in *. rewrite E in *. by subst c.
Qed.

Lemma Get_holds now t k n t' k' c s : holds now t k c s -> holds now t k c (Get n t' k' s).1.1.
Proof.
  intros Hs. unfold Get. destruct (caches s !! t') as [e|] eqn:E; [|done].
  destruct (ExpirationCache.Get n k' e) as [e' r] eqn:Eg.
  assert (holds now t k c (set_entry t' e' s)); [|by destruct r].
  destruct (decide (t' = t)) as [->|Hn].
  - assert (e' = e) as ->.
    { unfold holds in Hs. rewrite E in Hs. destruct Hs as (_ & Hr & _). unfold ExpirationCache.Get in Eg.
      rewrite Hr in Eg. repeat case_match; congruence. }
    by apply (holds_set_entry _ _ _ _ c _ e).
  - unfold holds, set_entry in *. cbn. by rewrite lookup_insert_ne.
Qed.

Lemma Remove_holds now t k t' k' c s :
  holds now t k c s -> holds now t k (write t k (ORemove t' k') c) (Remove t' k' s).
Proof.
  intros Hs. unfold Remove. cbn [write]. destruct (caches s !! t') as [e|] eqn:E.
  - destruct (Remove_parts k' e) as (Hp1 & Hp2 & Hp3). destruct (decide (t' = t /\ k' = k)) as [[-> ->]|Hn].
    + apply (holds_set_entry _ _ _ _ c _ e); try done. intros _ _ _. cbn. rewrite Hp1. apply lookup_delete_eq.
    + apply (holds_set_entry _ _ _ _ c _ e); try done. intros -> _. unfold holds_entry. rewrite Hp1.
      rewrite lookup_delete_ne by naive_solver. done.
  - destruct (decide (t' = t /\ k' = k)) as [[-> ->]|Hn]; [|done].
    unfold holds in *. rewrite E in *. by subst c.
Qed.

Lemma Clear_holds now t k t' c s : holds now t k c s -> holds now t k (write t k (OClear t') c) (Clear t' s).
Proof.
  intros Hs. unfold Clear. cbn [write]. destruct (caches s !! t') as [e|] eqn:E.
  - destruct (Clear_parts e) as (Hp1 & Hp2 & Hp3). destruct (decide (t' = t)) as [->|Hn].
    + apply (holds_set_entry _ _ _ _ c _ e); try done. intros _ _ _. cbn. by rewrite Hp1.
    + by apply (holds_set_entry _ _ _ _ c _ e).
  - destruct (decide (t' = t)) as [->|Hn]; [|done]. unfold holds in *. rewrite E in *. by subst c.
Qed.

Lemma step_holds now t k o c s : admissible now t k o -> holds now t k c s -> holds now t k (write t k o c) (step o s).
Proof.
  intros Ha Hs. destruct o as [t' tt' renew sd od|n t' k' v|n t' k'|t' k'|t'| |tick]; cbn [step].
  - by apply register_holds.
  - by apply Set_holds.
  - by apply Get_holds.
  - by apply Remove_holds.
  - by apply Clear_holds.
  - unfold holds, ClearAll in *. cbn. rewrite lookup_fmap. destruct (caches s !! t) as [e|]; cbn; [|by subst c].
    destruct (Clear_parts e) as (-> & -> & ->). by destruct Hs as (? & ? & ?).
  - unfold holds, removeExpiredItems in *. cbn [caches]. cbn -[RemoveExpiredEntries]. rewrite map_lookup_imap.
    destruct (caches s !! t) as [e|]; cbn -[RemoveExpiredEntries]; [|done]. destruct Hs as (H1 & H2 & H3).
    destruct (Cleanup_parts (tick t) e) as [-> ->].
    repeat split; [done..|]. by apply holds_entry_cleanup.
Qed.

Lemma run_holds now t k ops c s : Forall (admissible now t k) ops -> holds now t k c s ->
  holds now t k (foldl (fun c o => write t k o c) c ops) (run_ops step ops s).
Proof.
  intros Ha. revert c s. induction Ha as [|o ops Ho _ IH]; intros c s Hs; [done|]. by apply IH, step_holds.
Qed.

(** ** Properties *)

(** C14. For a storage type that does not renew on access, after any
    sequence of operations on a new storage Get returns the value written
    last under the type and the key when it was neither removed nor cleared
    since and its time to live, fixed by the first registration of the type,
    has not passed, and nothing otherwise; clean-ups at earlier times and
    operations on other types and keys change nothing. *)
Theorem Storage_reads_last_write now t k interval hasPublisher ops :
  Forall (admissible now t k) ops ->
  (Get now t k (run_ops step ops (NewExpiringStorage interval hasPublisher))).1.2 =
  match cell (foldl (fun c o => write t k o c) (mkCell None None) ops) with
  | Some (v, expiry) => if now <=? expiry then Some v else None
  | None => None
  end.
Proof.
  intros Ha. set (s := run_ops _ _ _). set (c := foldl _ _ _).
  assert (holds now t k c s) as Hs by by apply run_holds.
  unfold holds in Hs. unfold Get. destruct (caches s !! t) as [e|]; [|by rewrite Hs].
  destruct Hs as (_ & Hr & He). unfold ExpirationCache.Get. rewrite Hr. unfold holds_entry in He.
  destruct (cell c) as [[v x]|]; [|by rewrite He].
  destruct He as [(i & -> & <- & <-)|[-> Hx]].
  - unfold isExpired. rewrite Z.leb_antisym. by destruct (expirationTime i <? now).
  - by rewrite (proj2 (Z.leb_gt now x) Hx).
Qed.

(** A typed read gives what a typed write stored. *)
Lemma descriptor_roundtrip {T} (inject : T -> V) (assert_type : V -> option T) d now now' k x s e :
  (forall x, assert_type (inject x) = Some x) ->
  caches s !! TypeKey d = Some e -> renewOnAccess e = false -> now' <= now + ttl e ->
  (descriptor_Get assert_type now' d k (descriptor_Set inject now d k x s)).1.2 = Some x.
Proof.
  intros Hi He Hr Ht. unfold descriptor_Get, descriptor_Set, Set_, Get. rewrite He. unfold set_entry. cbn -[Put].
  rewrite lookup_insert_eq. destruct (Put_parts now k (inject x) e) as (Hp1 & Hp2 & Hp3).
  unfold ExpirationCache.Get. rewrite Hp3, Hr, Hp1, lookup_insert_eq.
  unfold isExpired, newItem. cbn [expirationTime item]. destruct (Z.ltb_spec (now + ttl e) now'); [lia|]. cbn. apply Hi.
Qed.
End Storage.
Arguments ExpiringStorage K {_ _} V.
Arguments Op K V : clear implicits.
Arguments Cell V : clear implicits.

Lemma Storage_reads_last_write_witness :
  let ops : list (Op string nat) :=
    [ORegister "Topology" 100 false None false; OSet 0 "Topology" "a" 1%nat; OSet 1 "Topology" "b" 2%nat;
     OCleanup (fun _ _ => 50); OSet 60 "Topology" "a" 3%nat; ORemove "Topology" "b"; OCleanup (fun _ _ => 120)] in
  (Get 130 "Topology" "a" (run_ops step ops (NewExpiringStorage 0 true))).1.2 = Some 3%nat.
Proof.
  intros ops. etransitivity; [apply (Storage_reads_last_write 130 "Topology" "a" 0 true ops)|vm_compute; reflexivity].
  repeat constructor; simpl; lia.
Defined.
