(* ===== verification/MonitorService.v ===== *)
(** * MonitorService: the manager of the background monitors
    (awssql/services/monitor.go, awssql/driver_infrastructure/monitor.go).

    A monitor type has a container with a cache of monitors; a monitor expires
    unless it is asked for again or the data it produces are read, and a
    clean-up loop stops the expired ones and recreates the failed ones. A
    monitor is the address returned by its initializer. [Monitors] is the
    interface the manager calls: its instances are the monitors of the other
    components. [started], [stopped] and [handed] record the monitors the
    manager called [Start] and [Stop] on and those [Remove] gave back running.

    [RunIfAbsent] is split in its lookup, the store of a new monitor and its
    start, since other goroutines may run between them; the operations are
    otherwise whole calls. *)

From S2P Require Import Prelude.
From S2P Require Import RWMap.
From S2P Require Import Events.
From S2P Require Import Effects.

Inductive MonitorState := MonitorStateRunning | MonitorStateStopped | MonitorStateError.
Inductive MonitorErrorResponse := MonitorErrorRecreate | MonitorErrorLog | MonitorErrorRemove.
#[export] Instance MonitorState_eq_dec : EqDecision MonitorState.
Proof. solve_decision. Defined.
#[export] Instance MonitorErrorResponse_eq_dec : EqDecision MonitorErrorResponse.
Proof. solve_decision. Defined.

Record MonitorSettings := mkSettings {
  ExpirationTimeout : Z;
  InactiveTimeout : Z;
  ErrorResponses : list (MonitorErrorResponse * bool)
}.
(** [settings.ErrorResponses[r]]: absent keys read as false. *)
Definition responds (r : MonitorErrorResponse) (s : MonitorSettings) : bool :=
  bool_decide ((r, true) ∈ ErrorResponses s).

Definition DefaultMonitorCleanupInterval : Z := Minute.
Definition DefaultExpirationTimeout : Z := 15 * Minute.
Definition DefaultInactiveTimeout : Z := 3 * Minute.
Definition DefaultMonitorSettings : MonitorSettings :=
  mkSettings DefaultExpirationTimeout DefaultInactiveTimeout [(MonitorErrorRecreate, true)].

(** The methods of [Monitor] the manager calls and the initializer, on the
    state [P] of the monitors; [initialize] gives a monitor or an error. *)
Class Monitors (P Init : Type) := {
  initialize : Init -> St P (nat + go_error);
  Start : nat -> P -> P;
  Stop : nat -> P -> P;
  GetState : nat -> P -> MonitorState;
  GetLastActivityTimestampNanos : nat -> P -> Z;
  CanDispose : nat -> P -> bool
}.

Section MonitorService.
Context {K : Type} `{Countable K} {P Init : Type} `{!Monitors P Init} `{!Clock P} `{MapRange}.

Record monitorItem := mkItem {
  monitor : nat;
  monitorSupplier : Init;
  expiresAt : Z
}.
Record cacheContainer := mkContainer {
  settings : MonitorSettings;
  cache : RWMap K monitorItem;
  producedDataType : string
}.
Record MonitorManager := mkManager {
  monitors : P;
  monitorCaches : RWMap string cacheContainer;
  hasPublisher : bool;
  cleanupInterval : Z;
  stopCh : bool;
  started : list nat;
  stopped : list nat;
  handed : list nat
}.
#[export] Instance Manager_eta : Eta MonitorManager := fun m =>
  mkManager (monitors m) (monitorCaches m) (hasPublisher m) (cleanupInterval m) (stopCh m) (started m) (stopped m) (handed m).
Notation M := MonitorManager.

Definition NewMonitorManager (interval : Z) (publisher : bool) (p : P) : M :=
  mkManager p NewRWMap publisher interval false [] [] [].
(** The subscription [NewMonitorManager] makes when it has a publisher. *)
Definition managerSubscriptions : list EventType := [DataAccessEventType; MonitorStopEventType].

(** ** Access to the state *)

Definition time_now : St M Z := zoom monitors (fun p m => m <| monitors := p |>) clock_now.
Definition start (id : nat) (m : M) : M := m <| monitors := Start id (monitors m) |> <| started := started m ++ [id] |>.
Definition stop (id : nat) (m : M) : M := m <| monitors := Stop id (monitors m) |> <| stopped := stopped m ++ [id] |>.
Definition hand (id : nat) (m : M) : M := m <| handed := handed m ++ [id] |>.
Definition supply (supplier : Init) : St M (nat + go_error) :=
  zoom monitors (fun p m => m <| monitors := p |>) (initialize supplier).

Definition container (monitorType : string) (m : M) : option cacheContainer := RWMap.Get monitorType (monitorCaches m).
Definition with_items (f : RWMap K monitorItem -> RWMap K monitorItem) (c : cacheContainer) : cacheContainer :=
  mkContainer (settings c) (f (cache c)) (producedDataType c).
(** A container is an object shared through its address: a change of its
    cache shows under its monitor type. *)
Definition set_container (monitorType : string) (c : cacheContainer) (m : M) : M :=
  m <| monitorCaches := RWMap.with_cache (<[monitorType := c]> (RWMap.cache (monitorCaches m))) (monitorCaches m) |>.
Definition on_items (monitorType : string) (f : RWMap K monitorItem -> RWMap K monitorItem) (m : M) : M :=
  match container monitorType m with
  | None => m
  | Some c => set_container monitorType (with_items f c) m
  end.
Definition find (monitorType : string) (key : K) (m : M) : option monitorItem :=
  match container monitorType m with None => None | Some c => RWMap.Get key (cache c) end.

(** [item.expiresAt.Store(t)]: the item is shared through its address too. *)
Definition set_expiry (t : Z) (i : monitorItem) : monitorItem := mkItem (monitor i) (monitorSupplier i) t.
Definition extend (monitorType : string) (key : K) : St M unit :=
  (let! now := time_now in
   modify (fun m =>
     match container monitorType m with
     | None => m
     | Some c => on_items monitorType (fun items =>
         RWMap.with_cache (alter (set_expiry (now + ExpirationTimeout (settings c))) key (RWMap.cache items)) items) m
     end))%eff.

(** ** Operations *)

Definition RegisterMonitorType (monitorType : string) (s : MonitorSettings) (produced : string) (m : M) : M :=
  m <| monitorCaches := PutIfAbsent monitorType (mkContainer s NewRWMap produced) (monitorCaches m) |>.

Definition run_lookup (monitorType : string) (key : K) : St M (option nat) :=
  (do! modify (fun m => match container monitorType m with
                        | Some _ => m
                        | None => RegisterMonitorType monitorType DefaultMonitorSettings "" m
                        end) in
   let! existing := gets (find monitorType key) in
   match existing with
   | Some item => do! extend monitorType key in st_ret (Some (monitor item))
   | None => st_ret None
   end)%eff.

Definition run_store (monitorType : string) (key : K) (supplier : Init) : Eff M nat :=
  (let! created := supply supplier in
   match created with
   | inr err => throw err
   | inl id =>
       let! now := time_now in
       do! modify (fun m =>
             match container monitorType m with
             | None => m
             | Some c => on_items monitorType (PutIfAbsent key (mkItem id supplier (now + ExpirationTimeout (settings c)))) m
             end) in
       eff_ok id
   end)%eff.

Definition RunIfAbsent (monitorType : string) (key : K) (initializer : Init) : Eff M nat :=
  (let! existing := run_lookup monitorType key in
   match existing with
   | Some id => eff_ok id
   | None =>
       try! id := run_store monitorType key initializer in
       do! modify (start id) in eff_ok id
   end)%eff.

Definition Get (monitorType : string) (key : K) (m : M) : option nat := monitor <$> find monitorType key m.

Definition Remove (monitorType : string) (key : K) (m : M) : M * option nat :=
  match find monitorType key m with
  | None => (m, None)
  | Some item => (hand (monitor item) (on_items monitorType (RWMap.Remove key) m), Some (monitor item))
  end.

Definition StopAndRemove (monitorType : string) (key : K) (m : M) : M :=
  match find monitorType key m with
  | None => m
  | Some item => stop (monitor item) (on_items monitorType (RWMap.Remove key) m)
  end.

(** [cache.RemoveIf] on the cache of a container. *)
Definition remove_items (monitorType : string) (p : monitorItem -> bool) : St M (list (K * monitorItem)) := fun m =>
  match container monitorType m with
  | None => (m, [])
  | Some c =>
      let '(items, removed) := RemoveIf (fun _ i => p i) (cache c) in
      (set_container monitorType (with_items (fun _ => items) c) m, removed)
  end.
Definition stop_all (removed : list (K * monitorItem)) (m : M) : M :=
  foldl (fun m e => stop (monitor e.2) m) m removed.

Definition StopAndRemoveByType (monitorType : string) (m : M) : M :=
  let '(m, removed) := remove_items monitorType (fun _ => true) m in stop_all removed m.
Definition registered (m : M) : list string := (range 50 (RWMap.cache (monitorCaches m))).*1.
Definition StopAndRemoveAll (m : M) : M := foldl (fun m t => StopAndRemoveByType t m) m (registered m).

(** Closing a closed channel panics. *)
Definition ReleaseResources (m : M) : Result M :=
  if stopCh m then Panic else Ok (StopAndRemoveAll (m <| stopCh := true |>)).

(** ** Events *)

Definition extend_if_produced (event_type : string) (key : K) (monitorType : string) : St M unit :=
  (let! c := gets (container monitorType) in
   match c with
   | None => st_ret tt
   | Some c =>
       if String.eqb (producedDataType c) "" || negb (String.eqb (producedDataType c) event_type) then st_ret tt
       else
         let! item := gets (find monitorType key) in
         match item with None => st_ret tt | Some _ => extend monitorType key end
   end)%eff.
Fixpoint for_all {A} (l : list A) (f : A -> St M unit) : St M unit :=
  match l with [] => st_ret tt | x :: r => (do! f x in for_all r f)%eff end.

Definition ProcessEvent (event : Event K) : St M unit :=
  match event with
  | DataAccessEvent typeKey key => (let! types := gets registered in for_all types (extend_if_produced typeKey key))%eff
  | MonitorStopEvent monitorType key => modify (StopAndRemove monitorType key)
  | MonitorResetEvent _ _ => st_ret tt
  end.

(** ** The clean-up *)

Definition to_stop (now : Z) (p : P) (item : monitorItem) : bool :=
  bool_decide (GetState (monitor item) p = MonitorStateStopped) ||
  ((expiresAt item <? now) && CanDispose (monitor item) p).
Definition to_replace (now : Z) (s : MonitorSettings) (p : P) (item : monitorItem) : bool :=
  bool_decide (GetState (monitor item) p = MonitorStateError) ||
  (InactiveTimeout s <? now - GetLastActivityTimestampNanos (monitor item) p).

Definition handleMonitorError (monitorType : string) (s : MonitorSettings) (e : K * monitorItem) : St M unit :=
  (do! modify (stop (monitor e.2)) in
   if responds MonitorErrorRecreate s then
     let! created := run_store monitorType e.1 (monitorSupplier e.2) in
     match created with
     | Ok id => modify (start id)
     | _ => st_ret tt
     end
   else st_ret tt)%eff.

Definition check_container (now : Z) (monitorType : string) : St M unit :=
  (let! c := gets (container monitorType) in
   match c with
   | None => st_ret tt
   | Some c =>
       let! p := gets monitors in
       let! expired := remove_items monitorType (to_stop now p) in
       do! modify (stop_all expired) in
       let! p := gets monitors in
       let! errored := remove_items monitorType (to_replace now (settings c) p) in
       for_all errored (handleMonitorError monitorType (settings c))
   end)%eff.
Definition checkMonitors : St M unit :=
  (let! now := time_now in let! types := gets registered in for_all types (check_container now))%eff.

(** One wake-up of the loop's [select]; [None]: the goroutine has returned. *)
Definition cleanupLoop (ticked : bool) (m : M) : option M := if ticked then Some (checkMonitors m).1 else None.

(** ** Runs *)

Inductive Op :=
| ORegister (monitorType : string) (s : MonitorSettings) (produced : string)
| ORun (monitorType : string) (key : K) (initializer : Init)
| ORemove (monitorType : string) (key : K)
| OStopAndRemove (monitorType : string) (key : K)
| OStopAndRemoveByType (monitorType : string)
| OStopAndRemoveAll
| OProcessEvent (event : Event K)
| OCheck.

Definition step (o : Op) (m : M) : M :=
  match o with
  | ORegister t s d => RegisterMonitorType t s d m
  | ORun t k i => (RunIfAbsent t k i m).1
  | ORemove t k => (Remove t k m).1
  | OStopAndRemove t k => StopAndRemove t k m
  | OStopAndRemoveByType t => StopAndRemoveByType t m
  | OStopAndRemoveAll => StopAndRemoveAll m
  | OProcessEvent e => (ProcessEvent e m).1
  | OCheck => (checkMonitors m).1
  end.

(** The monitors the manager holds. *)
Definition managed (m : M) : list nat :=
  vals (RWMap.cache (monitorCaches m)) ≫= (fun c => monitor <$> vals (RWMap.cache (cache c))).

(** ** Lemmas: the containers *)

Definition held (c : cacheContainer) : list nat := monitor <$> vals (RWMap.cache (cache c)).

Lemma container_set t t' c m : container t (set_container t' c m) = if decide (t' = t) then Some c else container t m.
Proof.
  unfold container, set_container, RWMap.Get. cbn.
  destruct (decide (t' = t)) as [->|]; by rewrite ?lookup_insert_eq, ?lookup_insert_ne.
Qed.

Lemma managed_set t c c' m :
  container t m = Some c -> managed (set_container t c' m) ++ held c ≡ₚ held c' ++ managed m.
Proof.
  intros Hc. unfold managed, set_container. cbn.
  pose proof (bind_Permutation held _ _ (insert_drops (RWMap.cache (monitorCaches m)) t c' c Hc)) as Hp.
  rewrite !bind_app in Hp. cbn in Hp. by rewrite !app_nil_r in Hp.
Qed.

Lemma managed_on_items t c f m :
  container t m = Some c -> managed (on_items t f m) ++ held c ≡ₚ held (with_items f c) ++ managed m.
Proof. intros Hc. unfold on_items. rewrite Hc. by apply managed_set. Qed.

Lemma container_on_items t t' f m :
  container t (on_items t' f m) = if decide (t' = t) then with_items f <$> container t m else container t m.
Proof.
  unfold on_items. destruct (container t' m) as [c|] eqn:E.
  - rewrite container_set. destruct (decide (t' = t)) as [->|]; [by rewrite E|done].
  - destruct (decide (t' = t)) as [->|]; [by rewrite E|done].
Qed.

Lemma managed_register t s d m : managed (RegisterMonitorType t s d m) ≡ₚ managed m.
Proof.
  unfold managed, RegisterMonitorType, PutIfAbsent. cbn.
  destruct (RWMap.cache (monitorCaches m) !! t) eqn:E; [done|]. cbn.
  rewrite vals_insert_None by done. cbn. by rewrite vals_empty.
Qed.

Lemma on_items_logs t f m :
  started (on_items t f m) = started m /\ stopped (on_items t f m) = stopped m /\ handed (on_items t f m) = handed m.
Proof. unfold on_items. by destruct (container t m). Qed.

(** ** Lemmas: the balance of starts and stops

    [extra] monitors are held and not started yet, [missing] ones were taken
    out of the caches and are not stopped yet. *)
Definition balanced (extra missing : list nat) (m : M) : Prop :=
  managed m ++ missing ++ stopped m ++ handed m ≡ₚ extra ++ started m.

Lemma balanced_start id l m : balanced [id] l m -> balanced [] l (start id m).
Proof.
  unfold balanced. change (managed (start id m)) with (managed m). cbn. intros ->. by rewrite Permutation_app_comm.
Qed.

Lemma balanced_stop id l m : balanced [] (id :: l) m -> balanced [] l (stop id m).
Proof.
  unfold balanced. change (managed (stop id m)) with (managed m). cbn. intros <-. apply Permutation_app_head.
  rewrite <-!(assoc_L (++)). cbn. rewrite (assoc_L (++) l (stopped m)), <-Permutation_middle. by rewrite <-(assoc_L (++)).
Qed.

Lemma balanced_hand id m : balanced [] [id] m -> balanced [] [] (hand id m).
Proof.
  unfold balanced. change (managed (hand id m)) with (managed m). cbn. intros <-. apply Permutation_app_head.
  rewrite (assoc_L (++)). by rewrite Permutation_app_comm.
Qed.

Lemma balanced_stop_all l rest m :
  balanced [] ((monitor <$> l.*2) ++ rest) m -> balanced [] rest (stop_all l m).
Proof. revert m. induction l as [|e l IH]; intros m Hb; [done|]. apply IH, balanced_stop, Hb. Qed.

Lemma balanced_put t k item l m c :
  container t m = Some c -> find t k m = None -> balanced [] l m ->
  balanced [monitor item] l (on_items t (PutIfAbsent k item) m).
Proof.
  unfold balanced, find, RWMap.Get. intros Hc. rewrite Hc. intros Hk Hb.
  pose proof (managed_on_items t c (PutIfAbsent k item) m Hc) as Hp.
  assert (held (with_items (PutIfAbsent k item) c) ≡ₚ monitor item :: held c) as Hh.
  { unfold held, with_items, PutIfAbsent. cbn. rewrite Hk. cbn. by rewrite vals_insert_None. }
  rewrite Hh in Hp. assert (managed (on_items t (PutIfAbsent k item) m) ≡ₚ monitor item :: managed m) as ->.
  { apply (Permutation_app_inv_r (held c)). rewrite Hp. cbn. by rewrite (Permutation_app_comm (held c)). }
  destruct (on_items_logs t (PutIfAbsent k item) m) as (-> & -> & ->). cbn in *. by rewrite Hb.
Qed.

(** Changes that leave the caches' monitors and the records alone. *)
Record same_monitors (m m' : M) : Prop := {
  same_managed : managed m' ≡ₚ managed m;
  same_started : started m' = started m;
  same_stopped : stopped m' = stopped m;
  same_handed : handed m' = handed m
}.

Lemma balanced_same e l m m' : same_monitors m m' -> balanced e l m -> balanced e l m'.
Proof. intros [H1 H2 H3 H4]. unfold balanced. by rewrite H1, H2, H3, H4. Qed.

#[export] Instance same_monitors_preorder : PreOrder same_monitors.
Proof.
  split; [by constructor|]. intros m1 m2 m3 [H1 H2 H3 H4] [H5 H6 H7 H8].
  constructor; [by rewrite H5|congruence..].
Qed.

Lemma same_with_monitors p m : same_monitors m (m <| monitors := p |>).
Proof. by constructor. Qed.

Lemma same_time m : same_monitors m (time_now m).1.
Proof. unfold time_now, zoom. destruct (clock_now (monitors m)). apply same_with_monitors. Qed.

Lemma same_supply s m : same_monitors m (supply s m).1.
Proof. unfold supply, zoom. destruct (initialize s (monitors m)). apply same_with_monitors. Qed.

Lemma same_register t s d m : same_monitors m (RegisterMonitorType t s d m).
Proof. constructor; [apply managed_register|done..]. Qed.

Lemma same_on_items t f m :
  (forall items, monitor <$> vals (RWMap.cache (f items)) ≡ₚ monitor <$> vals (RWMap.cache items)) ->
  same_monitors m (on_items t f m).
Proof.
  intros Hf. destruct (on_items_logs t f m) as (? & ? & ?). constructor; [|done..].
  destruct (container t m) as [c|] eqn:E; [|unfold on_items; by rewrite E].
  pose proof (managed_on_items t c f m E) as Hp.
  assert (held (with_items f c) ≡ₚ held c) as Hh by apply Hf. rewrite Hh in Hp.
  apply (Permutation_app_inv_r (held c)). by rewrite Hp, Permutation_app_comm.
Qed.

Lemma vals_alter_expiry t k (items : RWMap K monitorItem) :
  monitor <$> vals (alter (set_expiry t) k (RWMap.cache items)) ≡ₚ monitor <$> vals (RWMap.cache items).
Proof.
  destruct (RWMap.cache items !! k) as [i|] eqn:E; [|by rewrite alter_id by naive_solver].
  rewrite <-(insert_id _ _ _ E) at 1. rewrite alter_insert_eq.
  pose proof (fmap_Permutation monitor _ _ (insert_drops (RWMap.cache items) k (set_expiry t i) i E)) as Hp.
  rewrite !fmap_app in Hp. apply (Permutation_app_inv_r [monitor i]). by rewrite Hp, Permutation_app_comm.
Qed.

Lemma same_extend t k m : same_monitors m (extend t k m).1.
Proof.
  unfold extend, st_bind. pose proof (same_time m) as Hs. destruct (time_now m) as [m' now]. cbn in *.
  destruct (container t m') as [c|]; [|done]. etransitivity; [exact Hs|]. apply same_on_items.
  intros items. apply vals_alter_expiry.
Qed.

Lemma keeps_for_all {A} (R : M -> M -> Prop) `{!PreOrder R} (l : list A) (f : A -> St M unit) :
  (forall x, keeps R (f x)) -> keeps R (for_all l f).
Proof.
  intros Hf. induction l as [|x l IH]; [apply keeps_ret, _|]. apply keeps_st_bind; [apply _|apply Hf|intros _; exact IH].
Qed.

Lemma remove_items_parts t p m c items removed :
  container t m = Some c -> RemoveIf (fun _ i => p i) (cache c) = (items, removed) ->
  remove_items t p m = (set_container t (with_items (fun _ => items) c) m, removed) /\
  managed (set_container t (with_items (fun _ => items) c) m) ++ (monitor <$> removed.*2) ≡ₚ managed m.
Proof.
  intros Hc Hr. unfold remove_items. rewrite Hc, Hr. split; [done|].
  pose proof (managed_set t c (with_items (fun _ => items) c) m Hc) as Hp.
  assert (held (with_items (fun _ => items) c) ++ (monitor <$> removed.*2) ≡ₚ held c) as Hh.
  { unfold held. rewrite <-fmap_app. apply fmap_Permutation. injection Hr as <- <-. cbn.
    apply (filter_drops 2 (RWMap.cache (cache c)) (fun e => p e.2 = true)). }
  apply (Permutation_app_inv_r (held c)). rewrite <-Hh at 2.
  rewrite <-(assoc_L (++)), (Permutation_app_comm (monitor <$> _)), (assoc_L (++)), Hp.
  rewrite (Permutation_app_comm (held _)), !(assoc_L (++)). done.
Qed.

Lemma remove_items_balanced t p rest m :
  balanced [] rest m ->
  balanced [] ((monitor <$> (remove_items t p m).2.*2) ++ rest) (remove_items t p m).1.
Proof.
  destruct (container t m) as [c|] eqn:E; [|unfold remove_items; by rewrite E].
  destruct (RemoveIf (fun _ i => p i) (cache c)) as [items removed] eqn:R.
  destruct (remove_items_parts t p m c items removed E R) as [-> Hp]. unfold balanced. intros Hb. cbn.
  change (stopped (set_container _ _ m)) with (stopped m). change (handed (set_container _ _ m)) with (handed m).
  change (started (set_container _ _ m)) with (started m). rewrite <-Hb, <-Hp. by rewrite <-!(assoc_L (++)).
Qed.

Lemma time_now_caches m : monitorCaches (time_now m).1 = monitorCaches m.
Proof. unfold time_now, zoom. by destruct (clock_now (monitors m)). Qed.
Lemma supply_caches s m : monitorCaches (supply s m).1 = monitorCaches m.
Proof. unfold supply, zoom. by destruct (initialize s (monitors m)). Qed.
Lemma container_eq t m m' : monitorCaches m' = monitorCaches m -> container t m' = container t m.
Proof. unfold container. by intros ->. Qed.
Lemma find_eq t k m m' : monitorCaches m' = monitorCaches m -> find t k m' = find t k m.
Proof. unfold find, container. by intros ->. Qed.

Lemma find_put t k k' item m : k' ≠ k -> find t k' (on_items t (PutIfAbsent k item) m) = find t k' m.
Proof.
  intros Hk. unfold find. rewrite container_on_items, decide_True by done.
  destruct (container t m) as [c|]; [|done]. cbn. unfold PutIfAbsent, RWMap.Get.
  destruct (RWMap.cache (cache c) !! k); cbn; by rewrite ?lookup_insert_ne.
Qed.

(** Storing a monitor where there is none: it is in the cache, to be started. *)
Lemma run_store_balanced t k s l m c :
  container t m = Some c -> find t k m = None -> balanced [] l m ->
  let '(m', r) := run_store t k s m in
  balanced (match r with Ok id => [id] | _ => [] end) l m' /\
  is_Some (container t m') /\ (forall k', k' ≠ k -> find t k' m' = find t k' m).
Proof.
  intros Hc Hk Hb. unfold run_store, st_bind.
  pose proof (same_supply s m) as Hs. pose proof (supply_caches s m) as Hsc.
  destruct (supply s m) as [m1 [id|err]]; cbn in Hs, Hsc |- *.
  2:{ split; [by eapply balanced_same|]. split; [by rewrite (container_eq t m), Hc|]. intros k' _. by apply find_eq. }
  pose proof (same_time m1) as Ht. pose proof (time_now_caches m1) as Htc.
  destruct (time_now m1) as [m2 now]; cbn in Ht, Htc |- *.
  assert (monitorCaches m2 = monitorCaches m) as Hm by congruence.
  rewrite (container_eq t m m2 Hm), Hc. split_and!.
  - eapply (balanced_put t k (mkItem id s _)); [by rewrite (container_eq t m m2 Hm)|by rewrite (find_eq t k m)|].
    eapply balanced_same; [|exact Hb]. by transitivity m1.
  - rewrite container_on_items, decide_True, (container_eq t m m2 Hm), Hc by done. eauto.
  - intros k' Hk'. by rewrite find_put, (find_eq t k' m).
Qed.

Lemma run_lookup_spec t k m :
  let '(m', r) := run_lookup t k m in
  same_monitors m m' /\
  match r with
  | Some id => exists item, find t k m = Some item /\ monitor item = id
  | None => find t k m = None /\ find t k m' = None /\ exists c, container t m' = Some c
  end.
Proof.
  unfold run_lookup, st_bind. cbn. destruct (container t m) as [c|] eqn:E.
  - destruct (find t k m) as [item|] eqn:F.
    + pose proof (same_extend t k m) as Hs. destruct (extend t k m) as [m' []]. cbn in *. eauto.
    + cbn. split; [done|]. eauto.
  - assert (container t (RegisterMonitorType t DefaultMonitorSettings "" m) = Some (mkContainer DefaultMonitorSettings NewRWMap "")) as Hr.
    { unfold container, RegisterMonitorType, PutIfAbsent, RWMap.Get in *. cbn. rewrite E. cbn. apply lookup_insert_eq. }
    assert (find t k (RegisterMonitorType t DefaultMonitorSettings "" m) = None) as Hf by (unfold find; by rewrite Hr).
    rewrite Hf. cbn. split; [apply same_register|]. split; [unfold find; by rewrite E|eauto].
Qed.

Lemma RunIfAbsent_balanced t k i m : balanced [] [] m -> balanced [] [] (RunIfAbsent t k i m).1.
Proof.
  intros Hb. unfold RunIfAbsent, st_bind. pose proof (run_lookup_spec t k m) as Hl.
  destruct (run_lookup t k m) as [m1 [id|]]; destruct Hl as [Hs Hr]; cbn.
  { by eapply balanced_same. }
  destruct Hr as (_ & Hf & c & Hc). rewrite eff_bind_eq.
  pose proof (run_store_balanced t k i [] m1 c Hc Hf (balanced_same _ _ _ _ Hs Hb)) as Hst.
  destruct (run_store t k i m1) as [m2 [id|e|]]; destruct Hst as [Hb2 _]; [|done..].
  by apply balanced_start.
Qed.

Lemma find_container t k m item : find t k m = Some item ->
  exists c, container t m = Some c /\ RWMap.cache (cache c) !! k = Some item.
Proof. unfold find, RWMap.Get. destruct (container t m); [eauto|done]. Qed.

Lemma remove_balanced t k m item :
  find t k m = Some item -> balanced [] [] m -> balanced [] [monitor item] (on_items t (RWMap.Remove k) m).
Proof.
  intros (c & Hc & Hk)%find_container Hb. unfold balanced. destruct (on_items_logs t (RWMap.Remove k) m) as (-> & -> & ->).
  rewrite (assoc_L (++)). assert (managed (on_items t (RWMap.Remove k) m) ++ [monitor item] ≡ₚ managed m) as ->; [|exact Hb].
  pose proof (managed_on_items t c (RWMap.Remove k) m Hc) as Hp.
  assert (held (with_items (RWMap.Remove k) c) ++ [monitor item] ≡ₚ held c) as Hh.
  { unfold held, with_items. cbn -[RWMap.Remove]. rewrite Remove_cache. change [monitor item] with (monitor <$> [item]).
    rewrite <-fmap_app. by apply fmap_Permutation, delete_drops. }
  apply (Permutation_app_inv_r (held c)). rewrite <-Hh at 2.
  rewrite <-(assoc_L (++)), (Permutation_app_comm [_]), (assoc_L (++)), Hp.
  rewrite (Permutation_app_comm (held _)), !(assoc_L (++)). done.
Qed.

Lemma Remove_balanced t k m : balanced [] [] m -> balanced [] [] (Remove t k m).1.
Proof.
  intros Hb. unfold Remove. destruct (find t k m) as [item|] eqn:E; [|done]. by apply balanced_hand, remove_balanced.
Qed.

Lemma StopAndRemove_balanced t k m : balanced [] [] m -> balanced [] [] (StopAndRemove t k m).
Proof.
  intros Hb. unfold StopAndRemove. destruct (find t k m) as [item|] eqn:E; [|done]. by apply balanced_stop, remove_balanced.
Qed.

Lemma StopAndRemoveByType_balanced t m : balanced [] [] m -> balanced [] [] (StopAndRemoveByType t m).
Proof.
  intros Hb. unfold StopAndRemoveByType. pose proof (remove_items_balanced t (fun _ => true) [] m Hb) as Hr.
  destruct (remove_items t (fun _ => true) m) as [m' removed]. by apply balanced_stop_all.
Qed.

Lemma StopAndRemoveAll_balanced m : balanced [] [] m -> balanced [] [] (StopAndRemoveAll m).
Proof.
  unfold StopAndRemoveAll. generalize (registered m). intros l. revert m.
  induction l as [|t l IH]; intros m Hb; [done|]. by apply IH, StopAndRemoveByType_balanced.
Qed.

Lemma extend_if_produced_same ty k t : keeps same_monitors (extend_if_produced ty k t).
Proof.
  unfold extend_if_produced. apply keeps_st_bind; [apply _|apply keeps_gets, _|]. intros [c|]; [|apply keeps_ret, _].
  case_bool; [apply keeps_ret, _|]. apply keeps_st_bind; [apply _|apply keeps_gets, _|].
  intros [item|]; [|apply keeps_ret, _]. intros m. apply same_extend.
Qed.

Lemma ProcessEvent_balanced e m : balanced [] [] m -> balanced [] [] (ProcessEvent e m).1.
Proof.
  destruct e as [ty k|t k|]; cbn; [|apply StopAndRemove_balanced|done].
  apply balanced_same. unfold st_bind. cbn. apply (keeps_for_all same_monitors). intros t. apply extend_if_produced_same.
Qed.

(** Each removed monitor is stopped and replaced at most by one new one. *)
Lemma handleMonitorError_balanced t s e l m c :
  container t m = Some c -> find t e.1 m = None -> balanced [] (monitor e.2 :: l) m ->
  let m' := (handleMonitorError t s e m).1 in
  balanced [] l m' /\ is_Some (container t m') /\ (forall k, k ≠ e.1 -> find t k m' = find t k m).
Proof.
  intros Hc Hf Hb%balanced_stop. set (m0 := stop (monitor e.2) m) in *. unfold handleMonitorError, st_bind, modify.
  change (stop (monitor e.2) m) with m0. destruct (responds MonitorErrorRecreate s).
  2:{ cbn. split; [done|]. split; [|done]. change (container t m0) with (container t m). eauto. }
  pose proof (run_store_balanced t e.1 (monitorSupplier e.2) l m0 c Hc Hf Hb) as Hst.
  destruct (run_store t e.1 (monitorSupplier e.2) m0) as [m1 [id|err|]]; destruct Hst as (Hb1 & Hc1 & Hf1); [|done..].
  cbn. split; [by apply balanced_start|]. split; [exact Hc1|exact Hf1].
Qed.

Lemma replace_all_balanced t s removed l m :
  is_Some (container t m) -> NoDup removed.*1 -> Forall (fun e => find t e.1 m = None) removed ->
  balanced [] ((monitor <$> removed.*2) ++ l) m ->
  balanced [] l (for_all removed (handleMonitorError t s) m).1.
Proof.
  revert m. induction removed as [|e removed IH]; intros m [c Hc] Hnd Hf Hb; [done|]. cbn in *.
  apply NoDup_cons in Hnd as [Hni Hnd]. apply Forall_cons in Hf as [Hfe Hf].
  destruct (handleMonitorError_balanced t s e _ m c Hc Hfe Hb) as (Hb1 & Hc1 & Hf1).
  unfold st_bind. destruct (handleMonitorError t s e m) as [m1 []]. cbn in *.
  apply IH; [done..| |done]. rewrite Forall_forall in Hf |- *. intros e' He'. rewrite Hf1; [by apply Hf|].
  intros Heq. apply Hni. rewrite <-Heq. by apply list_elem_of_fmap_2.
Qed.

(** What [RemoveIf] takes out is no longer found. *)
Lemma remove_items_gone t p m c :
  container t m = Some c ->
  is_Some (container t (remove_items t p m).1) /\ NoDup (remove_items t p m).2.*1 /\
  Forall (fun e => find t e.1 (remove_items t p m).1 = None) (remove_items t p m).2.
Proof.
  intros Hc. unfold remove_items. rewrite Hc. cbn. rewrite container_set, decide_True by done. split; [eauto|]. split.
  - apply NoDup_fmap_fst; [|apply NoDup_filter; rewrite range_perm; apply NoDup_map_to_list].
    intros k x y [_ Hx%elem_of_range]%list_elem_of_filter [_ Hy%elem_of_range]%list_elem_of_filter. congruence.
  - apply Forall_forall. intros [k item] [Hp Hin]%list_elem_of_filter. unfold find. rewrite container_set, decide_True by done.
    cbn. apply elem_of_range in Hin. apply map_lookup_filter_None. right. intros x Hx. rewrite Hin in Hx. injection Hx as <-. auto.
Qed.

Lemma check_container_balanced now t m : balanced [] [] m -> balanced [] [] (check_container now t m).1.
Proof.
  intros Hb. unfold check_container, st_bind, gets, modify. destruct (container t m) as [c|] eqn:E; [|done].
  set (p1 := to_stop now (monitors m)).
  pose proof (remove_items_balanced t p1 [] m Hb) as Hb1. destruct (remove_items_gone t p1 m c E) as [Hc1 _].
  destruct (remove_items t p1 m) as [m1 expired]. cbn [fst snd] in *. apply balanced_stop_all in Hb1.
  set (m2 := stop_all expired m1) in *.
  assert (is_Some (container t m2)) as [c2 Hc2].
  { unfold m2. clear -Hc1. revert m1 Hc1. induction expired as [|e l IH]; intros m1 Hc1; [done|]. apply IH, Hc1. }
  set (p2 := to_replace now (settings c) (monitors m2)).
  pose proof (remove_items_balanced t p2 [] m2 Hb1) as Hb2. destruct (remove_items_gone t p2 m2 c2 Hc2) as (Hc3 & Hnd & Hf).
  destruct (remove_items t p2 m2) as [m3 errored]. cbn [fst snd] in *. by apply replace_all_balanced.
Qed.

Lemma checkMonitors_balanced m : balanced [] [] m -> balanced [] [] (checkMonitors m).1.
Proof.
  intros Hb. unfold checkMonitors, st_bind. pose proof (same_time m) as Hs. destruct (time_now m) as [m1 now]. cbn in *.
  apply (balanced_same _ _ _ _ Hs) in Hb. clear Hs. generalize (registered m1). intros l. revert m1 Hb.
  induction l as [|t l IH]; intros m1 Hb; [done|]. cbn. unfold st_bind.
  pose proof (check_container_balanced now t m1 Hb) as Hb'. destruct (check_container now t m1) as [m2 []]. by apply IH.
Qed.

Lemma step_balanced o m : balanced [] [] m -> balanced [] [] (step o m).
Proof.
  destruct o; cbn [step].
  - apply balanced_same, same_register.
  - apply RunIfAbsent_balanced.
  - apply Remove_balanced.
  - apply StopAndRemove_balanced.
  - apply StopAndRemoveByType_balanced.
  - apply StopAndRemoveAll_balanced.
  - apply ProcessEvent_balanced.
  - apply checkMonitors_balanced.
Qed.

(** ** Lemmas: one monitor *)

Lemma find_alter t k f m :
  find t k (on_items t (fun items => RWMap.with_cache (alter f k (RWMap.cache items)) items) m) = f <$> find t k m.
Proof.
  unfold find. rewrite container_on_items, decide_True by done. destruct (container t m); [|done]. cbn.
  apply lookup_alter_eq.
Qed.
Lemma find_other t t' k f m : t' ≠ t -> find t k (on_items t' f m) = find t k m.
Proof. intros Ht. unfold find. by rewrite container_on_items, decide_False. Qed.

Lemma extend_find t k m item c :
  find t k m = Some item -> container t m = Some c ->
  find t k (extend t k m).1 =
    Some (set_expiry ((time_now m).2 + ExpirationTimeout (settings c)) item).
Proof.
  intros Hf Hc. unfold extend, st_bind, modify. pose proof (time_now_caches m) as Ht.
  destruct (time_now m) as [m1 now]. cbn in *. rewrite (container_eq t m m1 Ht), Hc, find_alter.
  by rewrite (find_eq t k m m1 Ht), Hf.
Qed.

Lemma RunIfAbsent_found t k i m item :
  find t k m = Some item -> (RunIfAbsent t k i m).2 = Ok (monitor item) /\ started (RunIfAbsent t k i m).1 = started m.
Proof.
  intros Hf. unfold RunIfAbsent, st_bind. pose proof (run_lookup_spec t k m) as Hl.
  destruct (run_lookup t k m) as [m1 [id|]]; destruct Hl as [Hs Hr]; cbn.
  - destruct Hr as (item' & Hf' & <-). rewrite Hf in Hf'. injection Hf' as <-. split; [done|apply Hs].
  - destruct Hr as [Hr _]. congruence.
Qed.

Lemma run_store_find t k i m c m' id :
  container t m = Some c -> find t k m = None -> run_store t k i m = (m', Ok id) ->
  exists item, find t k m' = Some item /\ monitor item = id.
Proof.
  intros Hc Hf. unfold run_store, st_bind. pose proof (supply_caches i m) as Hs.
  destruct (supply i m) as [m1 [id'|err]]; [|done]. cbn in *.
  pose proof (time_now_caches m1) as Ht. destruct (time_now m1) as [m2 now]. cbn in *.
  assert (monitorCaches m2 = monitorCaches m) as Hm by congruence.
  rewrite (container_eq t m m2 Hm), Hc. intros [= <- <-]. unfold find. rewrite container_on_items, decide_True by done.
  rewrite (container_eq t m m2 Hm), Hc. cbn. unfold PutIfAbsent, RWMap.Get.
  unfold find, RWMap.Get in Hf. rewrite Hc in Hf. rewrite Hf. cbn. rewrite lookup_insert_eq. by eexists.
Qed.

Lemma extend_other t t' k m : t' ≠ t -> container t (extend t' k m).1 = container t m.
Proof.
  intros Ht. unfold extend, st_bind, modify. pose proof (time_now_caches m) as Hc. destruct (time_now m) as [m1 now]. cbn in *.
  rewrite <-(container_eq t m m1 Hc). destruct (container t' m1); [|done]. by rewrite container_on_items, decide_False.
Qed.
Lemma extend_parts t k m c : container t m = Some c ->
  exists c', container t (extend t k m).1 = Some c' /\ settings c' = settings c /\ producedDataType c' = producedDataType c.
Proof.
  intros Hc. unfold extend, st_bind, modify. pose proof (time_now_caches m) as Ht. destruct (time_now m) as [m1 now]. cbn in *.
  rewrite (container_eq t m m1 Ht), Hc, container_on_items, decide_True, (container_eq t m m1 Ht), Hc by done. by eexists.
Qed.

(** The item of [t] and [k] during the loop over the monitor types; [done_] says
    that the type has been visited. *)
Record visiting n typeKey t k item (s : MonitorSettings) (done_ : bool) (m : M) : Prop := {
  vis_container : exists c, container t m = Some c /\ settings c = s /\ producedDataType c = typeKey;
  vis_find : exists e, find t k m = Some (set_expiry e item) /\ (done_ = true -> n + ExpirationTimeout s <= e);
  vis_clock : n <= (clock_now (monitors m)).2
}.

(** The clock does not go back. *)
Definition monotone_clock : Prop := forall p : P, (clock_now p).2 <= (clock_now (clock_now p).1).2.

Lemma extend_clock n t k m : monotone_clock -> n <= (clock_now (monitors m)).2 -> n <= (clock_now (monitors (extend t k m).1)).2.
Proof.
  intros Hmono Hn. unfold extend, st_bind, modify, time_now, zoom. pose proof (Hmono (monitors m)).
  destruct (clock_now (monitors m)) as [p now] eqn:E. cbn in *.
  destruct (container t _); [|cbn; lia]. unfold on_items. destruct (container t _); cbn; lia.
Qed.

Lemma visit n typeKey t k item s d t' m :
  monotone_clock -> typeKey ≠ "" ->
  visiting n typeKey t k item s d m ->
  visiting n typeKey t k item s (d || bool_decide (t' = t)) (extend_if_produced typeKey k t' m).1.
Proof.
  intros Hn Hty Hv. unfold extend_if_produced, st_bind, gets. destruct (decide (t' = t)) as [->|Ht].
  - destruct Hv as [(c & Hc & Hs & Hp) (e & Hf & _) Hclk]. rewrite Hc, Hp.
    rewrite (proj2 (String.eqb_neq typeKey "") Hty), String.eqb_refl. cbn. rewrite Hf.
    destruct (extend_parts t k m c Hc) as (c' & Hc' & Hs' & Hp').
    pose proof (extend_find t k m _ c Hf Hc) as He. constructor.
    + exists c'. split_and!; congruence.
    + rewrite He. eexists. split; [reflexivity|]. intros _. rewrite Hs. unfold time_now, zoom.
      destruct (clock_now (monitors m)). cbn in *. lia.
    + by apply extend_clock.
  - rewrite bool_decide_false, orb_false_r by done.
    assert (visiting n typeKey t k item s d (extend t' k m).1) as He.
    { pose proof (extend_other t t' k m Ht) as Ho. destruct Hv as [H1 H2 H3]. constructor; [by rewrite Ho| |by apply extend_clock].
      unfold find in *. by rewrite Ho. }
    destruct (container t' m); [|exact Hv]. case_bool; [exact Hv|]. by destruct (find t' k m).
Qed.

Lemma visit_all n typeKey t k item s d l m :
  monotone_clock -> typeKey ≠ "" ->
  visiting n typeKey t k item s d m ->
  visiting n typeKey t k item s (d || bool_decide (t ∈ l)) (for_all l (extend_if_produced typeKey k) m).1.
Proof.
  intros Hn Hty. revert d m. induction l as [|t' l IH]; intros d m Hv.
  { rewrite bool_decide_false, orb_false_r by set_solver. exact Hv. }
  cbn. unfold st_bind. pose proof (visit n typeKey t k item s d t' m Hn Hty Hv) as Hv'.
  destruct (extend_if_produced typeKey k t' m) as [m' []]. apply IH in Hv'. cbn in Hv'.
  assert (d || bool_decide (t ∈ t' :: l) = d || bool_decide (t' = t) || bool_decide (t ∈ l)) as ->; [|exact Hv'].
  rewrite <-orb_assoc. f_equal. repeat case_bool_decide; set_solver.
Qed.

Lemma access_extends typeKey t k m item c :
  monotone_clock -> typeKey ≠ "" -> producedDataType c = typeKey ->
  find t k m = Some item -> container t m = Some c ->
  exists e, find t k (ProcessEvent (DataAccessEvent typeKey k) m).1 = Some (set_expiry e item) /\
            (time_now m).2 + ExpirationTimeout (settings c) <= e.
Proof.
  intros Hn Hty Hp Hf Hc. cbn. unfold st_bind, gets.
  assert ((time_now m).2 = (clock_now (monitors m)).2) as -> by (unfold time_now, zoom; by destruct (clock_now _)).
  assert (visiting (clock_now (monitors m)).2 typeKey t k item (settings c) false m) as Hv.
  { constructor; [by exists c| |done]. exists (expiresAt item). split; [|done]. rewrite Hf. by destruct item. }
  apply (visit_all _ _ _ _ _ _ _ (registered m) _ Hn Hty) in Hv.
  destruct Hv as [_ (e & He & Hle) _]. exists e. split; [exact He|]. apply Hle. rewrite bool_decide_true; [done|].
  unfold registered. apply list_elem_of_fmap. exists (t, c). split; [done|]. by apply elem_of_range.
Qed.

(** ** Lemmas: a monitor in use

    What the manager reads of the monitor [x], and the independence of [x]
    from the other monitors: in the states [Q] in which [x] exists, their
    starts, stops and creations and the clock do not change it, and
    initializers give new monitors. *)
Definition observe (x : nat) (p : P) : MonitorState * Z * bool :=
  (GetState x p, GetLastActivityTimestampNanos x p, CanDispose x p).
Definition undisturbed (Q : P -> Prop) (x : nat) (p p' : P) : Prop := Q p' /\ observe x p' = observe x p.
Record independent (Q : P -> Prop) (x : nat) : Prop := {
  ind_stop id p : id ≠ x -> Q p -> undisturbed Q x p (Stop id p);
  ind_start id p : id ≠ x -> Q p -> undisturbed Q x p (Start id p);
  ind_initialize i p : Q p -> undisturbed Q x p (initialize i p).1 /\ (initialize i p).2 ≠ inl x;
  ind_clock p : Q p -> undisturbed Q x p (clock_now p).1
}.

Section in_use.
Context (t : string) (k : K) (item : monitorItem) (s : MonitorSettings) (o : MonitorState * Z * bool).
Context (Q : P -> Prop) (Hind : independent Q (monitor item)).

Record kept (m : M) : Prop := {
  kept_find : find t k m = Some item;
  kept_observe : Q (monitors m) /\ observe (monitor item) (monitors m) = o;
  kept_unique t' k' i : find t' k' m = Some i -> monitor i = monitor item -> t' = t /\ k' = k;
  kept_settings : settings <$> container t m = Some s
}.

Lemma kept_caches m m' :
  monitorCaches m' = monitorCaches m ->
  (Q (monitors m) -> undisturbed Q (monitor item) (monitors m) (monitors m')) -> kept m -> kept m'.
Proof.
  intros Hm Ho [H1 [HQ H2] H3 H4]. destruct (Ho HQ) as [HQ' Ho']. constructor.
  - by rewrite (find_eq t k m m' Hm).
  - split; [done|by rewrite Ho'].
  - intros t' k' i. rewrite (find_eq t' k' m m' Hm). apply H3.
  - by rewrite (container_eq t m m' Hm).
Qed.

Lemma kept_time m : kept m -> kept (time_now m).1.
Proof.
  apply kept_caches; [apply time_now_caches|]. intros HQ. unfold time_now, zoom.
  pose proof (ind_clock _ _ Hind (monitors m) HQ). by destruct (clock_now (monitors m)).
Qed.
Lemma kept_supply i m : kept m -> kept (supply i m).1.
Proof.
  apply kept_caches; [apply supply_caches|]. intros HQ. unfold supply, zoom.
  destruct (ind_initialize _ _ Hind i (monitors m) HQ). by destruct (initialize i (monitors m)).
Qed.
Lemma kept_stop id m : id ≠ monitor item -> kept m -> kept (stop id m).
Proof. intros Hn. apply kept_caches; [done|]. cbn. by apply (ind_stop _ _ Hind). Qed.
Lemma kept_start id m : id ≠ monitor item -> kept m -> kept (start id m).
Proof. intros Hn. apply kept_caches; [done|]. cbn. by apply (ind_start _ _ Hind). Qed.

Lemma kept_stop_all l m : Forall (fun e => monitor e.2 ≠ monitor item) l -> kept m -> kept (stop_all l m).
Proof. intros Hl. revert m. induction Hl as [|e l He _ IH]; intros m Hk; [done|]. by apply IH, kept_stop. Qed.

Lemma find_put_item t' k' t1 k1 i m :
  find t1 k1 (on_items t' (PutIfAbsent k' i) m) = find t1 k1 m \/
  find t1 k1 m = None /\ find t1 k1 (on_items t' (PutIfAbsent k' i) m) = Some i.
Proof.
  unfold find. rewrite container_on_items. destruct (decide (t' = t1)) as [->|]; [|by left].
  destruct (container t1 m) as [c|]; [|by left]. cbn. unfold PutIfAbsent, RWMap.Get.
  destruct (RWMap.cache (cache c) !! k') eqn:E; [by left|]. cbn.
  destruct (decide (k' = k1)) as [->|]; [right; by rewrite E, lookup_insert_eq|left; by rewrite lookup_insert_ne].
Qed.

Lemma kept_put t' k' i m : monitor i ≠ monitor item -> kept m -> kept (on_items t' (PutIfAbsent k' i) m).
Proof.
  intros Hi [H1 H2 H3 H4]. constructor.
  - destruct (find_put_item t' k' t k i m) as [->|[? _]]; [done|congruence].
  - unfold on_items. by destruct (container t' m).
  - intros t1 k1 i1. destruct (find_put_item t' k' t1 k1 i m) as [->|[_ ->]]; [apply H3|]. by intros [= <-].
  - rewrite container_on_items. case_decide; [|done]. by destruct (container t m).
Qed.

Lemma kept_run_store t' k' i m :
  kept m -> kept (run_store t' k' i m).1 /\ (run_store t' k' i m).2 ≠ Ok (monitor item).
Proof.
  intros Hk. unfold run_store, st_bind. pose proof (kept_supply i m Hk) as Hs.
  assert ((supply i m).2 ≠ inl (monitor item)) as Hn.
  { destruct Hk as [_ [HQ _] _ _]. unfold supply, zoom. destruct (ind_initialize _ _ Hind i (monitors m) HQ). by destruct (initialize i (monitors m)). }
  destruct (supply i m) as [m1 [id|err]]; cbn in *; [|done].
  pose proof (kept_time m1 Hs) as Ht. destruct (time_now m1) as [m2 now]. cbn in *. split; [|congruence].
  destruct (container t' m2); [|done]. apply kept_put; [cbn; congruence|done].
Qed.

Lemma kept_handleMonitorError t' s' e m :
  monitor e.2 ≠ monitor item -> kept m -> kept (handleMonitorError t' s' e m).1.
Proof.
  intros He Hk. unfold handleMonitorError, st_bind, modify. pose proof (kept_stop _ m He Hk) as Hs.
  destruct (responds MonitorErrorRecreate s'); [|done].
  destruct (kept_run_store t' e.1 (monitorSupplier e.2) _ Hs) as [Hr Hn].
  destruct (run_store _ _ _ _) as [m1 [id|err|]]; cbn in *; [|done..]. apply kept_start; [congruence|done].
Qed.

Lemma kept_remove_items t' p m :
  (t' = t -> p item = false) -> kept m ->
  kept (remove_items t' p m).1 /\ Forall (fun e => monitor e.2 ≠ monitor item) (remove_items t' p m).2.
Proof.
  intros Hp [H1 H2 H3 H4]. unfold remove_items. destruct (container t' m) as [c|] eqn:E; [|by split; [|constructor]].
  cbn. split.
  - assert (forall t1 k1 i, find t1 k1 (set_container t' (with_items (fun _ => (RemoveIf (fun _ i => p i) (cache c)).1) c) m) = Some i ->
              find t1 k1 m = Some i) as Hsub.
    { intros t1 k1 i. unfold find, RWMap.Get. rewrite container_set. case_decide; [|done]. subst t1. rewrite E. cbn.
      by intros [? _]%map_lookup_filter_Some. }
    constructor; [|done|intros t1 k1 i Hf; by apply H3, Hsub|].
    + unfold find, RWMap.Get in *. rewrite container_set. case_decide; [|done]. subst t'. rewrite E in H1. cbn in *.
      apply map_lookup_filter_Some. split; [done|]. cbn. by rewrite Hp.
    + rewrite container_set. case_decide; [|done]. subst t'. by rewrite E in H4.
  - apply Forall_forall. intros [k1 i] [Hpi Hin%elem_of_range]%list_elem_of_filter Heq. cbn in *.
    destruct (H3 t' k1 i) as [-> ->]; [unfold find; by rewrite E|done|].
    unfold find in H1. rewrite E in H1. cbn in H1. assert (i = item) as -> by (unfold RWMap.Get in *; congruence).
    rewrite Hp in Hpi; done.
Qed.

Lemma kept_check_container now t' m :
  o.1.1 = MonitorStateRunning -> now - o.1.2 <= InactiveTimeout s -> (now <= expiresAt item \/ o.2 = false) ->
  kept m -> kept (check_container now t' m).1.
Proof.
  intros Hrun Hact Hexp Hk. unfold check_container, st_bind, gets, modify.
  destruct (container t' m) as [c|] eqn:E; [|done].
  assert (forall m, kept m -> to_stop now (monitors m) item = false) as H1.
  { intros m' [_ [_ Ho] _ _]. unfold to_stop. unfold observe in Ho. rewrite <-Ho in Hrun, Hexp. cbn in *. rewrite Hrun.
    destruct Hexp as [Hle| ->]; [|by rewrite andb_false_r]. destruct (Z.ltb_spec (expiresAt item) now); [lia|done]. }
  assert (forall m, kept m -> t' = t -> to_replace now (settings c) (monitors m) item = false) as H2.
  { intros m' [_ [_ Ho] _ _] ->. unfold to_replace. unfold observe in Ho. rewrite <-Ho in Hrun, Hact. cbn in *. rewrite Hrun. cbn.
    apply Z.ltb_ge. destruct Hk as [_ _ _ Hs]. rewrite E in Hs. injection Hs as ->. done. }
  destruct (kept_remove_items t' (to_stop now (monitors m)) m (fun _ => H1 m Hk) Hk) as [Hk1 Hl1].
  destruct (remove_items t' (to_stop now (monitors m)) m) as [m1 expired]. cbn [fst snd] in *.
  pose proof (kept_stop_all expired m1 Hl1 Hk1) as Hk2. set (m2 := stop_all expired m1) in *.
  destruct (kept_remove_items t' (to_replace now (settings c) (monitors m2)) m2 (H2 m2 Hk2) Hk2) as [Hk3 Hl3].
  destruct (remove_items t' (to_replace now (settings c) (monitors m2)) m2) as [m3 errored]. cbn [fst snd] in *.
  clear -Hind Hk3 Hl3. revert m3 Hk3. induction Hl3 as [|e l He _ IH]; intros m3 Hk; [done|]. cbn. unfold st_bind.
  pose proof (kept_handleMonitorError t' (settings c) e m3 He Hk) as Hk'.
  destruct (handleMonitorError t' (settings c) e m3) as [m4 []]. by apply IH.
Qed.
End in_use.

(** ** Properties *)

(** C6. After any sequence of whole calls on a new monitor manager, the
    monitors it holds, those it stopped and those Remove gave back are
    together a permutation of the monitors it started: every started monitor
    is in one cache or was stopped once. *)
Theorem monitors_accounted_for interval publisher p ops :
  let m := run_ops step ops (NewMonitorManager interval publisher p) in
  managed m ++ stopped m ++ handed m ≡ₚ started m.
Proof.
  apply (run_invariant step (balanced [] []) step_balanced ops). unfold balanced, managed. cbn. by rewrite vals_empty.
Qed.

(** RunIfAbsent gives every caller of a type and key the same monitor: when a
    call returns a monitor it is the one in the cache, and a further call with
    any initializer returns the same one and starts nothing. *)
Theorem RunIfAbsent_shares_monitor t k i i' m m' id :
  RunIfAbsent t k i m = (m', Ok id) ->
  Get t k m' = Some id /\
  (RunIfAbsent t k i' m').2 = Ok id /\ started (RunIfAbsent t k i' m').1 = started m'.
Proof.
  intros Hr. assert (exists item, find t k m' = Some item /\ monitor item = id) as (item & Hf & <-).
  { unfold RunIfAbsent, st_bind in Hr. pose proof (run_lookup_spec t k m) as Hl.
    destruct (run_lookup t k m) as [m1 [id'|]] eqn:El; destruct Hl as [Hs Hl].
    - injection Hr as <- <-. destruct Hl as (item & Hf & <-).
      destruct (find_container _ _ _ _ Hf) as (c & Hc & _). unfold run_lookup, st_bind in El. cbn in El. rewrite Hc in El.
      cbn in El. rewrite Hf in El. pose proof (extend_find t k m item c Hf Hc) as He.
      destruct (extend t k m) as [m2 []]. injection El as <-. cbn in He. rewrite He. by eexists.
    - destruct Hl as (_ & Hf & c & Hc). rewrite eff_bind_eq in Hr.
      destruct (run_store t k i m1) as [m2 [id2|e|]] eqn:Es; [|done..].
      destruct (run_store_find t k i m1 c m2 id2 Hc Hf Es) as (item & Hi & <-).
      cbn in Hr. injection Hr as <- <-. by exists item. }
  unfold Get. rewrite Hf. split; [done|]. by apply RunIfAbsent_found.
Qed.

(** C32. A clean-up spares a monitor in use: one that runs, has shown
    activity within the inactivity time-out of its type and has not expired
    (or cannot be disposed of) stays in its cache, whatever happens to the
    other monitors. *)
Theorem check_spares_monitor_in_use Q t k m item c :
  independent Q (monitor item) -> Q (monitors m) ->
  find t k m = Some item -> container t m = Some c ->
  (forall t' k' i, find t' k' m = Some i -> monitor i = monitor item -> t' = t /\ k' = k) ->
  GetState (monitor item) (monitors m) = MonitorStateRunning ->
  (time_now m).2 - GetLastActivityTimestampNanos (monitor item) (monitors m) <= InactiveTimeout (settings c) ->
  ((time_now m).2 <= expiresAt item \/ CanDispose (monitor item) (monitors m) = false) ->
  find t k (checkMonitors m).1 = Some item.
Proof.
  intros Hind HQ Hf Hc Hu Hrun Hact Hexp. set (o := observe (monitor item) (monitors m)).
  assert (kept t k item (settings c) o Q m) as Hk by (constructor; [done..|by rewrite Hc]).
  unfold checkMonitors, st_bind. apply (kept_time _ _ _ _ _ _ Hind) in Hk.
  destruct (time_now m) as [m1 now]. cbn in *. generalize (registered m1). intros l.
  cut (kept t k item (settings c) o Q (for_all l (check_container now) m1).1); [by intros []|].
  revert m1 Hk. induction l as [|t' l IH]; intros m1 Hk; [done|]. cbn. unfold st_bind.
  pose proof (kept_check_container t k item (settings c) o Q Hind now t' m1 Hrun Hact Hexp Hk) as Hk'.
  destruct (check_container now t' m1) as [m2 []]. by apply IH.
Qed.

(** An access to the data of a monitor extends it: when a data access event is
    processed, every monitor with the event's key whose type produces the
    event's data type expires no earlier than its time-out after the event. *)
Theorem data_access_extends typeKey t k m item c :
  monotone_clock -> typeKey ≠ "" -> producedDataType c = typeKey ->
  find t k m = Some item -> container t m = Some c ->
  exists e, find t k (ProcessEvent (DataAccessEvent typeKey k) m).1 = Some (set_expiry e item) /\
            (time_now m).2 + ExpirationTimeout (settings c) <= e.
Proof. apply access_extends. Qed.
End MonitorService.
Arguments MonitorManager K {_ _} P Init.
Arguments cacheContainer K {_ _} Init.
Arguments monitorItem Init : clear implicits.
Arguments Op K Init : clear implicits.

(** ** Concrete monitors

    A clock that stands, and monitors that run from their start to their stop
    and note the time of their start; [Some t] is the type of an initializer
    that fails. *)
Record Bench := mkBench { bench_clock : Z; bench : gmap nat (MonitorState * Z); bench_next : nat }.
#[export] Instance Bench_eta : Eta Bench := fun b => mkBench (bench_clock b) (bench b) (bench_next b).
#[export] Instance bench_monitors : Monitors Bench bool := {
  initialize := fun fails b =>
    if fails then (b, inr (PlainError "initializer" []))
    else (b <| bench := <[bench_next b := (MonitorStateStopped, bench_clock b)]> (bench b) |>
            <| bench_next := S (bench_next b) |>, inl (bench_next b));
  Start := fun id b => b <| bench := <[id := (MonitorStateRunning, bench_clock b)]> (bench b) |>;
  Stop := fun id b => b <| bench := <[id := (MonitorStateStopped, bench_clock b)]> (bench b) |>;
  GetState := fun id b => from_option fst MonitorStateStopped (bench b !! id);
  GetLastActivityTimestampNanos := fun id b => from_option snd 0 (bench b !! id);
  CanDispose := fun _ _ => true
}.
#[export] Instance bench_reading : Clock Bench := fun b => (b, bench_clock b).
Definition set_clock {K} `{Countable K} (now : Z) (m : MonitorManager K Bench bool) : MonitorManager K Bench bool :=
  m <| monitors := (monitors m) <| bench_clock := now |> |>.
Definition new_bench : MonitorManager string Bench bool := NewMonitorManager Minute true (mkBench 0 ∅ 0).

Lemma bench_independent x : independent (fun b => (x < bench_next b)%nat) x.
Proof.
  constructor.
  - intros id p Hn Hx. split; [done|]. unfold observe. cbn. by rewrite lookup_insert_ne by done.
  - intros id p Hn Hx. split; [done|]. unfold observe. cbn. by rewrite lookup_insert_ne by done.
  - intros [] p Hx; [by repeat split|]. split; [|cbn; intros [= <-]; lia]. split; [cbn; lia|].
    unfold observe. cbn. by rewrite lookup_insert_ne by lia.
  - done.
Qed.

Lemma monitors_accounted_for_witness :
  let m := run_ops step [ORun "Topology" "a" false; ORun "Topology" "b" false; OStopAndRemove "Topology" "a"; OCheck]
             new_bench in
  managed m ++ stopped m ++ handed m ≡ₚ [0; 1]%nat.
Proof.
  etransitivity; [apply (monitors_accounted_for Minute true (mkBench 0 ∅ 0)
    [ORun "Topology" "a" false; ORun "Topology" "b" false; OStopAndRemove "Topology" "a"; OCheck])|].
  vm_compute. reflexivity.
Defined.

Lemma RunIfAbsent_shares_monitor_witness :
  let m := (RunIfAbsent "Topology" "a" false new_bench).1 in
  Get "Topology" "a" m = Some 0%nat /\
  (RunIfAbsent "Topology" "a" true m).2 = Ok 0%nat /\ started (RunIfAbsent "Topology" "a" true m).1 = started m.
Proof.
  intros m. apply (RunIfAbsent_shares_monitor "Topology" "a" false true new_bench m 0%nat). vm_compute. reflexivity.
Defined.

Definition limitless : MonitorManager string Bench bool :=
  run_ops step [ORegister "LimitlessRouterMonitor" (mkSettings 100 50 [(MonitorErrorRecreate, true)]) "LimitlessRouters";
                ORun "LimitlessRouterMonitor" "a" false; ORun "LimitlessRouterMonitor" "b" false] new_bench.

Definition limitless_container : cacheContainer string bool :=
  mkContainer (mkSettings 100 50 [(MonitorErrorRecreate, true)])
    (NewRWMapFromMap {["a" := mkItem 0 false 100; "b" := mkItem 1 false 100]}) "LimitlessRouters".

Lemma data_access_extends_witness :
  exists e, find "LimitlessRouterMonitor" "a"
              (ProcessEvent (DataAccessEvent "LimitlessRouters" "a") (set_clock 90 limitless)).1 =
              Some (set_expiry e (mkItem 0 false 100)) /\ 90 + 100 <= e.
Proof.
  refine (data_access_extends "LimitlessRouters" "LimitlessRouterMonitor" "a" (set_clock 90 limitless)
            (mkItem 0 false 100) limitless_container
            _ _ _ _ _); [intros p; apply Z.le_refl|done|vm_compute; reflexivity..].
Defined.

Lemma check_spares_monitor_in_use_witness :
  find "LimitlessRouterMonitor" "a" (checkMonitors (set_clock 40 limitless)).1 = Some (mkItem 0 false 100).
Proof.
  apply (check_spares_monitor_in_use (fun b => (0 < bench_next b)%nat) "LimitlessRouterMonitor" "a" (set_clock 40 limitless)
           (mkItem 0 false 100) limitless_container).
  - apply bench_independent.
  - vm_compute. lia.
  - vm_compute. reflexivity.
  - vm_compute. reflexivity.
  - intros t' k' i Hf Hi. unfold find, container, RWMap.Get in Hf.
    assert (RWMap.cache (monitorCaches (set_clock 40 limitless)) = {["LimitlessRouterMonitor" := limitless_container]}) as Hm
      by (vm_compute; reflexivity).
    rewrite Hm in Hf. destruct ({[_ := _]} !! t') as [c|] eqn:Et; [|done].
    apply lookup_singleton_Some in Et as [<- <-]. split; [done|]. cbn in Hf.
    apply lookup_insert_Some in Hf as [[<- _]|[_ Hf]]; [done|].
    by apply lookup_singleton_Some in Hf as [_ <-].
  - vm_compute. reflexivity.
  - vm_compute. discriminate.
  - left. vm_compute. discriminate.
Defined.

(** ** Between the steps *)

(** Two callers look up the monitor before either stores one: both create and
    start a monitor, and the one that is not in the cache is stopped by
    nobody. *)
Example RunIfAbsent_race :
  let m := (run_lookup "Topology" "a" new_bench).1 in
  let m := (run_lookup "Topology" "a" m).1 in
  let m := start 0 (run_store "Topology" "a" false m).1 in
  let m := start 1 (run_store "Topology" "a" false m).1 in
  let m := StopAndRemoveAll m in
  started m = [0; 1]%nat /\ stopped m = [0%nat] /\ GetState 1 (monitors m) = MonitorStateRunning.
Proof. vm_compute. done. Qed.

(** A clean-up between the store and the start of a monitor takes it for a
    stopped one; the monitor then starts outside the cache. *)
Example check_between_store_and_start :
  let m := (run_lookup "Topology" "a" new_bench).1 in
  let m := (run_store "Topology" "a" false m).1 in
  let m := (checkMonitors m).1 in
  let m := start 0 m in
  managed m = [] /\ GetState 0 (monitors m) = MonitorStateRunning.
Proof. vm_compute. done. Qed.

(** A type that was never registered produces no data type, so reads of the
    topology do not extend the topology monitor: it is stopped at the first
    clean-up after its time-out. *)
Example unregistered_type_is_not_extended :
  let m := (RunIfAbsent "ClusterTopology" "a" false new_bench).1 in
  let m := (ProcessEvent (DataAccessEvent "Topology" "a") (set_clock (14 * Minute) m)).1 in
  let m := (checkMonitors (set_clock (16 * Minute) m)).1 in
  managed m = [] /\ stopped m = [0%nat].
Proof. vm_compute. done. Qed.
