(* ===== verification/CoreServices.v ===== *)
(** * CoreServices: the services every connection shares
    (awssql/services/core.go), and how they work together.

    The storage announces a hit to the event publisher, the publisher's ticker
    passes it to the monitor manager, and the manager extends the monitors
    that produce the data. [Core] joins the three; the subscriber [None] is
    the manager, [Some i] are the other subscribers of the program (topology
    monitors and host monitors), which act on their own state. *)

From S2P Require Import Prelude.
From S2P Require Import RWMap.
From S2P Require Import ExpirationCache.
From S2P Require Import Effects.
From S2P Require Import Events.
From S2P Require Import Storage.
From S2P Require Import MonitorService.

Definition DefaultStorageCleanupInterval : Z := 30 * Second.
Definition DefaultMonitorCheckInterval : Z := 10 * Second.

Section CoreServices.
Context {K : Type} `{Countable K} {V P Init : Type} `{!Monitors P Init} `{!Clock P} `{MapRange}.
Notation Subscriber := (option nat).

Record CoreServiceContainer := mkCore {
  storage : ExpiringStorage K V;
  monitor_service : MonitorManager K P Init;
  events : BatchingEventPublisher K Subscriber
}.
#[export] Instance Core_eta : Eta CoreServiceContainer := fun c => mkCore (storage c) (monitor_service c) (events c).
Notation Core := CoreServiceContainer.

(** The singleton: [once_done] is the state of [coreServiceContainerOnce].
    The functions run under [coreServiceMu]. *)
Record Singleton := mkSingleton { coreServiceContainer : option Core; once_done : bool }.

(** [p] is the state of the monitors when the manager is created. *)
Definition new_core (p : P) : Core :=
  let events := NewBatchingEventPublisher DefaultMessageInterval in
  let storage := RegisterDefaultStorageTypes (NewExpiringStorage DefaultStorageCleanupInterval true) in
  mkCore storage (NewMonitorManager DefaultMonitorCheckInterval true p) (Subscribe None managerSubscriptions events).

Definition GetCoreServiceContainer (p : P) (g : Singleton) : Singleton * option Core :=
  let g := if once_done g then g else mkSingleton (Some (new_core p)) true in
  (g, coreServiceContainer g).

Definition shutdownLocked (g : Singleton) : Result Singleton :=
  match coreServiceContainer g with
  | None => Ok (mkSingleton None false)
  | Some c =>
      (try s := Storage.Stop (storage c) in
       try m := ReleaseResources (monitor_service c) in
       try e := Events.Stop (events c) in
       Ok (mkSingleton None false))%go
  end.
Definition Shutdown : Singleton -> Result Singleton := shutdownLocked.

(** ** The services at work *)

Definition process (delivery : Subscriber * Event K) (c : Core) : Core :=
  match delivery.1 with
  | None => c <| monitor_service := (ProcessEvent delivery.2 (monitor_service c)).1 |>
  | Some _ => c
  end.
Definition process_all (deliveries : list (Subscriber * Event K)) (c : Core) : Core :=
  foldl (fun c d => process d c) c deliveries.

Definition publish (event : Event K) (c : Core) : Core :=
  let '(p, deliveries) := Publish event (events c) in
  process_all deliveries (c <| events := p |>).

(** [StorageService.Get] of the program's storage. *)
Definition read (now : Z) (typeKey : string) (key : K) (c : Core) : Core * option V :=
  let '(s, v, event) := Storage.Get now typeKey key (storage c) in
  let c := c <| storage := s |> in
  match event with
  | None => (c, v)
  | Some e => (publish e c, v)
  end.

(** A tick of the publisher, and one of the manager. *)
Definition publisher_tick (c : Core) : Core :=
  let '(p, deliveries) := sendPendingEvents (events c) in
  process_all deliveries (c <| events := p |>).
Definition manager_tick (c : Core) : Core :=
  c <| monitor_service := (checkMonitors (monitor_service c)).1 |>.

(** ** Lemmas *)

Inductive ServiceOp := OGetCore (p : P) | OShutdown.
Definition service_step (o : ServiceOp) (g : Singleton) : Result Singleton :=
  match o with OGetCore p => Ok (GetCoreServiceContainer p g).1 | OShutdown => Shutdown g end.
Fixpoint service_run (ops : list ServiceOp) (g : Singleton) : Result Singleton :=
  match ops with
  | [] => Ok g
  | o :: r => (try g := service_step o g in service_run r g)%go
  end.

(** The singleton is absent, or fresh from [new_core]. *)
Definition fresh (g : Singleton) : Prop :=
  coreServiceContainer g = None /\ once_done g = false \/
  exists p, coreServiceContainer g = Some (new_core p) /\ once_done g = true.

Lemma stop_new_core p : shutdownLocked (mkSingleton (Some (new_core p)) true) = Ok (mkSingleton None false).
Proof. reflexivity. Qed.

Lemma service_step_fresh o g : fresh g -> exists g', service_step o g = Ok g' /\ fresh g'.
Proof.
  intros Hf. destruct o as [p|].
  - eexists. split; [reflexivity|]. unfold GetCoreServiceContainer. destruct Hf as [[Hc Ho]|(p' & Hc & Ho)]; rewrite Ho; cbn.
    + right. by exists p.
    + right. by exists p'.
  - destruct g as [c o]. exists (mkSingleton None false). split; [|by left].
    destruct Hf as [[Hc Ho]|(p' & Hc & Ho)]; cbn in *; subst; [done|apply stop_new_core].
Qed.

Lemma process_others deliveries c : Forall (fun d => d.1 ≠ None) deliveries -> process_all deliveries c = c.
Proof.
  intros Hd. revert c. induction Hd as [|[[i|] e] l Hd _ IH]; intros c; [done|apply IH|done].
Qed.

(** Among deliveries of one event the manager's is processed once. *)
Lemma process_one e deliveries c :
  NoDup deliveries -> (None, e) ∈ deliveries -> Forall (fun d => d.2 = e) deliveries ->
  process_all deliveries c = process (None, e) c.
Proof.
  revert c. induction deliveries as [|[s e'] l IH]; intros c Hnd Hin Hall; [set_solver|].
  apply NoDup_cons in Hnd as [Hni Hnd]. apply Forall_cons in Hall as [He Hall]. cbn in He. subst e'.
  apply elem_of_cons in Hin as [[= <-]|Hin].
  - change (process_all ((None, e) :: l) c) with (process_all l (process (None, e) c)). apply process_others.
    rewrite Forall_forall in Hall |- *. intros [s e'] Hd Hs. cbn in Hs. subst s. apply Hni. by rewrite <-(Hall _ Hd).
  - destruct s as [i|]; [|done]. by apply (IH c).
Qed.

(** The batch after one access: its event, to each subscriber once. *)
Lemma access_batch (e : Event K) (p : BatchingEventPublisher K Subscriber) (spec : gset (string * Subscriber)) :
  IsImmediateDelivery e = false -> RWMap.cache (pendingEvents p) = ∅ -> agrees p spec ->
  let '(p', ds) := sendPendingEvents (Publish e p).1 in
  NoDup ds /\ Forall (fun d => d.2 = e) ds /\ forall s, (s, e) ∈ ds <-> (Name (GetEventType e), s) ∈ spec.
Proof.
  intros Hi Hp Ha. pose proof (step_agrees (OPublish e) p spec Ha) as Ha1.
  pose proof (fun s => send_delivers_pending (Publish e p).1 spec e s Ha1) as Hs.
  assert (RWMap.cache (pendingEvents (Publish e p).1) = {[Name (GetEventType e) := e]}) as Hpe.
  { unfold Publish. rewrite Hi. cbn. by rewrite Hp, lookup_empty, Hp. }
  rewrite Hpe in Hs. destruct (sendPendingEvents (Publish e p).1) as [p' ds] eqn:E. cbn [snd] in Hs.
  assert (ds = deliverEvent e p') as ->.
  { unfold sendPendingEvents, deliver_all, copy_pending, GetAllEntries in E. rewrite Hpe in E. injection E as <- <-.
    pose proof (range_perm 41 ({[Name (GetEventType e) := e]} : gmap string (Event K))) as Hr.
    rewrite map_to_list_singleton in Hr. apply Permutation_singleton_r in Hr. rewrite Hr. cbn. by rewrite app_nil_r. }
  split; [apply deliverEvent_once|]. split.
  - apply Forall_forall. intros d. unfold deliverEvent. destruct (RWMap.Get _ _); [|set_solver].
    by intros (? & -> & _)%list_elem_of_fmap.
  - intros s. rewrite Hs. split; [by intros [_ ?]|]. split; [|done]. exists (Name (GetEventType e)). apply lookup_singleton_eq.
Qed.

(** ** Properties *)

(** Whatever the order of the calls of GetCoreServiceContainer and Shutdown,
    no channel is closed twice: Shutdown does not panic, also when it is
    called twice or before the first use. *)
Theorem Shutdown_never_panics ops g :
  coreServiceContainer g = None -> once_done g = false -> exists g', service_run ops g = Ok g'.
Proof.
  intros Hc Ho. assert (fresh g) as Hf by by left. clear Hc Ho. revert g Hf.
  induction ops as [|o ops IH]; intros g Hf; [by eexists|].
  destruct (service_step_fresh o g Hf) as (g' & Hg & Hf'). cbn. rewrite Hg. by apply IH.
Qed.

(** C33. Reading data keeps the monitor that produces them: when a read of
    the storage finds data under a type and a key, the next tick of the
    publisher extends every monitor with that key whose type produces the
    data to its time-out after the tick at least, provided no other read
    came between. *)
Theorem read_extends_monitor (now : Z) (typeKey : string) (key : K) (v : V) (t : string) (item : monitorItem Init) (cont : cacheContainer K Init)
  (spec : gset (string * Subscriber)) (c : Core) :
  monotone_clock (P := P) -> typeKey ≠ "" -> producedDataType cont = typeKey ->
  agrees (events c) spec -> (Name DataAccessEventType, None) ∈ spec ->
  RWMap.cache (pendingEvents (events c)) = ∅ -> publisher (storage c) = true ->
  find t key (monitor_service c) = Some item -> container t (monitor_service c) = Some cont ->
  (read now typeKey key c).2 = Some v ->
  exists e, find t key (monitor_service (publisher_tick (read now typeKey key c).1)) = Some (set_expiry e item) /\
            (time_now (monitor_service c)).2 + ExpirationTimeout (settings cont) <= e.
Proof.
  intros Hmono Hty Hprod Ha Hsub Hpend Hpub Hf Hc. unfold read.
  assert (Storage.Get now typeKey key (storage c) =
            ((Storage.Get now typeKey key (storage c)).1.1, (Storage.Get now typeKey key (storage c)).1.2,
             match (Storage.Get now typeKey key (storage c)).1.2 with
             | Some _ => Some (DataAccessEvent typeKey key) | None => None end)) as ->.
  { unfold Storage.Get. destruct (caches (storage c) !! typeKey); [|done].
    destruct (ExpirationCache.Get _ _ _) as [? []]; [|done]. cbn. by rewrite Hpub. }
  destruct (Storage.Get now typeKey key (storage c)).1.2 as [v'|]; [|done]. intros _.
  set (s' := (Storage.Get now typeKey key (storage c)).1.1). set (ev := DataAccessEvent typeKey key).
  pose proof (access_batch ev (events c) spec eq_refl Hpend Ha) as Hb. set (q := (Publish ev (events c)).1) in Hb.
  change (publisher_tick _) with
    (process_all (sendPendingEvents q).2 (mkCore s' (monitor_service c) (sendPendingEvents q).1)).
  destruct (sendPendingEvents q) as [p' ds]. destruct Hb as (Hnd & Hall & Hin).
  rewrite (process_one ev) by (try apply Hin; done). by apply access_extends.
Qed.
End CoreServices.
Arguments CoreServiceContainer K {_ _} V P Init.
Arguments Singleton K {_ _} V P Init.

Definition new_core_bench (p : Bench) : CoreServiceContainer string string Bench bool := new_core p.

Lemma Shutdown_never_panics_witness :
  exists g', service_run [OShutdown; OGetCore (mkBench 0 ∅ 0); OShutdown; OShutdown]
               (mkSingleton None false : Singleton string string Bench bool) = Ok g'.
Proof. apply Shutdown_never_panics; reflexivity. Defined.

(** Routers of a limitless cluster: their type is registered as what the
    router monitors produce. *)
Definition with_routers : CoreServiceContainer string string Bench bool :=
  let c := new_core_bench (mkBench 0 ∅ 0) in
  let s := Register "LimitlessRouters" (10 * Minute) true None false (storage c) in
  mkCore (Set_ 0 "LimitlessRouters" "b" "routers of b" (Set_ 0 "LimitlessRouters" "a" "routers of a" s))
    (run_ops MonitorService.step
       [ORegister "LimitlessRouterMonitor" (mkSettings (10 * Minute) (30 * Minute) []) "LimitlessRouters";
        ORun "LimitlessRouterMonitor" "a" false; ORun "LimitlessRouterMonitor" "b" false] (monitor_service c))
    (events c).
Definition at_time (now : Z) (c : CoreServiceContainer string string Bench bool) : CoreServiceContainer string string Bench bool :=
  c <| monitor_service := set_clock now (monitor_service c) |>.

Lemma read_extends_monitor_witness :
  exists e, find "LimitlessRouterMonitor" "a"
              (monitor_service (publisher_tick (read Minute "LimitlessRouters" "a" (at_time Minute with_routers)).1)) =
              Some (set_expiry e (mkItem 0 false (10 * Minute))) /\ Minute + 10 * Minute <= e.
Proof.
  edestruct (read_extends_monitor Minute "LimitlessRouters" "a" "routers of a" "LimitlessRouterMonitor"
           (mkItem 0 false (10 * Minute))
           (mkContainer (mkSettings (10 * Minute) (30 * Minute) [])
              (NewRWMapFromMap {["a" := mkItem 0 false (10 * Minute); "b" := mkItem 1 false (10 * Minute)]}) "LimitlessRouters")
           {[("DataAccess", None); ("MonitorStop", None)]} (at_time Minute with_routers)) as (e & He & Hle).
  11: exists e; split; [exact He|exact Hle].
  - intros p. apply Z.le_refl.
  - done.
  - reflexivity.
  - assert (agrees (NewBatchingEventPublisher DefaultMessageInterval : BatchingEventPublisher string (option nat)) ∅) as Ha.
    { split; [apply wf_new|]. intros name x. unfold subscribed. set_solver. }
    apply (run_agrees [OSubscribe None managerSubscriptions]) in Ha.
    replace {[("DataAccess", None); ("MonitorStop", None)]} with
      (foldl (fun spec (o : Events.Op string (option nat)) => subscriptions o spec) ∅ [OSubscribe None managerSubscriptions])
      by (vm_compute; reflexivity). exact Ha.
  - cbn. set_solver.
  - vm_compute. reflexivity.
  - vm_compute. reflexivity.
  - vm_compute. reflexivity.
  - vm_compute. reflexivity.
  - vm_compute. reflexivity.
Defined.

(** Two clusters whose routers are read in every interval: the batch keeps the
    last access only, so the monitor of the cluster read first is stopped
    after its time-out although its data are in use. *)
Fixpoint intervals (n : nat) (now : Z) (c : CoreServiceContainer string string Bench bool)
  : CoreServiceContainer string string Bench bool :=
  match n with
  | O => c
  | S n =>
      let now := now + DefaultMessageInterval in
      let c := at_time now c in
      let c := (read now "LimitlessRouters" "a" c).1 in
      let c := (read now "LimitlessRouters" "b" c).1 in
      intervals n now (manager_tick (publisher_tick c))
  end.
Example monitor_of_used_data_stopped :
  let c := intervals 21 0 with_routers in
  MonitorService.Get "LimitlessRouterMonitor" "a" (monitor_service c) = None /\
  MonitorService.Get "LimitlessRouterMonitor" "b" (monitor_service c) = Some 1%nat /\
  stopped (monitor_service c) = [0%nat].
Proof. vm_compute. done. Qed.
