(* ===== verification/Limitless.v ===== *)
(** * Limitless: connecting to the routers of a shard group
    (awssql/plugins/limitless/).

    The routers come from a query, are kept in the storage service by the
    cluster id, and are picked by weight. A connect works on its context,
    [Ctx], beside the plugin service; a context lost with an error keeps its
    connection open. The storage and the monitor service are reached by the
    class [HasLimitless]; the routers in the storage are pointers, so their
    availability is shared. The lock of a cluster only serialises the fetching
    of its routers. The loop that retries takes fuel, [Ok None] is a run that
    is out of it. The monitor of the routers is at the end of the file. *)

From S2P Require Import Prelude.
From S2P Require Import HostInfo.
From S2P Require Import CacheMap.
From S2P Require Import Effects.
From S2P Require Import Properties.
From S2P Require Import RdsUtils.
From S2P Require Import Dsn.
From S2P Require Import Dialects.
From S2P Require Import HostSelectors.
From S2P Require Import SessionState.
From S2P Require Import PluginManager.
From S2P Require Import PluginService.
From S2P Require Import MonitorService.
From Stdlib Require Import QArith_base.
Open Scope Z_scope.

(** ** The query (limitless_query_helper.go) *)

Definition IsDialectLimitless (d : option Dialect) : bool :=
  match d with Some AuroraPgDatabaseDialect | Some GlobalAuroraPgDatabaseDialect => true | _ => false end.
Definition GetLimitlessRouterEndpointQuery : string :=
  "select router_endpoint, load from pg_catalog.aurora_limitless_router_endpoints()".

(** The product of a [float64] and 10: an integer [10 * n] over a power of
    two, rounded to 53 bits, half to even. *)
Definition round_half_even (a b : Z) : Z :=
  let q := (a / b)%Z in
  let r := (a mod b)%Z in
  if 2 * r <? b then q else if b <? 2 * r then q + 1 else if Z.even q then q else q + 1.
Definition times_ten (load : Q) : Q :=
  let product := 10 * Qnum load in
  let e := 2 ^ Z.max 0 (Z.log2 (Z.abs product) + 1 - 53) in
  Qmake (round_half_even product e * e) (Qden load).
Definition math_Floor (q : Q) : Z := Qnum q / Z.pos (Qden q).

(** The conversion to [int] of a number far outside the weights gives a number
    outside of them too. *)
Definition mapLimitlessRouterLoadToHostInfoWeight (routerLoad : Q) : Z :=
  let weight := 10 - math_Floor (times_ten routerLoad) in
  if (weight <? 1) || (10 <? weight) then 1 else weight.

Definition router_host (hostName : string) (load : Q) (hostPortToMap now : Z) : Result HostInfo :=
  Build (SetLastUpdateTime now (SetHostId hostName (HostInfo.SetAvailability AVAILABLE (SetRole WRITER
    (SetWeight (mapLimitlessRouterLoadToHostInfoWeight load) (SetPort hostPortToMap (SetHost hostName NewHostInfoBuilder))))))).

(** The property with the flags the plugin reads when it is created. *)
Definition NewLimitlessPlugin (props : properties) : Result unit :=
  if (GetVerifiedWrapperPropertyValue (Some props) LIMITLESS_USE_SHARD_GROUP_URL : bool) &&
     negb (IsLimitlessDbShardGroupDns (GetVerifiedWrapperPropertyValue (Some props) HOST)) then
    Err (NewGenericAwsWrapperError "LimitlessPlugin.expectedShardGroupUrl" [GetVerifiedWrapperPropertyValue (Some props) HOST])
  else Ok tt.
Definition limitless_SubscribedMethods : list string := [CONNECT_METHOD].

(** The storage of the routers, the monitor service, and whether the plugin
    has made its router service, which registers the types of both. *)
Class HasLimitless (P : Type) := {
  routers_Get : string -> St P (option (list loc));
  routers_Set : string -> list loc -> St P unit;
  router_service_set : P -> bool;
  NewLimitlessRouterServiceImpl : Z -> St P unit;
  run_router_monitor : string -> loc -> properties -> Z -> Eff P unit
}.

Record LimitlessConnectionContext (C : Type) := mkContext {
  ctx_Host : HostInfo;
  ctx_Props : properties;
  connection : option C;
  LimitlessRouters : list loc
}.
Arguments mkContext {C} _ _ _ _.
Arguments ctx_Host {C} _.
Arguments ctx_Props {C} _.
Arguments connection {C} _.
Arguments LimitlessRouters {C} _.
#[export] Instance LimitlessConnectionContext_eta C : Eta (LimitlessConnectionContext C) := fun c =>
  mkContext (ctx_Host c) (ctx_Props c) (connection c) (LimitlessRouters c).

Section Limitless.
Context {C V Sel P : Type} `{EqDecision C} `{ExecConn C} `{DriverDialect C} `{PrepareHost} `{HasLimitless P} `{Clock P}.
Local Abbreviation Svc := (PluginServiceImpl (C := C) (P := P)).
Local Abbreviation Plugin := (ConnectionPlugin Svc V C Sel loc).
Local Abbreviation Ctx := (LimitlessConnectionContext C).
Local Abbreviation LS := (Svc * Ctx)%type.
(** [props] are those of the plugin; [weighted] the selectors that are a
    [WeightedHostSelector]; [QueryRows] runs a query on a connection. *)
Context (plugins : list Plugin) (self : Plugin) (props : properties).
Context (GetClusterId : Eff Svc string).
Context (weighted : Sel -> option (gmap string Z -> St Svc unit)).
Context (QueryRows : C -> string -> Eff Svc (list (list DbValue))).

Definition on_plugins {A} (c : St P A) : St Svc A := zoom p_plugins (fun s p => p <| p_plugins := s |>) c.

Definition map_row (hostPortToMap : Z) (hostName load : DbValue) : St Svc (list loc) :=
  match hostName, load with
  | VString hostName, VFloat load =>
      if is_empty hostName then st_ret []
      else (let! now := on_plugins clock_now in
            match router_host hostName load hostPortToMap now with
            | Ok h => let! l := alloc h in st_ret [l]
            | _ => st_ret []
            end)%eff
  | _, _ => st_ret []
  end.
(** The loop stops at a row with less than two columns. *)
Fixpoint mapLimitlessQueryRowsToHostInfoList (hostPortToMap : Z) (rows : list (list DbValue)) : St Svc (list loc) :=
  match rows with
  | (hostName :: load :: _) :: rest =>
      (let! l := map_row hostPortToMap hostName load in
       let! hosts := mapLimitlessQueryRowsToHostInfoList hostPortToMap rest in
       st_ret (l ++ hosts))%eff
  | _ => st_ret []
  end.
Definition QueryForLimitlessRouters (conn : C) (hostPortToMap : Z) (connectProps : properties) : Eff Svc (list loc) :=
  (let! dialect := gets service_dialect in
   if negb (IsDialectLimitless dialect) then throw (PlainError "LimitlessQueryHelperImpl.invalidDatabaseDialect" [])
   else
     try! timeoutMs := lift_result (GetPositiveIntProperty (Some connectProps) LIMITLESS_ROUTER_QUERY_TIMEOUT_MS) in
     try! rows := QueryRows conn GetLimitlessRouterEndpointQuery in
     run (mapLimitlessQueryRowsToHostInfoList hostPortToMap rows))%eff.

(** ** The router service (limitless_router_service.go) *)

Definition on_svc {A} (c : Eff Svc A) : Eff LS A := fun s => let '(p, r) := c s.1 in ((p, s.2), r).
Definition on_ctx (f : Ctx -> Ctx) : St LS unit := fun s => ((s.1, f s.2), tt).
Definition SetConnection (conn : C) : St LS unit :=
  (let! old := gets (fun s => connection s.2) in
   let! _ := match old with
             | Some c => if bool_decide (c = conn) then st_ret tt else (fun s => let '(p, u) := emit (Closed c) s.1 in ((p, s.2), u))
             | None => st_ret tt
             end in
   on_ctx (fun c => c <| connection := Some conn |>))%eff.

Definition getLimitlessRouters (routerCacheKey : string) : St Svc (list loc) :=
  (let! routers := on_plugins (routers_Get routerCacheKey) in st_ret (default [] routers))%eff.

(** The weights of the routers, by host. *)
Definition host_weights (p : Svc) (routers : list loc) : gmap string Z :=
  foldl (fun m l => match host_at p l with Some h => <[Host h := Weight h]> m | None => m end) ∅ routers.
Definition update_weights (routers : list loc) : Eff Svc unit :=
  (let! r := GetHostSelectorStrategy plugins SELECTOR_WEIGHTED_RANDOM in
   match r with
   | Panic => lift_result Panic
   | Err _ => eff_ok tt
   | Ok hostSelector =>
       match weighted hostSelector with
       | Some SetHostWeights => let! weights := gets (fun p => host_weights p routers) in run (SetHostWeights weights)
       | None => eff_ok tt
       end
   end)%eff.

Context (connectFunc : ConnectFunc (S := Svc) (C := C)).

(** A connection of the context, opened when there is none. *)
Definition connect_context : Eff LS unit :=
  (let! conn := gets (fun s => connection s.2) in
   match conn with
   | Some _ => eff_ok tt
   | None => try! conn := on_svc (connectFunc props) in run (SetConnection conn)
   end)%eff.

Definition synchronousGetLimitlessRouter : Eff LS unit :=
  (try! routerCacheKey := on_svc GetClusterId in
   try! cachedLimitlessRouters := on_svc (run (getLimitlessRouters routerCacheKey)) in
   match cachedLimitlessRouters with
   | _ :: _ => run (on_ctx (fun c => c <| LimitlessRouters := cachedLimitlessRouters |>))
   | [] =>
       try! _ := connect_context in
       let! conn := gets (fun s => connection s.2) in
       match conn with
       | None => lift_result Panic
       | Some conn =>
           let! ctx := gets snd in
           try! newLimitlessRouters := on_svc (QueryForLimitlessRouters conn (Port (ctx_Host ctx)) (ctx_Props ctx)) in
           match newLimitlessRouters with
           | [] => throw (PlainError "LimitlessRouterServiceImpl.fetchedEmptyRouterList" [])
           | _ =>
               let! _ := on_ctx (fun c => c <| LimitlessRouters := newLimitlessRouters |>) in
               try! _ := on_svc (run (on_plugins (routers_Set routerCacheKey newLimitlessRouters))) in
               on_svc (update_weights newLimitlessRouters)
           end
       end
   end)%eff.

(** A negative setting is logged and counts as zero. *)
Definition int_or_zero (connectProps : properties) (property : AwsWrapperProperty) : Z :=
  match GetPositiveIntProperty (Some connectProps) property with Ok v => v | _ => 0 end.
(** The first attempt is not a retry. *)
Fixpoint get_routers (attempts : nat) : Eff LS unit :=
  match attempts with
  | O => throw (PlainError "LimitlessRouterServiceImpl.noRoutersAvailable" [])
  | S attempts =>
      (let! r := synchronousGetLimitlessRouter in
       match r with
       | Panic => lift_result Panic
       | _ => let! routers := gets (fun s => LimitlessRouters s.2) in
              match routers with _ :: _ => eff_ok tt | [] => get_routers attempts end
       end)%eff
  end.
Definition synchronousGetLimitlessRoutersWithRetry : Eff LS unit := fun s =>
  get_routers (Z.to_nat (int_or_zero (ctx_Props s.2) LIMITLESS_GET_ROUTER_MAX_RETRIES + 1)) s.

Definition is_available (p : Svc) (l : loc) : bool :=
  match host_at p l with Some h => bool_decide (Availability h = AVAILABLE) | None => false end.
Definition none_available (s : LS) : bool := negb (existsb (is_available s.1) (LimitlessRouters s.2)).
(** [selectedRouter.Availability = UNAVAILABLE] *)
Definition mark_unavailable (l : loc) : Eff LS unit := fun s =>
  match host_at s.1 l with
  | Some h => ((set_host l (with_availability UNAVAILABLE h) s.1, s.2), Ok tt)
  | None => (s, Panic)
  end.

(** Without available routers: the connection at hand, or the endpoint. *)
Definition connect_without_routers : Eff LS unit :=
  (let! conn := gets (fun s => connection s.2) in
   match conn with
   | Some _ => eff_ok tt
   | None =>
       let! r := on_svc (connectFunc props) in
       match r with
       | Panic => lift_result Panic
       | Ok conn => run (SetConnection conn)
       | Err err => if IsLoginError err then throw err
                    else let! ctx := gets snd in
                         throw (PlainError "LimitlessRouterServiceImpl.unableToConnectNoRoutersAvailable" [Host (ctx_Host ctx)])
       end
   end)%eff.

(** The router with the least load; [again] is the next round. *)
Definition connect_least_loaded (again : Eff LS (option unit)) : Eff LS (option unit) :=
  (let! ctx := gets snd in
   let! r := on_svc (GetHostInfoByStrategy plugins WRITER SELECTOR_HIGHEST_WEIGHT (LimitlessRouters ctx)) in
   match r with
   | Panic => lift_result Panic
   | Err _ => again
   | Ok selectedRouter =>
       let! c := on_svc (service_Connect plugins selectedRouter (ctx_Props ctx) (Some self)) in
       match c with
       | Panic => lift_result Panic
       | Ok conn => let! _ := SetConnection conn in eff_ok (Some tt)
       | Err err => try! _ := mark_unavailable selectedRouter in if IsLoginError err then throw err else again
       end
   end)%eff.
(** [retryCount] is never incremented: the test compares 0. *)
Fixpoint retryConnectWithLeastLoadedRouters (fuel : nat) : Eff LS (option unit) :=
  match fuel with
  | O => eff_ok None
  | S fuel =>
      (let! ctx := gets snd in
       if negb (0 <? int_or_zero (ctx_Props ctx) LIMITLESS_MAX_CONN_RETRIES) then
         throw (PlainError "LimitlessRouterServiceImpl.maxConnectRetriesExceeded" [])
       else
         let! none := gets none_available in
         if (none : bool) then
           try! _ := synchronousGetLimitlessRoutersWithRetry in
           let! none := gets none_available in
           if (none : bool) then try! _ := connect_without_routers in eff_ok (Some tt)
           else connect_least_loaded (retryConnectWithLeastLoadedRouters fuel)
         else connect_least_loaded (retryConnectWithLeastLoadedRouters fuel))%eff
  end.

(** The host of the context is a router: it is connected to as it is. *)
Definition connect_to_host (fuel : nat) : Eff LS (option unit) :=
  (let! conn := gets (fun s => connection s.2) in
   match conn with
   | Some _ => eff_ok (Some tt)
   | None =>
       let! r := on_svc (connectFunc props) in
       match r with
       | Panic => lift_result Panic
       | Ok conn => let! _ := SetConnection conn in eff_ok (Some tt)
       | Err err => if IsLoginError err then throw err else retryConnectWithLeastLoadedRouters fuel
       end
   end)%eff.
Definition connect_to_router (fuel : nat) : Eff LS (option unit) :=
  (let! ctx := gets snd in
   let! r := on_svc (GetHostInfoByStrategy plugins WRITER SELECTOR_WEIGHTED_RANDOM (LimitlessRouters ctx)) in
   match r with
   | Panic => lift_result Panic
   | Err _ => retryConnectWithLeastLoadedRouters fuel
   | Ok selectedRouter =>
       let! c := on_svc (service_Connect plugins selectedRouter (ctx_Props ctx) (Some self)) in
       match c with
       | Panic => lift_result Panic
       | Ok conn => let! _ := SetConnection conn in eff_ok (Some tt)
       | Err err => try! _ := mark_unavailable selectedRouter in
                    if IsLoginError err then throw err else retryConnectWithLeastLoadedRouters fuel
       end
   end)%eff.
Definition is_router (s : LS) : bool :=
  existsb (fun l => match host_at s.1 l with Some h => Equals h (ctx_Host s.2) | None => false end) (LimitlessRouters s.2).
Definition connect_by_routers (fuel : nat) : Eff LS (option unit) :=
  (let! router := gets is_router in if (router : bool) then connect_to_host fuel else connect_to_router fuel)%eff.

Definition EstablishConnection (fuel : nat) : Eff LS (option unit) :=
  (try! clusterId := on_svc GetClusterId in
   try! routers := on_svc (run (getLimitlessRouters clusterId)) in
   let! _ := on_ctx (fun c => c <| LimitlessRouters := routers |>) in
   match routers with
   | _ :: _ => connect_by_routers fuel
   | [] =>
       let! ctx := gets snd in
       if (GetVerifiedWrapperPropertyValue (Some (ctx_Props ctx)) LIMITLESS_WAIT_FOR_ROUTER_INFO : bool) then
         try! _ := synchronousGetLimitlessRoutersWithRetry in connect_by_routers fuel
       else try! _ := connect_context in eff_ok (Some tt)
   end)%eff.

Definition StartMonitoring (hostInfo : loc) (connectProps : properties) (intervalMs : Z) : Eff Svc unit :=
  (try! cacheKey := GetClusterId in on_plugins (run_router_monitor cacheKey hostInfo connectProps intervalMs))%eff.

(** ** The plugin (limitless_plugin.go) *)

(** A dialect that is not one for shard groups may be found out by connecting. *)
Definition connect_for_dialect (connectProps : properties) : Eff Svc (option C) :=
  (let! dialect := gets service_dialect in
   if IsDialectLimitless dialect then eff_ok None
   else
     try! conn := connectFunc connectProps in
     let! refreshDialect := gets service_dialect in
     if IsDialectLimitless refreshDialect then eff_ok (Some conn)
     else throw (PlainError "LimitlessPlugin.unsupportedDialectOrDatabase" []))%eff.
Definition initLimitlessRouterService : St Svc unit :=
  (let! made := gets (fun p => router_service_set (p_plugins p)) in
   if (made : bool) then st_ret tt
   else on_plugins (NewLimitlessRouterServiceImpl (GetExpirationValue (Some props) LIMITLESS_MONITORING_DISPOSAL_TIME_MS)))%eff.

Definition limitless_Connect (fuel : nat) (hostInfo : loc) (connectProps : properties) (isInitialConnection : bool) :
  Eff Svc (option C) :=
  (try! conn := connect_for_dialect connectProps in
   let! _ := initLimitlessRouterService in
   try! _ := (if isInitialConnection
              then StartMonitoring hostInfo connectProps (GetRefreshRateValue (Some connectProps) LIMITLESS_MONITORING_INTERVAL_MS)
              else eff_ok tt) in
   let! host := gets (fun p => host_at p hostInfo) in
   match host with
   | None => lift_result Panic
   | Some h =>
       let! r := (fun p => let '(s, r) := EstablishConnection fuel (p, mkContext h connectProps conn []) in (s.1, (s.2, r))) in
       match r with
       | (ctx, Ok (Some _)) =>
           match connection ctx with
           | Some conn => eff_ok (Some conn)
           | None => throw (PlainError "LimitlessPlugin.failedToConnectToHost" [Host h])
           end
       | (_, Ok None) => eff_ok None
       | (_, Err err) => throw err
       | (_, Panic) => lift_result Panic
       end
   end)%eff.

(** ** The monitor of the routers (limitless_router_monitor.go) *)

Definition ROUTER_MONITOR_PROPERTY_PREFIX : string := "limitless-router-monitor-".
(** The loop ranges over the map it changes, as in EfmMonitor.v. *)
Definition router_monitoring_props `{MapRange} (connectProps : properties) : properties :=
  <[Name LIMITLESS_WAIT_FOR_ROUTER_INFO := "false"]>
    (foldl (fun m e => match CutPrefix ROUTER_MONITOR_PROPERTY_PREFIX e.1 with
                       | Some trimmed => delete e.1 (<[trimmed := e.2]> m)
                       | None => m
                       end) connectProps (range 69 connectProps)).

Record LimitlessRouterMonitorImpl := mkRouterMonitor {
  monitoringConn : option C;
  lm_stop : bool;
  lm_state : MonitorState;
  lastActivityTimestampNano : Z;
  lm_running : bool   (* the goroutine *)
}.
#[local] Instance LimitlessRouterMonitorImpl_eta : Eta LimitlessRouterMonitorImpl := fun m =>
  mkRouterMonitor (monitoringConn m) (lm_stop m) (lm_state m) (lastActivityTimestampNano m) (lm_running m).
Local Abbreviation MS := (Svc * LimitlessRouterMonitorImpl)%type.
Context (hostInfo : loc) (limitlessRouterCacheKey : string) (monitoring_props : properties).

Definition new_monitor : LimitlessRouterMonitorImpl := mkRouterMonitor None false MonitorStateStopped 0 false.
Definition on_service {A} (c : Eff Svc A) : Eff MS A := fun s => let '(p, r) := c s.1 in ((p, s.2), r).
Definition on_monitor (f : LimitlessRouterMonitorImpl -> LimitlessRouterMonitorImpl) : St MS unit := fun s => ((s.1, f s.2), tt).
Definition clock : St MS Z := fun s => let '(p, t) := on_plugins clock_now s.1 in ((p, s.2), t).

Definition Start : St MS unit :=
  (let! now := clock in
   on_monitor (fun m => m <| lm_state := MonitorStateRunning |> <| lastActivityTimestampNano := now |> <| lm_running := true |>))%eff.
Definition Close : St MS unit :=
  (let! conn := gets (fun s => monitoringConn s.2) in
   match conn with
   | Some c => let! _ := (fun s => let '(p, u) := emit (Closed c) s.1 in ((p, s.2), u)) in
               on_monitor (fun m => m <| monitoringConn := None |>)
   | None => st_ret tt
   end)%eff.
(** The part of [Stop] after the goroutine has ended. *)
Definition Stop_ : St MS unit := (let! _ := Close in on_monitor (fun m => m <| lm_state := MonitorStateStopped |>))%eff.

Definition openConnection : Eff MS unit :=
  (let! conn := gets (fun s => monitoringConn s.2) in
   match conn with
   | Some _ => eff_ok tt
   | None => try! conn := on_service (service_ForceConnect plugins hostInfo monitoring_props) in
             run (on_monitor (fun m => m <| monitoringConn := Some conn |>))
   end)%eff.

(** What a round does with the routers it read. *)
Definition store_routers (routers : list loc) : Eff MS unit :=
  (try! _ := on_service (run (on_plugins (routers_Set limitlessRouterCacheKey routers))) in
   on_service (update_weights routers))%eff.
(** A turn of the loop: whether it goes on. *)
Definition monitor_turn : Eff MS bool :=
  (let! stop := gets (fun s => lm_stop s.2) in
   if (stop : bool) then eff_ok false
   else
     let! now := clock in
     let! _ := on_monitor (fun m => m <| lastActivityTimestampNano := now |>) in
     let! opened := openConnection in
     match opened with
     | Panic => lift_result Panic
     | Err _ => eff_ok true
     | Ok _ =>
         let! conn := gets (fun s => monitoringConn s.2) in
         let! port := gets (fun s => Port <$> host_at s.1 hostInfo) in
         match conn, port with
         | Some conn, Some port =>
             let! r := on_service (QueryForLimitlessRouters conn port monitoring_props) in
             match r with
             | Panic => lift_result Panic
             | Err _ | Ok [] => eff_ok false
             | Ok routers => try! _ := store_routers routers in eff_ok true
             end
         | None, _ => eff_ok true
         | _, None => lift_result Panic
         end
     end)%eff.
(** The deferred end of the goroutine. *)
Definition end_monitor : St MS unit :=
  (let! _ := on_monitor (fun m => m <| lm_stop := true |>) in
   let! _ := Close in
   on_monitor (fun m => m <| lm_running := false |>))%eff.
Definition Monitor_step : Eff MS unit :=
  (try! again := monitor_turn in if (again : bool) then eff_ok tt else run end_monitor)%eff.
End Limitless.

(** ** Weights *)

(** Whatever the load a router reports, its weight is between 1 and 10. *)
Lemma weight_bounds load : 1 <= mapLimitlessRouterLoadToHostInfoWeight load <= 10.
Proof.
  unfold mapLimitlessRouterLoadToHostInfoWeight. destruct ((_ <? 1) || (10 <? _)) eqn:E; [lia|].
  apply orb_false_iff in E as [E1 E2]. apply Z.ltb_ge in E1, E2. lia.
Qed.

Section properties.
Context {C V Sel P : Type} `{EqDecision C} `{ExecConn C} `{DriverDialect C} `{PrepareHost} `{HasLimitless P} `{Clock P}.
Local Abbreviation Svc := (PluginServiceImpl (C := C) (P := P)).
Local Abbreviation Plugin := (ConnectionPlugin Svc V C Sel loc).
Local Abbreviation LS := (Svc * LimitlessConnectionContext C)%type.

(** A router as the query reports it. *)
Definition router_of (rows : list (list DbValue)) (port : Z) (h : HostInfo) : Prop :=
  Role h = WRITER /\ Availability h = AVAILABLE /\ Port h = port /\ HostId h = Host h /\ Host h <> "" /\ 1 <= Weight h <= 10 /\
  exists load row, VString (Host h) :: VFloat load :: row ∈ rows /\ Weight h = mapLimitlessRouterLoadToHostInfoWeight load.

Lemma router_host_ok name load port now :
  is_empty name = false ->
  exists h, router_host name load port now = Ok h /\ Host h = name /\ Weight h = mapLimitlessRouterLoadToHostInfoWeight load /\
    forall rows, (exists load row, VString (Host h) :: VFloat load :: row ∈ rows /\ Weight h = mapLimitlessRouterLoadToHostInfoWeight load) ->
      router_of rows port h.
Proof.
  intros Ee. unfold router_host, Build, checkHostIsSet. cbn. rewrite Ee. eexists. split_and!; [reflexivity|done|done|].
  intros rows Hx. unfold router_of. cbn in *. split_and!; try done; [by intros -> |apply weight_bounds..].
Qed.

Definition heap_grows (p p' : Svc) : Prop := forall l h, host_at p l = Some h -> host_at p' l = Some h.
#[local] Instance heap_grows_preorder : PreOrder heap_grows.
Proof. split; [by intros p l h|]. intros p1 p2 p3 H12 H23 l h Hl. auto. Qed.

Lemma alloc_spec h (p : Svc) : heap_grows p (alloc h p).1 /\ host_at (alloc h p).1 (alloc h p).2 = Some h.
Proof.
  unfold alloc. split; [|apply lookup_insert_eq]. intros l h' Hl. unfold host_at in *. cbn. rewrite lookup_insert_ne; [done|].
  intros E. apply (is_fresh (dom (heap p))). rewrite E. by apply elem_of_dom_2 in Hl.
Qed.

Lemma map_row_spec port hostName load row rows (p p' : Svc) ls :
  hostName :: load :: row ∈ rows -> map_row port hostName load p = (p', ls) ->
  heap_grows p p' /\ forall l, l ∈ ls -> exists h, host_at p' l = Some h /\ router_of rows port h.
Proof.
  intros Hin. unfold map_row.
  assert (Hnone : forall s, (s, []) = (p', ls) -> heap_grows p s -> heap_grows p p' /\ forall l, l ∈ ls -> exists h, host_at p' l = Some h /\ router_of rows port h).
  { intros s [= <- <-] Hg. split; [done|]. intros l Hl. by apply elem_of_nil in Hl. }
  destruct hostName as [| | |name| | | | |]; try by (intros E; eapply Hnone; [exact E|reflexivity]).
  destruct load as [| | | | |load| | |]; try by (intros E; eapply Hnone; [exact E|reflexivity]).
  destruct (is_empty name) eqn:Ee; [by intros E; eapply Hnone; [exact E|reflexivity]|]. unfold st_bind.
  assert (Hnow : heap_grows p (on_plugins clock_now p).1).
  { unfold on_plugins, zoom. destruct (clock_now (p_plugins p)). by intros l h. }
  destruct (on_plugins clock_now p) as [p1 t]. cbn [fst] in Hnow.
  destruct (router_host_ok name load port t Ee) as (h & -> & Hn & Hw & Hr).
  pose proof (alloc_spec h p1) as [Hg Hl]. destruct (alloc h p1) as [p2 l2]. cbn [fst snd] in Hg, Hl. intros [= <- <-].
  split; [by etransitivity|]. intros l Hx. apply list_elem_of_singleton in Hx as ->.
  exists h. split; [exact Hl|]. apply Hr. exists load, row. by rewrite Hn, Hw.
Qed.

Lemma map_rows_spec port rows all (p p' : Svc) ls :
  rows ⊆ all -> mapLimitlessQueryRowsToHostInfoList port rows p = (p', ls) ->
  heap_grows p p' /\ forall l, l ∈ ls -> exists h, host_at p' l = Some h /\ router_of all port h.
Proof.
  revert p p' ls. induction rows as [|row rows IH]; intros p p' ls Hsub; cbn [mapLimitlessQueryRowsToHostInfoList].
  { intros [= <- <-]. split; [reflexivity|]. intros l Hl. by apply elem_of_nil in Hl. }
  assert (Hend : forall ls', (p, []) = (p', ls') -> heap_grows p p' /\ forall l, l ∈ ls' -> exists h, host_at p' l = Some h /\ router_of all port h).
  { intros ls' [= <- <-]. split; [reflexivity|]. intros l Hl. by apply elem_of_nil in Hl. }
  destruct row as [|hostName [|load row]]; [apply Hend..|]. unfold st_bind.
  destruct (map_row port hostName load p) as [p1 l1] eqn:E1.
  apply (map_row_spec _ _ _ row all) in E1 as [Hg1 Hin1]; [|apply Hsub; by left].
  destruct (mapLimitlessQueryRowsToHostInfoList port rows p1) as [p2 l2] eqn:E2. intros [= <- <-].
  apply IH in E2 as [Hg2 Hin2]; [|intros x Hx; apply Hsub; by right]. split; [by etransitivity|].
  intros l [Hl|Hl]%elem_of_app; [|by apply Hin2]. destruct (Hin1 l Hl) as (h & Hh & Hr). exists h. split; [by apply Hg2|done].
Qed.

Context (plugins : list Plugin) (self : Plugin) (props : properties).
Context (GetClusterId : Eff Svc string).
Context (weighted : Sel -> option (gmap string Z -> St Svc unit)).
Context (QueryRows : C -> string -> Eff Svc (list (list DbValue))).
Context (connectFunc : ConnectFunc (S := Svc) (C := C)).

(** C24. The routers a query gives are available writers at the port asked
    for, each named by a row of the answer, with the weight of the load of
    that row, which is between 1 and 10 whatever the load. *)
Theorem query_gives_routers conn port connectProps (p p' : Svc) ls :
  QueryForLimitlessRouters QueryRows conn port connectProps p = (p', Ok ls) ->
  exists p1 rows, QueryRows conn GetLimitlessRouterEndpointQuery p = (p1, Ok rows) /\
    forall l, l ∈ ls -> exists h, host_at p' l = Some h /\ router_of rows port h.
Proof.
  unfold QueryForLimitlessRouters, st_bind, gets. destruct (negb _); [done|]. rewrite eff_bind_eq. unfold lift_result.
  destruct (GetPositiveIntProperty _ _); [|done..]. rewrite eff_bind_eq. destruct (QueryRows _ _ p) as [p1 [rows|e|]] eqn:Eq; [|done..].
  unfold run. destruct (mapLimitlessQueryRowsToHostInfoList port rows p1) as [p2 ls'] eqn:Em. intros [= <- <-].
  exists p1, rows. split; [done|]. by apply (map_rows_spec port rows rows p1 p2).
Qed.

(** ** A connect that succeeds has a connection *)

Definition connects {A} (ok : A -> Prop) (c : Eff LS A) : Prop := forall s s' a, c s = (s', Ok a) -> ok a -> is_Some (connection s'.2).

Lemma SetConnection_sets conn (s : LS) : connection (SetConnection conn s).1.2 = Some conn.
Proof.
  unfold SetConnection, st_bind, gets. destruct (connection s.2) as [c|]; [destruct (bool_decide (c = conn))|]; done.
Qed.
Lemma connects_set {A} ok (conn : C) (a : A) : connects ok (let! _ := SetConnection conn in eff_ok a)%eff.
Proof.
  intros s s' a'. unfold st_bind. pose proof (SetConnection_sets conn s) as Hs. destruct (SetConnection conn s) as [s1 u].
  intros [= <- <-] _. by exists conn.
Qed.
Lemma connect_context_connects : connects (fun _ => True) (connect_context props connectFunc).
Proof.
  intros s s' []. unfold connect_context, st_bind, gets. destruct (connection s.2) as [c|] eqn:Ec; [intros [= <-] _; by exists c|].
  rewrite eff_bind_eq. destruct (on_svc _ s) as [s1 [conn|e|]]; [|done..]. unfold run.
  pose proof (SetConnection_sets conn s1) as Hs. destruct (SetConnection conn s1) as [s2 []]. intros [= <-] _. by exists conn.
Qed.
Lemma connect_without_routers_connects : connects (fun _ => True) (connect_without_routers props connectFunc).
Proof.
  intros s s' []. unfold connect_without_routers, st_bind, gets. destruct (connection s.2) as [c|] eqn:Ec; [intros [= <-] _; by exists c|].
  destruct (on_svc _ s) as [s1 [conn|e|]]; [|by destruct (IsLoginError e)|done]. unfold run.
  pose proof (SetConnection_sets conn s1) as Hs. destruct (SetConnection conn s1) as [s2 []]. intros [= <-] _. by exists conn.
Qed.

Definition done_ (r : option unit) : Prop := r = Some tt.
Lemma connects_after_failure l err again :
  connects done_ again ->
  connects done_ (try! _ := mark_unavailable l in if IsLoginError err then throw err else again : Eff LS (option unit))%eff.
Proof.
  intros Ha s s' a. rewrite eff_bind_eq. destruct (mark_unavailable l s) as [s1 [u|e|]]; [|done..].
  destruct (IsLoginError err); [done|apply Ha].
Qed.
Lemma connect_least_loaded_connects again : connects done_ again -> connects done_ (connect_least_loaded plugins self again).
Proof.
  intros Ha s s' a. unfold connect_least_loaded. unfold st_bind at 1, gets at 1. unfold st_bind at 1.
  destruct (on_svc _ s) as [s1 [l|e|]]; [|apply Ha|done]. unfold st_bind at 1.
  destruct (on_svc _ s1) as [s2 [conn|e|]]; [by apply connects_set|by apply connects_after_failure|done].
Qed.
Lemma retry_connects fuel : connects done_ (retryConnectWithLeastLoadedRouters plugins self props GetClusterId weighted QueryRows connectFunc fuel).
Proof.
  induction fuel as [|fuel IH]; intros s s' a; [by intros [= _ <-]|]. cbn [retryConnectWithLeastLoadedRouters].
  unfold st_bind at 1, gets at 1. destruct (negb _); [done|]. unfold st_bind at 1, gets at 1.
  destruct (none_available s); [|by apply connect_least_loaded_connects]. rewrite eff_bind_eq.
  destruct (synchronousGetLimitlessRoutersWithRetry _ _ _ _ _ _ s) as [s1 [[]|e|]]; [|done..]. unfold st_bind at 1, gets at 1.
  destruct (none_available s1); [|by apply connect_least_loaded_connects]. rewrite eff_bind_eq.
  destruct (connect_without_routers _ _ s1) as [s2 [[]|e|]] eqn:E; [|done..]. intros [= <- <-] _.
  by eapply connect_without_routers_connects.
Qed.
Lemma connect_by_routers_connects fuel :
  connects done_ (connect_by_routers plugins self props GetClusterId weighted QueryRows connectFunc fuel).
Proof.
  intros s s' a. unfold connect_by_routers. unfold st_bind at 1, gets at 1. destruct (is_router s).
  - unfold connect_to_host. unfold st_bind at 1, gets at 1. destruct (connection s.2) as [c|] eqn:Ec; [intros [= <- _] _; by exists c|].
    unfold st_bind at 1. destruct (on_svc _ s) as [s1 [conn|e|]]; [by apply connects_set|destruct (IsLoginError e); [done|apply retry_connects]|done].
  - unfold connect_to_router. unfold st_bind at 1, gets at 1. unfold st_bind at 1.
    destruct (on_svc _ s) as [s1 [l|e|]]; [|apply retry_connects|done]. unfold st_bind at 1.
    destruct (on_svc _ s1) as [s2 [conn|e|]]; [by apply connects_set|apply connects_after_failure, retry_connects|done].
Qed.

(** When EstablishConnection reports no error the context has a connection,
    whichever way was taken: to the host itself, to a router by weight, to
    the least loaded ones in turn, or to the endpoint when no router is known;
    so the error of the plugin for a missing connection never arises. *)
Theorem established_connection fuel (s s' : LS) :
  EstablishConnection plugins self props GetClusterId weighted QueryRows connectFunc fuel s = (s', Ok (Some tt)) ->
  is_Some (connection s'.2).
Proof.
  unfold EstablishConnection. rewrite eff_bind_eq. destruct (on_svc GetClusterId s) as [s1 [clusterId|e|]]; [|done..].
  rewrite eff_bind_eq. destruct (on_svc _ s1) as [s2 [routers|e|]]; [|done..]. unfold st_bind at 1.
  destruct (on_ctx _ s2) as [s3 u]. destruct routers as [|l routers]; [|intros E; by eapply connect_by_routers_connects].
  unfold st_bind at 1, gets at 1. destruct (GetVerifiedWrapperPropertyValue _ _); rewrite eff_bind_eq.
  - destruct (synchronousGetLimitlessRoutersWithRetry _ _ _ _ _ _ s3) as [s4 [[]|e|]]; [|done..]. intros E. by eapply connect_by_routers_connects.
  - destruct (connect_context _ _ s3) as [s4 [[]|e|]] eqn:E; [|done..]. intros [= <-]. by eapply connect_context_connects.
Qed.

(** A host of the properties has the default weight, which no router has: the
    branch for a host that is itself a router is not taken for it. *)
Theorem host_is_no_router (s : LS) rows port :
  Weight (ctx_Host s.2) = HOST_DEFAULT_WEIGHT ->
  Forall (fun l => exists h, host_at s.1 l = Some h /\ router_of rows port h) (LimitlessRouters s.2) -> is_router s = false.
Proof.
  intros Hw Hall. unfold is_router. induction Hall as [|l ls (h & Hh & Hr) Hls IH]; [done|]. cbn [existsb]. rewrite Hh, IH, orb_false_r.
  unfold Equals. destruct Hr as (_ & _ & _ & _ & _ & Hb & _). apply andb_false_iff. right. apply Z.eqb_neq. rewrite Hw.
  unfold HOST_DEFAULT_WEIGHT. lia.
Qed.

(** A monitor whose query fails ends its routine and closes its connection,
    and reports the state it had, which is running: the manager does not see
    the failure. *)
Theorem failed_query_unnoticed hostInfo key mprops (s s1 : Svc * LimitlessRouterMonitorImpl (C := C)) :
  lm_stop s.2 = false -> monitor_turn plugins weighted QueryRows hostInfo key mprops s = (s1, Ok false) ->
  exists s', Monitor_step plugins weighted QueryRows hostInfo key mprops s = (s', Ok tt) /\
    lm_running s'.2 = false /\ monitoringConn s'.2 = None /\ lm_state s'.2 = lm_state s.2.
Proof.
  intros Hs Ht. assert (Hst : lm_state s1.2 = lm_state s.2).
  { revert Ht. unfold monitor_turn. unfold st_bind at 1, gets at 1. rewrite Hs. unfold st_bind at 1, clock.
    destruct (on_plugins clock_now s.1) as [p1 now]. unfold st_bind at 1, on_monitor at 1. unfold st_bind at 1.
    match goal with |- context [openConnection _ _ _ ?q] => set (s2 := q) end.
    assert (E2 : lm_state s2.2 = lm_state s.2) by done.
    assert (Ho : lm_state (openConnection plugins hostInfo mprops s2).1.2 = lm_state s2.2).
    { unfold openConnection, st_bind, gets. destruct (monitoringConn s2.2); [done|]. rewrite eff_bind_eq. unfold on_service.
      destruct (service_ForceConnect _ _ _ s2.1) as [p3 [c|e|]]; done. }
    clearbody s2. destruct (openConnection plugins hostInfo mprops s2) as [s3 [[]|e|]]; cbn [fst] in Ho; [|done..].
    unfold st_bind at 1, gets at 1. unfold st_bind at 1, gets at 1.
    destruct (monitoringConn s3.2); [|done]. destruct (Port <$> host_at s3.1 hostInfo); [|done]. unfold st_bind, on_service.
    destruct (QueryForLimitlessRouters _ _ _ _ s3.1) as [p4 [[|l ls]|e|]]; [intros [= <-]; cbn; congruence| |intros [= <-]; cbn; congruence|done].
    rewrite eff_bind_eq. destruct (store_routers _ _ _ _ _) as [s5 [[]|e|]]; done. }
  unfold Monitor_step. rewrite eff_bind_eq, Ht. unfold run, end_monitor, st_bind, on_monitor, Close, gets. cbn.
  destruct (monitoringConn s1.2) eqn:Ec; eexists; (split; [reflexivity|]); cbn; rewrite ?Ec; done.
Qed.
End properties.

(** ** Examples: two routers *)

Record Shard := mkShard { sh_routers : gmap string (list loc); sh_service : bool; sh_weights : gmap string Z; sh_clock : Z }.
#[local] Instance shard_limitless : HasLimitless Shard := {|
  routers_Get k s := (s, sh_routers s !! k);
  routers_Set k l s := (mkShard (<[k := l]> (sh_routers s)) (sh_service s) (sh_weights s) (sh_clock s), tt);
  router_service_set := sh_service;
  NewLimitlessRouterServiceImpl _ s := (mkShard (sh_routers s) true (sh_weights s) (sh_clock s), tt);
  run_router_monitor _ _ _ _ s := (s, Ok tt) |}.
#[local] Instance shard_clock : Clock Shard := fun s =>
  (mkShard (sh_routers s) (sh_service s) (sh_weights s) (sh_clock s + 1), sh_clock s).
#[local] Instance shard_exec : ExecConn nat := fun _ _ _ => Some None.
#[local] Instance shard_dialect : DriverDialect nat := {| IsClosed _ _ := false; IsNetworkError _ := false; IsLoginError _ := false |}.
Local Abbreviation Shard_svc := (PluginServiceImpl (C := nat) (P := Shard)).

(** Connections have the location of their host; the strategy picks the first
    host, or fails. *)
Definition shard_plugin (n : nat) (methods : list string) (picks : bool) : ConnectionPlugin Shard_svc nat nat unit loc :=
  mkPlugin n "connecting" methods (fun _ _ _ k => k) (fun l _ _ _ => eff_ok l) (fun l _ _ _ => eff_ok l) (fun _ => st_ret true)
    (fun _ _ hosts => match hosts with l :: _ => if picks then eff_ok l else throw (PlainError "none" []) | [] => throw (PlainError "none" []) end)
    (fun _ => eff_ok tt) (fun _ => st_ret NO_OPINION) (fun _ => st_ret tt) (fun _ k => k) None.
Definition shard_set_weights (_ : unit) : option (gmap string Z -> St Shard_svc unit) := Some (fun w =>
  modify (fun p => p <| p_plugins := mkShard (sh_routers (p_plugins p)) (sh_service (p_plugins p)) w (sh_clock (p_plugins p)) |>)).
(** The loads 0.3 and 0.9, as [float64]. *)
Definition router_rows : list (list DbValue) :=
  [[VString "router-1"; VFloat (5404319552844595 # 18014398509481984)]; [VString "router-2"; VFloat (8106479329266893 # 9007199254740992)]].
Definition shard_query (_ : nat) (_ : string) : Eff Shard_svc (list (list DbValue)) := eff_ok router_rows.
Definition shard_host : HostInfo := mkHostInfo "shard" "shard" 5432 AVAILABLE WRITER None None HOST_DEFAULT_WEIGHT 0.
Definition shard_service : Shard_svc :=
  mkService {[0%nat := shard_host]} None None None [0%nat] false None NewSessionStateServiceImpl []
    (Dialects.mkManager false None "" no_entries) (Some AuroraPgDatabaseDialect) true None no_entries ∅ (mkShard ∅ false ∅ 0).
Definition shard_establish (picks : bool) (fuel : nat) : (Shard_svc * LimitlessConnectionContext nat) * Result (option unit) :=
  EstablishConnection [shard_plugin 1 ["*"] picks] (shard_plugin 0 [] picks) ∅ (eff_ok "cluster") shard_set_weights shard_query
    (fun _ => eff_ok 9%nat) fuel (shard_service, mkContext shard_host ∅ None []).

Example router_weights : mapLimitlessRouterLoadToHostInfoWeight (5404319552844595 # 18014398509481984) = 7 /\
  mapLimitlessRouterLoadToHostInfoWeight (8106479329266893 # 9007199254740992) = 1 /\ mapLimitlessRouterLoadToHostInfoWeight (3 # 2) = 1.
Proof. vm_compute. done. Qed.
(** The routers are read over a connection to the endpoint, which is closed
    when the first router is connected to. *)
Example shard_connected :
  (connection (shard_establish true 5).1.2, events (shard_establish true 5).1.1, sh_weights (p_plugins (shard_establish true 5).1.1)) =
  (Some 1%nat, [Closed 9%nat], {["router-1" := 7; "router-2" := 1]}).
Proof. vm_compute. done. Qed.

Lemma established_connection_witness : is_Some (connection (shard_establish true 5).1.2).
Proof.
  destruct (shard_establish true 5) as [s' r] eqn:E. assert (r = Ok (Some tt)) as -> by (vm_compute in E; by injection E as <- <-).
  apply (established_connection [shard_plugin 1 ["*"] true] (shard_plugin 0 [] true) ∅ (eff_ok "cluster") shard_set_weights shard_query
    (fun _ => eff_ok 9%nat) 5 (shard_service, mkContext shard_host ∅ None []) s'). exact E.
Defined.

Lemma query_gives_routers_witness :
  Forall (fun l => exists h, host_at (QueryForLimitlessRouters shard_query 9%nat 5432 ∅ shard_service).1 l = Some h /\
                             router_of router_rows 5432 h) [1; 2]%nat.
Proof.
  apply Forall_forall.
  destruct (QueryForLimitlessRouters shard_query 9%nat 5432 ∅ shard_service) as [p' r] eqn:E.
  assert (r = Ok [1; 2]%nat) as -> by (vm_compute in E; by injection E as <- <-).
  destruct (query_gives_routers shard_query 9%nat 5432 ∅ shard_service p' _ E) as (p1 & rows & Hq & Hl).
  assert (rows = router_rows) as -> by (vm_compute in Hq; by injection Hq as _ <-). exact Hl.
Defined.
