(* ===== verification/InternalPool.v ===== *)
(** * InternalPool: the pool of connections to one host, and the provider that
    keeps such pools (awssql/internal_pool).

    A pool is the state its mutex guards, with the wrapped connections and the
    calls in progress on it. A call ([Get], [Close] of a connection, [Close] of
    the pool) is a thread; [exec] runs one thread from a lock or a call of the
    driver to the next one, so that everything between taking the mutex and
    giving it back is one step, and the calls of the driver that are made
    without the mutex are steps of their own. A step carries the clock and the
    answers of the driver. The number of a wrapped connection is also that of
    the connection of the driver it holds; [handed] are those a caller has got
    and not closed since. *)

From S2P Require Import Prelude.
From S2P Require Import HostInfo.
From S2P Require Import CacheMap.
From S2P Require Import SlidingCache.
From S2P Require Import Properties.
From S2P Require Import RdsUtils.
From S2P Require Import Dsn.
From S2P Require Import Effects.
From S2P Require Import HostSelectors.
From S2P Require Import DefaultPlugin.

Definition resetSessionTimeout : Z := 5 * Second.
Definition ErrBadConn : go_error := PlainError "driver: bad connection" [].

(** ** Options *)

Record InternalPoolConfig := mkPoolConfig { maxIdleConns : Z; maxConnLifetime : Z; maxConnIdleTime : Z }.
Definition InternalPoolOption : Type := InternalPoolConfig -> InternalPoolConfig.
Definition NewInternalPoolOptions (opts : list InternalPoolOption) : InternalPoolConfig :=
  foldl (fun c opt => opt c) (mkPoolConfig 2 0 0) opts.
Definition WithMaxIdleConns (n : Z) : InternalPoolOption := fun c => mkPoolConfig n (maxConnLifetime c) (maxConnIdleTime c).
Definition WithMaxConnLifetime (d : Z) : InternalPoolOption := fun c => mkPoolConfig (maxIdleConns c) d (maxConnIdleTime c).
Definition WithMaxConnIdleTime (d : Z) : InternalPoolOption := fun c => mkPoolConfig (maxIdleConns c) (maxConnLifetime c) d.
Definition GetMaxIdleConns (c : InternalPoolConfig) : Z := maxIdleConns c.
Definition GetMaxConnLifetime (c : InternalPoolConfig) : Z := maxConnLifetime c.
Definition GetMaxConnIdleTime (c : InternalPoolConfig) : Z := maxConnIdleTime c.

(** ** Wrapped connections *)

Record internalPooledConn := mkPooledConn { createdAt : Z; lastUsedAt : Z; returned : bool }.
Definition IsValid (pc : internalPooledConn) : bool := negb (returned pc).

Definition UnsupportedOperation (interface : string) : go_error :=
  NewGenericAwsWrapperError "InternalPooledConn.UnsupportedOperation" [interface].
(** A method of an optional interface of the connection of the driver: [None]
    when it has no such method. *)
Section Delegated.
Context {S A : Type}.
Definition Ping (pinger : option (Eff S unit)) : Eff S unit := default (throw (UnsupportedOperation "driver.Pinger")) pinger.
Definition ResetSession (resetter : option (Eff S unit)) : Eff S unit := default (eff_ok tt) resetter.
Definition ExecContext (execer : option (Eff S A)) : Eff S A := default (throw (UnsupportedOperation "driver.ExecerContext")) execer.
Definition QueryContext (queryer : option (Eff S A)) : Eff S A := default (throw (UnsupportedOperation "driver.QueryerContext")) queryer.
End Delegated.

(** ** The pool *)

(** Where a call stands. [now] is the time [Get] has read. *)
Inductive Call :=
| InGet                       (* Get, before the mutex *)
| Discarding (c : nat) (now : Z)   (* Get: an expired connection, or one that could not be reset *)
| Resetting (c : nat) (now : Z)    (* Get: ResetSession *)
| Relocking (now : Z)         (* Get: before the mutex again *)
| Connecting (now : Z)        (* Get: newConnFunc *)
| Closing (c : nat)           (* Close, before the mutex of the connection *)
| Stamping (c : nat)          (* Close: lastUsedAt *)
| Returning (c : nat)         (* Close, before the mutex of the pool *)
| ClosingPool                 (* Close of the pool, before the mutex *)
| Got (r : Result nat)
| Done (r : Result unit).

Record InternalConnPool := mkPool {
  idleConns : list nat;
  pool_maxIdleConns : Z;
  maxLifetime : Z;
  maxIdleTime : Z;
  closed : bool;
  mu : bool;                  (* the mutex is held outside of a step *)
  conns : gmap nat internalPooledConn;
  open : gset nat;            (* the connections of the driver that are open *)
  next : nat;
  calls : gmap nat Call;
  handed : list nat
}.
#[export] Instance InternalConnPool_eta : Eta InternalConnPool := fun p =>
  mkPool (idleConns p) (pool_maxIdleConns p) (maxLifetime p) (maxIdleTime p) (closed p) (mu p) (conns p) (open p) (next p)
    (calls p) (handed p).

Definition NewConnPool (opts : InternalPoolConfig) : InternalConnPool :=
  mkPool [] (GetMaxIdleConns opts) (GetMaxConnLifetime opts) (GetMaxConnIdleTime opts) false false ∅ ∅ 0 ∅ [].

Definition isConnExpired (p : InternalConnPool) (pc : internalPooledConn) (now : Z) : bool :=
  if (0 <? maxLifetime p) && (maxLifetime p <? now - createdAt pc) then true
  else (0 <? maxIdleTime p) && (maxIdleTime p <? now - lastUsedAt pc).

Definition at_call (t : nat) (th : Call) (p : InternalConnPool) : InternalConnPool := p <| calls := <[t := th]> (calls p) |>.
(** [Close] of the connection of the driver. *)
Definition close_conn (c : nat) (p : InternalConnPool) : InternalConnPool := p <| open := open p ∖ {[c]} |>.

(** The body of the loop of [Get] up to where it gives the mutex back. *)
Definition get_loop (t : nat) (now : Z) (p : InternalConnPool) : option InternalConnPool :=
  match idleConns p with
  | [] => Some (at_call t (Connecting now) p)
  | c :: idle =>
      let p := p <| idleConns := idle |> in
      match conns p !! c with
      | Some pc => Some (at_call t (if isConnExpired p pc now then Discarding c now else Resetting c now) p)
      | None => None
      end
  end.

Inductive Action :=
| AGet (t : nat)
| AClose (t c : nat)
| AClosePool (t : nat)
| AStep (t : nat) (now : Z) (answer : nat -> option go_error).

Definition start (t : nat) (th : Call) (p : InternalConnPool) : option InternalConnPool :=
  match calls p !! t with None => Some (at_call t th p) | Some _ => None end.

Definition answered (e : option go_error) : Result unit := match e with Some e => Err e | None => Ok tt end.

(** [Close] of a connection while the mutex is held: the answer of the driver is
    the result. *)
Definition give_back (t c : nat) (e : option go_error) (p : InternalConnPool) : InternalConnPool :=
  if closed p then at_call t (Done (answered e)) (close_conn c p)
  else if (pool_maxIdleConns p =? 0) || (Z.of_nat (length (idleConns p)) <? pool_maxIdleConns p)
  then at_call t (Done (Ok tt)) (p <| idleConns := idleConns p ++ [c] |>)
  else at_call t (Done (answered e)) (close_conn c p).

(** The first error of the connections that are closed. *)
Definition Close (t : nat) (answer : nat -> option go_error) (p : InternalConnPool) : InternalConnPool :=
  if closed p then at_call t (Done (Ok tt)) p
  else
    let err := foldl (fun err c => match err with Some e => Some e | None => answer c end) None (idleConns p) in
    at_call t (Done (answered err))
      (p <| closed := true |> <| open := open p ∖ list_to_set (idleConns p) |> <| idleConns := [] |>).

(** One step of a thread; [None] where it waits for the mutex, or has returned.
    The branch of [Relocking] for a closed pool returns with the mutex held. *)
Definition step (t : nat) (now : Z) (answer : nat -> option go_error) (th : Call) (p : InternalConnPool) : option InternalConnPool :=
  match th with
  | InGet =>
      if mu p then None
      else if closed p then Some (at_call t (Got (Err ErrBadConn)) p)
      else get_loop t now p
  | Discarding c n => Some (at_call t (Relocking n) (close_conn c p))
  | Resetting c n =>
      match answer c with
      | Some _ => Some (at_call t (Discarding c n) p)
      | None => Some (at_call t (Got (Ok c))
                  (p <| conns := alter (fun pc => mkPooledConn (createdAt pc) (lastUsedAt pc) false) c (conns p) |>
                     <| handed := c :: handed p |>))
      end
  | Relocking n =>
      if mu p then None
      else if closed p then Some (at_call t (Got (Err ErrBadConn)) (p <| mu := true |>))
      else get_loop t n p
  | Connecting n =>
      let c := next p in
      match answer c with
      | Some e => Some (at_call t (Got (Err e)) p)
      | None => Some (at_call t (Got (Ok c))
                  (p <| conns := <[c := mkPooledConn n n false]> (conns p) |> <| open := {[c]} ∪ open p |>
                     <| next := S c |> <| handed := c :: handed p |>))
      end
  | Closing c =>
      match conns p !! c with
      | Some pc => if returned pc then Some (at_call t (Done (Ok tt)) p)
                   else Some (at_call t (Stamping c)
                          (p <| conns := <[c := mkPooledConn (createdAt pc) (lastUsedAt pc) true]> (conns p) |>))
      | None => None
      end
  | Stamping c =>
      Some (at_call t (Returning c) (p <| conns := alter (fun pc => mkPooledConn (createdAt pc) now (returned pc)) c (conns p) |>))
  | Returning c => if mu p then None else Some (give_back t c (answer c) p)
  | ClosingPool => if mu p then None else Some (Close t answer p)
  | Got _ | Done _ => None
  end.

Fixpoint take_out (c : nat) (l : list nat) : list nat :=
  match l with [] => [] | d :: l => if decide (c = d) then l else d :: take_out c l end.

Definition exec (a : Action) (p : InternalConnPool) : option InternalConnPool :=
  match a with
  | AGet t => start t InGet p
  | AClose t c => match conns p !! c with
                  | Some _ => start t (Closing c) (p <| handed := take_out c (handed p) |>)
                  | None => None
                  end
  | AClosePool t => start t ClosingPool p
  | AStep t now answer => match calls p !! t with Some th => step t now answer th p | None => None end
  end.

(** A caller closes what it was given, and once. *)
Definition disciplined (a : Action) (p : InternalConnPool) : Prop :=
  match a with AClose _ c => c ∈ handed p | _ => True end.
Inductive reachable (opts : InternalPoolConfig) : InternalConnPool -> Prop :=
| at_start : reachable opts (NewConnPool opts)
| at_step p a p' : reachable opts p -> disciplined a p -> exec a p = Some p' -> reachable opts p'.

(** ** Where the connections are *)

(** Each connection with its flag [returned]. *)
Definition holds (th : Call) : list (nat * bool) :=
  match th with
  | Discarding c _ | Resetting c _ | Stamping c | Returning c => [(c, true)]
  | Closing c => [(c, false)]
  | _ => []
  end.
Definition held_by_calls (m : gmap nat Call) : list (nat * bool) := mjoin (holds <$> (map_to_list m).*2).
Definition places (p : InternalConnPool) : list (nat * bool) :=
  held_by_calls (calls p) ++ ((., true) <$> idleConns p) ++ ((., false) <$> handed p).

Record accounted (l : list (nat * bool)) (conns : gmap nat internalPooledConn) (open : gset nat) (next : nat) : Prop := {
  acc_nodup : NoDup l.*1;
  acc_open c : c ∈ open <-> c ∈ l.*1;
  acc_flags c b : (c, b) ∈ l -> exists pc, conns !! c = Some pc /\ returned pc = b;
  acc_next c : is_Some (conns !! c) -> (c < next)%nat
}.

Lemma accounted_moved l l' m o n : l ≡ₚ l' -> accounted l m o n -> accounted l' m o n.
Proof.
  intros Hp [Hn Ho Hf Hx]. split.
  - by rewrite <-Hp.
  - intros c. by rewrite <-Hp.
  - intros c b. rewrite <-Hp. apply Hf.
  - done.
Qed.
#[export] Instance accounted_perm : Proper ((≡ₚ) ==> eq ==> eq ==> eq ==> iff) accounted.
Proof. intros l l' Hp m ? <- o ? <- n ? <-. split; by apply accounted_moved. Qed.

Lemma accounted_flip c b b' pc l m o n :
  returned pc = b' -> accounted ((c, b) :: l) m o n -> accounted ((c, b') :: l) (<[c := pc]> m) o n.
Proof.
  intros Hb [Hn Ho Hf Hx]. cbn in *. split; cbn.
  - done.
  - done.
  - apply NoDup_cons in Hn as [Hc _]. intros d b1 [[= -> ->]|Hd]%elem_of_cons.
    + exists pc. by rewrite lookup_insert_eq.
    + rewrite lookup_insert_ne; [apply Hf; by right|]. intros ->. apply Hc, list_elem_of_fmap. by exists (d, b1).
  - intros d Hd. destruct (decide (c = d)) as [<-|]; [|rewrite lookup_insert_ne in Hd by done; auto].
    destruct (Hf c b) as (pc' & E & _); [by left|]. apply Hx. eauto.
Qed.

Lemma accounted_close c b l m o n : accounted ((c, b) :: l) m o n -> accounted l m (o ∖ {[c]}) n.
Proof.
  intros [Hn Ho Hf Hx]. cbn in *. apply NoDup_cons in Hn as [Hc Hn]. split; [done| |auto|done].
  - intros d. specialize (Ho d). rewrite elem_of_cons in Ho. set_solver.
  - intros d b' Hd. apply Hf. by right.
Qed.

Lemma accounted_close_all idle l m o n :
  accounted (((., true) <$> idle) ++ l) m o n -> accounted l m (o ∖ list_to_set idle) n.
Proof.
  revert o. induction idle as [|c idle IH]; intros o H.
  - cbn. by replace (o ∖ ∅) with o by set_solver.
  - cbn [list_to_set]. replace (o ∖ ({[c]} ∪ list_to_set idle)) with ((o ∖ {[c]}) ∖ list_to_set idle) by set_solver.
    by apply IH, (accounted_close c true).
Qed.

Lemma accounted_new pc l m o n :
  returned pc = false -> accounted l m o n -> accounted ((n, false) :: l) (<[n := pc]> m) ({[n]} ∪ o) (S n).
Proof.
  intros Hb [Hn Ho Hf Hx].
  assert (Hfresh : n ∉ l.*1).
  { intros ([c b] & -> & Hc)%list_elem_of_fmap. destruct (Hf _ _ Hc) as (pc' & E & _). cbn in *. specialize (Hx c ltac:(eauto)). lia. }
  split; cbn.
  - by constructor.
  - intros c. rewrite elem_of_cons. set_solver.
  - intros c b [[= -> ->]|Hc]%elem_of_cons.
    + exists pc. by rewrite lookup_insert_eq.
    + rewrite lookup_insert_ne; [by apply Hf|]. intros <-. apply Hfresh, list_elem_of_fmap. by exists (n, b).
  - intros c. destruct (decide (n = c)) as [->|]; [lia|]. rewrite lookup_insert_ne by done. intros ?%Hx. lia.
Qed.

Lemma held_insert t th th' m :
  m !! t = Some th -> exists l, held_by_calls m ≡ₚ holds th ++ l /\ held_by_calls (<[t := th']> m) ≡ₚ holds th' ++ l.
Proof.
  intros E. exists (held_by_calls (delete t m)). unfold held_by_calls. split.
  - by rewrite <-(insert_delete_id m t th E) at 1; rewrite map_to_list_insert by apply lookup_delete_eq.
  - by rewrite <-insert_delete_eq, map_to_list_insert by apply lookup_delete_eq.
Qed.
Lemma held_fresh t th m : m !! t = None -> held_by_calls (<[t := th]> m) ≡ₚ holds th ++ held_by_calls m.
Proof. intros E. unfold held_by_calls. by rewrite map_to_list_insert. Qed.

Lemma take_out_perm c l : c ∈ l -> l ≡ₚ c :: take_out c l.
Proof.
  induction l as [|d l IH]; [by intros ?%elem_of_nil|]. intros Hc. cbn. case_decide as Hd; [by subst|].
  apply elem_of_cons in Hc as [->|Hc]; [done|]. rewrite (IH Hc) at 1. constructor.
Qed.

(** A call goes on: the connections it holds and those of the others. *)
Lemma places_at t th th' p :
  calls p !! t = Some th ->
  exists l, places p ≡ₚ holds th ++ l ++ ((., true) <$> idleConns p) ++ ((., false) <$> handed p) /\
    forall p', calls p' = calls p -> places (at_call t th' p') ≡ₚ holds th' ++ l ++ ((., true) <$> idleConns p') ++ ((., false) <$> handed p').
Proof.
  intros E. destruct (held_insert t th th' _ E) as (l & H1 & H2). exists l. unfold places. split.
  - by rewrite H1, <-app_assoc.
  - intros p' Hc. cbn. by rewrite Hc, H2, <-app_assoc.
Qed.

Record pool_ok (p : InternalConnPool) : Prop := {
  ok_places : accounted (places p) (conns p) (open p) (next p);
  ok_idle : pool_maxIdleConns p <> 0 -> Z.of_nat (length (idleConns p)) <= Z.max 0 (pool_maxIdleConns p);
  ok_closed : closed p = true -> idleConns p = [];
  ok_mu : mu p = true -> closed p = true
}.

Lemma pool_ok_new opts : pool_ok (NewConnPool opts).
Proof.
  split; [|cbn; lia|done|done]. split; cbn.
  - constructor.
  - intros c. set_solver.
  - by intros c b ?%elem_of_nil.
  - intros c. rewrite lookup_empty. by intros [? ?].
Qed.

Lemma pool_ok_start t th p p' :
  holds th = [] -> pool_ok p -> start t th p = Some p' -> pool_ok p'.
Proof.
  unfold start. intros Hh [H1 H2 H3 H4]. destruct (calls p !! t) eqn:E; [done|]. intros [= <-]. split; [|done..].
  unfold places. cbn. rewrite held_fresh, Hh by done. apply H1.
Qed.

Lemma get_loop_ok t th now p p' :
  calls p !! t = Some th -> holds th = [] -> pool_ok p -> get_loop t now p = Some p' -> pool_ok p'.
Proof.
  unfold get_loop. intros E Hh [H1 H2 H3 H4]. destruct (idleConns p) as [|c idle] eqn:Ei.
  - intros [= <-]. destruct (places_at t th (Connecting now) p E) as (l & Hp & Hp'). split; [|cbn; rewrite ?Ei; done..].
    rewrite (Hp' p), Ei by done. rewrite Hp, Hh, Ei in H1. apply H1.
  - change (conns (p <| idleConns := idle |>) !! c) with (conns p !! c).
    destruct (conns p !! c) as [pc|] eqn:Ec; [|done]. intros <-%(inj Some).
    set (th' := if isConnExpired _ _ _ then _ else _).
    assert (Hh' : holds th' = [(c, true)]) by (unfold th'; by destruct (isConnExpired _ _ _)).
    destruct (places_at t th th' p E) as (l & Hp & Hp'). split.
    + rewrite (Hp' (p <| idleConns := idle |>)) by done. rewrite Hh'.
      eapply accounted_moved; [|exact H1]. rewrite Hp, Hh, Ei. cbn.
      by rewrite <-Permutation_middle.
    + intros Hm. specialize (H2 Hm). cbn in *. lia.
    + intros Hc. by specialize (H3 Hc).
    + done.
Qed.

(** A call goes on, and nothing else changes. *)
Lemma stay_ok t th th' p : calls p !! t = Some th -> holds th' = holds th -> pool_ok p -> pool_ok (at_call t th' p).
Proof.
  intros E Hh [H1 H2 H3 H4]. destruct (places_at t th th' p E) as (l & Hp & Hp'). split; [|done..].
  rewrite (Hp' p), Hh by done. by rewrite Hp in H1.
Qed.

(** A call goes on with the connection it has; it may set the flag. *)
Lemma carry_ok t th th' c b b' pc p p' :
  calls p !! t = Some th -> holds th = [(c, b)] -> holds th' = [(c, b')] -> pool_ok p ->
  p' = at_call t th' (p <| conns := <[c := pc]> (conns p) |>) -> returned pc = b' -> pool_ok p'.
Proof.
  intros E Hh Hh' [H1 H2 H3 H4] -> Hr. destruct (places_at t th th' p E) as (l & Hp & Hp').
  split; [|done..]. rewrite (Hp' (p <| conns := _ |>)) by done. rewrite Hp, Hh in H1. rewrite Hh'.
  by apply (accounted_flip _ _ b' pc) in H1.
Qed.

Lemma handed_over_ok t th c b pc p p' :
  calls p !! t = Some th -> holds th = [(c, b)] -> pool_ok p ->
  p' = at_call t (Got (Ok c)) (p <| conns := <[c := pc]> (conns p) |> <| handed := c :: handed p |>) ->
  returned pc = false -> pool_ok p'.
Proof.
  intros E Hh [H1 H2 H3 H4] -> Hr. destruct (places_at t th (Got (Ok c)) p E) as (l & Hp & Hp').
  split; [|done..]. rewrite (Hp' (p <| conns := _ |> <| handed := _ |>)) by done. rewrite Hp, Hh in H1.
  apply (accounted_flip _ _ false pc) in H1; [|done].
  eapply accounted_moved; [|exact H1]. cbn. by rewrite <-!Permutation_middle.
Qed.

Lemma closed_ok t th th' c b p :
  calls p !! t = Some th -> holds th = [(c, b)] -> holds th' = [] -> pool_ok p -> pool_ok (at_call t th' (close_conn c p)).
Proof.
  intros E Hh Hh' [H1 H2 H3 H4]. destruct (places_at t th th' p E) as (l & Hp & Hp').
  split; [|done..]. rewrite (Hp' (close_conn c p)) by done. rewrite Hp, Hh in H1. rewrite Hh'.
  by apply (accounted_close c b) in H1.
Qed.

Lemma give_back_ok t th c e p :
  calls p !! t = Some th -> holds th = [(c, true)] -> pool_ok p -> pool_ok (give_back t c e p).
Proof.
  unfold give_back. intros E Hh Hok. destruct (closed p) eqn:Ec; [by apply (closed_ok t th _ c true)|].
  destruct (_ || _) eqn:Ei; [|by apply (closed_ok t th _ c true)].
  destruct Hok as [H1 H2 H3 H4]. destruct (places_at t th (Done (Ok tt)) p E) as (l & Hp & Hp'). split.
  - rewrite (Hp' (p <| idleConns := _ |>)) by done. rewrite Hp, Hh in H1. eapply accounted_moved; [|exact H1].
    cbn. rewrite fmap_app, <-app_assoc. cbn. by rewrite <-!Permutation_middle.
  - intros Hm. cbn in *. specialize (H2 Hm). rewrite length_app. cbn. lia.
  - intros Hc. cbn in Hc. congruence.
  - done.
Qed.

Lemma Close_ok t th answer p : calls p !! t = Some th -> holds th = [] -> pool_ok p -> pool_ok (Close t answer p).
Proof.
  unfold Close. intros E Hh Hok. destruct (closed p) eqn:Ec; [by apply (stay_ok t th)|].
  destruct Hok as [H1 H2 H3 H4]. set (th' := Done _). destruct (places_at t th th' p E) as (l & Hp & Hp').
  split; [|cbn; lia|done|done]. rewrite (Hp' (p <| closed := _ |> <| open := _ |> <| idleConns := _ |>)) by done.
  rewrite Hp, Hh in H1. apply (accounted_close_all (idleConns p)). eapply accounted_moved; [|exact H1].
  cbn. by rewrite !app_assoc, (Permutation_app_comm l).
Qed.

Lemma alter_insert {A} (f : A -> A) (m : gmap nat A) c x : m !! c = Some x -> alter f c m = <[c := f x]> m.
Proof. intros E. apply map_eq. intros d. destruct (decide (c = d)) as [<-|]; by simplify_map_eq. Qed.

(** The wrapped connection a call holds. *)
Lemma held_conn t th c b p :
  calls p !! t = Some th -> holds th = [(c, b)] -> pool_ok p -> exists pc, conns p !! c = Some pc /\ returned pc = b.
Proof.
  intros E Hh [[_ _ Hf _] _ _ _]. apply Hf. destruct (places_at t th th p E) as (l & -> & _). rewrite Hh. by left.
Qed.

Lemma connected_ok t th pc p p' :
  calls p !! t = Some th -> holds th = [] -> pool_ok p ->
  p' = at_call t (Got (Ok (next p))) (p <| conns := <[next p := pc]> (conns p) |> <| open := {[next p]} ∪ open p |>
                                         <| next := S (next p) |> <| handed := next p :: handed p |>) ->
  returned pc = false -> pool_ok p'.
Proof.
  intros E Hh [H1 H2 H3 H4] -> Hr. set (th' := Got _). destruct (places_at t th th' p E) as (l & Hp & Hp').
  split; [|done..]. rewrite (Hp' (p <| conns := _ |> <| open := _ |> <| next := _ |> <| handed := _ |>)) by done.
  rewrite Hp, Hh in H1. apply (accounted_new pc) in H1; [|done]. eapply accounted_moved; [|exact H1].
  cbn. by rewrite <-!Permutation_middle.
Qed.

Lemma step_ok t now answer th p p' :
  calls p !! t = Some th -> pool_ok p -> step t now answer th p = Some p' -> pool_ok p'.
Proof.
  intros E Hok. destruct th as [|c n|c n|n|n|c|c|c| |r|r]; cbn [step]; try done.
  - destruct (mu p); [done|]. destruct (closed p); [|by apply (get_loop_ok t InGet)].
    intros <-%(inj Some). by apply (stay_ok t InGet).
  - intros <-%(inj Some). by apply (closed_ok t (Discarding c n) _ c true).
  - destruct (answer c); intros <-%(inj Some); [by apply (stay_ok t (Resetting c n))|].
    destruct (held_conn t _ c true p E) as (pc & Ec & _); [done..|]. rewrite (alter_insert _ _ _ pc) by done.
    by eapply (handed_over_ok t _ c true).
  - destruct (mu p) eqn:Em; [done|]. destruct (closed p) eqn:Ec; [|by apply (get_loop_ok t (Relocking n))].
    intros <-%(inj Some). apply (stay_ok t (Relocking n) (Got (Err ErrBadConn))) in Hok as [H1 H2 H3 H4]; [|done..]. by split.
  - destruct (answer _); intros <-%(inj Some); [by apply (stay_ok t (Connecting n))|].
    by eapply (connected_ok t (Connecting n)).
  - destruct (held_conn t _ c false p E) as (pc & Ec & Hr); [done..|]. rewrite Ec, Hr. intros <-%(inj Some).
    by eapply (carry_ok t _ (Stamping c) c false true).
  - destruct (held_conn t _ c true p E) as (pc & Ec & Hr); [done..|]. rewrite (alter_insert _ _ _ pc) by done.
    intros <-%(inj Some). by eapply (carry_ok t _ (Returning c) c true true).
  - destruct (mu p); [done|]. intros <-%(inj Some). by apply (give_back_ok t (Returning c)).
  - destruct (mu p); [done|]. intros <-%(inj Some). by apply (Close_ok t ClosingPool).
Qed.

Lemma call_Close_ok t c p p' : c ∈ handed p -> pool_ok p -> exec (AClose t c) p = Some p' -> pool_ok p'.
Proof.
  cbn [exec]. intros Hc [H1 H2 H3 H4]. destruct (conns p !! c); [|done]. unfold start. cbn [calls].
  change (calls (p <| handed := _ |>)) with (calls p). destruct (calls p !! t) eqn:E; [done|].
  intros <-%(inj Some). split; [|done..]. unfold places. cbn. rewrite held_fresh by done.
  eapply accounted_moved; [|exact H1]. unfold places. rewrite (take_out_perm c (handed p)) at 1 by done.
  cbn. by rewrite <-!Permutation_middle.
Qed.

Lemma reachable_ok opts p : reachable opts p -> pool_ok p.
Proof.
  induction 1 as [|p [t|t c|t|t now answer] p' _ IH Hd E]; [apply pool_ok_new| | | |].
  - by apply (pool_ok_start t InGet) in E.
  - by apply (call_Close_ok t c) in E.
  - by apply (pool_ok_start t ClosingPool) in E.
  - cbn in E. destruct (calls p !! t) as [th|] eqn:Et; [|done]. by eapply step_ok.
Qed.

Lemma tagged_fst (b : bool) (l : list nat) : ((., b) <$> l).*1 = l.
Proof. rewrite <-list_fmap_compose. apply list_fmap_id. Qed.


Lemma step_got t now answer th p p' c :
  step t now answer th p = Some p' -> calls p' !! t = Some (Got (Ok c)) -> handed p' = c :: handed p.
Proof.
  destruct th; unfold step, get_loop, give_back, Close, at_call; intros E Hc;
    repeat case_match; simplify_eq; cbn in *; rewrite lookup_insert_eq in Hc; by simplify_eq.
Qed.

(** A connection [Get] hands out is open, nobody else has it, and it counts as
    not returned. *)
Theorem Get_hands_out opts p t now answer p' c :
  reachable opts p -> exec (AStep t now answer) p = Some p' -> calls p' !! t = Some (Got (Ok c)) ->
  c ∉ handed p /\ c ∉ idleConns p' /\ c ∈ open p' /\ exists pc, conns p' !! c = Some pc /\ IsValid pc = true.
Proof.
  intros Hr E Eg. assert (reachable opts p') as [Hacc _ _ _]%reachable_ok by by apply (at_step opts p (AStep t now answer)).
  assert (Hh : handed p' = c :: handed p).
  { cbn in E. destruct (calls p !! t) as [th|]; [|done]. by eapply step_got. }
  assert (Hp : places p' ≡ₚ (c, false) :: ((., false) <$> handed p) ++ ((., true) <$> idleConns p') ++ held_by_calls (calls p')).
  { unfold places. rewrite Hh. cbn. rewrite (Permutation_app_comm (held_by_calls _)), <-app_assoc.
    rewrite (Permutation_app_comm ((., true) <$> _)). cbn. by rewrite <-!app_assoc, (Permutation_app_comm (held_by_calls _)). }
  apply (accounted_moved _ _ _ _ _ Hp) in Hacc as [Hn Ho Hf _]. cbn in Hn. apply NoDup_cons in Hn as [Hc _]. rewrite !fmap_app, !tagged_fst, !elem_of_app in Hc.
  repeat split.
  - tauto.
  - tauto.
  - apply Ho. by left.
  - destruct (Hf c false) as (pc & Ec & Hb); [by left|]. exists pc. unfold IsValid. by rewrite Hb.
Qed.

(** ** The mutex *)

Definition waits (th : Call) : bool :=
  match th with InGet | Relocking _ | Returning _ | ClosingPool => true | _ => false end.
Definition finished (th : Call) : bool := match th with Got _ | Done _ => true | _ => false end.
Definition runs : relation InternalConnPool := rtc (fun p p' => exists a, exec a p = Some p').

(** An open pool is never stuck: the mutex is free, and every call on it that has
    not returned can go on, whatever the driver answers. *)
Theorem open_pool_progress opts p t th now answer :
  reachable opts p -> closed p = false -> calls p !! t = Some th -> finished th = false ->
  is_Some (exec (AStep t now answer) p).
Proof.
  intros Hok%reachable_ok Hc Et Hf. assert (Hm : mu p = false).
  { destruct (mu p) eqn:Em; [|done]. apply (ok_mu _ Hok) in Em. congruence. }
  assert (Hl : forall n, is_Some (get_loop t n p)).
  { intros n. unfold get_loop. destruct (idleConns p) as [|c idle] eqn:Ei; [by eexists|].
    destruct (acc_flags _ _ _ _ (ok_places _ Hok) c true) as (pc & Ec & _).
    - unfold places. rewrite Ei, !elem_of_app. right. left. by left.
    - change (conns (p <| idleConns := idle |>)) with (conns p). rewrite Ec. by eexists. }
  cbn [exec]. rewrite Et. destruct th as [|c n|c n|n|n|c|c|c| |r|r]; cbn [step]; rewrite ?Hm, ?Hc; try done; try by eexists.
  - destruct (answer c); by eexists.
  - destruct (answer _); by eexists.
  - destruct (held_conn t _ c false p Et) as (pc & -> & ->); [done..|]. by eexists.
Qed.

Lemma held_mutex_step a p p' t th :
  mu p = true -> exec a p = Some p' -> calls p !! t = Some th -> waits th = true -> mu p' = true /\ calls p' !! t = Some th.
Proof.
  intros Hm E Et Hw. destruct a as [t'|t' c|t'|t' now answer]; cbn [exec] in E.
  - unfold start in E. destruct (calls p !! t') eqn:E'; simplify_eq. split; [done|]. cbn. by rewrite lookup_insert_ne by congruence.
  - destruct (conns p !! c); [|done]. unfold start in E. cbn [calls] in E. change (calls (p <| handed := _ |>)) with (calls p) in E.
    destruct (calls p !! t') eqn:E'; simplify_eq. split; [done|]. cbn. by rewrite lookup_insert_ne by congruence.
  - unfold start in E. destruct (calls p !! t') eqn:E'; simplify_eq. split; [done|]. cbn. by rewrite lookup_insert_ne by congruence.
  - destruct (calls p !! t') as [th'|] eqn:E'; [|done]. destruct (decide (t' = t)) as [->|Hne].
    + rewrite Et in E'. injection E' as <-. destruct th; cbn in Hw, E; rewrite ?Hm in E; done.
    + destruct th'; cbn [step] in E; rewrite ?Hm in E; try done; repeat case_match; simplify_eq; cbn; by rewrite lookup_insert_ne.
Qed.

(** A [Get] that finds the pool closed after it has discarded a connection
    returns without giving the mutex back: from then on a call that waits for
    the mutex, a [Close] of a connection or of the pool or a [Get], stays where
    it is. *)
Theorem closed_while_discarding_deadlocks p t n now answer p' p'' t' th :
  calls p !! t = Some (Relocking n) -> closed p = true -> mu p = false -> exec (AStep t now answer) p = Some p' ->
  runs p' p'' -> calls p' !! t' = Some th -> waits th = true ->
  calls p' !! t = Some (Got (Err ErrBadConn)) /\ calls p'' !! t' = Some th.
Proof.
  intros Et Hc Hm E Hr Et' Hw. cbn in E. rewrite Et in E. cbn in E. rewrite Hm, Hc in E. apply (inj Some) in E. split.
  - rewrite <-E. cbn. apply lookup_insert_eq.
  - assert (Hm' : mu p' = true) by by rewrite <-E. clear - Hr Et' Hw Hm'.
    induction Hr as [|p1 p2 p3 [a E] _ IH]; [done|]. destruct (held_mutex_step _ _ _ _ _ Hm' E Et' Hw). auto.
Qed.

(** ** A call of [Get] alone *)

Section alone.
Context (t : nat) (now : Z) (answer : nat -> option go_error).

Fixpoint run_alone (fuel : nat) (p : InternalConnPool) : InternalConnPool :=
  match fuel with
  | 0%nat => p
  | S fuel => match exec (AStep t now answer) p with Some p' => run_alone fuel p' | None => p end
  end.

(** A connection that [Get] can hand out. *)
Definition usable (p : InternalConnPool) (c : nat) : bool :=
  match conns p !! c with
  | Some pc => negb (isConnExpired p pc now) && match answer c with None => true | Some _ => false end
  | None => false
  end.

(** What [Get] is to do with the idle connections: those before the first that
    is usable are closed. *)
Fixpoint split_usable (p : InternalConnPool) (idle : list nat) : list nat * list nat :=
  match idle with
  | [] => ([], [])
  | c :: idle' => if usable p c then ([], idle) else let '(dead, rest) := split_usable p idle' in (c :: dead, rest)
  end.

Lemma run_step fuel p p' : exec (AStep t now answer) p = Some p' -> run_alone (S fuel) p = run_alone fuel p'.
Proof. intros E. cbn [run_alone]. by rewrite E. Qed.
Lemma run_finished fuel p th : calls p !! t = Some th -> finished th = true -> run_alone fuel p = p.
Proof. intros E Hf. destruct fuel; [done|]. cbn [run_alone exec]. rewrite E. by destruct th. Qed.
Lemma at_call_call th p : calls (at_call t th p) !! t = Some th.
Proof. cbn. apply lookup_insert_eq. Qed.
Lemma exec_at th p p' : calls p !! t = Some th -> step t now answer th p = p' -> exec (AStep t now answer) p = p'.
Proof. cbn [exec]. by intros ->. Qed.

(** A turn of the loop that closes the first idle connection. *)
Lemma discard_turn fuel p c idle pc :
  get_loop t now p = Some (at_call t (if isConnExpired p pc now then Discarding c now else Resetting c now) (p <| idleConns := idle |>)) ->
  (isConnExpired p pc now = false -> is_Some (answer c)) ->
  forall th, calls p !! t = Some th -> step t now answer th p = get_loop t now p ->
  exists p', run_alone (S (S (S fuel))) p = run_alone (if isConnExpired p pc now then S fuel else fuel) p' /\
    p' = at_call t (Relocking now) (close_conn c (p <| idleConns := idle |>)).
Proof.
  intros El Ha th Et Es. rewrite El in Es.
  assert (Hover : forall th1 th2 q, at_call t th2 (at_call t th1 q) = at_call t th2 q).
  { intros. unfold at_call. cbn. by rewrite insert_insert_eq. }
  erewrite run_step by (eapply exec_at; [exact Et|exact Es]). eexists. split; [|reflexivity].
  destruct (isConnExpired p pc now).
  - erewrite run_step by (eapply exec_at; [apply at_call_call|reflexivity]).
    f_equal. unfold close_conn. cbn. unfold at_call. cbn. by rewrite insert_insert_eq.
  - destruct Ha as [e Ha]; [done|].
    erewrite run_step by (eapply exec_at; [apply at_call_call|cbn [step]; rewrite Ha; reflexivity]).
    erewrite run_step by (eapply exec_at; [apply at_call_call|reflexivity]).
    f_equal. unfold close_conn. cbn. unfold at_call. cbn. by rewrite !insert_insert_eq.
Qed.

(** The result of [Get]: the first usable connection, or a new one. *)
Definition got_spec (p p' : InternalConnPool) : Prop :=
  let '(dead, rest) := split_usable p (idleConns p) in
  match rest with
  | c :: idle => calls p' !! t = Some (Got (Ok c)) /\ idleConns p' = idle /\ open p' = open p ∖ list_to_set dead
  | [] => idleConns p' = [] /\
      match answer (next p) with
      | None => calls p' !! t = Some (Got (Ok (next p))) /\ open p' = {[next p]} ∪ (open p ∖ list_to_set dead)
      | Some e => calls p' !! t = Some (Got (Err e)) /\ open p' = open p ∖ list_to_set dead
      end
  end.

Lemma split_usable_same p p' idle :
  conns p' = conns p -> maxLifetime p' = maxLifetime p -> maxIdleTime p' = maxIdleTime p ->
  split_usable p' idle = split_usable p idle.
Proof.
  intros H1 H2 H3. induction idle as [|c idle IH]; [done|]. cbn [split_usable]. rewrite IH.
  unfold usable, isConnExpired. by rewrite H1, H2, H3.
Qed.

Lemma loop_alone fuel p th :
  calls p !! t = Some th -> step t now answer th p = get_loop t now p -> mu p = false -> closed p = false ->
  (forall c, c ∈ idleConns p -> is_Some (conns p !! c)) -> (3 * length (idleConns p) + 2 <= fuel)%nat ->
  got_spec p (run_alone fuel p).
Proof.
  remember (idleConns p) as idle eqn:Ei. revert fuel p th Ei.
  induction idle as [|c idle IH]; intros fuel p th Ei Et Es Hm Hc Hs Hf; unfold got_spec; rewrite <-Ei.
  - destruct fuel as [|[|fuel]]; [cbn in Hf; lia..|]. cbn [split_usable].
    assert (step t now answer th p = Some (at_call t (Connecting now) p)) as E1.
    { rewrite Es. unfold get_loop. by rewrite <-Ei. }
    erewrite run_step by (eapply exec_at; [exact Et|exact E1]).
    destruct (answer (next p)) as [e|] eqn:Ea.
    + erewrite run_step by (eapply exec_at; [apply at_call_call|cbn [step]; cbn; rewrite Ea; reflexivity]).
      erewrite run_finished by (apply at_call_call || done). cbn. rewrite lookup_insert_eq. split; [done|].
      split; [done|]. set_solver.
    + erewrite run_step by (eapply exec_at; [apply at_call_call|cbn [step]; cbn; rewrite Ea; reflexivity]).
      erewrite run_finished by (apply at_call_call || done). cbn. rewrite lookup_insert_eq. split; [done|].
      split; [done|]. set_solver.
  - destruct (Hs c) as [pc Ec]; [by left|].
    assert (get_loop t now p = Some (at_call t (if isConnExpired p pc now then Discarding c now else Resetting c now)
                                       (p <| idleConns := idle |>))) as El.
    { unfold get_loop. rewrite <-Ei. change (conns (p <| idleConns := idle |>)) with (conns p). by rewrite Ec. }
    cbn [split_usable]. assert (usable p c = negb (isConnExpired p pc now) && match answer c with None => true | Some _ => false end) as ->.
    { unfold usable. by rewrite Ec. }
    destruct (negb (isConnExpired p pc now) && _) eqn:Eu.
    + apply andb_true_iff in Eu as [Eu%negb_true_iff Ea]. destruct (answer c) eqn:Ea'; [done|].
      rewrite Eu in El. destruct fuel as [|[|fuel]]; [cbn in Hf; lia..|].
      erewrite run_step by (eapply exec_at; [exact Et|by rewrite Es]).
      erewrite run_step by (eapply exec_at; [apply at_call_call|cbn [step]; rewrite Ea'; reflexivity]).
      erewrite run_finished by (apply at_call_call || done). cbn. rewrite lookup_insert_eq.
      split; [done|]. split; [done|]. set_solver.
    + destruct fuel as [|[|[|fuel]]]; [cbn in Hf; lia..|].
      destruct (discard_turn fuel p c idle pc El) with (th := th) as (p' & -> & Hp'); [|done..|].
      { intros He. rewrite He in Eu. destruct (answer c); [by eexists|done]. }
      set (F := if isConnExpired p pc now then S fuel else fuel). assert (HF : (3 * length idle + 2 <= F)%nat).
      { unfold F. cbn in Hf. destruct (isConnExpired p pc now); lia. }
      assert (got_spec p' (run_alone F p')) as Hg.
      { subst p'. apply (IH F _ (Relocking now)); [done|apply at_call_call| |done|done| |done].
        - cbn [step]. change (mu (at_call _ _ _)) with (mu p). change (closed (at_call _ _ _)) with (closed p). by rewrite Hm, Hc.
        - intros d Hd. apply Hs. by right. }
      clear - Hg Hp'. revert Hg. generalize (run_alone F p'). intros q. unfold got_spec. subst p'.
      rewrite (split_usable_same p) by done. change (idleConns (at_call _ _ _)) with idle.
      change (open (at_call _ _ _)) with (open p ∖ {[c]}). change (next (at_call _ _ _)) with (next p).
      destruct (split_usable p idle) as [dead rest].
      assert (forall X : gset nat, open p ∖ {[c]} ∖ X = open p ∖ ({[c]} ∪ X)) as Hx by set_solver. cbn [list_to_set].
      by rewrite (Hx (list_to_set dead)).
Qed.

(** A [Get] of an open pool that nobody else calls returns, after at most three
    steps for each idle connection and two more: with the first idle connection
    that has not expired and can be reset, the ones before it closed, or with a
    new connection when there is none. *)
Theorem Get_alone opts p :
  reachable opts p -> closed p = false -> calls p !! t = Some InGet ->
  got_spec p (run_alone (3 * length (idleConns p) + 2) p).
Proof.
  intros Hok%reachable_ok Hc Et. assert (Hm : mu p = false).
  { destruct (mu p) eqn:Em; [|done]. apply (ok_mu _ Hok) in Em. congruence. }
  apply (loop_alone _ p InGet); [done| |done|done| |done].
  - cbn [step]. by rewrite Hm, Hc.
  - intros c Hi. destruct (acc_flags _ _ _ _ (ok_places _ Hok) c true) as (pc & Ec & _); [|by eexists].
    unfold places. rewrite !elem_of_app. right. left. apply list_elem_of_fmap. by exists c.
Qed.
End alone.

(** ** The provider of pools *)

Record PoolKey := mkPoolKey { url : string; driverName : string; extraKey : string }.
Definition NewPoolKey (url driverName extraKey : string) : PoolKey := mkPoolKey url driverName extraKey.
Definition PoolKey_String (pk : PoolKey) : string :=
  "PoolKey [url=" +:+ url pk +:+ ", driverNamey=" +:+ driverName pk +:+ ", extraKey=" +:+ extraKey pk +:+ "]".

Definition defaultPoolTimeout : Z := 30 * Minute.

(** A pool with the driver and the DSN its function [newConnFunc] opens. *)
Record DriverPool := mkDriverPool { pool_driver : string; pool_dsn : string; pool_of : InternalConnPool }.

(** The cache refers to the pools by their number. *)
Record InternalPooledConnectionProvider := mkPoolProvider {
  databasePools : SlidingExpirationCache nat;
  internalPoolOptions : InternalPoolConfig;
  poolKeyFunc : option (HostInfo -> properties -> string);
  poolExpirationDuration : Z;
  pools : gmap nat DriverPool;
  next_pool : nat
}.

Definition NewInternalPooledConnectionProviderWithPoolKeyFunc (now : Z) (internalPoolOptions : InternalPoolConfig)
  (poolExpirationDuration : Z) (poolKeyFunc : option (HostInfo -> properties -> string)) : InternalPooledConnectionProvider :=
  mkPoolProvider (NewSlidingExpirationCache now true None) internalPoolOptions poolKeyFunc
    (if poolExpirationDuration =? 0 then defaultPoolTimeout else poolExpirationDuration) ∅ 0.
Definition NewInternalPooledConnectionProvider (now : Z) (internalPoolOptions : InternalPoolConfig) (poolExpirationDuration : Z) :=
  NewInternalPooledConnectionProviderWithPoolKeyFunc now internalPoolOptions poolExpirationDuration None.

Definition AcceptsUrl (hostInfo : HostInfo) : bool := IsRds (IdentifyRdsUrlType (Host hostInfo)).
Definition AcceptsStrategy (strategy : string) : bool := bool_decide (is_Some (acceptedStrategies !! strategy)).
Definition GetHostSelectorStrategy (strategy : string) : Result HostSelector :=
  match acceptedStrategies !! strategy with
  | Some sel => Ok sel
  | None => Err (NewGenericAwsWrapperError "ConnectionProvider.unsupportedHostSelectorStrategy" [strategy])
  end.
Definition GetHostInfoByStrategy `{MapRange} `{RandomSource} (clk : rr_clock) (hosts : list HostInfo) (role strategy : string)
  (props : properties) : Eff Selectors HostInfo :=
  match GetHostSelectorStrategy strategy with
  | Ok acceptedStrategy => DefaultPlugin.GetHost clk acceptedStrategy hosts role props
  | Err e => throw e
  | Panic => lift_result Panic
  end.

Definition getPoolKey (p : InternalPooledConnectionProvider) (hostInfo : HostInfo) (props : properties) : string :=
  match poolKeyFunc p with
  | Some f => f hostInfo props
  | None => let user : string := GetVerifiedWrapperPropertyValueFromMap props USER in
            if negb (is_empty user) then user else GetVerifiedWrapperPropertyValueFromMap props DB_USER
  end.

Section Connect.
Context (PrepareDsn : properties -> option HostInfo -> string) (registrationName : string).

(** [Connect] up to the call of [Get] of the pool, with its number; the clock is
    read up to three times by the cache. *)
Definition Connect (now now' now'' : Z) (t : nat) (hostInfo : HostInfo) (props : properties) (p : InternalPooledConnectionProvider) :
  InternalPooledConnectionProvider * nat :=
  let dsn := PrepareDsn props (Some hostInfo) in
  let key := getPoolKey p hostInfo props in
  let poolKey := NewPoolKey (GetUrl (Some hostInfo)) registrationName key in
  let '(cache, connPool) := ComputeIfAbsent now now' now'' (PoolKey_String poolKey) (next_pool p) (poolExpirationDuration p)
                              (databasePools p) in
  let pools := if Nat.eqb connPool (next_pool p)
               then <[next_pool p := mkDriverPool registrationName dsn (NewConnPool (internalPoolOptions p))]> (pools p) else pools p in
  let next := if Nat.eqb connPool (next_pool p) then S (next_pool p) else next_pool p in
  (mkPoolProvider cache (internalPoolOptions p) (poolKeyFunc p) (poolExpirationDuration p)
     (alter (fun d => mkDriverPool (pool_driver d) (pool_dsn d) (default (pool_of d) (exec (AGet t) (pool_of d)))) connPool pools) next,
   connPool).
End Connect.

(** The pools whose [Close] is called: those the cache disposes of. *)
Definition ReleaseResources `{MapRange} (now : Z) (p : InternalPooledConnectionProvider) : InternalPooledConnectionProvider :=
  mkPoolProvider (Clear now (databasePools p)) (internalPoolOptions p) (poolKeyFunc p) (poolExpirationDuration p) (pools p) (next_pool p).
Definition closed_pools (p : InternalPooledConnectionProvider) : list nat := disposals (databasePools p).

Lemma compute_miss now now' now'' key (x : nat) e c :
  cache c !! key = None ->
  ComputeIfAbsent now now' now'' key x e c = (with_cache (<[key := mkCacheValue x (now'' + e)]> (cache c)) c, x).
Proof. intros E. unfold ComputeIfAbsent, SlidingCache.Get, cleanupIfExpired. by rewrite !E. Qed.
Lemma compute_hit now now' now'' key (x : nat) e c v :
  cache c !! key = Some v -> now <= expirationTime v -> (ComputeIfAbsent now now' now'' key x e c).2 = item v.
Proof.
  intros E Ht. unfold ComputeIfAbsent, SlidingCache.Get, cleanupIfExpired.
  assert (shouldCleanup now (shouldDisposeFunc c) v = false) as Hs.
  { unfold shouldCleanup, isExpired. replace (expirationTime v <? now) with false by (symmetry; apply Z.ltb_ge; lia).
    by destruct (shouldDisposeFunc c). }
  by rewrite E, Hs, E.
Qed.

(** A pool opens every connection with the DSN of the first [Connect] that
    asked for it: a later [Connect] to the same URL with the same user gets a
    connection of that pool, whatever the rest of its properties says. *)
Theorem pool_connects_as_first PrepareDsn registrationName now1 now1' now1'' t1 h1 props1 now2 now2' now2'' t2 h2 props2 p :
  cache (databasePools p) !!
    PoolKey_String (NewPoolKey (GetUrl (Some h1)) registrationName (getPoolKey p h1 props1)) = None ->
  GetUrl (Some h2) = GetUrl (Some h1) -> getPoolKey p h2 props2 = getPoolKey p h1 props1 ->
  now2 <= now1'' + poolExpirationDuration p ->
  let '(p1, id1) := Connect PrepareDsn registrationName now1 now1' now1'' t1 h1 props1 p in
  let '(p2, id2) := Connect PrepareDsn registrationName now2 now2' now2'' t2 h2 props2 p1 in
  id2 = id1 /\ pool_dsn <$> pools p2 !! id2 = Some (PrepareDsn props1 (Some h1)).
Proof.
  intros Hn Hu Hk Ht. unfold Connect at 1. cbv zeta. rewrite compute_miss by done. rewrite Nat.eqb_refl.
  unfold Connect. cbv zeta. change (getPoolKey (mkPoolProvider _ _ (poolKeyFunc p) _ _ _) h2 props2) with (getPoolKey p h2 props2).
  rewrite Hu, Hk. set (key := PoolKey_String _) in *. cbn [databasePools next_pool poolExpirationDuration].
  set (cache1 := with_cache _ _). pose proof (compute_hit now2 now2' now2'' key (S (next_pool p)) (poolExpirationDuration p) cache1
    (mkCacheValue (next_pool p) (now1'' + poolExpirationDuration p)) ltac:(apply lookup_insert_eq) Ht) as Hc.
  destruct (ComputeIfAbsent _ _ _ _ _ _ _) as [c2 id2]. cbn in Hc. subst id2. split; [done|].
  cbn [pools next_pool]. rewrite (proj2 (Nat.eqb_neq _ _)) by lia.
  by rewrite !lookup_alter_eq, lookup_insert_eq.
Qed.

(** ** A pool at work *)

#[export] Instance disciplined_dec a p : Decision (disciplined a p).
Proof. destruct a; cbn; apply _. Defined.

(** A run of disciplined callers. *)
Fixpoint trace (actions : list Action) (p : InternalConnPool) : option InternalConnPool :=
  match actions with
  | [] => Some p
  | a :: actions => if decide (disciplined a p) then match exec a p with Some p' => trace actions p' | None => None end else None
  end.
Lemma trace_reachable opts actions p p' : reachable opts p -> trace actions p = Some p' -> reachable opts p'.
Proof.
  revert p. induction actions as [|a actions IH]; intros p Hr; cbn [trace]; [by intros [= <-]|].
  destruct (decide _) as [Hd|]; [|done]. destruct (exec a p) as [p1|] eqn:E; [|done]. apply IH. by eapply at_step.
Qed.

Definition two_idle : InternalPoolConfig := NewInternalPoolOptions [WithMaxConnLifetime 100].
Definition fine (c : nat) : option go_error := None.
Definition do_get (t : nat) (now : Z) : list Action := [AGet t; AStep t now fine; AStep t now fine].
Definition do_close (t c : nat) (now : Z) : list Action := [AClose t c; AStep t now fine; AStep t now fine; AStep t now fine].

(** Three connections, two of them given back, another [Get] about to start. *)
Definition busy : list Action :=
  do_get 0 10 ++ do_get 1 10 ++ do_get 2 300 ++ do_close 3 0 20 ++ do_close 4 2 310 ++ [AGet 5].
Definition busy_pool : InternalConnPool := default (NewConnPool two_idle) (trace busy (NewConnPool two_idle)).
Lemma busy_reachable : reachable two_idle busy_pool.
Proof.
  unfold busy_pool. destruct (trace busy (NewConnPool two_idle)) as [p|] eqn:E; [|constructor].
  by eapply trace_reachable; [constructor|].
Qed.


Lemma Get_hands_out_witness : 2%nat ∈ open (default busy_pool (trace [AStep 5 300 fine; AStep 5 300 fine; AStep 5 300 fine; AStep 5 300 fine] busy_pool)).
Proof.
  destruct (trace [AStep 5 300 fine; AStep 5 300 fine; AStep 5 300 fine] busy_pool) as [p|] eqn:E; [|by vm_compute in E].
  assert (Hr : reachable two_idle p) by (eapply trace_reachable; [apply busy_reachable|exact E]).
  destruct (exec (AStep 5 300 fine) p) as [p'|] eqn:E'; [|by vm_compute in E; injection E as <-; vm_compute in E'].
  assert (Hc : calls p' !! 5%nat = Some (Got (Ok 2%nat)))
    by (vm_compute in E; injection E as <-; vm_compute in E'; injection E' as <-; reflexivity).
  replace (default _ _) with p' by (vm_compute in E; injection E as <-; vm_compute in E'; injection E' as <-; vm_compute; reflexivity).
  exact (proj1 (proj2 (proj2 (Get_hands_out two_idle p 5 300 fine p' 2 Hr E' Hc)))).
Defined.

Lemma open_pool_progress_witness : is_Some (exec (AStep 5 1000 (fun _ => Some ErrBadConn)) busy_pool).
Proof. apply (open_pool_progress two_idle busy_pool 5 InGet); [apply busy_reachable|vm_compute; reflexivity..]. Defined.

(** The first idle connection has expired: the second one is handed out. *)
Lemma Get_alone_witness :
  let p' := run_alone 5 300 fine 8 busy_pool in
  calls p' !! 5%nat = Some (Got (Ok 2%nat)) /\ idleConns p' = [] /\ open p' = open busy_pool ∖ {[0%nat]}.
Proof.
  pose proof (Get_alone 5 300 fine two_idle busy_pool busy_reachable ltac:(vm_compute; reflexivity) ltac:(vm_compute; reflexivity)) as H.
  unfold got_spec in H.
  destruct (split_usable 300 fine busy_pool (idleConns busy_pool)) as [dead rest] eqn:E.
  assert ((dead, rest) = ([0%nat], [2%nat])) as [= -> ->] by (rewrite <-E; vm_compute; reflexivity).
  change (3 * length (idleConns busy_pool) + 2)%nat with 8%nat in H. cbn [list_to_set] in H.
  by replace ({[0%nat]} ∪ ∅ : gset nat) with ({[0%nat]} : gset nat) in H by set_solver.
Defined.

(** [Close] of the pool comes while a [Get] closes an expired connection; a
    second [Close] waits for ever. *)
Definition before_leak : list Action :=
  do_get 0 10 ++ do_close 1 0 20 ++ [AGet 2; AStep 2 500 fine; AStep 2 500 fine; AClosePool 3; AStep 3 510 fine; AClosePool 4].
Definition leaky_pool : InternalConnPool := default (NewConnPool two_idle) (trace before_leak (NewConnPool two_idle)).
Lemma closed_while_discarding_deadlocks_witness :
  exists p', exec (AStep 2 520 fine) leaky_pool = Some p' /\
    calls (default p' (exec (AGet 6) p')) !! 4%nat = Some ClosingPool /\ exec (AStep 4 600 fine) p' = None.
Proof.
  destruct (exec (AStep 2 520 fine) leaky_pool) as [p'|] eqn:E; [|by vm_compute in E]. exists p'. split; [done|].
  assert (Hc : calls p' !! 4%nat = Some ClosingPool) by (vm_compute in E; injection E as <-; reflexivity).
  split; [|by vm_compute in E; injection E as <-].
  destruct (exec (AGet 6) p') as [p''|] eqn:E2; [|done].
  refine (proj2 (closed_while_discarding_deadlocks leaky_pool 2 500 520 fine p' p'' 4 ClosingPool _ _ _ E _ Hc eq_refl)).
  - vm_compute; reflexivity.
  - vm_compute; reflexivity.
  - vm_compute; reflexivity.
  - apply rtc_once. by exists (AGet 6).
Defined.

(** Without the discipline: connection 0 is closed, handed to the call 4, and
    closed again by its first owner; the call 6 gets it too, while 4 has it. *)
Definition double_close : list Action :=
  do_get 0 10 ++ do_close 1 0 20 ++ do_get 4 30 ++ do_close 5 0 40 ++ do_get 6 50.
Example double_close_shares_connection :
  let p := foldl (fun p a => default p (exec a p)) (NewConnPool two_idle) double_close in
  (calls p !! 4%nat, calls p !! 6%nat, handed p) = (Some (Got (Ok 0%nat)), Some (Got (Ok 0%nat)), [0%nat]).
Proof. vm_compute. reflexivity. Qed.

(** The password of the second [Connect] is never used. *)
Definition pool_host : HostInfo := mkHostInfo "db" "db" 5432 AVAILABLE WRITER None None HOST_DEFAULT_WEIGHT 0.
Definition first_password (props : properties) (h : option HostInfo) : string := default "" (props !! "password").
Definition login (password : string) : properties := {["user" := "u"; "password" := password]}.
Definition empty_provider : InternalPooledConnectionProvider := NewInternalPooledConnectionProvider 0 two_idle 0.

Lemma pool_connects_as_first_witness :
  let p1 := (Connect first_password "pgx" 1 2 3 0 pool_host (login "old") empty_provider).1 in
  pool_dsn <$> pools (Connect first_password "pgx" 4 5 6 1 pool_host (login "new") p1).1 !!
    (Connect first_password "pgx" 4 5 6 1 pool_host (login "new") p1).2 = Some "old".
Proof.
  pose proof (pool_connects_as_first first_password "pgx" 1 2 3 0 pool_host (login "old") 4 5 6 1 pool_host (login "new")
    empty_provider ltac:(vm_compute; reflexivity) eq_refl ltac:(vm_compute; reflexivity) ltac:(vm_compute; discriminate)) as H.
  destruct (Connect first_password "pgx" 1 2 3 0 pool_host (login "old") empty_provider) as [p1 id1].
  destruct (Connect first_password "pgx" 4 5 6 1 pool_host (login "new") p1) as [p2 id2] eqn:E2.
  cbn. rewrite E2. exact (proj2 H).
Defined.
