(* ===== verification/CustomEndpoint.v ===== *)
(** * CustomEndpoint: which hosts a custom endpoint may use
    (custom-endpoint/custom_endpoint_info.go, custom_endpoint_monitor.go,
    custom_endpoint_plugin.go).

    The answer of the RDS service is a parameter of a round of the monitor, as
    are the readings of the clock. A monitor is the state of its goroutine with
    the package's cache of endpoint descriptions and the storage service, of
    which it uses the allowed and blocked hosts; [exec] runs one action of the
    goroutine, of the code that waits for a description, or of [Stop]. The
    plugin sees the monitors through the class [EndpointMonitors]. Telemetry
    and log lines are not modelled. *)

From S2P Require Import Prelude.
From S2P Require Import Methods.
From S2P Require Import HostInfo.
From S2P Require Import Effects.
From S2P Require Import CacheMap.
From S2P Require Import ExpirationCache.
From S2P Require Import Properties.
From S2P Require Import RdsUtils.
From S2P Require Import Dsn.
From S2P Require Import Regions.
From S2P Require Import PluginManager.
From S2P Require Import PluginService.
From S2P Require Import MonitorService.
From S2P Require Import Storage.

(** ** The description of an endpoint *)

(** What the program reads of a [types.DBClusterEndpoint]. *)
Record DBClusterEndpoint := mkEndpoint {
  DBClusterEndpointIdentifier : option string;
  DBClusterIdentifier : option string;
  Endpoint : option string;
  CustomEndpointType : option string;
  StaticMembers : list string;
  ExcludedMembers : list string
}.

Inductive MemberListType := STATIC_LIST | EXCLUSION_LIST.
#[export] Instance MemberListType_eq_dec : EqDecision MemberListType.
Proof. solve_decision. Defined.

Record CustomEndpointInfo := mkEndpointInfo {
  info_endpointIdentifier : string;
  clusterIdentifier : string;
  info_url : string;
  roleType : string;
  memberListType : MemberListType;
  members : gmap string bool
}.
#[export] Instance CustomEndpointInfo_eq_dec : EqDecision CustomEndpointInfo.
Proof. solve_decision. Defined.

Definition stringSliceToSetMap (stringSlice : list string) : gmap string bool :=
  foldl (fun m str => <[str := true]> m) ∅ stringSlice.

Definition nil_field (key : string) : go_error := NewGenericAwsWrapperError key [].
(** The type of the endpoint is dereferenced without a test. *)
Definition NewCustomEndpointInfo (endpoint : DBClusterEndpoint) : Result CustomEndpointInfo :=
  match DBClusterEndpointIdentifier endpoint with
  | None => Err (nil_field "CustomEndpointInfo.nilDBClusterEndpointIdentifier")
  | Some identifier =>
      match DBClusterIdentifier endpoint with
      | None => Err (nil_field "CustomEndpointInfo.nilDBClusterIdentifier")
      | Some cluster =>
          match Endpoint endpoint with
          | None => Err (nil_field "CustomEndpointInfo.nilEndpoint")
          | Some url =>
              let '(members, memberListType) :=
                match StaticMembers endpoint with
                | [] => (ExcludedMembers endpoint, EXCLUSION_LIST)
                | l => (l, STATIC_LIST)
                end in
              match CustomEndpointType endpoint with
              | None => Panic
              | Some t => Ok (mkEndpointInfo identifier cluster url (ToUpper t) memberListType (stringSliceToSetMap members))
              end
          end
      end
  end.

Definition Equals (a b : CustomEndpointInfo) : bool :=
  bool_decide (info_endpointIdentifier a = info_endpointIdentifier b) && bool_decide (clusterIdentifier a = clusterIdentifier b) &&
  bool_decide (info_url a = info_url b) && bool_decide (roleType a = roleType b) &&
  bool_decide (memberListType a = memberListType b) && bool_decide (members a = members b).
(** A nil map is empty. *)
Definition GetStaticMembers (a : CustomEndpointInfo) : gmap string bool :=
  if bool_decide (STATIC_LIST = memberListType a) then members a else ∅.
Definition GetExcludedMembers (a : CustomEndpointInfo) : gmap string bool :=
  if bool_decide (EXCLUSION_LIST = memberListType a) then members a else ∅.

(** The hosts that are registered for a description. *)
Definition permissions_of (endpointInfo : CustomEndpointInfo) : AllowedAndBlockedHosts :=
  if bool_decide (STATIC_LIST = memberListType endpointInfo) then NewAllowedAndBlockedHosts (GetStaticMembers endpointInfo) ∅
  else NewAllowedAndBlockedHosts ∅ (GetExcludedMembers endpointInfo).

Lemma info_Equals_spec a b : Equals a b = true <-> a = b.
Proof.
  unfold Equals. rewrite !andb_true_iff, !bool_decide_eq_true. destruct a, b; cbn. split; [|by intros [= -> -> -> -> -> ->]].
  intros [[[[[-> ->] ->] ->] ->] ->]. done.
Qed.

Lemma set_map_lookup l s : stringSliceToSetMap l !! s = if bool_decide (s ∈ l) then Some true else None.
Proof.
  unfold stringSliceToSetMap. induction l as [|x l IH] using rev_ind.
  - by rewrite bool_decide_false by (by intros ?%elem_of_nil).
  - rewrite foldl_snoc. destruct (decide (x = s)) as [->|Hne].
    + rewrite lookup_insert_eq, bool_decide_true; [done|]. apply elem_of_app. right. by left.
    + rewrite lookup_insert_ne, IH by done.
      replace (bool_decide (s ∈ l ++ [x])) with (bool_decide (s ∈ l)); [done|]. apply bool_decide_ext.
      rewrite elem_of_app, list_elem_of_singleton. split; [by left|]. intros [?| ->]; done.
Qed.
Lemma set_map_empty l : stringSliceToSetMap l = ∅ <-> l = [].
Proof.
  split; [|by intros ->]. intros E. destruct l as [|s l]; [done|].
  pose proof (set_map_lookup (s :: l) s) as Hs. rewrite E, lookup_empty, bool_decide_true in Hs by by left. done.
Qed.

(** The hosts a description lets a connection use are its static members, when
    it names any, and otherwise every host it does not exclude. *)
Lemma endpoint_permissions_of endpoint endpointInfo h :
  NewCustomEndpointInfo endpoint = Ok endpointInfo ->
  permitted (permissions_of endpointInfo) h <->
  (if bool_decide (StaticMembers endpoint = []) then HostId h ∉ ExcludedMembers endpoint else HostId h ∈ StaticMembers endpoint).
Proof.
  unfold NewCustomEndpointInfo, permissions_of, permitted, GetStaticMembers, GetExcludedMembers. intros E.
  destruct (DBClusterEndpointIdentifier endpoint) as [i|], (DBClusterIdentifier endpoint) as [c|], (Endpoint endpoint) as [u|]; try done.
  destruct (StaticMembers endpoint) as [|s l] eqn:Es; destruct (CustomEndpointType endpoint) as [t|]; try done; injection E as <-;
    cbn [memberListType members].
  - change (bool_decide (STATIC_LIST = EXCLUSION_LIST)) with false. change (bool_decide (EXCLUSION_LIST = EXCLUSION_LIST)) with true.
    cbn [allowedHostIds blockedHostIds NewAllowedAndBlockedHosts]. rewrite set_map_lookup, set_map_empty.
    rewrite (bool_decide_true ([] = [])) by done. case_bool_decide as Hin; [|by split].
    split; [|done]. intros [_ Hb] _. apply Hb; [|done]. intros E0. rewrite E0 in Hin. by apply elem_of_nil in Hin.
  - change (bool_decide (STATIC_LIST = STATIC_LIST)) with true. cbn [allowedHostIds blockedHostIds NewAllowedAndBlockedHosts].
    rewrite set_map_lookup, set_map_empty, (bool_decide_false (s :: l = [])) by done.
    case_bool_decide as Hin; [by split|]. split; [|done]. intros [Ha _]. by specialize (Ha ltac:(done)).
Qed.

(** ** The monitor *)

Definition CustomEndpointMonitorType : string := "CustomEndpointMonitor".
Definition CUSTOM_ENDPOINT_INFO_EXPIRATION_NANO : Z := Minute * 5.
Definition Storage_ : Type := @ExpiringStorage string _ _ AllowedAndBlockedHosts.

(** Where the goroutine stands: [Publishing] is between the registration of the
    hosts and the entry of the description in the cache. *)
Inductive MonitorPc := AtTop | Publishing (start : Z) (endpointInfo : CustomEndpointInfo) | Sleeping (endTime : Z) | Left.

(** [requests] counts the calls of the RDS service. *)
Record CustomEndpointMonitorImpl := mkEndpointMonitor {
  customEndpointHostInfo : HostInfo;
  endpointIdentifier : string;
  refreshRate : Z;
  stop : bool;
  state : MonitorState;
  lastActivityTimestampNano : Z;
  refreshRequired : bool;
  hasConnectionIssue : bool;
  pc : MonitorPc;
  customEndpointInfoCache : CacheMap.CacheMap CustomEndpointInfo;
  storage : Storage_;
  requests : nat
}.
#[export] Instance CustomEndpointMonitorImpl_eta : Eta CustomEndpointMonitorImpl := fun m =>
  mkEndpointMonitor (customEndpointHostInfo m) (endpointIdentifier m) (refreshRate m) (stop m) (state m) (lastActivityTimestampNano m)
    (refreshRequired m) (hasConnectionIssue m) (pc m) (customEndpointInfoCache m) (storage m) (requests m).

(** The goroutine is there from [Start] on. *)
Definition NewCustomEndpointMonitorImpl (host : HostInfo) (identifier : string) (rate : Z)
  (infos : CacheMap.CacheMap CustomEndpointInfo) (s : Storage_) : CustomEndpointMonitorImpl :=
  mkEndpointMonitor host identifier rate false MonitorStateStopped 0 false false Left infos s 0.
Definition Start (now : Z) (m : CustomEndpointMonitorImpl) : CustomEndpointMonitorImpl :=
  m <| state := MonitorStateRunning |> <| lastActivityTimestampNano := now |> <| pc := AtTop |>.

Definition getCustomEndpointInfoCacheKey (m : CustomEndpointMonitorImpl) : string := Host (customEndpointHostInfo m).
Definition storage_key (m : CustomEndpointMonitorImpl) : string := GetUrl (Some (customEndpointHostInfo m)).

(** The test of the loop of [sleep], at its start and when the sleeper is
    woken by a broadcast or the timer. *)
Definition wake (now : Z) (m : CustomEndpointMonitorImpl) : CustomEndpointMonitorImpl :=
  match pc m with
  | Sleeping endTime => if negb (refreshRequired m) && (now <? endTime) && negb (stop m) then m else m <| pc := AtTop |>
  | _ => m
  end.
Definition sleep (now duration : Z) (m : CustomEndpointMonitorImpl) : CustomEndpointMonitorImpl :=
  if duration <=? 0 then m <| pc := AtTop |> else wake now (m <| pc := Sleeping (now + duration) |>).

(** The readings of the clock in a round, up to its sleep or to the entry of a
    new description in the cache. *)
Record RoundClock := mkRoundClock {
  r_start : Z;
  r_activity : Z;
  r_get : Z;               (* customEndpointInfoCache.Get *)
  r_set : Z;               (* the storage *)
  r_cleanup : CleanUpClock;
  r_elapsed : Z;
  r_sleep : Z
}.

Definition remove_info (cu : CleanUpClock) (m : CustomEndpointMonitorImpl) : CustomEndpointMonitorImpl :=
  m <| customEndpointInfoCache := CacheMap.Remove cu (getCustomEndpointInfoCacheKey m) (customEndpointInfoCache m) |>.
Definition cached_info (now : Z) (m : CustomEndpointMonitorImpl) : option CustomEndpointInfo :=
  CacheMap.Get now (getCustomEndpointInfoCacheKey m) (customEndpointInfoCache m).

(** The rest of the refresh period. *)
Definition sleep_rest (start elapsed now : Z) (m : CustomEndpointMonitorImpl) : CustomEndpointMonitorImpl :=
  sleep now (Z.max 0 (refreshRate m - (elapsed - start))) m.

Definition info_changed (clk : RoundClock) (endpointInfo : CustomEndpointInfo) (m : CustomEndpointMonitorImpl) :
  CustomEndpointMonitorImpl :=
  m <| storage := Storage.Set_ (r_set clk) AllowedAndBlockedHostsTypeKey (storage_key m) (permissions_of endpointInfo) (storage m) |>
    <| pc := Publishing (r_start clk) endpointInfo |>.
Definition publish (put : Z) (cu : CleanUpClock) (start elapsed now : Z) (endpointInfo : CustomEndpointInfo)
  (m : CustomEndpointMonitorImpl) : CustomEndpointMonitorImpl :=
  sleep_rest start elapsed now
    (m <| customEndpointInfoCache := CacheMap.Put put cu (getCustomEndpointInfoCacheKey m) endpointInfo
                                       CUSTOM_ENDPOINT_INFO_EXPIRATION_NANO (customEndpointInfoCache m) |>
       <| refreshRequired := false |>).

(** A round with the answer of the RDS service; [None] is a panic. A list of
    endpoints may be nil. *)
Definition monitor_round (clk : RoundClock) (resp : Result (option (list DBClusterEndpoint))) (m : CustomEndpointMonitorImpl) :
  option CustomEndpointMonitorImpl :=
  let m := m <| lastActivityTimestampNano := r_activity clk |> <| requests := S (requests m) |> in
  match resp with
  | Ok (Some [endpoint]) =>
      let m := m <| hasConnectionIssue := false |> in
      match NewCustomEndpointInfo endpoint with
      | Panic => None
      | Err _ => Some (sleep (r_sleep clk) (refreshRate m) m)
      | Ok endpointInfo =>
          match cached_info (r_get clk) m with
          | Some cachedEndpointInfo =>
              if Equals endpointInfo cachedEndpointInfo then Some (sleep_rest (r_start clk) (r_elapsed clk) (r_sleep clk) m)
              else Some (info_changed clk endpointInfo m)
          | None => Some (info_changed clk endpointInfo m)
          end
      end
  | _ => Some (sleep (r_sleep clk) (refreshRate m) m)
  end.

Definition RequestCustomEndpointInfoUpdate (m : CustomEndpointMonitorImpl) : CustomEndpointMonitorImpl :=
  if hasConnectionIssue m then m else m <| refreshRequired := true |>.
Definition HasCustomEndpointInfo (now : Z) (m : CustomEndpointMonitorImpl) : CustomEndpointMonitorImpl * bool :=
  let ok := bool_decide (is_Some (cached_info now m)) in
  (if negb ok && negb (refreshRequired m) && negb (hasConnectionIssue m) then RequestCustomEndpointInfoUpdate m else m, ok).

Definition GetLastActivityTimestampNanos := lastActivityTimestampNano.
(** [GetState]: a monitor that was never started is stopped. *)
Definition GetState := state.
Definition CanDispose (m : CustomEndpointMonitorImpl) : bool := true.

(** ** Actions *)

Inductive Action :=
| ARound (clk : RoundClock) (resp : Result (option (list DBClusterEndpoint)))  (* the loop, from its test on *)
| APublish (put : Z) (cu : CleanUpClock) (elapsed now : Z)                     (* the rest of it, after a registration *)
| AWake (now : Z)                       (* a broadcast or the timer *)
| ARequest                              (* RequestCustomEndpointInfoUpdate *)
| AHas (now : Z)                        (* HasCustomEndpointInfo *)
| AStop                                 (* Stop: the flag and the broadcast *)
| AClose (cu : CleanUpClock)            (* Stop, after the goroutine has ended *)
| AClearCache (now : Z)                 (* ClearCache *)
| AStorageCleanup (tick : string -> string -> Z).

Definition exec (a : Action) (m : CustomEndpointMonitorImpl) : option CustomEndpointMonitorImpl :=
  match a with
  | ARound clk resp =>
      match pc m with
      | AtTop => if stop m then Some (remove_info (r_cleanup clk) m <| pc := Left |>) else monitor_round clk resp m
      | _ => None
      end
  | APublish put cu elapsed now =>
      match pc m with Publishing start endpointInfo => Some (publish put cu start elapsed now endpointInfo m) | _ => None end
  | AWake now => match pc m with Sleeping _ => Some (wake now m) | _ => None end
  | ARequest => Some (RequestCustomEndpointInfoUpdate m)
  | AHas now => Some (HasCustomEndpointInfo now m).1
  | AStop => Some (m <| stop := true |>)
  | AClose cu => match pc m with
                 | Left => if stop m then Some (remove_info cu m <| state := MonitorStateStopped |>) else None
                 | _ => None
                 end
  | AClearCache now => Some (m <| customEndpointInfoCache := CacheMap.Clear now (customEndpointInfoCache m) |>)
  | AStorageCleanup tick => Some (m <| storage := removeExpiredItems tick (storage m) |>)
  end.

(** A sequence of actions, when each can be done. *)
Definition run (actions : list Action) (m : CustomEndpointMonitorImpl) : option CustomEndpointMonitorImpl :=
  foldl (fun om a => om ≫= exec a) (Some m) actions.
Lemma run_cons a actions m : run (a :: actions) m = exec a m ≫= run actions.
Proof.
  unfold run. cbn [foldl mbind option_bind]. destruct (exec a m); [done|]. cbn. by induction actions.
Qed.

(** ** Requests of an update *)

(** An answer that is not a new description. *)
Definition no_news (m : CustomEndpointMonitorImpl) (clk : RoundClock) (resp : Result (option (list DBClusterEndpoint))) : Prop :=
  match resp with
  | Ok (Some [endpoint]) =>
      match NewCustomEndpointInfo endpoint with
      | Ok endpointInfo => cached_info (r_get clk) m = Some endpointInfo
      | Err _ => True
      | Panic => False
      end
  | _ => True
  end.

Lemma sleep_pending now duration m : refreshRequired m = true -> sleep now duration m = m <| pc := AtTop |>.
Proof. intros Hr. unfold sleep, wake. destruct (duration <=? 0); [done|]. cbn. by rewrite Hr. Qed.

Lemma pending_round clk resp m :
  refreshRequired m = true -> no_news m clk resp ->
  exists b, monitor_round clk resp m =
    Some (m <| lastActivityTimestampNano := r_activity clk |> <| requests := S (requests m) |> <| hasConnectionIssue := b |> <| pc := AtTop |>).
Proof.
  intros Hr Hn. unfold monitor_round.
  assert (Hs : forall d b, sleep (r_sleep clk) d (m <| lastActivityTimestampNano := r_activity clk |> <| requests := S (requests m) |>
      <| hasConnectionIssue := b |>) = m <| lastActivityTimestampNano := r_activity clk |> <| requests := S (requests m) |>
      <| hasConnectionIssue := b |> <| pc := AtTop |>) by (intros; by rewrite sleep_pending).
  destruct resp as [[[|e [|e2 l]]|]|e|]; try (exists (hasConnectionIssue m); f_equal; apply (Hs _ (hasConnectionIssue m))).
  cbn [no_news] in Hn. exists false. destruct (NewCustomEndpointInfo e) as [i|err|]; [|by rewrite Hs|done].
  change (cached_info (r_get clk) _) with (cached_info (r_get clk) m). rewrite Hn, (proj2 (info_Equals_spec i i)) by done.
  unfold sleep_rest. by rewrite Hs.
Qed.

(** A request for an update stays pending until the description changes: as long
    as the RDS service fails, or answers what is known, the monitor asks it again
    and again without sleeping in between. *)
Theorem pending_refresh_spins m (rounds : list (RoundClock * Result (option (list DBClusterEndpoint)))) :
  refreshRequired m = true -> pc m = AtTop -> stop m = false -> Forall (fun r => no_news m r.1 r.2) rounds ->
  exists m', run ((fun r => ARound r.1 r.2) <$> rounds) m = Some m' /\
    requests m' = (requests m + length rounds)%nat /\ pc m' = AtTop /\ refreshRequired m' = true.
Proof.
  revert m. induction rounds as [|[clk resp] rounds IH]; intros m Hr Hp Hs Hn; rewrite ?fmap_cons, ?run_cons.
  - exists m. split; [done|]. split; [cbn; lia|done].
  - apply Forall_cons in Hn as [Hn Hrest]. cbn [fst snd exec] in *. rewrite Hp, Hs.
    destruct (pending_round clk resp m Hr Hn) as [b ->]. destruct (IH (m <| lastActivityTimestampNano := r_activity clk |>
      <| requests := S (requests m) |> <| hasConnectionIssue := b |> <| pc := AtTop |>)) as (m' & E & Hq & Hrest'); [done..| |].
    + exact Hrest.
    + exists m'. split; [exact E|]. split; [|done]. rewrite Hq. cbn. lia.
Qed.

(** ** What is registered is what was described *)

Definition registered (m : CustomEndpointMonitorImpl) : option (@expirationItem AllowedAndBlockedHosts) :=
  c ← caches (storage m) !! AllowedAndBlockedHostsTypeKey; ExpirationCache.cache c !! storage_key m.
Definition described (m : CustomEndpointMonitorImpl) : option (CacheMap.cacheValue CustomEndpointInfo) :=
  CacheMap.cache (customEndpointInfoCache m) !! getCustomEndpointInfoCacheKey m.
(** The description whose hosts are registered: the one about to enter the
    cache, or the one in it. *)
Definition latest (m : CustomEndpointMonitorImpl) : option CustomEndpointInfo :=
  match pc m with Publishing _ endpointInfo => Some endpointInfo | _ => CacheMap.item <$> described m end.
(** The storage registers what that description says, or nothing. *)
Definition registers_description (m : CustomEndpointMonitorImpl) : Prop :=
  forall i e, latest m = Some i -> registered m = Some e -> ExpirationCache.item e = permissions_of i.

Lemma CleanUp_sub cu k v (c : CacheMap.CacheMap CustomEndpointInfo) :
  CacheMap.cache (CleanUp cu c) !! k = Some v -> CacheMap.cache c !! k = Some v.
Proof. unfold CleanUp. destruct (_ <? _); [|done]. cbn. by intros [? _]%map_lookup_filter_Some. Qed.

Lemma registers_less m m' :
  (forall i, latest m' = Some i -> latest m = Some i) -> (forall e, registered m' = Some e -> registered m = Some e) ->
  registers_description m -> registers_description m'.
Proof. intros Hd Hr Hm i e Hi He. by apply Hm; [apply Hd|apply Hr]. Qed.

(** A description that is in the cache, of a goroutine that is not about to
    enter another. *)
Definition settled (m : CustomEndpointMonitorImpl) : Prop :=
  match pc m with Publishing _ _ => False | _ => True end.
Lemma latest_settled m : settled m -> latest m = CacheMap.item <$> described m.
Proof. unfold settled, latest. by destruct (pc m). Qed.

Lemma remove_info_less cu m m' :
  settled m -> settled m' -> described m' = described (remove_info cu m) -> registered m' = registered m ->
  registers_description m -> registers_description m'.
Proof.
  intros Hs Hs' Hd Hr. apply registers_less; [|by rewrite Hr]. intros i. rewrite !latest_settled, Hd by done.
  intros (v & Hv%CleanUp_sub & ->)%fmap_Some. cbn in Hv. apply lookup_delete_Some in Hv as [_ Hv]. unfold described. by setoid_rewrite Hv.
Qed.

Lemma sleep_same now d m :
  settled m -> settled (sleep now d m) /\ described (sleep now d m) = described m /\ registered (sleep now d m) = registered m.
Proof. intros Hs. unfold sleep, wake, settled. destruct (d <=? 0); [done|]. cbn. by destruct (_ && _). Qed.
Lemma sleep_registers now d m : settled m -> registers_description m -> registers_description (sleep now d m).
Proof.
  intros Hs. destruct (sleep_same now d m Hs) as (Hs' & Hd & Hr). unfold registers_description.
  by rewrite !latest_settled, Hd, Hr.
Qed.

Lemma registered_Set now p m :
  let m' := m <| storage := Storage.Set_ now AllowedAndBlockedHostsTypeKey (storage_key m) p (storage m) |> in
  forall e, registered m' = Some e -> ExpirationCache.item e = p.
Proof.
  intros m' e. unfold registered, m'. cbn. unfold Storage.Set_.
  destruct (caches (storage m) !! AllowedAndBlockedHostsTypeKey) as [c|] eqn:Ec; [|by rewrite Ec].
  cbn. rewrite lookup_insert_eq. cbn. unfold ExpirationCache.Put.
  destruct (ExpirationCache.cache c !! storage_key m); cbn [fst]; rewrite ?ec_cache_dispose; cbn; rewrite lookup_insert_eq;
    by intros [= <-].
Qed.

Lemma info_changed_registers clk i m : registers_description (info_changed clk i m).
Proof.
  intros i' e Hd Hr. apply (registered_Set (r_set clk) (permissions_of i) m) in Hr. rewrite Hr. by injection Hd as <-.
Qed.
Lemma publish_registers put cu start elapsed now i m :
  pc m = Publishing start i -> registers_description m -> registers_description (publish put cu start elapsed now i m).
Proof.
  intros Hp Hm. unfold publish, sleep_rest. unfold sleep, wake.
  assert (forall q, settled q -> registered q = registered m ->
    customEndpointInfoCache q = CacheMap.Put put cu (getCustomEndpointInfoCacheKey m) i CUSTOM_ENDPOINT_INFO_EXPIRATION_NANO
                                  (customEndpointInfoCache m) ->
    getCustomEndpointInfoCacheKey q = getCustomEndpointInfoCacheKey m -> registers_description q) as Hq.
  { intros q Hs Hr Hc Hk i' e. rewrite (latest_settled q Hs), Hr. unfold described. rewrite Hc, Hk.
    intros (v & Hv%CleanUp_sub & ->)%fmap_Some He. cbn in Hv. rewrite lookup_insert_eq in Hv. injection Hv as <-. cbn.
    apply (Hm i); [|done]. unfold latest. by rewrite Hp. }
  destruct (_ <=? 0); [by apply Hq|]. cbn. by destruct (_ && _); apply Hq.
Qed.

Lemma exec_registers a m m' : exec a m = Some m' -> registers_description m -> registers_description m'.
Proof.
  intros E Hm. destruct a as [clk resp|put cu elapsed now|now| |now| |cu|now|tick]; cbn [exec] in E.
  - destruct (pc m) eqn:Ep; [|done..]. assert (Hs : settled m) by (unfold settled; by rewrite Ep).
    destruct (stop m); [apply (inj Some) in E as <-; by apply (remove_info_less (r_cleanup clk) m)|].
    unfold monitor_round in E.
    assert (Hsl : forall now d q, settled q -> registers_description q -> Some (sleep now d q) = Some m' -> registers_description m').
    { intros now d q Hq Hq' <-%(inj Some). by apply sleep_registers. }
    destruct resp as [[[|e [|e2 l]]|]|e|]; try (eapply Hsl; [| |exact E]; [exact Hs|exact Hm]).
    destruct (NewCustomEndpointInfo e) as [i|err|]; [|eapply Hsl; [| |exact E]; [exact Hs|exact Hm]|done].
    destruct (cached_info _ _) as [j|]; [destruct (Equals i j)|].
    + eapply Hsl; [| |exact E]; [exact Hs|exact Hm].
    + apply (inj Some) in E as <-. apply info_changed_registers.
    + apply (inj Some) in E as <-. apply info_changed_registers.
  - destruct (pc m) eqn:Ep; try done. apply (inj Some) in E as <-. by apply publish_registers.
  - destruct (pc m) eqn:Ep; try done. apply (inj Some) in E as <-. unfold wake. rewrite Ep. destruct (_ && _); [done|].
    revert Hm. apply registers_less; [|done]. unfold latest. by rewrite Ep.
  - apply (inj Some) in E as <-. unfold RequestCustomEndpointInfoUpdate. by destruct (hasConnectionIssue m).
  - apply (inj Some) in E as <-. unfold HasCustomEndpointInfo, RequestCustomEndpointInfoUpdate. cbn [fst].
    destruct (_ && _); [by destruct (hasConnectionIssue m)|done].
  - by apply (inj Some) in E as <-.
  - destruct (pc m) eqn:Ep; [done..|]. destruct (stop m); [|done]. apply (inj Some) in E as <-.
    apply (remove_info_less cu m); try done; unfold settled; cbn; by rewrite Ep.
  - apply (inj Some) in E as <-. revert Hm. apply registers_less; [|done]. intros i. unfold latest. cbn.
    destruct (pc m); try done; by rewrite lookup_empty.
  - apply (inj Some) in E as <-. revert Hm. apply registers_less; [done|]. intros e. unfold registered. cbn.
    rewrite map_lookup_imap. destruct (caches (storage m) !! AllowedAndBlockedHostsTypeKey) as [c|]; [|done]. cbn.
    unfold RemoveExpiredEntries. rewrite ec_cache_dispose. cbn. by intros [? _]%map_lookup_filter_Some.
Qed.

Definition does : relation CustomEndpointMonitorImpl := fun m m' => exists a, exec a m = Some m'.
Definition registered_hosts (now : Z) (m : CustomEndpointMonitorImpl) : option AllowedAndBlockedHosts :=
  (Storage.Get now AllowedAndBlockedHostsTypeKey (storage_key m) (storage m)).1.2.

Lemma registered_hosts_entry now m perm :
  registered_hosts now m = Some perm -> exists e, registered m = Some e /\ ExpirationCache.item e = perm.
Proof.
  unfold registered_hosts, registered, Storage.Get. destruct (caches (storage m) !! AllowedAndBlockedHostsTypeKey) as [c|]; [|done].
  cbn. unfold ExpirationCache.Get. destruct (renewOnAccess c), (ExpirationCache.cache c !! storage_key m) as [e|]; try done;
    [|destruct (ExpirationCache.isExpired now e); [done|]]; intros [= <-]; by exists e.
Qed.

(** C39. With the monitor of the endpoint starting without a description,
    whatever its goroutine, the code that waits for it and the clean-ups do,
    the hosts registered for the endpoint are those of its latest
    description: its static members, or, when it names none, all but its
    excluded members. The latest description is the one in the cache, or the
    one about to enter it between the registration and the entry. *)
Theorem registered_hosts_are_described m m' endpoint endpointInfo now perm h :
  latest m = None -> rtc does m m' -> latest m' = Some endpointInfo ->
  NewCustomEndpointInfo endpoint = Ok endpointInfo -> registered_hosts now m' = Some perm ->
  permitted perm h <->
  (if bool_decide (StaticMembers endpoint = []) then HostId h ∉ ExcludedMembers endpoint else HostId h ∈ StaticMembers endpoint).
Proof.
  intros H0 Hrun Hd He Hp. assert (Hr : registers_description m').
  { assert (registers_description m) as Hm by (intros i e Hi; congruence). clear H0 Hd Hp. induction Hrun as [|m m1 m2 [a Ha] _ IH]; [done|].
    apply IH. by eapply exec_registers. }
  apply registered_hosts_entry in Hp as (e & Hre & <-). rewrite (Hr _ _ Hd Hre). by apply (endpoint_permissions_of endpoint).
Qed.

(** ** A registration is not renewed *)

(** What leaves the description as it is: rounds that find the description that
    is known and has not expired, waking, and the calls of the plugin. *)
Definition same_description (cv : CacheMap.cacheValue CustomEndpointInfo) (a : Action) : Prop :=
  match a with
  | ARound clk (Ok (Some [endpoint])) =>
      NewCustomEndpointInfo endpoint = Ok (CacheMap.item cv) /\ r_get clk <= CacheMap.expirationTime cv
  | AWake _ | ARequest | AHas _ => True
  | _ => False
  end.

Lemma same_description_keeps cv a m m' :
  stop m = false -> described m = Some cv -> same_description cv a -> exec a m = Some m' ->
  stop m' = false /\ described m' = described m /\ registered m' = registered m /\ storage m' = storage m.
Proof.
  intros Hs Hd Hq E. destruct a as [clk resp|put cu elapsed now|now| |now| |cu|now|tick]; try done; cbn [exec] in E.
  - destruct (pc m); [|done..]. rewrite Hs in E. cbn in Hq. destruct resp as [[[|ep [|e2 l]]|]|e|]; try done. destruct Hq as [Hi Ht].
    unfold monitor_round in E. rewrite Hi in E. change (cached_info (r_get clk) _) with (cached_info (r_get clk) m) in E.
    assert (Hc : cached_info (r_get clk) m = Some (CacheMap.item cv)).
    { unfold cached_info, CacheMap.Get. unfold described in Hd. rewrite Hd. unfold CacheMap.isExpired.
      by replace (_ <? _) with false by (symmetry; apply Z.ltb_ge; lia). }
    rewrite Hc, (proj2 (info_Equals_spec _ _)) in E by done. apply (inj Some) in E as <-. unfold sleep_rest, sleep, wake.
    destruct (_ <=? 0); [done|]. cbn. by destruct (_ && _).
  - destruct (pc m) eqn:Ep; try done. apply (inj Some) in E as <-. unfold wake. rewrite Ep. by destruct (_ && _).
  - apply (inj Some) in E as <-. unfold RequestCustomEndpointInfoUpdate. by destruct (hasConnectionIssue m).
  - apply (inj Some) in E as <-. unfold HasCustomEndpointInfo, RequestCustomEndpointInfoUpdate. cbn [fst].
    destruct (_ && _); [by destruct (hasConnectionIssue m)|done].
Qed.

(** As long as the description stays the same and has not expired, the monitor
    registers nothing: when the registration runs out before the description
    does, the plugin is told that there is a description while no host is
    registered, and every host may be used. *)
Theorem registration_lapses m (actions : list Action) m' cv e now :
  stop m = false -> described m = Some cv -> registered m = Some e ->
  (forall c, caches (storage m) !! AllowedAndBlockedHostsTypeKey = Some c -> renewOnAccess c = false) ->
  Forall (same_description cv) actions -> run actions m = Some m' ->
  ExpirationCache.expirationTime e < now <= CacheMap.expirationTime cv ->
  (HasCustomEndpointInfo now m').2 = true /\ registered_hosts now m' = None.
Proof.
  intros Hs Hd Hr Hn Hf E Ht.
  assert (Hk : described m' = Some cv /\ registered m' = Some e /\ storage m' = storage m).
  { revert m Hs Hd Hr Hn E. induction actions as [|a actions IH]; intros m Hs Hd Hr Hn E; [by apply (inj Some) in E as <-|].
    apply Forall_cons in Hf as [Ha Hf]. rewrite run_cons in E. apply bind_Some in E as (m1 & E1 & E).
    destruct (same_description_keeps cv a m m1 Hs Hd Ha E1) as (Hs1 & Hd1 & Hr1 & Hst1).
    destruct (IH Hf m1) as (? & ? & ?); [done|congruence|congruence|by rewrite Hst1|exact E|]. split; [done|]. split; [done|congruence]. }
  destruct Hk as (Hd' & Hr' & Hst). split.
  - unfold HasCustomEndpointInfo. cbn [snd]. apply bool_decide_eq_true. exists (CacheMap.item cv).
    unfold cached_info, CacheMap.Get. unfold described in Hd'. rewrite Hd'. unfold CacheMap.isExpired.
    by replace (_ <? _) with false by (symmetry; apply Z.ltb_ge; lia).
  - unfold registered_hosts, Storage.Get. unfold registered in Hr'. rewrite Hst in *.
    destruct (caches (storage m) !! AllowedAndBlockedHostsTypeKey) as [c|] eqn:Ec; [|done]. cbn in Hr'.
    unfold ExpirationCache.Get. rewrite (Hn c eq_refl), Hr'. unfold ExpirationCache.isExpired.
    by replace (_ <? _) with true by (symmetry; apply Z.ltb_lt; lia).
Qed.

(** ** The plugin *)

Record CustomEndpointPlugin := mkEndpointPlugin {
  shouldWaitForInfo : bool;
  waitOnCachedInfoDurationMs : Z;
  idleMonitorExpirationMs : Z;
  plugin_host : option loc;
  customEndpointId : string;
  plugin_region : Region
}.

(** The monitors, by number, and the time the plugin waits in. *)
Class EndpointMonitors (P : Type) := {
  get_endpoint : P -> CustomEndpointPlugin;
  put_endpoint : CustomEndpointPlugin -> P -> P;
  get_put_endpoint e s : get_endpoint (put_endpoint e s) = e;
  RegisterMonitorType : Z -> St P unit;
  RunIfAbsent : option HostInfo -> string -> Region -> Z -> properties -> Eff P nat;
  HasInfo : nat -> St P bool;
  RequestUpdate : nat -> St P unit;
  Sleep : Z -> St P unit
}.
(** The fields of the plugin are its own. *)
Class EndpointLaws (P : Type) `{EndpointMonitors P} :=
  RunIfAbsent_own host id region rate props (s : P) : get_endpoint (RunIfAbsent host id region rate props s).1 = get_endpoint s.

Definition NewCustomEndpointPlugin (props : properties) : CustomEndpointPlugin :=
  mkEndpointPlugin (GetVerifiedWrapperPropertyValue (Some props) WAIT_FOR_CUSTOM_ENDPOINT_INFO)
    (GetVerifiedWrapperPropertyValue (Some props) WAIT_FOR_CUSTOM_ENDPOINT_INFO_TIMEOUT_MS)
    (GetVerifiedWrapperPropertyValue (Some props) CUSTOM_ENDPOINT_MONITOR_IDLE_EXPIRATION_MS) None "" "".
Definition endpoint_GetPluginCode : string := "customEndpoint".
Definition endpoint_SubscribedMethods : list string := "Connect" :: NETWORK_BOUND_METHODS.

Section Wait.
Context {P : Type} `{EndpointMonitors P} `{Clock P}.

(** The registration of the type of the monitors. *)
Definition endpoint_plugin (props : properties) : St P CustomEndpointPlugin :=
  (let plugin := NewCustomEndpointPlugin props in
   let! _ := RegisterMonitorType (wrap64 (Millisecond * idleMonitorExpirationMs plugin)) in st_ret plugin)%eff.

(** [None]: the loop has not ended with the fuel given. *)
Fixpoint wait_loop (fuel : nat) (monitor : nat) (waitForEndpointInfoTimeout : Z) : St P (option bool) :=
  match fuel with
  | O => st_ret None
  | S fuel =>
      (let! now := clock_now in
       if now <? waitForEndpointInfoTimeout then
         let! _ := Sleep (Millisecond * 100) in
         let! hasCustomEndpointInfo := HasInfo monitor in
         if (hasCustomEndpointInfo : bool) then st_ret (Some true) else wait_loop fuel monitor waitForEndpointInfoTimeout
       else st_ret (Some false))%eff
  end.
Definition timedOutWaiting : go_error := PlainError "CustomEndpointPlugin.timedOutWaitingForCustomEndpointInfo" [].
Definition waitForCustomEndpointInfo (fuel : nat) (waitMs : Z) (monitor : nat) : St P (option (Result unit)) :=
  (let! hasCustomEndpointInfo := HasInfo monitor in
   if (hasCustomEndpointInfo : bool) then st_ret (Some (Ok tt))
   else
     let! _ := RequestUpdate monitor in
     let! now := clock_now in
     let! found := wait_loop fuel monitor (now + wrap64 (Millisecond * waitMs)) in
     st_ret ((fun has => if has : bool then Ok tt else Err timedOutWaiting) <$> found))%eff.

(** A sleep takes the time it is asked for at least, and time does not run
    backwards. *)
Class TimeMoves (time_of : P -> Z) := {
  clock_reads p : (clock_now p).2 = time_of p /\ time_of p <= time_of (clock_now p).1;
  Sleep_time d p : time_of p + d <= time_of (Sleep d p).1;
  HasInfo_time m p : time_of p <= time_of (HasInfo m p).1
}.

Lemma wait_loop_ends time_of `{!TimeMoves time_of} fuel monitor timeout p :
  timeout - time_of p <= Millisecond * 100 * Z.of_nat fuel -> exists b, (wait_loop (S fuel) monitor timeout p).2 = Some b.
Proof.
  revert p. induction fuel as [|fuel IH]; intros p Hf; cbn [wait_loop]; unfold st_bind at 1;
    pose proof (clock_reads p) as [Hn Hc];
    destruct (clock_now p) as [q now]; cbn in *; subst; destruct (Z.ltb_spec (time_of p) timeout) as [Hlt|Hge]; try (by eexists); [lia|].
  unfold st_bind at 1. pose proof (Sleep_time (Millisecond * 100) q) as Hs. destruct (Sleep _ q) as [q1 []]. cbn [fst] in Hs.
  unfold st_bind at 1. pose proof (HasInfo_time monitor q1) as Hh. destruct (HasInfo monitor q1) as [q2 [|]]; [by eexists|].
  apply IH. cbn [fst] in Hh. lia.
Qed.

(** The wait of the plugin ends: with a round for every 100 milliseconds of the
    time-out, and one more, it returns or reports that it timed out. *)
Theorem wait_ends time_of `{!TimeMoves time_of} fuel monitor waitMs p :
  0 <= waitMs -> waitMs <= 100 * Z.of_nat fuel -> waitMs <= 9223372036854 ->
  exists r, (waitForCustomEndpointInfo (S fuel) waitMs monitor p).2 = Some r.
Proof.
  intros Hpos Hf Hw. unfold waitForCustomEndpointInfo, st_bind at 1. destruct (HasInfo monitor p) as [p1 [|]]; [by eexists|].
  unfold st_bind at 1. destruct (RequestUpdate monitor p1) as [p2 []]. unfold st_bind at 1.
  pose proof (clock_reads p2) as [Hn Hc]. destruct (clock_now p2) as [p3 now]. cbn [fst snd] in Hn, Hc. subst now. unfold st_bind at 1.
  rewrite wrap64_id by (unfold Millisecond, max_int64; lia).
  destruct (wait_loop_ends time_of fuel monitor (time_of p2 + Millisecond * waitMs) p3) as [b Hb]; [unfold Millisecond; lia|].
  destruct (wait_loop (S fuel) _ _ p3) as [q o]. cbn in Hb. subst o. by eexists.
Qed.
End Wait.

Section Plugin.
Context {C V P : Type} `{PrepareHost} `{EndpointMonitors P} `{Clock P}.
Local Abbreviation Svc := (PluginServiceImpl (C := C) (P := P)).
Context (props : properties) (nil_any : V).

Definition endpoint (p : Svc) : CustomEndpointPlugin := get_endpoint (p_plugins p).
Definition set_endpoint (f : CustomEndpointPlugin -> CustomEndpointPlugin) : St Svc unit :=
  modify (fun p => p <| p_plugins := put_endpoint (f (get_endpoint (p_plugins p))) (p_plugins p) |>).
Definition on_monitors {A} (c : St P A) : St Svc A := zoom p_plugins (fun s p => p <| p_plugins := s |>) c.

Definition set_host (h : option loc) : St Svc unit := set_endpoint (fun e =>
  mkEndpointPlugin (shouldWaitForInfo e) (waitOnCachedInfoDurationMs e) (idleMonitorExpirationMs e) h (customEndpointId e) (plugin_region e)).
Definition set_id (id : string) : St Svc unit := set_endpoint (fun e =>
  mkEndpointPlugin (shouldWaitForInfo e) (waitOnCachedInfoDurationMs e) (idleMonitorExpirationMs e) (plugin_host e) id (plugin_region e)).
Definition set_region (region : Region) : St Svc unit := set_endpoint (fun e =>
  mkEndpointPlugin (shouldWaitForInfo e) (waitOnCachedInfoDurationMs e) (idleMonitorExpirationMs e) (plugin_host e) (customEndpointId e) region).

(** The key of the monitor is the host, its properties are those of the plugin. *)
Definition createMonitorIfAbsent (connectProps : properties) : Eff Svc nat :=
  (let refreshRate := wrap64 (Millisecond * GetRefreshRateValue (Some connectProps) CUSTOM_ENDPOINT_INFO_REFRESH_RATE_MS) in
   let! e := gets endpoint in
   let! host := gets (fun p => deref p (plugin_host e)) in
   on_monitors (RunIfAbsent host (customEndpointId e) (plugin_region e) refreshRate props))%eff.

(** What comes before the call in both methods. *)
Definition wait_if_asked (fuel : nat) (monitor : nat) : Eff Svc (option unit) :=
  (let! e := gets endpoint in
   if shouldWaitForInfo e then
     let! r := on_monitors (waitForCustomEndpointInfo fuel (waitOnCachedInfoDurationMs e) monitor) in
     match r with
     | None => eff_ok None
     | Some r => try! _ := lift_result r in eff_ok (Some tt)
     end
   else eff_ok (Some tt))%eff.

Definition errorParsingEndpointIdentifier (host : string) : go_error :=
  PlainError "CustomEndpointPlugin.errorParsingEndpointIdentifier" [host].
Definition unableToDetermineRegion : go_error :=
  PlainError "CustomEndpointPlugin.unableToDetermineRegion" [Name CUSTOM_ENDPOINT_REGION_PROPERTY].

Definition endpoint_Connect (fuel : nat) (hostInfo : loc) (connectProps : properties) (connectFunc : ConnectFunc (S := Svc) (C := C)) :
  Eff Svc (option C) :=
  (let connect := (try! conn := connectFunc connectProps in eff_ok (Some conn))%eff in
   let! host := gets (fun p => HostInfo.GetHost (host_at p hostInfo)) in
   if negb (IsRdsCustomClusterDns host) then connect
   else
     let! _ := set_host (Some hostInfo) in
     try! id := lift_result (GetRdsClusterId host) in
     let! _ := set_id id in
     if is_empty id then throw (errorParsingEndpointIdentifier host)
     else
       let region := GetRegion host (Some connectProps) CUSTOM_ENDPOINT_REGION_PROPERTY in
       let! _ := set_region region in
       if is_empty region then throw unableToDetermineRegion
       else
         try! monitor := createMonitorIfAbsent connectProps in
         try! waited := wait_if_asked fuel monitor in
         match waited with None => eff_ok None | Some _ => connect end)%eff.

Definition endpoint_error (e : go_error) : ExecResult V := mkExecResult nil_any nil_any false (Some e).
Definition endpoint_Execute (fuel : nat) (executeFunc : ExecuteFunc (S := Svc) (V := V)) : Eff Svc (option (ExecResult V)) :=
  (let execute := (let! r := executeFunc in eff_ok (Some r))%eff in
   let! e := gets endpoint in
   match plugin_host e with
   | None => execute
   | Some _ =>
       let! r := (try! monitor := createMonitorIfAbsent props in wait_if_asked fuel monitor)%eff in
       match r with
       | Panic => lift_result Panic
       | Err e => eff_ok (Some (endpoint_error e))
       | Ok None => eff_ok None
       | Ok (Some _) => execute
       end
   end)%eff.

Lemma wait_loop_true fuel monitor timeout (s s' : P) :
  wait_loop fuel monitor timeout s = (s', Some true) -> exists s1, HasInfo monitor s1 = (s', true).
Proof.
  revert s. induction fuel as [|fuel IH]; intros s; [done|]. cbn [wait_loop]. unfold st_bind at 1.
  destruct (clock_now s) as [s1 now]. destruct (now <? timeout); [|done]. unfold st_bind at 1. destruct (Sleep _ s1) as [s2 []].
  unfold st_bind at 1. destruct (HasInfo monitor s2) as [s3 [|]] eqn:E; [|apply IH]. intros [= <-]. by exists s2.
Qed.
Lemma wait_true fuel waitMs monitor (s s' : P) :
  waitForCustomEndpointInfo fuel waitMs monitor s = (s', Some (Ok tt)) -> exists s1, HasInfo monitor s1 = (s', true).
Proof.
  unfold waitForCustomEndpointInfo, st_bind at 1. destruct (HasInfo monitor s) as [s1 [|]] eqn:E; [intros [= <-]; by exists s|].
  unfold st_bind at 1. destruct (RequestUpdate monitor s1) as [s2 []]. unfold st_bind at 1. destruct (clock_now s2) as [s3 now].
  unfold st_bind. destruct (wait_loop _ _ _ s3) as [s4 [[|]|]] eqn:Ew; cbn; [|done..]. intros [= <-]. by eapply wait_loop_true.
Qed.

(** A connection to a custom endpoint is opened only after the monitor of the
    endpoint has said that it has a description, when the properties ask for
    that. *)
Theorem connects_with_description `{!EndpointLaws P} fuel hostInfo connectProps (connectFunc : ConnectFunc (S := Svc) (C := C)) p p' conn :
  IsRdsCustomClusterDns (HostInfo.GetHost (host_at p hostInfo)) = true -> shouldWaitForInfo (endpoint p) = true ->
  endpoint_Connect fuel hostInfo connectProps connectFunc p = (p', Ok (Some conn)) ->
  exists p1 monitor s1, HasInfo monitor s1 = (p_plugins p1, true) /\ connectFunc connectProps p1 = (p', Ok conn).
Proof.
  intros Hc Hw. unfold endpoint_Connect, st_bind at 1, gets. rewrite Hc. cbn [negb]. unfold st_bind at 1, set_host at 1, set_endpoint, modify.
  rewrite eff_bind_eq. destruct (lift_result (GetRdsClusterId _) _) as [p1 [id|e|]] eqn:E1; [|done..]. injection E1 as <- Hid.
  unfold st_bind at 1, set_id at 1, set_endpoint, modify. destruct (is_empty id); [done|].
  unfold st_bind at 1, set_region at 1, set_endpoint, modify. destruct (is_empty _); [done|].
  match goal with |- eff_bind _ _ ?q = _ -> _ => set (p2 := q) end. rewrite eff_bind_eq.
  assert (He : shouldWaitForInfo (endpoint p2) = true).
  { subst p2. unfold endpoint. cbn. by rewrite !get_put_endpoint. }
  destruct (createMonitorIfAbsent connectProps p2) as [p3 [monitor|e|]] eqn:Em; [|done..].
  assert (He3 : shouldWaitForInfo (endpoint p3) = true).
  { unfold createMonitorIfAbsent, st_bind, gets, on_monitors, zoom in Em.
    match type of Em with context [RunIfAbsent ?a ?b ?c ?d ?e ?f] => pose proof (RunIfAbsent_own a b c d e f) as Hown;
      destruct (RunIfAbsent a b c d e f) as [s r] end.
    injection Em as <- _. unfold endpoint in *. cbn in *. by rewrite Hown. }
  rewrite eff_bind_eq. unfold wait_if_asked, st_bind at 1, gets. rewrite He3. unfold st_bind, on_monitors, zoom.
  destruct (waitForCustomEndpointInfo fuel _ monitor (p_plugins p3)) as [s [[[]|e|]|]] eqn:Ew; [|done..].
  rewrite !eff_bind_eq. cbn [lift_result eff_ok]. apply wait_true in Ew as [s1 Hs].
  unfold lift_result. cbn. match goal with |- eff_bind _ _ ?q = _ -> _ => set (p5 := q) end. rewrite eff_bind_eq.
  destruct (connectFunc connectProps p5) as [p4 [c|e|]] eqn:Ec; [|done..].
  intros [= <- <-]. exists p5, monitor, s1. split; [exact Hs|exact Ec].
Qed.
End Plugin.

(** ** An endpoint with two static members *)

Lemma run_does actions m m' : run actions m = Some m' -> rtc does m m'.
Proof.
  revert m. induction actions as [|a actions IH]; intros m; [by intros [= <-]|]. rewrite run_cons.
  intros (m1 & E & E')%bind_Some. eapply rtc_l; [by exists a|by apply IH].
Qed.

Definition named_host (id : string) : HostInfo := mkHostInfo (id ++ ".xyz.us-east-1.rds.amazonaws.com") id 5432 AVAILABLE READER None None 0 0.
Definition reports : HostInfo :=
  mkHostInfo "reports.cluster-custom-xyz.us-east-1.rds.amazonaws.com" "" 5432 AVAILABLE WRITER None None 0 0.
Definition two_members : DBClusterEndpoint :=
  mkEndpoint (Some "reports") (Some "cluster") (Some (Host reports)) (Some "reader") ["one"; "two"] ["three"].
Definition all_but_three : DBClusterEndpoint :=
  mkEndpoint (Some "reports") (Some "cluster") (Some (Host reports)) (Some "reader") [] ["three"].
Definition described_as (endpoint : DBClusterEndpoint) : CustomEndpointInfo :=
  match NewCustomEndpointInfo endpoint with Ok i => i | _ => mkEndpointInfo "" "" "" "" STATIC_LIST ∅ end.

Definition no_cleanup (now : Z) : CleanUpClock := {| cu_check := now; cu_at := fun _ => now; cu_reset := now |}.
Definition round_at (now : Z) : RoundClock := mkRoundClock now now now now (no_cleanup now) now now.
Definition demo_monitor : CustomEndpointMonitorImpl :=
  Start 1 (NewCustomEndpointMonitorImpl reports "reports" (30 * Second) (CacheMap.NewCache 1)
             (RegisterDefaultStorageTypes (NewExpiringStorage (5 * Minute) false))).
(** A failure of the service, a request that ends the sleep, and an answer. *)
Definition describe_once : list Action :=
  [ARound (round_at 2) (Err (PlainError "timeout" [])); AHas 3; AWake 4; ARound (round_at 5) (Ok (Some [two_members]));
   AStorageCleanup (fun _ _ => 6); APublish 7 (no_cleanup 7) 7 7].
Definition reader_session : CustomEndpointMonitorImpl := default demo_monitor (run describe_once demo_monitor).

(** One of the members may be used, a host that is not one may not. *)
Lemma registered_hosts_are_described_witness :
  exists perm, registered_hosts 10 reader_session = Some perm /\ permitted perm (named_host "two") /\ ~ permitted perm (named_host "four").
Proof.
  destruct (run describe_once demo_monitor) as [m|] eqn:E; [|by vm_compute in E].
  assert (Hm : reader_session = m) by (unfold reader_session; by rewrite E).
  destruct (registered_hosts 10 m) as [perm|] eqn:Ep; [|by rewrite <-Hm in Ep; vm_compute in Ep].
  assert (H0 : latest demo_monitor = None) by (vm_compute; reflexivity).
  assert (Hl : latest m = Some (described_as two_members)) by (rewrite <-Hm; vm_compute; reflexivity).
  exists perm. split; [by rewrite Hm|].
  pose proof (fun h => registered_hosts_are_described demo_monitor m two_members (described_as two_members) 10 perm h H0
                         (run_does _ _ _ E) Hl ltac:(vm_compute; reflexivity) Ep) as Hh.
  split; [apply Hh; change ("two" ∈ ["one"; "two"]); apply list_elem_of_further, list_elem_of_here|].
  intros Hf%Hh. change ("four" ∈ ["one"; "two"]) in Hf. rewrite !elem_of_cons in Hf. by destruct Hf as [Hf|[Hf|Hf%elem_of_nil]].
Defined.

(** A plugin that still waits when the description arrives leaves a request
    behind: the rounds that follow do not sleep. *)
Example late_request_spins :
  let rounds := map (fun now => ARound (round_at now) (Ok (Some [two_members]))) [11; 12; 13; 14] in
  (run (ARequest :: AWake 10 :: rounds) reader_session) = Some (reader_session <| lastActivityTimestampNano := 14 |>
    <| refreshRequired := true |> <| pc := AtTop |> <| requests := (requests reader_session + 4)%nat |>).
Proof. vm_compute. reflexivity. Qed.

(** When the description changes the new hosts are registered first. *)
Example exclusion_replaces_members :
  let m := run [AWake (40 * Second); ARound (round_at (40 * Second)) (Ok (Some [all_but_three]))] reader_session in
  (fun m => (fun perm => (map_to_list (allowedHostIds perm), map_to_list (blockedHostIds perm))) <$> registered_hosts (40 * Second) m) <$> m
    = Some (Some ([], [("three", true)])).
Proof. vm_compute. reflexivity. Qed.
