(* ===== verification/BgTypes.v ===== *)
(** * BgTypes: phases, roles, statuses and routings of a blue/green deployment
    (driver_infrastructure/bg_helpers.go, plugins/bg/base_routing.go, the
    constructors of plugins/bg/connect_routing.go and execute_routing.go).

    A [ConnectRouting] is the interface value with its dynamic type as
    constructor. The closure a substitute routing calls after a successful
    connect always is [RegisterIamHost] on one green host, so it is that host.
    A status refers to the two maps of its provider by pointer: [MapRef] says
    whether it holds nil, the provider's own map, or a fresh empty map. *)

From S2P Require Import Prelude.
From S2P Require Import HostInfo.

(** ** Interval rates, phases and roles *)

Inductive BlueGreenIntervalRate := INVALID | BASELINE | INCREASED | HIGH.

#[export] Instance BlueGreenIntervalRate_eq_dec : EqDecision BlueGreenIntervalRate.
Proof. solve_decision. Defined.

Record BlueGreenPhase := mkPhase {
  phase_name : string;
  phase_no : Z;
  isActiveSwitchoverOrCompleted : bool
}.

#[export] Instance BlueGreenPhase_eq_dec : EqDecision BlueGreenPhase.
Proof. solve_decision. Defined.

Definition NOT_CREATED := mkPhase "NOT_CREATED" 0 false.
Definition CREATED := mkPhase "CREATED" 1 false.
Definition PREPARATION := mkPhase "PREPARATION" 2 true.
Definition IN_PROGRESS := mkPhase "IN_PROGRESS" 3 true.
Definition POST := mkPhase "POST" 4 true.
Definition COMPLETED := mkPhase "COMPLETED" 5 true.
(** [BlueGreenPhase{}] *)
Definition zeroPhase := mkPhase "" 0 false.

Definition phase_IsZero (p : BlueGreenPhase) : bool := is_empty (phase_name p).

Definition blueGreenStatusMapping : gmap string BlueGreenPhase :=
  list_to_map [("AVAILABLE", CREATED); ("SWITCHOVER_INITIATED", PREPARATION);
    ("SWITCHOVER_IN_PROGRESS", IN_PROGRESS); ("SWITCHOVER_IN_POST_PROCESSING", POST);
    ("SWITCHOVER_COMPLETED", COMPLETED)].

(** An unknown status is logged and gives the zero phase. *)
Definition ParsePhase (statusKey : string) : BlueGreenPhase :=
  if is_empty statusKey then NOT_CREATED
  else default zeroPhase (blueGreenStatusMapping !! ToUpper statusKey).

Record BlueGreenRole := mkRole { role_name : string; role_value : Z }.

#[export] Instance BlueGreenRole_eq_dec : EqDecision BlueGreenRole.
Proof. solve_decision. Defined.

Definition SOURCE := mkRole "SOURCE" 0.
Definition TARGET := mkRole "TARGET" 1.
Definition zeroRole := mkRole "" 0.

Definition blueGreenRoleMapping : gmap string BlueGreenRole :=
  list_to_map [("BLUE_GREEN_DEPLOYMENT_SOURCE", SOURCE); ("BLUE_GREEN_DEPLOYMENT_TARGET", TARGET)].

Definition ParseRole (roleKey : string) : BlueGreenRole :=
  default zeroRole (blueGreenRoleMapping !! ToUpper roleKey).

Definition role_IsZero (r : BlueGreenRole) : bool := is_empty (role_name r) && (role_value r =? 0).

(** The two-element slices of the provider, indexed by [role.GetValue()]. *)
Definition at_role {A} (r : BlueGreenRole) (p : A * A) : A := if role_value r =? 0 then p.1 else p.2.
Definition set_at_role {A} (r : BlueGreenRole) (x : A) (p : A * A) : A * A :=
  if role_value r =? 0 then (x, p.2) else (p.1, x).

(** ** Routings *)

Record BaseRouting := mkBaseRouting { r_hostAndPort : string; r_role : BlueGreenRole }.

#[export] Instance BaseRouting_eq_dec : EqDecision BaseRouting.
Proof. solve_decision. Defined.

Definition NewBaseRouting (hostAndPort : string) (role : BlueGreenRole) : BaseRouting :=
  mkBaseRouting (ToLower hostAndPort) role.

Definition IsMatch (b : BaseRouting) (hostInfo : option HostInfo) (hostRole : BlueGreenRole) : bool :=
  let hostAndPort := if negb (IsNil hostInfo) then ToLower (GetHostAndPort hostInfo) else "" in
  (is_empty (r_hostAndPort b) || bool_decide (r_hostAndPort b = hostAndPort)) &&
  (role_IsZero (r_role b) || bool_decide (r_role b = hostRole)).

#[global] Arguments IsMatch : simpl never.
#[global] Arguments NewBaseRouting : simpl never.

Inductive ConnectRouting :=
| RejectConnectRouting (base : BaseRouting)
| SubstituteConnectRouting (substituteHostInfo : option HostInfo) (iamHosts : list (option HostInfo))
    (iamSuccessfulConnectNotify : option string) (base : BaseRouting)
| SuspendConnectRouting (bgId : string) (base : BaseRouting)
| SuspendUntilCorrespondingHostFoundConnectRouting (bgId : string) (base : BaseRouting).

#[export] Instance ConnectRouting_eq_dec : EqDecision ConnectRouting.
Proof. solve_decision. Defined.

Inductive ExecuteRouting :=
| SuspendExecuteRouting (bgId : string) (base : BaseRouting).

#[export] Instance ExecuteRouting_eq_dec : EqDecision ExecuteRouting.
Proof. solve_decision. Defined.

Definition c_base (r : ConnectRouting) : BaseRouting :=
  match r with
  | RejectConnectRouting b | SubstituteConnectRouting _ _ _ b | SuspendConnectRouting _ b
  | SuspendUntilCorrespondingHostFoundConnectRouting _ b => b
  end.
Definition e_base (r : ExecuteRouting) : BaseRouting := match r with SuspendExecuteRouting _ b => b end.

Definition NewRejectConnectRouting (hostAndPort : string) (role : BlueGreenRole) : ConnectRouting :=
  RejectConnectRouting (NewBaseRouting hostAndPort role).
Definition NewSubstituteConnectRouting (hostAndPort : string) (role : BlueGreenRole)
  (substituteHostInfo : option HostInfo) (iamHosts : list (option HostInfo)) (notify : option string) : ConnectRouting :=
  SubstituteConnectRouting substituteHostInfo iamHosts notify (NewBaseRouting hostAndPort role).
Definition NewSuspendConnectRouting (hostAndPort : string) (role : BlueGreenRole) (bgId : string) : ConnectRouting :=
  SuspendConnectRouting bgId (NewBaseRouting hostAndPort role).
Definition NewSuspendUntilCorrespondingHostFoundConnectRouting (hostAndPort : string) (role : BlueGreenRole)
  (bgId : string) : ConnectRouting :=
  SuspendUntilCorrespondingHostFoundConnectRouting bgId (NewBaseRouting hostAndPort role).
Definition NewSuspendExecuteRouting (hostAndPort : string) (role : BlueGreenRole) (bgId : string) : ExecuteRouting :=
  SuspendExecuteRouting bgId (NewBaseRouting hostAndPort role).

(** ** Statuses *)

Inductive MapRef := NilMap | SharedMap | FreshMap.

#[export] Instance MapRef_eq_dec : EqDecision MapRef.
Proof. solve_decision. Defined.

(** A nil slice of routings is [None]: [IsZero] tells it from an empty one. *)
Record BlueGreenStatus := NewBgStatus {
  bgId : string;
  currentPhase : BlueGreenPhase;
  connectRoutings : option (list ConnectRouting);
  executeRoutings : option (list ExecuteRouting);
  s_roleByHost : MapRef;
  s_correspondingHosts : MapRef
}.

#[export] Instance BlueGreenStatus_eq_dec : EqDecision BlueGreenStatus.
Proof. solve_decision. Defined.

Definition zeroStatus : BlueGreenStatus := NewBgStatus "" zeroPhase None None NilMap NilMap.

Definition status_IsZero (b : BlueGreenStatus) : bool :=
  is_empty (bgId b) && phase_IsZero (currentPhase b) && bool_decide (connectRoutings b = None) &&
  bool_decide (executeRoutings b = None) && bool_decide (s_roleByHost b = NilMap) &&
  bool_decide (s_correspondingHosts b = NilMap).

Definition routings_list {A} (l : option (list A)) : list A := default [] l.

(** ** Lemmas *)

Lemma ToUpper_idem_ascii c : upper_ascii (upper_ascii c) = upper_ascii c.
Proof. destruct c as [[] [] [] [] [] [] [] []]; reflexivity. Qed.

Lemma IsMatch_any_host role hostInfo :
  role_IsZero role = false -> IsMatch (NewBaseRouting "" role) hostInfo role = true.
Proof. intros Hr. unfold IsMatch, NewBaseRouting. simpl. by rewrite Hr, (bool_decide_true (role = role)). Qed.

Lemma IsMatch_host h role hostInfo :
  IsNil hostInfo = false -> ToLower h = ToLower (GetHostAndPort hostInfo) ->
  IsMatch (NewBaseRouting h role) hostInfo role = true.
Proof.
  intros Hn Hh. unfold IsMatch, NewBaseRouting. simpl. rewrite Hn. simpl.
  rewrite Hh, (bool_decide_true (ToLower _ = ToLower _)) by done. rewrite orb_true_r. simpl.
  rewrite (bool_decide_true (role = role)) by done. apply orb_true_r.
Qed.

(** A routing for all hosts of a role leaves the other role alone. *)
Lemma IsMatch_other_role h role role' hostInfo :
  role_IsZero role = false -> role <> role' -> IsMatch (NewBaseRouting h role) hostInfo role' = false.
Proof.
  intros Hr Hne. unfold IsMatch, NewBaseRouting. simpl. rewrite Hr, (bool_decide_false (role = role')) by done. simpl.
  apply andb_false_r.
Qed.

Lemma at_role_set {A} r (x : A) p : at_role r (set_at_role r x p) = x.
Proof. unfold at_role, set_at_role. by destruct (role_value r =? 0). Qed.
