(* ===== verification/BgInterim.v ===== *)
(** * BgInterim: the status one monitor reports and its hash
    (plugins/bg/bg_interim_status.go, plugins/bg/bg_info_helpers.go).

    The hash is FNV-1a on 64 bits of each part, folded with the multiplier 31;
    it is the provider's test for "nothing changed", so it must not depend on
    the order in which Go visits the maps. *)

From S2P Require Import Prelude.
From S2P Require Import HostInfo.
From S2P Require Import BgTypes.

Record BlueGreenInterimStatus := mkInterim {
  i_phase : BlueGreenPhase;
  i_version : string;
  i_port : Z;
  startTopology : list HostInfo;
  endTopology : list HostInfo;
  startIpAddressesByHostMap : gmap string string;
  currentIpAddressesByHostMap : gmap string string;
  hostNames : gmap string bool;
  allStartTopologyIpChanged : bool;
  allStartTopologyEndpointsRemoved : bool;
  allTopologyChanged : bool
}.

(** [BlueGreenInterimStatus{}] *)
Definition zeroInterim : BlueGreenInterimStatus :=
  mkInterim zeroPhase "" 0 [] [] ∅ ∅ ∅ false false false.

Definition interim_IsZero (b : BlueGreenInterimStatus) : bool :=
  is_empty (i_version b) && (i_port b =? 0) && phase_IsZero (i_phase b).

Record StatusInfo := mkStatusInfo {
  si_version : string;
  si_endpoint : string;
  si_port : Z;
  si_phase : BlueGreenPhase;
  si_role : BlueGreenRole
}.

Definition statusInfo_IsZero (s : option StatusInfo) : bool :=
  match s with
  | None => true
  | Some s => is_empty (si_version s) && is_empty (si_endpoint s) && (si_port s =? 0)
  end.

Record PhaseTimeInfo := mkPhaseTimeInfo { Timestamp : Z; pt_Phase : BlueGreenPhase }.

#[export] Instance PhaseTimeInfo_eq_dec : EqDecision PhaseTimeInfo.
Proof. solve_decision. Defined.

(** ** Hash *)

Definition getValueHash (currentHash : Z) (val : string) : Z := wrapu64 (wrapu64 (currentHash * 31) + fnv64a val).

Definition getTopologyString (topology : list HostInfo) : string :=
  if Nat.eqb (length topology) 0 then ""
  else Join (sort_strings ((fun h => GetHostAndPort (Some h) +:+ Role h) <$> topology)) ",".

Section hash.
Context `{MapRange}.

Definition getHostNamesString (b : BlueGreenInterimStatus) : string :=
  if Nat.eqb (size (hostNames b)) 0 then ""
  else Join (sort_strings (range 0 (hostNames b)).*1) ",".

Definition getIpMapString (ipMap : gmap string string) : string :=
  if Nat.eqb (size ipMap) 0 then ""
  else Join (sort_strings ((fun e => e.1 +:+ e.2) <$> range 1 ipMap)) ",".

Definition GetCustomHashCode (b : BlueGreenInterimStatus) : Z :=
  let result := getValueHash 1 (phase_name (i_phase b)) in
  let result := getValueHash result (i_version b) in
  let result := getValueHash result (Itoa (i_port b)) in
  let result := getValueHash result (FormatBool (allStartTopologyIpChanged b)) in
  let result := getValueHash result (FormatBool (allStartTopologyEndpointsRemoved b)) in
  let result := getValueHash result (FormatBool (allTopologyChanged b)) in
  let result := getValueHash result (getHostNamesString b) in
  let result := getValueHash result (getTopologyString (startTopology b)) in
  let result := getValueHash result (getTopologyString (endTopology b)) in
  let result := getValueHash result (getIpMapString (startIpAddressesByHostMap b)) in
  let result := getValueHash result (getIpMapString (currentIpAddressesByHostMap b)) in
  result.
End hash.

Lemma sort_strings_perm l1 l2 : l1 ≡ₚ l2 -> sort_strings l1 = sort_strings l2.
Proof.
  intros Hp. apply (sorted_perm_eq id); [done|apply sort_by_sorted..|].
  unfold sort_strings. by rewrite !sort_by_perm.
Qed.

Lemma getValueHash_range h v : 0 <= getValueHash h v < two64.
Proof. apply wrapu64_range. Qed.

(** The order of hosts in a topology does not change its string either. *)
Lemma getTopologyString_perm t1 t2 : t1 ≡ₚ t2 -> getTopologyString t1 = getTopologyString t2.
Proof.
  intros Hp. unfold getTopologyString. rewrite (Permutation_length Hp).
  case_match; [done|]. f_equal. apply sort_strings_perm. by rewrite Hp.
Qed.

Lemma range_irrel (r1 r2 : MapRange) {A} n (m : gmap string A) : @range r1 _ _ _ A n m ≡ₚ @range r2 _ _ _ A n m.
Proof. by rewrite !range_perm. Qed.

Lemma hostNames_irrel (r1 r2 : MapRange) b : @getHostNamesString r1 b = @getHostNamesString r2 b.
Proof.
  unfold getHostNamesString. case_match; [done|]. f_equal. apply sort_strings_perm. by rewrite (range_irrel r1 r2).
Qed.

Lemma ipMap_irrel (r1 r2 : MapRange) m : @getIpMapString r1 m = @getIpMapString r2 m.
Proof.
  unfold getIpMapString. case_match; [done|]. f_equal. apply sort_strings_perm. by rewrite (range_irrel r1 r2).
Qed.

(** Two statuses that differ only in the order of their topologies. *)
Definition same_interim (a b : BlueGreenInterimStatus) : Prop :=
  startTopology a ≡ₚ startTopology b /\ endTopology a ≡ₚ endTopology b /\
  mkInterim (i_phase a) (i_version a) (i_port a) [] [] (startIpAddressesByHostMap a)
    (currentIpAddressesByHostMap a) (hostNames a) (allStartTopologyIpChanged a)
    (allStartTopologyEndpointsRemoved a) (allTopologyChanged a) =
  mkInterim (i_phase b) (i_version b) (i_port b) [] [] (startIpAddressesByHostMap b)
    (currentIpAddressesByHostMap b) (hostNames b) (allStartTopologyIpChanged b)
    (allStartTopologyEndpointsRemoved b) (allTopologyChanged b).

#[export] Instance same_interim_equivalence : Equivalence same_interim.
Proof.
  unfold same_interim. split; repeat intro.
  - done.
  - naive_solver.
  - destruct H as (? & ? & ?), H0 as (? & ? & ?). split; [|split]; etransitivity; eauto.
Qed.

#[export] Instance GetCustomHashCode_Proper `{MapRange} : Proper (same_interim ==> eq) GetCustomHashCode.
Proof.
  intros [] [] (Hs & He & Heq). simpl in *. injection Heq as -> -> -> -> -> -> -> -> ->.
  unfold GetCustomHashCode, getHostNamesString. simpl.
  by rewrite (getTopologyString_perm _ _ Hs), (getTopologyString_perm _ _ He).
Qed.

(** The hash that decides whether a report is new does not depend on
    the order in which Go visits the maps of the report. *)
Theorem GetCustomHashCode_order_independent (r1 r2 : MapRange) a b :
  same_interim a b ->
  @GetCustomHashCode r1 a = @GetCustomHashCode r2 b /\ 0 <= @GetCustomHashCode r1 a < two64.
Proof.
  intros Hab. split; [|apply getValueHash_range]. rewrite Hab. unfold GetCustomHashCode.
  by rewrite (hostNames_irrel r1 r2), !(ipMap_irrel r1 r2).
Qed.

Lemma GetCustomHashCode_order_independent_witness :
  let h1 := mkHostInfo "a" "" 1 AVAILABLE WRITER None None 0 0 in
  let h2 := mkHostInfo "b" "" 2 AVAILABLE READER None None 0 0 in
  let s t := mkInterim CREATED "1.0" 5432 t [] ∅ ∅ ∅ false false false in
  @GetCustomHashCode default_range (s [h1; h2]) = @GetCustomHashCode default_range (s [h2; h1]).
Proof.
  intros h1 h2 s. apply (GetCustomHashCode_order_independent default_range default_range).
  split; [apply perm_swap|split; reflexivity].
Defined.
