(* ===== verification/BgMonitor.v ===== *)
(** * BgMonitor: the monitor of one role of a deployment
    (plugins/bg/bg_status_monitor.go).

    A monitor is a loop over five steps: open a connection, read the status
    table, refresh the topology, resolve the host names, update the flags. The
    atomic fields are plain fields; the provider writes six of them between two
    steps ([collectedIpAddresses], [collectedTopology], [useIpAddress],
    [intervalRate], [stop] and the collected data).

    The driver, the network and the host list provider are [MonitorEnv]. Two
    calls of [IsClosed] or [LookupIP] may answer differently, so each call
    carries the number of its site. A map without disposal function is its
    [gmap]; connections and host list providers are handles; [closed] lists
    the calls of Close. *)

From S2P Require Import Prelude.
From S2P Require Import HostInfo.
From S2P Require Import RdsUtils.
From S2P Require Import BgTypes.
From S2P Require Import BgInterim.

Definition DEFAULT_CHECK_INTERVAL : Z := 5 * 60000.
Definition latestKnownVersion : string := "1.0".
Definition knownVersions : list string := [latestKnownVersion].
(** property_util.CLUSTER_ID, PORT, HOST and IAM_HOST; bg_plugin.go BG_CLUSTER_ID. *)
Definition CLUSTER_ID_name : string := "clusterId".
Definition PORT_name : string := "port".
Definition HOST_name : string := "host".
Definition IAM_HOST_name : string := "iamHost".
Definition BG_CLUSTER_ID : string := "941d00a8-8238-4f7d-bf59-771bff783a8e".

Record BlueGreenResult := mkResult {
  Version : string; Endpoint : string; bgr_Port : Z; bgr_Role : string; bgr_Status : string
}.

(** What [QueryContext] does: the connection cannot query, the query fails, or
    it gives rows. *)
Inductive QueryOutcome (V : Type) := NotQueryer | QueryFailed (err : go_error) | Rows (rows : list (list V)).
Arguments NotQueryer {V}.
Arguments QueryFailed {V} _.
Arguments Rows {V} _.

Record MonitorEnv (V : Type) := mkEnv {
  IsClosed : nat -> nat -> bool;
  LookupIP : nat -> string -> option (list string);
  IsBlueGreenStatusAvailable : nat -> bool;
  QueryContext : nat -> QueryOutcome V;
  ParseString : V -> option string;
  ParseInt64 : V -> option Z;
  (** the error text contains BlueGreenDeployment.errorFetchingSwitchoverMetadata *)
  is_metadata_error : go_error -> bool;
  ForceConnect : HostInfo -> gmap string string -> option nat;
  CreateHostListProvider : gmap string string -> option nat;
  ForceRefresh : nat -> option (option (list HostInfo))
}.
Arguments IsClosed {V}. Arguments LookupIP {V}. Arguments IsBlueGreenStatusAvailable {V}.
Arguments QueryContext {V}. Arguments ParseString {V}. Arguments ParseInt64 {V}.
Arguments is_metadata_error {V}. Arguments ForceConnect {V}. Arguments CreateHostListProvider {V}.
Arguments ForceRefresh {V}.

(** A nil slice of hosts is [None]. *)
Record BlueGreenStatusMonitor := mkMonitor {
  m_role : BlueGreenRole;
  m_bgId : string;
  initialHostInfo : option HostInfo;
  hostListProvider : option nat;
  m_props : gmap string string;
  statusCheckIntervalMap : gmap Z Z;
  m_currentPhase : BlueGreenPhase;
  m_version : string;
  m_port : Z;
  m_allStartTopologyIpChanged : bool;
  m_allStartTopologyEndpointsRemoved : bool;
  m_allTopologyChanged : bool;
  m_startIps : gmap string string;
  m_currentIps : gmap string string;
  m_hostNames : gmap string bool;
  m_startTopology : list HostInfo;
  currentTopology : option (option (list HostInfo));
  connection : option nat;
  connectionHostInfo : option HostInfo;
  connectedIpAddress : string;
  intervalRate : Z;
  collectedIpAddresses : bool;
  collectedTopology : bool;
  connectionHostInfoCorrect : bool;
  useIpAddress : bool;
  panicMode : bool;
  stop : bool;
  closed : list nat
}.

#[export] Instance Monitor_eta : Eta BlueGreenStatusMonitor := fun b =>
  mkMonitor (m_role b) (m_bgId b) (initialHostInfo b) (hostListProvider b) (m_props b) (statusCheckIntervalMap b)
    (m_currentPhase b) (m_version b) (m_port b) (m_allStartTopologyIpChanged b) (m_allStartTopologyEndpointsRemoved b)
    (m_allTopologyChanged b) (m_startIps b) (m_currentIps b) (m_hostNames b) (m_startTopology b) (currentTopology b)
    (connection b) (connectionHostInfo b) (connectedIpAddress b) (intervalRate b) (collectedIpAddresses b)
    (collectedTopology b) (connectionHostInfoCorrect b) (useIpAddress b) (panicMode b) (stop b) (closed b).

(** ** Interval rates *)

Definition rate_value (r : BlueGreenIntervalRate) : Z :=
  match r with INVALID => -1 | BASELINE => 0 | INCREASED => 1 | HIGH => 2 end.
Definition mapToBlueGreenIntervalRate (value : Z) : BlueGreenIntervalRate :=
  if value =? 0 then BASELINE else if value =? 1 then INCREASED else if value =? 2 then HIGH else INVALID.

Definition NewBlueGreenStatusMonitor (role : BlueGreenRole) (bgdId : string) (hostInfo : option HostInfo)
  (monitoringProps : gmap string string) (intervals : gmap Z Z) : BlueGreenStatusMonitor :=
  mkMonitor role bgdId hostInfo None monitoringProps intervals NOT_CREATED "1.0" (-1) false false false ∅ ∅ ∅ []
    None None None "" (rate_value BASELINE) false false false false true false [].

Definition SetIntervalRate (r : BlueGreenIntervalRate) (b : BlueGreenStatusMonitor) : BlueGreenStatusMonitor :=
  b <| intervalRate := rate_value r |>.
Definition GetIntervalRate (b : BlueGreenStatusMonitor) : BlueGreenIntervalRate :=
  mapToBlueGreenIntervalRate (intervalRate b).

(** How long [Delay] waits, in milliseconds, and whether it still waits at
    [now]: the provider may change the rate, and panic mode may end, meanwhile. *)
Definition delay_ms (b : BlueGreenStatusMonitor) : Z :=
  match statusCheckIntervalMap b !! (if panicMode b then rate_value HIGH else rate_value (GetIntervalRate b)) with
  | Some ms => if ms =? 0 then DEFAULT_CHECK_INTERVAL else ms
  | None => DEFAULT_CHECK_INTERVAL
  end.
Definition delay_continues (start : Z) (before now_state : BlueGreenStatusMonitor) (now : Z) : bool :=
  bool_decide (GetIntervalRate now_state = GetIntervalRate before) &&
  (now <? start + Millisecond * delay_ms before) && negb (stop now_state) &&
  bool_decide (panicMode now_state = panicMode before).

Definition GetCurrentTopology (b : BlueGreenStatusMonitor) : option (list HostInfo) :=
  default (Some []) (currentTopology b).

Definition ResetCollectedData (b : BlueGreenStatusMonitor) : BlueGreenStatusMonitor :=
  b <| m_startIps := ∅ |> <| m_startTopology := [] |> <| m_hostNames := ∅ |>.

(** ** Flags *)

(** The two loops stop at the first host that answers; [bad] is their test. *)
Definition haveAllChanged (topology : list HostInfo) (bad : string -> bool) : bool :=
  Nat.ltb 0 (length topology) && forallb (fun h => negb (bad (Host h))) topology.

#[global] Arguments haveAllChanged : simpl never.

Definition ip_not_changed (b : BlueGreenStatusMonitor) (host : string) : bool :=
  match m_startIps b !! host, m_currentIps b !! host with
  | Some startIp, Some currentIp => bool_decide (startIp = currentIp)
  | _, _ => true
  end.
Definition endpoint_not_removed (b : BlueGreenStatusMonitor) (host : string) : bool :=
  match m_startIps b !! host with
  | None => true
  | Some startIp =>
      is_empty startIp || match m_currentIps b !! host with Some ip => negb (is_empty ip) | None => false end
  end.

Definition UpdateIpAddressFlags (b : BlueGreenStatusMonitor) : BlueGreenStatusMonitor :=
  if collectedTopology b then
    b <| m_allStartTopologyIpChanged := false |> <| m_allStartTopologyEndpointsRemoved := false |>
      <| m_allTopologyChanged := false |>
  else
    let b := if negb (collectedIpAddresses b)
             then b <| m_allStartTopologyIpChanged := haveAllChanged (m_startTopology b) (ip_not_changed b) |>
             else b in
    let b := b <| m_allStartTopologyEndpointsRemoved := haveAllChanged (m_startTopology b) (endpoint_not_removed b) |> in
    if negb (collectedTopology b) then
      let currentTopologyCopy := default [] (GetCurrentTopology b) in
      b <| m_allTopologyChanged := Nat.ltb 0 (length currentTopologyCopy) && Nat.ltb 0 (length (m_startTopology b)) &&
                                   HaveNoHostsInCommon currentTopologyCopy (m_startTopology b) |>
    else b.

(** The %v of a role in [InitHostListProvider] is its [String]. *)
Definition role_String (r : BlueGreenRole) : string :=
  "BlueGreenRole [name: " +:+ role_name r +:+ ", value: " +:+ Itoa (role_value r) +:+ "]".
Definition bgId_role_id (bgId : string) (r : BlueGreenRole) : string :=
  bgId +:+ "::" +:+ role_String r +:+ "::" +:+ BG_CLUSTER_ID.

Section Monitor.
Context {V : Type} (env : MonitorEnv V) `{MapRange} `{PrepareHost}.

Definition GetIpAddress (site : nat) (host : string) : string :=
  match LookupIP env site host with
  | None => ""
  | Some ips => match ips with [] => "" | ip :: _ => ip end
  end.

Definition conn_is_open (site : nat) (b : BlueGreenStatusMonitor) : bool :=
  match connection b with Some conn => negb (IsClosed env site conn) | None => false end.

Definition CloseConnection (b : BlueGreenStatusMonitor) : BlueGreenStatusMonitor :=
  let conn := connection b in
  let is_open := conn_is_open 0 b in
  let b := b <| connection := None |> in
  match conn with
  | Some conn => if is_open then b <| closed := closed b ++ [conn] |> else b
  | None => b
  end.

(** ** Opening a connection *)

Definition cannot_open (b : BlueGreenStatusMonitor) : BlueGreenStatusMonitor :=
  b <| connection := None |> <| panicMode := true |>.

Definition open_with_ip (copy : option HostInfo) (ip : string) (b : BlueGreenStatusMonitor) : BlueGreenStatusMonitor :=
  match Build (SetHost ip (CopyFrom copy NewHostInfoBuilder)) with
  | Ok connectionWithIpHostInfo =>
      let connectWithIpProps := <[IAM_HOST_name := GetHost copy]> (m_props b) in
      match ForceConnect env connectionWithIpHostInfo connectWithIpProps with
      | Some conn => b <| connection := Some conn |> <| panicMode := false |>
      | None => cannot_open b
      end
  | _ => cannot_open b
  end.

Definition open_with_host (copy : option HostInfo) (b : BlueGreenStatusMonitor) : BlueGreenStatusMonitor :=
  match Build (CopyFrom copy NewHostInfoBuilder) with
  | Ok finalConnectionHostInfoCopy =>
      let ip := GetIpAddress 0 (GetHost copy) in
      match ForceConnect env finalConnectionHostInfoCopy (m_props b) with
      | Some conn => b <| connection := Some conn |> <| connectedIpAddress := ip |> <| panicMode := false |>
      | None => cannot_open b
      end
  | _ => cannot_open b
  end.

Definition OpenConnection (b : BlueGreenStatusMonitor) : BlueGreenStatusMonitor :=
  if conn_is_open 1 b then b
  else
    let b := b <| connection := None |> <| panicMode := true |> in
    let b := match connectionHostInfo b with
             | Some _ => b
             | None => b <| connectionHostInfo := initialHostInfo b |> <| connectedIpAddress := "" |>
                         <| connectionHostInfoCorrect := false |>
             end in
    if useIpAddress b && negb (is_empty (connectedIpAddress b))
    then open_with_ip (connectionHostInfo b) (connectedIpAddress b) b
    else open_with_host (connectionHostInfo b) b.

(** ** Reading the status table *)

Definition parse_row (row : list V) : option BlueGreenResult :=
  match row with
  | v0 :: v1 :: v2 :: v3 :: v4 :: _ =>
      version ← ParseString env v0; endpoint ← ParseString env v1; port ← ParseInt64 env v2;
      role ← ParseString env v3; status ← ParseString env v4;
      Some (mkResult version endpoint port role status)
  | _ => None
  end.

Definition getBlueGreenStatus (conn : nat) : Result (list BlueGreenResult) :=
  match QueryContext env conn with
  | NotQueryer => Ok []
  | QueryFailed err => Err err
  | Rows rows => Ok (omap parse_row rows)
  end.

(** The entries of the monitor's role; an unknown version is read as the latest. *)
Definition status_entries (role : BlueGreenRole) (results : list BlueGreenResult) : list StatusInfo :=
  omap (fun r =>
    let version := if bool_decide (Version r ∈ knownVersions) then Version r else latestKnownVersion in
    if negb (bool_decide (role = ParseRole (bgr_Role r))) then None
    else Some (mkStatusInfo version (Endpoint r) (bgr_Port r) (ParsePhase (bgr_Status r)) (ParseRole (bgr_Role r)))) results.

Definition zeroStatusInfo : StatusInfo := mkStatusInfo "" "" 0 zeroPhase zeroRole.
Definition is_zero_info (s : StatusInfo) : bool := statusInfo_IsZero (Some s).

Definition find_entry (entries : list StatusInfo) (f : string -> bool) : StatusInfo :=
  FilterSliceFindFirst zeroStatusInfo entries (fun s => f (si_endpoint s) && IsNotOldInstance (si_endpoint s)).

Definition InitHostListProvider (b : BlueGreenStatusMonitor) : BlueGreenStatusMonitor :=
  if bool_decide (is_Some (hostListProvider b)) || negb (connectionHostInfoCorrect b) then b
  else
    let clusterId := bgId_role_id (m_bgId b) (m_role b) in
    let hostListProps := <[CLUSTER_ID_name := clusterId]> (m_props b) in
    let hostListProps :=
      if negb (IsNil (connectionHostInfo b)) && connectionHostInfoCorrect b
      then match connectionHostInfo b with
           | Some h => <[HOST_name := Host h]> (<[PORT_name := Itoa (Port h)]> hostListProps)
           | None => hostListProps
           end
      else hostListProps in
    match CreateHostListProvider env hostListProps with
    | Some hlp => b <| hostListProvider := Some hlp |>
    | None => b
    end.

(** The table could not be read: [None] when the step ends there. *)
Definition after_query_error (err : go_error) (conn : nat) (b : BlueGreenStatusMonitor) :
  BlueGreenStatusMonitor * bool :=
  if negb (IsClosed env 5 conn) && is_metadata_error env err
  then (b <| m_currentPhase := NOT_CREATED |>, false)
  else ((CloseConnection b) <| panicMode := true |>, true).

(** The entry that stands for the deployment: the cluster writer endpoint, or
    an instance; finding the former adds the reader endpoint. *)
Definition select_entry (entries : list StatusInfo) (b : BlueGreenStatusMonitor) : BlueGreenStatusMonitor * StatusInfo :=
  let statusInfo := find_entry entries IsWriterClusterDns in
  let b := if negb (is_zero_info statusInfo)
           then b <| m_hostNames :=
                  <[ReplaceFirst (ToLower (si_endpoint statusInfo)) ".cluster-" ".cluster-ro-" := true]> (m_hostNames b) |>
           else b in
  let statusInfo := if is_zero_info statusInfo then find_entry entries IsRdsInstance else statusInfo in
  (b, statusInfo).

Definition apply_entry (entries : list StatusInfo) (statusInfo : StatusInfo) (b : BlueGreenStatusMonitor) :
  BlueGreenStatusMonitor :=
  if is_zero_info statusInfo then
    if Nat.eqb (length entries) 0 then b <| m_currentPhase := zeroPhase |> else b
  else b <| m_currentPhase := si_phase statusInfo |> <| m_version := si_version statusInfo |>
         <| m_port := si_port statusInfo |>.

Definition collect_endpoints (entries : list StatusInfo) (b : BlueGreenStatusMonitor) : BlueGreenStatusMonitor :=
  if collectedTopology b
  then b <| m_hostNames := foldl (fun m s =>
              if negb (is_empty (si_endpoint s)) && IsNotOldInstance (si_endpoint s)
              then <[ToLower (si_endpoint s) := true]> m else m) (m_hostNames b) entries |>
  else b.

Definition check_connected_host (statusInfo : StatusInfo) (b : BlueGreenStatusMonitor) : BlueGreenStatusMonitor :=
  if negb (connectionHostInfoCorrect b) && negb (is_zero_info statusInfo) then
    let statusInfoHostIpAddress := GetIpAddress 1 (si_endpoint statusInfo) in
    let b :=
      if negb (is_empty (connectedIpAddress b)) && negb (bool_decide (connectedIpAddress b = statusInfoHostIpAddress))
      then
        let reconnectionHostInfo := BuildOrNil (SetPort (si_port statusInfo) (SetHost (si_endpoint statusInfo) NewHostInfoBuilder)) in
        let b := b <| connectionHostInfo := reconnectionHostInfo |> <| connectionHostInfoCorrect := true |> in
        (CloseConnection b) <| panicMode := true |>
      else b <| connectionHostInfoCorrect := true |> <| panicMode := false |> in
    if connectionHostInfoCorrect b && negb (bool_decide (is_Some (hostListProvider b))) then InitHostListProvider b else b
  else b.

Definition use_results (results : list BlueGreenResult) (b : BlueGreenStatusMonitor) : BlueGreenStatusMonitor :=
  let statusEntries := status_entries (m_role b) results in
  let '(b, statusInfo) := select_entry statusEntries b in
  let b := apply_entry statusEntries statusInfo b in
  let b := collect_endpoints statusEntries b in
  check_connected_host statusInfo b.

Definition CollectStatus (b : BlueGreenStatusMonitor) : BlueGreenStatusMonitor :=
  match connection b with
  | None => b
  | Some conn =>
      if IsClosed env 3 conn then b
      else if negb (IsBlueGreenStatusAvailable env conn) then
        if negb (IsClosed env 4 conn) then b <| m_currentPhase := NOT_CREATED |>
        else b <| connection := None |> <| m_currentPhase := zeroPhase |> <| panicMode := true |>
      else
        match getBlueGreenStatus conn with
        | Ok results => use_results results b
        | Err err => let '(b, continue) := after_query_error err conn b in if continue then use_results [] b else b
        | Panic => b
        end
  end.

(** ** Topology and addresses *)

Definition CollectTopology (b : BlueGreenStatusMonitor) : BlueGreenStatusMonitor :=
  match hostListProvider b with
  | None => b
  | Some hlp =>
      if negb (conn_is_open 2 b) then b
      else match ForceRefresh env hlp with
           | None => b
           | Some hosts =>
               let b := b <| currentTopology := Some hosts |> in
               match GetCurrentTopology b with
               | Some currentTopologyCopy =>
                   if collectedTopology b
                   then b <| m_startTopology := currentTopologyCopy |>
                          <| m_hostNames := foldl (fun m h => <[Host h := true]> m) (m_hostNames b) currentTopologyCopy |>
                   else b
               | None => b
               end
           end
  end.

Definition PutIfAbsent (m : gmap string string) (key value : string) : gmap string string :=
  match m !! key with Some _ => m | None => <[key := value]> m end.

Definition CollectHostIpAddresses (b : BlueGreenStatusMonitor) : BlueGreenStatusMonitor :=
  let b := b <| m_currentIps := ∅ |> in
  if Nat.eqb (size (m_hostNames b)) 0 then b
  else
    let b := b <| m_currentIps := foldl (fun m e => PutIfAbsent m e.1 (GetIpAddress 2 e.1)) (m_currentIps b)
                                    (range 0 (m_hostNames b)) |> in
    if collectedIpAddresses b then b <| m_startIps := m_currentIps b |> else b.

(** ** The loop *)

Definition interim_of (b : BlueGreenStatusMonitor) : BlueGreenInterimStatus :=
  mkInterim (m_currentPhase b) (m_version b) (m_port b) (m_startTopology b) (default [] (GetCurrentTopology b))
    (m_startIps b) (m_currentIps b) (m_hostNames b) (m_allStartTopologyIpChanged b)
    (m_allStartTopologyEndpointsRemoved b) (m_allTopologyChanged b).

(** One turn up to [Delay], with the status it reports; [stopped] is the value
    of [stop] before the report, which Close may have set meanwhile. *)
Definition collect (b : BlueGreenStatusMonitor) : BlueGreenStatusMonitor :=
  UpdateIpAddressFlags (CollectHostIpAddresses (CollectTopology (CollectStatus (OpenConnection b)))).
Definition loop_turn (stopped : bool) (b : BlueGreenStatusMonitor) :
  BlueGreenStatusMonitor * option (BlueGreenRole * BlueGreenInterimStatus) :=
  let b := collect b in
  (b, if negb stopped then Some (m_role b, interim_of b) else None).
End Monitor.

(** ** Properties *)

Lemma haveAllChanged_spec topology bad :
  haveAllChanged topology bad = true <-> topology <> [] /\ forall h, h ∈ topology -> bad (Host h) = false.
Proof.
  unfold haveAllChanged. rewrite andb_true_iff, Nat.ltb_lt, forallb_forall. setoid_rewrite negb_true_iff.
  setoid_rewrite <-list_elem_of_In. split; (intros [Hl Hb]; split; [|done]).
  - intros ->. simpl in Hl. lia.
  - destruct topology; [done|simpl; lia].
Qed.

Lemma ltb_length {A} (l : list A) : Nat.ltb 0 (length l) = true <-> l <> [].
Proof. rewrite Nat.ltb_lt. destruct l; simpl; [split; [lia|done]|split; [done|lia]]. Qed.

Lemma UpdateIpAddressFlags_fields b :
  collectedTopology b = false ->
  m_allStartTopologyIpChanged (UpdateIpAddressFlags b) =
    (if collectedIpAddresses b then m_allStartTopologyIpChanged b else haveAllChanged (m_startTopology b) (ip_not_changed b)) /\
  m_allStartTopologyEndpointsRemoved (UpdateIpAddressFlags b) = haveAllChanged (m_startTopology b) (endpoint_not_removed b) /\
  m_allTopologyChanged (UpdateIpAddressFlags b) =
    Nat.ltb 0 (length (default [] (GetCurrentTopology b))) && Nat.ltb 0 (length (m_startTopology b)) &&
    HaveNoHostsInCommon (default [] (GetCurrentTopology b)) (m_startTopology b).
Proof.
  intros Hc. unfold UpdateIpAddressFlags. rewrite Hc. destruct (collectedIpAddresses b) eqn:E; simpl; rewrite Hc; done.
Qed.

Lemma endpoint_not_removed_spec b host :
  endpoint_not_removed b host = false <->
  (exists ip, m_startIps b !! host = Some ip /\ ip <> "") /\ default "" (m_currentIps b !! host) = "".
Proof.
  unfold endpoint_not_removed. destruct (m_startIps b !! host) as [ip|]; [|split; [done|naive_solver]].
  rewrite orb_false_iff, is_empty_false. destruct (m_currentIps b !! host) as [ip'|]; simpl;
    rewrite ?negb_false_iff, ?is_empty_true; naive_solver.
Qed.

Lemma ip_not_changed_spec b host :
  ip_not_changed b host = false <->
  exists ip ip', m_startIps b !! host = Some ip /\ m_currentIps b !! host = Some ip' /\ ip <> ip'.
Proof.
  unfold ip_not_changed. destruct (m_startIps b !! host) as [ip|]; [|split; [done|naive_solver]].
  destruct (m_currentIps b !! host) as [ip'|]; [|split; [done|naive_solver]]. rewrite bool_decide_eq_false. naive_solver.
Qed.

(** Once the topology is collected, the monitor flags endpoints removed
    exactly when every host of the start topology had an address and has
    none now, addresses changed exactly when every host has a different
    address now, and topology changed exactly when no current host is a
    start host; an empty start topology flags nothing. *)
Theorem UpdateIpAddressFlags_spec b :
  collectedTopology b = false ->
  let b' := UpdateIpAddressFlags b in
  (m_allStartTopologyEndpointsRemoved b' = true <->
   m_startTopology b <> [] /\
   forall h, h ∈ m_startTopology b ->
     (exists ip, m_startIps b !! Host h = Some ip /\ ip <> "") /\ default "" (m_currentIps b !! Host h) = "") /\
  (collectedIpAddresses b = false ->
   m_allStartTopologyIpChanged b' = true <->
   m_startTopology b <> [] /\
   forall h, h ∈ m_startTopology b ->
     exists ip ip', m_startIps b !! Host h = Some ip /\ m_currentIps b !! Host h = Some ip' /\ ip <> ip') /\
  (m_allTopologyChanged b' = true <->
   default [] (GetCurrentTopology b) <> [] /\ m_startTopology b <> [] /\
   forall h h', h ∈ default [] (GetCurrentTopology b) -> h' ∈ m_startTopology b -> Host h <> Host h').
Proof.
  intros Hc b'. destruct (UpdateIpAddressFlags_fields b Hc) as (E1 & E2 & E3). unfold b'. split_and!.
  - rewrite E2, haveAllChanged_spec. by setoid_rewrite endpoint_not_removed_spec.
  - intros Hi. rewrite E1, Hi, haveAllChanged_spec. by setoid_rewrite ip_not_changed_spec.
  - rewrite E3, !andb_true_iff, !ltb_length, HaveNoHostsInCommon_spec. tauto.
Qed.

Section steps.
Context {V : Type} (env : MonitorEnv V) `{MapRange} `{PrepareHost}.

(** OpenConnection keeps an open connection and otherwise leaves the
    monitor in panic mode exactly when it has no connection, on every path:
    with the remembered address, with the host, and when the host cannot be
    built. *)
Theorem OpenConnection_panic b :
  let b' := OpenConnection env b in
  (conn_is_open env 1 b = true -> b' = b) /\
  (conn_is_open env 1 b = false -> (panicMode b' = true <-> connection b' = None)).
Proof.
  unfold OpenConnection. split; [by intros ->|]. intros ->.
  set (b1 := match connectionHostInfo _ with Some _ => _ | None => _ end). clearbody b1.
  assert (forall x : BlueGreenStatusMonitor, panicMode (cannot_open x) = true <-> connection (cannot_open x) = None) as Hc by done.
  destruct (useIpAddress b1 && _); [unfold open_with_ip|unfold open_with_host]; (destruct (Build _); [|apply Hc..]);
    (destruct (ForceConnect env _ _); [done|apply Hc]).
Qed.

Lemma PutIfAbsent_loop (f : string -> string) (l : list (string * bool)) (m : gmap string string) host :
  foldl (fun m e => PutIfAbsent m e.1 (f e.1)) m l !! host =
  match m !! host with Some ip => Some ip | None => if decide (host ∈ l.*1) then Some (f host) else None end.
Proof.
  revert m. induction l as [|e l IH]; intros m; cbn [foldl fmap list_fmap].
  { destruct (m !! host); [done|]. rewrite decide_False; [done|]. apply not_elem_of_nil. }
  rewrite IH. unfold PutIfAbsent. destruct (m !! e.1) as [ip|] eqn:E.
  - destruct (m !! host) eqn:E'; [done|]. assert (host <> e.1) by congruence.
    destruct (decide (host ∈ l.*1)), (decide (host ∈ e.1 :: l.*1)); try done; set_solver.
  - destruct (decide (host = e.1)) as [->|Hne].
    + rewrite lookup_insert_eq, E. rewrite decide_True; [done|]. set_solver.
    + rewrite lookup_insert_ne by done. destruct (m !! host); [done|].
      destruct (decide (host ∈ l.*1)), (decide (host ∈ e.1 :: l.*1)); try done; set_solver.
Qed.

Theorem CollectHostIpAddresses_spec b host :
  let b' := CollectHostIpAddresses env b in
  m_currentIps b' !! host = (match m_hostNames b !! host with Some _ => Some (GetIpAddress env 2 host) | None => None end) /\
  (collectedIpAddresses b = true -> m_hostNames b <> ∅ -> m_startIps b' = m_currentIps b') /\
  (collectedIpAddresses b = false -> m_startIps b' = m_startIps b).
Proof.
  unfold CollectHostIpAddresses. simpl. destruct (Nat.eqb_spec (size (m_hostNames b)) 0) as [E|E].
  - apply map_size_empty_inv in E. rewrite E, lookup_empty. simpl. by rewrite lookup_empty.
  - split; [|by destruct (collectedIpAddresses b)].
    assert (Hl : foldl (fun m e => PutIfAbsent m e.1 (GetIpAddress env 2 e.1)) ∅ (range 0 (m_hostNames b)) !! host =
                 match m_hostNames b !! host with Some _ => Some (GetIpAddress env 2 host) | None => None end).
    { rewrite (PutIfAbsent_loop (GetIpAddress env 2)), lookup_empty.
      destruct (m_hostNames b !! host) as [x|] eqn:Eh.
      - rewrite decide_True; [done|]. apply list_elem_of_fmap. exists (host, x). by rewrite elem_of_range.
      - rewrite decide_False; [done|]. intros ([k x] & -> & Hin)%list_elem_of_fmap.
        apply elem_of_range in Hin. simpl in Eh. by rewrite Hin in Eh. }
    destruct (collectedIpAddresses b); exact Hl.
Qed.
End steps.

Definition sample_monitor : BlueGreenStatusMonitor :=
  (NewBlueGreenStatusMonitor SOURCE "bg" None ∅ ∅) <| m_startTopology := [mkHostInfo "a" "a" 5432 AVAILABLE WRITER None None 100 0] |>
    <| m_startIps := {["a" := "10.0.0.1"]} |>.

Lemma UpdateIpAddressFlags_spec_witness :
  m_allStartTopologyEndpointsRemoved (UpdateIpAddressFlags sample_monitor) = true.
Proof.
  apply (proj1 (UpdateIpAddressFlags_spec sample_monitor eq_refl)). split; [discriminate|].
  intros h Hh. apply list_elem_of_singleton in Hh as ->. split; [by exists "10.0.0.1"|reflexivity].
Defined.
