(* ===== verification/BgProvider.v ===== *)
(** * BgProvider: the state machine of a deployment
    (plugins/bg/bg_status_provider.go).

    [PrepareStatus] runs under a lock, so it is one step; it is called by the
    monitor of one role at the end of a turn of its loop and writes the
    monitors' fields. [now i] is the [i]-th reading of the clock during one
    call. A loop over a map visits it in the order [range] gives.

    The storage service keeps a pointer to the provider's [summaryStatus]:
    [cached] says whether the key is present, and a reader sees the current
    value of the field ([read_status]). Results are [Panic] where the code
    dereferences nil or recurses without end (Go's stack overflow). The map
    without disposal function is its [gmap]. *)

From S2P Require Import Prelude.
From S2P Require Import HostInfo.
From S2P Require Import RdsUtils.
From S2P Require Import BgTypes.
From S2P Require Import BgInterim.
From S2P Require Import BgMonitor.

Definition HostPair : Type := option HostInfo * option HostInfo.

Record BlueGreenStatusProvider := mkProvider {
  props : gmap string string;
  bgdId : string;
  p_statusCheckIntervalMap : gmap Z Z;
  switchoverDuration : Z;
  postStatusEndTime : Z;
  latestStatusPhase : BlueGreenPhase;
  summaryStatus : BlueGreenStatus;
  suspendNewBlueConnectionsWhenInProgress : bool;
  rollback : bool;
  blueDnsUpdateCompleted : bool;
  greenDnsRemoved : bool;
  greenTopologyChanged : bool;
  monitors : option BlueGreenStatusMonitor * option BlueGreenStatusMonitor;
  correspondingHosts : gmap string HostPair;
  roleByHost : gmap string BlueGreenRole;
  phaseTimeNano : gmap string PhaseTimeInfo;
  iamHostSuccessfulConnects : gmap string (list string);
  hostIpAddresses : gmap string string;
  greenHostChangeNameTimes : gmap string Z;
  interimStatuses : BlueGreenInterimStatus * BlueGreenInterimStatus;
  interimStatusHashes : Z * Z;
  lastContextHash : Z;
  allGreenHostsChangedName : bool;
  cached : bool
}.

#[export] Instance Provider_eta : Eta BlueGreenStatusProvider := fun b =>
  mkProvider (props b) (bgdId b) (p_statusCheckIntervalMap b) (switchoverDuration b) (postStatusEndTime b)
    (latestStatusPhase b) (summaryStatus b) (suspendNewBlueConnectionsWhenInProgress b) (rollback b)
    (blueDnsUpdateCompleted b) (greenDnsRemoved b) (greenTopologyChanged b) (monitors b) (correspondingHosts b)
    (roleByHost b) (phaseTimeNano b) (iamHostSuccessfulConnects b) (hostIpAddresses b) (greenHostChangeNameTimes b)
    (interimStatuses b) (interimStatusHashes b) (lastContextHash b) (allGreenHostsChangedName b) (cached b).

Definition read_status (b : BlueGreenStatusProvider) : option BlueGreenStatus :=
  if cached b then Some (summaryStatus b) else None.

(** The properties as numbers: interval of each rate, timeout, suspend flag. *)
Record BgProperties := mkBgProps {
  BG_INTERVAL_BASELINE_MS : Z; BG_INTERVAL_INCREASED_MS : Z; BG_INTERVAL_HIGH_MS : Z;
  BG_SWITCHOVER_TIMEOUT_MS : Z; BG_SUSPEND_NEW_BLUE_CONNECTIONS : bool
}.
Definition BG_PROPERTY_PREFIX : string := "blue-green-monitoring-".

(** ** Flags and times *)

Definition IsSwitchoverTimerExpired (now : Z) (b : BlueGreenStatusProvider) : bool :=
  negb (postStatusEndTime b =? zero_time) && (postStatusEndTime b <? now).
Definition StartSwitchoverTimer (now : Z) (b : BlueGreenStatusProvider) : BlueGreenStatusProvider :=
  if postStatusEndTime b =? zero_time then b <| postStatusEndTime := now + switchoverDuration b |> else b.

Definition PutIfAbsentPhaseTime (now : Z) (key : string) (phase : BlueGreenPhase) (b : BlueGreenStatusProvider) :
  BlueGreenStatusProvider :=
  let key := if rollback b then key +:+ " (rollback)" else key in
  match phaseTimeNano b !! key with
  | Some _ => b
  | None => b <| phaseTimeNano := <[key := mkPhaseTimeInfo now phase]> (phaseTimeNano b) |>
  end.
Definition StorePhaseTime (now : Z) (phase : BlueGreenPhase) (b : BlueGreenStatusProvider) : BlueGreenStatusProvider :=
  if phase_IsZero phase then b else PutIfAbsentPhaseTime now (phase_name phase) phase b.
Definition StoreBlueDnsUpdateTime (now : Z) := PutIfAbsentPhaseTime now "Blue DNS updated" zeroPhase.
Definition StoreGreenDnsRemoveTime (now : Z) := PutIfAbsentPhaseTime now "Green DNS removed" zeroPhase.
Definition StoreGreenHostChangeNameTime (now : Z) := PutIfAbsentPhaseTime now "Green host certificates changed" zeroPhase.
Definition StoreGreenTopologyChangeTime (now : Z) := PutIfAbsentPhaseTime now "Green topology changed" zeroPhase.

Definition UpdatePhase (role : BlueGreenRole) (interimStatus : BlueGreenInterimStatus) (b : BlueGreenStatusProvider) :
  BlueGreenStatusProvider :=
  let roleStatus := at_role role (interimStatuses b) in
  let latestInterimPhase := if negb (interim_IsZero roleStatus) then i_phase roleStatus else NOT_CREATED in
  if interim_IsZero interimStatus || phase_IsZero (i_phase interimStatus) then b
  else
    let b := if negb (phase_IsZero latestInterimPhase) && (phase_no (i_phase interimStatus) <? phase_no latestInterimPhase)
             then b <| rollback := true |> else b in
    let shouldUpdate := if rollback b
                        then phase_no (i_phase interimStatus) <? phase_no (latestStatusPhase b)
                        else phase_no (latestStatusPhase b) <=? phase_no (i_phase interimStatus) in
    if shouldUpdate then b <| latestStatusPhase := i_phase interimStatus |> else b.

Definition UpdateDnsFlags (now : nat -> Z) (role : BlueGreenRole) (interimStatus : BlueGreenInterimStatus)
  (b : BlueGreenStatusProvider) : BlueGreenStatusProvider :=
  let b := if bool_decide (role = SOURCE) && negb (blueDnsUpdateCompleted b) && allStartTopologyIpChanged interimStatus
           then StoreBlueDnsUpdateTime (now 1%nat) (b <| blueDnsUpdateCompleted := true |>) else b in
  let b := if bool_decide (role = TARGET) && negb (greenDnsRemoved b) && allStartTopologyEndpointsRemoved interimStatus
           then StoreGreenDnsRemoveTime (now 2%nat) (b <| greenDnsRemoved := true |>) else b in
  if bool_decide (role = TARGET) && negb (greenTopologyChanged b) && allTopologyChanged interimStatus
  then StoreGreenTopologyChangeTime (now 3%nat) (b <| greenTopologyChanged := true |>) else b.

(** ** Monitors *)

Definition each_monitor (f : BlueGreenStatusMonitor -> BlueGreenStatusMonitor) (b : BlueGreenStatusProvider) :
  BlueGreenStatusProvider :=
  b <| monitors := (f <$> (monitors b).1, f <$> (monitors b).2) |>.
Definition set_flags (r : BlueGreenIntervalRate) (collect use_ip : bool) (m : BlueGreenStatusMonitor) : BlueGreenStatusMonitor :=
  (SetIntervalRate r m) <| collectedIpAddresses := collect |> <| collectedTopology := collect |> <| useIpAddress := use_ip |>.
Definition stop_monitor (m : BlueGreenStatusMonitor) : BlueGreenStatusMonitor := m <| stop := true |>.

Definition ClearMonitors (b : BlueGreenStatusProvider) : BlueGreenStatusProvider := each_monitor stop_monitor b.

(** A Go [case] ends at the next one: PREPARATION and IN_PROGRESS do nothing. *)
Definition UpdateMonitors (b : BlueGreenStatusProvider) : option BlueGreenStatusProvider :=
  let phase := currentPhase (summaryStatus b) in
  if bool_decide (phase = NOT_CREATED) then Some (each_monitor (set_flags BASELINE false false) b)
  else if bool_decide (phase = CREATED) then
    Some (each_monitor (fun m => let m := set_flags INCREASED true false m in
                                 if rollback b then ResetCollectedData m else m) b)
  else if bool_decide (phase = PREPARATION) then Some b
  else if bool_decide (phase = IN_PROGRESS) then Some b
  else if bool_decide (phase = POST) then Some (each_monitor (set_flags HIGH false true) b)
  else if bool_decide (phase = COMPLETED) then
    let b := each_monitor (fun m => ResetCollectedData (set_flags BASELINE false false m)) b in
    Some (if negb (rollback b) then b <| monitors := (stop_monitor <$> (monitors b).1, (monitors b).2) |> else b)
  else None.

Section Provider.
Context `{MapRange}.

(** [utils.FilterSetFindFirst] and [utils.FilterMapFindFirstValue] over a map. *)
Definition FilterSetFindFirst {A} (site : nat) (m : gmap string A) (f : string -> bool) : string :=
  FilterSliceFindFirst "" (range site m).*1 f.
Definition FilterMapFindFirstValue {A} (site : nat) (zero : A) (m : gmap string A) (f : A -> bool) : A :=
  FilterSliceFindFirst zero (range site m).*2 f.

(** The results of a loop body, appended; the first panic ends the loop. *)
Fixpoint append_each {A B} (f : A -> Result (list B)) (l : list A) : Result (list B) :=
  match l with
  | [] => Ok []
  | x :: l => (try y := f x in try ys := append_each f l in Ok (y ++ ys))%go
  end.

(** ** Corresponding hosts *)

Definition GetWriterHost (role : BlueGreenRole) (b : BlueGreenStatusProvider) : option HostInfo :=
  let interimStatus := at_role role (interimStatuses b) in
  if interim_IsZero interimStatus then None else GetWriter (Some <$> startTopology interimStatus).
Definition GetReaderHosts (role : BlueGreenRole) (b : BlueGreenStatusProvider) : list HostInfo :=
  let interimStatus := at_role role (interimStatuses b) in
  if interim_IsZero interimStatus then [] else GetReaders (Some <$> startTopology interimStatus).

Definition put_pair_if_absent (k : string) (p : HostPair) (m : gmap string HostPair) : gmap string HostPair :=
  match m !! k with Some _ => m | None => <[k := p]> m end.
Definition host_named (host : string) : option HostInfo := BuildOrNil (SetHost host NewHostInfoBuilder).

(** Blue readers to green readers round and round, or to the green writer. *)
Definition map_readers (blue green : list HostInfo) (greenWriter : option HostInfo) (m : gmap string HostPair) :
  gmap string HostPair :=
  if Nat.ltb 0 (length green)
  then foldl (fun m e => <[Host e.2 := (Some e.2, green !! (e.1 mod length green)%nat)]> m) m (imap pair blue)
  else foldl (fun m h => <[Host h := (Some h, greenWriter)]> m) m blue.

Definition map_topologies (b : BlueGreenStatusProvider) (m : gmap string HostPair) : gmap string HostPair :=
  let blueWriter := GetWriterHost SOURCE b in
  let greenWriter := GetWriterHost TARGET b in
  let blueReaders := GetReaderHosts SOURCE b in
  let greenReaders := GetReaderHosts TARGET b in
  let m := if negb (IsNil blueWriter) then <[GetHost blueWriter := (blueWriter, greenWriter)]> m else m in
  if Nat.ltb 0 (length blueReaders) then map_readers blueReaders greenReaders greenWriter m else m.

(** The endpoints of one kind, when both sides have one. *)
Definition map_cluster_hosts (site : nat) (f : string -> bool) (blueHosts greenHosts : gmap string bool)
  (m : gmap string HostPair) : gmap string HostPair :=
  let blue := FilterSetFindFirst site blueHosts f in
  let green := FilterSetFindFirst (S site) greenHosts f in
  if negb (is_empty blue) && negb (is_empty green)
  then put_pair_if_absent blue (host_named blue, host_named green) m else m.

(** [IsRdsCustomClusterDns] rules the panic of [GetRdsClusterId] out
    (RdsUtils.GetRdsClusterId_custom). *)
Definition cluster_id (host : string) : string := match GetRdsClusterId host with Ok id => id | _ => "" end.

Definition map_custom_host (blueHost : string) (greenHosts : gmap string bool) (m : gmap string HostPair) :
  gmap string HostPair :=
  if IsRdsCustomClusterDns blueHost then
    let customClusterName := cluster_id blueHost in
    if negb (is_empty customClusterName) then
      match list_find (fun greenHost => IsRdsCustomClusterDns greenHost = true /\
                         customClusterName = RemoveGreenInstancePrefix (cluster_id greenHost))
                      (range 15 greenHosts).*1 with
      | Some (_, greenHost) => put_pair_if_absent blueHost (host_named blueHost, host_named greenHost) m
      | None => m
      end
    else m
  else m.

Definition map_host_names (blueHosts greenHosts : gmap string bool) (m : gmap string HostPair) : gmap string HostPair :=
  let m := map_cluster_hosts 10 IsWriterClusterDns blueHosts greenHosts m in
  let m := map_cluster_hosts 12 IsReaderClusterDns blueHosts greenHosts m in
  foldl (fun m blueHost => map_custom_host blueHost greenHosts m) m (range 14 blueHosts).*1.

Definition updateCorrespondingHosts (b : BlueGreenStatusProvider) : BlueGreenStatusProvider :=
  let source := at_role SOURCE (interimStatuses b) in
  let target := at_role TARGET (interimStatuses b) in
  let m : gmap string HostPair := ∅ in
  let m := if Nat.ltb 0 (length (startTopology source)) && Nat.ltb 0 (length (startTopology target))
           then map_topologies b m else m in
  let m := if Nat.ltb 0 (size (hostNames source)) && Nat.ltb 0 (size (hostNames target))
           then map_host_names (hostNames source) (hostNames target) m else m in
  b <| correspondingHosts := m |>.

(** ** Routings *)

(** A host as it is, and with the port of the role's status when there is one. *)
Definition two_routings (host : string) (role : BlueGreenRole) (make : string -> ConnectRouting)
  (b : BlueGreenStatusProvider) : list ConnectRouting :=
  let interimStatus := at_role role (interimStatuses b) in
  make host :: (if interim_IsZero interimStatus then [] else [make (GetHostAndPortOf host (i_port interimStatus))]).

Definition with_ip (h : HostInfo) (b : BlueGreenStatusProvider) : option HostInfo :=
  match hostIpAddresses b !! Host h with
  | Some ip => if negb (is_empty ip) then BuildOrNil (SetHost ip (CopyFrom (Some h) NewHostInfoBuilder)) else Some h
  | None => Some h
  end.

Definition AddSubstituteBlueWithIpAddressConnectRouting (b : BlueGreenStatusProvider) : Result (list ConnectRouting) :=
  append_each (fun e => let '(host, role) := e in
    match correspondingHosts b !! host with
    | Some hostPair =>
        if negb (bool_decide (role = SOURCE)) then Ok []
        else match hostPair.1 with
             | None => Panic
             | Some blueHostInfo =>
                 Ok (two_routings host role
                       (fun h => NewSubstituteConnectRouting h role (with_ip blueHostInfo b) [Some blueHostInfo] None) b)
             end
    | None => Ok []
    end) (range 20 (roleByHost b)).

Definition getUniqueIpAddresses (b : BlueGreenStatusProvider) : gmap string bool :=
  foldl (fun u e => match u !! e.2 with
                    | None => if negb (is_empty e.2) then <[e.2 := true]> u else u
                    | Some _ => u
                    end) ∅ (range 21 (hostIpAddresses b)).

Definition interimStatusHasIpAddress (interimStatus : BlueGreenInterimStatus) (ipAddress : string) : bool :=
  let first := FilterMapFindFirstValue 22 "" (startIpAddressesByHostMap interimStatus)
                 (fun s => negb (is_empty s) && bool_decide (s = ipAddress)) in
  negb (interim_IsZero interimStatus) && negb (is_empty first).

(** The routings [make] gives for an address, alone and with a port. *)
Definition suspend_ip {R} (make : string -> R) (ip : string) (port : Z) : list R := [make ip; make (GetHostAndPortOf ip port)].

(** One turn of the two loops over the addresses; [other] are the routings of
    an address of neither side. *)
Definition suspend_address {R} (make : string -> R) (other : list R) (b : BlueGreenStatusProvider) (ip : string) : list R :=
  let source := at_role SOURCE (interimStatuses b) in
  let target := at_role TARGET (interimStatuses b) in
  if suspendNewBlueConnectionsWhenInProgress b && interimStatusHasIpAddress source ip then suspend_ip make ip (i_port source)
  else if interimStatusHasIpAddress target ip then suspend_ip make ip (i_port target)
  else other.

Definition in_progress_routings (b : BlueGreenStatusProvider) (blue : list ConnectRouting) :
  list ConnectRouting * list ExecuteRouting :=
  let ips := getUniqueIpAddresses b in
  let suspend ip := NewSuspendConnectRouting ip zeroRole (bgdId b) in
  let hold ip := NewSuspendExecuteRouting ip zeroRole (bgdId b) in
  (blue ++ [NewSuspendConnectRouting "" TARGET (bgdId b)] ++
     concat ((suspend_address suspend [] b) <$> (range 23 ips).*1),
   [NewSuspendExecuteRouting "" SOURCE (bgdId b); NewSuspendExecuteRouting "" TARGET (bgdId b)] ++
     concat ((fun ip => suspend_address hold [hold ip] b ip) <$> (range 24 ips).*1)).

Definition IsAlreadySuccessfullyConnected (connectHost iamHost : string) (b : BlueGreenStatusProvider) : bool :=
  match iamHostSuccessfulConnects b !! connectHost with
  | Some successfulConnects => bool_decide (iamHost ∈ successfulConnects)
  | None => false
  end.

Definition blueHostInCorrespondingHosts (host : string) (role : BlueGreenRole) (b : BlueGreenStatusProvider) : bool :=
  bool_decide (role = SOURCE) &&
  negb (is_empty (FilterSetFindFirst 25 (correspondingHosts b) (fun s => bool_decide (s = host)))).

Definition post_routing (e : string * BlueGreenRole) (b : BlueGreenStatusProvider) : Result (list ConnectRouting) :=
  let '(host, role) := e in
  if negb (blueHostInCorrespondingHosts host role b) then Ok []
  else
    let greenHostInfo := default None (snd <$> correspondingHosts b !! host) in
    match greenHostInfo with
    | Some green =>
        if IsNil (Some green)
        then Ok (two_routings host role (fun h => NewSuspendUntilCorrespondingHostFoundConnectRouting h role (bgdId b)) b)
        else
          let greenHost := Host green in
          match BuildOrNil (SetHost (RemoveGreenInstancePrefix greenHost) (CopyFrom (Some green) NewHostInfoBuilder)) with
          | None => Panic
          | Some iamBlueHost =>
              let iamHosts := if IsAlreadySuccessfullyConnected greenHost (Host iamBlueHost) b
                              then [Some iamBlueHost] else [Some green; Some iamBlueHost] in
              let notify := if IsRdsInstance host then Some greenHost else None in
              Ok (two_routings host role
                    (fun h => NewSubstituteConnectRouting h role (with_ip green b) iamHosts notify) b)
          end
    | None => Ok (two_routings host role (fun h => NewSuspendUntilCorrespondingHostFoundConnectRouting h role (bgdId b)) b)
    end.

(** The named result stays nil until a routing is appended. *)
Definition nil_if_empty {A} (l : list A) : option (list A) := match l with [] => None | _ => Some l end.

Definition CreatePostRouting (b : BlueGreenStatusProvider) : Result (option (list ConnectRouting)) :=
  if blueDnsUpdateCompleted b && allGreenHostsChangedName b then Ok None
  else (try l := append_each (fun e => post_routing e b) (range 26 (roleByHost b)) in
        Ok (nil_if_empty (l ++ (if negb (greenDnsRemoved b) then [NewRejectConnectRouting "" TARGET] else []))))%go.

(** ** Statuses *)

Definition GetStatusOfCreated (b : BlueGreenStatusProvider) : BlueGreenStatus :=
  NewBgStatus (bgdId b) CREATED None None SharedMap SharedMap.

(** [GetStatusOfPost] and [GetStatusOfCompleted] call each other; a fuel of 3
    is enough when the clock does not go back ([PrepareStatus_total]). *)
Inductive recursive_status := PostStatus | CompletedStatus.

Section clock.
Context (now : nat -> Z).

Fixpoint status_of (fuel : nat) (which : recursive_status) (i : nat) (b : BlueGreenStatusProvider) :
  Result BlueGreenStatus :=
  match fuel with
  | O => Panic
  | S fuel =>
      match which with
      | PostStatus =>
          if IsSwitchoverTimerExpired (now i) b then
            if rollback b then Ok (GetStatusOfCreated b) else status_of fuel CompletedStatus (S i) b
          else (try routings := CreatePostRouting b in
                Ok (NewBgStatus (bgdId b) POST routings (Some []) SharedMap SharedMap))%go
      | CompletedStatus =>
          if IsSwitchoverTimerExpired (now i) b then
            if rollback b then Ok (GetStatusOfCreated b)
            else Ok (NewBgStatus (bgdId b) COMPLETED (Some []) (Some []) SharedMap SharedMap)
          else if negb (blueDnsUpdateCompleted b) || negb (greenDnsRemoved b) then status_of fuel PostStatus (S i) b
          else Ok (NewBgStatus (bgdId b) COMPLETED (Some []) (Some []) SharedMap FreshMap)
      end
  end.
Definition GetStatusOfPost (i : nat) (b : BlueGreenStatusProvider) : Result BlueGreenStatus := status_of 3 PostStatus i b.
Definition GetStatusOfCompleted (i : nat) (b : BlueGreenStatusProvider) : Result BlueGreenStatus :=
  status_of 3 CompletedStatus i b.

Definition GetStatusOfPreparation (i : nat) (b : BlueGreenStatusProvider) : Result BlueGreenStatus :=
  if IsSwitchoverTimerExpired (now i) b then
    if rollback b then Ok (GetStatusOfCreated b) else GetStatusOfCompleted (S i) b
  else (try routings := AddSubstituteBlueWithIpAddressConnectRouting b in
        Ok (NewBgStatus (bgdId b) PREPARATION (Some routings) None SharedMap SharedMap))%go.

Definition GetStatusOfInProgress (i : nat) (b : BlueGreenStatusProvider) : Result BlueGreenStatus :=
  if IsSwitchoverTimerExpired (now i) b then
    if rollback b then Ok (GetStatusOfCreated b) else GetStatusOfCompleted (S i) b
  else (try blue := (if suspendNewBlueConnectionsWhenInProgress b
                     then Ok [NewSuspendConnectRouting "" SOURCE (bgdId b)]
                     else AddSubstituteBlueWithIpAddressConnectRouting b) in
        let '(connects, executes) := in_progress_routings b blue in
        Ok (NewBgStatus (bgdId b) IN_PROGRESS (Some connects) (Some executes) SharedMap SharedMap))%go.

(** The status of a phase, with the error of an unknown one. *)
Definition UpdateSummaryStatus (role : BlueGreenRole) (interimStatus : BlueGreenInterimStatus)
  (b : BlueGreenStatusProvider) : Result (BlueGreenStatusProvider * bool) :=
  let phase := latestStatusPhase b in
  let set (s : Result BlueGreenStatus) (b : BlueGreenStatusProvider) :=
    (try s := s in Ok (b <| summaryStatus := s |>, true))%go in
  if bool_decide (phase = NOT_CREATED) then
    set (Ok (NewBgStatus (bgdId b) NOT_CREATED None None NilMap NilMap)) b
  else if bool_decide (phase = CREATED) then
    let b := UpdateDnsFlags now role interimStatus b in set (Ok (GetStatusOfCreated b)) b
  else if bool_decide (phase = PREPARATION) then
    let b := UpdateDnsFlags now role interimStatus (StartSwitchoverTimer (now 0%nat) b) in
    set (GetStatusOfPreparation 4 b) b
  else if bool_decide (phase = IN_PROGRESS) then
    let b := UpdateDnsFlags now role interimStatus b in set (GetStatusOfInProgress 4 b) b
  else if bool_decide (phase = POST) then
    let b := UpdateDnsFlags now role interimStatus b in set (GetStatusOfPost 4 b) b
  else if bool_decide (phase = COMPLETED) then
    let b := UpdateDnsFlags now role interimStatus b in set (GetStatusOfCompleted 4 b) b
  else Ok (b, false).

Definition updateStatusCache (b : BlueGreenStatusProvider) : BlueGreenStatusProvider :=
  let b := b <| cached := negb (status_IsZero (summaryStatus b)) |> in
  StorePhaseTime (now 8%nat) (currentPhase (summaryStatus b)) b.

(** ** IAM hosts *)

(** The test of the loop over [iamHostSuccessfulConnects]. *)
Definition host_changed_name (e : string * list string) : bool :=
  negb (Nat.ltb 0 (length e.2) && is_empty (FilterSliceFindFirst "" e.2 (fun s => negb (bool_decide (s = e.1))))).
Definition register_connect (connectHost iamHost : string) (m : gmap string (list string)) : gmap string (list string) :=
  <[connectHost := default [] (m !! connectHost) ++ [iamHost]]> m.

Definition RegisterIamHost (connectHost iamHost : string) (b : BlueGreenStatusProvider) : BlueGreenStatusProvider :=
  let differentHostNames := negb (is_empty connectHost) && negb (bool_decide (connectHost = iamHost)) in
  let b := if differentHostNames && negb (IsAlreadySuccessfullyConnected connectHost iamHost b)
           then b <| greenHostChangeNameTimes := <[connectHost := now 0%nat]> (greenHostChangeNameTimes b) |> else b in
  let b := b <| iamHostSuccessfulConnects := register_connect connectHost iamHost (iamHostSuccessfulConnects b) |> in
  if differentHostNames then
    let allHostChangedNames := forallb host_changed_name (range 27 (iamHostSuccessfulConnects b)) in
    if allHostChangedNames && negb (allGreenHostsChangedName b)
    then StoreGreenHostChangeNameTime (now 1%nat) (b <| allGreenHostsChangedName := true |>) else b
  else b.

(** ** One report of a monitor *)

Definition getContextHash (b : BlueGreenStatusProvider) : Z :=
  getValueHash (getValueHash 1 (FormatBool (allGreenHostsChangedName b)))
    (Itoa (Z.of_nat (size (iamHostSuccessfulConnects b)))).

Definition switchover_completed (b : BlueGreenStatusProvider) : bool :=
  (negb (rollback b) && bool_decide (currentPhase (summaryStatus b) = COMPLETED)) ||
  (rollback b && bool_decide (currentPhase (summaryStatus b) = CREATED)).
Definition zeroPhaseTime : PhaseTimeInfo := mkPhaseTimeInfo zero_time zeroPhase.
Definition has_active_switchover_phase (b : BlueGreenStatusProvider) : bool :=
  negb (bool_decide (FilterMapFindFirstValue 28 zeroPhaseTime (phaseTimeNano b)
    (fun p => negb (phase_IsZero (pt_Phase p)) && isActiveSwitchoverOrCompleted (pt_Phase p)) = zeroPhaseTime)).

(** [rollback] is false when it is tested at the end. *)
Definition reset_context (b : BlueGreenStatusProvider) : BlueGreenStatusProvider :=
  let b := b <| rollback := false |> <| greenDnsRemoved := false |> <| greenTopologyChanged := false |>
             <| allGreenHostsChangedName := false |> <| postStatusEndTime := zero_time |> <| lastContextHash := 0 |>
             <| interimStatusHashes := (0, 0) |> <| interimStatuses := (zeroInterim, zeroInterim) |>
             <| latestStatusPhase := NOT_CREATED |> <| summaryStatus := zeroStatus |> <| phaseTimeNano := ∅ |>
             <| hostIpAddresses := ∅ |> <| correspondingHosts := ∅ |> <| roleByHost := ∅ |>
             <| iamHostSuccessfulConnects := ∅ |> <| greenHostChangeNameTimes := ∅ |> in
  if negb (rollback b) then b <| monitors := ((monitors b).1, stop_monitor <$> (monitors b).2) |> else b.
Definition ResetContextWhenCompleted (b : BlueGreenStatusProvider) : BlueGreenStatusProvider :=
  if switchover_completed b && has_active_switchover_phase b then reset_context b else b.

(** The report is stored and its addresses and host names are added. *)
Definition store_interim (role : BlueGreenRole) (interimStatus : BlueGreenInterimStatus) (statusHash contextHash : Z)
  (b : BlueGreenStatusProvider) : BlueGreenStatusProvider :=
  let b := b <| interimStatuses := set_at_role role interimStatus (interimStatuses b) |>
             <| interimStatusHashes := set_at_role role statusHash (interimStatusHashes b) |>
             <| lastContextHash := contextHash |> in
  let b := b <| hostIpAddresses := foldl (fun m e => <[e.1 := e.2]> m) (hostIpAddresses b)
                                     (range 30 (startIpAddressesByHostMap interimStatus)) |> in
  b <| roleByHost := foldl (fun m h => <[h := role]> m) (roleByHost b) (range 31 (hostNames interimStatus)).*1 |>.

Definition after_summary (b : BlueGreenStatusProvider) : BlueGreenStatusProvider :=
  match UpdateMonitors b with
  | Some b => ResetContextWhenCompleted (updateStatusCache b)
  | None => b
  end.

Definition PrepareStatus (role : BlueGreenRole) (interimStatus : BlueGreenInterimStatus) (b : BlueGreenStatusProvider) :
  Result BlueGreenStatusProvider :=
  let statusHash := GetCustomHashCode interimStatus in
  let contextHash := getContextHash b in
  if (at_role role (interimStatusHashes b) =? statusHash) && (lastContextHash b =? contextHash) then Ok b
  else
    let b := store_interim role interimStatus statusHash contextHash (UpdatePhase role interimStatus b) in
    let b := updateCorrespondingHosts b in
    (try (b, known) := UpdateSummaryStatus role interimStatus b in
     Ok (if known : bool then after_summary b else b))%go.
End clock.

(** ** Construction *)

Definition GetMonitoringProperties (props : gmap string string) : gmap string string :=
  foldl (fun m e =>
    if HasPrefix e.1 BG_PROPERTY_PREFIX
    then delete e.1 (<[TrimPrefix e.1 BG_PROPERTY_PREFIX := e.2]> m) else m) props (range 32 props).

(** [host] is the current host; the monitors start when the dialect supports
    blue/green deployments. *)
Definition NewBlueGreenStatusProvider (bp : BgProperties) (props : gmap string string) (bgId : string)
  (host : option HostInfo) (blueGreenDialect : bool) : BlueGreenStatusProvider :=
  let intervals : gmap Z Z := <[rate_value BASELINE := BG_INTERVAL_BASELINE_MS bp]>
    (<[rate_value INCREASED := BG_INTERVAL_INCREASED_MS bp]> {[rate_value HIGH := BG_INTERVAL_HIGH_MS bp]}) in
  let monitor role := NewBlueGreenStatusMonitor role bgId host (GetMonitoringProperties props) intervals in
  mkProvider props bgId intervals (Millisecond * BG_SWITCHOVER_TIMEOUT_MS bp) zero_time NOT_CREATED zeroStatus
    (BG_SUSPEND_NEW_BLUE_CONNECTIONS bp) false false false false
    (if blueGreenDialect then (Some (monitor SOURCE), Some (monitor TARGET)) else (None, None))
    ∅ ∅ ∅ ∅ ∅ ∅ (zeroInterim, zeroInterim) (0, 0) 0 false false.
End Provider.

(** ** Lemmas *)

Definition known_phases : list BlueGreenPhase := [NOT_CREATED; CREATED; PREPARATION; IN_PROGRESS; POST; COMPLETED].

Section lemmas.
Context `{MapRange}.

Lemma UpdatePhase_latest role s b :
  latestStatusPhase (UpdatePhase role s b) = latestStatusPhase b \/
  (latestStatusPhase (UpdatePhase role s b) = i_phase s /\ phase_IsZero (i_phase s) = false /\
   if rollback (UpdatePhase role s b) then phase_no (i_phase s) < phase_no (latestStatusPhase b)
   else phase_no (latestStatusPhase b) <= phase_no (i_phase s)).
Proof.
  unfold UpdatePhase. destruct (interim_IsZero s || phase_IsZero (i_phase s)) eqn:E; [by left|]. to_prop.
  set (p := if negb _ then i_phase _ else NOT_CREATED). clearbody p. simpl.
  destruct (negb (phase_IsZero p) && _); simpl.
  - case_match eqn:E2; simpl; [right; to_prop; done|by left].
  - destruct (rollback b) eqn:Er; case_match eqn:E2; simpl; rewrite ?Er; try (by left); right; to_prop; done.
Qed.

Lemma UpdatePhase_rollback role s b : rollback b = true -> rollback (UpdatePhase role s b) = true.
Proof.
  intros Hr. unfold UpdatePhase. destruct (interim_IsZero s || phase_IsZero (i_phase s)); [done|].
  set (p := if negb _ then i_phase _ else NOT_CREATED). clearbody p. simpl.
  destruct (negb (phase_IsZero p) && _); simpl; rewrite ?Hr; by case_match.
Qed.

(** When the timer has expired it stays expired for later readings. *)
Lemma expired_mono b t t' : t <= t' -> IsSwitchoverTimerExpired t b = true -> IsSwitchoverTimerExpired t' b = true.
Proof. unfold IsSwitchoverTimerExpired. intros Ht. rewrite !andb_true_iff, !Z.ltb_lt. intros [? ?]. split; [done|lia]. Qed.

Section clock.
Context (now : nat -> Z).
Hypothesis Hnow : forall i j, (i <= j)%nat -> now i <= now j.

Lemma completed_expired fuel i b :
  IsSwitchoverTimerExpired (now i) b = true ->
  status_of now (S fuel) CompletedStatus i b =
    Ok (if rollback b then GetStatusOfCreated b else NewBgStatus (bgdId b) COMPLETED (Some []) (Some []) SharedMap SharedMap).
Proof. intros He. cbn [status_of]. rewrite He. by destruct (rollback b). Qed.

(** What the two statuses are, without the recursion. *)
Definition post_result (i : nat) (b : BlueGreenStatusProvider) : Result BlueGreenStatus :=
  if IsSwitchoverTimerExpired (now i) b then
    Ok (if rollback b then GetStatusOfCreated b else NewBgStatus (bgdId b) COMPLETED (Some []) (Some []) SharedMap SharedMap)
  else (try routings := CreatePostRouting b in Ok (NewBgStatus (bgdId b) POST routings (Some []) SharedMap SharedMap))%go.
Definition completed_result (i : nat) (b : BlueGreenStatusProvider) : Result BlueGreenStatus :=
  if IsSwitchoverTimerExpired (now i) b then post_result i b
  else if negb (blueDnsUpdateCompleted b) || negb (greenDnsRemoved b) then post_result (S i) b
  else Ok (NewBgStatus (bgdId b) COMPLETED (Some []) (Some []) SharedMap FreshMap).

Lemma status_of_post fuel i b : status_of now (S (S fuel)) PostStatus i b = post_result i b.
Proof.
  cbn [status_of]. unfold post_result. destruct (IsSwitchoverTimerExpired (now i) b) eqn:E; [|done].
  rewrite (expired_mono b (now i) (now (S i))); [by destruct (rollback b)|apply Hnow; lia|done].
Qed.

Lemma status_of_completed fuel i b : status_of now (S (S (S fuel))) CompletedStatus i b = completed_result i b.
Proof.
  unfold completed_result. destruct (IsSwitchoverTimerExpired (now i) b) eqn:E.
  - rewrite completed_expired by done. unfold post_result. by rewrite E.
  - rewrite <-(status_of_post fuel (S i)). cbn [status_of]. rewrite E. done.
Qed.

End clock.

Section facts.
Context (now : nat -> Z).

(** What every status the provider builds satisfies. *)
Definition settled (b : BlueGreenStatusProvider) : Prop :=
  (blueDnsUpdateCompleted b = true /\ greenDnsRemoved b = true) \/
  (rollback b = false /\ exists j, IsSwitchoverTimerExpired (now j) b = true).
Definition status_facts (b : BlueGreenStatusProvider) (st : BlueGreenStatus) : Prop :=
  bgId st = bgdId b /\ currentPhase st ∈ known_phases /\ (currentPhase st = COMPLETED -> settled b).

Lemma known_facts b p cs es r c : p ∈ known_phases -> p <> COMPLETED -> status_facts b (NewBgStatus (bgdId b) p cs es r c).
Proof. by intros. Qed.

Ltac other_phase := apply known_facts; [vm_compute; set_solver|done].

Lemma status_of_facts fuel which i b st : status_of now fuel which i b = Ok st -> status_facts b st.
Proof.
  revert which i. induction fuel as [|fuel IH]; intros which i; [done|]. cbn [status_of].
  destruct (IsSwitchoverTimerExpired (now i) b) eqn:E.
  - destruct (rollback b) eqn:Er.
    + destruct which; intros [= <-]; other_phase.
    + destruct which; [apply IH|]. intros [= <-]. split_and!; [done|vm_compute; set_solver|].
      intros _. right. eauto.
  - destruct which.
    + destruct (CreatePostRouting b); simpl; [intros [= <-]; other_phase|done..].
    + destruct (negb (blueDnsUpdateCompleted b) || negb (greenDnsRemoved b)) eqn:Ed; [apply IH|].
      intros [= <-]. split_and!; [done|vm_compute; set_solver|]. intros _. left. to_prop. done.
Qed.

Lemma GetStatusOfPreparation_facts i b st : GetStatusOfPreparation now i b = Ok st -> status_facts b st.
Proof.
  unfold GetStatusOfPreparation. destruct (IsSwitchoverTimerExpired (now i) b).
  - destruct (rollback b) eqn:Er; [intros [= <-]; other_phase|]. apply status_of_facts.
  - destruct (AddSubstituteBlueWithIpAddressConnectRouting b); simpl; [intros [= <-]; other_phase|done..].
Qed.

Lemma GetStatusOfInProgress_facts i b st : GetStatusOfInProgress now i b = Ok st -> status_facts b st.
Proof.
  unfold GetStatusOfInProgress. destruct (IsSwitchoverTimerExpired (now i) b).
  - destruct (rollback b) eqn:Er; [intros [= <-]; other_phase|]. apply status_of_facts.
  - destruct (if suspendNewBlueConnectionsWhenInProgress b then _ else _); simpl; [intros [= <-]; other_phase|done..].
Qed.
End facts.
End lemmas.

(** ** Loops *)

Section loops.
Context `{MapRange}.

Lemma append_each_ok {A B} (f : A -> Result (list B)) l :
  (forall x, x ∈ l -> exists y, f x = Ok y) -> exists ys, append_each f l = Ok ys.
Proof.
  induction l as [|x l IH]; intros Hf; [by exists []|]. cbn [append_each].
  destruct (Hf x) as [y Hy]; [set_solver|]. rewrite Hy. simpl.
  destruct IH as [ys Hys]; [intros; apply Hf; set_solver|]. rewrite Hys. by eexists.
Qed.

Lemma elem_of_append_each {A B} (f : A -> Result (list B)) l ys z :
  append_each f l = Ok ys -> z ∈ ys -> exists x y, x ∈ l /\ f x = Ok y /\ z ∈ y.
Proof.
  revert ys. induction l as [|x l IH]; intros ys; cbn [append_each]; [intros [= <-]; by intros ?%elem_of_nil|].
  destruct (f x) as [y| |] eqn:E; simpl; [|done..]. destruct (append_each f l) as [ys'| |]; simpl; [|done..].
  intros [= <-] [Hz|Hz]%elem_of_app.
  - exists x, y. set_solver.
  - destruct (IH ys' eq_refl Hz) as (x' & y' & ? & ? & ?). exists x', y'. set_solver.
Qed.

Lemma FilterSetFindFirst_key {A} site (m : gmap string A) f :
  FilterSetFindFirst site m f <> "" -> f (FilterSetFindFirst site m f) = true /\ is_Some (m !! FilterSetFindFirst site m f).
Proof.
  unfold FilterSetFindFirst. destruct (FilterSliceFindFirst_spec "" f (range site m).*1) as [[Hz _]|[Hf Hin]]; [done|].
  intros _. split; [done|]. apply list_elem_of_fmap in Hin as ([k x] & -> & Hin). apply elem_of_range in Hin. eauto.
Qed.

Lemma FilterSetFindFirst_eq {A} site (m : gmap string A) host :
  host <> "" -> FilterSetFindFirst site m (fun s => bool_decide (s = host)) <> "" <-> is_Some (m !! host).
Proof.
  intros Hne. split.
  - intros [Hf Hs]%FilterSetFindFirst_key. apply bool_decide_eq_true in Hf. by rewrite Hf in Hs.
  - intros [x Hx]. unfold FilterSetFindFirst.
    destruct (FilterSliceFindFirst_spec "" (fun s => bool_decide (s = host)) (range site m).*1) as [[_ Hall]|[Hf _]].
    + rewrite Forall_forall in Hall. specialize (Hall host). rewrite bool_decide_eq_false in Hall. exfalso. apply Hall; [|done].
      apply list_elem_of_fmap. exists (host, x). by rewrite elem_of_range.
    + apply bool_decide_eq_true in Hf. by rewrite Hf.
Qed.

Lemma foldl_insert_Forall {A K V} `{Countable K} (P : V -> Prop) (f : A -> gmap K V -> gmap K V) l m :
  (forall x m, x ∈ l -> map_Forall (fun _ => P) m -> map_Forall (fun _ => P) (f x m)) ->
  map_Forall (fun _ => P) m -> map_Forall (fun _ => P) (foldl (fun m x => f x m) m l).
Proof.
  revert m. induction l as [|x l IH]; intros m Hf Hm; simpl; [done|].
  apply IH; [intros; apply Hf; set_solver|apply Hf; set_solver].
Qed.

Lemma foldl_insert_notin {A V} (k : A -> string) (v : A -> V) l (m : gmap string V) key :
  key ∉ k <$> l -> foldl (fun m x => <[k x := v x]> m) m l !! key = m !! key.
Proof.
  revert m. induction l as [|x l IH]; intros m; [done|]. rewrite fmap_cons. intros Hk. cbn [foldl].
  rewrite IH by set_solver. apply lookup_insert_ne. set_solver.
Qed.

Lemma foldl_insert_lookup {A V} (k : A -> string) (v : A -> V) l (m : gmap string V) i x :
  NoDup (k <$> l) -> l !! i = Some x -> foldl (fun m x => <[k x := v x]> m) m l !! k x = Some (v x).
Proof.
  revert m i. induction l as [|y l IH]; intros m i; [done|]. rewrite fmap_cons, NoDup_cons. intros [Hn Hd].
  cbn [foldl].  destruct i as [|i]; simpl; [intros [= ->]; rewrite foldl_insert_notin by done; apply lookup_insert_eq|by apply IH].
Qed.
End loops.

(** ** Hosts of the corresponding hosts *)

(** A name that can be looked up after the green part is removed. *)
Definition name_ok (host : string) : Prop := host <> "" /\ RemoveGreenInstancePrefix host <> "".
Definition interim_ok (s : BlueGreenInterimStatus) : Prop :=
  Forall (fun h => name_ok (Host h)) (startTopology s) /\ map_Forall (fun n _ => name_ok n) (hostNames s).
Definition pair_ok (p : HostPair) : Prop :=
  is_Some p.1 /\ forall green, p.2 = Some green -> name_ok (Host green).
Definition provider_ok (b : BlueGreenStatusProvider) : Prop :=
  interim_ok (interimStatuses b).1 /\ interim_ok (interimStatuses b).2.
Definition pairs_ok (m : gmap string HostPair) : Prop := map_Forall (fun _ => pair_ok) m.

Section corresponding.
Context `{MapRange}.

Lemma host_named_Some host : host <> "" -> exists h, host_named host = Some h /\ Host h = host.
Proof.
  intros Hne. unfold host_named, BuildOrNil.
  destruct (Build_nonempty (SetHost host NewHostInfoBuilder) Hne) as [h Hh]. rewrite Hh.
  apply Build_Ok in Hh. naive_solver.
Qed.

Lemma named_pair_ok blue green : blue <> "" -> name_ok green -> pair_ok (host_named blue, host_named green).
Proof.
  intros Hb [Hg Hg']. destruct (host_named_Some blue Hb) as (h & E & _).
  destruct (host_named_Some green Hg) as (g & E' & Hn). split; simpl; [by rewrite E|].
  rewrite E'. intros ? [= <-]. by rewrite Hn.
Qed.

Lemma put_pair_ok k p m : pair_ok p -> pairs_ok m -> pairs_ok (put_pair_if_absent k p m).
Proof. intros Hp Hm. unfold put_pair_if_absent. destruct (m !! k); [done|]. by apply map_Forall_insert_2. Qed.

Lemma map_cluster_hosts_ok site f blue green m :
  map_Forall (fun n _ => name_ok n) green -> pairs_ok m -> pairs_ok (map_cluster_hosts site f blue green m).
Proof.
  intros Hg Hm. unfold map_cluster_hosts. destruct (negb _ && negb _) eqn:E; [|done]. to_prop.
  apply put_pair_ok; [|done]. apply is_empty_false in H0, H1. apply named_pair_ok; [done|].
  apply FilterSetFindFirst_key in H1 as [_ [x Hx]]. by apply (Hg _ x).
Qed.

Lemma map_custom_host_ok host green m :
  name_ok host -> map_Forall (fun n _ => name_ok n) green -> pairs_ok m -> pairs_ok (map_custom_host host green m).
Proof.
  intros [Hh _] Hg Hm. unfold map_custom_host. destruct (IsRdsCustomClusterDns host); [|done].
  destruct (negb _); [|done]. destruct (list_find _ _) as [[i g]|] eqn:E; [|done].
  apply put_pair_ok; [|done]. apply named_pair_ok; [done|].
  apply list_find_Some in E as (Hi & _ & _). apply list_elem_of_lookup_2, list_elem_of_fmap in Hi as ([n x] & -> & Hin).
  apply elem_of_range in Hin. by apply (Hg _ x).
Qed.

Lemma map_host_names_ok blue green m :
  map_Forall (fun n _ => name_ok n) blue -> map_Forall (fun n _ => name_ok n) green -> pairs_ok m ->
  pairs_ok (map_host_names blue green m).
Proof.
  intros Hb Hg Hm. unfold map_host_names.
  apply (foldl_insert_Forall pair_ok (fun host m => map_custom_host host green m)).
  - intros host m' Hin Hm'. apply map_custom_host_ok; [|done|done].
    apply list_elem_of_fmap in Hin as ([n x] & -> & Hin). apply elem_of_range in Hin. by apply (Hb _ x).
  - by repeat apply map_cluster_hosts_ok.
Qed.

Lemma map_readers_ok blue green w m :
  (forall g, g ∈ green -> name_ok (Host g)) -> (forall g, w = Some g -> name_ok (Host g)) -> pairs_ok m ->
  pairs_ok (map_readers blue green w m).
Proof.
  intros Hg Hw Hm. unfold map_readers. destruct (Nat.ltb _ _).
  - apply (foldl_insert_Forall pair_ok (fun e m => <[Host e.2 := (Some e.2, green !! (e.1 mod length green)%nat)]> m)); [|done].
    intros e m' _ Hm'. apply map_Forall_insert_2; [|done]. split; simpl; [done|].
    intros g Hl. by apply Hg, (list_elem_of_lookup_2 _ _ _ Hl).
  - apply (foldl_insert_Forall pair_ok (fun h m => <[Host h := (Some h, w)]> m)); [|done].
    intros h m' _ Hm'. apply map_Forall_insert_2; [|done]. by split.
Qed.

Lemma reader_ok role b g : interim_ok (at_role role (interimStatuses b)) -> g ∈ GetReaderHosts role b -> name_ok (Host g).
Proof.
  intros [Ht _]. unfold GetReaderHosts. destruct (interim_IsZero _); [by intros ?%elem_of_nil|].
  intros [Hin _]%elem_of_GetReaders. rewrite Forall_forall in Ht. apply list_elem_of_fmap in Hin as (? & [= ->] & ?). auto.
Qed.

Lemma writer_ok role b g : interim_ok (at_role role (interimStatuses b)) -> GetWriterHost role b = Some g -> name_ok (Host g).
Proof.
  intros [Ht _]. unfold GetWriterHost. destruct (interim_IsZero _); [done|].
  intros [Hin _]%GetWriter_Some. rewrite Forall_forall in Ht. apply list_elem_of_fmap in Hin as (? & [= ->] & ?). auto.
Qed.

Lemma updateCorrespondingHosts_ok b : provider_ok b -> pairs_ok (correspondingHosts (updateCorrespondingHosts b)).
Proof.
  intros [Hs Ht]. unfold updateCorrespondingHosts. simpl.
  set (m1 := if _ && _ then map_topologies b ∅ else ∅). assert (pairs_ok m1) as Hm1.
  { unfold m1. destruct (_ && _); [|apply map_Forall_empty]. unfold map_topologies.
    set (m0 := if negb _ then _ else _). assert (pairs_ok m0) as Hm0.
    { unfold m0. destruct (IsNil (GetWriterHost SOURCE b)) eqn:E; simpl; [apply map_Forall_empty|].
      apply map_Forall_insert_2; [|apply map_Forall_empty]. split; simpl; [revert E; by destruct (GetWriterHost SOURCE b)|].
      intros g. apply writer_ok, Ht. }
    destruct (Nat.ltb _ _); [|done]. apply map_readers_ok; [|by intros g; apply writer_ok|done].
    intros g. apply reader_ok, Ht. }
  match goal with |- context [if ?c then _ else m1] => destruct c end; [|done].
  apply map_host_names_ok; [apply Hs|apply Ht|done].
Qed.
End corresponding.

(** ** Totality of one report *)

Section total.
Context `{MapRange}.

Lemma with_role_pair b host p : pairs_ok (correspondingHosts b) -> correspondingHosts b !! host = Some p -> pair_ok p.
Proof. intros Hp Hl. exact (Hp _ _ Hl). Qed.

Lemma AddSubstitute_ok b :
  pairs_ok (correspondingHosts b) -> exists l, AddSubstituteBlueWithIpAddressConnectRouting b = Ok l.
Proof.
  intros Hp. apply append_each_ok. intros [host role] _.
  destruct (correspondingHosts b !! host) as [p|] eqn:E; [|eauto].
  destruct (with_role_pair b host p Hp E) as [[h Hh] _]. rewrite Hh. destruct (negb _); eauto.
Qed.

Lemma post_routing_ok b e : pairs_ok (correspondingHosts b) -> exists l, post_routing e b = Ok l.
Proof.
  intros Hp. destruct e as [host role]. unfold post_routing. destruct (negb _); [eauto|].
  destruct (correspondingHosts b !! host) as [p|] eqn:E; simpl; [|eauto].
  destruct (with_role_pair b host p Hp E) as [_ Hg].
  destruct p.2 as [g|]; [|eauto]. case_match; [eauto|].
  destruct (Hg g eq_refl) as [_ Hn]. unfold BuildOrNil.
  match goal with |- context [Build ?x] => destruct (Build_nonempty x Hn) as [h ->] end. eauto.
Qed.

Lemma CreatePostRouting_ok b : pairs_ok (correspondingHosts b) -> exists l, CreatePostRouting b = Ok l.
Proof.
  intros Hp. unfold CreatePostRouting. destruct (_ && _); [eauto|].
  destruct (append_each_ok (fun e => post_routing e b) (range 26 (roleByHost b))) as [l Hl].
  { intros e _. by apply post_routing_ok. }
  rewrite Hl. simpl. eauto.
Qed.

(** The flags are the only fields [UpdateDnsFlags] and the timer change. *)
Definition same_hosts (b b' : BlueGreenStatusProvider) : Prop :=
  correspondingHosts b' = correspondingHosts b /\ roleByHost b' = roleByHost b.

Lemma PutIfAbsentPhaseTime_hosts t k p b : same_hosts b (PutIfAbsentPhaseTime t k p b).
Proof. unfold PutIfAbsentPhaseTime. by destruct (phaseTimeNano b !! _). Qed.

Lemma UpdateDnsFlags_hosts now role s b : correspondingHosts (UpdateDnsFlags now role s b) = correspondingHosts b.
Proof.
  unfold UpdateDnsFlags, StoreBlueDnsUpdateTime, StoreGreenDnsRemoveTime, StoreGreenTopologyChangeTime.
  repeat match goal with |- context [if ?c then _ else _] => destruct c end;
    rewrite ?(proj1 (PutIfAbsentPhaseTime_hosts _ _ _ _)); simpl;
    rewrite ?(proj1 (PutIfAbsentPhaseTime_hosts _ _ _ _)); simpl;
    rewrite ?(proj1 (PutIfAbsentPhaseTime_hosts _ _ _ _)); done.
Qed.

Section monotone.
Context (now : nat -> Z).
Hypothesis Hnow : forall i j, (i <= j)%nat -> now i <= now j.

Lemma post_result_ok i b : pairs_ok (correspondingHosts b) -> exists st, post_result now i b = Ok st.
Proof.
  intros Hp. unfold post_result. destruct (IsSwitchoverTimerExpired _ _); [eauto|].
  destruct (CreatePostRouting_ok b Hp) as [l Hl]. rewrite Hl. simpl. eauto.
Qed.

Lemma completed_result_ok i b : pairs_ok (correspondingHosts b) -> exists st, completed_result now i b = Ok st.
Proof.
  intros Hp. unfold completed_result. destruct (IsSwitchoverTimerExpired _ _); [by apply post_result_ok|].
  destruct (_ || _); [by apply post_result_ok|eauto].
Qed.

Lemma GetStatusOfPreparation_ok i b :
  pairs_ok (correspondingHosts b) -> exists st, GetStatusOfPreparation now i b = Ok st.
Proof.
  intros Hp. unfold GetStatusOfPreparation, GetStatusOfCompleted. destruct (IsSwitchoverTimerExpired _ _).
  - destruct (rollback b); [eauto|]. rewrite status_of_completed by done. by apply completed_result_ok.
  - destruct (AddSubstitute_ok b Hp) as [l Hl]. rewrite Hl. simpl. eauto.
Qed.

Lemma GetStatusOfInProgress_ok i b :
  pairs_ok (correspondingHosts b) -> exists st, GetStatusOfInProgress now i b = Ok st.
Proof.
  intros Hp. unfold GetStatusOfInProgress, GetStatusOfCompleted. destruct (IsSwitchoverTimerExpired _ _).
  - destruct (rollback b); [eauto|]. rewrite status_of_completed by done. by apply completed_result_ok.
  - destruct (suspendNewBlueConnectionsWhenInProgress b); simpl; [eauto|].
    destruct (AddSubstitute_ok b Hp) as [l Hl]. rewrite Hl. simpl. eauto.
Qed.

Lemma UpdateSummaryStatus_ok role s b :
  pairs_ok (correspondingHosts b) -> exists r, UpdateSummaryStatus now role s b = Ok r.
Proof.
  intros Hp. unfold UpdateSummaryStatus.
  assert (Hf : forall b', correspondingHosts b' = correspondingHosts b -> pairs_ok (correspondingHosts (UpdateDnsFlags now role s b'))).
  { intros b' Hb. by rewrite UpdateDnsFlags_hosts, Hb. }
  repeat case_bool_decide; simpl; eauto.
  - destruct (GetStatusOfPreparation_ok 4 (UpdateDnsFlags now role s (StartSwitchoverTimer (now 0%nat) b))) as [st Hst].
    { apply Hf. unfold StartSwitchoverTimer. by case_match. }
    rewrite Hst. simpl. eauto.
  - destruct (GetStatusOfInProgress_ok 4 (UpdateDnsFlags now role s b)) as [st Hst]; [by apply Hf|]. rewrite Hst. simpl. eauto.
  - unfold GetStatusOfPost. rewrite status_of_post by done.
    destruct (post_result_ok 4 (UpdateDnsFlags now role s b)) as [st Hst]; [by apply Hf|]. rewrite Hst. simpl. eauto.
  - unfold GetStatusOfCompleted. rewrite status_of_completed by done.
    destruct (completed_result_ok 4 (UpdateDnsFlags now role s b)) as [st Hst]; [by apply Hf|]. rewrite Hst. simpl. eauto.
Qed.
End monotone.

Lemma UpdatePhase_interims role s b : interimStatuses (UpdatePhase role s b) = interimStatuses b.
Proof.
  unfold UpdatePhase. destruct (_ || _); [done|].
  set (p := if negb _ then i_phase _ else NOT_CREATED). clearbody p. simpl.
  destruct (negb (phase_IsZero p) && _); simpl; [by case_match|]. destruct (rollback b); by case_match.
Qed.

(** C29. With a clock that does not go back, and non-empty names in the
    reported topologies, a report is always processed: the mutual recursion
    of the POST and COMPLETED statuses ends, and no nil host is dereferenced
    on any phase. *)
Theorem PrepareStatus_total now role s b :
  (forall i j, (i <= j)%nat -> now i <= now j) -> interim_ok s -> provider_ok b ->
  exists b', PrepareStatus now role s b = Ok b'.
Proof.
  intros Hnow Hs [H1 H2]. unfold PrepareStatus. destruct (_ && _); [eauto|].
  set (b1 := store_interim _ _ _ _ _). assert (Hp : pairs_ok (correspondingHosts (updateCorrespondingHosts b1))).
  { apply updateCorrespondingHosts_ok. unfold b1, store_interim, provider_ok, set_at_role. simpl.
    rewrite UpdatePhase_interims. by case_match. }
  destruct (UpdateSummaryStatus_ok now Hnow role s _ Hp) as [[b2 known] ->]. simpl. eauto.
Qed.
End total.

(** A report of a two-host topology, for the witnesses. *)
Definition sample_host (name role : string) : HostInfo :=
  mkHostInfo name name 5432 AVAILABLE role (Some ∅) (Some ∅) 100 0.
Definition sample_interim (phase : BlueGreenPhase) (suffix : string) : BlueGreenInterimStatus :=
  let h n := n +:+ suffix +:+ ".xyz.us-east-2.rds.amazonaws.com" in
  mkInterim phase "1.0" 5432 [sample_host (h "a") WRITER; sample_host (h "b") READER] []
    {[h "a" := "10.0.0.1"]} {[h "a" := "10.0.0.1"]} {[h "a" := true; h "b" := true]} false false false.
Definition sample_props : BgProperties := mkBgProps 60000 1000 100 180000 false.
Definition sample_provider : BlueGreenStatusProvider :=
  NewBlueGreenStatusProvider sample_props ∅ "bg" (Some (sample_host "a.xyz.us-east-2.rds.amazonaws.com" WRITER)) true.

Lemma PrepareStatus_total_witness :
  exists b', PrepareStatus (fun i => 5 + Z.of_nat i) SOURCE (sample_interim PREPARATION "") sample_provider = Ok b'.
Proof.
  apply PrepareStatus_total; [lia| |].
  - assert (Ha : name_ok "a.xyz.us-east-2.rds.amazonaws.com") by (split; [discriminate|by vm_compute]).
    assert (Hb : name_ok "b.xyz.us-east-2.rds.amazonaws.com") by (split; [discriminate|by vm_compute]).
    split; [by constructor; [|constructor; [|constructor]]|].
    apply map_Forall_insert_2; [exact Ha|]. apply map_Forall_singleton. exact Hb.
  - split; (split; [constructor|apply map_Forall_empty]).
Defined.

(** ** Reachable states *)

Section reachable.
Context `{MapRange}.

(** Reports of the two monitors, notifications of the routings, and changes of
    the monitors by their own loops. *)
Inductive bg_step (b : BlueGreenStatusProvider) : BlueGreenStatusProvider -> Prop :=
| step_report now role s b' :
    i_phase s ∈ zeroPhase :: known_phases -> PrepareStatus now role s b = Ok b' -> bg_step b b'
| step_iam now connectHost iamHost : bg_step b (RegisterIamHost now connectHost iamHost b)
| step_monitors ms : bg_step b (b <| monitors := ms |>)
| step_clear : bg_step b (ClearMonitors b).

(** The time of the phase COMPLETED is stored with that phase. *)
Definition times_ok (b : BlueGreenStatusProvider) : Prop :=
  forall p, phaseTimeNano b !! "COMPLETED" = Some p -> pt_Phase p = COMPLETED.

Record provider_inv (b : BlueGreenStatusProvider) : Prop := {
  inv_latest : latestStatusPhase b ∈ known_phases;
  inv_summary : summaryStatus b = zeroStatus \/
                (bgId (summaryStatus b) = bgdId b /\ currentPhase (summaryStatus b) ∈ known_phases);
  inv_completed : currentPhase (summaryStatus b) = COMPLETED -> rollback b = true;
  inv_times : times_ok b
}.

(** The fields the invariant reads. *)
Definition same_status (b b' : BlueGreenStatusProvider) : Prop :=
  latestStatusPhase b' = latestStatusPhase b /\ summaryStatus b' = summaryStatus b /\ bgdId b' = bgdId b /\
  rollback b' = rollback b /\ (times_ok b -> times_ok b').

Lemma same_status_inv b b' : same_status b b' -> provider_inv b -> provider_inv b'.
Proof. intros (E1 & E2 & E3 & E4 & Ht) [H1 H2 H3 H4]. split; rewrite ?E1, ?E2, ?E3, ?E4; auto. Qed.

#[export] Instance same_status_po : PreOrder same_status.
Proof.
  split; [by intros ?; unfold same_status|]. intros b1 b2 b3 (? & ? & ? & ? & ?) (? & ? & ? & ? & ?).
  unfold same_status. split_and!; [by etrans..|auto].
Qed.

Lemma PutIfAbsentPhaseTime_same t k p b :
  (k = "COMPLETED" -> p = COMPLETED) -> k +:+ " (rollback)" <> "COMPLETED" ->
  same_status b (PutIfAbsentPhaseTime t k p b).
Proof.
  intros Hk Hr. unfold PutIfAbsentPhaseTime. destruct (phaseTimeNano b !! _) eqn:E; [done|].
  split_and!; try done. intros Ht q. simpl. intros [[Heq <-]|[_ Hq]]%lookup_insert_Some; [|by apply Ht].
  destruct (rollback b); [done|]. by apply Hk.
Qed.

Lemma if_same (f : BlueGreenStatusProvider -> BlueGreenStatusProvider) (c : BlueGreenStatusProvider -> bool) b b1 :
  (forall x, same_status x (f x)) -> same_status b b1 -> same_status b (if c b1 then f b1 else b1).
Proof. intros Hf Hb. etrans; [exact Hb|]. by destruct (c b1). Qed.

Lemma UpdateDnsFlags_same now role s b : same_status b (UpdateDnsFlags now role s b).
Proof.
  unfold UpdateDnsFlags, StoreBlueDnsUpdateTime, StoreGreenDnsRemoveTime, StoreGreenTopologyChangeTime. cbv zeta.
  repeat match goal with
  | |- same_status ?b (if _ && negb (greenTopologyChanged ?x) && _ then _ else _) =>
      apply (if_same (fun b => PutIfAbsentPhaseTime _ _ _ (b <| greenTopologyChanged := true |>))
               (fun b => _ && negb (greenTopologyChanged b) && _))
  | |- same_status ?b (if _ && negb (greenDnsRemoved ?x) && _ then _ else _) =>
      apply (if_same (fun b => PutIfAbsentPhaseTime _ _ _ (b <| greenDnsRemoved := true |>))
               (fun b => _ && negb (greenDnsRemoved b) && _))
  | |- same_status ?b (if _ && negb (blueDnsUpdateCompleted ?x) && _ then _ else _) =>
      apply (if_same (fun b => PutIfAbsentPhaseTime _ _ _ (b <| blueDnsUpdateCompleted := true |>))
               (fun b => _ && negb (blueDnsUpdateCompleted b) && _))
  end; try done; intros x; (etrans; [|by apply PutIfAbsentPhaseTime_same]); done.
Qed.

Lemma RegisterIamHost_same now c i b : same_status b (RegisterIamHost now c i b).
Proof.
  unfold RegisterIamHost. set (d := negb (is_empty c) && _). clearbody d.
  set (b1 := if d && negb (IsAlreadySuccessfullyConnected c i b) then _ else b). assert (same_status b b1) as H1 by (unfold b1; by case_match).
  clearbody b1. etrans; [exact H1|]. destruct d; [|done]. case_match; [|done].
  etrans; [|by apply PutIfAbsentPhaseTime_same]. done.
Qed.

Lemma UpdateMonitors_same b b' : UpdateMonitors b = Some b' -> same_status b b'.
Proof.
  unfold UpdateMonitors. repeat case_bool_decide; try (by intros [= <-]).
  intros [= <-]. by case_match.
Qed.

Lemma UpdatePhase_known role s b :
  i_phase s ∈ zeroPhase :: known_phases -> latestStatusPhase b ∈ known_phases ->
  latestStatusPhase (UpdatePhase role s b) ∈ known_phases.
Proof.
  intros Hs Hb. destruct (UpdatePhase_latest role s b) as [->|(-> & Hz & _)]; [done|].
  apply elem_of_cons in Hs as [Hs|Hs]; [|done]. by rewrite Hs in Hz.
Qed.

Lemma store_interim_fields role s h c b :
  same_status b (store_interim role s h c b).
Proof. done. Qed.

Lemma FilterMapFindFirstValue_found {A} site (zero : A) (m : gmap string A) f k x :
  m !! k = Some x -> f x = true -> f (FilterMapFindFirstValue site zero m f) = true.
Proof.
  intros Hm Hf. unfold FilterMapFindFirstValue.
  destruct (FilterSliceFindFirst_spec zero f (range site m).*2) as [[_ Hall]|[Ht _]]; [|done].
  rewrite Forall_forall in Hall. rewrite (Hall x) in Hf; [done|].
  apply list_elem_of_fmap. exists (k, x). by rewrite elem_of_range.
Qed.

Lemma set_summary_inv (r : Result BlueGreenStatus) b1 b' k :
  (try s := r in Ok (b1 <| summaryStatus := s |>, true))%go = Ok (b', k) ->
  exists st, r = Ok st /\ k = true /\ b' = b1 <| summaryStatus := st |>.
Proof. destruct r as [st| |]; [|done..]. cbn [mbind Result_bind]. intros E. exists st. by simplify_eq. Qed.

(** A new summary is a status of the state it is stored in, which differs from
    the one the report met in the flags and times only. *)
Lemma UpdateSummaryStatus_facts now role s b b' k :
  latestStatusPhase b ∈ known_phases -> UpdateSummaryStatus now role s b = Ok (b', k) ->
  exists b1 st, k = true /\ b' = b1 <| summaryStatus := st |> /\ status_facts now b1 st /\ same_status b b1.
Proof.
  intros Hk. unfold UpdateSummaryStatus. pose proof (UpdateDnsFlags_same now role s b) as Hd.
  repeat case_bool_decide.
  7: { exfalso. unfold known_phases in Hk. set_solver. }
  all: intros (st & E & -> & ->)%set_summary_inv; eexists _, st; (split; [done|]); (split; [reflexivity|]).
  - injection E as <-. split; [apply known_facts; [vm_compute; set_solver|done]|done].
  - injection E as <-. split; [apply known_facts; [vm_compute; set_solver|done]|done].
  - apply GetStatusOfPreparation_facts in E. split; [exact E|].
    etrans; [|apply UpdateDnsFlags_same]. unfold StartSwitchoverTimer. by case_match.
  - apply GetStatusOfInProgress_facts in E. by split.
  - apply status_of_facts in E. by split.
  - apply status_of_facts in E. by split.
Qed.

Lemma updateStatusCache_active now b :
  currentPhase (summaryStatus b) = COMPLETED -> rollback b = false -> times_ok b ->
  has_active_switchover_phase (updateStatusCache now b) = true.
Proof.
  intros Hc Hr Ht. unfold has_active_switchover_phase. apply negb_true_iff, bool_decide_eq_false. intros Hz.
  set (b' := updateStatusCache now b) in *.
  assert (exists p, phaseTimeNano b' !! "COMPLETED" = Some p /\ pt_Phase p = COMPLETED) as (p & Hp & Hpc).
  { unfold b', updateStatusCache, StorePhaseTime. cbn [summaryStatus update_field]. rewrite Hc.
    cbn [phase_IsZero is_empty COMPLETED phase_name]. unfold PutIfAbsentPhaseTime. cbn [rollback]. rewrite Hr.
    change (phase_name COMPLETED) with "COMPLETED". simpl.
    destruct (phaseTimeNano b !! "COMPLETED") as [q|] eqn:E; simpl.
    - exists q. auto.
    - eexists. by rewrite lookup_insert_eq. }
  pose proof (FilterMapFindFirstValue_found 28 zeroPhaseTime (phaseTimeNano b')
    (fun p => negb (phase_IsZero (pt_Phase p)) && isActiveSwitchoverOrCompleted (pt_Phase p)) _ p Hp) as Hf.
  cbn beta in Hf. rewrite Hz, Hpc in Hf. specialize (Hf eq_refl). discriminate.
Qed.

Lemma updateStatusCache_same now b :
  currentPhase (summaryStatus b) ∈ known_phases -> same_status b (updateStatusCache now b).
Proof.
  intros Hk. unfold updateStatusCache, StorePhaseTime. set (b1 := b <| cached := _ |>).
  change (summaryStatus b1) with (summaryStatus b). transitivity b1; [done|]. case_match; [done|].
  unfold known_phases in Hk. rewrite !elem_of_cons, elem_of_nil in Hk.
  apply PutIfAbsentPhaseTime_same; by destruct Hk as [->|[->|[->|[->|[->|[->|[]]]]]]].
Qed.

Lemma after_summary_inv now b :
  latestStatusPhase b ∈ known_phases -> bgId (summaryStatus b) = bgdId b ->
  currentPhase (summaryStatus b) ∈ known_phases -> times_ok b -> provider_inv (after_summary now b).
Proof.
  intros Hl Hb Hk Ht. unfold after_summary. destruct (UpdateMonitors b) as [b1|] eqn:Em.
  2: { exfalso. unfold UpdateMonitors in Em. repeat case_bool_decide; try done. unfold known_phases in Hk. set_solver. }
  destruct (UpdateMonitors_same b b1 Em) as (E1 & E2 & E3 & E4 & E5). specialize (E5 Ht).
  set (b2 := updateStatusCache now b1).
  assert (same_status b1 b2) as (F1 & F2 & F3 & F4 & F5).
  { apply updateStatusCache_same. by rewrite E2. }
  unfold ResetContextWhenCompleted. destruct (switchover_completed b2 && has_active_switchover_phase b2) eqn:Er.
  - split; [vm_compute; set_solver|by left|done|]. intros p Hp. simpl in Hp. by rewrite lookup_empty in Hp.
  - split; [by rewrite F1, E1|right; by rewrite F2, F3, E2, E3| |by apply F5].
    rewrite F2, F4, E2, E4. intros Hc. destruct (rollback b) eqn:Hr; [done|]. exfalso.
    assert (has_active_switchover_phase b2 = true) as Ha by (apply updateStatusCache_active; by rewrite ?E2, ?E4).
    rewrite Ha in Er.
    unfold switchover_completed in Er. rewrite F4, F2, E4, E2, Hc in Er. discriminate.
Qed.

Lemma PrepareStatus_inv now role s b b' :
  i_phase s ∈ zeroPhase :: known_phases -> PrepareStatus now role s b = Ok b' -> provider_inv b -> provider_inv b'.
Proof.
  intros Hs Hp Hi. unfold PrepareStatus in Hp. destruct (_ && _); [by simplify_eq|]. cbv zeta in Hp.
  set (b1 := updateCorrespondingHosts _) in Hp.
  assert (Hl : latestStatusPhase b1 ∈ known_phases) by (by apply UpdatePhase_known; [|apply inv_latest]).
  assert (Ht : times_ok b1).
  { assert (phaseTimeNano b1 = phaseTimeNano b) as E.
    { unfold b1. simpl. unfold UpdatePhase. destruct (_ || _); [done|].
      set (p := if negb _ then i_phase _ else NOT_CREATED). clearbody p. simpl.
      destruct (negb (phase_IsZero p) && _); simpl; [by case_match|]. destruct (rollback b); by case_match. }
    intros p. rewrite E. by apply inv_times. }
  destruct (UpdateSummaryStatus now role s b1) as [[b2 k]| |] eqn:Eu; simpl in Hp; [|done..].
  apply UpdateSummaryStatus_facts in Eu as (b3 & st & -> & -> & (Hb & Hk & _) & (E1 & _ & E3 & _ & E5)); [|done].
  injection Hp as <-. apply after_summary_inv; simpl; [by rewrite E1|done|done|by apply E5].
Qed.

Lemma bg_step_inv b b' : provider_inv b -> bg_step b b' -> provider_inv b'.
Proof.
  intros Hi Hstep. destruct Hstep as [now role s b' Hs Hp|now c i|ms|].
  - by apply (PrepareStatus_inv now role s b).
  - by apply (same_status_inv b); [apply RegisterIamHost_same|].
  - by apply (same_status_inv b).
  - by apply (same_status_inv b).
Qed.

Lemma initial_inv bp props bgId host d : provider_inv (NewBlueGreenStatusProvider bp props bgId host d).
Proof. split; [vm_compute; set_solver|by left|done|]. intros p Hp. simpl in Hp. by rewrite lookup_empty in Hp. Qed.

(** The phase of the deployment moves forward only, unless a monitor
    reports a phase behind its own last one: that starts a rollback, which
    never ends by itself and only moves the phase back. *)
Theorem UpdatePhase_direction role s b :
  let b' := UpdatePhase role s b in
  (rollback b = true -> rollback b' = true) /\
  (if rollback b' then phase_no (latestStatusPhase b') <= phase_no (latestStatusPhase b)
   else phase_no (latestStatusPhase b) <= phase_no (latestStatusPhase b')).
Proof.
  simpl. split; [apply UpdatePhase_rollback|].
  destruct (UpdatePhase_latest role s b) as [->|(-> & _ & Hle)]; [by case_match|].
  destruct (rollback (UpdatePhase role s b)); lia.
Qed.

(** In every state reached by reports of the monitors, IAM notifications
    and changes of the monitors, the latest phase is one of the six phases
    (so the error branches for an unknown phase are dead), and a reader sees
    the zero status or a status of this deployment; COMPLETED is visible
    only during a rollback, since a completed switchover is reset within the
    same report. *)
Theorem reachable_status bp props bgId host d b :
  rtc bg_step (NewBlueGreenStatusProvider bp props bgId host d) b ->
  latestStatusPhase b ∈ known_phases /\
  (forall st, read_status b = Some st ->
     st = zeroStatus \/
     (BgTypes.bgId st = bgdId b /\ currentPhase st ∈ known_phases /\ (currentPhase st = COMPLETED -> rollback b = true))).
Proof.
  intros Hr. assert (provider_inv b) as [H1 H2 H3 H4].
  { apply (rtc_invariant bg_step provider_inv _ b bg_step_inv Hr), initial_inv. }
  split; [done|]. unfold read_status. destruct (cached b); [|done]. intros st [= <-].
  destruct H2 as [H2|[H2 H2']]; [by left|by right].
Qed.

(** What is shown of a deployment that reports completion. *)
Definition completion_shown (now : nat -> Z) (b : BlueGreenStatusProvider) : BlueGreenPhase :=
  let settled_dns := blueDnsUpdateCompleted b && greenDnsRemoved b in
  if IsSwitchoverTimerExpired (now 4%nat) b || (negb settled_dns && IsSwitchoverTimerExpired (now 5%nat) b)
  then if rollback b then CREATED else COMPLETED
  else if settled_dns then COMPLETED else POST.

Lemma completed_result_phase now i b st :
  completed_result now i b = Ok st ->
  currentPhase st =
  (if IsSwitchoverTimerExpired (now i) b || (negb (blueDnsUpdateCompleted b && greenDnsRemoved b) && IsSwitchoverTimerExpired (now (S i)) b)
   then if rollback b then CREATED else COMPLETED
   else if blueDnsUpdateCompleted b && greenDnsRemoved b then COMPLETED else POST).
Proof.
  unfold completed_result, post_result. destruct (IsSwitchoverTimerExpired (now i) b); [cbn; intros [= <-]; by destruct (rollback b)|].
  destruct (blueDnsUpdateCompleted b), (greenDnsRemoved b); cbn [negb andb orb]; [by intros [= <-]|..];
    (destruct (IsSwitchoverTimerExpired (now (S i)) b); [intros [= <-]; by destruct (rollback b)|]);
    destruct (CreatePostRouting b); cbn; try done; by intros [= <-].
Qed.

(** C4. Whatever phase is reported, the summary becomes COMPLETED only when
    the blue DNS was updated and the green DNS removed, or when the
    switchover timer expired without a rollback. With clock readings that do
    not go back, a deployment that reports completion is shown as COMPLETED
    when both DNS changes are done or the timer expired without a rollback,
    as CREATED when it expired during a rollback, and as POST otherwise; the
    timer is read before the flags, and once more when a DNS change is
    missing. *)
Theorem completed_only_when_settled now role s b b' :
  latestStatusPhase b ∈ known_phases -> UpdateSummaryStatus now role s b = Ok (b', true) ->
  (currentPhase (summaryStatus b') = COMPLETED ->
   (blueDnsUpdateCompleted b' = true /\ greenDnsRemoved b' = true) \/
   (rollback b' = false /\ exists i, IsSwitchoverTimerExpired (now i) b' = true)) /\
  ((forall i j, (i <= j)%nat -> now i <= now j) -> latestStatusPhase b = COMPLETED ->
   currentPhase (summaryStatus b') = completion_shown now b').
Proof.
  intros Hk Hu. split.
  - intros Hc. apply UpdateSummaryStatus_facts in Hu as (b1 & st & _ & -> & (_ & _ & Hs) & _); [|done]. exact (Hs Hc).
  - intros Hnow Hl. unfold UpdateSummaryStatus in Hu. rewrite Hl in Hu. repeat (rewrite bool_decide_false in Hu by done).
    rewrite bool_decide_true in Hu by done. apply set_summary_inv in Hu as (st & E & _ & ->).
    unfold GetStatusOfCompleted in E. rewrite status_of_completed in E by done. by apply completed_result_phase in E.
Qed.
End reachable.

Definition sample_report : Result BlueGreenStatusProvider :=
  PrepareStatus (fun i => 5 + Z.of_nat i) SOURCE (sample_interim PREPARATION "") sample_provider.
Definition sample_after_report : BlueGreenStatusProvider :=
  match sample_report with Ok b => b | _ => sample_provider end.

Lemma reachable_status_witness :
  rtc bg_step sample_provider sample_after_report /\ latestStatusPhase sample_after_report ∈ known_phases.
Proof.
  assert (rtc bg_step sample_provider sample_after_report) as Hr.
  { apply rtc_once, (step_report _ (fun i => 5 + Z.of_nat i) SOURCE (sample_interim PREPARATION "")).
    - apply elem_of_cons. right. vm_compute. right. right. left.
    - vm_compute. reflexivity. }
  split; [exact Hr|].
  exact (proj1 (reachable_status sample_props ∅ "bg" (Some (sample_host "a.xyz.us-east-2.rds.amazonaws.com" WRITER)) true _ Hr)).
Defined.

(** A provider whose deployment reports COMPLETED after both DNS changes. *)
Definition sample_completed : BlueGreenStatusProvider :=
  sample_provider <| latestStatusPhase := COMPLETED |> <| blueDnsUpdateCompleted := true |> <| greenDnsRemoved := true |>.
Definition sample_completed_summary : BlueGreenStatusProvider :=
  sample_completed <| summaryStatus := NewBgStatus "bg" COMPLETED (Some []) (Some []) SharedMap FreshMap |>.

Lemma completed_only_when_settled_witness :
  UpdateSummaryStatus (fun _ => 5) SOURCE zeroInterim sample_completed = Ok (sample_completed_summary, true) /\
  ((blueDnsUpdateCompleted sample_completed_summary = true /\ greenDnsRemoved sample_completed_summary = true) \/
   (rollback sample_completed_summary = false /\ exists i : nat, IsSwitchoverTimerExpired 5 sample_completed_summary = true)).
Proof.
  assert (UpdateSummaryStatus (fun _ => 5) SOURCE zeroInterim sample_completed = Ok (sample_completed_summary, true)) as Hu
    by (vm_compute; reflexivity).
  split; [exact Hu|].
  apply (completed_only_when_settled (fun _ => 5) SOURCE zeroInterim sample_completed); [|exact Hu|reflexivity].
  vm_compute. do 5 right. left.
Defined.

Section mapping.
Context `{MapRange}.

(** [PutIfAbsent] keeps the pairs of the topologies. *)
Lemma put_pair_keeps k p key x m : m !! key = Some x -> put_pair_if_absent k p m !! key = Some x.
Proof.
  intros Hm. unfold put_pair_if_absent. destruct (m !! k) eqn:E; [done|].
  rewrite lookup_insert_ne; [done|]. by intros ->; rewrite Hm in E.
Qed.

Lemma map_cluster_hosts_keeps site f blue green key x m :
  m !! key = Some x -> map_cluster_hosts site f blue green m !! key = Some x.
Proof. intros Hm. unfold map_cluster_hosts. case_match; [by apply put_pair_keeps|done]. Qed.

Lemma map_custom_host_keeps host green key x m : m !! key = Some x -> map_custom_host host green m !! key = Some x.
Proof.
  intros Hm. unfold map_custom_host. destruct (IsRdsCustomClusterDns host); [|done]. destruct (negb _); [|done].
  destruct (list_find _ _) as [[]|]; [by apply put_pair_keeps|done].
Qed.

Lemma map_host_names_keeps blue green key x m : m !! key = Some x -> map_host_names blue green m !! key = Some x.
Proof.
  intros Hm. unfold map_host_names.
  assert (Hk : forall l m, m !! key = Some x ->
            foldl (fun m host => map_custom_host host green m) m l !! key = Some x).
  { induction l as [|y l IH]; intros m' Hm'; simpl; [done|]. by apply IH, map_custom_host_keeps. }
  by apply Hk, map_cluster_hosts_keeps, map_cluster_hosts_keeps.
Qed.

Lemma same_host_same (l : list HostInfo) x y :
  NoDup (Host <$> l) -> x ∈ l -> y ∈ l -> Host x = Host y -> x = y.
Proof.
  intros Hn [i Hi]%list_elem_of_lookup [j Hj]%list_elem_of_lookup E.
  assert (i = j) as ->; [|congruence].
  apply (NoDup_lookup (Host <$> l) i j (Host x)); [done|by rewrite list_lookup_fmap, Hi|].
  by rewrite list_lookup_fmap, Hj, E.
Qed.

Lemma readers_NoDup l : NoDup (Host <$> l) -> NoDup (Host <$> GetReaders (Some <$> l)).
Proof.
  intros Hn. unfold GetReaders. rewrite sort_by_perm.
  induction l as [|x l IH]; [constructor|]. rewrite fmap_cons in Hn. apply NoDup_cons in Hn as [Hx Hn].
  cbn [readers_of fmap list_fmap]. case_bool_decide; [|by apply IH]. cbn [fmap list_fmap]. constructor; [|by apply IH].
  intros (h & Hh & Hin)%list_elem_of_fmap. apply elem_of_readers_of in Hin as [Hin _]. apply Hx.
  apply list_elem_of_fmap in Hin as (? & [= ->] & Hin). rewrite Hh. by apply list_elem_of_fmap_2.
Qed.

Lemma imap_pair_fst_snd (l : list HostInfo) i h : imap pair l !! i = Some (i, h) <-> l !! i = Some h.
Proof. rewrite list_lookup_imap. destruct (l !! i); simpl; naive_solver. Qed.

Lemma imap_hosts (l : list HostInfo) : (fun e : nat * HostInfo => Host e.2) <$> imap pair l = Host <$> l.
Proof. rewrite fmap_imap. apply list_eq. intros i. by rewrite list_lookup_imap, list_lookup_fmap. Qed.

Lemma map_readers_lookup blue green w m i h :
  NoDup (Host <$> blue) -> blue !! i = Some h ->
  map_readers blue green w m !! Host h =
    Some (Some h, if Nat.ltb 0 (length green) then green !! (i mod length green)%nat else w).
Proof.
  intros Hn Hi. unfold map_readers. destruct (Nat.ltb 0 (length green)).
  - apply (foldl_insert_lookup (fun e : nat * HostInfo => Host e.2)
             (fun e => (Some e.2, green !! (e.1 mod length green)%nat)) (imap pair blue) m i (i, h)).
    + by rewrite imap_hosts.
    + by apply imap_pair_fst_snd.
  - by apply (foldl_insert_lookup Host (fun h => (Some h, w)) blue m i h).
Qed.

Lemma map_readers_notin blue green w m key : key ∉ Host <$> blue -> map_readers blue green w m !! key = m !! key.
Proof.
  intros Hk. unfold map_readers. destruct (Nat.ltb 0 (length green)).
  - apply (foldl_insert_notin (fun e : nat * HostInfo => Host e.2)
             (fun e => (Some e.2, green !! (e.1 mod length green)%nat))). by rewrite imap_hosts.
  - by apply (foldl_insert_notin Host (fun h => (Some h, w))).
Qed.

(** With both topologies known, the blue writer corresponds to the
    green writer and the i-th blue reader, in host order, to the green
    reader i modulo their number, or to the green writer when there are
    none; the cluster endpoints added later never replace these pairs. *)
Theorem corresponding_hosts_of_topologies b :
  let source := (interimStatuses b).1 in
  let target := (interimStatuses b).2 in
  let greenReaders := GetReaders (Some <$> startTopology target) in
  let greenWriter := GetWriter (Some <$> startTopology target) in
  let m := correspondingHosts (updateCorrespondingHosts b) in
  interim_IsZero source = false -> interim_IsZero target = false ->
  startTopology source <> [] -> startTopology target <> [] -> NoDup (Host <$> startTopology source) ->
  (forall w, GetWriter (Some <$> startTopology source) = Some w -> IsNil (Some w) = false ->
     m !! Host w = Some (Some w, greenWriter)) /\
  (forall i h, GetReaders (Some <$> startTopology source) !! i = Some h ->
     m !! Host h = Some (Some h, if Nat.ltb 0 (length greenReaders)
                                 then greenReaders !! (i mod length greenReaders)%nat else greenWriter)).
Proof.
  intros source target greenReaders greenWriter m Hs Ht Hns Hnt Hn.
  assert (Hm : forall key x, map_topologies b ∅ !! key = Some x -> m !! key = Some x).
  { intros key x Hk. unfold m, updateCorrespondingHosts. simpl.
    change (at_role SOURCE (interimStatuses b)) with source. change (at_role TARGET (interimStatuses b)) with target.
    destruct (startTopology source); [done|]. destruct (startTopology target); [done|]. simpl.
    destruct (_ && _); [by apply map_host_names_keeps|done]. }
  unfold map_topologies, GetReaderHosts, GetWriterHost in Hm.
  change (at_role SOURCE (interimStatuses b)) with source in Hm.
  change (at_role TARGET (interimStatuses b)) with target in Hm. rewrite Hs, Ht in Hm.
  set (blue := GetReaders (Some <$> startTopology source)) in *.
  split.
  - intros w Hw Hnil. apply Hm. rewrite Hw, Hnil. cbn [negb].
    assert (Hnotin : Host w ∉ Host <$> blue).
    { intros (h & Hh & [Hin Hr]%elem_of_GetReaders)%list_elem_of_fmap. apply GetWriter_Some in Hw as [Hw Hwr].
      apply list_elem_of_fmap in Hin as (? & [= ->] & Hin). apply list_elem_of_fmap in Hw as (? & [= ->] & Hw).
      rewrite (same_host_same _ _ _ Hn Hw Hin Hh) in Hwr. by rewrite Hwr in Hr. }
    case_match; [rewrite map_readers_notin by done|]; apply lookup_insert_eq.
  - intros i h Hi. apply Hm. assert (Hl : Nat.ltb 0 (length blue) = true).
    { apply lookup_lt_Some in Hi. apply Nat.ltb_lt. lia. }
    rewrite Hl. apply map_readers_lookup; [by apply readers_NoDup|done].
Qed.

Lemma PutIfAbsentPhaseTime_iam t k p b :
  iamHostSuccessfulConnects (PutIfAbsentPhaseTime t k p b) = iamHostSuccessfulConnects b /\
  allGreenHostsChangedName (PutIfAbsentPhaseTime t k p b) = allGreenHostsChangedName b.
Proof. unfold PutIfAbsentPhaseTime. by destruct (phaseTimeNano b !! _). Qed.

Lemma RegisterIamHost_fields now c i b :
  iamHostSuccessfulConnects (RegisterIamHost now c i b) = register_connect c i (iamHostSuccessfulConnects b) /\
  allGreenHostsChangedName (RegisterIamHost now c i b) =
    allGreenHostsChangedName b ||
    (negb (is_empty c) && negb (bool_decide (c = i)) &&
     forallb host_changed_name (range 27 (register_connect c i (iamHostSuccessfulConnects b)))).
Proof.
  unfold RegisterIamHost. destruct (negb (is_empty c) && negb (bool_decide (c = i))); simpl.
  - set (b1 := if negb _ then _ else b).
    assert (iamHostSuccessfulConnects b1 = iamHostSuccessfulConnects b /\ allGreenHostsChangedName b1 = allGreenHostsChangedName b)
      as [-> ->] by (unfold b1; by case_match).
    destruct (forallb _ _), (allGreenHostsChangedName b) eqn:E; simpl; try done.
    unfold StoreGreenHostChangeNameTime. split; [by rewrite (proj1 (PutIfAbsentPhaseTime_iam _ _ _ _))|by rewrite (proj2 (PutIfAbsentPhaseTime_iam _ _ _ _))].
  - by rewrite orb_false_r.
Qed.

Definition no_empty_names (m : gmap string (list string)) : Prop := map_Forall (fun _ hosts => "" ∉ hosts) m.

Lemma register_no_empty c i m : i <> "" -> no_empty_names m -> no_empty_names (register_connect c i m).
Proof.
  intros Hi Hm. apply map_Forall_insert_2; [|done]. rewrite elem_of_app, list_elem_of_singleton.
  intros [Hx|Hx]; [|by symmetry in Hx].
  destruct (m !! c) eqn:E; [by apply (Hm _ _ E)|by apply elem_of_nil in Hx].
Qed.

Lemma host_changed_name_spec key hosts :
  "" ∉ hosts -> host_changed_name (key, hosts) = true <-> (hosts <> [] -> exists host, host ∈ hosts /\ host <> key).
Proof.
  intros He. unfold host_changed_name. rewrite negb_true_iff, andb_false_iff, Nat.ltb_ge, is_empty_false. simpl.
  destruct (FilterSliceFindFirst_spec "" (fun s => negb (bool_decide (s = key))) hosts) as [[Hz Hall]|[Hf Hin]].
  - rewrite Hz. rewrite Forall_forall in Hall. split.
    + intros [Hl|?] Hne; [|done]. destruct hosts; [done|simpl in Hl; lia].
    + intros Hex. destruct hosts as [|x hosts]; [by left|]. destruct Hex as (h & Hh & Hk); [done|].
      apply Hall in Hh. by rewrite bool_decide_false in Hh.
  - split; [|intros _; right; by intros Hx; rewrite Hx in Hin].
    intros _ _. eexists. split; [exact Hin|]. by apply negb_true_iff, bool_decide_eq_false in Hf.
Qed.

Lemma all_changed_spec m :
  no_empty_names m ->
  forallb host_changed_name (range 27 m) = true <->
  map_Forall (fun key hosts => hosts <> [] -> exists host, host ∈ hosts /\ host <> key) m.
Proof.
  intros He. rewrite forallb_forall. split.
  - intros Hf key hosts Hm. apply host_changed_name_spec; [by apply (He key)|].
    by apply Hf, list_elem_of_In, elem_of_range.
  - intros Hf [key hosts] Hin%list_elem_of_In%elem_of_range.
    apply host_changed_name_spec; [by apply (He key)|by apply Hf].
Qed.

(** RegisterIamHost records the connect, and all green hosts count as
    renamed exactly when they did before, or when the two names differ and
    every host with connects was reached under a name other than its own. *)
Theorem RegisterIamHost_all_changed now connectHost iamHost b :
  iamHost <> "" -> no_empty_names (iamHostSuccessfulConnects b) ->
  let b' := RegisterIamHost now connectHost iamHost b in
  IsAlreadySuccessfullyConnected connectHost iamHost b' = true /\
  (allGreenHostsChangedName b' = true <->
   allGreenHostsChangedName b = true \/
   (connectHost <> "" /\ connectHost <> iamHost /\
    map_Forall (fun key hosts => hosts <> [] -> exists host, host ∈ hosts /\ host <> key) (iamHostSuccessfulConnects b'))).
Proof.
  intros Hi He b'. unfold b'. destruct (RegisterIamHost_fields now connectHost iamHost b) as [E1 E2]. split.
  - unfold IsAlreadySuccessfullyConnected. rewrite E1. unfold register_connect. rewrite lookup_insert_eq.
    apply bool_decide_eq_true, elem_of_app. right. by apply list_elem_of_singleton.
  - rewrite E1, E2, orb_true_iff, !andb_true_iff, !negb_true_iff, is_empty_false, bool_decide_eq_false.
    rewrite all_changed_spec by (by apply register_no_empty). tauto.
Qed.

Theorem UpdateMonitors_keeps_rates b :
  currentPhase (summaryStatus b) = PREPARATION \/ currentPhase (summaryStatus b) = IN_PROGRESS ->
  UpdateMonitors b = Some b.
Proof. unfold UpdateMonitors. by intros [-> | ->]. Qed.

(** What the reset leaves: the flag of the blue DNS; and it stops the target
    monitor after a rollback too. *)
Theorem reset_context_leaves b :
  blueDnsUpdateCompleted (reset_context b) = blueDnsUpdateCompleted b /\
  (monitors (reset_context b)).2 = stop_monitor <$> (monitors b).2.
Proof. done. Qed.
End mapping.

Lemma RegisterIamHost_all_changed_witness :
  "blue" <> "" /\ no_empty_names (iamHostSuccessfulConnects sample_provider) /\
  IsAlreadySuccessfullyConnected "green" "blue" (RegisterIamHost (fun _ => 5) "green" "blue" sample_provider) = true.
Proof.
  assert (no_empty_names (iamHostSuccessfulConnects sample_provider)) as Hn by apply map_Forall_empty.
  split; [done|split; [exact Hn|]].
  exact (proj1 (RegisterIamHost_all_changed (fun _ => 5) "green" "blue" sample_provider ltac:(done) Hn)).
Defined.

Definition sample_both : BlueGreenStatusProvider :=
  sample_provider <| interimStatuses := (sample_interim CREATED "", sample_interim CREATED "-green-abc123") |>.

Lemma corresponding_hosts_of_topologies_witness :
  correspondingHosts (updateCorrespondingHosts sample_both) !! "b.xyz.us-east-2.rds.amazonaws.com" =
  Some (Some (sample_host "b.xyz.us-east-2.rds.amazonaws.com" READER),
        Some (sample_host "b-green-abc123.xyz.us-east-2.rds.amazonaws.com" READER)).
Proof.
  refine (proj2 (corresponding_hosts_of_topologies sample_both _ _ _ _ _) 0%nat
            (sample_host "b.xyz.us-east-2.rds.amazonaws.com" READER) _); try done.
  apply NoDup_cons. split; [|apply NoDup_singleton]. intros ?%list_elem_of_singleton. done.
Defined.
