(* ===== verification/BgPlugin.v ===== *)
(** * BgPlugin: connecting and executing during a switchover
    (plugins/bg/bg_plugin.go, and the Apply and Delay methods of
    base_routing.go, connect_routing.go, execute_routing.go).

    The plugin and the routings wait for the provider by polling, so they run
    in an environment that changes: each read of the storage or of the clock
    and each sleep takes one tick ([tick]). The storage holds a pointer to the
    provider's status, hence a non-nil [*BlueGreenStatus] is no value: each
    dereference reads the provider at its own tick ([deref]). Loops have fuel;
    [OutOfFuel] is a loop that has not ended, [Crashed] a panic. *)

From S2P Require Import Prelude.
From S2P Require Import HostInfo.
From S2P Require Import RdsUtils.
From S2P Require Import BgTypes.
From S2P Require Import BgInterim.
From S2P Require Import BgMonitor.
From S2P Require Import BgProvider.

(** ** What a reader sees of the provider *)

Record StatusView := mkView {
  v_status : BlueGreenStatus;
  v_roleByHost : gmap string BlueGreenRole;
  v_correspondingHosts : gmap string HostPair
}.
Definition view_of (b : BlueGreenStatusProvider) : StatusView :=
  mkView (summaryStatus b) (roleByHost b) (correspondingHosts b).

Definition GetRole (v : StatusView) (hostInfo : option HostInfo) : option BlueGreenRole :=
  if IsNil hostInfo then None
  else match s_roleByHost (v_status v) with
       | NilMap => None
       | SharedMap => v_roleByHost v !! ToLower (GetHost hostInfo)
       | FreshMap => None
       end.

Definition GetCorrespondingHosts (v : StatusView) : gmap string HostPair :=
  match s_correspondingHosts (v_status v) with SharedMap => v_correspondingHosts v | _ => ∅ end.

(** [Size] of a nil map pointer is 0. *)
Definition map_size {A} (r : MapRef) (m : gmap string A) : nat :=
  match r with NilMap => 0 | SharedMap => size m | FreshMap => 0 end.

(** [b] is a copy, but its maps are the provider's: both sizes are current. *)
Definition MatchIdPhaseAndLen (b : BlueGreenStatus) (cur : StatusView) : bool :=
  let other := v_status cur in
  bool_decide (bgId b = bgId other) && bool_decide (currentPhase b = currentPhase other) &&
  Nat.eqb (length (routings_list (connectRoutings b))) (length (routings_list (connectRoutings other))) &&
  Nat.eqb (length (routings_list (executeRoutings b))) (length (routings_list (executeRoutings other))) &&
  Nat.eqb (map_size (s_roleByHost b) (v_roleByHost cur)) (map_size (s_roleByHost other) (v_roleByHost cur)) &&
  Nat.eqb (map_size (s_correspondingHosts b) (v_correspondingHosts cur))
    (map_size (s_correspondingHosts other) (v_correspondingHosts cur)).

(** ** Runs *)

Inductive Run (A : Type) := Finished (a : A) | Crashed | OutOfFuel.
Arguments Finished {A} _. Arguments Crashed {A}. Arguments OutOfFuel {A}.

(** A connection (or nil) with an error (or nil). *)
Definition ConnErr : Type := option nat * option go_error.
Definition failed (key : string) : ConnErr := (None, Some (NewGenericAwsWrapperError key [])).

Record BgEnv := mkBgEnv {
  cached_at : nat -> bool;
  status_at : nat -> StatusView;
  clock_at : nat -> Z;
  connectFunc : nat -> gmap string string -> ConnErr;
  service_Connect : nat -> option HostInfo -> gmap string string -> bool -> ConnErr;
  IamPluginInUse : bool;
  connect_timeout_ms : gmap string string -> Z
}.

(** The plugin and what it did to the provider ([notified], in order). *)
Record PluginState := mkPlugin {
  tick : nat;
  notified : list (string * string);
  pl_bgStatus : bool;
  isIamInUse : bool;
  startTime : Z;
  endTime : Z;
  provider_ready : bool
}.
#[export] Instance Plugin_eta : Eta PluginState := fun p =>
  mkPlugin (tick p) (notified p) (pl_bgStatus p) (isIamInUse p) (startTime p) (endTime p) (provider_ready p).

(** A small state monad over the plugin. *)
Definition M (A : Type) : Type := PluginState -> Run (A * PluginState).
#[export] Instance M_ret : MRet M := fun A a p => Finished (a, p).
#[export] Instance M_bind : MBind M := fun A B f m p =>
  match m p with Finished (a, p) => f a p | Crashed => Crashed | OutOfFuel => OutOfFuel end.

Definition out_of_fuel {A} : M A := fun _ => OutOfFuel.
Definition lift {A} (r : Result A) : M A :=
  fun p => match r with Ok a => Finished (a, p) | _ => Crashed end.
Definition modify (f : PluginState -> PluginState) : M unit := fun p => Finished (tt, f p).
Definition read {A} (f : nat -> A) : M A := fun p => Finished (f (tick p), p <| tick := S (tick p) |>).
Definition sleep : M unit := read (fun _ => tt).
Definition get {A} (f : PluginState -> A) : M A := fun p => Finished (f p, p).

Definition IAM_DEFAULT_PORT_name : string := "iamDefaultPort".
Definition SLEEP_TIME_DURATION : Z := 100 * Millisecond.

Section Plugin.
Context (env : BgEnv).

(** [getBgStatus]: is the pointer non-nil; [deref]: its value now. *)
Definition getBgStatus : M bool := read (cached_at env).
Definition deref : M StatusView := read (status_at env).
Definition clock : M Z := read (clock_at env).

(** ** Waiting *)

Fixpoint delay_loop (fuel : nat) (bgStatus : BlueGreenStatus) (endTime : Z) : M unit :=
  match fuel with
  | O => out_of_fuel
  | S fuel =>
      status ← getBgStatus;
      if negb status then mret tt
      else
        cur ← deref;
        if negb (MatchIdPhaseAndLen bgStatus cur) then mret tt
        else
          now ← clock;
          if now <? endTime then sleep ≫= (fun _ => delay_loop fuel bgStatus endTime) else mret tt
  end.

Definition Delay (fuel : nat) (delayNanos : Z) (bgStatus : BlueGreenStatus) : M unit :=
  start ← clock;
  if status_IsZero bgStatus then sleep else delay_loop fuel bgStatus (start + delayNanos).

(** The loop of the two suspend routings: [ptr] is the pointer read before it. *)
Fixpoint suspend_loop (fuel : nat) (ptr : bool) (endTime : Z) : M unit :=
  match fuel with
  | O => out_of_fuel
  | S fuel' =>
      now ← clock;
      if (now <? endTime) && ptr then
        cur ← deref;
        if bool_decide (currentPhase (v_status cur) = IN_PROGRESS) then
          copy ← deref;
          Delay fuel' SLEEP_TIME_DURATION (v_status copy) ≫= (fun _ => suspend_loop fuel' ptr endTime)
        else mret tt
      else mret tt
  end.

(** Wait, then say whether the switchover still is in progress. *)
Definition suspend (fuel : nat) (timeoutMs : Z) : M bool :=
  bgStatus ← getBgStatus;
  holdStartTime ← clock;
  _ ← suspend_loop fuel bgStatus (holdStartTime + Millisecond * timeoutMs);
  bgStatus ← getBgStatus;
  if bgStatus : bool then
    cur ← deref; mret (bool_decide (currentPhase (v_status cur) = IN_PROGRESS))
  else mret false.

Definition pair_right (v : StatusView) (host : string) : option HostInfo := default None (snd <$> GetCorrespondingHosts v !! host).

Fixpoint until_host_loop (fuel : nat) (host : string) (ptr : bool) (right : option HostInfo) (endTime : Z) : M bool :=
  match fuel with
  | O => out_of_fuel
  | S fuel' =>
      now ← clock;
      if (now <? endTime) && ptr then
        cur ← deref;
        if negb (bool_decide (currentPhase (v_status cur) = COMPLETED)) && IsNil right then
          copy ← deref;
          _ ← Delay fuel' SLEEP_TIME_DURATION (v_status copy);
          ptr ← getBgStatus;
          if ptr : bool then cur ← deref; until_host_loop fuel' host ptr (pair_right cur host) endTime
          else until_host_loop fuel' host ptr right endTime
        else mret ptr
      else mret ptr
  end.

(** ** Apply *)

Definition Apply_suspend (fuel : nat) (props : gmap string string) : M ConnErr :=
  still ← suspend fuel (connect_timeout_ms env props);
  if still : bool then mret (failed "BlueGreenDeployment.inProgressTryConnectLater")
  else mret (failed "BlueGreenDeployment.switchoverCompleteContinueWithConnect").

Definition Apply_until_host (fuel : nat) (hostInfo : option HostInfo) (props : gmap string string) : M ConnErr :=
  bgStatus ← getBgStatus;
  right ← (if bgStatus : bool
           then cur ← deref;
                match hostInfo with None => lift Panic | Some h => mret (pair_right cur (Host h)) end
           else mret None);
  holdStartTime ← clock;
  let endTime := holdStartTime + Millisecond * connect_timeout_ms env props in
  bgStatus ← until_host_loop fuel (GetHost hostInfo) bgStatus right endTime;
  completed ← (if bgStatus : bool
               then cur ← deref; mret (bool_decide (currentPhase (v_status cur) = COMPLETED)) else mret true);
  if completed : bool then mret (failed "BlueGreenDeployment.completedContinueWithConnect")
  else
    now ← clock;
    if endTime <? now then mret (failed "BlueGreenDeployment.correspondingHostNotFoundTryConnectLater")
    else mret (None, None).

Definition rerouted_host (substitute : option HostInfo) (iamHost : HostInfo) : Result (option HostInfo) :=
  if is_empty (GetHost substitute)
  then Ok (BuildOrNil (SetAvailability AVAILABLE (SetHostId (HostId iamHost) (SetHost (Host iamHost) NewHostInfoBuilder))))
  else AddAlias (BuildOrNil (SetAvailability AVAILABLE (SetHostId (HostId iamHost) (CopyFrom substitute NewHostInfoBuilder))))
         (Host iamHost).

Fixpoint try_iam_hosts (substitute : option HostInfo) (iamHosts : list (option HostInfo)) (notify : option string)
  (props : gmap string string) : M ConnErr :=
  match iamHosts with
  | [] => mret (failed "BlueGreenDeployment.inProgressCantOpenConnection")
  | None :: r => try_iam_hosts substitute r notify props
  | Some iamHost :: r =>
      rerouted ← lift (rerouted_host substitute iamHost);
      let rerouteProps := <[IAM_HOST_name := Host iamHost]> props in
      let rerouteProps := if IsPortSpecified (Some iamHost)
                          then <[IAM_DEFAULT_PORT_name := Itoa (Port iamHost)]> rerouteProps else rerouteProps in
      res ← read (fun t => service_Connect env t rerouted rerouteProps false);
      match res with
      | (conn, None) =>
          _ ← (match notify with
               | Some greenHost => modify (fun p => p <| notified := notified p ++ [(greenHost, Host iamHost)] |>)
               | None => mret tt
               end);
          mret (conn, None)
      | _ => try_iam_hosts substitute r notify props
      end
  end.

Definition Apply (fuel : nat) (r : ConnectRouting) (hostInfo : option HostInfo) (props : gmap string string) : M ConnErr :=
  match r with
  | RejectConnectRouting _ => mret (failed "BlueGreenDeployment.inProgressCantConnect")
  | SubstituteConnectRouting substitute iamHosts notify _ =>
      if IsIP (GetHost substitute) || negb (IamPluginInUse env)
      then read (fun t => service_Connect env t substitute props true)
      else if Nat.eqb (length iamHosts) 0 then mret (failed "BlueGreenDeployment.requireIamHost")
      else try_iam_hosts substitute iamHosts notify props
  | SuspendConnectRouting _ _ => Apply_suspend fuel props
  | SuspendUntilCorrespondingHostFoundConnectRouting _ _ => Apply_until_host fuel hostInfo props
  end.

(** [EMPTY_ROUTING_RESULT_HOLDER] is [None]. *)
Definition Apply_execute (fuel : nat) (r : ExecuteRouting) (props : gmap string string) : M (option go_error) :=
  still ← suspend fuel (connect_timeout_ms env props);
  if still : bool then mret (Some (NewGenericAwsWrapperError "BlueGreenDeployment.inProgressTryMethodLater" []))
  else mret None.

(** ** The plugin *)

Definition resetRoutingTimeNano : M unit := modify (fun p => p <| startTime := 0 |> <| endTime := 0 |>).

(** The deferred function: [time.Now().Unix()] is in seconds. *)
Definition set_end_time : M unit :=
  start ← get startTime;
  if 0 <? start then now ← clock; modify (fun p => if endTime p =? 0 then p <| endTime := now / Second |> else p)
  else mret tt.

Definition initProvider : M unit := modify (fun p => p <| provider_ready := true |>).

Definition regularOpenConnection (pluginProps : gmap string string) (isInitialConnection : bool) : M ConnErr :=
  res ← read (fun t => connectFunc env t pluginProps);
  _ ← (if isInitialConnection then initProvider else mret tt);
  mret res.

Definition load_status : M bool :=
  st ← getBgStatus; _ ← modify (fun p => p <| pl_bgStatus := st |>); mret st.

Definition matching_routes (v : StatusView) (hostInfo : option HostInfo) (hostRole : BlueGreenRole) : list ConnectRouting :=
  FilterSlice (routings_list (connectRoutings (v_status v))) (fun r => IsMatch (c_base r) hostInfo hostRole).
Definition matching_execute_routes (v : StatusView) (hostInfo : option HostInfo) (hostRole : BlueGreenRole) :
  list ExecuteRouting :=
  FilterSlice (routings_list (executeRoutings (v_status v))) (fun r => IsMatch (e_base r) hostInfo hostRole).

(** The loop of [Connect]: what the last routing returned, or [inr] when the
    status is gone and the connection is opened in the regular way. *)
Fixpoint connect_loop (fuel : nat) (routing : ConnectRouting) (hostInfo : option HostInfo) (hostRole : BlueGreenRole)
  (props : gmap string string) : M (ConnErr + unit) :=
  match fuel with
  | O => out_of_fuel
  | S fuel =>
      res ← Apply fuel routing hostInfo props;
      match res.1 with
      | Some _ => mret (inl res)
      | None =>
          st ← load_status;
          if st : bool then
            cur ← deref;
            match matching_routes cur hostInfo hostRole with
            | routing :: _ => connect_loop fuel routing hostInfo hostRole props
            | [] => mret (inl res)
            end
          else mret (inr tt)
      end
  end.

Definition connect_routed (fuel : nat) (routing : ConnectRouting) (hostInfo : option HostInfo) (hostRole : BlueGreenRole)
  (pluginProps props : gmap string string) (isInitialConnection : bool) : M ConnErr :=
  now ← clock;
  _ ← modify (fun p => p <| startTime := now |>);
  out ← connect_loop fuel routing hostInfo hostRole props;
  match out with
  | inr _ =>
      now ← clock;
      _ ← modify (fun p => p <| endTime := now / Second |>);
      regularOpenConnection pluginProps isInitialConnection
  | inl res =>
      res ← (match res.1 with None => read (fun t => connectFunc env t props) | Some _ => mret res end);
      _ ← (if isInitialConnection then initProvider else mret tt);
      mret res
  end.

Definition connect_body (fuel : nat) (hostInfo : option HostInfo) (pluginProps props : gmap string string)
  (isInitialConnection : bool) : M ConnErr :=
  st ← load_status;
  if negb st then regularOpenConnection pluginProps isInitialConnection
  else
    _ ← (if isInitialConnection then modify (fun p => p <| isIamInUse := IamPluginInUse env |>) else mret tt);
    cur ← deref;
    match GetRole cur hostInfo with
    | None => regularOpenConnection pluginProps isInitialConnection
    | Some hostRole =>
        if role_IsZero hostRole then regularOpenConnection pluginProps isInitialConnection
        else
          cur ← deref;
          match matching_routes cur hostInfo hostRole with
          | [] => regularOpenConnection pluginProps isInitialConnection
          | routing :: _ => connect_routed fuel routing hostInfo hostRole pluginProps props isInitialConnection
          end
    end.

Definition Connect (fuel : nat) (hostInfo : option HostInfo) (pluginProps props : gmap string string)
  (isInitialConnection : bool) : M ConnErr :=
  _ ← resetRoutingTimeNano;
  res ← connect_body fuel hostInfo pluginProps props isInitialConnection;
  _ ← set_end_time;
  mret res.

(** The result of a method: the call of [executeFunc], or a routing's error. *)
Inductive ExecResult := Executed | RoutingError (err : go_error).

Fixpoint execute_loop (fuel : nat) (routing : ExecuteRouting) (hostInfo : option HostInfo) (hostRole : BlueGreenRole)
  (pluginProps : gmap string string) : M ExecResult :=
  match fuel with
  | O => out_of_fuel
  | S fuel =>
      res ← Apply_execute fuel routing pluginProps;
      match res with
      | Some err => mret (RoutingError err)
      | None =>
          st ← load_status;
          if st : bool then
            cur ← deref;
            match matching_execute_routes cur hostInfo hostRole with
            | routing :: _ => execute_loop fuel routing hostInfo hostRole pluginProps
            | [] => mret Executed
            end
          else mret Executed
      end
  end.

(** [current] is the current host, [None] when it has an error. *)
Definition execute_body (fuel : nat) (closing_method : bool) (current : option (option HostInfo))
  (pluginProps : gmap string string) : M ExecResult :=
  _ ← initProvider;
  if closing_method then mret Executed
  else
    st ← load_status;
    if negb st then mret Executed
    else
      cur ← deref;
      match current with
      | None => mret Executed
      | Some hostInfo =>
          match GetRole cur hostInfo with
          | None => mret Executed
          | Some hostRole =>
              if role_IsZero hostRole then mret Executed
              else
                cur ← deref;
                match matching_execute_routes cur hostInfo hostRole with
                | [] => mret Executed
                | routing :: _ =>
                    now ← clock;
                    _ ← modify (fun p => p <| startTime := now |>);
                    res ← execute_loop fuel routing hostInfo hostRole pluginProps;
                    now ← clock;
                    _ ← modify (fun p => p <| endTime := now |>);
                    mret res
                end
          end
      end.

Definition Execute (fuel : nat) (closing_method : bool) (current : option (option HostInfo))
  (pluginProps : gmap string string) : M ExecResult :=
  _ ← resetRoutingTimeNano;
  res ← execute_body fuel closing_method current pluginProps;
  _ ← set_end_time;
  mret res.
End Plugin.

(** ** Reasoning about runs *)

(** [m] does not crash, and what it returns satisfies [P]. *)
Definition spec {A} (m : M A) (P : A -> Prop) : Prop :=
  forall p, match m p with Finished (a, _) => P a | Crashed => False | OutOfFuel => True end.

Lemma spec_bind {A B} (m : M A) (f : A -> M B) P Q :
  spec m P -> (forall a, P a -> spec (f a) Q) -> spec (m ≫= f) Q.
Proof.
  intros Hm Hf p. unfold mbind, M_bind. specialize (Hm p). destruct (m p) as [[a p']| |]; [|done..]. by apply Hf.
Qed.

Lemma spec_ret {A} (a : A) (P : A -> Prop) : P a -> spec (mret a) P.
Proof. by intros Ha p. Qed.
Lemma spec_read {A} (f : nat -> A) (P : A -> Prop) : (forall t, P (f t)) -> spec (read f) P.
Proof. intros Hf p. apply Hf. Qed.
Lemma spec_modify f : spec (modify f) (fun _ => True).
Proof. by intros p. Qed.
Lemma spec_lift {A} (r : Result A) a (P : A -> Prop) : r = Ok a -> P a -> spec (lift r) P.
Proof. by intros -> Ha p. Qed.
Lemma spec_fuel {A} (P : A -> Prop) : spec out_of_fuel P.
Proof. by intros p. Qed.
Lemma spec_any {A} (m : M A) P : spec m P -> spec m (fun _ => True).
Proof. intros Hm p. specialize (Hm p). by destruct (m p) as [[]| |]. Qed.

Create HintDb runs.
#[export] Hint Resolve spec_modify spec_fuel : runs.

Lemma FilterSlice_app {A} (f : A -> bool) l1 l2 : FilterSlice (l1 ++ l2) f = FilterSlice l1 f ++ FilterSlice l2 f.
Proof. induction l1 as [|x l1 IH]; simpl; [done|]. rewrite IH. by destruct (f x). Qed.

Lemma FilterSlice_none {A} (f : A -> bool) l : (forall x, x ∈ l -> f x = false) -> FilterSlice l f = [].
Proof.
  induction l as [|x l IH]; intros Hl; simpl; [done|]. rewrite (Hl x) by set_solver. apply IH. set_solver.
Qed.

(** While the status stays what it is. *)
Section constant.
Context (env : BgEnv) (v : StatusView) (hostInfo : option HostInfo) (hostRole : BlueGreenRole).
Hypothesis Hcached : forall t, cached_at env t = true.
Hypothesis Hstatus : forall t, status_at env t = v.
Hypothesis Hrole : GetRole v hostInfo = Some hostRole.
Hypothesis Hzero : role_IsZero hostRole = false.

Lemma spec_getBgStatus : spec (getBgStatus env) (fun b => b = true).
Proof. by apply spec_read. Qed.
Lemma spec_deref : spec (deref env) (fun w => w = v).
Proof. by apply spec_read. Qed.

Lemma spec_load_status : spec (load_status env) (fun b => b = true).
Proof.
  apply (spec_bind _ _ (fun b => b = true)); [apply spec_getBgStatus|]. intros st Hst.
  apply (spec_bind _ _ (fun _ => True)); [apply spec_modify|]. intros _ _. by apply spec_ret.
Qed.

(** A routing that returns no connection is applied again and again. *)
Lemma connect_loop_stuck r0 r rs props :
  (forall fuel, spec (Apply env fuel r hostInfo props) (fun res => res.1 = None)) ->
  matching_routes v hostInfo hostRole = r :: rs -> r0 = r ->
  forall fuel, spec (connect_loop env fuel r0 hostInfo hostRole props) (fun _ => False).
Proof.
  intros Ha Hm -> fuel. induction fuel as [|fuel IH]; [apply spec_fuel|]. cbn [connect_loop].
  apply (spec_bind _ _ (fun res => res.1 = None)); [apply Ha|]. intros res ->.
  apply (spec_bind _ _ (fun b => b = true)); [apply spec_load_status|]. intros st ->.
  apply (spec_bind _ _ (fun w => w = v)); [apply spec_deref|]. intros w ->. rewrite Hm. apply IH.
Qed.

Lemma Connect_stuck r rs pluginProps props init :
  (forall fuel, spec (Apply env fuel r hostInfo props) (fun res => res.1 = None)) ->
  matching_routes v hostInfo hostRole = r :: rs ->
  forall fuel, spec (Connect env fuel hostInfo pluginProps props init) (fun _ => False).
Proof.
  intros Ha Hm fuel. unfold Connect. apply (spec_bind _ _ (fun _ => True)); [apply spec_modify|]. intros _ _.
  apply (spec_bind _ _ (fun _ => False)); [|done]. unfold connect_body.
  apply (spec_bind _ _ (fun b => b = true)); [apply spec_load_status|]. intros st ->. cbn [negb].
  apply (spec_bind _ _ (fun _ => True)); [destruct init; [apply spec_modify|by apply spec_ret]|]. intros _ _.
  apply (spec_bind _ _ (fun w => w = v)); [apply spec_deref|]. intros w ->. rewrite Hrole, Hzero.
  apply (spec_bind _ _ (fun w => w = v)); [apply spec_deref|]. intros w ->. rewrite Hm. unfold connect_routed.
  apply (spec_bind _ _ (fun _ => True)); [by apply spec_read|]. intros now _.
  apply (spec_bind _ _ (fun _ => True)); [apply spec_modify|]. intros _ _.
  apply (spec_bind _ _ (fun _ => False)); [|done]. by apply (connect_loop_stuck r r rs).
Qed.

Section in_progress.
Hypothesis Hphase : currentPhase (v_status v) = IN_PROGRESS.

Lemma spec_delay_loop fuel endTime : spec (delay_loop env fuel (v_status v) endTime) (fun _ => True).
Proof.
  induction fuel as [|fuel IH]; [apply spec_fuel|]. cbn [delay_loop].
  apply (spec_bind _ _ (fun b => b = true)); [apply spec_getBgStatus|]. intros st ->. cbn [negb].
  apply (spec_bind _ _ (fun w => w = v)); [apply spec_deref|]. intros w ->.
  destruct (negb _); [by apply spec_ret|].
  apply (spec_bind _ _ (fun _ => True)); [by apply spec_read|]. intros now _.
  destruct (now <? endTime); [|by apply spec_ret].
  apply (spec_bind _ _ (fun _ => True)); [by apply spec_read|]. intros _ _. apply IH.
Qed.

Lemma spec_suspend_loop fuel ptr endTime : spec (suspend_loop env fuel ptr endTime) (fun _ => True).
Proof.
  induction fuel as [|fuel IH]; [apply spec_fuel|]. cbn [suspend_loop].
  apply (spec_bind _ _ (fun _ => True)); [by apply spec_read|]. intros now _.
  destruct (_ && _); [|by apply spec_ret].
  apply (spec_bind _ _ (fun w => w = v)); [apply spec_deref|]. intros w ->. case_bool_decide; [|by apply spec_ret].
  apply (spec_bind _ _ (fun w => w = v)); [apply spec_deref|]. intros w ->.
  apply (spec_bind _ _ (fun _ => True)); [|intros _ _; apply IH]. unfold Delay.
  apply (spec_bind _ _ (fun _ => True)); [by apply spec_read|]. intros start _.
  destruct (status_IsZero _); [by apply spec_read|apply spec_delay_loop].
Qed.

Lemma spec_suspend fuel timeoutMs : spec (suspend env fuel timeoutMs) (fun still => still = true).
Proof.
  unfold suspend. apply (spec_bind _ _ (fun _ => True)); [by apply spec_read|]. intros ptr _.
  apply (spec_bind _ _ (fun _ => True)); [by apply spec_read|]. intros start _.
  apply (spec_bind _ _ (fun _ => True)); [apply spec_suspend_loop|]. intros _ _.
  apply (spec_bind _ _ (fun b => b = true)); [apply spec_getBgStatus|]. intros st ->.
  apply (spec_bind _ _ (fun w => w = v)); [apply spec_deref|]. intros w ->. apply spec_ret. by apply bool_decide_eq_true.
Qed.
End in_progress.
End constant.

(** ** The routings of a status *)

Section routings.
Context `{MapRange}.

(** The view of a reader at the moment the status is stored. *)
Definition routed (st : BlueGreenStatus) (b : BlueGreenStatusProvider) : StatusView :=
  view_of (b <| summaryStatus := st |>).

Definition blue_only (l : list ConnectRouting) : Prop := forall r, r ∈ l -> r_role (c_base r) = SOURCE.

Lemma IsMatch_role_mismatch base hostInfo role :
  r_role base = SOURCE -> role <> SOURCE -> IsMatch base hostInfo role = false.
Proof.
  intros Hr Hne. unfold IsMatch. rewrite Hr. rewrite (bool_decide_false (SOURCE = role)) by congruence. simpl.
  apply andb_false_r.
Qed.

Lemma blue_only_target l hostInfo : blue_only l -> FilterSlice l (fun r => IsMatch (c_base r) hostInfo TARGET) = [].
Proof. intros Hl. apply FilterSlice_none. intros r Hr. apply IsMatch_role_mismatch; [by apply Hl|done]. Qed.

Lemma two_routings_blue host make b r :
  (forall h, r_role (c_base (make h)) = SOURCE) -> r ∈ two_routings host SOURCE make b -> r_role (c_base r) = SOURCE.
Proof.
  intros Hm. unfold two_routings. case_match; set_solver.
Qed.

Lemma AddSubstitute_blue b l : AddSubstituteBlueWithIpAddressConnectRouting b = Ok l -> blue_only l.
Proof.
  intros Hl r Hr. destruct (elem_of_append_each _ _ _ _ Hl Hr) as ([host role] & y & _ & Hy & Hin).
  destruct (correspondingHosts b !! host) as [p|]; [|simplify_eq; by apply elem_of_nil in Hin].
  case_bool_decide as E; simpl in Hy; [|simplify_eq; by apply elem_of_nil in Hin]. subst role.
  destruct p.1 as [h|]; [|done]. injection Hy as <-. by apply two_routings_blue in Hin.
Qed.

Lemma post_routing_blue b e l : post_routing e b = Ok l -> blue_only l.
Proof.
  intros Hl r Hr. destruct e as [host role]. unfold post_routing in Hl.
  destruct (blueHostInCorrespondingHosts host role b) eqn:E; simpl in Hl;
    [|simplify_eq; by apply elem_of_nil in Hr].
  unfold blueHostInCorrespondingHosts in E. to_prop. subst role.
  destruct (default None _) as [g|]; [|injection Hl as <-; by apply two_routings_blue in Hr].
  revert Hl. case_match; [intros [= <-]; by apply two_routings_blue in Hr|].
  case_match; [|done]. intros [= <-]. by apply two_routings_blue in Hr.
Qed.

Lemma status_of_not_in_progress now fuel which i b st :
  status_of now fuel which i b = Ok st -> currentPhase st <> IN_PROGRESS.
Proof.
  revert which i. induction fuel as [|fuel IH]; intros which i; [done|]. cbn [status_of].
  destruct (IsSwitchoverTimerExpired (now i) b), which.
  - destruct (rollback b); [by intros [= <-]|apply IH].
  - destruct (rollback b); by intros [= <-].
  - destruct (CreatePostRouting b); simpl; [by intros [= <-]|done..].
  - destruct (_ || _); [apply IH|by intros [= <-]].
Qed.

Lemma GetStatusOfInProgress_routings now i b st :
  GetStatusOfInProgress now i b = Ok st -> currentPhase st = IN_PROGRESS ->
  exists blue, st = NewBgStatus (bgdId b) IN_PROGRESS (Some (in_progress_routings b blue).1)
                      (Some (in_progress_routings b blue).2) SharedMap SharedMap /\
    blue_only blue /\
    (suspendNewBlueConnectionsWhenInProgress b = true -> blue = [NewSuspendConnectRouting "" SOURCE (bgdId b)]).
Proof.
  unfold GetStatusOfInProgress. destruct (IsSwitchoverTimerExpired (now i) b).
  { destruct (rollback b); [by intros [= <-]|]. by intros Hs%status_of_not_in_progress. }
  destruct (suspendNewBlueConnectionsWhenInProgress b) eqn:Es.
  - intros [= <-] _. exists [NewSuspendConnectRouting "" SOURCE (bgdId b)]. split; [done|]. split; [|done]. intros r ->%list_elem_of_singleton. done.
  - destruct (AddSubstituteBlueWithIpAddressConnectRouting b) as [blue| |] eqn:E; [|done..].
    intros [= <-] _. exists blue. split; [done|]. split; [by apply (AddSubstitute_blue b)|done].
Qed.

(** C3. The status of a switchover in progress holds every connect to a
    green host (the first routing that matches is the suspension), every
    connect to a blue host when new blue connections are to be suspended,
    and every method call on either side; whatever the host, its port, and
    the order of the map loops. *)
Theorem in_progress_suspends now i b st hostInfo :
  GetStatusOfInProgress now i b = Ok st -> currentPhase st = IN_PROGRESS ->
  let v := routed st b in
  (exists rs, matching_routes v hostInfo TARGET = NewSuspendConnectRouting "" TARGET (bgdId b) :: rs) /\
  (suspendNewBlueConnectionsWhenInProgress b = true ->
   exists rs, matching_routes v hostInfo SOURCE = NewSuspendConnectRouting "" SOURCE (bgdId b) :: rs) /\
  (forall role, role = SOURCE \/ role = TARGET ->
   exists rs, matching_execute_routes v hostInfo role = NewSuspendExecuteRouting "" role (bgdId b) :: rs).
Proof.
  intros Hst Hp v. destruct (GetStatusOfInProgress_routings now i b st Hst Hp) as (blue & -> & Hblue & Hsus).
  unfold v, matching_routes, matching_execute_routes, routed, in_progress_routings. simpl.
  split_and!.
  - rewrite !FilterSlice_app, (blue_only_target blue) by done. simpl. rewrite ?IsMatch_any_host by done. simpl. eauto.
  - intros Hs. rewrite (Hsus Hs). simpl. rewrite ?IsMatch_any_host by done. eauto.
  - intros role [-> | ->]; simpl.
    + rewrite ?IsMatch_any_host by done. eauto.
    + rewrite ?(IsMatch_other_role "" SOURCE TARGET) by done. rewrite ?IsMatch_any_host by done. eauto.
Qed.

(** After the switchover and until the green DNS is removed, the only
    routing that matches a connect to a green endpoint rejects it, unless
    the blue DNS was updated and all green hosts changed their names. *)
Theorem post_rejects_green now i b st hostInfo :
  GetStatusOfPost now i b = Ok st -> currentPhase st = POST -> greenDnsRemoved b = false ->
  blueDnsUpdateCompleted b && allGreenHostsChangedName b = false ->
  matching_routes (routed st b) hostInfo TARGET = [NewRejectConnectRouting "" TARGET].
Proof.
  intros Hst Hp Hg Hn.
  assert (exists l, st = NewBgStatus (bgdId b) POST (Some (l ++ [NewRejectConnectRouting "" TARGET])) (Some []) SharedMap SharedMap
                    /\ blue_only l) as (l & -> & Hl).
  { assert (Hl : forall l, append_each (fun e => post_routing e b) (range 26 (roleByHost b)) = Ok l -> blue_only l).
    { intros l Hl r Hr. destruct (elem_of_append_each _ _ _ _ Hl Hr) as (e & y & _ & Hy & Hin).
      by apply (post_routing_blue b e y). }
    revert Hst Hp. unfold GetStatusOfPost. generalize 3%nat. intros fuel. generalize PostStatus. intros which.
    revert which i. induction fuel as [|fuel IH]; intros which i; [done|]. cbn [status_of].
    destruct (IsSwitchoverTimerExpired (now i) b), which.
    - destruct (rollback b); [by intros [= <-]|apply IH].
    - destruct (rollback b); by intros [= <-].
    - unfold CreatePostRouting. rewrite Hn, Hg. destruct (append_each _ _) as [l| |] eqn:El; simpl; [|done..].
      intros [= <-] _. exists l. split; [|by apply Hl]. by destruct l.
    - destruct (_ || _); [apply IH|by intros [= <-]]. }
  unfold matching_routes, routed. simpl. rewrite FilterSlice_app, blue_only_target by done. simpl.
  by rewrite ?IsMatch_any_host.
Qed.
End routings.

(** While the status stays in progress and the first matching routing
    suspends, Connect opens no connection and does not return, whatever the
    fuel: the timeout error of the routing only makes the loop apply it
    again. *)
Theorem Connect_held_in_progress env v hostInfo hostRole bg base rs :
  (forall t, cached_at env t = true) -> (forall t, status_at env t = v) ->
  currentPhase (v_status v) = IN_PROGRESS ->
  GetRole v hostInfo = Some hostRole -> role_IsZero hostRole = false ->
  matching_routes v hostInfo hostRole = SuspendConnectRouting bg base :: rs ->
  forall fuel pluginProps props init p, Connect env fuel hostInfo pluginProps props init p = OutOfFuel.
Proof.
  intros Hc Hs Hp Hr Hz Hm fuel pluginProps props init p.
  assert (spec (Connect env fuel hostInfo pluginProps props init) (fun _ => False)) as Hspec.
  { apply (Connect_stuck env v hostInfo hostRole Hc Hs Hr Hz (SuspendConnectRouting bg base) rs); [|done].
    intros fuel'. unfold Apply, Apply_suspend.
    apply (spec_bind _ _ (fun still => still = true)); [by apply (spec_suspend env v)|].
    intros still ->. by apply spec_ret. }
  specialize (Hspec p). by destruct (Connect _ _ _ _ _ _ p) as [[]| |].
Qed.

(** The error of a rejecting routing never reaches the caller: while
    the status stays, Connect applies the routing again without end. *)
Theorem Connect_rejected_never_returns env v hostInfo hostRole base rs :
  (forall t, cached_at env t = true) -> (forall t, status_at env t = v) ->
  GetRole v hostInfo = Some hostRole -> role_IsZero hostRole = false ->
  matching_routes v hostInfo hostRole = RejectConnectRouting base :: rs ->
  forall fuel pluginProps props init p, Connect env fuel hostInfo pluginProps props init p = OutOfFuel.
Proof.
  intros Hc Hs Hr Hz Hm fuel pluginProps props init p.
  assert (spec (Connect env fuel hostInfo pluginProps props init) (fun _ => False)) as Hspec.
  { apply (Connect_stuck env v hostInfo hostRole Hc Hs Hr Hz (RejectConnectRouting base) rs); [|done].
    intros fuel'. by apply spec_ret. }
  specialize (Hspec p). by destruct (Connect _ _ _ _ _ _ p) as [[]| |].
Qed.

(** ** Waiting ends *)

Section liveness.
Context (env : BgEnv).
Hypothesis Hclock : forall d, exists T, forall t, (T <= t)%nat -> d <= clock_at env t.

Lemma clock_bounded n : exists m, forall s, (s < n)%nat -> clock_at env s <= m.
Proof.
  induction n as [|n [m Hm]]; [exists 0; lia|]. exists (Z.max m (clock_at env n)). intros s Hs.
  destruct (decide (s = n)) as [->|]; [lia|]. specialize (Hm s ltac:(lia)). lia.
Qed.

Lemma delay_loop_ends T copy endTime fuel p :
  (forall t, (T <= t)%nat -> endTime <= clock_at env t) -> (1 + (T - tick p) <= fuel)%nat ->
  exists p', delay_loop env fuel copy endTime p = Finished (tt, p') /\ (tick p <= tick p')%nat.
Proof.
  intros HT. revert p. induction fuel as [|fuel IH]; intros p Hf; [lia|]. cbn [delay_loop].
  unfold getBgStatus, deref, clock, sleep, read, mbind, M_bind, mret, M_ret. cbv beta iota. simpl.
  destruct (cached_at env (tick p)); simpl; [|eexists; split; [done|simpl; lia]].
  destruct (MatchIdPhaseAndLen copy (status_at env (S (tick p)))); simpl; [|eexists; split; [done|simpl; lia]].
  destruct (clock_at env (S (S (tick p))) <? endTime) eqn:E; [|eexists; split; [done|simpl; lia]].
  apply Z.ltb_lt in E.
  assert (S (S (tick p)) < T)%nat. { apply Nat.nle_gt. intros Hle. specialize (HT _ Hle). lia. }
  match goal with |- exists p', delay_loop env fuel _ _ ?q = _ /\ _ => destruct (IH q) as (p' & -> & Hp') end; simpl in *; [lia|].
  eexists. split; [done|lia].
Qed.

Lemma Delay_ends T copy fuel delay p :
  (forall t, (T <= t)%nat -> clock_at env (tick p) + delay <= clock_at env t) -> (1 + (T - tick p) <= fuel)%nat ->
  exists p', Delay env fuel delay copy p = Finished (tt, p') /\ (tick p < tick p')%nat.
Proof.
  intros HT Hf. unfold Delay, clock, sleep, read, mbind, M_bind. cbv beta iota.
  destruct (status_IsZero copy) eqn:E.
  - eexists. split; [done|simpl; lia].
  - destruct (delay_loop_ends T copy (clock_at env (tick p) + delay) fuel (p <| tick := S (tick p) |>) HT) as (p' & -> & Hp').
    + simpl. lia.
    + eexists. split; [done|simpl in Hp'; lia].
Qed.

Lemma suspend_loop_ends T T2 ptr endTime fuel p :
  (forall t, (T <= t)%nat -> endTime <= clock_at env t) ->
  (forall s t, (s < T + 3)%nat -> (T2 <= t)%nat -> clock_at env s + SLEEP_TIME_DURATION <= clock_at env t) ->
  (2 + (T + T2 - tick p) <= fuel)%nat ->
  exists p', suspend_loop env fuel ptr endTime p = Finished (tt, p').
Proof.
  intros HT HT2. revert p. induction fuel as [|fuel IH]; intros p Hf; [lia|]. cbn [suspend_loop].
  unfold deref, clock at 1, read, mbind, M_bind, mret, M_ret. cbv beta iota.
  destruct ((clock_at env (tick p) <? endTime) && ptr) eqn:E; [|by eexists]. simpl.
  apply andb_true_iff in E as [E _]. apply Z.ltb_lt in E.
  assert (tick p < T)%nat. { apply Nat.nle_gt. intros Hle. specialize (HT _ Hle). lia. }
  case_bool_decide; [|by eexists].
  match goal with |- context [Delay env fuel ?d ?copy ?q] =>
    destruct (Delay_ends T2 copy fuel d q) as (p' & -> & Hp') end; simpl in *.
  - intros t Ht. apply HT2; lia.
  - lia.
  - destruct (IH p') as [p'' ->]; [lia|]. by eexists.
Qed.

Lemma suspend_ends timeoutMs p :
  exists fuel0, forall fuel, (fuel0 <= fuel)%nat -> exists still p', suspend env fuel timeoutMs p = Finished (still, p').
Proof.
  set (endTime := clock_at env (S (tick p)) + Millisecond * timeoutMs).
  destruct (Hclock endTime) as [T HT]. destruct (clock_bounded (T + 3)) as [m Hm].
  destruct (Hclock (m + SLEEP_TIME_DURATION)) as [T2 HT2].
  exists (2 + (T + T2))%nat. intros fuel Hf. unfold suspend, getBgStatus, clock, deref, read, mbind, M_bind, mret, M_ret.
  cbv beta iota. cbn [tick update_field].
  match goal with |- context [suspend_loop env fuel ?b ?d ?q] => destruct (suspend_loop_ends T T2 b d fuel q) as [p' ->] end.
  - done.
  - intros s t Hs Ht. specialize (Hm s Hs). specialize (HT2 t Ht). lia.
  - simpl. lia.
  - destruct (cached_at env (tick p')); eexists _, _; done.
Qed.

(** C28. Applying a routing that suspends ends: when the clock passes every
    time, some fuel is enough for the nested waiting loops of one Apply,
    however the status changes meanwhile; for a connect it gives no
    connection, for a method call a result or an error, and neither crashes.
    It is the Connect of the plugin that applies the routing again as long
    as it matches, and that loop may go on. *)
Theorem suspended_calls_end bg base hostInfo props p :
  (exists fuel0, forall fuel, (fuel0 <= fuel)%nat -> exists key p',
     Apply env fuel (SuspendConnectRouting bg base) hostInfo props p = Finished (failed key, p')) /\
  (exists fuel0, forall fuel, (fuel0 <= fuel)%nat -> exists res p',
     Apply_execute env fuel (SuspendExecuteRouting bg base) props p = Finished (res, p')).
Proof.
  destruct (suspend_ends (connect_timeout_ms env props) p) as [fuel0 Hf].
  split; exists fuel0; intros fuel Hle; destruct (Hf fuel Hle) as (still & p' & Hs);
    unfold Apply, Apply_suspend, Apply_execute, mbind, M_bind; rewrite Hs; destruct still; by eexists _, _.
Qed.
End liveness.

(** ** Witnesses *)

Definition sample_in_progress : BlueGreenStatus :=
  match GetStatusOfInProgress (fun _ => 5) 4 sample_provider with Ok st => st | _ => zeroStatus end.
Definition sample_post : BlueGreenStatus :=
  match GetStatusOfPost (fun _ => 5) 4 sample_provider with Ok st => st | _ => zeroStatus end.
Definition sample_green : HostInfo := sample_host "green.xyz.us-east-2.rds.amazonaws.com" WRITER.

Lemma in_progress_suspends_witness :
  GetStatusOfInProgress (fun _ => 5) 4 sample_provider = Ok sample_in_progress /\
  currentPhase sample_in_progress = IN_PROGRESS /\
  exists rs, matching_routes (routed sample_in_progress sample_provider) (Some sample_green) TARGET =
             NewSuspendConnectRouting "" TARGET "bg" :: rs.
Proof.
  assert (GetStatusOfInProgress (fun _ => 5) 4 sample_provider = Ok sample_in_progress) as Hs by (vm_compute; reflexivity).
  assert (currentPhase sample_in_progress = IN_PROGRESS) as Hp by (vm_compute; reflexivity).
  split; [exact Hs|split; [exact Hp|]].
  exact (proj1 (in_progress_suspends (fun _ => 5) 4 sample_provider sample_in_progress (Some sample_green) Hs Hp)).
Defined.

Lemma post_rejects_green_witness :
  GetStatusOfPost (fun _ => 5) 4 sample_provider = Ok sample_post /\ currentPhase sample_post = POST /\
  matching_routes (routed sample_post sample_provider) (Some sample_green) TARGET = [NewRejectConnectRouting "" TARGET].
Proof.
  assert (GetStatusOfPost (fun _ => 5) 4 sample_provider = Ok sample_post) as Hs by (vm_compute; reflexivity).
  assert (currentPhase sample_post = POST) as Hp by (vm_compute; reflexivity).
  split; [exact Hs|split; [exact Hp|]].
  apply (post_rejects_green (fun _ => 5) 4 sample_provider sample_post (Some sample_green) Hs Hp); vm_compute; reflexivity.
Defined.

(** A reader while [sample_provider] is in progress, the clock running. *)
Definition sample_view (st : BlueGreenStatus) : StatusView := mkView st {[Host sample_green := TARGET]} ∅.
Definition sample_env (st : BlueGreenStatus) : BgEnv :=
  mkBgEnv (fun _ => true) (fun _ => sample_view st) (fun t => Second * Z.of_nat t) (fun _ _ => (Some 1%nat, None))
    (fun _ _ _ _ => (Some 1%nat, None)) false (fun _ => 30000).
Definition sample_plugin : PluginState := mkPlugin 0 [] false false 0 0 false.

Lemma Connect_held_in_progress_witness :
  Connect (sample_env sample_in_progress) 50 (Some sample_green) ∅ ∅ true sample_plugin = OutOfFuel.
Proof.
  refine (Connect_held_in_progress (sample_env sample_in_progress) (sample_view sample_in_progress) (Some sample_green) TARGET
            "bg" (NewBaseRouting "" TARGET) [] _ _ _ _ _ _ 50 ∅ ∅ true sample_plugin);
    try (intros; reflexivity); vm_compute; reflexivity.
Defined.

Lemma Connect_rejected_never_returns_witness :
  Connect (sample_env sample_post) 50 (Some sample_green) ∅ ∅ true sample_plugin = OutOfFuel.
Proof.
  refine (Connect_rejected_never_returns (sample_env sample_post) (sample_view sample_post) (Some sample_green) TARGET
            (NewBaseRouting "" TARGET) [] _ _ _ _ _ 50 ∅ ∅ true sample_plugin);
    try (intros; reflexivity); vm_compute; reflexivity.
Defined.

Lemma suspended_calls_end_witness :
  exists fuel0, forall fuel, (fuel0 <= fuel)%nat -> exists key p',
    Apply (sample_env sample_in_progress) fuel (SuspendConnectRouting "bg" (NewBaseRouting "" TARGET)) (Some sample_green) ∅
      sample_plugin = Finished (failed key, p').
Proof.
  refine (proj1 (suspended_calls_end (sample_env sample_in_progress) _ "bg" (NewBaseRouting "" TARGET) (Some sample_green) ∅
            sample_plugin)).
  intros d. exists (Z.to_nat d). intros t Ht. change (clock_at (sample_env sample_in_progress) t) with (Second * Z.of_nat t).
  unfold Second. lia.
Defined.
